(* ===== verification/_CoqProject ===== *)
-Q . S2P
Prelude.v
Posix.v
CcciIntf.v
MemFs.v
Wire.v
FsdTypes.v
FsdStrings.v
FsdPath.v
FsdDemo.v
FsdHandle.v
FsdTable.v
FsdDir.v
FsdFind.v
FsdPacket.v
OtpStorage.v
FsdPlatform.v
FsdCmpt.v
FsdMain.v
FsdInv.v
FsdConfine.v
FsdWire.v
FsdWalk.v
OtpDisk.v
FsdOps.v
RpcTypes.v
RpcPacket.v
RpcMain.v
RpcDemo.v
RpcWake.v
RpcAnswer.v
RpcQuery.v
RingSeg.v
CcbTypes.v
CcbRing.v
CcbSetup.v
CcbDemo.v
CcbQueue.v
CcbDownlink.v
CcbLayout.v
CcciImage.v
ImageWalk.v
KSetting.v
MdTypes.v
MdEnv.v
MdRat.v
MdPlatform.v
MdRelate.v
MdV1.v
MdFsm.v
MdDemo.v
MdTyped.v
MdQuiet.v
MdSpec.v
MdHandshake.v
MdV1Spec.v
FileStore.v
NvTypes.v
NvFiles.v
NvArchive.v
NvSum.v
NvMake.v
NvSpec.v
NvBackup.v
NvPaths.v
NvRestore.v
NvIntegrity.v
NvJournal.v
NvVersion.v
NvLog.v
NvRegion.v
NvCopy.v
NvFetch.v
NvPrepare.v
NvRoundTrip.v
NvPartition.v
NvCheck.v
NvOneFile.v
NvRecord.v
NvKeep.v
NvDemo.v
