(* ===== verification/Prelude.v ===== *)
(** * The modem daemons of a MediaTek vendor tree, verified

    ** The program

    The repository holds the open-source part of the vendor partition of a
    MediaTek phone.  This development models the programs that run a cellular
    modem from the application processor (AP), which are the part of the tree
    with state, protocols and invariants of its own:

    - [src/external/ccci_fsd], the file-system daemon: the modem has no disk, and
      sends its file operations as packets to this daemon, which performs them
      and answers;
    - [src/external/ccci_rpcd_com], the RPC daemon: the same packets, for the queries
      of the modem that are not about files, handled under a wake lock;
    - [src/external/ccci_mdinit_src], the start-up daemon: boots a modem, restarts
      it on request, starts and stops the services above it, publishes its state
      in a system property, and restarts in step with the daemon of another
      modem;
    - [src/hardware/ccci/ccci_lib], the library between them and the driver:
      shared circular buffers (CCB), modem images in the flash partitions,
      settings of the kernel;
    - [src/external/libstorage_otp], the one-time-programmable region
      of the modem, which the file-system daemon serves;
    - [src/external/libnvram/libfile_op], the archive of the NVRAM: the directories
      of calibration and identity data of the phone and its modems, packed into
      two files, checked and unpacked again, and the copy of the two files on the
      backup partition, between bad blocks of the flash;
    - of [src/external/libnvram_ext/libnvram.cpp], what that copy stands on: the
      partitions and their geometry, the two logs at the end of a partition, the
      file of record versions that every archive holds; and the records themselves:
      their check bytes, opening, closing, resetting and converting one, and taking one
      out of the backup.

    They interact with the kernel, the property service and the modem by system
    calls, and with each other through properties (the states of modems, the
    control property of init) and the library.  The file-system daemon calls
    libstorage_otp; the start-up daemon calls ccci_lib; two start-up daemons meet
    in a rendezvous over two properties.  The directories of the NVRAM are those the
    file-system daemon serves to the modem.  A copy to the backup partition writes
    the version file, makes the archive, writes it to the device and logs the copy;
    libnvram.cpp and libfile_op.c call each other for it.

    ** How a program is modelled

    Posix.v: the C library and the kernel are not in the repository.  They are
    the class [OS]: a state and a transition function [os_do] from a system call to
    its answer and the next state.  Nothing is assumed about it in general, so
    a theorem without further hypothesis holds whatever the kernel answers.  What a
    theorem needs is a class of its own with documented behaviour, always with an
    instance ([BlockDevice] in ImageWalk.v, [BlockDev] in OtpDisk.v, [TreeOS] in
    FsdWalk.v, [OtpDriver] in FsdInv.v, [FileStore] in FileStore.v).  MemFs.v is a concrete [OS] with files,
    directories, a queue of modem packets, properties and a clock, on which
    the witnesses run.

    A C function is a state transformer of type [M X A]: [X] the globals of the
    program, a record with a field per static variable; the world also has the trace
    of the calls made, the state of the environment and the heap of strings.  It
    ends with a value, or with a [halt]: a crash, a failed assertion, an
    access outside an object, [exit], or used-up fuel.  Every
    access to a buffer is bounds-checked, so that a theorem about every outcome
    includes memory safety, and a finding about a bad access is a theorem that ends
    in [OutOfBounds].  Integers are [Z], wrapped where C wraps ([u8], [u16], [u32],
    [u64], [i32] below); the daemons are 32-bit programs.

    Fuel: the loops that wait for the environment (a device that answers
    again and again, a directory of unknown length, a daemon's main loop) take a
    [nat].  Where the code terminates on its own the recursion is structural,
    or the bound is in the code.  Where it depends on the environment, either the
    theorem holds for every fuel and every outcome ([wp] with a postcondition
    for halts, as the refinements of FsdInv.v, MdSpec.v, MdV1Spec.v and RpcWake.v
    do), or a theorem gives fuel that suffices under the hypothesis that makes
    the code end: [count_counts] (finite directories), [find_image_walk] (headers
    that move forward), [restore_copies], [query_answered], [rendezvous_live],
    [backup_archives] and [region_roundtrip] (more fuel than names in a directory;
    the loops over blocks and pages are bounded by the size of the device).

    ** The files

    Prelude.v: integers, little-endian words, byte arrays, tactics, hints.
    Posix.v: environment, monad, program logic ([wp], [preserves]).
    CcciIntf.v: ccci_intf.h, the device nodes.  MemFs.v: the in-memory
    environment.  Wire.v: the packet format both packet daemons use, against the class
    [SharedBuf].

    ccci_fsd.  FsdTypes.v (ccci_fsd.h and the globals), FsdStrings.v
    ([FS_ConvWcsToCs], [PatMatch]), FsdPath.v (attributes, drives, paths),
    FsdHandle.v (the handle table), FsdDir.v (operations on paths), FsdFind.v
    (searches), FsdPacket.v (arguments and answers), FsdCmpt.v (compact
    operations), FsdPlatform.v (fsd_platform.c), FsdMain.v ([main] and the
    dispatch).  Proofs: FsdTable.v and FsdInv.v (the handle table is
    a finite map from handles to open files; each operation changes it as
    [request_step] says, [request_refines_table], and it is well formed through every
    round of the main loop, [daemon_refines_table]); FsdConfine.v (which paths a request can reach:
    [open_confined], [request_confined], [recursive_delete_scope]); FsdWire.v
    (requests decode, answers encode, fragments are reassembled:
    [reassembly_inverts], [WriteToMD_fragmented], [WriteToMD_single]; arguments are
    found where they are, [GetPackInfo_args]); FsdWalk.v (recursive search,
    [count_counts]); FsdOps.v
    (searches, the compact read, leaks and double frees, elapsed time).

    libstorage_otp.  OtpStorage.v (storage_otp.c); OtpDisk.v: a range of a
    user's region is that range of the disk, read and written
    ([otp_write_disk]).

    ccci_rpcd.  RpcTypes.v (globals and power.c), RpcPacket.v, RpcMain.v (the
    daemon).  Proofs: RpcWake.v (the wake lock is held around every request and
    not while waiting, from the first round on, which opens its files, and what happens when
    they do not open, [wake_discipline]), RpcAnswer.v (what is sent,
    [answers_unfragmented]), RpcQuery.v (a property query from
    packet to packet, [query_answered]; where requests break the daemon).

    ccci_lib.  RingSeg.v (arithmetic of rings), CcbTypes.v, CcbRing.v,
    CcbSetup.v (ccci_lib.c: buffers), CcciImage.v (images), KSetting.v
    (settings).  Proofs: CcbQueue.v (the uplink ring is a bounded queue with
    commits in any order, [uplink_fifo]), CcbDownlink.v (the downlink ring,
    [downlink_order]), CcbLayout.v ([register_layout]), ImageWalk.v
    ([find_image_walk], [restore_copies], a header that keeps the search from ending), KSetting.v
    ([settings_roundtrip], [str2uint_value]).

    ccci_mdinit.  MdTypes.v (the globals of all files), MdEnv.v, MdRat.v,
    MdPlatform.v (the boot data), MdRelate.v (the services
    above), MdFsm.v (md_init_fsm.c and main.c),
    MdV1.v (platform/md_init.c, for earlier drivers).  Proofs: MdRelate.v itself (the
    bound of a wait), MdTyped.v (types of the globals, [mdinit_typed]), MdQuiet.v
    (what the services leave alone), MdSpec.v (the published states are those the
    specification allows, [message_refines]; what "ready" is evidence of), MdV1Spec.v
    (the same for the earlier machine, [v1_refines]),
    MdHandshake.v (the rendezvous: an automaton that the code follows, [rendezvous_follows],
    safe, live under fairness, and stuck with a stale state).

    libnvram.  NvTypes.v (kinds of files, headers, titles, globals), NvFiles.v
    (checksums, one file into the archive, the files of a kind out of it),
    NvArchive.v (all of them, and what the meta tool calls).  Proofs, against the
    interface [FileStore] of FileStore.v (a file system with room to spare):
    NvSum.v (the checksum as a function of the contents), NvMake.v (what one
    file appends), NvSpec.v (what an archive is, [is_archive]), NvBackup.v (a
    backup writes one, [backup_archives]), NvPaths.v (creating a file with its
    directories), NvRestore.v (the files of a kind, of all kinds), NvIntegrity.v
    (the checksum notices every changed byte), NvRoundTrip.v ([restore_archive],
    [corrupt_archive_refused], [checksums_agree], and [nvram_roundtrip]: what was
    backed up comes back).

    libnvram, the backup partition.  NvJournal.v (libnvram.cpp: the geometry of a
    device, the history log and the misc log; [NVM_Init]: which
    partition is which), NvVersion.v (the version file), NvRegion.v (libfile_op.c:
    bitmaps of bad blocks, the archive to the device and back, the check of what was
    written, the question whether it is in sync).  Proofs: NvLog.v (reads, writes
    and block tests of the device; an entry of the history log stays in
    the blocks of the log, [log_confined]; one of the misc log does not,
    [misc_resets_history]), NvVersion.v itself ([version_file_written]), NvCopy.v
    (what a copy leaves on the device), NvFetch.v (what is read back), NvPrepare.v
    (version file and archive made first), NvPartition.v ([region_roundtrip],
    [region_confined], [sync_answers]).

    libnvram, the records.  NvCheck.v: the check bytes and the encryption of a
    record (libnvram_sec.c), and that a changed byte is noticed.  NvOneFile.v
    ([NVM_RestoreFromBinRegion_OneFile]: one record out of the backup), NvRecord.v
    (libnvram.cpp: the versions of records, defaults, conversion, [NVM_GetFileDesc] and
    [NVM_CloseFileDesc]).  Proofs: NvKeep.v (the version file as a list of records that
    an update replaces and a deletion removes, and deletions in a row that hit the wrong
    ones; a default written).

    FsdDemo.v, CcbDemo.v, MdDemo.v, RpcDemo.v and NvDemo.v are the concrete
    states of the witnesses.

    ** Interfaces

    [OS] (Posix.v), [SharedBuf] (Wire.v: a daemon whose globals have a shared
    buffer; the daemons are its instances), [OtpDriver] (FsdInv.v), [BlockDev] (OtpDisk.v),
    [BlockDevice] (ImageWalk.v), [TreeOS] (FsdWalk.v), [FileStore] (FileStore.v:
    files, directories, descriptors and streams as maps, and a law for each system
    call), [NvPlatform] (NvTypes.v: what the chip and the tables of the project
    say), [Geometry] and [NvDevice] (NvJournal.v: the layout of a flash device; the
    partition and its globals), [SparingLog] (NvLog.v: a log that leaves the
    contents alone, against which the backup is proved, and which the history log
    implements), [NvLib] (NvRegion.v: the switches of a build and its list of bad
    blocks), [NvTables] (NvVersion.v: the tables of the project), [NvRecords] (NvCheck.v: which
    records are protected, and the cipher), [Inert] (MdQuiet.v: an
    invariant of the globals the services keep), and the operations of a storage
    driver, closures in a record as in the code (OtpStorage.v).

    ** Bounds

    The sizes of buffers, tables and fragments are the constants of the code.  The
    witnesses use small buffers where the size is a parameter (slots of 512 bytes
    in FsdDemo.v, pages of 64 bytes in CcbDemo.v).  The theorems on the NVRAM
    archive are for header offset 0, which every chip table of the tree has; the
    definitions have the other case too.  They bound the contents by what an int
    counts and the files of a directory by a short, as the code does silently.  Those on
    the backup partition are for eMMC and UFS, which have no bad blocks, with a map of one or
    two blocks and contents that end before the bitmap ([region_layout], [fits] in
    NvCopy.v); the definitions have the raw flash too, and where a map of two blocks meets
    bad blocks there the code goes wrong in ways the findings name.

    ** Not modelled, and why

    - Concurrency inside a daemon: the listening thread of ccci_fsd is a program of
      its own, and the mutexes of ccci_lib, time_clib_srv.c and libfile_op.c have
      one user here.  A CCB ring is shared with the modem, whose steps interleave with
      whole operations, not with the accesses inside one.
    - The payload of CCB pages, which the callers of the library write.
    - Logging, and the text of messages, except where a log reads memory.
    - The storage drivers ([emmc.cpp], [ufs.cpp]) and the support library of
      ccci_rpcd, which the programs load: parameters or calls of the environment.
    - The tables of records of a project, their defaults and conversion functions, which
      are not in the tree: classes ([NvTables], [NvRecords]).  The conversion of all records
      after a restore is an argument of NvArchive.v; NvRecord.v has its definition,
      [NVM_DataVerConvertAll].
    - In libnvram.cpp, the backup flags of a client ([NVM_AddBackupNum],
      [NVM_GetBackupFileNum], [NVM_CheckBackFlag]), the lookup of a record by name and the two
      variants of the log entry with a file name or a time.
    - In libfile_op.c, [FileOp_BackupToBinRegion_All_Ex] and [_Exx], which are copies of
      [FileOp_BackupToBinRegion_All] with the caller or the time in the log;
      [FileOp_BackupToBinRegionForDM] and its restore, the same for another set of
      directories; the clean boot flag and [FileOp_RecoveryData]; and what
      [MTK_NVRAM_AUTO_BACKUP] guards, which the build files do not set.
    - The rest of the tree.  The thermal daemon and its libraries, wlan_assistant,
      netdagent and the sensor calibration tools copy values between sysfs files,
      sockets and ioctls and keep next to no state.  Loaders of OpenCL dispatch tables,
      malloc hooks, FFT tables, multimedia profiling and the connectivity, power and
      audio libraries are vendored code, tables, or thin wrappers of drivers. *)
From stdpp Require Export prelude gmap strings list pretty.
From Stdlib Require Export ZArith Lia.
#[global] Open Scope Z_scope.

(** ** Machine integers

    A C integer is a [Z]; every operation that can leave its width goes through
    one of these wrap-around functions. *)

Definition u8 (x : Z) : Z := x mod 2 ^ 8.
Definition u16 (x : Z) : Z := x mod 2 ^ 16.
Definition u32 (x : Z) : Z := x mod 2 ^ 32.
Definition u64 (x : Z) : Z := x mod 2 ^ 64.
Definition i32 (x : Z) : Z := (x + 2 ^ 31) mod 2 ^ 32 - 2 ^ 31.

(** The bit tests of the C code: [x & m] used as a condition. *)
Definition has_bits (x m : Z) : bool := negb (Z.land x m =? 0).

(** ** Little-endian encodings of words *)

Fixpoint le_bytes (n : nat) (x : Z) : list Z :=
  match n with
  | O => []
  | S n' => x mod 256 :: le_bytes n' (x / 256)
  end.

Fixpoint le_value (bs : list Z) : Z :=
  match bs with
  | [] => 0
  | b :: bs' => b + 256 * le_value bs'
  end.

Definition le32 (x : Z) : list Z := le_bytes 4 x.
Definition de32 (bs : list Z) : Z := le_value bs.

(** A byte of memory. *)
Definition is_byte (b : Z) : Prop := 0 <= b < 256.

(** ** Byte arrays

    Objects of the C heap and stack are lists of bytes.  Reads and writes are
    bounds-checked: [None] is an access outside the object. *)

Definition zlen {A} (l : list A) : Z := Z.of_nat (length l).

Definition mread (m : list Z) (off len : Z) : option (list Z) :=
  if (0 <=? off) && (0 <=? len) && (off + len <=? zlen m)
  then Some (take (Z.to_nat len) (drop (Z.to_nat off) m))
  else None.

Definition mwrite (m : list Z) (off : Z) (bs : list Z) : option (list Z) :=
  if (0 <=? off) && (off + zlen bs <=? zlen m)
  then Some (take (Z.to_nat off) m ++ bs ++ drop (Z.to_nat off + length bs) m)
  else None.

Definition mread32 (m : list Z) (off : Z) : option Z := de32 <$> mread m off 4.

(** The memory from an address to the end of its object. *)
Definition mfrom (m : list Z) (off : Z) : option (list Z) :=
  if (0 <=? off) && (off <=? zlen m) then Some (drop (Z.to_nat off) m) else None.

(** ** C strings

    A C string is the list of its bytes without the terminator. *)

Definition cstr_of_ascii (a : Ascii.ascii) : Z := Z.of_N (Ascii.N_of_ascii a).

Definition lit (s : string) : list Z := cstr_of_ascii <$> String.list_ascii_of_string s.

(** The string stored in a buffer: the bytes up to the first NUL. *)
Fixpoint cstring (buf : list Z) : list Z :=
  match buf with
  | [] => []
  | b :: buf' => if b =? 0 then [] else b :: cstring buf'
  end.

Definition has_nul (buf : list Z) : bool := existsb (fun b => b =? 0) buf.

(** [strncmp (s, p, strlen (p)) == 0] *)
Definition starts_with (p s : list Z) : bool := bool_decide (take (length p) s = p).

(** [strcmp (s, t) == 0] *)
Definition streq (s t : list Z) : bool := bool_decide (s = t).

(** [atoi] on a string whose digits fit an [int]. *)
Fixpoint atoi_digits (acc : Z) (s : list Z) : Z :=
  match s with
  | c :: s' => if (48 <=? c) && (c <=? 57) then atoi_digits (acc * 10 + (c - 48)) s' else acc
  | [] => acc
  end.

Fixpoint atoi (s : list Z) : Z :=
  match s with
  | [] => 0
  | c :: s' =>
      if (c =? 32) || ((9 <=? c) && (c <=? 13)) then atoi s'
      else if c =? 45 then - atoi_digits 0 s'
      else if c =? 43 then atoi_digits 0 s'
      else atoi_digits 0 s
  end.

(** [%d] of a number. *)
Definition itoa (x : Z) : list Z := lit (pretty x).

Definition chr_slash : Z := 47.
Definition chr_backslash : Z := 92.
Definition chr_dot : Z := 46.

(** Two consecutive dots: what the path filter of the daemon looks for. *)
Fixpoint has_dotdot (s : list Z) : bool :=
  match s with
  | a :: ((b :: _) as s') => ((a =? chr_dot) && (b =? chr_dot)) || has_dotdot s'
  | _ => false
  end.

(** ** Automation *)

Create HintDb cfs discriminated.
Create Rewrite HintDb cfs_len.

(** Booleans of the model to propositions. *)
Ltac zbool :=
  repeat match goal with
  | H : _ && _ = true |- _ => apply andb_true_iff in H as [? ?]
  | H : _ || _ = false |- _ => apply orb_false_iff in H as [? ?]
  | H : negb _ = true |- _ => apply negb_true_iff in H
  | H : negb _ = false |- _ => apply negb_false_iff in H
  | H : (_ <? _) = true |- _ => apply Z.ltb_lt in H
  | H : (_ <? _) = false |- _ => apply Z.ltb_ge in H
  | H : (_ <=? _) = true |- _ => apply Z.leb_le in H
  | H : (_ <=? _) = false |- _ => apply Z.leb_gt in H
  | H : (_ =? _) = true |- _ => apply Z.eqb_eq in H
  | H : (_ =? _) = false |- _ => apply Z.eqb_neq in H
  | H : bool_decide _ = true |- _ => apply bool_decide_eq_true in H
  | H : bool_decide _ = false |- _ => apply bool_decide_eq_false in H
  end.

Ltac zlia := unfold zlen, u8, u16, u32, u64, i32 in *; zbool; lia.

(** ** Integers *)

Lemma u32_small x : 0 <= x < 2 ^ 32 -> u32 x = x.
Proof. intros; unfold u32; by apply Z.mod_small. Qed.

Lemma u32_range x : 0 <= u32 x < 2 ^ 32.
Proof. unfold u32. apply Z.mod_pos_bound. lia. Qed.

Lemma u32_u32 x : u32 (u32 x) = u32 x.
Proof. unfold u32. by rewrite Z.mod_mod. Qed.

Lemma i32_small x : - 2 ^ 31 <= x < 2 ^ 31 -> i32 x = x.
Proof. intros; unfold i32. rewrite Z.mod_small; lia. Qed.

Lemma i32_range x : - 2 ^ 31 <= i32 x < 2 ^ 31.
Proof. unfold i32. pose proof (Z.mod_pos_bound (x + 2 ^ 31) (2 ^ 32)). lia. Qed.

Lemma u32_i32 x : u32 (i32 x) = u32 x.
Proof.
  unfold u32, i32.
  rewrite Zminus_mod_idemp_l. f_equal. lia.
Qed.

Lemma i32_u32 x : i32 (u32 x) = i32 x.
Proof. unfold u32, i32. by rewrite Zplus_mod_idemp_l. Qed.

#[export] Hint Resolve u32_range i32_range : cfs.

(** ** Word encodings *)

Lemma length_le_bytes n x : length (le_bytes n x) = n.
Proof. revert x; induction n as [|n IH]; intros x; simpl; [done|]. by rewrite IH. Qed.

Lemma le_bytes_is_byte n x : Forall is_byte (le_bytes n x).
Proof.
  revert x; induction n as [|n IH]; intros x; simpl; constructor; [|done].
  unfold is_byte. pose proof (Z.mod_pos_bound x 256); lia.
Qed.

Lemma le_value_bytes n x : le_value (le_bytes n x) = x mod 2 ^ (8 * Z.of_nat n).
Proof.
  revert x; induction n as [|n IH]; intros x; simpl le_bytes; simpl le_value.
  - rewrite Z.mod_1_r. done.
  - rewrite IH. replace (8 * Z.of_nat (S n)) with (8 + 8 * Z.of_nat n) by lia.
    rewrite Z.pow_add_r by lia. change (2 ^ 8) with 256.
    rewrite Z.rem_mul_r by lia. lia.
Qed.

Lemma le_bytes_value bs : Forall is_byte bs -> le_bytes (length bs) (le_value bs) = bs.
Proof.
  induction 1 as [|b bs Hb _ IH]; simpl; [done|].
  unfold is_byte in Hb. f_equal.
  - rewrite Z.mul_comm, Z.mod_add by lia. by apply Z.mod_small.
  - rewrite Z.mul_comm, Z.div_add by lia. by rewrite Z.div_small, Z.add_0_l.
Qed.

Lemma de32_le32 x : de32 (le32 x) = u32 x.
Proof. unfold de32, le32. by rewrite le_value_bytes. Qed.

Lemma length_le32 x : length (le32 x) = 4%nat.
Proof. apply length_le_bytes. Qed.

(** ** Byte arrays *)

Lemma zlen_nonneg {A} (l : list A) : 0 <= zlen l.
Proof. unfold zlen; lia. Qed.

Lemma zlen_app {A} (l k : list A) : zlen (l ++ k) = zlen l + zlen k.
Proof. unfold zlen. rewrite length_app. lia. Qed.

Lemma mread_Some m off len bs :
  mread m off len = Some bs <->
  0 <= off /\ 0 <= len /\ off + len <= zlen m /\
  bs = take (Z.to_nat len) (drop (Z.to_nat off) m).
Proof.
  unfold mread. split.
  - case_match; [|done]. intros [= <-]. zbool. auto.
  - intros (? & ? & ? & ->). case_match; [done|]. zbool.
    apply andb_false_iff in H2 as [H2|H2]; [apply andb_false_iff in H2 as [H2|H2]|]; zlia.
Qed.

Lemma mwrite_Some m off bs m' :
  mwrite m off bs = Some m' <->
  0 <= off /\ off + zlen bs <= zlen m /\
  m' = take (Z.to_nat off) m ++ bs ++ drop (Z.to_nat off + length bs) m.
Proof.
  unfold mwrite. split.
  - case_match; [|done]. intros [= <-]. zbool. auto.
  - intros (? & ? & ->). case_match; [done|]. zbool.
    apply andb_false_iff in H1 as [H1|H1]; zlia.
Qed.

Lemma length_mread m off len bs : mread m off len = Some bs -> zlen bs = len.
Proof.
  rewrite mread_Some. intros (? & ? & ? & ->). unfold zlen in *.
  rewrite length_take, length_drop. lia.
Qed.

Lemma length_mwrite m off bs m' : mwrite m off bs = Some m' -> length m' = length m.
Proof.
  rewrite mwrite_Some. intros (? & ? & ->). unfold zlen in *.
  rewrite !length_app, length_take, length_drop. lia.
Qed.

(** Splitting an array around an access, and the converse. *)

Lemma mread_split m off len bs :
  mread m off len = Some bs ->
  exists a c, m = a ++ bs ++ c /\ zlen a = off /\ zlen bs = len.
Proof.
  intros H. pose proof (length_mread _ _ _ _ H) as Hl.
  apply mread_Some in H as (? & ? & ? & ->).
  exists (take (Z.to_nat off) m), (drop (Z.to_nat len) (drop (Z.to_nat off) m)).
  rewrite !take_drop. split_and!; [done| |done].
  unfold zlen in *. rewrite length_take. lia.
Qed.

Lemma mread_app a bs c : mread (a ++ bs ++ c) (zlen a) (zlen bs) = Some bs.
Proof.
  apply mread_Some. rewrite !zlen_app.
  pose proof (zlen_nonneg a); pose proof (zlen_nonneg bs); pose proof (zlen_nonneg c).
  split_and!; [lia|lia|lia|]. unfold zlen. rewrite !Nat2Z.id.
  by rewrite drop_app_length, take_app_length.
Qed.

Lemma mwrite_app a old bs c :
  length old = length bs -> mwrite (a ++ old ++ c) (zlen a) bs = Some (a ++ bs ++ c).
Proof.
  intros Hl. apply mwrite_Some. rewrite !zlen_app.
  pose proof (zlen_nonneg a); pose proof (zlen_nonneg bs); pose proof (zlen_nonneg c).
  assert (zlen old = zlen bs) by (unfold zlen; lia).
  split_and!; [lia|lia|]. unfold zlen. rewrite !Nat2Z.id, take_app_length.
  f_equal. f_equal.
  rewrite <- drop_drop, drop_app_length, <- Hl, drop_app_length. done.
Qed.

Lemma mwrite_split m off bs m' :
  mwrite m off bs = Some m' ->
  exists a old c, m = a ++ old ++ c /\ m' = a ++ bs ++ c /\ zlen a = off /\ length old = length bs.
Proof.
  intros H. apply mwrite_Some in H as (? & ? & ->).
  exists (take (Z.to_nat off) m), (take (length bs) (drop (Z.to_nat off) m)),
    (drop (Z.to_nat off + length bs) m).
  unfold zlen in *. rewrite <- drop_drop, take_drop, take_drop.
  split_and!; [done|done| |]; rewrite length_take; [lia|]. rewrite length_drop. lia.
Qed.

Lemma mread_mwrite_same m off bs m' :
  mwrite m off bs = Some m' -> mread m' off (zlen bs) = Some bs.
Proof.
  intros H. apply mwrite_split in H as (a & old & c & -> & -> & <- & ?). apply mread_app.
Qed.

Lemma mread_lookup m off len bs :
  mread m off len = Some bs ->
  forall k, (k < Z.to_nat len)%nat -> bs !! k = m !! (Z.to_nat off + k)%nat.
Proof.
  rewrite mread_Some. intros (? & ? & ? & ->) k Hk.
  by rewrite lookup_take_lt, lookup_drop.
Qed.

(** A read that does not overlap a write sees the old bytes. *)
Lemma mread_mwrite_disjoint m off bs m' off2 len :
  mwrite m off bs = Some m' ->
  off2 + len <= off \/ off + zlen bs <= off2 ->
  mread m' off2 len = mread m off2 len.
Proof.
  intros Hw Hd. pose proof (length_mwrite _ _ _ _ Hw) as Hl.
  unfold mread. replace (zlen m') with (zlen m) by (unfold zlen; lia).
  case_match eqn:Hc; [|done]. f_equal. zbool.
  apply mwrite_Some in Hw as (? & ? & ->). unfold zlen in *.
  apply list_eq. intros k.
  destruct (decide (k < Z.to_nat len)%nat) as [Hk|Hk];
    [|rewrite !lookup_take_ge by lia; done].
  rewrite !lookup_take_lt, !lookup_drop by lia.
  destruct Hd as [Hd|Hd].
  - rewrite lookup_app_l by (rewrite length_take; lia). by rewrite lookup_take_lt by lia.
  - rewrite lookup_app_r by (rewrite length_take; lia).
    rewrite lookup_app_r by (rewrite length_take; lia).
    rewrite lookup_drop, length_take. f_equal. lia.
Qed.

Lemma zlen_le32 x : zlen (le32 x) = 4.
Proof. unfold zlen. by rewrite length_le32. Qed.

Lemma mread32_put m off x m' : mwrite m off (le32 x) = Some m' -> mread32 m' off = Some (u32 x).
Proof.
  intros Hw. apply mread_mwrite_same in Hw. rewrite zlen_le32 in Hw.
  unfold mread32. rewrite Hw. cbn [fmap option_fmap option_map]. by rewrite de32_le32.
Qed.

(** Adjacent accesses are one access. *)
Lemma mwrite_compose m off a m1 b m2 :
  mwrite m off a = Some m1 -> mwrite m1 (off + zlen a) b = Some m2 -> mwrite m off (a ++ b) = Some m2.
Proof.
  intros H1 H2. apply mwrite_split in H1 as (p & old & c & -> & -> & <- & Hl).
  apply mwrite_split in H2 as (p2 & old2 & c2 & Heq & -> & Hp2 & Hl2).
  rewrite app_assoc in Heq. apply app_inj_1 in Heq as [<- ->].
  - replace (p ++ old ++ old2 ++ c2) with (p ++ (old ++ old2) ++ c2) by (by rewrite <- app_assoc).
    rewrite mwrite_app by (rewrite !length_app; lia). by rewrite <- !app_assoc.
  - rewrite length_app. unfold zlen in *. lia.
Qed.

Lemma mread_compose m off a b la lb :
  mread m off la = Some a -> mread m (off + la) lb = Some b -> mread m off (la + lb) = Some (a ++ b).
Proof.
  intros H1 H2. apply mread_Some in H1 as (? & ? & ? & ->). apply mread_Some in H2 as (? & ? & ? & ->).
  apply mread_Some. split_and!; [lia|lia|lia|].
  rewrite !Z2Nat.inj_add, <- drop_drop by lia. by rewrite take_take_drop.
Qed.

Lemma mread_app_inv m off a b :
  mread m off (zlen (a ++ b)) = Some (a ++ b) ->
  mread m off (zlen a) = Some a /\ mread m (off + zlen a) (zlen b) = Some b.
Proof.
  intros H. apply mread_split in H as (p & c & -> & <- & _). split.
  - rewrite <- app_assoc. apply mread_app.
  - rewrite <- zlen_app. replace (p ++ (a ++ b) ++ c) with ((p ++ a) ++ b ++ c) by (by rewrite <- !app_assoc).
    apply mread_app.
Qed.

(** A sub-range of a read. *)
Lemma mread_sub m off len bs o l :
  mread m off len = Some bs -> 0 <= o -> 0 <= l -> o + l <= len ->
  mread m (off + o) l = Some (take (Z.to_nat l) (drop (Z.to_nat o) bs)).
Proof.
  intros H Ho Hl Hle. apply mread_Some in H as (? & ? & ? & ->).
  apply mread_Some. split_and!; [lia|lia|lia|].
  rewrite skipn_firstn_comm, take_take, drop_drop. f_equal; [lia|]. f_equal. lia.
Qed.

Lemma mread_in m off len bs o l :
  mread m off len = Some bs -> 0 <= o -> 0 <= l -> o + l <= len -> mread bs o l = mread m (off + o) l.
Proof.
  intros H Ho Hl Hle. rewrite (mread_sub _ _ _ _ _ _ H Ho Hl Hle).
  apply mread_Some. by rewrite (length_mread _ _ _ _ H).
Qed.

(** Writing back what was read. *)
Lemma mwrite_restore m off len bak bs m' :
  mread m off len = Some bak -> mwrite m off bs = Some m' -> zlen bs = len ->
  mwrite m' off bak = Some m.
Proof.
  intros Hr Hw Hlen. apply mread_split in Hr as (a & c & -> & <- & Hb).
  rewrite mwrite_app in Hw by (unfold zlen in *; lia). injection Hw as <-.
  by rewrite mwrite_app by (unfold zlen in *; lia).
Qed.

(** Read, modify, write back. *)
Lemma mwrite_within m p len b o src b' m' :
  mread m p len = Some b -> mwrite b o src = Some b' -> mwrite m p b' = Some m' ->
  mwrite m (p + o) src = Some m'.
Proof.
  intros Hr Hb Hm. apply mread_split in Hr as (a & c & -> & <- & _).
  apply mwrite_split in Hb as (x & old & y & -> & -> & <- & Hl).
  rewrite mwrite_app in Hm by (rewrite !length_app; lia). injection Hm as <-.
  rewrite <- zlen_app.
  replace (a ++ (x ++ old ++ y) ++ c) with ((a ++ x) ++ old ++ (y ++ c)) by (by rewrite <- !app_assoc).
  rewrite mwrite_app by done. by rewrite <- !app_assoc.
Qed.

Lemma mwrite_is_Some m off bs :
  0 <= off -> off + zlen bs <= zlen m -> exists m', mwrite m off bs = Some m'.
Proof. intros. eexists. by apply mwrite_Some. Qed.

Lemma mread_is_Some m off len :
  0 <= off -> 0 <= len -> off + len <= zlen m -> exists bs, mread m off len = Some bs.
Proof. intros. eexists. by apply mread_Some. Qed.

(** ** C strings *)

Lemma cstring_app_nul s t : Forall (fun b => b <> 0) s -> cstring (s ++ 0 :: t) = s.
Proof.
  induction 1 as [|b s Hb _ IH]; simpl; [done|].
  destruct (Z.eqb_spec b 0); [done|]. by rewrite IH.
Qed.

Lemma cstring_nonnul s : Forall (fun b => b <> 0) (cstring s).
Proof.
  induction s as [|b s IH]; simpl; [constructor|].
  destruct (Z.eqb_spec b 0); constructor; done.
Qed.

Lemma cstring_id s : Forall (fun b => b <> 0) s -> cstring s = s.
Proof.
  induction 1 as [|b s Hb _ IH]; simpl; [done|].
  destruct (Z.eqb_spec b 0); [done|]. by rewrite IH.
Qed.

Lemma length_cstring s : (length (cstring s) <= length s)%nat.
Proof. induction s as [|b s IH]; simpl; [done|]. case_match; simpl; lia. Qed.

Lemma starts_with_app p s : starts_with p s = true <-> exists t, s = p ++ t.
Proof.
  unfold starts_with. rewrite bool_decide_eq_true. split.
  - intros H. exists (drop (length p) s). rewrite <- H at 1. by rewrite take_drop.
  - intros [t ->]. by rewrite take_app_length.
Qed.

Lemma has_dotdot_cons a s : has_dotdot (a :: s) = false -> has_dotdot s = false.
Proof. destruct s as [|b s]; simpl; [done|]. intros H. by apply orb_false_iff in H as [_ ?]. Qed.

Lemma has_dotdot_app_l s t : has_dotdot (s ++ t) = false -> has_dotdot s = false.
Proof.
  induction s as [|a s IH]; [done|]. intros H.
  pose proof (IH (has_dotdot_cons _ _ H)) as IH'.
  destruct s as [|b s]; [done|]. simpl in *. apply orb_false_iff in H as [H _].
  apply orb_false_iff. done.
Qed.

Lemma has_dotdot_app_r s t : has_dotdot (s ++ t) = false -> has_dotdot t = false.
Proof. induction s as [|a s IH]; [done|]. intros H. apply IH. by eapply has_dotdot_cons. Qed.

#[export] Hint Rewrite @length_app @length_rev @length_take @length_drop @length_replicate
  @length_insert length_le32 length_le_bytes : cfs_len.
