(* ===== verification/Posix.v ===== *)
(** * The environment of the daemons: system calls, heap and the program monad

    The daemons are C programs over the C library and the kernel.  Those are not
    part of the repository: the interface [OS] is one transition function
    [os_do] that answers every call the programs make, about which nothing is
    assumed unless a theorem names a hypothesis.  A program is a state
    transformer over a [world]: the state of the environment, the trace of the
    calls made so far with their answers, the heap of [malloc]ed strings, and
    the globals [X] of the program.  It ends with a value or with a [halt]: a
    crash, a failed assertion, an access outside an object, [exit], or the fuel
    of a loop the environment controls.

    The second half is the program logic the component files use: [wp] (a
    weakest-precondition transformer with a postcondition for values and one
    for halts), [preserves] (an invariant of the world is kept whenever the
    program does not halt) and the lemmas and tactics that compose them. *)
From S2P Require Import Prelude.

(** ** Data exchanged with the environment *)

(** The result of a call and the value of [errno] after it. *)
Record ires := IRes { rv : Z; eno : Z }.

(** [read]: the bytes delivered, or the errno of the failure. *)
Inductive rres :=
| RData (bs : list Z)
| RErr (e : Z).

Definition rres_rv (r : rres) : Z := match r with RData bs => zlen bs | RErr _ => -1 end.
Definition rres_data (r : rres) : list Z := match r with RData bs => bs | RErr _ => [] end.
Definition rres_eno (r : rres) : Z := match r with RData _ => 0 | RErr e => e end.

Record stat_t := Stat { st_mode : Z; st_size : Z; st_atime : Z; st_mtime : Z; st_ctime : Z }.
Record statfs_t := Statfs { f_bsize : Z; f_blocks : Z }.
Record timespec := Timespec { tv_sec : Z; tv_nsec : Z }.
Record tm := Tm { tm_sec : Z; tm_min : Z; tm_hour : Z; tm_mday : Z; tm_mon : Z; tm_year : Z }.

(** The C library's constants, as on 32-bit ARM Linux. *)
Definition O_RDONLY : Z := 0.
Definition O_WRONLY : Z := 1.
Definition O_RDWR : Z := 2.
Definition O_CREAT : Z := 64.
Definition O_TRUNC : Z := 512.
Definition O_NONBLOCK : Z := 2048.
Definition O_CLOEXEC : Z := 0x80000.
Definition O_SYNC : Z := 0x101000.
Definition SEEK_SET : Z := 0.
Definition SEEK_CUR : Z := 1.
Definition SEEK_END : Z := 2.
Definition F_OK : Z := 0.
Definition S_IFREG : Z := 32768.
Definition S_IFDIR : Z := 16384.
Definition S_IRUGO : Z := 292. (* S_IRUSR | S_IRGRP | S_IROTH *)
Definition S_IWUGO : Z := 146.
Definition S_IXUGO : Z := 73.
Definition EINTR : Z := 4.
Definition ENOENT : Z := 2.
Definition EACCES : Z := 13.
Definition EEXIST : Z := 17.
Definition EMFILE : Z := 24.

(** The requests of [ioctl] the programs use, by their macro names. *)
Inductive ioctl_req :=
| CCCI_IOC_FORCE_MD_ASSERT
| CCCI_IOC_SEND_BATTERY_INFO
| CCCI_IOC_SEND_RUN_TIME_DATA
| CCCI_IOC_RESET_AP
| CCCI_IOC_GET_MD_TYPE_SAVING
| CCCI_IOC_DO_START_MD
| CCCI_IOC_DO_STOP_MD
| CCCI_IOC_GET_MD_STATE
| CCCI_IOC_GET_HOLD_RST_CNT
| CCCI_IOC_SHOW_LOCK_USER
| CCCI_IOC_RELOAD_MD_TYPE
| CCCI_IOC_GET_MD_INFO
| CCCI_IOC_GET_MD_TYPE
| CCCI_IOC_GET_MDINIT_KILLED
| CCCI_IOC_RESET_MD1_MD3_PCCIF
| CCCI_IOC_GET_MD_BOOT_MODE
| CCCI_IOC_SMEM_BASE
| CCCI_IOC_SMEM_LEN
| CCCI_IOC_SMEM_TX_NOTIFY
| CCCI_IOC_SMEM_RX_POLL
| CCCI_IOC_SMEM_GET_STATE
| CCCI_IOC_GET_CCB_CONFIG_LENGTH
| CCCI_IPC_UPDATE_TIME
| CCCI_IPC_WAIT_TIME_UPDATE
| CCCI_IPC_UPDATE_TIMEZONE
| READ_DEV_DATA.

#[export] Instance ioctl_req_eq_dec : EqDecision ioctl_req.
Proof. solve_decision. Defined.

(** The requests of the [/dev/otp] driver, and [struct otp_ctl] of
    fsd_platform.c without its buffer pointer. *)
Inductive otp_cmd := OTP_GET_LENGTH | OTP_READ | OTP_WRITE.

Record otp_ctl := OtpCtl { QLength : Z; Offset : Z; ctl_Length : Z; status : Z }.

(** [struct ccci_ccb_config] of ccci_intf.h and [struct ccb_ctrl_info] of
    ccci_lib.h, filled in by the driver. *)
Record ccci_ccb_config := CcbConfig {
  cfg_user_id : Z; core_id : Z; dl_page_size : Z; ul_page_size : Z;
  dl_buff_size : Z; ul_buff_size : Z
}.

Record ccb_ctrl_info := CtrlInfo {
  info_user_id : Z; ctrl_offset : Z; ctrl_addr : Z; ctrl_length : Z
}.

(** [struct mtd_info_user] of the kernel: the fields the programs read. *)
Record mtd_info := Mtd { info_size : Z; erasesize : Z; writesize : Z }.

(** The calls.  The index is the type of the answer.  [Sys_stat] and
    [Sys_fstat] answer with the contents of the [struct stat] buffer after the
    call (stale if the call fails); [Sys_ioctl] with the [int] behind its
    argument; [Sys_fs_get_index], [ioctl (CCCI_FS_IOCTL_GET_INDEX)], with the
    index and the request the driver has put in that slot; [Sys_rpc_get_index],
    [ioctl (CCCI_RPC_IOCTL_GET_INDEX)], with the index and the contents of the
    mapping afterwards; [Sys_mmap] with the
    contents of the mapping, or [None] for [MAP_FAILED];
    [Sys_signal_pending] with a signal delivered to the process, if any.
    [Sys_mmap_shared] answers with the address of a mapping of shared memory,
    or [None] for [MAP_FAILED]; [Sys_property_get] and
    [Sys_property_get_default], without and with a default value, with the
    result and the contents of the buffer after the call; [Sys_sysenv_get] with
    the string, or [None] for a null pointer; [Sys_nvm_get_file_desc] with the
    descriptor, the size and the number of records; [Sys_gettimeofday_tz] with
    [tz_minuteswest]; [Sys_sysinfo_uptime] with the uptime; [Sys_time] with the
    seconds since the epoch and [Sys_ctime] with their text; [Sys_mtd_getinfo],
    [ioctl (MEMGETINFO)], with the structure the driver fills in. *)
Inductive sys : Type -> Type :=
| Sys_open (path : list Z) (flags mode : Z) : sys ires
| Sys_creat (path : list Z) (mode : Z) : sys ires
| Sys_close (fd : Z) : sys ires
| Sys_read (fd n : Z) : sys rres
| Sys_write (fd : Z) (bs : list Z) : sys ires
| Sys_lseek (fd off whence : Z) : sys ires
| Sys_fsync (fd : Z) : sys ires
| Sys_stat (path : list Z) : sys (ires * stat_t)
| Sys_fstat (fd : Z) : sys (ires * stat_t)
| Sys_statfs (path : list Z) : sys (ires * statfs_t)
| Sys_mkdir (path : list Z) (mode : Z) : sys ires
| Sys_rmdir (path : list Z) : sys ires
| Sys_unlink (path : list Z) : sys ires
| Sys_rename (old new : list Z) : sys ires
| Sys_access (path : list Z) (mode : Z) : sys ires
| Sys_opendir (path : list Z) : sys ires
| Sys_readdir (d : Z) : sys (option (list Z))
| Sys_closedir (d : Z) : sys ires
| Sys_ioctl (fd : Z) (req : ioctl_req) (arg : Z) : sys (ires * Z)
| Sys_fs_get_index (fd : Z) : sys (ires * list Z)
| Sys_mmap (len fd : Z) : sys (option (list Z))
| Sys_pthread_create : sys Z
| Sys_ioctl_post_fix (fd : Z) : sys (list Z)
| Sys_ioctl_fs_send (fd length index : Z) : sys ires
| Sys_rpc_get_index (fd : Z) : sys (ires * list Z)
| Sys_rpc_send (fd length index : Z) : sys ires
| Sys_ioctl_boot_data (fd : Z) (data : list Z) : sys ires
| Sys_msync (off len : Z) : sys ires
| Sys_clock_gettime : sys timespec
| Sys_localtime (t : Z) : sys (option tm)
| Sys_umask (mask : Z) : sys Z
| Sys_usleep (us : Z) : sys ires
| Sys_malloc (size : Z) : sys bool
| Sys_property_get (name : list Z) : sys (Z * list Z)
| Sys_wake_lock : sys ires
| Sys_wake_unlock : sys ires
| Sys_signal : sys Z
| Sys_signal_pending : sys (option Z)
| Sys_uname : sys (ires * list Z)
| Sys_fopen (path : list Z) : sys bool
| Sys_fclose : sys ires
| Sys_nvm_restore (file_lid : Z) (path : list Z) : sys bool
| Sys_otp_ioctl (fd : Z) (cmd : otp_cmd) (ctl : otp_ctl) (BufferPtr : list Z)
    : sys (ires * otp_ctl * list Z)
| Sys_ioctl_ccb_config (fd : Z) (cfg : ccci_ccb_config) : sys (ires * ccci_ccb_config)
| Sys_ioctl_ccb_ctrl_info (fd : Z) (info : ccb_ctrl_info) : sys (ires * ccb_ctrl_info)
| Sys_ioctl_img_exist (fd : Z) (exist : list Z) : sys ires
| Sys_mmap_shared (len fd : Z) : sys (option Z)
| Sys_munmap (addr len : Z) : sys ires
| Sys_sleep (seconds : Z) : sys ires
| Sys_gettimeofday_tz : sys Z
| Sys_sysinfo_uptime : sys Z
| Sys_time : sys Z
| Sys_ctime (t : Z) : sys (list Z)
| Sys_property_get_default (name dflt : list Z) : sys (Z * list Z)
| Sys_property_set (name value : list Z) : sys ires
| Sys_sysenv_get (name : list Z) : sys (option (list Z))
| Sys_sysenv_set (name value : list Z) : sys Z
| Sys_nvm_get_lid (path : list Z) : sys Z
| Sys_nvm_get_file_desc (file_lid : Z) : sys (Z * Z * Z)
| Sys_nvm_close_file_desc (fd : Z) : sys bool
| Sys_aee_exception (module path : list Z) (flag : Z) (msg : list Z) : sys Z
| Sys_dlopen (path : list Z) : sys bool
| Sys_dlsym (name : list Z) : sys bool
| Sys_dlclose : sys Z
| Sys_lstat (path : list Z) : sys (ires * stat_t)
| Sys_chown (path : list Z) (uid gid : Z) : sys ires
| Sys_chmod (path : list Z) (mode : Z) : sys ires
| Sys_sync : sys unit
| Sys_mtd_getinfo (fd : Z) : sys (ires * mtd_info)
| Sys_mtd_erase (fd start length : Z) : sys ires
| Sys_pread (fd n off : Z) : sys rres
| Sys_pwrite (fd : Z) (bs : list Z) (off : Z) : sys ires.

Class OS := {
  os_st : Type;
  os_do : forall {T : Type}, sys T -> os_st -> os_st * T
}.

(** A call with its answer. *)
Record event := Ev { ev_ty : Type; ev_call : sys ev_ty; ev_ans : ev_ty }.
Arguments Ev {ev_ty} ev_call ev_ans.

(** ** Worlds and programs *)

Inductive halt :=
| NullDeref            (** a write through the null pointer *)
| AssertFail           (** [assert] *)
| OutOfBounds          (** an access outside its object *)
| DivZero              (** an integer division by zero *)
| UndefShift           (** a shift by at least the width of its operand *)
| Overflow             (** a signed addition out of the range of [int] *)
| BadFree              (** [free] of a pointer that is not a live allocation *)
| Exited (code : Z)    (** [exit] *)
| NoFuel.              (** the fuel given to a loop ran out: not a behaviour of the code *)

Inductive outcome (A : Type) :=
| Ok (a : A)
| Halt (h : halt).
Arguments Ok {A} a.
Arguments Halt {A} h.

Record world `{OS} (X : Type) := World {
  w_os : os_st;
  w_trace : list event;
  w_heap : gmap Z (list Z);   (** live allocations: address to contents *)
  w_brk : Z;                  (** the next address [malloc] returns *)
  w_glob : X
}.
Arguments World {_ _} w_os w_trace w_heap w_brk w_glob.
Arguments w_os {_ _} w. Arguments w_trace {_ _} w. Arguments w_heap {_ _} w.
Arguments w_brk {_ _} w. Arguments w_glob {_ _} w.

Definition prog `{OS} (X A : Type) : Type := world X -> world X * outcome A.

#[export] Instance prog_ret `{OS} X : MRet (prog X) := fun A a w => (w, Ok a).

#[export] Instance prog_bind `{OS} X : MBind (prog X) := fun A B k m w =>
  match m w with
  | (w', Ok a) => k a w'
  | (w', Halt h) => (w', Halt h)
  end.

Section Primitives.
Context `{OS} {X : Type}.

Definition phalt {A} (h : halt) : prog X A := fun w => (w, Halt h).

Definition pget : prog X X := fun w => (w, Ok (w_glob w)).

Definition set_glob (g : X) (w : world X) : world X :=
  World (w_os w) (w_trace w) (w_heap w) (w_brk w) g.

Definition pmod (f : X -> X) : prog X unit := fun w => (set_glob (f (w_glob w)) w, Ok tt).

Definition psys {T} (c : sys T) : prog X T := fun w =>
  let '(s, r) := os_do c (w_os w) in
  (World s (w_trace w ++ [Ev c r]) (w_heap w) (w_brk w) (w_glob w), Ok r).

(** [malloc] of a string: the environment decides whether memory is left; a
    successful allocation has a fresh, non-null address. *)
Definition palloc : prog X Z := fun w =>
  (World (w_os w) (w_trace w) (<[w_brk w := []]> (w_heap w)) (w_brk w + 1) (w_glob w),
   Ok (w_brk w)).

Definition pmalloc (size : Z) : prog X Z :=
  ok ← psys (Sys_malloc size);
  if ok : bool then palloc else mret 0.

(** [memcpy] into an allocation made by [pmalloc]. *)
Definition pstore (p : Z) (s : list Z) : prog X unit := fun w =>
  match w_heap w !! p with
  | Some _ => (World (w_os w) (w_trace w) (<[p := s]> (w_heap w)) (w_brk w) (w_glob w), Ok tt)
  | None => (w, Halt OutOfBounds)
  end.

Definition pload (p : Z) : prog X (list Z) := fun w =>
  match w_heap w !! p with
  | Some s => (w, Ok s)
  | None => (w, Halt OutOfBounds)
  end.

Definition pfree (p : Z) : prog X unit := fun w =>
  if p =? 0 then (w, Ok tt)
  else match w_heap w !! p with
       | Some _ => (World (w_os w) (w_trace w) (delete p (w_heap w)) (w_brk w) (w_glob w), Ok tt)
       | None => (w, Halt BadFree)
       end.

(** An addition of [int]s. *)
Definition padd (a b : Z) : prog X Z :=
  if (- 2 ^ 31 <=? a + b) && (a + b <? 2 ^ 31) then mret (a + b) else phalt Overflow.

(** A bounds-checked access that may fail. *)
Definition popt {A} (h : halt) (o : option A) : prog X A :=
  match o with Some a => mret a | None => phalt h end.

Definition pwhen (b : bool) (m : prog X unit) : prog X unit := if b then m else mret tt.
End Primitives.

(** ** The program logic *)

Section Logic.
Context `{OS} {X : Type}.

Definition wp {A} (m : prog X A) (Q : A -> world X -> Prop) (R : halt -> world X -> Prop)
    (w : world X) : Prop :=
  match m w with
  | (w', Ok a) => Q a w'
  | (w', Halt h) => R h w'
  end.

(** The invariant survives the program, when it does not halt. *)
Definition preserves {A} (I : world X -> Prop) (m : prog X A) : Prop :=
  forall w, I w -> wp m (fun _ => I) (fun _ _ => True) w.

(** The program leaves the globals alone. *)
Definition keeps_glob {A} (m : prog X A) : Prop := forall w, w_glob (m w).1 = w_glob w.

(** From globals in [I], every call the program makes satisfies [P], and a
    value leaves globals in [I]. *)
Definition emits {A} (I : X -> Prop) (P : event -> Prop) (m : prog X A) : Prop :=
  forall w, I (w_glob w) -> exists evs,
    w_trace (m w).1 = w_trace w ++ evs /\ Forall P evs /\
    match (m w).2 with Ok _ => I (w_glob (m w).1) | Halt _ => True end.

(** The same, with a property of the value. *)
Definition emits_val {A} (I : X -> Prop) (P : event -> Prop) (m : prog X A) (V : A -> Prop) : Prop :=
  forall w, I (w_glob w) -> exists evs,
    w_trace (m w).1 = w_trace w ++ evs /\ Forall P evs /\
    match (m w).2 with Ok a => I (w_glob (m w).1) /\ V a | Halt _ => True end.

Lemma wp_ret {A} (a : A) Q R w : Q a w -> wp (mret a) Q R w.
Proof. done. Qed.

Lemma wp_bind {A B} (m : prog X A) (k : A -> prog X B) Q R w :
  wp m (fun a w' => wp (k a) Q R w') R w -> wp (m ≫= k) Q R w.
Proof. unfold wp, mbind, prog_bind. by destruct (m w) as [w' [a|h]]. Qed.

Lemma wp_bind_eq {A B} (m : prog X A) (k : A -> prog X B) Q R w w' a :
  m w = (w', Ok a) -> wp (k a) Q R w' -> wp (m ≫= k) Q R w.
Proof. intros Hm Hk. apply wp_bind. unfold wp at 1. by rewrite Hm. Qed.

Lemma wp_mono {A} (m : prog X A) (Q Q' : A -> world X -> Prop) (R R' : halt -> world X -> Prop) w :
  wp m Q R w -> (forall a w', Q a w' -> Q' a w') -> (forall h w', R h w' -> R' h w') ->
  wp m Q' R' w.
Proof. unfold wp. destruct (m w) as [w' [a|h]]; auto. Qed.

Lemma wp_conj {A} (m : prog X A) (Q1 Q2 : A -> world X -> Prop) w :
  wp m Q1 (fun _ _ => True) w -> wp m Q2 (fun _ _ => True) w ->
  wp m (fun a w' => Q1 a w' /\ Q2 a w') (fun _ _ => True) w.
Proof. unfold wp. by destruct (m w) as [w' [a|h]]. Qed.

Lemma wp_eq {A} (m : prog X A) Q R w w' a : m w = (w', Ok a) -> wp m Q R w -> Q a w'.
Proof. unfold wp. by intros ->. Qed.

Lemma wp_intro {A} (m : prog X A) (Q : A -> world X -> Prop) R w :
  wp m Q R w -> (forall h w', ~ R h w') -> exists w' a, m w = (w', Ok a) /\ Q a w'.
Proof.
  unfold wp. destruct (m w) as [w' [a|h]]; intros HQ HR; [by eauto|].
  exfalso; by eapply HR.
Qed.

Lemma bind_ok {A B} (m : prog X A) (k : A -> prog X B) w w' a :
  m w = (w', Ok a) -> (m ≫= k) w = k a w'.
Proof. unfold mbind, prog_bind. by intros ->. Qed.

Lemma bind_halt {A B} (m : prog X A) (k : A -> prog X B) w w' h :
  m w = (w', Halt h) -> (m ≫= k) w = (w', Halt h).
Proof. unfold mbind, prog_bind. by intros ->. Qed.

Lemma bind_inv {A B} (m : prog X A) (k : A -> prog X B) w w' b :
  (m ≫= k) w = (w', Ok b) -> exists w1 a, m w = (w1, Ok a) /\ k a w1 = (w', Ok b).
Proof. unfold mbind, prog_bind. destruct (m w) as [w1 [a|h]]; [by eauto|done]. Qed.

Lemma bind_assoc {A B C} (m : prog X A) (k : A -> prog X B) (l : B -> prog X C) w :
  (a ← m; b ← k a; l b) w = ((a ← m; k a) ≫= l) w.
Proof. unfold mbind, prog_bind. by destruct (m w) as [? []]. Qed.

(** A concrete run, without its final world. *)
Lemma run_ok {A} (m : prog X A) w a : (m w).2 = Ok a -> m w = ((m w).1, Ok a).
Proof. destruct (m w) as [w' o]. simpl. by intros ->. Qed.

Lemma preserves_ret {A} (I : world X -> Prop) (a : A) : preserves I (mret a).
Proof. by intros w. Qed.

Lemma preserves_bind {A B} (I : world X -> Prop) (m : prog X A) (k : A -> prog X B) :
  preserves I m -> (forall a, preserves I (k a)) -> preserves I (m ≫= k).
Proof.
  intros Hm Hk w HI. apply wp_bind. eapply wp_mono; [by apply Hm| |done].
  intros a w' HI'. by apply Hk.
Qed.

Lemma preserves_halt {A} (I : world X -> Prop) h : preserves I (phalt (A := A) h).
Proof. by intros w. Qed.

Lemma preserves_get (I : world X -> Prop) : preserves I pget.
Proof. by intros w. Qed.

Lemma preserves_opt {A} (I : world X -> Prop) h (o : option A) : preserves I (popt h o).
Proof. destruct o; by intros w. Qed.

Lemma preserves_ok {A} (I : world X -> Prop) (m : prog X A) w w' a :
  preserves I m -> I w -> m w = (w', Ok a) -> I w'.
Proof. intros Hm HI Heq. by apply (wp_eq m (fun _ => I) (fun _ _ => True) w w' a Heq), Hm. Qed.

Lemma keeps_ret {A} (a : A) : keeps_glob (mret a : prog X A).
Proof. done. Qed.

Lemma keeps_bind {A B} (m : prog X A) (k : A -> prog X B) :
  keeps_glob m -> (forall a, keeps_glob (k a)) -> keeps_glob (m ≫= k).
Proof.
  intros Hm Hk w. unfold mbind, prog_bind. specialize (Hm w).
  destruct (m w) as [w' [a|h]]; simpl in *; [|done]. by rewrite <- Hm, <- (Hk a w').
Qed.

Lemma keeps_halt {A} h : keeps_glob (phalt (A := A) h : prog X A).
Proof. done. Qed.

Lemma keeps_get : keeps_glob (pget : prog X X).
Proof. done. Qed.

Lemma keeps_opt {A} h (o : option A) : keeps_glob (popt h o : prog X A).
Proof. by destruct o. Qed.

Lemma keeps_sys {T} (c : sys T) : keeps_glob (psys c : prog X T).
Proof. intros w. unfold psys. by destruct (os_do c (w_os w)). Qed.

Lemma keeps_malloc n : keeps_glob (pmalloc n : prog X Z).
Proof. apply keeps_bind; [apply keeps_sys|]. by intros []. Qed.

Lemma keeps_store p s : keeps_glob (pstore p s : prog X unit).
Proof. intros w. unfold pstore. by case_match. Qed.

Lemma keeps_load p : keeps_glob (pload p : prog X (list Z)).
Proof. intros w. unfold pload. by case_match. Qed.

Lemma keeps_free p : keeps_glob (pfree p : prog X unit).
Proof. intros w. unfold pfree. by repeat case_match. Qed.

(** The rules of symbolic execution up to what the calls answer. *)
Lemma wp_keeps {A} (m : prog X A) (Q : A -> world X -> Prop) w :
  keeps_glob m -> (forall a w', w_glob w' = w_glob w -> Q a w') ->
  wp m Q (fun _ _ => True) w.
Proof. intros Hm HQ. unfold wp. specialize (Hm w). destruct (m w) as [w' [a|h]]; auto. Qed.

Lemma wp_get (Q : X -> world X -> Prop) R w : Q (w_glob w) w -> wp pget Q R w.
Proof. done. Qed.

Lemma wp_mod f (Q : unit -> world X -> Prop) R w :
  Q tt (set_glob (f (w_glob w)) w) -> wp (pmod f) Q R w.
Proof. done. Qed.

(** A call: the world after it records the answer. *)
Definition answered {T} (c : sys T) (r : T) (s : os_st) (w : world X) : world X :=
  World s (w_trace w ++ [Ev c r]) (w_heap w) (w_brk w) (w_glob w).

Lemma wp_sys {T} (c : sys T) (Q : T -> world X -> Prop) R w :
  (forall s r, os_do c (w_os w) = (s, r) -> Q r (answered c r s w)) -> wp (psys c) Q R w.
Proof. intros HQ. unfold wp, psys. destruct (os_do c (w_os w)) as [s r] eqn:E. by apply HQ. Qed.

Lemma psys_eq {T} (c : sys T) w s r :
  os_do c (w_os w) = (s, r) -> psys c w = (answered c r s w, Ok r).
Proof. unfold psys. by intros ->. Qed.

(** An allocation: a null pointer, or a fresh live address. *)
Lemma wp_malloc n (Q : Z -> world X -> Prop) R w :
  (forall s ok, os_do (Sys_malloc n) (w_os w) = (s, ok) ->
    let w1 := answered (Sys_malloc n) ok s w in
    if ok then Q (w_brk w) (World s (w_trace w1) (<[w_brk w := []]> (w_heap w)) (w_brk w + 1) (w_glob w))
    else Q 0 w1) ->
  wp (pmalloc n) Q R w.
Proof.
  intros HQ. apply wp_bind, wp_sys. intros s [] E; apply (HQ s) in E; done.
Qed.

Lemma wp_store p str (Q : unit -> world X -> Prop) R w :
  is_Some (w_heap w !! p) ->
  Q tt (World (w_os w) (w_trace w) (<[p := str]> (w_heap w)) (w_brk w) (w_glob w)) ->
  wp (pstore p str) Q R w.
Proof. intros [x Hx] HQ. unfold wp, pstore. by rewrite Hx. Qed.

Lemma wp_free p (Q : unit -> world X -> Prop) w :
  (forall w', w_trace w' = w_trace w -> w_glob w' = w_glob w -> Q tt w') ->
  wp (pfree p) Q (fun _ _ => True) w.
Proof. intros HQ. unfold wp, pfree. destruct (p =? 0); [by apply HQ|].
  destruct (w_heap w !! p); [by apply HQ|done].
Qed.

Lemma padd_run a b (w : world X) : - 2 ^ 31 <= a + b < 2 ^ 31 -> padd a b w = (w, Ok (a + b)).
Proof. intros [Hl Hu]. unfold padd. by rewrite (proj2 (Z.leb_le _ _) Hl), (proj2 (Z.ltb_lt _ _) Hu). Qed.

Lemma wp_preserves {A} (I : world X -> Prop) (m : prog X A) (Q : A -> world X -> Prop) w :
  preserves I m -> I w -> (forall a w', I w' -> Q a w') -> wp m Q (fun _ _ => True) w.
Proof. intros Hm HI HQ. eapply wp_mono; [by apply Hm|auto|done]. Qed.

Section Emits.
Context (I : X -> Prop) (P : event -> Prop).

(** Programs without calls that keep the globals. *)
Lemma emits_silent {A} (m : prog X A) :
  (forall w, w_trace (m w).1 = w_trace w /\ w_glob (m w).1 = w_glob w) -> emits I P m.
Proof.
  intros Hm w HI. destruct (Hm w) as [Ht Hg]. exists []. rewrite app_nil_r.
  split_and!; [done|constructor|]. case_match; [by rewrite Hg|done].
Qed.

Lemma emits_ret {A} (a : A) : emits I P (mret a).
Proof. by apply emits_silent. Qed.

Lemma emits_bind {A B} (m : prog X A) (k : A -> prog X B) :
  emits I P m -> (forall a, emits I P (k a)) -> emits I P (m ≫= k).
Proof.
  intros Hm Hk w HI. destruct (Hm w HI) as (e1 & He1 & HP1 & HI1).
  unfold mbind, prog_bind. destruct (m w) as [w' [a|h]]; simpl in *.
  - destruct (Hk a w' HI1) as (e2 & He2 & HP2 & HI2). exists (e1 ++ e2).
    rewrite He2, He1, app_assoc. split_and!; [done|by apply Forall_app_2|done].
  - by exists e1.
Qed.

(** Values: a bind that remembers what is known of the value, and the rules of
    [emits_val]. *)
Lemma emits_bind_val {A B} (V : A -> Prop) (m : prog X A) (k : A -> prog X B) :
  emits_val I P m V -> (forall a, V a -> emits I P (k a)) -> emits I P (m ≫= k).
Proof.
  intros Hm Hk w HI. destruct (Hm w HI) as (e1 & He1 & HP1 & HI1).
  unfold mbind, prog_bind. destruct (m w) as [w' [a|h]]; simpl in *.
  - destruct HI1 as [HI1 HV]. destruct (Hk a HV w' HI1) as (e2 & He2 & HP2 & HI2).
    exists (e1 ++ e2). rewrite He2, He1, app_assoc. split_and!; [done|by apply Forall_app_2|done].
  - by exists e1.
Qed.

Lemma emits_val_ret {A} (a : A) (V : A -> Prop) : V a -> emits_val I P (mret a) V.
Proof. intros HV w HI. exists []. rewrite app_nil_r. by split_and!. Qed.

Lemma emits_val_bind {A B} (m : prog X A) (k : A -> prog X B) (V : B -> Prop) :
  emits I P m -> (forall a, emits_val I P (k a) V) -> emits_val I P (m ≫= k) V.
Proof.
  intros Hm Hk w HI. destruct (Hm w HI) as (e1 & He1 & HP1 & HI1).
  unfold mbind, prog_bind. destruct (m w) as [w' [a|h]]; simpl in *.
  - destruct (Hk a w' HI1) as (e2 & He2 & HP2 & HI2). exists (e1 ++ e2).
    rewrite He2, He1, app_assoc. split_and!; [done|by apply Forall_app_2|done].
  - by exists e1.
Qed.

Lemma emits_val_get {B} (k : X -> prog X B) (V : B -> Prop) :
  (forall g, I g -> emits_val I P (k g) V) -> emits_val I P (pget ≫= k) V.
Proof. intros Hk w HI. by apply Hk. Qed.

Lemma emits_val_halt {A} h (V : A -> Prop) : emits_val I P (phalt h) V.
Proof. intros w HI. exists []. rewrite app_nil_r. by split_and!. Qed.

Lemma emits_ret_bind {A B} (a : A) (k : A -> prog X B) :
  emits I P (k a) -> emits I P (mret a ≫= k).
Proof. done. Qed.

Lemma emits_get {B} (k : X -> prog X B) :
  (forall g, I g -> emits I P (k g)) -> emits I P (pget ≫= k).
Proof. intros Hk w HI. by apply Hk. Qed.

Lemma emits_halt {A} h : emits I P (phalt (A := A) h).
Proof. by apply emits_silent. Qed.

Lemma emits_mod f : (forall g, I g -> I (f g)) -> emits I P (pmod f).
Proof. intros Hf w HI. exists []. rewrite app_nil_r. split_and!; [done|constructor|by apply Hf]. Qed.

Lemma emits_opt {A} h (o : option A) : emits I P (popt h o).
Proof. apply emits_silent. by destruct o. Qed.

Lemma emits_sys {T} (c : sys T) : (forall r, P (Ev c r)) -> emits I P (psys c).
Proof.
  intros HP w HI. unfold psys. destruct (os_do c (w_os w)) as [s r]; simpl.
  exists [Ev c r]. split_and!; [done| |done]. by repeat constructor.
Qed.

Lemma emits_malloc n : (forall r, P (Ev (Sys_malloc n) r)) -> emits I P (pmalloc n).
Proof.
  intros HP. apply emits_bind; [by apply emits_sys|]. intros []; by apply emits_silent.
Qed.

Lemma emits_store p s : emits I P (pstore p s).
Proof. apply emits_silent. intros w. unfold pstore. by case_match. Qed.

Lemma emits_load p : emits I P (pload p).
Proof. apply emits_silent. intros w. unfold pload. by case_match. Qed.

Lemma emits_free p : emits I P (pfree p).
Proof. apply emits_silent. intros w. unfold pfree. by repeat case_match. Qed.
End Emits.
End Logic.

(** Worlds whose globals satisfy [I]: what the calls and the heap do not
    touch. *)
Definition glob_inv `{OS} {X} (I : X -> Prop) (w : world X) : Prop := I (w_glob w).

Section GlobInv.
Context `{OS} {X : Type} (I : X -> Prop).

Lemma glob_inv_keeps {A} (m : prog X A) : keeps_glob m -> preserves (glob_inv I) m.
Proof. intros Hm w HI. apply wp_keeps; [done|]. intros a w' Hw. unfold glob_inv. by rewrite Hw. Qed.

Lemma glob_inv_mod f : (forall g, I g -> I (f g)) -> preserves (glob_inv I) (pmod f).
Proof. intros Hf w HI. by apply Hf. Qed.
End GlobInv.

(** Symbolic execution on the globals alone, whatever the calls answer: from
    the globals [g], a value and the globals it leaves satisfy [Q]. *)
Definition gspec `{OS} {X A} (g : X) (m : prog X A) (Q : A -> X -> Prop) : Prop :=
  forall w, w_glob w = g -> wp m (fun a w' => Q a (w_glob w')) (fun _ _ => True) w.

Section GSpec.
Context `{OS} {X : Type}.

Lemma gspec_ret {A} (g : X) (a : A) (Q : A -> X -> Prop) : Q a g -> gspec g (mret a) Q.
Proof. by intros HQ w <-. Qed.

Lemma gspec_bind {A B} (g : X) (m : prog X A) (k : A -> prog X B) (Q : B -> X -> Prop) :
  gspec g m (fun a g' => gspec g' (k a) Q) -> gspec g (m ≫= k) Q.
Proof.
  intros Hm w Hw. apply wp_bind. eapply wp_mono; [by apply Hm| |done].
  intros a w' Hk. by apply Hk.
Qed.

Lemma gspec_get (g : X) (Q : X -> X -> Prop) : Q g g -> gspec g pget Q.
Proof. by intros HQ w <-. Qed.

Lemma gspec_mod (g : X) f (Q : unit -> X -> Prop) : Q tt (f g) -> gspec g (pmod f) Q.
Proof. by intros HQ w <-. Qed.

Lemma gspec_halt {A} (g : X) h (Q : A -> X -> Prop) : gspec g (phalt h) Q.
Proof. by intros w <-. Qed.

Lemma gspec_opt {A} (g : X) h (o : option A) (Q : A -> X -> Prop) :
  (forall a, o = Some a -> Q a g) -> gspec g (popt h o) Q.
Proof. intros HQ w <-. destruct o; [by apply HQ|done]. Qed.

Lemma gspec_keeps {A} (g : X) (m : prog X A) (Q : A -> X -> Prop) :
  keeps_glob m -> (forall a, Q a g) -> gspec g m Q.
Proof. intros Hm HQ w <-. apply wp_keeps; [done|]. by intros a w' ->. Qed.

Lemma gspec_pres {A} (I : X -> Prop) (g : X) (m : prog X A) (Q : A -> X -> Prop) :
  preserves (glob_inv I) m -> I g -> (forall a g', I g' -> Q a g') -> gspec g m Q.
Proof. intros Hm HI HQ w <-. eapply wp_mono; [by apply Hm| |done]. intros a w'. apply HQ. Qed.

Lemma gspec_mono {A} (g : X) (m : prog X A) (Q Q' : A -> X -> Prop) :
  gspec g m Q -> (forall a g', Q a g' -> Q' a g') -> gspec g m Q'.
Proof. intros Hm HQ w Hw. eapply wp_mono; [by apply Hm| |done]. intros. by apply HQ. Qed.

Lemma gspec_ok {A} (m : prog X A) (Q : A -> X -> Prop) w w' a :
  gspec (w_glob w) m Q -> m w = (w', Ok a) -> Q a (w_glob w').
Proof. intros Hm Heq. specialize (Hm w eq_refl). unfold wp in Hm. by rewrite Heq in Hm. Qed.

Lemma preserves_gspec {A} (I : X -> Prop) (m : prog X A) :
  (forall g, I g -> gspec g m (fun _ => I)) -> preserves (glob_inv I) m.
Proof. intros Hm w HI. by apply (Hm (w_glob w)). Qed.
End GSpec.

#[export] Hint Resolve preserves_ret preserves_halt preserves_get preserves_opt
  keeps_ret keeps_halt keeps_get keeps_opt keeps_sys keeps_malloc keeps_store keeps_load
  keeps_free : cfs.
#[export] Hint Resolve glob_inv_keeps : cfs.
#[export] Hint Resolve emits_ret emits_halt emits_opt emits_store emits_load emits_free : cfs.

(** [pres]: walk a program, splitting binds and conditionals, and close the
    leaves with the hints.  Leaves that change the globals stay.  [keeps] and
    [emit] do the same for their judgements. *)
Ltac pres_step :=
  match goal with
  | |- preserves _ (_ ≫= _) => apply preserves_bind; [|intros ?]
  | |- preserves _ (pwhen ?b _) => unfold pwhen
  | |- preserves _ (if ?b then _ else _) => destruct b eqn:?
  | |- preserves _ (match ?x with _ => _ end) => destruct x eqn:?
  end.
Ltac pres := repeat (first [ solve [ auto with cfs nocore ] | pres_step ]).

Ltac keep_step :=
  match goal with
  | |- keeps_glob (_ ≫= _) => apply keeps_bind; [|intros ?]
  | |- keeps_glob (pwhen ?b _) => unfold pwhen
  | |- keeps_glob (if ?b then _ else _) => destruct b eqn:?
  | |- keeps_glob (match ?x with _ => _ end) => destruct x eqn:?
  end.
Ltac keeps := repeat (first [ solve [ auto with cfs nocore ] | keep_step ]).

Ltac emit_step :=
  match goal with
  | |- emits _ _ (pget ≫= _) => apply emits_get; intros ? ?
  | |- emits_val _ _ (pget ≫= _) _ => apply emits_val_get; intros ? ?
  | |- emits_val _ _ (mret _) _ => apply emits_val_ret
  | |- emits_val _ _ (phalt _) _ => apply emits_val_halt
  | |- emits_val _ _ (_ ≫= _) _ => apply emits_val_bind; [|intros ?]
  | |- emits_val _ _ (if ?b then _ else _) _ => destruct b eqn:?
  | |- emits _ _ (_ ≫= _) => apply emits_bind; [|intros ?]
  | |- emits _ _ (pwhen ?b _) => unfold pwhen
  | |- emits _ _ (if ?b then _ else _) => destruct b eqn:?
  | |- emits _ _ (match ?x with _ => _ end) => destruct x eqn:?
  | |- emits _ _ (psys _) => apply emits_sys; intros ?
  | |- emits _ _ (pmalloc _) => apply emits_malloc; intros ?
  end.
Ltac emit := repeat (first [ solve [ auto with cfs nocore ] | emit_step ]).

(** [gs]: one step of symbolic execution of a [gspec] goal. *)
Ltac gs :=
  lazymatch goal with
  | |- gspec _ (mret _) _ => apply gspec_ret
  | |- gspec _ (_ ≫= _) _ => apply gspec_bind
  | |- gspec _ pget _ => apply gspec_get
  | |- gspec _ (pmod _) _ => apply gspec_mod
  | |- gspec _ (phalt _) _ => apply gspec_halt
  | |- gspec _ (popt _ _) _ => apply gspec_opt; intros ? ?
  | |- gspec _ (if ?b then _ else _) _ => destruct b eqn:?
  | |- gspec _ (match ?x with _ => _ end) _ => destruct x eqn:?
  | |- gspec _ _ _ => apply gspec_keeps; [solve [auto with cfs nocore | keeps]|intros ?]
  end; cbv beta.

(** [gst]: a step that also closes the branches that return at once. *)
Ltac gst := gs; try solve [repeat gs; done].

(** [gsk]: a step over a program that leaves the globals alone. *)
Ltac gsk := apply gspec_keeps; [solve [keeps]|intros ?]; cbv beta.

(** [wps]: one step of symbolic execution of a [wp] goal. *)
Ltac wps :=
  lazymatch goal with
  | |- wp (_ ≫= _) _ _ _ => apply wp_bind
  | |- wp (mret _) _ _ _ => apply wp_ret
  | |- wp pget _ _ _ => apply wp_get
  | |- wp (pmod _) _ _ _ => apply wp_mod
  | |- wp (phalt _) _ _ _ => exact I
  | |- wp (if ?b then _ else _) _ _ _ => destruct b eqn:?
  | |- wp (match ?x with _ => _ end) _ _ _ => destruct x eqn:?
  | |- wp _ _ (fun _ _ => True) _ => apply wp_keeps; [solve [auto with cfs nocore]|intros]
  end.
