(* ===== verification/CcciIntf.v ===== *)
(** * ccci_intf.h: the device nodes of the modem driver

    The interface header of src/hardware/ccci: the users of the driver, the
    versions of the driver, the table of device nodes and the two inline
    functions that look a node up, which the daemons and the library share. *)
From S2P Require Import Prelude Posix.

(** ** [CCCI_USER] *)

Definition USR_MUXD_DATA : Z := 0.
Definition USR_FACTORY_DATA : Z := 0.
Definition USR_FACTORY_SIM : Z := 0.
Definition USR_FACTORY_IDLE : Z := 0.
Definition USR_FACTORY_RF : Z := 0.
Definition USR_MUXR_IOCTL : Z := 1.
Definition USR_RILD_IOCTL : Z := 2.
Definition USR_FACTORY_SIM_IOCTL : Z := 2.
Definition USR_FACTORY_IDLE_IOCTL : Z := 2.
Definition USR_TERS_IOCTL : Z := 3.
Definition USR_AUDIO_TX : Z := 4.
Definition USR_AUDIO_RX : Z := 5.
Definition USR_META_DATA : Z := 6.
Definition USR_META_IOCTL : Z := 7.
Definition USR_MDLOG_TX : Z := 8.
Definition USR_MDLOG_RX : Z := 9.
Definition USR_MDLOG_IOCTL : Z := 10.
Definition USR_MDLOG_CTRL : Z := 11.
Definition USR_MDLOG_MONITOR : Z := 12.
Definition USR_AGPS_UART : Z := 13.
Definition USR_AGPS_IPC : Z := 14.
Definition USR_GPS_IPC : Z := 15.
Definition USR_NET_0 : Z := 16.
Definition USR_NET_1 : Z := 17.
Definition USR_NET_2 : Z := 18.
Definition USR_NET_3 : Z := 19.
Definition USR_NET_4 : Z := 20.
Definition USR_NET_5 : Z := 21.
Definition USR_NET_6 : Z := 22.
Definition USR_NET_7 : Z := 23.
Definition USR_RESERVED_FOR_NET_8 : Z := 24.
Definition USR_NET_9 : Z := 25.
Definition USR_NET_10 : Z := 26.
Definition USR_NET_11 : Z := 27.
Definition USR_NET_12 : Z := 28.
Definition USR_NET_13 : Z := 29.
Definition USR_NET_14 : Z := 30.
Definition USR_NET_15 : Z := 31.
Definition USR_NET_16 : Z := 32.
Definition USR_NET_17 : Z := 33.
Definition USR_NET_18 : Z := 34.
Definition USR_NET_19 : Z := 35.
Definition USR_NET_20 : Z := 36.
Definition USR_IMS_AUDIO : Z := 37.
Definition USR_IMS_VEDIO : Z := 38.
Definition USR_IMS_CTRL : Z := 39.
Definition USR_IMS_DCTRL : Z := 40.
Definition USR_ICUSB_DATA : Z := 41.
Definition USR_ICUSB_IOCTL : Z := 42.
Definition USR_CCCI_FS : Z := 43.
Definition USR_CCCI_CTRL : Z := 44.
Definition USR_MISC_TA_IPC : Z := 45.
Definition USR_CCCI_RPC : Z := 46.
Definition USR_C2K_FLS : Z := 47.
Definition USR_C2K_AT : Z := 48.
Definition USR_C2K_AT2 : Z := 49.
Definition USR_C2K_AT3 : Z := 50.
Definition USR_C2K_AT4 : Z := 51.
Definition USR_C2K_AT5 : Z := 52.
Definition USR_C2K_AT6 : Z := 53.
Definition USR_C2K_AT7 : Z := 54.
Definition USR_C2K_AT8 : Z := 55.
Definition USR_C2K_AGPS : Z := 56.
Definition CCB_START_INDEX : Z := 57.
Definition USR_SMEM_CCB_DHL : Z := 57.
Definition USR_SMEM_CCB_MD_MONITOR : Z := 58.
Definition USR_SMEM_CCB_META : Z := 59.
Definition CCB_END_INDEX : Z := 59.
Definition USR_SMEM_RAW_DHL : Z := 60.
Definition USR_SMEM_RAW_MDM : Z := 61.
Definition USR_SMEM_RAW_NETD : Z := 62.
Definition USR_SMEM_RAW_USB : Z := 63.
Definition USR_IMS_EM : Z := 64.
Definition USR_SMEM_RAW_AUDIO : Z := 65.
Definition USR_LWA_PROXY : Z := 66.
Definition USR_IMSM : Z := 67.
Definition USR_WOA : Z := 68.
Definition USR_CCCI_WIFI_PROXY : Z := 69.
Definition USR_CCCI_MAX : Z := 70.
(** ** [CCCI_MD], [CCCI_VERSION] and [__MD_TYPE] *)

Definition MD_SYS1 : Z := 0.
Definition MD_SYS2 : Z := 1.
Definition MD_SYS3 : Z := 2.
Definition MD_SYS5 : Z := 4.

Definition INVALID : Z := 0.
Definition CCCI : Z := 1.
Definition DUAL_CCCI : Z := 2.
Definition ECCCI : Z := 3.
Definition EEMCS : Z := 4.
Definition EDSDA : Z := 5.
Definition ECCCI_FSM : Z := 6.

Definition MD1_CCCI : nat := 0.
Definition MD1_DUAL_CCCI : nat := 1.
Definition MD1_ECCCI : nat := 2.
Definition MD2_DUAL_CCCI : nat := 3.
Definition MD3_CCCI : nat := 4.
Definition MD5_EEMCS : nat := 5.
Definition MD5_EDSDA : nat := 6.
Definition MD_TYPE_MAX : Z := 7.

Definition INVALID_NAME := lit "/dev/null".

(** ** [ccci_node_list] *)

Record ccci_node := CcciNode { node_user : Z; node_name : list (list Z) }.

Definition ccci_node_list : list ccci_node :=
  [
   CcciNode USR_MUXD_DATA
     [lit "/dev/ttyC0"; lit "/dev/ttyC0"; lit "/dev/ttyC0"; lit "/dev/ccci2_tty0"; INVALID_NAME; lit "/dev/eemcs_mux"; lit "/dev/emd_cfifo1"];
   CcciNode USR_MUXR_IOCTL
     [lit "/dev/ccci_uem_tx"; lit "/dev/ccci_ioctl0"; lit "/dev/ccci_ioctl0"; lit "/dev/ccci2_ioctl0"; INVALID_NAME; lit "/dev/eemcs_muxrp"; lit "/dev/emd_ctl1"];
   CcciNode USR_RILD_IOCTL
     [INVALID_NAME; lit "/dev/ccci_ioctl1"; lit "/dev/ccci_ioctl1"; lit "/dev/ccci2_ioctl1"; lit "/dev/ccci3_ioctl1"; lit "/dev/eemcs_ril"; lit "/dev/emd_ctl2"];
   CcciNode USR_TERS_IOCTL
     [INVALID_NAME; lit "/dev/ccci_ioctl2"; lit "/dev/ccci_ioctl2"; lit "/dev/ccci2_ioctl2"; INVALID_NAME; lit "/dev/eemcs_ioctl"; INVALID_NAME];
   CcciNode USR_AUDIO_TX
     [lit "/dev/ccci_pcm_tx"; lit "/dev/ccci_pcm_tx"; lit "/dev/ccci_aud"; lit "/dev/ccci2_aud"; lit "/dev/ccci3_aud"; lit "/dev/eemcs_aud"; INVALID_NAME];
   CcciNode USR_AUDIO_RX
     [lit "/dev/ccci_pcm_rx"; lit "/dev/ccci_pcm_rx"; lit "/dev/ccci_aud"; lit "/dev/ccci2_aud"; lit "/dev/ccci3_aud"; lit "/dev/eemcs_aud"; INVALID_NAME];
   CcciNode USR_META_DATA
     [lit "/dev/ttyC1"; lit "/dev/ttyC1"; lit "/dev/ttyC1"; lit "/dev/ccci2_tty1"; lit "/dev/ccci3_tty1"; lit "/dev/eemcs_md_log"; INVALID_NAME];
   CcciNode USR_META_IOCTL
     [INVALID_NAME; lit "/dev/ccci_ioctl4"; lit "/dev/ccci_ioctl4"; lit "/dev/ccci2_ioctl4"; INVALID_NAME; INVALID_NAME; lit "/dev/emd_ctl3"];
   CcciNode USR_MDLOG_TX
     [lit "/dev/ccci_md_log_tx"; lit "/dev/ccci_md_log_tx"; lit "/dev/ttyC1"; lit "/dev/ccci2_tty1"; lit "/dev/ccci3_tty1"; lit "/dev/eemcs_md_log"; INVALID_NAME];
   CcciNode USR_MDLOG_RX
     [lit "/dev/ccci_md_log_rx"; lit "/dev/ccci_md_log_rx"; lit "/dev/ttyC1"; lit "/dev/ccci2_tty1"; lit "/dev/ccci3_tty1"; lit "/dev/eemcs_md_log"; INVALID_NAME];
   CcciNode USR_MDLOG_IOCTL
     [lit "/dev/ccci_uem_rx"; lit "/dev/ccci_ioctl0"; lit "/dev/ttyC1"; lit "/dev/ccci2_tty1"; lit "/dev/ccci3_tty1"; lit "/dev/eemcs_md_log"; lit "/dev/emd_ctl4"];
   CcciNode USR_MDLOG_CTRL
     [INVALID_NAME; INVALID_NAME; lit "/dev/ccci_md_log_ctrl"; lit "/dev/ccci2_md_log_ctrl"; lit "/dev/ccci3_md_log_ctrl"; lit "/dev/eemcs_md_log_ctrl"; lit "/dev/emd_ctl4"];
   CcciNode USR_MDLOG_MONITOR
     [INVALID_NAME; INVALID_NAME; lit "/dev/ccci_mdl_monitor"; INVALID_NAME; INVALID_NAME; INVALID_NAME; INVALID_NAME];
   CcciNode USR_AGPS_UART
     [lit "/dev/ttyC2"; lit "/dev/ttyC2"; lit "/dev/ttyC2"; lit "/dev/ccci2_tty2"; lit "/dev/ccci3_tty2"; lit "/dev/eemcs_ipc_uart"; INVALID_NAME];
   CcciNode USR_AGPS_IPC
     [lit "/dev/ccci_ipc_1220_0"; lit "/dev/ccci_ipc_1220_0"; lit "/dev/ccci_ipc_1220_0"; lit "/dev/ccci2_ipc_0"; INVALID_NAME; lit "/dev/eemcs_ipc_0"; INVALID_NAME];
   CcciNode USR_GPS_IPC
     [INVALID_NAME; lit "/dev/ccci_ipc_2"; lit "/dev/ccci_ipc_2"; lit "/dev/ccci2_ipc_2"; INVALID_NAME; lit "/dev/eemcs_ipc_2"; INVALID_NAME];
   CcciNode USR_NET_0
     [lit "ccmni0"; lit "ccmni0"; lit "ccmni0"; lit "cc2mni0"; lit "cc3mni0"; lit "ccemni0"; INVALID_NAME];
   CcciNode USR_NET_1
     [lit "ccmni1"; lit "ccmni1"; lit "ccmni1"; lit "cc2mni1"; lit "cc3mni1"; lit "ccemni1"; INVALID_NAME];
   CcciNode USR_NET_2
     [lit "ccmni2"; lit "ccmni2"; lit "ccmni2"; lit "cc2mni2"; lit "cc3mni2"; lit "ccemni2"; INVALID_NAME];
   CcciNode USR_NET_3
     [lit "ccmni3"; lit "ccmni3"; lit "ccmni3"; lit "cc2mni3"; lit "cc3mni3"; lit "ccemni3"; INVALID_NAME];
   CcciNode USR_NET_4
     [lit "ccmni4"; lit "ccmni4"; lit "ccmni4"; lit "cc2mni4"; lit "cc3mni4"; lit "ccemni4"; INVALID_NAME];
   CcciNode USR_NET_5
     [lit "ccmni5"; lit "ccmni5"; lit "ccmni5"; lit "cc2mni5"; lit "cc3mni5"; lit "ccemni5"; INVALID_NAME];
   CcciNode USR_NET_6
     [lit "ccmni6"; lit "ccmni6"; lit "ccmni6"; lit "cc2mni6"; lit "cc3mni6"; lit "ccemni6"; INVALID_NAME];
   CcciNode USR_NET_7
     [lit "ccmni7"; lit "ccmni7"; lit "ccmni7"; lit "cc2mni7"; lit "cc3mni7"; lit "ccemni7"; INVALID_NAME];
   CcciNode USR_RESERVED_FOR_NET_8
     [INVALID_NAME; INVALID_NAME; INVALID_NAME; INVALID_NAME; INVALID_NAME; INVALID_NAME; INVALID_NAME];
   CcciNode USR_NET_9
     [lit "ccmni9"; lit "ccmni9"; lit "ccmni9"; lit "cc2mni9"; lit "cc3mni9"; lit "ccemni9"; INVALID_NAME];
   CcciNode USR_NET_10
     [lit "ccmni10"; lit "ccmni10"; lit "ccmni10"; lit "cc2mni10"; lit "cc3mni10"; lit "ccemni10"; INVALID_NAME];
   CcciNode USR_NET_11
     [lit "ccmni11"; lit "ccmni11"; lit "ccmni11"; lit "cc2mni11"; lit "cc3mni11"; lit "ccemni11"; INVALID_NAME];
   CcciNode USR_NET_12
     [lit "ccmni12"; lit "ccmni12"; lit "ccmni12"; lit "cc2mni12"; lit "cc3mni12"; lit "ccemni12"; INVALID_NAME];
   CcciNode USR_NET_13
     [lit "ccmni13"; lit "ccmni13"; lit "ccmni13"; lit "cc2mni13"; lit "cc3mni13"; lit "ccemni13"; INVALID_NAME];
   CcciNode USR_NET_14
     [lit "ccmni14"; lit "ccmni14"; lit "ccmni14"; lit "cc2mni14"; lit "cc3mni14"; lit "ccemni14"; INVALID_NAME];
   CcciNode USR_NET_15
     [lit "ccmni15"; lit "ccmni15"; lit "ccmni15"; lit "cc2mni15"; lit "cc3mni15"; lit "ccemni15"; INVALID_NAME];
   CcciNode USR_NET_16
     [lit "ccmni16"; lit "ccmni16"; lit "ccmni16"; lit "cc2mni16"; lit "cc3mni16"; lit "ccemni16"; INVALID_NAME];
   CcciNode USR_NET_17
     [lit "ccmni17"; lit "ccmni17"; lit "ccmni17"; lit "cc2mni17"; lit "cc3mni17"; lit "ccemni17"; INVALID_NAME];
   CcciNode USR_NET_18
     [lit "ccmni18"; lit "ccmni18"; lit "ccmni18"; lit "cc2mni18"; lit "cc3mni18"; lit "ccemni18"; INVALID_NAME];
   CcciNode USR_NET_19
     [lit "ccmni19"; lit "ccmni19"; lit "ccmni19"; lit "cc2mni19"; lit "cc3mni19"; lit "ccemni19"; INVALID_NAME];
   CcciNode USR_NET_20
     [lit "ccmni20"; lit "ccmni20"; lit "ccmni20"; lit "cc2mni20"; lit "cc3mni20"; lit "ccemni20"; INVALID_NAME];
   CcciNode USR_IMS_AUDIO
     [INVALID_NAME; INVALID_NAME; lit "/dev/ccci_imsa"; lit "/dev/ccci2_imsa"; INVALID_NAME; lit "/dev/eemcs_imsa"; INVALID_NAME];
   CcciNode USR_IMS_VEDIO
     [INVALID_NAME; INVALID_NAME; lit "/dev/ccci_imsv"; lit "/dev/ccci2_imsa"; INVALID_NAME; lit "/dev/eemcs_imsv"; INVALID_NAME];
   CcciNode USR_IMS_CTRL
     [INVALID_NAME; INVALID_NAME; lit "/dev/ccci_imsc"; lit "/dev/ccci2_imsa"; INVALID_NAME; lit "/dev/eemcs_imsc"; INVALID_NAME];
   CcciNode USR_IMS_DCTRL
     [INVALID_NAME; INVALID_NAME; lit "/dev/ccci_imsdc"; lit "/dev/ccci2_imsa"; INVALID_NAME; lit "/dev/eemcs_imsdc"; INVALID_NAME];
   CcciNode USR_ICUSB_DATA
     [INVALID_NAME; lit "/dev/ttyC3"; lit "/dev/ttyC3"; lit "/dev/ccci2_tty3"; INVALID_NAME; INVALID_NAME; INVALID_NAME];
   CcciNode USR_ICUSB_IOCTL
     [INVALID_NAME; lit "/dev/ccci_ioctl3"; lit "/dev/ccci_ioctl3"; lit "/dev/ccci2_ioctl3"; INVALID_NAME; INVALID_NAME; INVALID_NAME];
   CcciNode USR_CCCI_FS
     [lit "/dev/ccci_fs"; lit "/dev/ccci_fs"; lit "/dev/ccci_fs"; lit "/dev/ccci2_fs"; lit "/dev/ccci3_fs"; lit "/dev/eemcs_fs"; INVALID_NAME];
   CcciNode USR_CCCI_CTRL
     [lit "/dev/ccci_uem_rx"; lit "/dev/ccci_monitor"; lit "/dev/ccci_monitor"; lit "/dev/ccci2_monitor"; lit "/dev/ccci3_monitor"; lit "/dev/eemcs_ctrl"; lit "/dev/emd_ctl0"];
   CcciNode USR_MISC_TA_IPC
     [INVALID_NAME; INVALID_NAME; lit "/dev/ccci_ipc_4"; lit "/dev/ccci2_ipc_4"; INVALID_NAME; INVALID_NAME; INVALID_NAME];
   CcciNode USR_CCCI_RPC
     [lit "/dev/ccci_rpc"; lit "/dev/ccci_rpc"; lit "/dev/ccci_rpc"; lit "/dev/ccci2_rpc"; INVALID_NAME; lit "/dev/eemcs_rpc"; INVALID_NAME];
   CcciNode USR_C2K_FLS
     [INVALID_NAME; INVALID_NAME; INVALID_NAME; INVALID_NAME; lit "/dev/ccci3_fls"; INVALID_NAME; INVALID_NAME];
   CcciNode USR_C2K_AT
     [INVALID_NAME; INVALID_NAME; INVALID_NAME; INVALID_NAME; lit "/dev/ccci3_at"; INVALID_NAME; INVALID_NAME];
   CcciNode USR_C2K_AT2
     [INVALID_NAME; INVALID_NAME; INVALID_NAME; INVALID_NAME; lit "/dev/ccci3_at2"; INVALID_NAME; INVALID_NAME];
   CcciNode USR_C2K_AT3
     [INVALID_NAME; INVALID_NAME; INVALID_NAME; INVALID_NAME; lit "/dev/ccci3_at3"; INVALID_NAME; INVALID_NAME];
   CcciNode USR_C2K_AT4
     [INVALID_NAME; INVALID_NAME; INVALID_NAME; INVALID_NAME; lit "/dev/ccci3_at4"; INVALID_NAME; INVALID_NAME];
   CcciNode USR_C2K_AT5
     [INVALID_NAME; INVALID_NAME; INVALID_NAME; INVALID_NAME; lit "/dev/ccci3_at5"; INVALID_NAME; INVALID_NAME];
   CcciNode USR_C2K_AT6
     [INVALID_NAME; INVALID_NAME; INVALID_NAME; INVALID_NAME; lit "/dev/ccci3_at6"; INVALID_NAME; INVALID_NAME];
   CcciNode USR_C2K_AT7
     [INVALID_NAME; INVALID_NAME; INVALID_NAME; INVALID_NAME; lit "/dev/ccci3_at7"; INVALID_NAME; INVALID_NAME];
   CcciNode USR_C2K_AT8
     [INVALID_NAME; INVALID_NAME; INVALID_NAME; INVALID_NAME; lit "/dev/ccci3_at8"; INVALID_NAME; INVALID_NAME];
   CcciNode USR_C2K_AGPS
     [INVALID_NAME; INVALID_NAME; lit "/dev/ccci_c2k_agps"; INVALID_NAME; INVALID_NAME; INVALID_NAME; INVALID_NAME];
   CcciNode USR_SMEM_CCB_DHL
     [INVALID_NAME; INVALID_NAME; lit "/dev/ccci_ccb_dhl"; INVALID_NAME; INVALID_NAME; INVALID_NAME; INVALID_NAME];
   CcciNode USR_SMEM_CCB_MD_MONITOR
     [INVALID_NAME; INVALID_NAME; lit "/dev/ccci_ccb_md_monitor"; INVALID_NAME; INVALID_NAME; INVALID_NAME; INVALID_NAME];
   CcciNode USR_SMEM_CCB_META
     [INVALID_NAME; INVALID_NAME; lit "/dev/ccci_ccb_meta"; INVALID_NAME; INVALID_NAME; INVALID_NAME; INVALID_NAME];
   CcciNode USR_SMEM_RAW_DHL
     [INVALID_NAME; INVALID_NAME; lit "/dev/ccci_raw_dhl"; INVALID_NAME; INVALID_NAME; INVALID_NAME; INVALID_NAME];
   CcciNode USR_SMEM_RAW_MDM
     [INVALID_NAME; INVALID_NAME; lit "/dev/ccci_raw_mdm"; INVALID_NAME; INVALID_NAME; INVALID_NAME; INVALID_NAME];
   CcciNode USR_SMEM_RAW_NETD
     [INVALID_NAME; INVALID_NAME; lit "/dev/ccci_raw_netd"; INVALID_NAME; INVALID_NAME; INVALID_NAME; INVALID_NAME];
   CcciNode USR_SMEM_RAW_USB
     [INVALID_NAME; INVALID_NAME; lit "/dev/ccci_raw_usb"; INVALID_NAME; INVALID_NAME; INVALID_NAME; INVALID_NAME];
   CcciNode USR_IMS_EM
     [INVALID_NAME; INVALID_NAME; lit "/dev/ccci_imsem"; INVALID_NAME; INVALID_NAME; INVALID_NAME; INVALID_NAME];
   CcciNode USR_SMEM_RAW_AUDIO
     [INVALID_NAME; INVALID_NAME; lit "/dev/ccci_raw_audio"; INVALID_NAME; lit "/dev/ccci3_raw_audio"; INVALID_NAME; INVALID_NAME];
   CcciNode USR_LWA_PROXY
     [INVALID_NAME; INVALID_NAME; lit "/dev/ccci_ipc_9"; INVALID_NAME; INVALID_NAME; INVALID_NAME; INVALID_NAME];
   CcciNode USR_IMSM
     [INVALID_NAME; INVALID_NAME; lit "/dev/ccci_imsm"; INVALID_NAME; INVALID_NAME; INVALID_NAME; INVALID_NAME];
   CcciNode USR_WOA
     [INVALID_NAME; INVALID_NAME; lit "/dev/ccci_woa"; INVALID_NAME; INVALID_NAME; INVALID_NAME; INVALID_NAME];
   CcciNode USR_CCCI_WIFI_PROXY
     [INVALID_NAME; INVALID_NAME; lit "/dev/ccci_wifi_proxy"; INVALID_NAME; INVALID_NAME; INVALID_NAME; INVALID_NAME]
  ].

(** ** The inline functions *)

Section Intf.
Context `{OS} {X : Type}.
Abbreviation M := (prog X).

Definition ccci_get_version : M Z :=
  fd ← psys (Sys_open (lit "/sys/kernel/ccci/version") 0 0);
  if rv fd <? 0 then mret ECCCI
  else
    ver_str ← psys (Sys_read (rv fd) 2);
    _ ← psys (Sys_close (rv fd));
    if rres_rv ver_str <? 1 then mret INVALID
    else mret (default 0 (rres_data ver_str !! 0%nat) - 48).

(** [ccci_node_list[usr_id].node_name[type]] *)
Definition node_at (usr_id : Z) (type : nat) : M (option (list Z)) :=
  if usr_id <? 0 then phalt OutOfBounds
  else
    name ← popt OutOfBounds (ccci_node_list !! Z.to_nat usr_id ≫= fun n => node_name n !! type);
    mret (Some name).

(** The node of a user; [None] for [NULL]. *)
Definition ccci_get_node_name (usr_id md_id : Z) : M (option (list Z)) :=
  name ←
    (if md_id =? MD_SYS1 then
       v ← ccci_get_version;
       if v =? CCCI then node_at usr_id MD1_CCCI
       else if v =? DUAL_CCCI then node_at usr_id MD1_DUAL_CCCI
       else if (v =? ECCCI) || (v =? EDSDA) || (v =? ECCCI_FSM) then node_at usr_id MD1_ECCCI
       else mret None
     else if md_id =? MD_SYS2 then node_at usr_id MD2_DUAL_CCCI
     else if md_id =? MD_SYS3 then node_at usr_id MD3_CCCI
     else if md_id =? MD_SYS5 then
       v ← ccci_get_version;
       if v =? EDSDA then node_at usr_id MD5_EDSDA else node_at usr_id MD5_EEMCS
     else mret None);
  mret (match name with
        | Some n => if streq n INVALID_NAME then None else Some n
        | None => None
        end).
End Intf.

(** ** The table *)

(** Every row of the table can be indexed by its user, names a device for each
    type of driver and fits the arrays of the structure. *)
Definition node_row_ok (i : nat) (n : ccci_node) : bool :=
  (node_user n =? Z.of_nat i) && (zlen (node_name n) =? MD_TYPE_MAX) &&
  forallb (fun s => (zlen s <? 32) && forallb (fun b => (0 <? b) && (b <? 128)) s) (node_name n).

Fixpoint node_rows_ok (i : nat) (l : list ccci_node) : bool :=
  match l with
  | [] => true
  | n :: l' => node_row_ok i n && node_rows_ok (S i) l'
  end.

Lemma node_rows_ok_lookup l : forall i k n,
  node_rows_ok i l = true -> l !! k = Some n -> node_row_ok (i + k) n = true.
Proof.
  induction l as [|m l IH]; intros i [|k] n Hok Hn; try done; simpl in Hok; zbool.
  - injection Hn as <-. by rewrite Nat.add_0_r.
  - rewrite <- Nat.add_succ_comm. by apply IH.
Qed.

Lemma node_list_rows : node_rows_ok 0 ccci_node_list = true.
Proof. vm_compute. reflexivity. Qed.

(** The assumption the header states about [ccci_node_list], that
    its index is the user: the entry a lookup with a user of the enumeration
    finds exists for every type of driver, belongs to that user, and is a name
    that fits the 32 bytes of the structure. *)
Theorem node_list_indexed usr_id type :
  0 <= usr_id < USR_CCCI_MAX -> (Z.of_nat type < MD_TYPE_MAX)%Z ->
  exists n name, ccci_node_list !! Z.to_nat usr_id = Some n /\ node_user n = usr_id /\
    node_name n !! type = Some name /\ zlen name < 32 /\
    forall (HO : OS) (X : Type) (w : world X), node_at usr_id type w = (w, Ok (Some name)).
Proof.
  intros Hu Ht.
  destruct (lookup_lt_is_Some_2 ccci_node_list (Z.to_nat usr_id)) as [n Hn].
  { change (length ccci_node_list) with 70%nat. unfold USR_CCCI_MAX in Hu. lia. }
  pose proof (node_rows_ok_lookup _ 0 _ _ node_list_rows Hn) as Hrow.
  unfold node_row_ok in Hrow. zbool.
  destruct (lookup_lt_is_Some_2 (node_name n) type) as [name Hname].
  { unfold zlen in *. lia. }
  exists n, name. split_and!; [done|lia|done| |].
  - rewrite forallb_forall in *. destruct (proj1 (andb_true_iff _ _) (H0 name ltac:(
      apply list_elem_of_In; by eapply list_elem_of_lookup_2))) as [Hl _]. by apply Z.ltb_lt in Hl.
  - intros HO X w. unfold node_at. rewrite (proj2 (Z.ltb_ge _ _)) by lia. rewrite Hn. simpl. by rewrite Hname.
Qed.

Lemma node_list_indexed_witness :
  exists n name, ccci_node_list !! Z.to_nat USR_CCCI_FS = Some n /\ node_name n !! MD1_ECCCI = Some name /\
    name = lit "/dev/ccci_fs".
Proof.
  destruct (node_list_indexed USR_CCCI_FS MD1_ECCCI) as (n & name & Hn & _ & Hname & _);
    [vm_compute; split; [discriminate|reflexivity]|vm_compute; reflexivity|].
  exists n, name. split; [exact Hn|split; [exact Hname|]].
  vm_compute in Hn. injection Hn as <-. vm_compute in Hname. by injection Hname as <-.
Defined.
