(* ===== verification/MemFs.v ===== *)
(** * An in-memory environment

    A concrete instance of [OS]: regular files and directories by their full
    path, descriptors with offsets, directory streams, a queue of packets
    behind the descriptor [dev_fd] of the modem device (a signal ends the process
    when it is empty), properties and a clock that ticks a millisecond per reading.  The witnesses of the theorems run the
    daemon on it; nothing else depends on it. *)
From S2P Require Import Prelude Posix.

Inductive node := NFile (mode : Z) (data : list Z) | NDir.

Record memfs := MemFs {
  nodes : list (list Z * node);
  fds : list (Z * (list Z * Z));           (** descriptor: path and offset *)
  streams : list (Z * list (list Z));      (** stream: entries left *)
  next_fd : Z;
  inbox : list (list Z);                   (** packets from the modem *)
  props : list (list Z * list Z);
  clock : Z;
  mem_left : Z                             (** successful allocations left *)
}.

Definition dev_fd : Z := 100.

Fixpoint assoc {A} (k : list Z) (l : list (list Z * A)) : option A :=
  match l with
  | [] => None
  | (k', a) :: l' => if bool_decide (k = k') then Some a else assoc k l'
  end.

Fixpoint zassoc {A} (k : Z) (l : list (Z * A)) : option A :=
  match l with
  | [] => None
  | (k', a) :: l' => if k =? k' then Some a else zassoc k l'
  end.

Definition remove_node (p : list Z) (l : list (list Z * node)) : list (list Z * node) :=
  List.filter (fun e => negb (bool_decide (e.1 = p))) l.

(** Replaces the node of a path that has one. *)
Definition put_node (p : list Z) (n : node) (l : list (list Z * node)) : list (list Z * node) :=
  (fun e : list Z * node => if bool_decide (e.1 = p) then (p, n) else e) <$> l.

Definition zremove {A} (k : Z) (l : list (Z * A)) : list (Z * A) :=
  List.filter (fun e => negb (e.1 =? k)) l.

(** Lookups after an update. *)
Lemma assoc_put q p n l : assoc q (put_node p n l) =
  if bool_decide (q = p) then match assoc p l with Some _ => Some n | None => None end else assoc q l.
Proof.
  unfold put_node. induction l as [|[p' a] l IH]; simpl; [by case_bool_decide|].
  repeat (case_bool_decide; simpl in *; subst; try done).
Qed.

Lemma zassoc_zremove {A} k d (l : list (Z * A)) :
  zassoc k (zremove d l) = if k =? d then None else zassoc k l.
Proof.
  induction l as [|[k' a] l IH]; simpl; [by case_match|].
  destruct (Z.eqb_spec k' d) as [->|]; simpl.
  - rewrite IH. by destruct (Z.eqb_spec k d).
  - destruct (Z.eqb_spec k k') as [->|]; [by destruct (Z.eqb_spec k' d)|apply IH].
Qed.

Lemma zassoc_fresh {A} k (l : list (Z * A)) : Forall (fun e => e.1 < k) l -> zassoc k l = None.
Proof.
  induction 1 as [|[k' a] l Hk _ IH]; simpl in *; [done|]. destruct (Z.eqb_spec k k'); [lia|done].
Qed.

Lemma zremove_keys {A} (P : Z * A -> Prop) d l : Forall P l -> Forall P (zremove d l).
Proof. induction 1 as [|x l Hx _ IH]; simpl; [constructor|]. case_match; [by constructor|done]. Qed.

(** The names in a directory. *)
Definition children (d : list Z) (l : list (list Z * node)) : list (list Z) :=
  omap (fun e : list Z * node =>
    let p := d ++ [chr_slash] in
    if starts_with p e.1 then
      let n := drop (length p) e.1 in
      if existsb (fun b => b =? chr_slash) n then None else Some n
    else None) l.

Definition set_nodes (v : list (list Z * node)) (s : memfs) : memfs :=
  MemFs v (fds s) (streams s) (next_fd s) (inbox s) (props s) (clock s) (mem_left s).
Definition set_fds (v : list (Z * (list Z * Z))) (s : memfs) : memfs :=
  MemFs (nodes s) v (streams s) (next_fd s) (inbox s) (props s) (clock s) (mem_left s).
Definition set_streams (v : list (Z * list (list Z))) (s : memfs) : memfs :=
  MemFs (nodes s) (fds s) v (next_fd s) (inbox s) (props s) (clock s) (mem_left s).
Definition set_next (v : Z) (s : memfs) : memfs :=
  MemFs (nodes s) (fds s) (streams s) v (inbox s) (props s) (clock s) (mem_left s).
Definition set_inbox (v : list (list Z)) (s : memfs) : memfs :=
  MemFs (nodes s) (fds s) (streams s) (next_fd s) v (props s) (clock s) (mem_left s).
Definition set_clock (v : Z) (s : memfs) : memfs :=
  MemFs (nodes s) (fds s) (streams s) (next_fd s) (inbox s) (props s) v (mem_left s).
Definition set_mem (v : Z) (s : memfs) : memfs :=
  MemFs (nodes s) (fds s) (streams s) (next_fd s) (inbox s) (props s) (clock s) v.

Definition set_props (v : list (list Z * list Z)) (s : memfs) : memfs :=
  MemFs (nodes s) (fds s) (streams s) (next_fd s) (inbox s) v (clock s) (mem_left s).

Definition ok (v : Z) : ires := IRes v 0.
Definition fail (e : Z) : ires := IRes (-1) e.

Definition stat_of (n : node) : stat_t :=
  match n with
  | NFile mode data => Stat (32768 + mode mod 4096) (zlen data) 0 0 0
  | NDir => Stat (16384 + 504) 4096 0 0 0
  end.
Definition stat_none : stat_t := Stat 0 0 0 0 0.

Definition do_open (p : list Z) (flags mode : Z) (s : memfs) : memfs * ires :=
  let opened s := (set_next (next_fd s + 1) (set_fds ((next_fd s, (p, 0)) :: fds s) s), ok (next_fd s)) in
  match assoc p (nodes s) with
  | Some (NFile m _) =>
      if has_bits flags 512 then opened (set_nodes (put_node p (NFile m []) (nodes s)) s)
      else opened s
  | Some NDir => (s, fail 21)
  | None =>
      if has_bits flags 64 then opened (set_nodes ((p, NFile mode []) :: nodes s) s) else (s, fail 2)
  end.

Definition do_read (fd n : Z) (s : memfs) : memfs * rres :=
  if fd =? dev_fd then
    match inbox s with
    | [] => (s, RErr 4)
    | m :: l => (set_inbox l s, RData (take (Z.to_nat n) m))
    end
  else
    match zassoc fd (fds s) with
    | Some (p, off) =>
        match assoc p (nodes s) with
        | Some (NFile _ data) =>
            let bs := take (Z.to_nat n) (drop (Z.to_nat off) data) in
            (set_fds ((fd, (p, off + zlen bs)) :: zremove fd (fds s)) s, RData bs)
        | _ => (s, RErr 21)
        end
    | None => (s, RErr 9)
    end.

Definition do_write (fd : Z) (bs : list Z) (s : memfs) : memfs * ires :=
  if fd =? dev_fd then (s, ok (zlen bs))
  else
    match zassoc fd (fds s) with
    | Some (p, off) =>
        match assoc p (nodes s) with
        | Some (NFile m data) =>
            let data' := take (Z.to_nat off) data ++ bs ++ drop (Z.to_nat off + length bs) data in
            (set_fds ((fd, (p, off + zlen bs)) :: zremove fd (fds s))
               (set_nodes (put_node p (NFile m data') (nodes s)) s), ok (zlen bs))
        | _ => (s, fail 21)
        end
    | None => (s, fail 9)
    end.

Definition do_pread (fd n off : Z) (s : memfs) : memfs * rres :=
  match zassoc fd (fds s) with
  | Some (p, _) =>
      match assoc p (nodes s) with
      | Some (NFile _ data) => (s, RData (take (Z.to_nat n) (drop (Z.to_nat off) data)))
      | _ => (s, RErr 21)
      end
  | None => (s, RErr 9)
  end.

Definition do_pwrite (fd : Z) (bs : list Z) (off : Z) (s : memfs) : memfs * ires :=
  match zassoc fd (fds s) with
  | Some (p, _) =>
      match assoc p (nodes s) with
      | Some (NFile m data) =>
          let data' := take (Z.to_nat off) data ++ bs ++ drop (Z.to_nat off + length bs) data in
          (set_nodes (put_node p (NFile m data') (nodes s)) s, ok (zlen bs))
      | _ => (s, fail 21)
      end
  | None => (s, fail 9)
  end.

Definition do_lseek (fd off whence : Z) (s : memfs) : memfs * ires :=
  match zassoc fd (fds s) with
  | Some (p, cur) =>
      let size := match assoc p (nodes s) with Some (NFile _ d) => zlen d | _ => 0 end in
      let pos := if whence =? 0 then off else if whence =? 1 then cur + off else size + off in
      if pos <? 0 then (s, fail 22)
      else (set_fds ((fd, (p, pos)) :: zremove fd (fds s)) s, ok pos)
  | None => (s, fail 9)
  end.

Definition memfs_do {T} (c : sys T) (s : memfs) : memfs * T :=
  match c in sys T return memfs * T with
  | Sys_open p flags mode => do_open p flags mode s
  | Sys_creat p mode => do_open p (64 + 512) mode s
  | Sys_close fd =>
      match zassoc fd (fds s) with
      | Some _ => (set_fds (zremove fd (fds s)) s, ok 0)
      | None => (s, fail 9)
      end
  | Sys_read fd n => do_read fd n s
  | Sys_write fd bs => do_write fd bs s
  | Sys_lseek fd off whence => do_lseek fd off whence s
  | Sys_fsync _ => (s, ok 0)
  | Sys_stat p =>
      (s, match assoc p (nodes s) with Some n => (ok 0, stat_of n) | None => (fail 2, stat_none) end)
  | Sys_fstat fd =>
      (s, match zassoc fd (fds s) with
          | Some (p, _) =>
              match assoc p (nodes s) with Some n => (ok 0, stat_of n) | None => (fail 2, stat_none) end
          | None => (fail 9, stat_none)
          end)
  | Sys_statfs _ => (s, (ok 0, Statfs 4096 1000))
  | Sys_mkdir p _ =>
      match assoc p (nodes s) with
      | Some _ => (s, fail 17)
      | None => (set_nodes ((p, NDir) :: nodes s) s, ok 0)
      end
  | Sys_rmdir p =>
      match assoc p (nodes s) with
      | Some NDir =>
          if (0 <? zlen (children p (nodes s)))%Z then (s, fail 39)
          else (set_nodes (remove_node p (nodes s)) s, ok 0)
      | _ => (s, fail 2)
      end
  | Sys_unlink p =>
      match assoc p (nodes s) with
      | Some (NFile _ _) => (set_nodes (remove_node p (nodes s)) s, ok 0)
      | _ => (s, fail 2)
      end
  | Sys_rename p q =>
      match assoc p (nodes s) with
      | Some n => (set_nodes ((q, n) :: remove_node p (remove_node q (nodes s))) s, ok 0)
      | None => (s, fail 2)
      end
  | Sys_access p _ => (s, match assoc p (nodes s) with Some _ => ok 0 | None => fail 2 end)
  | Sys_opendir p =>
      match assoc p (nodes s) with
      | Some NDir =>
          (set_next (next_fd s + 1)
             (set_streams ((next_fd s, lit "." :: lit ".." :: children p (nodes s)) :: streams s) s),
           ok (next_fd s))
      | _ => (s, IRes 0 2)
      end
  | Sys_readdir d =>
      match zassoc d (streams s) with
      | Some (n :: l) => (set_streams ((d, l) :: zremove d (streams s)) s, Some n)
      | _ => (s, None)
      end
  | Sys_closedir d =>
      match zassoc d (streams s) with
      | Some _ => (set_streams (zremove d (streams s)) s, ok 0)
      | None => (s, fail 9)
      end
  | Sys_ioctl _ _ _ => (s, (ok 0, 0))
  | Sys_fs_get_index _ =>
      match inbox s with [] => (s, (fail 4, [])) | m :: l => (set_inbox l s, (ok 0, m)) end
  | Sys_mmap len _ => (s, Some (replicate (Z.to_nat len) 0))
  | Sys_pthread_create => (s, 0)
  | Sys_ioctl_post_fix _ => (s, lit "1_lwg_n" ++ [0; 0; 0; 0; 0])
  | Sys_ioctl_fs_send _ _ _ => (s, ok 0)
  | Sys_rpc_get_index _ =>
      match inbox s with [] => (s, (fail 4, [])) | m :: l => (set_inbox l s, (ok 0, m)) end
  | Sys_rpc_send _ _ _ => (s, ok 0)
  | Sys_ioctl_boot_data _ _ => (s, ok 0)
  | Sys_msync _ _ => (s, ok 0)
  | Sys_clock_gettime =>
      (set_clock (clock s + 1) s, Timespec (clock s / 1000) (clock s mod 1000 * 1000000))
  | Sys_localtime t => (s, Some (Tm 1 2 3 4 5 100))
  | Sys_umask _ => (s, 0)
  | Sys_usleep _ => (s, ok 0)
  | Sys_malloc _ => (set_mem (mem_left s - 1) s, 0 <? mem_left s)
  | Sys_property_get n =>
      (s, match assoc n (props s) with
          | Some v => let v := take 91 v in (zlen v, v)
          | None => (0, [])
          end)
  | Sys_wake_lock => (s, ok 0)
  | Sys_wake_unlock => (s, ok 0)
  | Sys_signal => (s, 0)
  | Sys_signal_pending => (s, match inbox s with [] => Some 15 | _ :: _ => None end)
  | Sys_uname => (s, (ok 0, lit "4.14.0"))
  | Sys_fopen p => (s, match assoc p (nodes s) with Some _ => true | None => false end)
  | Sys_fclose => (s, ok 0)
  | Sys_nvm_restore _ _ => (s, true)
  | Sys_otp_ioctl _ _ ctl _ => (s, (ok 0, OtpCtl 4096 (Offset ctl) (ctl_Length ctl) 0, []))
  | Sys_ioctl_ccb_config _ cfg => (s, (ok 0, cfg))
  | Sys_ioctl_ccb_ctrl_info _ info => (s, (ok 0, info))
  | Sys_ioctl_img_exist _ _ => (s, ok 0)
  | Sys_mmap_shared _ _ => (s, Some 4096)
  | Sys_munmap _ _ => (s, ok 0)
  | Sys_sleep _ => (s, ok 0)
  | Sys_gettimeofday_tz => (s, 0)
  | Sys_sysinfo_uptime => (s, 0)
  | Sys_time => (s, clock s / 1000)
  | Sys_ctime t => (s, itoa t ++ [10])
  | Sys_property_get_default n d =>
      (s, match assoc n (props s) with Some v => (zlen v, v) | None => (zlen d, d) end)
  | Sys_property_set n v => (set_props ((n, v) :: props s) s, ok 0)
  | Sys_sysenv_get n => (s, assoc n (props s))
  | Sys_sysenv_set n v => (set_props ((n, v) :: props s) s, 0)
  | Sys_nvm_get_lid _ => (s, 0)
  | Sys_nvm_get_file_desc _ => (s, (-1, 0, 0))
  | Sys_nvm_close_file_desc _ => (s, true)
  | Sys_aee_exception _ _ _ _ => (s, 0)
  | Sys_dlopen _ => (s, false)
  | Sys_dlsym _ => (s, false)
  | Sys_dlclose => (s, 0)
  | Sys_lstat p =>
      (s, match assoc p (nodes s) with Some n => (ok 0, stat_of n) | None => (fail 2, stat_none) end)
  | Sys_chown p _ _ => (s, match assoc p (nodes s) with Some _ => ok 0 | None => fail 2 end)
  | Sys_chmod p _ => (s, match assoc p (nodes s) with Some _ => ok 0 | None => fail 2 end)
  | Sys_sync => (s, tt)
  | Sys_mtd_getinfo _ => (s, (fail 25, Mtd 0 0 0))
  | Sys_mtd_erase _ _ _ => (s, fail 25)
  | Sys_pread fd n off => do_pread fd n off s
  | Sys_pwrite fd bs off => do_pwrite fd bs off s
  end.

#[export] Instance MemOS : OS := {| os_st := memfs; os_do := @memfs_do |}.

(** A world over an in-memory state. *)
Definition mem_world {X} (s : memfs) (g : X) : world X := World s [] ∅ 1 g.

Definition memfs_empty : memfs := MemFs [] [] [] 3 [] [] 0 100.
