(* ===== verification/Wire.v ===== *)
(** * The wire format the file-system and the RPC daemon share

    Both daemons exchange packets with the modem through slots of a shared
    buffer: a CCCI header of four words, an operation, the number of arguments
    and the arguments, each one its length, its bytes and padding to a word
    boundary.

    [SharedBuf] is what a daemon promises to this file: globals with one byte
    array that holds its slots.  The accesses to it ([buf_read], [buf_write] and
    their word versions) are bounds-checked.  The rest describes the encoding
    ([args_at], [is_packet]) and what stays of the memory around a write
    ([same_outside]). *)
From S2P Require Import Prelude Posix.

(** Structure sizes on the 32-bit target: [unsigned int], the header
    [CCCI_BUFF_T], and [STREAM_DATA], the header and the operation. *)
Definition sizeof_uint : Z := 4.
Definition sizeof_CCCI_BUFF_T : Z := 16.
Definition sizeof_STREAM_DATA : Z := 20.

(** [((x + 3) >> 2) << 2] on an [unsigned int]. *)
Definition align4 (x : Z) : Z := u32 (Z.shiftl (Z.shiftr (u32 (x + 3)) 2) 2).

(** ** The shared buffer of a daemon *)

Class SharedBuf (X : Type) := {
  shared : X -> list Z;
  set_shared : list Z -> X -> X;
  shared_set : forall m g, shared (set_shared m g) = m;
  set_shared_twice : forall m m' g, set_shared m (set_shared m' g) = set_shared m g;
  set_shared_id : forall g, set_shared (shared g) g = g
}.

Section Buffer.
Context `{OS} `{SharedBuf X}.
Abbreviation M := (prog X).

Definition buf_write (off : Z) (bs : list Z) : M unit :=
  g ← pget;
  m ← popt OutOfBounds (mwrite (shared g) off bs);
  pmod (set_shared m).

Definition buf_read (off len : Z) : M (list Z) :=
  g ← pget;
  popt OutOfBounds (mread (shared g) off len).

Definition buf_get32 (off : Z) : M Z := bs ← buf_read off 4; mret (de32 bs).
Definition buf_put32 (off v : Z) : M unit := buf_write off (le32 v).

(** The world with another contents of the shared buffer. *)
Definition with_buf (m : list Z) (w : world X) : world X := set_glob (set_shared m (w_glob w)) w.
Definition buf (w : world X) : list Z := shared (w_glob w).

Lemma with_buf_twice m m' w : with_buf m (with_buf m' w) = with_buf m w.
Proof. unfold with_buf, set_glob; simpl. by rewrite set_shared_twice. Qed.

Lemma with_buf_id w : with_buf (buf w) w = w.
Proof. destruct w. unfold with_buf, buf, set_glob; simpl. by rewrite set_shared_id. Qed.

Lemma buf_with_buf m w : buf (with_buf m w) = m.
Proof. apply shared_set. Qed.

Lemma buf_read_eq off len bs w : mread (buf w) off len = Some bs -> buf_read off len w = (w, Ok bs).
Proof. unfold buf_read, mbind, prog_bind, pget, buf. by intros ->. Qed.

Lemma buf_get32_eq off v w : mread32 (buf w) off = Some v -> buf_get32 off w = (w, Ok v).
Proof.
  unfold mread32. intros Hv. apply fmap_Some in Hv as (bs & Hbs & ->).
  unfold buf_get32. by rewrite (bind_ok _ _ _ _ _ (buf_read_eq _ _ _ _ Hbs)).
Qed.

Lemma buf_write_eq off bs m w : mwrite (buf w) off bs = Some m -> buf_write off bs w = (with_buf m w, Ok tt).
Proof. unfold buf_write, mbind, prog_bind, pget, buf. intros ->. done. Qed.

Lemma buf_put32_eq off v m w : mwrite (buf w) off (le32 v) = Some m -> buf_put32 off v w = (with_buf m w, Ok tt).
Proof. apply buf_write_eq. Qed.

(** The same from a world whose buffer is given. *)
Lemma buf_read_with off len bs m w :
  mread m off len = Some bs -> buf_read off len (with_buf m w) = (with_buf m w, Ok bs).
Proof. intros Hm. apply buf_read_eq. by rewrite buf_with_buf. Qed.

Lemma buf_get32_with off v m w :
  mread32 m off = Some v -> buf_get32 off (with_buf m w) = (with_buf m w, Ok v).
Proof. intros Hm. apply buf_get32_eq. by rewrite buf_with_buf. Qed.

Lemma buf_write_with off bs m m' w :
  mwrite m off bs = Some m' -> buf_write off bs (with_buf m w) = (with_buf m' w, Ok tt).
Proof. intros Hm. rewrite (buf_write_eq _ _ m'), with_buf_twice; [done|]. by rewrite buf_with_buf. Qed.

Lemma buf_put32_with off v m m' w :
  mwrite m off (le32 v) = Some m' -> buf_put32 off v (with_buf m w) = (with_buf m' w, Ok tt).
Proof. apply buf_write_with. Qed.

Lemma keeps_buf_read off n : keeps_glob (buf_read off n).
Proof. unfold buf_read. keeps. Qed.

Lemma keeps_buf_get32 off : keeps_glob (buf_get32 off).
Proof. unfold buf_get32. apply keeps_bind; [apply keeps_buf_read|intros ?; apply keeps_ret]. Qed.

End Buffer.

#[export] Hint Resolve keeps_buf_read keeps_buf_get32 : cfs.
#[global] Arguments buf : simpl never.
#[global] Arguments with_buf : simpl never.

(** ** Encodings of arguments *)

(** The arguments [args] are in the memory [m] from [off] on: each one is its
    length, its bytes and padding to a word boundary. *)
Fixpoint args_at (m : list Z) (off : Z) (args : list (list Z)) : Prop :=
  match args with
  | [] => True
  | a :: args' =>
      mread32 m off = Some (zlen a) /\ mread m (off + 4) (zlen a) = Some a /\
      args_at m (off + 4 + align4 (zlen a)) args'
  end.

(** The bytes they take. *)
Fixpoint args_size (args : list (list Z)) : Z :=
  match args with
  | [] => 0
  | a :: args' => 4 + align4 (zlen a) + args_size args'
  end.

Lemma align4_small x : 0 <= x < 2 ^ 32 - 4 -> align4 x = (x + 3) / 4 * 4.
Proof.
  intros Hx. unfold align4. rewrite (u32_small (x + 3)) by lia.
  rewrite Z.shiftr_div_pow2, Z.shiftl_mul_pow2 by lia. change (2 ^ 2) with 4.
  apply u32_small. pose proof (Z.div_mod (x + 3) 4). pose proof (Z.mod_pos_bound (x + 3) 4). lia.
Qed.

Lemma align4_bounds x : 0 <= x < 2 ^ 32 - 4 -> x <= align4 x < x + 4.
Proof.
  intros Hx. rewrite align4_small by done.
  pose proof (Z.div_mod (x + 3) 4). pose proof (Z.mod_pos_bound (x + 3) 4). lia.
Qed.

Lemma align4_nonneg x : 0 <= align4 x.
Proof. unfold align4. apply u32_range. Qed.

Lemma args_size_nonneg args : 0 <= args_size args.
Proof. induction args as [|a args IH]; simpl; [done|]. pose proof (align4_nonneg (zlen a)). lia. Qed.

Lemma args_size_count args : 4 * zlen args <= args_size args.
Proof.
  induction args as [|a args IH]; [done|]. simpl.
  pose proof (align4_nonneg (zlen a)). unfold zlen in *. simpl in *. lia.
Qed.

(** Whether the answer fits: the running test of the code. *)
Fixpoint args_fit (max_size DataLength : Z) (args : list (list Z)) : bool :=
  match args with
  | [] => true
  | a :: args' =>
      negb (DataLength + 8 + zlen a >? max_size)
      && args_fit max_size (DataLength + 4 + align4 (zlen a)) args'
  end.

(** Two memories that agree outside a range. *)
Definition same_outside (lo hi : Z) (m m' : list Z) : Prop :=
  length m = length m' /\
  forall off len, off + len <= lo \/ hi <= off -> mread m' off len = mread m off len.

Lemma same_outside_refl lo hi m : same_outside lo hi m m.
Proof. done. Qed.

Lemma same_outside_write lo hi m m1 m' off bs :
  mwrite m off bs = Some m1 -> lo <= off -> off + zlen bs <= hi ->
  same_outside lo hi m1 m' -> same_outside lo hi m m'.
Proof.
  intros Hw Hlo Hhi [Hl Hs]. split; [by rewrite <- (length_mwrite _ _ _ _ Hw)|].
  intros o l Hol. rewrite Hs by done. apply (mread_mwrite_disjoint _ _ _ _ _ _ Hw). lia.
Qed.

Lemma same_outside_trans lo mid hi m m1 m' :
  same_outside lo mid m m1 -> same_outside mid hi m1 m' -> lo <= mid <= hi -> same_outside lo hi m m'.
Proof.
  intros [Hl1 H1] [Hl2 H2] Hm. split; [congruence|]. intros off len Ho.
  rewrite H2 by lia. apply H1. lia.
Qed.

Lemma args_at_ext m m' off args :
  (forall o l, off <= o -> o + l <= off + args_size args -> mread m' o l = mread m o l) ->
  Forall (fun a => zlen a < 2 ^ 31) args -> args_at m off args -> args_at m' off args.
Proof.
  revert off. induction args as [|a args IH]; intros off Hm Hsz; simpl in *; [done|].
  apply Forall_cons in Hsz as [Hsa Hsz].
  intros (H1 & H2 & H3). pose proof (args_size_nonneg args). pose proof (align4_nonneg (zlen a)).
  pose proof (zlen_nonneg a). pose proof (align4_bounds (zlen a) ltac:(lia)).
  unfold mread32 in *. rewrite !Hm by lia. split_and!; [done..|]. apply IH; [|done|done]. intros. apply Hm; lia.
Qed.

Lemma args_fit_bound max_size DL a args :
  args_fit max_size DL (a :: args) = true -> DL + 8 + zlen a <= max_size.
Proof. simpl. intros Hf. zbool. rewrite Z.gtb_ltb in *. zbool. lia. Qed.

(** A packet on the wire: the CCCI header, the operation, the number of the
    arguments and the arguments. *)
Definition is_packet (bs : list Z) (d0 channel reserved op : Z) (args : list (list Z)) : Prop :=
  zlen bs = 24 + args_size args /\
  mread32 bs 0 = Some (u32 d0) /\ mread32 bs 4 = Some (zlen bs) /\ mread32 bs 8 = Some (u32 channel) /\
  mread32 bs 12 = Some reserved /\ mread32 bs 16 = Some (u32 op) /\
  mread32 bs 20 = Some (zlen args) /\ args_at bs 24 args.

Lemma args_at_in m off len bs o args :
  mread m off len = Some bs -> 0 <= o -> o + args_size args <= len ->
  Forall (fun a => zlen a < 2 ^ 31) args -> args_at m (off + o) args -> args_at bs o args.
Proof.
  intros Hbs. revert o. induction args as [|a args IH]; intros o Ho Hfit Hlen; simpl in *; [done|].
  apply Forall_cons in Hlen as [Ha Hlen]. intros (H1 & H2 & H3).
  pose proof (zlen_nonneg a). pose proof (args_size_nonneg args).
  pose proof (align4_bounds (zlen a) ltac:(lia)).
  unfold mread32 in *. rewrite !(mread_in _ _ _ _ _ _ Hbs) by lia.
  replace (off + (o + 4)) with (off + o + 4) by lia. split_and!; [done..|].
  apply IH; [lia|lia|done|]. by replace (off + (o + 4 + align4 (zlen a))) with (off + o + 4 + align4 (zlen a)) by lia.
Qed.

(** The word at an offset after a sequence of writes: [mget] reads through the
    last one, [mskip] passes one that is elsewhere. *)
Lemma mread32_skip m off bs m' o :
  mwrite m off bs = Some m' -> o + 4 <= off \/ off + zlen bs <= o -> mread32 m' o = mread32 m o.
Proof. intros Hw Ho. unfold mread32. by rewrite (mread_mwrite_disjoint _ _ _ _ _ _ Hw). Qed.

Lemma mread32_Some_range m off v : mread32 m off = Some v -> 0 <= off /\ off + 4 <= zlen m.
Proof.
  unfold mread32. intros Hv. apply fmap_Some in Hv as (bs & Hbs & _). apply mread_Some in Hbs. lia.
Qed.

Lemma put32_Some m off v o x : mread32 m o = Some x -> off = o -> exists m', mwrite m off (le32 v) = Some m'.
Proof.
  intros Hx ->. apply mread32_Some_range in Hx. apply mwrite_is_Some; [lia|rewrite zlen_le32; lia].
Qed.

Lemma mread32_in m off len bs o :
  mread m off len = Some bs -> 0 <= o -> o + 4 <= len -> mread32 bs o = mread32 m (off + o).
Proof. intros Hbs Ho Hl. unfold mread32. by rewrite (mread_in _ _ _ _ _ _ Hbs) by lia. Qed.

(** The three words of the header that are written, and what they leave. *)
Lemma header_written m slot len channel d0 :
  0 <= slot -> 24 <= len -> slot + len <= zlen m ->
  exists m4 m5 m6 bs,
    mwrite m (slot + 8) (le32 channel) = Some m4 /\ mwrite m4 slot (le32 d0) = Some m5 /\
    mwrite m5 (slot + 4) (le32 len) = Some m6 /\ mread m6 slot len = Some bs /\
    (mread32 m6 slot = Some (u32 d0) /\ mread32 m6 (slot + 4) = Some (u32 len) /\
     mread32 m6 (slot + 8) = Some (u32 channel)) /\
    forall o l, slot + 12 <= o -> mread m6 o l = mread m o l.
Proof.
  intros Hs Hlen Hm.
  destruct (mwrite_is_Some m (slot + 8) (le32 channel)) as [m4 H4]; [lia|rewrite zlen_le32; lia|].
  pose proof (length_mwrite _ _ _ _ H4).
  destruct (mwrite_is_Some m4 slot (le32 d0)) as [m5 H5]; [lia|rewrite zlen_le32; unfold zlen in *; lia|].
  pose proof (length_mwrite _ _ _ _ H5).
  destruct (mwrite_is_Some m5 (slot + 4) (le32 len)) as [m6 H6]; [lia|rewrite zlen_le32; unfold zlen in *; lia|].
  pose proof (length_mwrite _ _ _ _ H6).
  destruct (mread_is_Some m6 slot len) as [bs Hbs]; [lia|lia|unfold zlen in *; lia|].
  exists m4, m5, m6, bs. split_and!; try done.
  - rewrite (mread32_skip _ _ _ _ _ H6) by (rewrite zlen_le32; lia). apply (mread32_put _ _ _ _ H5).
  - apply (mread32_put _ _ _ _ H6).
  - rewrite (mread32_skip _ _ _ _ _ H6), (mread32_skip _ _ _ _ _ H5) by (rewrite zlen_le32; lia).
    apply (mread32_put _ _ _ _ H4).
  - intros o l Ho. rewrite (mread_mwrite_disjoint _ _ _ _ _ _ H6), (mread_mwrite_disjoint _ _ _ _ _ _ H5),
      (mread_mwrite_disjoint _ _ _ _ _ _ H4) by (rewrite zlen_le32; lia). done.
Qed.

(** With the header written over it, a slot that holds an operation and
    arguments is a packet. *)
Lemma header_packet m slot channel d0 reserved op args :
  0 <= slot -> slot + 24 + args_size args <= zlen m -> 24 + args_size args < 2 ^ 31 ->
  Forall (fun a => zlen a < 2 ^ 31) args -> args_at m (slot + 24) args ->
  mread32 m (slot + 12) = Some reserved -> mread32 m (slot + 16) = Some (u32 op) ->
  mread32 m (slot + 20) = Some (zlen args) ->
  exists m4 m5 m6 bs,
    mwrite m (slot + 8) (le32 (u32 channel)) = Some m4 /\ mwrite m4 slot (le32 d0) = Some m5 /\
    mwrite m5 (slot + 4) (le32 (24 + args_size args)) = Some m6 /\
    mread m6 slot (24 + args_size args) = Some bs /\
    is_packet bs d0 channel reserved op args.
Proof.
  intros Hs Hfit Hsz Hlen Hargs H12 H16 H20. pose proof (args_size_nonneg args).
  destruct (header_written m slot (24 + args_size args) (u32 channel) d0)
    as (m4 & m5 & m6 & bs & H4 & H5 & H6 & Hbs & (Hl0 & Hl4 & Hl8) & Hhigh); [lia|lia|lia|].
  exists m4, m5, m6, bs. split_and!; [done..|].
  pose proof (length_mread _ _ _ _ Hbs) as Hbl. unfold is_packet. rewrite Hbl.
  rewrite !(mread32_in _ _ _ _ _ Hbs) by lia.
  assert (forall o, slot + 12 <= o -> mread32 m6 o = mread32 m o) as Hhigh32.
  { intros o Ho. unfold mread32. by rewrite Hhigh. }
  rewrite (Hhigh32 (slot + 12)), (Hhigh32 (slot + 16)), (Hhigh32 (slot + 20)) by lia.
  rewrite H12, H16, H20, Z.add_0_r. rewrite u32_u32 in Hl8. split_and!; try done.
  - rewrite Hl4. f_equal. apply u32_small. lia.
  - eapply args_at_in; [exact Hbs|lia|lia|done|].
    eapply args_at_ext; [|done|exact Hargs]. intros o l Ho _. apply Hhigh. lia.
Qed.
