(* ===== verification/FsdTypes.v ===== *)
(** * ccci_fsd: data model

    The constants, records and globals of [ccci_fsd.h] and [ccci_fsd.c].  The
    daemon is a 32-bit program ([LOCAL_MULTILIB := 32] in its Android.mk):
    [unsigned int], [size_t], [long], [off_t] and pointers are 32 bits wide.

    [pFsBuf], the shared buffer of the request slots, is one byte array, so that
    requests, responses and read data alias the way they do in the code; the
    [pData] of a packet argument is a pointer: an offset into that array, a
    variable of [main], or uninitialised. *)
From S2P Require Import Prelude Posix Wire.

(** ** Constants *)

Definition PATH_MAX : Z := 4096.
Definition NAME_MAX : Z := 255.

Definition FS_API_RESP_ID : Z := 0xFFFF0000.
Definition FS_FILE_MAX : Z := 129.
Definition FS_REQ_BUFFER_MUN : Z := 5.
Definition FS_MAX_DIR_NUM : nat := 8.
Definition INVALID_HANDLE_VALUE : Z := -1.
Definition FS_BUFFER_SLOT_NUM : Z := 5.
Definition MAX_FS_PKT_BYTE : Z := 3584 - 128.
Definition MAX_FS_BUF_BYTE : Z := 4096.
Definition CCCI_FS_REQ_SEND_AGAIN : Z := 0x80000000.
Definition MODEM_POST_FIX_LENGTH : Z := 12.
Definition MD_DIR_ATTR : Z := 504. (* 0770 *)

Definition FS_NO_ERROR : Z := 0.
Definition FS_ERROR_RESERVED : Z := -1.
Definition FS_PARAM_ERROR : Z := -2.
Definition FS_DRIVE_NOT_FOUND : Z := -4.
Definition FS_TOO_MANY_FILES : Z := -5.
Definition FS_NO_MORE_FILES : Z := -6.
Definition FS_FILE_NOT_FOUND : Z := -9.
Definition FS_INVALID_FILE_HANDLE : Z := -10.
Definition FS_UNSUPPORTED_DRIVER_FUNCTION : Z := -12.
Definition FS_ACCESS_DENIED : Z := -16.
Definition FS_GENERAL_FAILURE : Z := -18.
Definition FS_PATH_NOT_FOUND : Z := -19.
Definition FS_READ_ONLY_ERROR : Z := -45.
Definition FS_PATH_OVER_LEN_ERROR : Z := -49.

Definition FS_ATTR_READ_ONLY : Z := 0x01.
Definition FS_ATTR_DIR : Z := 0x10.

Definition FS_READ_ONLY : Z := 0x00000100.
Definition FS_CREATE : Z := 0x00010000.
Definition FS_CREATE_ALWAYS : Z := 0x00020000.
Definition FS_COMMITTED : Z := 0x01000000.
Definition FS_NONBLOCK_MODE : Z := 0x10000000.

Definition FS_NO_ALT_DRIVE : Z := 0x00000001.
Definition FS_ONLY_ALT_SERIAL : Z := 0x00000002.
Definition FS_DRIVE_I_SYSTEM : Z := 0x00000004.
Definition FS_DRIVE_V_NORMAL : Z := 0x00000008.
Definition FS_DRIVE_V_REMOVABLE : Z := 0x00000010.

Definition FS_MOVE_COPY : Z := 0x00000001.
Definition FS_MOVE_KILL : Z := 0x00000002.
Definition FS_FILE_TYPE : Z := 0x00000004.
Definition FS_DIR_TYPE : Z := 0x00000008.
Definition FS_RECURSIVE_TYPE : Z := 0x00000010.
Definition FS_MOVE_OVERWRITE : Z := 0x00010000.

Definition FS_COUNT_IN_CLUSTER : Z := 0x00000002.

Definition FS_BIN_REGION_BACKUP : Z := 0x1.
Definition FS_BIN_REGION_RESTORE : Z := 0x2.
Definition FS_BIN_REGION_ERASE : Z := 0x3.

Definition FS_FILE_BEGIN : Z := 0.
Definition FS_FILE_CURRENT : Z := 1.
Definition FS_FILE_END : Z := 2.

Definition FS_NOT_MATCH : Z := 0.
Definition FS_LFN_MATCH : Z := 1.

Definition FS_BUFF_IDLE : Z := 0.
Definition FS_BUFF_WAIT : Z := 1.

Definition FS_CMPT_OPEN : Z := 1.
Definition FS_CMPT_GETFILESIZE : Z := 2.
Definition FS_CMPT_SEEK : Z := 4.
Definition FS_CMPT_READ : Z := 8.
Definition FS_CMPT_CLOSE : Z := 16.
Definition FS_CMPT_WRITE : Z := 32.

(** [sizeof (FS_BUF)] on the 32-bit target. *)
Definition sizeof_FS_BUF : Z := 4.

(** The operation identifiers of a request. *)
Inductive FS_CCCI_OP_ID :=
| FS_CCCI_OP_OPEN
| FS_CCCI_OP_SEEK
| FS_CCCI_OP_READ
| FS_CCCI_OP_WRITE
| FS_CCCI_OP_CLOSE
| FS_CCCI_OP_CLOSEALL
| FS_CCCI_OP_CREATEDIR
| FS_CCCI_OP_REMOVEDIR
| FS_CCCI_OP_GETFILESIZE
| FS_CCCI_OP_GETFOLDERSIZE
| FS_CCCI_OP_RENAME
| FS_CCCI_OP_MOVE
| FS_CCCI_OP_COUNT
| FS_CCCI_OP_GETDISKINFO
| FS_CCCI_OP_DELETE
| FS_CCCI_OP_GETATTRIBUTES
| FS_CCCI_OP_OPENHINT
| FS_CCCI_OP_FINDFIRST
| FS_CCCI_OP_FINDNEXT
| FS_CCCI_OP_FINDCLOSE
| FS_CCCI_OP_LOCKFAT
| FS_CCCI_OP_UNLOCKALL
| FS_CCCI_OP_SHUTDOWN
| FS_CCCI_OP_XDELETE
| FS_CCCI_OP_CLEARDISKFLAG
| FS_CCCI_OP_GETDRIVE
| FS_CCCI_OP_GETCLUSTERSIZE
| FS_CCCI_OP_SETDISKFLAG
| FS_CCCI_OP_OTP_WRITE
| FS_CCCI_OP_OTP_READ
| FS_CCCI_OP_OTP_QUERYLEN
| FS_CCCI_OP_OTP_LOCK
| FS_CCCI_OP_RESTORE
| FS_CCCI_OP_CMPT_READ
| FS_CCCI_OP_BIN_REGION_ACCESS
| FS_CCCI_OP_CMPT_WRITE
| FS_CCCI_OP_GETFILEDETAIL.

(** The enumerator of a wire value: the [case] labels of the dispatch. *)
Definition op_of_Z (x : Z) : option FS_CCCI_OP_ID :=
  match x with
  | 0x1001 => Some FS_CCCI_OP_OPEN
  | 0x1002 => Some FS_CCCI_OP_SEEK
  | 0x1003 => Some FS_CCCI_OP_READ
  | 0x1004 => Some FS_CCCI_OP_WRITE
  | 0x1005 => Some FS_CCCI_OP_CLOSE
  | 0x1006 => Some FS_CCCI_OP_CLOSEALL
  | 0x1007 => Some FS_CCCI_OP_CREATEDIR
  | 0x1008 => Some FS_CCCI_OP_REMOVEDIR
  | 0x1009 => Some FS_CCCI_OP_GETFILESIZE
  | 0x100a => Some FS_CCCI_OP_GETFOLDERSIZE
  | 0x100b => Some FS_CCCI_OP_RENAME
  | 0x100c => Some FS_CCCI_OP_MOVE
  | 0x100d => Some FS_CCCI_OP_COUNT
  | 0x100e => Some FS_CCCI_OP_GETDISKINFO
  | 0x100f => Some FS_CCCI_OP_DELETE
  | 0x1010 => Some FS_CCCI_OP_GETATTRIBUTES
  | 0x1011 => Some FS_CCCI_OP_OPENHINT
  | 0x1012 => Some FS_CCCI_OP_FINDFIRST
  | 0x1013 => Some FS_CCCI_OP_FINDNEXT
  | 0x1014 => Some FS_CCCI_OP_FINDCLOSE
  | 0x1015 => Some FS_CCCI_OP_LOCKFAT
  | 0x1016 => Some FS_CCCI_OP_UNLOCKALL
  | 0x1017 => Some FS_CCCI_OP_SHUTDOWN
  | 0x1018 => Some FS_CCCI_OP_XDELETE
  | 0x1019 => Some FS_CCCI_OP_CLEARDISKFLAG
  | 0x101a => Some FS_CCCI_OP_GETDRIVE
  | 0x101b => Some FS_CCCI_OP_GETCLUSTERSIZE
  | 0x101c => Some FS_CCCI_OP_SETDISKFLAG
  | 0x101d => Some FS_CCCI_OP_OTP_WRITE
  | 0x101e => Some FS_CCCI_OP_OTP_READ
  | 0x101f => Some FS_CCCI_OP_OTP_QUERYLEN
  | 0x1020 => Some FS_CCCI_OP_OTP_LOCK
  | 0x1021 => Some FS_CCCI_OP_RESTORE
  | 0x1022 => Some FS_CCCI_OP_CMPT_READ
  | 0x1023 => Some FS_CCCI_OP_BIN_REGION_ACCESS
  | 0x1024 => Some FS_CCCI_OP_CMPT_WRITE
  | 0x1025 => Some FS_CCCI_OP_GETFILEDETAIL
  | _ => None
  end.

(** ** Records *)

(** One slot of the handle table.  [fInUse] and [fSearch] only ever hold [true]
    and [false]; the two names are heap pointers, 0 for [NULL]. *)
Record FS_FILE_HANDLE := FileHandle {
  fInUse : bool;
  fSearch : bool;
  hFile : Z;
  Flag : Z;
  Attr : Z;
  AttrMask : Z;
  pFsFileName : Z;
  pFsSearchPattern : Z
}.

(** The variables of [main] a packet argument may point to. *)
Inductive main_var :=
| V_RetVal | V_ReadByte | V_WriteByte | V_FileSize | V_Length | V_DiskInfo
| V_DosDirEntry | V_FileNameTemp | V_FileDetail
| V_cmpt_ret | V_cmpt_file_size | V_cmpt_act_read
| V_cmptw_ret | V_cmptw_file_handle_ptr | V_cmptw_act_write_size.

#[export] Instance main_var_eq_dec : EqDecision main_var.
Proof. solve_decision. Defined.

Inductive ptr :=
| PBuf (off : Z)       (** into [g_FsInfo.pFsBuf] *)
| PVar (v : main_var)  (** a variable of [main] *)
| PUninit.             (** an entry of the [malloc]ed array never written *)

#[export] Instance ptr_eq_dec : EqDecision ptr.
Proof. solve_decision. Defined.

Record FS_PACKET_INFO := PacketInfo { Length : Z; pData : ptr }.

(** [bNonAck] of the C structure is written once and never read. *)
Record FS_INFO := FsInfo {
  FileNum : Z;
  hFileHandle : list FS_FILE_HANDLE;
  pFsBuf : list Z;
  fs_buff_state : list Z;
  fs_buff_offset : list Z
}.

Record FS_DOSDirEntry := DOSDirEntry {
  FileName : list Z;
  Extension : list Z;
  Attributes : Z;
  NTReserved : Z;
  CreateTimeTenthSecond : Z;
  CreateDateTime : Z;
  LastAccessDate : Z;
  FirstClusterHi : Z;
  DateTime : Z;
  FirstCluster : Z;
  DirFileSize : Z;
  Cluster : Z;
  Index : Z;
  Stamp : Z;
  Drive : Z;
  DirSerialNumber : Z
}.

Record FS_DiskInfo := DiskInfo_ {
  Label : list Z;
  DriveLetter : Z;
  WriteProtect : Z;
  Reserved : list Z;
  SerialNumber : Z;
  firstPhysicalSector : Z;
  FATType : Z;
  FATCount : Z;
  MaxDirEntries : Z;
  BytesPerSector : Z;
  SectorsPerCluster : Z;
  TotalClusters : Z;
  BadClusters : Z;
  FreeClusters : Z;
  Files : Z;
  FileChains : Z;
  FreeChains : Z;
  LargestFreeChain : Z
}.

Record FS_FileDetail := FileDetail_ {
  LastModifiedTime : Z;
  LastAccessTime : Z;
  LastStatusChangeTime : Z
}.

(** [nvram_fs_para_cmpt_t]; [cr_data_ptr] is an offset into [pFsBuf]. *)
Record nvram_fs_para_cmpt_t := CmptPara {
  cr_opid_map : Z;
  cr_ret0 : Z;
  cr_ret1 : Z;
  cr_flag : Z;
  cr_file_size : Z;
  cr_offset : Z;
  cr_whence : Z;
  cr_data_ptr : Z;
  cr_length : Z;
  cr_act_read : Z
}.

(** [nvram_fs_para_cmptw_t]. *)
Record nvram_fs_para_cmptw_t := CmptwPara {
  cw_opid_map : Z;
  cw_ret0 : Z;
  cw_ret1 : Z;
  cw_flag : Z;
  cw_offset : Z;
  cw_whence : Z;
  cw_data_ptr : Z;
  cw_length : Z;
  cw_file_handle : Z;
  cw_file_handle_ptr : Z;
  cw_act_write_size : Z
}.

Record SLOW_THAN_100MS_T := Slow100ms {
  profiling : bool;
  count : Z;
  totaltime : Z
}.

(** The locals of [main] that live across requests.  [OtpLength] is the
    variable [Length]; [pFsBuf_ptr] is the local pointer [pFsBuf], an offset plus
    one, 0 for [NULL]. *)
Record main_vars := MainVars {
  RetVal : Z;
  ReadByte : Z;
  WriteByte : Z;
  FileSize : Z;
  OtpLength : Z;
  DiskInfo : FS_DiskInfo;
  DosDirEntry : FS_DOSDirEntry;
  FileNameTemp : list Z;
  FileDetail : FS_FileDetail;
  in_cmpt_para : nvram_fs_para_cmpt_t;
  in_cmptw_para : nvram_fs_para_cmptw_t;
  PackInfo : list FS_PACKET_INFO;
  PacketNum : Z;
  ReqBufIndex : Z;
  pFsBuf_ptr : Z
}.

(** The globals of the process ([otp_offset] is in fsd_platform.c). *)
Record fsd := Fsd {
  g_FsInfo : FS_INFO;
  slower_100ms : SLOW_THAN_100MS_T;
  vars : main_vars;
  FsRootDir : list (list Z);
  stream_support : bool;
  DeviceFd : Z;
  FS_MAX_BUF_SIZE : Z;
  FS_MAX_ARG_NUM : Z;
  md_id : Z;
  md_status_fd : Z;
  otp_offset : Z;
  exit_signal : Z
}.

(** ** Field updates *)

Definition set_fInUse (v : bool) (r : FS_FILE_HANDLE) : FS_FILE_HANDLE :=
  FileHandle v (fSearch r) (hFile r) (Flag r) (Attr r) (AttrMask r) (pFsFileName r) (pFsSearchPattern r).
Definition set_fSearch (v : bool) (r : FS_FILE_HANDLE) : FS_FILE_HANDLE :=
  FileHandle (fInUse r) v (hFile r) (Flag r) (Attr r) (AttrMask r) (pFsFileName r) (pFsSearchPattern r).
Definition set_hFile (v : Z) (r : FS_FILE_HANDLE) : FS_FILE_HANDLE :=
  FileHandle (fInUse r) (fSearch r) v (Flag r) (Attr r) (AttrMask r) (pFsFileName r) (pFsSearchPattern r).
Definition set_Flag (v : Z) (r : FS_FILE_HANDLE) : FS_FILE_HANDLE :=
  FileHandle (fInUse r) (fSearch r) (hFile r) v (Attr r) (AttrMask r) (pFsFileName r) (pFsSearchPattern r).
Definition set_Attr (v : Z) (r : FS_FILE_HANDLE) : FS_FILE_HANDLE :=
  FileHandle (fInUse r) (fSearch r) (hFile r) (Flag r) v (AttrMask r) (pFsFileName r) (pFsSearchPattern r).
Definition set_AttrMask (v : Z) (r : FS_FILE_HANDLE) : FS_FILE_HANDLE :=
  FileHandle (fInUse r) (fSearch r) (hFile r) (Flag r) (Attr r) v (pFsFileName r) (pFsSearchPattern r).
Definition set_pFsFileName (v : Z) (r : FS_FILE_HANDLE) : FS_FILE_HANDLE :=
  FileHandle (fInUse r) (fSearch r) (hFile r) (Flag r) (Attr r) (AttrMask r) v (pFsSearchPattern r).
Definition set_pFsSearchPattern (v : Z) (r : FS_FILE_HANDLE) : FS_FILE_HANDLE :=
  FileHandle (fInUse r) (fSearch r) (hFile r) (Flag r) (Attr r) (AttrMask r) (pFsFileName r) v.
Definition set_FileNum (v : Z) (r : FS_INFO) : FS_INFO :=
  FsInfo v (hFileHandle r) (pFsBuf r) (fs_buff_state r) (fs_buff_offset r).
Definition set_hFileHandle (v : list FS_FILE_HANDLE) (r : FS_INFO) : FS_INFO :=
  FsInfo (FileNum r) v (pFsBuf r) (fs_buff_state r) (fs_buff_offset r).
Definition set_pFsBuf (v : list Z) (r : FS_INFO) : FS_INFO :=
  FsInfo (FileNum r) (hFileHandle r) v (fs_buff_state r) (fs_buff_offset r).
Definition set_fs_buff_state (v : list Z) (r : FS_INFO) : FS_INFO :=
  FsInfo (FileNum r) (hFileHandle r) (pFsBuf r) v (fs_buff_offset r).
Definition set_fs_buff_offset (v : list Z) (r : FS_INFO) : FS_INFO :=
  FsInfo (FileNum r) (hFileHandle r) (pFsBuf r) (fs_buff_state r) v.
Definition set_NTReserved (v : Z) (r : FS_DOSDirEntry) : FS_DOSDirEntry :=
  DOSDirEntry (FileName r) (Extension r) (Attributes r) v (CreateTimeTenthSecond r) (CreateDateTime r) (LastAccessDate r) (FirstClusterHi r) (DateTime r) (FirstCluster r) (DirFileSize r) (Cluster r) (Index r) (Stamp r) (Drive r) (DirSerialNumber r).
Definition set_cr_ret0 (v : Z) (r : nvram_fs_para_cmpt_t) : nvram_fs_para_cmpt_t :=
  CmptPara (cr_opid_map r) v (cr_ret1 r) (cr_flag r) (cr_file_size r) (cr_offset r) (cr_whence r) (cr_data_ptr r) (cr_length r) (cr_act_read r).
Definition set_cr_ret1 (v : Z) (r : nvram_fs_para_cmpt_t) : nvram_fs_para_cmpt_t :=
  CmptPara (cr_opid_map r) (cr_ret0 r) v (cr_flag r) (cr_file_size r) (cr_offset r) (cr_whence r) (cr_data_ptr r) (cr_length r) (cr_act_read r).
Definition set_cr_file_size (v : Z) (r : nvram_fs_para_cmpt_t) : nvram_fs_para_cmpt_t :=
  CmptPara (cr_opid_map r) (cr_ret0 r) (cr_ret1 r) (cr_flag r) v (cr_offset r) (cr_whence r) (cr_data_ptr r) (cr_length r) (cr_act_read r).
Definition set_cr_data_ptr (v : Z) (r : nvram_fs_para_cmpt_t) : nvram_fs_para_cmpt_t :=
  CmptPara (cr_opid_map r) (cr_ret0 r) (cr_ret1 r) (cr_flag r) (cr_file_size r) (cr_offset r) (cr_whence r) v (cr_length r) (cr_act_read r).
Definition set_cr_act_read (v : Z) (r : nvram_fs_para_cmpt_t) : nvram_fs_para_cmpt_t :=
  CmptPara (cr_opid_map r) (cr_ret0 r) (cr_ret1 r) (cr_flag r) (cr_file_size r) (cr_offset r) (cr_whence r) (cr_data_ptr r) (cr_length r) v.
Definition set_cw_ret0 (v : Z) (r : nvram_fs_para_cmptw_t) : nvram_fs_para_cmptw_t :=
  CmptwPara (cw_opid_map r) v (cw_ret1 r) (cw_flag r) (cw_offset r) (cw_whence r) (cw_data_ptr r) (cw_length r) (cw_file_handle r) (cw_file_handle_ptr r) (cw_act_write_size r).
Definition set_cw_ret1 (v : Z) (r : nvram_fs_para_cmptw_t) : nvram_fs_para_cmptw_t :=
  CmptwPara (cw_opid_map r) (cw_ret0 r) v (cw_flag r) (cw_offset r) (cw_whence r) (cw_data_ptr r) (cw_length r) (cw_file_handle r) (cw_file_handle_ptr r) (cw_act_write_size r).
Definition set_cw_file_handle_ptr (v : Z) (r : nvram_fs_para_cmptw_t) : nvram_fs_para_cmptw_t :=
  CmptwPara (cw_opid_map r) (cw_ret0 r) (cw_ret1 r) (cw_flag r) (cw_offset r) (cw_whence r) (cw_data_ptr r) (cw_length r) (cw_file_handle r) v (cw_act_write_size r).
Definition set_cw_act_write_size (v : Z) (r : nvram_fs_para_cmptw_t) : nvram_fs_para_cmptw_t :=
  CmptwPara (cw_opid_map r) (cw_ret0 r) (cw_ret1 r) (cw_flag r) (cw_offset r) (cw_whence r) (cw_data_ptr r) (cw_length r) (cw_file_handle r) (cw_file_handle_ptr r) v.
Definition set_RetVal (v : Z) (r : main_vars) : main_vars :=
  MainVars v (ReadByte r) (WriteByte r) (FileSize r) (OtpLength r) (DiskInfo r) (DosDirEntry r) (FileNameTemp r) (FileDetail r) (in_cmpt_para r) (in_cmptw_para r) (PackInfo r) (PacketNum r) (ReqBufIndex r) (pFsBuf_ptr r).
Definition set_ReadByte (v : Z) (r : main_vars) : main_vars :=
  MainVars (RetVal r) v (WriteByte r) (FileSize r) (OtpLength r) (DiskInfo r) (DosDirEntry r) (FileNameTemp r) (FileDetail r) (in_cmpt_para r) (in_cmptw_para r) (PackInfo r) (PacketNum r) (ReqBufIndex r) (pFsBuf_ptr r).
Definition set_WriteByte (v : Z) (r : main_vars) : main_vars :=
  MainVars (RetVal r) (ReadByte r) v (FileSize r) (OtpLength r) (DiskInfo r) (DosDirEntry r) (FileNameTemp r) (FileDetail r) (in_cmpt_para r) (in_cmptw_para r) (PackInfo r) (PacketNum r) (ReqBufIndex r) (pFsBuf_ptr r).
Definition set_FileSize (v : Z) (r : main_vars) : main_vars :=
  MainVars (RetVal r) (ReadByte r) (WriteByte r) v (OtpLength r) (DiskInfo r) (DosDirEntry r) (FileNameTemp r) (FileDetail r) (in_cmpt_para r) (in_cmptw_para r) (PackInfo r) (PacketNum r) (ReqBufIndex r) (pFsBuf_ptr r).
Definition set_OtpLength (v : Z) (r : main_vars) : main_vars :=
  MainVars (RetVal r) (ReadByte r) (WriteByte r) (FileSize r) v (DiskInfo r) (DosDirEntry r) (FileNameTemp r) (FileDetail r) (in_cmpt_para r) (in_cmptw_para r) (PackInfo r) (PacketNum r) (ReqBufIndex r) (pFsBuf_ptr r).
Definition set_DiskInfo (v : FS_DiskInfo) (r : main_vars) : main_vars :=
  MainVars (RetVal r) (ReadByte r) (WriteByte r) (FileSize r) (OtpLength r) v (DosDirEntry r) (FileNameTemp r) (FileDetail r) (in_cmpt_para r) (in_cmptw_para r) (PackInfo r) (PacketNum r) (ReqBufIndex r) (pFsBuf_ptr r).
Definition set_DosDirEntry (v : FS_DOSDirEntry) (r : main_vars) : main_vars :=
  MainVars (RetVal r) (ReadByte r) (WriteByte r) (FileSize r) (OtpLength r) (DiskInfo r) v (FileNameTemp r) (FileDetail r) (in_cmpt_para r) (in_cmptw_para r) (PackInfo r) (PacketNum r) (ReqBufIndex r) (pFsBuf_ptr r).
Definition set_FileNameTemp (v : list Z) (r : main_vars) : main_vars :=
  MainVars (RetVal r) (ReadByte r) (WriteByte r) (FileSize r) (OtpLength r) (DiskInfo r) (DosDirEntry r) v (FileDetail r) (in_cmpt_para r) (in_cmptw_para r) (PackInfo r) (PacketNum r) (ReqBufIndex r) (pFsBuf_ptr r).
Definition set_FileDetail (v : FS_FileDetail) (r : main_vars) : main_vars :=
  MainVars (RetVal r) (ReadByte r) (WriteByte r) (FileSize r) (OtpLength r) (DiskInfo r) (DosDirEntry r) (FileNameTemp r) v (in_cmpt_para r) (in_cmptw_para r) (PackInfo r) (PacketNum r) (ReqBufIndex r) (pFsBuf_ptr r).
Definition set_in_cmpt_para (v : nvram_fs_para_cmpt_t) (r : main_vars) : main_vars :=
  MainVars (RetVal r) (ReadByte r) (WriteByte r) (FileSize r) (OtpLength r) (DiskInfo r) (DosDirEntry r) (FileNameTemp r) (FileDetail r) v (in_cmptw_para r) (PackInfo r) (PacketNum r) (ReqBufIndex r) (pFsBuf_ptr r).
Definition set_in_cmptw_para (v : nvram_fs_para_cmptw_t) (r : main_vars) : main_vars :=
  MainVars (RetVal r) (ReadByte r) (WriteByte r) (FileSize r) (OtpLength r) (DiskInfo r) (DosDirEntry r) (FileNameTemp r) (FileDetail r) (in_cmpt_para r) v (PackInfo r) (PacketNum r) (ReqBufIndex r) (pFsBuf_ptr r).
Definition set_PackInfo (v : list FS_PACKET_INFO) (r : main_vars) : main_vars :=
  MainVars (RetVal r) (ReadByte r) (WriteByte r) (FileSize r) (OtpLength r) (DiskInfo r) (DosDirEntry r) (FileNameTemp r) (FileDetail r) (in_cmpt_para r) (in_cmptw_para r) v (PacketNum r) (ReqBufIndex r) (pFsBuf_ptr r).
Definition set_PacketNum (v : Z) (r : main_vars) : main_vars :=
  MainVars (RetVal r) (ReadByte r) (WriteByte r) (FileSize r) (OtpLength r) (DiskInfo r) (DosDirEntry r) (FileNameTemp r) (FileDetail r) (in_cmpt_para r) (in_cmptw_para r) (PackInfo r) v (ReqBufIndex r) (pFsBuf_ptr r).
Definition set_ReqBufIndex (v : Z) (r : main_vars) : main_vars :=
  MainVars (RetVal r) (ReadByte r) (WriteByte r) (FileSize r) (OtpLength r) (DiskInfo r) (DosDirEntry r) (FileNameTemp r) (FileDetail r) (in_cmpt_para r) (in_cmptw_para r) (PackInfo r) (PacketNum r) v (pFsBuf_ptr r).
Definition set_pFsBuf_ptr (v : Z) (r : main_vars) : main_vars :=
  MainVars (RetVal r) (ReadByte r) (WriteByte r) (FileSize r) (OtpLength r) (DiskInfo r) (DosDirEntry r) (FileNameTemp r) (FileDetail r) (in_cmpt_para r) (in_cmptw_para r) (PackInfo r) (PacketNum r) (ReqBufIndex r) v.
Definition set_g_FsInfo (v : FS_INFO) (r : fsd) : fsd :=
  Fsd v (slower_100ms r) (vars r) (FsRootDir r) (stream_support r) (DeviceFd r) (FS_MAX_BUF_SIZE r) (FS_MAX_ARG_NUM r) (md_id r) (md_status_fd r) (otp_offset r) (exit_signal r).
Definition set_slower_100ms (v : SLOW_THAN_100MS_T) (r : fsd) : fsd :=
  Fsd (g_FsInfo r) v (vars r) (FsRootDir r) (stream_support r) (DeviceFd r) (FS_MAX_BUF_SIZE r) (FS_MAX_ARG_NUM r) (md_id r) (md_status_fd r) (otp_offset r) (exit_signal r).
Definition set_vars (v : main_vars) (r : fsd) : fsd :=
  Fsd (g_FsInfo r) (slower_100ms r) v (FsRootDir r) (stream_support r) (DeviceFd r) (FS_MAX_BUF_SIZE r) (FS_MAX_ARG_NUM r) (md_id r) (md_status_fd r) (otp_offset r) (exit_signal r).
Definition set_FsRootDir (v : list (list Z)) (r : fsd) : fsd :=
  Fsd (g_FsInfo r) (slower_100ms r) (vars r) v (stream_support r) (DeviceFd r) (FS_MAX_BUF_SIZE r) (FS_MAX_ARG_NUM r) (md_id r) (md_status_fd r) (otp_offset r) (exit_signal r).
Definition set_stream_support (v : bool) (r : fsd) : fsd :=
  Fsd (g_FsInfo r) (slower_100ms r) (vars r) (FsRootDir r) v (DeviceFd r) (FS_MAX_BUF_SIZE r) (FS_MAX_ARG_NUM r) (md_id r) (md_status_fd r) (otp_offset r) (exit_signal r).
Definition set_DeviceFd (v : Z) (r : fsd) : fsd :=
  Fsd (g_FsInfo r) (slower_100ms r) (vars r) (FsRootDir r) (stream_support r) v (FS_MAX_BUF_SIZE r) (FS_MAX_ARG_NUM r) (md_id r) (md_status_fd r) (otp_offset r) (exit_signal r).
Definition set_FS_MAX_BUF_SIZE (v : Z) (r : fsd) : fsd :=
  Fsd (g_FsInfo r) (slower_100ms r) (vars r) (FsRootDir r) (stream_support r) (DeviceFd r) v (FS_MAX_ARG_NUM r) (md_id r) (md_status_fd r) (otp_offset r) (exit_signal r).
Definition set_FS_MAX_ARG_NUM (v : Z) (r : fsd) : fsd :=
  Fsd (g_FsInfo r) (slower_100ms r) (vars r) (FsRootDir r) (stream_support r) (DeviceFd r) (FS_MAX_BUF_SIZE r) v (md_id r) (md_status_fd r) (otp_offset r) (exit_signal r).
Definition set_md_id (v : Z) (r : fsd) : fsd :=
  Fsd (g_FsInfo r) (slower_100ms r) (vars r) (FsRootDir r) (stream_support r) (DeviceFd r) (FS_MAX_BUF_SIZE r) (FS_MAX_ARG_NUM r) v (md_status_fd r) (otp_offset r) (exit_signal r).
Definition set_md_status_fd (v : Z) (r : fsd) : fsd :=
  Fsd (g_FsInfo r) (slower_100ms r) (vars r) (FsRootDir r) (stream_support r) (DeviceFd r) (FS_MAX_BUF_SIZE r) (FS_MAX_ARG_NUM r) (md_id r) v (otp_offset r) (exit_signal r).
Definition set_otp_offset (v : Z) (r : fsd) : fsd :=
  Fsd (g_FsInfo r) (slower_100ms r) (vars r) (FsRootDir r) (stream_support r) (DeviceFd r) (FS_MAX_BUF_SIZE r) (FS_MAX_ARG_NUM r) (md_id r) (md_status_fd r) v (exit_signal r).
Definition set_exit_signal (v : Z) (r : fsd) : fsd :=
  Fsd (g_FsInfo r) (slower_100ms r) (vars r) (FsRootDir r) (stream_support r) (DeviceFd r) (FS_MAX_BUF_SIZE r) (FS_MAX_ARG_NUM r) (md_id r) (md_status_fd r) (otp_offset r) v.

(** ** Images in memory *)

Definition dosentry_bytes (d : FS_DOSDirEntry) : list Z :=
  FileName d ++ Extension d ++ [Attributes d; NTReserved d; CreateTimeTenthSecond d] ++
  le32 (CreateDateTime d) ++ le_bytes 2 (LastAccessDate d) ++ le_bytes 2 (FirstClusterHi d) ++
  le32 (DateTime d) ++ le_bytes 2 (FirstCluster d) ++ le32 (DirFileSize d) ++
  le32 (Cluster d) ++ le32 (Index d) ++ le32 (Stamp d) ++ le32 (Drive d) ++ le32 (DirSerialNumber d).

Definition diskinfo_bytes (d : FS_DiskInfo) : list Z :=
  Label d ++ [DriveLetter d; WriteProtect d] ++ Reserved d ++
  le32 (SerialNumber d) ++ le32 (firstPhysicalSector d) ++ le32 (FATType d) ++ le32 (FATCount d) ++
  le32 (MaxDirEntries d) ++ le32 (BytesPerSector d) ++ le32 (SectorsPerCluster d) ++
  le32 (TotalClusters d) ++ le32 (BadClusters d) ++ le32 (FreeClusters d) ++ le32 (Files d) ++
  le32 (FileChains d) ++ le32 (FreeChains d) ++ le32 (LargestFreeChain d).

Definition filedetail_bytes (d : FS_FileDetail) : list Z :=
  le_bytes 8 (LastModifiedTime d) ++ le_bytes 8 (LastAccessTime d) ++
  le_bytes 8 (LastStatusChangeTime d).

(** The contents of a variable of [main]. *)
Definition var_bytes (m : main_vars) (v : main_var) : list Z :=
  match v with
  | V_RetVal => le32 (RetVal m)
  | V_ReadByte => le32 (ReadByte m)
  | V_WriteByte => le32 (WriteByte m)
  | V_FileSize => le32 (FileSize m)
  | V_Length => le32 (OtpLength m)
  | V_DiskInfo => diskinfo_bytes (DiskInfo m)
  | V_DosDirEntry => dosentry_bytes (DosDirEntry m)
  | V_FileNameTemp => FileNameTemp m
  | V_FileDetail => filedetail_bytes (FileDetail m)
  | V_cmpt_ret => le32 (cr_ret0 (in_cmpt_para m)) ++ le32 (cr_ret1 (in_cmpt_para m))
  | V_cmpt_file_size => le32 (cr_file_size (in_cmpt_para m))
  | V_cmpt_act_read => le32 (cr_act_read (in_cmpt_para m))
  | V_cmptw_ret => le32 (cw_ret0 (in_cmptw_para m)) ++ le32 (cw_ret1 (in_cmptw_para m))
  | V_cmptw_file_handle_ptr => le32 (cw_file_handle_ptr (in_cmptw_para m))
  | V_cmptw_act_write_size => le32 (cw_act_write_size (in_cmptw_para m))
  end.

(** ** Access to the handle table *)

(** The value of a slot outside the array is never used: every access is
    behind the bounds check of its function. *)
Definition null_handle : FS_FILE_HANDLE := FileHandle false false 0 0 0 0 0 0.

Definition handle_at (g : fsd) (i : Z) : FS_FILE_HANDLE :=
  default null_handle (hFileHandle (g_FsInfo g) !! Z.to_nat i).

Definition upd_handle (i : Z) (f : FS_FILE_HANDLE -> FS_FILE_HANDLE) (g : fsd) : fsd :=
  set_g_FsInfo
    (set_hFileHandle (alter f (Z.to_nat i) (hFileHandle (g_FsInfo g))) (g_FsInfo g)) g.

Definition upd_FileNum (f : Z -> Z) (g : fsd) : fsd :=
  set_g_FsInfo (set_FileNum (f (FileNum (g_FsInfo g))) (g_FsInfo g)) g.

Definition upd_pFsBuf (m : list Z) (g : fsd) : fsd :=
  set_g_FsInfo (set_pFsBuf m (g_FsInfo g)) g.

#[export] Instance fsd_shared : SharedBuf fsd.
Proof.
  refine {| shared g := pFsBuf (g_FsInfo g); set_shared := upd_pFsBuf |}; try done.
  by intros [[] ? ? ? ? ? ? ? ? ? ? ?].
Defined.

Definition upd_vars (f : main_vars -> main_vars) (g : fsd) : fsd := set_vars (f (vars g)) g.

(** ** Static initialisation *)

Definition static_FsInfo : FS_INFO :=
  FsInfo 0 (replicate (Z.to_nat FS_FILE_MAX) null_handle) []
    (replicate (Z.to_nat FS_BUFFER_SLOT_NUM) FS_BUFF_IDLE) (replicate (Z.to_nat FS_BUFFER_SLOT_NUM) 0).

(** The globals of the process before [main]; [m] is what the uninitialised
    locals of [main] hold. *)
Definition static_fsd (m : main_vars) : fsd :=
  Fsd static_FsInfo (Slow100ms false 0 0) m (replicate FS_MAX_DIR_NUM []) false 0 0x4000 5 0 0 0 0.

(** Locals of [main] that happen to be zero. *)
Definition zero_vars : main_vars :=
  MainVars 0 0 0 0 0
    (DiskInfo_ (replicate 24 0) 0 0 [0; 0] 0 0 0 0 0 0 0 0 0 0 0 0 0 0)
    (DOSDirEntry (replicate 8 0) (replicate 3 0) 0 0 0 0 0 0 0 0 0 0 0 0 0 0)
    (replicate (Z.to_nat (4 * PATH_MAX)) 0) (FileDetail_ 0 0 0)
    (CmptPara 0 0 0 0 0 0 0 0 0 0) (CmptwPara 0 0 0 0 0 0 0 0 0 0 0) [] 0 0 0.
