(* ===== verification/FsdStrings.v ===== *)
(** * ccci_fsd: file names and patterns

    [FS_ConvWcsToCs] and [FS_ConvCsToWcs] translate between the modem's UTF-16
    names, with backslashes, and the C strings of the kernel; [PatMatch] and
    [PatiMatch] match directory entries against a wildcard pattern.

    The loops over memory take the bytes from the pointer to the end of its
    object and give [None] for a read outside it.  [FS_ConvWcsToCs] is bounded
    by [PATH_MAX - 1] iterations in the code itself; the other functions recurse
    on the string or the pattern. *)
From S2P Require Import Prelude Wire FsdTypes.

(** ** Conversions *)

(** The loop of [FS_ConvWcsToCs].  [src] is the memory at [ptr + length * 2],
    [out] the characters already stored in [strDst], last first; [n] is
    [PATH_MAX - 1 - length]. *)
Fixpoint FS_ConvWcsToCs_loop (n : nat) (src out : list Z) : option (Z * list Z) :=
  match n with
  | O => Some (zlen out, rev out)
  | S n' =>
      match src with
      | [] => None
      | b :: rest =>
          let c := if b =? chr_backslash then chr_slash else b in
          if (b =? chr_dot) && match out with p :: _ => p =? chr_dot | [] => false end
          then Some (-1, rev (c :: out))
          else
            match drop 1 rest with
            | [] => None
            | b2 :: _ =>
                if b2 =? 0 then Some (zlen out + 1, rev (c :: out))
                else FS_ConvWcsToCs_loop n' (drop 1 rest) (c :: out)
            end
      end
  end.

(** The return value and the characters stored in [strDst]. *)
Definition FS_ConvWcsToCs (strScr : list Z) : option (Z * list Z) :=
  FS_ConvWcsToCs_loop (Z.to_nat (PATH_MAX - 1)) strScr [].

(** The loop of [FS_ConvCsToWcs] from index [len]: the final [length] and the
    bytes stored at [ptr + len * 2]. *)
Fixpoint FS_ConvCsToWcs_loop (src : list Z) (len MaxLength : Z) : option (Z * list Z) :=
  if len <? MaxLength then
    match src with
    | [] => None
    | b :: src' =>
        let c := if b =? chr_slash then chr_backslash else b in
        match src' with
        | [] => None
        | b2 :: _ =>
            if b2 =? 0 then Some (len + 1, [c; 0; 0; 0])
            else
              match FS_ConvCsToWcs_loop src' (len + 1) MaxLength with
              | Some (l, out) => Some (l, c :: 0 :: out)
              | None => None
              end
        end
    end
  else Some (len, []).

(** The return value and the bytes stored from [strDst] on.  With
    [MaxLength = 0] the code stores at [ptr[0xFFFFFFFE]], outside the buffer. *)
Definition FS_ConvCsToWcs (strScr : list Z) (MaxLength : Z) : option (Z * list Z) :=
  match FS_ConvCsToWcs_loop (strScr ++ [0]) 0 MaxLength with
  | None => None
  | Some (len, out) =>
      if len =? MaxLength then
        match mwrite out ((len - 1) * 2) [0; 0] with
        | Some out' => Some (len - 1, out')
        | None => None
        end
      else Some (len, out)
  end.

(** ** Pattern matching *)

Definition chr_star : Z := 42.
Definition chr_question : Z := 63.

Fixpoint PatMatch (pattern : list Z) : list Z -> bool :=
  match pattern with
  | [] => fun s => match s with [] => true | _ :: _ => false end
  | c :: p' =>
      if c =? chr_star then
        fix star (s : list Z) : bool :=
          PatMatch p' s || match s with [] => false | _ :: s' => star s' end
      else if c =? chr_question then
        fun s => match s with [] => false | _ :: s' => PatMatch p' s' end
      else
        fun s => match s with [] => false | b :: s' => (c =? b) && PatMatch p' s' end
  end.

(** [toupper] of the C locale. *)
Definition toupper (c : Z) : Z := if (97 <=? c) && (c <=? 122) then c - 32 else c.

Fixpoint PatiMatch (pattern : list Z) : list Z -> bool :=
  match pattern with
  | [] => fun s => match s with [] => true | _ :: _ => false end
  | c :: p' =>
      if c =? chr_star then
        fix star (s : list Z) : bool :=
          PatiMatch p' s || match s with [] => false | _ :: s' => star s' end
      else if c =? chr_question then
        fun s => match s with [] => false | _ :: s' => PatiMatch p' s' end
      else
        fun s => match s with [] => false | b :: s' => (toupper c =? toupper b) && PatiMatch p' s' end
  end.

(** ** Specifications *)

(** The wide encoding of a name, as the modem sends it: two bytes per
    character, slashes as backslashes, a double NUL at the end. *)
Definition to_backslash (c : Z) : Z := if c =? chr_slash then chr_backslash else c.
Definition to_slash (c : Z) : Z := if c =? chr_backslash then chr_slash else c.
Fixpoint wcs_chars (s : list Z) : list Z :=
  match s with [] => [] | c :: s' => c :: 0 :: wcs_chars s' end.
Definition wcs_of (s : list Z) : list Z := wcs_chars (to_backslash <$> s) ++ [0; 0].

(** Wildcards, independently of the matcher: a star stands for any string, a
    question mark for any character, and [eqc] compares the others. *)
Inductive glob (eqc : Z -> Z -> Prop) : list Z -> list Z -> Prop :=
| glob_nil : glob eqc [] []
| glob_star p s1 s2 : glob eqc p s2 -> glob eqc (chr_star :: p) (s1 ++ s2)
| glob_any p c s : glob eqc p s -> glob eqc (chr_question :: p) (c :: s)
| glob_chr p c b s :
    c <> chr_star -> c <> chr_question -> eqc c b -> glob eqc p s -> glob eqc (c :: p) (b :: s).

(** A file name: a non-empty C string without backslashes. *)
Definition fs_name (s : list Z) : Prop :=
  s <> [] /\ Forall (fun c => c <> 0 /\ c <> chr_backslash) s.

(** ** The filter on relative paths *)

Lemma has_dotdot_snoc s a b :
  has_dotdot ((s ++ [a]) ++ [b]) = has_dotdot (s ++ [a]) || ((a =? chr_dot) && (b =? chr_dot)).
Proof.
  induction s as [|c s IH]; simpl.
  - by rewrite orb_false_r.
  - destruct s as [|d s]; simpl in *.
    + rewrite orb_false_r, <- orb_assoc. done.
    + rewrite IH. by rewrite orb_assoc.
Qed.

Lemma to_slash_dot b : (to_slash b =? chr_dot) = (b =? chr_dot).
Proof. unfold to_slash, chr_backslash, chr_slash, chr_dot. destruct (Z.eqb_spec b 92); [subst; done|done]. Qed.

Lemma has_dotdot_ext l k :
  Forall2 (fun a b => (a =? chr_dot) = (b =? chr_dot)) l k -> has_dotdot l = has_dotdot k.
Proof.
  induction 1 as [|a b l k Hab Hlk IH]; [done|].
  destruct Hlk as [|a' b' l k Hab' Hlk]; [done|].
  change (has_dotdot (a :: a' :: l)) with ((a =? chr_dot) && (a' =? chr_dot) || has_dotdot (a' :: l)).
  change (has_dotdot (b :: b' :: k)) with ((b =? chr_dot) && (b' =? chr_dot) || has_dotdot (b' :: k)).
  by rewrite Hab, Hab', IH.
Qed.

Lemma has_dotdot_to_slash l c k : has_dotdot (l ++ to_slash c :: k) = has_dotdot (l ++ c :: k).
Proof.
  apply has_dotdot_ext, Forall2_app; [by apply Forall_Forall2_diag, Forall_true|].
  constructor; [apply to_slash_dot|]. by apply Forall_Forall2_diag, Forall_true.
Qed.

Lemma conv_loop_no_dotdot n src out r res :
  has_dotdot (rev out) = false ->
  FS_ConvWcsToCs_loop n src out = Some (r, res) -> 0 <= r -> has_dotdot res = false.
Proof.
  revert src out. induction n as [|n IH]; intros src out Hout H Hr; simpl in H.
  { by injection H as <- <-. }
  destruct src as [|b rest]; [done|].
  change (if b =? chr_backslash then chr_slash else b) with (to_slash b) in H.
  case_match eqn:Hd; [injection H as <- <-; lia|].
  assert (has_dotdot (rev (to_slash b :: out)) = false) as Hout'.
  { simpl. destruct out as [|p out]; [done|]. simpl in *.
    rewrite has_dotdot_snoc, Hout, to_slash_dot. simpl. rewrite andb_comm. done. }
  destruct (drop 1 rest) as [|b2 rest'] eqn:Hrest; [done|].
  case_match; [by injection H as <- <-|]. by eapply IH.
Qed.

Lemma conv_loop_length n src out r res :
  FS_ConvWcsToCs_loop n src out = Some (r, res) ->
  zlen res <= zlen out + Z.of_nat n /\ (r = -1 \/ r = zlen res).
Proof.
  revert src out. induction n as [|n IH]; intros src out H; simpl in H.
  { injection H as <- <-. unfold zlen. autorewrite with cfs_len. split; [lia|by right]. }
  destruct src as [|b rest]; [done|].
  case_match.
  { injection H as <- <-. unfold zlen. autorewrite with cfs_len. simpl. split; [lia|by left]. }
  destruct (drop 1 rest) as [|b2 rest'] eqn:Hrest; [done|].
  case_match.
  - injection H as <- <-. unfold zlen. autorewrite with cfs_len. simpl. split; [lia|right; lia].
  - apply IH in H as [Hlen Hr]. split; [|done]. unfold zlen in *; simpl in *. lia.
Qed.

(** The conversion of an encoded name, from any point of the loop. *)
Lemma conv_loop_encoded s tail n out :
  s <> [] ->
  Forall (fun c => c <> 0) s ->
  (length s <= n)%nat ->
  has_dotdot (rev out ++ s) = false ->
  FS_ConvWcsToCs_loop n (wcs_chars s ++ 0 :: tail) out =
    Some (zlen out + zlen s, rev out ++ (to_slash <$> s)).
Proof.
  revert n out. induction s as [|c s IH]; intros n out Hne Hnn Hn Hdd; [done|].
  destruct n as [|n]; [simpl in Hn; lia|].
  apply Forall_cons in Hnn as [Hc Hnn].
  cbn [FS_ConvWcsToCs_loop wcs_chars app].
  change (if c =? chr_backslash then chr_slash else c) with (to_slash c).
  assert (((c =? chr_dot) && match out with p :: _ => p =? chr_dot | [] => false end) = false) as ->.
  { destruct out as [|p out]; [by rewrite andb_false_r|]. simpl in Hdd.
    replace ((rev out ++ [p]) ++ c :: s) with (((rev out ++ [p]) ++ [c]) ++ s) in Hdd
      by (by rewrite <- (app_assoc _ [c] s)).
    apply has_dotdot_app_l in Hdd. rewrite has_dotdot_snoc in Hdd.
    apply orb_false_iff in Hdd as [_ Hdd]. by rewrite andb_comm. }
  change (drop 1 (0 :: ?l)) with l.
  destruct s as [|c2 s'].
  - simpl. unfold zlen; simpl. do 2 f_equal; lia.
  - apply Forall_cons in Hnn as Hnn'. destruct Hnn' as [Hc2 _].
    cbn [wcs_chars app]. destruct (Z.eqb_spec c2 0); [done|].
    change (c2 :: 0 :: wcs_chars s' ++ 0 :: tail) with (wcs_chars (c2 :: s') ++ 0 :: tail).
    rewrite IH; [|done|done|simpl in *; lia|].
    + unfold zlen. simpl. f_equal. f_equal; [lia|]. by rewrite <- app_assoc.
    + simpl. rewrite <- app_assoc. simpl.
      by rewrite has_dotdot_to_slash.
Qed.

(** ** Encoding of directory entries *)

Lemma wcs_chars_snoc s c : wcs_chars (s ++ [c]) = wcs_chars s ++ [c; 0].
Proof. induction s as [|a s IH]; simpl; [done|]. by rewrite IH. Qed.

Lemma length_wcs_chars s : length (wcs_chars s) = (2 * length s)%nat.
Proof. induction s as [|c s IH]; simpl; lia. Qed.

Lemma wcs_loop_fits s len MaxLength :
  s <> [] -> Forall (fun c => c <> 0) s -> len + zlen s <= MaxLength ->
  FS_ConvCsToWcs_loop (s ++ [0]) len MaxLength = Some (len + zlen s, wcs_of s).
Proof.
  revert len. induction s as [|c s IH]; intros len Hne Hnn Hlen; [done|].
  apply Forall_cons in Hnn as [Hc Hnn]. simpl.
  unfold zlen in *; cbn [length] in *.
  destruct (Z.ltb_spec len MaxLength); [|lia].
  change (if c =? chr_slash then chr_backslash else c) with (to_backslash c).
  destruct s as [|c2 s'].
  - simpl. do 2 f_equal; lia.
  - apply Forall_cons in Hnn as Hnn'. destruct Hnn' as [Hc2 _].
    cbn [app]. destruct (Z.eqb_spec c2 0); [done|].
    change (c2 :: s' ++ [0]) with ((c2 :: s') ++ [0]).
    rewrite IH; [|done|done|cbn [length] in *; lia]. cbn [length].
    do 2 f_equal; lia.
Qed.

Lemma wcs_loop_cut s len MaxLength :
  Forall (fun c => c <> 0) s -> 0 <= len <= MaxLength -> MaxLength < len + zlen s ->
  FS_ConvCsToWcs_loop (s ++ [0]) len MaxLength =
    Some (MaxLength, wcs_chars (to_backslash <$> take (Z.to_nat (MaxLength - len)) s)).
Proof.
  revert len. induction s as [|c s IH]; intros len Hnn Hlen Hs.
  { unfold zlen in Hs; simpl in Hs; lia. }
  apply Forall_cons in Hnn as [Hc Hnn]. simpl.
  unfold zlen in *; cbn [length] in *.
  destruct (Z.ltb_spec len MaxLength).
  - change (if c =? chr_slash then chr_backslash else c) with (to_backslash c).
    destruct s as [|c2 s']; [simpl in *; lia|].
    apply Forall_cons in Hnn as Hnn'. destruct Hnn' as [Hc2 _].
    cbn [app]. destruct (Z.eqb_spec c2 0); [done|].
    change (c2 :: s' ++ [0]) with ((c2 :: s') ++ [0]).
    rewrite IH; [|done|lia|cbn [length] in *; lia].
    replace (Z.to_nat (MaxLength - len)) with (S (Z.to_nat (MaxLength - (len + 1)))) by lia.
    done.
  - replace (Z.to_nat (MaxLength - len)) with 0%nat by lia. simpl. do 2 f_equal; lia.
Qed.

Lemma to_slash_backslash s :
  Forall (fun c => c <> 0 /\ c <> chr_backslash) s -> to_slash <$> (to_backslash <$> s) = s.
Proof.
  induction 1 as [|c s [_ Hc] _ IH]; [done|]. rewrite !fmap_cons, IH. f_equal.
  unfold to_slash, to_backslash. destruct (Z.eqb_spec c chr_slash) as [->|]; [done|].
  destruct (Z.eqb_spec c chr_backslash); done.
Qed.

Lemma to_backslash_nonnul s :
  Forall (fun c => c <> 0 /\ c <> chr_backslash) s -> Forall (fun c => c <> 0) (to_backslash <$> s).
Proof.
  intros H. apply Forall_fmap. eapply Forall_impl; [exact H|].
  intros c [? ?]. simpl. unfold to_backslash. by case_match.
Qed.

Lemma has_dotdot_to_backslash s : has_dotdot (to_backslash <$> s) = has_dotdot s.
Proof.
  apply has_dotdot_ext, Forall2_fmap_l, Forall_Forall2_diag, Forall_true.
  intros c. simpl. unfold to_backslash, chr_slash, chr_dot, chr_backslash.
  destruct (Z.eqb_spec c 47) as [->|]; done.
Qed.

Lemma conv_encoded s tail :
  fs_name s -> has_dotdot s = false -> zlen s <= PATH_MAX - 1 ->
  FS_ConvWcsToCs (wcs_of s ++ tail) = Some (zlen s, s).
Proof.
  intros [Hne Hs] Hdd Hlen. unfold FS_ConvWcsToCs, wcs_of.
  rewrite <- app_assoc. change ([0; 0] ++ tail) with (0 :: 0 :: tail).
  rewrite conv_loop_encoded.
  - simpl. rewrite to_slash_backslash by done. unfold zlen. by rewrite length_fmap.
  - by destruct s.
  - by apply to_backslash_nonnul.
  - rewrite length_fmap. unfold zlen, PATH_MAX in *. lia.
  - simpl. by rewrite has_dotdot_to_backslash.
Qed.

(** ** Pattern matching *)

Section Glob.
Context (eqc : Z -> Z -> Prop) (m : list Z -> list Z -> bool).
Context (m_nil : forall s, m [] s = true <-> s = []).
Context (m_star : forall p s, m (chr_star :: p) s =
  m p s || match s with [] => false | _ :: s' => m (chr_star :: p) s' end).
Context (m_any : forall p s, m (chr_question :: p) s =
  match s with [] => false | _ :: s' => m p s' end).
Context (m_chr : forall c p s, c <> chr_star -> c <> chr_question ->
  m (c :: p) s = true <-> exists b s', s = b :: s' /\ eqc c b /\ m p s' = true).

(** Any matcher that obeys the equations of the code decides [glob]. *)
Lemma matcher_glob p s : m p s = true <-> glob eqc p s.
Proof using All.
  revert s. induction p as [|c p IH]; intros s.
  { rewrite m_nil. split; [intros ->; constructor|by inversion 1]. }
  destruct (decide (c = chr_star)) as [->|Hstar].
  - split.
    + induction s as [|b s IHs]; rewrite m_star, orb_true_iff.
      * intros [H|H]; [|done]. apply (glob_star _ _ [] []). by apply IH.
      * intros [H|H]; [apply (glob_star _ _ []); by apply IH|].
        apply IHs in H. inversion H as [|p' s1 s2 H'| |]; subst; [|done..].
        by apply (glob_star _ _ (b :: s1)).
    + inversion 1 as [|p' s1 s2 H'| |]; subst; [|done..]. clear H.
      induction s1 as [|b s1 IHs]; simpl; rewrite m_star, orb_true_iff.
      * left. by apply IH.
      * by right.
  - destruct (decide (c = chr_question)) as [->|Hq].
    + rewrite m_any. destruct s as [|b s]; split; try done.
      * by inversion 1.
      * intros. constructor. by apply IH.
      * inversion 1; subst; [|done]. by apply IH.
    + rewrite m_chr by done. split.
      * intros (b & s' & -> & ? & ?). constructor; [done..|by apply IH].
      * inversion 1; subst; [done..|]. eexists _, _. split_and!; [done|done|by apply IH].
Qed.
End Glob.

(** ** Properties *)

(** [FS_ConvWcsToCs] is the filter against relative paths: a name it
    accepts has no two consecutive dots, fits in [PATH_MAX] with its terminator,
    and its return value is its length. *)
Theorem conv_rejects_parent src r res :
  FS_ConvWcsToCs src = Some (r, res) -> 0 <= r ->
  has_dotdot res = false /\ r = zlen res /\ zlen res <= PATH_MAX - 1.
Proof.
  intros H Hr. split; [by eapply (conv_loop_no_dotdot _ _ [])|].
  apply conv_loop_length in H as [H [?|?]]; [lia|].
  unfold zlen, PATH_MAX in *; simpl in *. lia.
Qed.

Lemma conv_rejects_parent_witness :
  FS_ConvWcsToCs (wcs_of (lit "Z:/a.b/c")) = Some (8, lit "Z:/a.b/c") /\
  has_dotdot (lit "Z:/a.b/c") = false.
Proof.
  assert (FS_ConvWcsToCs (wcs_of (lit "Z:/a.b/c")) = Some (8, lit "Z:/a.b/c")) as H
    by (vm_compute; reflexivity).
  split; [exact H|]. exact (proj1 (conv_rejects_parent _ _ _ H ltac:(lia))).
Defined.

(** A directory entry sent to the modem and back is unchanged: what
    [FS_ConvCsToWcs] stores for a name shorter than the modem's buffer is
    translated back to the same name and length by [FS_ConvWcsToCs]. *)
Theorem conv_roundtrip s MaxLength tail :
  fs_name s -> has_dotdot s = false -> zlen s <= PATH_MAX - 1 -> zlen s < MaxLength ->
  exists bytes,
    FS_ConvCsToWcs s MaxLength = Some (zlen s, bytes) /\
    FS_ConvWcsToCs (bytes ++ tail) = Some (zlen s, s).
Proof.
  intros Hs Hdd Hlen Hmax. exists (wcs_of s). split; [|by apply conv_encoded].
  unfold FS_ConvCsToWcs. destruct Hs as [Hne Hs].
  rewrite wcs_loop_fits; [|done| |lia].
  - destruct (Z.eqb_spec (0 + zlen s) MaxLength); [lia|]. done.
  - eapply Forall_impl; [exact Hs|]. by intros c [? ?].
Qed.

Lemma conv_roundtrip_witness :
  exists bytes, FS_ConvCsToWcs (lit "LD0B/x") 255 = Some (6, bytes) /\
    FS_ConvWcsToCs (bytes ++ []) = Some (6, lit "LD0B/x").
Proof.
  apply (conv_roundtrip (lit "LD0B/x") 255 []).
  - split; [done|]. repeat (constructor; [split; discriminate|]). constructor.
  - reflexivity.
  - vm_compute. discriminate.
  - vm_compute. reflexivity.
Defined.

(** A longer entry is cut to [MaxLength - 1] characters and stays
    terminated inside [MaxLength] wide characters. *)
Theorem conv_truncates s MaxLength :
  Forall (fun c => c <> 0) s -> 0 < MaxLength < zlen s ->
  FS_ConvCsToWcs s MaxLength =
    Some (MaxLength - 1,
      wcs_chars (to_backslash <$> take (Z.to_nat (MaxLength - 1)) s) ++ [0; 0]).
Proof.
  intros Hs Hlen. unfold FS_ConvCsToWcs. rewrite wcs_loop_cut by (done || lia).
  rewrite Z.eqb_refl. rewrite Z.sub_0_r.
  set (k := Z.to_nat (MaxLength - 1)).
  replace (Z.to_nat MaxLength) with (S k) by lia.
  assert (k < length s)%nat as Hk by (unfold zlen in *; lia).
  apply lookup_lt_is_Some in Hk as [c Hc].
  rewrite (take_S_r _ _ _ Hc), fmap_app; cbn [fmap list_fmap]. rewrite wcs_chars_snoc.
  replace ((MaxLength - 1) * 2) with (zlen (wcs_chars (to_backslash <$> take k s))).
  - rewrite <- (app_nil_r [to_backslash c; 0]). rewrite mwrite_app by done. done.
  - unfold zlen. rewrite length_wcs_chars, length_fmap, length_take.
    apply lookup_lt_Some in Hc. unfold zlen in *. lia.
Qed.

Lemma conv_truncates_witness :
  FS_ConvCsToWcs (lit "abcd") 3 = Some (2, [97; 0; 98; 0; 0; 0]).
Proof.
  apply (conv_truncates (lit "abcd") 3).
  - repeat (constructor; [discriminate|]). constructor.
  - vm_compute. split; reflexivity.
Defined.

(** Claim C40.  The recursive matchers decide exactly the wildcard language, the
    second one up to the case of ASCII letters. *)
Theorem PatMatch_glob p s :
  (PatMatch p s = true <-> glob eq p s) /\
  (PatiMatch p s = true <-> glob (fun a b => toupper a = toupper b) p s).
Proof.
  split; apply matcher_glob; clear.
  - by intros [|? ?].
  - by intros p [|? ?].
  - by intros p [|? ?].
  - intros c p s ? ?. simpl. destruct (Z.eqb_spec c chr_star), (Z.eqb_spec c chr_question); try done.
    destruct s as [|b s]; [split; [done|by intros (? & ? & ? & _)]|].
    rewrite andb_true_iff, Z.eqb_eq. split; [intros [? ?]; by exists b, s|].
    by intros (? & ? & [= <- <-] & ? & ?).
  - by intros [|? ?].
  - by intros p [|? ?].
  - by intros p [|? ?].
  - intros c p s ? ?. simpl. destruct (Z.eqb_spec c chr_star), (Z.eqb_spec c chr_question); try done.
    destruct s as [|b s]; [split; [done|by intros (? & ? & ? & _)]|].
    rewrite andb_true_iff, Z.eqb_eq. split; [intros [? ?]; by exists b, s|].
    by intros (? & ? & [= <- <-] & ? & ?).
Qed.
