(* ===== verification/FsdPath.v ===== *)
(** * ccci_fsd: attributes of a path and the drive tables

    [FS_ErrorConv], the [stat]-based predicates, the conversion of a directory
    entry to its DOS form, the drive tables of each modem and the resolution of
    a modem path to a path of the device, which every path operation of the
    daemon starts with. *)
From S2P Require Import Prelude Posix Wire FsdTypes FsdStrings.

(** ** Errors and attributes *)

Definition FS_ErrorConv (error : Z) : Z :=
  if error =? EACCES then FS_ACCESS_DENIED
  else if error =? ENOENT then FS_FILE_NOT_FOUND
  else if error =? EMFILE then FS_TOO_MANY_FILES
  else FS_GENERAL_FAILURE.

Section Stat.
Context `{OS}.
Abbreviation M := (prog fsd).

Definition FS_IsFile (file : list Z) : M Z :=
  '(r, StatBuf) ← psys (Sys_stat file);
  if rv r =? -1 then mret (FS_ErrorConv (eno r))
  else mret (Z.land (st_mode StatBuf) S_IFREG).

Definition FS_IsDIR (file : list Z) : M Z :=
  '(r, StatBuf) ← psys (Sys_stat file);
  if rv r =? -1 then mret (FS_ErrorConv (eno r))
  else mret (Z.land (st_mode StatBuf) S_IFDIR).

Definition FS_IsReadOnly (file : list Z) : M Z :=
  '(r, StatBuf) ← psys (Sys_stat file);
  if rv r =? -1 then mret (FS_ErrorConv (eno r))
  else
    let Mode := st_mode StatBuf in
    if has_bits Mode S_IRUGO && negb (has_bits Mode S_IWUGO) && negb (has_bits Mode S_IXUGO)
    then mret 1 else mret 0.

Definition FS_AttrReconv (file : list Z) : M Z :=
  value ← FS_IsReadOnly file;
  if value <? 0 then mret value
  else
    let Attr := if value =? 1 then FS_ATTR_READ_ONLY else 0 in
    value ← FS_IsDIR file;
    if value <? 0 then mret value
    else mret (if value =? S_IFDIR then Z.lor Attr FS_ATTR_DIR else Attr).

(** [FileDetail] is the variable of [main] its only caller passes down. *)
Definition FS_GetFileDetail (file : list Z) : M Z :=
  '(r, StatBuf) ← psys (Sys_stat file);
  if rv r =? -1 then mret (FS_ErrorConv (eno r))
  else
    pmod (upd_vars (set_FileDetail
      (FileDetail_ (u64 (st_mtime StatBuf)) (u64 (st_atime StatBuf)) (u64 (st_ctime StatBuf)))));;
    mret 0.

(** The packed DOS date: note the day of the month in the month's field. *)
Definition dos_datetime (t : tm) : Z :=
  Z.lor (Z.lor (Z.lor (Z.lor (Z.lor
    (Z.land (tm_sec t) 0x1F)
    (Z.shiftl (Z.land (tm_min t) 0x3F) 5))
    (Z.shiftl (Z.land (tm_hour t) 0x1F) 11))
    (Z.shiftl (Z.land (tm_mday t) 0x1F) 16))
    (Z.shiftl (Z.land (tm_mday t) 0x0F) 21))
    (Z.shiftl (Z.land (tm_year t - 80) 0x7F) 25).

(** [localtime] returns a pointer to one static [struct tm]: the two results
    alias, and both dates are packed after the second call. *)
Definition FS_EntryLinuxToDos (file : list Z) : M unit :=
  '(_, StatBuf) ← psys (Sys_stat file);
  AccessTime ← psys (Sys_localtime (st_atime StatBuf));
  ModifyTime ← psys (Sys_localtime (st_mtime StatBuf));
  let static_tm := match ModifyTime with Some t => Some t | None => AccessTime end in
  attr ← FS_AttrReconv file;
  let packed (p : option tm) :=
    match p, static_tm with Some _, Some t => dos_datetime t | _, _ => 0 end in
  pmod (upd_vars (set_DosDirEntry
    (DOSDirEntry (replicate 8 0) (replicate 3 0) (u8 attr) 0 0
      (packed AccessTime) 0 0 (packed ModifyTime) 0 (u32 (st_size StatBuf)) 0 0 0 0 0))).
End Stat.

(** ** Drive tables *)

Definition FS_ROOT_DIR_MD1 := lit "/mnt/vendor/nvdata/md".
Definition FS_ROOT_DIR1_MD1 := lit "/mnt/vendor/protect_f/md".
Definition FS_ROOT_DIR2_MD1 := lit "/mnt/vendor/protect_s/md".
Definition FS_ROOT_DIR3_MD1 := lit "/vendor/etc/mdota".
Definition FS_ROOT_DIR4_MD1 := lit "/mnt/vendor/nvcfg".
Definition FS_ROOT_DIR_MD2 := lit "/mnt/vendor/nvdata/md2".
Definition FS_ROOT_DIR1_MD2 := lit "/mnt/vendor/protect_f/md2".
Definition FS_ROOT_DIR2_MD2 := lit "/mnt/vendor/protect_s/md2".
Definition FS_ROOT_DIR_MD3 := lit "/mnt/vendor/nvdata/md3".
Definition FS_ROOT_DIR1_MD3 := lit "/mnt/vendor/protect_f/md3".
Definition FS_ROOT_DIR2_MD3 := lit "/mnt/vendor/protect_s/md3".
Definition FS_ROOT_DIR3_MD3 := lit "/mnt/vendor/nvdata/md3_v".
Definition FS_ROOT_COMMON := lit "/mnt/vendor/nvdata/md_cmn".
Definition FS_ROOT_MDLPM := lit "/data/vendor/mdlpm".
Definition FS_ROOT_DIR_MD5 := lit "/mnt/vendor/nvdata/md5".
Definition FS_ROOT_DIR1_MD5 := lit "/vendor/protect_f/md5".
Definition FS_ROOT_DIR2_MD5 := lit "/vendor/protect_s/md5".
Definition FS_ROOT_DIR_DSP := lit "/vendor/firmware".
Definition FS_ROOT_DIR_DSP_CIP := lit "/custom/etc/firmware".
Definition MD_ROOT_DIR1 := lit "X:".
Definition MD_ROOT_DIR2 := lit "Y:".
Definition MD_ROOT_DIR_DSP := lit "W:".

(** The arrays have [FS_MAX_DIR_NUM] entries; C fills the missing ones with
    empty strings. *)
Definition FsRootDir_MD1 : list (list Z) :=
  [FS_ROOT_DIR_MD1; FS_ROOT_DIR1_MD1; FS_ROOT_DIR2_MD1; FS_ROOT_DIR_DSP; FS_ROOT_COMMON;
   FS_ROOT_MDLPM; FS_ROOT_DIR3_MD1; FS_ROOT_DIR4_MD1].
Definition FsRootDir_MD2 : list (list Z) :=
  [FS_ROOT_DIR_MD2; FS_ROOT_DIR1_MD2; FS_ROOT_DIR2_MD2; FS_ROOT_DIR_DSP; FS_ROOT_COMMON; []; []; []].
Definition FsRootDir_MD3 : list (list Z) :=
  [FS_ROOT_DIR_MD3; FS_ROOT_DIR1_MD3; FS_ROOT_DIR2_MD3; FS_ROOT_DIR_DSP; FS_ROOT_DIR3_MD3; []; []; []].
Definition FsRootDir_MD5 : list (list Z) :=
  [FS_ROOT_DIR_MD5; FS_ROOT_DIR1_MD5; FS_ROOT_DIR2_MD5; FS_ROOT_DIR_DSP; FS_ROOT_COMMON; []; []; []].

Definition MdRootDir : list (list Z) :=
  [lit "Z:"; MD_ROOT_DIR1; MD_ROOT_DIR2; MD_ROOT_DIR_DSP; lit "V:"; lit "U:"; lit "T:"; lit "S:"].
Definition DrvIdx : list Z := [90; 88; 89; 87; 86; 85; 84; 83].

(** ** Path resolution *)

Inductive resolved :=
| RPath (i : nat) (path : list Z)   (** drive [i], and the path on the device *)
| RTooLong                          (** [FS_PATH_OVER_LEN_ERROR] *)
| RNotFound.                        (** [FS_PATH_NOT_FOUND] *)

(** The loop over the drives from index [i]. *)
Fixpoint resolve_from (i : nat) (drives roots : list (list Z)) (ConvFileName : list Z) : resolved :=
  match drives, roots with
  | d :: drives', root :: roots' =>
      if starts_with d ConvFileName then
        let rest := drop (length d) ConvFileName in
        if zlen rest + zlen root + 1 >? PATH_MAX then RTooLong
        else RPath i (take (Z.to_nat (PATH_MAX - 1)) (root ++ rest))
      else resolve_from (S i) drives' roots' ConvFileName
  | _, _ => RNotFound
  end.

(** The search every path operation starts with; the [take] is the bound of
    [snprintf (FsFileName, sizeof (FsFileName), ...)]. *)
Definition resolve (FsRootDir : list (list Z)) (ConvFileName : list Z) : resolved :=
  resolve_from 0 MdRootDir FsRootDir ConvFileName.

Section Path.
Context `{OS}.
Abbreviation M := (prog fsd).

(** [FS_ConvWcsToCs] into a zeroed buffer, read back as a C string. *)
Definition conv_name (FileName : list Z) : M (Z * list Z) :=
  '(r, out) ← popt OutOfBounds (FS_ConvWcsToCs FileName);
  mret (r, cstring out).

(** The common head of the path operations: convert, ignore the verdict of the
    conversion, and resolve; [k] gets the drive and the path. *)
Definition with_path (FileName : list Z) (k : list Z -> nat -> list Z -> M Z) : M Z :=
  '(_, ConvFileName) ← conv_name FileName;
  g ← pget;
  match resolve (FsRootDir g) ConvFileName with
  | RTooLong => mret FS_PATH_OVER_LEN_ERROR
  | RNotFound => mret FS_PATH_NOT_FOUND
  | RPath i path => k ConvFileName i path
  end.

(** [strrchr (s, '/')] and [strchr (s, '/')]. *)
Fixpoint strchr_slash (i : nat) (s : list Z) : option nat :=
  match s with
  | [] => None
  | b :: s' => if b =? chr_slash then Some i else strchr_slash (S i) s'
  end.

Fixpoint strrchr_slash (i : nat) (s : list Z) : option nat :=
  match s with
  | [] => None
  | b :: s' =>
      match strrchr_slash (S i) s' with
      | Some j => Some j
      | None => if b =? chr_slash then Some i else None
      end
  end.

(** The loop of [CCCI_Dump_FS_Path]: [n] iterations are left, [backup] is the
    string in [FsFileName_backup], [new] the buffer [FsFileName_new], [head]
    the offset of [f_point_head]. *)
Fixpoint CCCI_Dump_FS_Path_loop (n : nat) (head : nat) (backup new : list Z)
    (need_trigger_ne : bool) : M bool :=
  match n with
  | O => mret need_trigger_ne
  | S n' =>
      match strrchr_slash 0 backup with
      | None => mret need_trigger_ne
      | Some tail =>
          if (tail =? head)%nat then mret need_trigger_ne
          else
            let backup' := take tail backup in
            let new' := take (tail - head + 1) (backup' ++ [0]) ++ drop (tail - head + 1) new in
            let FsFileName_new := cstring new' in
            r ← psys (Sys_access FsFileName_new F_OK);
            CCCI_Dump_FS_Path_loop n' head backup' new'
              (if rv r <? 0
               then need_trigger_ne || streq FsFileName_new FS_ROOT_DIR_MD1
                    || streq FsFileName_new (lit "/mnt/vendor/nvdata")
               else need_trigger_ne)
      end
  end.

(** Called when an [open] fails.  It writes through the null pointer, so that
    the process dies with a report, when the modem's directory is missing. *)
Definition CCCI_Dump_FS_Path (FsFileName : list Z) : M unit :=
  let backup := take (Z.to_nat (PATH_MAX - 1)) FsFileName in
  let head := default O (strchr_slash 0 backup) in
  need_trigger_ne ←
    CCCI_Dump_FS_Path_loop 3 head backup (replicate (Z.to_nat PATH_MAX) 0) false;
  if need_trigger_ne : bool then phalt NullDeref else mret tt.
End Path.

(** ** Resolution *)

(** A path below a root: the string of the root followed by a rest. *)
Definition under_root (roots : list (list Z)) (path : list Z) : Prop :=
  exists i root rest, roots !! i = Some root /\ path = root ++ rest.

Lemma resolve_from_spec i drives roots c :
  match resolve_from i drives roots c with
  | RPath j path => exists k d root rest,
      j = (i + k)%nat /\ drives !! k = Some d /\ roots !! k = Some root /\
      c = d ++ rest /\ path = root ++ rest /\ zlen path <= PATH_MAX - 1 /\
      forall k' d', (k' < k)%nat -> drives !! k' = Some d' -> starts_with d' c = false
  | RTooLong => exists k d root rest,
      drives !! k = Some d /\ roots !! k = Some root /\ c = d ++ rest /\
      zlen (root ++ rest) > PATH_MAX - 1 /\
      forall k' d', (k' < k)%nat -> drives !! k' = Some d' -> starts_with d' c = false
  | RNotFound => forall k d root,
      drives !! k = Some d -> roots !! k = Some root -> starts_with d c = false
  end.
Proof.
  revert i roots. induction drives as [|d drives IH]; intros i roots; simpl.
  { intros k d root. by rewrite lookup_nil. }
  destruct roots as [|root roots]; simpl; [by intros k ? ?; destruct k|].
  destruct (starts_with d c) eqn:Hd.
  - apply starts_with_app in Hd as [rest ->]. rewrite drop_app_length.
    destruct (Z.gtb_spec (zlen rest + zlen root + 1) PATH_MAX) as [Hlong|Hfits].
    + exists 0%nat, d, root, rest. rewrite zlen_app. split_and!; try done; [lia|]. intros; lia.
    + exists 0%nat, d, root, rest.
      assert (take (Z.to_nat (PATH_MAX - 1)) (root ++ rest) = root ++ rest) as ->.
      { apply take_ge. rewrite length_app. unfold zlen, PATH_MAX in *. lia. }
      rewrite zlen_app. split_and!; try done; lia.
  - specialize (IH (S i) roots). destruct (resolve_from (S i) drives roots c).
    + destruct IH as (k & d' & root' & rest & -> & ? & ? & -> & -> & ? & Hlt).
      exists (S k), d', root', rest. split_and!; try done; [lia|].
      intros [|k'] d''; simpl; [by intros _ [= <-]|]. intros Hk' ?. apply (Hlt k'); [lia|done].
    + destruct IH as (k & d' & root' & rest & ? & ? & -> & ? & Hlt).
      exists (S k), d', root', rest. split_and!; try done.
      intros [|k'] d''; simpl; [by intros _ [= <-]|]. intros Hk' ?. apply (Hlt k'); [lia|done].
    + intros [|k] d' root'; simpl; [by intros [= <-]|]. apply IH.
Qed.

(** Resolution is by the first drive whose letter starts the name, and
    gives the root of that drive followed by the rest of the name, unless that
    does not fit in [PATH_MAX] with its terminator: the [snprintf] into
    [FsFileName] never truncates. *)
Theorem resolve_spec roots c :
  match resolve roots c with
  | RPath i path => exists d root rest,
      MdRootDir !! i = Some d /\ roots !! i = Some root /\ c = d ++ rest /\ path = root ++ rest /\
      zlen path <= PATH_MAX - 1 /\
      forall j d', (j < i)%nat -> MdRootDir !! j = Some d' -> starts_with d' c = false
  | RTooLong => exists i d root rest,
      MdRootDir !! i = Some d /\ roots !! i = Some root /\ c = d ++ rest /\
      zlen (root ++ rest) > PATH_MAX - 1
  | RNotFound => length roots = FS_MAX_DIR_NUM -> forall d, d ∈ MdRootDir -> starts_with d c = false
  end.
Proof.
  unfold resolve. pose proof (resolve_from_spec 0 MdRootDir roots c) as Hs.
  destruct (resolve_from 0 MdRootDir roots c).
  - destruct Hs as (k & d & root & rest & -> & ? & ? & ? & ? & ? & ?). by exists d, root, rest.
  - destruct Hs as (k & d & root & rest & ? & ? & ? & ? & _). by exists k, d, root, rest.
  - intros Hlen d [k Hk]%list_elem_of_lookup.
    destruct (lookup_lt_is_Some_2 roots k) as [root Hr].
    { rewrite Hlen. apply lookup_lt_Some in Hk. done. }
    by eapply Hs.
Qed.

Lemma resolve_under_root roots c i path : resolve roots c = RPath i path -> under_root roots path.
Proof.
  intros Hr. pose proof (resolve_from_spec 0 MdRootDir roots c) as Hs. unfold resolve in Hr.
  rewrite Hr in Hs. destruct Hs as (k & d & root & rest & _ & _ & ? & _ & ? & _). by exists k, root, rest.
Qed.
