(* ===== verification/FsdDemo.v ===== *)
(** * ccci_fsd: concrete states

    The globals of a daemon for modem 1 that has just started, with slots of 512
    bytes, and a small file system: what the witnesses run on. *)
From S2P Require Import Prelude Posix MemFs Wire FsdTypes FsdStrings FsdPath.

(** Names and contents of the demonstration. *)
Definition demo_path := lit "/mnt/vendor/nvdata/md/LD00_000".
Definition demo_name := wcs_of (lit "Z:\LD00_000").
Definition demo_dir := lit "/mnt/vendor/nvdata/md/NVD".

Definition demo_fs : memfs :=
  MemFs
    [(demo_path, NFile 432 [1; 2; 3; 4; 5; 6; 7; 8]);
     (lit "/mnt/vendor", NDir); (lit "/mnt/vendor/nvdata", NDir); (lit "/mnt/vendor/nvdata/md", NDir);
     (demo_dir, NDir); (demo_dir ++ lit "/A", NFile 432 [9]); (demo_dir ++ lit "/SUB", NDir);
     (demo_dir ++ lit "/SUB/B", NFile 432 [7; 7])]
    [] [] 3 [] [(lit "vendor.mtk.md1.status", lit "bootup")] 0 100.

Definition demo_buf_size : Z := 512.

(** [handles] is the table, [n] the count of open files. *)
Definition demo_with (n : Z) (handles : list FS_FILE_HANDLE) : fsd :=
  let slots := replicate (Z.to_nat (5 * (demo_buf_size + 20))) 0 in
  let m := set_PackInfo (replicate 6 (PacketInfo 0 PUninit)) zero_vars in
  Fsd (FsInfo n handles slots (replicate 5 FS_BUFF_IDLE) (replicate 5 0))
    (Slow100ms true 0 0) m FsRootDir_MD1 true dev_fd demo_buf_size 6 0 50 0 0.

Definition free_handle : FS_FILE_HANDLE := FileHandle false false INVALID_HANDLE_VALUE 0 0 0 0 0.
Definition open_file (fd p : Z) : FS_FILE_HANDLE := FileHandle true false fd 0 0 0 p 0.

(** No handle open; and the descriptors 3 and 4 open as handles 1 and 2. *)
Definition demo_fsd : fsd := demo_with 0 (replicate 129 free_handle).
Definition demo_open : fsd :=
  demo_with 2 ([free_handle; open_file 3 1; open_file 4 0] ++ replicate 126 free_handle).

Definition demo_world : world fsd := mem_world demo_fs demo_fsd.

Definition demo_open_world : world fsd :=
  World (set_next 5 (set_fds [(3, (demo_path, 0)); (4, (demo_dir ++ lit "/A", 0))] demo_fs))
    [] {[1 := demo_path]} 2 demo_open.
