(* ===== verification/FsdHandle.v ===== *)
(** * ccci_fsd: the handle table

    Open, seek, read, write, close and size of files through the table
    [g_FsInfo.hFileHandle], whose index is the handle the modem holds.  Slot 0
    is never given out. *)
From S2P Require Import Prelude Posix Wire FsdTypes FsdStrings FsdPath.

(** ** Pure parts *)

Fixpoint find_free (i : Z) (l : list FS_FILE_HANDLE) : Z :=
  match l with
  | [] => 0xFFFFFFFF
  | h :: l' => if fInUse h then find_free (i + 1) l' else i
  end.

Definition FS_GetFreeHandle (g : fsd) : Z :=
  if FileNum (g_FsInfo g) >=? FS_FILE_MAX then 0xFFFFFFFF
  else find_free 1 (drop 1 (hFileHandle (g_FsInfo g))).

(** The guard of every handle operation. *)
Definition valid_handle (g : fsd) (HandleIndex : Z) : bool :=
  (u32 HandleIndex <? FS_FILE_MAX) &&
  negb ((FileNum (g_FsInfo g) =? 0)
        || (hFile (handle_at g (u32 HandleIndex)) =? INVALID_HANDLE_VALUE)
        || negb (fInUse (handle_at g (u32 HandleIndex)))).

Definition open_flags (Flag : Z) : Z :=
  let f := if has_bits Flag FS_READ_ONLY then O_RDONLY else O_RDWR in
  let f := if has_bits Flag FS_CREATE then Z.lor f (Z.lor O_CREAT O_RDWR) else f in
  let f := if has_bits Flag FS_CREATE_ALWAYS
           then Z.lor f (Z.lor (Z.lor O_CREAT O_RDWR) O_TRUNC) else f in
  if has_bits Flag FS_NONBLOCK_MODE then Z.lor f O_NONBLOCK else f.

(** Milliseconds between two clock readings: with a borrow of one second, as in
    [FS_CCCI_Write] and [FS_CCCI_Close]. *)
Definition elapsed_borrow (time_start time_end : timespec) : Z :=
  i32 (if tv_nsec time_end <? tv_nsec time_start
       then Z.quot (1000000000 + tv_nsec time_end - tv_nsec time_start) 1000000
            + (tv_sec time_end - tv_sec time_start - 1) * 1000
       else Z.quot (tv_nsec time_end - tv_nsec time_start) 1000000
            + (tv_sec time_end - tv_sec time_start) * 1000).

(** And without it, as in the compact operations. *)
Definition elapsed_plain (time_start time_end : timespec) : Z :=
  i32 ((tv_sec time_end - tv_sec time_start) * 1000
       + Z.quot (tv_nsec time_end - tv_nsec time_start) 1000000).

Definition note_slow (elapsed_in_ms : Z) (g : fsd) : fsd :=
  if elapsed_in_ms >? 100
  then set_slower_100ms
         (Slow100ms (profiling (slower_100ms g)) (i32 (count (slower_100ms g) + 1))
            (i32 (totaltime (slower_100ms g) + elapsed_in_ms))) g
  else g.

Section Handle.
Context `{OS}.
Abbreviation M := (prog fsd).

(** The end of a profiled section. *)
Definition profile_end (elapsed : timespec -> timespec -> Z) (time_start : timespec) : M unit :=
  g ← pget;
  if profiling (slower_100ms g) then
    time_end ← psys Sys_clock_gettime;
    pmod (note_slow (elapsed time_start time_end))
  else mret tt.

(** The memory a packet argument points to, to the end of its object. *)
Definition mem_at (p : ptr) : M (list Z) :=
  g ← pget;
  match p with
  | PBuf off => popt OutOfBounds (mfrom (pFsBuf (g_FsInfo g)) off)
  | PVar v => mret (var_bytes (vars g) v)
  | PUninit => phalt OutOfBounds
  end.

(** The first [len] bytes of it. *)
Definition deref (p : ptr) (len : Z) : M (list Z) :=
  m ← mem_at p; popt OutOfBounds (mread m 0 len).

(** The path of the DSP image, for drive [W:]. *)
Definition dsp_path (root : list Z) : M (list Z) :=
  g ← pget;
  post ← psys (Sys_ioctl_post_fix (DeviceFd g));
  if has_nul (take (Z.to_nat MODEM_POST_FIX_LENGTH) post) then
    let md_post_fix := cstring post in
    let FsFileName := root ++ lit "/dsp_" ++ md_post_fix ++ lit ".bin" in
    r ← psys (Sys_access FsFileName F_OK);
    if rv r =? 0 then mret FsFileName
    else mret (FS_ROOT_DIR_DSP_CIP ++ lit "/dsp_" ++ md_post_fix ++ lit ".bin")
  else phalt OutOfBounds.

Definition FS_CCCI_Open (FileName : list Z) (Flag : Z) : M Z :=
  '(r, ConvFileName) ← conv_name FileName;
  if r <? 0 then mret FS_ACCESS_DENIED
  else
    g ← pget;
    match resolve (FsRootDir g) ConvFileName with
    | RTooLong => mret FS_PATH_OVER_LEN_ERROR
    | RNotFound => mret FS_PATH_NOT_FOUND
    | RPath i path =>
        FsFileName ← (if starts_with MD_ROOT_DIR_DSP ConvFileName
                      then dsp_path (default [] (FsRootDir g !! i))
                      else mret path);
        let HandleIndex := FS_GetFreeHandle g in
        if HandleIndex =? 0xFFFFFFFF then mret FS_TOO_MANY_FILES
        else
          Fd ← psys (Sys_open FsFileName (open_flags Flag) 432 (* 0660 *));
          if rv Fd =? INVALID_HANDLE_VALUE then
            CCCI_Dump_FS_Path FsFileName;;
            mret (FS_ErrorConv (eno Fd))
          else
            pmod (upd_FileNum (fun n => u32 (n + 1)));;
            pmod (upd_handle HandleIndex (fun h =>
              set_fSearch false (set_Flag Flag (set_fInUse true (set_hFile (rv Fd) h)))));;
            p ← pmalloc (zlen FsFileName + 1);
            pmod (upd_handle HandleIndex (set_pFsFileName p));;
            if p =? 0 then mret FS_ERROR_RESERVED
            else pstore p FsFileName;; mret HandleIndex
    end.

Definition FS_CCCI_Seek (HandleIndex Offset Whence : Z) : M Z :=
  g ← pget;
  if negb (valid_handle g HandleIndex) then mret FS_INVALID_FILE_HANDLE
  else
    let Fd := hFile (handle_at g (u32 HandleIndex)) in
    let LinuxWhence :=
      if Whence =? FS_FILE_BEGIN then Some SEEK_SET
      else if Whence =? FS_FILE_CURRENT then Some SEEK_CUR
      else if Whence =? FS_FILE_END then Some SEEK_END
      else None in
    match LinuxWhence with
    | None => mret FS_PARAM_ERROR
    | Some w =>
        NewPos ← psys (Sys_lseek Fd Offset w);
        if rv NewPos =? -1 then mret (FS_ErrorConv (eno NewPos))
        else mret (rv NewPos)
    end.

(** [out] stores into the variable behind [ReadByte]; [pBuffer] is an offset
    of the shared buffer. *)
Definition FS_CCCI_Read (HandleIndex pBuffer NumOfByte : Z)
    (out : Z -> main_vars -> main_vars) : M Z :=
  g ← pget;
  if negb (valid_handle g HandleIndex) then mret FS_INVALID_FILE_HANDLE
  else
    let Fd := hFile (handle_at g (u32 HandleIndex)) in
    r ← psys (Sys_read Fd (u32 NumOfByte));
    buf_write pBuffer (rres_data r);;
    pmod (upd_vars (out (u32 (rres_rv r))));;
    if rres_rv r =? -1 then mret (FS_ErrorConv (rres_eno r))
    else mret FS_NO_ERROR.

Definition FS_CCCI_Write (HandleIndex : Z) (pBuffer : ptr) (NumOfByte : Z)
    (out : Z -> main_vars -> main_vars) : M Z :=
  g ← pget;
  if negb (valid_handle g HandleIndex) then mret FS_INVALID_FILE_HANDLE
  else
    let Fd := hFile (handle_at g (u32 HandleIndex)) in
    time_start ← psys Sys_clock_gettime;
    bs ← deref pBuffer (u32 NumOfByte);
    r ← psys (Sys_write Fd bs);
    pmod (upd_vars (out (rv r)));;
    profile_end elapsed_borrow time_start;;
    if rv r =? -1 then mret (FS_ErrorConv (eno r))
    else mret FS_NO_ERROR.

(** The release of a slot: the name pointer is freed but not cleared. *)
Definition release_handle (i : Z) : M unit :=
  pmod (upd_handle i (fun h => set_fInUse false (set_hFile INVALID_HANDLE_VALUE h)));;
  g ← pget;
  pfree (pFsFileName (handle_at g i));;
  pmod (upd_FileNum (fun n => u32 (n - 1))).

Definition FS_CCCI_Close (HandleIndex : Z) : M Z :=
  g ← pget;
  if negb (valid_handle g HandleIndex) then mret FS_INVALID_FILE_HANDLE
  else
    let i := u32 HandleIndex in
    let h := handle_at g i in
    err ← (if fSearch h then
             r ← psys (Sys_closedir (u32 (hFile h)));
             mret (if rv r =? 0 then None else Some (FS_ErrorConv (eno r)))
           else
             (if has_bits (Flag h) (Z.lor (Z.lor FS_CREATE FS_CREATE_ALWAYS) FS_COMMITTED)
              then r ← psys (Sys_fsync (hFile h)); mret tt
              else mret tt);;
             time_start ← psys Sys_clock_gettime;
             r ← psys (Sys_close (hFile h));
             if rv r =? -1 then mret (Some (FS_ErrorConv (eno r)))
             else profile_end elapsed_borrow time_start;; mret None);
    match err with
    | Some ret => mret ret
    | None => release_handle i;; mret FS_NO_ERROR
    end.

Fixpoint FS_CCCI_CloseAll_loop (idxs : list Z) : M Z :=
  match idxs with
  | [] => mret FS_NO_ERROR
  | i :: idxs' =>
      g ← pget;
      let h := handle_at g i in
      if fInUse h then
        err ← (if fSearch h then mret None
               else
                 r ← psys (Sys_close (hFile h));
                 mret (if rv r =? -1 then Some (FS_ErrorConv (eno r)) else None));
        match err with
        | Some ret => mret ret
        | None => release_handle i;; FS_CCCI_CloseAll_loop idxs'
        end
      else FS_CCCI_CloseAll_loop idxs'
  end.

Definition FS_CCCI_CloseAll : M Z := FS_CCCI_CloseAll_loop (seqZ 0 FS_FILE_MAX).

Definition FS_CCCI_GetFileSize (HandleIndex : Z) (out : Z -> main_vars -> main_vars) : M Z :=
  g ← pget;
  if negb (valid_handle g HandleIndex) then mret FS_INVALID_FILE_HANDLE
  else
    let Fd := hFile (handle_at g (u32 HandleIndex)) in
    '(r, StatBuf) ← psys (Sys_fstat Fd);
    if rv r =? -1 then mret (FS_ErrorConv (eno r))
    else pmod (upd_vars (out (u32 (st_size StatBuf))));; mret FS_NO_ERROR.
End Handle.
