(* ===== verification/FsdTable.v ===== *)
(** * ccci_fsd: the handle table refines a finite map

    The abstraction of [g_FsInfo.hFileHandle]: a finite map from the handles the
    modem holds to what they stand for, and the steps the daemon may take on it.
    [table_ok] is the invariant of the concrete table: slot 0 is never used and
    [FileNum] is the number of open handles.

    [tinv R g0] is the invariant the rest of the development carries through a
    request that started with the globals [g0]: the table is well formed, its
    map satisfies [R], and the configuration of the daemon is unchanged.  An
    operation that leaves the table alone preserves it for every [R]; for the
    others the [_triple] lemmas say which maps [R] must hold of. *)
From S2P Require Import Prelude Posix MemFs Wire FsdTypes FsdStrings FsdPath FsdDemo FsdHandle.

(** ** The abstract table *)

Record file := File { f_hFile : Z; f_search : bool }.

Abbreviation hmap := (gmap nat file).

Definition slot_view (h : FS_FILE_HANDLE) : option file :=
  if fInUse h then Some (File (hFile h) (fSearch h)) else None.

Definition abs_table (l : list FS_FILE_HANDLE) : hmap := omap slot_view (map_seq 0 l : gmap nat _).

Definition abs (g : fsd) : hmap := abs_table (hFileHandle (g_FsInfo g)).

(** One change of the table: the lowest free handle opened, or an open one closed.  Which of
    them a request may make, and for which handle, is [request_step] of FsdInv.v. *)
Inductive table_step : hmap -> hmap -> Prop :=
| step_open m i f :
    (0 < i < 129)%nat -> m !! i = None -> (forall j, (0 < j < i)%nat -> is_Some (m !! j)) ->
    table_step m (<[i := f]> m)
| step_close m i : is_Some (m !! i) -> table_step m (delete i m).

(** [opens_at s i fd m m']: [i] is the lowest free handle of [m], and in [m'] it
    stands for the descriptor or directory stream [fd]. *)
Definition opens_at (s : bool) (i : nat) (fd : Z) (m m' : hmap) : Prop :=
  (0 < i < 129)%nat /\ m !! i = None /\ (forall j, (0 < j < i)%nat -> is_Some (m !! j)) /\
  m' = <[i := File fd s]> m.

Definition opens (s : bool) (m m' : hmap) : Prop := exists i fd, opens_at s i fd m m'.

(** A property of maps that the steps of the table keep. *)
Class TableClosed (R : hmap -> Prop) : Prop :=
  table_closed m m' : R m -> table_step m m' -> R m'.

Record table_ok (g : fsd) : Prop := TableOk {
  ok_length : length (hFileHandle (g_FsInfo g)) = 129%nat;
  ok_slot0 : abs g !! 0%nat = None;
  ok_count : FileNum (g_FsInfo g) = Z.of_nat (size (abs g))
}.

(** The parts of the globals a request does not change. *)
Record same_config (g0 g : fsd) : Prop := SameConfig {
  sc_roots : FsRootDir g = FsRootDir g0;
  sc_stream : stream_support g = stream_support g0;
  sc_device : DeviceFd g = DeviceFd g0;
  sc_bufsize : FS_MAX_BUF_SIZE g = FS_MAX_BUF_SIZE g0;
  sc_args : FS_MAX_ARG_NUM g = FS_MAX_ARG_NUM g0;
  sc_md : md_id g = md_id g0;
  sc_otp : otp_offset g = otp_offset g0;
  sc_exit : exit_signal g = exit_signal g0;
  sc_buf : length (pFsBuf (g_FsInfo g)) = length (pFsBuf (g_FsInfo g0));
  sc_state : fs_buff_state (g_FsInfo g) = fs_buff_state (g_FsInfo g0);
  sc_offset : fs_buff_offset (g_FsInfo g) = fs_buff_offset (g_FsInfo g0)
}.

Record tinv (R : hmap -> Prop) (g0 g : fsd) : Prop := TInv {
  t_ok : table_ok g;
  t_map : R (abs g);
  t_config : same_config g0 g
}.

(** ** Lemmas on the map of a table *)

Lemma lookup_abs_table l i : abs_table l !! i = l !! i ≫= slot_view.
Proof. unfold abs_table. by rewrite lookup_omap, lookup_map_seq_0. Qed.

Lemma abs_table_insert l i h f :
  (i < length l)%nat -> slot_view h = Some f -> abs_table (<[i := h]> l) = <[i := f]> (abs_table l).
Proof.
  intros Hi Hf. apply map_eq. intros j. rewrite lookup_abs_table.
  destruct (decide (i = j)) as [->|].
  - rewrite list_lookup_insert_eq by done. simpl. by rewrite lookup_insert_eq.
  - by rewrite list_lookup_insert_ne, lookup_insert_ne, lookup_abs_table.
Qed.

Lemma abs_table_delete l i h :
  (i < length l)%nat -> slot_view h = None -> abs_table (<[i := h]> l) = delete i (abs_table l).
Proof.
  intros Hi Hf. apply map_eq. intros j. rewrite lookup_abs_table.
  destruct (decide (i = j)) as [->|].
  - rewrite list_lookup_insert_eq by done. simpl. by rewrite lookup_delete_eq.
  - by rewrite list_lookup_insert_ne, lookup_delete_ne, lookup_abs_table.
Qed.

Lemma abs_table_alter l i f :
  (forall h, slot_view (f h) = slot_view h) -> abs_table (alter f i l) = abs_table l.
Proof.
  intros Hf. apply map_eq. intros j. rewrite !lookup_abs_table.
  destruct (decide (i = j)) as [->|].
  - rewrite list_lookup_alter_eq. destruct (l !! j); simpl; [apply Hf|done].
  - by rewrite list_lookup_alter_ne.
Qed.

Lemma size_abs_table l : (size (abs_table l) <= length l)%nat.
Proof.
  rewrite <- size_dom.
  transitivity (size (set_seq 0 (length l) : gset nat)); [|by rewrite size_set_seq].
  apply subseteq_size. intros i. rewrite elem_of_dom, elem_of_set_seq, lookup_abs_table.
  intros [f Hf]. destruct (l !! i) eqn:Hl; [|done]. apply lookup_lt_Some in Hl. lia.
Qed.

Lemma alter_insert_at (l : list FS_FILE_HANDLE) i f h :
  l !! i = Some h -> alter f i l = <[i := f h]> l.
Proof.
  intros Hh. apply list_eq. intros j. destruct (decide (i = j)) as [->|].
  - rewrite list_lookup_alter_eq, Hh. simpl.
    rewrite list_lookup_insert_eq; [done|]. by eapply lookup_lt_Some.
  - by rewrite list_lookup_alter_ne, list_lookup_insert_ne.
Qed.

(** ** Free and valid handles *)

Lemma find_free_spec l i :
  0 <= i -> i + zlen l < 0xFFFFFFFF ->
  (find_free i l = 0xFFFFFFFF /\ Forall (fun h => fInUse h = true) l) \/
  (exists k h, find_free i l = i + Z.of_nat k /\ l !! k = Some h /\ fInUse h = false /\
    forall j h', (j < k)%nat -> l !! j = Some h' -> fInUse h' = true).
Proof.
  revert i. induction l as [|h l IH]; intros i Hi Hl; simpl; [by left|].
  destruct (fInUse h) eqn:Hh.
  - destruct (IH (i + 1)) as [[-> HF]|(k & h' & -> & Hk & Hf & Hlt)]; [lia|unfold zlen in *; simpl in *; lia| |].
    + left. split; [done|]. by constructor.
    + right. exists (S k), h'. split_and!; [lia|done|done|].
      intros [|j] h'' Hj; simpl; [by intros [= <-]|]. apply Hlt. lia.
  - right. exists 0%nat, h. split_and!; [lia|done|done|]. intros; lia.
Qed.

(** A free handle is a slot that is not in use, the lowest but 0. *)
Lemma free_handle_spec g :
  table_ok g -> FS_GetFreeHandle g <> 0xFFFFFFFF ->
  exists i h, FS_GetFreeHandle g = Z.of_nat i /\ (0 < i < 129)%nat /\
    hFileHandle (g_FsInfo g) !! i = Some h /\ abs g !! i = None /\
    (forall j, (0 < j < i)%nat -> is_Some (abs g !! j)).
Proof.
  intros [Hlen _ _]. unfold FS_GetFreeHandle. case_match; [done|]. intros Hne.
  destruct (find_free_spec (drop 1 (hFileHandle (g_FsInfo g))) 1) as
    [[He _]|(k & h & -> & Hk & Hf & Hlt)]; [lia| |by rewrite He in Hne|].
  { unfold zlen. rewrite length_drop, Hlen. lia. }
  rewrite lookup_drop in Hk. exists (S k), h.
  assert (S k < 129)%nat by (rewrite <- Hlen; by eapply lookup_lt_Some).
  split_and!; [lia|lia|lia|done| |].
  - unfold abs. rewrite lookup_abs_table. change (1 + k)%nat with (S k) in Hk. rewrite Hk. simpl.
    unfold slot_view. by rewrite Hf.
  - intros [|j] Hj; [lia|]. unfold abs. rewrite lookup_abs_table.
    destruct (lookup_lt_is_Some_2 (hFileHandle (g_FsInfo g)) (S j)) as [h' Hh']; [lia|].
    rewrite Hh'. simpl. unfold slot_view.
    rewrite (Hlt j h'); [done|lia|]. by rewrite lookup_drop.
Qed.

(** The table is full exactly when every other handle is open. *)
Lemma free_handle_none g :
  table_ok g -> FS_GetFreeHandle g = 0xFFFFFFFF ->
  forall i, (0 < i < 129)%nat -> is_Some (abs g !! i).
Proof.
  intros Hok. pose proof Hok as [Hlen H0 Hcnt]. unfold FS_GetFreeHandle. case_match eqn:Hfull.
  - intros _. exfalso. apply Z.geb_le in Hfull. rewrite Hcnt in Hfull. unfold FS_FILE_MAX in Hfull.
    assert (size (abs g) <= 128)%nat; [|lia].
    rewrite <- size_dom. transitivity (size (set_seq 1 128 : gset nat)); [|by rewrite size_set_seq].
    apply subseteq_size. intros i. rewrite elem_of_dom, elem_of_set_seq. intros [f Hf].
    destruct i as [|i]; [congruence|]. unfold abs in Hf. rewrite lookup_abs_table in Hf.
    destruct (hFileHandle (g_FsInfo g) !! S i) eqn:Hl; [|done]. apply lookup_lt_Some in Hl. lia.
  - intros Hff i Hi.
    destruct (find_free_spec (drop 1 (hFileHandle (g_FsInfo g))) 1) as
      [[_ HF]|(k & h & He & Hk & _)]; [lia| | |].
    { unfold zlen. rewrite length_drop, Hlen. lia. }
    + destruct (lookup_lt_is_Some_2 (hFileHandle (g_FsInfo g)) i) as [h Hh]; [lia|].
      unfold abs. rewrite lookup_abs_table, Hh. simpl. unfold slot_view.
      rewrite Forall_lookup in HF. rewrite (HF (i - 1)%nat h); [done|].
      rewrite lookup_drop. by replace (1 + (i - 1))%nat with i by lia.
    + apply lookup_lt_Some in Hk. rewrite length_drop, Hlen in Hk. lia.
Qed.

Lemma handle_at_lookup g (i : nat) h :
  hFileHandle (g_FsInfo g) !! i = Some h -> handle_at g (Z.of_nat i) = h.
Proof. intros Hh. unfold handle_at. by rewrite Nat2Z.id, Hh. Qed.

(** A handle passes the guard exactly when the map has it, save for a stream at
    the address of [INVALID_HANDLE_VALUE]. *)
Lemma valid_handle_iff g HandleIndex :
  table_ok g ->
  valid_handle g HandleIndex = true <->
  exists i f, u32 HandleIndex = Z.of_nat i /\ abs g !! i = Some f /\ f_hFile f <> INVALID_HANDLE_VALUE.
Proof.
  intros [Hlen H0 Hcnt]. pose proof (u32_range HandleIndex) as Hr. unfold valid_handle. split.
  - intros H. zbool. unfold FS_FILE_MAX in *.
    destruct (lookup_lt_is_Some_2 (hFileHandle (g_FsInfo g)) (Z.to_nat (u32 HandleIndex))) as [h Hh]; [lia|].
    unfold handle_at in *. rewrite Hh in *. simpl in *.
    exists (Z.to_nat (u32 HandleIndex)), (File (hFile h) (fSearch h)).
    unfold abs. rewrite lookup_abs_table, Hh. simpl. unfold slot_view.
    match goal with H : fInUse h = true |- _ => rewrite H end. split_and!; [lia|done|done].
  - intros (i & f & -> & Hi & Hf). unfold handle_at. rewrite Nat2Z.id.
    assert (size (abs g) <> 0%nat) as Hsz.
    { intros Hz. apply map_size_empty_inv in Hz. rewrite Hz in Hi. by rewrite lookup_empty in Hi. }
    unfold abs in Hi. rewrite lookup_abs_table in Hi.
    destruct (hFileHandle (g_FsInfo g) !! i) as [h|] eqn:Hh; [|done]. simpl in *.
    apply lookup_lt_Some in Hh. rewrite Hlen in Hh. unfold slot_view in Hi.
    destruct (fInUse h); [|done]. injection Hi as <-. simpl in Hf.
    unfold FS_FILE_MAX. repeat (apply andb_true_iff; split); try (apply Z.ltb_lt; lia).
    apply negb_true_iff, orb_false_iff. split; [|done]. apply orb_false_iff.
    split; apply Z.eqb_neq; [lia|done].
Qed.

(** ** Preservation of the invariant *)

Lemma same_config_refl g : same_config g g.
Proof. by constructor. Qed.

Lemma same_config_trans g1 g2 g3 : same_config g1 g2 -> same_config g2 g3 -> same_config g1 g3.
Proof. intros [] []. constructor; congruence. Qed.

#[export] Instance rtc_table_closed m0 : TableClosed (rtc table_step m0).
Proof. intros m m' Hm Hs. by eapply rtc_r. Qed.

#[export] Instance true_table_closed : TableClosed (fun _ => True).
Proof. done. Qed.

Lemma opens_step s m m' : opens s m m' -> table_step m m'.
Proof. intros (i & fd & Hi & Hf & Hl & ->). by constructor. Qed.

Lemma closed_opens R `{!TableClosed R} s m m' : R m -> opens s m m' -> R m'.
Proof. intros Hm Ho. eapply table_closed; [done|by eapply opens_step]. Qed.

Lemma closed_delete R `{!TableClosed R} m i : R m -> R (delete i m).
Proof.
  intros Hm. destruct (decide (is_Some (m !! i))) as [Hi|Hi].
  - eapply table_closed; [done|by constructor].
  - by rewrite delete_id by (by apply eq_None_not_Some).
Qed.

Lemma tinv_refl (R : hmap -> Prop) g : table_ok g -> R (abs g) -> tinv R g g.
Proof. intros. by constructor; [..|apply same_config_refl]. Qed.

Lemma tinv_mono (R R' : hmap -> Prop) g0 g : tinv R g0 g -> R' (abs g) -> tinv R' g0 g.
Proof. by intros [] ?. Qed.

(** Changes outside the table. *)
Lemma tinv_ext R g0 g g' :
  hFileHandle (g_FsInfo g') = hFileHandle (g_FsInfo g) -> FileNum (g_FsInfo g') = FileNum (g_FsInfo g) ->
  same_config g g' -> tinv R g0 g -> tinv R g0 g'.
Proof.
  intros Hh Hn Hc [[Hlen H0 Hcnt] Hs Hc0].
  assert (abs g' = abs g) as Ha by (unfold abs; by rewrite Hh).
  constructor; [constructor| |]; rewrite ?Ha, ?Hh, ?Hn; [done..|].
  by eapply same_config_trans.
Qed.

Lemma tinv_vars R g0 g f : tinv R g0 g -> tinv R g0 (upd_vars f g).
Proof. by apply tinv_ext. Qed.

Lemma tinv_pFsBuf R g0 g m :
  length m = length (pFsBuf (g_FsInfo g)) -> tinv R g0 g -> tinv R g0 (upd_pFsBuf m g).
Proof. intros Hm. by apply tinv_ext. Qed.

Lemma tinv_slow R g0 g ms : tinv R g0 g -> tinv R g0 (note_slow ms g).
Proof. unfold note_slow. case_match; [|done]. by apply tinv_ext. Qed.

(** Changes of a slot the map does not see. *)
Lemma tinv_handle R g0 g i f :
  (forall h, slot_view (f h) = slot_view h) -> tinv R g0 g -> tinv R g0 (upd_handle i f g).
Proof.
  intros Hf [[Hlen H0 Hcnt] Hs Hc].
  assert (abs (upd_handle i f g) = abs g) as Ha by by apply abs_table_alter.
  constructor; [constructor| |]; rewrite ?Ha; [|done..|].
  - simpl. by rewrite length_alter.
  - eapply same_config_trans; [exact Hc|]. by constructor.
Qed.

(** The two updates of an open. *)
Lemma abs_open g i h F f :
  hFileHandle (g_FsInfo g) !! i = Some h -> slot_view (F h) = Some f ->
  abs (upd_handle (Z.of_nat i) F (upd_FileNum (fun n => u32 (n + 1)) g)) = <[i := f]> (abs g).
Proof.
  intros Hh Hf. unfold abs. simpl. rewrite Nat2Z.id, (alter_insert_at _ _ _ _ Hh).
  apply abs_table_insert; [by eapply lookup_lt_Some|done].
Qed.

Lemma tinv_open (R : hmap -> Prop) g0 g F s fd :
  tinv R g0 g -> FS_GetFreeHandle g <> 0xFFFFFFFF ->
  (forall h, slot_view (F h) = Some (File fd s)) ->
  exists i, FS_GetFreeHandle g = Z.of_nat i /\
    tinv (opens_at s i fd (abs g)) g0
      (upd_handle (FS_GetFreeHandle g) F (upd_FileNum (fun n => u32 (n + 1)) g)).
Proof.
  intros [Hok Hs Hc] Hfree HF.
  destruct (free_handle_spec g Hok Hfree) as (i & h & -> & Hi & Hh & Habs & Hlow).
  exists i. split; [done|]. destruct Hok as [Hlen H0 Hcnt].
  pose proof (abs_open g i h F _ Hh (HF h)) as Ha. constructor.
  - constructor; rewrite ?Ha.
    + simpl. by rewrite length_alter.
    + rewrite lookup_insert_ne by lia. done.
    + rewrite map_size_insert_None by done. simpl. rewrite Hcnt.
      pose proof (size_abs_table (hFileHandle (g_FsInfo g))) as Hsz. fold (abs g) in Hsz.
      rewrite u32_small; lia.
  - by rewrite Ha.
  - eapply same_config_trans; [exact Hc|]. by constructor.
Qed.

(** The two updates of a close. *)
Definition closed_slot (h : FS_FILE_HANDLE) : FS_FILE_HANDLE :=
  set_fInUse false (set_hFile INVALID_HANDLE_VALUE h).

Lemma abs_close g (i : nat) h :
  hFileHandle (g_FsInfo g) !! i = Some h ->
  abs (upd_FileNum (fun n => u32 (n - 1)) (upd_handle (Z.of_nat i) closed_slot g)) = delete i (abs g).
Proof.
  intros Hh. unfold abs. simpl. rewrite Nat2Z.id, (alter_insert_at _ _ _ _ Hh).
  apply abs_table_delete; [by eapply lookup_lt_Some|done].
Qed.

Lemma tinv_close (R R' : hmap -> Prop) g0 g (i : nat) h :
  tinv R g0 g -> hFileHandle (g_FsInfo g) !! i = Some h -> fInUse h = true ->
  R' (delete i (abs g)) ->
  tinv R' g0 (upd_FileNum (fun n => u32 (n - 1)) (upd_handle (Z.of_nat i) closed_slot g)).
Proof.
  intros [[Hlen H0 Hcnt] Hs Hc] Hh Hu HR. pose proof (abs_close g i h Hh) as Ha.
  assert (is_Some (abs g !! i)) as Hi.
  { unfold abs. rewrite lookup_abs_table, Hh. simpl. unfold slot_view. by rewrite Hu. }
  constructor.
  - constructor; rewrite ?Ha.
    + simpl. by rewrite length_alter.
    + by apply lookup_delete_None; right.
    + simpl. rewrite Hcnt, map_size_delete_Some by done.
      pose proof (size_abs_table (hFileHandle (g_FsInfo g))) as Hsz. fold (abs g) in Hsz.
      assert (size (abs g) <> 0%nat).
      { intros Hz. apply map_size_empty_inv in Hz. rewrite Hz in Hi.
        by rewrite lookup_empty in Hi; destruct Hi. }
      rewrite u32_small; lia.
  - by rewrite Ha.
  - eapply same_config_trans; [exact Hc|]. by constructor.
Qed.

Section TableProg.
Context `{OS}.

Lemma keeps_mem_at p : keeps_glob (mem_at p).
Proof. unfold mem_at. keeps. Qed.

Lemma keeps_deref p n : keeps_glob (deref p n).
Proof. unfold deref. keeps. apply keeps_mem_at. Qed.


Lemma keeps_conv_name n : keeps_glob (conv_name n).
Proof. unfold conv_name. keeps. Qed.

Lemma keeps_dump_loop n head backup new b : keeps_glob (CCCI_Dump_FS_Path_loop n head backup new b).
Proof. revert head backup new b. induction n as [|n IH]; intros; simpl; keeps. Qed.

Lemma keeps_dump p : keeps_glob (CCCI_Dump_FS_Path p).
Proof. unfold CCCI_Dump_FS_Path. keeps. apply keeps_dump_loop. Qed.

Lemma keeps_dsp_path root : keeps_glob (dsp_path root).
Proof. unfold dsp_path. keeps. Qed.

#[local] Hint Resolve keeps_mem_at keeps_deref keeps_conv_name keeps_dump
  keeps_dsp_path : cfs.

Section Neutral.
Context (R : hmap -> Prop) (g0 : fsd).
Abbreviation I := (glob_inv (tinv R g0)).

Lemma pres_vars f : preserves I (pmod (upd_vars f)).
Proof. apply glob_inv_mod. intros g. apply tinv_vars. Qed.

Lemma pres_handle i f :
  (forall h, slot_view (f h) = slot_view h) -> preserves I (pmod (upd_handle i f)).
Proof. intros. apply glob_inv_mod. intros g. by apply tinv_handle. Qed.

Lemma pres_slow ms : preserves I (pmod (note_slow ms)).
Proof. apply glob_inv_mod. intros g. apply tinv_slow. Qed.

Lemma pres_name i p : preserves I (pmod (upd_handle i (set_pFsFileName p))).
Proof. by apply pres_handle. Qed.

Lemma pres_pattern i p : preserves I (pmod (upd_handle i (set_pFsSearchPattern p))).
Proof. by apply pres_handle. Qed.

#[local] Hint Resolve pres_vars pres_slow pres_name pres_pattern : cfs.

(** A timing changes nothing but the statistics. *)
Lemma profile_end_frame (P : fsd -> Prop) e t :
  (forall ms g, P g -> P (note_slow ms g)) -> preserves (glob_inv P) (profile_end e t).
Proof. intros HP. unfold profile_end. pres. apply glob_inv_mod. auto. Qed.

Lemma pres_profile_end e t : preserves I (profile_end e t).
Proof. apply profile_end_frame. intros. by apply tinv_slow. Qed.

Lemma pres_buf_write off bs : preserves I (buf_write off bs).
Proof.
  intros w HI. unfold buf_write. wps. wps. wps.
  change (shared (w_glob w)) with (pFsBuf (g_FsInfo (w_glob w))).
  destruct (mwrite (pFsBuf (g_FsInfo (w_glob w))) off bs) as [m|] eqn:Hm; [|done]. simpl. wps.
  apply tinv_pFsBuf; [by eapply length_mwrite|done].
Qed.

#[local] Hint Resolve pres_profile_end pres_buf_write : cfs.

Lemma pres_Seek h o wh : preserves I (FS_CCCI_Seek h o wh).
Proof. unfold FS_CCCI_Seek. pres. Qed.

Lemma pres_Read h p n out : preserves I (FS_CCCI_Read h p n out).
Proof. unfold FS_CCCI_Read. pres. Qed.

Lemma pres_Write h p n out : preserves I (FS_CCCI_Write h p n out).
Proof. unfold FS_CCCI_Write. pres. Qed.

Lemma pres_GetFileSize h out : preserves I (FS_CCCI_GetFileSize h out).
Proof. unfold FS_CCCI_GetFileSize. pres. Qed.

End Neutral.

#[local] Hint Resolve pres_vars pres_slow pres_name pres_pattern pres_profile_end pres_buf_write : cfs.

Lemma abs_lookup g (i : nat) f :
  abs g !! i = Some f ->
  exists h, hFileHandle (g_FsInfo g) !! i = Some h /\ fInUse h = true /\
    f = File (hFile h) (fSearch h).
Proof.
  unfold abs. rewrite lookup_abs_table.
  destruct (hFileHandle (g_FsInfo g) !! i) as [h|]; [|done]. simpl. unfold slot_view.
  destruct (fInUse h) eqn:?; [|done]. intros [= <-]. by exists h.
Qed.

(** The outcome of an operation that may open a file ([s = false]) or a
    directory stream ([s = true]): the map [m] is as it was, or the lowest free
    handle is open, and a handle that is answered is that one. *)
Definition may_open (s : bool) (m : hmap) (g0 : fsd) (r : Z) (g : fsd) : Prop :=
  tinv (fun m' => m' = m \/ opens s m m') g0 g /\
  (0 <= r -> exists i fd, r = Z.of_nat i /\ tinv (opens_at s i fd m) g0 g).

Lemma may_open_same s g0 g r :
  tinv (eq (abs g)) g0 g -> r < 0 -> may_open s (abs g) g0 r g.
Proof. intros HI Hr. split; [|lia]. eapply tinv_mono; [done|by left]. Qed.

Lemma may_open_at s i fd m g0 g r :
  tinv (opens_at s i fd m) g0 g -> r < 0 \/ r = Z.of_nat i -> may_open s m g0 r g.
Proof.
  intros HI Hr. split.
  - eapply tinv_mono; [done|]. right. exists i, fd. apply HI.
  - intros H0. destruct Hr as [|Hr]; [lia|]. by exists i, fd.
Qed.

Lemma may_open_tinv (R : hmap -> Prop) s m g0 r g :
  may_open s m g0 r g -> R m -> (forall m', opens s m m' -> R m') -> tinv R g0 g.
Proof. intros [HI _] Hm Ho. eapply tinv_mono; [done|]. destruct HI as [_ [->|]]; auto. Qed.

Lemma tinv_eq R g0 g : tinv R g0 g -> tinv (eq (abs g)) g0 g.
Proof. intros HI. by eapply tinv_mono. Qed.

Lemma FS_ErrorConv_neg e : FS_ErrorConv e < 0.
Proof. unfold FS_ErrorConv. repeat case_match; done. Qed.

Lemma open_triple R n flags g0 g :
  tinv R g0 g -> gspec g (FS_CCCI_Open n flags) (may_open false (abs g) g0).
Proof.
  intros HI%tinv_eq. unfold FS_CCCI_Open. pose proof FS_ErrorConv_neg as Hneg.
  do 4 gs; [gs; by apply may_open_same|].
  do 3 gs; [|gs; by apply may_open_same..].
  gs. gsk. gs; [gs; by apply may_open_same|]. do 2 gs. gs; [do 3 gs; by apply may_open_same|].
  do 4 gs. zbool.
  match goal with H : FS_GetFreeHandle g <> _ |- gspec (upd_handle _ ?F _) _ _ =>
    destruct (tinv_open _ g0 g F false (rv a1) HI H) as (i' & -> & HI'); [done|] end.
  do 4 gs. apply (tinv_handle _ _ _ (Z.of_nat i') (set_pFsFileName a2)) in HI'; [|done].
  gs; [gs|do 3 gs]; (eapply may_open_at; [exact HI'|auto]). by left.
Qed.

(** What an open that answers [r] does to the map: a handle that is answered is the lowest
    free one and open; with an error the map is as it was, or the lowest free handle is open
    (when the memory for its name runs out). *)
Definition opens_as (s : bool) (r : Z) (m m' : hmap) : Prop :=
  if 0 <=? r then exists fd, opens_at s (Z.to_nat r) fd m m' else m' = m \/ opens s m m'.

Lemma may_open_as s m g0 r g : may_open s m g0 r g -> tinv (opens_as s r m) g0 g.
Proof.
  intros [HI Hr]. unfold opens_as. destruct (Z.leb_spec 0 r) as [H0|]; [|done].
  destruct (Hr H0) as (i & fd & -> & Hi). eapply tinv_mono; [done|]. exists fd. rewrite Nat2Z.id. apply Hi.
Qed.

Lemma opens_as_opens s r m m' : opens_as s r m m' -> m' = m \/ opens s m m'.
Proof. unfold opens_as. case_match; [|done]. intros [fd Hi]. right. by exists (Z.to_nat r), fd. Qed.

(** What a close of [h] that answers [r] does to the map. *)
Definition closes (h r : Z) (m m' : hmap) : Prop :=
  if r =? FS_NO_ERROR then is_Some (m !! Z.to_nat (u32 h)) /\ m' = delete (Z.to_nat (u32 h)) m else m' = m.

(** From a map [m] to [m] or to [m] without the handle [h]. *)
Definition may_close (h : Z) (m m' : hmap) : Prop := m' = m \/ m' = delete (Z.to_nat (u32 h)) m.

Lemma release_triple (R R' : hmap -> Prop) g0 (i : nat) h g :
  tinv R g0 g -> hFileHandle (g_FsInfo g) !! i = Some h -> fInUse h = true ->
  R' (delete i (abs g)) ->
  gspec g (release_handle (Z.of_nat i)) (fun _ => tinv R' g0).
Proof. intros. unfold release_handle. repeat gs. by eapply tinv_close. Qed.

(** The invariant together with the concrete table: what holds while an
    operation works on an open handle. *)
Definition at_table (R : hmap -> Prop) (g0 : fsd) (l : list FS_FILE_HANDLE) (g : fsd) : Prop :=
  tinv R g0 g /\ hFileHandle (g_FsInfo g) = l.

Lemma at_table_slow R g0 l ms g : at_table R g0 l g -> at_table R g0 l (note_slow ms g).
Proof.
  intros [HI <-]. split; [by apply tinv_slow|]. unfold note_slow. by case_match.
Qed.

Lemma closes_same h r m : r < 0 -> closes h r m m.
Proof. intros Hr. unfold closes. by destruct (Z.eqb_spec r FS_NO_ERROR) as [->|]. Qed.

Lemma closes_may_close h r m m' : closes h r m m' -> may_close h m m'.
Proof. unfold closes. case_match; [intros [_ ->]; by right|by left]. Qed.

Lemma close_triple R g0 h g :
  tinv R g0 g -> gspec g (FS_CCCI_Close h) (fun r => tinv (closes h r (abs g)) g0).
Proof.
  intros HI%tinv_eq. unfold FS_CCCI_Close.
  assert (forall r, r < 0 -> tinv (closes h r (abs g)) g0 g) as HI'
    by (intros r Hr; eapply tinv_mono; [done|by apply closes_same]).
  do 2 gs. gs; [gs; by apply HI'|].
  apply negb_false_iff, valid_handle_iff in Heqb as (i & f & Hu & Hi & _); [|apply HI].
  pose proof (abs_lookup _ _ _ Hi) as (h' & Hh & Huse & _). gs.
  apply gspec_mono with (fun err g' => (forall ret, err = Some ret -> ret < 0) /\
    at_table (eq (abs g)) g0 (hFileHandle (g_FsInfo g)) g').
  - pose proof (fun e t => profile_end_frame _ e t (at_table_slow (eq (abs g)) g0 (hFileHandle (g_FsInfo g)))) as Hprof.
    pose proof FS_ErrorConv_neg as Hneg.
    gs; [gs; gsk; gs; split; [|done]; case_match; by intros ? [= <-]|].
    gs. gsk. gs. gsk. gs. gsk. gs; [gs; split; [by intros ? [= <-]|done]|]. gs.
    eapply gspec_pres; [apply Hprof|done|intros ? g' Hg'; by gs].
  - intros [ret|] g' [Hret [HI2 Hl]]; gs.
    + eapply tinv_mono; [done|]. rewrite <- (t_map _ _ _ HI2). by apply closes_same, Hret.
    + rewrite Hu. eapply gspec_mono; [apply (release_triple (eq (abs g)) (closes h FS_NO_ERROR (abs g)) g0 i h'); [done|by rewrite Hl|done|]|].
      * unfold closes. simpl. rewrite Hu, Nat2Z.id, <- (t_map _ _ _ HI2). by rewrite Hi.
      * intros ? g'' HI3. by gs.
Qed.

(** The map without the handles below [n]. *)
Definition from_handle (n : nat) (m : hmap) : hmap := filter (fun p => (n <= p.1)%nat) m.

Lemma from_handle_0 m : from_handle 0 m = m.
Proof. apply map_filter_id. intros. simpl. lia. Qed.

Lemma from_handle_S n m : from_handle (S n) m = delete n (from_handle n m).
Proof.
  apply map_eq. intros i. unfold from_handle. destruct (decide (n = i)) as [->|Hne].
  - rewrite lookup_delete_eq, map_lookup_filter. destruct (m !! i); simpl; [|done].
    rewrite option_guard_False by lia. done.
  - rewrite lookup_delete_ne, !map_lookup_filter by done. destruct (m !! i); simpl; [|done].
    by case_guard; case_guard; try done; lia.
Qed.

(** What a close of all handles that answers [r] does to the map: nothing is left, or the
    handles from the lowest up are closed, to the first the kernel refuses. *)
Definition closes_all (r : Z) (m m' : hmap) : Prop :=
  if r =? FS_NO_ERROR then m' = ∅ else exists n, m' = from_handle n m.

Definition closes_upto (l : nat) (r : Z) (m m' : hmap) : Prop :=
  if r =? FS_NO_ERROR then m' = from_handle l m else exists n, m' = from_handle n m.

Lemma closeall_triple m g0 k n g :
  tinv (eq (from_handle k m)) g0 g ->
  gspec g (FS_CCCI_CloseAll_loop (Z.of_nat <$> seq k n)) (fun r => tinv (closes_upto (k + n) r m) g0).
Proof.
  revert k g. induction n as [|n IH]; intros k g HI; simpl.
  { gs. eapply tinv_mono; [done|]. unfold closes_upto. rewrite Nat.add_0_r. symmetry. apply HI. }
  pose proof (t_map _ _ _ HI) as Hm. do 2 gs. unfold handle_at. rewrite Nat2Z.id.
  assert (forall g', tinv (eq (from_handle (S k) m)) g0 g' ->
    gspec g' (FS_CCCI_CloseAll_loop (Z.of_nat <$> seq (S k) n)) (fun r => tinv (closes_upto (k + S n) r m) g0)) as HIH.
  { intros g' Hg'. rewrite <- Nat.add_succ_comm. by apply IH. }
  assert (forall r, r < 0 -> tinv (closes_upto (k + S n) r m) g0 g) as Hfail.
  { intros r Hr. eapply tinv_mono; [done|]. unfold closes_upto. destruct (Z.eqb_spec r FS_NO_ERROR) as [->|]; [done|]. by exists k. }
  destruct (hFileHandle (g_FsInfo g) !! k) as [h|] eqn:Hh; simpl.
  - gs.
    + gs. apply gspec_mono with (fun err g' => (forall ret, err = Some ret -> ret < 0) /\ g' = g).
      { pose proof FS_ErrorConv_neg. gs; [by gs|]. gs. gsk. gs. split; [|done]. case_match; by intros ? [= <-]. }
      intros [ret|] ? [Hret ->]; [gs; by apply Hfail, Hret|].
      gs. eapply gspec_mono; [apply (release_triple _ (eq (from_handle (S k) m)) _ k h _ HI Hh); [done|]|].
      * by rewrite from_handle_S, Hm.
      * intros ? g' Hg'. by apply HIH.
    + apply HIH. eapply tinv_mono; [done|]. rewrite from_handle_S, Hm, delete_id; [done|].
      unfold abs. rewrite lookup_abs_table, Hh. simpl. unfold slot_view. by rewrite Heqb.
  - apply HIH. eapply tinv_mono; [done|]. rewrite from_handle_S, Hm, delete_id; [done|].
    unfold abs. by rewrite lookup_abs_table, Hh.
Qed.

Lemma from_handle_end g : table_ok g -> from_handle (Z.to_nat FS_FILE_MAX) (abs g) = ∅.
Proof.
  intros Hok. apply map_eq. intros i. rewrite lookup_empty. unfold from_handle. rewrite map_lookup_filter.
  destruct (abs g !! i) as [f|] eqn:Hi; [|done]. simpl. apply abs_lookup in Hi as (h & Hh%lookup_lt_Some & _).
  rewrite (ok_length _ Hok) in Hh. rewrite option_guard_False; [done|]. change (Z.to_nat FS_FILE_MAX) with 129%nat. lia.
Qed.

Lemma closeall_spec R g0 g :
  tinv R g0 g -> gspec g FS_CCCI_CloseAll (fun r => tinv (closes_all r (abs g)) g0).
Proof.
  intros HI%tinv_eq. eapply gspec_mono.
  - apply (closeall_triple (abs g) g0 0 (Z.to_nat FS_FILE_MAX)). by rewrite from_handle_0.
  - intros r g' Hg'. eapply tinv_mono; [exact Hg'|]. pose proof (t_map _ _ _ Hg') as Hm.
    unfold closes_upto in Hm. unfold closes_all. case_match; [|done]. by rewrite Hm, Nat.add_0_l, from_handle_end by apply HI.
Qed.

Lemma closes_all_from r m m' : closes_all r m m' -> m' = ∅ \/ exists n, m' = from_handle n m.
Proof. unfold closes_all. case_match; auto. Qed.

(** What holds along all steps of the table holds through these operations. *)
Section Closed.
Context (R : hmap -> Prop) `{!TableClosed R} (g0 : fsd).
Abbreviation I := (glob_inv (tinv R g0)).

Lemma pres_Open n flags : preserves I (FS_CCCI_Open n flags).
Proof.
  apply preserves_gspec. intros g HI. eapply gspec_mono; [by eapply open_triple|].
  intros r g' Hr. eapply may_open_tinv; [done|apply HI|]. intros m'. by eapply closed_opens, HI.
Qed.

Lemma pres_Close h : preserves I (FS_CCCI_Close h).
Proof.
  apply preserves_gspec. intros g HI. eapply gspec_mono; [by eapply close_triple|].
  intros r g' Hg. eapply tinv_mono; [exact Hg|]. destruct (closes_may_close _ _ _ _ (t_map _ _ _ Hg)) as [-> | ->]; [apply HI|].
  by apply closed_delete, HI.
Qed.

Lemma closed_from_handle m j : R m -> R (from_handle j m).
Proof.
  intros Hm. induction j as [|j IH]; [by rewrite from_handle_0|].
  rewrite from_handle_S. by apply closed_delete.
Qed.

Lemma pres_CloseAll : preserves I FS_CCCI_CloseAll.
Proof.
  apply preserves_gspec. intros g HI. eapply gspec_mono; [by eapply closeall_spec|].
  intros r g' Hg. eapply tinv_mono; [exact Hg|].
  destruct (closes_all_from _ _ _ (t_map _ _ _ Hg)) as [Hm|[j Hm]]; rewrite Hm;
    [rewrite <- (from_handle_end g) by apply HI|]; by apply closed_from_handle, HI.
Qed.
End Closed.
End TableProg.

#[export] Hint Resolve rtc_table_closed true_table_closed keeps_mem_at keeps_deref keeps_conv_name keeps_dump
  keeps_dsp_path pres_vars pres_slow pres_name pres_pattern pres_profile_end pres_buf_write
  pres_Seek pres_Read pres_Write pres_GetFileSize pres_Open pres_Close pres_CloseAll : cfs.

(** ** Properties of the operations on handles *)

(** A negative constant is not a handle. *)
Ltac neg_code := let H := fresh in intros H; exfalso; apply H; reflexivity.

Section HandleProps.
Context `{OS}.

(** The effect of a successful open: the lowest free handle now stands for the
    descriptor that an [open] of [path] answered, and its slot holds a copy of
    the path. *)
Definition opened (Flag : Z) (g : fsd) (w' : world fsd) (r : Z) : Prop :=
  exists i fd e path,
    r = Z.of_nat i /\ (0 < i < 129)%nat /\ abs g !! i = None /\
    (forall j, (0 < j < i)%nat -> is_Some (abs g !! j)) /\
    Ev (Sys_open path (open_flags Flag) 432) (IRes fd e) ∈ w_trace w' /\
    fd <> INVALID_HANDLE_VALUE /\
    abs (w_glob w') = <[i := File fd false]> (abs g) /\
    w_heap w' !! pFsFileName (handle_at (w_glob w') r) = Some path.

(** The outcomes of an open: a handle; a slot that was filled for a name that
    found no memory; or a failure that leaves the globals alone. *)
Definition open_outcome (Flag : Z) (g : fsd) (r : Z) (w' : world fsd) : Prop :=
  0 <= r /\ opened Flag g w' r \/
  r = FS_ERROR_RESERVED /\ (exists i fd, abs g !! i = None /\ abs (w_glob w') = <[i := File fd false]> (abs g)) \/
  r < 0 /\ r <> FS_ERROR_RESERVED /\ w_glob w' = g.

Ltac failed := right; right; split_and!; [reflexivity|discriminate|congruence].

Lemma open_cases FileName Flag w :
  table_ok (w_glob w) ->
  wp (FS_CCCI_Open FileName Flag) (open_outcome Flag (w_glob w)) (fun _ _ => True) w.
Proof.
  intros Hok. unfold FS_CCCI_Open, open_outcome. do 4 wps; [wps; failed|].
  wps. wps. destruct (resolve _ _) as [d path0| |]; [|wps; failed..].
  wps. apply wp_keeps; [keeps|]. intros path w1 E1. wps; [wps; failed|].
  wps. apply wp_sys. intros s [fd e] _. wps.
  { wps. apply wp_keeps; [keeps|]. intros _ w2 E2. simpl in E2. wps. right; right.
    split_and!; [apply FS_ErrorConv_neg| |congruence]. unfold FS_ErrorConv. by repeat case_match. }
  destruct (free_handle_spec (w_glob w)) as (i & h & Hi & Hr & Hh & Habs & Hlow);
    [done|zbool; congruence|].
  rewrite H0 in *. rewrite Hi. do 4 wps. wps. apply wp_malloc. intros s' [] _; cbv zeta.
  - do 2 wps. wps; [wps; right; left; split; [done|]; exists i, fd; split; [done|]|].
    { unfold abs. simpl. rewrite abs_table_alter by done. rewrite E1. by apply (abs_open (w_glob w) i h). }
    wps.
    apply wp_store; [simpl; by rewrite lookup_insert_eq|]. wps. left. split; [lia|].
    exists i, fd, e, path. zbool. simpl in *. split_and!; try (done || lia).
    + rewrite !elem_of_app, list_elem_of_singleton. auto.
    + unfold abs. simpl. rewrite abs_table_alter by done.
      rewrite E1. apply (abs_open (w_glob w) i h); done.
    + rewrite insert_insert_eq. unfold handle_at. simpl. rewrite Nat2Z.id, E1.
      rewrite list_lookup_alter_eq, list_lookup_alter_eq, Hh. simpl. by rewrite lookup_insert_eq.
  - do 2 wps. simpl. wps. right; left. split; [done|]. exists i, fd. split; [done|].
    unfold abs. simpl. rewrite abs_table_alter by done. rewrite E1. by apply (abs_open (w_glob w) i h).
Qed.

Lemma open_wp FileName Flag w :
  table_ok (w_glob w) ->
  wp (FS_CCCI_Open FileName Flag) (fun r w' => 0 <= r -> opened Flag (w_glob w) w' r)
    (fun _ _ => True) w.
Proof.
  intros Hok. eapply wp_mono; [by apply open_cases| |done].
  intros r w' [[_ ?]|[(-> & _)|(? & _)]] Hr; [done| |lia]. exfalso. by apply Hr.
Qed.

(** What the guard gives for a handle of the map. *)
Lemma open_handle_at g (i : nat) f :
  table_ok g -> abs g !! i = Some f -> f_hFile f <> INVALID_HANDLE_VALUE ->
  valid_handle g (Z.of_nat i) = true /\ u32 (Z.of_nat i) = Z.of_nat i /\
  hFile (handle_at g (Z.of_nat i)) = f_hFile f /\ fSearch (handle_at g (Z.of_nat i)) = f_search f /\
  fInUse (handle_at g (Z.of_nat i)) = true.
Proof.
  intros Hok Hi Hf.
  assert (u32 (Z.of_nat i) = Z.of_nat i) as Hu.
  { apply u32_small. unfold abs in Hi. rewrite lookup_abs_table in Hi.
    destruct (hFileHandle (g_FsInfo g) !! i) eqn:Hl; [|done]. apply lookup_lt_Some in Hl.
    destruct Hok. lia. }
  split_and!; [apply valid_handle_iff; [done|]; by exists i, f|done|..];
    apply abs_lookup in Hi as (h & Hh & Hin & ->); by rewrite (handle_at_lookup _ _ _ Hh).
Qed.

(** [FS_CCCI_Open] gives out the lowest free handle above 0: after a
    non-negative answer the handle, and no other, has become open, stands for
    the descriptor the kernel answered to an [open] with the translated flags,
    and its slot owns a copy of the path. *)
Theorem open_success FileName Flag w w' r :
  table_ok (w_glob w) -> FS_CCCI_Open FileName Flag w = (w', Ok r) -> 0 <= r ->
  opened Flag (w_glob w) w' r.
Proof.
  intros Hok Heq. apply (wp_eq _ (fun r w' => 0 <= r -> opened Flag (w_glob w) w' r)
    (fun _ _ => True) _ _ _ Heq).
  by apply open_wp.
Qed.

(** Calls that open no file. *)
Definition no_open (e : event) : Prop :=
  match ev_call e with Sys_open _ _ _ => False | _ => True end.

Lemma dump_loop_emits I (P : event -> Prop) n head backup new b :
  (forall p m r, P (Ev (Sys_access p m) r)) ->
  emits I P (CCCI_Dump_FS_Path_loop n head backup new b).
Proof. intros HP. revert head backup new b. induction n as [|n IH]; intros; simpl; emit. Qed.

Lemma dump_emits I (P : event -> Prop) p :
  (forall p m r, P (Ev (Sys_access p m) r)) -> emits I P (CCCI_Dump_FS_Path p).
Proof. intros HP. unfold CCCI_Dump_FS_Path. emit. by apply dump_loop_emits. Qed.

(** When all 128 handles are open, [FS_CCCI_Open] fails without
    opening a file or changing a global. *)
Theorem open_table_full FileName Flag w w' r :
  table_ok (w_glob w) -> (forall i, (0 < i < 129)%nat -> is_Some (abs (w_glob w) !! i)) ->
  FS_CCCI_Open FileName Flag w = (w', Ok r) ->
  r < 0 /\ w_glob w' = w_glob w /\
  exists evs, w_trace w' = w_trace w ++ evs /\ Forall no_open evs.
Proof.
  intros Hok Hfull Heq.
  assert (FS_GetFreeHandle (w_glob w) = 0xFFFFFFFF) as Hfree.
  { destruct (decide (FS_GetFreeHandle (w_glob w) = 0xFFFFFFFF)) as [|Hne]; [done|].
    destruct (free_handle_spec _ Hok Hne) as (i & h & _ & Hi & _ & Habs & _).
    destruct (Hfull i Hi). congruence. }
  assert (emits (eq (w_glob w)) no_open (FS_CCCI_Open FileName Flag)) as Hem.
  { unfold FS_CCCI_Open, dsp_path, conv_name. emit; subst; try done; zbool; congruence. }
  destruct (Hem w eq_refl) as (evs & Ht & HP & Hg). rewrite Heq in Ht, Hg. simpl in *.
  split_and!; [|done|by exists evs].
  assert (gspec (w_glob w) (FS_CCCI_Open FileName Flag) (fun r _ => r < 0)) as Hneg;
    [|by apply (gspec_ok _ _ _ _ _ Hneg Heq)].
  unfold FS_CCCI_Open. do 8 gst. gsk. gs; [by gs|]. by rewrite Hfree in Heqb0.
Qed.

(** A handle the table does not have is refused by every operation:
    no call, no change of any state. *)
Theorem invalid_handle_refused w h :
  valid_handle (w_glob w) h = false ->
  FS_CCCI_Close h w = (w, Ok FS_INVALID_FILE_HANDLE) /\
  (forall o wh, FS_CCCI_Seek h o wh w = (w, Ok FS_INVALID_FILE_HANDLE)) /\
  (forall p n out, FS_CCCI_Read h p n out w = (w, Ok FS_INVALID_FILE_HANDLE)) /\
  (forall p n out, FS_CCCI_Write h p n out w = (w, Ok FS_INVALID_FILE_HANDLE)) /\
  (forall out, FS_CCCI_GetFileSize h out w = (w, Ok FS_INVALID_FILE_HANDLE)).
Proof.
  intros Hv. unfold FS_CCCI_Close, FS_CCCI_Seek, FS_CCCI_Read, FS_CCCI_Write, FS_CCCI_GetFileSize,
    mbind, prog_bind, pget. by rewrite Hv.
Qed.

(** [FS_CCCI_Seek] on an open handle is one [lseek] of its
    descriptor; it answers the new position, or the error of the call. *)
Theorem seek_spec w i f Offset Whence :
  table_ok (w_glob w) -> abs (w_glob w) !! i = Some f -> f_hFile f <> INVALID_HANDLE_VALUE ->
  0 <= Whence <= 2 ->
  FS_CCCI_Seek (Z.of_nat i) Offset Whence w =
    let '(s, r) := os_do (Sys_lseek (f_hFile f) Offset Whence) (w_os w) in
    (answered (Sys_lseek (f_hFile f) Offset Whence) r s w,
     Ok (if rv r =? -1 then FS_ErrorConv (eno r) else rv r)).
Proof.
  intros Hok Hi Hf Hw. destruct (open_handle_at _ _ _ Hok Hi Hf) as (Hv & Hu & Hfd & _).
  unfold FS_CCCI_Seek, mbind, prog_bind, pget. rewrite Hv, Hu, Hfd. cbn [negb].
  assert (Whence = 0 \/ Whence = 1 \/ Whence = 2) as [->|[->| ->]] by lia; simpl; unfold psys;
    destruct (os_do _ (w_os w)) as [s r]; simpl; by case_match.
Qed.

(** [FS_CCCI_Read] on an open handle is one [read] of its
    descriptor: the data lands at [pBuffer], the count in the variable of the
    caller, and nothing else changes. *)
Theorem read_spec w i f pBuffer NumOfByte out s r m :
  table_ok (w_glob w) -> abs (w_glob w) !! i = Some f -> f_hFile f <> INVALID_HANDLE_VALUE ->
  os_do (Sys_read (f_hFile f) (u32 NumOfByte)) (w_os w) = (s, r) ->
  mwrite (pFsBuf (g_FsInfo (w_glob w))) pBuffer (rres_data r) = Some m ->
  FS_CCCI_Read (Z.of_nat i) pBuffer NumOfByte out w =
    (set_glob (upd_vars (out (u32 (rres_rv r))) (upd_pFsBuf m (w_glob w)))
       (answered (Sys_read (f_hFile f) (u32 NumOfByte)) r s w),
     Ok (if rres_rv r =? -1 then FS_ErrorConv (rres_eno r) else FS_NO_ERROR)).
Proof.
  intros Hok Hi Hf Hos Hm. destruct (open_handle_at _ _ _ Hok Hi Hf) as (Hv & Hu & Hfd & _).
  unfold FS_CCCI_Read, mbind, prog_bind, pget. rewrite Hv, Hu, Hfd. cbn [negb].
  rewrite (psys_eq _ _ _ _ Hos). unfold buf_write, mbind, prog_bind, pget. simpl.
  rewrite Hm. simpl. by destruct (rres_rv r =? -1).
Qed.

(** An event stays in the trace, and the table as it is, through a timing and
    through the release of a slot. *)
Lemma profile_end_wp e t ev l w :
  ev ∈ w_trace w -> g_FsInfo (w_glob w) = l ->
  wp (profile_end e t) (fun _ w' => ev ∈ w_trace w' /\ g_FsInfo (w_glob w') = l)
    (fun _ _ => True) w.
Proof.
  intros Hev Hl. unfold profile_end. wps. wps. wps; [|by wps].
  wps. apply wp_sys. intros s r _. wps. simpl. split; [rewrite elem_of_app; auto|].
  unfold note_slow. by case_match.
Qed.

Lemma release_wp (i : nat) ev g w :
  ev ∈ w_trace w -> is_Some (abs g !! i) -> g_FsInfo (w_glob w) = g_FsInfo g ->
  wp (release_handle (Z.of_nat i))
    (fun _ w' => ev ∈ w_trace w' /\ abs (w_glob w') = delete i (abs g)) (fun _ _ => True) w.
Proof.
  intros Hev [f Hf] Hg. apply abs_lookup in Hf as (h & Hh & _). unfold release_handle.
  do 5 wps. apply wp_free. intros w1 Ht Hw1. wps. simpl. rewrite Ht, Hw1. split; [done|].
  rewrite <- (abs_close g i h Hh). unfold abs. simpl. by rewrite Hg.
Qed.

(** The outcome of closing the file with descriptor [fd]. *)
Definition close_outcome (fd : Z) (i : nat) (g : fsd) (r : Z) (w' : world fsd) : Prop :=
  exists v e, Ev (Sys_close fd) (IRes v e) ∈ w_trace w' /\
    if decide (v = -1) then r = FS_ErrorConv e /\ abs (w_glob w') = abs g
    else r = FS_NO_ERROR /\ abs (w_glob w') = delete i (abs g).

Lemma close_wp w i fd :
  table_ok (w_glob w) -> abs (w_glob w) !! i = Some (File fd false) -> fd <> INVALID_HANDLE_VALUE ->
  wp (FS_CCCI_Close (Z.of_nat i)) (close_outcome fd i (w_glob w)) (fun _ _ => True) w.
Proof.
  intros Hok Hi Hf. destruct (open_handle_at _ _ _ Hok Hi Hf) as (Hv & Hu & Hfd & Hs & _).
  unfold FS_CCCI_Close. wps. wps. rewrite Hv, Hu, Hs. cbn [negb f_search].
  do 2 wps. apply wp_keeps; [keeps|]. intros ? w1 E1. wps. apply wp_keeps; [keeps|].
  intros t w2 E2. wps. rewrite Hfd. apply wp_sys. intros s [v e] _. simpl.
  destruct (Z.eqb_spec v (-1)) as [->|Hne].
  - do 2 wps. exists (-1), e. simpl. rewrite E2, E1. split; [rewrite elem_of_app, list_elem_of_singleton; auto|done].
  - wps. eapply wp_mono; [eapply (profile_end_wp _ _ (Ev (Sys_close fd) (IRes v e)))| |done].
    + simpl. rewrite elem_of_app, list_elem_of_singleton. auto.
    + simpl. by rewrite E2, E1.
    + intros ? w3 [Hev Hg]. wps. cbn beta iota. wps. eapply wp_mono; [by eapply (release_wp i _ (w_glob w))| |done].
      intros ? w4 [Hev4 Ha]. wps. exists v, e. destruct (decide (v = -1)); [done|]. done.
Qed.

(** Closing an open file calls [close] on its descriptor.  When that
    fails the handle stays open; otherwise the handle is closed and the answer
    is success, also when the [fsync] before it failed. *)
Theorem close_spec w w' i fd r :
  table_ok (w_glob w) -> abs (w_glob w) !! i = Some (File fd false) -> fd <> INVALID_HANDLE_VALUE ->
  FS_CCCI_Close (Z.of_nat i) w = (w', Ok r) ->
  exists v e, Ev (Sys_close fd) (IRes v e) ∈ w_trace w' /\
    if decide (v = -1) then r = FS_ErrorConv e /\ abs (w_glob w') = abs (w_glob w)
    else r = FS_NO_ERROR /\ abs (w_glob w') = delete i (abs (w_glob w)).
Proof.
  intros Hok Hi Hf Heq. by apply (wp_eq _ (close_outcome fd i (w_glob w)) (fun _ _ => True) _ _ _ Heq), close_wp.
Qed.

Lemma closeall_loop_wp (idxs : list Z) w :
  Forall (fun i => 0 <= i) idxs ->
  wp (FS_CCCI_CloseAll_loop idxs) (fun r w' => r = FS_NO_ERROR ->
    forall j, abs (w_glob w') !! j =
      if decide (Z.of_nat j ∈ idxs) then None else abs (w_glob w) !! j) (fun _ _ => True) w.
Proof.
  revert w. induction idxs as [|i idxs IH]; intros w Hpos; simpl.
  { wps. intros _ j. by destruct (decide (Z.of_nat j ∈ [])) as [Hj|]; [apply elem_of_nil in Hj|]. }
  apply Forall_cons in Hpos as [Hi Hpos]. wps. wps. destruct (fInUse _) eqn:Hu.
  - set (h := handle_at (w_glob w) i) in *.
    assert (forall w1, w_glob w1 = w_glob w ->
      wp (release_handle i;; FS_CCCI_CloseAll_loop idxs) (fun r w' => r = FS_NO_ERROR ->
        forall j, abs (w_glob w') !! j =
          if decide (Z.of_nat j ∈ i :: idxs) then None else abs (w_glob w) !! j)
        (fun _ _ => True) w1) as Hrel.
    { intros w1 E1. wps. unfold release_handle. do 5 wps. apply wp_free. intros w2 _ E2. wps.
      eapply wp_mono; [by apply IH| |done]. cbn beta. intros r w' Hr Hz j. rewrite (Hr Hz j).
      simpl. rewrite E2. simpl. rewrite E1. unfold abs. simpl.
      rewrite !lookup_abs_table, list_lookup_alter.
      destruct (decide (Z.of_nat j ∈ idxs)); [by rewrite decide_True by (by constructor)|].
      destruct (decide (Z.to_nat i = j)) as [<-|Hne].
      - rewrite decide_True by (rewrite Z2Nat.id by done; constructor). by destruct (_ !! _).
      - rewrite decide_False; [done|]. rewrite elem_of_cons. intros [Hj|?]; [lia|done]. }
    destruct (fSearch h).
    + wps. wps. by apply Hrel.
    + wps. wps. apply wp_keeps; [keeps|]. intros c w1 E1. wps.
      destruct (rv c =? -1); [wps; intros Hc; pose proof (FS_ErrorConv_neg (eno c))|by apply Hrel].
      rewrite Hc in *. done.
  - eapply wp_mono; [by apply IH| |done]. cbn beta. intros r w' Hr Hz j. rewrite (Hr Hz j).
    destruct (decide (Z.of_nat j ∈ idxs)); [by rewrite decide_True by (by constructor)|].
    destruct (decide (Z.of_nat j = i)) as [<-|Hne].
    + rewrite decide_True by constructor. unfold abs. rewrite lookup_abs_table.
      unfold handle_at in Hu. rewrite Nat2Z.id in Hu.
      destruct (_ !! j); [|done]. simpl in *. unfold slot_view. by rewrite Hu.
    + rewrite decide_False; [done|]. rewrite elem_of_cons. by intros [?|?].
Qed.

(** When [FS_CCCI_CloseAll] answers success, no handle is left open
    and the count of open files is 0. *)
Theorem closeall_empties w w' :
  table_ok (w_glob w) -> FS_CCCI_CloseAll w = (w', Ok FS_NO_ERROR) ->
  abs (w_glob w') = ∅ /\ FileNum (g_FsInfo (w_glob w')) = 0.
Proof.
  intros Hok Heq.
  assert (tinv (fun _ => True) (w_glob w) (w_glob w')) as [[Hlen _ Hcnt] _ _].
  { eapply (preserves_ok (glob_inv (tinv _ (w_glob w)))); [apply (pres_CloseAll (fun _ => True))| |exact Heq].
    by apply tinv_refl. }
  assert (abs (w_glob w') = ∅) as Ha; [|split; [done|]; by rewrite Hcnt, Ha, map_size_empty].
  apply map_eq. intros j. rewrite lookup_empty.
  pose proof (closeall_loop_wp (seqZ 0 FS_FILE_MAX) w) as Hwp. unfold wp in Hwp.
  unfold FS_CCCI_CloseAll in Heq. rewrite Heq in Hwp. rewrite Hwp; [|by apply Forall_seqZ; lia|done].
  case_decide as Hj; [done|]. rewrite elem_of_seqZ in Hj.
  unfold abs. rewrite lookup_abs_table.
  destruct (hFileHandle (g_FsInfo (w_glob w)) !! j) eqn:Hl; [|done].
  apply lookup_lt_Some in Hl. destruct Hok as [Hlen0 _ _]. unfold FS_FILE_MAX in Hj. lia.
Qed.
End HandleProps.

(** ** Concrete runs *)

Lemma demo_fsd_ok : table_ok demo_fsd.
Proof. constructor; by vm_compute. Qed.

Lemma demo_open_ok : table_ok demo_open.
Proof. constructor; by vm_compute. Qed.

Lemma open_success_witness :
  let m := FS_CCCI_Open demo_name FS_CREATE in
  opened FS_CREATE demo_fsd (m demo_world).1 1.
Proof.
  intros m. apply (open_success demo_name FS_CREATE demo_world).
  - exact demo_fsd_ok.
  - apply run_ok. vm_compute. reflexivity.
  - discriminate.
Defined.

(** Every handle but 0 is open. *)
Definition full_fsd : fsd := demo_with 128 (free_handle :: replicate 128 (open_file 3 0)).

Lemma open_table_full_witness :
  FS_TOO_MANY_FILES < 0 /\
  w_glob (FS_CCCI_Open demo_name 0 (mem_world demo_fs full_fsd)).1 = full_fsd.
Proof.
  assert (table_ok full_fsd) as Hok by (constructor; by vm_compute).
  assert (forall i, (0 < i < 129)%nat -> is_Some (abs full_fsd !! i)) as Hfull.
  { intros [|i] Hi; [lia|]. unfold abs. rewrite lookup_abs_table.
    change (hFileHandle (g_FsInfo full_fsd) !! S i) with (replicate 128 (open_file 3 0) !! i).
    rewrite lookup_replicate_2 by lia. by eexists. }
  assert (FS_CCCI_Open demo_name 0 (mem_world demo_fs full_fsd) =
    ((FS_CCCI_Open demo_name 0 (mem_world demo_fs full_fsd)).1, Ok FS_TOO_MANY_FILES)) as Hrun.
  { apply run_ok. vm_compute. reflexivity. }
  destruct (open_table_full demo_name 0 (mem_world demo_fs full_fsd) _ _ Hok Hfull Hrun) as (H1 & H2 & _).
  split; [exact H1|exact H2].
Defined.

Lemma invalid_handle_refused_witness :
  FS_CCCI_Close 7 demo_open_world = (demo_open_world, Ok FS_INVALID_FILE_HANDLE).
Proof. apply (invalid_handle_refused demo_open_world 7). vm_compute. reflexivity. Defined.

Lemma seek_spec_witness :
  (FS_CCCI_Seek 1 5 FS_FILE_BEGIN demo_open_world).2 = Ok 5.
Proof.
  change 1 with (Z.of_nat 1%nat).
  rewrite (seek_spec demo_open_world 1%nat (File 3 false) 5 FS_FILE_BEGIN demo_open_ok);
    [vm_compute; reflexivity|reflexivity|discriminate|vm_compute; split; discriminate].
Defined.

Lemma read_spec_witness :
  let w' := (FS_CCCI_Read 1 24 4 set_ReadByte demo_open_world).1 in
  ReadByte (vars (w_glob w')) = 4 /\ mread (pFsBuf (g_FsInfo (w_glob w'))) 24 4 = Some [1; 2; 3; 4].
Proof.
  change (FS_CCCI_Read 1) with (FS_CCCI_Read (Z.of_nat 1)). intros w'. subst w'.
  assert (exists s, os_do (Sys_read 3 (u32 4)) (w_os demo_open_world) = (s, RData [1; 2; 3; 4])) as [s Hs]
    by (eexists; vm_compute; reflexivity).
  assert (exists m, mwrite (pFsBuf (g_FsInfo demo_open)) 24 [1; 2; 3; 4] = Some m) as [m Hm]
    by (eexists; vm_compute; reflexivity).
  rewrite (read_spec demo_open_world 1%nat (File 3 false) 24 4 set_ReadByte s (RData [1; 2; 3; 4]) m
    demo_open_ok eq_refl ltac:(discriminate) Hs Hm).
  split; [reflexivity|]. exact (mread_mwrite_same _ _ _ _ Hm).
Defined.

Lemma close_spec_witness :
  abs (w_glob (FS_CCCI_Close 1 demo_open_world).1) = delete 1%nat (abs demo_open).
Proof.
  assert (FS_CCCI_Close (Z.of_nat 1) demo_open_world =
    ((FS_CCCI_Close (Z.of_nat 1) demo_open_world).1, Ok FS_NO_ERROR)) as Hrun.
  { apply run_ok. vm_compute. reflexivity. }
  destruct (close_spec demo_open_world _ 1%nat 3 _ demo_open_ok eq_refl ltac:(discriminate) Hrun)
    as (v & e & _ & Hres).
  destruct (decide (v = -1)); [|exact (proj2 Hres)].
  destruct Hres as [Hr _]. pose proof (FS_ErrorConv_neg e) as Hneg. rewrite <- Hr in Hneg.
  exfalso. exact (Z.lt_irrefl 0 Hneg).
Defined.

Lemma closeall_empties_witness :
  abs (w_glob (FS_CCCI_CloseAll demo_open_world).1) = ∅.
Proof.
  apply (closeall_empties demo_open_world _ demo_open_ok).
  apply run_ok. vm_compute. reflexivity.
Defined.
