(* ===== verification/FsdDir.v ===== *)
(** * ccci_fsd: operations on paths

    The operations that take a name: directories, rename, delete, attributes,
    recursive search and delete, move, restore.  All of them ignore the verdict
    of [FS_ConvWcsToCs]; only [FS_CCCI_Open] honours it.

    The recursive walks are fuelled: [fuel] bounds the iterations of the
    [readdir] loops along a path of the tree.  FsdWalk.v proves that enough fuel
    exists whenever directory streams are finite. *)
From S2P Require Import Prelude Posix Wire FsdTypes FsdStrings FsdPath FsdHandle.

(** [strlen (FsDirName) + strlen (d_name) + 2 > PATH_MAX] and the path of an
    entry. *)
Definition entry_too_long (FsDirName d_name : list Z) : bool :=
  zlen FsDirName + zlen d_name + 2 >? PATH_MAX.

Definition entry_path (FsDirName d_name : list Z) : list Z :=
  take (Z.to_nat (PATH_MAX - 1)) (FsDirName ++ [chr_slash] ++ d_name).

Definition is_dot_entry (d_name : list Z) : bool := streq d_name (lit ".") || streq d_name (lit "..").

Fixpoint drive_index (i : nat) (l : list Z) (DriverIdx : Z) : option nat :=
  match l with
  | [] => None
  | d :: l' => if DriverIdx =? d then Some i else drive_index (S i) l' DriverIdx
  end.

Definition FS_CCCI_GetDrive (Type_ Serial AltMask : Z) : Z :=
  let types := Z.lor (Z.lor FS_DRIVE_I_SYSTEM FS_DRIVE_V_NORMAL) FS_DRIVE_V_REMOVABLE in
  if negb (has_bits Type_ types)
     || has_bits Type_ (u32 (Z.lnot types))
     || (negb (Type_ =? FS_DRIVE_V_REMOVABLE) && (Serial >? 2))
     || ((Type_ =? FS_DRIVE_V_REMOVABLE) && (Serial >? 1))
     || (Serial <? 1)
     || (negb (AltMask =? FS_NO_ALT_DRIVE) && has_bits AltMask FS_NO_ALT_DRIVE)
     || (negb (AltMask =? FS_ONLY_ALT_SERIAL) && has_bits AltMask FS_ONLY_ALT_SERIAL)
  then FS_PARAM_ERROR
  else if Type_ =? FS_DRIVE_I_SYSTEM then 90 (* 'Z' *)
  else FS_PARAM_ERROR.

Definition FS_BinRegion_Access (access_type : Z) : Z :=
  if access_type =? FS_BIN_REGION_BACKUP then FS_PARAM_ERROR
  else if access_type =? FS_BIN_REGION_RESTORE then FS_PARAM_ERROR
  else if access_type =? FS_BIN_REGION_ERASE then FS_PARAM_ERROR
  else FS_PARAM_ERROR.

Section Dir.
Context `{OS}.
Abbreviation M := (prog fsd).

(** A system call on a path: its error, or [FS_NO_ERROR]. *)
Definition call_path (c : sys ires) : M Z :=
  r ← psys c;
  if rv r =? -1 then mret (FS_ErrorConv (eno r)) else mret FS_NO_ERROR.

Definition FS_CCCI_CreateDir (FileName : list Z) : M Z :=
  with_path FileName (fun ConvFileName _ FsFileName =>
    (if bool_decide (ConvFileName !! 0%nat = Some 85 (* 'U' *)) then
       '(r, _) ← psys (Sys_stat FS_ROOT_MDLPM);
       if rv r <? 0 then _ ← psys (Sys_mkdir FS_ROOT_MDLPM MD_DIR_ATTR); mret tt
       else mret tt
     else mret tt);;
    call_path (Sys_mkdir FsFileName MD_DIR_ATTR)).

Definition FS_CCCI_RemoveDir (FileName : list Z) : M Z :=
  with_path FileName (fun _ _ FsFileName => call_path (Sys_rmdir FsFileName)).

Definition FS_CCCI_Rename (FileName NewFileName : list Z) : M Z :=
  with_path FileName (fun _ _ FsFileName =>
    with_path NewFileName (fun _ _ FsNewFileName =>
      call_path (Sys_rename FsFileName FsNewFileName))).

Definition FS_CCCI_Delete (FileName : list Z) : M Z :=
  with_path FileName (fun _ _ FsFileName => call_path (Sys_unlink FsFileName)).

Definition FS_CCCI_GetClusterSize (DriverIdx : Z) : M Z :=
  g ← pget;
  match drive_index 0 DrvIdx DriverIdx with
  | None => mret FS_DRIVE_NOT_FOUND
  | Some i =>
      '(r, StatfsBuf) ← psys (Sys_statfs (default [] (FsRootDir g !! i)));
      if rv r =? -1 then mret FS_GENERAL_FAILURE
      else mret (i32 (f_bsize StatfsBuf))
  end.

(** *** Recursive search *)

(** [FS_RecursiveSearch] around its loop: the number of entries found or an
    error, and the new value behind [pClusterCount]. *)
Definition FS_RecursiveSearch_with
    (loop : Z -> list Z -> Z -> Z -> Z -> M (Z * Z)) (FsDirName : list Z) (ClusterCount : Z)
    : M (Z * Z) :=
  ClusterSize ← FS_CCCI_GetClusterSize 90;
  pDir ← psys (Sys_opendir FsDirName);
  if rv pDir =? 0 then mret (0, ClusterCount)
  else
    '(RetVal, cc) ← loop (rv pDir) FsDirName ClusterSize 0 ClusterCount;
    _ ← psys (Sys_closedir (rv pDir));
    mret (RetVal, cc).

Fixpoint FS_RecursiveSearch_loop (fuel : nat) (Flag : Z) (pDir : Z) (FsDirName : list Z)
    (ClusterSize FoundFileNum ClusterCount : Z) : M (Z * Z) :=
  match fuel with
  | O => phalt NoFuel
  | S fuel' =>
      let continue := FS_RecursiveSearch_loop fuel' Flag pDir FsDirName ClusterSize in
      pDirent ← psys (Sys_readdir pDir);
      match pDirent with
      | None => mret (i32 FoundFileNum, ClusterCount)
      | Some d_name =>
          if entry_too_long FsDirName d_name
          then mret (FS_PATH_OVER_LEN_ERROR, ClusterCount)
          else
            let FsFileName := entry_path FsDirName d_name in
            '(r, StatBuf) ← psys (Sys_stat FsFileName);
            if rv r =? -1 then continue FoundFileNum ClusterCount
            else if has_bits (st_mode StatBuf) S_IFDIR && negb (is_dot_entry d_name) then
              let found := if has_bits Flag FS_DIR_TYPE then u32 (FoundFileNum + 1)
                           else FoundFileNum in
              if has_bits Flag FS_RECURSIVE_TYPE then
                '(RetVal, cc) ←
                  FS_RecursiveSearch_with (FS_RecursiveSearch_loop fuel' Flag) FsFileName 0;
                if RetVal <? 0 then mret (RetVal, ClusterCount)
                else continue (u32 (found + RetVal)) (u32 (ClusterCount + cc))
              else continue found ClusterCount
            else if has_bits (st_mode StatBuf) S_IFREG then
              if has_bits Flag FS_FILE_TYPE then
                let cc := if (st_size StatBuf >? 0) && (ClusterSize >? 0)
                          then u32 (ClusterCount + (Z.quot (st_size StatBuf) ClusterSize + 1))
                          else ClusterCount in
                continue (u32 (FoundFileNum + 1)) cc
              else continue FoundFileNum ClusterCount
            else continue FoundFileNum ClusterCount
      end
  end.

Definition FS_RecursiveSearch (fuel : nat) (FsDirName : list Z) (Flag ClusterCount : Z)
    : M (Z * Z) :=
  FS_RecursiveSearch_with (FS_RecursiveSearch_loop fuel Flag) FsDirName ClusterCount.

(** *** Recursive delete *)

Definition FS_RecursiveDelete_with (loop : Z -> list Z -> Z -> M Z) (FsDirName : list Z) : M Z :=
  pDir ← psys (Sys_opendir FsDirName);
  if rv pDir =? 0 then mret 0
  else
    RetVal ← loop (rv pDir) FsDirName 0;
    _ ← psys (Sys_closedir (rv pDir));
    mret RetVal.

Fixpoint FS_RecursiveDelete_loop (fuel : nat) (Flag : Z) (pDir : Z) (FsDirName : list Z)
    (DeleteFileNum : Z) : M Z :=
  match fuel with
  | O => phalt NoFuel
  | S fuel' =>
      let continue := FS_RecursiveDelete_loop fuel' Flag pDir FsDirName in
      pDirent ← psys (Sys_readdir pDir);
      match pDirent with
      | None => mret (i32 DeleteFileNum)
      | Some d_name =>
          if entry_too_long FsDirName d_name then mret FS_PATH_OVER_LEN_ERROR
          else
            let FsFileName := entry_path FsDirName d_name in
            '(r, StatBuf) ← psys (Sys_stat FsFileName);
            if rv r =? -1 then continue DeleteFileNum
            else if has_bits (st_mode StatBuf) S_IFDIR && negb (is_dot_entry d_name) then
              RetVal ← (if has_bits Flag FS_RECURSIVE_TYPE
                        then FS_RecursiveDelete_with (FS_RecursiveDelete_loop fuel' Flag) FsFileName
                        else mret 0);
              if RetVal <? 0 then mret RetVal
              else
                let n := u32 (DeleteFileNum + RetVal) in
                if has_bits Flag FS_DIR_TYPE then
                  r ← psys (Sys_rmdir FsFileName);
                  if rv r =? -1 then mret (FS_ErrorConv (eno r))
                  else continue (u32 (n + 1))
                else continue n
            else if has_bits (st_mode StatBuf) S_IFREG then
              if has_bits Flag FS_FILE_TYPE then
                r ← psys (Sys_unlink FsFileName);
                if rv r =? -1 then mret (FS_ErrorConv (eno r))
                else continue (u32 (DeleteFileNum + 1))
              else continue DeleteFileNum
            else continue DeleteFileNum
      end
  end.

Definition FS_RecursiveDelete (fuel : nat) (FsDirName : list Z) (Flag : Z) : M Z :=
  FS_RecursiveDelete_with (FS_RecursiveDelete_loop fuel Flag) FsDirName.

(** *** Operations built on the walks *)

(** The check that a path is a directory. *)
Definition with_dir (FsFileName : list Z) (k : M Z) : M Z :=
  '(r, StatBuf) ← psys (Sys_stat FsFileName);
  if rv r =? -1 then mret (FS_ErrorConv (eno r))
  else if negb (has_bits (st_mode StatBuf) S_IFDIR) then mret FS_PARAM_ERROR
  else k.

Definition FS_CCCI_GetFolderSize (fuel : nat) (FullPath : list Z) (Flag : Z) : M Z :=
  with_path FullPath (fun _ i FsFileName =>
    ClusterSize ← FS_CCCI_GetClusterSize (default 0 (DrvIdx !! i));
    with_dir FsFileName (
      '(FileCount, ClusterCount) ← FS_RecursiveSearch fuel FsFileName
         (Z.lor (Z.lor FS_FILE_TYPE FS_DIR_TYPE) FS_RECURSIVE_TYPE) 0;
      if FileCount <? 0 then mret FileCount
      else if Flag =? FS_COUNT_IN_CLUSTER then mret (i32 ClusterCount)
      else mret (i32 (ClusterCount * u32 ClusterSize)))).

Definition FS_CCCI_Count (fuel : nat) (FullPath : list Z) (Flag : Z) : M Z :=
  with_path FullPath (fun _ _ FsFileName =>
    with_dir FsFileName (
      '(ret, _) ← FS_RecursiveSearch fuel FsFileName Flag 0; mret ret)).

Definition FS_CCCI_GetAttributes (FileName : list Z) : M Z :=
  with_path FileName (fun _ _ FsFileName => FS_AttrReconv FsFileName).

Definition FS_CCCI_GetFileDetail (FileName : list Z) : M Z :=
  with_path FileName (fun _ _ FsFileName => FS_GetFileDetail FsFileName).

Definition FS_CCCI_XDelete (fuel : nat) (FileName : list Z) (Flag : Z) : M Z :=
  with_path FileName (fun _ _ FsFileName =>
    if negb (has_bits Flag FS_FILE_TYPE) && negb (has_bits Flag FS_DIR_TYPE)
       && negb (has_bits Flag FS_RECURSIVE_TYPE) then mret FS_PARAM_ERROR
    else if has_bits Flag (u32 (Z.lnot (Z.lor (Z.lor FS_FILE_TYPE FS_DIR_TYPE) FS_RECURSIVE_TYPE)))
    then mret FS_PARAM_ERROR
    else
      with_dir FsFileName (
        DelFileNum ← FS_RecursiveDelete fuel FsFileName Flag;
        if has_bits Flag FS_DIR_TYPE && has_bits Flag FS_RECURSIVE_TYPE then
          r ← psys (Sys_rmdir FsFileName);
          if rv r =? -1 then mret (FS_ErrorConv (eno r))
          else mret (i32 (DelFileNum + 1))
        else mret DelFileNum)).

(** The copy of [FS_CCCI_Move].  [newfd] starts at 0 and every exit closes it,
    also the ones before [creat]. *)
Definition move_copy (FsFileName FsNewFileName : list Z) : M Z :=
  fd ← psys (Sys_open FsFileName O_RDONLY 0);
  '(ret, newfd) ←
    (if rv fd <? 0 then mret (FS_ErrorConv (eno fd), 0)
     else
       e ← psys (Sys_lseek (rv fd) 0 SEEK_END);
       b ← psys (Sys_lseek (rv fd) 0 SEEK_SET);
       let size := i32 (rv e - rv b) in
       if size <? 0 then mret (FS_ERROR_RESERVED, 0)
       else
         ok ← psys (Sys_malloc size);
         if negb ok then mret (FS_ERROR_RESERVED, 0)
         else
           _ ← psys (Sys_lseek (rv fd) 0 SEEK_SET);
           r ← psys (Sys_read (rv fd) size);
           if rres_rv r <? size then
             mret (if rres_rv r <? 0 then FS_ErrorConv (rres_eno r) else FS_ERROR_RESERVED, 0)
           else
             nfd ← psys (Sys_creat FsNewFileName 511 (* 0777 *));
             if rv nfd <? 0 then mret (FS_ErrorConv (eno nfd), rv nfd)
             else
               w ← psys (Sys_write (rv nfd) (rres_data r));
               if rv w <? size then
                 mret (if rv w <? 0 then FS_ErrorConv (eno w) else FS_ERROR_RESERVED, rv nfd)
               else mret (FS_NO_ERROR, rv nfd));
  (if rv fd >=? 0 then _ ← psys (Sys_close (rv fd)); mret tt else mret tt);;
  (if newfd >=? 0 then _ ← psys (Sys_close newfd); mret tt else mret tt);;
  mret ret.

Definition FS_CCCI_Move (fuel : nat) (SrcFullPath DstFullPath : list Z) (Flag : Z) : M Z :=
  with_path SrcFullPath (fun _ _ FsFileName =>
    with_path DstFullPath (fun _ _ FsNewFileName =>
      if streq FsFileName FsNewFileName then mret FS_PARAM_ERROR
      else if negb (has_bits Flag FS_MOVE_COPY) && negb (has_bits Flag FS_MOVE_KILL)
      then mret FS_PARAM_ERROR
      else if has_bits Flag (u32 (Z.lnot (Z.lor (Z.lor FS_MOVE_COPY FS_MOVE_KILL) FS_MOVE_OVERWRITE)))
      then mret FS_PARAM_ERROR
      else
        ro ← (if has_bits Flag FS_MOVE_KILL then FS_IsReadOnly FsFileName else mret 0);
        if ro >=? 1 then mret FS_READ_ONLY_ERROR
        else
          '(stop, ret) ←
            (if has_bits Flag FS_MOVE_OVERWRITE then
               ro ← FS_IsReadOnly FsNewFileName;
               if ro >=? 1 then mret (true, FS_READ_ONLY_ERROR)
               else
                 dir ← FS_IsDIR FsNewFileName;
                 if dir >=? 1 then
                   ret ← FS_CCCI_XDelete fuel DstFullPath
                           (Z.lor (Z.lor FS_FILE_TYPE FS_DIR_TYPE) FS_RECURSIVE_TYPE);
                   mret (ret <? 0, ret)
                 else
                   reg ← FS_IsFile FsNewFileName;
                   if reg >=? 1 then
                     ret ← FS_CCCI_Delete DstFullPath; mret (ret <? 0, ret)
                   else mret (false, FS_GENERAL_FAILURE)
             else mret (false, FS_GENERAL_FAILURE));
          if stop : bool then mret ret
          else if has_bits Flag FS_MOVE_COPY then move_copy FsFileName FsNewFileName
          else mret ret)).

Definition FS_CCCI_GetDiskInfo : M Z :=
  g ← pget;
  '(r, StatfsBuf) ← psys (Sys_statfs (default [] (FsRootDir g !! 0%nat)));
  if rv r =? -1 then mret (-1)
  else
    pmod (upd_vars (fun m =>
      let d := DiskInfo m in
      set_DiskInfo (DiskInfo_ (Label d) (DriveLetter d) (WriteProtect d) (Reserved d)
        (SerialNumber d) (firstPhysicalSector d) (FATType d) (FATCount d) (MaxDirEntries d)
        512 (u32 (Z.quot (f_bsize StatfsBuf) 512)) (u32 (f_blocks StatfsBuf)) (BadClusters d)
        512 (Files d) (FileChains d) (FreeChains d) (LargestFreeChain d)) m));;
    mret FS_NO_ERROR.

Definition FS_CCCI_Restore (FileName : list Z) : M Z :=
  with_path FileName (fun _ _ FsFileName =>
    ok ← psys (Sys_nvm_restore (-1) FsFileName);
    mret (if ok : bool then FS_NO_ERROR else FS_GENERAL_FAILURE)).

Definition FS_CCCI_ShutDown : M unit := _ ← FS_CCCI_CloseAll; mret tt.
End Dir.
