(* ===== verification/FsdFind.v ===== *)
(** * ccci_fsd: directory searches

    [FS_CCCI_FindFirst], [FS_CCCI_FindNext] and [FS_CCCI_FindClose]: a search
    is a slot of the handle table whose [hFile] is a directory stream.  Both
    searching functions give the return value and the new [*pMaxLength]; they
    store through [pFileInfo] and [FileName] into the variables [DosDirEntry]
    and [FileNameTemp] of [main].

    [fuel] bounds the iterations of the [readdir] loop. *)
From S2P Require Import Prelude Posix Wire FsdTypes FsdStrings FsdPath FsdHandle FsdDir.

Inductive searched :=
| SFound (d_name path : list Z)   (** [bFound]: the entry and [FsPatternName] *)
| SNone                           (** the stream ended *)
| STooLong.                       (** [FS_PATH_OVER_LEN_ERROR] *)

(** The attribute condition on an entry; [FileAttr], [Attr] and [AttrMask] are
    [char]s. *)
Definition attr_match (FileAttr Attr AttrMask : Z) : bool :=
  (Z.land FileAttr Attr =? Attr) && (Z.land FileAttr AttrMask =? 0).

(** Directory prefix, with its slash, and last component of a path; [None] when
    there is no slash after the first character. *)
Definition split_path (path : list Z) : option (list Z * list Z) :=
  match strrchr_slash 0 path with
  | Some (S i) => Some (take (S (S i)) path, drop (S (S i)) path)
  | _ => None
  end.

Section Find.
Context `{OS}.
Abbreviation M := (prog fsd).

(** The [readdir] loop; [prefix] is [FsPatternName] up to index [i].  Only
    [FS_CCCI_FindFirst] skips the dot entries. *)
Fixpoint search_loop (fuel : nat) (skip_dots : bool) (pDir : Z)
    (prefix pattern : list Z) (Attr AttrMask : Z) : M searched :=
  match fuel with
  | O => phalt NoFuel
  | S fuel' =>
      let continue := search_loop fuel' skip_dots pDir prefix pattern Attr AttrMask in
      pDirent ← psys (Sys_readdir pDir);
      match pDirent with
      | None => mret SNone
      | Some d_name =>
          if skip_dots && is_dot_entry d_name then continue
          else if PatMatch pattern d_name then
            if zlen prefix + zlen d_name >? PATH_MAX then mret STooLong
            else
              let path := take (Z.to_nat (PATH_MAX - 1)) (prefix ++ d_name) in
              FileAttr ← FS_AttrReconv path;
              if attr_match (u8 FileAttr) Attr AttrMask then mret (SFound d_name path)
              else continue
          else continue
      end
  end.

(** The answer about a found entry: the DOS entry, the wide name, and whether
    the name fits. *)
Definition report_entry (d_name path : list Z) (max_len : Z) : M Z :=
  FS_EntryLinuxToDos path;;
  '(len, bytes) ← popt OutOfBounds (FS_ConvCsToWcs d_name max_len);
  g ← pget;
  FileName ← popt OutOfBounds (mwrite (FileNameTemp (vars g)) 0 bytes);
  pmod (upd_vars (set_FileNameTemp FileName));;
  pmod (upd_vars (fun m =>
    set_DosDirEntry (set_NTReserved
      (if zlen d_name <? max_len then FS_LFN_MATCH else FS_NOT_MATCH) (DosDirEntry m)) m));;
  mret len.

Definition FS_CCCI_FindFirst (fuel : nat) (PatternName : list Z) (Attr AttrMask max_len : Z)
    : M (Z * Z) :=
  '(_, ConvPatternName) ← conv_name PatternName;
  g ← pget;
  match resolve (FsRootDir g) ConvPatternName with
  | RTooLong => mret (FS_PATH_OVER_LEN_ERROR, 0)
  | RNotFound => mret (FS_PATH_NOT_FOUND, 0)
  | RPath _ FsPatternName =>
      match split_path FsPatternName with
      | None => mret (FS_PATH_NOT_FOUND, 0)
      | Some (prefix, tail) =>
          if zlen tail >? NAME_MAX then mret (FS_PATH_OVER_LEN_ERROR, 0)
          else
            let FsFileName := take (Z.to_nat (NAME_MAX - 1)) tail in
            let FsDirName := take (length prefix - 1) prefix in
            pDir ← psys (Sys_opendir FsDirName);
            if rv pDir =? 0 then mret (FS_ErrorConv (eno pDir), 0)
            else
              found ← search_loop fuel true (rv pDir) prefix FsFileName Attr AttrMask;
              match found with
              | STooLong => mret (FS_PATH_OVER_LEN_ERROR, 0)
              | SNone =>
                  _ ← psys (Sys_closedir (rv pDir));
                  mret (FS_NO_MORE_FILES, 0)
              | SFound d_name path =>
                  let HandleIndex := FS_GetFreeHandle g in
                  if HandleIndex =? 0xFFFFFFFF then mret (FS_TOO_MANY_FILES, 0)
                  else
                    pmod (upd_FileNum (fun n => u32 (n + 1)));;
                    pmod (upd_handle HandleIndex (fun h =>
                      set_AttrMask AttrMask (set_Attr Attr
                        (set_fSearch true (set_fInUse true (set_hFile (i32 (rv pDir)) h))))));;
                    p ← pmalloc (zlen path + 1);
                    pmod (upd_handle HandleIndex (set_pFsFileName p));;
                    if p =? 0 then mret (FS_ERROR_RESERVED, 0)
                    else
                      pstore p path;;
                      q ← pmalloc (zlen FsFileName + 1);
                      pmod (upd_handle HandleIndex (set_pFsSearchPattern q));;
                      if q =? 0 then mret (FS_ERROR_RESERVED, 0)
                      else
                        pstore q FsFileName;;
                        len ← report_entry d_name path max_len;
                        mret (HandleIndex, len)
              end
      end
  end.

Definition FS_CCCI_FindNext (fuel : nat) (HandleIndex max_len : Z) : M (Z * Z) :=
  g ← pget;
  _ ← conv_name (FileNameTemp (vars g));
  if negb (valid_handle g HandleIndex) then mret (FS_INVALID_FILE_HANDLE, 0)
  else
    let i := u32 HandleIndex in
    let h := handle_at g i in
    FsPatternName ← pload (pFsFileName h);
    match split_path (take (Z.to_nat (PATH_MAX - 1)) FsPatternName) with
    | None => mret (FS_PATH_NOT_FOUND, 0)
    | Some (prefix, _) =>
        pSearchPattern ← pload (pFsSearchPattern h);
        found ← search_loop fuel false (u32 (hFile h)) prefix pSearchPattern (Attr h) (AttrMask h);
        match found with
        | STooLong => mret (FS_PATH_OVER_LEN_ERROR, 0)
        | SNone => mret (FS_NO_MORE_FILES, 0)
        | SFound d_name path =>
            pfree (pFsFileName h);;
            p ← pmalloc (zlen path + 1);
            pmod (upd_handle i (set_pFsFileName p));;
            if p =? 0 then mret (FS_ERROR_RESERVED, 0)
            else
              pstore p path;;
              len ← report_entry d_name path max_len;
              mret (FS_NO_ERROR, len)
        end
    end.

Definition FS_CCCI_FindClose (HandleIndex : Z) : M Z :=
  g ← pget;
  if negb (valid_handle g HandleIndex) then mret FS_INVALID_FILE_HANDLE
  else
    let i := u32 HandleIndex in
    let h := handle_at g i in
    r ← (if fSearch h then psys (Sys_closedir (u32 (hFile h))) else psys (Sys_close (hFile h)));
    if (if fSearch h then negb (rv r =? 0) else rv r =? -1)
    then mret (FS_ErrorConv (eno r))
    else
      pmod (upd_handle i (fun h => set_fInUse false (set_hFile INVALID_HANDLE_VALUE h)));;
      pfree (pFsFileName h);;
      pfree (pFsSearchPattern h);;
      pmod (upd_FileNum (fun n => u32 (n - 1)));;
      mret FS_NO_ERROR.
End Find.
