(* ===== verification/FsdPacket.v ===== *)
(** * ccci_fsd: packets

    Parsing of the arguments of a request ([FS_GetPackInfo]) and the answer to
    the modem ([FS_WriteToMD]), with its fragmentation over the CCCI stream
    ([FS_PreparePktEx], [FS_PreparePktDone]).

    A slot of the stream mode is a [STREAM_DATA]: four words of CCCI header
    ([data[0]], [data[1]], [channel], [reserved]), the operation and the
    arguments.  The first fragment is sent with its header in place; for the
    others the header is written over the 20 bytes before the fragment, which
    are saved in [g_bak] and restored after the write. *)
From S2P Require Import Prelude Posix Wire FsdTypes FsdStrings FsdPath FsdHandle.

(** [buffer_slot] and [pFsBuf] of a request slot, as offsets of
    [g_FsInfo.pFsBuf]. *)
Definition slot_base (g : fsd) (BufIndex : Z) : Z :=
  u32 ((FS_MAX_BUF_SIZE g + sizeof_STREAM_DATA) * BufIndex).

Definition fsbuf_base (g : fsd) (BufIndex : Z) : Z :=
  if stream_support g then slot_base g BufIndex + sizeof_CCCI_BUFF_T
  else u32 ((FS_MAX_BUF_SIZE g + sizeof_FS_BUF) * BufIndex).

Section GetPackInfo.
Context (max_args max_size : Z) (m : list Z) (pData : Z).

(** The loop over the arguments: [n] are left, [i] is the next one.  The
    result is the verdict so far, the final [Index] and the array. *)
Fixpoint FS_GetPackInfo_loop (n i : nat) (Index : Z) (pPackInfo : list FS_PACKET_INFO)
    : option (bool * Z * list FS_PACKET_INFO) :=
  match n with
  | O => Some (true, Index, pPackInfo)
  | S n' =>
      match mread32 m (pData + Index) with
      | None => None
      | Some len =>
          let Index := u32 (Index + sizeof_uint) in
          let pPackInfo := <[i := PacketInfo len (PBuf (pData + Index))]> pPackInfo in
          let Index := u32 (Index + align4 len) in
          if len =? 0 then Some (false, Index, pPackInfo)
          else FS_GetPackInfo_loop n' (S i) Index pPackInfo
      end
  end.

(** [FS_GetPackInfo] on the memory [m] with the request at [pData]. *)
Definition FS_GetPackInfo_mem (pPackInfo : list FS_PACKET_INFO)
    : option (bool * list FS_PACKET_INFO) :=
  match mread32 m pData with
  | None => None
  | Some PackNum =>
      if PackNum >? max_args then Some (false, pPackInfo)
      else
        match FS_GetPackInfo_loop (Z.to_nat PackNum) 0 sizeof_uint pPackInfo with
        | None => None
        | Some (ok, Index, pi) => Some (ok && negb (Index >? max_size), pi)
        end
  end.
End GetPackInfo.

Section Packet.
Context `{OS}.
Abbreviation M := (prog fsd).

Definition FS_GetPackInfo (pData : Z) : M bool :=
  g ← pget;
  '(ok, pi) ← popt OutOfBounds
    (FS_GetPackInfo_mem (FS_MAX_ARG_NUM g) (FS_MAX_BUF_SIZE g) (pFsBuf (g_FsInfo g)) pData
       (PackInfo (vars g)));
  pmod (upd_vars (set_PackInfo pi));;
  mret ok.

(** The pointer to the packet and the contents of [g_bak]. *)
Definition FS_PreparePktEx (pData data_to_send ccci_src op_id : Z) (again : bool)
    : M (Z * list Z) :=
  if negb (data_to_send <=? MAX_FS_PKT_BYTE) then phalt AssertFail
  else if negb (pData - (sizeof_CCCI_BUFF_T + sizeof_uint) >=? ccci_src) then phalt AssertFail
  else
    let stream := pData - (sizeof_CCCI_BUFF_T + sizeof_uint) in
    g_bak ← buf_read stream (sizeof_CCCI_BUFF_T + sizeof_uint);
    d0 ← buf_get32 ccci_src;
    buf_put32 stream
      (if again then Z.lor d0 CCCI_FS_REQ_SEND_AGAIN
       else Z.land d0 (u32 (Z.lnot CCCI_FS_REQ_SEND_AGAIN)));;
    buf_put32 (stream + 4) (u32 (data_to_send + sizeof_CCCI_BUFF_T + sizeof_uint));;
    channel ← buf_get32 (ccci_src + 8);
    buf_put32 (stream + 8) channel;;
    reserved ← buf_get32 (ccci_src + 12);
    buf_put32 (stream + 12) reserved;;
    buf_put32 (stream + 16) op_id;;
    mret (stream, g_bak).

Definition FS_PreparePktDone (pStream : Z) (g_bak : list Z) : M unit := buf_write pStream g_bak.

(** The arguments: [src] is what is left of [pPacketSrc]; the result is the
    final [DataLength], or [None] when the packet does not fit. *)
Fixpoint WriteToMD_args (DataLength pData : Z) (src : list FS_PACKET_INFO) : M (option Z) :=
  match src with
  | [] => mret (Some DataLength)
  | p :: src' =>
      g ← pget;
      if u32 (DataLength + 2 * sizeof_uint + Length p) >? FS_MAX_BUF_SIZE g then mret None
      else
        buf_put32 pData (Length p);;
        let pData := pData + sizeof_uint in
        let AlignLength := i32 (align4 (Length p)) in
        (if bool_decide (FsdTypes.pData p = PBuf pData) then mret tt
         else bs ← deref (FsdTypes.pData p) (Length p); buf_write pData bs);;
        WriteToMD_args (i32 (DataLength + sizeof_uint + AlignLength)) (pData + AlignLength) src'
  end.

(** [RETRY_WRITE]: [fuel] bounds the consecutive [EINTR]s. *)
Fixpoint write_retry (fuel : nat) (DeviceFd : Z) (bs : list Z) : M bool :=
  match fuel with
  | O => phalt NoFuel
  | S fuel' =>
      ret ← psys (Sys_write DeviceFd bs);
      if rv ret =? zlen bs then mret true
      else if eno ret =? EINTR then write_retry fuel' DeviceFd bs
      else mret false
  end.

(** The loop over the fragments; the result is the last value of [ret].  At
    most [n] fragments are sent. *)
Fixpoint WriteToMD_fragments (n : nat) (DeviceFd buffer_slot op_id data_len data_sent pData ret : Z)
    : M Z :=
  if data_sent <? data_len then
    match n with
    | O => phalt NoFuel
    | S n' =>
        let again := data_len - data_sent >? MAX_FS_PKT_BYTE in
        let data_to_send := if again then MAX_FS_PKT_BYTE else data_len - data_sent in
        '(pkt_ptr, g_bak) ← FS_PreparePktEx pData data_to_send buffer_slot op_id again;
        let pkt_size := data_to_send + sizeof_CCCI_BUFF_T + sizeof_uint in
        bs ← buf_read pkt_ptr pkt_size;
        r ← psys (Sys_write DeviceFd bs);
        if negb (rv r =? pkt_size) then mret (rv r)
        else
          FS_PreparePktDone pkt_ptr g_bak;;
          WriteToMD_fragments n' DeviceFd buffer_slot op_id data_len
            (data_sent + data_to_send) (pData + data_to_send) (rv r)
    end
  else mret ret.

(** Enough for every [data_len]. *)
Definition fragments_bound (data_len : Z) : nat := Z.to_nat (data_len / MAX_FS_PKT_BYTE + 1).

Definition FS_WriteToMD (fuel : nat) (DeviceFd BufIndex : Z) (pPacketSrc : list FS_PACKET_INFO)
    (PacketNum : Z) : M bool :=
  g ← pget;
  let buffer_slot := slot_base g BufIndex in
  let pFsBuf := fsbuf_base g BufIndex in
  let DataLength := if stream_support g then sizeof_CCCI_BUFF_T + sizeof_uint else 0 in
  OperateID ← buf_get32 pFsBuf;
  buf_put32 pFsBuf (Z.lor FS_API_RESP_ID OperateID);;
  buf_put32 (pFsBuf + 4) PacketNum;;
  src ← popt OutOfBounds (if PacketNum <=? zlen pPacketSrc
                          then Some (take (Z.to_nat PacketNum) pPacketSrc) else None);
  args ← WriteToMD_args (DataLength + sizeof_uint) (pFsBuf + 4 + sizeof_uint) src;
  match args with
  | None => mret false
  | Some DataLength =>
      if negb (stream_support g) then
        _ ← psys (Sys_msync pFsBuf (FS_MAX_BUF_SIZE g));
        ret ← psys (Sys_ioctl_fs_send DeviceFd DataLength BufIndex);
        mret (negb (rv ret <? 0))
      else
        let data_len := DataLength - sizeof_CCCI_BUFF_T - sizeof_uint in
        channel ← buf_get32 (buffer_slot + 8);
        buf_put32 (buffer_slot + 8) (u32 (channel + 1));;
        if data_len <=? MAX_FS_PKT_BYTE then
          d0 ← buf_get32 buffer_slot;
          buf_put32 buffer_slot (Z.land d0 (u32 (Z.lnot CCCI_FS_REQ_SEND_AGAIN)));;
          buf_put32 (buffer_slot + 4) DataLength;;
          bs ← buf_read buffer_slot DataLength;
          write_retry fuel DeviceFd bs
        else
          op_id ← buf_get32 pFsBuf;
          ret ← WriteToMD_fragments (fragments_bound data_len) DeviceFd buffer_slot op_id data_len
                  0 (buffer_slot + sizeof_STREAM_DATA) 0;
          mret (negb (ret <? 0))
  end.
End Packet.
