(* ===== verification/OtpStorage.v ===== *)
(** * libstorage_otp: the one-time-programmable region of a modem

    storage_otp.c divides the OTP partition into one write-protect group per
    user and reads and writes a user's region, through the operations of a
    storage driver behind the function pointers of [struct otp].  The drivers
    ([emmc.cpp], [ufs.cpp]) are C++ and are the parameters
    [emmc_storage_init] and [ufs_storage_init] here; their operations are the
    closures the pointers hold.

    The library is independent of the daemon that uses it: [X] is the type of
    the globals of that program.  A buffer of the caller is the memory from the
    pointer to the end of its object; reading gives its new contents.  [junk]
    is what uninitialised memory holds. *)
From S2P Require Import Prelude Posix.

(** ** Constants *)

Definition EINVAL : Z := 22.
Definition BOOTDEV_UFS : Z := 2.
Definition USER_CCCI : Z := 0.
Definition MAX_USER_NUM : Z := 4.
Definition WP_TEMPORARY : Z := 0.
Definition sizeof_struct_otp : Z := 4288.

(** ** Data *)

Record otp_region := OtpRegion { user_id : Z; start : Z; size : Z }.

Record otp `{OS} (X : Type) := Otp {
  blk_sz : Z;
  wp_grp_size : Z;
  otp_start : Z;
  otp_size : Z;
  partition_start : Z;
  current_user_id : Z;
  region : list otp_region;
  max_user_num : Z;
  (** [buffer], first block, number of blocks *)
  block_read : option (list Z -> Z -> Z -> prog X (Z * list Z));
  block_write : option (list Z -> Z -> Z -> prog X Z);
  (** [buffer], first byte, number of bytes *)
  dev_read : option (list Z -> Z -> Z -> prog X (Z * list Z));
  dev_write : option (list Z -> Z -> Z -> prog X Z);
  (** type, first block, number of groups, size of a group *)
  dev_lock : option (Z -> Z -> Z -> Z -> prog X Z);
  dev_unlock : option (Z -> Z -> Z -> prog X Z);
  (** first block, number of groups, old [status] and [type] *)
  dev_get_status : option (Z -> Z -> Z -> Z -> prog X (Z * Z * Z))
}.

Arguments Otp {_ X}.
Arguments blk_sz {_ X}. Arguments wp_grp_size {_ X}. Arguments otp_start {_ X}.
Arguments otp_size {_ X}. Arguments partition_start {_ X}. Arguments current_user_id {_ X}.
Arguments region {_ X}. Arguments max_user_num {_ X}. Arguments block_read {_ X}.
Arguments block_write {_ X}. Arguments dev_read {_ X}. Arguments dev_write {_ X}.
Arguments dev_lock {_ X}. Arguments dev_unlock {_ X}. Arguments dev_get_status {_ X}.

(** The fields [otp_init] sets after the driver. *)
Definition set_users `{OS} {X} (regions : list otp_region) (n user : Z) (d : otp X) : otp X :=
  Otp (blk_sz d) (wp_grp_size d) (otp_start d) (otp_size d) (partition_start d) user regions n
    (block_read d) (block_write d) (dev_read d) (dev_write d) (dev_lock d) (dev_unlock d)
    (dev_get_status d).

(** A [memset] structure. *)
Definition otp_zero `{OS} {X} : otp X :=
  Otp 0 0 0 0 0 0 (replicate 4 (OtpRegion 0 0 0)) 0 None None None None None None None.

(** ** Pure parts *)

(** The layout of the regions. *)
Definition otp_regions (otp_start wp_grp_size : Z) : list otp_region :=
  (fun i => OtpRegion i (u64 (otp_start + u64 (i * wp_grp_size))) wp_grp_size)
    <$> seqZ 0 MAX_USER_NUM.

(** The block-aligned window around [offset, offset + size): [offset_tmp] and
    [size_tmp] of [otp_ops_read_write]. *)
Definition otp_window (blk_sz offset size : Z) : Z * Z :=
  let offset_tmp := if offset mod blk_sz =? 0 then offset else u64 (offset - offset mod blk_sz) in
  let size_tmp := if offset mod blk_sz =? 0 then size else u64 (size + offset mod blk_sz) in
  let size_tmp := if size_tmp mod blk_sz =? 0 then size_tmp
                  else u64 (size_tmp + (blk_sz - size_tmp mod blk_sz)) in
  (offset_tmp, size_tmp).

Section Otp.
Context `{OS} {X : Type}.
Context (emmc_storage_init ufs_storage_init : otp X -> prog X (Z * otp X)).
Context (junk : Z -> list Z).
Abbreviation M := (prog X).

Definition pdiv (a b : Z) : M Z := if b =? 0 then phalt DivZero else mret (a / b).

Definition get_boot_type : M Z :=
  fd ← psys (Sys_open (lit "/sys/class/BOOT/BOOT/boot/boot_type") 0 0);
  if rv fd <? 0 then mret (-1)
  else
    s ← psys (Sys_read (rv fd) 3);
    _ ← psys (Sys_close (rv fd));
    if rres_rv s <=? 0 then mret (-1)
    else mret (atoi (cstring (rres_data s))).

Definition otp_init (otp_device : otp X) (user_id : Z) : M (Z * otp X) :=
  mt_boot_type ← get_boot_type;
  '(ret, d) ← (if mt_boot_type =? BOOTDEV_UFS then ufs_storage_init otp_device
               else emmc_storage_init otp_device);
  if negb (ret =? 0) then mret (- EINVAL, d)
  else
    n ← pdiv (otp_size d) (wp_grp_size d);
    if u32 n <? MAX_USER_NUM
    then mret (- EINVAL, set_users (region d) (u32 n) (current_user_id d) d)
    else if user_id >=? MAX_USER_NUM
    then mret (- EINVAL, set_users (region d) MAX_USER_NUM (current_user_id d) d)
    else
      (* the messages divide by the block size *)
      _ ← pdiv (partition_start d) (blk_sz d);
      mret (0, set_users (otp_regions (otp_start d) (wp_grp_size d)) MAX_USER_NUM user_id d).

Definition otp_open (user_id : Z) : M (option (otp X)) :=
  ok ← psys (Sys_malloc sizeof_struct_otp);
  if negb ok then mret None
  else
    '(ret, d) ← otp_init otp_zero user_id;
    mret (if ret <? 0 then None else Some d).

(** The return value, and [*start] and [*size]: uninitialised when the user
    has no region. *)
Definition otp_get_region (d : otp X) : Z * (Z * Z) :=
  match List.find (fun r => current_user_id d =? user_id r) (take (Z.to_nat MAX_USER_NUM) (region d)) with
  | Some r => (0, (start r, size r))
  | None => (- EINVAL, (le_value (junk 8), le_value (junk 8)))
  end.

(** [type] 0 writes, 1 reads; the result has the caller's buffer after it. *)
Definition otp_ops_read_write (type : Z) (d : otp X) (buffer : list Z) (offset size : Z)
    : M (Z * list Z) :=
  match block_write d, block_read d with
  | Some wr, Some rd =>
      if blk_sz d =? 0 then phalt DivZero
      else
        let '(offset_tmp, size_tmp) := otp_window (blk_sz d) offset size in
        if negb (size_tmp mod blk_sz d =? 0) || negb (offset_tmp mod blk_sz d =? 0)
        then mret (-1, buffer)
        else
          ok ← psys (Sys_malloc size_tmp);
          let buffer_tmp := junk size_tmp in
          let offset_block := u32 (offset_tmp / blk_sz d) in
          let block_number := u32 (size_tmp / blk_sz d) in
          let '(_, (otp_start, otp_size)) := otp_get_region d in
          let otp_start_block := otp_start / blk_sz d in
          let otp_size_block := otp_size / blk_sz d in
          if negb (otp_start_block =? 0) && (u32 (offset_block + block_number) >=? otp_size_block)
          then mret (- EINVAL, buffer)
          else
            let byte_start := u64 (otp_start - partition_start d + offset) in
            let block_start := u64 (otp_start_block + offset_block) in
            if type =? 0 then
              match dev_write d with
              | Some w => ret ← w buffer byte_start size; mret (ret, buffer)
              | None =>
                  if negb ok then phalt NullDeref
                  else
                    buffer_tmp ←
                      (if negb (offset mod blk_sz d =? 0) || negb (size mod blk_sz d =? 0)
                       then '(_, b) ← rd buffer_tmp block_start block_number; mret b
                       else mret buffer_tmp);
                    src ← popt OutOfBounds (mread buffer 0 size);
                    buffer_tmp ← popt OutOfBounds (mwrite buffer_tmp (offset mod blk_sz d) src);
                    ret ← wr buffer_tmp block_start block_number;
                    mret (ret, buffer)
              end
            else
              match dev_read d with
              | Some r => r buffer byte_start size
              | None =>
                  if negb ok then phalt NullDeref
                  else
                    '(ret, b) ← rd buffer_tmp block_start block_number;
                    bs ← popt OutOfBounds (mread b (offset mod blk_sz d) size);
                    buffer ← popt OutOfBounds (mwrite buffer 0 bs);
                    mret (ret, buffer)
              end
  | _, _ => mret (- EINVAL, buffer)
  end.

(** The first group and the number of groups of the current region. *)
Definition wp_groups (d : otp X) : M (Z * Z) :=
  let '(_, (otp_start, otp_size)) := otp_get_region d in
  otp_start_block ← pdiv otp_start (blk_sz d);
  otp_size_block ← pdiv otp_size (blk_sz d);
  n ← pdiv otp_size_block (wp_grp_size d / 512);
  mret (otp_start_block, u32 n).

Definition otp_get_status (d : otp X) (status type : Z) : M (Z * Z * Z) :=
  '(b, n) ← wp_groups d;
  match dev_get_status d with
  | Some f => f b n status type
  | None => mret (- EINVAL, status, type)
  end.

Definition otp_read (d : otp X) (buffer : list Z) (offset size : Z) : M (Z * list Z) :=
  otp_ops_read_write 1 d buffer offset size.

(** The return type is [unsigned int]. *)
Definition otp_write (d : otp X) (buffer : list Z) (offset size : Z) : M Z :=
  '(_, status, _) ← otp_get_status d 0 0;
  if negb (status =? 0) then mret (u32 (- EINVAL))
  else '(ret, _) ← otp_ops_read_write 0 d buffer offset size; mret (u32 ret).

Definition otp_lock (d : otp X) (type : Z) : M Z :=
  if type =? WP_TEMPORARY then mret (- EINVAL)
  else
    '(b, n) ← wp_groups d;
    match dev_lock d with
    | Some f => f type b n (wp_grp_size d)
    | None => mret (- EINVAL)
    end.

Definition otp_unlock (d : otp X) : M Z :=
  '(b, n) ← wp_groups d;
  match dev_unlock d with
  | Some f => f b n (wp_grp_size d)
  | None => mret (- EINVAL)
  end.

Definition otp_get_size (d : otp X) : Z := (otp_get_region d).2.2.

Definition otp_get_libversion_if_legacy : M Z :=
  fp ← psys (Sys_fopen (lit "/dev/otp"));
  if fp : bool then _ ← psys Sys_fclose; mret 1 else mret 0.

(** [release] is read whatever [uname] returns. *)
Definition otp_get_libversion : M Z :=
  '(_, release) ← psys Sys_uname;
  if default 0 (release !! 0%nat) <? 52 (* '4' *) then mret 0
  else
    legacy ← otp_get_libversion_if_legacy;
    mret (if legacy =? 0 then 1 else 0).
End Otp.
