(* ===== verification/FsdPlatform.v ===== *)
(** * ccci_fsd: the OTP requests and the modem's status

    fsd_platform.c: the OTP region of the modem, through libstorage_otp when
    [otp_get_libversion] allows it and through the [/dev/otp] driver of older
    kernels otherwise.  Modem 1 owns the first half of the region and the other
    modems the second, from [otp_offset] on. *)
From S2P Require Import Prelude Posix Wire FsdTypes FsdStrings FsdPath FsdHandle OtpStorage.

Definition OTP_DEVICE := lit "/dev/otp".

(** ['c' + ('c'<<8) + ('c'<<16) + ('i'<<24)] *)
Definition OTP_STATUS_ccci : Z := 0x69636363.

Definition CCCI_MD_STA_UNDEFINED : Z := -3.
Definition CCCI_MD_STA_INIT : Z := -1.
Definition CCCI_MD_STA_BOOT_READY : Z := 0.
Definition CCCI_MD_STA_BOOT_UP : Z := 1.
Definition CCCI_MD_STA_RESET : Z := 2.
Definition CCCI_MD_STA_STOP : Z := 3.
Definition CCCI_MD_STA_FLIGHT_MODE : Z := 4.
Definition CCCI_MD_STA_EXCEPTION : Z := 5.

(** The status a property value stands for. *)
Definition md_status_of (mdstatus_val : list Z) : Z :=
  if starts_with (lit "bootup") mdstatus_val then CCCI_MD_STA_BOOT_UP
  else if starts_with (lit "ready") mdstatus_val then CCCI_MD_STA_BOOT_READY
  else if starts_with (lit "init") mdstatus_val then CCCI_MD_STA_INIT
  else if starts_with (lit "reset") mdstatus_val then CCCI_MD_STA_RESET
  else if starts_with (lit "stop") mdstatus_val then CCCI_MD_STA_STOP
  else if starts_with (lit "flightmode") mdstatus_val then CCCI_MD_STA_FLIGHT_MODE
  else if starts_with (lit "exception") mdstatus_val then CCCI_MD_STA_EXCEPTION
  else CCCI_MD_STA_UNDEFINED.

(** Where a modem's data starts: an [unsigned int] addition. *)
Definition otp_pos (g : fsd) (Offset : Z) : Z :=
  if md_id g =? 0 then Offset else u32 (Offset + otp_offset g).

(** The memory behind a pointer; [] for a wild one, so that only an access of
    it fails. *)
Definition mem_tail (g : fsd) (p : ptr) : list Z :=
  match p with
  | PBuf off => default [] (mfrom (pFsBuf (g_FsInfo g)) off)
  | PVar v => var_bytes (vars g) v
  | PUninit => []
  end.

Section Platform.
Context `{OS}.
Context (emmc_storage_init ufs_storage_init : otp fsd -> prog fsd (Z * otp fsd)).
Context (junk : Z -> list Z).
Abbreviation M := (prog fsd).
Abbreviation otp_open := (otp_open emmc_storage_init ufs_storage_init).

Definition FS_OTPLock : M Z :=
  v ← otp_get_libversion;
  if negb (v =? 0) then
    dev ← otp_open USER_CCCI;
    match dev with
    | None => mret FS_UNSUPPORTED_DRIVER_FUNCTION
    | Some d =>
        ret ← otp_lock junk d WP_TEMPORARY;
        mret (if negb (ret =? 0) then FS_PARAM_ERROR else ret)
    end
  else
    fd ← psys (Sys_open OTP_DEVICE O_RDONLY 0);
    if rv fd <? 0 then mret FS_UNSUPPORTED_DRIVER_FUNCTION
    else _ ← psys (Sys_close (rv fd)); mret FS_NO_ERROR.

(** Stores through [Length], the variable of [main]. *)
Definition FS_OTPQueryLength : M Z :=
  v ← otp_get_libversion;
  if negb (v =? 0) then
    dev ← otp_open USER_CCCI;
    match dev with
    | None => mret FS_UNSUPPORTED_DRIVER_FUNCTION
    | Some d =>
        let len := u32 (otp_get_size junk d) in
        pmod (upd_vars (set_OtpLength (len / 2)));;
        mret FS_NO_ERROR
    end
  else
    fd ← psys (Sys_open OTP_DEVICE O_RDONLY 0);
    if rv fd <? 0 then mret FS_UNSUPPORTED_DRIVER_FUNCTION
    else
      '(ret, ctl, _) ← psys (Sys_otp_ioctl (rv fd) OTP_GET_LENGTH (OtpCtl 0 0 0 OTP_STATUS_ccci) []);
      _ ← psys (Sys_close (rv fd));
      pmod (upd_vars (set_OtpLength (QLength ctl / 2)));;
      mret (rv ret).

(** [BufferPtr] is an offset of the shared buffer. *)
Definition FS_OTPRead (Offset BufferPtr Length : Z) : M Z :=
  v ← otp_get_libversion;
  if negb (v =? 0) then
    dev ← otp_open USER_CCCI;
    match dev with
    | None => mret FS_UNSUPPORTED_DRIVER_FUNCTION
    | Some d =>
        g ← pget;
        '(ret, buffer) ← otp_read junk d (mem_tail g (PBuf BufferPtr)) (otp_pos g Offset) Length;
        buf_write BufferPtr buffer;;
        mret (if negb (ret =? 0) then FS_ERROR_RESERVED else ret)
    end
  else
    fd ← psys (Sys_open OTP_DEVICE O_RDONLY 0);
    if rv fd <? 0 then mret FS_UNSUPPORTED_DRIVER_FUNCTION
    else
      g ← pget;
      '(_, ctl, bs) ← psys (Sys_otp_ioctl (rv fd) OTP_READ (OtpCtl 0 (otp_pos g Offset) Length 0) []);
      buf_write BufferPtr bs;;
      _ ← psys (Sys_close (rv fd));
      mret (if negb (status ctl =? 0) then FS_ERROR_RESERVED else FS_NO_ERROR).

Definition FS_OTPWrite (Offset : Z) (BufferPtr : ptr) (Length : Z) : M Z :=
  v ← otp_get_libversion;
  if negb (v =? 0) then
    dev ← otp_open USER_CCCI;
    match dev with
    | None => mret FS_UNSUPPORTED_DRIVER_FUNCTION
    | Some d =>
        g ← pget;
        ret ← otp_write junk d (mem_tail g BufferPtr) (otp_pos g Offset) Length;
        mret (if negb (ret =? 0) then FS_ERROR_RESERVED else ret)
    end
  else
    fd ← psys (Sys_open OTP_DEVICE O_RDONLY 0);
    if rv fd <? 0 then mret (-1)
    else
      g ← pget;
      bs ← deref BufferPtr Length;
      '(_, ctl, _) ← psys (Sys_otp_ioctl (rv fd) OTP_WRITE (OtpCtl 0 (otp_pos g Offset) Length 0) bs);
      _ ← psys (Sys_close (rv fd));
      mret (if negb (status ctl =? 0) then FS_ERROR_RESERVED else FS_NO_ERROR).

Definition FS_OTP_init : M Z :=
  v ← otp_get_libversion;
  if negb (v =? 0) then
    dev ← otp_open USER_CCCI;
    match dev with
    | None => mret FS_UNSUPPORTED_DRIVER_FUNCTION
    | Some d =>
        pmod (set_otp_offset (u32 (otp_get_size junk d) / 2));;
        mret FS_NO_ERROR
    end
  else
    fd ← psys (Sys_open OTP_DEVICE O_RDONLY 0);
    if rv fd <? 0 then mret FS_NO_ERROR
    else
      '(_, ctl, _) ← psys (Sys_otp_ioctl (rv fd) OTP_GET_LENGTH (OtpCtl 0 0 0 OTP_STATUS_ccci) []);
      pmod (set_otp_offset (QLength ctl / 2));;
      _ ← psys (Sys_close (rv fd));
      mret FS_NO_ERROR.

Definition get_modem_status : M Z :=
  g ← pget;
  '(retpropget, mdstatus_val) ← psys (Sys_property_get
     (lit "vendor.mtk.md" ++ itoa (md_id g + 1) ++ lit ".status"));
  mret (if retpropget <=? 0 then CCCI_MD_STA_UNDEFINED else md_status_of mdstatus_val).
End Platform.
