(* ===== verification/FsdCmpt.v ===== *)
(** * ccci_fsd: compact operations

    [FS_CCCI_CMPT_Read] and [FS_CCCI_CMPT_Write] run open, size, seek, read or
    write, and close in one request, as the bits of [opid_map] say.  The bitmap
    of what succeeded and the last error go to [ret[0]] and [ret[1]] of the
    request structure, a variable of [main]. *)
From S2P Require Import Prelude Posix Wire FsdTypes FsdStrings FsdPath FsdHandle.

(** The structures copied out of a request. *)
Definition cmpt_of_bytes (bs : list Z) : nvram_fs_para_cmpt_t :=
  let w (i : Z) := de32 (take 4 (drop (Z.to_nat (4 * i)) bs)) in
  CmptPara (w 0) (w 1) (w 2) (w 3) (w 4) (w 5) (w 6) (w 7) (w 8) (w 9).

Definition cmptw_of_bytes (bs : list Z) : nvram_fs_para_cmptw_t :=
  let w (i : Z) := de32 (take 4 (drop (Z.to_nat (4 * i)) bs)) in
  CmptwPara (w 0) (w 1) (w 2) (w 3) (w 4) (w 5) (w 6) (w 7) (i32 (w 8)) (i32 (w 9)) (w 10).

Definition upd_cmpt (f : nvram_fs_para_cmpt_t -> nvram_fs_para_cmpt_t) (m : main_vars) : main_vars :=
  set_in_cmpt_para (f (in_cmpt_para m)) m.

Definition upd_cmptw (f : nvram_fs_para_cmptw_t -> nvram_fs_para_cmptw_t) (m : main_vars) : main_vars :=
  set_in_cmptw_para (f (in_cmptw_para m)) m.

Section Cmpt.
Context `{OS}.
Abbreviation M := (prog fsd).

(** One operation of a compact request: skipped when its bit is clear; on an
    error the request stops with [fail bitmap error]. *)
Definition cmpt_step (opid_map flag bitmap : Z) (op : M Z) (fail : Z -> Z -> M Z)
    (k : Z -> M Z) : M Z :=
  if has_bits opid_map flag then
    ret ← op;
    if ret <? 0 then fail bitmap ret else k (Z.lor bitmap flag)
  else k bitmap.

(** An operation timed without the borrow of a second. *)
Definition timed (op : M Z) : M Z :=
  time_start ← psys Sys_clock_gettime;
  ret ← op;
  profile_end elapsed_plain time_start;;
  mret ret.

Definition cmpt_ret (bitmap err : Z) : M unit :=
  pmod (upd_vars (upd_cmpt (fun p => set_cr_ret1 (u32 err) (set_cr_ret0 bitmap p)))).

Definition FS_CCCI_CMPT_Read (name : list Z) : M Z :=
  pmod (upd_vars (upd_cmpt (set_cr_act_read 0)));;
  g ← pget;
  let p := in_cmpt_para (vars g) in
  let opid_map := cr_opid_map p in
  if has_bits opid_map FS_CMPT_OPEN then
    HandleIndex ← timed (FS_CCCI_Open name (cr_flag p));
    if HandleIndex <? 0 then cmpt_ret 0 HandleIndex;; mret (-1)
    else
      let fail code bitmap err :=
        cmpt_ret bitmap err;; _ ← FS_CCCI_Close HandleIndex; mret code in
      cmpt_step opid_map FS_CMPT_GETFILESIZE FS_CMPT_OPEN
        (timed (FS_CCCI_GetFileSize HandleIndex (fun v => upd_cmpt (set_cr_file_size v))))
        (fail (-2)) (fun bitmap =>
      cmpt_step opid_map FS_CMPT_SEEK bitmap
        (FS_CCCI_Seek HandleIndex (cr_offset p) (cr_whence p))
        (fail (-3)) (fun bitmap =>
      cmpt_step opid_map FS_CMPT_READ bitmap
        (FS_CCCI_Read HandleIndex (cr_data_ptr p) (cr_length p) (fun v => upd_cmpt (set_cr_act_read v)))
        (fail (-4)) (fun bitmap =>
      if has_bits opid_map FS_CMPT_CLOSE then
        ret ← FS_CCCI_Close HandleIndex;
        if ret <? 0 then cmpt_ret bitmap ret;; mret (-5)
        else cmpt_ret (Z.lor bitmap FS_CMPT_CLOSE) 0;; mret 0
      else
        _ ← FS_CCCI_Close HandleIndex; mret (-6))))
  else cmpt_ret 0 FS_GENERAL_FAILURE;; mret (-7).

Definition cmptw_ret (bitmap err : Z) : M unit :=
  pmod (upd_vars (upd_cmptw (fun p => set_cw_ret1 (u32 err) (set_cw_ret0 bitmap p)))).

(** What follows the open of a compact write. *)
Definition cmpt_write_body (p : nvram_fs_para_cmptw_t) (pBuffer : ptr) (HandleIndex bitmap : Z)
    : M Z :=
  let opid_map := cw_opid_map p in
  let fail code bitmap err :=
    cmptw_ret bitmap err;; _ ← FS_CCCI_Close HandleIndex; mret code in
  cmpt_step opid_map FS_CMPT_SEEK bitmap
    (FS_CCCI_Seek HandleIndex (cw_offset p) (cw_whence p)) (fail (-3)) (fun bitmap =>
  cmpt_step opid_map FS_CMPT_WRITE bitmap
    (FS_CCCI_Write HandleIndex pBuffer (cw_length p)
       (fun v => upd_cmptw (set_cw_act_write_size (u32 v))))
    (fail (-4)) (fun bitmap =>
  cmpt_step opid_map FS_CMPT_CLOSE bitmap (FS_CCCI_Close HandleIndex)
    (fun bitmap err => cmptw_ret bitmap err;; mret (-5)) (fun bitmap =>
  cmptw_ret bitmap 0;; mret 0))).

Definition FS_CCCI_CMPT_Write (name : list Z) (pBuffer : ptr) : M Z :=
  pmod (upd_vars (upd_cmptw (set_cw_act_write_size 0)));;
  g ← pget;
  let p := in_cmptw_para (vars g) in
  if cw_file_handle p <? 0 then
    if has_bits (cw_opid_map p) FS_CMPT_OPEN then
      HandleIndex ← timed (FS_CCCI_Open name (cw_flag p));
      if HandleIndex <? 0 then cmptw_ret 0 HandleIndex;; mret (-1)
      else
        pmod (upd_vars (upd_cmptw (set_cw_file_handle_ptr HandleIndex)));;
        cmpt_write_body p pBuffer HandleIndex FS_CMPT_OPEN
    else cmptw_ret 0 FS_PARAM_ERROR;; mret (-2)
  else
    pmod (upd_vars (upd_cmptw (set_cw_file_handle_ptr (cw_file_handle p))));;
    cmpt_write_body p pBuffer (cw_file_handle p) 0.
End Cmpt.
