(* ===== verification/FsdMain.v ===== *)
(** * ccci_fsd: the daemon

    [main] of ccci_fsd.c and what it starts with: the device nodes of the
    modems, the initialisation of the directories and the handle table, the
    thread that watches the modem, the reception and reassembly of requests,
    the dispatch of an operation and the main loop.

    [fuel] bounds the loops that wait for the environment, and is passed to the
    operations that walk directories. *)
From S2P Require Import Prelude Posix CcciIntf Wire FsdTypes FsdStrings FsdPath FsdHandle FsdDir FsdFind.
From S2P Require Import FsdPacket OtpStorage FsdPlatform FsdCmpt.

(** ** Status events (hardware/ccci_intf.h) *)

Definition MD_STA_EV_HS1 : Z := 9.
Definition MD_STA_EV_STOP : Z := 12.
Definition sizeof_md_status_event : Z := 48.

(** [event_type] of a [struct md_status_event]. *)
Definition event_type (status_buf : list Z) : Z := de32 (take 4 (drop 12 status_buf)).

(** What a [read] leaves in a buffer. *)
Definition overlay (data buf : list Z) : list Z := data ++ drop (length data) buf.

Section Main.
Context `{OS}.
Context (emmc_storage_init ufs_storage_init : otp fsd -> prog fsd (Z * otp fsd)).
Context (junk : Z -> list Z).
Abbreviation M := (prog fsd).

(** ** Initialisation *)

Definition ensure_dir (path : list Z) : M unit :=
  '(r, _) ← psys (Sys_stat path);
  if rv r <? 0 then _ ← psys (Sys_mkdir path MD_DIR_ATTR); mret tt else mret tt.

Fixpoint ensure_dirs (paths : list (list Z)) : M unit :=
  match paths with
  | [] => mret tt
  | p :: paths' => ensure_dir p;; ensure_dirs paths'
  end.

(** The directories of a modem; the [switch] has no case for modem 5. *)
Definition init_dirs (md_id : Z) : list (list Z) :=
  [lit "/mnt/vendor/nvdata"; FS_ROOT_COMMON] ++
  (if md_id =? 0 then [FS_ROOT_DIR_MD1; FS_ROOT_DIR1_MD1; FS_ROOT_DIR2_MD1]
   else if md_id =? 1 then [FS_ROOT_DIR_MD2; FS_ROOT_DIR1_MD2; FS_ROOT_DIR2_MD2]
   else if md_id =? 2 then [FS_ROOT_DIR_MD3; FS_ROOT_DIR1_MD3; FS_ROOT_DIR2_MD3; FS_ROOT_DIR3_MD3]
   else []).

Definition FS_Init (md_id : Z) : M unit :=
  pmod (upd_FileNum (fun _ => 0));;
  _ ← psys (Sys_umask 7);
  ensure_dirs (init_dirs md_id);;
  pmod (fun g => set_g_FsInfo (set_hFileHandle
    ((fun h => set_hFile INVALID_HANDLE_VALUE (set_fInUse false h)) <$> hFileHandle (g_FsInfo g))
    (g_FsInfo g)) g).

Definition FS_Deinit : M unit := FS_CCCI_ShutDown.

Definition signal_treatment (param : Z) : M unit := pmod (set_exit_signal param).

(** ** The modem's status *)

Definition ccci_open_md_status_fd (md_id : Z) : M Z :=
  if (md_id =? 0) || (md_id =? 2) then
    fd ← psys (Sys_open (if md_id =? 0 then lit "/dev/ccci_md1_sta" else lit "/dev/ccci_md3_sta")
                 O_RDWR 0);
    mret (if rv fd <? 0 then -3 else rv fd)
  else mret (-2).

Fixpoint ccci_wait_md_status_to_HS1 (fuel : nat) (status_buf : list Z) : M unit :=
  match fuel with
  | O => phalt NoFuel
  | S fuel' =>
      g ← pget;
      r ← psys (Sys_read (md_status_fd g) sizeof_md_status_event);
      let status_buf := overlay (rres_data r) status_buf in
      if (rres_rv r >? 0) && (event_type status_buf =? MD_STA_EV_HS1) then mret tt
      else ccci_wait_md_status_to_HS1 fuel' status_buf
  end.

(** The body of the listening thread. *)
Fixpoint ccci_status_thread_handle (fuel : nat) (status_buf : list Z) : M unit :=
  match fuel with
  | O => phalt NoFuel
  | S fuel' =>
      g ← pget;
      r ← psys (Sys_read (md_status_fd g) sizeof_md_status_event);
      let status_buf := overlay (rres_data r) status_buf in
      if (rres_rv r >? 0) && (event_type status_buf =? MD_STA_EV_STOP) then
        g ← pget;
        (if DeviceFd g >=? 0
         then _ ← psys (Sys_close (DeviceFd g)); pmod (set_DeviceFd (-1))
         else mret tt);;
        phalt (Exited 1)
      else ccci_status_thread_handle fuel' status_buf
  end.

(** ** Reception *)

(** [PackInfo[PacketNum].Length = len; PackInfo[PacketNum++].pData = p;] *)
Definition resp (len : Z) (p : ptr) : M unit :=
  g ← pget;
  let n := PacketNum (vars g) in
  if n <? zlen (PackInfo (vars g)) then
    pmod (upd_vars (fun m =>
      set_PacketNum (n + 1) (set_PackInfo (<[Z.to_nat n := PacketInfo len p]> (PackInfo m)) m)))
  else phalt OutOfBounds.

(** The answer to a malformed request. *)
Definition resp_param_error : M unit :=
  pmod (upd_vars (set_RetVal FS_PARAM_ERROR));; resp sizeof_uint (PVar V_RetVal).

Definition slot_state (g : fsd) (i : Z) : Z := default 0 (fs_buff_state (g_FsInfo g) !! Z.to_nat i).
Definition slot_offset (g : fsd) (i : Z) : Z := default 0 (fs_buff_offset (g_FsInfo g) !! Z.to_nat i).

Definition set_slot (i st off : Z) (g : fsd) : fsd :=
  set_g_FsInfo
    (set_fs_buff_state (<[Z.to_nat i := st]> (fs_buff_state (g_FsInfo g)))
      (set_fs_buff_offset (<[Z.to_nat i := off]> (fs_buff_offset (g_FsInfo g))) (g_FsInfo g))) g.

(** [memcpy (dst, src, length)] from the received packet. *)
Definition copy_packet (pkt_buff : list Z) (dst src length : Z) : M unit :=
  bs ← popt OutOfBounds (mread pkt_buff src length); buf_write dst bs.

(** One fragment into its slot: the state machine of the re-send mechanism. *)
Definition reassemble (pkt_buff : list Z) (ReqBufIndex d0 d1 : Z) : M unit :=
  g ← pget;
  let p_fs_buff := slot_base g ReqBufIndex in
  let st := slot_state g ReqBufIndex in
  let off := slot_offset g ReqBufIndex in
  let header := sizeof_CCCI_BUFF_T + sizeof_uint in
  if negb (has_bits d0 CCCI_FS_REQ_SEND_AGAIN) then
    (if st =? FS_BUFF_IDLE then copy_packet pkt_buff p_fs_buff 0 d1
     else if st =? FS_BUFF_WAIT then
       (if d1 >? header then copy_packet pkt_buff (p_fs_buff + off) header (d1 - header)
        else mret tt);;
       copy_packet pkt_buff p_fs_buff 0 sizeof_CCCI_BUFF_T
     else phalt AssertFail);;
    pmod (set_slot ReqBufIndex FS_BUFF_IDLE 0)
  else
    (if st =? FS_BUFF_IDLE then
       copy_packet pkt_buff p_fs_buff 0 d1;;
       pmod (set_slot ReqBufIndex FS_BUFF_WAIT (u32 (off + d1)))
     else if st =? FS_BUFF_WAIT then
       let length := u32 (d1 - header) in
       copy_packet pkt_buff (p_fs_buff + off) header length;;
       pmod (set_slot ReqBufIndex FS_BUFF_WAIT (u32 (off + length)))
     else phalt AssertFail).

(** The checks on a received header. *)
Definition packet_check (g : fsd) (channel ReqBufIndex d1 : Z) : bool :=
  (Z.land channel 0xFFFF =? 0x0e) && (0 <=? ReqBufIndex) && (ReqBufIndex <? FS_REQ_BUFFER_MUN)
  && (d1 <=? sizeof_STREAM_DATA + FS_MAX_BUF_SIZE g).

(** [pkt_buff] after the [memset] and the [read]. *)
Definition packet_buffer (data : list Z) : option (list Z) :=
  mwrite (replicate (Z.to_nat MAX_FS_BUF_BYTE) 0) 0 data.

(** The receiving loop of the stream mode: [true] when a whole request is in
    its slot, [false] when the answer to a bad packet is ready. *)
Fixpoint receive (fuel : nat) : M bool :=
  match fuel with
  | O => phalt NoFuel
  | S fuel' =>
      g ← pget;
      r ← psys (Sys_read (DeviceFd g) (MAX_FS_PKT_BYTE + sizeof_CCCI_BUFF_T + sizeof_uint));
      pkt_buff ← popt OutOfBounds (packet_buffer (rres_data r));
      pmod (upd_vars (set_RetVal (rres_rv r)));;
      if rres_rv r <=? 0 then receive fuel'
      else
        _ ← psys Sys_wake_lock;
        let word off := de32 (take 4 (drop off pkt_buff)) in
        let ReqBufIndex := i32 (word 12%nat) in
        pmod (upd_vars (set_ReqBufIndex ReqBufIndex));;
        if negb (packet_check g (word 8%nat) ReqBufIndex (word 4%nat)) then
          resp_param_error;; mret false
        else
          reassemble pkt_buff ReqBufIndex (word 0%nat) (word 4%nat);;
          g ← pget;
          if slot_state g ReqBufIndex =? FS_BUFF_IDLE then
            pmod (upd_vars (set_pFsBuf_ptr (fsbuf_base g ReqBufIndex + 1)));; mret true
          else _ ← psys Sys_wake_unlock; receive fuel'
  end.

(** The request of the shared-memory mode. *)
Definition receive_index : M bool :=
  g ← pget;
  '(r, request) ← psys (Sys_fs_get_index (DeviceFd g));
  pmod (upd_vars (set_ReqBufIndex (rv r)));;
  _ ← psys Sys_wake_lock;
  if (rv r <? 0) || (rv r >=? FS_REQ_BUFFER_MUN) then resp_param_error;; mret false
  else
    buf_write (fsbuf_base g (rv r)) request;;
    pmod (upd_vars (set_pFsBuf_ptr (fsbuf_base g (rv r) + 1)));;
    mret true.

(** ** Dispatch *)

(** [PackInfo[i].pData]; the entries beyond the request are what an earlier
    request left there. *)
Definition arg_ptr (i : nat) : M ptr :=
  g ← pget; popt OutOfBounds (pData <$> PackInfo (vars g) !! i).

Definition arg32 (i : nat) : M Z := p ← arg_ptr i; bs ← deref p 4; mret (de32 bs).
Definition arg_char (i : nat) : M Z := p ← arg_ptr i; bs ← deref p 1; mret (le_value bs).
Definition arg_name (i : nat) : M (list Z) := p ← arg_ptr i; mem_at p.

(** [RetVal = op; PackInfo[PacketNum++] = {sizeof(int), &RetVal}] *)
Definition answer (op : M Z) : M unit :=
  ret ← op; pmod (upd_vars (set_RetVal ret));; resp sizeof_uint (PVar V_RetVal).

(** [MaxLength] wide characters of [FileNameTemp], with the terminator. *)
Definition wide_length (MaxLength : Z) : Z :=
  if MaxLength >? 0 then u32 (u32 (MaxLength + 1) * 2) else 0.

Definition answer_find (op : M (Z * Z)) : M unit :=
  '(ret, MaxLength) ← op;
  pmod (upd_vars (set_RetVal ret));;
  resp sizeof_uint (PVar V_RetVal);;
  resp 52 (PVar V_DosDirEntry);;
  resp (wide_length MaxLength) (PVar V_FileNameTemp).

(** [pFsBuf->Buffer] of the request, an offset of the shared buffer. *)
Definition request_buffer (g : fsd) : Z := pFsBuf_ptr (vars g) - 1 + sizeof_FS_BUF.

Definition do_cmpt_read : M unit :=
  FileName ← arg_name 0;
  p ← arg_ptr 1; bs ← deref p 40;
  pmod (upd_vars (set_in_cmpt_para (cmpt_of_bytes bs)));;
  _ ← conv_name FileName;
  g ← pget;
  let data_ptr := request_buffer g + 36 in
  pmod (upd_vars (upd_cmpt (set_cr_data_ptr data_ptr)));;
  ret ← FS_CCCI_CMPT_Read FileName;
  pmod (upd_vars (set_RetVal ret));;
  g ← pget;
  resp 8 (PVar V_cmpt_ret);;
  resp sizeof_uint (PVar V_cmpt_file_size);;
  resp sizeof_uint (PVar V_cmpt_act_read);;
  resp (cr_act_read (in_cmpt_para (vars g))) (PBuf data_ptr).

Definition do_cmpt_write : M unit :=
  FileName ← arg_name 0;
  p ← arg_ptr 1; bs ← deref p 44;
  pmod (upd_vars (set_in_cmptw_para (cmptw_of_bytes bs)));;
  pBuffer ← arg_ptr 2;
  _ ← conv_name FileName;
  ret ← FS_CCCI_CMPT_Write FileName pBuffer;
  pmod (upd_vars (set_RetVal ret));;
  resp 8 (PVar V_cmptw_ret);;
  resp sizeof_uint (PVar V_cmptw_file_handle_ptr);;
  resp sizeof_uint (PVar V_cmptw_act_write_size).

Definition do_read : M unit :=
  HandleIndex ← arg32 0;
  NumOfByte ← arg32 1;
  g ← pget;
  let pBuffer := request_buffer g + 24 in
  answer (FS_CCCI_Read (i32 HandleIndex) pBuffer (i32 NumOfByte) set_ReadByte);;
  resp sizeof_uint (PVar V_ReadByte);;
  g ← pget;
  resp (ReadByte (vars g)) (PBuf pBuffer).

Definition do_write : M unit :=
  HandleIndex ← arg32 0;
  pBuffer ← arg_ptr 1;
  NumOfByte ← arg32 2;
  answer (FS_CCCI_Write (i32 HandleIndex) pBuffer (i32 NumOfByte) set_WriteByte);;
  resp sizeof_uint (PVar V_WriteByte).

Definition do_otp_write : M unit :=
  _ ← arg32 0;
  Offset ← arg32 1;
  BufferPtr ← arg_ptr 2;
  Length ← arg32 3;
  answer (FS_OTPWrite emmc_storage_init ufs_storage_init junk Offset BufferPtr Length).

Definition do_otp_read : M unit :=
  g ← pget;
  let BufferPtr := request_buffer g + 16 in
  _ ← arg32 0;
  Offset ← arg32 1;
  Length ← arg32 2;
  answer (FS_OTPRead emmc_storage_init ufs_storage_init junk Offset BufferPtr Length);;
  resp Length (PBuf BufferPtr).

(** The [switch] of [main]. *)
Definition dispatch (fuel : nat) (op : option FS_CCCI_OP_ID) : M unit :=
  match op with
  | Some FS_CCCI_OP_CMPT_READ => do_cmpt_read
  | Some FS_CCCI_OP_CMPT_WRITE => do_cmpt_write
  | Some FS_CCCI_OP_RESTORE => n ← arg_name 0; answer (FS_CCCI_Restore n)
  | Some FS_CCCI_OP_OPEN =>
      n ← arg_name 0; Flag ← arg32 1; answer (FS_CCCI_Open n Flag)
  | Some FS_CCCI_OP_GETFILESIZE =>
      h ← arg32 0;
      answer (FS_CCCI_GetFileSize (i32 h) set_FileSize);; resp sizeof_uint (PVar V_FileSize)
  | Some FS_CCCI_OP_SEEK =>
      h ← arg32 0; Offset ← arg32 1; Whence ← arg32 2;
      answer (FS_CCCI_Seek (i32 h) Offset Whence)
  | Some FS_CCCI_OP_READ => do_read
  | Some FS_CCCI_OP_WRITE => do_write
  | Some FS_CCCI_OP_CLOSE => h ← arg32 0; answer (FS_CCCI_Close (i32 h))
  | Some FS_CCCI_OP_CLOSEALL => answer FS_CCCI_CloseAll
  | Some FS_CCCI_OP_CREATEDIR => n ← arg_name 0; answer (FS_CCCI_CreateDir n)
  | Some FS_CCCI_OP_REMOVEDIR => n ← arg_name 0; answer (FS_CCCI_RemoveDir n)
  | Some FS_CCCI_OP_GETFOLDERSIZE =>
      n ← arg_name 0; Flag ← arg32 1; answer (FS_CCCI_GetFolderSize fuel n Flag)
  | Some FS_CCCI_OP_RENAME =>
      n ← arg_name 0; n' ← arg_name 1; answer (FS_CCCI_Rename n n')
  | Some FS_CCCI_OP_MOVE =>
      n ← arg_name 0; n' ← arg_name 1; Flag ← arg32 2; answer (FS_CCCI_Move fuel n n' Flag)
  | Some FS_CCCI_OP_COUNT =>
      n ← arg_name 0; Flag ← arg32 1; answer (FS_CCCI_Count fuel n Flag)
  | Some FS_CCCI_OP_GETDISKINFO => answer FS_CCCI_GetDiskInfo;; resp 80 (PVar V_DiskInfo)
  | Some FS_CCCI_OP_DELETE => n ← arg_name 0; answer (FS_CCCI_Delete n)
  | Some FS_CCCI_OP_GETATTRIBUTES => n ← arg_name 0; answer (FS_CCCI_GetAttributes n)
  | Some FS_CCCI_OP_OPENHINT =>
      n ← arg_name 0; Flag ← arg32 1;
      answer (FS_CCCI_Open n Flag);;
      p ← arg_ptr 2; resp 8 p
  | Some FS_CCCI_OP_FINDFIRST =>
      n ← arg_name 0; Attr ← arg_char 1; AttrMask ← arg_char 2; MaxLength ← arg32 3;
      answer_find (FS_CCCI_FindFirst fuel n Attr AttrMask MaxLength)
  | Some FS_CCCI_OP_FINDNEXT =>
      h ← arg32 0; MaxLength ← arg32 1;
      answer_find (FS_CCCI_FindNext fuel (i32 h) MaxLength)
  | Some FS_CCCI_OP_FINDCLOSE => h ← arg32 0; answer (FS_CCCI_FindClose (i32 h))
  | Some FS_CCCI_OP_LOCKFAT => answer (mret FS_NO_ERROR)
  | Some FS_CCCI_OP_UNLOCKALL => answer (mret 1)
  | Some FS_CCCI_OP_SHUTDOWN => FS_CCCI_ShutDown
  | Some FS_CCCI_OP_XDELETE =>
      n ← arg_name 0; Flag ← arg32 1; answer (FS_CCCI_XDelete fuel n Flag)
  | Some FS_CCCI_OP_CLEARDISKFLAG => answer (mret FS_NO_ERROR)
  | Some FS_CCCI_OP_GETDRIVE =>
      t ← arg32 0; Serial ← arg32 1; AltMask ← arg32 2;
      answer (mret (FS_CCCI_GetDrive t Serial AltMask))
  | Some FS_CCCI_OP_GETCLUSTERSIZE => d ← arg32 0; answer (FS_CCCI_GetClusterSize d)
  | Some FS_CCCI_OP_SETDISKFLAG => answer (mret FS_NO_ERROR)
  | Some FS_CCCI_OP_OTP_WRITE => do_otp_write
  | Some FS_CCCI_OP_OTP_READ => do_otp_read
  | Some FS_CCCI_OP_OTP_QUERYLEN =>
      _ ← arg32 0;
      answer (FS_OTPQueryLength emmc_storage_init ufs_storage_init junk);;
      resp sizeof_uint (PVar V_Length)
  | Some FS_CCCI_OP_OTP_LOCK =>
      _ ← arg32 0; answer (FS_OTPLock emmc_storage_init ufs_storage_init junk)
  | Some FS_CCCI_OP_BIN_REGION_ACCESS =>
      a ← arg32 0; answer (mret (FS_BinRegion_Access (i32 a)))
  | Some FS_CCCI_OP_GETFILEDETAIL =>
      n ← arg_name 0; answer (FS_CCCI_GetFileDetail n);; resp 24 (PVar V_FileDetail)
  | None => answer (mret FS_PARAM_ERROR)
  end.

(** ** The main loop *)

(** Parse the request in the slot and run it. *)
Definition serve (fuel : nat) : M unit :=
  g ← pget;
  ok ← FS_GetPackInfo (request_buffer g);
  if negb ok then resp_param_error
  else
    op ← buf_get32 (pFsBuf_ptr (vars g) - 1);
    dispatch fuel (op_of_Z op).

(** The label [_Next]. *)
Definition reply (fuel : nat) : M unit :=
  g ← pget;
  let i := ReqBufIndex (vars g) in
  (if (i <? 0) || (i >=? FS_REQ_BUFFER_MUN) || (pFsBuf_ptr (vars g) =? 0) then
     _ ← psys (Sys_ioctl (DeviceFd g) CCCI_IOC_FORCE_MD_ASSERT (RetVal (vars g))); mret tt
   else
     _ ← FS_WriteToMD fuel (DeviceFd g) i (PackInfo (vars g)) (PacketNum (vars g)); mret tt);;
  _ ← psys Sys_wake_unlock; mret tt.

Definition profile_boot : M unit :=
  mdstatus ← get_modem_status;
  if mdstatus =? CCCI_MD_STA_BOOT_UP then
    pmod (fun g => set_slower_100ms
      (Slow100ms true (count (slower_100ms g)) (totaltime (slower_100ms g))) g)
  else if mdstatus =? CCCI_MD_STA_BOOT_READY then pmod (set_slower_100ms (Slow100ms false 0 0))
  else mret tt.

(** One iteration of the main loop. *)
Definition main_step (fuel : nat) : M unit :=
  profile_boot;;
  pmod (upd_vars (set_PacketNum 0));;
  g ← pget;
  ok ← (if stream_support g then receive fuel else receive_index);
  (if ok : bool then serve fuel else mret tt);;
  reply fuel.

(** A handler runs asynchronously, but only the loop condition looks at what it
    stores: the signals of an iteration are delivered before it. *)
Definition deliver_signal : M unit :=
  s ← psys Sys_signal_pending;
  match s with Some param => signal_treatment param | None => mret tt end.

Fixpoint main_loop (fuel : nat) : M unit :=
  deliver_signal;;
  g ← pget;
  if exit_signal g =? 0 then
    match fuel with
    | O => phalt NoFuel
    | S fuel' => main_step fuel';; main_loop fuel'
    end
  else mret tt.

(** ** Start-up *)

(** The modem of the command line: [md_id], the roots of its drives, and
    whether its device node is looked up.  [None]: an invalid argument. *)
Definition select_modem (argv : list (list Z)) : option (Z * list (list Z) * bool) :=
  match argv with
  | [_; a] =>
      if streq a (lit "0") then Some (0, FsRootDir_MD1, true)
      else if streq a (lit "1") then Some (1, FsRootDir_MD2, true)
      else if streq a (lit "2") then Some (2, FsRootDir_MD3, true)
      else if streq a (lit "4") then Some (4, FsRootDir_MD5, true)
      else None
  | _ => Some (0, FsRootDir_MD1, false)
  end.

Definition stream_version : M bool :=
  v ← ccci_get_version;
  if v =? ECCCI then mret true
  else
    v ← ccci_get_version;
    if v =? EDSDA then mret true
    else v ← ccci_get_version; mret (v =? ECCCI_FSM).

(** [port_open_retry] attempts. *)
Fixpoint open_retry (port_open_retry : nat) (dev_node : list Z) : M Z :=
  match port_open_retry with
  | O => mret (-1)
  | S n =>
      fd ← psys (Sys_open dev_node O_RDWR 0);
      if rv fd <? 0 then
        match n with
        | O => mret (-1)
        | S _ => _ ← psys (Sys_usleep 10000); open_retry n dev_node
        end
      else mret (rv fd)
  end.

Fixpoint wait_init (fuel : nat) : M unit :=
  match fuel with
  | O => phalt NoFuel
  | S fuel' =>
      mdstatus ← get_modem_status;
      if negb (mdstatus =? CCCI_MD_STA_INIT) then mret tt
      else _ ← psys (Sys_usleep 100000); wait_init fuel'
  end.

Fixpoint register_signals (n : nat) : M unit :=
  match n with
  | O => mret tt
  | S n' => _ ← psys Sys_signal; register_signals n'
  end.

(** The request slots: shared memory of the driver, or a zeroed allocation. *)
Definition alloc_slots : M unit :=
  g ← pget;
  if negb (stream_support g) then
    m ← psys (Sys_mmap (16388 * 5) (DeviceFd g));
    pmod (upd_pFsBuf (default [] m))
  else
    pmod (fun g => set_FS_MAX_ARG_NUM 6 (set_FS_MAX_BUF_SIZE 16584 g));;
    let alloc_length := (sizeof_STREAM_DATA + 16584) * FS_BUFFER_SLOT_NUM in
    ok ← psys (Sys_malloc alloc_length);
    if negb ok then phalt NullDeref
    else pmod (upd_pFsBuf (replicate (Z.to_nat alloc_length) 0)).

(** The rest of [main], once the device is open. *)
Definition main_run (fuel : nat) : M Z :=
  alloc_slots;;
  g ← pget;
  ok1 ← psys (Sys_malloc (8 * FS_MAX_ARG_NUM g));
  ok2 ← psys (Sys_malloc MAX_FS_BUF_BYTE);
  if negb (ok1 && ok2) then mret (-1)
  else
    pmod (upd_vars (set_PackInfo
      (replicate (Z.to_nat (FS_MAX_ARG_NUM g)) (PacketInfo (le_value (junk 4)) PUninit))));;
    wait_init fuel;;
    FS_Init (md_id g);;
    _ ← FS_OTP_init emmc_storage_init ufs_storage_init junk;
    register_signals 8;;
    main_loop fuel;;
    g ← pget;
    _ ← psys (Sys_close (DeviceFd g));
    mret 0.

Definition main (fuel : nat) (argv : list (list Z)) : M Z :=
  _ ← ccci_get_version;
  match select_modem argv with
  | None => mret (-1)
  | Some (id, roots, lookup_node) =>
      pmod (fun g => set_md_id id (set_FsRootDir (take 35 <$> roots) g));;
      node ← (if lookup_node : bool then ccci_get_node_name USR_CCCI_FS id
              else mret (Some (lit "/dev/ccci_fs")));
      let dev_node := take 31 (default (lit "(null)") node) in
      stream ← (if id =? 4 then mret true else stream_version);
      pmod (set_stream_support stream);;
      _ ← psys (Sys_property_get (lit "persist.vendor.md.fsd.debug"));
      fd ← ccci_open_md_status_fd id;
      pmod (set_md_status_fd fd);;
      if fd <? 0 then mret (-1)
      else
        ccci_wait_md_status_to_HS1 fuel (junk sizeof_md_status_event);;
        DeviceFd ← open_retry 600 dev_node;
        pmod (set_DeviceFd DeviceFd);;
        if DeviceFd <? 0 then mret (-1)
        else
          ret ← psys Sys_pthread_create;
          if negb (ret =? 0) then phalt (Exited 1) else main_run fuel
  end.
End Main.
