(* ===== verification/FsdInv.v ===== *)
(** * ccci_fsd: every request refines the abstract handle table

    The invariant [tinv] of FsdTable.v through the remaining operations, the
    dispatch, the answer and an iteration of the main loop.  The storage drivers
    are outside the daemon: the class [OtpDriver] states what it relies on, that
    their code leaves the globals of the daemon alone. *)
From S2P Require Import Prelude Posix MemFs Wire FsdTypes FsdStrings FsdPath FsdDemo FsdHandle FsdTable FsdDir.
From S2P Require Import FsdFind FsdPacket OtpStorage FsdPlatform FsdCmpt FsdMain.

(** ** Operations on paths and searches *)

Section DirInv.
Context `{OS}.

Lemma keeps_with_path n (k : list Z -> nat -> list Z -> prog fsd Z) :
  (forall c i p, keeps_glob (k c i p)) -> keeps_glob (with_path n k).
Proof. intros Hk. unfold with_path. keeps; apply Hk. Qed.

Lemma keeps_IsReadOnly p : keeps_glob (FS_IsReadOnly p).
Proof. unfold FS_IsReadOnly. keeps. Qed.

Lemma keeps_IsDIR p : keeps_glob (FS_IsDIR p).
Proof. unfold FS_IsDIR. keeps. Qed.

Lemma keeps_IsFile p : keeps_glob (FS_IsFile p).
Proof. unfold FS_IsFile. keeps. Qed.

#[local] Hint Resolve keeps_IsReadOnly keeps_IsDIR keeps_IsFile : cfs.

Lemma keeps_AttrReconv p : keeps_glob (FS_AttrReconv p).
Proof. unfold FS_AttrReconv. keeps. Qed.

Lemma keeps_GetClusterSize d : keeps_glob (FS_CCCI_GetClusterSize d).
Proof. unfold FS_CCCI_GetClusterSize. keeps. Qed.

#[local] Hint Resolve keeps_AttrReconv keeps_GetClusterSize : cfs.

Lemma keeps_search_loop fuel Flag d n cs found cc :
  keeps_glob (FS_RecursiveSearch_loop fuel Flag d n cs found cc).
Proof.
  revert d n cs found cc. induction fuel as [|fuel IH]; intros; simpl; [keeps|].
  unfold FS_RecursiveSearch_with. keeps.
Qed.

Lemma keeps_delete_loop fuel Flag d n c : keeps_glob (FS_RecursiveDelete_loop fuel Flag d n c).
Proof.
  revert d n c. induction fuel as [|fuel IH]; intros; simpl; [keeps|].
  unfold FS_RecursiveDelete_with. keeps.
Qed.

#[local] Hint Resolve keeps_search_loop keeps_delete_loop : cfs.

Lemma keeps_RecursiveSearch fuel n Flag cc : keeps_glob (FS_RecursiveSearch fuel n Flag cc).
Proof. unfold FS_RecursiveSearch, FS_RecursiveSearch_with. keeps. Qed.

Lemma keeps_RecursiveDelete fuel n Flag : keeps_glob (FS_RecursiveDelete fuel n Flag).
Proof. unfold FS_RecursiveDelete, FS_RecursiveDelete_with. keeps. Qed.

#[local] Hint Resolve keeps_RecursiveSearch keeps_RecursiveDelete : cfs.

Lemma keeps_with_dir p (k : prog fsd Z) : keeps_glob k -> keeps_glob (with_dir p k).
Proof. intros Hk. unfold with_dir. keeps. Qed.

Ltac paths := repeat first
  [ apply keeps_with_path; intros | apply keeps_with_dir | progress keeps | progress cbn ].

Lemma keeps_call_path c : keeps_glob (call_path c).
Proof. unfold call_path. keeps. Qed.

#[local] Hint Resolve keeps_call_path : cfs.

Lemma keeps_CreateDir n : keeps_glob (FS_CCCI_CreateDir n).
Proof. unfold FS_CCCI_CreateDir. paths. Qed.

Lemma keeps_RemoveDir n : keeps_glob (FS_CCCI_RemoveDir n).
Proof. unfold FS_CCCI_RemoveDir. paths. Qed.

Lemma keeps_Rename n n' : keeps_glob (FS_CCCI_Rename n n').
Proof. unfold FS_CCCI_Rename. paths. Qed.

Lemma keeps_Delete n : keeps_glob (FS_CCCI_Delete n).
Proof. unfold FS_CCCI_Delete. paths. Qed.

Lemma keeps_GetFolderSize fuel n f : keeps_glob (FS_CCCI_GetFolderSize fuel n f).
Proof. unfold FS_CCCI_GetFolderSize. paths. Qed.

Lemma keeps_Count fuel n f : keeps_glob (FS_CCCI_Count fuel n f).
Proof. unfold FS_CCCI_Count. paths. Qed.

Lemma keeps_GetAttributes n : keeps_glob (FS_CCCI_GetAttributes n).
Proof. unfold FS_CCCI_GetAttributes. paths. Qed.

Lemma keeps_XDelete fuel n f : keeps_glob (FS_CCCI_XDelete fuel n f).
Proof. unfold FS_CCCI_XDelete. paths. Qed.

Lemma keeps_move_copy p p' : keeps_glob (move_copy p p').
Proof. unfold move_copy. keeps. Qed.

#[local] Hint Resolve keeps_XDelete keeps_Delete keeps_move_copy : cfs.

Lemma keeps_Move fuel n n' f : keeps_glob (FS_CCCI_Move fuel n n' f).
Proof. unfold FS_CCCI_Move. paths. Qed.

Lemma keeps_Restore n : keeps_glob (FS_CCCI_Restore n).
Proof. unfold FS_CCCI_Restore. paths. Qed.

Lemma keeps_dir_search fuel b d prefix p a m : keeps_glob (search_loop fuel b d prefix p a m).
Proof. induction fuel as [|fuel IH]; simpl; keeps. Qed.

#[local] Hint Resolve keeps_dir_search : cfs.

Section Neutral.
Context (R : hmap -> Prop) (g0 : fsd).
Abbreviation I := (glob_inv (tinv R g0)).

Lemma pres_with_path n (k : list Z -> nat -> list Z -> prog fsd Z) :
  (forall c i p, preserves I (k c i p)) -> preserves I (with_path n k).
Proof. intros Hk. unfold with_path. pres; apply Hk. Qed.

Lemma pres_GetFileDetail n : preserves I (FS_CCCI_GetFileDetail n).
Proof. apply pres_with_path. intros. unfold FS_GetFileDetail. pres. Qed.

Lemma pres_GetDiskInfo : preserves I FS_CCCI_GetDiskInfo.
Proof. unfold FS_CCCI_GetDiskInfo. pres. Qed.

Lemma pres_report_entry d p m : preserves I (report_entry d p m).
Proof. unfold report_entry, FS_EntryLinuxToDos. pres. Qed.

#[local] Hint Resolve pres_report_entry : cfs.

Lemma pres_FindNext fuel h m : preserves I (FS_CCCI_FindNext fuel h m).
Proof. unfold FS_CCCI_FindNext. pres. Qed.

End Neutral.

#[local] Hint Resolve pres_report_entry : cfs.

Lemma findfirst_triple R fuel n a m l g0 g :
  tinv R g0 g -> gspec g (FS_CCCI_FindFirst fuel n a m l) (fun r => tinv (opens_as true r.1 (abs g)) g0).
Proof.
  intros HI%tinv_eq. unfold FS_CCCI_FindFirst. pose proof FS_ErrorConv_neg as Hneg.
  assert (forall r, r < 0 -> tinv (opens_as true r (abs g)) g0 g) as HI'.
  { intros r Hr. eapply tinv_mono; [done|]. unfold opens_as. destruct (Z.leb_spec 0 r); [lia|by left]. }
  do 16 (gs; try solve [repeat gs; apply HI'; first [done|apply Hneg]]). zbool. do 4 gs.
  match goal with H : FS_GetFreeHandle g <> _ |- gspec (upd_handle _ ?F _) _ _ =>
    destruct (tinv_open _ g0 g F true (i32 (rv a1)) HI H) as (i' & -> & HI2); [done|] end.
  assert (forall r g', tinv (opens_at true i' (i32 (rv a1)) (abs g)) g0 g' -> r < 0 \/ r = Z.of_nat i' ->
    tinv (opens_as true r (abs g)) g0 g') as Hend by (intros r g' Hg' Hr; eapply may_open_as, may_open_at; [exact Hg'|done]).
  gs. gsk. do 2 gs. apply (tinv_handle _ _ _ (Z.of_nat i') (set_pFsFileName a3)) in HI2; [|done].
  gs; [gs; apply Hend; auto; by left|]. gs. gsk. gs. gsk. do 2 gs.
  apply (tinv_handle _ _ _ (Z.of_nat i') (set_pFsSearchPattern a5)) in HI2; [|done].
  gs; [gs; apply Hend; auto; by left|]. gs. gsk. gs.
  eapply (gspec_pres (tinv (opens_at true i' (i32 (rv a1)) (abs g)) g0)); [pres|done|].
  intros len g' Hg'. gs. apply Hend; auto.
Qed.

Lemma findclose_triple R h g0 g :
  tinv R g0 g -> gspec g (FS_CCCI_FindClose h) (fun r => tinv (closes h r (abs g)) g0).
Proof.
  intros HI%tinv_eq. unfold FS_CCCI_FindClose.
  assert (forall r, r < 0 -> tinv (closes h r (abs g)) g0 g) as HI'
    by (intros r Hr; eapply tinv_mono; [done|by apply closes_same]).
  do 2 gs. gs; [gs; by apply HI'|].
  apply negb_false_iff, valid_handle_iff in Heqb as (i & f & Hh & Hi & _); [|apply HI].
  pose proof (abs_lookup _ _ _ Hi) as (h' & Hl & Hu & _). gs. gsk.
  destruct (if fSearch _ then _ else _); [gs; apply HI', FS_ErrorConv_neg|]. rewrite Hh. repeat gs.
  apply (tinv_close _ (closes h FS_NO_ERROR (abs g)) g0 g i h' HI Hl Hu).
  unfold closes. simpl. by rewrite Hh, Nat2Z.id, Hi.
Qed.

Section Closed.
Context (R : hmap -> Prop) `{!TableClosed R} (g0 : fsd).
Abbreviation I := (glob_inv (tinv R g0)).

Lemma pres_ShutDown : preserves I FS_CCCI_ShutDown.
Proof. unfold FS_CCCI_ShutDown. pres. Qed.

Lemma pres_FindFirst fuel n a m l : preserves I (FS_CCCI_FindFirst fuel n a m l).
Proof.
  apply preserves_gspec. intros g HI. eapply gspec_mono; [by eapply findfirst_triple|].
  intros r g' Hg. eapply tinv_mono; [exact Hg|]. destruct (opens_as_opens _ _ _ _ (t_map _ _ _ Hg)) as [->|Ho]; [apply HI|].
  by eapply closed_opens, Ho; [..|apply HI].
Qed.

Lemma pres_FindClose h : preserves I (FS_CCCI_FindClose h).
Proof.
  apply preserves_gspec. intros g HI. eapply gspec_mono; [by eapply findclose_triple|].
  intros r g' Hg. eapply tinv_mono; [exact Hg|]. destruct (closes_may_close _ _ _ _ (t_map _ _ _ Hg)) as [-> | ->]; [apply HI|].
  by apply closed_delete, HI.
Qed.
End Closed.
End DirInv.

#[export] Hint Resolve keeps_CreateDir keeps_RemoveDir keeps_Rename keeps_Delete
  keeps_GetFolderSize keeps_Count keeps_GetAttributes keeps_XDelete keeps_Move keeps_Restore
  keeps_GetClusterSize pres_GetFileDetail pres_GetDiskInfo pres_ShutDown pres_FindFirst
  pres_FindNext pres_FindClose : cfs.

(** ** Packets *)

Section PacketInv.
Context `{OS} (R : hmap -> Prop) (g0 : fsd).
Abbreviation I := (glob_inv (tinv R g0)).

Lemma pres_buf_put32 off v : preserves I (buf_put32 off v).
Proof. apply pres_buf_write. Qed.

#[local] Hint Resolve pres_buf_put32 : cfs.

Lemma pres_GetPackInfo p : preserves I (FS_GetPackInfo p).
Proof. unfold FS_GetPackInfo. pres. Qed.

Lemma pres_PreparePktEx p n src op again : preserves I (FS_PreparePktEx p n src op again).
Proof. unfold FS_PreparePktEx. pres. Qed.

Lemma pres_PreparePktDone p bak : preserves I (FS_PreparePktDone p bak).
Proof. apply pres_buf_write. Qed.

Lemma keeps_write_retry fuel fd bs : keeps_glob (write_retry fuel fd bs).
Proof. induction fuel as [|fuel IH]; simpl; keeps. Qed.

#[local] Hint Resolve pres_PreparePktEx pres_PreparePktDone keeps_write_retry : cfs.

Lemma pres_fragments n fd slot op len sent p ret :
  preserves I (WriteToMD_fragments n fd slot op len sent p ret).
Proof.
  revert sent p ret. induction n as [|n IH]; intros; simpl; pres.
Qed.

Lemma pres_WriteToMD_args len p src : preserves I (WriteToMD_args len p src).
Proof. revert len p. induction src as [|a src IH]; intros; simpl; pres. Qed.

#[local] Hint Resolve pres_fragments pres_WriteToMD_args : cfs.

Lemma pres_WriteToMD fuel fd i src n : preserves I (FS_WriteToMD fuel fd i src n).
Proof. unfold FS_WriteToMD. pres. Qed.
End PacketInv.

#[export] Hint Resolve pres_buf_put32 pres_GetPackInfo pres_WriteToMD : cfs.

(** ** Compact operations *)

Section CmptInv.
Context `{OS} (R : hmap -> Prop) `{!TableClosed R} (g0 : fsd).
Abbreviation I := (glob_inv (tinv R g0)).

Lemma pres_cmpt_step m f b op fail k :
  preserves I op -> (forall b e, preserves I (fail b e)) -> (forall b, preserves I (k b)) ->
  preserves I (cmpt_step m f b op fail k).
Proof. intros Hop Hfail Hk. unfold cmpt_step. pres. Qed.

Lemma pres_timed op : preserves I op -> preserves I (timed op).
Proof. intros Hop. unfold timed. pres. Qed.

Ltac cmpt := repeat first
  [ progress pres | apply pres_cmpt_step; intros | apply pres_timed
  | progress unfold cmpt_ret, cmptw_ret, cmpt_write_body ].

Lemma pres_CMPT_Read n : preserves I (FS_CCCI_CMPT_Read n).
Proof. unfold FS_CCCI_CMPT_Read. cmpt. Qed.

Lemma pres_CMPT_Write n p : preserves I (FS_CCCI_CMPT_Write n p).
Proof. unfold FS_CCCI_CMPT_Write. cmpt. Qed.
End CmptInv.

#[export] Hint Resolve pres_CMPT_Read pres_CMPT_Write : cfs.

(** ** OTP *)

(** The operations of a device leave the globals of the program alone. *)
Record otp_frame `{OS} {X} (d : otp X) : Prop := OtpFrame {
  of_block_read f b s n : block_read d = Some f -> keeps_glob (f b s n);
  of_block_write f b s n : block_write d = Some f -> keeps_glob (f b s n);
  of_read f b s n : dev_read d = Some f -> keeps_glob (f b s n);
  of_write f b s n : dev_write d = Some f -> keeps_glob (f b s n);
  of_lock f t b n z : dev_lock d = Some f -> keeps_glob (f t b n z);
  of_status f b n s t : dev_get_status d = Some f -> keeps_glob (f b n s t)
}.

(** What the daemon relies on of a storage driver. *)
Class OtpDriver `{OS} {X} (storage_init : otp X -> prog X (Z * otp X)) : Prop := {
  driver_keeps d : keeps_glob (storage_init d);
  driver_frame d w w' ret d' : storage_init d w = (w', Ok (ret, d')) -> otp_frame d'
}.

Section OtpInv.
Context `{OS} {X : Type} (emmc ufs : otp X -> prog X (Z * otp X)).
Context `{!OtpDriver emmc, !OtpDriver ufs} (junk : Z -> list Z).

Lemma keeps_pdiv a b : keeps_glob (pdiv (X := X) a b).
Proof. unfold pdiv. keeps. Qed.

Lemma keeps_get_boot_type : keeps_glob (get_boot_type (X := X)).
Proof. unfold get_boot_type. keeps. Qed.

#[local] Hint Resolve keeps_pdiv keeps_get_boot_type driver_keeps : cfs.

Lemma keeps_otp_open u : keeps_glob (otp_open emmc ufs u).
Proof. unfold otp_open, otp_init. keeps. Qed.

Lemma otp_frame_set_users (d : otp X) r n u : otp_frame d -> otp_frame (set_users r n u d).
Proof. intros []. by constructor. Qed.

(** A device the library opened is a driver's. *)
Lemma otp_open_frame u w w' d : otp_open emmc ufs u w = (w', Ok (Some d)) -> otp_frame d.
Proof.
  unfold otp_open. intros Heq. apply bind_inv in Heq as (w1 & ok & _ & Heq).
  destruct ok; simpl in Heq; [|by inversion Heq].
  apply bind_inv in Heq as (w2 & [ret d'] & Hinit & Heq).
  assert (ret < 0 \/ otp_frame d') as Hor; [|destruct (Z.ltb_spec ret 0); destruct Hor; try lia; by inversion Heq; subst].
  unfold otp_init in Hinit. apply bind_inv in Hinit as (w3 & bt & _ & Hinit).
  apply bind_inv in Hinit as (w4 & [ret0 d0] & Hd & Hinit).
  assert (otp_frame d0) as Hf.
  { destruct (bt =? BOOTDEV_UFS); [exact (driver_frame (storage_init := ufs) _ _ _ _ _ Hd)|].
    exact (driver_frame (storage_init := emmc) _ _ _ _ _ Hd). }
  destruct (negb (ret0 =? 0)); [inversion Hinit; subst; left; done|].
  apply bind_inv in Hinit as (w5 & n & _ & Hinit).
  destruct (u32 n <? MAX_USER_NUM); [inversion Hinit; subst; left; done|].
  destruct (u >=? MAX_USER_NUM); [inversion Hinit; subst; left; done|].
  apply bind_inv in Hinit as (w6 & n' & _ & Hinit). inversion Hinit; subst.
  right. by apply otp_frame_set_users.
Qed.

Lemma keeps_ops_rw t (d : otp X) b o s : otp_frame d -> keeps_glob (otp_ops_read_write junk t d b o s).
Proof.
  intros [Hbr Hbw Hr Hw _ _]. unfold otp_ops_read_write.
  destruct (block_write d) eqn:?, (block_read d) eqn:?; [|keeps..].
  destruct (otp_get_region junk d) as [? [? ?]].
  keeps; first [by eapply Hbr | by eapply Hbw | by eapply Hr | by eapply Hw].
Qed.

Lemma keeps_wp_groups (d : otp X) : keeps_glob (wp_groups junk d).
Proof. unfold wp_groups. keeps. Qed.

#[local] Hint Resolve keeps_wp_groups : cfs.

Lemma keeps_otp_read (d : otp X) b o s : otp_frame d -> keeps_glob (otp_read junk d b o s).
Proof. apply keeps_ops_rw. Qed.

Lemma keeps_otp_write (d : otp X) b o s : otp_frame d -> keeps_glob (otp_write junk d b o s).
Proof.
  intros Hd. unfold otp_write, otp_get_status. keeps; first [by eapply of_status | by apply keeps_ops_rw].
Qed.

Lemma keeps_otp_lock (d : otp X) t : otp_frame d -> keeps_glob (otp_lock junk d t).
Proof. intros Hd. unfold otp_lock. keeps. by eapply of_lock. Qed.

Lemma keeps_otp_get_libversion : keeps_glob (otp_get_libversion (X := X)).
Proof. unfold otp_get_libversion, otp_get_libversion_if_legacy. keeps. Qed.

(** Continuing with a device that [otp_open] gave. *)
Lemma pres_otp_open (P : X -> Prop) {A} (k : option (otp X) -> prog X A) u :
  preserves (glob_inv P) (k None) ->
  (forall d, otp_frame d -> preserves (glob_inv P) (k (Some d))) ->
  preserves (glob_inv P) (otp_open emmc ufs u ≫= k).
Proof.
  intros HN HS w HP. apply wp_bind. unfold wp at 1.
  pose proof (keeps_otp_open u w) as Hk.
  destruct (otp_open emmc ufs u w) as [w' [[d|]|h]] eqn:Hopen; simpl in *; [| |done].
  - apply HS; [by eapply otp_open_frame|]. unfold glob_inv. by rewrite Hk.
  - apply HN. unfold glob_inv. by rewrite Hk.
Qed.
End OtpInv.

#[export] Hint Resolve keeps_otp_get_libversion keeps_otp_read keeps_otp_write keeps_otp_lock : cfs.

Section PlatformInv.
Context `{OS} (emmc ufs : otp fsd -> prog fsd (Z * otp fsd)).
Context `{!OtpDriver emmc, !OtpDriver ufs} (junk : Z -> list Z) (R : hmap -> Prop) (g0 : fsd).
Abbreviation I := (glob_inv (tinv R g0)).

Ltac otp := repeat first
  [ apply pres_otp_open; [solve [typeclasses eauto]..| |intros ? ?] | progress pres ].

Lemma pres_OTPLock : preserves I (FS_OTPLock emmc ufs junk).
Proof. unfold FS_OTPLock. pres_step; [pres|]. destruct (negb _); otp. Qed.

Lemma pres_OTPQueryLength : preserves I (FS_OTPQueryLength emmc ufs junk).
Proof. unfold FS_OTPQueryLength. pres_step; [pres|]. destruct (negb _); otp. Qed.

Lemma pres_OTPRead o b l : preserves I (FS_OTPRead emmc ufs junk o b l).
Proof. unfold FS_OTPRead. pres_step; [pres|]. destruct (negb _); otp. Qed.

Lemma pres_OTPWrite o b l : preserves I (FS_OTPWrite emmc ufs junk o b l).
Proof. unfold FS_OTPWrite. pres_step; [pres|]. destruct (negb _); otp. Qed.
End PlatformInv.

#[export] Hint Resolve pres_OTPLock pres_OTPQueryLength pres_OTPRead pres_OTPWrite : cfs.

(** ** Dispatch and the main loop *)

Section MainInv.
Context `{OS} (emmc ufs : otp fsd -> prog fsd (Z * otp fsd)).
Context `{!OtpDriver emmc, !OtpDriver ufs} (junk : Z -> list Z).

Lemma keeps_arg_ptr i : keeps_glob (arg_ptr i).
Proof. unfold arg_ptr. keeps. Qed.

Lemma keeps_arg32 i : keeps_glob (arg32 i).
Proof. unfold arg32, arg_ptr. keeps. Qed.

Lemma keeps_arg_char i : keeps_glob (arg_char i).
Proof. unfold arg_char, arg_ptr. keeps. Qed.

Lemma keeps_arg_name i : keeps_glob (arg_name i).
Proof. unfold arg_name, arg_ptr. keeps. Qed.

#[local] Hint Resolve keeps_arg_ptr keeps_arg32 keeps_arg_char keeps_arg_name : cfs.

Section Neutral.
Context (R : hmap -> Prop) (g0 : fsd).
Abbreviation I := (glob_inv (tinv R g0)).

Lemma pres_resp n p : preserves I (resp n p).
Proof. unfold resp. pres. Qed.

#[local] Hint Resolve pres_resp : cfs.

Lemma pres_answer op : preserves I op -> preserves I (answer op).
Proof. intros Hop. unfold answer. pres. Qed.

Lemma pres_answer_find op : preserves I op -> preserves I (answer_find op).
Proof. intros Hop. unfold answer_find. pres. Qed.

Lemma pres_do_read : preserves I do_read.
Proof. unfold do_read. repeat first [progress pres | apply pres_answer]. Qed.

Lemma pres_do_write : preserves I do_write.
Proof. unfold do_write. repeat first [progress pres | apply pres_answer]. Qed.

Lemma pres_do_otp_write : preserves I (do_otp_write emmc ufs junk).
Proof. unfold do_otp_write. repeat first [progress pres | apply pres_answer]. Qed.

Lemma pres_do_otp_read : preserves I (do_otp_read emmc ufs junk).
Proof. unfold do_otp_read. repeat first [progress pres | apply pres_answer]. Qed.

Lemma pres_resp_param_error : preserves I resp_param_error.
Proof. unfold resp_param_error. pres. Qed.

Lemma pres_reply fuel : preserves I (reply fuel).
Proof. unfold reply. pres. Qed.
End Neutral.

#[local] Hint Resolve pres_resp pres_do_read pres_do_write pres_do_otp_write pres_do_otp_read
  pres_resp_param_error : cfs.

Ltac ops := repeat first
  [ progress pres | apply pres_answer | apply pres_answer_find ].

(** The operations that may change which handles are open. *)
Definition table_op (op : option FS_CCCI_OP_ID) : bool :=
  match op with
  | Some (FS_CCCI_OP_OPEN | FS_CCCI_OP_OPENHINT | FS_CCCI_OP_CMPT_READ | FS_CCCI_OP_CMPT_WRITE
      | FS_CCCI_OP_FINDFIRST | FS_CCCI_OP_FINDCLOSE | FS_CCCI_OP_CLOSE | FS_CCCI_OP_CLOSEALL
      | FS_CCCI_OP_SHUTDOWN) => true
  | _ => false
  end.

Lemma pres_neutral R g0 fuel op :
  table_op op = false -> preserves (glob_inv (tinv R g0)) (dispatch emmc ufs junk fuel op).
Proof. destruct op as [[]|]; intros Hop; try discriminate; simpl; ops. Qed.

Section Request.
Context (R : hmap -> Prop) `{!TableClosed R} (g0 : fsd).
Abbreviation I := (glob_inv (tinv R g0)).

Lemma pres_do_cmpt_read : preserves I do_cmpt_read.
Proof. unfold do_cmpt_read. ops. Qed.

Lemma pres_do_cmpt_write : preserves I do_cmpt_write.
Proof. unfold do_cmpt_write. ops. Qed.

#[local] Hint Resolve pres_do_cmpt_read pres_do_cmpt_write : cfs.

Lemma pres_dispatch fuel op : preserves I (dispatch emmc ufs junk fuel op).
Proof. destruct op as [[]|]; simpl; ops. Qed.

#[local] Hint Resolve pres_dispatch : cfs.

Lemma pres_serve fuel : preserves I (serve emmc ufs junk fuel).
Proof. unfold serve. pres. Qed.
End Request.

(** The table part of the invariant alone: reception and the profiling change
    the rest of the globals. *)
Definition tref (g0 g : fsd) : Prop := table_ok g /\ rtc table_step (abs g0) (abs g).

Lemma tref_ext g0 g g' :
  hFileHandle (g_FsInfo g') = hFileHandle (g_FsInfo g) -> FileNum (g_FsInfo g') = FileNum (g_FsInfo g) ->
  tref g0 g -> tref g0 g'.
Proof.
  intros Hh Hn [[] Hs]. assert (abs g' = abs g) as Ha by (unfold abs; by rewrite Hh).
  split; [constructor|]; rewrite ?Ha, ?Hh, ?Hn; done.
Qed.

Lemma tref_tinv {A} g0 (m : prog fsd A) :
  (forall g1, preserves (glob_inv (tinv (rtc table_step (abs g0)) g1)) m) ->
  preserves (glob_inv (tref g0)) m.
Proof.
  intros Hm w [Hok Hs]. eapply wp_mono; [apply (Hm (w_glob w)); by apply tinv_refl| |done].
  by intros a w' [Hok' Hs' _].
Qed.

Lemma tref_mod g0 f :
  (forall g, g_FsInfo (f g) = g_FsInfo g) -> preserves (glob_inv (tref g0)) (pmod f).
Proof. intros Hf. apply glob_inv_mod. intros g. by apply tref_ext; rewrite Hf. Qed.

Lemma tref_vars g0 f : preserves (glob_inv (tref g0)) (pmod (upd_vars f)).
Proof. by apply tref_mod. Qed.

Lemma tref_set_slot g0 i st off : preserves (glob_inv (tref g0)) (pmod (set_slot i st off)).
Proof. apply glob_inv_mod. intros g. by apply tref_ext. Qed.

Lemma tref_resp g0 n p : preserves (glob_inv (tref g0)) (resp n p).
Proof. apply tref_tinv. intros. apply pres_resp. Qed.

Lemma tref_copy_packet g0 b d s n : preserves (glob_inv (tref g0)) (copy_packet b d s n).
Proof. apply tref_tinv. intros. unfold copy_packet. pres. Qed.

#[local] Hint Resolve tref_vars tref_set_slot tref_resp tref_copy_packet : cfs.

Lemma tref_receive g0 fuel : preserves (glob_inv (tref g0)) (receive fuel).
Proof.
  induction fuel as [|fuel IH]; simpl; [pres|]. unfold reassemble, resp_param_error. pres.
Qed.

Lemma tref_receive_index g0 : preserves (glob_inv (tref g0)) receive_index.
Proof.
  unfold receive_index, resp_param_error. pres. apply tref_tinv. intros. pres.
Qed.

Lemma keeps_get_modem_status : keeps_glob get_modem_status.
Proof. unfold get_modem_status. keeps. Qed.

Lemma tref_profile_boot g0 : preserves (glob_inv (tref g0)) profile_boot.
Proof. unfold profile_boot. pose proof keeps_get_modem_status. pres; by apply tref_mod. Qed.

#[local] Hint Resolve tref_receive tref_receive_index tref_profile_boot : cfs.

Lemma tref_main_step g0 fuel : preserves (glob_inv (tref g0)) (main_step emmc ufs junk fuel).
Proof.
  unfold main_step. pres; apply tref_tinv; intros; [apply (pres_serve _); apply _|apply pres_reply..].
Qed.

Lemma tref_main_loop g0 fuel : preserves (glob_inv (tref g0)) (main_loop emmc ufs junk fuel).
Proof.
  pose proof tref_main_step. induction fuel as [|fuel IH]; simpl; unfold deliver_signal;
    pres; by apply tref_mod.
Qed.

(** ** The effect of each request on the table *)

(** The handle a request names: the first argument of the two closes, a field of
    the structure of a compact write. *)
Definition request_handle (op : option FS_CCCI_OP_ID) (w : world fsd) : option Z :=
  match op with
  | Some (FS_CCCI_OP_CLOSE | FS_CCCI_OP_FINDCLOSE) =>
      match arg32 0 w with (_, Ok h) => Some (i32 h) | _ => None end
  | Some FS_CCCI_OP_CMPT_WRITE =>
      match (p ← arg_ptr 1; deref p 44) w with
      | (_, Ok bs) => Some (cw_file_handle (cmptw_of_bytes bs))
      | _ => None
      end
  | _ => None
  end.

(** What an operation makes of the map [m], when its request names [h] and it answers [ret]. *)
Definition request_step (op : option FS_CCCI_OP_ID) (h : option Z) (ret : Z) (m m' : hmap) : Prop :=
  match op with
  | Some (FS_CCCI_OP_OPEN | FS_CCCI_OP_OPENHINT) => opens_as false ret m m'
  | Some FS_CCCI_OP_FINDFIRST => opens_as true ret m m'
  | Some (FS_CCCI_OP_CLOSE | FS_CCCI_OP_FINDCLOSE) => exists i, h = Some i /\ closes i ret m m'
  | Some FS_CCCI_OP_CMPT_READ => m' = m \/ opens false m m'
  | Some FS_CCCI_OP_CMPT_WRITE =>
      m' = m \/ exists i, h = Some i /\
        if i <? 0 then opens false m m' else m' = delete (Z.to_nat (u32 i)) m
  | Some FS_CCCI_OP_CLOSEALL => closes_all ret m m'
  | Some FS_CCCI_OP_SHUTDOWN => exists r, closes_all r m m'
  | _ => m' = m
  end.

Section Steps.
Context (g0 : fsd).

(** The map satisfies [Q] of the answer, [RetVal]. *)
Definition table_after (Q : Z -> hmap -> Prop) (g : fsd) : Prop := tinv (Q (RetVal (vars g))) g0 g.

Lemma resp_triple Q len p g : table_after Q g -> gspec g (resp len p) (fun _ => table_after Q).
Proof. intros HI. unfold resp. do 2 gs. gs; [|gs]. gs. by apply tinv_vars. Qed.

Lemma answer_triple Q op g :
  gspec g op (fun r => tinv (Q r) g0) -> gspec g (answer op) (fun _ => table_after Q).
Proof.
  intros Hop. unfold answer. gs. eapply gspec_mono; [exact Hop|]. intros r g' Hg. do 2 gs.
  apply resp_triple. by apply (tinv_vars (Q r)).
Qed.

Lemma answer_find_triple Q op g :
  gspec g op (fun r => tinv (Q r.1) g0) -> gspec g (answer_find op) (fun _ => table_after Q).
Proof.
  intros Hop. unfold answer_find. gs. eapply gspec_mono; [exact Hop|]. intros [r l] g' Hg. do 2 gs.
  gs. eapply gspec_mono; [apply (resp_triple Q); by apply (tinv_vars (Q r))|]. intros ? g1 H1.
  gs. eapply gspec_mono; [by apply (resp_triple Q)|]. intros ? g2 H2. by apply resp_triple.
Qed.

Lemma timed_triple s m op g :
  gspec g op (may_open s m g0) -> gspec g (timed op) (may_open s m g0).
Proof.
  intros Hop. unfold timed. do 2 gs. gs. eapply gspec_mono; [exact Hop|]. intros r g' Hg. gs.
  eapply (gspec_pres (may_open s m g0 r)); [|exact Hg|intros ? g'' Hg''; by gs].
  apply profile_end_frame. intros ms g1 [H1 H2]. split; [by apply tinv_slow|].
  intros H0. destruct (H2 H0) as (i & fd & -> & Hi). exists i, fd. split; [done|]. by apply tinv_slow.
Qed.

Lemma cmpt_step_triple (I J : fsd -> Prop) mp flag b op fail k g :
  I g -> preserves (glob_inv I) op ->
  (forall b' e g', I g' -> gspec g' (fail b' e) (fun _ => J)) ->
  (forall b' g', I g' -> gspec g' (k b') (fun _ => J)) ->
  gspec g (cmpt_step mp flag b op fail k) (fun _ => J).
Proof.
  intros Hg Hop Hf Hk. unfold cmpt_step. gs; [|by apply Hk]. gs.
  eapply gspec_pres; [exact Hop|done|]. intros r g' Hg'. gs; [by apply Hf|by apply Hk].
Qed.

(** A close of [h] in the map [m], then steps that leave the table alone. *)
Lemma close_bind_triple {A} m h (k : Z -> prog fsd A) g :
  tinv (eq m) g0 g ->
  (forall r, preserves (glob_inv (tinv (may_close h m) g0)) (k r)) ->
  gspec g (FS_CCCI_Close h ≫= k) (fun _ => tinv (may_close h m) g0).
Proof.
  intros HI Hk. gs. eapply gspec_mono; [by eapply close_triple|]. intros r g' Hg.
  rewrite <- (t_map _ _ _ HI) in Hg. apply (tinv_mono _ (may_close h m)) in Hg; [|by eapply closes_may_close, Hg].
  eapply gspec_pres; [apply Hk|exact Hg|done].
Qed.

(** The failure exits: note the result, close. *)
Lemma cmpt_fail_triple m h f (code : Z) g :
  tinv (eq m) g0 g ->
  gspec g (pmod (upd_vars f);; _ ← FS_CCCI_Close h; mret code) (fun _ => tinv (may_close h m) g0).
Proof.
  intros HI. do 2 gs. apply close_bind_triple; [by apply tinv_vars|]. intros. pres.
Qed.

Lemma timed_pres R op : preserves (glob_inv (tinv R g0)) op -> preserves (glob_inv (tinv R g0)) (timed op).
Proof. intros Hop. unfold timed. pres. Qed.

Lemma closed_back s i fd m m' m1 :
  opens_at s i fd m m1 -> may_close (Z.of_nat i) m1 m' -> m' = m \/ opens s m m'.
Proof.
  intros Ho [-> | ->]; [right; by exists i, fd|left]. destruct Ho as (Hi & Hn & _ & ->).
  rewrite u32_small, Nat2Z.id by lia. by apply delete_insert_id.
Qed.

Lemma cmpt_read_triple R n g :
  tinv R g0 g ->
  gspec g (FS_CCCI_CMPT_Read n) (fun _ => tinv (fun m' => m' = abs g \/ opens false (abs g) m') g0).
Proof.
  intros HI%tinv_eq. unfold FS_CCCI_CMPT_Read. do 4 gs. set (g1 := upd_vars _ g).
  assert (tinv (eq (abs g1)) g0 g1) as HI1 by by apply tinv_vars.
  change (abs g) with (abs g1). clearbody g1. clear HI g.
  gs; [|unfold cmpt_ret; do 3 gs; apply tinv_vars; eapply tinv_mono; [done|by left]].
  gs. eapply gspec_mono; [by eapply timed_triple, open_triple|]. intros h g2 [Hall Hh].
  gs; [unfold cmpt_ret; do 3 gs; by apply tinv_vars|]. zbool.
  destruct Hh as (i & fd & -> & Hat); [lia|]. clear Hall.
  pose proof (t_map _ _ _ Hat) as Ho. apply tinv_eq in Hat.
  apply gspec_mono with (fun _ => tinv (may_close (Z.of_nat i) (abs g2)) g0).
  2: { intros r g3 Hg3. eapply tinv_mono; [exact Hg3|]. by eapply closed_back, Hg3. }
  repeat (eapply cmpt_step_triple; [eassumption|auto using timed_pres with cfs|
    intros; by apply cmpt_fail_triple|intros ? ? ?]).
  unfold cmpt_ret. gs; (apply close_bind_triple; [done|]); intros; pres.
Qed.

Lemma cmpt_body_triple p b h n m g :
  tinv (eq m) g0 g -> gspec g (cmpt_write_body p b h n) (fun _ => tinv (may_close h m) g0).
Proof.
  intros HI. unfold cmpt_write_body.
  repeat (eapply cmpt_step_triple; [eassumption|auto with cfs|
    intros; by apply cmpt_fail_triple|intros ? ? ?]).
  assert (forall R b' e (c : Z), preserves (glob_inv (tinv R g0)) (cmptw_ret b' e;; mret c)) as Hret
    by (intros; unfold cmptw_ret; pres).
  unfold cmpt_step. gs.
  - apply close_bind_triple; [done|]. intros. pres; apply Hret.
  - eapply gspec_pres; [apply (Hret (may_close h m))|eapply tinv_mono; [eassumption|left]|done]. symmetry. apply H1.
Qed.

Lemma cmpt_write_triple R n b g :
  tinv R g0 g ->
  gspec g (FS_CCCI_CMPT_Write n b)
    (fun _ => tinv (fun m' => m' = abs g \/
      if cw_file_handle (in_cmptw_para (vars g)) <? 0 then opens false (abs g) m'
      else m' = delete (Z.to_nat (u32 (cw_file_handle (in_cmptw_para (vars g))))) (abs g)) g0).
Proof.
  intros HI%tinv_eq. unfold FS_CCCI_CMPT_Write. do 4 gs. set (g1 := upd_vars _ g).
  assert (tinv (eq (abs g1)) g0 g1) as HI1 by by apply tinv_vars.
  change (abs g) with (abs g1). change (cw_file_handle (in_cmptw_para (vars g))) with
    (cw_file_handle (in_cmptw_para (vars g1))). clearbody g1. clear HI g.
  destruct (_ <? 0).
  - gs; [|unfold cmptw_ret; do 3 gs; apply tinv_vars; eapply tinv_mono; [done|by left]].
    gs. eapply gspec_mono; [by eapply timed_triple, open_triple|]. intros h g2 [Hall Hh].
    gs; [unfold cmptw_ret; do 3 gs; by apply tinv_vars|]. zbool.
    destruct Hh as (i & fd & -> & Hat); [lia|]. do 2 gs.
    eapply gspec_mono; [apply (cmpt_body_triple _ _ _ _ (abs g2)); by apply tinv_vars, tinv_eq with (1 := Hat)|].
    intros r g3 Hg3. eapply tinv_mono; [exact Hg3|].
    eapply closed_back; [apply Hat|apply Hg3].
  - do 2 gs. eapply gspec_mono; [by apply (cmpt_body_triple _ _ _ _ (abs g1)), tinv_vars|].
    intros r g3 Hg3. eapply tinv_mono; [exact Hg3|]. apply Hg3.
Qed.
End Steps.

(** Reading the arguments. *)
Lemma arg_ptr_same i w w' p : arg_ptr i w = (w', Ok p) -> w' = w.
Proof. unfold arg_ptr, mbind, prog_bind, pget. destruct (_ <$> _); simpl; by intros [= -> _]. Qed.

Lemma mem_at_same p w w' bs : mem_at p w = (w', Ok bs) -> w' = w.
Proof.
  unfold mem_at, mbind, prog_bind, pget. destruct p; simpl; [|by intros [= -> _]..].
  by destruct (mfrom _ _); intros [= -> _].
Qed.

Lemma arg_name_same i w w' n : arg_name i w = (w', Ok n) -> w' = w.
Proof. intros (w1 & p & ->%arg_ptr_same & Hm)%bind_inv. by eapply mem_at_same. Qed.

Section Dispatch.
Context (fuel : nat) (w : world fsd).
Hypothesis Hok : table_ok (w_glob w).
Abbreviation D := (dispatch emmc ufs junk fuel).
Abbreviation allowed op := (table_after (w_glob w) (fun ret => request_step (Some op) (request_handle (Some op) w) ret (abs (w_glob w)))).

Lemma start_eq : tinv (eq (abs (w_glob w))) (w_glob w) (w_glob w).
Proof. by apply tinv_refl. Qed.

Lemma run_with (P : fsd -> Prop) (m : prog fsd unit) w1 w' :
  m w1 = (w', Ok tt) -> gspec (w_glob w1) m (fun _ => P) -> P (w_glob w').
Proof. intros Heq Hm. by apply (gspec_ok _ _ _ _ _ Hm Heq). Qed.

Lemma run_open_op w' : D (Some FS_CCCI_OP_OPEN) w = (w', Ok tt) -> allowed FS_CCCI_OP_OPEN (w_glob w').
Proof.
  intros Heq. apply (run_with _ _ _ _ Heq). simpl. do 2 (gs; gsk). apply answer_triple.
  eapply gspec_mono; [eapply open_triple, start_eq|]. intros r g. apply may_open_as.
Qed.

Lemma run_openhint w' : D (Some FS_CCCI_OP_OPENHINT) w = (w', Ok tt) -> allowed FS_CCCI_OP_OPENHINT (w_glob w').
Proof.
  intros Heq. apply (run_with _ _ _ _ Heq). simpl. do 2 (gs; gsk). gs.
  eapply gspec_mono; [apply (answer_triple (w_glob w) (fun ret => opens_as false ret (abs (w_glob w))));
    eapply gspec_mono; [eapply open_triple, start_eq|]|].
  - intros r g. apply may_open_as.
  - intros [] g Hg. gs. gsk. by apply (resp_triple _ (fun ret => opens_as false ret (abs (w_glob w)))).
Qed.

Lemma run_findfirst w' : D (Some FS_CCCI_OP_FINDFIRST) w = (w', Ok tt) -> allowed FS_CCCI_OP_FINDFIRST (w_glob w').
Proof.
  intros Heq. apply (run_with _ _ _ _ Heq). simpl. do 4 (gs; gsk). apply answer_find_triple.
  eapply findfirst_triple, start_eq.
Qed.

Lemma run_closeall w' : D (Some FS_CCCI_OP_CLOSEALL) w = (w', Ok tt) -> allowed FS_CCCI_OP_CLOSEALL (w_glob w').
Proof.
  intros Heq. apply (run_with _ _ _ _ Heq). simpl. apply answer_triple. eapply closeall_spec, start_eq.
Qed.

Lemma run_shutdown w' : D (Some FS_CCCI_OP_SHUTDOWN) w = (w', Ok tt) -> allowed FS_CCCI_OP_SHUTDOWN (w_glob w').
Proof.
  intros Heq. apply (run_with _ _ _ _ Heq). simpl. unfold FS_CCCI_ShutDown. gs.
  eapply gspec_mono; [eapply closeall_spec, start_eq|]. intros r g Hg. gs.
  eapply tinv_mono; [exact Hg|]. exists r. apply Hg.
Qed.

Lemma run_cmpt_read w' : D (Some FS_CCCI_OP_CMPT_READ) w = (w', Ok tt) -> allowed FS_CCCI_OP_CMPT_READ (w_glob w').
Proof.
  intros Heq. apply (run_with _ _ _ _ Heq). simpl. unfold do_cmpt_read.
  do 3 (gs; gsk). do 2 gs. gs. gsk. do 2 gs. do 2 gs. gs.
  eapply gspec_mono; [eapply cmpt_read_triple, tinv_vars, tinv_vars, start_eq|].
  intros r g Hg. eapply gspec_pres; [|exact Hg|done]. pres.
Qed.

(** The two closes. *)
Lemma run_close_with op (body : Z -> prog fsd Z) w' :
  op = FS_CCCI_OP_CLOSE \/ op = FS_CCCI_OP_FINDCLOSE ->
  (forall h, gspec (w_glob w) (body h) (fun r => tinv (closes h r (abs (w_glob w))) (w_glob w))) ->
  (h ← arg32 0; answer (body (i32 h))) w = (w', Ok tt) -> allowed op (w_glob w').
Proof.
  intros Hop Hb Heq. apply bind_inv in Heq as (w1 & h & Harg & Heq).
  assert (request_handle (Some op) w = Some (i32 h)) as Hh by (destruct Hop as [-> | ->]; simpl; by rewrite Harg).
  assert (w_glob w1 = w_glob w) as Hw by (pose proof (keeps_arg32 0 w) as Hk; by rewrite Harg in Hk).
  assert (table_after (w_glob w) (fun r => closes (i32 h) r (abs (w_glob w))) (w_glob w')) as Hres.
  { apply (run_with _ _ _ _ Heq). rewrite Hw. apply answer_triple, Hb. }
  eapply tinv_mono; [exact Hres|]. rewrite Hh.
  destruct Hop as [-> | ->]; (exists (i32 h); split; [done|]; apply Hres).
Qed.

Lemma run_close_op w' : D (Some FS_CCCI_OP_CLOSE) w = (w', Ok tt) -> allowed FS_CCCI_OP_CLOSE (w_glob w').
Proof. apply run_close_with; [auto|]. intros h. eapply close_triple, start_eq. Qed.

Lemma run_findclose w' : D (Some FS_CCCI_OP_FINDCLOSE) w = (w', Ok tt) -> allowed FS_CCCI_OP_FINDCLOSE (w_glob w').
Proof. apply run_close_with; [auto|]. intros h. eapply findclose_triple, start_eq. Qed.

Lemma run_cmpt_write w' : D (Some FS_CCCI_OP_CMPT_WRITE) w = (w', Ok tt) -> allowed FS_CCCI_OP_CMPT_WRITE (w_glob w').
Proof.
  intros Heq. simpl in Heq. unfold do_cmpt_write in Heq.
  apply bind_inv in Heq as (w1 & n & ->%arg_name_same & Heq).
  apply bind_inv in Heq as (w1 & p & Hp & Heq). pose proof (arg_ptr_same _ _ _ _ Hp) as ->.
  apply bind_inv in Heq as (w1 & bs & Hbs & Heq).
  assert (request_handle (Some FS_CCCI_OP_CMPT_WRITE) w = Some (cw_file_handle (cmptw_of_bytes bs))) as ->.
  { unfold request_handle. rewrite (bind_ok _ _ _ _ _ Hp). by rewrite Hbs. }
  assert (w_glob w1 = w_glob w) as Hw by (pose proof (keeps_deref p 44 w) as Hk; by rewrite Hbs in Hk).
  apply (run_with _ _ _ _ Heq). rewrite Hw.
  do 2 gs. do 2 (gs; gsk). gs.
  eapply gspec_mono; [eapply cmpt_write_triple, tinv_vars, start_eq|].
  intros r g Hg.
  eapply (gspec_pres (tinv (request_step (Some FS_CCCI_OP_CMPT_WRITE) (Some (cw_file_handle (cmptw_of_bytes bs))) 0
    (abs (w_glob w))) (w_glob w))); [|eapply tinv_mono; [exact Hg|]|intros ? g' Hg'; exact Hg'].
  - pres.
  - destruct (t_map _ _ _ Hg) as [Hm|Hm]; [by left|right]. by exists (cw_file_handle (cmptw_of_bytes bs)).
Qed.
End Dispatch.

Lemma request_run fuel op w w' :
  table_ok (w_glob w) -> dispatch emmc ufs junk fuel op w = (w', Ok tt) ->
  table_after (w_glob w) (fun ret => request_step op (request_handle op w) ret (abs (w_glob w))) (w_glob w').
Proof.
  intros Hok Heq. destruct (table_op op) eqn:Hop.
  - destruct op as [[]|]; try discriminate;
      first [ by apply run_open_op in Heq | by apply run_openhint in Heq | by apply run_findfirst in Heq
            | by apply run_closeall in Heq | by apply run_shutdown in Heq | by apply run_cmpt_read in Heq
            | by apply run_close_op in Heq | by apply run_findclose in Heq | by apply run_cmpt_write in Heq ].
  - pose proof (preserves_ok _ _ _ _ _ (pres_neutral _ _ fuel op Hop) (start_eq w Hok) Heq) as HI.
    eapply tinv_mono; [exact HI|]. pose proof (t_map _ _ _ HI) as Hm. destruct op as [[]|]; try discriminate Hop; by symmetry.
Qed.

(** ** Properties *)

(** Claim C1.  What a request does to the handle table, whatever its arguments
    and however the kernel answers, is what [request_step] says of its operation and
    of the answer in [RetVal].  [FS_OPEN], [FS_OPEN_HINT] and a search that answer a handle have
    opened it: the lowest free one, for a file or for a directory; with an error they leave the
    table as it is, or the lowest free handle is lost.  The two closes that answer success have
    closed the handle the request names, which was open, and otherwise change nothing.  Closing
    all that answers success leaves nothing, and otherwise closes the handles from the lowest up,
    to the first the kernel refuses.  A compact read leaves the table as it is or loses the
    lowest free handle; a compact write closes at most the handle it names, or loses the lowest
    free one when it names none.  Every other operation leaves the table alone.  [FileNum] stays
    the number of open handles, slot 0 unused and the configuration of the daemon as it was. *)
Theorem request_refines_table fuel op w w' :
  table_ok (w_glob w) -> dispatch emmc ufs junk fuel op w = (w', Ok tt) ->
  request_step op (request_handle op w) (RetVal (vars (w_glob w'))) (abs (w_glob w)) (abs (w_glob w')) /\
  table_ok (w_glob w') /\ same_config (w_glob w) (w_glob w').
Proof. intros Hok Heq. by destruct (request_run fuel op w w' Hok Heq) as [? ? ?]. Qed.

Lemma keeps_ensure_dirs l : keeps_glob (ensure_dirs l).
Proof. induction l as [|p l IH]; simpl; [keeps|]. unfold ensure_dir. keeps. Qed.

(** The table [FS_Init] leaves. *)
Lemma FS_Init_spec g md :
  length (hFileHandle (g_FsInfo g)) = 129%nat ->
  gspec g (FS_Init md) (fun _ g' => table_ok g' /\ abs g' = ∅).
Proof.
  intros Hlen. unfold FS_Init. pose proof keeps_ensure_dirs. repeat gs.
  set (g' := set_g_FsInfo _ _).
  assert (abs g' = ∅) as Ha.
  { apply map_eq. intros i. rewrite lookup_empty. unfold abs. rewrite lookup_abs_table. simpl.
    rewrite list_lookup_fmap. by destruct (_ !! i). }
  split; [constructor|done].
  - simpl. by rewrite length_fmap.
  - by rewrite Ha.
  - by rewrite Ha.
Qed.

(** Claim C5.  From [FS_Init] on, whatever the modem sends until a signal stops
    the main loop, the handle table is well formed and its
    map is reachable from the empty one by opening and closing handles. *)
Theorem daemon_refines_table fuel md w w' :
  length (hFileHandle (g_FsInfo (w_glob w))) = 129%nat ->
  (FS_Init md;; main_loop emmc ufs junk fuel) w = (w', Ok tt) ->
  table_ok (w_glob w') /\ rtc table_step ∅ (abs (w_glob w')).
Proof.
  intros Hlen Heq. apply bind_inv in Heq as (w1 & u & Hinit & Hloop).
  destruct (gspec_ok _ _ _ _ _ (FS_Init_spec (w_glob w) md Hlen) Hinit) as [Hok Ha].
  rewrite <- Ha.
  eapply (preserves_ok (glob_inv (tref (w_glob w1)))); [apply tref_main_loop| |exact Hloop].
  split; [done|constructor].
Qed.
End MainInv.

(** ** Concrete runs *)

(** A driver that finds no device. *)
Definition no_device `{OS} {X} (d : otp X) : prog X (Z * otp X) := mret (1, otp_zero).

#[export] Instance no_device_driver `{OS} {X} : OtpDriver (X := X) no_device.
Proof. split; [done|]. intros d w w' ret d' [= _ _ <-]. by constructor. Qed.

(** A request of the modem as it arrives: header, operation and arguments. *)
Definition pad4 (a : list Z) : list Z := a ++ replicate (Z.to_nat ((- zlen a) mod 4)) 0.
Definition demo_args (args : list (list Z)) : list Z :=
  le32 (zlen args) ++ concat ((fun a => le32 (zlen a) ++ pad4 a) <$> args).
Definition demo_request (slot op : Z) (args : list (list Z)) : list Z :=
  le32 0 ++ le32 (20 + zlen (demo_args args)) ++ le32 0x0e ++ le32 slot ++ le32 op ++ demo_args args.

(** The modem opens a file, reads from it and closes it; then the queue is empty
    and the process is told to stop. *)
Definition demo_session : list (list Z) :=
  [demo_request 0 0x1001 [demo_name; le32 FS_CREATE];
   demo_request 1 0x1003 [le32 1; le32 4];
   demo_request 0 0x1005 [le32 1]].

Definition demo_session_world : world fsd :=
  mem_world (set_inbox demo_session demo_fs) demo_fsd.

Definition demo_junk (n : Z) : list Z := replicate (Z.to_nat n) 0.

Lemma request_refines_table_witness :
  let m := dispatch no_device no_device demo_junk 5 (Some FS_CCCI_OP_CLOSEALL) in
  let w' := (m demo_open_world).1 in
  table_ok (w_glob w') /\ closes_all FS_NO_ERROR (abs demo_open) (abs (w_glob w')).
Proof.
  intros m.
  assert (m demo_open_world = ((m demo_open_world).1, Ok tt)) as Hrun by (apply run_ok; vm_compute; reflexivity).
  assert (RetVal (vars (w_glob (m demo_open_world).1)) = FS_NO_ERROR) as Hret by (vm_compute; reflexivity).
  intros w'. fold w' in Hrun, Hret. clearbody w'.
  destruct (request_refines_table no_device no_device demo_junk 5 (Some FS_CCCI_OP_CLOSEALL)
    demo_open_world w' demo_open_ok Hrun) as (H1 & H2 & _).
  rewrite Hret in H1. split; [exact H2|exact H1].
Defined.

Lemma daemon_refines_table_witness :
  let w' := ((FS_Init 0;; main_loop no_device no_device demo_junk 5) demo_session_world).1 in
  table_ok (w_glob w') /\ rtc table_step ∅ (abs (w_glob w')).
Proof.
  assert ((FS_Init 0;; main_loop no_device no_device demo_junk 5) demo_session_world =
    (((FS_Init 0;; main_loop no_device no_device demo_junk 5) demo_session_world).1, Ok tt)) as Hrun
    by (apply run_ok; vm_compute; reflexivity).
  exact (daemon_refines_table no_device no_device demo_junk 5 0 demo_session_world _ eq_refl Hrun).
Defined.
