(* ===== verification/FsdConfine.v ===== *)
(** * ccci_fsd: what a request can touch

    The calls of an operation are the events it adds to the trace.  These
    theorems bound the paths in them: [FS_CCCI_Open] stays below the roots of
    the drives, the other requests stay below them as strings, and the recursive
    delete removes only what its walk found below its directory. *)
From S2P Require Import Prelude Posix MemFs Wire FsdTypes FsdStrings FsdPath FsdDemo FsdHandle FsdTable.
From S2P Require Import FsdDir FsdFind FsdPacket FsdCmpt FsdMain FsdInv.

(** ** The open *)

(** The paths [FS_CCCI_Open] may open: below the root of a drive without a
    [..], or the image of a DSP. *)
Definition drive_target (roots : list (list Z)) (path : list Z) : Prop :=
  exists i root rest, roots !! i = Some root /\ path = root ++ rest /\
    has_dotdot rest = false /\ zlen path <= PATH_MAX - 1.

Definition dsp_target (roots : list (list Z)) (path : list Z) : Prop :=
  exists root post, (root ∈ roots \/ root = FS_ROOT_DIR_DSP_CIP) /\
    path = root ++ lit "/dsp_" ++ post ++ lit ".bin".

(** The calls of [FS_CCCI_Open]: besides the open, only queries of a name and
    the allocation of the slot's string. *)
Definition open_event (roots : list (list Z)) (e : event) : Prop :=
  match ev_call e with
  | Sys_open path _ _ => drive_target roots path \/ dsp_target roots path
  | Sys_access _ _ | Sys_ioctl_post_fix _ | Sys_malloc _ => True
  | _ => False
  end.

Lemma cstring_prefix s : exists t, s = cstring s ++ t.
Proof.
  induction s as [|b s [t IH]]; simpl; [by exists []|].
  case_match; [by exists (b :: s)|]. exists t. simpl. by rewrite <- IH.
Qed.

(** An accepted name has no two consecutive dots. *)
Lemma conv_accepts FileName r out :
  FS_ConvWcsToCs FileName = Some (r, out) -> 0 <= r -> has_dotdot (cstring out) = false.
Proof.
  intros Hc Hr. assert (has_dotdot out = false) as Hd.
  { by eapply (conv_loop_no_dotdot _ FileName [] r out). }
  destruct (cstring_prefix out) as [t Ht]. rewrite Ht in Hd. by eapply has_dotdot_app_l.
Qed.

Section Open.
Context `{OS}.

(** The path [FS_CCCI_Open] gives to [open]. *)
Lemma resolve_target roots c i path :
  has_dotdot c = false -> resolve roots c = RPath i path ->
  drive_target roots path /\ default [] (roots !! i) ∈ roots.
Proof.
  intros Hd Hr. pose proof (resolve_from_spec 0 MdRootDir roots c) as Hs. unfold resolve in Hr.
  rewrite Hr in Hs. destruct Hs as (k & d & root & rest & -> & _ & Hk & -> & -> & Hl & _).
  split; [|by simpl; rewrite Hk; apply list_elem_of_lookup; exists k].
  exists k, root, rest. split_and!; try done. by eapply has_dotdot_app_r.
Qed.

(** The program that computes the name of the image ends with such a name. *)
Lemma dsp_path_target I root roots :
  root ∈ roots -> emits_val I (open_event roots) (dsp_path root) (dsp_target roots).
Proof.
  intros Hroot. unfold dsp_path. emit; try done; eexists _, _; (split; [|reflexivity]); auto.
Qed.

Lemma open_emits roots FileName Flag :
  emits (fun g => FsRootDir g = roots) (open_event roots) (FS_CCCI_Open FileName Flag).
Proof.
   unfold FS_CCCI_Open, conv_name.
  destruct (FS_ConvWcsToCs FileName) as [[r out]|] eqn:Hc; [|by apply emits_halt].
  repeat apply emits_ret_bind.
  destruct (Z.ltb_spec r 0) as [|Hr]; [auto with cfs|].
  apply emits_get. intros g Hg. rewrite Hg.
  destruct (resolve roots (cstring out)) as [i path| |] eqn:Hres; [|auto with cfs..].
  destruct (resolve_target _ _ _ _ (conv_accepts _ _ _ Hc Hr) Hres) as [Hpath Hroot].
  apply (emits_bind_val _ _ (fun p => drive_target roots p \/ dsp_target roots p)).
  - case_match; [|by apply emits_val_ret; left].
    intros w1 HI. destruct (dsp_path_target (fun g => FsRootDir g = roots) _ _ Hroot w1 HI)
      as (evs & ? & ? & Hv). exists evs. split_and!; [done..|]. case_match; [|done]. split; [|right]; apply Hv.
  - intros p Hp. emit; try done; [by apply dump_emits|by apply emits_mod..].
Qed.

(** Claim C6.  Whatever name the modem sends and however the kernel answers, the
    only file [FS_CCCI_Open] opens is the root of a drive followed by a rest
    without two consecutive dots that fits in [PATH_MAX], or the image of a DSP;
    its other calls read no file and change none. *)
Theorem open_confined FileName Flag w :
  exists evs, w_trace (FS_CCCI_Open FileName Flag w).1 = w_trace w ++ evs /\
    Forall (open_event (FsRootDir (w_glob w))) evs.
Proof.
  destruct (open_emits _ FileName Flag w eq_refl) as (evs & Ht & HP & _). by exists evs.
Qed.
End Open.

(** ** The recursive delete *)

(** The directories a walk from [dir] enters: each name on the way was read from
    a directory stream and is neither [.] nor [..]. *)
Inductive walked (dir : list Z) : list Z -> Prop :=
| walked_here : walked dir dir
| walked_sub d name :
    walked dir d -> is_dot_entry name = false -> walked dir (d ++ [chr_slash] ++ name).

(** An entry of such a directory. *)
Definition walked_entry (dir path : list Z) : Prop :=
  exists d name, walked dir d /\ path = d ++ [chr_slash] ++ name /\ zlen path <= PATH_MAX - 1.

(** The calls of a recursive delete of [dir]. *)
Definition delete_event (Flag : Z) (dir : list Z) (e : event) : Prop :=
  match ev_call e with
  | Sys_opendir d => walked dir d /\ (d = dir \/ has_bits Flag FS_RECURSIVE_TYPE = true)
  | Sys_readdir _ | Sys_closedir _ => True
  | Sys_stat path => walked_entry dir path
  | Sys_unlink path => has_bits Flag FS_FILE_TYPE = true /\ walked_entry dir path
  | Sys_rmdir path =>
      has_bits Flag FS_DIR_TYPE = true /\ walked dir path /\ walked_entry dir path /\ path <> dir
  | _ => False
  end.

Lemma entry_path_exact d name :
  entry_too_long d name = false ->
  entry_path d name = d ++ [chr_slash] ++ name /\ zlen (entry_path d name) <= PATH_MAX - 1.
Proof.
  unfold entry_too_long, entry_path. intros Hl. rewrite Z.gtb_ltb in Hl. zbool.
  rewrite take_ge; [split; [done|]|]; autorewrite with cfs_len; unfold zlen, PATH_MAX in *; simpl;
    rewrite ?length_app; simpl; lia.
Qed.

Lemma walked_entry_ne dir path : walked_entry dir path -> path <> dir.
Proof.
  intros (d & name & Hd & -> & _).
  assert (zlen dir <= zlen d) as Hl.
  { induction Hd; [done|]. rewrite !zlen_app. pose proof (zlen_nonneg name). unfold zlen in *. simpl. lia. }
  intros Heq. apply (f_equal zlen) in Heq. rewrite !zlen_app in Heq.
  pose proof (zlen_nonneg name). unfold zlen in *. simpl in *. lia.
Qed.

Section Delete.
Context `{OS} (I : fsd -> Prop) (Flag : Z) (dir : list Z).

Lemma emits_delete_with loop d :
  walked dir d -> d = dir \/ has_bits Flag FS_RECURSIVE_TYPE = true ->
  (forall pDir n, emits I (delete_event Flag dir) (loop pDir d n)) ->
  emits I (delete_event Flag dir) (FS_RecursiveDelete_with loop d).
Proof. intros Hd Hr Hl. unfold FS_RecursiveDelete_with. emit; try done; auto. Qed.

Lemma emits_delete_loop fuel pDir d n :
  walked dir d -> emits I (delete_event Flag dir) (FS_RecursiveDelete_loop fuel Flag pDir d n).
Proof.
  revert pDir d n. induction fuel as [|fuel IH]; intros pDir d n Hd; simpl; [emit|].
  emit; try done; auto;
    match goal with E : entry_too_long d ?x = false |- _ =>
      destruct (entry_path_exact d x E) as [Hp Hl];
      assert (walked_entry dir (entry_path d x)) by (exists d, x; by rewrite Hp in *)
    end; auto.
  all: zbool; try (assert (walked dir (entry_path d l)) by (rewrite Hp; by constructor));
    try (split_and!; by auto using walked_entry_ne).
  apply emits_delete_with; auto.
Qed.

Lemma emits_RecursiveDelete fuel :
  emits I (delete_event Flag dir) (FS_RecursiveDelete fuel dir Flag).
Proof.
  apply emits_delete_with; [constructor|by left|]. intros. apply emits_delete_loop. constructor.
Qed.
End Delete.

(** Claim C18.  However the kernel answers, a recursive delete of [dir] enters
    only [dir] and, with [FS_RECURSIVE_TYPE], directories it found below without
    following [.] or [..]; it unlinks entries of those only with [FS_FILE_TYPE]
    and removes those directories, never [dir] itself, only with [FS_DIR_TYPE]. *)
Theorem recursive_delete_scope `{OS} Flag dir fuel w :
  exists evs, w_trace (FS_RecursiveDelete fuel dir Flag w).1 = w_trace w ++ evs /\
    Forall (delete_event Flag dir) evs.
Proof.
  destruct (emits_RecursiveDelete (fun _ => True) Flag dir fuel w Logic.I) as (evs & Ht & HP & _).
  by exists evs.
Qed.

(** ** Whole requests *)

(** A path that starts with the root of a drive, or one of the two places
    outside the roots: the directory created for drive [U:] and the DSP images. *)
Definition request_target (roots : list (list Z)) (path : list Z) : Prop :=
  under_root roots path \/ path = FS_ROOT_MDLPM \/ dsp_target roots path.

(** The calls that create, change or remove a name, or open a file. *)
Definition confined (roots : list (list Z)) (e : event) : Prop :=
  match ev_call e with
  | Sys_open path _ _ | Sys_creat path _ | Sys_mkdir path _ | Sys_rmdir path
  | Sys_unlink path | Sys_nvm_restore _ path => request_target roots path
  | Sys_rename old new => request_target roots old /\ request_target roots new
  | _ => True
  end.

(** The requests to the storage drivers, whose calls are not paths. *)
Definition is_otp_op (op : option FS_CCCI_OP_ID) : bool :=
  match op with
  | Some FS_CCCI_OP_OTP_WRITE | Some FS_CCCI_OP_OTP_READ
  | Some FS_CCCI_OP_OTP_QUERYLEN | Some FS_CCCI_OP_OTP_LOCK => true
  | _ => false
  end.

Lemma under_root_entry roots d path : under_root roots d -> walked_entry d path -> under_root roots path.
Proof.
  intros (i & root & rest & Hi & ->) (d' & name & Hd & -> & _).
  assert (exists rest', d' = root ++ rest') as [rest' ->].
  { induction Hd as [|d' n Hd [rest' ->]]; [by eexists|].
    exists (rest' ++ [chr_slash] ++ n). by rewrite <- app_assoc. }
  exists i, root, (rest' ++ [chr_slash] ++ name). by rewrite <- app_assoc.
Qed.

Section Request.
Context `{OS} (roots : list (list Z)).
Abbreviation I := (fun g : fsd => FsRootDir g = roots).
Abbreviation ok := (emits I (confined roots)).

(** Operations that are only queries, or that act on open descriptors. *)
Lemma ok_mod f : (forall g, FsRootDir (f g) = FsRootDir g) -> ok (pmod f).
Proof. intros Hf. apply emits_mod. intros g Hg. by rewrite Hf. Qed.
End Request.

#[export] Hint Extern 1 (emits _ _ (pmod _)) => apply ok_mod; reflexivity : cfs.

(** Walk a program whose calls are all allowed. *)
Ltac confine := emit; try done.

Section Request.
Context `{OS} (roots : list (list Z)).
Abbreviation I := (fun g : fsd => FsRootDir g = roots).
Abbreviation ok := (emits I (confined roots)).

Lemma ok_mem_at p : ok (mem_at p).
Proof. unfold mem_at. confine. Qed.
Lemma ok_deref p n : ok (deref p n).
Proof. unfold deref, mem_at. confine. Qed.
Lemma ok_buf_write o b : ok (buf_write o b).
Proof. unfold buf_write. confine. Qed.
Lemma ok_buf_read o n : ok (buf_read o n).
Proof. unfold buf_read. confine. Qed.
Lemma ok_profile_end e t : ok (profile_end e t).
Proof. unfold profile_end. confine. apply ok_mod. intros g'. unfold note_slow. by case_match. Qed.
#[local] Hint Resolve ok_mem_at ok_deref ok_buf_write ok_buf_read ok_profile_end : cfs.

Lemma ok_release i : ok (release_handle i).
Proof. unfold release_handle. confine. Qed.
#[local] Hint Resolve ok_release : cfs.

Lemma emits_mono {X A} I (P Q : event -> Prop) (m : prog X A) :
  (forall e, P e -> Q e) -> emits I P m -> emits I Q m.
Proof.
  intros HPQ Hm w HI. destruct (Hm w HI) as (evs & Ht & HP & Hv). exists evs.
  split_and!; [done| |done]. by eapply Forall_impl.
Qed.

Lemma ok_Open n f : ok (FS_CCCI_Open n f).
Proof.
  eapply emits_mono; [|apply open_emits]. intros [T c r]. unfold open_event, confined. simpl.
  destruct c; try done. intros [(i & root & rest & Hi & Hp & _)|?]; [left|by right; right].
  by exists i, root, rest.
Qed.

Lemma ok_Seek h o wh : ok (FS_CCCI_Seek h o wh).
Proof. unfold FS_CCCI_Seek. confine. Qed.
Lemma ok_Read h p n out : ok (FS_CCCI_Read h p n out).
Proof. unfold FS_CCCI_Read. confine. Qed.
Lemma ok_Write h p n out : ok (FS_CCCI_Write h p n out).
Proof. unfold FS_CCCI_Write. confine. Qed.
Lemma ok_GetFileSize h out : ok (FS_CCCI_GetFileSize h out).
Proof. unfold FS_CCCI_GetFileSize. confine. Qed.
Lemma ok_Close h : ok (FS_CCCI_Close h).
Proof. unfold FS_CCCI_Close. confine. Qed.
Lemma ok_CloseAll : ok FS_CCCI_CloseAll.
Proof.
  unfold FS_CCCI_CloseAll. induction (seqZ 0 FS_FILE_MAX) as [|i l IH]; simpl; [auto with cfs|].
  confine; auto.
Qed.
#[local] Hint Resolve ok_Open ok_Seek ok_Read ok_Write ok_GetFileSize ok_Close ok_CloseAll : cfs.

(** Operations on names: the paths come from [resolve]. *)
Lemma ok_with_path n k :
  (forall c i path, under_root roots path -> ok (k c i path)) -> ok (with_path n k).
Proof.
  intros Hk. unfold with_path, conv_name. emit; subst; try done. by eauto using resolve_under_root.
Qed.

Lemma ok_call_path c : (forall r, confined roots (Ev c r)) -> ok (call_path c).
Proof. intros Hc. unfold call_path. confine. Qed.

Lemma target_under path : under_root roots path -> request_target roots path.
Proof. by left. Qed.
#[local] Hint Resolve target_under : cfs.

Lemma ok_stat_preds p : ok (FS_IsReadOnly p) /\ ok (FS_IsDIR p) /\ ok (FS_IsFile p).
Proof. unfold FS_IsReadOnly, FS_IsDIR, FS_IsFile. split_and!; confine. Qed.
Lemma ok_IsReadOnly p : ok (FS_IsReadOnly p).
Proof. apply ok_stat_preds. Qed.
Lemma ok_IsDIR p : ok (FS_IsDIR p).
Proof. apply ok_stat_preds. Qed.
Lemma ok_IsFile p : ok (FS_IsFile p).
Proof. apply ok_stat_preds. Qed.
#[local] Hint Resolve ok_IsReadOnly ok_IsDIR ok_IsFile : cfs.

Lemma ok_AttrReconv p : ok (FS_AttrReconv p).
Proof. unfold FS_AttrReconv. confine. Qed.
Lemma ok_GetClusterSize d : ok (FS_CCCI_GetClusterSize d).
Proof. unfold FS_CCCI_GetClusterSize. confine. Qed.
#[local] Hint Resolve ok_AttrReconv ok_GetClusterSize : cfs.

Lemma ok_search_loop fuel Flag d n cs found cc :
  ok (FS_RecursiveSearch_loop fuel Flag d n cs found cc).
Proof.
  revert d n cs found cc. induction fuel as [|fuel IH]; intros; simpl; [confine|].
  unfold FS_RecursiveSearch_with. confine; auto.
Qed.
Lemma ok_RecursiveSearch fuel n Flag cc : ok (FS_RecursiveSearch fuel n Flag cc).
Proof. unfold FS_RecursiveSearch, FS_RecursiveSearch_with. confine. apply ok_search_loop. Qed.

Lemma ok_RecursiveDelete fuel n Flag : under_root roots n -> ok (FS_RecursiveDelete fuel n Flag).
Proof.
  intros Hn. eapply emits_mono; [|apply emits_RecursiveDelete]. intros [T c r].
  unfold delete_event, confined. simpl. destruct c; try done.
  - intros (_ & _ & Hp & _). left. by eapply under_root_entry.
  - intros (_ & Hp). left. by eapply under_root_entry.
Qed.
#[local] Hint Resolve ok_RecursiveSearch ok_RecursiveDelete : cfs.

Lemma ok_with_dir p k : ok k -> ok (with_dir p k).
Proof. intros Hk. unfold with_dir. by confine. Qed.

Lemma ok_CreateDir n : ok (FS_CCCI_CreateDir n).
Proof.
  apply ok_with_path. intros c i path Hp. emit; try done; [by right; left|].
  apply ok_call_path. by left.
Qed.
Lemma ok_RemoveDir n : ok (FS_CCCI_RemoveDir n).
Proof. apply ok_with_path. intros c i path Hp. apply ok_call_path. by left. Qed.
Lemma ok_Rename n n' : ok (FS_CCCI_Rename n n').
Proof.
  apply ok_with_path. intros c i path Hp. apply ok_with_path. intros c' i' path' Hp'.
  apply ok_call_path. by split; left.
Qed.
Lemma ok_Delete n : ok (FS_CCCI_Delete n).
Proof. apply ok_with_path. intros c i path Hp. apply ok_call_path. by left. Qed.
Lemma ok_GetFolderSize fuel n Flag : ok (FS_CCCI_GetFolderSize fuel n Flag).
Proof.
  apply ok_with_path. intros c i path Hp. emit. apply ok_with_dir. emit.
Qed.
Lemma ok_Count fuel n Flag : ok (FS_CCCI_Count fuel n Flag).
Proof. apply ok_with_path. intros c i path Hp. apply ok_with_dir. emit. Qed.
Lemma ok_GetAttributes n : ok (FS_CCCI_GetAttributes n).
Proof. apply ok_with_path. intros c i path Hp. auto with cfs. Qed.
Lemma ok_GetFileDetail n : ok (FS_CCCI_GetFileDetail n).
Proof. apply ok_with_path. intros c i path Hp. unfold FS_GetFileDetail. confine. Qed.
Lemma ok_XDelete fuel n Flag : ok (FS_CCCI_XDelete fuel n Flag).
Proof.
  apply ok_with_path. intros c i path Hp. emit. apply ok_with_dir. emit. by left.
Qed.
#[local] Hint Resolve ok_XDelete ok_Delete : cfs.
Lemma ok_move_copy p q : under_root roots p -> under_root roots q -> ok (move_copy p q).
Proof. intros Hp Hq. unfold move_copy. confine; by left. Qed.
#[local] Hint Resolve ok_move_copy : cfs.
Lemma ok_Move fuel n n' Flag : ok (FS_CCCI_Move fuel n n' Flag).
Proof.
  apply ok_with_path. intros c i path Hp. apply ok_with_path. intros c' i' path' Hp'. emit.
Qed.
Lemma ok_GetDiskInfo : ok FS_CCCI_GetDiskInfo.
Proof. unfold FS_CCCI_GetDiskInfo. confine. Qed.
Lemma ok_Restore n : ok (FS_CCCI_Restore n).
Proof. apply ok_with_path. intros c i path Hp. emit. by left. Qed.
#[local] Hint Resolve ok_CreateDir ok_RemoveDir ok_Rename ok_GetFolderSize ok_Count ok_GetAttributes
  ok_GetFileDetail ok_Move ok_GetDiskInfo ok_Restore : cfs.

(** Searches. *)
Lemma ok_search fuel b d prefix pat A M : ok (search_loop fuel b d prefix pat A M).
Proof. induction fuel as [|fuel IH]; simpl; confine; auto. Qed.
Lemma ok_EntryLinuxToDos p : ok (FS_EntryLinuxToDos p).
Proof. unfold FS_EntryLinuxToDos. confine. Qed.
#[local] Hint Resolve ok_search ok_EntryLinuxToDos : cfs.
Lemma ok_report d p n : ok (report_entry d p n).
Proof. unfold report_entry. confine. Qed.
#[local] Hint Resolve ok_report : cfs.
Lemma ok_FindFirst fuel n A M l : ok (FS_CCCI_FindFirst fuel n A M l).
Proof. unfold FS_CCCI_FindFirst, conv_name. confine. Qed.
Lemma ok_FindNext fuel h l : ok (FS_CCCI_FindNext fuel h l).
Proof. unfold FS_CCCI_FindNext, conv_name. confine. Qed.
Lemma ok_FindClose h : ok (FS_CCCI_FindClose h).
Proof. unfold FS_CCCI_FindClose. confine. Qed.
#[local] Hint Resolve ok_FindFirst ok_FindNext ok_FindClose : cfs.

(** Compact operations. *)
Lemma ok_timed op : ok op -> ok (timed op).
Proof. intros Hop. unfold timed. confine. Qed.
Lemma ok_step m f b op fail k :
  ok op -> (forall b' e, ok (fail b' e)) -> (forall b', ok (k b')) -> ok (cmpt_step m f b op fail k).
Proof. intros Hop Hf Hk. unfold cmpt_step. confine; auto. Qed.
#[local] Hint Resolve ok_timed : cfs.
Lemma ok_CMPT_Read n : ok (FS_CCCI_CMPT_Read n).
Proof.
  unfold FS_CCCI_CMPT_Read, cmpt_ret. emit; repeat (apply ok_step; intros; emit).
Qed.
Lemma ok_CMPT_Write n p : ok (FS_CCCI_CMPT_Write n p).
Proof.
  unfold FS_CCCI_CMPT_Write, cmptw_ret, cmpt_write_body, cmptw_ret.
  emit; repeat (apply ok_step; intros; emit).
Qed.
#[local] Hint Resolve ok_CMPT_Read ok_CMPT_Write : cfs.

(** Arguments and answers. *)
Lemma ok_arg_ptr i : ok (arg_ptr i).
Proof. unfold arg_ptr. confine. Qed.
#[local] Hint Resolve ok_arg_ptr : cfs.
Lemma ok_arg32 i : ok (arg32 i).
Proof. unfold arg32. confine. Qed.
Lemma ok_arg_char i : ok (arg_char i).
Proof. unfold arg_char. confine. Qed.
Lemma ok_arg_name i : ok (arg_name i).
Proof. unfold arg_name. confine. Qed.
Lemma ok_resp l p : ok (resp l p).
Proof. unfold resp. confine. Qed.
#[local] Hint Resolve ok_arg32 ok_arg_char ok_arg_name ok_resp : cfs.
Lemma ok_answer op : ok op -> ok (answer op).
Proof. intros Hop. unfold answer. confine. Qed.
Lemma ok_answer_find op : ok op -> ok (answer_find op).
Proof. intros Hop. unfold answer_find. confine. Qed.
#[local] Hint Resolve ok_answer ok_answer_find : cfs.

Lemma ok_dispatch emmc ufs junk fuel op : is_otp_op op = false -> ok (dispatch emmc ufs junk fuel op).
Proof.
  intros Hop. destruct op as [[]|]; try done; simpl;
    unfold do_cmpt_read, do_cmpt_write, do_read, do_write, FS_CCCI_ShutDown, conv_name; emit.
Qed.
End Request.

(** Claim C11.  In every request other than the ones to the storage drivers, every
    name that is opened, created, renamed, restored or removed starts with the
    root of a drive, or is the directory of drive [U:] or the image of a DSP.
    The names may still contain [..]: only [FS_CCCI_Open] honours the verdict of
    the conversion. *)
Theorem request_confined `{OS} emmc ufs junk fuel op w :
  is_otp_op op = false ->
  exists evs, w_trace (dispatch emmc ufs junk fuel op w).1 = w_trace w ++ evs /\
    Forall (confined (FsRootDir (w_glob w))) evs.
Proof.
  intros Hop. destruct (ok_dispatch (FsRootDir (w_glob w)) emmc ufs junk fuel op Hop w eq_refl)
    as (evs & Ht & HP & _). by exists evs.
Qed.

(** [FS_CCCI_RemoveDir] ignores the verdict of the conversion: a name
    that was rejected for its [..] is resolved as far as it was converted and
    the directory is removed all the same. *)
Theorem removedir_ignores_verdict `{OS} name r out i path w :
  FS_ConvWcsToCs name = Some (r, out) ->
  resolve (FsRootDir (w_glob w)) (cstring out) = RPath i path ->
  FS_CCCI_RemoveDir name w =
    let '(s, r) := os_do (Sys_rmdir path) (w_os w) in
    (answered (Sys_rmdir path) r s w,
     Ok (if rv r =? -1 then FS_ErrorConv (eno r) else FS_NO_ERROR)).
Proof.
  intros Hc Hr. unfold FS_CCCI_RemoveDir, with_path, conv_name. rewrite Hc.
  unfold mbind, prog_bind, popt, mret, prog_ret, pget. rewrite Hr.
  unfold call_path, mbind, prog_bind, psys. destruct (os_do (Sys_rmdir path) (w_os w)) as [s a].
  simpl. by case_match.
Qed.

(** ** Concrete runs *)

Definition demo_arg (g : fsd) (args : list (list Z)) : fsd :=
  let bytes := concat args in
  let fix ptrs off args :=
    match args with
    | [] => []
    | a :: args' => PacketInfo (zlen a) (PBuf off) :: ptrs (off + zlen a) args'
    end in
  upd_vars (set_PackInfo (ptrs 0 args ++ drop (length args) (PackInfo (vars g))))
    (upd_pFsBuf (bytes ++ drop (length bytes) (pFsBuf (g_FsInfo g))) g).

Definition demo_xdelete : world fsd :=
  mem_world demo_fs (demo_arg demo_fsd [wcs_of (lit "Z:\NVD"); le32 28]).

Lemma request_confined_witness :
  let m := dispatch no_device no_device demo_junk 9 (Some FS_CCCI_OP_XDELETE) demo_xdelete in
  m.2 = Ok tt /\ Ev (Sys_rmdir demo_dir) (IRes 0 0) ∈ w_trace m.1 /\
  Forall (confined FsRootDir_MD1) (w_trace m.1).
Proof.
  intros m. split; [vm_compute; reflexivity|]. split.
  - apply (list_elem_of_lookup_2 _ (length (w_trace m.1) - 1)). vm_compute. reflexivity.
  - destruct (request_confined no_device no_device demo_junk 9 (Some FS_CCCI_OP_XDELETE)
      demo_xdelete eq_refl) as (evs & Ht & HP).
    change (w_trace m.1 = evs) in Ht. rewrite Ht. exact HP.
Defined.

(** The modem removes the parent of its own directory. *)
Lemma removedir_ignores_verdict_witness :
  let name := wcs_of (lit "Z:\..") in
  fst <$> FS_ConvWcsToCs name = Some (-1) /\
  w_trace (FS_CCCI_RemoveDir name demo_world).1 =
    [Ev (Sys_rmdir (lit "/mnt/vendor/nvdata/md/..")) (IRes (-1) ENOENT)].
Proof.
  intros name. split; [vm_compute; reflexivity|].
  rewrite (removedir_ignores_verdict name (-1) (lit "Z:/..") 0 (lit "/mnt/vendor/nvdata/md/..")
    demo_world); vm_compute; reflexivity.
Defined.
