(* ===== verification/FsdWire.v ===== *)
(** * ccci_fsd: the wire format of requests and answers

    An abstract encoding of a list of arguments, and the proofs that
    [FS_GetPackInfo] decodes it and [FS_WriteToMD] produces it; a pure
    description of the fragments of a long answer, the proofs that
    [FS_WriteToMD] sends exactly these and that the reassembly of the daemon
    inverts them. *)
From S2P Require Import Prelude Posix MemFs Wire FsdTypes FsdStrings FsdPath FsdDemo FsdHandle FsdTable.
From S2P Require Import FsdDir FsdFind FsdPacket FsdCmpt FsdMain FsdInv.

(** ** The encoding *)

(** What the parser finds there. *)
Fixpoint args_info (off : Z) (args : list (list Z)) : list FS_PACKET_INFO :=
  match args with
  | [] => []
  | a :: args' => PacketInfo (zlen a) (PBuf (off + 4)) :: args_info (off + 4 + align4 (zlen a)) args'
  end.

(** ** Parsing a request *)

Lemma length_args_info off args : length (args_info off args) = length args.
Proof. revert off. induction args as [|a args IH]; intros; simpl; auto. Qed.

Lemma GetPackInfo_loop_args m pData args i Index pi :
  args_at m (pData + Index) args -> Forall (fun a => a <> []) args ->
  0 <= Index -> Index + args_size args < 2 ^ 32 -> (i + length args <= length pi)%nat ->
  FS_GetPackInfo_loop m pData (length args) i Index pi =
    Some (true, Index + args_size args,
      take i pi ++ args_info (pData + Index) args ++ drop (i + length args) pi).
Proof.
  revert i Index pi. induction args as [|a args IH]; intros i Index pi Ha Hne HI Hs Hl; simpl in *.
  { by rewrite Z.add_0_r, Nat.add_0_r, take_drop. }
  destruct Ha as (H1 & H2 & Ha). apply Forall_cons in Hne as [Hn Hne].
  pose proof (args_size_nonneg args). pose proof (align4_nonneg (zlen a)).
  rewrite H1. unfold sizeof_uint. rewrite (u32_small (Index + 4)) by lia.
  rewrite (u32_small (Index + 4 + _)) by lia.
  destruct (Z.eqb_spec (zlen a) 0) as [Hz|_]; [destruct a; [done|unfold zlen in Hz; simpl in Hz; lia]|].
  rewrite IH; [|by replace (pData + (Index + 4 + _)) with (pData + Index + 4 + align4 (zlen a)) by lia|done|lia|lia|rewrite length_insert; lia].
  f_equal. f_equal; [f_equal; lia|].
  rewrite (take_S_r _ _ (PacketInfo (zlen a) (PBuf (pData + (Index + 4)))))
    by (rewrite list_lookup_insert_eq; [done|lia]).
  rewrite take_insert_ge by lia. rewrite drop_insert_lt by lia.
  rewrite <- app_assoc. simpl. by rewrite !Z.add_assoc, Nat.add_succ_r.
Qed.

(** [FS_GetPackInfo] accepts every well-formed request with at most
    [max_args] arguments, none of them empty, that fits in [max_size] bytes, and
    finds each argument where it is; the entries of the array beyond the
    arguments are left as they were. *)
Theorem GetPackInfo_args max_args max_size m pData args pi :
  mread32 m pData = Some (zlen args) -> args_at m (pData + 4) args ->
  Forall (fun a => a <> []) args ->
  zlen args <= max_args -> (length args <= length pi)%nat ->
  4 + args_size args <= max_size < 2 ^ 32 ->
  FS_GetPackInfo_mem max_args max_size m pData pi =
    Some (true, args_info (pData + 4) args ++ drop (length args) pi).
Proof.
  intros Hn Ha Hne Hargs Hpi Hs. pose proof (args_size_nonneg args).
  unfold FS_GetPackInfo_mem, sizeof_uint. rewrite Hn.
  rewrite Z.gtb_ltb. destruct (Z.ltb_spec max_args (zlen args)); [lia|].
  unfold zlen at 1. rewrite Nat2Z.id, GetPackInfo_loop_args; [|done|done|lia|lia|done].
  rewrite Z.gtb_ltb. by destruct (Z.ltb_spec max_size (4 + args_size args)); [lia|].
Qed.

(** The bound is checked on an index that wraps: an argument that
    claims a length between 2^32-3 and 2^32-1 is accepted in a request of eight
    bytes, with that length. *)
Theorem GetPackInfo_wraps max_args max_size m pData len pi :
  mread32 m pData = Some 1 -> mread32 m (pData + 4) = Some len -> 2 ^ 32 - 3 <= len < 2 ^ 32 ->
  1 <= max_args -> 8 <= max_size ->
  FS_GetPackInfo_mem max_args max_size m pData pi =
    Some (true, <[0%nat := PacketInfo len (PBuf (pData + 8))]> pi).
Proof.
  intros Hn Hl Hlen Ha Hs.
  assert (align4 len = 0) as Hal.
  { unfold align4, u32. replace (len + 3) with (len - (2 ^ 32 - 3) + 1 * 2 ^ 32) by lia.
    rewrite Z.mod_add by lia. rewrite (Z.mod_small (len - (2 ^ 32 - 3))) by lia.
    rewrite Z.shiftr_div_pow2 by lia. by rewrite Z.div_small by lia. }
  unfold FS_GetPackInfo_mem, sizeof_uint. rewrite Hn.
  rewrite Z.gtb_ltb. destruct (Z.ltb_spec max_args 1); [lia|].
  change (Z.to_nat 1) with 1%nat. cbn [FS_GetPackInfo_loop]. rewrite Hl, Hal.
  unfold sizeof_uint. rewrite (u32_small (4 + 4)), (u32_small (4 + 4 + 0)) by lia.
  destruct (Z.eqb_spec len 0); [lia|].
  rewrite Z.gtb_ltb. by destruct (Z.ltb_spec max_size (4 + 4 + 0)); [lia|].
Qed.

(** ** Building an answer *)

Section Wire.
Context `{OS}.

(** The bytes an entry of the answer stands for: a variable of [main], or bytes
    that are already in their place. *)
Definition source_at (w : world fsd) (off : Z) (p : FS_PACKET_INFO) : option (list Z) :=
  match FsdTypes.pData p with
  | PVar v => mread (var_bytes (vars (w_glob w)) v) 0 (Length p)
  | PBuf o => if o =? off + 4 then mread (buf w) o (Length p) else None
  | PUninit => None
  end.

Fixpoint sources_at (w : world fsd) (off : Z) (src : list FS_PACKET_INFO) (args : list (list Z)) : Prop :=
  match src, args with
  | [], [] => True
  | p :: src', a :: args' =>
      source_at w off p = Some a /\ sources_at w (off + 4 + align4 (Length p)) src' args'
  | _, _ => False
  end.

Lemma source_at_ext w m off p a :
  (forall o l, off <= o -> mread m o l = mread (buf w) o l) ->
  source_at w off p = Some a -> source_at (with_buf m w) off p = Some a.
Proof.
  intros Hm. unfold source_at. destruct (FsdTypes.pData p); [|done|done].
  destruct (Z.eqb_spec off0 (off + 4)); [|done]. change (buf (with_buf m w)) with m. by rewrite Hm by lia.
Qed.

Lemma sources_at_ext w m off src args :
  (forall o l, off <= o -> mread m o l = mread (buf w) o l) ->
  sources_at w off src args -> sources_at (with_buf m w) off src args.
Proof.
  revert off args. induction src as [|p src IH]; intros off [|a args] Hm; simpl; try done.
  intros [Hp Hs]. split; [by apply source_at_ext|]. apply IH; [|done].
  intros o l Ho. apply Hm. pose proof (align4_nonneg (Length p)). lia.
Qed.

Lemma source_at_length w off p a : source_at w off p = Some a -> Length p = zlen a.
Proof.
  unfold source_at. repeat case_match; try done; intros Hr; by rewrite (length_mread _ _ _ _ Hr).
Qed.

(** One argument: its length and its bytes. *)
Lemma write_arg w off p a :
  source_at w off p = Some a -> 0 <= off -> off + 4 + align4 (zlen a) <= zlen (buf w) ->
  zlen a < 2 ^ 31 ->
  exists m', (buf_put32 off (Length p);;
      if bool_decide (FsdTypes.pData p = PBuf (off + 4)) then mret tt
      else bs ← deref (FsdTypes.pData p) (Length p); buf_write (off + 4) bs) w
    = (with_buf m' w, Ok tt) /\
    mread32 m' off = Some (zlen a) /\ mread m' (off + 4) (zlen a) = Some a /\
    same_outside off (off + 4 + align4 (zlen a)) (buf w) m'.
Proof.
  intros Hs Hoff Hfit Hlen. pose proof (source_at_length _ _ _ _ Hs) as Hl. rewrite Hl.
  pose proof (zlen_nonneg a) as Ha. pose proof (align4_bounds (zlen a) ltac:(lia)) as Hal.
  destruct (mwrite_is_Some (buf w) off (le32 (zlen a))) as [m1 Hm1]; [done|rewrite zlen_le32; lia|].
  assert (mread32 m1 off = Some (zlen a)) as Hr1.
  { rewrite (mread32_put _ _ _ _ Hm1), u32_small by lia. done. }
  rewrite (bind_ok _ _ _ _ _ (buf_put32_eq _ _ _ _ Hm1)).
  pose proof (length_mwrite _ _ _ _ Hm1) as Hlm.
  case_bool_decide as Hp.
  - exists m1. split; [done|]. unfold source_at in Hs. rewrite Hp, Z.eqb_refl, Hl in Hs.
    split_and!; [done| |].
    + rewrite (mread_mwrite_disjoint _ _ _ _ _ _ Hm1); [done|]. rewrite zlen_le32. lia.
    + eapply same_outside_write; [done|lia|rewrite zlen_le32; lia|apply same_outside_refl].
  - assert (deref (FsdTypes.pData p) (zlen a) (with_buf m1 w) = (with_buf m1 w, Ok a)) as Hd.
    { unfold source_at in Hs. destruct (FsdTypes.pData p) as [o|v|]; [|rewrite Hl in Hs|done].
      - destruct (Z.eqb_spec o (off + 4)); [by subst|done].
      - unfold deref, mem_at, mbind, prog_bind, pget, popt, mret, prog_ret. simpl. by rewrite Hs. }
    rewrite (bind_ok _ _ _ _ _ Hd).
    destruct (mwrite_is_Some m1 (off + 4) a) as [m2 Hm2]; [lia|unfold zlen in *; rewrite Hlm; lia|].
    rewrite (buf_write_with _ _ _ _ w Hm2). exists m2. split; [done|].
    split_and!.
    + unfold mread32 in *. by rewrite (mread_mwrite_disjoint _ _ _ _ _ _ Hm2) by lia.
    + by apply (mread_mwrite_same _ _ _ _ Hm2).
    + eapply same_outside_write; [exact Hm1|lia|rewrite zlen_le32; lia|].
      eapply same_outside_write; [exact Hm2|lia|lia|apply same_outside_refl].
Qed.

(** The arguments of an answer: what is stored is their encoding, and the rest
    of the buffer, the trace and the other globals are left alone. *)
Lemma WriteToMD_args_eq src args w DL off :
  sources_at w off src args -> args_fit (FS_MAX_BUF_SIZE (w_glob w)) DL args = true ->
  Forall (fun a => zlen a < 2 ^ 31) args ->
  0 <= off -> off + args_size args <= zlen (buf w) -> 0 <= DL -> DL + args_size args < 2 ^ 31 ->
  FS_MAX_BUF_SIZE (w_glob w) < 2 ^ 31 ->
  exists m', WriteToMD_args DL off src w = (with_buf m' w, Ok (Some (DL + args_size args))) /\
    args_at m' off args /\ same_outside off (off + args_size args) (buf w) m'.
Proof.
  revert args w DL off. induction src as [|p src IH];
    intros [|a args] w DL off Hsrc Hfit Hlen Hoff Hbuf HDL Hsz Hmax; simpl in Hsrc; try done.
  { exists (buf w). rewrite with_buf_id. simpl. by rewrite Z.add_0_r. }
  destruct Hsrc as [Hp Hsrc]. pose proof (source_at_length _ _ _ _ Hp) as Hl.
  pose proof (args_fit_bound _ _ _ _ Hfit) as Hb. simpl in Hfit, Hbuf, Hsz. zbool.
  apply Forall_cons in Hlen as [Ha Hlen].
  pose proof (zlen_nonneg a). pose proof (args_size_nonneg args).
  pose proof (align4_bounds (zlen a) ltac:(lia)).
  destruct (write_arg w off p a Hp Hoff ltac:(lia) Ha) as (m1 & Hw1 & Hr1 & Hr2 & Hout1).
  destruct (IH args (with_buf m1 w) (DL + 4 + align4 (zlen a)) (off + 4 + align4 (zlen a)))
    as (m2 & Hw2 & Hargs & Hout2).
  { apply sources_at_ext; [|by rewrite <- Hl]. intros o l Ho. apply Hout1. lia. }
  1-7: change (buf (with_buf m1 w)) with m1; unfold zlen in *; try rewrite <- (proj1 Hout1); done || lia.
  exists m2. split_and!.
  - simpl. unfold mbind at 1, prog_bind at 1, pget. cbv beta iota.
    unfold sizeof_uint. rewrite Hl, (u32_small (DL + 2 * 4 + zlen a)) by lia.
    rewrite Z.gtb_ltb. destruct (Z.ltb_spec (FS_MAX_BUF_SIZE (w_glob w)) (DL + 2 * 4 + zlen a)); [lia|].
    rewrite bind_assoc. rewrite Hl in Hw1. rewrite (bind_ok _ _ _ _ _ Hw1).
    rewrite (i32_small (align4 (zlen a))), i32_small by lia. rewrite Hw2. f_equal. f_equal. f_equal. simpl. lia.
  - split_and!.
    + unfold mread32 in *. by rewrite (proj2 Hout2) by lia.
    + by rewrite (proj2 Hout2) by lia.
    + done.
  - simpl. replace (off + (4 + align4 (zlen a) + args_size args))
      with (off + 4 + align4 (zlen a) + args_size args) by lia.
    eapply same_outside_trans; [exact Hout1|exact Hout2|lia].
Qed.

(** The state [FS_WriteToMD] is entered with: the request's header in the slot,
    and the sources of the arguments. *)
Record answer_ready (w : world fsd) (BufIndex : Z) (src : list FS_PACKET_INFO) (args : list (list Z))
    (d0 channel reserved op : Z) : Prop := {
  ar_stream : stream_support (w_glob w) = true;
  ar_d0 : mread32 (buf w) (slot_base (w_glob w) BufIndex) = Some d0;
  ar_channel : mread32 (buf w) (slot_base (w_glob w) BufIndex + 8) = Some channel;
  ar_reserved : mread32 (buf w) (slot_base (w_glob w) BufIndex + 12) = Some reserved;
  ar_op : mread32 (buf w) (slot_base (w_glob w) BufIndex + 16) = Some op;
  ar_src : sources_at w (slot_base (w_glob w) BufIndex + 24) src args;
  ar_len : Forall (fun a => zlen a < 2 ^ 31) args;
  ar_max : FS_MAX_BUF_SIZE (w_glob w) < 2 ^ 31;
  ar_fit : args_fit (FS_MAX_BUF_SIZE (w_glob w)) 24 args = true;
  ar_slot : slot_base (w_glob w) BufIndex + 24 + args_size args <= zlen (buf w);
  ar_size : 24 + args_size args < 2 ^ 31
}.

Lemma sources_at_length w off src args : sources_at w off src args -> length src = length args.
Proof.
  revert off args. induction src as [|p src IH]; intros off [|a args]; simpl; try done.
  intros [_ Hs]. f_equal. by eapply IH.
Qed.

(** Up to the arguments: operation, count and arguments are in the slot, its
    header is as it was. *)
Lemma answer_body w BufIndex src args d0 channel reserved op :
  answer_ready w BufIndex src args d0 channel reserved op ->
  let slot := slot_base (w_glob w) BufIndex in
  exists m1 m2 m3,
    mwrite (buf w) (slot + 16) (le32 (Z.lor FS_API_RESP_ID op)) = Some m1 /\
    mwrite m1 (slot + 20) (le32 (zlen args)) = Some m2 /\
    WriteToMD_args 24 (slot + 24) src (with_buf m2 w) = (with_buf m3 w, Ok (Some (24 + args_size args))) /\
    length m3 = length (buf w) /\ args_at m3 (slot + 24) args /\
    mread32 m3 slot = Some d0 /\ mread32 m3 (slot + 8) = Some channel /\
    mread32 m3 (slot + 12) = Some reserved /\
    mread32 m3 (slot + 16) = Some (u32 (Z.lor FS_API_RESP_ID op)) /\
    mread32 m3 (slot + 20) = Some (zlen args).
Proof.
  intros [Hs Hd0 Hch Hre Hop Hsrc Hlen Hmax Hfit Hslot Hsize] slot. fold slot in Hd0, Hch, Hre, Hop, Hsrc, Hslot.
  pose proof (args_size_nonneg args). pose proof (mread32_Some_range _ _ _ Hd0).
  destruct (put32_Some _ (slot + 16) (Z.lor FS_API_RESP_ID op) _ _ Hop eq_refl) as [m1 Hm1].
  pose proof (length_mwrite _ _ _ _ Hm1) as Hl1.
  destruct (mwrite_is_Some m1 (slot + 20) (le32 (zlen args))) as [m2 Hm2];
    [lia|rewrite zlen_le32; unfold zlen in *; lia|].
  pose proof (length_mwrite _ _ _ _ Hm2) as Hl2.
  assert (forall o l, slot + 24 <= o -> mread m2 o l = mread (buf w) o l) as Hext.
  { intros o l Ho. rewrite (mread_mwrite_disjoint _ _ _ _ _ _ Hm2) by (rewrite zlen_le32; lia).
    apply (mread_mwrite_disjoint _ _ _ _ _ _ Hm1). rewrite zlen_le32. lia. }
  destruct (WriteToMD_args_eq src args (with_buf m2 w) 24 (slot + 24)) as (m3 & Hw & Hargs & [Hl3 Hout]);
    [by apply sources_at_ext|done|done|lia| |lia|lia|done|].
  { change (buf (with_buf m2 w)) with m2. unfold zlen in *. lia. }
  change (buf (with_buf m2 w)) with m2 in Hl3, Hout.
  assert (forall o, o + 4 <= slot + 24 -> mread32 m3 o = mread32 m2 o) as Hlow.
  { intros o Ho. unfold mread32. rewrite Hout by lia. done. }
  exists m1, m2, m3. rewrite with_buf_twice in Hw. rewrite !Hlow by lia.
  rewrite !(mread32_skip _ _ _ _ _ Hm2) by (rewrite zlen_le32; lia).
  rewrite (mread32_put _ _ _ _ Hm2), (mread32_put _ _ _ _ Hm1).
  rewrite !(mread32_skip _ _ _ _ _ Hm1) by (rewrite zlen_le32; lia).
  assert (u32 (zlen args) = zlen args) as ->.
  { apply u32_small. pose proof (zlen_nonneg args).
    pose proof (args_size_count args). lia. }
  split_and!; try done. congruence.
Qed.

(** The head of [FS_WriteToMD], up to the choice between one packet and
    fragments: the answer is in the slot and the channel is the modem's. *)
Definition send_answer (fuel : nat) (DeviceFd slot DataLength : Z) : prog fsd bool :=
  let data_len := DataLength - sizeof_CCCI_BUFF_T - sizeof_uint in
  channel ← buf_get32 (slot + 8);
  buf_put32 (slot + 8) (u32 (channel + 1));;
  if data_len <=? MAX_FS_PKT_BYTE then
    d0 ← buf_get32 slot;
    buf_put32 slot (Z.land d0 (u32 (Z.lnot CCCI_FS_REQ_SEND_AGAIN)));;
    buf_put32 (slot + 4) DataLength;;
    bs ← buf_read slot DataLength;
    write_retry fuel DeviceFd bs
  else
    op_id ← buf_get32 (slot + 16);
    ret ← WriteToMD_fragments (fragments_bound data_len) DeviceFd slot op_id data_len
            0 (slot + sizeof_STREAM_DATA) 0;
    mret (negb (ret <? 0)).

Lemma WriteToMD_send w fuel DeviceFd BufIndex PackInfo_ src args d0 channel reserved op :
  answer_ready w BufIndex src args d0 channel reserved op ->
  take (length args) PackInfo_ = src ->
  exists m3, length m3 = length (buf w) /\
    let slot := slot_base (w_glob w) BufIndex in
    args_at m3 (slot + 24) args /\
    mread32 m3 slot = Some d0 /\ mread32 m3 (slot + 8) = Some channel /\
    mread32 m3 (slot + 12) = Some reserved /\
    mread32 m3 (slot + 16) = Some (u32 (Z.lor FS_API_RESP_ID op)) /\
    mread32 m3 (slot + 20) = Some (zlen args) /\
    FS_WriteToMD fuel DeviceFd BufIndex PackInfo_ (zlen args) w =
      send_answer fuel DeviceFd slot (24 + args_size args) (with_buf m3 w).
Proof.
  intros Hr Hsrc. pose proof (answer_body _ _ _ _ _ _ _ _ Hr) as (m1 & m2 & m3 & Hm1 & Hm2 & Hw & Hl & Hrest).
  destruct Hr as [Hs Hd0 Hch Hre Hop Hsrcs Hlen Hmax Hfit Hslot Hsize].
  exists m3. split; [done|]. intros slot. destruct Hrest as (? & ? & ? & ? & ? & ?). split_and!; [done..|].
  unfold FS_WriteToMD. rewrite (bind_ok _ _ w w (w_glob w)) by done.
  unfold fsbuf_base. rewrite Hs. unfold sizeof_CCCI_BUFF_T, sizeof_uint. fold slot.
  rewrite (bind_ok _ _ _ _ _ (buf_get32_eq _ _ _ Hop)).
  rewrite (bind_ok _ _ _ _ _ (buf_put32_eq _ _ _ _ Hm1)).
  replace (slot + 16 + 4) with (slot + 20) by lia. replace (slot + 20 + 4) with (slot + 24) by lia.
  rewrite (bind_ok _ _ _ _ _ (buf_put32_with _ _ _ _ w Hm2)).
  pose proof (sources_at_length _ _ _ _ Hsrcs) as Hsl. rewrite <- Hsrc, length_take in Hsl.
  destruct (Z.leb_spec (zlen args) (zlen PackInfo_)); [|unfold zlen in *; lia].
  unfold zlen at 1. rewrite Nat2Z.id, Hsrc. simpl popt.
  rewrite (bind_ok _ _ (with_buf m2 w) (with_buf m2 w) src) by done.
  rewrite (bind_ok _ _ _ _ _ Hw). reflexivity.
Qed.

(** Claim C26.  An answer that fits one packet is sent as one packet: the header of
    the request with its length, the channel of the modem (one more) and without
    the bit that announces more, the operation marked as an answer, and the
    encoding of the arguments. *)
Theorem WriteToMD_single w fuel DeviceFd BufIndex PackInfo_ src args d0 channel reserved op :
  answer_ready w BufIndex src args d0 channel reserved op ->
  take (length args) PackInfo_ = src -> 4 + args_size args <= MAX_FS_PKT_BYTE ->
  exists m bs,
    FS_WriteToMD fuel DeviceFd BufIndex PackInfo_ (zlen args) w =
      write_retry fuel DeviceFd bs (with_buf m w) /\
    is_packet bs (Z.land d0 (u32 (Z.lnot CCCI_FS_REQ_SEND_AGAIN))) (channel + 1) reserved
      (Z.lor FS_API_RESP_ID op) args.
Proof.
  intros Hr Hsrc Hsz.
  destruct (WriteToMD_send w fuel DeviceFd BufIndex PackInfo_ src args d0 channel reserved op Hr Hsrc)
    as (m3 & Hl & Hargs & H0 & H8 & H12 & H16 & H20 & ->).
  destruct Hr as [_ _ _ _ _ _ Hlen _ _ Hslot Hsize]. cbv zeta in *.
  set (slot := slot_base (w_glob w) BufIndex) in *.
  pose proof (args_size_nonneg args). pose proof (mread32_Some_range _ _ _ H0).
  destruct (header_packet m3 slot (channel + 1) (Z.land d0 (u32 (Z.lnot CCCI_FS_REQ_SEND_AGAIN))) reserved
    (Z.lor FS_API_RESP_ID op) args) as (m4 & m5 & m6 & bs & H4 & H5 & H6 & Hbs & Hpkt);
    [lia|unfold zlen in *; lia|done..|].
  exists m6, bs. split; [|done].
  unfold send_answer, sizeof_CCCI_BUFF_T, sizeof_uint.
  rewrite (bind_ok _ _ _ _ _ (buf_get32_with _ _ _ w H8)).
  rewrite (bind_ok _ _ _ _ _ (buf_put32_with _ _ _ _ w H4)).
  destruct (Z.leb_spec (24 + args_size args - 16 - 4) MAX_FS_PKT_BYTE); [|lia].
  assert (mread32 m4 slot = Some d0) as H04.
  { by rewrite (mread32_skip _ _ _ _ _ H4) by (rewrite zlen_le32; lia). }
  rewrite (bind_ok _ _ _ _ _ (buf_get32_with _ _ _ w H04)).
  rewrite (bind_ok _ _ _ _ _ (buf_put32_with _ _ _ _ w H5)).
  rewrite (bind_ok _ _ _ _ _ (buf_put32_with _ _ _ _ w H6)).
  by rewrite (bind_ok _ _ _ _ _ (buf_read_with _ _ _ _ w Hbs)).
Qed.
End Wire.

(** ** Fragments of a long answer *)

(** A fragment: the header with the length of the fragment, with the bit that
    announces more or without it, the operation and a part of the payload. *)
Definition fragment_d0 (again : bool) (d0 : Z) : Z :=
  if again then Z.lor d0 CCCI_FS_REQ_SEND_AGAIN
  else Z.land d0 (u32 (Z.lnot CCCI_FS_REQ_SEND_AGAIN)).

Definition fragment_head (again : bool) (d0 channel reserved op : Z) (chunk : list Z) : list Z :=
  le32 (fragment_d0 again d0) ++ le32 (u32 (zlen chunk + 16 + 4)) ++ le32 channel ++ le32 reserved ++
  le32 op.

Definition fragment (again : bool) (d0 channel reserved op : Z) (chunk : list Z) : list Z :=
  fragment_head again d0 channel reserved op chunk ++ chunk.

Definition chunk_size : nat := Z.to_nat MAX_FS_PKT_BYTE.

(** The fragments of a payload, at most [n] of them. *)
Fixpoint fragments (n : nat) (d0 channel reserved op : Z) (payload : list Z) : list (list Z) :=
  match n, payload with
  | _, [] => []
  | O, _ => []
  | S n', _ =>
      let again := zlen payload >? MAX_FS_PKT_BYTE in
      fragment again d0 channel reserved op (take chunk_size payload)
      :: fragments n' d0 channel reserved op (drop chunk_size payload)
  end.

Lemma zlen_fragment_head again d0 ch re op chunk : zlen (fragment_head again d0 ch re op chunk) = 20.
Proof. unfold fragment_head. rewrite !zlen_app, !zlen_le32. done. Qed.

Lemma zlen_fragment again d0 ch re op chunk : zlen (fragment again d0 ch re op chunk) = 20 + zlen chunk.
Proof. unfold fragment. by rewrite zlen_app, zlen_fragment_head. Qed.

Section Fragments.
Context `{OS}.

(** The header goes over the 20 bytes before the fragment, which are saved. *)
Lemma PreparePktEx_eq w pData slot op again d0 channel reserved bak chunk :
  mread32 (buf w) slot = Some d0 -> mread32 (buf w) (slot + 8) = Some channel ->
  mread32 (buf w) (slot + 12) = Some reserved ->
  slot = pData - 20 \/ slot + 20 <= pData - 20 ->
  mread (buf w) (pData - 20) 20 = Some bak -> zlen chunk <= MAX_FS_PKT_BYTE ->
  exists m, mwrite (buf w) (pData - 20) (fragment_head again d0 channel reserved op chunk) = Some m /\
    FS_PreparePktEx pData (zlen chunk) slot op again w = (with_buf m w, Ok (pData - 20, bak)).
Proof.
  intros H0 H8 H12 Hslot Hbak Hchunk. set (st := pData - 20) in *.
  assert (0 <= st /\ st + 20 <= zlen (buf w)) as Hst by (apply mread_Some in Hbak; lia).
  unfold FS_PreparePktEx, sizeof_CCCI_BUFF_T, sizeof_uint.
  destruct (Z.leb_spec (zlen chunk) MAX_FS_PKT_BYTE); [|lia].
  rewrite Z.geb_leb. destruct (Z.leb_spec slot (pData - (16 + 4))); [|lia].
  change (pData - (16 + 4)) with st. change (16 + 4) with 20. cbn [negb].
  rewrite (bind_ok _ _ _ _ _ (buf_read_eq _ _ _ _ Hbak)).
  rewrite (bind_ok _ _ _ _ _ (buf_get32_eq _ _ _ H0)).
  set (v0 := if again then _ else _).
  destruct (mwrite_is_Some (buf w) st (le32 v0)) as [m1 E1]; [lia|rewrite zlen_le32; lia|].
  pose proof (length_mwrite _ _ _ _ E1).
  rewrite (bind_ok _ _ _ _ _ (buf_put32_eq _ _ _ _ E1)).
  set (v1 := u32 (zlen chunk + 16 + 4)).
  destruct (mwrite_is_Some m1 (st + 4) (le32 v1)) as [m2 E2]; [lia|rewrite zlen_le32; unfold zlen in *; lia|].
  pose proof (length_mwrite _ _ _ _ E2).
  rewrite (bind_ok _ _ _ _ _ (buf_put32_with _ _ _ _ w E2)).
  assert (mread32 m2 (slot + 8) = Some channel) as H8'.
  { rewrite (mread32_skip _ _ _ _ _ E2), (mread32_skip _ _ _ _ _ E1); [done|rewrite zlen_le32; lia..]. }
  rewrite (bind_ok _ _ _ _ _ (buf_get32_with _ _ _ w H8')).
  destruct (mwrite_is_Some m2 (st + 8) (le32 channel)) as [m3 E3]; [lia|rewrite zlen_le32; unfold zlen in *; lia|].
  pose proof (length_mwrite _ _ _ _ E3).
  rewrite (bind_ok _ _ _ _ _ (buf_put32_with _ _ _ _ w E3)).
  assert (mread32 m3 (slot + 12) = Some reserved) as H12'.
  { rewrite (mread32_skip _ _ _ _ _ E3), (mread32_skip _ _ _ _ _ E2), (mread32_skip _ _ _ _ _ E1);
      [done|rewrite zlen_le32; lia..]. }
  rewrite (bind_ok _ _ _ _ _ (buf_get32_with _ _ _ w H12')).
  destruct (mwrite_is_Some m3 (st + 12) (le32 reserved)) as [m4 E4]; [lia|rewrite zlen_le32; unfold zlen in *; lia|].
  pose proof (length_mwrite _ _ _ _ E4).
  rewrite (bind_ok _ _ _ _ _ (buf_put32_with _ _ _ _ w E4)).
  destruct (mwrite_is_Some m4 (st + 16) (le32 op)) as [m5 E5]; [lia|rewrite zlen_le32; unfold zlen in *; lia|].
  rewrite (bind_ok _ _ _ _ _ (buf_put32_with _ _ _ _ w E5)).
  exists m5. split; [|done]. unfold fragment_head.
  rewrite !app_assoc. exact (mwrite_compose _ _ _ _ _ _ (mwrite_compose _ _ _ _ _ _
    (mwrite_compose _ _ _ _ _ _ (mwrite_compose _ _ _ _ _ _ E1 E2) E3) E4) E5).
Qed.

(** Packets written in order, up to the first one the driver does not take
    whole: the calls, the result of the last one and whether all went out. *)
Inductive sends (fd : Z) : list (list Z) -> Z -> list event -> Z -> bool -> Prop :=
| sends_all ret : sends fd [] ret [] ret true
| sends_next p ps ret a evs r b :
    rv a = zlen p -> sends fd ps (rv a) evs r b ->
    sends fd (p :: ps) ret (Ev (Sys_write fd p) a :: evs) r b
| sends_stop p ps ret a :
    rv a <> zlen p -> sends fd (p :: ps) ret [Ev (Sys_write fd p) a] (rv a) false.

(** The head of a fragment and the bytes after it are one read. *)
Lemma read_fragment m st again d0 ch re op chunk m' :
  mread m (st + 20) (zlen chunk) = Some chunk ->
  mwrite m st (fragment_head again d0 ch re op chunk) = Some m' ->
  mread m' st (zlen chunk + 16 + 4) = Some (fragment again d0 ch re op chunk).
Proof.
  intros Hc Hw. replace (zlen chunk + 16 + 4) with (20 + zlen chunk) by lia. unfold fragment.
  apply mread_compose; [|].
  - rewrite <- (zlen_fragment_head again d0 ch re op chunk). by apply (mread_mwrite_same _ _ _ _ Hw).
  - rewrite (mread_mwrite_disjoint _ _ _ _ _ _ Hw); [done|]. rewrite zlen_fragment_head. lia.
Qed.

Lemma fragments_S n d0 ch re op payload :
  payload <> [] ->
  fragments (S n) d0 ch re op payload =
    fragment (zlen payload >? MAX_FS_PKT_BYTE) d0 ch re op (take chunk_size payload)
    :: fragments n d0 ch re op (drop chunk_size payload).
Proof. by destruct payload. Qed.

Lemma fragments_nil n d0 ch re op : fragments n d0 ch re op [] = [].
Proof. by destruct n. Qed.

Lemma chunk_facts (payload : list Z) :
  let chunk := take chunk_size payload in
  zlen chunk = (if zlen payload >? MAX_FS_PKT_BYTE then MAX_FS_PKT_BYTE else zlen payload) /\
  zlen chunk <= MAX_FS_PKT_BYTE /\
  (drop chunk_size payload = [] \/ zlen chunk = MAX_FS_PKT_BYTE).
Proof.
  intros chunk. assert (zlen chunk = Z.min MAX_FS_PKT_BYTE (zlen payload)) as Hc.
  { subst chunk. unfold zlen at 1. rewrite length_take. unfold chunk_size, zlen, MAX_FS_PKT_BYTE. lia. }
  rewrite Hc, Z.gtb_ltb. split; [destruct (Z.ltb_spec MAX_FS_PKT_BYTE (zlen payload)); lia|].
  split; [lia|]. destruct (Z.le_gt_cases (zlen payload) MAX_FS_PKT_BYTE); [left|right; lia].
  apply drop_ge. unfold chunk_size, zlen, MAX_FS_PKT_BYTE in *. lia.
Qed.

Lemma fragments_bound_enough data_len :
  data_len <= Z.of_nat (fragments_bound data_len) * MAX_FS_PKT_BYTE.
Proof.
  unfold fragments_bound, MAX_FS_PKT_BYTE. change (3584 - 128) with 3456.
  pose proof (Z.div_mod data_len 3456). pose proof (Z.mod_pos_bound data_len 3456). lia.
Qed.

Lemma fragments_loop n fd slot op d0 channel reserved data_len payload sent ret w :
  mread32 (buf w) slot = Some d0 -> mread32 (buf w) (slot + 8) = Some channel ->
  mread32 (buf w) (slot + 12) = Some reserved ->
  mread (buf w) (slot + 20 + sent) (zlen payload) = Some payload ->
  sent + zlen payload = data_len -> payload = [] \/ sent = 0 \/ 20 <= sent ->
  zlen payload <= Z.of_nat n * MAX_FS_PKT_BYTE ->
  wp (WriteToMD_fragments n fd slot op data_len sent (slot + 20 + sent) ret)
    (fun r w' => exists evs b, w_trace w' = w_trace w ++ evs /\
      sends fd (fragments n d0 channel reserved op payload) ret evs r b /\
      (b = true -> w_glob w' = w_glob w))
    (fun _ _ => False) w.
Proof.
  revert payload sent ret w. induction n as [|n IH];
    intros payload sent ret w H0 H8 H12 Hp Hlen Hsent Hn; cbn [WriteToMD_fragments].
  all: destruct (Z.ltb_spec sent data_len) as [Hlt|Hge].
  2, 4: destruct payload as [|b payload]; [|unfold zlen in *; simpl in *; lia];
    apply wp_ret; exists [], true; rewrite app_nil_r; (split_and!; [done|by constructor|done]).
  { unfold zlen in *. lia. }
  set (again := data_len - sent >? MAX_FS_PKT_BYTE).
  set (chunk := take chunk_size payload).
  assert (again = (zlen payload >? MAX_FS_PKT_BYTE)) as Hag by (subst again; f_equal; lia).
  destruct (chunk_facts payload) as (Hcl & Hcmax & Hfull). rewrite <- Hag in Hcl. fold chunk in Hcl, Hcmax, Hfull.
  cbv zeta. fold again.
  assert ((if again then MAX_FS_PKT_BYTE else data_len - sent) = zlen chunk) as ->
    by (rewrite Hcl; destruct again; lia).
  assert (payload <> []) as Hne by (intros ->; unfold zlen in Hlen; simpl in *; lia).
  set (rest := drop chunk_size payload) in *.
  assert (payload = chunk ++ rest) as Hpay by (subst chunk rest; by rewrite take_drop).
  pose proof Hp as Hp'. rewrite Hpay in Hp'. apply mread_app_inv in Hp' as [Hc Hrest].
  assert (zlen payload = zlen chunk + zlen rest) as Hpl by (by rewrite Hpay, zlen_app).
  assert (0 <= sent) by (destruct Hsent as [?|?]; [done|lia]).
  destruct (mread_is_Some (buf w) (slot + 20 + sent - 20) 20) as [bak Hbak];
    [apply mread32_Some_range in H0; lia|lia|apply mread_Some in Hp; lia|].
  destruct (PreparePktEx_eq w (slot + 20 + sent) slot op again d0 channel reserved bak chunk)
    as (m & Hm & Hprep); [done..| |done|lia|].
  { destruct Hsent as [->|[-> |]]; [done|left; lia|right; lia]. }
  rewrite fragments_S by done. fold chunk rest. rewrite <- Hag.
  eapply wp_bind_eq; [exact Hprep|]. cbv beta iota. unfold sizeof_CCCI_BUFF_T, sizeof_uint.
  assert (mread m (slot + 20 + sent - 20) (zlen chunk + 16 + 4) =
    Some (fragment again d0 channel reserved op chunk)) as Hpkt.
  { eapply read_fragment; [|exact Hm]. by replace (slot + 20 + sent - 20 + 20) with (slot + 20 + sent) by lia. }
  eapply wp_bind_eq; [exact (buf_read_with _ _ _ _ w Hpkt)|].
  apply wp_bind, wp_sys. intros s r _.
  pose proof (zlen_fragment again d0 channel reserved op chunk) as Hfl.
  destruct (Z.eqb_spec (rv r) (zlen chunk + 16 + 4)) as [Hr|Hr]; cbn [negb].
  - unfold FS_PreparePktDone.
    assert (mwrite m (slot + 20 + sent - 20) bak = Some (buf w)) as Hres.
    { eapply mwrite_restore; [exact Hbak|exact Hm|apply zlen_fragment_head]. }
    eapply wp_bind_eq; [exact (buf_write_eq _ _ (buf w) (answered _ r s (with_buf m w)) Hres)|].
    replace (slot + 20 + sent + zlen chunk) with (slot + 20 + (sent + zlen chunk)) by lia.
    eapply wp_mono; [apply (IH rest); try done| |done].
    + rewrite <- Hrest. f_equal. lia.
    + lia.
    + unfold MAX_FS_PKT_BYTE in *. destruct Hfull; [by left|right; right; lia].
    + destruct Hfull as [->|]; [unfold zlen, MAX_FS_PKT_BYTE in *; simpl; lia|lia].
    + intros r' w' (evs & b & Ht & Hs & Hg). eexists (_ :: evs), b. split_and!.
      * rewrite Ht. simpl. by rewrite <- app_assoc.
      * apply sends_next; [lia|done].
      * intros Hb. rewrite (Hg Hb). exact (f_equal w_glob (with_buf_id w)).
  - apply wp_ret. eexists [_], false. split_and!; [done| |done]. apply sends_stop. lia.
Qed.

(** The payload of an answer: the number of its arguments and the arguments. *)
Definition is_payload (bs : list Z) (args : list (list Z)) : Prop :=
  zlen bs = 4 + args_size args /\ mread32 bs 0 = Some (zlen args) /\ args_at bs 4 args.

(** Claim C25.  A longer answer goes out in fragments, whatever the driver answers
    to them: the calls are writes of the fragments of the payload, in order, up
    to the first one that is not taken whole.  The loop ends, the verdict is
    the sign of the last result, and when all went out the globals are as after
    the answer was built: every header that was overwritten is restored. *)
Theorem WriteToMD_fragmented w fuel DeviceFd BufIndex PackInfo_ src args d0 channel reserved op :
  answer_ready w BufIndex src args d0 channel reserved op ->
  take (length args) PackInfo_ = src -> MAX_FS_PKT_BYTE < 4 + args_size args ->
  exists payload w' evs r b m,
    is_payload payload args /\
    FS_WriteToMD fuel DeviceFd BufIndex PackInfo_ (zlen args) w = (w', Ok (negb (r <? 0))) /\
    w_trace w' = w_trace w ++ evs /\
    sends DeviceFd
      (fragments (fragments_bound (zlen payload)) d0 (u32 (channel + 1)) reserved
         (u32 (Z.lor FS_API_RESP_ID op)) payload) 0 evs r b /\
    (b = true -> w_glob w' = upd_pFsBuf m (w_glob w) /\
      mread m (slot_base (w_glob w) BufIndex + 20) (zlen payload) = Some payload).
Proof.
  intros Hr Hsrc Hsz.
  destruct (WriteToMD_send w fuel DeviceFd BufIndex PackInfo_ src args d0 channel reserved op Hr Hsrc)
    as (m3 & Hl & Hargs & H0 & H8 & H12 & H16 & H20 & ->).
  destruct Hr as [_ _ _ _ _ _ Hlen _ _ Hslot Hsize]. cbv zeta in *.
  set (slot := slot_base (w_glob w) BufIndex) in *.
  pose proof (args_size_nonneg args). pose proof (mread32_Some_range _ _ _ H0).
  destruct (mread_is_Some m3 (slot + 20) (4 + args_size args)) as [payload Hp];
    [lia|lia|unfold zlen in *; lia|].
  pose proof (length_mread _ _ _ _ Hp) as Hpl.
  assert (is_payload payload args) as Hpay.
  { split_and!; [done| |].
    - rewrite (mread32_in _ _ _ _ _ Hp) by lia. by rewrite Z.add_0_r.
    - eapply args_at_in; [exact Hp|lia|lia|done|]. by replace (slot + 20 + 4) with (slot + 24) by lia. }
  exists payload.
  destruct (put32_Some _ (slot + 8) (u32 (channel + 1)) _ _ H8 eq_refl) as [m4 H4].
  unfold send_answer, sizeof_CCCI_BUFF_T, sizeof_uint, sizeof_STREAM_DATA.
  rewrite (bind_ok _ _ _ _ _ (buf_get32_with _ _ _ w H8)).
  rewrite (bind_ok _ _ _ _ _ (buf_put32_with _ _ _ _ w H4)).
  replace (24 + args_size args - 16 - 4) with (zlen payload) by lia.
  destruct (Z.leb_spec (zlen payload) MAX_FS_PKT_BYTE); [lia|].
  assert (forall o, o + 4 <= slot + 8 \/ slot + 12 <= o -> mread32 m4 o = mread32 m3 o) as Hskip.
  { intros o Ho. apply (mread32_skip _ _ _ _ _ H4). rewrite zlen_le32. lia. }
  rewrite (bind_ok _ _ _ _ _ (buf_get32_with (slot + 16) _ m4 w
    (eq_trans (Hskip (slot + 16) ltac:(lia)) H16))).
  assert (mread m4 (slot + 20 + 0) (zlen payload) = Some payload) as Hp4.
  { rewrite Z.add_0_r, (mread_mwrite_disjoint _ _ _ _ _ _ H4) by (rewrite zlen_le32; lia). by rewrite Hpl. }
  pose proof (mread32_put _ _ _ _ H4) as Hch. rewrite u32_u32 in Hch.
  rewrite <- (Z.add_0_r (slot + 20)).
  pose proof (fragments_loop (fragments_bound (zlen payload)) DeviceFd slot
    (u32 (Z.lor FS_API_RESP_ID op)) d0 (u32 (channel + 1)) reserved (zlen payload) payload 0 0
    (with_buf m4 w) (eq_trans (Hskip slot ltac:(lia)) H0) Hch
    (eq_trans (Hskip (slot + 12) ltac:(lia)) H12) Hp4 eq_refl (or_intror (or_introl eq_refl))
    (fragments_bound_enough _)) as Hwp.
  unfold wp in Hwp. destruct (WriteToMD_fragments _ _ _ _ _ _ _ _ _) as [w' [r|]] eqn:E; [|done].
  destruct Hwp as (evs & b & Ht & Hs & Hg). rewrite (bind_ok _ _ _ _ _ E).
  exists w', evs, r, b, m4. split_and!; try done. intros Hb. by split; [apply Hg|].
Qed.
End Fragments.

(** ** Reassembly *)

(** The reception of a sequence of packets for one slot, as [receive] does it. *)
Fixpoint feed `{OS} (ReqBufIndex : Z) (pkts : list (list Z)) : prog fsd unit :=
  match pkts with
  | [] => mret tt
  | p :: ps =>
      pkt_buff ← popt OutOfBounds (packet_buffer p);
      reassemble pkt_buff ReqBufIndex (de32 (take 4 pkt_buff)) (de32 (take 4 (drop 4 pkt_buff)));;
      feed ReqBufIndex ps
  end.

Lemma land_u32 x : u32 x = Z.land x (Z.ones 32).
Proof. unfold u32. by rewrite Z.land_ones. Qed.

Lemma fragment_d0_again again d0 :
  has_bits (u32 (fragment_d0 again d0)) CCCI_FS_REQ_SEND_AGAIN = again.
Proof.
  unfold has_bits, fragment_d0. rewrite land_u32, <- Z.land_assoc.
  change (Z.land (Z.ones 32) CCCI_FS_REQ_SEND_AGAIN) with CCCI_FS_REQ_SEND_AGAIN.
  destruct again.
  - assert (Z.land (Z.lor d0 CCCI_FS_REQ_SEND_AGAIN) CCCI_FS_REQ_SEND_AGAIN = CCCI_FS_REQ_SEND_AGAIN) as ->; [|done].
    apply Z.bits_inj'. intros n _. rewrite Z.land_spec, Z.lor_spec. by destruct (Z.testbit d0 n), (Z.testbit _ n).
  - by rewrite <- Z.land_assoc, Z.land_0_r.
Qed.

Section Reassembly.
Context `{OS}.

(** The buffer a packet arrives in. *)
Lemma packet_buffer_fragment again d0 ch re op chunk :
  zlen chunk <= MAX_FS_PKT_BYTE ->
  exists pkt,
    packet_buffer (fragment again d0 ch re op chunk) = Some pkt /\
    de32 (take 4 pkt) = u32 (fragment_d0 again d0) /\
    de32 (take 4 (drop 4 pkt)) = zlen chunk + 20 /\
    mread pkt 0 (zlen chunk + 20) = Some (fragment again d0 ch re op chunk) /\
    mread pkt 20 (zlen chunk) = Some chunk /\
    mread pkt 0 16 = Some (take 16 (fragment_head again d0 ch re op chunk)).
Proof.
  intros Hc. set (p := fragment again d0 ch re op chunk).
  pose proof (zlen_fragment again d0 ch re op chunk) as Hl. fold p in Hl.
  pose proof (zlen_nonneg chunk). unfold MAX_FS_PKT_BYTE in Hc.
  set (pkt := p ++ drop (length p) (replicate (Z.to_nat MAX_FS_BUF_BYTE) 0)). exists pkt. split_and!.
  - apply mwrite_Some. unfold zlen in *. rewrite length_replicate. change (Z.to_nat MAX_FS_BUF_BYTE) with 4096%nat.
    split_and!; [lia|lia|done].
  - change (take 4 pkt) with (le32 (fragment_d0 again d0)). apply de32_le32.
  - change (take 4 (drop 4 pkt)) with (le32 (u32 (zlen chunk + 16 + 4))). rewrite de32_le32, u32_u32, u32_small; lia.
  - replace (zlen chunk + 20) with (zlen p) by lia. apply (mread_app []).
  - subst pkt p. unfold fragment. rewrite <- app_assoc. rewrite <- (zlen_fragment_head again d0 ch re op chunk).
    apply mread_app.
  - apply mread_Some. subst pkt. rewrite zlen_app.
    pose proof (zlen_nonneg (drop (length p) (replicate (Z.to_nat MAX_FS_BUF_BYTE) 0))).
    split_and!; [lia..|reflexivity].
Qed.

Lemma copy_packet_eq pkt dst src len bs m w :
  mread pkt src len = Some bs -> mwrite (buf w) dst bs = Some m ->
  copy_packet pkt dst src len w = (with_buf m w, Ok tt).
Proof.
  intros Hr Hw. unfold copy_packet. rewrite Hr.
  rewrite (bind_ok _ _ w w bs) by done. by apply buf_write_eq.
Qed.

(** The state of a slot and the buffer after a fragment. *)
Definition slot_world (i st off : Z) (m : list Z) (w : world fsd) : world fsd :=
  set_glob (set_slot i st off (upd_pFsBuf m (w_glob w))) w.

Lemma slot_world_twice i st off m st' off' m' w :
  slot_world i st off m (slot_world i st' off' m' w) = slot_world i st off m w.
Proof.
  unfold slot_world, set_slot, upd_pFsBuf, set_glob. simpl. by rewrite !list_insert_insert_eq.
Qed.

Definition has_slot (i : Z) (w : world fsd) : Prop :=
  (Z.to_nat i < length (fs_buff_state (g_FsInfo (w_glob w))))%nat /\
  (Z.to_nat i < length (fs_buff_offset (g_FsInfo (w_glob w))))%nat.

Lemma slot_world_state i st off m w :
  has_slot i w ->
  slot_state (w_glob (slot_world i st off m w)) i = st /\
  slot_offset (w_glob (slot_world i st off m w)) i = off /\ has_slot i (slot_world i st off m w).
Proof.
  intros [H1 H2]. unfold slot_state, slot_offset, has_slot. simpl.
  rewrite !list_lookup_insert_eq by done. by rewrite !length_insert.
Qed.

(** A fragment for an idle slot goes to the start of the slot. *)
Lemma reassemble_idle w i again d0 ch re op chunk pkt :
  slot_state (w_glob w) i = FS_BUFF_IDLE -> slot_offset (w_glob w) i = 0 ->
  let p := fragment again d0 ch re op chunk in
  let base := slot_base (w_glob w) i in
  packet_buffer p = Some pkt -> zlen chunk <= MAX_FS_PKT_BYTE ->
  base + 20 + zlen chunk <= zlen (buf w) ->
  exists m, mwrite (buf w) base p = Some m /\
    reassemble pkt i (de32 (take 4 pkt)) (de32 (take 4 (drop 4 pkt))) w =
      ((if again then slot_world i FS_BUFF_WAIT (20 + zlen chunk) m w
        else slot_world i FS_BUFF_IDLE 0 m w), Ok tt).
Proof.
  intros Hst Hoff p base Hpkt Hc Hfit.
  destruct (packet_buffer_fragment again d0 ch re op chunk Hc) as (pkt' & Hz & Hd0 & Hd1 & Hall & _ & _).
  unfold p in Hpkt. rewrite Hpkt in Hz. injection Hz as <-.
  pose proof (zlen_fragment again d0 ch re op chunk) as Hl. fold p in Hl.
  pose proof (zlen_nonneg chunk). pose proof (u32_range ((FS_MAX_BUF_SIZE (w_glob w) + sizeof_STREAM_DATA) * i)) as Hb.
  fold (slot_base (w_glob w) i) in Hb. fold base in Hb.
  destruct (mwrite_is_Some (buf w) base p) as [m Hm]; [lia|lia|].
  exists m. split; [done|]. unfold reassemble. rewrite (bind_ok _ _ w w (w_glob w)) by done.
  rewrite Hd0, Hd1, fragment_d0_again, Hst. fold base. change (FS_BUFF_IDLE =? FS_BUFF_IDLE) with true. cbv iota.
  destruct again; cbn [negb].
  - rewrite (bind_ok _ _ _ _ _ (copy_packet_eq _ _ _ _ _ _ _ Hall Hm)).
    unfold pmod. f_equal. unfold slot_world. rewrite Hoff, (u32_small (0 + _)) by (unfold MAX_FS_PKT_BYTE in *; lia).
    by replace (0 + (zlen chunk + 20)) with (20 + zlen chunk) by lia.
  - rewrite (bind_ok _ _ _ _ _ (copy_packet_eq _ _ _ _ _ _ _ Hall Hm)). reflexivity.
Qed.

(** A fragment for a waiting slot goes after what the slot holds; the last one
    also brings the header of the whole request. *)
Lemma reassemble_wait w i again d0 ch re op chunk pkt off :
  slot_state (w_glob w) i = FS_BUFF_WAIT -> slot_offset (w_glob w) i = off -> 20 <= off ->
  let base := slot_base (w_glob w) i in
  packet_buffer (fragment again d0 ch re op chunk) = Some pkt -> zlen chunk <= MAX_FS_PKT_BYTE ->
  base + off + zlen chunk <= zlen (buf w) -> off + zlen chunk < 2 ^ 32 -> 0 < zlen chunk ->
  exists m, mwrite (buf w) (base + off) chunk = Some m /\
    reassemble pkt i (de32 (take 4 pkt)) (de32 (take 4 (drop 4 pkt))) w =
      (if again then (slot_world i FS_BUFF_WAIT (off + zlen chunk) m w, Ok tt)
       else match mwrite m base (take 16 (fragment_head again d0 ch re op chunk)) with
            | Some m' => (slot_world i FS_BUFF_IDLE 0 m' w, Ok tt)
            | None => (with_buf m w, Halt OutOfBounds)
            end).
Proof.
  intros Hst Hoff Ho base Hpkt Hc Hfit Hsz Hpos.
  destruct (packet_buffer_fragment again d0 ch re op chunk Hc) as (pkt' & Hz & Hd0 & Hd1 & _ & Hch & Hhd).
  rewrite Hpkt in Hz. injection Hz as <-.
  pose proof (u32_range ((FS_MAX_BUF_SIZE (w_glob w) + sizeof_STREAM_DATA) * i)) as Hb.
  fold (slot_base (w_glob w) i) in Hb. fold base in Hb.
  destruct (mwrite_is_Some (buf w) (base + off) chunk) as [m Hm]; [lia|lia|].
  exists m. split; [done|]. unfold reassemble. rewrite (bind_ok _ _ w w (w_glob w)) by done.
  rewrite Hd0, Hd1, fragment_d0_again, Hst, Hoff. fold base.
  change (FS_BUFF_WAIT =? FS_BUFF_IDLE) with false. change (FS_BUFF_WAIT =? FS_BUFF_WAIT) with true.
  unfold sizeof_CCCI_BUFF_T, sizeof_uint. change (16 + 4) with 20.
  replace (zlen chunk + 20 - 20) with (zlen chunk) by lia.
  destruct again; cbn [negb]; cbv iota.
  - cbv zeta. rewrite (u32_small (zlen chunk)) by lia.
    rewrite (bind_ok _ _ _ _ _ (copy_packet_eq _ _ _ _ _ _ _ Hch Hm)).
    unfold pmod, slot_world. by rewrite u32_small by lia.
  - rewrite Z.gtb_ltb. destruct (Z.ltb_spec 20 (zlen chunk + 20)); [|lia].
    unfold mbind at 1, prog_bind at 1. rewrite (bind_ok _ _ _ _ _ (copy_packet_eq _ _ _ _ _ _ _ Hch Hm)).
    destruct (mwrite m base _) as [m'|] eqn:Hw.
    + rewrite <- (buf_with_buf m w) in Hw. rewrite (copy_packet_eq _ _ _ _ _ m' (with_buf m w) Hhd Hw). reflexivity.
    + unfold copy_packet, buf_write. rewrite Hhd. unfold mbind, prog_bind, popt, mret, prog_ret, pget.
      change (shared (w_glob (with_buf m w))) with m. by rewrite Hw.
Qed.

(** The header of the request is replaced, what follows it is kept. *)
Lemma replace_header m base h hd op payload m' :
  mread m base (20 + zlen payload) = Some ((h ++ le32 op) ++ payload) ->
  zlen h = 16 -> zlen hd = 16 -> mwrite m base hd = Some m' ->
  mread m' base (20 + zlen payload) = Some ((hd ++ le32 op) ++ payload).
Proof.
  intros Hm Hh Hhd Hw. rewrite <- app_assoc in *. pose proof (zlen_nonneg payload).
  replace (20 + zlen payload) with (zlen (h ++ le32 op ++ payload)) in Hm
    by (rewrite !zlen_app, zlen_le32; lia).
  apply mread_app_inv in Hm as [_ Htail].
  replace (20 + zlen payload) with (zlen hd + zlen (le32 op ++ payload))
    by (rewrite zlen_app, zlen_le32; lia).
  apply mread_compose; [exact (mread_mwrite_same _ _ _ _ Hw)|].
  rewrite (mread_mwrite_disjoint _ _ _ _ _ _ Hw) by lia. by rewrite Hhd, <- Hh.
Qed.

(** What a slot holds while it waits for the rest of a request, and afterwards. *)
Lemma feed_wait n i base d0 ch re op payload done_ h w :
  slot_state (w_glob w) i = FS_BUFF_WAIT -> slot_offset (w_glob w) i = 20 + zlen done_ ->
  has_slot i w -> base = slot_base (w_glob w) i ->
  zlen h = 16 -> mread (buf w) base (20 + zlen done_) = Some ((h ++ le32 op) ++ done_) ->
  payload <> [] -> zlen payload <= Z.of_nat n * MAX_FS_PKT_BYTE ->
  base + 20 + zlen done_ + zlen payload <= zlen (buf w) -> 20 + zlen done_ + zlen payload < 2 ^ 32 ->
  exists m last,
    feed i (fragments n d0 ch re op payload) w = (slot_world i FS_BUFF_IDLE 0 m w, Ok tt) /\
    mread m base (20 + zlen (done_ ++ payload)) =
      Some (fragment_head false d0 ch re op last ++ done_ ++ payload) /\
    same_outside base (base + 20 + zlen done_ + zlen payload) (buf w) m.
Proof.
  revert payload done_ h w. induction n as [|n IH];
    intros payload done_ h w Hst Hoff Hslot Hbase Hh Hm Hne Hn Hfit Hsz.
  { destruct payload; [done|]. unfold zlen in *. simpl in *. lia. }
  rewrite fragments_S by done. cbn [feed].
  destruct (chunk_facts payload) as (Hcl & Hcmax & Hfull).
  set (chunk := take chunk_size payload) in *. set (rest := drop chunk_size payload) in *.
  assert (payload = chunk ++ rest) as Hpay by (subst chunk rest; by rewrite take_drop).
  assert (zlen payload = zlen chunk + zlen rest) as Hpl by (by rewrite Hpay, zlen_app).
  set (again := zlen payload >? MAX_FS_PKT_BYTE) in *.
  destruct (packet_buffer_fragment again d0 ch re op chunk Hcmax) as (pkt & Hpkt & _).
  rewrite Hpkt. rewrite (bind_ok _ _ w w pkt) by done.
  pose proof (zlen_nonneg rest). pose proof (zlen_nonneg done_).
  assert (0 < zlen payload) by (destruct payload; [done|unfold zlen; simpl; lia]).
  destruct (reassemble_wait w i again d0 ch re op chunk pkt (20 + zlen done_))
    as (m & Hw & Hrun); [done|done|lia|done|done|rewrite <- Hbase; lia|lia| |].
  { rewrite Hcl. destruct again; [done|lia]. }
  rewrite <- Hbase in Hw, Hrun.
  assert (zlen m = zlen (buf w)) as Hml by (unfold zlen; by rewrite (length_mwrite _ _ _ _ Hw)).
  assert (mread m base (20 + zlen (done_ ++ chunk)) = Some ((h ++ le32 op) ++ done_ ++ chunk)) as Hm'.
  { rewrite zlen_app, Z.add_assoc, app_assoc. apply mread_compose.
    - rewrite (mread_mwrite_disjoint _ _ _ _ _ _ Hw) by lia. done.
    - rewrite Z.add_assoc in Hw. rewrite Z.add_assoc. by apply (mread_mwrite_same _ _ _ _ Hw). }
  destruct again eqn:Hag.
  - destruct (slot_world_state i FS_BUFF_WAIT (20 + zlen done_ + zlen chunk) m w Hslot) as (Hst' & Hoff' & Hslot').
    destruct (IH rest (done_ ++ chunk) h _ Hst') as (m2 & last & Hfeed & Hread & Hout);
      [rewrite Hoff', zlen_app; lia|done|by rewrite Hbase|done|done| | | | |].
    + intros Hr. unfold again in Hag. rewrite Z.gtb_ltb in Hag. zbool.
      rewrite Hr in Hpl. unfold zlen in *. simpl in *. lia.
    + lia.
    + change (buf (slot_world _ _ _ m w)) with m. rewrite zlen_app, Hml. lia.
    + rewrite zlen_app. lia.
    + exists m2, last. rewrite (bind_ok _ _ _ _ _ Hrun), Hfeed, slot_world_twice. split_and!; [done| |].
      * by rewrite Hpay, !app_assoc in *.
      * rewrite zlen_app in Hout. replace (base + 20 + zlen done_ + zlen payload)
          with (base + 20 + (zlen done_ + zlen chunk) + zlen rest) by lia.
        eapply same_outside_write; [exact Hw|lia|lia|exact Hout].
  - assert (rest = []) as Hrest.
    { destruct (rest) eqn:E; [done|]. unfold zlen in *. simpl in *. lia. }
    clearbody again chunk rest. rewrite Hrest, app_nil_r in Hpay. subst payload rest.
    set (hd := take 16 (fragment_head false d0 ch re op chunk)) in *.
    destruct (mwrite_is_Some m base hd) as [m2 Hw2]; [apply mread_Some in Hm; lia|unfold zlen in *; simpl; lia|].
    rewrite Hw2 in Hrun. exists m2, chunk. rewrite (bind_ok _ _ _ _ _ Hrun), fragments_nil.
    split_and!; [done| |].
    + change (fragment_head false d0 ch re op chunk) with (hd ++ le32 op).
      by apply (replace_header m base h hd op (done_ ++ chunk) m2).
    + eapply same_outside_write; [exact Hw|lia|lia|].
      eapply same_outside_write; [exact Hw2|lia| |apply same_outside_refl].
      change (zlen hd) with 16. lia.
Qed.

(** Claim C14.  The reassembly inverts the fragmentation: when the fragments of a
    payload arrive in order for an idle slot that can hold it, the slot ends
    idle and holds the payload after the header of the last fragment, without
    the bit that announces more; no other memory is touched. *)
Theorem reassembly_inverts i n d0 ch re op payload w :
  let base := slot_base (w_glob w) i in
  slot_state (w_glob w) i = FS_BUFF_IDLE -> slot_offset (w_glob w) i = 0 -> has_slot i w ->
  payload <> [] -> zlen payload <= Z.of_nat n * MAX_FS_PKT_BYTE ->
  base + 20 + zlen payload <= zlen (buf w) -> 20 + zlen payload < 2 ^ 32 ->
  exists m last,
    feed i (fragments n d0 ch re op payload) w = (slot_world i FS_BUFF_IDLE 0 m w, Ok tt) /\
    mread m base (20 + zlen payload) = Some (fragment_head false d0 ch re op last ++ payload) /\
    same_outside base (base + 20 + zlen payload) (buf w) m.
Proof.
  intros base Hst Hoff Hslot Hne Hn Hfit Hsz.
  destruct n as [|n]; [destruct payload; [done|unfold zlen in *; simpl in *; lia]|].
  rewrite fragments_S by done. cbn [feed].
  destruct (chunk_facts payload) as (Hcl & Hcmax & Hfull).
  set (chunk := take chunk_size payload) in *. set (rest := drop chunk_size payload) in *.
  assert (payload = chunk ++ rest) as Hpay by (subst chunk rest; by rewrite take_drop).
  assert (zlen payload = zlen chunk + zlen rest) as Hpl by (by rewrite Hpay, zlen_app).
  set (again := zlen payload >? MAX_FS_PKT_BYTE) in *.
  destruct (packet_buffer_fragment again d0 ch re op chunk Hcmax) as (pkt & Hpkt & _).
  rewrite Hpkt. rewrite (bind_ok _ _ w w pkt) by done.
  pose proof (zlen_nonneg rest). pose proof (zlen_nonneg chunk).
  destruct (reassemble_idle w i again d0 ch re op chunk pkt Hst Hoff Hpkt Hcmax) as (m & Hw & Hrun);
    [fold base; lia|]. fold base in Hw.
  rewrite (bind_ok _ _ _ _ _ Hrun).
  pose proof (mread_mwrite_same _ _ _ _ Hw) as Hread. rewrite zlen_fragment in Hread.
  assert (zlen m = zlen (buf w)) as Hml by (unfold zlen; by rewrite (length_mwrite _ _ _ _ Hw)).
  pose proof (zlen_fragment again d0 ch re op chunk) as Hfl.
  destruct again eqn:Hag.
  - destruct (slot_world_state i FS_BUFF_WAIT (20 + zlen chunk) m w Hslot) as (Hst' & Hoff' & Hslot').
    destruct (feed_wait n i base d0 ch re op rest chunk (take 16 (fragment_head true d0 ch re op chunk)) _
      Hst' Hoff' Hslot') as (m2 & last & Hfeed & Hread2 & Hout); try done.
    + intros Hr. unfold again in Hag. rewrite Z.gtb_ltb in Hag. zbool.
      rewrite Hr in Hpl. unfold zlen in *. simpl in *. lia.
    + lia.
    + change (buf (slot_world _ _ _ m w)) with m. lia.
    + lia.
    + exists m2, last. rewrite Hfeed, slot_world_twice. rewrite Hpay. split_and!; [done|done|].
      rewrite zlen_app, Z.add_assoc. eapply same_outside_write; [exact Hw|lia|lia|exact Hout].
  - assert (rest = []) as Hrest.
    { destruct (rest) eqn:E; [done|]. unfold zlen in *. simpl in *. lia. }
    clearbody again chunk rest. rewrite Hrest, app_nil_r in Hpay. subst payload rest.
    exists m, chunk. rewrite fragments_nil. split_and!; [done|done|]. eapply same_outside_write; [exact Hw|lia|lia|apply same_outside_refl].
Qed.
End Reassembly.

(** ** Concrete runs *)

Definition demo_request_args : list (list Z) := [demo_name; le32 FS_CREATE].

Lemma GetPackInfo_args_witness :
  FS_GetPackInfo_mem 6 512 (demo_args demo_request_args) 0 (replicate 6 (PacketInfo 0 PUninit)) =
    Some (true, [PacketInfo 24 (PBuf 8); PacketInfo 4 (PBuf 36)] ++ replicate 4 (PacketInfo 0 PUninit)).
Proof.
  rewrite (GetPackInfo_args 6 512 (demo_args demo_request_args) 0 demo_request_args
    (replicate 6 (PacketInfo 0 PUninit))); [vm_compute; reflexivity|vm_compute; reflexivity| | | | |].
  - vm_compute. auto 10.
  - repeat constructor; discriminate.
  - vm_compute. discriminate.
  - vm_compute. lia.
  - vm_compute. split; [discriminate|reflexivity].
Defined.

(** A request of eight bytes with an argument of 4 GB. *)
Lemma GetPackInfo_wraps_witness :
  let m := le32 1 ++ le32 0xFFFFFFFF in
  FS_GetPackInfo_mem 6 512 m 0 [PacketInfo 0 PUninit] = Some (true, [PacketInfo 0xFFFFFFFF (PBuf 8)]).
Proof.
  intros m. rewrite (GetPackInfo_wraps 6 512 m 0 0xFFFFFFFF); try (vm_compute; done).
Defined.

(** The state an answer is built from, by computation. *)
Ltac ready :=
  constructor;
  lazymatch goal with
  | |- Forall _ _ => apply Forall_singleton; vm_compute; reflexivity
  | |- sources_at _ _ _ _ => vm_compute; split; reflexivity
  | |- _ <= _ => vm_compute; discriminate
  | |- _ => vm_compute; reflexivity
  end.

Lemma WriteToMD_single_witness :
  exists m bs,
    FS_WriteToMD 5 dev_fd 0 [PacketInfo 4 (PVar V_RetVal)] 1 demo_world =
      write_retry 5 dev_fd bs (with_buf m demo_world) /\
    is_packet bs 0 1 0 FS_API_RESP_ID [le32 0].
Proof.
  apply (WriteToMD_single demo_world 5 dev_fd 0 [PacketInfo 4 (PVar V_RetVal)]
    [PacketInfo 4 (PVar V_RetVal)] [le32 0] 0 0 0 0).
  - ready.
  - reflexivity.
  - vm_compute. discriminate.
Defined.

(** Slots of the real size, and an argument that needs two fragments. *)
Definition big_world : world fsd :=
  mem_world demo_fs (set_FS_MAX_BUF_SIZE 16584
    (upd_pFsBuf (replicate (Z.to_nat (5 * 16604)) 0) demo_fsd)).

Definition big_arg : list Z := replicate 4000 0.

Lemma WriteToMD_fragmented_witness :
  exists payload w' evs r b m,
    is_payload payload [big_arg] /\
    FS_WriteToMD 5 dev_fd 0 [PacketInfo 4000 (PBuf 28)] 1 big_world = (w', Ok (negb (r <? 0))) /\
    w_trace w' = evs /\
    sends dev_fd (fragments (fragments_bound (zlen payload)) 0 1 0 0xFFFF0000 payload) 0 evs r b /\
    (b = true -> w_glob w' = upd_pFsBuf m (w_glob big_world) /\
      mread m 20 (zlen payload) = Some payload).
Proof.
  apply (WriteToMD_fragmented big_world 5 dev_fd 0 [PacketInfo 4000 (PBuf 28)]
    [PacketInfo 4000 (PBuf 28)] [big_arg] 0 0 0 0).
  - ready.
  - reflexivity.
  - vm_compute. reflexivity.
Defined.

Lemma reassembly_inverts_witness :
  exists m last,
    feed 2 (fragments 2 0 1 0 7 (replicate 4000 9)) big_world = (slot_world 2 FS_BUFF_IDLE 0 m big_world, Ok tt) /\
    mread m (2 * 16604) 4020 = Some (fragment_head false 0 1 0 7 last ++ replicate 4000 9) /\
    same_outside (2 * 16604) (2 * 16604 + 4020) (buf big_world) m.
Proof.
  apply (reassembly_inverts 2 2 0 1 0 7 (replicate 4000 9) big_world); try (vm_compute; done).
  vm_compute. lia.
Defined.
