(* ===== verification/FsdWalk.v ===== *)
(** * ccci_fsd: the recursive search counts a directory tree

    The interface [TreeOS] states how the kernel presents a directory tree that
    nobody changes during the walk: streams of names, and what [stat] says of
    the paths.  Against it, [FS_RecursiveSearch] terminates and computes two
    functions of the tree, the number of the entries asked for and their
    clusters.  The in-memory file system is an instance. *)
From S2P Require Import Prelude Posix MemFs Wire FsdTypes FsdStrings FsdPath FsdDemo FsdHandle FsdDir.

(** ** Trees and what the search means on them *)

Inductive entry :=
| EDot (name : list Z)                       (** [.] or [..] *)
| EFile (name : list Z) (size : Z)           (** a regular file *)
| EDir (name : list Z) (sub : list entry)    (** a directory *)
| EOther (name : list Z).                    (** a name [stat] fails on, or a special file *)

Definition e_name (e : entry) : list Z :=
  match e with EDot n | EFile n _ | EDir n _ | EOther n => n end.

Fixpoint e_size (e : entry) : nat :=
  match e with EDir _ sub => S (sum_list_with e_size sub) | _ => 1%nat end.

(** The iterations of the [readdir] loops along a path of the tree. *)
Definition need (es : list entry) : nat := S (sum_list_with e_size es).

Definition sumZ {A} (f : A -> Z) : list A -> Z := foldr (fun x acc => f x + acc) 0.

(** The entries asked for by [Flag]. *)
Fixpoint e_count (Flag : Z) (e : entry) : Z :=
  match e with
  | EFile _ _ => if has_bits Flag FS_FILE_TYPE then 1 else 0
  | EDir _ sub =>
      (if has_bits Flag FS_DIR_TYPE then 1 else 0) +
      (if has_bits Flag FS_RECURSIVE_TYPE then sumZ (e_count Flag) sub else 0)
  | _ => 0
  end.

(** The clusters of the files asked for: a cluster more than the size fills. *)
Fixpoint e_clusters (Flag ClusterSize : Z) (e : entry) : Z :=
  match e with
  | EFile _ size =>
      if has_bits Flag FS_FILE_TYPE && ((size >? 0) && (ClusterSize >? 0))
      then Z.quot size ClusterSize + 1 else 0
  | EDir _ sub =>
      if has_bits Flag FS_RECURSIVE_TYPE then sumZ (e_clusters Flag ClusterSize) sub else 0
  | _ => 0
  end.

(** ** The kernel's side *)

Class TreeOS `{OS} := {
  t_inv : os_st -> Prop;
  t_stream : os_st -> Z -> option (list (list Z));   (** the names a stream has left *)
  t_names : list Z -> option (list (list Z));        (** the names in a directory *)
  t_stat : list Z -> ires * stat_t;
  t_bsize : Z;
  t_opendir s p ns : t_inv s -> t_names p = Some ns ->
    exists s' d e, os_do (Sys_opendir p) s = (s', IRes d e) /\ d <> 0 /\ t_inv s' /\
      t_stream s d = None /\ t_stream s' d = Some ns /\
      forall d', d' <> d -> t_stream s' d' = t_stream s d';
  t_readdir s d ns : t_inv s -> t_stream s d = Some ns ->
    exists s', os_do (Sys_readdir d) s = (s', head ns) /\ t_inv s' /\
      t_stream s' d = Some (tail ns) /\ forall d', d' <> d -> t_stream s' d' = t_stream s d';
  t_closedir s d ns : t_inv s -> t_stream s d = Some ns ->
    exists s' r, os_do (Sys_closedir d) s = (s', r) /\ t_inv s' /\
      forall d', d' <> d -> t_stream s' d' = t_stream s d';
  t_stat_law s p : t_inv s ->
    exists s', os_do (Sys_stat p) s = (s', t_stat p) /\ t_inv s' /\
      forall d, t_stream s' d = t_stream s d;
  t_statfs s p : t_inv s ->
    exists s' r n, os_do (Sys_statfs p) s = (s', (r, Statfs t_bsize n)) /\ rv r <> -1 /\ t_inv s' /\
      forall d, t_stream s' d = t_stream s d
}.

Section Walk.
Context `{TreeOS}.

(** The entry [e] of the directory [dir] is what the kernel shows. *)
Fixpoint shows (dir : list Z) (e : entry) : Prop :=
  entry_too_long dir (e_name e) = false /\
  let '(r, st) := t_stat (entry_path dir (e_name e)) in
  let is_dir := has_bits (st_mode st) S_IFDIR in
  let is_reg := has_bits (st_mode st) S_IFREG in
  match e with
  | EDot n => rv r <> -1 /\ is_dot_entry n = true /\ is_reg = false
  | EFile n size => rv r <> -1 /\ is_dir = false /\ is_reg = true /\ st_size st = size
  | EDir n sub => rv r <> -1 /\ is_dot_entry n = false /\ is_dir = true /\
      t_names (entry_path dir n) = Some (e_name <$> sub) /\
      (fix all es := match es with [] => True | x :: es' => shows (entry_path dir n) x /\ all es' end) sub
  | EOther n => rv r = -1 \/ is_dir = false /\ is_reg = false
  end.

Fixpoint shows_all (dir : list Z) (es : list entry) : Prop :=
  match es with [] => True | e :: es' => shows dir e /\ shows_all dir es' end.

(** The walk leaves the tree, the globals and the other open streams alone. *)
Definition same_streams (s s' : os_st) : Prop :=
  forall d, is_Some (t_stream s d) -> t_stream s' d = t_stream s d.

Definition walked_over (w w' : world fsd) (d : Z) : Prop :=
  t_inv (w_os w') /\ w_glob w' = w_glob w /\
  forall d', d' <> d -> is_Some (t_stream (w_os w) d') -> t_stream (w_os w') d' = t_stream (w_os w) d'.

Lemma sumZ_nonneg {A} (f : A -> Z) l : (forall x, 0 <= f x) -> 0 <= sumZ f l.
Proof. intros Hf. induction l as [|x l IH]; simpl; [done|]. specialize (Hf x). lia. Qed.

Lemma e_count_nonneg Flag : forall e, 0 <= e_count Flag e.
Proof.
  fix IH 1. intros [n|n size|n sub|n]; simpl; try done; [by case_match|].
  assert (0 <= sumZ (e_count Flag) sub); [|by repeat case_match; lia].
  induction sub as [|e sub IHsub]; simpl; [done|]. pose proof (IH e). lia.
Qed.

Lemma e_clusters_nonneg Flag cs : forall e, 0 <= e_clusters Flag cs e.
Proof.
  fix IH 1. intros [n|n size|n sub|n]; simpl; try done.
  - destruct (has_bits Flag FS_FILE_TYPE), (Z.gtb_spec size 0), (Z.gtb_spec cs 0); simpl; try done.
    pose proof (Z.quot_pos size cs). lia.
  - case_match; [|done]. induction sub as [|e sub IHsub]; simpl; [done|]. pose proof (IH e). lia.
Qed.

(** [wp] with the answer of a call that the interface fixes. *)
Lemma psys_ok {T} (c : sys T) (w : world fsd) s r :
  os_do c (w_os w) = (s, r) -> psys c w = (answered c r s w, Ok r).
Proof. apply psys_eq. Qed.

(** The size of a cluster, from any drive. *)
Lemma cluster_size_eq drv i w :
  drive_index 0 DrvIdx drv = Some i -> t_inv (w_os w) ->
  exists w', FS_CCCI_GetClusterSize drv w = (w', Ok (i32 t_bsize)) /\ t_inv (w_os w') /\
    w_glob w' = w_glob w /\ forall d, t_stream (w_os w') d = t_stream (w_os w) d.
Proof.
  intros Hdrv Hinv.
  destruct (t_statfs (w_os w) (default [] (FsRootDir (w_glob w) !! i)) Hinv)
    as (s' & r & n & Hos & Hr & Hinv' & Hst).
  unfold FS_CCCI_GetClusterSize. rewrite (bind_ok _ _ w w (w_glob w)) by done.
  rewrite Hdrv.
  rewrite (bind_ok _ _ _ _ _ (psys_ok _ _ _ _ Hos)).
  destruct (Z.eqb_spec (rv r) (-1)); [done|]. by eexists.
Qed.

(** What a call of the search has to do for the sub-trees it meets. *)
Definition search_spec (Flag cs : Z) (run : Z -> list Z -> Z -> Z -> Z -> prog fsd (Z * Z))
    (fuel : nat) : Prop :=
  forall es dir d found cc w,
    t_inv (w_os w) -> t_stream (w_os w) d = Some (e_name <$> es) -> shows_all dir es ->
    (need es <= fuel)%nat -> 0 <= found -> found + sumZ (e_count Flag) es < 2 ^ 31 ->
    0 <= cc -> cc + sumZ (e_clusters Flag cs) es < 2 ^ 32 ->
    exists w', run d dir cs found cc w =
        (w', Ok (found + sumZ (e_count Flag) es, cc + sumZ (e_clusters Flag cs) es)) /\
      walked_over w w' d /\ t_stream (w_os w') d = Some [].

(** A directory: its stream is opened, walked and closed. *)
Lemma search_with Flag run fuel es dir w :
  search_spec Flag (i32 t_bsize) run fuel ->
  t_inv (w_os w) -> t_names dir = Some (e_name <$> es) -> shows_all dir es -> (need es <= fuel)%nat ->
  sumZ (e_count Flag) es < 2 ^ 31 -> sumZ (e_clusters Flag (i32 t_bsize)) es < 2 ^ 32 ->
  exists w', FS_RecursiveSearch_with run dir 0 w =
      (w', Ok (sumZ (e_count Flag) es, sumZ (e_clusters Flag (i32 t_bsize)) es)) /\
    t_inv (w_os w') /\ w_glob w' = w_glob w /\ same_streams (w_os w) (w_os w').
Proof.
  intros Hrun Hinv Hn Hsh Hf Hc Hcl. unfold FS_RecursiveSearch_with.
  destruct (cluster_size_eq 90 0 w eq_refl Hinv) as (w1 & E1 & Hinv1 & Hg1 & Hst1).
  rewrite (bind_ok _ _ _ _ _ E1).
  destruct (t_opendir _ _ _ Hinv1 Hn) as (s2 & d & e & Hos & Hd & Hinv2 & Hfresh & Hst2 & Hother2).
  rewrite (bind_ok _ _ _ _ _ (psys_ok _ _ _ _ Hos)). cbn [rv].
  destruct (Z.eqb_spec d 0); [done|].
  destruct (Hrun es dir d 0 0 (answered (Sys_opendir dir) (IRes d e) s2 w1))
    as (w3 & E3 & (Hinv3 & Hg3 & Hother3) & Hst3); try done.
  rewrite (bind_ok _ _ _ _ _ E3). cbv beta iota.
  destruct (t_closedir _ _ _ Hinv3 Hst3) as (s4 & r & Hos4 & Hinv4 & Hother4).
  rewrite (bind_ok _ _ _ _ _ (psys_ok _ _ _ _ Hos4)).
  eexists. split; [done|]. split; [done|]. split; [by rewrite <- Hg1; apply Hg3|].
  intros d' [x Hx]. simpl. rewrite <- Hst1 in Hx.
  assert (d' <> d) by congruence.
  rewrite Hother4, Hother3; [|done|by simpl; rewrite Hother2; [eexists|]|done].
  simpl. by rewrite Hother2, Hst1.
Qed.

Lemma search_loop_spec Flag fuel :
  search_spec Flag (i32 t_bsize) (FS_RecursiveSearch_loop fuel Flag) fuel.
Proof.
  induction fuel as [|fuel IH]; intros es dir d found cc w Hinv Hst Hsh Hf Hfound Hbf Hcc Hbc;
    [unfold need in Hf; lia|]. cbn [FS_RecursiveSearch_loop].
  destruct (t_readdir _ _ _ Hinv Hst) as (s1 & Hos1 & Hinv1 & Hst1 & Hoth1).
  rewrite (bind_ok _ _ _ _ _ (psys_ok _ _ _ _ Hos1)). set (w1 := answered _ _ s1 w).
  destruct es as [|e es]; simpl in Hst1.
  { cbn [fmap list_fmap head]. rewrite i32_small by (simpl in *; lia). simpl. rewrite !Z.add_0_r.
    eexists. unfold walked_over. split_and!; try done. intros d' Hd _. by apply Hoth1. }
  cbn [fmap list_fmap head]. destruct Hsh as [He Hsh].
  assert (shows dir e) as He' by done.
  simpl in Hbf, Hbc. pose proof (e_count_nonneg Flag e). pose proof (e_clusters_nonneg Flag (i32 t_bsize) e).
  pose proof (sumZ_nonneg _ es (e_count_nonneg Flag)).
  pose proof (sumZ_nonneg _ es (e_clusters_nonneg Flag (i32 t_bsize))).
  assert (entry_too_long dir (e_name e) = false) as -> by (destruct e; apply He).
  destruct (t_stat_law s1 (entry_path dir (e_name e)) Hinv1) as (s2 & Hos2 & Hinv2 & Hst2).
  rewrite (bind_ok _ _ _ _ _ (psys_ok _ w1 _ _ Hos2)). set (w2 := answered _ _ s2 w1).
  destruct (t_stat (entry_path dir (e_name e))) as [r st] eqn:Est.
  assert (same_streams s1 s2) as Hs12 by (intros x _; apply Hst2).
  assert (forall n c w3, t_inv (w_os w3) -> w_glob w3 = w_glob w -> same_streams s2 (w_os w3) ->
    n = e_count Flag e -> c = e_clusters Flag (i32 t_bsize) e ->
    exists w', FS_RecursiveSearch_loop fuel Flag d dir (i32 t_bsize) (found + n) (cc + c) w3 =
      (w', Ok (found + (e_count Flag e + sumZ (e_count Flag) es),
               cc + (e_clusters Flag (i32 t_bsize) e + sumZ (e_clusters Flag (i32 t_bsize)) es))) /\
      walked_over w w' d /\ t_stream (w_os w') d = Some []) as Hcont.
  { intros n c w3 Hinv3 Hg3 Hs3 -> ->.
    assert (t_stream (w_os w3) d = Some (e_name <$> es)) as Hst3.
    { rewrite Hs3; rewrite Hst2, Hst1; [done|by eexists]. }
    destruct (IH es dir d (found + e_count Flag e) (cc + e_clusters Flag (i32 t_bsize) e) w3)
      as (w' & E' & (Hi' & Hg' & Hs') & Hd'); try done; try lia.
    { unfold need in *. simpl in Hf. destruct e; simpl in Hf; lia. }
    exists w'. rewrite E', <- !Z.add_assoc. unfold walked_over. split_and!; try done; [congruence|].
    intros d' Hd [x Hx]. assert (t_stream s2 d' = Some x) by (by rewrite Hst2, Hoth1).
    rewrite Hs' by (done || (rewrite Hs3; by eexists)). rewrite Hs3 by (by eexists). congruence. }
  cbv beta iota.
  assert (same_streams s2 (w_os w2)) as Hs2 by done.
  assert (FS_RecursiveSearch_loop fuel Flag d dir (i32 t_bsize) found cc =
     FS_RecursiveSearch_loop fuel Flag d dir (i32 t_bsize) (found + 0) (cc + 0)) as Hz
    by (by rewrite !Z.add_0_r).
  destruct e as [n|n size|n sub|n]; simpl in He; cbn [e_name] in *; rewrite Est in He.
  - destruct He as (_ & Hr & Hdot & Hreg). destruct (Z.eqb_spec (rv r) (-1)); [done|].
    rewrite Hdot, andb_false_r, Hreg. rewrite Hz. by apply Hcont.
  - destruct He as (_ & Hr & Hdir & Hreg & Hsize). destruct (Z.eqb_spec (rv r) (-1)); [done|].
    rewrite Hdir, Hreg. cbn [andb]. rewrite Hsize. cbn [e_count e_clusters sumZ foldr] in *.
    destruct (has_bits Flag FS_FILE_TYPE); cbn [andb] in *; [|rewrite Hz; by apply Hcont].
    rewrite u32_small by lia. destruct ((size >? 0) && (i32 t_bsize >? 0)).
    + rewrite u32_small by lia. by apply Hcont.
    + specialize (Hcont 1 0). rewrite (Z.add_0_r cc) in Hcont. by apply Hcont.
  - destruct He as (_ & Hr & Hdot & Hdir & Hn & Hsub). destruct (Z.eqb_spec (rv r) (-1)); [done|].
    rewrite Hdot, Hdir. cbn [andb negb]. cbn [e_count e_clusters sumZ foldr] in *.
    assert ((if has_bits Flag FS_DIR_TYPE then u32 (found + 1) else found) =
      found + (if has_bits Flag FS_DIR_TYPE then 1 else 0)) as ->.
    { case_match; [apply u32_small; repeat case_match; lia|lia]. }
    destruct (has_bits Flag FS_RECURSIVE_TYPE).
    + assert (shows_all (entry_path dir n) sub) as Hsub'.
      { clear -Hsub. induction sub as [|x sub IHsub]; simpl in *; [done|]. destruct Hsub. by split; auto. }
      pose proof (sumZ_nonneg _ sub (e_count_nonneg Flag)).
      pose proof (sumZ_nonneg _ sub (e_clusters_nonneg Flag (i32 t_bsize))).
      assert (0 <= (if has_bits Flag FS_DIR_TYPE then 1 else 0)) by (by case_match).
      destruct (search_with Flag _ fuel sub (entry_path dir n) w2 IH Hinv2 Hn Hsub')
        as (w3 & E3 & Hinv3 & Hg3 & Hs3); [unfold need in *; simpl in Hf; lia|lia|lia|].
      rewrite (bind_ok _ _ _ _ _ E3). cbv beta iota.
      destruct (Z.ltb_spec (sumZ (e_count Flag) sub) 0); [lia|].
      rewrite !u32_small, <- Z.add_assoc by lia. apply Hcont; done.
    + specialize (Hcont (if has_bits Flag FS_DIR_TYPE then 1 else 0) 0).
      rewrite (Z.add_0_r cc), !Z.add_0_r in *. by apply Hcont.
  - destruct He as [_ Hn]. destruct (Z.eqb_spec (rv r) (-1)); [|destruct Hn as [?|[Hdir Hreg]]; [done|]; rewrite Hdir, Hreg; cbn [andb]];
      rewrite Hz; by apply Hcont.
Qed.

(** A name of the modem that stands for the directory [dir] with entries [es]. *)
Record names_dir (w : world fsd) (name : list Z) (dir : list Z) (es : list entry) : Prop := {
  nd_path : exists r out i,
    FS_ConvWcsToCs name = Some (r, out) /\ resolve (FsRootDir (w_glob w)) (cstring out) = RPath i dir;
  nd_inv : t_inv (w_os w);
  nd_stat : rv (t_stat dir).1 <> -1;
  nd_mode : has_bits (st_mode (t_stat dir).2) S_IFDIR = true;
  nd_names : t_names dir = Some (e_name <$> es);
  nd_shows : shows_all dir es
}.

(** What the client operations do before the walk. *)
Lemma with_path_dir w name dir es :
  names_dir w name dir es ->
  exists i, (i < 8)%nat /\
    forall k : nat -> list Z -> prog fsd Z, with_path name (fun _ i p => k i p) w = k i dir w.
Proof.
  intros [(r & out & i & Hc & Hr) _ _ _ _ _]. exists i. split.
  - pose proof (resolve_from_spec 0 MdRootDir (FsRootDir (w_glob w)) (cstring out)) as Hs.
    unfold resolve in Hr. rewrite Hr in Hs. destruct Hs as (k & d & root & rest & -> & Hd & _).
    by apply lookup_lt_Some in Hd.
  - intros k. unfold with_path, conv_name. rewrite Hc.
    unfold mbind, prog_bind, popt, mret, prog_ret, pget. by rewrite Hr.
Qed.

Lemma with_dir_eq w name dir es (k : prog fsd Z) :
  names_dir w name dir es ->
  exists w', with_dir dir k w = k w' /\ t_inv (w_os w') /\ w_glob w' = w_glob w /\
    same_streams (w_os w) (w_os w').
Proof.
  intros [_ Hinv Hst Hmode _ _]. destruct (t_stat_law _ dir Hinv) as (s' & Hos & Hinv' & Hs').
  unfold with_dir. rewrite (bind_ok _ _ _ _ _ (psys_ok _ _ _ _ Hos)).
  destruct (t_stat dir) as [r st]. simpl in Hst, Hmode. destruct (Z.eqb_spec (rv r) (-1)); [done|].
  rewrite Hmode. cbn [negb]. eexists. split; [done|]. split; [done|]. split; [done|]. intros d _. apply Hs'.
Qed.

Lemma drive_index_DrvIdx i : (i < 8)%nat -> drive_index 0 DrvIdx (default 0 (DrvIdx !! i)) = Some i.
Proof. intros Hi. do 8 (destruct i as [|i]; [done|]). lia. Qed.

(** The walk from a resolved directory. *)
Lemma search_dir w name dir es Flag fuel w1 :
  names_dir w name dir es -> t_inv (w_os w1) -> (need es <= fuel)%nat ->
  sumZ (e_count Flag) es < 2 ^ 31 -> sumZ (e_clusters Flag (i32 t_bsize)) es < 2 ^ 32 ->
  exists w', FS_RecursiveSearch fuel dir Flag 0 w1 =
      (w', Ok (sumZ (e_count Flag) es, sumZ (e_clusters Flag (i32 t_bsize)) es)) /\
    w_glob w' = w_glob w1 /\ same_streams (w_os w1) (w_os w').
Proof.
  intros [_ _ _ _ Hn Hsh] Hinv Hf H1 H2.
  destruct (search_with Flag _ fuel es dir w1 (search_loop_spec Flag fuel) Hinv Hn Hsh Hf H1 H2)
    as (w' & E & _ & Hg & Hs). by exists w'.
Qed.

(** On a directory tree that does not change during the walk, with
    fuel for its entries, [FS_CCCI_Count] terminates and answers the number of
    the files and directories asked for; the globals and the streams that were
    open are left alone. *)
Theorem count_counts w name dir es Flag fuel :
  names_dir w name dir es -> (need es <= fuel)%nat ->
  sumZ (e_count Flag) es < 2 ^ 31 -> sumZ (e_clusters Flag (i32 t_bsize)) es < 2 ^ 32 ->
  exists w', FS_CCCI_Count fuel name Flag w = (w', Ok (sumZ (e_count Flag) es)) /\
    w_glob w' = w_glob w /\ same_streams (w_os w) (w_os w').
Proof.
  intros Hnd Hf H1 H2. destruct (with_path_dir _ _ _ _ Hnd) as (i & _ & Hp).
  unfold FS_CCCI_Count. rewrite Hp.
  destruct (with_dir_eq w name dir es
    ('(ret, _) ← FS_RecursiveSearch fuel dir Flag 0; mret ret) Hnd) as (w1 & -> & Hi1 & Hg1 & Hs1).
  destruct (search_dir w name dir es Flag fuel w1 Hnd Hi1 Hf H1 H2) as (w' & E & Hg & Hs).
  rewrite (bind_ok _ _ _ _ _ E). exists w'. split_and!; [done|congruence|].
  intros d Hd. rewrite Hs by (by rewrite Hs1). by apply Hs1.
Qed.

(** On such a tree [FS_CCCI_GetFolderSize] answers the clusters of all
    the files below the directory, or their bytes. *)
Theorem folder_size_sums w name dir es Flag fuel :
  let all := Z.lor (Z.lor FS_FILE_TYPE FS_DIR_TYPE) FS_RECURSIVE_TYPE in
  let clusters := sumZ (e_clusters all (i32 t_bsize)) es in
  names_dir w name dir es -> (need es <= fuel)%nat ->
  sumZ (e_count all) es < 2 ^ 31 -> clusters < 2 ^ 32 ->
  exists w', FS_CCCI_GetFolderSize fuel name Flag w =
    (w', Ok (if Flag =? FS_COUNT_IN_CLUSTER then i32 clusters else i32 (clusters * u32 (i32 t_bsize)))) /\
    w_glob w' = w_glob w /\ same_streams (w_os w) (w_os w').
Proof.
  intros all clusters Hnd Hf H1 H2. destruct (with_path_dir _ _ _ _ Hnd) as (i & Hi & Hp).
  unfold FS_CCCI_GetFolderSize. rewrite Hp.
  destruct (cluster_size_eq _ i w (drive_index_DrvIdx i Hi) (nd_inv _ _ _ _ Hnd)) as (w1 & E1 & Hi1 & Hg1 & Hs1).
  rewrite (bind_ok _ _ _ _ _ E1).
  assert (names_dir w1 name dir es) as Hnd1.
  { destruct Hnd. constructor; try done. by rewrite Hg1. }
  edestruct (with_dir_eq w1 name dir es) as (w2 & E2 & Hi2 & Hg2 & Hs2); [exact Hnd1|].
  rewrite E2.
  destruct (search_dir w name dir es all fuel w2 Hnd Hi2 Hf H1 H2) as (w' & E & Hg & Hs).
  change (Z.lor (Z.lor FS_FILE_TYPE FS_DIR_TYPE) FS_RECURSIVE_TYPE) with all.
  rewrite (bind_ok _ _ _ _ _ E). cbv beta iota.
  pose proof (sumZ_nonneg _ es (e_count_nonneg all)).
  destruct (Z.ltb_spec (sumZ (e_count all) es) 0); [lia|].
  exists w'. split; [by case_match|]. split; [congruence|].
  intros d [x Hx]. rewrite <- Hs1 in Hx. rewrite Hs, Hs2 by (rewrite ?Hs2; by eexists). apply Hs1.
Qed.
End Walk.

(** ** The in-memory file system is such a tree *)

(** The states with the files [N]: the streams come from [next_fd]. *)
Definition mem_inv (N : list (list Z * node)) (s : memfs) : Prop :=
  nodes s = N /\ Forall (fun e => e.1 < next_fd s) (streams s) /\ 0 < next_fd s.

#[export, refine] Instance MemTree (N : list (list Z * node)) : TreeOS := {|
  t_inv := mem_inv N;
  t_stream s d := zassoc d (streams s);
  t_names p := match assoc p N with
               | Some NDir => Some (lit "." :: lit ".." :: children p N)
               | _ => None
               end;
  t_stat p := match assoc p N with
              | Some n => (MemFs.ok 0, stat_of n)
              | None => (MemFs.fail 2, stat_none)
              end;
  t_bsize := 4096
|}.
Proof.
  - intros s p ns (HN & Hk & Hp) Hn. simpl. rewrite HN. destruct (assoc p N) as [[]|]; try done.
    injection Hn as <-. eexists _, _, _. split; [reflexivity|]. simpl. split_and!; try done.
    + lia.
    + split_and!; try done; simpl; [|lia]. constructor; [simpl; lia|].
      eapply Forall_impl; [exact Hk|]. simpl. lia.
    + by apply zassoc_fresh.
    + by rewrite Z.eqb_refl.
    + intros d' Hd. by destruct (Z.eqb_spec d' (next_fd s)).
  - intros s d ns (HN & Hk & Hp) Hn. simpl. rewrite Hn. destruct ns as [|n l].
    + eexists. split; [done|]. simpl. by rewrite Hn.
    + eexists. split; [done|]. simpl. rewrite Z.eqb_refl. split_and!; try done.
      * split_and!; try done. simpl. constructor; [|by apply zremove_keys]. simpl.
        destruct (Z.lt_ge_cases d (next_fd s)) as [|Hge]; [done|].
        rewrite zassoc_fresh in Hn; [done|]. eapply Forall_impl; [exact Hk|]. simpl. lia.
      * intros d' Hd. destruct (Z.eqb_spec d' d); [done|]. rewrite zassoc_zremove.
        by destruct (Z.eqb_spec d' d).
  - intros s d ns (HN & Hk & Hp) Hn. simpl. rewrite Hn. eexists _, _. split; [done|].
    split; [split_and!; try done; by apply zremove_keys|].
    intros d' Hd. simpl. rewrite zassoc_zremove. by destruct (Z.eqb_spec d' d).
  - intros s p (HN & Hk & Hp). eexists. simpl. rewrite HN. done.
  - intros s p Hinv. by eexists _, _, _.
Defined.

(** ** Concrete runs *)

(** The directory of the demonstration. *)
Definition demo_tree : list entry :=
  [EOther (lit "."); EOther (lit ".."); EFile (lit "A") 1;
   EDir (lit "SUB") [EOther (lit "."); EOther (lit ".."); EFile (lit "B") 2]].

Definition demo_dir_name : list Z := wcs_of (lit "Z:\NVD").

Lemma demo_names_dir : names_dir (H0 := MemTree (nodes demo_fs)) demo_world demo_dir_name demo_dir demo_tree.
Proof.
  constructor; [|by vm_compute..|].
  - eexists _, _, _. split; vm_compute; reflexivity.
  - vm_compute. repeat first [apply conj | exact I | reflexivity | discriminate | left; reflexivity].
Qed.

Lemma count_counts_witness :
  exists w', FS_CCCI_Count 20 demo_dir_name 28 demo_world = (w', Ok 3) /\ w_glob w' = demo_fsd.
Proof.
  destruct (count_counts (H0 := MemTree (nodes demo_fs)) demo_world demo_dir_name demo_dir demo_tree 28 20 demo_names_dir)
    as (w' & E & Hg & _); [vm_compute; lia|vm_compute; reflexivity|vm_compute; reflexivity|].
  exists w'. split; [exact E|exact Hg].
Defined.

Lemma folder_size_sums_witness :
  exists w', FS_CCCI_GetFolderSize 20 demo_dir_name 0 demo_world = (w', Ok 8192) /\ w_glob w' = demo_fsd.
Proof.
  destruct (folder_size_sums (H0 := MemTree (nodes demo_fs)) demo_world demo_dir_name demo_dir demo_tree 0 20 demo_names_dir)
    as (w' & E & Hg & _); [vm_compute; lia|vm_compute; reflexivity|vm_compute; reflexivity|].
  exists w'. split; [exact E|exact Hg].
Defined.
