(* ===== verification/OtpDisk.v ===== *)
(** * libstorage_otp: the regions of a block device

    The interface [BlockDev] states what a storage driver does to the bytes of
    the device, its disk.  Against it, reading and writing a range of a user's
    region are a read and a write of the same range of the disk: the
    read-modify-write of unaligned ranges touches no byte outside it.  A disk in
    the globals of a program is an instance. *)
From S2P Require Import Prelude Posix MemFs OtpStorage.

(** ** Windows *)

Lemma u64_small x : 0 <= x < 2 ^ 64 -> u64 x = x.
Proof. intros; unfold u64; by apply Z.mod_small. Qed.

(** Rounding up to a multiple. *)
Lemma round_up blk x :
  0 < blk -> 0 <= x ->
  let y := if x mod blk =? 0 then x else x + (blk - x mod blk) in
  y mod blk = 0 /\ x <= y < x + blk.
Proof.
  intros Hb Hx y. pose proof (Z.mod_pos_bound x blk Hb). pose proof (Z.div_mod x blk).
  subst y. destruct (Z.eqb_spec (x mod blk) 0); [lia|]. split; [|lia].
  replace (x + (blk - x mod blk)) with ((x / blk + 1) * blk) by lia. apply Z.mod_mul. lia.
Qed.

(** The window of a range is the smallest run of whole blocks that covers it. *)
Lemma window_spec blk offset size o s :
  0 < blk < 2 ^ 32 -> 0 <= offset < 2 ^ 62 -> 0 <= size < 2 ^ 62 ->
  otp_window blk offset size = (o, s) ->
  o mod blk = 0 /\ s mod blk = 0 /\ o = offset - offset mod blk /\
  offset mod blk + size <= s < offset mod blk + size + blk.
Proof.
  intros Hb Ho Hs Hw. unfold otp_window in Hw.
  pose proof (Z.mod_pos_bound offset blk ltac:(lia)) as Hm.
  pose proof (Z.div_mod offset blk ltac:(lia)) as Hd.
  pose proof (Z.mod_le offset blk ltac:(lia) ltac:(lia)).
  set (t := if offset mod blk =? 0 then size else u64 (size + offset mod blk)) in *.
  assert (t = offset mod blk + size) as Ht.
  { subst t. destruct (Z.eqb_spec (offset mod blk) 0); [lia|]. rewrite u64_small by lia. lia. }
  pose proof (round_up blk t ltac:(lia) ltac:(lia)) as Hr. cbv zeta in Hr.
  injection Hw as <- <-.
  assert ((if offset mod blk =? 0 then offset else u64 (offset - offset mod blk)) = offset - offset mod blk) as ->.
  { destruct (Z.eqb_spec (offset mod blk) 0); [lia|]. apply u64_small. lia. }
  assert ((if t mod blk =? 0 then t else u64 (t + (blk - t mod blk))) =
    if t mod blk =? 0 then t else t + (blk - t mod blk)) as ->.
  { destruct (Z.eqb_spec (t mod blk) 0); [done|]. apply u64_small.
    pose proof (Z.mod_pos_bound t blk ltac:(lia)). lia. }
  split; [|split; [apply Hr|lia]].
  replace (offset - offset mod blk) with (offset / blk * blk) by lia. apply Z.mod_mul. lia.
Qed.

(** Blocks and bytes of the window of an accepted range. *)
Lemma window_blocks blk offset len o s :
  0 < blk < 2 ^ 32 -> 0 <= offset -> 0 <= len -> offset + len < 2 ^ 31 ->
  otp_window blk offset len = (o, s) ->
  exists k, s = k * blk /\ 0 <= k < 2 ^ 32 /\ u32 (o / blk) = offset / blk /\ u32 (s / blk) = k /\
    u32 (offset / blk + k) = offset / blk + k /\ offset / blk + k = (offset + len + blk - 1) / blk /\
    offset mod blk + len <= s.
Proof.
  intros Hb Ho Hl Hlen Hw.
  destruct (window_spec blk offset len o s Hb ltac:(lia) ltac:(lia) Hw) as (Hom & Hsm & Hoe & Hs).
  pose proof (Z.mod_pos_bound offset blk ltac:(lia)) as Hm.
  pose proof (Z.div_mod offset blk ltac:(lia)) as Hd.
  pose proof (Z.div_mod s blk ltac:(lia)) as Hsd. rewrite Hsm, Z.add_0_r in Hsd.
  assert (0 <= offset / blk) by (apply Z.div_pos; lia). assert (0 <= s / blk) by (apply Z.div_pos; lia).
  assert (offset / blk <= offset) by (apply Z.div_le_upper_bound; nia).
  assert (s / blk <= offset + len + 1).
  { destruct (Z.eq_dec (s / blk) 0); [lia|]. nia. }
  exists (s / blk). assert (o / blk = offset / blk) as ->.
  { replace o with (offset / blk * blk) by lia. apply Z.div_mul. lia. }
  rewrite !u32_small by lia. split_and!; try lia.
  apply Z.div_unique_pos with (r := (offset + len + blk - 1) - blk * (offset / blk + s / blk)); lia.
Qed.
Lemma mwrite_all m bs : zlen m = zlen bs -> mwrite m 0 bs = Some bs.
Proof.
  intros Hl. apply mwrite_Some. split_and!; [lia|lia|]. simpl.
  rewrite drop_ge by (unfold zlen in *; simpl; lia). by rewrite app_nil_r.
Qed.

Section Disk.
Context `{OS} {X : Type}.

(** The driver of [d] behind a disk. *)
Class BlockDev (d : otp X) (rd : list Z -> Z -> Z -> prog X (Z * list Z))
    (wr : list Z -> Z -> Z -> prog X Z) := {
  disk : world X -> list Z;
  bd_rd : block_read d = Some rd;
  bd_wr : block_write d = Some wr;
  bd_dev_read : dev_read d = None;
  bd_dev_write : dev_write d = None;
  bd_malloc n w : exists w', psys (Sys_malloc n) w = (w', Ok true) /\ disk w' = disk w;
  bd_read buf b n w bs :
    zlen buf = n * blk_sz d -> mread (disk w) (b * blk_sz d) (n * blk_sz d) = Some bs ->
    exists w', rd buf b n w = (w', Ok (0, bs)) /\ disk w' = disk w;
  bd_write buf b n w m :
    zlen buf = n * blk_sz d -> mwrite (disk w) (b * blk_sz d) buf = Some m ->
    exists w', wr buf b n w = (w', Ok 0) /\ disk w' = m
}.

Context (d : otp X) (rd : list Z -> Z -> Z -> prog X (Z * list Z)) (wr : list Z -> Z -> Z -> prog X Z).
Context `{!BlockDev d rd wr}.
Context (junk : Z -> list Z).

(** A range that the library accepts: in blocks, strictly inside the region,
    which starts at a block and is on the disk. *)
Record in_region (w : world X) (offset len : Z) (start_ size_ : Z) : Prop := {
  ir_region : otp_get_region junk d = (0, (start_, size_));
  ir_junk n : 0 <= n -> zlen (junk n) = n;
  ir_blk : 0 < blk_sz d < 2 ^ 32;
  ir_start : start_ mod blk_sz d = 0 /\ 0 < start_ < 2 ^ 62;
  ir_range : 0 <= offset /\ 0 <= len /\ offset + len < 2 ^ 31;
  ir_inside : (offset + len + blk_sz d - 1) / blk_sz d < size_ / blk_sz d;
  ir_disk : start_ + (offset + len + blk_sz d - 1) / blk_sz d * blk_sz d <= zlen (disk w)
}.


(** What both directions share: the checks pass, and the run of blocks of the
    window is on the disk. *)
Lemma ops_enter w offset len start_ size_ type buffer :
  in_region w offset len start_ size_ ->
  exists w1 o s k B,
    otp_window (blk_sz d) offset len = (o, s) /\ s = k * blk_sz d /\ 0 <= k /\
    offset mod blk_sz d + len <= s < offset mod blk_sz d + len + blk_sz d /\ disk w1 = disk w /\
    0 <= B /\ B * blk_sz d + offset mod blk_sz d = start_ + offset /\
    B * blk_sz d + k * blk_sz d <= zlen (disk w) /\
    otp_ops_read_write junk type d buffer offset len w =
      (if type =? 0 then
         (buffer_tmp ← (if negb (offset mod blk_sz d =? 0) || negb (len mod blk_sz d =? 0)
                        then '(_, b) ← rd (junk s) B k; mret b else mret (junk s));
          src ← popt OutOfBounds (mread buffer 0 len);
          buffer_tmp ← popt OutOfBounds (mwrite buffer_tmp (offset mod blk_sz d) src);
          ret ← wr buffer_tmp B k;
          mret (ret, buffer)) w1
       else
         ('(ret, b) ← rd (junk s) B k;
          bs ← popt OutOfBounds (mread b (offset mod blk_sz d) len);
          buffer ← popt OutOfBounds (mwrite buffer 0 bs);
          mret (ret, buffer)) w1).
Proof.
  intros [Hreg Hj Hblk [Hst Hst0] (Ho & Hl & Hol) Hin Hdk].
  destruct (otp_window (blk_sz d) offset len) as [o s] eqn:Hw.
  destruct (window_blocks _ _ _ _ _ Hblk Ho Hl Hol Hw) as (k & Hs & Hk & Hob & Hsb & Hsu & Hsum & Hcov).
  destruct (window_spec (blk_sz d) offset len o s Hblk ltac:(lia) ltac:(lia) Hw) as (Hom & Hsm & _ & Hmin).
  destruct (bd_malloc s w) as (w1 & Hmal & Hd1).
  pose proof (Z.div_mod start_ (blk_sz d) ltac:(lia)) as Hsd. rewrite Hst, Z.add_0_r in Hsd.
  pose proof (Z.div_mod offset (blk_sz d) ltac:(lia)) as Hod.
  assert (0 <= offset / blk_sz d) by (apply Z.div_pos; lia).
  assert (0 < start_ / blk_sz d) by nia.
  assert (offset / blk_sz d <= offset) by (apply Z.div_le_upper_bound; nia).
  assert (start_ / blk_sz d <= start_) by (apply Z.div_le_upper_bound; nia).
  set (B := start_ / blk_sz d + offset / blk_sz d).
  assert (B * blk_sz d + offset mod blk_sz d = start_ + offset) as HB by (subst B; lia).
  assert (B * blk_sz d + k * blk_sz d <= zlen (disk w)) as Hfit.
  { rewrite <- Hsum in Hdk. subst B. lia. }
  exists w1, o, s, k, B. do 5 (split; [done || lia|]). split; [subst B; lia|]. do 2 (split; [done|]).
  unfold otp_ops_read_write. rewrite bd_rd, bd_wr.
  destruct (Z.eqb_spec (blk_sz d) 0); [lia|]. rewrite Hw, Hom, Hsm. cbn [Z.eqb negb orb].
  rewrite (bind_ok _ _ _ _ _ Hmal), Hob, Hsb, Hreg. cbv beta iota.
  rewrite Hsu, Hsum, Z.geb_leb.
  destruct (Z.leb_spec (size_ / blk_sz d) ((offset + len + blk_sz d - 1) / blk_sz d)); [lia|].
  rewrite andb_false_r, bd_dev_write, bd_dev_read. cbn [negb]. fold B.
  rewrite (u64_small B) by (subst B; lia). by case_match.
Qed.

(** Reading a range of the region reads the same range of the disk,
    which is left as it was. *)
Theorem otp_read_disk w offset len start_ size_ buffer :
  in_region w offset len start_ size_ -> len <= zlen buffer ->
  exists w' bs m, otp_read junk d buffer offset len w = (w', Ok (0, m)) /\
    mread (disk w) (start_ + offset) len = Some bs /\ mwrite buffer 0 bs = Some m /\ disk w' = disk w.
Proof.
  intros Hin Hbuf.
  destruct (ops_enter w offset len start_ size_ 1 buffer Hin)
    as (w1 & o & s & k & B & _ & Hs & Hk & Hcov & Hd1 & HB0 & HB & Hfit & Hrun).
  destruct Hin as [_ Hj Hblk _ (Ho & Hl & _) _ _].
  pose proof (Z.mod_pos_bound offset (blk_sz d) ltac:(lia)) as Hm.
  destruct (mread_is_Some (disk w) (B * blk_sz d) s) as [b Hb]; [nia|nia|lia|].
  destruct (bd_read (junk s) B k w1 b) as (w2 & Hrd & Hd2); [rewrite Hj; nia|by rewrite Hd1, <- Hs|].
  unfold otp_read. rewrite Hrun. change (1 =? 0) with false. cbv iota.
  rewrite (bind_ok _ _ _ _ _ Hrd). cbv beta iota.
  pose proof (mread_sub _ _ _ _ (offset mod blk_sz d) len Hb ltac:(lia) ltac:(lia) ltac:(lia)) as Hsub.
  pose proof (mread_in _ _ _ _ (offset mod blk_sz d) len Hb ltac:(lia) ltac:(lia) ltac:(lia)) as Hin.
  rewrite HB in *. rewrite Hin, Hsub. simpl popt.
  set (bs := take _ _) in *.
  destruct (mwrite_is_Some buffer 0 bs) as [m Hmw];
    [lia|rewrite (length_mread _ _ _ _ Hsub); lia|].
  exists w2, bs, m. split_and!; [|done|done|congruence].
  unfold mbind, prog_bind, mret, prog_ret, popt. by rewrite Hmw.
Qed.

(** Claim C32.  Writing a range of the region writes the same range of the disk,
    and no byte outside it, also when the range is not made of whole blocks. *)
Theorem otp_write_disk w offset len start_ size_ buffer src :
  in_region w offset len start_ size_ -> mread buffer 0 len = Some src ->
  exists w' m, otp_ops_read_write junk 0 d buffer offset len w = (w', Ok (0, buffer)) /\
    mwrite (disk w) (start_ + offset) src = Some m /\ disk w' = m.
Proof.
  intros Hin Hsrc.
  destruct (ops_enter w offset len start_ size_ 0 buffer Hin)
    as (w1 & o & s & k & B & _ & Hs & Hk & Hcov & Hd1 & HB0 & HB & Hfit & Hrun).
  destruct Hin as [_ Hj Hblk _ (Ho & Hl & _) _ _].
  pose proof (Z.mod_pos_bound offset (blk_sz d) ltac:(lia)) as Hm.
  pose proof (length_mread _ _ _ _ Hsrc) as Hsl.
  destruct (mread_is_Some (disk w) (B * blk_sz d) s) as [b Hb]; [nia|nia|lia|].
  pose proof (length_mread _ _ _ _ Hb) as Hbl.
  set (prepare := if negb (offset mod blk_sz d =? 0) || negb (len mod blk_sz d =? 0) then _ else _) in Hrun.
  assert (exists w2 b1 b2, prepare w1 = (w2, Ok b1) /\ disk w2 = disk w /\
    mwrite b1 (offset mod blk_sz d) src = Some b2 /\ mwrite b (offset mod blk_sz d) src = Some b2)
    as (w2 & b1 & b2 & Hprep & Hd2 & Hb1 & Hb2).
  { destruct (mwrite_is_Some b (offset mod blk_sz d) src) as [b2 Hb2]; [lia|lia|].
    subst prepare. destruct (negb _ || negb _) eqn:Hal.
    - destruct (bd_read (junk s) B k w1 b) as (w2 & Hrd & Hd2); [rewrite Hj; nia|by rewrite Hd1, <- Hs|].
      exists w2, b, b2. rewrite (bind_ok _ _ _ _ _ Hrd). split_and!; [done|congruence|done|done].
    - apply orb_false_iff in Hal as [Ha1 Ha2]. zbool. assert (s = len) as Hsl'.
      { pose proof (Z.div_mod len (blk_sz d) ltac:(lia)). assert (k = len / blk_sz d) by nia. lia. }
      exists w1, (junk s), src. rewrite Ha1. split_and!; [done|done| |]; apply mwrite_all; rewrite ?Hj; lia. }
  assert (zlen b2 = s) as Hb2l by (unfold zlen in *; rewrite (length_mwrite _ _ _ _ Hb2); lia).
  destruct (mwrite_is_Some (disk w) (B * blk_sz d) b2) as [m Hmw]; [nia|lia|].
  destruct (bd_write b2 B k w2 m) as (w3 & Hwr & Hd3); [lia|by rewrite Hd2|].
  exists w3, m. split_and!; [|rewrite <- HB; by eapply mwrite_within|done].
  rewrite Hrun. change (0 =? 0) with true. cbv iota.
  rewrite (bind_ok _ _ _ _ _ Hprep), Hsrc.
  rewrite (bind_ok _ _ w2 w2 src), Hb1, (bind_ok _ _ w2 w2 b2) by done.
  by rewrite (bind_ok _ _ _ _ _ Hwr).
Qed.
End Disk.

(** The regions of the users follow each other inside the partition. *)
Lemma otp_regions_lookup start_ grp i :
  0 <= i < 4 -> 0 <= start_ -> 0 <= grp -> start_ + 4 * grp < 2 ^ 64 ->
  otp_regions start_ grp !! Z.to_nat i = Some (OtpRegion i (start_ + i * grp) grp).
Proof.
  intros Hi Hs Hg Hb. unfold otp_regions. rewrite list_lookup_fmap, lookup_seqZ_lt by (unfold MAX_USER_NUM; lia).
  cbn [fmap option_fmap option_map]. rewrite Z2Nat.id, Z.add_0_l by lia. rewrite (u64_small (i * grp)) by nia. rewrite u64_small by nia. done.
Qed.

(** ** A disk in memory *)

(** The in-memory environment with memory that never runs out. *)
Definition rich_do {T} (c : sys T) (s : memfs) : memfs * T :=
  match c in sys T return memfs * T with
  | Sys_malloc _ => (s, true)
  | c' => memfs_do c' s
  end.

Definition RichOS : OS := {| os_st := memfs; os_do := @rich_do |}.

(** A driver whose device is the globals of the program, in blocks of 8 bytes. *)
Definition mem_rd (buf : list Z) (b n : Z) : prog (H := RichOS) (list Z) (Z * list Z) :=
  g ← pget; bs ← popt OutOfBounds (mread g (b * 8) (n * 8)); mret (0, bs).

Definition mem_wr (buf : list Z) (b n : Z) : prog (H := RichOS) (list Z) Z :=
  g ← pget; m ← popt OutOfBounds (mwrite g (b * 8) buf); pmod (fun _ => m);; mret 0.

(** Regions of 64 bytes from byte 16 on. *)
Definition mem_otp : otp (H := RichOS) (list Z) :=
  Otp 8 64 16 256 16 USER_CCCI (otp_regions 16 64) MAX_USER_NUM
    (Some mem_rd) (Some mem_wr) None None None None None.

#[export, refine] Instance mem_disk : BlockDev mem_otp mem_rd mem_wr := {| disk w := w_glob w |}.
Proof.
  1-4: done.
  - intros n w. by eexists.
  - intros buf b n w bs _ Hr. exists w. unfold mem_rd.
    rewrite (bind_ok _ _ w w (w_glob w)) by done. change (blk_sz mem_otp) with 8 in Hr. by rewrite Hr.
  - intros buf b n w m _ Hw. exists (set_glob m w). unfold mem_wr.
    rewrite (bind_ok _ _ w w (w_glob w)) by done. change (blk_sz mem_otp) with 8 in Hw. by rewrite Hw.
Defined.

Definition demo_junk8 (n : Z) : list Z := replicate (Z.to_nat n) 170.
Definition demo_disk : list Z := seqZ 0 272.
Definition demo_disk_world : world (H := RichOS) (list Z) := World (memfs_empty : @os_st RichOS) [] ∅ 1 demo_disk.

Lemma demo_in_region : in_region mem_otp mem_rd mem_wr demo_junk8 demo_disk_world 5 20 16 64.
Proof.
  constructor; try done; try (vm_compute; intuition discriminate).
  intros n Hn. unfold zlen, demo_junk8. rewrite length_replicate. lia.
Qed.

Lemma otp_read_disk_witness :
  exists w', otp_read demo_junk8 mem_otp (replicate 20 0) 5 20 demo_disk_world = (w', Ok (0, seqZ 21 20)) /\
    w_glob w' = demo_disk.
Proof.
  destruct (otp_read_disk mem_otp mem_rd mem_wr demo_junk8 demo_disk_world 5 20 16 64 (replicate 20 0) demo_in_region)
    as (w' & bs & m & Hrun & Hr & Hw & Hd); [vm_compute; discriminate|].
  vm_compute in Hr. injection Hr as <-. vm_compute in Hw. injection Hw as <-.
  exists w'. split; [exact Hrun|exact Hd].
Defined.

Lemma otp_write_disk_witness :
  exists w', otp_ops_read_write demo_junk8 0 mem_otp (replicate 20 255) 5 20 demo_disk_world =
      (w', Ok (0, replicate 20 255)) /\
    w_glob w' = seqZ 0 21 ++ replicate 20 255 ++ seqZ 41 231.
Proof.
  destruct (otp_write_disk mem_otp mem_rd mem_wr demo_junk8 demo_disk_world 5 20 16 64 (replicate 20 255)
    (replicate 20 255) demo_in_region eq_refl) as (w' & m & Hrun & Hw & Hd).
  exists w'. split; [exact Hrun|]. change (w_glob w') with (disk (d := mem_otp) w'). rewrite Hd.
  vm_compute in Hw. injection Hw as <-. reflexivity.
Defined.
