(* ===== verification/FsdOps.v ===== *)
(** * ccci_fsd: further properties of the operations

    Timing, writing, searching, moving, the compact read and the listening
    thread: what each of them does on every branch, and the places where the
    code does not do what it means to. *)
From S2P Require Import Prelude Posix MemFs Wire FsdTypes FsdStrings FsdPath FsdDemo FsdHandle FsdTable.
From S2P Require Import FsdDir FsdFind OtpStorage FsdPlatform FsdCmpt FsdMain FsdInv FsdConfine.

(** ** Elapsed time *)

(** A clock reading in nanoseconds. *)
Definition ns (t : timespec) : Z := tv_sec t * 1000000000 + tv_nsec t.
Definition is_time (t : timespec) : Prop := 0 <= tv_nsec t < 1000000000.

(** The two ways of measuring a section agree to a millisecond: with
    the borrow the result is the elapsed time rounded down, without it the same
    or one more. *)
Theorem elapsed_ms s e :
  is_time s -> is_time e -> 0 <= ns e - ns s < 2 ^ 31 * 1000000 - 1000000 ->
  elapsed_borrow s e = (ns e - ns s) / 1000000 /\
  elapsed_borrow s e <= elapsed_plain s e <= elapsed_borrow s e + 1.
Proof.
  unfold is_time, ns. destruct s as [s0 s1], e as [e0 e1]. simpl. intros Hs He Hd.
  assert (elapsed_borrow (Timespec s0 s1) (Timespec e0 e1) =
    (e0 * 1000000000 + e1 - (s0 * 1000000000 + s1)) / 1000000) as Hb.
  { unfold elapsed_borrow. simpl. destruct (Z.ltb_spec e1 s1);
      (rewrite i32_small; Z.to_euclidean_division_equations; lia). }
  rewrite Hb. split; [done|]. unfold elapsed_plain. simpl.
  rewrite i32_small; Z.to_euclidean_division_equations; lia.
Qed.

(** ** Searching *)

Section Ops.
Context `{OS}.

(** An entry a search reports was read from its stream, matches the
    pattern and the attributes and is not a dot entry for [FS_CCCI_FindFirst];
    the path is the directory followed by the entry.  When it reports the end of
    the stream, the stream has answered so. *)
Theorem search_sound fuel skip pDir prefix pattern Attr Mask w w' res :
  search_loop fuel skip pDir prefix pattern Attr Mask w = (w', Ok res) ->
  match res with
  | SFound d_name path =>
      Ev (Sys_readdir pDir) (Some d_name) ∈ w_trace w' /\ PatMatch pattern d_name = true /\
      (skip = true -> is_dot_entry d_name = false) /\
      path = take (Z.to_nat (PATH_MAX - 1)) (prefix ++ d_name) /\
      exists a, attr_match (u8 a) Attr Mask = true
  | SNone => Ev (Sys_readdir pDir) None ∈ w_trace w'
  | STooLong => exists d_name, Ev (Sys_readdir pDir) (Some d_name) ∈ w_trace w' /\
      PatMatch pattern d_name = true /\ zlen prefix + zlen d_name > PATH_MAX
  end.
Proof.
  revert w. induction fuel as [|fuel IH]; intros w Hrun; [done|]. simpl in Hrun.
  apply bind_inv in Hrun as (w1 & pDirent & Hrd & Hrun).
  assert (Ev (Sys_readdir pDir) pDirent ∈ w_trace w1) as Hev.
  { unfold psys in Hrd. destruct (os_do _ (w_os w)). injection Hrd as <- <-. simpl.
    rewrite elem_of_app, list_elem_of_singleton. auto. }
  destruct pDirent as [d_name|]; [|by injection Hrun as <- <-].
  destruct (skip && is_dot_entry d_name) eqn:Hskip; [by apply IH in Hrun|].
  destruct (PatMatch pattern d_name) eqn:Hpat; [|by apply IH in Hrun].
  destruct (zlen prefix + zlen d_name >? PATH_MAX) eqn:Hlong.
  { injection Hrun as <- <-. exists d_name. split_and!; [done|done|lia]. }
  apply bind_inv in Hrun as (w2 & a & Ha & Hrun).
  destruct (attr_match (u8 a) Attr Mask) eqn:Hm; [|by apply IH in Hrun].
  injection Hrun as <- <-. split_and!; [|done|by intros ->|done|by exists a].
  destruct (ok_AttrReconv (FsRootDir (w_glob w1)) (take (Z.to_nat (PATH_MAX - 1)) (prefix ++ d_name)) w1 eq_refl)
    as (evs & Ht & _). rewrite Ha in Ht. simpl in Ht. rewrite Ht, elem_of_app. by left.
Qed.

(** ** Moving *)

(** A call that removes a name. *)
Definition removes (e : event) : Prop :=
  match ev_call e with Sys_unlink _ | Sys_rmdir _ | Sys_rename _ _ => True | _ => False end.

(** Without [FS_MOVE_OVERWRITE] a move removes nothing: in particular
    [FS_MOVE_KILL], which stands for the removal of the source, never does. *)
Theorem move_removes_nothing fuel src dst Flag w :
  has_bits Flag FS_MOVE_OVERWRITE = false ->
  exists evs, w_trace (FS_CCCI_Move fuel src dst Flag w).1 = w_trace w ++ evs /\
    Forall (fun e => ~ removes e) evs.
Proof.
  intros Hf.
  assert (emits (fun _ => True) (fun e => ~ removes e) (FS_CCCI_Move fuel src dst Flag)) as Hem.
  { unfold FS_CCCI_Move, with_path, conv_name, FS_IsReadOnly, move_copy. rewrite Hf.
    emit; unfold removes; simpl; tauto. }
  destruct (Hem w Logic.I) as (evs & Ht & HP & _). by exists evs.
Qed.

(** ** Handles that leak *)

(** When the memory for the name of a file cannot be allocated,
    [FS_CCCI_Open] fails and gives out no handle, but the file stays open in a
    slot of the table. *)
Theorem open_leaks FileName Flag w w' :
  table_ok (w_glob w) -> FS_CCCI_Open FileName Flag w = (w', Ok FS_ERROR_RESERVED) ->
  exists i fd, abs (w_glob w) !! i = None /\ abs (w_glob w') = <[i := File fd false]> (abs (w_glob w)).
Proof.
  intros Hok Hrun. pose proof (open_cases FileName Flag w Hok) as Hc. unfold wp in Hc. rewrite Hrun in Hc.
  destruct Hc as [[H0 _]|[(_ & Hl)|(_ & Hne & _)]]; [by destruct H0|done|done].
Qed.

(** [FS_CCCI_CloseAll] never closes a directory stream: the slots of
    searches are released and their streams stay open. *)
Theorem closeall_keeps_streams w :
  exists evs, w_trace (FS_CCCI_CloseAll w).1 = w_trace w ++ evs /\
    Forall (fun e => match ev_call e with Sys_closedir _ => False | _ => True end) evs.
Proof.
  assert (emits (fun _ => True) (fun e => match ev_call e with Sys_closedir _ => False | _ => True end)
    FS_CCCI_CloseAll) as Hem.
  { unfold FS_CCCI_CloseAll. induction (seqZ 0 FS_FILE_MAX) as [|i l IH]; simpl; [auto with cfs|].
    unfold release_handle. emit; try done; by apply emits_mod. }
  destruct (Hem w Logic.I) as (evs & Ht & HP & _). by exists evs.
Qed.

(** ** The listening thread *)

(** The listening thread ends only when the modem announces a stop: it
    has then closed the device and ends the process with status 1. *)
Theorem status_thread_exits fuel status_buf w :
  match ccci_status_thread_handle fuel status_buf w with
  | (w', Halt (Exited code)) =>
      code = 1 /\ DeviceFd (w_glob w') < 0 /\
      exists r buf, Ev (Sys_read (md_status_fd (w_glob w)) sizeof_md_status_event) r ∈ w_trace w' /\
        rres_rv r > 0 /\ event_type (overlay (rres_data r) buf) = MD_STA_EV_STOP
  | (_, Halt NoFuel) => True
  | _ => False
  end.
Proof.
  revert status_buf w. induction fuel as [|fuel IH]; intros buf w; [done|]. simpl.
  unfold mbind, prog_bind at 1, pget. unfold prog_bind at 1, psys at 1.
  set (fd := md_status_fd (w_glob w)).
  destruct (os_do (Sys_read fd sizeof_md_status_event) (w_os w)) as [s r].
  destruct ((rres_rv r >? 0) && (event_type (overlay (rres_data r) buf) =? MD_STA_EV_STOP)) eqn:Hstop.
  - rewrite Z.gtb_ltb in Hstop. zbool. unfold prog_bind. simpl.
    destruct (Z.geb_spec (DeviceFd (w_glob w)) 0) as [Hd|Hd].
    + unfold psys. destruct (os_do (Sys_close _) _) as [s2 r2]. simpl. split_and!; [done|lia|].
      exists r, buf. split_and!; [|lia|done]. rewrite !elem_of_app, list_elem_of_singleton. auto.
    + simpl. split_and!; [done|lia|]. exists r, buf. split_and!; [|lia|done].
      rewrite elem_of_app, list_elem_of_singleton. auto.
  - exact (IH (overlay (rres_data r) buf) (answered (Sys_read fd sizeof_md_status_event) r s w)).
Qed.

(** ** The lock of the OTP region *)

(** With the storage library [FS_OTPLock] never locks and never
    succeeds: it asks for the one kind of protection [otp_lock] refuses. *)
Theorem OTPLock_never_succeeds emmc ufs junk w w1 v w' r :
  otp_get_libversion w = (w1, Ok v) -> v <> 0 ->
  FS_OTPLock emmc ufs junk w = (w', Ok r) ->
  r = FS_PARAM_ERROR \/ r = FS_UNSUPPORTED_DRIVER_FUNCTION.
Proof.
  intros Hv Hne. unfold FS_OTPLock. rewrite (bind_ok _ _ _ _ _ Hv).
  destruct (Z.eqb_spec v 0); [done|]. cbn [negb]. intros Hrun.
  apply bind_inv in Hrun as (w2 & dev & _ & Hrun). destruct dev as [d|]; injection Hrun; auto.
Qed.
End Ops.

(** ** The compact read *)

(** The table is [T]. *)
Definition table_is (T : list FS_FILE_HANDLE) (n : Z) (g : fsd) : Prop :=
  hFileHandle (g_FsInfo g) = T /\ FileNum (g_FsInfo g) = n.

Section Table.
Context `{OS} (T : list FS_FILE_HANDLE) (n : Z).
Abbreviation J := (glob_inv (table_is T n)).

Lemma table_mod f :
  (forall g, hFileHandle (g_FsInfo (f g)) = hFileHandle (g_FsInfo g) /\
             FileNum (g_FsInfo (f g)) = FileNum (g_FsInfo g)) -> preserves J (pmod f).
Proof. intros Hf. apply glob_inv_mod. intros g [H1 H2]. destruct (Hf g). split; congruence. Qed.

Lemma table_vars f : preserves J (pmod (upd_vars f)).
Proof. by apply table_mod. Qed.

Lemma table_buf_write off bs : preserves J (buf_write off bs).
Proof. unfold buf_write. pres. by apply table_mod. Qed.

Lemma table_profile_end e t : preserves J (profile_end e t).
Proof. unfold profile_end. pres. apply table_mod. intros g. unfold note_slow. by case_match. Qed.

#[local] Hint Resolve table_vars table_buf_write table_profile_end : cfs.

Lemma table_Seek h o wh : preserves J (FS_CCCI_Seek h o wh).
Proof. unfold FS_CCCI_Seek. pres. Qed.
Lemma table_Read h p k out : preserves J (FS_CCCI_Read h p k out).
Proof. unfold FS_CCCI_Read. pres. Qed.
Lemma table_GetFileSize h out : preserves J (FS_CCCI_GetFileSize h out).
Proof. unfold FS_CCCI_GetFileSize. pres. Qed.
Lemma table_timed op : preserves J op -> preserves J (timed op).
Proof. intros Hop. unfold timed. pres. Qed.
Lemma table_cmpt_ret b e : preserves J (cmpt_ret b e).
Proof. unfold cmpt_ret. pres. Qed.
End Table.

#[local] Hint Resolve table_vars table_Seek table_Read table_GetFileSize table_timed table_cmpt_ret : cfs.

Section Cmpt.
Context `{OS}.

(** A close that the kernel refused. *)
Definition close_failed (w : world fsd) : Prop :=
  exists fd e, Ev (Sys_close fd) (IRes (-1) e) ∈ w_trace w.

(** The handle [i] is the only difference to the map [m]. *)
Definition one_more (m : hmap) (i : nat) (fd : Z) (g : fsd) : Prop :=
  table_ok g /\ m !! i = None /\ abs g = <[i := File fd false]> m /\ fd <> INVALID_HANDLE_VALUE.

Lemma one_more_keeps m i fd (A : Type) (p : prog fsd A) :
  (forall T n, preserves (glob_inv (table_is T n)) p) -> preserves (glob_inv (one_more m i fd)) p.
Proof.
  intros Hp w (Hok & Hm & Ha & Hfd).
  eapply wp_mono; [apply (Hp (hFileHandle (g_FsInfo (w_glob w))) (FileNum (g_FsInfo (w_glob w))) w); done| |done].
  intros a w' [H1 H2]. unfold glob_inv, one_more, abs in *. rewrite H1. destruct Hok as [Hl H0 Hc].
  split_and!; try done. constructor; unfold abs in *; rewrite ?H1, ?H2; done.
Qed.

(** What the compact read ends with. *)
Definition closed_again (m : hmap) (w : world fsd) : Prop := abs (w_glob w) = m \/ close_failed w.

Lemma close_again m i fd w :
  one_more m i fd (w_glob w) ->
  wp (FS_CCCI_Close (Z.of_nat i)) (fun _ => closed_again m) (fun _ _ => True) w.
Proof.
  intros (Hok & Hm & Ha & Hfd).
  assert (abs (w_glob w) !! i = Some (File fd false)) as Hi by (rewrite Ha; apply lookup_insert_eq).
  eapply wp_mono; [by eapply close_wp| |done]. intros r w' (v & e & Hev & Hres).
  destruct (decide (v = -1)) as [->|]; [right; by exists fd, e|left].
  destruct Hres as [_ ->]. by rewrite Ha, delete_insert_id.
Qed.

Lemma closed_again_ret m b e : preserves (closed_again m) (cmpt_ret b e).
Proof. intros w Hw. unfold cmpt_ret. by wps. Qed.

(** A failing step: the result is noted and the file is closed. *)
Lemma cmpt_fails m i fd b e (code : Z) w :
  one_more m i fd (w_glob w) ->
  wp (cmpt_ret b e;; _ ← FS_CCCI_Close (Z.of_nat i); mret code)
    (fun _ => closed_again m) (fun _ _ => True) w.
Proof.
  intros Hw. wps. eapply wp_mono; [exact (one_more_keeps m i fd _ _ (fun T n => table_cmpt_ret T n b e) w Hw)| |done].
  intros ? w1 H1. wps. eapply wp_mono; [exact (close_again m i fd w1 H1)| |done]. intros ? w2 H2. by wps.
Qed.

Lemma cmpt_step_closes m i fd map flag b op (code : Z) k w :
  one_more m i fd (w_glob w) -> (forall T n, preserves (glob_inv (table_is T n)) op) ->
  (forall b' w', one_more m i fd (w_glob w') -> wp (k b') (fun _ => closed_again m) (fun _ _ => True) w') ->
  wp (cmpt_step map flag b op
       (fun bitmap err => cmpt_ret bitmap err;; _ ← FS_CCCI_Close (Z.of_nat i); mret code) k)
    (fun _ => closed_again m) (fun _ _ => True) w.
Proof.
  intros Hw Hop Hk. unfold cmpt_step. wps; [|by apply Hk].
  wps. eapply wp_mono; [apply (one_more_keeps m i fd _ op Hop w Hw)| |done]. intros r w1 H1.
  wps; [exact (cmpt_fails m i fd b r code w1 H1)|exact (Hk _ w1 H1)].
Qed.

(** A timed open: one more handle, or the table as it was, or a slot leaked. *)
Lemma timed_open_cases name Flag w :
  table_ok (w_glob w) ->
  wp (timed (FS_CCCI_Open name Flag))
    (fun r w' => (exists i fd, r = Z.of_nat i /\ one_more (abs (w_glob w)) i fd (w_glob w')) \/
      r < 0 /\ (abs (w_glob w') = abs (w_glob w) \/ r = FS_ERROR_RESERVED))
    (fun _ _ => True) w.
Proof.
  intros Hok. unfold timed. wps. apply wp_keeps; [keeps|]. intros t w1 E1. wps.
  eapply wp_mono; [apply wp_conj; [apply open_cases|apply (pres_Open (fun _ => True)), tinv_refl]; by rewrite ?E1| |done].
  intros r w2 [Hr [Hok2 _ _]]. wps. rewrite E1 in Hr.
  destruct Hr as [[H0 (i & fd & e & path & -> & _ & Hm & _ & _ & Hfd & Ha & _)]|[(-> & _)|(Hneg & _ & Hg)]].
  - eapply wp_mono; [exact (one_more_keeps (abs (w_glob w)) i fd _ _ (fun T n => table_profile_end T n _ _) w2 (conj Hok2 (conj Hm (conj Ha Hfd))))| |done].
    intros ? w3 H3. wps. left. by exists i, fd.
  - apply wp_preserves with (I := fun _ => True); [by intros ? _; unfold wp; case_match; case_match|done|].
    intros _ w3 _. wps. right. split; [done|by right].
  - eapply wp_mono; [apply (table_profile_end (hFileHandle (g_FsInfo (w_glob w2))) (FileNum (g_FsInfo (w_glob w2)))); done| |done].
    intros _ w3 [H3 _]. wps. right. split; [done|left]. unfold abs. by rewrite H3, Hg.
Qed.

(** A compact read leaves the handle table as it found it: whatever it
    is asked to do and wherever it fails, the file it opened is closed again,
    unless the kernel refuses the close or the open itself leaked its slot. *)
Theorem cmpt_read_closes name w w' r :
  table_ok (w_glob w) -> FS_CCCI_CMPT_Read name w = (w', Ok r) ->
  closed_again (abs (w_glob w)) w' \/
  (r = -1 /\ cr_ret1 (in_cmpt_para (vars (w_glob w'))) = u32 FS_ERROR_RESERVED).
Proof.
  intros Hok Hrun. eapply (wp_eq _ (fun r w' => closed_again (abs (w_glob w)) w' \/
    (r = -1 /\ cr_ret1 (in_cmpt_para (vars (w_glob w'))) = u32 FS_ERROR_RESERVED)) (fun _ _ => True)); [exact Hrun|].
  clear Hrun. unfold FS_CCCI_CMPT_Read. wps. wps. wps. wps.
  destruct (has_bits _ FS_CMPT_OPEN); [|by wps; unfold cmpt_ret; wps; wps; left; left].
  set (w0 := set_glob _ w) in *.
  assert (table_ok (w_glob w0)) as Hok0 by (destruct Hok; by constructor).
  change (abs (w_glob w)) with (abs (w_glob w0)).
  wps. eapply wp_mono; [exact (timed_open_cases _ _ w0 Hok0)| |done].
  intros r0 w1 [(i & fd & -> & Hone)|(Hneg & Hcase)].
  - destruct (Z.ltb_spec (Z.of_nat i) 0); [lia|].
    eapply (wp_mono _ (fun _ => closed_again (abs (w_glob w0)))); [|intros ? ? ?; by left|done]. cbv zeta.
    apply (cmpt_step_closes _ i fd); [exact Hone|auto with cfs|]. intros b1 w2 H2.
    apply (cmpt_step_closes _ i fd); [exact H2|auto with cfs|]. intros b2 w3 H3.
    apply (cmpt_step_closes _ i fd); [exact H3|auto with cfs|]. intros b3 w4 H4.
    destruct (has_bits _ FS_CMPT_CLOSE); wps;
      (eapply wp_mono; [exact (close_again _ i fd w4 H4)| |done]); intros r1 w5 H5; [|by wps].
    wps; wps; (eapply wp_mono; [exact (closed_again_ret _ _ _ w5 H5)| |done]); intros ? w6 H6; by wps.
  - destruct (Z.ltb_spec r0 0); [|lia]. wps. unfold cmpt_ret. wps. wps.
    destruct Hcase as [Ha| ->]; [by left; left|by right].
Qed.
End Cmpt.

(** ** Concrete runs *)

(** [FS_CCCI_FindClose] frees the search pattern of a slot but keeps
    the pointer; when the slot is used for a file and closed by the same
    operation, the pattern is freed again. *)
Theorem findclose_double_free :
  (('(h, _) ← FS_CCCI_FindFirst 9 (wcs_of (lit "Z:\NVD\*")) 0 0 64;
    _ ← FS_CCCI_FindClose h;
    h ← FS_CCCI_Open demo_name 0;
    FS_CCCI_FindClose h) demo_world).2 = Halt BadFree.
Proof. vm_compute. reflexivity. Qed.

Lemma elapsed_ms_witness :
  elapsed_borrow (Timespec 10 999000000) (Timespec 11 500000) = 1 /\
  elapsed_plain (Timespec 10 999000000) (Timespec 11 500000) = 2.
Proof.
  destruct (elapsed_ms (Timespec 10 999000000) (Timespec 11 500000)) as [H _];
    [vm_compute; split; [discriminate|reflexivity] ..|].
  rewrite H. split; reflexivity.
Defined.

(** The stream of the directory, opened as descriptor 3. *)
Definition demo_stream_world : world fsd := (psys (Sys_opendir demo_dir) demo_world).1.

Lemma search_sound_witness :
  PatMatch (lit "S*") (lit "SUB") = true /\
  search_loop 9 true 3 (demo_dir ++ lit "/") (lit "S*") 0 0 demo_stream_world =
    ((search_loop 9 true 3 (demo_dir ++ lit "/") (lit "S*") 0 0 demo_stream_world).1,
     Ok (SFound (lit "SUB") (demo_dir ++ lit "/SUB"))).
Proof.
  assert (search_loop 9 true 3 (demo_dir ++ lit "/") (lit "S*") 0 0 demo_stream_world =
    ((search_loop 9 true 3 (demo_dir ++ lit "/") (lit "S*") 0 0 demo_stream_world).1,
     Ok (SFound (lit "SUB") (demo_dir ++ lit "/SUB")))) as Hrun by (apply run_ok; vm_compute; reflexivity).
  split; [|exact Hrun].
  exact (proj1 (proj2 (search_sound 9 true 3 _ _ 0 0 demo_stream_world _ _ Hrun))).
Defined.

Lemma move_removes_nothing_witness :
  let m := FS_CCCI_Move 9 demo_name (wcs_of (lit "Z:\COPY")) (Z.lor FS_MOVE_COPY FS_MOVE_KILL) demo_world in
  m.2 = Ok FS_NO_ERROR /\ Forall (fun e => ~ removes e) (w_trace m.1).
Proof.
  intros m. split; [vm_compute; reflexivity|].
  destruct (move_removes_nothing 9 demo_name (wcs_of (lit "Z:\COPY")) (Z.lor FS_MOVE_COPY FS_MOVE_KILL)
    demo_world eq_refl) as (evs & Ht & HP).
  change (w_trace m.1 = evs) in Ht. rewrite Ht. exact HP.
Defined.

(** No memory is left. *)
Definition poor_world : world fsd := mem_world (set_mem 0 demo_fs) demo_fsd.

Lemma open_leaks_witness :
  exists i fd, abs (w_glob (FS_CCCI_Open demo_name 0 poor_world).1) = <[i := File fd false]> (abs demo_fsd).
Proof.
  assert (FS_CCCI_Open demo_name 0 poor_world = ((FS_CCCI_Open demo_name 0 poor_world).1, Ok FS_ERROR_RESERVED))
    as Hrun by (apply run_ok; vm_compute; reflexivity).
  destruct (open_leaks demo_name 0 poor_world _ demo_fsd_ok Hrun) as (i & fd & _ & Ha).
  exists i, fd. exact Ha.
Defined.

Lemma OTPLock_never_succeeds_witness :
  exists r, (FS_OTPLock no_device no_device demo_junk demo_world).2 = Ok r /\
    (r = FS_PARAM_ERROR \/ r = FS_UNSUPPORTED_DRIVER_FUNCTION).
Proof.
  assert (otp_get_libversion demo_world = ((otp_get_libversion demo_world).1, Ok 1)) as Hv
    by (apply run_ok; vm_compute; reflexivity).
  assert (FS_OTPLock no_device no_device demo_junk demo_world =
    ((FS_OTPLock no_device no_device demo_junk demo_world).1, Ok FS_UNSUPPORTED_DRIVER_FUNCTION)) as Hrun
    by (apply run_ok; vm_compute; reflexivity).
  exists FS_UNSUPPORTED_DRIVER_FUNCTION. split; [vm_compute; reflexivity|].
  exact (OTPLock_never_succeeds no_device no_device demo_junk demo_world _ 1 _ _ Hv ltac:(discriminate) Hrun).
Defined.

(** A compact read that fails at its seek. *)
Definition demo_cmpt : world fsd :=
  mem_world demo_fs (upd_vars (set_in_cmpt_para
    (CmptPara (Z.lor FS_CMPT_OPEN (Z.lor FS_CMPT_SEEK FS_CMPT_READ)) 0 0 0 0 0 7 100 4 0)) demo_fsd).

Lemma cmpt_read_closes_witness :
  let m := FS_CCCI_CMPT_Read demo_name demo_cmpt in
  m.2 = Ok (-3) /\ closed_again (abs demo_fsd) m.1.
Proof.
  intros m. split; [vm_compute; reflexivity|].
  assert (m = (m.1, Ok (-3))) as Hrun by (apply run_ok; vm_compute; reflexivity).
  assert (table_ok (w_glob demo_cmpt)) as Hok by (constructor; by vm_compute).
  destruct (cmpt_read_closes demo_name demo_cmpt _ _ Hok Hrun) as [Hc|[Hr _]]; [exact Hc|discriminate].
Defined.
