(* ===== verification/RpcTypes.v ===== *)
(** * ccci_rpcd: constants, data, globals and the wake lock

    ccci_rpcd.h and the static variables of ccci_rpcd.c and power.c, with the
    locals of [main] that outlive a request.  The request slots, [pRpcBuf], are
    one byte array ([SharedBuf]); a packet argument points into it, to one of
    three variables of [main], or to memory of the support library, which is on
    the heap. *)
From S2P Require Import Prelude Posix Wire.

Definition RPC_API_RESP_ID : Z := 0xFFFF0000.
Definition RPC_PARAM_ERROR : Z := -2.
Definition IPC_RPC_QUERY_AP_SYS_PROPERTY : Z := 0x400F.
Definition RPC_BUFF_IDLE : Z := 0.
Definition RPC_BUFF_WAIT : Z := 1.
Definition RPC_REQ_BUFFER_MUN : Z := 5.
Definition RPC_BUFFER_SLOT_NUM : Z := 5.
Definition MAX_RPC_PKT_BYTE : Z := 3584 - 128.
Definition MAX_RPC_BUF_BYTE : Z := 4096.
Definition CCCI_RPC_REQ_SEND_AGAIN : Z := 0x80000000.

(** Static variables that are never written. *)
Definition RPC_MAX_BUF_SIZE : Z := 2048.
Definition RPC_MAX_ARG_NUM : Z := 6.

(** Structure sizes on the 32-bit target. *)
Definition sizeof_rpc_stream_msg_t : Z := 8.
Definition sizeof_rpc_stream_buffer_t : Z := 4.
Definition PROPERTY_VALUE_MAX : Z := 92.

(** ** Packet arguments *)

(** The variables of [main] an argument may point to. *)
Inductive main_var := V_RetVal | V_property_val | V_tmp_buff.

#[export] Instance main_var_eq_dec : EqDecision main_var.
Proof. solve_decision. Defined.

Inductive ptr :=
| PBuf (off : Z)       (** into [g_RpcInfo.pRpcBuf] *)
| PVar (v : main_var)  (** a variable of [main] *)
| PHeap (a : Z)        (** an allocation of the support library *)
| PUninit.             (** an entry of the [malloc]ed array never written *)

#[export] Instance ptr_eq_dec : EqDecision ptr.
Proof. solve_decision. Defined.

Record RPC_PACKET_INFO := PacketInfo { Length : Z; pData : ptr }.

(** ** State *)

(** The static variables of power.c. *)
Record power := Power { g_initialized : bool; g_fds : list Z; g_error : Z }.

(** The locals of [main] that live across requests; [tmp_buff] as bytes. *)
Record main_vars := MainVars {
  RetVal : Z;
  property_val : list Z;
  tmp_buff : list Z;
  PackInfo : list RPC_PACKET_INFO;
  PacketNum : Z;
  ReqBufIndex : Z
}.

(** [bNonAck] of [RPC_INFO] is never read; [tc1_support_lib] only serves to
    close the library. *)
Record rpcd := Rpcd {
  stream_support : bool;
  DeviceFd : Z;
  md_id : Z;
  pRpcBuf : list Z;
  rpc_buff_state : list Z;
  rpc_buff_offset : list Z;
  g_bak : list Z;
  tc1_lib_ready : bool;
  exit_signal : Z;
  pwr : power;
  vars : main_vars
}.

Definition set_stream_support v g := Rpcd v (DeviceFd g) (md_id g) (pRpcBuf g) (rpc_buff_state g)
  (rpc_buff_offset g) (g_bak g) (tc1_lib_ready g) (exit_signal g) (pwr g) (vars g).
Definition set_DeviceFd v g := Rpcd (stream_support g) v (md_id g) (pRpcBuf g) (rpc_buff_state g)
  (rpc_buff_offset g) (g_bak g) (tc1_lib_ready g) (exit_signal g) (pwr g) (vars g).
Definition set_md_id v g := Rpcd (stream_support g) (DeviceFd g) v (pRpcBuf g) (rpc_buff_state g)
  (rpc_buff_offset g) (g_bak g) (tc1_lib_ready g) (exit_signal g) (pwr g) (vars g).
Definition set_pRpcBuf v g := Rpcd (stream_support g) (DeviceFd g) (md_id g) v (rpc_buff_state g)
  (rpc_buff_offset g) (g_bak g) (tc1_lib_ready g) (exit_signal g) (pwr g) (vars g).
Definition set_rpc_buff_state v g := Rpcd (stream_support g) (DeviceFd g) (md_id g) (pRpcBuf g) v
  (rpc_buff_offset g) (g_bak g) (tc1_lib_ready g) (exit_signal g) (pwr g) (vars g).
Definition set_rpc_buff_offset v g := Rpcd (stream_support g) (DeviceFd g) (md_id g) (pRpcBuf g)
  (rpc_buff_state g) v (g_bak g) (tc1_lib_ready g) (exit_signal g) (pwr g) (vars g).
Definition set_g_bak v g := Rpcd (stream_support g) (DeviceFd g) (md_id g) (pRpcBuf g)
  (rpc_buff_state g) (rpc_buff_offset g) v (tc1_lib_ready g) (exit_signal g) (pwr g) (vars g).
Definition set_tc1_lib_ready v g := Rpcd (stream_support g) (DeviceFd g) (md_id g) (pRpcBuf g)
  (rpc_buff_state g) (rpc_buff_offset g) (g_bak g) v (exit_signal g) (pwr g) (vars g).
Definition set_exit_signal v g := Rpcd (stream_support g) (DeviceFd g) (md_id g) (pRpcBuf g)
  (rpc_buff_state g) (rpc_buff_offset g) (g_bak g) (tc1_lib_ready g) v (pwr g) (vars g).
Definition set_pwr v g := Rpcd (stream_support g) (DeviceFd g) (md_id g) (pRpcBuf g)
  (rpc_buff_state g) (rpc_buff_offset g) (g_bak g) (tc1_lib_ready g) (exit_signal g) v (vars g).
Definition upd_vars f g := Rpcd (stream_support g) (DeviceFd g) (md_id g) (pRpcBuf g)
  (rpc_buff_state g) (rpc_buff_offset g) (g_bak g) (tc1_lib_ready g) (exit_signal g) (pwr g)
  (f (vars g)).

Definition upd_pwr (f : power -> power) (g : rpcd) : rpcd := set_pwr (f (pwr g)) g.
Definition set_g_initialized v p := Power v (g_fds p) (g_error p).
Definition set_g_fd (i : nat) (fd : Z) p := Power (g_initialized p) (<[i := fd]> (g_fds p)) (g_error p).
Definition set_g_error v p := Power (g_initialized p) (g_fds p) v.

Definition set_RetVal v r :=
  MainVars v (property_val r) (tmp_buff r) (PackInfo r) (PacketNum r) (ReqBufIndex r).
Definition set_property_val v r :=
  MainVars (RetVal r) v (tmp_buff r) (PackInfo r) (PacketNum r) (ReqBufIndex r).
Definition set_tmp_buff v r :=
  MainVars (RetVal r) (property_val r) v (PackInfo r) (PacketNum r) (ReqBufIndex r).
Definition set_PackInfo v r :=
  MainVars (RetVal r) (property_val r) (tmp_buff r) v (PacketNum r) (ReqBufIndex r).
Definition set_PacketNum v r :=
  MainVars (RetVal r) (property_val r) (tmp_buff r) (PackInfo r) v (ReqBufIndex r).
Definition set_ReqBufIndex v r :=
  MainVars (RetVal r) (property_val r) (tmp_buff r) (PackInfo r) (PacketNum r) v.

#[export] Instance rpcd_shared : SharedBuf rpcd.
Proof. by refine {| shared := pRpcBuf; set_shared := set_pRpcBuf |}; try done; intros []. Defined.

(** The bytes of a variable of [main], and a variable from its bytes. *)
Definition var_bytes (r : main_vars) (v : main_var) : list Z :=
  match v with
  | V_RetVal => le32 (u32 (RetVal r))
  | V_property_val => property_val r
  | V_tmp_buff => tmp_buff r
  end.

Definition set_var (v : main_var) (bs : list Z) : main_vars -> main_vars :=
  match v with
  | V_RetVal => set_RetVal (i32 (de32 bs))
  | V_property_val => set_property_val bs
  | V_tmp_buff => set_tmp_buff bs
  end.

(** Before [main]; [junk n] is the contents of [n] bytes nothing has written. *)
Definition static_rpcd (junk : Z -> list Z) : rpcd :=
  Rpcd false 0 0 [] (replicate (Z.to_nat RPC_BUFFER_SLOT_NUM) RPC_BUFF_IDLE)
    (replicate (Z.to_nat RPC_BUFFER_SLOT_NUM) 0) (replicate 20 0) false 0
    (Power false [0; 0] (-1))
    (MainVars (i32 (de32 (junk 4))) (replicate (Z.to_nat PROPERTY_VALUE_MAX) 0) (junk 8) [] 0
      (i32 (de32 (junk 4)))).

(** ** Memory *)

Section Memory.
Context `{OS}.
Abbreviation M := (prog rpcd).

(** The memory from a pointer to the end of its object. *)
Definition mem_at (p : ptr) : M (list Z) :=
  g ← pget;
  match p with
  | PBuf off => popt OutOfBounds (mfrom (pRpcBuf g) off)
  | PVar v => mret (var_bytes (vars g) v)
  | PHeap a => pload a
  | PUninit => phalt OutOfBounds
  end.

Definition deref (p : ptr) (len : Z) : M (list Z) :=
  m ← mem_at p; popt OutOfBounds (mread m 0 len).

(** A write [off] bytes behind a pointer. *)
Definition store_at (p : ptr) (off : Z) (bs : list Z) : M unit :=
  match p with
  | PBuf o => buf_write (o + off) bs
  | PVar v =>
      g ← pget;
      m ← popt OutOfBounds (mwrite (var_bytes (vars g) v) off bs);
      pmod (upd_vars (set_var v m))
  | PHeap a =>
      m ← pload a;
      m ← popt OutOfBounds (mwrite m off bs);
      pstore a m
  | PUninit => phalt OutOfBounds
  end.

(** The C string at a pointer. *)
Definition string_at (p : ptr) : M (list Z) :=
  m ← mem_at p; if has_nul m then mret (cstring m) else phalt OutOfBounds.
End Memory.

(** ** ccci_rpcd: the wake lock

    power.c and [rpc_com_wakelock] of ccci_rpcd_platform.c: the two files of
    the kernel are opened at the first use, under their new names or else under
    the old ones, and the lock is taken and given back by writing its name.  The
    results of the writes are ignored by the daemon. *)

Definition RPC_WAKE_LOCK_NAME := lit "ccci_rpc".
Definition PARTIAL_WAKE_LOCK : Z := 1.
Definition EINVAL : Z := 22.

Definition OLD_PATHS :=
  [lit "/sys/android_power/acquire_partial_wake_lock"; lit "/sys/android_power/release_wake_lock"].
Definition NEW_PATHS := [lit "/sys/power/wake_lock"; lit "/sys/power/wake_unlock"].

Definition ACQUIRE_PARTIAL_WAKE_LOCK : nat := 0.
Definition RELEASE_WAKE_LOCK : nat := 1.

Section Power.
Context `{OS}.
Abbreviation M := (prog rpcd).

(** [paths] from the [i]th on. *)
Fixpoint open_file_descriptors_from (i : nat) (paths : list (list Z)) : M Z :=
  match paths with
  | [] => pmod (upd_pwr (set_g_error 0));; mret 0
  | p :: paths' =>
      fd ← psys (Sys_open p (Z.lor O_RDWR O_CLOEXEC) 0);
      if rv fd <? 0 then pmod (upd_pwr (set_g_error (- eno fd)));; mret (-1)
      else pmod (upd_pwr (set_g_fd i (rv fd)));; open_file_descriptors_from (S i) paths'
  end.

Definition open_file_descriptors (paths : list (list Z)) : M Z := open_file_descriptors_from 0 paths.

Definition initialize_fds : M unit :=
  g ← pget;
  if negb (g_initialized (pwr g)) then
    r ← open_file_descriptors NEW_PATHS;
    (if r <? 0 then _ ← open_file_descriptors OLD_PATHS; mret tt else mret tt);;
    pmod (upd_pwr (set_g_initialized true))
  else mret tt.

(** The write of the name to one of the two files. *)
Definition write_lock (i : nat) (id : list Z) : M Z :=
  g ← pget;
  fd ← popt OutOfBounds (g_fds (pwr g) !! i);
  ret ← psys (Sys_write fd id);
  mret (if rv ret <? 0 then - eno ret else rv ret).

Definition acquire_wake_lock (lock : Z) (id : list Z) : M Z :=
  initialize_fds;;
  g ← pget;
  if negb (g_error (pwr g) =? 0) then mret (g_error (pwr g))
  else if negb (lock =? PARTIAL_WAKE_LOCK) then mret (- EINVAL)
  else write_lock ACQUIRE_PARTIAL_WAKE_LOCK id.

Definition release_wake_lock (id : list Z) : M Z :=
  initialize_fds;;
  g ← pget;
  if negb (g_error (pwr g) =? 0) then mret (g_error (pwr g)) else write_lock RELEASE_WAKE_LOCK id.

Definition rpc_com_wakelock (lock : bool) : M unit :=
  if lock then _ ← acquire_wake_lock PARTIAL_WAKE_LOCK RPC_WAKE_LOCK_NAME; mret tt
  else _ ← release_wake_lock RPC_WAKE_LOCK_NAME; mret tt.

Definition RPC_WAKE_LOCK : M unit := rpc_com_wakelock true.
Definition RPC_WAKE_UNLOCK : M unit := rpc_com_wakelock false.
End Power.
