(* ===== verification/RpcPacket.v ===== *)
(** * ccci_rpcd: packets

    Parsing of the arguments of a request ([RPC_GetPackInfo]), the answer to
    the modem ([RPC_WriteToMD]) with its fragmentation ([RPC_PreparePktEx],
    [RPC_PreparePktDone]), and the reassembly of fragmented requests in the main
    loop. *)
From S2P Require Import Prelude Posix Wire RpcTypes.

(** [buffer_slot] of the stream mode, an offset of [pRpcBuf]. *)
Definition slot_base (BufIndex : Z) : Z := u32 ((RPC_MAX_BUF_SIZE + sizeof_STREAM_DATA) * BufIndex).

Section GetPackInfo.
Context (m : list Z) (pData : Z).

(** The loop over the arguments: [n] are left, [i] is the next one.  The
    result is the final [Index] and the array. *)
Fixpoint RPC_GetPackInfo_loop (n i : nat) (Index : Z) (pPackInfo : list RPC_PACKET_INFO)
    : option (Z * list RPC_PACKET_INFO) :=
  match n with
  | O => Some (Index, pPackInfo)
  | S n' =>
      match mread32 m (pData + Index) with
      | None => None
      | Some len =>
          let Index := u32 (Index + sizeof_uint) in
          let pPackInfo := <[i := PacketInfo len (PBuf (pData + Index))]> pPackInfo in
          RPC_GetPackInfo_loop n' (S i) (u32 (Index + align4 len)) pPackInfo
      end
  end.

(** [RPC_GetPackInfo] on the memory [m] with the request at [pData]. *)
Definition RPC_GetPackInfo_mem (pPackInfo : list RPC_PACKET_INFO)
    : option (bool * list RPC_PACKET_INFO) :=
  match mread32 m pData with
  | None => None
  | Some PackNum =>
      if PackNum >? RPC_MAX_ARG_NUM then Some (false, pPackInfo)
      else if zlen pPackInfo <? PackNum then None
      else
        match RPC_GetPackInfo_loop (Z.to_nat PackNum) 0 sizeof_uint pPackInfo with
        | None => None
        | Some (Index, pi) => Some (negb (Index >? RPC_MAX_BUF_SIZE), pi)
        end
  end.
End GetPackInfo.

Section Packet.
Context `{OS}.
Abbreviation M := (prog rpcd).

Definition RPC_GetPackInfo (pData : Z) : M bool :=
  g ← pget;
  '(ok, pi) ← popt OutOfBounds (RPC_GetPackInfo_mem (pRpcBuf g) pData (PackInfo (vars g)));
  pmod (upd_vars (set_PackInfo pi));;
  mret ok.

(** The pointer to the packet; what it replaces is in [g_bak]. *)
Definition RPC_PreparePktEx (pData data_to_send ccci_src op_id : Z) (again : bool) : M Z :=
  if negb (data_to_send <=? MAX_RPC_PKT_BYTE) then phalt AssertFail
  else if negb (pData - (sizeof_CCCI_BUFF_T + sizeof_uint) >=? ccci_src) then phalt AssertFail
  else
    let stream := pData - (sizeof_CCCI_BUFF_T + sizeof_uint) in
    bak ← buf_read stream (sizeof_CCCI_BUFF_T + sizeof_uint);
    pmod (set_g_bak bak);;
    d0 ← buf_get32 ccci_src;
    buf_put32 stream
      (if again then Z.lor d0 CCCI_RPC_REQ_SEND_AGAIN
       else Z.land d0 (u32 (Z.lnot CCCI_RPC_REQ_SEND_AGAIN)));;
    buf_put32 (stream + 4) (u32 (data_to_send + sizeof_CCCI_BUFF_T + sizeof_uint));;
    channel ← buf_get32 (ccci_src + 8);
    buf_put32 (stream + 8) channel;;
    reserved ← buf_get32 (ccci_src + 12);
    buf_put32 (stream + 12) reserved;;
    buf_put32 (stream + 16) op_id;;
    mret stream.

Definition RPC_PreparePktDone (pStream : Z) : M unit :=
  g ← pget; buf_write pStream (g_bak g).

(** The loop over the arguments: [n] are left, [src] is what is left of the
    array; the result is the final [DataLength], or [None] when the packet does
    not fit. *)
Fixpoint WriteToMD_args (n : nat) (DataLength pData : Z) (src : list RPC_PACKET_INFO)
    : M (option Z) :=
  match n with
  | O => mret (Some DataLength)
  | S n' =>
      match src with
      | [] => phalt OutOfBounds
      | p :: src' =>
          if u32 (DataLength + 2 * sizeof_uint + Length p) >? RPC_MAX_BUF_SIZE then mret None
          else
            buf_put32 pData (Length p);;
            let pData := pData + sizeof_uint in
            let AlignLength := align4 (Length p) in
            (if bool_decide (RpcTypes.pData p = PBuf pData) then mret tt
             else bs ← deref (RpcTypes.pData p) (Length p); buf_write pData bs);;
            WriteToMD_args n' (u32 (u32 (DataLength + sizeof_uint) + AlignLength))
              (pData + AlignLength) src'
      end
  end.

(** The loop over the fragments; the result is the last value of [ret].  At
    most [n] fragments are sent. *)
Fixpoint WriteToMD_fragments (n : nat) (DeviceFd buffer_slot op_id DataLength data_len data_sent
    pData ret : Z) : M Z :=
  if u32 (data_sent + sizeof_CCCI_BUFF_T + sizeof_uint) <? DataLength then
    match n with
    | O => phalt NoFuel
    | S n' =>
        let again := data_len - data_sent >? MAX_RPC_PKT_BYTE in
        let data_to_send := if again then MAX_RPC_PKT_BYTE else data_len - data_sent in
        pkt_ptr ← RPC_PreparePktEx pData data_to_send buffer_slot op_id again;
        let pkt_size := data_to_send + sizeof_CCCI_BUFF_T + sizeof_uint in
        bs ← buf_read pkt_ptr pkt_size;
        r ← psys (Sys_write DeviceFd bs);
        if negb (rv r =? pkt_size) then mret (rv r)
        else
          RPC_PreparePktDone pkt_ptr;;
          WriteToMD_fragments n' DeviceFd buffer_slot op_id DataLength data_len
            (data_sent + data_to_send) (pData + data_to_send) (rv r)
    end
  else mret ret.

(** Enough for every [data_len]. *)
Definition fragments_bound (data_len : Z) : nat := Z.to_nat (data_len / MAX_RPC_PKT_BYTE + 1).

(** The answer of the stream mode, once its arguments are in the slot. *)
Definition WriteToMD_stream (DeviceFd buffer_slot DataLength : Z) : M bool :=
  let data_len := i32 (DataLength - sizeof_CCCI_BUFF_T - sizeof_uint) in
  channel ← buf_get32 (buffer_slot + 8);
  buf_put32 (buffer_slot + 8) (u32 (channel + 1));;
  if data_len <=? MAX_RPC_PKT_BYTE then
    d0 ← buf_get32 buffer_slot;
    buf_put32 buffer_slot (Z.land d0 (u32 (Z.lnot CCCI_RPC_REQ_SEND_AGAIN)));;
    buf_put32 (buffer_slot + 4) DataLength;;
    bs ← buf_read buffer_slot DataLength;
    ret ← psys (Sys_write DeviceFd bs);
    mret (rv ret =? i32 DataLength)
  else
    op_id ← buf_get32 (buffer_slot + sizeof_CCCI_BUFF_T);
    ret ← WriteToMD_fragments (fragments_bound data_len) DeviceFd buffer_slot op_id DataLength
            data_len 0 (buffer_slot + sizeof_STREAM_DATA) 0;
    mret (negb (ret <? 0)).

(** The answer of the shared-memory mode. *)
Definition WriteToMD_shared (DeviceFd BufIndex pRpcBuf DataLength : Z) : M bool :=
  _ ← psys (Sys_msync pRpcBuf RPC_MAX_BUF_SIZE);
  ret ← psys (Sys_rpc_send DeviceFd DataLength BufIndex);
  mret (negb (rv ret <? 0)).

Definition RPC_WriteToMD (DeviceFd BufIndex : Z) (pPacketSrc : list RPC_PACKET_INFO)
    (PacketNum : Z) : M bool :=
  g ← pget;
  let buffer_slot := slot_base BufIndex in
  let pRpcBuf :=
    if stream_support g then buffer_slot + sizeof_CCCI_BUFF_T
    else u32 ((RPC_MAX_BUF_SIZE + sizeof_rpc_stream_msg_t) * BufIndex) in
  let DataLength := if stream_support g then sizeof_CCCI_BUFF_T + sizeof_uint else 0 in
  rpc_ops_id ← buf_get32 pRpcBuf;
  buf_put32 pRpcBuf (Z.lor RPC_API_RESP_ID rpc_ops_id);;
  buf_put32 (pRpcBuf + 4) PacketNum;;
  args ← WriteToMD_args (Z.to_nat (u32 PacketNum)) (DataLength + sizeof_uint)
           (pRpcBuf + 4 + sizeof_uint) pPacketSrc;
  match args with
  | None => mret false
  | Some DataLength =>
      if negb (stream_support g) then WriteToMD_shared DeviceFd BufIndex pRpcBuf DataLength
      else WriteToMD_stream DeviceFd buffer_slot DataLength
  end.

(** ** Reassembly *)

(** [rpc_buff_state[i]] and [rpc_buff_offset[i]]; the index is the modem's. *)
Definition nth_slot {A} (l : list A) (i : Z) : option A :=
  if 0 <=? i then l !! Z.to_nat i else None.

Definition set_slot (i st off : Z) (g : rpcd) : rpcd :=
  set_rpc_buff_state (<[Z.to_nat i := st]> (rpc_buff_state g))
    (set_rpc_buff_offset (<[Z.to_nat i := off]> (rpc_buff_offset g)) g).

(** [memcpy (dst, src, length)] from the received packet. *)
Definition copy_packet (pkt_buff : list Z) (dst src length : Z) : M unit :=
  bs ← popt OutOfBounds (mread pkt_buff src length); buf_write dst bs.

(** One packet into its slot: the state machine of the re-send mechanism. *)
Definition reassemble (pkt_buff : list Z) (ReqBufIndex d0 d1 : Z) : M unit :=
  g ← pget;
  let p_rpc_buff := slot_base ReqBufIndex in
  let header := sizeof_CCCI_BUFF_T + sizeof_uint in
  st ← popt OutOfBounds (nth_slot (rpc_buff_state g) ReqBufIndex);
  off ← popt OutOfBounds (nth_slot (rpc_buff_offset g) ReqBufIndex);
  if negb (has_bits d0 CCCI_RPC_REQ_SEND_AGAIN) then
    (if st =? RPC_BUFF_IDLE then copy_packet pkt_buff p_rpc_buff 0 d1
     else if st =? RPC_BUFF_WAIT then
       if d1 <? header then phalt AssertFail
       else
         copy_packet pkt_buff (p_rpc_buff + off) header (d1 - header);;
         copy_packet pkt_buff p_rpc_buff 0 sizeof_CCCI_BUFF_T
     else phalt AssertFail);;
    pmod (set_slot ReqBufIndex RPC_BUFF_IDLE 0)
  else
    (if st =? RPC_BUFF_IDLE then
       copy_packet pkt_buff p_rpc_buff 0 d1;;
       pmod (set_slot ReqBufIndex RPC_BUFF_WAIT (u32 (off + d1)))
     else if st =? RPC_BUFF_WAIT then
       let length := u32 (d1 - header) in
       copy_packet pkt_buff (p_rpc_buff + off) header length;;
       pmod (set_slot ReqBufIndex RPC_BUFF_WAIT (u32 (off + length)))
     else phalt AssertFail).

(** [pkt_buff] after the [memset] and the [read]. *)
Definition packet_buffer (data : list Z) : option (list Z) :=
  mwrite (replicate (Z.to_nat MAX_RPC_BUF_BYTE) 0) 0 data.
End Packet.
