(* ===== verification/RpcMain.v ===== *)
(** * ccci_rpcd: the daemon

    The rest of ccci_rpcd.c and ccci_rpcd_platform.c: the support library, the
    property query, the main loop and the start-up.

    The support library is not part of the repository: its two functions,
    [tc1_lib_init] and [tc1_rpc_srv_entry], are arguments, programs over the
    globals of the daemon (the packet array, the count, [tmp_buff] and the
    memory they reach through them) and the environment. *)
From S2P Require Import Prelude Posix CcciIntf Wire RpcTypes RpcPacket.

Section Main.
Context `{OS}.
Context (tc1_lib_init : prog rpcd Z) (tc1_rpc_srv_entry : Z -> prog rpcd Z).
Context (junk : Z -> list Z).
Abbreviation M := (prog rpcd).

(** ** The support library *)

Definition TC1_SUPPORT_LIB_PATH := lit "/vendor/lib/libccci_tc1_srv.so".

Definition load_support_lib : M Z :=
  loaded ← psys (Sys_dlopen TC1_SUPPORT_LIB_PATH);
  if negb loaded then mret (-1)
  else
    init ← psys (Sys_dlsym (lit "tc1_lib_init"));
    if negb init then _ ← psys Sys_dlclose; mret (-1)
    else
      entry ← psys (Sys_dlsym (lit "tc1_rpc_srv_entry"));
      if negb entry then _ ← psys Sys_dlclose; mret (-1)
      else
        r ← tc1_lib_init;
        if r <? 0 then _ ← psys Sys_dlclose; mret (-1)
        else pmod (set_tc1_lib_ready true);; mret 0.

Definition tc1_srv_check (ops_id : Z) : M Z :=
  g ← pget; if tc1_lib_ready g then tc1_rpc_srv_entry ops_id else mret (-1).

Definition signal_treatment (param : Z) : M unit := pmod (set_exit_signal param).

(** ** Requests *)

(** [PackInfo[PacketNum].Length = len; PackInfo[PacketNum++].pData = p] *)
Definition resp (len : Z) (p : ptr) : M unit :=
  g ← pget;
  let n := PacketNum (vars g) in
  _ ← popt OutOfBounds (nth_slot (PackInfo (vars g)) n);
  pmod (upd_vars (set_PackInfo (<[Z.to_nat n := PacketInfo len p]> (PackInfo (vars g)))));;
  pmod (upd_vars (set_PacketNum (n + 1))).

Definition resp_param_error : M unit :=
  pmod (upd_vars (set_RetVal RPC_PARAM_ERROR));; resp sizeof_uint (PVar V_RetVal).

(** [mtk_property_get] with the buffer [property_val]: the result. *)
Definition mtk_property_get (property_name : list Z) : M Z :=
  '(ret, value) ← psys (Sys_property_get property_name);
  g ← pget;
  m ← popt OutOfBounds (mwrite (property_val (vars g)) 0 (cstring value ++ [0]));
  pmod (upd_vars (set_property_val m));;
  mret ret.

Definition query_property : M unit :=
  g ← pget;
  arg ← popt OutOfBounds (nth_slot (PackInfo (vars g)) 0);
  store_at (pData arg) (Length arg) [0];;
  property_name ← string_at (pData arg);
  ret ← mtk_property_get property_name;
  pmod (upd_vars (set_RetVal ret));;
  g ← pget;
  let property_len := zlen (cstring (property_val (vars g))) + 1 in
  resp sizeof_uint (PVar V_RetVal);;
  resp property_len (PVar V_property_val).

(** Parse the request at [pRpcBuf] and run it. *)
Definition serve (pRpcBuf : Z) : M unit :=
  ok ← RPC_GetPackInfo (pRpcBuf + 4);
  if negb ok then resp_param_error
  else
    rpc_ops_id ← buf_get32 pRpcBuf;
    if rpc_ops_id =? IPC_RPC_QUERY_AP_SYS_PROPERTY then query_property
    else
      ret ← tc1_srv_check rpc_ops_id;
      if ret =? 0 then mret tt else resp_param_error.

(** ** The main loop *)

(** The receiving loop of the stream mode, until a whole request is in its
    slot.  A read that fails goes back to the label [retry]. *)
Fixpoint receive (fuel : nat) : M Z :=
  match fuel with
  | O => phalt NoFuel
  | S fuel' =>
      g ← pget;
      r ← psys (Sys_read (DeviceFd g) (MAX_RPC_PKT_BYTE + sizeof_CCCI_BUFF_T + sizeof_uint));
      pkt_buff ← popt OutOfBounds (packet_buffer (rres_data r));
      pmod (upd_vars (set_RetVal (rres_rv r)));;
      if rres_rv r <=? 0 then receive fuel'
      else
        RPC_WAKE_LOCK;;
        let word off := de32 (take 4 (drop off pkt_buff)) in
        let ReqBufIndex := i32 (word 12%nat) in
        pmod (upd_vars (set_ReqBufIndex ReqBufIndex));;
        reassemble pkt_buff ReqBufIndex (word 0%nat) (word 4%nat);;
        g ← pget;
        st ← popt OutOfBounds (nth_slot (rpc_buff_state g) ReqBufIndex);
        if st =? RPC_BUFF_IDLE then mret (slot_base ReqBufIndex + sizeof_CCCI_BUFF_T)
        else RPC_WAKE_UNLOCK;; receive fuel'
  end.

(** The request of the shared-memory mode; [None] when the index is bad and the
    answer ready. *)
Definition receive_index : M (option Z) :=
  g ← pget;
  '(r, page) ← psys (Sys_rpc_get_index (DeviceFd g));
  pmod (set_pRpcBuf page);;
  pmod (upd_vars (set_ReqBufIndex (rv r)));;
  RPC_WAKE_LOCK;;
  if (rv r <? 0) || (rv r >? RPC_REQ_BUFFER_MUN) then resp_param_error;; mret None
  else mret (Some (u32 ((RPC_MAX_BUF_SIZE + sizeof_rpc_stream_buffer_t) * rv r))).

(** The label [_Next]. *)
Definition reply : M unit :=
  g ← pget;
  _ ← RPC_WriteToMD (DeviceFd g) (ReqBufIndex (vars g)) (PackInfo (vars g)) (PacketNum (vars g));
  RPC_WAKE_UNLOCK.

(** One iteration of the main loop. *)
Definition main_step (fuel : nat) : M unit :=
  pmod (upd_vars (set_PacketNum 0));;
  g ← pget;
  request ← (if stream_support g then b ← receive fuel; mret (Some b) else receive_index);
  match request with Some pRpcBuf => serve pRpcBuf | None => mret tt end;;
  reply.

(** A handler runs asynchronously, but only the loop condition looks at what it
    stores: the signals of an iteration are delivered before it. *)
Definition deliver_signal : M unit :=
  s ← psys Sys_signal_pending;
  match s with Some param => signal_treatment param | None => mret tt end.

Fixpoint main_loop (fuel : nat) : M unit :=
  deliver_signal;;
  g ← pget;
  if exit_signal g =? 0 then
    match fuel with
    | O => phalt NoFuel
    | S fuel' => main_step fuel';; main_loop fuel'
    end
  else mret tt.

(** ** Start-up *)

(** The modem of the command line: [md_id] and whether its device node is
    looked up, for the modem [MD_SYS] of the table.  [None]: an invalid argument. *)
Definition select_modem (argv : list (list Z)) : option (Z * option Z) :=
  match argv with
  | [_; a] =>
      if streq a (lit "0") then Some (0, Some MD_SYS1)
      else if streq a (lit "1") then Some (1, Some MD_SYS2)
      else if streq a (lit "4") then Some (4, Some MD_SYS5)
      else None
  | _ => Some (0, None)
  end.

Definition stream_version : M bool :=
  v ← ccci_get_version;
  if v =? ECCCI then mret true
  else
    v ← ccci_get_version;
    if v =? EDSDA then mret true
    else v ← ccci_get_version; mret (v =? ECCCI_FSM).

Fixpoint register_signals (n : nat) : M unit :=
  match n with
  | O => mret tt
  | S n' => _ ← psys Sys_signal; register_signals n'
  end.

(** The request slots: a mapping of the driver, or a zeroed allocation. *)
Definition alloc_slots : M unit :=
  g ← pget;
  if negb (stream_support g) then
    m ← psys (Sys_mmap sizeof_rpc_stream_buffer_t (DeviceFd g));
    pmod (set_pRpcBuf (default [] m))
  else
    let alloc_length := (sizeof_STREAM_DATA + RPC_MAX_BUF_SIZE) * RPC_BUFFER_SLOT_NUM in
    ok ← psys (Sys_malloc alloc_length);
    if negb ok then phalt NullDeref
    else pmod (set_pRpcBuf (replicate (Z.to_nat alloc_length) 0)).

(** The rest of [main], once the device is open.  The result of the [malloc] of
    [PackInfo] is not checked: a null array has no entries. *)
Definition main_run (fuel : nat) : M Z :=
  alloc_slots;;
  ok ← psys (Sys_malloc (8 * RPC_MAX_ARG_NUM));
  pmod (upd_vars (set_PackInfo
    (if ok : bool then replicate (Z.to_nat RPC_MAX_ARG_NUM) (PacketInfo (de32 (junk 4)) PUninit)
     else [])));;
  register_signals 7;;
  _ ← load_support_lib;
  main_loop fuel;;
  g ← pget;
  _ ← psys (Sys_close (DeviceFd g));
  _ ← psys Sys_dlclose;
  mret 0.

Definition main (fuel : nat) (argv : list (list Z)) : M Z :=
  _ ← ccci_get_version;
  match select_modem argv with
  | None => mret (-1)
  | Some (id, node_of) =>
      node ← (match node_of with
              | Some md => ccci_get_node_name USR_CCCI_RPC md
              | None => mret (Some (lit "/dev/ccci_rpc"))
              end);
      let dev_node := take 31 (default (lit "(null)") node) in
      pmod (set_md_id id);;
      stream ← (if id =? 4 then mret true else stream_version);
      pmod (set_stream_support stream);;
      fd ← psys (Sys_open dev_node O_RDWR 0);
      pmod (set_DeviceFd (rv fd));;
      if rv fd =? -1 then mret (-1) else main_run fuel
  end.
End Main.
