(* ===== verification/RpcDemo.v ===== *)
(** * ccci_rpcd: concrete states

    A daemon of the stream mode that has just started, its wake lock files
    open, without a support library, and a property query: what the witnesses
    run on. *)
From S2P Require Import Prelude Posix MemFs Wire RpcTypes RpcPacket RpcMain.

Definition demo_lock_fd : Z := 60.
Definition demo_unlock_fd : Z := 61.

Definition rpc_demo : rpcd :=
  Rpcd true dev_fd 0 (replicate (Z.to_nat (5 * 2068)) 0) (replicate 5 RPC_BUFF_IDLE) (replicate 5 0)
    (replicate 20 0) false 0 (Power true [demo_lock_fd; demo_unlock_fd] 0)
    (MainVars 0 (replicate 92 0) (replicate 8 0) (replicate 6 (PacketInfo 0 PUninit)) 0 0).

(** "ro.b", with its terminator, and its value. *)
Definition demo_property := lit "ro.b" ++ [0].
Definition demo_value := lit "7".

(** A query for slot 2 on channel 32, and a fragment of the largest size for
    slot 1. *)
Definition demo_query : list Z :=
  le32 0 ++ le32 36 ++ le32 32 ++ le32 2 ++ le32 IPC_RPC_QUERY_AP_SYS_PROPERTY ++
  le32 1 ++ le32 5 ++ demo_property ++ [0; 0; 0].

Definition demo_fragment : list Z :=
  le32 CCCI_RPC_REQ_SEND_AGAIN ++ le32 3476 ++ le32 32 ++ le32 1 ++
  le32 IPC_RPC_QUERY_AP_SYS_PROPERTY ++ replicate 3456 170.

(** The in-memory environment, with the two lock files open. *)
Definition rpc_fs (packets : list (list Z)) : memfs :=
  MemFs [(lit "/lock", NFile 432 []); (lit "/unlock", NFile 432 [])]
    [(demo_lock_fd, (lit "/lock", 0)); (demo_unlock_fd, (lit "/unlock", 0))]
    [] 70 packets [(lit "ro.b", demo_value)] 0 100.

Definition rpc_world (packets : list (list Z)) : world rpcd := mem_world (rpc_fs packets) rpc_demo.

Definition no_lib_init : prog rpcd Z := mret (-1).
Definition no_lib_entry (_ : Z) : prog rpcd Z := mret (-1).
