(* ===== verification/RpcWake.v ===== *)
(** * ccci_rpcd: the wake lock is held around every request

    A typestate of the wake lock over the trace: it is taken when free, given
    back when held, the daemon waits for the modem without it and does
    everything else under it.  [wakes] is the judgement that a program keeps
    to it once the two lock files have been tried, [boots] that it tries them before
    anything else it does for the modem; [wake_discipline] is the main loop of a
    daemon that has just started. *)
From S2P Require Import Prelude Posix MemFs Wire RpcTypes RpcPacket RpcMain RpcDemo.

Inductive wake_event := Acquire | Release | Wait | Work.

Section Wake.
Context `{OS}.

(** The descriptors of the two lock files, [None] when they could not be opened,
    and of the modem device; the descriptors the support library writes to. *)
Context (mode : option (Z * Z)) (dev : Z) (lib_fd : Z -> bool).

(** Without lock files the writes are those to the modem and the library's. *)
Definition wake_event_of {T} (c : sys T) : wake_event :=
  match c with
  | Sys_write fd _ =>
      match mode with
      | Some (lock_fd, unlock_fd) =>
          if fd =? lock_fd then Acquire else if fd =? unlock_fd then Release else Work
      | None => if (fd =? dev) || lib_fd fd then Work else Acquire
      end
  | Sys_read fd _ => if fd =? dev then Wait else Work
  | Sys_rpc_get_index _ => Wait
  | Sys_signal_pending => Wait
  | _ => Work
  end.

(** With the lock files, it is taken when free, given back when held, the daemon
    waits without it and works under it; without them there is no lock to take. *)
Definition wake_step (held : bool) (e : event) : option bool :=
  match mode, wake_event_of (ev_call e), held with
  | Some _, Acquire, false => Some true
  | Some _, Release, true => Some false
  | Some _, Wait, false => Some false
  | Some _, Work, true => Some true
  | None, (Wait | Work), _ => Some held
  | _, _, _ => None
  end.

(** Whether the lock is held after a trace that keeps to the discipline. *)
Fixpoint wake_run (held : bool) (evs : list event) : option bool :=
  match evs with
  | [] => Some held
  | e :: evs' => held' ← wake_step held e; wake_run held' evs'
  end.

Lemma wake_run_app h e1 e2 : wake_run h (e1 ++ e2) = wake_run h e1 ≫= fun h' => wake_run h' e2.
Proof. revert h. induction e1 as [|e e1 IH]; intros h; simpl; [done|]. destruct (wake_step h e); [apply IH|done]. Qed.

Lemma wake_run_none evs h h' r : mode = None -> wake_run h evs = Some r -> wake_run h' evs = Some h'.
Proof.
  intros Hm. revert h r. induction evs as [|e evs IH]; intros h r; simpl; [done|].
  unfold wake_step. rewrite Hm. destruct (wake_event_of _); simpl; try done; apply IH.
Qed.

(** The two lock files have been tried: they are open, or the error is noted. *)
Definition lock_open (g : rpcd) : Prop :=
  match mode with
  | Some (lock_fd, unlock_fd) => pwr g = Power true [lock_fd; unlock_fd] 0
  | None => exists fds err, pwr g = Power true fds err /\ err <> 0
  end /\ DeviceFd g = dev.

(** The lock files, when they are open, are two files of their own. *)
Definition distinct : Prop :=
  match mode with
  | Some (lock_fd, unlock_fd) =>
      lock_fd <> unlock_fd /\ dev <> lock_fd /\ dev <> unlock_fd /\ lib_fd lock_fd = false /\ lib_fd unlock_fd = false
  | None => True
  end.

(** From [held], the calls of the program keep to the discipline; when it
    returns, the lock, if there is one, is [held']. *)
Definition wakes {A} (held : bool) (m : prog rpcd A) (held' : bool) : Prop :=
  forall w, lock_open (w_glob w) -> exists evs,
    w_trace (m w).1 = w_trace w ++ evs /\
    match (m w).2 with Ok _ => lock_open (w_glob (m w).1) | Halt _ => True end /\
    (distinct -> exists h, wake_run held evs = Some h /\
      match (m w).2 with Ok _ => mode = None \/ h = held' | Halt _ => True end).

Lemma wakes_silent {A} h (m : prog rpcd A) :
  (forall w, w_trace (m w).1 = w_trace w /\ (lock_open (w_glob w) -> lock_open (w_glob (m w).1))) ->
  wakes h m h.
Proof.
  intros Hm w HI. destruct (Hm w) as [Ht Hg]. exists []. rewrite app_nil_r, Ht. split; [done|].
  split; [destruct (m w).2; auto|]. intros _. exists h. split; [done|]. destruct (m w).2; auto.
Qed.

Lemma wakes_bind {A B} h h1 h2 (m : prog rpcd A) (k : A -> prog rpcd B) :
  wakes h m h1 -> (forall a, wakes h1 (k a) h2) -> wakes h (m ≫= k) h2.
Proof.
  intros Hm Hk w HI. destruct (Hm w HI) as (e1 & Ht & HI1 & Hd1).
  unfold mbind, prog_bind. destruct (m w) as [w1 [a|x]]; simpl in *; [|by exists e1].
  destruct (Hk a w1 HI1) as (e2 & Ht2 & HI2 & Hd2).
  exists (e1 ++ e2). rewrite Ht2, Ht, app_assoc. split_and!; [done|done|]. intros Hd.
  destruct (Hd1 Hd) as (h' & Hr & Hh). destruct (Hd2 Hd) as (h'' & Hr2 & Hh2). rewrite wake_run_app, Hr. simpl.
  destruct Hh as [Hn| ->]; [|by exists h'']. exists h'. split; [by eapply wake_run_none|].
  destruct (k a w1).2; auto.
Qed.

Lemma wakes_ret {A} h (a : A) : wakes h (mret a) h.
Proof. by apply wakes_silent. Qed.

Lemma wakes_halt {A} h h' x : wakes (A := A) h (phalt x) h'.
Proof. intros w HI. exists []. rewrite app_nil_r. split_and!; [done..|]. intros _. by exists h. Qed.

Lemma wakes_ret_bind {A B} h h' (a : A) (k : A -> prog rpcd B) :
  wakes h (k a) h' -> wakes h (mret a ≫= k) h'.
Proof. done. Qed.

Lemma wakes_get {B} h h' (k : rpcd -> prog rpcd B) :
  (forall g, lock_open g -> wakes h (k g) h') -> wakes h (pget ≫= k) h'.
Proof. intros Hk w HI. by apply Hk. Qed.

Lemma wakes_opt {A} h x (o : option A) : wakes h (popt x o) h.
Proof. destruct o; [apply wakes_ret|apply wakes_halt]. Qed.

Lemma wakes_mod h f : (forall g, lock_open g -> lock_open (f g)) -> wakes h (pmod f) h.
Proof. intros Hf. apply wakes_silent. intros w. split; [done|apply Hf]. Qed.

Lemma wakes_sys {T} h h' (c : sys T) :
  (distinct -> forall r, wake_step h (Ev c r) = Some h') -> wakes h (psys c) h'.
Proof.
  intros Hc w HI. unfold psys. destruct (os_do c (w_os w)) as [s r]; simpl.
  exists [Ev c r]. split_and!; [done|done|]. intros Hd. exists h'. simpl. rewrite Hc by done. auto.
Qed.

Lemma wakes_vars h f : wakes h (pmod (upd_vars f)) h.
Proof. by apply wakes_mod. Qed.

Lemma wakes_buf_read h off len : wakes h (buf_read off len) h.
Proof. apply wakes_get. intros g _. apply wakes_opt. Qed.

Lemma wakes_buf_get32 h off : wakes h (buf_get32 off) h.
Proof. eapply wakes_bind; [apply wakes_buf_read|]. intros. apply wakes_ret. Qed.

Lemma wakes_buf_write h off bs : wakes h (buf_write off bs) h.
Proof.
  apply wakes_get. intros g _. eapply wakes_bind; [apply wakes_opt|]. intros m. by apply wakes_mod.
Qed.

Lemma wakes_buf_put32 h off v : wakes h (buf_put32 off v) h.
Proof. apply wakes_buf_write. Qed.

Lemma wakes_load h a : wakes h (pload a) h.
Proof. apply wakes_silent. intros w. unfold pload. by case_match. Qed.

Lemma wakes_store h a bs : wakes h (pstore a bs) h.
Proof. apply wakes_silent. intros w. unfold pstore. by case_match. Qed.

#[local] Hint Resolve wakes_ret wakes_halt wakes_opt wakes_vars wakes_buf_read wakes_buf_get32
  wakes_buf_write wakes_buf_put32 wakes_load wakes_store : cfs.

(** Walk a program as [pres] does; the calls stay. *)
Ltac wake_step_tac :=
  match goal with
  | |- wakes _ (pget ≫= _) _ => apply wakes_get; intros ? ?
  | |- wakes _ (_ ≫= _) _ => eapply wakes_bind; [|intros ?]
  | |- wakes _ (if ?b then _ else _) _ => destruct b eqn:?
  | |- wakes _ (match ?x with _ => _ end) _ => destruct x eqn:?
  | |- wakes _ (pmod _) _ => apply wakes_mod; done
  end.
Ltac wake := repeat (first [ solve [ eauto with cfs nocore ] | wake_step_tac ]).

(** ** The lock *)

Lemma initialized h : wakes h initialize_fds h.
Proof.
  intros w HI. assert (initialize_fds w = (w, Ok tt)) as ->.
  2: { exists []. rewrite app_nil_r. split_and!; [done..|]. intros _. exists h. simpl. auto. }
  unfold initialize_fds, mbind, prog_bind, pget. destruct HI as [Hp _]. destruct mode as [[l u]|]; [by rewrite Hp|].
  by destruct Hp as (fds & err & -> & _).
Qed.

(** What follows [initialize_fds] in both. *)
Definition toggle (i : nat) (id : list Z) : prog rpcd Z :=
  g ← pget; if negb (g_error (pwr g) =? 0) then mret (g_error (pwr g)) else write_lock i id.

Lemma wakes_toggle (i : nat) id h h' :
  (i = ACQUIRE_PARTIAL_WAKE_LOCK /\ h = false /\ h' = true) \/ (i = RELEASE_WAKE_LOCK /\ h = true /\ h' = false) ->
  wakes h (toggle i id) h'.
Proof.
  intros Hi. unfold toggle. apply wakes_get. intros g [Hp _].
  destruct mode as [[l u]|] eqn:Hm.
  - rewrite Hp. cbn [g_error Z.eqb negb]. apply wakes_get. intros g' [Hp' _]. rewrite Hm in Hp'. rewrite Hp'. cbn [g_fds].
    destruct Hi as [(-> & -> & ->)|(-> & -> & ->)]; simpl; apply wakes_ret_bind;
      (eapply wakes_bind; [apply wakes_sys|intros; apply wakes_ret]); intros Hd r;
      unfold distinct in Hd; rewrite Hm in Hd; destruct Hd as (Hlu & _); unfold wake_step, wake_event_of; rewrite Hm; simpl.
    + by rewrite Z.eqb_refl.
    + rewrite (proj2 (Z.eqb_neq u l)) by congruence. by rewrite Z.eqb_refl.
  - destruct Hp as (fds & err & -> & Herr). cbn [g_error]. rewrite (proj2 (Z.eqb_neq _ _)) by done. cbn [negb].
    intros w HI. exists []. rewrite app_nil_r. split_and!; [done|exact HI|]. intros _. exists h. split; [done|by left].
Qed.

Lemma wakes_lock : wakes false RPC_WAKE_LOCK true.
Proof.
  eapply wakes_bind; [|intros; apply wakes_ret]. eapply wakes_bind; [apply initialized|intros _].
  apply (wakes_toggle ACQUIRE_PARTIAL_WAKE_LOCK RPC_WAKE_LOCK_NAME). auto.
Qed.

Lemma wakes_unlock : wakes true RPC_WAKE_UNLOCK false.
Proof.
  eapply wakes_bind; [|intros; apply wakes_ret]. eapply wakes_bind; [apply initialized|intros _].
  apply (wakes_toggle RELEASE_WAKE_LOCK RPC_WAKE_LOCK_NAME). auto.
Qed.

(** ** Requests *)

Lemma wakes_mem_at h p : wakes h (mem_at p) h.
Proof. unfold mem_at. wake. Qed.
#[local] Hint Resolve wakes_mem_at : cfs.

Lemma wakes_deref h p n : wakes h (deref p n) h.
Proof. unfold deref. wake. Qed.

Lemma wakes_store_at h p off bs : wakes h (store_at p off bs) h.
Proof. unfold store_at. wake. Qed.

Lemma wakes_string_at h p : wakes h (string_at p) h.
Proof. unfold string_at. wake. Qed.

Lemma wakes_resp h n p : wakes h (resp n p) h.
Proof. unfold resp. wake. Qed.
#[local] Hint Resolve wakes_deref wakes_store_at wakes_string_at wakes_resp : cfs.

Lemma wakes_param_error h : wakes h resp_param_error h.
Proof. unfold resp_param_error. wake. Qed.
#[local] Hint Resolve wakes_param_error : cfs.

Lemma wakes_work {T} (c : sys T) : (distinct -> wake_event_of c = Work) -> wakes true (psys c) true.
Proof. intros Hc. apply wakes_sys. intros Hd%Hc r. unfold wake_step. simpl. rewrite Hd. by destruct mode. Qed.

Lemma wakes_query : wakes true query_property true.
Proof. unfold query_property, mtk_property_get. wake. by apply wakes_work. Qed.

Lemma wakes_GetPackInfo h p : wakes h (RPC_GetPackInfo p) h.
Proof. unfold RPC_GetPackInfo. wake. Qed.

(** A packet for the modem is not a write to a lock file. *)
Lemma device_write bs : distinct -> wake_event_of (Sys_write dev bs) = Work.
Proof.
  unfold distinct. simpl. destruct mode as [[l u]|]; [|by rewrite Z.eqb_refl].
  intros (_ & ? & ? & _). by rewrite (proj2 (Z.eqb_neq dev l)), (proj2 (Z.eqb_neq dev u)).
Qed.

Lemma wakes_args h n len p src : wakes h (WriteToMD_args n len p src) h.
Proof. revert len p src. induction n as [|n IH]; intros; simpl; wake. Qed.

Lemma wakes_PreparePktEx h p n src op again : wakes h (RPC_PreparePktEx p n src op again) h.
Proof. unfold RPC_PreparePktEx. wake. Qed.

Lemma wakes_PreparePktDone h p : wakes h (RPC_PreparePktDone p) h.
Proof. unfold RPC_PreparePktDone. wake. Qed.
#[local] Hint Resolve wakes_args wakes_PreparePktEx wakes_PreparePktDone wakes_GetPackInfo : cfs.

Lemma wakes_fragments n slot op DL len sent p ret :
  wakes true (WriteToMD_fragments n dev slot op DL len sent p ret) true.
Proof.
  revert sent p ret. induction n as [|n IH]; intros; simpl; wake. apply wakes_work, device_write.
Qed.

Lemma wakes_WriteToMD i src n : wakes true (RPC_WriteToMD dev i src n) true.
Proof.
  unfold RPC_WriteToMD, WriteToMD_shared, WriteToMD_stream. wake; try apply wakes_fragments;
    apply wakes_work; done || apply device_write.
Qed.

Lemma wakes_reply : wakes true reply false.
Proof.
  apply wakes_get. intros g [_ Hd]. rewrite Hd.
  eapply wakes_bind; [apply wakes_WriteToMD|intros _; apply wakes_unlock].
Qed.

Lemma wakes_reassemble h pkt i d0 d1 : wakes h (reassemble pkt i d0 d1) h.
Proof. unfold reassemble, copy_packet. wake. Qed.
#[local] Hint Resolve wakes_reassemble wakes_lock wakes_unlock wakes_reply wakes_query : cfs.

Lemma wakes_wait {T} (c : sys T) : wake_event_of c = Wait -> wakes false (psys c) false.
Proof. intros Hc. apply wakes_sys. intros _ r. unfold wake_step. simpl. rewrite Hc. by destruct mode. Qed.

Lemma wakes_receive fuel : wakes false (receive fuel) true.
Proof.
  induction fuel as [|fuel IH]; simpl; [apply wakes_halt|].
  apply wakes_get. intros g [_ Hd]. rewrite Hd.
  eapply wakes_bind; [apply wakes_wait; simpl; by rewrite Z.eqb_refl|]. intros r. wake.
Qed.

Lemma wakes_receive_index : wakes false receive_index true.
Proof.
  apply wakes_get. intros g _. eapply wakes_bind; [by apply wakes_wait|]. intros [r page]. wake.
Qed.
#[local] Hint Resolve wakes_receive wakes_receive_index : cfs.

(** ** The main loop *)

Section Lib.
Context (tc1_rpc_srv_entry : Z -> prog rpcd Z).

(** A call of the library: it writes to its own descriptors, it does not read the
    device or ask for a signal. *)
Definition lib_event (e : event) : Prop :=
  match ev_call e with
  | Sys_write fd _ => lib_fd fd = true
  | Sys_read fd _ => fd <> dev
  | Sys_rpc_get_index _ | Sys_signal_pending => False
  | _ => True
  end.

(** What the daemon relies on of the library: it leaves the globals of the wake
    lock and the device alone. *)
Definition lib_leaves : Prop := forall op w, exists evs,
  w_trace (tc1_rpc_srv_entry op w).1 = w_trace w ++ evs /\ Forall lib_event evs /\
  pwr (w_glob (tc1_rpc_srv_entry op w).1) = pwr (w_glob w) /\
  DeviceFd (w_glob (tc1_rpc_srv_entry op w).1) = DeviceFd (w_glob w).

Hypothesis Hlib : lib_leaves.

Lemma lib_step e : distinct -> lib_event e -> wake_step true e = Some true.
Proof.
  unfold distinct, lib_event, wake_step, wake_event_of. destruct e as [T c r]; simpl. intros Hd He.
  destruct mode as [[l u]|], c; try done; simpl in *.
  all: try (rewrite (proj2 (Z.eqb_neq _ dev)) by done; done).
  - destruct Hd as (_ & _ & _ & Hl & Hu).
    repeat case_match; zbool; congruence.
  - rewrite He, orb_true_r. done.
Qed.

Lemma wakes_lib op : wakes true (tc1_rpc_srv_entry op) true.
Proof.
  intros w HI. destruct (Hlib op w) as (evs & Ht & Hev & Hp & Hd). exists evs. split; [done|].
  assert (lock_open (w_glob (tc1_rpc_srv_entry op w).1)) as HI' by (unfold lock_open in *; by rewrite Hp, Hd).
  split; [by case_match|]. intros Hdist. exists true. split; [|by case_match; auto]. clear Ht HI'.
  induction Hev as [|e evs He _ IH]; [done|]. simpl. by rewrite (lib_step e Hdist He).
Qed.
#[local] Hint Resolve wakes_lib : cfs.

Lemma wakes_serve p : wakes true (serve tc1_rpc_srv_entry p) true.
Proof. unfold serve, tc1_srv_check. wake. Qed.
#[local] Hint Resolve wakes_serve : cfs.

Lemma wakes_main_step fuel : wakes false (main_step tc1_rpc_srv_entry fuel) false.
Proof. unfold main_step. wake. Qed.

Lemma wakes_main_loop fuel : wakes false (main_loop tc1_rpc_srv_entry fuel) false.
Proof.
  induction fuel as [|fuel IH]; simpl;
    (eapply wakes_bind; [unfold deliver_signal, signal_treatment; wake; by apply wakes_wait|intros _]);
    apply wakes_get; intros g _; destruct (exit_signal g =? 0); try apply wakes_ret.
  - apply wakes_halt.
  - eapply wakes_bind; [apply wakes_main_step|intros _; apply IH].
Qed.
End Lib.
End Wake.

(** ** Before the lock files are open *)

(** The events of opening [paths] with the answers [rs]. *)
Definition opens_of (paths : list (list Z)) (rs : list ires) : list event :=
  zip_with (fun p r => Ev (Sys_open p (Z.lor O_RDWR O_CLOEXEC) 0) r) paths rs.

(** Both files opened, or one of them failed, with [errno] [e], and ended the attempt. *)
Definition opened_both (rs : list ires) (l u : Z) : Prop :=
  exists e1 e2, rs = [IRes l e1; IRes u e2] /\ 0 <= l /\ 0 <= u.
Definition refused (rs : list ires) (e : Z) : Prop :=
  exists v, v < 0 /\ (rs = [IRes v e] \/ exists l e1, 0 <= l /\ rs = [IRes l e1; IRes v e]).

(** The first of the two pairs of files that opens gives the lock.  The code knows a
    failure by its [errno]: one that set none would be taken for a success. *)
Inductive opening : list event -> option (Z * Z) -> Prop :=
| opening_new rs l u : opened_both rs l u -> opening (opens_of NEW_PATHS rs) (Some (l, u))
| opening_old rs e rs' l u : refused rs e -> opened_both rs' l u ->
    opening (opens_of NEW_PATHS rs ++ opens_of OLD_PATHS rs') (Some (l, u))
| opening_none rs e rs' e' : refused rs e -> refused rs' e' -> e' <> 0 ->
    opening (opens_of NEW_PATHS rs ++ opens_of OLD_PATHS rs') None
| opening_blind rs e rs' l u : refused rs e -> refused rs' 0 ->
    opening (opens_of NEW_PATHS rs ++ opens_of OLD_PATHS rs') (Some (l, u)).

Section Boot.
Context `{OS} (dev : Z) (lib_fd : Z -> bool).

(** What the daemon does before it needs the lock: it waits for the modem. *)
Definition waits (e : event) : Prop :=
  match ev_call e with
  | Sys_read fd _ => fd = dev
  | Sys_rpc_get_index _ | Sys_signal_pending => True
  | _ => False
  end.

Definition unopened (g : rpcd) : Prop := (exists a b e, pwr g = Power false [a; b] e) /\ DeviceFd g = dev.

(** From the start: the program only waits, or it waits, tries the lock files and
    from there on keeps to the discipline, with the lock [held] when it returns.
    [stay] says whether it may return without having tried them. *)
Definition boots {A} (m : prog rpcd A) (stay held : bool) : Prop :=
  forall w, unopened (w_glob w) ->
    (exists evs, w_trace (m w).1 = w_trace w ++ evs /\ Forall waits evs /\
      match (m w).2 with Ok _ => stay = true /\ unopened (w_glob (m w).1) | Halt _ => True end) \/
    (exists e0 eo mode e1, w_trace (m w).1 = w_trace w ++ e0 ++ eo ++ e1 /\ Forall waits e0 /\ opening eo mode /\
      match (m w).2 with Ok _ => lock_open mode dev (w_glob (m w).1) | Halt _ => True end /\
      (distinct mode dev lib_fd -> exists h, wake_run mode dev lib_fd false e1 = Some h /\
        match (m w).2 with Ok _ => mode = None \/ h = held | Halt _ => True end)).

Lemma boots_bind {A B} stay h1 stay' h2 (m : prog rpcd A) (k : A -> prog rpcd B) :
  boots m stay h1 -> (stay = true -> forall a, boots (k a) stay' h2) ->
  (forall mode a, wakes mode dev lib_fd h1 (k a) h2) -> boots (m ≫= k) stay' h2.
Proof.
  intros Hm Hs Hk w HI. unfold mbind, prog_bind.
  destruct (Hm w HI) as [(evs & Ht & Hw & Hout)|(e0 & eo & mode & e1 & Ht & Hw & Ho & HI1 & Hd)].
  - destruct (m w) as [w1 [a|x]]; simpl in *; [|by left; exists evs]. destruct Hout as [Hst HI1].
    destruct (Hs Hst a w1 HI1) as [(evs' & Ht' & Hw' & Hout')|(e0 & eo & mode & e1 & Ht' & Hw' & Ho & HL & Hd)].
    + left. exists (evs ++ evs'). rewrite Ht', Ht, app_assoc. split_and!; [done|by apply Forall_app|done].
    + right. exists (evs ++ e0), eo, mode, e1. rewrite Ht', Ht, <- !app_assoc. split_and!; [done|by apply Forall_app|done..].
  - right. destruct (m w) as [w1 [a|x]]; simpl in *; [|by exists e0, eo, mode, e1].
    destruct (Hk mode a w1 HI1) as (e2 & Ht2 & HI2 & Hd2).
    exists e0, eo, mode, (e1 ++ e2). rewrite Ht2, Ht, <- !app_assoc. split_and!; [done..|]. intros Hdist.
    destruct (Hd Hdist) as (h & Hr & Hh). destruct (Hd2 Hdist) as (h' & Hr2 & Hh2). rewrite wake_run_app, Hr. simpl.
    destruct Hh as [Hn| ->]; [|by exists h']. exists h. split; [by eapply wake_run_none|]. destruct (k a w1).2; auto.
Qed.

(** A step that only waits. *)
Lemma boots_quiet {A} h (m : prog rpcd A) :
  (forall w, exists evs, w_trace (m w).1 = w_trace w ++ evs /\ Forall waits evs /\
    (unopened (w_glob w) -> unopened (w_glob (m w).1))) -> boots m true h.
Proof.
  intros Hm w HI. left. destruct (Hm w) as (evs & Ht & Hw & HI'). exists evs. split_and!; [done|done|].
  case_match; [|done]. auto.
Qed.

Lemma boots_wait {T} h (c : sys T) : (forall r, waits (Ev c r)) -> boots (psys c) true h.
Proof.
  intros Hc. apply boots_quiet. intros w. unfold psys. destruct (os_do c (w_os w)) as [s r]. simpl.
  exists [Ev c r]. split_and!; [done|by constructor|done].
Qed.

Lemma boots_silent {A} h (m : prog rpcd A) :
  (forall w, w_trace (m w).1 = w_trace w /\ (unopened (w_glob w) -> unopened (w_glob (m w).1))) -> boots m true h.
Proof.
  intros Hm. apply boots_quiet. intros w. destruct (Hm w) as [Ht HI]. exists []. by rewrite app_nil_r.
Qed.

Lemma boots_ret {A} h (a : A) : boots (mret a) true h.
Proof. by apply boots_silent. Qed.

Lemma boots_halt {A} h stay x : boots (A := A) (phalt x) stay h.
Proof. intros w HI. left. exists []. by rewrite app_nil_r. Qed.

Lemma boots_opt {A} h x (o : option A) : boots (popt x o) true h.
Proof. by destruct o; apply boots_silent. Qed.

Lemma boots_mod h f : (forall g, unopened g -> unopened (f g)) -> boots (pmod f) true h.
Proof. intros Hf. apply boots_silent. intros w. split; [done|apply Hf]. Qed.

Lemma boots_get {B} stay h (k : rpcd -> prog rpcd B) :
  (forall g, unopened g -> boots (k g) stay h) -> boots (pget ≫= k) stay h.
Proof. intros Hk w HI. by apply Hk. Qed.

(** Opening a pair of files. *)
Lemma open_pair_run p1 p2 (w : world rpcd) ini a b e : pwr (w_glob w) = Power ini [a; b] e -> DeviceFd (w_glob w) = dev ->
  exists rs w1 r, open_file_descriptors [p1; p2] w = (w1, Ok r) /\ w_trace w1 = w_trace w ++ opens_of [p1; p2] rs /\
    DeviceFd (w_glob w1) = dev /\
    (r = 0 /\ (exists l u, opened_both rs l u /\ pwr (w_glob w1) = Power ini [l; u] 0) \/
     r = -1 /\ exists err a' b', refused rs err /\ pwr (w_glob w1) = Power ini [a'; b'] (- err)).
Proof.
  intros Hp Hd. unfold open_file_descriptors. simpl. unfold mbind, prog_bind, psys, pmod, mret, prog_ret.
  destruct (os_do (Sys_open p1 (Z.lor O_RDWR O_CLOEXEC) 0) (w_os w)) as [s1 [v1 n1]]. simpl in *.
  destruct (Z.ltb_spec v1 0) as [Hv1|Hv1].
  { eexists [IRes v1 n1], _, (-1). split; [done|]. simpl. split_and!; [done|done|]. right. split; [done|].
    exists n1, a, b. rewrite Hp. split; [by exists v1; auto|done]. }
  simpl.
  destruct (os_do (Sys_open p2 (Z.lor O_RDWR O_CLOEXEC) 0) s1) as [s2 [v2 n2]]. simpl in *.
  destruct (Z.ltb_spec v2 0) as [Hv2|Hv2].
  - eexists [IRes v1 n1; IRes v2 n2], _, (-1). split; [done|]. simpl. rewrite <- app_assoc. split_and!; [done|done|]. right.
    split; [done|]. exists n2, v1, b. rewrite Hp. split; [by exists v2; split; [|right; exists v1, n1]|done].
  - eexists [IRes v1 n1; IRes v2 n2], _, 0. split; [done|]. simpl. rewrite <- app_assoc. split_and!; [done|done|]. left.
    split; [done|]. exists v1, v2. rewrite Hp. split; [by exists n1, n2|done].
Qed.

Lemma initialize_run (w : world rpcd) : unopened (w_glob w) ->
  exists eo mode w1, initialize_fds w = (w1, Ok tt) /\ w_trace w1 = w_trace w ++ eo /\ opening eo mode /\
    lock_open mode dev (w_glob w1).
Proof.
  intros [(a & b & e & Hp) Hd].
  destruct (open_pair_run (lit "/sys/power/wake_lock") (lit "/sys/power/wake_unlock") w _ _ _ _ Hp Hd)
    as (rs & w1 & r & Hrun & Ht & Hd1 & Hout).
  unfold initialize_fds. unfold mbind at 1, prog_bind at 1, pget. rewrite Hp. cbn [g_initialized negb].
  rewrite (bind_ok _ _ _ _ _ Hrun).
  destruct Hout as [(-> & l & u & Hrs & Hp1)|(-> & err & a' & b' & Hrs & Hp1)]; cbn [Z.ltb Z.compare].
  { exists (opens_of NEW_PATHS rs), (Some (l, u)). eexists. split; [done|]. simpl. split_and!; [done|by apply opening_new|by split; [simpl; rewrite Hp1|]]. }
  destruct (open_pair_run (lit "/sys/android_power/acquire_partial_wake_lock") (lit "/sys/android_power/release_wake_lock")
    w1 _ _ _ _ Hp1 Hd1) as (rs' & w2 & r & Hrun2 & Ht2 & Hd2 & Hout).
  rewrite (bind_ok _ _ _ w2 tt) by (by rewrite (bind_ok _ _ _ _ _ Hrun2)).
  exists (opens_of NEW_PATHS rs ++ opens_of OLD_PATHS rs').
  destruct Hout as [(-> & l & u & Hrs' & Hp2)|(-> & err2 & a2 & b2 & Hrs' & Hp2)].
  - exists (Some (l, u)). eexists. split; [done|]. simpl. rewrite Ht2, Ht, <- app_assoc.
    split_and!; [done|by eapply opening_old|by split; [simpl; rewrite Hp2|]].
  - destruct (decide (err2 = 0)) as [->|Herr].
    + exists (Some (a2, b2)). eexists. split; [done|]. simpl. rewrite Ht2, Ht, <- app_assoc.
      split_and!; [done|by eapply opening_blind|by split; [simpl; rewrite Hp2|]].
    + exists None. eexists. split; [done|]. simpl. rewrite Ht2, Ht, <- app_assoc.
      split_and!; [done|by eapply opening_none|split; [simpl; rewrite Hp2; exists [a2; b2], (- err2)|done]].
      split; [done|lia].
Qed.

Lemma boots_lock : boots RPC_WAKE_LOCK false true.
Proof.
  intros w HI. right. destruct (initialize_run w HI) as (eo & mode & w1 & Hrun & Ht & Ho & HI1).
  pose proof (wakes_toggle mode dev lib_fd ACQUIRE_PARTIAL_WAKE_LOCK RPC_WAKE_LOCK_NAME false true ltac:(auto) w1 HI1) as Hw.
  assert (acquire_wake_lock PARTIAL_WAKE_LOCK RPC_WAKE_LOCK_NAME w =
    toggle ACQUIRE_PARTIAL_WAKE_LOCK RPC_WAKE_LOCK_NAME w1) as Heq
    by (unfold acquire_wake_lock; by rewrite (bind_ok _ _ _ _ _ Hrun)).
  destruct Hw as (e1 & Ht1 & Hl & Hd). exists [], eo, mode, e1.
  unfold RPC_WAKE_LOCK, rpc_com_wakelock, mbind, prog_bind. rewrite Heq.
  destruct (toggle _ _ w1) as [w2 [r|x]]; simpl in *; (rewrite Ht1, Ht, <- app_assoc; by split_and!).
Qed.

#[local] Hint Resolve wakes_ret wakes_halt wakes_opt wakes_vars wakes_reassemble wakes_lock wakes_unlock
  wakes_reply wakes_receive wakes_receive_index wakes_resp wakes_param_error : cfs.
#[local] Hint Resolve boots_ret boots_halt boots_opt boots_lock : cfs.

Ltac wake := repeat (first [ solve [ eauto with cfs nocore ] | match goal with
  | |- wakes _ _ _ _ (pget ≫= _) _ => apply wakes_get; intros ? ?
  | |- wakes _ _ _ _ (_ ≫= _) _ => eapply wakes_bind; [|intros ?]
  | |- wakes _ _ _ _ (if ?b then _ else _) _ => destruct b eqn:?
  | |- wakes _ _ _ _ (match ?x with _ => _ end) _ => destruct x eqn:?
  | |- wakes _ _ _ _ (pmod _) _ => apply wakes_mod; done
  end ]).

Ltac boot_step :=
  match goal with
  | |- boots (pget ≫= _) _ _ => apply boots_get; intros ? ?
  | |- boots (_ ≫= _) _ _ => eapply boots_bind; [|intros ? ?|intros ? ?]
  | |- boots (if ?b then _ else _) _ _ => destruct b eqn:?
  | |- boots (match ?x with _ => _ end) _ _ => destruct x eqn:?
  | |- boots (pmod _) _ _ => apply boots_mod; done
  end.
Ltac boot := repeat (first [ solve [ eauto with cfs nocore ] | discriminate | boot_step ]); try solve [wake].

Lemma boots_receive fuel : boots (receive fuel) false true.
Proof.
  induction fuel as [|fuel IH]; simpl; [apply boots_halt|]. apply boots_get. intros g [_ Hd]. rewrite Hd.
  eapply (boots_bind true false); [by apply boots_wait|intros _ r|intros; by wake].
  boot.
Qed.

Lemma boots_receive_index : boots receive_index false true.
Proof.
  unfold receive_index. apply boots_get. intros g _.
  eapply (boots_bind true false); [by apply boots_wait|intros _ [r page]|intros ? [r page]; by wake].
  boot.
Qed.

Context (tc1_rpc_srv_entry : Z -> prog rpcd Z) (Hlib : lib_leaves dev lib_fd tc1_rpc_srv_entry).

#[local] Hint Resolve boots_receive boots_receive_index wakes_main_step wakes_main_loop wakes_serve : cfs.

Lemma boots_main_step fuel : boots (main_step tc1_rpc_srv_entry fuel) false false.
Proof.
  unfold main_step. eapply (boots_bind true false); [by apply boots_mod|intros _ _|intros; by wake].
  apply boots_get. intros g _. eapply (boots_bind false true); [|done|intros; by wake].
  destruct (stream_support g); [|apply boots_receive_index].
  eapply (boots_bind false true); [apply boots_receive|done|intros; by wake].
Qed.

Lemma boots_main_loop fuel : boots (main_loop tc1_rpc_srv_entry fuel) true false.
Proof.
  induction fuel as [|fuel IH]; simpl; (eapply (boots_bind true false);
    [unfold deliver_signal, signal_treatment; eapply (boots_bind true false); [by apply boots_wait|intros; by boot|intros; by wake]
    |intros _ _|intros mode _]).
  - apply boots_get. intros g _. destruct (_ =? 0); [apply boots_halt|apply boots_ret].
  - wake.
  - apply boots_get. intros g _. destruct (_ =? 0); [|apply boots_ret].
    eapply (boots_bind false false); [apply boots_main_step|done|intros; by wake].
  - wake.
Qed.
End Boot.

(** Claim C23.  A daemon that has just started first only waits for the modem.  When
    the first request comes it opens the two files of the wake lock, without the
    lock.  If they open, with descriptors that are not those of the device or the library
    ([distinct]), from there on the lock is taken before a request is touched and given
    back after its answer, alternately; the daemon waits for the modem only without
    it and makes every other call of the main loop under it, wherever it stops.
    If neither pair of files opens, the requests are served without a lock: it
    writes to the modem and never to a lock.  The support library is one that leaves the
    globals of the lock and the device alone ([lib_leaves]).  [waits], [opening] and [wake_run]
    read this off the trace. *)
Theorem wake_discipline `{OS} dev lib_fd tc1_rpc_srv_entry fuel w :
  lib_leaves dev lib_fd tc1_rpc_srv_entry -> unopened dev (w_glob w) ->
  let r := main_loop tc1_rpc_srv_entry fuel w in
  (exists evs, w_trace r.1 = w_trace w ++ evs /\ Forall (waits dev) evs) \/
  exists before opens mode after,
    w_trace r.1 = w_trace w ++ before ++ opens ++ after /\ Forall (waits dev) before /\ opening opens mode /\
    (distinct mode dev lib_fd -> exists held, wake_run mode dev lib_fd false after = Some held /\
      (r.2 = Ok tt -> mode <> None -> held = false)).
Proof.
  intros Hlib HI r.
  destruct (boots_main_loop dev lib_fd tc1_rpc_srv_entry Hlib fuel w HI)
    as [(evs & Ht & Hw & _)|(e0 & eo & mode & e1 & Ht & Hw & Ho & _ & Hd)]; [left; by exists evs|right].
  exists e0, eo, mode, e1. split_and!; [done..|]. intros Hdist. destruct (Hd Hdist) as (h & Hr & Hh).
  exists h. split; [done|]. intros Hok Hm. subst r. rewrite Hok in Hh. by destruct Hh.
Qed.

(** A daemon that has just started, and a query: the files of the lock are there. *)
Definition rpc_started : world rpcd :=
  mem_world (MemFs [(lit "/sys/power/wake_lock", NFile 432 []); (lit "/sys/power/wake_unlock", NFile 432 [])]
      [] [] 70 [demo_query] [(lit "ro.b", demo_value)] 0 100)
    (upd_pwr (fun _ => Power false [0; 0] (-1)) rpc_demo).

Lemma wake_discipline_witness :
  exists before opens mode after,
    w_trace (main_loop no_lib_entry 10 rpc_started).1 = before ++ opens ++ after /\
    Forall (waits dev_fd) before /\ opening opens mode /\
    (distinct mode dev_fd (fun _ => false) -> exists held, wake_run mode dev_fd (fun _ => false) false after = Some held /\
      ((main_loop no_lib_entry 10 rpc_started).2 = Ok tt -> mode <> None -> held = false)).
Proof.
  destruct (wake_discipline dev_fd (fun _ => false) no_lib_entry 10 rpc_started) as [(evs & Ht & Hw)|Hr];
    [|split; [by exists 0, 0, (-1)|done]| |exact Hr].
  - intros op w. exists []. rewrite app_nil_r. by split_and!.
  - exfalso. assert (existsb (fun e => match ev_call e with Sys_open _ _ _ => true | _ => false end)
      (w_trace (main_loop no_lib_entry 10 rpc_started).1) = true) as He by (vm_compute; reflexivity).
    rewrite Ht in He. apply existsb_exists in He as (e & Hin & He). apply list_elem_of_In in Hin.
    rewrite Forall_forall in Hw. specialize (Hw e Hin). unfold waits in Hw. by destruct (ev_call e).
Defined.
