(* ===== verification/RpcAnswer.v ===== *)
(** * ccci_rpcd: answers

    What [RPC_WriteToMD] sends: the encoding of the arguments as one packet, and
    that the code for answers of several packets is never reached. *)
From S2P Require Import Prelude Posix MemFs Wire RpcTypes RpcPacket RpcMain RpcDemo.

(** A terminating run, by its calls and the globals it leaves. *)
Definition runs `{OS} {X A} (w : world X) (m : prog X A) (evs : list event) (g : X) (a : A) : Prop :=
  exists w', m w = (w', Ok a) /\ w_trace w' = w_trace w ++ evs /\ w_glob w' = g.

Section Answer.
Context `{OS}.
Abbreviation M := (prog rpcd).

Lemma wp_runs {A B} (m : M A) (k : A -> M B) w evs g a Q R :
  runs w m evs g a ->
  (forall w', w_trace w' = w_trace w ++ evs -> w_glob w' = g -> wp (k a) Q R w') ->
  wp (m ≫= k) Q R w.
Proof. intros (w' & Hm & Ht & Hg) Hk. eapply wp_bind_eq; [exact Hm|]. by apply Hk. Qed.

Lemma runs_glob {A} (m : M A) w g a : m w = (set_glob g w, Ok a) -> runs w m [] g a.
Proof. intros Hm. exists (set_glob g w). by rewrite app_nil_r. Qed.

(** ** The arguments *)

(** The bytes an entry of the answer stands for: a variable of [main]. *)
Definition source_of (g : rpcd) (p : RPC_PACKET_INFO) (a : list Z) : Prop :=
  exists v, pData p = PVar v /\ Length p = zlen a /\ mread (var_bytes (vars g) v) 0 (zlen a) = Some a.

Lemma rpc_write_arg w off p a :
  source_of (w_glob w) p a -> 0 <= off -> off + 4 + align4 (zlen a) <= zlen (buf w) -> zlen a < 2 ^ 31 ->
  exists m', (buf_put32 off (Length p);;
      if bool_decide (pData p = PBuf (off + 4)) then mret tt
      else bs ← deref (pData p) (Length p); buf_write (off + 4) bs) w
    = (with_buf m' w, Ok tt) /\
    mread32 m' off = Some (zlen a) /\ mread m' (off + 4) (zlen a) = Some a /\
    same_outside off (off + 4 + align4 (zlen a)) (buf w) m'.
Proof.
  intros (v & Hv & Hl & Hr) Hoff Hfit Hlen. rewrite Hl, Hv.
  pose proof (zlen_nonneg a) as Ha. pose proof (align4_bounds (zlen a) ltac:(lia)) as Hal.
  destruct (mwrite_is_Some (buf w) off (le32 (zlen a))) as [m1 Hm1]; [done|rewrite zlen_le32; lia|].
  pose proof (length_mwrite _ _ _ _ Hm1) as Hlm.
  destruct (mwrite_is_Some m1 (off + 4) a) as [m2 Hm2]; [lia|unfold zlen in *; rewrite Hlm; lia|].
  exists m2. rewrite (bind_ok _ _ _ _ _ (buf_put32_eq _ _ _ _ Hm1)).
  rewrite bool_decide_eq_false_2 by done.
  assert (deref (PVar v) (zlen a) (with_buf m1 w) = (with_buf m1 w, Ok a)) as Hd.
  { unfold deref, mem_at, mbind, prog_bind, pget, popt, mret, prog_ret. simpl. by rewrite Hr. }
  rewrite (bind_ok _ _ _ _ _ Hd), (buf_write_with _ _ _ _ _ Hm2). split_and!; [done|..].
  - rewrite (mread32_skip _ _ _ _ _ Hm2) by lia. rewrite (mread32_put _ _ _ _ Hm1).
    by rewrite u32_small by lia.
  - by apply (mread_mwrite_same _ _ _ _ Hm2).
  - eapply same_outside_write; [exact Hm1|lia|rewrite zlen_le32; lia|].
    eapply same_outside_write; [exact Hm2|lia|lia|apply same_outside_refl].
Qed.

Lemma args_fit_sizes max_size DL args :
  0 <= DL -> args_fit max_size DL args = true -> max_size < 2 ^ 31 ->
  Forall (fun a => zlen a < 2 ^ 31) args /\ (args = [] \/ DL + args_size args < max_size).
Proof.
  revert DL. induction args as [|a args IH]; intros DL HD Hfit Hmax; [by auto|].
  pose proof (args_fit_bound _ _ _ _ Hfit). simpl in Hfit. zbool. pose proof (zlen_nonneg a).
  pose proof (align4_bounds (zlen a) ltac:(lia)).
  destruct (IH (DL + 4 + align4 (zlen a)) ltac:(lia) ltac:(done) Hmax) as [Hf Hs].
  split; [constructor; [lia|done]|]. right. simpl. destruct Hs as [->|Hs]; simpl; lia.
Qed.

(** What is stored is their encoding; the rest is left alone. *)
Lemma rpc_args_eq src args rest w DL off :
  Forall2 (source_of (w_glob w)) src args -> args_fit RPC_MAX_BUF_SIZE DL args = true ->
  0 <= off -> off + args_size args <= zlen (buf w) -> 0 <= DL ->
  exists m', WriteToMD_args (length args) DL off (src ++ rest) w =
      (with_buf m' w, Ok (Some (DL + args_size args))) /\
    args_at m' off args /\ same_outside off (off + args_size args) (buf w) m'.
Proof.
  intros Hsrc. revert w DL off Hsrc. 
  induction src as [|p src IH] in args |- *; intros w DL off Hsrc Hfit Hoff Hbuf HDL;
    apply Forall2_cons_inv_l in Hsrc as (a & args' & Ha & Hs & ->) || apply Forall2_nil_inv_l in Hsrc as ->.
  { exists (buf w). rewrite with_buf_id. simpl. by rewrite Z.add_0_r. }
  rename args' into args.
  destruct (args_fit_sizes _ _ _ HDL Hfit ltac:(unfold RPC_MAX_BUF_SIZE; lia)) as [Hlen Hsz].
  destruct Hsz as [?|Hsz]; [done|]. unfold RPC_MAX_BUF_SIZE in Hsz.
  pose proof (args_fit_bound _ _ _ _ Hfit) as Hb. simpl in Hfit, Hbuf, Hsz. zbool.
  apply Forall_cons in Hlen as [Hla Hlen].
  pose proof (zlen_nonneg a). pose proof (args_size_nonneg args).
  pose proof (align4_bounds (zlen a) ltac:(lia)).
  destruct (rpc_write_arg w off p a Ha Hoff ltac:(lia) Hla) as (m1 & Hw1 & Hr1 & Hr2 & Hout1).
  destruct (IH args (with_buf m1 w) (DL + 4 + align4 (zlen a)) (off + 4 + align4 (zlen a)))
    as (m2 & Hw2 & Hargs & Hout2); [done|done|lia| |lia|].
  { rewrite buf_with_buf. unfold zlen in *. rewrite <- (proj1 Hout1). lia. }
  rewrite buf_with_buf, with_buf_twice in *.
  exists m2. split_and!.
  - destruct Ha as (v & _ & Hl & _). simpl. unfold sizeof_uint. rewrite Hl, (u32_small (DL + 2 * 4 + zlen a)) by lia.
    rewrite Z.gtb_ltb. unfold RPC_MAX_BUF_SIZE in *.
    destruct (Z.ltb_spec 2048 (DL + 2 * 4 + zlen a)); [lia|].
    rewrite bind_assoc. rewrite Hl in Hw1. rewrite (bind_ok _ _ _ _ _ Hw1).
    rewrite (u32_small (DL + 4)), u32_small by lia. rewrite Hw2. f_equal. f_equal. f_equal. simpl. lia.
  - split_and!; [|by rewrite (proj2 Hout2) by lia|done].
    unfold mread32 in *. by rewrite (proj2 Hout2) by lia.
  - simpl. replace (off + (4 + align4 (zlen a) + args_size args))
      with (off + 4 + align4 (zlen a) + args_size args) by lia.
    eapply same_outside_trans; [exact Hout1|exact Hout2|lia].
Qed.

(** ** The packet *)

(** The state [RPC_WriteToMD] is entered with: the request's header in the slot
    and the sources of the arguments. *)
Record answer_ready (w : world rpcd) (BufIndex : Z) (PackInfo : list RPC_PACKET_INFO)
    (args : list (list Z)) (d0 channel reserved op : Z) : Prop := {
  ar_stream : stream_support (w_glob w) = true;
  ar_d0 : mread32 (buf w) (slot_base BufIndex) = Some d0;
  ar_channel : mread32 (buf w) (slot_base BufIndex + 8) = Some channel;
  ar_reserved : mread32 (buf w) (slot_base BufIndex + 12) = Some reserved;
  ar_op : mread32 (buf w) (slot_base BufIndex + 16) = Some op;
  ar_src : exists src rest, PackInfo = src ++ rest /\ Forall2 (source_of (w_glob w)) src args;
  ar_fit : args_fit RPC_MAX_BUF_SIZE 24 args = true;
  ar_slot : slot_base BufIndex + 24 + args_size args <= zlen (buf w)
}.

Lemma answer_sizes args :
  args_fit RPC_MAX_BUF_SIZE 24 args = true -> args <> [] ->
  Forall (fun a => zlen a < 2 ^ 31) args /\ 24 + args_size args < 2048.
Proof.
  intros Hfit Hne. destruct (args_fit_sizes _ 24 args ltac:(lia) Hfit) as [Hlen [Hz|Hsz]]; [done|done|done].
Qed.

(** Up to the arguments: operation, count and arguments are in the slot, its
    header is as it was. *)
Lemma rpc_answer_body w BufIndex pi args d0 channel reserved op :
  answer_ready w BufIndex pi args d0 channel reserved op -> args <> [] ->
  let slot := slot_base BufIndex in
  exists m1 m2 m3,
    mwrite (buf w) (slot + 16) (le32 (Z.lor RPC_API_RESP_ID op)) = Some m1 /\
    mwrite m1 (slot + 20) (le32 (zlen args)) = Some m2 /\
    WriteToMD_args (length args) 24 (slot + 24) pi (with_buf m2 w) =
      (with_buf m3 w, Ok (Some (24 + args_size args))) /\
    length m3 = length (buf w) /\ args_at m3 (slot + 24) args /\
    mread32 m3 slot = Some d0 /\ mread32 m3 (slot + 8) = Some channel /\
    mread32 m3 (slot + 12) = Some reserved /\
    mread32 m3 (slot + 16) = Some (u32 (Z.lor RPC_API_RESP_ID op)) /\
    mread32 m3 (slot + 20) = Some (zlen args).
Proof.
  intros [Hs Hd0 Hch Hre Hop (src & rest & -> & Hsrc) Hfit Hslot] Hne slot.
  fold slot in Hd0, Hch, Hre, Hop, Hslot.
  pose proof (args_size_nonneg args). pose proof (mread32_Some_range _ _ _ Hd0).
  destruct (answer_sizes _ Hfit Hne) as [Hlen Hsz].
  destruct (put32_Some _ (slot + 16) (Z.lor RPC_API_RESP_ID op) _ _ Hop eq_refl) as [m1 Hm1].
  pose proof (length_mwrite _ _ _ _ Hm1) as Hl1.
  destruct (mwrite_is_Some m1 (slot + 20) (le32 (zlen args))) as [m2 Hm2];
    [lia|rewrite zlen_le32; unfold zlen in *; lia|].
  pose proof (length_mwrite _ _ _ _ Hm2) as Hl2.
  destruct (rpc_args_eq src args rest (with_buf m2 w) 24 (slot + 24)) as (m3 & Hw & Hargs & [Hl3 Hout]);
    [done|done|lia|rewrite buf_with_buf; unfold zlen in *; lia|lia|].
  rewrite buf_with_buf in Hl3, Hout. rewrite with_buf_twice in Hw.
  assert (forall o, o + 4 <= slot + 24 -> mread32 m3 o = mread32 m2 o) as Hlow.
  { intros o Ho. unfold mread32. rewrite Hout by lia. done. }
  exists m1, m2, m3. rewrite !Hlow by lia.
  rewrite !(mread32_skip _ _ _ _ _ Hm2) by (rewrite zlen_le32; lia).
  rewrite (mread32_put _ _ _ _ Hm2), (mread32_put _ _ _ _ Hm1).
  rewrite !(mread32_skip _ _ _ _ _ Hm1) by (rewrite zlen_le32; lia).
  assert (u32 (zlen args) = zlen args) as ->.
  { apply u32_small. pose proof (zlen_nonneg args). pose proof (args_size_count args). lia. }
  split_and!; try done. congruence.
Qed.

(** A complete answer is one packet: the header of the request with its length,
    the channel of the modem (one more) and without the bit that announces
    more, the operation marked as an answer, and the encoding of the arguments. *)
Lemma WriteToMD_answer w DeviceFd BufIndex pi args d0 channel reserved op :
  answer_ready w BufIndex pi args d0 channel reserved op -> args <> [] ->
  exists bs r m,
    runs w (RPC_WriteToMD DeviceFd BufIndex pi (zlen args)) [Ev (Sys_write DeviceFd bs) r]
      (set_pRpcBuf m (w_glob w)) (rv r =? zlen bs) /\
    is_packet bs (Z.land d0 (u32 (Z.lnot CCCI_RPC_REQ_SEND_AGAIN))) (channel + 1) reserved
      (Z.lor RPC_API_RESP_ID op) args.
Proof.
  intros Hr Hne. pose proof (rpc_answer_body _ _ _ _ _ _ _ _ Hr Hne)
    as (m1 & m2 & m3 & Hm1 & Hm2 & Hw & Hl & Hargs & H0 & H8 & H12 & H16 & H20).
  destruct Hr as [Hs _ _ _ Hop _ Hfit Hslot]. set (slot := slot_base BufIndex) in *.
  pose proof (args_size_nonneg args). pose proof (mread32_Some_range _ _ _ H0).
  destruct (answer_sizes _ Hfit Hne) as [Hlen Hsz].
  destruct (header_packet m3 slot (channel + 1) (Z.land d0 (u32 (Z.lnot CCCI_RPC_REQ_SEND_AGAIN))) reserved
    (Z.lor RPC_API_RESP_ID op) args) as (m4 & m5 & m6 & bs & H4 & H5 & H6 & Hbs & Hpkt);
    [lia|unfold zlen in *; lia|lia|done..|].
  pose proof (args_size_count args). pose proof (zlen_nonneg args).
  destruct (os_do (Sys_write DeviceFd bs) (w_os w)) as [s r] eqn:Hos.
  exists bs, r, m6. split; [|done].
  exists (answered (Sys_write DeviceFd bs) r s (with_buf m6 w)). split; [|done].
  unfold RPC_WriteToMD. rewrite (bind_ok _ _ w w (w_glob w)) by done. rewrite Hs.
  unfold sizeof_CCCI_BUFF_T, sizeof_uint. fold slot. cbv zeta iota.
  rewrite (bind_ok _ _ _ _ _ (buf_get32_eq _ _ _ Hop)).
  rewrite (bind_ok _ _ _ _ _ (buf_put32_eq _ _ _ _ Hm1)).
  replace (slot + 16 + 4) with (slot + 20) by lia. replace (slot + 20 + 4) with (slot + 24) by lia.
  rewrite (bind_ok _ _ _ _ _ (buf_put32_with _ _ _ _ w Hm2)).
  rewrite u32_small by lia. unfold zlen at 1. rewrite Nat2Z.id, (bind_ok _ _ _ _ _ Hw). cbn [negb].
  unfold WriteToMD_stream, sizeof_CCCI_BUFF_T, sizeof_uint. rewrite i32_small by lia.
  rewrite (bind_ok _ _ _ _ _ (buf_get32_with _ _ _ w H8)).
  rewrite (bind_ok _ _ _ _ _ (buf_put32_with _ _ _ _ w H4)).
  destruct (Z.leb_spec (24 + args_size args - 16 - 4) MAX_RPC_PKT_BYTE); [|unfold MAX_RPC_PKT_BYTE in *; lia].
  assert (mread32 m4 slot = Some d0) as H04.
  { by rewrite (mread32_skip _ _ _ _ _ H4) by (rewrite zlen_le32; lia). }
  rewrite (bind_ok _ _ _ _ _ (buf_get32_with _ _ _ w H04)).
  rewrite (bind_ok _ _ _ _ _ (buf_put32_with _ _ _ _ w H5)).
  rewrite (bind_ok _ _ _ _ _ (buf_put32_with _ _ _ _ w H6)).
  rewrite (bind_ok _ _ _ _ _ (buf_read_with _ _ _ _ w Hbs)).
  rewrite (bind_ok _ _ _ _ _ (psys_eq _ (with_buf m6 w) _ _ Hos)).
  rewrite i32_small by lia. rewrite <- (proj1 Hpkt). done.
Qed.
End Answer.

(** ** Answers are never fragmented *)

Section Single.
Context `{OS}.
Abbreviation M := (prog rpcd).

(** [RPC_WriteToMD] without the code for answers of several packets. *)
Definition WriteToMD_once (DeviceFd buffer_slot DataLength : Z) : M bool :=
  channel ← buf_get32 (buffer_slot + 8);
  buf_put32 (buffer_slot + 8) (u32 (channel + 1));;
  d0 ← buf_get32 buffer_slot;
  buf_put32 buffer_slot (Z.land d0 (u32 (Z.lnot CCCI_RPC_REQ_SEND_AGAIN)));;
  buf_put32 (buffer_slot + 4) DataLength;;
  bs ← buf_read buffer_slot DataLength;
  ret ← psys (Sys_write DeviceFd bs);
  mret (rv ret =? i32 DataLength).

Definition RPC_WriteToMD_once (DeviceFd BufIndex : Z) (pPacketSrc : list RPC_PACKET_INFO)
    (PacketNum : Z) : M bool :=
  g ← pget;
  let buffer_slot := slot_base BufIndex in
  let pRpcBuf :=
    if stream_support g then buffer_slot + sizeof_CCCI_BUFF_T
    else u32 ((RPC_MAX_BUF_SIZE + sizeof_rpc_stream_msg_t) * BufIndex) in
  let DataLength := if stream_support g then sizeof_CCCI_BUFF_T + sizeof_uint else 0 in
  rpc_ops_id ← buf_get32 pRpcBuf;
  buf_put32 pRpcBuf (Z.lor RPC_API_RESP_ID rpc_ops_id);;
  buf_put32 (pRpcBuf + 4) PacketNum;;
  args ← WriteToMD_args (Z.to_nat (u32 PacketNum)) (DataLength + sizeof_uint)
           (pRpcBuf + 4 + sizeof_uint) pPacketSrc;
  match args with
  | None => mret false
  | Some DataLength =>
      if negb (stream_support g) then WriteToMD_shared DeviceFd BufIndex pRpcBuf DataLength
      else WriteToMD_once DeviceFd buffer_slot DataLength
  end.

Lemma wp_trivial {A} (m : M A) w : wp m (fun _ _ => True) (fun _ _ => True) w.
Proof. unfold wp. by destruct (m w) as [? []]. Qed.

(** A length below the size of a slot; four less than 0 are possible where the
    sum of the bound check wraps around. *)
Definition short (DL : Z) : Prop := -4 <= i32 DL < RPC_MAX_BUF_SIZE.

Lemma u32_add_l a b : u32 (u32 a + b) = u32 (a + b).
Proof. unfold u32. apply Zplus_mod_idemp_l. Qed.

(** The bound the loop checks before each argument bounds what it goes on with,
    for every [Length], also where the sum wraps. *)
Lemma short_next DL L : u32 (DL + 2 * 4 + L) <= RPC_MAX_BUF_SIZE -> short (u32 (u32 (DL + 4) + align4 L)).
Proof.
  intros Hx. pose proof (u32_range (DL + 2 * 4 + L)) as Hr. set (x := u32 (DL + 2 * 4 + L)) in *.
  assert (exists t, 0 <= t < 4 /\ u32 (u32 (DL + 4) + align4 L) = u32 (x - 1 - t)) as (t & Ht & ->).
  { unfold align4. rewrite Z.shiftr_div_pow2, Z.shiftl_mul_pow2 by lia. change (2 ^ 2) with 4.
    exists (u32 (L + 3) mod 4). split; [apply Z.mod_pos_bound; lia|].
    pose proof (Z.div_mod (u32 (L + 3)) 4 ltac:(lia)) as Hd.
    replace (u32 (L + 3) / 4 * 4) with (u32 (L + 3) - u32 (L + 3) mod 4) by lia.
    generalize (u32 (L + 3) mod 4). intros t. subst x.
    rewrite u32_add_l, (Z.add_comm (DL + 4)), u32_add_l.
    replace (u32 (L + 3) - t + (DL + 4)) with (u32 (L + 3) + (DL + 4 - t)) by lia.
    replace (u32 (DL + 2 * 4 + L) - 1 - t) with (u32 (DL + 2 * 4 + L) + (- 1 - t)) by lia.
    rewrite !u32_add_l. f_equal. lia. }
  unfold short. rewrite i32_u32, i32_small; unfold RPC_MAX_BUF_SIZE in *; lia.
Qed.

Lemma args_bounded n DL p src w :
  short DL -> wp (WriteToMD_args n DL p src) (fun r _ => forall DL', r = Some DL' -> short DL') (fun _ _ => True) w.
Proof.
  revert DL p src w. induction n as [|n IH]; intros DL p src w HDL.
  { apply wp_ret. by intros ? [= <-]. }
  destruct src as [|a src]; [done|]. cbn [WriteToMD_args]. unfold sizeof_uint.
  rewrite Z.gtb_ltb. destruct (Z.ltb_spec RPC_MAX_BUF_SIZE (u32 (DL + 2 * 4 + Length a))) as [|Hx].
  { by apply wp_ret. }
  apply wp_bind. eapply wp_mono; [apply wp_trivial| |done]. intros ? w1 _.
  apply wp_bind. eapply wp_mono; [apply wp_trivial| |done]. intros ? w2 _.
  by apply IH, short_next.
Qed.

Lemma short_packet DL : short DL -> i32 (DL - 16 - 4) <= MAX_RPC_PKT_BYTE.
Proof.
  unfold short, RPC_MAX_BUF_SIZE, MAX_RPC_PKT_BYTE. intros HDL.
  assert (i32 (DL - 16 - 4) = i32 (i32 DL - 16 - 4)) as ->; [|rewrite i32_small by lia; lia].
  rewrite <- (i32_u32 (DL - 16 - 4)), <- (i32_u32 (i32 DL - 16 - 4)). f_equal.
  replace (DL - 16 - 4) with (DL + - 20) by lia. replace (i32 DL - 16 - 4) with (i32 DL + - 20) by lia.
  pose proof (u32_i32 DL) as He. unfold u32 in *. by rewrite <- Zplus_mod_idemp_l, <- He, Zplus_mod_idemp_l.
Qed.

Lemma bind_ext {A B} (m : M A) (k l : A -> M B) w :
  wp m (fun a w' => k a w' = l a w') (fun _ _ => True) w -> (m ≫= k) w = (m ≫= l) w.
Proof. unfold wp, mbind, prog_bind. by destruct (m w) as [w' [a|h]]. Qed.

Lemma bind_ext_all {A B} (m : M A) (k l : A -> M B) w :
  (forall a w', k a w' = l a w') -> (m ≫= k) w = (m ≫= l) w.
Proof. intros Hk. apply bind_ext. eapply wp_mono; [apply wp_trivial|by intros|done]. Qed.

(** Claim C31.  The slots of 2048 bytes are smaller than a packet: an answer never
    needs a second one, so that [RPC_WriteToMD] is the code without
    fragmentation, whatever it is asked to send; also for a [Length] with which the bound
    check, an unsigned sum, wraps around. *)
Theorem answers_unfragmented DeviceFd BufIndex pPacketSrc PacketNum w :
  RPC_WriteToMD DeviceFd BufIndex pPacketSrc PacketNum w =
    RPC_WriteToMD_once DeviceFd BufIndex pPacketSrc PacketNum w.
Proof.
  unfold RPC_WriteToMD, RPC_WriteToMD_once.
  apply bind_ext_all; intros g w0. apply bind_ext_all; intros op w1.
  apply bind_ext_all; intros _ w2. apply bind_ext_all; intros _ w3.
  apply bind_ext. eapply wp_mono; [apply args_bounded| |done].
  { unfold sizeof_uint, sizeof_CCCI_BUFF_T. by destruct (stream_support g). }
  intros [DL|] w4 HDL; [|done]. destruct (stream_support g); [|done]. cbn [negb].
  pose proof (short_packet _ (HDL _ eq_refl)) as Hd.
  unfold WriteToMD_stream, WriteToMD_once, sizeof_CCCI_BUFF_T, sizeof_uint.
  apply bind_ext_all; intros ch w5. apply bind_ext_all; intros _ w6.
  by destruct (Z.leb_spec (i32 (DL - 16 - 4)) MAX_RPC_PKT_BYTE) as [|?]; [|lia].
Qed.
End Single.
