(* ===== verification/RpcQuery.v ===== *)
(** * ccci_rpcd: the property query and a round of the main loop with it

    A round of the main loop with a query of a property, and what goes wrong
    around it: a query without arguments, and the fragments of a request that
    are larger than a slot. *)
From S2P Require Import Prelude Posix MemFs Wire RpcTypes RpcPacket RpcMain RpcDemo RpcAnswer.

(** ** Memory *)

Lemma mread_mwrite_prefix m off bs m' len :
  mwrite m off bs = Some m' -> 0 <= len <= zlen bs ->
  mread m' off len = Some (take (Z.to_nat len) bs).
Proof.
  intros Hw Hl. pose proof (mread_mwrite_same _ _ _ _ Hw) as Hr.
  pose proof (mread_sub _ _ _ _ 0 len Hr) as Hs. rewrite Z.add_0_r in Hs. by apply Hs; lia.
Qed.

Lemma cstring_app_zero s t : cstring (s ++ 0 :: t) = cstring s.
Proof. induction s as [|b s IH]; simpl; [done|]. case_match; [done|]. by f_equal. Qed.

Lemma has_nul_app_zero s t : has_nul (s ++ 0 :: t) = true.
Proof. induction s as [|b s IH]; simpl; [done|]. unfold has_nul in *. rewrite IH. by apply orb_true_r. Qed.

(** What is read somewhere is at the front of the memory from there on. *)
Lemma mfrom_read m off a b :
  mread m off (zlen a) = Some a -> mread m (off + zlen a) (zlen b) = Some b ->
  exists t, mfrom m off = Some (a ++ b ++ t).
Proof.
  intros Ha Hb. pose proof (mread_compose _ _ _ _ _ _ Ha Hb) as Hr. rewrite <- zlen_app in Hr.
  pose proof Hr as Hs. apply mread_split in Hr as (p & c & -> & <- & _). exists c.
  unfold mfrom. pose proof (zlen_nonneg p).
  rewrite (proj2 (Z.leb_le 0 (zlen p))) by lia.
  rewrite (proj2 (Z.leb_le (zlen p) _)) by (rewrite zlen_app; pose proof (zlen_nonneg ((a ++ b) ++ c)); lia).
  simpl. unfold zlen. by rewrite Nat2Z.id, drop_app_length, <- app_assoc.
Qed.

Section Query.
Context `{OS}.
Abbreviation M := (prog rpcd).

(** ** The steps of a round *)

(** The wake lock is open. *)
Definition wake_ready (a u : Z) (g : rpcd) : Prop := pwr g = Power true [a; u] 0.

Lemma lock_runs a u w :
  wake_ready a u (w_glob w) ->
  exists r, runs w RPC_WAKE_LOCK [Ev (Sys_write a RPC_WAKE_LOCK_NAME) r] (w_glob w) tt.
Proof.
  intros Hp. destruct (os_do (Sys_write a RPC_WAKE_LOCK_NAME) (w_os w)) as [s r] eqn:Hos.
  exists r, (answered (Sys_write a RPC_WAKE_LOCK_NAME) r s w). split; [|done].
  unfold RPC_WAKE_LOCK, rpc_com_wakelock, acquire_wake_lock, initialize_fds, write_lock.
  unfold mbind, prog_bind, pget, mret, prog_ret. do 3 (rewrite Hp; simpl).
  by rewrite (psys_eq _ _ _ _ Hos).
Qed.

Lemma unlock_runs a u w :
  wake_ready a u (w_glob w) ->
  exists r, runs w RPC_WAKE_UNLOCK [Ev (Sys_write u RPC_WAKE_LOCK_NAME) r] (w_glob w) tt.
Proof.
  intros Hp. destruct (os_do (Sys_write u RPC_WAKE_LOCK_NAME) (w_os w)) as [s r] eqn:Hos.
  exists r, (answered (Sys_write u RPC_WAKE_LOCK_NAME) r s w). split; [|done].
  unfold RPC_WAKE_UNLOCK, rpc_com_wakelock, release_wake_lock, initialize_fds, write_lock.
  unfold mbind, prog_bind, pget, mret, prog_ret. do 3 (rewrite Hp; simpl).
  by rewrite (psys_eq _ _ _ _ Hos).
Qed.

Lemma rpc_copy_eq pkt dst src len bs m w :
  mread pkt src len = Some bs -> mwrite (buf w) dst bs = Some m ->
  copy_packet pkt dst src len w = (with_buf m w, Ok tt).
Proof.
  intros Hr Hw. unfold copy_packet. rewrite Hr.
  rewrite (bind_ok _ _ w w bs) by done. by apply buf_write_eq.
Qed.

Lemma rpc_copy_out pkt dst src len bs w :
  mread pkt src len = Some bs -> mwrite (buf w) dst bs = None ->
  copy_packet pkt dst src len w = (w, Halt OutOfBounds).
Proof.
  intros Hr Hw. unfold copy_packet. rewrite Hr.
  rewrite (bind_ok _ _ w w bs) by done. unfold buf_write. unfold mbind, prog_bind, pget.
  unfold buf in Hw. by rewrite Hw.
Qed.

(** A whole packet for an idle slot. *)
Lemma reassemble_whole pkt i d0 d1 bs m off w :
  nth_slot (rpc_buff_state (w_glob w)) i = Some RPC_BUFF_IDLE ->
  nth_slot (rpc_buff_offset (w_glob w)) i = Some off -> has_bits d0 CCCI_RPC_REQ_SEND_AGAIN = false ->
  mread pkt 0 d1 = Some bs -> mwrite (buf w) (slot_base i) bs = Some m ->
  reassemble pkt i d0 d1 w = (set_glob (set_slot i RPC_BUFF_IDLE 0 (set_pRpcBuf m (w_glob w))) w, Ok tt).
Proof.
  intros Hst Hoff Hd0 Hr Hw. unfold reassemble. rewrite (bind_ok _ _ w w (w_glob w)) by done.
  rewrite Hst, Hoff, Hd0. change (RPC_BUFF_IDLE =? RPC_BUFF_IDLE) with true. cbn [negb].
  rewrite (bind_ok _ _ w w RPC_BUFF_IDLE) by done. rewrite (bind_ok _ _ w w off) by done.
  by rewrite (bind_ok _ _ _ _ _ (rpc_copy_eq _ _ _ _ _ _ _ Hr Hw)).
Qed.

(** ** Fragments larger than a slot *)

(** Claim C38.  A fragment may carry 3476 bytes and a slot holds 2068: what is left
    of a longer first fragment overwrites the next slot, whatever request waits
    there; in the last slot the write leaves the allocation. *)
Theorem fragment_overflows pkt i d0 d1 w :
  zlen pkt = MAX_RPC_BUF_BYTE -> zlen (buf w) = 5 * 2068 -> 0 <= i < 5 ->
  nth_slot (rpc_buff_state (w_glob w)) i = Some RPC_BUFF_IDLE ->
  nth_slot (rpc_buff_offset (w_glob w)) i = Some 0 ->
  has_bits d0 CCCI_RPC_REQ_SEND_AGAIN = true -> 2068 < d1 <= MAX_RPC_PKT_BYTE + 20 ->
  if i =? 4 then (reassemble pkt i d0 d1 w).2 = Halt OutOfBounds
  else exists m,
    reassemble pkt i d0 d1 w =
      (set_glob (set_slot i RPC_BUFF_WAIT d1 (set_pRpcBuf m (w_glob w))) w, Ok tt) /\
    mread m (slot_base (i + 1)) (d1 - 2068) = mread pkt 2068 (d1 - 2068).
Proof.
  unfold MAX_RPC_BUF_BYTE, MAX_RPC_PKT_BYTE. intros Hpkt Hbuf Hi Hst Hoff Hd0 Hd1.
  assert (forall k, 0 <= k < 6 -> slot_base k = 2068 * k) as Hbase.
  { intros k Hk. unfold slot_base, RPC_MAX_BUF_SIZE, sizeof_STREAM_DATA. apply u32_small. lia. }
  destruct (mread_is_Some pkt 0 d1) as [bs Hbs]; [lia|lia|lia|].
  pose proof (length_mread _ _ _ _ Hbs) as Hl.
  unfold reassemble. rewrite (bind_ok _ _ w w (w_glob w)) by done.
  rewrite Hst, Hoff, Hd0. cbn [negb].
  rewrite (bind_ok _ _ w w RPC_BUFF_IDLE) by done. rewrite (bind_ok _ _ w w 0) by done.
  change (RPC_BUFF_IDLE =? RPC_BUFF_IDLE) with true. cbv zeta iota.
  destruct (Z.eqb_spec i 4) as [->|Hne].
  - assert (mwrite (buf w) (slot_base 4) bs = None) as Hw.
    { destruct (mwrite _ _ _) eqn:E; [|done]. apply mwrite_Some in E. rewrite Hbase in E by lia. lia. }
    by rewrite (bind_halt _ _ _ _ _ (rpc_copy_out _ _ _ _ _ _ Hbs Hw)).
  - destruct (mwrite_is_Some (buf w) (slot_base i) bs) as [m Hm]; [rewrite Hbase; lia..|]. exists m. split.
    + rewrite (bind_ok _ _ _ _ _ (rpc_copy_eq _ _ _ _ _ _ _ Hbs Hm)).
      unfold pmod. f_equal. by rewrite u32_small by lia.
    + pose proof (mread_mwrite_same _ _ _ _ Hm) as Hr. rewrite !Hbase in * by lia.
      rewrite Hl in Hr. pose proof (mread_sub _ _ _ _ 2068 (d1 - 2068) Hr) as Hs.
      replace (2068 * (i + 1)) with (2068 * i + 2068) by lia. rewrite Hs by lia.
      pose proof (mread_sub _ _ _ _ 2068 (d1 - 2068) Hbs) as Hs'. change (0 + 2068) with 2068 in Hs'.
      by rewrite Hs' by lia.
Qed.

(** ** A query without arguments *)

(** A query that carries no argument is answered from the packet array
    as the last answer left it: the name is then the 4 bytes of [RetVal], and the
    terminator is written behind them. *)
Theorem empty_query_crashes tc1_rpc_srv_entry base pi w :
  mread32 (buf w) base = Some IPC_RPC_QUERY_AP_SYS_PROPERTY -> mread32 (buf w) (base + 4) = Some 0 ->
  PackInfo (vars (w_glob w)) = PacketInfo 4 (PVar V_RetVal) :: pi ->
  (serve tc1_rpc_srv_entry base w).2 = Halt OutOfBounds.
Proof.
  intros Hop Hn Hpi. unfold serve.
  assert (RPC_GetPackInfo (base + 4) w = (w, Ok true)) as Hget.
  { unfold RPC_GetPackInfo, RPC_GetPackInfo_mem. unfold mbind, prog_bind, pget.
    change (pRpcBuf (w_glob w)) with (buf w). rewrite Hn. simpl.
    replace (zlen (PackInfo (vars (w_glob w))) <? 0) with false
      by (symmetry; apply Z.ltb_ge, zlen_nonneg). simpl.
    unfold mret, prog_ret, pmod. do 2 f_equal. destruct w as [? ? ? ? g]. unfold set_glob. simpl. f_equal.
    by destruct g as [? ? ? ? ? ? ? ? ? ? []]. }
  rewrite (bind_ok _ _ _ _ _ Hget). cbn [negb].
  rewrite (bind_ok _ _ _ _ _ (buf_get32_eq _ _ _ Hop)).
  rewrite Z.eqb_refl. unfold query_property. unfold mbind, prog_bind, pget. rewrite Hpi. simpl.
  unfold mbind, prog_bind, pget, popt.
  destruct (mwrite (le32 (u32 (RetVal (vars (w_glob w))))) 4 [0]) eqn:E; [|done].
  apply mwrite_Some in E. rewrite zlen_le32 in E. change (zlen [0]) with 1 in E. lia.
Qed.

(** ** A query *)

Lemma GetPackInfo_one w base name :
  mread32 (buf w) (base + 4) = Some 1 -> args_at (buf w) (base + 8) [name] -> zlen name <= 2000 ->
  PackInfo (vars (w_glob w)) <> [] ->
  runs w (RPC_GetPackInfo (base + 4)) []
    (upd_vars (set_PackInfo (<[0%nat := PacketInfo (zlen name) (PBuf (base + 12))]>
       (PackInfo (vars (w_glob w))))) (w_glob w)) true.
Proof.
  intros Hn (Hl & _ & _) Hsz Hpi. pose proof (zlen_nonneg name).
  pose proof (align4_bounds (zlen name) ltac:(lia)).
  apply runs_glob.
  unfold RPC_GetPackInfo, RPC_GetPackInfo_mem, mbind, prog_bind, pget.
  change (pRpcBuf (w_glob w)) with (buf w). rewrite Hn. unfold RPC_MAX_ARG_NUM, RPC_MAX_BUF_SIZE, sizeof_uint.
  change (1 >? 6) with false. cbv iota.
  destruct (Z.ltb_spec (zlen (PackInfo (vars (w_glob w)))) 1) as [Hz|_].
  { destruct (PackInfo _); [done|]. unfold zlen in Hz. simpl in Hz. lia. }
  change (Z.to_nat 1) with 1%nat. cbn [RPC_GetPackInfo_loop].
  replace (base + 4 + 4) with (base + 8) by lia. rewrite Hl. unfold sizeof_uint.
  rewrite (u32_small (4 + 4)), u32_small by lia. replace (base + 4 + (4 + 4)) with (base + 12) by lia.
  rewrite Z.gtb_ltb. destruct (Z.ltb_spec 2048 (4 + 4 + align4 (zlen name))); [lia|]. reflexivity.
Qed.

Lemma resp_runs w len p old n :
  PacketNum (vars (w_glob w)) = Z.of_nat n -> PackInfo (vars (w_glob w)) !! n = Some old ->
  runs w (resp len p) []
    (upd_vars (fun r => set_PacketNum (Z.of_nat n + 1) (set_PackInfo (<[n := PacketInfo len p]> (PackInfo r)) r))
       (w_glob w)) tt.
Proof.
  intros Hn Hold. apply runs_glob.
  unfold resp, nth_slot, mbind, prog_bind, pget. rewrite Hn.
  destruct (Z.leb_spec 0 (Z.of_nat n)); [|lia]. rewrite Nat2Z.id, Hold. reflexivity.
Qed.

(** The string of an argument that is followed by the terminator. *)
Lemma string_at_buf w off name :
  mread (buf w) off (zlen name) = Some name -> mread (buf w) (off + zlen name) 1 = Some [0] ->
  string_at (PBuf off) w = (w, Ok (cstring name)).
Proof.
  intros Hn Hz. destruct (mfrom_read _ _ name [0] Hn Hz) as [t Ht].
  unfold string_at, mem_at, mbind, prog_bind, pget. change (pRpcBuf (w_glob w)) with (buf w).
  rewrite Ht. simpl. by rewrite has_nul_app_zero, cstring_app_zero.
Qed.

(** [mtk_property_get]: the call, and the value with its terminator in the
    buffer. *)
Lemma property_get_runs w name :
  length (property_val (vars (w_glob w))) = 92%nat ->
  zlen (cstring (os_do (Sys_property_get name) (w_os w)).2.2) < PROPERTY_VALUE_MAX ->
  exists ret value pv,
    runs w (mtk_property_get name) [Ev (Sys_property_get name) (ret, value)]
      (upd_vars (set_property_val pv) (w_glob w)) ret /\
    zlen (cstring value) < PROPERTY_VALUE_MAX /\
    cstring pv = cstring value /\ mread pv 0 (zlen (cstring value) + 1) = Some (cstring value ++ [0]).
Proof.
  intros Hpv Hval. destruct (os_do (Sys_property_get name) (w_os w)) as [s [ret value]] eqn:Hos.
  simpl in Hval. unfold PROPERTY_VALUE_MAX in *. exists ret, value.
  destruct (mwrite_is_Some (property_val (vars (w_glob w))) 0 (cstring value ++ [0])) as [pv Hw];
    [done|rewrite zlen_app; change (zlen [0]) with 1; unfold zlen in *; lia|].
  exists pv. split_and!; [|done| |].
  - exists (set_glob (upd_vars (set_property_val pv) (w_glob w))
      (answered (Sys_property_get name) (ret, value) s w)). split; [|done].
    unfold mtk_property_get. rewrite (bind_ok _ _ _ _ _ (psys_eq _ _ _ _ Hos)). cbv beta iota.
    unfold mbind, prog_bind, pget. simpl w_glob. rewrite Hw. reflexivity.
  - apply mwrite_split in Hw as (a & old & c & _ & -> & Ha & _).
    destruct a; [|unfold zlen in Ha; simpl in Ha; lia]. simpl. rewrite <- app_assoc. simpl.
    by rewrite cstring_app_nul by apply cstring_nonnul.
  - pose proof (mread_mwrite_same _ _ _ _ Hw) as Hr. rewrite zlen_app in Hr. exact Hr.
Qed.
End Query.

(** ** Concrete runs *)

(** The largest fragment, for slot 1, overwrites slot 2. *)
Lemma fragment_overflows_witness :
  let pkt := demo_fragment ++ replicate 620 0 in
  let w := rpc_world [] in
  exists m,
    reassemble pkt 1 CCCI_RPC_REQ_SEND_AGAIN 3476 w =
      (set_glob (set_slot 1 RPC_BUFF_WAIT 3476 (set_pRpcBuf m (w_glob w))) w, Ok tt) /\
    mread m (slot_base 2) 1408 = mread pkt 2068 1408.
Proof.
  intros pkt w.
  apply (fragment_overflows pkt 1 CCCI_RPC_REQ_SEND_AGAIN 3476 w); vm_compute; done.
Defined.

(** The slot 0 with a query without arguments, after an answer. *)
Lemma empty_query_crashes_witness :
  let m := replicate 16 0 ++ le32 IPC_RPC_QUERY_AP_SYS_PROPERTY ++ le32 0 in
  let w := set_glob (upd_vars (set_PackInfo (replicate 6 (PacketInfo 4 (PVar V_RetVal))))
             (set_pRpcBuf m rpc_demo)) (rpc_world []) in
  (serve no_lib_entry 16 w).2 = Halt OutOfBounds.
Proof.
  intros m w.
  apply (empty_query_crashes no_lib_entry 16 (replicate 5 (PacketInfo 4 (PVar V_RetVal))) w); vm_compute; done.
Defined.

(** ** ccci_rpcd: a round of the main loop with a property query

    From the packet with the query to the packet with the answer, with every call
    in between. *)

Section Round.
Context `{OS}.
Abbreviation M := (prog rpcd).

(** The answer to a query: the result and the value with its terminator. *)
Definition query_answer (ret : Z) (value : list Z) : list (list Z) :=
  [le32 (u32 ret); cstring value ++ [0]].

(** The packet array with it. *)
Definition query_info (value : list Z) (rest : list RPC_PACKET_INFO) : list RPC_PACKET_INFO :=
  PacketInfo 4 (PVar V_RetVal) :: PacketInfo (zlen (cstring value) + 1) (PVar V_property_val) :: rest.

(** What a query does to the globals [g]: memory [m], value [pv]. *)
Definition queried (m pv : list Z) (ret : Z) (value : list Z) (rest : list RPC_PACKET_INFO)
    (g : rpcd) : rpcd :=
  upd_vars (fun r => MainVars ret pv (tmp_buff r) (query_info value rest) 2 (ReqBufIndex r))
    (set_pRpcBuf m g).

(** The value of the property [name] fits, whenever it is asked for. *)
Definition value_fits (name : list Z) : Prop :=
  forall s, zlen (cstring (os_do (Sys_property_get name) s).2.2) < PROPERTY_VALUE_MAX.

Lemma query_wp w off name old rest :
  PackInfo (vars (w_glob w)) = PacketInfo (zlen name) (PBuf off) :: old :: rest ->
  PacketNum (vars (w_glob w)) = 0 -> length (property_val (vars (w_glob w))) = 92%nat ->
  mread (buf w) off (zlen name) = Some name -> off + zlen name + 1 <= zlen (buf w) ->
  value_fits (cstring name) ->
  wp query_property (fun _ w' => exists ret value m pv,
      w_trace w' = w_trace w ++ [Ev (Sys_property_get (cstring name)) (ret, value)] /\
      w_glob w' = queried m pv ret value rest (w_glob w) /\
      zlen (cstring value) < PROPERTY_VALUE_MAX /\
      mread pv 0 (zlen (cstring value) + 1) = Some (cstring value ++ [0]) /\
      same_outside (off + zlen name) (off + zlen name + 1) (buf w) m)
    (fun _ _ => False) w.
Proof.
  intros Hpi Hn Hpv Hname Hfit Hval. pose proof (zlen_nonneg name).
  assert (0 <= off) by (apply mread_Some in Hname; lia).
  destruct (mwrite_is_Some (buf w) (off + zlen name) [0]) as [m Hm]; [lia|exact Hfit|].
  assert (same_outside (off + zlen name) (off + zlen name + 1) (buf w) m) as Hout.
  { eapply same_outside_write; [exact Hm|lia|change (zlen [0]) with 1; lia|apply same_outside_refl]. }
  unfold query_property. eapply wp_bind_eq; [reflexivity|]. rewrite Hpi.
  eapply wp_bind_eq; [reflexivity|]. simpl pData. simpl Length.
  eapply wp_runs; [apply (runs_glob (store_at (PBuf off) (zlen name) [0]) w), (buf_write_eq _ _ _ _ Hm)|].
  intros w1 Ht1 Hg1. change (set_shared m (w_glob w)) with (set_pRpcBuf m (w_glob w)) in Hg1.
  assert (buf w1 = m) as Hb1 by (unfold buf; by rewrite Hg1).
  eapply wp_bind_eq; [apply (string_at_buf _ _ name); rewrite Hb1|].
  { by rewrite (proj2 Hout) by lia. }
  { apply (mread_mwrite_same _ _ _ _ Hm). }
  destruct (property_get_runs w1 (cstring name)) as (ret & value & pv & Hrun & Hv & Hc & Hr);
    [by rewrite Hg1|apply Hval|].
  eapply wp_runs; [exact Hrun|]. intros w2 Ht2 Hg2.
  eapply wp_bind_eq; [reflexivity|]. eapply wp_bind_eq; [reflexivity|]. cbv zeta.
  eapply wp_runs; [apply (resp_runs _ _ _ (PacketInfo (zlen name) (PBuf off)) 0)|].
  { simpl. by rewrite Hg2, Hg1. }
  { simpl. rewrite Hg2, Hg1. simpl. by rewrite Hpi. }
  intros w3 Ht3 Hg3.
  destruct (resp_runs w3 (zlen (cstring pv) + 1) (PVar V_property_val) old 1) as (w4 & Hw4 & Ht4 & Hg4).
  { by rewrite Hg3. }
  { rewrite Hg3. simpl. rewrite Hg2, Hg1. simpl. by rewrite Hpi. }
  unfold wp. simpl w_glob. rewrite Hg2. simpl property_val. rewrite Hw4.
  exists ret, value, m, pv. split_and!; [|..|done|done|done].
  - rewrite Ht4, Ht3, app_nil_r, app_nil_r. simpl. by rewrite Ht2, Ht1, app_nil_r.
  - rewrite Hg4, Hg3. simpl w_glob. rewrite Hg2, Hg1. unfold queried, query_info, upd_vars, set_pRpcBuf. simpl.
    by rewrite Hpi, Hc.
Qed.

(** ** Reception *)

Lemma word_at m off v : mread32 m (Z.of_nat off) = Some v -> de32 (take 4 (drop off m)) = v.
Proof.
  unfold mread32. intros Hv. apply fmap_Some in Hv as (bs & Hbs & ->).
  apply mread_Some in Hbs as (_ & _ & _ & ->). by rewrite Nat2Z.id.
Qed.

(** The receive buffer starts with the packet. *)
Lemma packet_buffer_words pkt :
  zlen pkt <= MAX_RPC_BUF_BYTE ->
  exists pb, packet_buffer pkt = Some pb /\ mread pb 0 (zlen pkt) = Some pkt /\
    forall off v, mread32 pkt (Z.of_nat off) = Some v -> de32 (take 4 (drop off pb)) = v.
Proof.
  intros Hl. unfold packet_buffer.
  destruct (mwrite_is_Some (replicate (Z.to_nat MAX_RPC_BUF_BYTE) 0) 0 pkt) as [pb Hpb]; [done|done|].
  exists pb. pose proof (mread_mwrite_same _ _ _ _ Hpb) as Hr. split_and!; [done|done|].
  intros off v Hv. apply word_at. pose proof (mread32_Some_range _ _ _ Hv).
  by rewrite <- Hv, (mread32_in _ _ _ _ _ Hr) by lia.
Qed.

Lemma nth_slot_set {A} (l : list A) i x y :
  nth_slot l i = Some x -> nth_slot (<[Z.to_nat i := y]> l) i = Some y.
Proof.
  unfold nth_slot. destruct (0 <=? i); [|done]. intros Hx.
  apply list_lookup_insert_eq. by eapply lookup_lt_Some.
Qed.

Lemma slot_base_small i : 0 <= i < 5 -> slot_base i = 2068 * i.
Proof. intros Hi. unfold slot_base, RPC_MAX_BUF_SIZE, sizeof_STREAM_DATA. apply u32_small. lia. Qed.

(** The state before the round: the daemon of the stream mode is ready, the slot
    of the request idle, and the next read delivers the query [name] as one
    packet. *)
Record query_ready (w : world rpcd) (a u i : Z) (name pkt : list Z) (d0 channel : Z) : Prop := {
  qr_stream : stream_support (w_glob w) = true;
  qr_lock : wake_ready a u (w_glob w);
  qr_index : 0 <= i < 5;
  qr_state : nth_slot (rpc_buff_state (w_glob w)) i = Some RPC_BUFF_IDLE;
  qr_offset : exists off, nth_slot (rpc_buff_offset (w_glob w)) i = Some off;
  qr_slots : zlen (buf w) = 5 * 2068;
  qr_info : length (PackInfo (vars (w_glob w))) = 6%nat;
  qr_value : length (property_val (vars (w_glob w))) = 92%nat;
  qr_name : zlen name <= 2000;
  qr_fits : value_fits (cstring name);
  qr_packet : is_packet pkt d0 channel i IPC_RPC_QUERY_AP_SYS_PROPERTY [name];
  qr_whole : has_bits (u32 d0) CCCI_RPC_REQ_SEND_AGAIN = false;
  qr_read : exists s, os_do (Sys_read (DeviceFd (w_glob w)) 3476) (w_os w) = (s, RData pkt)
}.

(** The globals once the packet is in its slot. *)
Definition received (i len : Z) (m : list Z) (g : rpcd) : rpcd :=
  set_slot i RPC_BUFF_IDLE 0 (set_pRpcBuf m
    (upd_vars (fun r => set_ReqBufIndex i (set_RetVal len r)) g)).

Lemma receive_wp w a u i name pkt d0 channel fuel :
  query_ready w a u i name pkt d0 channel ->
  wp (receive (S fuel)) (fun base w' => base = slot_base i + 16 /\ exists r m,
      w_trace w' = w_trace w ++ [Ev (Sys_read (DeviceFd (w_glob w)) 3476) (RData pkt);
                                  Ev (Sys_write a RPC_WAKE_LOCK_NAME) r] /\
      w_glob w' = received i (zlen pkt) m (w_glob w) /\
      zlen m = zlen (buf w) /\ mread m (slot_base i) (zlen pkt) = Some pkt)
    (fun _ _ => False) w.
Proof.
  intros [Hs Hlock Hi Hst [off Hoff] Hslots _ _ Hname _ Hpkt Hwhole [s Hread]].
  destruct Hpkt as (Hlen & H0 & H4 & H8 & H12 & H16 & H20 & Hargs). simpl in Hlen.
  pose proof (zlen_nonneg name). pose proof (align4_bounds (zlen name) ltac:(lia)).
  destruct (packet_buffer_words pkt) as (pb & Hpb & Hall & Hword); [unfold MAX_RPC_BUF_BYTE; lia|].
  destruct (mwrite_is_Some (buf w) (slot_base i) pkt) as [m Hm]; [rewrite slot_base_small by done; lia..|].
  simpl. eapply wp_bind_eq; [reflexivity|].
  eapply wp_bind_eq; [exact (psys_eq _ _ _ _ Hread)|]. simpl rres_data. rewrite Hpb.
  eapply wp_bind_eq; [reflexivity|]. eapply wp_bind_eq; [reflexivity|].
  simpl rres_rv. destruct (Z.leb_spec (zlen pkt) 0); [lia|]. cbv zeta.
  match goal with |- wp _ _ _ ?w1 => destruct (lock_runs a u w1 Hlock) as (r & Hrun) end.
  eapply wp_runs; [exact Hrun|]. intros w1 Ht1 Hg1. simpl in Ht1, Hg1.
  rewrite (Hword 12%nat _ H12), (Hword 0%nat _ H0), (Hword 4%nat _ H4), i32_small by lia.
  eapply wp_bind_eq; [reflexivity|].
  eapply wp_bind_eq.
  { apply (reassemble_whole _ _ _ _ pkt m off); simpl; by rewrite ?Hg1. }
  eapply wp_bind_eq; [reflexivity|]. simpl. rewrite Hg1. simpl.
  rewrite (nth_slot_set _ _ _ RPC_BUFF_IDLE Hst). eapply wp_bind_eq; [reflexivity|].
  apply wp_ret. split; [done|]. exists r, m. simpl. rewrite Ht1, <- app_assoc.
  split_and!; [done|done|by unfold zlen; rewrite (length_mwrite _ _ _ _ Hm)|].
  by apply (mread_mwrite_same _ _ _ _ Hm).
Qed.

(** ** The round *)

(** What a slot with the packet of a query holds. *)
Lemma slot_words m slot pkt d0 channel i name :
  mread m slot (zlen pkt) = Some pkt -> zlen name <= 2000 ->
  is_packet pkt d0 channel i IPC_RPC_QUERY_AP_SYS_PROPERTY [name] ->
  mread32 m slot = Some (u32 d0) /\ mread32 m (slot + 8) = Some (u32 channel) /\
  mread32 m (slot + 12) = Some i /\ mread32 m (slot + 16) = Some IPC_RPC_QUERY_AP_SYS_PROPERTY /\
  mread32 m (slot + 20) = Some 1 /\ args_at m (slot + 24) [name].
Proof.
  intros Hr Hname (Hlen & H0 & _ & H8 & H12 & H16 & H20 & Ha1 & Ha2 & _). simpl in Hlen.
  pose proof (zlen_nonneg name). pose proof (align4_bounds (zlen name) ltac:(lia)).
  assert (forall o v, 0 <= o -> o + 4 <= zlen pkt -> mread32 pkt o = Some v -> mread32 m (slot + o) = Some v)
    as Hw by (intros o v ? ? <-; symmetry; by apply (mread32_in _ _ _ _ _ Hr)).
  apply Hw in H0, H8, H12, H16, H20, Ha1; [|lia..].
  rewrite (mread_in _ _ _ _ _ _ Hr) in Ha2 by lia. rewrite Z.add_0_r in H0.
  split_and!; try done. simpl. replace (slot + 24 + 4) with (slot + (24 + 4)) by lia. by split_and!.
Qed.

Lemma serve_query w tc1_rpc_srv_entry slot d0 channel i name old0 old1 rest :
  0 <= slot -> zlen name <= 2000 -> value_fits (cstring name) ->
  mread32 (buf w) (slot + 16) = Some IPC_RPC_QUERY_AP_SYS_PROPERTY ->
  mread32 (buf w) (slot + 20) = Some 1 -> args_at (buf w) (slot + 24) [name] ->
  slot + 28 + zlen name + 1 <= zlen (buf w) ->
  mread32 (buf w) slot = Some d0 -> mread32 (buf w) (slot + 8) = Some channel ->
  mread32 (buf w) (slot + 12) = Some i ->
  PackInfo (vars (w_glob w)) = old0 :: old1 :: rest -> PacketNum (vars (w_glob w)) = 0 ->
  length (property_val (vars (w_glob w))) = 92%nat ->
  wp (serve tc1_rpc_srv_entry (slot + 16)) (fun _ w' => exists ret value m pv,
      w_trace w' = w_trace w ++ [Ev (Sys_property_get (cstring name)) (ret, value)] /\
      w_glob w' = queried m pv ret value rest (w_glob w) /\
      zlen (cstring value) < PROPERTY_VALUE_MAX /\
      mread pv 0 (zlen (cstring value) + 1) = Some (cstring value ++ [0]) /\
      length m = length (buf w) /\
      mread32 m slot = Some d0 /\ mread32 m (slot + 8) = Some channel /\ mread32 m (slot + 12) = Some i /\
      mread32 m (slot + 16) = Some IPC_RPC_QUERY_AP_SYS_PROPERTY)
    (fun _ _ => False) w.
Proof.
  intros Hslot Hname Hfits Hop Hn Hargs Hroom H0 H8 H12 Hpi Hnum Hpv.
  pose proof (zlen_nonneg name). unfold serve. replace (slot + 16 + 4) with (slot + 16 + 4) by lia.
  eapply wp_runs; [apply (GetPackInfo_one w (slot + 16) name)|].
  { by replace (slot + 16 + 4) with (slot + 20) by lia. }
  { by replace (slot + 16 + 8) with (slot + 24) by lia. }
  { done. }
  { by rewrite Hpi. }
  rewrite Hpi. replace (slot + 16 + 12) with (slot + 28) by lia. simpl.
  intros w1 Ht1 Hg1. rewrite app_nil_r in Ht1.
  assert (buf w1 = buf w) as Hb1 by (unfold buf; by rewrite Hg1).
  eapply wp_bind_eq; [apply buf_get32_eq; by rewrite Hb1|]. rewrite Z.eqb_refl.
  destruct Hargs as (_ & Hbytes & _). replace (slot + 24 + 4) with (slot + 28) in Hbytes by lia.
  eapply wp_mono; [apply (query_wp w1 (slot + 28) name old1 rest)| |done];
    rewrite ?Hg1, ?Hb1; try done.
  intros _ w2 (ret & value & m & pv & Ht & Hg & Hv & Hr & Hl & Hout).
  exists ret, value, m, pv. rewrite Ht, Ht1, Hg.
  unfold mread32 in *. rewrite !Hout by lia. by split_and!.
Qed.

(** The calls of a round that serves a query, the answer and what is left. *)
Definition query_served (w : world rpcd) (a u i : Z) (name pkt : list Z) (d0 channel : Z)
    (w' : world rpcd) : Prop :=
  exists ret value answer r1 r2 r3,
    w_trace w' = w_trace w ++
      [Ev (Sys_read (DeviceFd (w_glob w)) 3476) (RData pkt);
       Ev (Sys_write a RPC_WAKE_LOCK_NAME) r1;
       Ev (Sys_property_get (cstring name)) (ret, value);
       Ev (Sys_write (DeviceFd (w_glob w)) answer) r2;
       Ev (Sys_write u RPC_WAKE_LOCK_NAME) r3] /\
    is_packet answer (Z.land (u32 d0) (u32 (Z.lnot CCCI_RPC_REQ_SEND_AGAIN))) (u32 channel + 1) i
      (Z.lor RPC_API_RESP_ID IPC_RPC_QUERY_AP_SYS_PROPERTY) (query_answer ret value) /\
    PackInfo (vars (w_glob w')) !! 0%nat = Some (PacketInfo 4 (PVar V_RetVal)).

(** Claim C22.  A query of a property is served in one round: the packet is read,
    the wake lock taken, the property asked for under the name in the packet, one
    packet written back and the lock released, and nothing else happens.  The
    answer is for the slot of the request, on the next channel, with the
    operation marked as an answer, and carries the result and the value with its
    terminator.  The first entry of the packet array still points to the result
    afterwards. *)
Theorem query_answered w a u i name pkt d0 channel tc1_rpc_srv_entry fuel :
  query_ready w a u i name pkt d0 channel ->
  exists w', main_step tc1_rpc_srv_entry (S fuel) w = (w', Ok tt) /\
    query_served w a u i name pkt d0 channel w'.
Proof.
  intros Hq.
  enough (wp (main_step tc1_rpc_srv_entry (S fuel)) (fun _ => query_served w a u i name pkt d0 channel)
    (fun _ _ => False) w) as Hwp.
  { apply wp_intro in Hwp as (w' & [] & Hrun & Hout); [|by intros ? ? []]. by exists w'. }
  unfold main_step. eapply wp_bind_eq; [reflexivity|]. eapply wp_bind_eq; [reflexivity|].
  set (w0 := set_glob _ w).
  assert (query_ready w0 a u i name pkt d0 channel) as Hq0 by (by destruct Hq; constructor).
  simpl. rewrite (qr_stream _ _ _ _ _ _ _ _ Hq). apply wp_bind, wp_bind.
  eapply wp_mono; [exact (receive_wp _ _ _ _ _ _ _ _ _ Hq0)|simpl|done].
  intros base w1 (-> & r1 & m & Ht1 & Hg1 & Hlm & Hm). apply wp_ret.
  assert (buf w1 = m) as Hb1 by (unfold buf; by rewrite Hg1).
  destruct Hq as [Hs Hlock Hi Hst _ Hslots Hinfo Hpv Hname Hfits Hpkt Hwhole _].
  destruct (slot_words _ _ _ _ _ _ _ Hm Hname Hpkt) as (H0 & H8 & H12 & H16 & H20 & Hargs).
  change (zlen (buf w0)) with (zlen (buf w)) in Hlm.
  pose proof (slot_base_small i Hi) as Hbase.
  destruct (PackInfo (vars (w_glob w))) as [|old0 [|old1 rest]] eqn:Hpi; [done|done|].
  apply wp_bind. eapply wp_mono;
    [apply (serve_query w1 _ (slot_base i) (u32 d0) (u32 channel) i name old0 old1 rest)|simpl|done];
    rewrite ?Hb1, ?Hg1; try done; try lia.
  intros _ w2 (ret & value & m2 & pv & Ht2 & Hg2 & Hv & Hr & Hl2 & J0 & J8 & J12 & J16).
  unfold reply. eapply wp_bind_eq; [reflexivity|]. rewrite Hg2. simpl.
  assert (buf w2 = m2) as Hb2 by (unfold buf; by rewrite Hg2).
  assert (zlen (cstring value ++ [0]) = zlen (cstring value) + 1) as Hvl by (by rewrite zlen_app).
  pose proof (zlen_nonneg (cstring value)). unfold PROPERTY_VALUE_MAX in Hv.
  destruct (WriteToMD_answer w2 (DeviceFd (w_glob w)) i (query_info value rest) (query_answer ret value)
    (u32 d0) (u32 channel) i IPC_RPC_QUERY_AP_SYS_PROPERTY) as (bs & r2 & m3 & Hrun & Hans).
  { constructor; rewrite ?Hb2; try done.
    - by rewrite Hg2.
    - exists (query_info value []), rest. split; [done|]. rewrite Hg2.
      repeat constructor; [exists V_RetVal|exists V_property_val; rewrite Hvl]; by split_and!.
    - unfold query_answer. simpl. rewrite Hvl, zlen_le32. unfold RPC_MAX_BUF_SIZE.
      change (align4 4) with 4. rewrite !Z.gtb_ltb, !(proj2 (Z.ltb_ge _ _)) by lia. done.
    - unfold query_answer. simpl. rewrite Hvl, zlen_le32. change (align4 4) with 4.
      pose proof (align4_bounds (zlen (cstring value) + 1) ltac:(lia)).
      rewrite Hbase. unfold zlen in *. rewrite Hl2. lia. }
  { done. }
  change (zlen (query_answer ret value)) with 2 in Hrun.
  eapply wp_runs; [exact Hrun|]. intros w3 Ht3 Hg3.
  destruct (unlock_runs a u w3) as (r3 & w4 & Hw4 & Ht4 & Hg4); [by rewrite Hg3, Hg2|].
  unfold wp. rewrite Hw4. exists ret, value, bs, r1, r2, r3. split_and!; [|exact Hans|].
  - rewrite Ht4, Ht3, Ht2, Ht1. by rewrite <- !app_assoc.
  - by rewrite Hg4, Hg3, Hg2.
Qed.
End Round.

(** ** Concrete runs *)

Lemma demo_value_fits name : value_fits name.
Proof.
  intros s. simpl. destruct (assoc name (props s)) as [v|]; [|done]. cbv zeta. simpl.
  pose proof (length_cstring (take 91 v)). rewrite length_take in *. unfold zlen, PROPERTY_VALUE_MAX. lia.
Qed.

Lemma query_answered_witness :
  exists w', main_step no_lib_entry 1 (rpc_world [demo_query]) = (w', Ok tt) /\
    query_served (rpc_world [demo_query]) demo_lock_fd demo_unlock_fd 2 demo_property demo_query 0 32 w'.
Proof.
  apply (query_answered (rpc_world [demo_query]) demo_lock_fd demo_unlock_fd 2 demo_property demo_query 0 32
    no_lib_entry 0).
  constructor; try (vm_compute; done).
  - by exists 0.
  - apply demo_value_fits.
  - eexists. vm_compute. reflexivity.
Defined.
