(* ===== verification/RingSeg.v ===== *)
(** * Cyclic segments of indices

    Arithmetic of the indices of a ring of [n] slots: the successor, the
    distance from one index to another, and the segment of the [k] indices from
    one on.  The rings of ccci_lib keep their contents in such segments. *)
From S2P Require Import Prelude.

Definition next (n i : Z) : Z := if i + 1 >=? n then 0 else i + 1.

Definition dist (n a b : Z) : Z := if a <=? b then b - a else n - a + b.

Fixpoint seg (n a : Z) (k : nat) : list Z :=
  match k with
  | O => []
  | S k' => a :: seg n (next n a) k'
  end.

(** The indices from [a] to [b]. *)
Definition between (n a b : Z) : list Z := seg n a (Z.to_nat (dist n a b)).

Lemma next_range n i : 0 <= i < n -> 0 <= next n i < n.
Proof. unfold next. destruct (Z.geb_spec (i + 1) n); lia. Qed.

Lemma dist_range n a b : 0 <= a < n -> 0 <= b < n -> 0 <= dist n a b < n.
Proof. unfold dist. destruct (Z.leb_spec a b); lia. Qed.

Lemma dist_refl n a : dist n a a = 0.
Proof. unfold dist. destruct (Z.leb_spec a a); lia. Qed.

Lemma dist_zero n a b : 0 <= a < n -> 0 <= b < n -> dist n a b = 0 -> a = b.
Proof. unfold dist. destruct (Z.leb_spec a b); lia. Qed.

(** Moving the end, and the start, of a segment. *)
Lemma dist_next_r n a b :
  0 <= a < n -> 0 <= b < n -> dist n a b < n - 1 -> dist n a (next n b) = dist n a b + 1.
Proof.
  unfold dist, next. destruct (Z.leb_spec a b), (Z.geb_spec (b + 1) n); intros;
  match goal with |- context [?x <=? ?y] => destruct (Z.leb_spec x y) end; lia.
Qed.

Lemma dist_next_l n a b :
  0 <= a < n -> 0 <= b < n -> a <> b -> dist n (next n a) b = dist n a b - 1.
Proof.
  unfold dist, next. destruct (Z.leb_spec a b), (Z.geb_spec (a + 1) n); intros;
  match goal with |- context [?x <=? ?y] => destruct (Z.leb_spec x y) end; lia.
Qed.

(** An index on the way. *)
Lemma dist_split n a b c :
  0 <= a < n -> 0 <= b < n -> 0 <= c < n -> dist n a b <= dist n a c ->
  dist n b c = dist n a c - dist n a b.
Proof.
  unfold dist. intros. destruct (Z.leb_spec a b), (Z.leb_spec a c), (Z.leb_spec b c); lia.
Qed.

Lemma dist_inj n a b c :
  0 <= a < n -> 0 <= b < n -> 0 <= c < n -> dist n a b = dist n a c -> b = c.
Proof. unfold dist. intros. destruct (Z.leb_spec a b), (Z.leb_spec a c); lia. Qed.

Lemma length_seg n a k : length (seg n a k) = k.
Proof. revert a. induction k as [|k IH]; intros a; simpl; [done|]. by rewrite IH. Qed.

Lemma length_between n a b : 0 <= a < n -> 0 <= b < n -> zlen (between n a b) = dist n a b.
Proof. intros. pose proof (dist_range n a b). unfold zlen, between. rewrite length_seg. lia. Qed.

Lemma seg_app n a k l : seg n a (k + l) = seg n a k ++ seg n (Nat.iter k (next n) a) l.
Proof.
  revert a. induction k as [|k IH]; intros a; [done|]. simpl. rewrite IH.
  by rewrite <- Nat.iter_succ_r.
Qed.

Lemma iter_next n a k :
  0 <= a < n -> Z.of_nat k < n ->
  0 <= Nat.iter k (next n) a < n /\ dist n a (Nat.iter k (next n) a) = Z.of_nat k.
Proof.
  intros Ha. induction k as [|k IH]; intros Hk.
  - simpl. rewrite dist_refl. lia.
  - destruct IH as [Hr Hd]; [lia|]. rewrite Nat.iter_succ. split; [by apply next_range|].
    rewrite dist_next_r by lia. lia.
Qed.

(** The elements of a segment are the indices less than [k] away. *)
Lemma elem_seg n a k x :
  0 <= a < n -> Z.of_nat k <= n -> x ∈ seg n a k <-> 0 <= x < n /\ dist n a x < Z.of_nat k.
Proof.
  revert a. induction k as [|k IH]; intros a Ha Hk; simpl.
  - rewrite elem_of_nil. split; [done|]. intros [Hx Hd]. pose proof (dist_range n a x Ha Hx). lia.
  - rewrite elem_of_cons, IH by (try apply next_range; lia). split.
    + intros [->|[Hx Hd]]; [rewrite dist_refl; lia|].
      split; [done|]. destruct (decide (x = a)) as [->|Hne]; [rewrite dist_refl; lia|].
      rewrite dist_next_l in Hd by lia. lia.
    + intros [Hx Hd]. destruct (decide (x = a)) as [->|Hne]; [by left|]. right.
      split; [done|]. rewrite dist_next_l by lia. lia.
Qed.

Lemma elem_between n a b x :
  0 <= a < n -> 0 <= b < n -> x ∈ between n a b <-> 0 <= x < n /\ dist n a x < dist n a b.
Proof.
  intros Ha Hb. pose proof (dist_range n a b Ha Hb). unfold between.
  rewrite elem_seg by lia. by rewrite Z2Nat.id by lia.
Qed.

Lemma between_nil n a : between n a a = [].
Proof. unfold between. by rewrite dist_refl. Qed.

Lemma between_cons n a b :
  0 <= a < n -> 0 <= b < n -> a <> b -> between n a b = a :: between n (next n a) b.
Proof.
  intros Ha Hb Hne. unfold between. pose proof (dist_range n a b Ha Hb).
  assert (dist n a b <> 0) by (intros H0; by apply Hne, (dist_zero n)).
  rewrite dist_next_l by lia.
  replace (Z.to_nat (dist n a b)) with (S (Z.to_nat (dist n a b - 1))) by lia. done.
Qed.

Lemma between_app n a b c :
  0 <= a < n -> 0 <= b < n -> 0 <= c < n -> dist n a b <= dist n a c ->
  between n a c = between n a b ++ between n b c.
Proof.
  intros Ha Hb Hc Hle. unfold between. rewrite (dist_split n a b c) by done.
  pose proof (dist_range n a b Ha Hb).
  replace (Z.to_nat (dist n a c)) with (Z.to_nat (dist n a b) + Z.to_nat (dist n a c - dist n a b))%nat by lia.
  rewrite seg_app. do 2 f_equal.
  pose proof (dist_range n a b Ha Hb). destruct (iter_next n a (Z.to_nat (dist n a b))) as [Hr Hd]; [lia|lia|].
  apply (dist_inj n a); lia.
Qed.

Lemma between_snoc n a b :
  0 <= a < n -> 0 <= b < n -> dist n a b < n - 1 ->
  between n a (next n b) = between n a b ++ [b].
Proof.
  intros Ha Hb Hlt. pose proof (next_range n b Hb).
  pose proof (dist_range n a b Ha Hb).
  rewrite (between_app n a b) by (rewrite ?dist_next_r; lia).
  assert (b <> next n b) by (unfold next; destruct (Z.geb_spec (b + 1) n); lia).
  rewrite (between_cons n b) by done. by rewrite between_nil.
Qed.

Lemma dist_add n a b c :
  0 <= a < n -> 0 <= b < n -> 0 <= c < n -> dist n a b + dist n b c < n ->
  dist n a c = dist n a b + dist n b c.
Proof.
  unfold dist. intros. destruct (Z.leb_spec a b), (Z.leb_spec b c), (Z.leb_spec a c); lia.
Qed.

Lemma seg_NoDup n k : forall a, 0 <= a < n -> Z.of_nat k <= n -> NoDup (seg n a k).
Proof.
  induction k as [|k IH]; intros a Ha Hk; simpl; [constructor|].
  pose proof (next_range n a Ha). constructor; [|apply IH; lia].
  rewrite elem_seg by lia. intros [_ Hd]. revert Hd. unfold dist, next.
  destruct (Z.geb_spec (a + 1) n); match goal with |- context [?x <=? ?y] => destruct (Z.leb_spec x y) end; lia.
Qed.

Lemma between_NoDup n a b : 0 <= a < n -> 0 <= b < n -> NoDup (between n a b).
Proof. intros Ha Hb. pose proof (dist_range n a b Ha Hb). apply seg_NoDup; lia. Qed.

(** An index of a segment is not in the segment after it. *)
Lemma between_disjoint n a b c x :
  0 <= a < n -> 0 <= b < n -> 0 <= c < n -> dist n a b <= dist n a c ->
  x ∈ between n a b -> (x ∉ between n b c).
Proof.
  intros Ha Hb Hc Hle. rewrite !elem_between by done. intros [Hx Hd] [_ Hd'].
  rewrite (dist_split n a b c) in Hd' by done. pose proof (dist_range n a c Ha Hc).
  pose proof (dist_range n b x Hb Hx). rewrite (dist_add n a b x) in Hd by lia. lia.
Qed.
