(* ===== verification/CcbTypes.v ===== *)
(** * ccci_lib: the state of the shared circular buffers

    The modem and the application processor exchange bulk data through CCB
    buffers: rings of pages in shared memory, each with a header of indices.
    This file holds the constants and structures of ccci_lib.h and the state of
    ccci_lib.c.

    Shared memory is a store of the objects it holds, headers and page headers,
    by address: two mappings of the same memory have the same address here, and
    an access where no object is ends in [OutOfBounds].  The payload of a page
    is written and read by the callers of the library and is not part of the
    state. *)
From S2P Require Import Prelude Posix CcciIntf.

(** ** Constants *)

Definition ENODEV : Z := 19.
Definition EINVAL : Z := 22.
Definition EFAULT : Z := 14.
Definition EAGAIN : Z := 11.

Definition PAGE_STATUS_INIT : Z := 0.
Definition PAGE_STATUS_ALLOC : Z := 0x11111111.
Definition PAGE_STATUS_WRITE_DONE : Z := 0x22222222.

Definition CCB_USER_INVALID : Z := 0.
Definition CCB_USER_OK : Z := 1.
Definition CCB_USER_ERR : Z := 2.

Definition HEADER_MAGIC_BEFORE : Z := 0xAABBCCDD.
Definition HEADER_MAGIC_AFTER : Z := 0xDDBBCCAA.
Definition TAIL_MAGIC_BEFORE : Z := 0xEEFF0011.
Definition TAIL_MAGIC_AFTER : Z := 0x1100FFEE.

Definition sizeof_buffer_header : Z := 32.
Definition sizeof_page_header : Z := 8.
Definition sizeof_control_user : Z := 72.
Definition sizeof_control_buff : Z := 40.
Definition sizeof_ccb_config : Z := 24.

(** [MAP_FAILED] *)
Definition MAP_FAILED : Z := -1.

(** ** Objects in shared memory *)

Record page_header := PageHeader { page_status : Z; valid_length : Z }.

Record buffer_header := BufferHeader {
  guard_band : Z;
  allocate_index : Z;
  free_index : Z;
  read_index : Z;
  write_index : Z;
  page_size : Z;
  data_buffer_size : Z;
  guard_band_e : Z
}.

Definition set_allocate (v : Z) (h : buffer_header) : buffer_header :=
  BufferHeader (guard_band h) v (free_index h) (read_index h) (write_index h) (page_size h)
    (data_buffer_size h) (guard_band_e h).
Definition set_free (v : Z) (h : buffer_header) : buffer_header :=
  BufferHeader (guard_band h) (allocate_index h) v (read_index h) (write_index h) (page_size h)
    (data_buffer_size h) (guard_band_e h).
Definition set_read (v : Z) (h : buffer_header) : buffer_header :=
  BufferHeader (guard_band h) (allocate_index h) (free_index h) v (write_index h) (page_size h)
    (data_buffer_size h) (guard_band_e h).
Definition set_write (v : Z) (h : buffer_header) : buffer_header :=
  BufferHeader (guard_band h) (allocate_index h) (free_index h) (read_index h) v (page_size h)
    (data_buffer_size h) (guard_band_e h).
Definition set_guard_e (v : Z) (h : buffer_header) : buffer_header :=
  BufferHeader (guard_band h) (allocate_index h) (free_index h) (read_index h) (write_index h)
    (page_size h) (data_buffer_size h) v.

(** ** Objects of the library *)

Record ccci_ccb_control_buff := ControlBuff {
  dl_page_num : Z;
  ul_page_num : Z;
  dl_header : Z;     (** addresses; 0 is the null pointer *)
  ul_header : Z;
  dl_pages : Z;
  ul_pages : Z
}.

Definition buff_zero : ccci_ccb_control_buff := ControlBuff 0 0 0 0 0 0.

Record ccci_ccb_control_user := ControlUser {
  user_id : Z;
  ctrl_info : ccb_ctrl_info;
  ctrl_base_address : Z;
  buffer_num : Z;
  base_address : Z;
  total_length : Z;
  fd : Z;
  ctrl_fd : Z;
  buffers : option (list ccci_ccb_control_buff)
}.

(** The static variables [ccci_ccb_ports], [ccb_info_len] and [user], and the
    shared memory. *)
Record ccb := Ccb {
  ccci_ccb_ports : option (list ccci_ccb_config);
  ccb_info_len : Z;
  user : option ccci_ccb_control_user;
  headers : gmap Z buffer_header;
  pages : gmap Z page_header
}.

Definition set_ports (v : option (list ccci_ccb_config)) (g : ccb) : ccb :=
  Ccb v (ccb_info_len g) (user g) (headers g) (pages g).
Definition set_info_len (v : Z) (g : ccb) : ccb :=
  Ccb (ccci_ccb_ports g) v (user g) (headers g) (pages g).
Definition set_user (v : option ccci_ccb_control_user) (g : ccb) : ccb :=
  Ccb (ccci_ccb_ports g) (ccb_info_len g) v (headers g) (pages g).
Definition set_headers (v : gmap Z buffer_header) (g : ccb) : ccb :=
  Ccb (ccci_ccb_ports g) (ccb_info_len g) (user g) v (pages g).
Definition set_pages (v : gmap Z page_header) (g : ccb) : ccb :=
  Ccb (ccci_ccb_ports g) (ccb_info_len g) (user g) (headers g) v.

(** ** Accesses *)

Section Access.
Context `{OS}.
Abbreviation M := (prog ccb).

Definition hdr_get (p : Z) : M buffer_header :=
  if p =? 0 then phalt NullDeref
  else g ← pget; popt OutOfBounds (headers g !! p).

Definition hdr_put (p : Z) (h : buffer_header) : M unit :=
  _ ← hdr_get p; pmod (fun g => set_headers (<[p := h]> (headers g)) g).

Definition hdr_mod (p : Z) (f : buffer_header -> buffer_header) : M unit :=
  h ← hdr_get p; hdr_put p (f h).

Definition page_get (p : Z) : M page_header :=
  g ← pget; popt OutOfBounds (pages g !! p).

Definition page_mod (p : Z) (f : page_header -> page_header) : M unit :=
  h ← page_get p; pmod (fun g => set_pages (<[p := f h]> (pages g)) g).

(** [user->buffers[buffer_id]] *)
Definition buff_at (u : ccci_ccb_control_user) (buffer_id : Z) : M ccci_ccb_control_buff :=
  match buffers u with
  | None => phalt NullDeref
  | Some l => popt OutOfBounds (l !! Z.to_nat buffer_id)
  end.
End Access.
