(* ===== verification/CcbRing.v ===== *)
(** * ccci_lib: operations on a registered user

    The half of ccci_lib.c the clients of a CCB user call after
    [ccci_ccb_register]: allocating and committing pages of the uplink ring,
    polling, reading and releasing pages of the downlink ring.  Each operation
    is atomic with respect to the modem here; what the modem does between two
    operations is the subject of CcbQueue.v. *)
From S2P Require Import Prelude Posix CcciIntf CcbTypes.

Section Ring.
Context `{OS}.
Abbreviation M := (prog ccb).

(** [user_id - CCB_START_INDEX] in the unsigned type it is compared in. *)
Definition ccb_index (user_id : Z) : Z := u32 (user_id - CCB_START_INDEX).

(** The configuration of the [buffer_id]-th buffer of a user. *)
Fixpoint query_config_loop (index buffer_id buffer_count : Z) (ports : list ccci_ccb_config)
    : option ccci_ccb_config :=
  match ports with
  | [] => None
  | c :: ports' =>
      if cfg_user_id c =? index then
        if buffer_count =? buffer_id then Some c
        else query_config_loop index buffer_id (buffer_count + 1) ports'
      else query_config_loop index buffer_id buffer_count ports'
  end.

(** The first [ccb_info_len] entries of [ccci_ccb_ports]. *)
Definition ccb_ports : M (list ccci_ccb_config) :=
  g ← pget;
  if ccb_info_len g =? 0 then mret []
  else match ccci_ccb_ports g with
       | None => phalt NullDeref
       | Some l => if zlen l <? ccb_info_len g then phalt OutOfBounds
                   else mret (take (Z.to_nat (ccb_info_len g)) l)
       end.

Definition ccci_ccb_query_config (user_id buffer_id : Z) : M (option ccci_ccb_config) :=
  ports ← ccb_ports;
  mret (query_config_loop (ccb_index user_id) buffer_id 0 ports).

Definition ccci_ccb_get_fd : M Z :=
  g ← pget;
  mret (match user g with Some u => fd u | None => -1 end).

(** [true] when every buffer of [0..buffer_num) is ready. *)
Fixpoint query_status_loop (u : ccci_ccb_control_user) (n : nat) (i : Z) : M Z :=
  match n with
  | O => mret CCB_USER_OK
  | S n' =>
      buff ← buff_at u i;
      dl ← hdr_get (dl_header buff);
      if negb (guard_band dl =? HEADER_MAGIC_AFTER) then mret CCB_USER_ERR
      else
        ul ← hdr_get (ul_header buff);
        if negb (guard_band ul =? HEADER_MAGIC_AFTER) then mret CCB_USER_ERR
        else query_status_loop u n' (i + 1)
  end.

Definition ccci_ccb_query_status : M Z :=
  g ← pget;
  match user g with
  | None => mret (- EFAULT)
  | Some u =>
      ret ← query_status_loop u (Z.to_nat (buffer_num u)) 0;
      mret (if ret =? CCB_USER_OK then 0 else - EAGAIN)
  end.

(** The address of a page, and of its payload [page->buffer]. *)
Definition ccci_ccb_get_page (buff_h : buffer_header) (pages_ index : Z) : Z :=
  pages_ + u32 (page_size buff_h * index).

Definition page_buffer (page : Z) : Z := page + sizeof_page_header.

(** The next index of a ring of [total] pages. *)
Definition next_index (total i : Z) : Z := if u32 (i + 1) >=? total then 0 else u32 (i + 1).

(** ** Uplink *)

(** The pages [ccci_ccb_write_alloc] may still give out. *)
Definition write_available (total : Z) (ul : buffer_header) : Z :=
  if allocate_index ul =? free_index ul then u32 (total - 1)
  else if allocate_index ul >? free_index ul
  then u32 (total - allocate_index ul + free_index ul - 1)
  else u32 (free_index ul - allocate_index ul - 1).

Definition md_ready (ul : buffer_header) : bool :=
  (guard_band ul =? HEADER_MAGIC_AFTER) && (guard_band_e ul =? TAIL_MAGIC_AFTER).

(** 0 is the null pointer. *)
Definition ccci_ccb_write_alloc (buffer_id : Z) : M Z :=
  g ← pget;
  match user g with
  | None => mret 0
  | Some u =>
      if buffer_id >? buffer_num u then mret 0
      else
        buff ← buff_at u buffer_id;
        ul ← hdr_get (ul_header buff);
        if negb (md_ready ul) then mret 0
        else
          let total := ul_page_num buff in
          if write_available total ul =? 0 then mret 0
          else
            let page := ccci_ccb_get_page ul (ul_pages buff) (allocate_index ul) in
            page_mod page (fun p => PageHeader PAGE_STATUS_ALLOC (valid_length p));;
            hdr_put (ul_header buff) (set_allocate (next_index total (allocate_index ul)) ul);;
            mret (page_buffer page)
  end.

(** The search for the page of an address: its index, or [n + i] if there is
    none. *)
Fixpoint find_page (ul : buffer_header) (pages_ address : Z) (n : nat) (i : Z) : Z :=
  match n with
  | O => i
  | S n' =>
      if page_buffer (ccci_ccb_get_page ul pages_ i) =? address then i
      else find_page ul pages_ address n' (i + 1)
  end.

(** The write index follows the committed pages, in the order they were
    allocated.  At most [ul_page_num] pages are visited when the indices are
    inside the ring. *)
Fixpoint write_done_loop (fuel : nat) (buff : ccci_ccb_control_buff) (i : Z) : M Z :=
  match fuel with
  | O => phalt NoFuel
  | S fuel' =>
      ul ← hdr_get (ul_header buff);
      if i =? allocate_index ul then mret i
      else
        page ← page_get (ccci_ccb_get_page ul (ul_pages buff) i);
        if page_status page =? PAGE_STATUS_WRITE_DONE then
          hdr_put (ul_header buff) (set_write (next_index (ul_page_num buff) (write_index ul)) ul);;
          let i := u32 (i + 1) in
          let i := if i >=? ul_page_num buff then 0 else i in
          write_done_loop fuel' buff i
        else mret i
  end.

(** The end of [ccci_ccb_write_done], for the page of index [i]: the commit, the
    publication and the notification of the modem. *)
Definition write_done_page (u : ccci_ccb_control_user) (buff : ccci_ccb_control_buff)
    (ul : buffer_header) (buffer_id i length : Z) : M Z :=
  let page := ccci_ccb_get_page ul (ul_pages buff) i in
  p ← page_get page;
  if negb (page_status p =? PAGE_STATUS_ALLOC) then mret (- EINVAL)
  else
    page_mod page (fun _ => PageHeader PAGE_STATUS_WRITE_DONE length);;
    _ ← write_done_loop (S (Z.to_nat (ul_page_num buff))) buff (write_index ul);
    config ← ccci_ccb_query_config (user_id u) buffer_id;
    match config with
    | None => phalt NullDeref
    | Some c =>
        '(ret, _) ← psys (Sys_ioctl (fd u) CCCI_IOC_SMEM_TX_NOTIFY (core_id c));
        mret (rv ret)
    end.

Definition ccci_ccb_write_done (buffer_id address length : Z) : M Z :=
  g ← pget;
  match user g with
  | None => mret (- EFAULT)
  | Some u =>
      if buffer_id >? buffer_num u then mret (- EINVAL)
      else
        buff ← buff_at u buffer_id;
        ul ← hdr_get (ul_header buff);
        if negb (md_ready ul) then mret (- EINVAL)
        else if length >? page_size ul then mret (- EINVAL)
        else
          let i := find_page ul (ul_pages buff) address (Z.to_nat (ul_page_num buff)) 0 in
          if i =? ul_page_num buff then mret (- EINVAL)
          else write_done_page u buff ul buffer_id i length
  end.

(** ** Downlink *)

Definition ccci_ccb_read_available (buff : ccci_ccb_control_buff) : M Z :=
  dl ← hdr_get (dl_header buff);
  let available := i32 (write_index dl - read_index dl) in
  mret (u32 (if available <? 0 then available + dl_page_num buff else available)).

(** One pass of [ccci_ccb_poll] over the buffers: the bits of those that have
    pages to read.  [1 << i] shifts an [int]. *)
Fixpoint poll_scan (u : ccci_ccb_control_user) (bitmask : Z) (n : nat) (i available : Z) : M Z :=
  match n with
  | O => mret available
  | S n' =>
      if i >=? 32 then phalt UndefShift
      else if has_bits bitmask (Z.shiftl 1 i) then
        buff ← buff_at u i;
        a ← ccci_ccb_read_available buff;
        poll_scan u bitmask n' (i + 1) (if a =? 0 then available else Z.lor available (Z.shiftl 1 i))
      else poll_scan u bitmask n' (i + 1) available
  end.

(** The [ioctl] waits for the modem and overwrites the mask. *)
Fixpoint ccci_ccb_poll (fuel : nat) (bitmask : Z) : M Z :=
  match fuel with
  | O => phalt NoFuel
  | S fuel' =>
      g ← pget;
      match user g with
      | None => mret (- EFAULT)
      | Some u =>
          available ← poll_scan u bitmask (Z.to_nat (buffer_num u)) 0 0;
          if available =? 0 then
            '(ret, bitmask) ← psys (Sys_ioctl (fd u) CCCI_IOC_SMEM_RX_POLL bitmask);
            if rv ret <? 0 then mret (if eno ret =? ENODEV then -2 else rv ret)
            else ccci_ccb_poll fuel' bitmask
          else mret (i32 available)
      end
  end.

(** The return value, and [*address] and [*length] where they are set. *)
Definition ccci_ccb_read_get (buffer_id : Z) : M (Z * option (Z * Z)) :=
  g ← pget;
  match user g with
  | None => mret (- EFAULT, None)
  | Some u =>
      if buffer_id >? buffer_num u then mret (- EINVAL, None)
      else
        buff ← buff_at u buffer_id;
        dl ← hdr_get (dl_header buff);
        if negb (guard_band_e dl =? TAIL_MAGIC_AFTER) then mret (- EINVAL, None)
        else
          available ← ccci_ccb_read_available buff;
          if available =? 0 then mret (- EAGAIN, Some (0, 0))
          else
            let page := ccci_ccb_get_page dl (dl_pages buff) (read_index dl) in
            p ← page_get page;
            if negb (page_status p =? PAGE_STATUS_WRITE_DONE) then mret (- EFAULT, None)
            else
              hdr_put (dl_header buff) (set_read (next_index (dl_page_num buff) (read_index dl)) dl);;
              mret (0, Some (page_buffer page, valid_length p))
  end.

Definition ccci_ccb_read_done (buffer_id : Z) : M Z :=
  g ← pget;
  match user g with
  | None => mret (- EFAULT)
  | Some u =>
      if buffer_id >? buffer_num u then mret (- EINVAL)
      else
        buff ← buff_at u buffer_id;
        dl ← hdr_get (dl_header buff);
        if negb (guard_band_e dl =? TAIL_MAGIC_AFTER) then mret (- EINVAL)
        else
          let free_index_tobe := u32 (free_index dl + 1) in
          let free_index_tobe := if free_index_tobe >=? dl_page_num buff then 0 else free_index_tobe in
          if negb (read_index dl =? free_index_tobe) then mret (- EFAULT)
          else
            hdr_put (dl_header buff) (set_free free_index_tobe dl);;
            mret 0
  end.

Definition ccci_ccb_read_flush (buffer_id : Z) : M Z :=
  g ← pget;
  match user g with
  | None => phalt NullDeref
  | Some u =>
      buff ← buff_at u buffer_id;
      dl ← hdr_get (dl_header buff);
      hdr_put (dl_header buff) (set_free (write_index dl) (set_read (write_index dl) dl));;
      mret 0
  end.

(** [ccci_ccb_get_config]; the page header size is a constant of the code. *)
Record ccci_ccb_size := CcbSize {
  ccb_page_header_size : Z; size_dl_page : Z; size_ul_page : Z; size_dl_buff : Z; size_ul_buff : Z
}.

Definition ccci_ccb_get_config (md_id user_id buffer_id : Z) : M (Z * option ccci_ccb_size) :=
  if negb (md_id =? MD_SYS1) then mret (- EINVAL, None)
  else
    ports ← ccb_ports;
    mret (match query_config_loop (ccb_index user_id) buffer_id 0 ports with
          | Some c => (0, Some (CcbSize 8 (dl_page_size c) (ul_page_size c) (dl_buff_size c) (ul_buff_size c)))
          | None => (- EFAULT, None)
          end).
End Ring.
