(* ===== verification/CcbSetup.v ===== *)
(** * ccci_lib: mapping, registration and initialisation of a CCB user

    [ccci_ccb_register] maps the control memory and the data memory of a user
    and lays the rings of its buffers out in them; [ccci_ccb_unregister] undoes
    it; [ccci_ccb_init_users], which the start-up daemon calls before the modem
    boots, writes the headers.  [junk] is what uninitialised memory holds. *)
From S2P Require Import Prelude Posix CcciIntf CcbTypes CcbRing.

Section Setup.
Context `{OS}.
Context (junk : Z -> list Z).
Abbreviation M := (prog ccb).

(** ** Mappings *)

(** The entries of [ccci_ccb_ports]: the driver replaces each. *)
Fixpoint get_configs (fd : Z) (n : nat) (i : Z) : M (list ccci_ccb_config) :=
  match n with
  | O => mret []
  | S n' =>
      '(_, c) ← psys (Sys_ioctl_ccb_config fd
        (CcbConfig i (le_value (junk 1)) (le_value (junk 4)) (le_value (junk 4))
           (le_value (junk 4)) (le_value (junk 4))));
      l ← get_configs fd n' (i + 1);
      mret (c :: l)
  end.

(** The descriptor or the error, [*ctrl_info] and [*address]. *)
Definition ccci_ccb_ctrl_get (info : ccb_ctrl_info) (address : Z) : M (Z * ccb_ctrl_info * Z) :=
  fd ← psys (Sys_open (lit "/dev/ccci_ccb_ctrl") O_RDWR 0);
  if rv fd <? 0 then mret (- ENODEV, info, address)
  else
    g ← pget;
    '(ret, len) ← psys (Sys_ioctl (rv fd) CCCI_IOC_GET_CCB_CONFIG_LENGTH (ccb_info_len g));
    pmod (set_info_len (u32 len));;
    if negb (rv ret =? 0) || (u32 len <=? 0) then
      _ ← psys (Sys_close (rv fd));
      mret (rv ret, info, address)
    else
      ok ← psys (Sys_malloc (sizeof_ccb_config * u32 len));
      if negb ok then phalt NullDeref
      else
        ports ← get_configs (rv fd) (Z.to_nat (u32 len)) 0;
        pmod (set_ports (Some ports));;
        '(ret, info) ← psys (Sys_ioctl_ccb_ctrl_info (rv fd) info);
        if negb (rv ret =? 0) then
          _ ← psys (Sys_close (rv fd));
          mret (rv ret, info, address)
        else
          addr ← psys (Sys_mmap_shared (ctrl_length info) (rv fd));
          match addr with
          | None => _ ← psys (Sys_close (rv fd)); mret (- EFAULT, info, MAP_FAILED)
          | Some a => mret (rv fd, info, a)
          end.

(** The descriptor or the error, [*address] and [*length]. *)
Definition ccci_smem_get (md_id user_id address length : Z) : M (Z * Z * Z) :=
  node ← ccci_get_node_name user_id md_id;
  let dev_port := take 31 (default (lit "(null)") node) in
  fd ← psys (Sys_open dev_port O_RDWR 0);
  if rv fd <? 0 then mret (- ENODEV, address, length)
  else
    '(ret, _) ← psys (Sys_ioctl (rv fd) CCCI_IOC_SMEM_BASE 0);
    if negb (rv ret =? 0) then
      _ ← psys (Sys_close (rv fd)); mret (rv ret, address, length)
    else
      '(ret, len) ← psys (Sys_ioctl (rv fd) CCCI_IOC_SMEM_LEN 0);
      if negb (rv ret =? 0) then
        _ ← psys (Sys_close (rv fd)); mret (rv ret, address, length)
      else
        a ← psys (Sys_mmap_shared (u32 len) (rv fd));
        match a with
        | None => _ ← psys (Sys_close (rv fd)); mret (- EFAULT, MAP_FAILED, u32 len)
        | Some a => mret (rv fd, a, u32 len)
        end.

Definition ccci_ccb_ctrl_put (fd address length : Z) : M Z :=
  if fd <? 0 then mret (- EINVAL)
  else
    _ ← psys (Sys_close fd);
    r ← psys (Sys_munmap address length);
    mret (rv r).

Definition ccci_smem_put (fd address length : Z) : M Z :=
  if fd <? 0 then mret (- EINVAL)
  else
    _ ← psys (Sys_close fd);
    r ← psys (Sys_munmap address length);
    mret (rv r).

(** ** Initialisation of the headers *)

Definition fresh_header (page_size data_buffer_size : Z) : buffer_header :=
  BufferHeader 0 0 0 0 0 page_size data_buffer_size TAIL_MAGIC_BEFORE.

(** The loop over the configurations: [ptr] moves by the two headers of each
    buffer of the user. *)
Fixpoint init_headers (index ptr : Z) (ports : list ccci_ccb_config) : M unit :=
  match ports with
  | [] => mret tt
  | c :: ports' =>
      if negb (cfg_user_id c =? index) then init_headers index ptr ports'
      else
        hdr_put ptr (fresh_header (dl_page_size c) (dl_buff_size c));;
        hdr_put (ptr + sizeof_buffer_header) (fresh_header (ul_page_size c) (ul_buff_size c));;
        init_headers index (ptr + 2 * sizeof_buffer_header) ports'
  end.

Definition ccci_ccb_init_user (md_id user_id : Z) : M Z :=
  if negb (md_id =? MD_SYS1) then mret (- EINVAL)
  else
    let j := le_value (junk 4) in
    '(ctrl_fd, info, base) ← ccci_ccb_ctrl_get (CtrlInfo (ccb_index user_id) j j j) 0;
    ret ← (if ctrl_fd <? 0 then mret (- ENODEV)
           else
             let ptr := base + ctrl_offset info * sizeof_buffer_header * 2 in
             ports ← ccb_ports;
             init_headers (ccb_index user_id) ptr ports;;
             mret 0);
    _ ← ccci_ccb_ctrl_put ctrl_fd base (ctrl_length info);
    mret ret.

Definition ccci_ccb_init_users (md_id : Z) : M Z :=
  _ ← ccci_ccb_init_user md_id USR_SMEM_CCB_DHL;
  _ ← ccci_ccb_init_user md_id USR_SMEM_CCB_MD_MONITOR;
  _ ← ccci_ccb_init_user md_id USR_SMEM_CCB_META;
  mret 0.

Definition ccci_ccb_check_users (md_id : Z) : M Z := mret 0.

(** ** Unregistration *)

(** The tails of the headers; the loop stops at a buffer without headers. *)
Fixpoint unregister_loop (l : list ccci_ccb_control_buff) : M unit :=
  match l with
  | [] => mret tt
  | b :: l' =>
      if negb (dl_header b =? 0) && negb (ul_header b =? 0) then
        hdr_mod (dl_header b) (set_guard_e TAIL_MAGIC_BEFORE);;
        hdr_mod (ul_header b) (set_guard_e TAIL_MAGIC_BEFORE);;
        unregister_loop l'
      else mret tt
  end.

Definition ccci_ccb_unregister : M Z :=
  g ← pget;
  match user g with
  | None => mret (- EFAULT)
  | Some u =>
      (match buffers u with
       | Some l => unregister_loop (take (Z.to_nat (buffer_num u)) l)
       | None => mret tt
       end);;
      ret ← (if fd u >=? 0 then ccci_smem_put (fd u) (base_address u) (total_length u) else mret 0);
      (if ctrl_fd u >=? 0 then
         _ ← ccci_ccb_ctrl_put (ctrl_fd u) (ctrl_base_address u) (ctrl_length (ctrl_info u)); mret tt
       else mret tt);;
      pmod (set_user None);;
      mret ret
  end.

(** ** Registration *)

(** Updates of the structure behind [user]. *)
Definition upd_user (f : ccci_ccb_control_user -> ccci_ccb_control_user) : M ccci_ccb_control_user :=
  g ← pget;
  match user g with
  | None => phalt NullDeref
  | Some u => pmod (set_user (Some (f u)));; mret (f u)
  end.

Definition set_smem (fd address length : Z) (u : ccci_ccb_control_user) : ccci_ccb_control_user :=
  ControlUser (user_id u) (ctrl_info u) (ctrl_base_address u) (buffer_num u) address length fd
    (ctrl_fd u) (buffers u).
Definition set_ctrl (fd : Z) (info : ccb_ctrl_info) (address : Z) (u : ccci_ccb_control_user)
    : ccci_ccb_control_user :=
  ControlUser (user_id u) info address (buffer_num u) (base_address u) (total_length u)
    (CcbTypes.fd u) fd (buffers u).
Definition set_buffers (n : Z) (l : option (list ccci_ccb_control_buff)) (u : ccci_ccb_control_user)
    : ccci_ccb_control_user :=
  ControlUser (user_id u) (ctrl_info u) (ctrl_base_address u) n (base_address u) (total_length u)
    (fd u) (ctrl_fd u) l.
Definition set_buff (i : Z) (b : ccci_ccb_control_buff) (u : ccci_ccb_control_user)
    : ccci_ccb_control_user :=
  set_buffers (buffer_num u) ((fun l => <[Z.to_nat i := b]> l) <$> buffers u) u.
Definition set_user_id (id : Z) (u : ccci_ccb_control_user) : ccci_ccb_control_user :=
  ControlUser id (ctrl_info u) (ctrl_base_address u) (buffer_num u) (base_address u)
    (total_length u) (fd u) (ctrl_fd u) (buffers u).

Definition user_zero : ccci_ccb_control_user :=
  ControlUser 0 (CtrlInfo 0 0 0 0) 0 0 0 0 (-1) (-1) None.

(** An integer division of the code. *)
Definition pdiv (a b : Z) : M Z := if b =? 0 then phalt DivZero else mret (a / b).

(** One buffer: [ptr] is its downlink header, [data] its downlink pages;
    [false] is the early return. *)
Definition register_buffer (i ptr data : Z) : M (bool * Z) :=
  _ ← upd_user (set_buff i (ControlBuff 0 0 ptr 0 0 0));
  _ ← ccci_ccb_read_flush i;
  hdr_mod ptr (fun h => set_free (read_index h) h);;
  dl ← hdr_get ptr;
  if guard_band dl =? 0 then mret (false, data)
  else
    dl_num ← pdiv (data_buffer_size dl) (page_size dl);
    hdr_put ptr (set_guard_e TAIL_MAGIC_AFTER dl);;
    let ul_ptr := ptr + sizeof_buffer_header in
    let ul_data := data + data_buffer_size dl in
    _ ← upd_user (set_buff i (ControlBuff dl_num 0 ptr ul_ptr data 0));
    hdr_mod ul_ptr (fun h => set_allocate (write_index h) h);;
    ul ← hdr_get ul_ptr;
    if guard_band ul =? 0 then mret (false, ul_data)
    else
      ul_num ← pdiv (data_buffer_size ul) (page_size ul);
      hdr_put ul_ptr (set_guard_e TAIL_MAGIC_AFTER ul);;
      _ ← upd_user (set_buff i (ControlBuff dl_num ul_num ptr ul_ptr data ul_data));
      mret (true, ul_data + data_buffer_size ul).

Fixpoint register_buffers (n : nat) (i ptr data : Z) : M bool :=
  match n with
  | O => mret true
  | S n' =>
      '(ok, data') ← register_buffer i ptr data;
      if ok : bool then register_buffers n' (i + 1) (ptr + 2 * sizeof_buffer_header) data'
      else mret false
  end.

(** The buffers the configuration has for the user. *)
Definition count_buffers (index : Z) (ports : list ccci_ccb_config) : Z :=
  zlen (List.filter (fun c => cfg_user_id c =? index) ports).

(** A failure after the structure exists. *)
Definition register_fail (error : Z) : M Z := _ ← ccci_ccb_unregister; mret error.

Definition ccci_ccb_register (md_id user_id : Z) : M Z :=
  if negb (md_id =? MD_SYS1) then mret (- EINVAL)
  else
    _ ← ccci_ccb_unregister;
    ok ← psys (Sys_malloc sizeof_control_user);
    if negb ok then mret (- EFAULT)
    else
      pmod (set_user (Some user_zero));;
      '(sfd, address, length) ← ccci_smem_get md_id user_id 0 0;
      u ← upd_user (set_smem sfd address length);
      if fd u <? 0 then pmod (set_user None);; mret (- ENODEV)
      else
        '(_, data) ← psys (Sys_ioctl (fd u) CCCI_IOC_SMEM_GET_STATE 255);
        if negb (data =? CCB_USER_OK) then register_fail (- EINVAL)
        else
          '(cfd, info, base) ← ccci_ccb_ctrl_get (CtrlInfo (ccb_index user_id) 0 0 0) 0;
          u ← upd_user (set_ctrl cfd info base);
          if ctrl_fd u <? 0 then register_fail (- ENODEV)
          else
            ports ← ccb_ports;
            let n := count_buffers (ccb_index user_id) ports in
            u ← upd_user (set_buffers n None);
            if n =? 0 then register_fail (- EINVAL)
            else
              ok ← psys (Sys_malloc (sizeof_control_buff * n));
              if negb ok then register_fail (- EFAULT)
              else
                _ ← upd_user (set_buffers n (Some (replicate (Z.to_nat n) buff_zero)));
                u ← upd_user (set_user_id user_id);
                let ptr := ctrl_base_address u + ctrl_offset (ctrl_info u) * sizeof_buffer_header * 2 in
                ok ← register_buffers (Z.to_nat n) 0 ptr (base_address u);
                if negb ok then register_fail (- EFAULT) else mret n.

(** ** Support *)

Definition ccci_get_ccb_support (usr_id md_id : Z) : M Z :=
  if negb (md_id =? MD_SYS1) then mret 0
  else
    node ← ccci_get_node_name usr_id md_id;
    let dev_port := take 31 (default (lit "(null)") node) in
    if (usr_id =? USR_SMEM_CCB_DHL) || (usr_id =? USR_SMEM_CCB_MD_MONITOR) || (usr_id =? USR_SMEM_CCB_META)
    then
      '(ret, _) ← psys (Sys_stat dev_port);
      mret (if rv ret <? 0 then 0 else usr_id - CCB_START_INDEX + 1)
    else mret 0.
End Setup.
