(* ===== verification/CcbDemo.v ===== *)
(** * ccci_lib: a concrete ring

    A driver with one buffer for the first CCB user, four downlink and
    four uplink pages of 64 bytes, and a modem that takes out what is published:
    what the witnesses run on. *)
From S2P Require Import Prelude Posix CcciIntf MemFs RingSeg CcbTypes CcbRing CcbSetup.

(** The in-memory environment with a CCB driver. *)
Definition ccb_do {T} (c : sys T) (s : memfs) : memfs * T :=
  match c in sys T return memfs * T with
  | Sys_open _ _ _ => (set_next (next_fd s + 1) s, ok (next_fd s))
  | Sys_ioctl _ CCCI_IOC_GET_CCB_CONFIG_LENGTH _ => (s, (ok 0, 1))
  | Sys_ioctl _ CCCI_IOC_SMEM_GET_STATE _ => (s, (ok 0, CCB_USER_OK))
  | Sys_ioctl _ CCCI_IOC_SMEM_LEN _ => (s, (ok 0, 512))
  | Sys_ioctl_ccb_config _ cfg => (s, (ok 0, CcbConfig 0 1 64 64 256 256))
  | Sys_ioctl_ccb_ctrl_info _ info => (s, (ok 0, CtrlInfo 0 0 4096 64))
  | Sys_mmap_shared len _ => (s, Some (if len =? 64 then 4096 else 8192))
  | c => memfs_do c s
  end.

Definition CcbOS : OS := {| os_st := memfs; os_do := @ccb_do |}.

Definition ccb_world (g : ccb) : @world CcbOS ccb := @World CcbOS ccb memfs_empty [] ∅ 1 g.

(** Control memory at address 4096, with two headers as the modem leaves them,
    and data memory at 8192, with the headers of the pages. *)
Definition demo_header (size : Z) : buffer_header :=
  BufferHeader HEADER_MAGIC_AFTER 0 0 0 0 64 size TAIL_MAGIC_BEFORE.

Definition demo_ccb : ccb :=
  Ccb None 0 None {[4096 := demo_header 256; 4128 := demo_header 256]}
    (list_to_map ((fun i => (8192 + 64 * i, PageHeader PAGE_STATUS_INIT 0)) <$> seqZ 0 8)).

(** The modem takes the oldest published page of the ring with header [p]. *)
Definition modem_take (p base n : Z) (g : ccb) : option ccb :=
  ul ← headers g !! p;
  if free_index ul =? write_index ul then None
  else Some (set_headers (<[p := set_free (next n (free_index ul)) (set_read (next n (free_index ul)) ul)]> (headers g))
              (set_pages (<[base + page_size ul * free_index ul := PageHeader PAGE_STATUS_INIT 0]> (pages g)) g)).

(** The modem fills the next page of the ring with header [p] with a message of
    [len] bytes. *)
Definition modem_fill (p base n len : Z) (g : ccb) : option ccb :=
  dl ← headers g !! p;
  if dist n (free_index dl) (write_index dl) <? n - 1 then
    Some (set_headers (<[p := set_write (next n (write_index dl)) dl]> (headers g))
            (set_pages (<[base + page_size dl * write_index dl := PageHeader PAGE_STATUS_WRITE_DONE len]> (pages g)) g))
  else None.

(** The ring after its registration. *)
Definition demo_registered : @world CcbOS ccb :=
  (@ccci_ccb_register CcbOS (fun _ => []) MD_SYS1 USR_SMEM_CCB_DHL (ccb_world demo_ccb)).1.

Definition demo_buff : ccci_ccb_control_buff := ControlBuff 4 4 4096 4128 8192 8448.
Definition demo_ul : buffer_header :=
  BufferHeader HEADER_MAGIC_AFTER 0 0 0 0 64 256 TAIL_MAGIC_AFTER.
Definition demo_user : ccci_ccb_control_user :=
  ControlUser USR_SMEM_CCB_DHL (CtrlInfo 0 0 4096 64) 4096 1 8192 512 4 5 (Some [demo_buff]).
Definition demo_dl : buffer_header := demo_ul.

Definition demo_modem (g g' : ccb) : Prop := modem_take 4128 8448 4 g = Some g'.

Definition demo_modem_dl (g g' : ccb) : Prop := modem_fill 4096 8192 4 9 g = Some g'.
