(* ===== verification/CcbQueue.v ===== *)
(** * ccci_lib: the uplink ring is a first-in first-out queue

    The specification: a queue of published messages and, behind it, the
    messages under construction in the order they were allocated.  A message is
    published when it and all before it are committed, in whatever order the
    commits come.  [uplink] is the invariant of a ring in shared memory and
    [ring_queue] the queue it stands for; the operations of CcbRing.v refine the
    steps of the queue ([write_alloc_refines], [write_done_refines]), and so
    does everything the modem does that only releases published pages. *)
From S2P Require Import Prelude Posix CcciIntf RingSeg CcbTypes CcbRing CcbSetup CcbDemo.

(** ** The queue *)

(** A message is the address of its payload and its length; one under
    construction has no length until it is committed. *)
Record queue := Queue {
  released : list (Z * Z);          (** taken out by the modem, oldest first *)
  published : list (Z * Z);
  pending : list (Z * option Z)
}.

(** The committed messages at the front of the pending ones. *)
Fixpoint settle (l : list (Z * option Z)) : list (Z * Z) * list (Z * option Z) :=
  match l with
  | (a, Some len) :: l' => let '(d, r) := settle l' in ((a, len) :: d, r)
  | _ => ([], l)
  end.

Inductive label :=
| Alloc (a : Z)
| AllocNone
| Commit (a len : Z)
| Reject (a len : Z)
| Release.

(** The steps of a queue of at most [cap] messages of at most [maxlen] bytes. *)
Inductive q_step (cap maxlen : Z) : queue -> label -> queue -> Prop :=
| q_alloc t p d a :
    zlen p + zlen d < cap -> a ∉ p.*1 ++ d.*1 ->
    q_step cap maxlen (Queue t p d) (Alloc a) (Queue t p (d ++ [(a, None)]))
| q_full t p d :
    zlen p + zlen d = cap -> q_step cap maxlen (Queue t p d) AllocNone (Queue t p d)
| q_commit t p d a len k done rest :
    d !! k = Some (a, None) -> len <= maxlen -> settle (<[k := (a, Some len)]> d) = (done, rest) ->
    q_step cap maxlen (Queue t p d) (Commit a len) (Queue t (p ++ done) rest)
| q_reject t p d a len :
    (a, None) ∉ d \/ maxlen < len -> q_step cap maxlen (Queue t p d) (Reject a len) (Queue t p d)
| q_release t x p d :
    q_step cap maxlen (Queue t (x :: p) d) Release (Queue (t ++ [x]) p d).

Inductive q_run (cap maxlen : Z) : queue -> list label -> queue -> Prop :=
| q_nil q : q_run cap maxlen q [] q
| q_snoc q ls q' l q'' :
    q_run cap maxlen q ls q' -> q_step cap maxlen q' l q'' -> q_run cap maxlen q (ls ++ [l]) q''.

Definition alloc_of (l : label) : option Z := match l with Alloc a => Some a | _ => None end.

Lemma settle_app l : forall done rest, settle l = (done, rest) ->
  done.*1 ++ rest.*1 = l.*1 /\
  (forall a len, (a, len) ∈ done -> (a, Some len) ∈ l).
Proof.
  induction l as [|[a [len|]] l IH]; simpl; intros done rest Hs.
  - injection Hs as <- <-. split; [done|]. intros ? ? []%elem_of_nil.
  - destruct (settle l) as [d r] eqn:E. injection Hs as <- <-.
    destruct (IH d r eq_refl) as [Hf Hc]. split; [rewrite !fmap_cons; cbn [app]; f_equal; exact Hf|].
    intros a' len' [[= -> ->]|Hin]%elem_of_cons; [by left|right; by apply Hc].
  - injection Hs as <- <-. split; [done|]. intros ? ? []%elem_of_nil.
Qed.

Lemma settle_rest_in l : forall done rest x, settle l = (done, rest) -> x ∈ rest -> x ∈ l.
Proof.
  induction l as [|[a [len|]] l IH]; simpl; intros done rest x Hs Hx.
  - by injection Hs as <- <-.
  - destruct (settle l) as [d r] eqn:E. injection Hs as <- <-. right. by eapply IH.
  - by injection Hs as <- <-.
Qed.

Lemma elem_insert_inv {A} (x y : A) (k : nat) (l : list A) : x ∈ <[k := y]> l -> x = y \/ x ∈ l.
Proof.
  revert k. induction l as [|z l IH]; intros [|k]; simpl; intros Hin; try by right.
  - apply elem_of_cons in Hin as [->|Hin]; [by left|right; by right].
  - apply elem_of_cons in Hin as [->|Hin]; [right; by left|].
    destruct (IH _ Hin); [by left|right; by right].
Qed.

(** Along a run the queue is the list of the allocated messages, in order, and
    what is published was committed with that length. *)
Definition accounted (q : queue) (ls : list label) : Prop :=
  (released q ++ published q).*1 ++ (pending q).*1 = omap alloc_of ls /\
  (forall a len, (a, len) ∈ released q ++ published q -> Commit a len ∈ ls) /\
  (forall a len, (a, Some len) ∈ pending q -> Commit a len ∈ ls).

Lemma accounted_step cap maxlen q l q' ls :
  q_step cap maxlen q l q' -> accounted q ls -> accounted q' (ls ++ [l]).
Proof.
  intros Hstep (Ha & Hp & Hc).
  assert (forall a len, Commit a len ∈ ls -> Commit a len ∈ ls ++ [l]) as Hmono
    by (intros; apply elem_of_app; by left).
  unfold accounted. rewrite omap_app.
  destruct Hstep as [t p d a Hlt Hin|t p d Hfull|t p d a len k done rest Hk Hlen Hs|t p d a len Hr|t x p d];
    cbn [released published pending omap list_omap alloc_of] in *; rewrite ?app_nil_r.
  - rewrite (fmap_app fst d), app_assoc, Ha. split_and!; [done|by auto|].
    intros a' len' [Hin'|[= ]%list_elem_of_singleton]%elem_of_app. by auto.
  - split_and!; auto.
  - destruct (settle_app _ _ _ Hs) as [Hf Hd]. split_and!.
    + rewrite app_assoc, !fmap_app, <- app_assoc, Hf, list_fmap_insert, <- fmap_app. simpl.
      rewrite list_insert_id; [done|]. rewrite list_lookup_fmap, Hk. done.
    + intros a' len' Hin. rewrite app_assoc in Hin. apply elem_of_app in Hin as [Hin|Hin]; [by auto|].
      apply Hd, elem_insert_inv in Hin as [[= -> ->]|Hin]; [|by auto].
      apply elem_of_app. right. by apply list_elem_of_singleton.
    + intros a' len' Hin. eapply settle_rest_in in Hin; [|done].
      apply elem_insert_inv in Hin as [[= -> ->]|Hin]; [|by auto].
      apply elem_of_app. right. by apply list_elem_of_singleton.
  - split_and!; auto.
  - rewrite <- (app_assoc t [x] p). split_and!; [done|by auto|by auto].
Qed.

Lemma accounted_run cap maxlen q ls q' :
  q_run cap maxlen q ls q' -> q = Queue [] [] [] -> accounted q' ls.
Proof.
  induction 1 as [q|q ls q' l q'' _ IH Hstep]; intros ->.
  - unfold accounted. simpl. split_and!; [done| |]; intros ? ? []%elem_of_nil.
  - eapply accounted_step; [done|]. by apply IH.
Qed.

(** ** The ring *)

Definition slot (ps base i : Z) : Z := base + ps * i.

Lemma slot_inj ps base i j : 0 < ps -> slot ps base i = slot ps base j -> i = j.
Proof. unfold slot. nia. Qed.

(** Pages of [ps] bytes from [base] on, [n] of them, that 32-bit offsets reach. *)
Definition layout (ps base n : Z) : Prop :=
  0 < base /\ sizeof_page_header <= ps /\ 0 < n /\ ps * n < 2 ^ 32.

Lemma get_page_slot ul base n i :
  layout (page_size ul) base n -> 0 <= i < n ->
  ccci_ccb_get_page ul base i = slot (page_size ul) base i.
Proof.
  unfold layout, sizeof_page_header. intros (? & ? & ? & ?) Hi.
  unfold ccci_ccb_get_page, slot. rewrite u32_small; [done|]. nia.
Qed.

Lemma layout_small ps base n : layout ps base n -> 0 < n < 2 ^ 32.
Proof. unfold layout, sizeof_page_header. intros (? & ? & ? & ?). nia. Qed.

Lemma next_index_next n i : 0 <= i < n -> n < 2 ^ 32 -> next_index n i = next n i.
Proof. intros. unfold next_index, next. by rewrite u32_small by lia. Qed.

(** The message of a page: published, and under construction. *)
Definition message (ps base : Z) (st : gmap Z page_header) (i : Z) : Z * Z :=
  (page_buffer (slot ps base i), default 0 (valid_length <$> st !! slot ps base i)).

Definition draft (ps base : Z) (st : gmap Z page_header) (i : Z) : Z * option Z :=
  (page_buffer (slot ps base i),
   p ← st !! slot ps base i;
   if page_status p =? PAGE_STATUS_WRITE_DONE then Some (valid_length p) else None).

(** [uplink g id u b ul]: [u] is registered with a buffer [b] number [id], whose
    uplink ring, with the header [ul], is well formed: the indices are in the
    ring in the order free, write, allocate; the pages exist; exactly the ones
    between the write and the allocate index are allocated or committed, the
    rest is neither; what could be published is. *)
Record uplink (g : ccb) (id : Z) (u : ccci_ccb_control_user) (b : ccci_ccb_control_buff)
    (ul : buffer_header) : Prop := {
  up_user : user g = Some u;
  up_id : 0 <= id < buffer_num u;
  up_buff : exists l, buffers u = Some l /\ l !! Z.to_nat id = Some b;
  up_hdr : ul_header b <> 0 /\ headers g !! ul_header b = Some ul;
  up_ready : md_ready ul = true;
  up_layout : layout (page_size ul) (ul_pages b) (ul_page_num b);
  up_free : 0 <= free_index ul < ul_page_num b;
  up_write : 0 <= write_index ul < ul_page_num b;
  up_alloc : 0 <= allocate_index ul < ul_page_num b;
  up_order : dist (ul_page_num b) (free_index ul) (write_index ul)
             <= dist (ul_page_num b) (free_index ul) (allocate_index ul);
  up_pages : forall i, 0 <= i < ul_page_num b ->
    is_Some (pages g !! slot (page_size ul) (ul_pages b) i);
  up_pending : forall i p, i ∈ between (ul_page_num b) (write_index ul) (allocate_index ul) ->
    pages g !! slot (page_size ul) (ul_pages b) i = Some p ->
    page_status p = PAGE_STATUS_ALLOC \/ page_status p = PAGE_STATUS_WRITE_DONE;
  up_head : forall p, write_index ul <> allocate_index ul ->
    pages g !! slot (page_size ul) (ul_pages b) (write_index ul) = Some p ->
    page_status p <> PAGE_STATUS_WRITE_DONE;
  up_rest : forall i p, 0 <= i < ul_page_num b ->
    i ∉ between (ul_page_num b) (write_index ul) (allocate_index ul) ->
    pages g !! slot (page_size ul) (ul_pages b) i = Some p ->
    page_status p <> PAGE_STATUS_ALLOC;
  up_config : exists ports c, ccb_info_len g <> 0 /\ ccci_ccb_ports g = Some ports /\
    0 <= ccb_info_len g <= zlen ports /\
    query_config_loop (ccb_index (user_id u)) id 0 (take (Z.to_nat (ccb_info_len g)) ports) = Some c
}.

(** The queue of a ring, after the messages [taken] earlier. *)
Definition ring_queue (taken : list (Z * Z)) (g : ccb) (b : ccci_ccb_control_buff)
    (ul : buffer_header) : queue :=
  Queue taken
    (message (page_size ul) (ul_pages b) (pages g)
       <$> between (ul_page_num b) (free_index ul) (write_index ul))
    (draft (page_size ul) (ul_pages b) (pages g)
       <$> between (ul_page_num b) (write_index ul) (allocate_index ul)).

(** The pages of the ring that hold messages. *)
Lemma ring_queue_length taken g id u b ul :
  uplink g id u b ul ->
  zlen (published (ring_queue taken g b ul)) + zlen (pending (ring_queue taken g b ul)) =
  dist (ul_page_num b) (free_index ul) (allocate_index ul).
Proof.
  intros Hu. destruct Hu. simpl. unfold zlen. rewrite !length_fmap.
  fold (zlen (between (ul_page_num b) (free_index ul) (write_index ul))).
  fold (zlen (between (ul_page_num b) (write_index ul) (allocate_index ul))).
  rewrite !length_between by done. rewrite (dist_split _ (free_index ul) (write_index ul)) by done. lia.
Qed.

(** The formula of the code for the room left. *)
Lemma write_available_eq n ul :
  0 <= free_index ul < n -> 0 <= allocate_index ul < n -> n < 2 ^ 32 ->
  write_available n ul = n - 1 - dist n (free_index ul) (allocate_index ul).
Proof.
  intros Hf Ha Hn. unfold write_available, dist.
  destruct (Z.eqb_spec (allocate_index ul) (free_index ul)) as [->|Hne].
  - rewrite (proj2 (Z.leb_le _ _)) by lia. rewrite u32_small; lia.
  - rewrite Z.gtb_ltb. destruct (Z.ltb_spec (free_index ul) (allocate_index ul)), (Z.leb_spec (free_index ul) (allocate_index ul));
      try lia; rewrite u32_small; lia.
Qed.

(** Changing one page does not change the messages of the others. *)
Lemma message_insert ps base st i p (l : list Z) :
  0 < ps -> i ∉ l -> message ps base (<[slot ps base i := p]> st) <$> l = message ps base st <$> l.
Proof.
  intros Hps Hi. apply list_fmap_ext. intros k j Hj. unfold message.
  rewrite lookup_insert_ne; [done|]. intros Heq%slot_inj; [|done]. subst j.
  by apply Hi, (list_elem_of_lookup_2 _ k).
Qed.

Lemma draft_insert ps base st i p (l : list Z) :
  0 < ps -> i ∉ l -> draft ps base (<[slot ps base i := p]> st) <$> l = draft ps base st <$> l.
Proof.
  intros Hps Hi. apply list_fmap_ext. intros k j Hj. unfold draft.
  rewrite lookup_insert_ne; [done|]. intros Heq%slot_inj; [|done]. subst j.
  by apply Hi, (list_elem_of_lookup_2 _ k).
Qed.

(** *** Allocation *)

Definition alloc_glob (g : ccb) (b : ccci_ccb_control_buff) (ul : buffer_header) : ccb :=
  let page := slot (page_size ul) (ul_pages b) (allocate_index ul) in
  let p := default (PageHeader 0 0) (pages g !! page) in
  set_headers (<[ul_header b := set_allocate (next (ul_page_num b) (allocate_index ul)) ul]> (headers g))
    (set_pages (<[page := PageHeader PAGE_STATUS_ALLOC (valid_length p)]> (pages g)) g).

Lemma layout_pos ps base n : layout ps base n -> 0 < ps.
Proof. unfold layout, sizeof_page_header. lia. Qed.

Section AllocRing.
Context (g : ccb) (id : Z) (u : ccci_ccb_control_user) (b : ccci_ccb_control_buff) (ul : buffer_header).
Context (Hup : uplink g id u b ul).
Context (Hroom : dist (ul_page_num b) (free_index ul) (allocate_index ul) < ul_page_num b - 1).
Abbreviation n := (ul_page_num b).
Abbreviation ul' := (set_allocate (next n (allocate_index ul)) ul).

Lemma alloc_not_held :
  (allocate_index ul ∉ between n (free_index ul) (write_index ul)) /\
  (allocate_index ul ∉ between n (write_index ul) (allocate_index ul)).
Proof.
  destruct Hup. rewrite !elem_between by done. rewrite (dist_split n (free_index ul) (write_index ul)) by done. lia.
Qed.

Lemma dist_write_alloc : dist n (write_index ul) (allocate_index ul) < n - 1.
Proof.
  destruct Hup. pose proof (dist_range n _ _ up_free0 up_write0).
  rewrite (dist_split n (free_index ul) (write_index ul)) by done. lia.
Qed.

Lemma pending_alloc :
  between n (write_index ul) (next n (allocate_index ul)) =
  between n (write_index ul) (allocate_index ul) ++ [allocate_index ul].
Proof. destruct Hup. apply between_snoc; [done|done|]. apply dist_write_alloc. Qed.

Lemma alloc_queue taken :
  ring_queue taken (alloc_glob g b ul) b ul' =
  let q := ring_queue taken g b ul in
  Queue (released q) (published q)
    (pending q ++ [(page_buffer (slot (page_size ul) (ul_pages b) (allocate_index ul)), None)]).
Proof.
  destruct alloc_not_held as [Hn1 Hn2]. destruct Hup. pose proof (layout_pos _ _ _ up_layout0).
  unfold ring_queue, alloc_glob. cbn [page_size set_allocate free_index write_index allocate_index
    pages set_pages set_headers released published pending].
  rewrite pending_alloc, fmap_app. rewrite message_insert, draft_insert by done.
  do 2 f_equal. cbn [fmap list_fmap]. unfold draft. by rewrite lookup_insert_eq.
Qed.

Lemma alloc_uplink : uplink (alloc_glob g b ul) id u b ul'.
Proof.
  destruct alloc_not_held as [Hn1 Hn2]. pose proof pending_alloc as Hpend. pose proof Hup as Hup'.
  destruct Hup'. pose proof (layout_pos _ _ _ up_layout0) as Hps.
  assert (forall i, i <> allocate_index ul ->
    pages (alloc_glob g b ul) !! slot (page_size ul) (ul_pages b) i =
    pages g !! slot (page_size ul) (ul_pages b) i) as Hother.
  { intros i Hi. unfold alloc_glob. cbn [pages set_pages set_headers]. rewrite lookup_insert_ne; [done|].
    intros Heq%slot_inj; [|done]. congruence. }
  assert (exists v, pages (alloc_glob g b ul) !! slot (page_size ul) (ul_pages b) (allocate_index ul) =
    Some (PageHeader PAGE_STATUS_ALLOC v)) as [v Hat].
  { unfold alloc_glob. cbn [pages set_pages set_headers]. rewrite lookup_insert_eq. by eexists. }
  constructor; cbn [page_size set_allocate free_index write_index allocate_index]; try done.
  - split; [apply up_hdr0|]. unfold alloc_glob. cbn [headers set_headers]. by rewrite lookup_insert_eq.
  - by apply next_range.
  - rewrite dist_next_r by done. lia.
  - intros i Hi. destruct (decide (i = allocate_index ul)) as [->|Hne]; [by rewrite Hat|].
    rewrite Hother by done. by apply up_pages0.
  - intros i p Hi Hp. rewrite Hpend in Hi. apply elem_of_app in Hi as [Hi| ->%list_elem_of_singleton].
    + assert (i <> allocate_index ul) by (by intros ->). rewrite Hother in Hp by done. by eapply up_pending0.
    + rewrite Hat in Hp. injection Hp as <-. by left.
  - intros p Hne Hp. destruct (decide (write_index ul = allocate_index ul)) as [Heq|Hne'].
    + rewrite Heq, Hat in Hp. by injection Hp as <-.
    + rewrite Hother in Hp by done. by apply up_head0.
  - intros i p Hi Hin Hp. rewrite Hpend in Hin. rewrite not_elem_of_app, list_elem_of_singleton in Hin.
    destruct Hin as [Hin Hne]. rewrite Hother in Hp by done. by apply (up_rest0 i).
Qed.
End AllocRing.

(** *** Symbolic execution of the accesses *)

Definition put_hdr (p : Z) (h : buffer_header) (g : ccb) : ccb :=
  set_headers (<[p := h]> (headers g)) g.
Definition put_page (p : Z) (h : page_header) (g : ccb) : ccb :=
  set_pages (<[p := h]> (pages g)) g.

Lemma put_hdr_id p h g : headers g !! p = Some h -> put_hdr p h g = g.
Proof. intros Hh. unfold put_hdr, set_headers. rewrite insert_id by done. by destruct g. Qed.

Lemma put_hdr_twice p h h' g : put_hdr p h (put_hdr p h' g) = put_hdr p h g.
Proof. unfold put_hdr, set_headers. simpl. by rewrite insert_insert_eq. Qed.

Section Runs.
Context `{OS}.
Abbreviation W := (world ccb).

Lemma set_glob_id (w : W) : set_glob (w_glob w) w = w.
Proof. by destruct w. Qed.

Lemma hdr_get_run p h (w : W) : p <> 0 -> headers (w_glob w) !! p = Some h -> hdr_get p w = (w, Ok h).
Proof.
  intros Hp Hh. unfold hdr_get. destruct (Z.eqb_spec p 0); [done|].
  rewrite (bind_ok _ _ w w (w_glob w)) by done. by rewrite Hh.
Qed.

Lemma hdr_put_run p h h0 (w : W) :
  p <> 0 -> headers (w_glob w) !! p = Some h0 ->
  hdr_put p h w = (set_glob (put_hdr p h (w_glob w)) w, Ok tt).
Proof. intros Hp Hh. unfold hdr_put. by rewrite (bind_ok _ _ _ _ _ (hdr_get_run p h0 w Hp Hh)). Qed.

Lemma page_get_run p h (w : W) : pages (w_glob w) !! p = Some h -> page_get p w = (w, Ok h).
Proof. intros Hh. unfold page_get. rewrite (bind_ok _ _ w w (w_glob w)) by done. by rewrite Hh. Qed.

Lemma page_mod_run p f h (w : W) :
  pages (w_glob w) !! p = Some h -> page_mod p f w = (set_glob (put_page p (f h) (w_glob w)) w, Ok tt).
Proof. intros Hh. unfold page_mod. by rewrite (bind_ok _ _ _ _ _ (page_get_run p h w Hh)). Qed.

Lemma buff_at_run u l id b (w : W) :
  buffers u = Some l -> l !! Z.to_nat id = Some b -> buff_at u id w = (w, Ok b).
Proof. intros Hl Hb. unfold buff_at. by rewrite Hl, Hb. Qed.

Lemma pget_run (w : W) : pget w = (w, Ok (w_glob w)).
Proof. done. Qed.

(** *** Committing *)

(** The write index stops at the first page that is not committed; what it
    passes is what settles. *)
Lemma write_done_loop_run b fuel : forall ul (w : W),
  ul_header b <> 0 -> headers (w_glob w) !! ul_header b = Some ul ->
  layout (page_size ul) (ul_pages b) (ul_page_num b) ->
  0 <= write_index ul < ul_page_num b -> 0 <= allocate_index ul < ul_page_num b ->
  (forall i, 0 <= i < ul_page_num b -> is_Some (pages (w_glob w) !! slot (page_size ul) (ul_pages b) i)) ->
  dist (ul_page_num b) (write_index ul) (allocate_index ul) < Z.of_nat fuel ->
  exists wi, write_done_loop fuel b (write_index ul) w =
      (set_glob (put_hdr (ul_header b) (set_write wi ul) (w_glob w)) w, Ok wi) /\
    0 <= wi < ul_page_num b /\
    dist (ul_page_num b) (write_index ul) wi <= dist (ul_page_num b) (write_index ul) (allocate_index ul) /\
    settle (draft (page_size ul) (ul_pages b) (pages (w_glob w)) <$> between (ul_page_num b) (write_index ul) (allocate_index ul)) =
      (message (page_size ul) (ul_pages b) (pages (w_glob w)) <$> between (ul_page_num b) (write_index ul) wi,
       draft (page_size ul) (ul_pages b) (pages (w_glob w)) <$> between (ul_page_num b) wi (allocate_index ul)) /\
    (forall p, wi <> allocate_index ul -> pages (w_glob w) !! slot (page_size ul) (ul_pages b) wi = Some p ->
       page_status p <> PAGE_STATUS_WRITE_DONE) /\
    (forall i p, i ∈ between (ul_page_num b) (write_index ul) wi ->
       pages (w_glob w) !! slot (page_size ul) (ul_pages b) i = Some p ->
       page_status p = PAGE_STATUS_WRITE_DONE).
Proof.
  induction fuel as [|fuel IH]; intros ul w Hp Hh Hlay Hw Ha Hpages Hfuel.
  { pose proof (dist_range _ _ _ Hw Ha). lia. }
  assert (set_write (write_index ul) ul = ul) as Hself by (by destruct ul).
  cbn [write_done_loop]. rewrite (bind_ok _ _ _ _ _ (hdr_get_run _ _ w Hp Hh)).
  destruct (Z.eqb_spec (write_index ul) (allocate_index ul)) as [Heq|Hne].
  { exists (write_index ul). rewrite Hself, put_hdr_id, set_glob_id, <- Heq, dist_refl, between_nil by done.
    split_and!; try done; try lia. by intros i p []%elem_of_nil. }
  rewrite (get_page_slot _ _ (ul_page_num b)) by done.
  destruct (Hpages _ Hw) as [p Hpg]. rewrite (bind_ok _ _ _ _ _ (page_get_run _ _ w Hpg)).
  rewrite (between_cons _ (write_index ul) (allocate_index ul)) by done. rewrite fmap_cons.
  unfold draft at 1. rewrite Hpg. cbn [mbind option_bind].
  destruct (Z.eqb_spec (page_status p) PAGE_STATUS_WRITE_DONE) as [Hst|Hst]; cbn [settle].
  2: { exists (write_index ul). rewrite Hself, put_hdr_id, set_glob_id, dist_refl, between_nil by done.
       pose proof (dist_range _ _ _ Hw Ha). split_and!; try done; try lia; [|intros q _ Hq; congruence|by intros i q []%elem_of_nil].
       rewrite (between_cons _ (write_index ul) (allocate_index ul)), fmap_cons by done. cbn [fmap list_fmap].
       do 2 f_equal. unfold draft. rewrite Hpg. cbn [mbind option_bind].
       by destruct (Z.eqb_spec (page_status p) PAGE_STATUS_WRITE_DONE). }
  rewrite (bind_ok _ _ _ _ _ (hdr_put_run _ _ ul w Hp Hh)).
  pose proof (layout_small _ _ _ Hlay). rewrite (next_index_next _ (write_index ul)) by lia.
  pose proof (next_index_next (ul_page_num b) (write_index ul) Hw ltac:(lia)) as Hnext. unfold next_index in Hnext.
  rewrite Hnext. clear Hnext.
  set (ul1 := set_write (next (ul_page_num b) (write_index ul)) ul).
  set (w1 := set_glob (put_hdr (ul_header b) ul1 (w_glob w)) w).
  destruct (IH ul1 w1) as (wi & Hrun & Hwi & Hle & Hset & Hstop & Hdone); try done.
  - unfold w1. cbn. by rewrite lookup_insert_eq.
  - by apply next_range.
  - unfold ul1. cbn [write_index set_write allocate_index]. rewrite dist_next_l by done. lia.
  - pose proof (next_range _ _ Hw) as Hnr.
    unfold ul1 in Hle, Hset, Hstop, Hdone.
    cbn [write_index set_write allocate_index page_size] in Hle, Hset, Hstop, Hdone.
    change (pages (w_glob w1)) with (pages (w_glob w)) in *.
    rewrite (dist_next_l _ _ (allocate_index ul)) in Hle by done.
    exists wi. change (write_index ul1) with (next (ul_page_num b) (write_index ul)) in Hrun. rewrite Hrun.
    assert (write_index ul <> wi).
    { intros <-. unfold dist, next in Hle. pose proof (dist_range _ _ _ Hw Ha).
      unfold dist in *. destruct (Z.geb_spec (write_index ul + 1) (ul_page_num b)),
        (Z.leb_spec (write_index ul) (allocate_index ul));
        repeat match type of Hle with context [?x <=? ?y] => destruct (Z.leb_spec x y) end; lia. }
    rewrite (dist_next_l _ _ wi) in Hle by done.
    split_and!; try done; try lia.
    + change (w_glob w1) with (put_hdr (ul_header b) ul1 (w_glob w)). by rewrite put_hdr_twice.
    + rewrite Hset. rewrite (between_cons _ (write_index ul) wi) by done. rewrite fmap_cons. do 2 f_equal.
      unfold message. by rewrite Hpg.
    + intros i q Hi Hq. rewrite (between_cons _ (write_index ul) wi) in Hi by done.
      apply elem_of_cons in Hi as [->|Hi]; [congruence|by eapply Hdone].
Qed.
End Runs.

Definition commit_glob (g : ccb) (b : ccci_ccb_control_buff) (ul : buffer_header) (wi i len : Z) : ccb :=
  put_hdr (ul_header b) (set_write wi ul)
    (put_page (slot (page_size ul) (ul_pages b) i) (PageHeader PAGE_STATUS_WRITE_DONE len) g).

Section CommitRing.
Context (g : ccb) (id : Z) (u : ccci_ccb_control_user) (b : ccci_ccb_control_buff) (ul : buffer_header).
Context (Hup : uplink g id u b ul).
Abbreviation n := (ul_page_num b).
Abbreviation at_ i := (slot (page_size ul) (ul_pages b) i).
Context (i len : Z) (Hi : i ∈ between n (write_index ul) (allocate_index ul)).
Context (v : Z) (Hst : pages g !! at_ i = Some (PageHeader PAGE_STATUS_ALLOC v)).
Abbreviation st' := (<[at_ i := PageHeader PAGE_STATUS_WRITE_DONE len]> (pages g)).
Context (wi : Z) (Hwi : 0 <= wi < n).
Context (Hle : dist n (write_index ul) wi <= dist n (write_index ul) (allocate_index ul)).
Context (Hset : settle (draft (page_size ul) (ul_pages b) st' <$> between n (write_index ul) (allocate_index ul)) =
  (message (page_size ul) (ul_pages b) st' <$> between n (write_index ul) wi,
   draft (page_size ul) (ul_pages b) st' <$> between n wi (allocate_index ul))).
Context (Hstop : forall p, wi <> allocate_index ul -> st' !! at_ wi = Some p ->
  page_status p <> PAGE_STATUS_WRITE_DONE).
Context (Hdone : forall j p, j ∈ between n (write_index ul) wi -> st' !! at_ j = Some p ->
  page_status p = PAGE_STATUS_WRITE_DONE).

Lemma dist_free_wi : dist n (free_index ul) wi = dist n (free_index ul) (write_index ul) + dist n (write_index ul) wi.
Proof.
  destruct Hup. pose proof (dist_range n _ _ up_write0 Hwi). pose proof (dist_range n _ _ up_free0 up_alloc0).
  pose proof (dist_split n _ _ _ up_free0 up_write0 up_alloc0 up_order0). apply dist_add; (done || lia).
Qed.

Lemma draft_commit k :
  between n (write_index ul) (allocate_index ul) !! k = Some i ->
  draft (page_size ul) (ul_pages b) st' <$> between n (write_index ul) (allocate_index ul) =
  <[k := (page_buffer (at_ i), Some len)]>
    (draft (page_size ul) (ul_pages b) (pages g) <$> between n (write_index ul) (allocate_index ul)).
Proof.
  destruct Hup. pose proof (layout_pos _ _ _ up_layout0). intros Hk. apply list_eq. intros j.
  rewrite !list_lookup_fmap. destruct (decide (j = k)) as [->|Hne].
  - rewrite list_lookup_insert_eq, Hk by (rewrite length_fmap; by eapply lookup_lt_Some).
    cbn [fmap option_fmap option_map]. unfold draft. by rewrite lookup_insert_eq.
  - rewrite list_lookup_insert_ne by done. rewrite list_lookup_fmap.
    destruct (between n (write_index ul) (allocate_index ul) !! j) as [x|] eqn:Hj; [|done].
    cbn [fmap option_fmap option_map]. unfold draft. rewrite lookup_insert_ne; [done|].
    intros Heq%slot_inj; [|done]. subst x. apply Hne.
    eapply NoDup_lookup; [|exact Hj|exact Hk]. by apply between_NoDup.
Qed.

Lemma commit_queue taken k :
  between n (write_index ul) (allocate_index ul) !! k = Some i ->
  exists done rest,
    settle (<[k := (page_buffer (at_ i), Some len)]> (pending (ring_queue taken g b ul))) = (done, rest) /\
    ring_queue taken (commit_glob g b ul wi i len) b (set_write wi ul) =
      Queue taken (published (ring_queue taken g b ul) ++ done) rest.
Proof.
  intros Hk. destruct Hup. pose proof (layout_pos _ _ _ up_layout0).
  do 2 eexists. split; [cbn [pending ring_queue]; rewrite <- (draft_commit k Hk); exact Hset|].
  unfold ring_queue, commit_glob. cbn [page_size set_write free_index write_index allocate_index
    pages set_pages put_page put_hdr set_headers published].
  pose proof (dist_range n _ _ up_write0 Hwi).
  f_equal. rewrite (between_app n _ (write_index ul) wi) by (try done; rewrite dist_free_wi; lia).
  rewrite fmap_app. f_equal. apply message_insert; [done|]. intros Hin.
  by apply (between_disjoint n (free_index ul) (write_index ul) (allocate_index ul) i).
Qed.

Lemma commit_uplink : uplink (commit_glob g b ul wi i len) id u b (set_write wi ul).
Proof.
  pose proof Hup as Hup'. destruct Hup'. pose proof (layout_pos _ _ _ up_layout0) as Hps.
  pose proof (dist_range n _ _ up_write0 Hwi). pose proof (dist_range n _ _ up_free0 up_alloc0).
  pose proof (dist_split n _ _ _ up_free0 up_write0 up_alloc0 up_order0).
  assert (forall j, j <> i -> st' !! at_ j = pages g !! at_ j) as Hother.
  { intros j Hj. apply lookup_insert_ne. intros Heq%slot_inj; [|done]. congruence. }
  assert (st' !! at_ i = Some (PageHeader PAGE_STATUS_WRITE_DONE len)) as Hat by apply lookup_insert_eq.
  constructor; cbn [page_size set_write free_index write_index allocate_index]; try done.
  - split; [apply up_hdr0|]. unfold commit_glob, put_hdr. cbn [headers set_headers]. by rewrite lookup_insert_eq.
  - rewrite dist_free_wi. lia.
  - intros j Hj. change (is_Some (st' !! at_ j)). destruct (decide (j = i)) as [->|Hne]; [by rewrite Hat|].
    rewrite Hother by done. by apply up_pages0.
  - intros j p Hj Hp. change (st' !! at_ j = Some p) in Hp. destruct (decide (j = i)) as [->|Hne].
    + rewrite Hat in Hp. injection Hp as <-. by right.
    + rewrite Hother in Hp by done. eapply up_pending0; [|done].
      rewrite (between_app n _ wi) by done. apply elem_of_app. by right.
  - intros j p Hj Hin Hp. change (st' !! at_ j = Some p) in Hp.
    destruct (decide (j ∈ between n (write_index ul) wi)) as [Hin'|Hin'].
    + by rewrite (Hdone _ _ Hin' Hp).
    + assert (j ∉ between n (write_index ul) (allocate_index ul)) as Hnin.
      { rewrite (between_app n _ wi) by done. by rewrite not_elem_of_app. }
      assert (j <> i) by congruence. rewrite Hother in Hp by done. by apply (up_rest0 j).
Qed.
End CommitRing.

(** ** The operations refine the queue *)

Lemma find_page_spec ul base n k : forall i addr,
  layout (page_size ul) base n -> 0 <= i -> i + Z.of_nat k = n ->
  let r := find_page ul base addr k i in
  i <= r <= n /\ (r < n -> addr = page_buffer (slot (page_size ul) base r)) /\
  (forall j, i <= j < n -> addr = page_buffer (slot (page_size ul) base j) -> r = j).
Proof.
  induction k as [|k IH]; intros i addr Hlay Hi Hk; simpl; [split_and!; lia|].
  pose proof (layout_pos _ _ _ Hlay).
  rewrite (get_page_slot _ _ n) by (done || lia).
  destruct (Z.eqb_spec (page_buffer (slot (page_size ul) base i)) addr) as [<-|Hne].
  - split_and!; try lia. intros j Hj Heq. unfold page_buffer in Heq.
    apply (slot_inj (page_size ul) base); [done|]. lia.
  - destruct (IH (i + 1) addr Hlay ltac:(lia) ltac:(lia)) as (Hr & Hs & Hu).
    split; [lia|]. split; [exact Hs|]. intros j Hj Heq. apply Hu; [|done].
    destruct (decide (i = j)) as [->|]; [congruence|lia].
Qed.

Lemma page_buffer_pos ps base n i : layout ps base n -> 0 <= i -> page_buffer (slot ps base i) <> 0.
Proof. unfold layout, page_buffer, slot, sizeof_page_header. intros (? & ? & ? & ?) Hi. nia. Qed.

(** The number of pages in a queue and its bound; the size of a message. *)
Abbreviation ring_step b ul := (q_step (ul_page_num b - 1) (page_size ul)).

Section Refine.
Context `{OS}.
Abbreviation W := (world ccb).

(** Reaching the header of the buffer. *)
Lemma uplink_entry {A} (w : W) id u b ul (k : ccci_ccb_control_buff -> buffer_header -> prog ccb A) dflt :
  uplink (w_glob w) id u b ul ->
  (g ← pget;
   match user g with
   | None => mret dflt
   | Some u => if id >? buffer_num u then mret dflt
               else buff ← buff_at u id; ul ← hdr_get (ul_header buff); k buff ul
   end) w = k b ul w.
Proof.
  intros Hup. destruct Hup. destruct up_buff0 as (l & Hl & Hb). destruct up_hdr0 as [Hp Hh].
  rewrite (bind_ok _ _ _ _ _ (pget_run w)), up_user0.
  rewrite Z.gtb_ltb, (proj2 (Z.ltb_ge _ _)) by lia.
  rewrite (bind_ok _ _ _ _ _ (buff_at_run _ _ _ _ w Hl Hb)).
  by rewrite (bind_ok _ _ _ _ _ (hdr_get_run _ _ w Hp Hh)).
Qed.

Lemma alloc_step taken (w : W) id u b ul :
  uplink (w_glob w) id u b ul ->
  exists w' a ul', ccci_ccb_write_alloc id w = (w', Ok a) /\
    uplink (w_glob w') id u b ul' /\ page_size ul' = page_size ul /\
    ring_step b ul (ring_queue taken (w_glob w) b ul) (if a =? 0 then AllocNone else Alloc a)
      (ring_queue taken (w_glob w') b ul').
Proof.
  intros Hup. pose proof (ring_queue_length taken _ _ _ _ _ Hup) as Hlen. pose proof Hup as Hup'. destruct Hup'.
  pose proof (layout_small _ _ _ up_layout0). pose proof (dist_range _ _ _ up_free0 up_alloc0).
  assert (ccci_ccb_write_alloc id w = _) as -> by exact (uplink_entry w id u b ul _ 0 Hup).
  rewrite up_ready0. cbn [negb]. rewrite write_available_eq by lia.
  destruct (Z.eqb_spec (ul_page_num b - 1 - dist (ul_page_num b) (free_index ul) (allocate_index ul)) 0) as [Hz|Hz].
  - exists w, 0, ul. split_and!; try done. apply q_full. cbn [published pending ring_queue] in Hlen. lia.
  - destruct (up_pages0 _ up_alloc0) as [p Hp]. destruct up_hdr0 as [Hnz Hh].
    rewrite (get_page_slot _ _ (ul_page_num b)) by done. rewrite next_index_next by lia.
    rewrite (bind_ok _ _ _ _ _ (page_mod_run _ _ p w Hp)).
    match goal with |- context [set_glob ?x w] => set (w1 := set_glob x w) end.
    rewrite (bind_ok _ _ _ _ _ (hdr_put_run _ _ ul w1 Hnz Hh)).
    assert (put_hdr (ul_header b) (set_allocate (next (ul_page_num b) (allocate_index ul)) ul)
      (put_page (slot (page_size ul) (ul_pages b) (allocate_index ul))
         (PageHeader PAGE_STATUS_ALLOC (valid_length p)) (w_glob w)) = alloc_glob (w_glob w) b ul) as Heq.
    { unfold alloc_glob. by rewrite Hp. }
    eexists _, _, (set_allocate (next (ul_page_num b) (allocate_index ul)) ul). split; [reflexivity|].
    unfold w1. cbn [w_glob set_glob]. rewrite Heq. split_and!; [apply alloc_uplink; [done|lia]|done|].
    pose proof (page_buffer_pos _ _ _ (allocate_index ul) up_layout0 ltac:(lia)).
    destruct (Z.eqb_spec (page_buffer (slot (page_size ul) (ul_pages b) (allocate_index ul))) 0); [done|].
    rewrite (alloc_queue _ id u) by (done || lia).
    destruct (alloc_not_held _ _ _ _ _ Hup) as [Hn1 Hn2].
    apply q_alloc; [cbn [published pending ring_queue] in *; lia|].
    pose proof (layout_pos _ _ _ up_layout0).
    cbn [published pending ring_queue]. rewrite <- !list_fmap_compose, not_elem_of_app, !list_elem_of_fmap.
    split; intros (j & Hj & Hin); cbn in Hj; unfold page_buffer in Hj; assert (allocate_index ul = j) as <-
      by (apply (slot_inj (page_size ul) (ul_pages b)); [done|]; lia); done.
Qed.

(** The configuration of the buffer, for the notification. *)
Lemma query_config_run (w : W) id u b ul :
  uplink (w_glob w) id u b ul -> exists c, ccci_ccb_query_config (user_id u) id w = (w, Ok (Some c)).
Proof.
  intros [_ _ _ _ _ _ _ _ _ _ _ _ _ _ (ports & c & Hnz & Hports & Hlen & Hq)].
  exists c. unfold ccci_ccb_query_config, ccb_ports. unfold mbind, prog_bind at 1 2, pget.
  rewrite (proj2 (Z.eqb_neq _ _)) by done. rewrite Hports, (proj2 (Z.ltb_ge _ _)) by lia.
  cbn. by rewrite Hq.
Qed.

(** A page is under construction exactly when its status says so. *)
Lemma pending_iff taken g id u b ul i :
  uplink g id u b ul -> 0 <= i < ul_page_num b ->
  (page_buffer (slot (page_size ul) (ul_pages b) i), None) ∈ pending (ring_queue taken g b ul) <->
  exists v, pages g !! slot (page_size ul) (ul_pages b) i = Some (PageHeader PAGE_STATUS_ALLOC v).
Proof.
  intros Hup Hi. destruct Hup. pose proof (layout_pos _ _ _ up_layout0) as Hps.
  cbn [pending ring_queue]. rewrite list_elem_of_fmap. split.
  - intros (j & Hj & Hin). unfold draft in Hj. injection Hj as Hj Hd. unfold page_buffer in Hj.
    assert (i = j) as <- by (apply (slot_inj (page_size ul) (ul_pages b)); [done|]; lia).
    destruct (up_pages0 i Hi) as [p Hp]. rewrite Hp in Hd. cbn in Hd.
    destruct (Z.eqb_spec (page_status p) PAGE_STATUS_WRITE_DONE) as [|Hst]; [done|].
    destruct (up_pending0 i p Hin Hp) as [Hs|Hs]; [|done]. destruct p as [s v]. simpl in Hs. subst s. by exists v.
  - intros [v Hv]. exists i. split; [unfold draft; by rewrite Hv|].
    destruct (decide (i ∈ between (ul_page_num b) (write_index ul) (allocate_index ul))) as [|Hin]; [done|].
    by destruct (up_rest0 i _ Hi Hin Hv).
Qed.

(** The commit of a page under construction. *)
Lemma commit_page taken (w : W) id u b ul i v len :
  uplink (w_glob w) id u b ul -> 0 <= i < ul_page_num b -> len <= page_size ul ->
  pages (w_glob w) !! slot (page_size ul) (ul_pages b) i = Some (PageHeader PAGE_STATUS_ALLOC v) ->
  exists w' r ul', write_done_page u b ul id i len w = (w', Ok r) /\
    uplink (w_glob w') id u b ul' /\ page_size ul' = page_size ul /\
    ring_step b ul (ring_queue taken (w_glob w) b ul)
      (Commit (page_buffer (slot (page_size ul) (ul_pages b) i)) len) (ring_queue taken (w_glob w') b ul').
Proof.
  intros Hup Hir Hlen Hp. pose proof Hup as Hup'. destruct Hup'. destruct up_hdr0 as [Hnz Hh].
  assert (i ∈ between (ul_page_num b) (write_index ul) (allocate_index ul)) as Hin.
  { destruct (decide (i ∈ between (ul_page_num b) (write_index ul) (allocate_index ul))) as [|Hin]; [done|].
    by destruct (up_rest0 i _ Hir Hin Hp). }
  unfold write_done_page. rewrite (get_page_slot _ _ (ul_page_num b)) by done.
  rewrite (bind_ok _ _ _ _ _ (page_get_run _ _ w Hp)). cbn [page_status negb Z.eqb].
  rewrite Z.eqb_refl. cbn [negb].
  rewrite (bind_ok _ _ _ _ _ (page_mod_run _ _ _ w Hp)).
  match goal with |- context [set_glob ?x w] => set (w1 := set_glob x w) end.
  destruct (write_done_loop_run b (S (Z.to_nat (ul_page_num b))) ul w1) as (wi & Hloop & Hwi & Hle & Hset & Hstop & Hdone);
    try done.
  { intros j Hj. unfold w1. cbn. apply lookup_insert_is_Some'. right. by apply up_pages0. }
  { pose proof (dist_range _ _ _ up_write0 up_alloc0). lia. }
  rewrite (bind_ok _ _ _ _ _ Hloop).
  change (set_glob (put_hdr (ul_header b) (set_write wi ul) (w_glob w1)) w1)
    with (set_glob (commit_glob (w_glob w) b ul wi i len) w).
  assert (uplink (w_glob (set_glob (commit_glob (w_glob w) b ul wi i len) w)) id u b (set_write wi ul)) as Hup2
    by exact (commit_uplink _ _ _ _ _ Hup i len Hin wi Hwi Hle Hstop Hdone).
  destruct (query_config_run _ _ _ _ _ Hup2) as [c Hc]. rewrite (bind_ok _ _ _ _ _ Hc).
  pose proof Hin as [k Hk]%list_elem_of_lookup.
  destruct (commit_queue _ _ _ _ _ Hup i len Hin wi Hwi Hle Hset taken k Hk) as (done & rest & Hsettle & Hq).
  unfold psys, mbind, prog_bind. cbn [w_os set_glob].
  match goal with |- context [os_do ?c ?s] => destruct (os_do c s) as [s' [ir z]] end.
  eexists _, _, (set_write wi ul). split; [reflexivity|]. cbn [w_glob set_glob] in *.
  split_and!; [done|done|]. rewrite Hq.
  eapply (q_commit _ _ taken _ _ _ _ k); [|lia|done].
  cbn [pending ring_queue]. rewrite list_lookup_fmap, Hk. cbn. unfold draft. by rewrite Hp.
Qed.

Lemma commit_step taken (w : W) id u b ul addr len :
  uplink (w_glob w) id u b ul ->
  exists w' r ul' l, ccci_ccb_write_done id addr len w = (w', Ok r) /\
    uplink (w_glob w') id u b ul' /\ page_size ul' = page_size ul /\
    ring_step b ul (ring_queue taken (w_glob w) b ul) l (ring_queue taken (w_glob w') b ul') /\
    (l = Commit addr len \/ l = Reject addr len /\ r = - EINVAL /\ w' = w).
Proof.
  intros Hup. pose proof Hup as Hup'. destruct Hup'. pose proof (layout_pos _ _ _ up_layout0) as Hps.
  assert (forall (m : prog ccb Z), m w = (w, Ok (- EINVAL)) ->
    (addr, None) ∉ pending (ring_queue taken (w_glob w) b ul) \/ page_size ul < len ->
    exists w' r ul' l, m w = (w', Ok r) /\ uplink (w_glob w') id u b ul' /\ page_size ul' = page_size ul /\
      ring_step b ul (ring_queue taken (w_glob w) b ul) l (ring_queue taken (w_glob w') b ul') /\
      (l = Commit addr len \/ l = Reject addr len /\ r = - EINVAL /\ w' = w)) as Hreject.
  { intros m Hm Hin. exists w, (- EINVAL), ul, (Reject addr len). split_and!; auto. by apply q_reject. }
  unfold ccci_ccb_write_done. destruct up_buff0 as (lb & Hl & Hb). destruct up_hdr0 as [Hnz Hh].
  rewrite (bind_ok _ _ _ _ _ (pget_run w)), up_user0.
  rewrite (Z.gtb_ltb id), (proj2 (Z.ltb_ge _ _)) by lia.
  rewrite (bind_ok _ _ _ _ _ (buff_at_run _ _ _ _ w Hl Hb)).
  rewrite (bind_ok _ _ _ _ _ (hdr_get_run _ _ w Hnz Hh)), up_ready0. cbn [negb].
  rewrite (Z.gtb_ltb len). destruct (Z.ltb_spec (page_size ul) len) as [Hlong|Hlen]; [by apply Hreject; auto|].
  destruct (find_page_spec ul (ul_pages b) (ul_page_num b) (Z.to_nat (ul_page_num b)) 0 addr up_layout0) as (Hi & Haddr & Huniq);
    [lia|lia|].
  set (i := find_page ul (ul_pages b) addr (Z.to_nat (ul_page_num b)) 0) in *.
  destruct (Z.eqb_spec i (ul_page_num b)) as [Hnone|Hsome].
  { apply Hreject; [done|]. left. cbn [pending ring_queue]. rewrite list_elem_of_fmap. intros (j & Hj & Hin).
    unfold draft in Hj. injection Hj as Hj _. apply elem_between in Hin as [Hin _]; [|done|done].
    specialize (Huniq j Hin Hj). lia. }
  assert (0 <= i < ul_page_num b) as Hir by lia. specialize (Haddr ltac:(lia)).
  destruct (up_pages0 i Hir) as [p Hp].
  destruct (decide (page_status p = PAGE_STATUS_ALLOC)) as [Hst|Hst].
  - destruct p as [s v]. simpl in Hst. subst s.
    destruct (commit_page taken w id u b ul i v len Hup Hir Hlen Hp) as (w' & r & ul' & Hrun & Hup2 & Hsz & Hq).
    exists w', r, ul', (Commit addr len). rewrite <- Haddr in Hq. split_and!; auto.
  - apply Hreject.
    + unfold write_done_page. rewrite (get_page_slot _ _ (ul_page_num b)) by done.
      rewrite (bind_ok _ _ _ _ _ (page_get_run _ _ w Hp)). by rewrite (proj2 (Z.eqb_neq _ _)) by done.
    + left. rewrite Haddr, (pending_iff taken _ id u) by done. intros [v Hv]. rewrite Hp in Hv. by injection Hv as ->.
Qed.

(** ** What the modem does *)

(** The modem takes the oldest published message: it moves the free index over
    its page, whose header it may rewrite, and its own read index. *)
Inductive releases (b : ccci_ccb_control_buff) (ul : buffer_header) (g : ccb) : ccb -> Prop :=
| releases_one r p :
    free_index ul <> write_index ul -> page_status p <> PAGE_STATUS_ALLOC ->
    releases b ul g
      (put_hdr (ul_header b) (set_free (next (ul_page_num b) (free_index ul)) (set_read r ul))
         (put_page (slot (page_size ul) (ul_pages b) (free_index ul)) p g)).

Lemma release_step taken g g' id u b ul :
  uplink g id u b ul -> releases b ul g g' ->
  exists taken' ul', uplink g' id u b ul' /\ page_size ul' = page_size ul /\
    ring_step b ul (ring_queue taken g b ul) Release (ring_queue taken' g' b ul').
Proof.
  intros Hup [r p Hne Hst]. pose proof Hup as Hup'. destruct Hup'.
  pose proof (layout_pos _ _ _ up_layout0) as Hps. set (n := ul_page_num b) in *.
  pose proof (dist_range n _ _ up_free0 up_write0) as Hd. pose proof (next_range n _ up_free0) as Hnr.
  pose proof (dist_next_l n _ _ up_free0 up_write0 Hne) as Hfw.
  assert (free_index ul <> allocate_index ul) as Hfa.
  { intros Heq. apply Hne, (dist_zero n); try done. rewrite Heq, dist_refl in up_order0. rewrite Heq in Hd |- *. lia. }
  pose proof (dist_next_l n _ _ up_free0 up_alloc0 Hfa) as Hfa'.
  assert (free_index ul ∈ between n (free_index ul) (write_index ul)) as Hin
    by (rewrite between_cons by done; apply elem_of_cons; by left).
  pose proof (between_disjoint n _ _ _ _ up_free0 up_write0 up_alloc0 up_order0 Hin) as Hpend.
  assert (free_index ul ∉ between n (next n (free_index ul)) (write_index ul)) as Hpub.
  { pose proof (between_NoDup n _ _ up_free0 up_write0) as Hnd. rewrite between_cons in Hnd by done.
    by apply NoDup_cons in Hnd as [? _]. }
  exists (taken ++ [message (page_size ul) (ul_pages b) (pages g) (free_index ul)]),
    (set_free (next n (free_index ul)) (set_read r ul)).
  assert (forall i, i <> free_index ul -> <[slot (page_size ul) (ul_pages b) (free_index ul) := p]> (pages g) !!
      slot (page_size ul) (ul_pages b) i = pages g !! slot (page_size ul) (ul_pages b) i) as Hother.
  { intros i Hi. apply lookup_insert_ne. intros Heq%slot_inj; [|done]. congruence. }
  split_and!; [|done|].
  - constructor; cbn [page_size set_free set_read free_index write_index allocate_index]; try done; fold n.
    + split; [apply up_hdr0|]. unfold put_hdr. cbn [headers set_headers]. by rewrite lookup_insert_eq.
    + lia.
    + intros i Hi. cbn. apply lookup_insert_is_Some'. right. by apply up_pages0.
    + intros i q Hi Hq. eapply up_pending0; [done|]. rewrite <- Hq. symmetry. apply Hother. by intros ->.
    + intros q Hwa Hq. apply up_head0; [done|]. rewrite <- Hq. symmetry. by apply Hother.
    + intros i q Hi Hnin Hq. destruct (decide (i = free_index ul)) as [->|Hnf].
      * change (<[slot (page_size ul) (ul_pages b) (free_index ul) := p]> (pages g) !!
          slot (page_size ul) (ul_pages b) (free_index ul) = Some q) in Hq.
        rewrite lookup_insert_eq in Hq. by injection Hq as <-.
      * apply (up_rest0 i); [done|done|]. rewrite <- Hq. symmetry. by apply Hother.
  - unfold ring_queue. cbn [page_size set_free set_read free_index write_index allocate_index pages put_hdr set_headers put_page set_pages].
    fold n. rewrite (between_cons n (free_index ul)) by done. rewrite fmap_cons.
    rewrite message_insert, draft_insert by done. apply q_release.
Qed.

(** ** Executions *)

Section Execution.
(** The modem between two calls of the library, on a ring it shares: of its
    behaviour, that it only takes out published messages. *)
Context (id : Z) (u : ccci_ccb_control_user) (b : ccci_ccb_control_buff).
Context (modem : ccb -> ccb -> Prop).
Context (modem_releases : forall g g' ul, modem g g' -> uplink g id u b ul -> releases b ul g g').

(** A call with its outcome, or a step of the modem. *)
Inductive call :=
| CallAlloc (o : outcome Z)
| CallDone (address len : Z) (o : outcome Z)
| Modem.

Inductive execution : W -> list call -> W -> Prop :=
| ex_nil w : execution w [] w
| ex_alloc w cs w1 w2 o :
    execution w cs w1 -> ccci_ccb_write_alloc id w1 = (w2, o) ->
    execution w (cs ++ [CallAlloc o]) w2
| ex_done w cs w1 w2 address len o :
    execution w cs w1 -> ccci_ccb_write_done id address len w1 = (w2, o) ->
    execution w (cs ++ [CallDone address len o]) w2
| ex_modem w cs w1 g :
    execution w cs w1 -> modem (w_glob w1) g -> execution w (cs ++ [Modem]) (set_glob g w1).

(** What a call did, as a step of the queue; every call returns. *)
Definition call_label (c : call) (l : label) : Prop :=
  match c with
  | CallAlloc o => exists a, o = Ok a /\ l = if a =? 0 then AllocNone else Alloc a
  | CallDone address len o =>
      exists r, o = Ok r /\ (l = Commit address len \/ l = Reject address len /\ r = - EINVAL)
  | Modem => l = Release
  end.

Lemma execution_refines w ul cs w' :
  uplink (w_glob w) id u b ul -> execution w cs w' ->
  exists ls taken ul', Forall2 call_label cs ls /\ uplink (w_glob w') id u b ul' /\ page_size ul' = page_size ul /\
    q_run (ul_page_num b - 1) (page_size ul) (ring_queue [] (w_glob w) b ul) ls (ring_queue taken (w_glob w') b ul').
Proof.
  intros Hup Hex. induction Hex as [w|w cs w1 w2 o Hex IH Hrun|w cs w1 w2 address len o Hex IH Hrun|w cs w1 g Hex IH Hm].
  - exists [], [], ul. split_and!; try done. constructor.
  - destruct (IH Hup) as (ls & taken & ul1 & Hls & Hup1 & Hsz & Hq).
    destruct (alloc_step taken _ _ _ _ _ Hup1) as (w2' & a & ul2 & Hrun' & Hup2 & Hsz2 & Hstep).
    rewrite Hrun in Hrun'. injection Hrun' as -> ->.
    eexists (ls ++ [_]), taken, ul2. split_and!; [|exact Hup2|congruence|].
    + apply Forall2_app; [done|]. constructor; [|constructor]. exists a. by split.
    + eapply q_snoc; [exact Hq|]. by rewrite <- Hsz.
  - destruct (IH Hup) as (ls & taken & ul1 & Hls & Hup1 & Hsz & Hq).
    destruct (commit_step taken _ _ _ _ _ address len Hup1) as (w2' & r & ul2 & l & Hrun' & Hup2 & Hsz2 & Hstep & Hl).
    rewrite Hrun in Hrun'. injection Hrun' as -> ->.
    eexists (ls ++ [l]), taken, ul2. split_and!; [|exact Hup2|congruence|].
    + apply Forall2_app; [done|]. constructor; [|constructor]. exists r. split; [done|].
      destruct Hl as [->|(-> & -> & _)]; auto.
    + eapply q_snoc; [exact Hq|]. by rewrite <- Hsz.
  - destruct (IH Hup) as (ls & taken & ul1 & Hls & Hup1 & Hsz & Hq).
    destruct (release_step taken _ _ _ _ _ _ Hup1 (modem_releases _ _ _ Hm Hup1)) as (taken' & ul2 & Hup2 & Hsz2 & Hstep).
    exists (ls ++ [Release]), taken', ul2. split_and!; [|exact Hup2|congruence|].
    + apply Forall2_app; [done|]. by constructor.
    + eapply q_snoc; [exact Hq|]. by rewrite <- Hsz.
Qed.

(** Claim C3.  The uplink ring of a registered user is a queue.  From an empty
    ring, through any calls of [ccci_ccb_write_alloc] and [ccci_ccb_write_done],
    with any arguments, interleaved with a modem that only takes out published
    messages: every call returns; the ring stays well formed and stands for a
    queue of at most one message less than it has pages, along whose steps the
    calls go, so that an allocation fails exactly when the queue is full and a
    commit exactly when the address is not under construction or the length is
    too long; and what the modem has been and will be given is what was
    allocated, in the order of the allocations whatever the order of the
    commits, each with the length it was committed with. *)
Theorem uplink_fifo w ul cs w' :
  uplink (w_glob w) id u b ul ->
  free_index ul = write_index ul -> write_index ul = allocate_index ul ->
  execution w cs w' ->
  exists ls taken ul', Forall2 call_label cs ls /\ uplink (w_glob w') id u b ul' /\
    let q := ring_queue taken (w_glob w') b ul' in
    q_run (ul_page_num b - 1) (page_size ul) (Queue [] [] []) ls q /\
    (released q ++ published q).*1 ++ (pending q).*1 = omap alloc_of ls /\
    (forall a len, (a, len) ∈ released q ++ published q -> Commit a len ∈ ls).
Proof.
  intros Hup Hf Hw Hex. destruct (execution_refines _ _ _ _ Hup Hex) as (ls & taken & ul' & Hls & Hup' & Hsz & Hq).
  assert (ring_queue [] (w_glob w) b ul = Queue [] [] []) as Hempty.
  { unfold ring_queue. by rewrite Hf, Hw, !between_nil. }
  rewrite Hempty in Hq. destruct (accounted_run _ _ _ _ _ Hq eq_refl) as (Ha & Hp & _).
  by exists ls, taken, ul'.
Qed.
End Execution.
End Refine.

(** ** The demonstration *)

Lemma demo_modem_releases g g' ul :
  demo_modem g g' -> uplink g 0 demo_user demo_buff ul -> releases demo_buff ul g g'.
Proof.
  intros Hm Hup. destruct (up_hdr _ _ _ _ _ Hup) as [_ Hh]. cbn [ul_header demo_buff] in Hh.
  unfold demo_modem, modem_take in Hm. rewrite Hh in Hm. simpl in Hm.
  destruct (Z.eqb_spec (free_index ul) (write_index ul)) as [|Hne]; [done|]. injection Hm as <-.
  by apply (releases_one demo_buff ul g _ (PageHeader PAGE_STATUS_INIT 0)).
Qed.

Lemma demo_uplink : uplink (w_glob demo_registered) 0 demo_user demo_buff demo_ul.
Proof.
  assert (forall i, 0 <= i < 4 -> pages (w_glob demo_registered) !! slot 64 8448 i = Some (PageHeader PAGE_STATUS_INIT 0)) as Hpages.
  { intros i Hi. assert (i = 0 \/ i = 1 \/ i = 2 \/ i = 3) as Hi' by lia.
    destruct Hi' as [->|[->|[->| ->]]]; vm_compute; reflexivity. }
  constructor; try (vm_compute; done).
  - by exists [demo_buff].
  - intros i Hi. eexists. exact (Hpages i Hi).
  - intros i p Hi. change (i ∈ @nil Z) in Hi. exact (False_ind _ (not_elem_of_nil i Hi)).
  - intros i p Hi _ Hp. pose proof (eq_trans (eq_sym Hp) (Hpages i Hi)) as [= ->]. done.
  - eexists _, _. split_and!; vm_compute; try reflexivity; done.
Qed.

(** Two messages are allocated, the second is committed first, the modem takes
    both in order. *)
Lemma uplink_fifo_witness : exists (w' : @world CcbOS ccb) (ls : list label) taken ul',
  Forall2 call_label
    [CallAlloc (Ok 8456); CallAlloc (Ok 8520); CallDone 8520 7 (Ok 0); CallDone 8456 5 (Ok 0); Modem; Modem] ls /\
  let q := ring_queue taken (w_glob w') demo_buff ul' in
  (released q ++ published q).*1 ++ (pending q).*1 = omap alloc_of ls /\
  (forall a len, (a, len) ∈ released q ++ published q -> Commit a len ∈ ls).
Proof.
  eexists.
  edestruct (@uplink_fifo CcbOS 0 demo_user demo_buff demo_modem demo_modem_releases demo_registered demo_ul
    [CallAlloc (Ok 8456); CallAlloc (Ok 8520); CallDone 8520 7 (Ok 0); CallDone 8456 5 (Ok 0); Modem; Modem])
    as (ls & taken & ul' & Hls & _ & _ & Ha & Hp); [exact demo_uplink|reflexivity|reflexivity| |
    by exists ls, taken, ul'].
  change [CallAlloc (Ok 8456); CallAlloc (Ok 8520); CallDone 8520 7 (Ok 0); CallDone 8456 5 (Ok 0); Modem; Modem]
    with ((((((([] ++ [CallAlloc (Ok 8456)]) ++ [CallAlloc (Ok 8520)]) ++ [CallDone 8520 7 (Ok 0)])
      ++ [CallDone 8456 5 (Ok 0)]) ++ [Modem]) ++ [Modem])).
  eapply ex_modem; [eapply ex_modem; [eapply ex_done; [eapply ex_done; [eapply ex_alloc; [eapply ex_alloc; [apply ex_nil|]|]|]|]|]|].
  - apply run_ok. vm_compute. reflexivity.
  - apply run_ok. vm_compute. reflexivity.
  - apply run_ok. vm_compute. reflexivity.
  - apply run_ok. vm_compute. reflexivity.
  - unfold demo_modem. vm_compute. reflexivity.
  - unfold demo_modem. vm_compute. reflexivity.
Defined.
