(* ===== verification/CcbDownlink.v ===== *)
(** * ccci_lib: the downlink ring hands out pages in order, one release at a time

    The specification: the messages the client holds and, behind them, those the
    modem has published.  [ccci_ccb_read_get] hands out the oldest published
    message; [ccci_ccb_read_done] returns a page to the modem exactly when the
    client holds one, so that a client that gets two never returns either.
    [downlink] is the invariant of a ring and [dl_queue] what it stands for. *)
From S2P Require Import Prelude Posix CcciIntf RingSeg CcbTypes CcbRing CcbSetup CcbDemo CcbQueue.

(** ** The specification *)

Record inbox := Inbox { held : list (Z * Z); ready : list (Z * Z) }.

Inductive dl_label := Got (m : Z * Z) | GotNone | Done | NotDone | Publish (m : Z * Z).

Inductive dl_step (cap : Z) : inbox -> dl_label -> inbox -> Prop :=
| dl_get h m r : dl_step cap (Inbox h (m :: r)) (Got m) (Inbox (h ++ [m]) r)
| dl_none h : dl_step cap (Inbox h []) GotNone (Inbox h [])
| dl_done m r : dl_step cap (Inbox [m] r) Done (Inbox [] r)
| dl_refuse h r : zlen h <> 1 -> dl_step cap (Inbox h r) NotDone (Inbox h r)
| dl_publish h r m : zlen h + zlen r < cap -> dl_step cap (Inbox h r) (Publish m) (Inbox h (r ++ [m])).

Inductive dl_run (cap : Z) : inbox -> list dl_label -> inbox -> Prop :=
| dl_nil q : dl_run cap q [] q
| dl_snoc q ls q' l q'' : dl_run cap q ls q' -> dl_step cap q' l q'' -> dl_run cap q (ls ++ [l]) q''.

Definition got (l : dl_label) : option (Z * Z) := match l with Got m => Some m | _ => None end.
Definition sent (l : dl_label) : option (Z * Z) := match l with Publish m => Some m | _ => None end.

(** What is handed out is what was published, in order. *)
Lemma dl_run_order cap q ls q' :
  dl_run cap q ls q' -> omap got ls ++ ready q' = ready q ++ omap sent ls.
Proof.
  induction 1 as [q|q ls q' l q'' _ IH Hstep]; [by rewrite app_nil_r|].
  rewrite !omap_app. destruct Hstep; simpl in *; rewrite ?app_nil_r in *; try done.
  - by rewrite <- app_assoc.
  - by rewrite !app_assoc, IH.
Qed.

(** With two messages held nothing is returned any more. *)
Lemma dl_run_stuck cap q ls q' :
  dl_run cap q ls q' -> 2 <= zlen (held q) -> 2 <= zlen (held q') /\ (Done ∉ ls).
Proof.
  induction 1 as [q|q ls q' l q'' _ IH Hstep]; intros Hh; [split; [done|apply not_elem_of_nil]|].
  destruct (IH Hh) as [Hh' Hls]. rewrite not_elem_of_app, list_elem_of_singleton.
  destruct Hstep; unfold zlen in *; simpl in *; rewrite ?length_app in *; simpl; try (split; [lia|by split]); lia.
Qed.

(** ** The ring *)

Record downlink (g : ccb) (id : Z) (u : ccci_ccb_control_user) (b : ccci_ccb_control_buff)
    (dl : buffer_header) : Prop := {
  dn_user : user g = Some u;
  dn_id : 0 <= id < buffer_num u;
  dn_buff : exists l, buffers u = Some l /\ l !! Z.to_nat id = Some b;
  dn_hdr : dl_header b <> 0 /\ headers g !! dl_header b = Some dl;
  dn_ready : guard_band_e dl = TAIL_MAGIC_AFTER;
  dn_layout : layout (page_size dl) (dl_pages b) (dl_page_num b);
  dn_num : 1 < dl_page_num b;
  dn_free : 0 <= free_index dl < dl_page_num b;
  dn_read : 0 <= read_index dl < dl_page_num b;
  dn_write : 0 <= write_index dl < dl_page_num b;
  dn_order : dist (dl_page_num b) (free_index dl) (read_index dl)
             <= dist (dl_page_num b) (free_index dl) (write_index dl);
  dn_pages : forall i, i ∈ between (dl_page_num b) (read_index dl) (write_index dl) ->
    exists v, pages g !! slot (page_size dl) (dl_pages b) i = Some (PageHeader PAGE_STATUS_WRITE_DONE v)
}.

Definition dl_queue (g : ccb) (b : ccci_ccb_control_buff) (dl : buffer_header) : inbox :=
  Inbox (message (page_size dl) (dl_pages b) (pages g)
           <$> between (dl_page_num b) (free_index dl) (read_index dl))
        (message (page_size dl) (dl_pages b) (pages g)
           <$> between (dl_page_num b) (read_index dl) (write_index dl)).

Lemma dl_held_length g id u b dl : downlink g id u b dl ->
  zlen (held (dl_queue g b dl)) = dist (dl_page_num b) (free_index dl) (read_index dl).
Proof. intros Hd. destruct Hd. simpl. unfold zlen. rewrite length_fmap. by apply length_between. Qed.

(** A header change that keeps the ring well formed: the read index moves over
    a published page, or the free index up to the read index. *)
Lemma downlink_move g id u b dl dl' :
  downlink g id u b dl -> page_size dl' = page_size dl -> guard_band_e dl' = guard_band_e dl ->
  write_index dl' = write_index dl ->
  0 <= free_index dl' < dl_page_num b -> 0 <= read_index dl' < dl_page_num b ->
  dist (dl_page_num b) (free_index dl') (read_index dl') <= dist (dl_page_num b) (free_index dl') (write_index dl) ->
  (forall i, i ∈ between (dl_page_num b) (read_index dl') (write_index dl) ->
     i ∈ between (dl_page_num b) (read_index dl) (write_index dl)) ->
  downlink (put_hdr (dl_header b) dl' g) id u b dl'.
Proof.
  intros Hd Hp Hg Hw Hf Hr Ho Hin. destruct Hd. constructor; rewrite ?Hp, ?Hg, ?Hw; try done.
  - split; [apply dn_hdr0|]. unfold put_hdr. cbn [headers set_headers]. by rewrite lookup_insert_eq.
  - intros i Hi. by apply dn_pages0, Hin.
Qed.

Section Refine.
Context `{OS}.
Abbreviation W := (world ccb).

Lemma downlink_entry {A} (w : W) id u b dl (k : ccci_ccb_control_buff -> buffer_header -> prog ccb A) d1 d2 :
  downlink (w_glob w) id u b dl ->
  (g ← pget;
   match user g with
   | None => mret d1
   | Some u => if id >? buffer_num u then mret d2
               else buff ← buff_at u id; dl ← hdr_get (dl_header buff); k buff dl
   end) w = k b dl w.
Proof.
  intros Hd. destruct Hd. destruct dn_buff0 as (l & Hl & Hb). destruct dn_hdr0 as [Hp Hh].
  rewrite (bind_ok _ _ _ _ _ (pget_run w)), dn_user0.
  rewrite Z.gtb_ltb, (proj2 (Z.ltb_ge _ _)) by lia.
  rewrite (bind_ok _ _ _ _ _ (buff_at_run _ _ _ _ w Hl Hb)).
  by rewrite (bind_ok _ _ _ _ _ (hdr_get_run _ _ w Hp Hh)).
Qed.

(** The formula of the code for the pages to read. *)
Lemma read_available_run (w : W) id u b dl : downlink (w_glob w) id u b dl ->
  ccci_ccb_read_available b w = (w, Ok (dist (dl_page_num b) (read_index dl) (write_index dl))).
Proof.
  intros Hd. destruct Hd. destruct dn_hdr0 as [Hp Hh]. unfold layout, sizeof_page_header in dn_layout0.
  unfold ccci_ccb_read_available. rewrite (bind_ok _ _ _ _ _ (hdr_get_run _ _ w Hp Hh)).
  assert (dl_page_num b < 2 ^ 31) by nia. rewrite i32_small by lia. unfold mret, prog_ret. do 2 f_equal.
  unfold dist. destruct (Z.ltb_spec (write_index dl - read_index dl) 0), (Z.leb_spec (read_index dl) (write_index dl));
    try lia; rewrite u32_small; lia.
Qed.

(** The result of a call of [ccci_ccb_read_get] that does not find the ring
    broken. *)
Definition get_result (o : Z * option (Z * Z)) (l : dl_label) : Prop :=
  (exists m, o = (0, Some m) /\ l = Got m) \/ (o = (- EAGAIN, Some (0, 0)) /\ l = GotNone).

Lemma get_step (w : W) id u b dl : downlink (w_glob w) id u b dl ->
  exists w' o dl' l, ccci_ccb_read_get id w = (w', Ok o) /\ get_result o l /\
    downlink (w_glob w') id u b dl' /\ free_index dl' = free_index dl /\
    dl_step (dl_page_num b - 1) (dl_queue (w_glob w) b dl) l (dl_queue (w_glob w') b dl').
Proof.
  intros Hd. pose proof (read_available_run _ _ _ _ _ Hd) as Hav. pose proof Hd as Hd'. destruct Hd'.
  assert (ccci_ccb_read_get id w = _) as -> by exact (downlink_entry w id u b dl _ _ _ Hd).
  rewrite dn_ready0. cbn [negb Z.eqb Pos.eqb TAIL_MAGIC_AFTER]. rewrite (bind_ok _ _ _ _ _ Hav).
  destruct (Z.eqb_spec (dist (dl_page_num b) (read_index dl) (write_index dl)) 0) as [Hz|Hz].
  - apply dist_zero in Hz; [|done|done]. eexists w, _, dl, _. split; [reflexivity|].
    split; [by right|]. split_and!; try done. unfold dl_queue. rewrite Hz, between_nil. constructor.
  - assert (read_index dl <> write_index dl) as Hne by (intros Heq; by rewrite Heq, dist_refl in Hz).
    pose proof (between_cons _ _ _ dn_read0 dn_write0 Hne) as Hcons.
    destruct (dn_pages0 (read_index dl)) as [v Hv]; [rewrite Hcons; by left|].
    rewrite (get_page_slot _ _ (dl_page_num b)) by done.
    rewrite (bind_ok _ _ _ _ _ (page_get_run _ _ w Hv)). cbn [page_status negb Z.eqb Pos.eqb PAGE_STATUS_WRITE_DONE].
    destruct dn_hdr0 as [Hnz Hh]. pose proof (layout_small _ _ _ dn_layout0). rewrite next_index_next by lia.
    rewrite (bind_ok _ _ _ _ _ (hdr_put_run _ _ dl w Hnz Hh)).
    pose proof (next_range _ _ dn_read0). pose proof (dist_range _ _ _ dn_free0 dn_write0).
    pose proof (dist_range _ _ _ dn_free0 dn_read0).
    assert (dist (dl_page_num b) (free_index dl) (read_index dl) < dist (dl_page_num b) (free_index dl) (write_index dl)) as Hlt.
    { destruct (Z.eq_dec (dist (dl_page_num b) (free_index dl) (read_index dl))
        (dist (dl_page_num b) (free_index dl) (write_index dl))) as [Heq|]; [|lia].
      apply dist_inj in Heq; congruence. }
    eexists _, _, (set_read (next (dl_page_num b) (read_index dl)) dl), _. split; [reflexivity|].
    split; [left; eexists; split; reflexivity|]. cbn [w_glob set_glob]. split; [|split; [done|]].
    + apply (downlink_move _ id u b dl); cbn; try done.
      * rewrite dist_next_r by lia. lia.
      * intros i Hi. rewrite Hcons. by right.
    + unfold dl_queue. cbn [page_size set_read free_index read_index write_index pages put_hdr set_headers].
      rewrite between_snoc by (done || lia). rewrite Hcons, fmap_app, !fmap_cons.
      replace (page_buffer (slot (page_size dl) (dl_pages b) (read_index dl)), valid_length (PageHeader PAGE_STATUS_WRITE_DONE v))
        with (message (page_size dl) (dl_pages b) (pages (w_glob w)) (read_index dl))
        by (unfold message; by rewrite Hv). constructor.
Qed.

Definition done_result (r : Z) (l : dl_label) : Prop := r = 0 /\ l = Done \/ r = - EFAULT /\ l = NotDone.

Lemma done_step (w : W) id u b dl : downlink (w_glob w) id u b dl ->
  exists w' r dl' l, ccci_ccb_read_done id w = (w', Ok r) /\ done_result r l /\
    downlink (w_glob w') id u b dl' /\
    dl_step (dl_page_num b - 1) (dl_queue (w_glob w) b dl) l (dl_queue (w_glob w') b dl').
Proof.
  intros Hd. pose proof (dl_held_length _ _ _ _ _ Hd) as Hlen. pose proof Hd as Hd'. destruct Hd'.
  assert (ccci_ccb_read_done id w = _) as -> by exact (downlink_entry w id u b dl _ _ _ Hd).
  rewrite dn_ready0. cbn [negb Z.eqb Pos.eqb TAIL_MAGIC_AFTER].
  pose proof (layout_small _ _ _ dn_layout0). pose proof (next_range _ _ dn_free0) as Hnr.
  fold (next_index (dl_page_num b) (free_index dl)). rewrite next_index_next by lia.
  pose proof (dist_range _ _ _ dn_free0 dn_read0). pose proof (dist_range _ _ _ dn_free0 dn_write0).
  destruct (Z.eqb_spec (read_index dl) (next (dl_page_num b) (free_index dl))) as [Heq|Hne]; cbn [negb].
  - destruct dn_hdr0 as [Hnz Hh]. rewrite (bind_ok _ _ _ _ _ (hdr_put_run _ _ dl w Hnz Hh)).
    eexists _, 0, (set_free (next (dl_page_num b) (free_index dl)) dl), Done. split; [reflexivity|].
    split; [by left|]. cbn [w_glob set_glob]. rewrite <- Heq. split.
    + apply (downlink_move _ id u b dl); cbn; try done. rewrite dist_refl. by apply dist_range.
    + unfold dl_queue. cbn [page_size set_free free_index read_index write_index pages put_hdr set_headers].
      rewrite between_nil, (between_cons _ (free_index dl)), <- Heq, between_nil; try done; [constructor|].
      rewrite Heq. unfold next. destruct (Z.geb_spec (free_index dl + 1) (dl_page_num b)); lia.
  - exists w, (- EFAULT), dl, NotDone. split; [reflexivity|]. split; [by right|]. split; [done|].
    apply dl_refuse. intros Hone. change (zlen (held (dl_queue (w_glob w) b dl)) = 1) in Hone. apply Hne.
    apply (dist_inj (dl_page_num b) (free_index dl)); try done. rewrite dist_next_r by (rewrite ?dist_refl; lia).
    rewrite dist_refl. lia.
Qed.

(** ** What the modem does *)

(** The modem fills the next page and moves the write index over it, when that
    leaves one page free. *)
Inductive publishes (b : ccci_ccb_control_buff) (dl : buffer_header) (g : ccb) : ccb -> Prop :=
| publishes_one v :
    dist (dl_page_num b) (free_index dl) (write_index dl) < dl_page_num b - 1 ->
    publishes b dl g
      (put_hdr (dl_header b) (set_write (next (dl_page_num b) (write_index dl)) dl)
         (put_page (slot (page_size dl) (dl_pages b) (write_index dl)) (PageHeader PAGE_STATUS_WRITE_DONE v) g)).

Lemma publish_step g g' id u b dl :
  downlink g id u b dl -> publishes b dl g g' ->
  exists dl' m, downlink g' id u b dl' /\ free_index dl' = free_index dl /\
    dl_step (dl_page_num b - 1) (dl_queue g b dl) (Publish m) (dl_queue g' b dl').
Proof.
  intros Hd [v Hroom]. pose proof (dl_held_length _ _ _ _ _ Hd) as Hlen. pose proof Hd as Hd'. destruct Hd'.
  set (n := dl_page_num b) in *. pose proof (layout_pos _ _ _ dn_layout0) as Hps.
  pose proof (dist_range n _ _ dn_free0 dn_read0). pose proof (next_range n _ dn_write0).
  assert (dist n (read_index dl) (write_index dl) < n - 1) as Hroom2
    by (rewrite (dist_split n (free_index dl) (read_index dl)) by done; lia).
  assert (between n (read_index dl) (next n (write_index dl)) =
    between n (read_index dl) (write_index dl) ++ [write_index dl]) as Hsnoc by by apply between_snoc.
  assert (write_index dl ∉ between n (free_index dl) (read_index dl)) as Hn1.
  { rewrite elem_between by done. lia. }
  assert (write_index dl ∉ between n (read_index dl) (write_index dl)) as Hn2.
  { rewrite elem_between by done. lia. }
  exists (set_write (next n (write_index dl)) dl), (page_buffer (slot (page_size dl) (dl_pages b) (write_index dl)), v).
  split; [|split; [done|]].
  - constructor; cbn [page_size guard_band_e set_write free_index read_index write_index]; try done; fold n.
    + split; [apply dn_hdr0|]. unfold put_hdr. cbn [headers set_headers]. by rewrite lookup_insert_eq.
    + rewrite dist_next_r by (done || lia). lia.
    + rewrite Hsnoc. intros i [Hi| ->%list_elem_of_singleton]%elem_of_app; cbn.
      * rewrite lookup_insert_ne; [by apply dn_pages0|]. intros Heq%slot_inj; [|done]. by subst i.
      * rewrite lookup_insert_eq. by exists v.
  - unfold dl_queue. cbn [page_size set_write free_index read_index write_index pages put_hdr set_headers put_page set_pages].
    fold n. rewrite Hsnoc, fmap_app, !message_insert by done. cbn [fmap list_fmap].
    replace (message _ _ _ (write_index dl)) with (page_buffer (slot (page_size dl) (dl_pages b) (write_index dl)), v)
      by (unfold message; by rewrite lookup_insert_eq).
    apply dl_publish. rewrite (dist_split n (free_index dl) (read_index dl)) in Hroom2 by done.
    unfold zlen. rewrite !length_fmap.
    fold (zlen (between n (free_index dl) (read_index dl))) (zlen (between n (read_index dl) (write_index dl))).
    rewrite !length_between by done. rewrite (dist_split n (free_index dl) (read_index dl)) by done. lia.
Qed.

(** ** Executions *)

Section Execution.
Context (id : Z) (u : ccci_ccb_control_user) (b : ccci_ccb_control_buff).
Context (modem : ccb -> ccb -> Prop).
Context (modem_publishes : forall g g' dl, modem g g' -> downlink g id u b dl -> publishes b dl g g').

Inductive dl_call :=
| CallGet (o : outcome (Z * option (Z * Z)))
| CallReadDone (o : outcome Z)
| ModemWrites.

Inductive dl_execution : W -> list dl_call -> W -> Prop :=
| dx_nil w : dl_execution w [] w
| dx_get w cs w1 w2 o :
    dl_execution w cs w1 -> ccci_ccb_read_get id w1 = (w2, o) -> dl_execution w (cs ++ [CallGet o]) w2
| dx_done w cs w1 w2 o :
    dl_execution w cs w1 -> ccci_ccb_read_done id w1 = (w2, o) -> dl_execution w (cs ++ [CallReadDone o]) w2
| dx_modem w cs w1 g :
    dl_execution w cs w1 -> modem (w_glob w1) g -> dl_execution w (cs ++ [ModemWrites]) (set_glob g w1).

Definition dl_call_label (c : dl_call) (l : dl_label) : Prop :=
  match c with
  | CallGet o => exists r, o = Ok r /\ get_result r l
  | CallReadDone o => exists r, o = Ok r /\ done_result r l
  | ModemWrites => exists m, l = Publish m
  end.

Lemma dl_execution_refines w dl cs w' :
  downlink (w_glob w) id u b dl -> dl_execution w cs w' ->
  exists ls dl', Forall2 dl_call_label cs ls /\ downlink (w_glob w') id u b dl' /\
    dl_run (dl_page_num b - 1) (dl_queue (w_glob w) b dl) ls (dl_queue (w_glob w') b dl').
Proof.
  intros Hd Hex. induction Hex as [w|w cs w1 w2 o Hex IH Hrun|w cs w1 w2 o Hex IH Hrun|w cs w1 g Hex IH Hm].
  - exists [], dl. split_and!; try done. constructor.
  - destruct (IH Hd) as (ls & dl1 & Hls & Hd1 & Hq).
    destruct (get_step _ _ _ _ _ Hd1) as (w2' & r & dl2 & l & Hrun' & Hr & Hd2 & _ & Hstep).
    rewrite Hrun in Hrun'. injection Hrun' as -> ->. exists (ls ++ [l]), dl2.
    split_and!; [apply Forall2_app; [done|constructor; [by exists r|constructor]]|done|by eapply dl_snoc].
  - destruct (IH Hd) as (ls & dl1 & Hls & Hd1 & Hq).
    destruct (done_step _ _ _ _ _ Hd1) as (w2' & r & dl2 & l & Hrun' & Hr & Hd2 & Hstep).
    rewrite Hrun in Hrun'. injection Hrun' as -> ->. exists (ls ++ [l]), dl2.
    split_and!; [apply Forall2_app; [done|constructor; [by exists r|constructor]]|done|by eapply dl_snoc].
  - destruct (IH Hd) as (ls & dl1 & Hls & Hd1 & Hq).
    destruct (publish_step _ _ _ _ _ _ Hd1 (modem_publishes _ _ _ Hm Hd1)) as (dl2 & m & Hd2 & _ & Hstep).
    exists (ls ++ [Publish m]), dl2.
    split_and!; [apply Forall2_app; [done|constructor; [by exists m|constructor]]|done|by eapply dl_snoc].
Qed.

(** Claim C10.  The downlink ring of a registered user hands out what the modem
    publishes.  From an empty ring, through any calls of [ccci_ccb_read_get] and
    [ccci_ccb_read_done] interleaved with a modem that only publishes into free
    pages: every call returns, [ccci_ccb_read_get] with the oldest published
    message or, when there is none, -EAGAIN; the messages come in the order of
    their publication, none lost or repeated; [ccci_ccb_read_done] gives a page
    back exactly when one is held and answers -EFAULT otherwise. *)
Theorem downlink_order w dl cs w' :
  downlink (w_glob w) id u b dl ->
  free_index dl = read_index dl -> read_index dl = write_index dl ->
  dl_execution w cs w' ->
  exists ls dl', Forall2 dl_call_label cs ls /\ downlink (w_glob w') id u b dl' /\
    dl_run (dl_page_num b - 1) (Inbox [] []) ls (dl_queue (w_glob w') b dl') /\
    omap got ls ++ ready (dl_queue (w_glob w') b dl') = omap sent ls.
Proof.
  intros Hd Hf Hr Hex. destruct (dl_execution_refines _ _ _ _ Hd Hex) as (ls & dl' & Hls & Hd' & Hq).
  assert (dl_queue (w_glob w) b dl = Inbox [] []) as Hempty.
  { unfold dl_queue. by rewrite Hf, Hr, !between_nil. }
  rewrite Hempty in Hq. pose proof (dl_run_order _ _ _ _ Hq). by exists ls, dl'.
Qed.

(** A client that holds two messages has lost the ring: whatever it
    calls and whatever the modem publishes, no call of [ccci_ccb_read_done]
    succeeds again, and the messages stay held. *)
Theorem two_reads_stick w dl cs w' :
  downlink (w_glob w) id u b dl -> 2 <= zlen (held (dl_queue (w_glob w) b dl)) ->
  dl_execution w cs w' ->
  (forall o, CallReadDone o ∈ cs -> o = Ok (- EFAULT)) /\
  exists dl', downlink (w_glob w') id u b dl' /\ 2 <= zlen (held (dl_queue (w_glob w') b dl')).
Proof.
  intros Hd Hh Hex. destruct (dl_execution_refines _ _ _ _ Hd Hex) as (ls & dl' & Hls & Hd' & Hq).
  destruct (dl_run_stuck _ _ _ _ Hq Hh) as [Hh' Hnd]. split; [|by exists dl'].
  intros o [k Hk]%list_elem_of_lookup. destruct (Forall2_lookup_l _ _ _ _ _ Hls Hk) as (l & Hl & r & -> & Hr).
  destruct Hr as [[-> ->]|[-> _]]; [|done]. destruct Hnd. by eapply list_elem_of_lookup_2.
Qed.
End Execution.
End Refine.

(** ** The demonstration *)

Lemma demo_modem_publishes g g' dl :
  demo_modem_dl g g' -> downlink g 0 demo_user demo_buff dl -> publishes demo_buff dl g g'.
Proof.
  intros Hm Hd. destruct (dn_hdr _ _ _ _ _ Hd) as [_ Hh]. cbn [dl_header demo_buff] in Hh.
  unfold demo_modem_dl, modem_fill in Hm. rewrite Hh in Hm. cbn [mbind option_bind] in Hm.
  destruct (Z.ltb_spec (dist 4 (free_index dl) (write_index dl)) (4 - 1)) as [Hlt|]; [|done]. injection Hm as <-.
  by apply (publishes_one demo_buff dl g 9).
Qed.

Lemma demo_downlink : downlink (w_glob demo_registered) 0 demo_user demo_buff demo_dl.
Proof.
  constructor; try (vm_compute; done).
  - by exists [demo_buff].
  - intros i Hi. change (i ∈ @nil Z) in Hi. exact (False_ind _ (not_elem_of_nil i Hi)).
Qed.

(** The calls of a client, and the writes of the modem, from the demonstration. *)
Definition demo_reads : list dl_call :=
  [ModemWrites; CallGet (Ok (0, Some (8200, 9))); CallGet (Ok (- EAGAIN, Some (0, 0)));
   CallReadDone (Ok 0); ModemWrites; ModemWrites; CallGet (Ok (0, Some (8264, 9)));
   CallGet (Ok (0, Some (8328, 9)))].

Lemma demo_reads_run : exists w', @dl_execution CcbOS 0 demo_modem_dl demo_registered demo_reads w' /\
  dl_queue (w_glob w') demo_buff (set_write 3 (set_read 3 (set_free 1 demo_dl))) = Inbox [(8264, 9); (8328, 9)] [] /\
  headers (w_glob w') !! 4096 = Some (set_write 3 (set_read 3 (set_free 1 demo_dl))).
Proof.
  eexists. split.
  - change demo_reads with (((((((([] ++ [ModemWrites]) ++ [CallGet (Ok (0, Some (8200, 9)))])
      ++ [CallGet (Ok (- EAGAIN, Some (0, 0)))]) ++ [CallReadDone (Ok 0)]) ++ [ModemWrites]) ++ [ModemWrites])
      ++ [CallGet (Ok (0, Some (8264, 9)))]) ++ [CallGet (Ok (0, Some (8328, 9)))]).
    eapply dx_get; [eapply dx_get; [eapply dx_modem; [eapply dx_modem; [eapply dx_done; [eapply dx_get;
      [eapply dx_get; [eapply dx_modem; [apply dx_nil|]|]|]|]|]|]|]|];
    first [apply run_ok; vm_compute; reflexivity | unfold demo_modem_dl; vm_compute; reflexivity].
  - split; vm_compute; reflexivity.
Qed.

Lemma downlink_order_witness : exists (w' : @world CcbOS ccb) (ls : list dl_label) dl',
  Forall2 dl_call_label demo_reads ls /\
  omap got ls ++ ready (dl_queue (w_glob w') demo_buff dl') = omap sent ls.
Proof.
  destruct demo_reads_run as (w' & Hex & _). exists w'.
  destruct (@downlink_order CcbOS 0 demo_user demo_buff demo_modem_dl demo_modem_publishes demo_registered demo_dl
    demo_reads w' demo_downlink eq_refl eq_refl Hex) as (ls & dl' & Hls & _ & _ & Ho).
  by exists ls, dl'.
Defined.

(** Two messages are held after [demo_reads]: the next release fails. *)
Lemma two_reads_stick_witness : exists (w w' : @world CcbOS ccb) dl,
  held (dl_queue (w_glob w) demo_buff dl) = [(8264, 9); (8328, 9)] /\
  @dl_execution CcbOS 0 demo_modem_dl w [CallReadDone (Ok (- EFAULT))] w' /\
  forall o, CallReadDone o ∈ [CallReadDone (Ok (- EFAULT))] -> o = Ok (- EFAULT).
Proof.
  destruct demo_reads_run as (w & Hex & Hq & Hh).
  destruct (@dl_execution_refines CcbOS 0 demo_user demo_buff demo_modem_dl demo_modem_publishes demo_registered demo_dl
    demo_reads w demo_downlink Hex) as (ls & dl & _ & Hd & _).
  destruct (dn_hdr _ _ _ _ _ Hd) as [_ Hh']. cbn [dl_header demo_buff] in Hh'. rewrite Hh in Hh'. injection Hh' as <-.
  assert (2 <= zlen (held (dl_queue (w_glob w) demo_buff (set_write 3 (set_read 3 (set_free 1 demo_dl)))))) as H2
    by (rewrite Hq; done).
  destruct (@done_step CcbOS w 0 demo_user demo_buff _ Hd) as (w' & r & dl' & l & Hrun & _ & _ & _).
  assert (r = - EFAULT) as ->.
  { assert (dl_execution 0 demo_modem_dl w ([] ++ [CallReadDone (Ok r)]) w') as Hex' by (eapply dx_done; [apply dx_nil|done]).
    destruct (@two_reads_stick CcbOS 0 demo_user demo_buff demo_modem_dl demo_modem_publishes w _ _ w' Hd H2 Hex') as [Ho _].
    specialize (Ho (Ok r) ltac:(by left)). by injection Ho. }
  exists w, w', (set_write 3 (set_read 3 (set_free 1 demo_dl))).
  assert (dl_execution 0 demo_modem_dl w ([] ++ [CallReadDone (Ok (- EFAULT))]) w') as Hex' by (eapply dx_done; [apply dx_nil|done]).
  split; [by rewrite Hq|]. split; [exact Hex'|].
  exact (proj1 (@two_reads_stick CcbOS 0 demo_user demo_buff demo_modem_dl demo_modem_publishes w _ _ w' Hd H2 Hex')).
Defined.
