(* ===== verification/CcbLayout.v ===== *)
(** * ccci_lib: what registration establishes

    A successful [ccci_ccb_register] has laid the rings of the user's buffers
    out one behind the other, the headers in the control memory and the pages in
    the data memory, the downlinks empty, the uplinks with no page reserved that is
    not published ([register_layout]).  The ring of such a buffer is the start of
    the executions of CcbQueue.v once the modem is ready ([registered_uplink]). *)
From S2P Require Import Prelude Posix CcciIntf MemFs RingSeg CcbTypes CcbRing CcbSetup CcbDemo CcbQueue.

(** One buffer: its headers are at [ptr], its pages from [data] on. *)
Record buffer_layout (g : ccb) (ptr data : Z) (b : ccci_ccb_control_buff) (dl ul : buffer_header) : Prop := {
  bl_buff : b = ControlBuff (data_buffer_size dl / page_size dl) (data_buffer_size ul / page_size ul)
                  ptr (ptr + sizeof_buffer_header) data (data + data_buffer_size dl);
  bl_dl : headers g !! ptr = Some dl;
  bl_ul : headers g !! (ptr + sizeof_buffer_header) = Some ul;
  bl_null : ptr <> 0 /\ ptr + sizeof_buffer_header <> 0;
  (** the downlink is flushed; in the uplink nothing is reserved that is not
      published, what is published and not yet released stays *)
  bl_dl_empty : read_index dl = write_index dl /\ free_index dl = write_index dl;
  bl_ul_unreserved : allocate_index ul = write_index ul;
  bl_ready : guard_band dl <> 0 /\ guard_band ul <> 0;
  bl_tails : guard_band_e dl = TAIL_MAGIC_AFTER /\ guard_band_e ul = TAIL_MAGIC_AFTER;
  bl_sizes : page_size dl <> 0 /\ page_size ul <> 0
}.

(** The buffers of a user, each behind the one before. *)
Fixpoint layout_chain (g : ccb) (ptr data : Z) (l : list ccci_ccb_control_buff) : Prop :=
  match l with
  | [] => True
  | b :: l' => exists dl ul, buffer_layout g ptr data b dl ul /\
      layout_chain g (ptr + 2 * sizeof_buffer_header)
        (data + data_buffer_size dl + data_buffer_size ul) l'
  end.

(** What [ccci_ccb_register] leaves when it answers a number of buffers. *)
Definition registered (g : ccb) (n : Z) : Prop :=
  exists u l, user g = Some u /\ buffers u = Some l /\ zlen l = n /\ buffer_num u = n /\
    layout_chain g (ctrl_base_address u + ctrl_offset (ctrl_info u) * sizeof_buffer_header * 2)
      (base_address u) l.

(** A buffer does not depend on the headers behind its own. *)
Lemma buffer_layout_frame g g' ptr data b dl ul :
  (forall p, p < ptr + 2 * sizeof_buffer_header -> headers g' !! p = headers g !! p) ->
  buffer_layout g ptr data b dl ul -> buffer_layout g' ptr data b dl ul.
Proof.
  intros Heq Hb. destruct Hb. constructor; try done; rewrite Heq by (unfold sizeof_buffer_header; lia); done.
Qed.

Section Layout.
Context `{OS}.
Context (junk : Z -> list Z).
Abbreviation W := (world ccb).
Abbreviation any := (fun _ _ => True).

(** Accesses under [wp]. *)
Lemma wp_hdr_get p (Q : buffer_header -> W -> Prop) w :
  (forall h, p <> 0 -> headers (w_glob w) !! p = Some h -> Q h w) -> wp (hdr_get p) Q any w.
Proof.
  intros HQ. unfold hdr_get. destruct (Z.eqb_spec p 0); [done|]. apply wp_bind, wp_get.
  destruct (headers (w_glob w) !! p) as [h|] eqn:Hh; [|done]. by apply HQ.
Qed.

Lemma wp_hdr_put p h (Q : unit -> W -> Prop) w :
  (p <> 0 -> Q tt (set_glob (put_hdr p h (w_glob w)) w)) -> wp (hdr_put p h) Q any w.
Proof. intros HQ. apply wp_bind, wp_hdr_get. intros h0 Hp _. apply wp_mod. by apply HQ. Qed.

Lemma wp_hdr_mod p f (Q : unit -> W -> Prop) w :
  (forall h, p <> 0 -> headers (w_glob w) !! p = Some h -> Q tt (set_glob (put_hdr p (f h) (w_glob w)) w)) ->
  wp (hdr_mod p f) Q any w.
Proof. intros HQ. apply wp_bind, wp_hdr_get. intros h Hp Hh. apply wp_hdr_put. intros _. by apply HQ. Qed.

Lemma wp_upd_user f u (Q : ccci_ccb_control_user -> W -> Prop) w :
  user (w_glob w) = Some u -> Q (f u) (set_glob (set_user (Some (f u)) (w_glob w)) w) ->
  wp (upd_user f) Q any w.
Proof.
  intros Hu HQ. apply wp_bind, wp_get. rewrite Hu. by apply wp_bind, wp_mod, wp_ret.
Qed.

Lemma wp_buff_at u id l (Q : ccci_ccb_control_buff -> W -> Prop) w :
  buffers u = Some l -> (forall b, l !! Z.to_nat id = Some b -> Q b w) -> wp (buff_at u id) Q any w.
Proof.
  intros Hl HQ. unfold buff_at. rewrite Hl. destruct (l !! Z.to_nat id) as [b|] eqn:Hb; [|done]. by apply HQ.
Qed.

Lemma wp_pdiv a c (Q : Z -> W -> Prop) w : (c <> 0 -> Q (a / c) w) -> wp (pdiv a c) Q any w.
Proof. intros HQ. unfold pdiv. destruct (Z.eqb_spec c 0); [done|]. by apply wp_ret, HQ. Qed.

(** A registered buffer is the start of CcbQueue.v: its uplink ring has nothing
    under construction and is well formed once the modem is ready, with its
    indices in the ring, its pages there and none of them left allocated. *)
Lemma layout_chain_lookup g l : forall ptr data i b,
  layout_chain g ptr data l -> l !! i = Some b -> exists p d dl ul, buffer_layout g p d b dl ul.
Proof.
  induction l as [|b0 l IH]; intros ptr data [|i] b; simpl; [done|done| |].
  - intros (dl & ul & Hb & _) [= ->]. eauto.
  - intros (dl & ul & _ & Hl) Hi. by eapply IH.
Qed.

Lemma registered_uplink g n id u l b ul ports c :
  registered g n -> user g = Some u -> buffers u = Some l -> 0 <= id < n -> l !! Z.to_nat id = Some b ->
  headers g !! ul_header b = Some ul -> guard_band ul = HEADER_MAGIC_AFTER ->
  layout (page_size ul) (ul_pages b) (ul_page_num b) ->
  0 <= free_index ul < ul_page_num b -> 0 <= write_index ul < ul_page_num b ->
  (forall i, 0 <= i < ul_page_num b -> exists p,
     pages g !! slot (page_size ul) (ul_pages b) i = Some p /\ page_status p <> PAGE_STATUS_ALLOC) ->
  ccci_ccb_ports g = Some ports -> 0 < ccb_info_len g <= zlen ports ->
  query_config_loop (ccb_index (user_id u)) id 0 (take (Z.to_nat (ccb_info_len g)) ports) = Some c ->
  uplink g id u b ul /\ write_index ul = allocate_index ul.
Proof.
  intros (u' & l' & Hu & Hl & Hlen & Hn & Hchain) Hu' Hl' Hid Hb Hul Hready Hlay Hfree Hwrite Hpages Hports Hinfo Hc.
  rewrite Hu in Hu'. injection Hu' as <-. rewrite Hl in Hl'. injection Hl' as <-.
  destruct (layout_chain_lookup _ _ _ _ _ _ Hchain Hb) as (p & d & dl & ul' & Hbl). destruct Hbl.
  assert (ul_header b = p + sizeof_buffer_header) as Hp by (by subst b).
  rewrite Hp, bl_ul0 in Hul. injection Hul as ->. split; [|done].
  constructor; rewrite ?bl_ul_unreserved0, ?between_nil; try done; try lia.
  - by eexists.
  - rewrite Hp. tauto.
  - unfold md_ready. rewrite Hready. by rewrite (proj2 bl_tails0).
  - intros i Hi. destruct (Hpages i Hi) as (q & Hq & _). by exists q.
  - by intros i q []%elem_of_nil.
  - intros i q Hi _ Hq. destruct (Hpages i Hi) as (q' & Hq' & Hs). rewrite Hq in Hq'. by injection Hq' as <-.
  - exists ports, c. split_and!; [lia|done|lia|lia|done].
Qed.

Lemma set_buff_twice i b b' u : set_buff i b (set_buff i b' u) = set_buff i b u.
Proof.
  unfold set_buff, set_buffers. destruct u as [? ? ? ? ? ? ? ? [l|]]; simpl; [|done].
  by rewrite list_insert_insert_eq.
Qed.

(** Registering one buffer: the user's [i]-th entry, the two headers, nothing
    else. *)
Definition buffer_registered (i ptr data : Z) (u : ccci_ccb_control_user) (g g' : ccb)
    (data' : Z) : Prop :=
  exists b dl ul, buffer_layout g' ptr data b dl ul /\
    user g' = Some (set_buff i b u) /\ data' = data + data_buffer_size dl + data_buffer_size ul /\
    (forall p, p <> ptr -> p <> ptr + sizeof_buffer_header -> headers g' !! p = headers g !! p).

Lemma register_buffer_wp i ptr data u l w :
  user (w_glob w) = Some u -> buffers u = Some l -> 0 <= i < zlen l ->
  wp (register_buffer i ptr data)
    (fun r w' => r.1 = true -> buffer_registered i ptr data u (w_glob w) (w_glob w') r.2) any w.
Proof.
  intros Hu Hl Hi. unfold register_buffer.
  apply wp_bind, (wp_upd_user _ u); [done|]. apply wp_bind, wp_bind, wp_get. cbn [w_glob set_glob set_user user].
  apply wp_bind, (wp_buff_at _ _ (<[Z.to_nat i := ControlBuff 0 0 ptr 0 0 0]> l)); [cbn; by rewrite Hl|].
  rewrite list_lookup_insert_eq by (unfold zlen in Hi; lia). intros b [= <-]. cbn [dl_header].
  apply wp_bind, wp_hdr_get. intros dl0 Hnz Hdl0. apply wp_bind, wp_hdr_put. intros _. apply wp_ret.
  apply wp_bind, wp_hdr_mod. intros dl1 _ Hdl1. cbn in Hdl1. rewrite lookup_insert_eq in Hdl1. injection Hdl1 as <-.
  apply wp_bind, wp_hdr_get. intros dl2 _ Hdl2. cbn in Hdl2. rewrite lookup_insert_eq in Hdl2. injection Hdl2 as <-.
  cbn [guard_band set_free set_read]. destruct (Z.eqb_spec (guard_band dl0) 0) as [|Hgd]; [by apply wp_ret|].
  cbn [page_size data_buffer_size set_free set_read]. apply wp_bind, wp_pdiv. intros Hpd.
  apply wp_bind, wp_hdr_put. intros _.
  apply wp_bind, (wp_upd_user _ (set_buff i (ControlBuff 0 0 ptr 0 0 0) u)); [done|].
  apply wp_bind, wp_hdr_mod. intros ul0 Hnz2 Hul0.
  apply wp_bind, wp_hdr_get. intros ul1 _ Hul1. cbn in Hul1. rewrite lookup_insert_eq in Hul1. injection Hul1 as <-.
  cbn [guard_band set_allocate]. destruct (Z.eqb_spec (guard_band ul0) 0) as [|Hgu]; [by apply wp_ret|].
  cbn [page_size data_buffer_size set_allocate]. apply wp_bind, wp_pdiv. intros Hpu.
  apply wp_bind, wp_hdr_put. intros _. rewrite set_buff_twice.
  apply wp_bind, (wp_upd_user _ (set_buff i (ControlBuff (data_buffer_size dl0 / page_size dl0) 0 ptr
    (ptr + sizeof_buffer_header) data 0) u)); [done|].
  apply wp_ret. intros _. rewrite set_buff_twice.
  eexists _, (set_guard_e TAIL_MAGIC_AFTER (set_free (write_index dl0) (set_free (write_index dl0) (set_read (write_index dl0) dl0)))),
    (set_guard_e TAIL_MAGIC_AFTER (set_allocate (write_index ul0) ul0)).
  split_and!; cbn [w_glob set_glob]; [|done|done|].
  - constructor; try done.
    + cbn. rewrite !lookup_insert_ne by (unfold sizeof_buffer_header; lia). by rewrite lookup_insert_eq.
    + cbn. by rewrite lookup_insert_eq.
  - intros p Hp1 Hp2. cbn. by rewrite !lookup_insert_ne by congruence.
Qed.

Lemma set_buffers_twice n l n' l' u : set_buffers n l (set_buffers n' l' u) = set_buffers n l u.
Proof. done. Qed.

Lemma register_buffers_wp n : forall i ptr data u l w,
  user (w_glob w) = Some u -> buffers u = Some l -> 0 <= i -> i + Z.of_nat n = zlen l ->
  wp (register_buffers n i ptr data)
    (fun ok w' => ok = true -> exists bs, length bs = n /\
       user (w_glob w') = Some (set_buffers (buffer_num u) (Some (take (Z.to_nat i) l ++ bs)) u) /\
       layout_chain (w_glob w') ptr data bs /\
       (forall p, p < ptr -> headers (w_glob w') !! p = headers (w_glob w) !! p)) any w.
Proof.
  induction n as [|n IH]; intros i ptr data u l w Hu Hl Hi Hlen; cbn [register_buffers].
  - apply wp_ret. intros _. exists []. split_and!; try done. rewrite Hu, app_nil_r, take_ge by (unfold zlen in Hlen; lia).
    by destruct u; simpl in Hl |- *; subst.
  - apply wp_bind. eapply wp_mono; [apply (register_buffer_wp i ptr data u l); [done|done|lia]| |done].
    intros [ok data'] w1 Hreg. destruct ok; [|by apply wp_ret].
    destruct (Hreg eq_refl) as (b & dl & ul & Hb & Hu1 & Hdata & Hframe). cbn in Hdata.
    eapply wp_mono; [apply (IH (i + 1) (ptr + 2 * sizeof_buffer_header) data' (set_buff i b u) (<[Z.to_nat i := b]> l)); [exact Hu1|cbn; by rewrite Hl|lia|]| |done].
    { unfold zlen in *. rewrite length_insert. lia. }
    intros ok w2 Hrest Hok. destruct (Hrest Hok) as (bs & Hbs & Hu2 & Hchain & Hframe2).
    exists (b :: bs). split_and!; [simpl; by rewrite Hbs| | |].
    + rewrite Hu2. unfold set_buff. rewrite set_buffers_twice. cbn [buffer_num set_buffers]. do 2 f_equal.
      replace (Z.to_nat (i + 1)) with (S (Z.to_nat i)) by lia.
      rewrite (take_S_r _ _ b) by (apply list_lookup_insert_eq; unfold zlen in Hlen; lia).
      rewrite take_insert_ge, <- app_assoc by lia. done.
    + exists dl, ul. rewrite Hdata in Hchain. split; [|done]. eapply buffer_layout_frame; [|done]. done.
    + intros p Hp. rewrite Hframe2 by (unfold sizeof_buffer_header; lia).
      apply Hframe; unfold sizeof_buffer_header; lia.
Qed.

(** The parts of the registration that leave [user] alone. *)
Definition user_is (u : ccci_ccb_control_user) (w : W) : Prop := user (w_glob w) = Some u.

Lemma wp_any {A} (m : prog ccb A) w : wp m (fun _ _ => True) any w.
Proof. unfold wp. by destruct (m w) as [? []]. Qed.

Lemma wp_user_kept {A B} u (m : prog ccb A) (k : A -> prog ccb B) Q w :
  preserves (user_is u) m -> user_is u w -> (forall a w', user_is u w' -> wp (k a) Q any w') ->
  wp (m ≫= k) Q any w.
Proof. intros Hm Hw Hk. apply wp_bind. eapply wp_mono; [by apply Hm| |done]. intros a w'. apply Hk. Qed.

Lemma user_sys {T} u (c : sys T) : preserves (user_is u) (psys c).
Proof. intros w Hw. apply wp_keeps; [apply keeps_sys|]. intros a w' Heq. unfold user_is. by rewrite Heq. Qed.

Lemma user_mod u f : (forall g, user (f g) = user g) -> preserves (user_is u) (pmod f).
Proof. intros Hf w Hw. apply wp_mod. unfold user_is. cbn. by rewrite Hf. Qed.

Lemma user_configs u fd n : forall i, preserves (user_is u) (get_configs junk fd n i).
Proof.
  induction n as [|n IH]; intros i; cbn [get_configs]; [pres|].
  apply preserves_bind; [apply user_sys|]. intros [? c]. apply preserves_bind; [apply IH|]. intros ?; pres.
Qed.

Lemma user_ctrl_get u info a : preserves (user_is u) (ccci_ccb_ctrl_get junk info a).
Proof.
  unfold ccci_ccb_ctrl_get. repeat (first [apply user_sys | apply user_configs | by apply user_mod | pres_step]); pres.
Qed.

Lemma user_node u id t : preserves (user_is u) (node_at id t).
Proof. unfold node_at. pres. Qed.

Lemma user_node_name u id md : preserves (user_is u) (ccci_get_node_name id md).
Proof.
  unfold ccci_get_node_name, ccci_get_version.
  repeat (first [apply user_sys | apply user_node | pres_step]); pres.
Qed.

Lemma user_smem_get u md id a l : preserves (user_is u) (ccci_smem_get md id a l).
Proof.
  unfold ccci_smem_get. repeat (first [apply user_sys | apply user_node_name | pres_step]); pres.
Qed.

Lemma user_ports u : preserves (user_is u) ccb_ports.
Proof. unfold ccb_ports. pres. Qed.

(** Registration answers a count, or an error. *)
Definition register_post (r : Z) (w' : W) : Prop := r < 0 \/ 0 < r /\ registered (w_glob w') r.

Lemma register_fail_wp e w : e < 0 -> wp (register_fail e) register_post any w.
Proof.
  intros He. apply wp_bind. eapply wp_mono; [apply wp_any| |done]. intros _ w' _. apply wp_ret. by left.
Qed.

Lemma register_wp md id w : wp (ccci_ccb_register junk md id) register_post any w.
Proof.
  unfold ccci_ccb_register. destruct (md =? MD_SYS1); cbn [negb]; [|by apply wp_ret; left].
  apply wp_bind. eapply wp_mono; [apply wp_any| |done]. intros _ w1 _.
  apply wp_bind. eapply wp_mono; [apply wp_any| |done]. intros ok w2 _.
  destruct ok; cbn [negb]; [|by apply wp_ret; left].
  apply wp_bind, wp_mod.
  apply (wp_user_kept user_zero); [apply user_smem_get|done|]. intros [[sfd a] len] w3 H3.
  apply wp_bind, (wp_upd_user _ user_zero); [done|]. cbn [fd set_smem user_zero].
  destruct (sfd <? 0); [by apply wp_bind, wp_mod, wp_ret; left|].
  eapply wp_user_kept; [apply user_sys|done|]. intros [r data] w4 H4.
  destruct (negb (data =? CCB_USER_OK)); [by apply register_fail_wp|].
  eapply wp_user_kept; [apply user_ctrl_get|done|]. intros [[cfd info] base] w5 H5.
  apply wp_bind. eapply wp_upd_user; [done|]. cbn [ctrl_fd set_ctrl].
  destruct (cfd <? 0); [by apply register_fail_wp|].
  eapply wp_user_kept; [apply user_ports|done|]. intros ports w6 H6.
  apply wp_bind. eapply wp_upd_user; [done|].
  destruct (Z.eqb_spec (count_buffers (ccb_index id) ports) 0) as [|Hn]; [by apply register_fail_wp|].
  set (n := count_buffers (ccb_index id) ports) in *.
  assert (0 < n) as Hpos by (unfold n, count_buffers, zlen in *; lia).
  eapply wp_user_kept; [apply user_sys|done|]. intros ok w7 H7. destruct ok; cbn [negb]; [|by apply register_fail_wp].
  apply wp_bind. eapply wp_upd_user; [done|]. apply wp_bind. eapply wp_upd_user; [done|].
  apply wp_bind. eapply wp_mono; [eapply register_buffers_wp; [done|done|done|]| |done].
  { unfold zlen. rewrite length_replicate. lia. }
  intros ok w8 H8. destruct ok; cbn [negb]; [|by apply register_fail_wp].
  apply wp_ret. right. split; [done|]. destruct (H8 eq_refl) as (bs & Hbs & Hu & Hchain & _).
  do 2 eexists. split; [exact Hu|]. split_and!; [done| |done|exact Hchain].
  unfold zlen. simpl. lia.
Qed.

(** Claim C24.  A registration that answers [n >= 0] has registered [n > 0]
    buffers: each has its two headers in the control memory and its pages in the
    data memory behind those of the buffer before it, as many as fit the sizes
    the headers state, and both tails marked; the downlink ring is empty (what the
    modem had published is flushed), and in the uplink ring no page is reserved
    that is not published, while the messages published before and not yet
    released by the modem stay there; shared memory that was never set up (no
    magic number in a header) is refused. *)
Theorem register_layout md id w w' n :
  ccci_ccb_register junk md id w = (w', Ok n) -> 0 <= n -> 0 < n /\ registered (w_glob w') n.
Proof.
  intros Hrun Hn. pose proof (register_wp md id w) as Hwp. unfold wp in Hwp. rewrite Hrun in Hwp.
  destruct Hwp as [|[? ?]]; [lia|done].
Qed.
End Layout.

(** The configuration of the demonstration has one buffer for the first user. *)
Lemma register_layout_witness : exists w,
  @ccci_ccb_register CcbOS (fun _ => []) MD_SYS1 USR_SMEM_CCB_DHL (ccb_world demo_ccb) = (w, Ok 1) /\
  0 < 1 /\ registered (w_glob w) 1.
Proof.
  eexists. split; [apply run_ok; vm_compute; reflexivity|].
  eapply (@register_layout CcbOS (fun _ => [])); [apply run_ok; vm_compute; reflexivity|lia].
Defined.
