(* ===== verification/CcciImage.v ===== *)
(** * ccci_lib: modem images in a partition

    A modem partition is a list of images, each behind a header with its name
    and size; images may be followed by a signature block.
    [find_image_from_pt] walks the headers and [restore_image_from_pt] copies an
    image to a file.  The offset and the size the code passes by address are
    passed and returned here. *)
From S2P Require Import Prelude Posix.

Definition IMG_MAGIC : Z := 0x58881688.
Definition IMG_HDR_SIZE : Z := 512.
Definition SEC_IMG_AUTH_SIZE : Z := 0x100.
Definition SEC_IMG_AUTH_ALIGN : Z := 0x1000.
Definition W_BUF_SIZE : Z := 1024 * 4.
Definition PARTITION_PATH_LEN : Z := 128.

Definition mdimg_node : list (list Z) :=
  [lit "/dev/block/platform/bootdevice/by-name/md1img";
   lit "/dev/block/platform/bootdevice/by-name/md3img"].

(** The fields of a header the code reads.  [name] is what a string operation on
    the field sees: the bytes up to the end of the header. *)
Record prt_img_hdr_t := ImgHdr {
  magic : Z; dsize : Z; name : list Z; hdr_size : Z; img_list_end : Z; align_size : Z
}.

Definition img_field (h : list Z) (off : nat) : Z := de32 (take 4 (drop off h)).

Definition img_hdr (h : list Z) : prt_img_hdr_t :=
  ImgHdr (img_field h 0) (img_field h 4) (drop 8 h) (img_field h 52) (img_field h 64) (img_field h 68).

(** [strcmp (s, buf) == 0], or [None] if it runs over the end of [buf]. *)
Definition strcmp_eq (s buf : list Z) : option bool :=
  if has_nul buf then Some (streq s (cstring buf))
  else if starts_with buf s then None else Some false.

(** The size of an image, aligned and with its header: an [unsigned int] stored
    in an [int], except for the addition of the default header size. *)
Definition aligned_size (h : prt_img_hdr_t) : Z :=
  if align_size h =? 0 then i32 (dsize h)
  else i32 (Z.land (u32 (dsize h + align_size h - 1)) (u32 (Z.lnot (u32 (align_size h - 1))))).

(** The distance from the end of an image to the header after its signature. *)
Definition sec_padding (size : Z) : Z :=
  Z.land (size + SEC_IMG_AUTH_ALIGN - 1) (Z.lnot (SEC_IMG_AUTH_ALIGN - 1)) - size + SEC_IMG_AUTH_SIZE.

Section Image.
Context `{OS} {X : Type}.
Abbreviation M := (prog X).

Definition img_step (h : prt_img_hdr_t) : M Z :=
  if hdr_size h =? 0 then padd IMG_HDR_SIZE (aligned_size h)
  else mret (i32 (hdr_size h + aligned_size h)).

(** One header: the error, or the offset and the header found there or behind
    the padding. *)
Definition load_header (fd offset pad : Z) : M (Z * (Z * prt_img_hdr_t)) :=
  r ← psys (Sys_read fd IMG_HDR_SIZE);
  let h := img_hdr (rres_data r) in
  if negb (rres_rv r =? IMG_HDR_SIZE) then mret (-5, (offset, h))
  else if negb (magic h =? IMG_MAGIC) then
    offset ← padd offset pad;
    _ ← psys (Sys_lseek fd offset 0);
    r ← psys (Sys_read fd IMG_HDR_SIZE);
    let h := img_hdr (rres_data r) in
    if negb (rres_rv r =? IMG_HDR_SIZE) then mret (-5, (offset, h))
    else if negb (magic h =? IMG_MAGIC) then mret (-6, (offset, h))
    else mret (0, (offset, h))
  else mret (0, (offset, h)).

(** The loop; [pad] is [sec_padding_size].  The result is the return value, the
    offset and, if the image is found, its size. *)
Fixpoint find_loop (fuel : nat) (fd : Z) (img_name : list Z) (offset pad : Z) : M (Z * Z * option Z) :=
  match fuel with
  | O => phalt NoFuel
  | S fuel' =>
      '(e, (offset, h)) ← load_header fd offset pad;
      if negb (e =? 0) then mret (e, offset, None)
      else
        same ← popt OutOfBounds (strcmp_eq img_name (name h));
        if same : bool then mret (0, i32 (offset + IMG_HDR_SIZE), Some (i32 (dsize h)))
        else if negb (img_list_end h =? 0) then mret (-7, offset, None)
        else
          step ← img_step h;
          offset ← padd offset step;
          _ ← padd step (SEC_IMG_AUTH_ALIGN - 1);
          r ← psys (Sys_lseek fd offset 0);
          if i32 (rv r) <? 0 then mret (i32 (rv r), offset, None)
          else find_loop fuel' fd img_name offset (sec_padding step)
  end.

Definition find_image_from_pt_internal (fuel : nat) (which_md_fd : Z) (img_name : list Z)
    (offset img_size : Z) : M (Z * Z * Z) :=
  ok ← psys (Sys_malloc IMG_HDR_SIZE);
  if negb ok then mret (-4, offset, img_size)
  else
    '(ret, offset, size) ← find_loop fuel which_md_fd img_name 0 0;
    mret (ret, offset, default img_size size).

Definition AB_image_get : M (list Z) :=
  '(n, buf) ← psys (Sys_property_get (lit "ro.boot.slot_suffix"));
  mret (if n =? 0 then [] else cstring buf).

Definition partition_path (node suffix : list Z) : list Z :=
  take (Z.to_nat (PARTITION_PATH_LEN - 1)) (node ++ suffix).

(** The loop over the two partitions, from the [i]-th. *)
Fixpoint find_in (fuel : nat) (suffix : list Z) (nodes : list (list Z)) (i : Z) (img_name : list Z)
    (ret offset img_size : Z) : M (Z * Z * Z) :=
  match nodes with
  | [] => mret (ret, offset, img_size)
  | node :: nodes' =>
      fd ← psys (Sys_open (partition_path node suffix) 0 0);
      if rv fd <? 0 then find_in fuel suffix nodes' (i + 1) img_name ret offset img_size
      else
        '(ret, offset, img_size) ← find_image_from_pt_internal fuel (rv fd) img_name offset img_size;
        _ ← psys (Sys_close (rv fd));
        if negb (ret =? 0) then find_in fuel suffix nodes' (i + 1) img_name ret offset img_size
        else mret (i, offset, img_size)
  end.

(** The partition that has the image, or the error, and its offset and size. *)
Definition find_image_from_pt (fuel : nat) (img_name : list Z) (offset img_size : Z) : M (Z * Z * Z) :=
  suffix ← AB_image_get;
  find_in fuel suffix mdimg_node 0 img_name (-1) offset img_size.

(** The bytes read, on success. *)
Definition read_image_from_pt_internal (which_md_fd offset read_len : Z) : M (Z * list Z) :=
  ret ← psys (Sys_lseek which_md_fd offset 0);
  if i32 (rv ret) <? 0 then mret (i32 (rv ret), [])
  else
    r ← psys (Sys_read which_md_fd read_len);
    mret (rres_rv r, rres_data r).

(** The copy: [w_count] bytes are done. *)
Fixpoint restore_loop (fuel : nat) (fd which_md_fd offset img_size w_count ret : Z) : M Z :=
  match fuel with
  | O => phalt NoFuel
  | S fuel' =>
      if negb (w_count <? img_size) then mret ret
      else
        let r_len := if img_size - w_count >? W_BUF_SIZE then W_BUF_SIZE else img_size - w_count in
        off ← padd offset w_count;
        '(rr_len, buff) ← read_image_from_pt_internal which_md_fd off r_len;
        if rr_len >? 0 then
          w_len ← psys (Sys_write fd buff);
          if rv w_len >? 0 then
            restore_loop fuel' fd which_md_fd offset img_size (w_count + rv w_len) (w_count + rv w_len)
          else mret (rv w_len)
        else if rr_len =? 0 then mret ret
        else mret rr_len
  end.

(** [None] is a null pointer. *)
Definition restore_image_from_pt (fuel : nat) (img_name restore_path : option (list Z)) (junk : Z) : M Z :=
  match img_name, restore_path with
  | Some img_name, Some restore_path =>
      '(which_md, offset, img_size) ← find_image_from_pt fuel img_name junk 0;
      if which_md <? 0 then mret (-1)
      else if (img_size >? 512 * 1024 * 1024) || (img_size <? 0) then mret (-1)
      else
        fd ← psys (Sys_creat restore_path 436);
        if rv fd <? 0 then mret (-2)
        else
          suffix ← AB_image_get;
          md ← psys (Sys_open (partition_path (nth (Z.to_nat which_md) mdimg_node []) suffix) 0 0);
          if rv md <? 0 then mret (-2)
          else
            ret ← restore_loop (S (Z.to_nat img_size)) (rv fd) (rv md) offset img_size 0 0;
            _ ← psys (Sys_close (rv fd));
            _ ← psys (Sys_close (rv md));
            mret ret
  | _, _ => mret (-1)
  end.
End Image.
