(* ===== verification/ImageWalk.v ===== *)
(** * ccci_lib: the walk over a partition finds the image and ends

    Against a block device ([BlockDevice]: a descriptor whose reads return the
    bytes of a disk), the loop of [find_image_from_pt_internal] follows the
    headers: it answers an image exactly when the headers lead to one
    ([located]), and ends on every disk whose headers move forward.  A header
    whose sizes add up to [2^32] moves nowhere, and the loop never ends.  The
    copy of [restore_image_from_pt] writes the bytes of the image in order. *)
From S2P Require Import Prelude Posix MemFs CcciImage.

(** ** The device *)

(** [bd_at s p]: in the state [s] the descriptor [fd] is at the offset [p] of a
    device with the contents [disk]. *)
Class BlockDevice `{OS} (fd : Z) (disk : list Z) := {
  bd_at : os_st -> Z -> Prop;
  bd_seek s s' p off r : bd_at s p -> 0 <= off -> os_do (Sys_lseek fd off 0) s = (s', r) ->
    rv r = off /\ bd_at s' off;
  bd_read s s' p n r : bd_at s p -> 0 <= n -> os_do (Sys_read fd n) s = (s', r) ->
    r = RData (take (Z.to_nat n) (drop (Z.to_nat p) disk)) /\ bd_at s' (p + rres_rv r);
  bd_malloc s s' p n r : bd_at s p -> os_do (Sys_malloc n) s = (s', r) -> bd_at s' p;
  bd_write s s' p fd' bs r : bd_at s p -> fd' <> fd -> os_do (Sys_write fd' bs) s = (s', r) ->
    bd_at s' p /\ rv r <= zlen bs
}.

(** ** The headers of a disk *)

Definition bytes_at (disk : list Z) (p n : Z) : list Z := take (Z.to_nat n) (drop (Z.to_nat p) disk).

Definition header_at (disk : list Z) (p : Z) : option prt_img_hdr_t :=
  let h := bytes_at disk p IMG_HDR_SIZE in
  if zlen h =? IMG_HDR_SIZE then Some (img_hdr h) else None.

Definition valid (h : prt_img_hdr_t) : bool := magic h =? IMG_MAGIC.

(** The header at [p], or behind the padding. *)
Definition resolve (disk : list Z) (p pad : Z) : option (Z * prt_img_hdr_t) :=
  h ← header_at disk p;
  if valid h then Some (p, h)
  else h' ← header_at disk (p + pad); if valid h' then Some (p + pad, h') else None.

(** The size of an image with its header, as the code computes it. *)
Definition step_size (h : prt_img_hdr_t) : Z :=
  if hdr_size h =? 0 then IMG_HDR_SIZE + aligned_size h else i32 (hdr_size h + aligned_size h).

Inductive located (disk : list Z) (img : list Z) : Z -> Z -> Z -> Z -> Prop :=
| located_here p pad p' h :
    resolve disk p pad = Some (p', h) -> strcmp_eq img (name h) = Some true ->
    located disk img p pad (p' + IMG_HDR_SIZE) (i32 (dsize h))
| located_next p pad p' h o s :
    resolve disk p pad = Some (p', h) -> strcmp_eq img (name h) = Some false -> img_list_end h = 0 ->
    located disk img (p' + step_size h) (sec_padding (step_size h)) o s ->
    located disk img p pad o s.

(** Headers that move forward, by at most the 512 MB the code allows an image. *)
Definition forward (disk : list Z) : Prop :=
  forall p h, header_at disk p = Some h -> valid h = true -> 0 < step_size h <= 2 ^ 29.

Lemma sec_padding_range x : 0 <= x -> SEC_IMG_AUTH_SIZE <= sec_padding x < SEC_IMG_AUTH_SIZE + SEC_IMG_AUTH_ALIGN.
Proof.
  intros Hx. unfold sec_padding, SEC_IMG_AUTH_SIZE, SEC_IMG_AUTH_ALIGN.
  change (Z.lnot (0x1000 - 1)) with (- 4096).
  assert (Z.land (x + 0x1000 - 1) (-4096) = (x + 4095) / 4096 * 4096) as ->.
  { replace (x + 0x1000 - 1) with (x + 4095) by lia.
    change (-4096) with (Z.lnot (Z.ones 12)). rewrite <- Z.ldiff_land, Z.ldiff_ones_r by lia.
    by rewrite Z.shiftl_mul_pow2, Z.shiftr_div_pow2 by lia. }
  pose proof (Z.div_mod (x + 4095) 4096). pose proof (Z.mod_pos_bound (x + 4095) 4096). lia.
Qed.

Lemma header_at_range disk p h : 0 <= p -> header_at disk p = Some h -> p + IMG_HDR_SIZE <= zlen disk.
Proof.
  intros Hp. unfold header_at, bytes_at, IMG_HDR_SIZE.
  destruct (Z.eqb_spec (zlen (take (Z.to_nat 512) (drop (Z.to_nat p) disk))) 512) as [Heq|]; [|done].
  intros _. unfold zlen in *. rewrite length_take, length_drop in Heq. lia.
Qed.

Section Walk.
Context `{OS} {X : Type} (fd : Z) (disk : list Z) `{!BlockDevice fd disk}.
Abbreviation W := (world X).

Definition at_pos (p : Z) (w : W) : Prop := bd_at (w_os w) p.

Lemma seek_run p off (w : W) : at_pos p w -> 0 <= off ->
  exists w' r, psys (Sys_lseek fd off 0) w = (w', Ok r) /\ rv r = off /\ at_pos off w' /\
    w_trace w' = w_trace w ++ [Ev (Sys_lseek fd off 0) r].
Proof.
  intros Hp Hoff. destruct (os_do (Sys_lseek fd off 0) (w_os w)) as [s r] eqn:E.
  destruct (bd_seek _ _ _ _ _ Hp Hoff E) as [Hr Hs]. eexists _, r. split; [by apply psys_eq|].
  by split_and!.
Qed.

Lemma read_run p n (w : W) : at_pos p w -> 0 <= p -> 0 <= n ->
  exists w', psys (Sys_read fd n) w = (w', Ok (RData (bytes_at disk p n))) /\
    at_pos (p + zlen (bytes_at disk p n)) w' /\
    w_trace w' = w_trace w ++ [Ev (Sys_read fd n) (RData (bytes_at disk p n))].
Proof.
  intros Hp Hp0 Hn. destruct (os_do (Sys_read fd n) (w_os w)) as [s r] eqn:E.
  destruct (bd_read _ _ _ _ _ Hp Hn E) as [-> Hs]. eexists. split; [by apply psys_eq|]. by split_and!.
Qed.

(** Loading a header. *)
Lemma load_header_run p pad (w : W) :
  at_pos p w -> 0 <= p -> 0 <= pad -> p + pad < 2 ^ 31 ->
  exists w' e p' h q, load_header fd p pad w = (w', Ok (e, (p', h))) /\ at_pos q w' /\ 0 <= q /\
    match resolve disk p pad with
    | Some (p0, h0) => e = 0 /\ p' = p0 /\ h = h0
    | None => e < 0
    end.
Proof.
  intros Hp Hp0 Hpad Hbound. unfold load_header, resolve.
  destruct (read_run p IMG_HDR_SIZE w Hp Hp0) as (w1 & Hrun & Hp1 & _); [done|].
  rewrite (bind_ok _ _ _ _ _ Hrun). cbn [rres_rv rres_data]. unfold header_at.
  pose proof (zlen_nonneg (bytes_at disk p IMG_HDR_SIZE)) as Hnn.
  destruct (Z.eqb_spec (zlen (bytes_at disk p IMG_HDR_SIZE)) IMG_HDR_SIZE) as [Heq|]; cbn [negb mbind option_bind].
  2:{ eexists w1, _, _, _, _. split_and!; [reflexivity|done|lia|lia]. }
  change (magic (img_hdr (bytes_at disk p IMG_HDR_SIZE)) =? IMG_MAGIC) with (valid (img_hdr (bytes_at disk p IMG_HDR_SIZE))).
  destruct (valid _) eqn:Hv; cbn [negb].
  { eexists w1, _, _, _, _. split_and!; [reflexivity|done|lia|done|done|done]. }
  rewrite (bind_ok _ _ _ _ _ (padd_run p pad w1 ltac:(lia))).
  destruct (seek_run _ (p + pad) w1 Hp1 ltac:(lia)) as (w2 & r & Hrun2 & _ & Hp2 & _).
  rewrite (bind_ok _ _ _ _ _ Hrun2).
  destruct (read_run (p + pad) IMG_HDR_SIZE w2 Hp2 ltac:(lia)) as (w3 & Hrun3 & Hp3 & _); [done|].
  rewrite (bind_ok _ _ _ _ _ Hrun3). cbn [rres_rv rres_data].
  pose proof (zlen_nonneg (bytes_at disk (p + pad) IMG_HDR_SIZE)) as Hnn2.
  destruct (Z.eqb_spec (zlen (bytes_at disk (p + pad) IMG_HDR_SIZE)) IMG_HDR_SIZE) as [Heq2|]; cbn [negb mbind option_bind].
  2:{ eexists w3, _, _, _, _. split_and!; [reflexivity|done|lia|lia]. }
  change (magic (img_hdr (bytes_at disk (p + pad) IMG_HDR_SIZE)) =? IMG_MAGIC)
    with (valid (img_hdr (bytes_at disk (p + pad) IMG_HDR_SIZE))).
  destruct (valid (img_hdr (bytes_at disk (p + pad) IMG_HDR_SIZE))); cbn [negb];
    (eexists w3, _, _, _, _; split; [reflexivity|split; [exact Hp3|split_and!; (done || lia)]]).
Qed.

Lemma img_step_run h (w : W) : 0 < step_size h <= 2 ^ 29 -> img_step h w = (w, Ok (step_size h)).
Proof.
  unfold img_step, step_size. destruct (hdr_size h =? 0); intros Hs; [|done]. apply padd_run. lia.
Qed.

Lemma resolve_range p pad p' h : 0 <= p -> 0 <= pad -> resolve disk p pad = Some (p', h) ->
  p <= p' <= p + pad /\ header_at disk p' = Some h /\ valid h = true /\ p' + IMG_HDR_SIZE <= zlen disk.
Proof.
  intros Hp Hpad. unfold resolve. destruct (header_at disk p) as [h0|] eqn:E0; [|done]. cbn [mbind option_bind].
  destruct (valid h0) eqn:V0; [intros [= <- <-]; split_and!; try lia; try done; by eapply header_at_range|].
  destruct (header_at disk (p + pad)) as [h1|] eqn:E1; [|done]. cbn [mbind option_bind].
  destruct (valid h1) eqn:V1; [|done]. intros [= <- <-]. split_and!; try lia; try done. eapply header_at_range; [|done]. lia.
Qed.

Context (Hfwd : forward disk) (Hdisk : zlen disk < 2 ^ 30).

(** The walk from an offset: it ends and answers what the headers say, or runs
    over the end of a header whose name is not terminated. *)
Definition walk_post (img : list Z) (p pad : Z) (o : outcome (Z * Z * option Z)) : Prop :=
  match o with
  | Ok (0, off, size) => exists s, size = Some s /\ located disk img p pad off s
  | Ok (e, _, size) => e < 0 /\ size = None /\ forall off s, ~ located disk img p pad off s
  | Halt h => h = OutOfBounds /\ forall off s, ~ located disk img p pad off s
  end.

Lemma walk_none img p pad (e off : Z) : e < 0 -> (forall o s, ~ located disk img p pad o s) ->
  walk_post img p pad (Ok (e, off, None)).
Proof. intros He Hn. destruct e; [lia|lia|]. by split_and!. Qed.

Lemma located_inv img p pad p' h off s : resolve disk p pad = Some (p', h) -> located disk img p pad off s ->
  (strcmp_eq img (name h) = Some true /\ off = p' + IMG_HDR_SIZE /\ s = i32 (dsize h)) \/
  (strcmp_eq img (name h) = Some false /\ img_list_end h = 0 /\
   located disk img (p' + step_size h) (sec_padding (step_size h)) off s).
Proof.
  intros Hr Hl. destruct Hl as [p pad p0 h0 Hr0 Hn|p pad p0 h0 o s Hr0 Hn He Hl];
    rewrite Hr in Hr0; injection Hr0 as <- <-; [left|right]; by split_and!.
Qed.

Lemma find_loop_walk img fuel : forall p pad w,
  at_pos p w -> 0 <= p -> 0 <= pad < 2 ^ 13 -> p < 2 ^ 31 - 2 ^ 13 -> zlen disk - p < Z.of_nat fuel ->
  0 < Z.of_nat fuel ->
  walk_post img p pad (find_loop fuel fd img p pad w).2.
Proof.
  induction fuel as [|fuel IH]; intros p pad w Hp Hp0 Hpad Hbig Hfuel Hpos; [lia|]. cbn [find_loop].
  destruct (load_header_run p pad w Hp Hp0) as (w1 & e & p' & h & q & Hrun & Hq & Hq0 & Hres); [lia|lia|].
  rewrite (bind_ok _ _ _ _ _ Hrun). destruct (resolve disk p pad) as [[p0 h0]|] eqn:Hr.
  2:{ rewrite (proj2 (Z.eqb_neq e 0)) by lia. cbn [negb]. apply walk_none; [done|].
      intros o s Hl. destruct Hl; congruence. }
  destruct Hres as (-> & -> & ->). cbn [negb Z.eqb].
  destruct (resolve_range _ _ _ _ Hp0 (proj1 Hpad) Hr) as (Hp' & Hh & Hv & Hend).
  unfold IMG_HDR_SIZE in Hend. destruct (strcmp_eq img (name h0)) as [[]|] eqn:Hc.
  - rewrite (bind_ok _ _ _ w1 true eq_refl). exists (i32 (dsize h0)). rewrite (i32_small (p0 + IMG_HDR_SIZE)) by (unfold IMG_HDR_SIZE; lia).
    split; [done|]. by eapply located_here.
  - rewrite (bind_ok _ _ _ w1 false eq_refl). destruct (Z.eqb_spec (img_list_end h0) 0) as [He|He]; cbn [negb].
    2:{ apply walk_none; [done|]. intros o s [(? & ? & ?)|(? & ? & ?)]%(located_inv _ _ _ _ _ _ _ Hr); congruence. }
    pose proof (Hfwd _ _ Hh Hv) as Hs. rewrite (bind_ok _ _ _ _ _ (img_step_run h0 w1 Hs)).
    rewrite (bind_ok _ _ _ _ _ (padd_run p0 (step_size h0) w1 ltac:(lia))).
    rewrite (bind_ok _ _ _ _ _ (padd_run (step_size h0) (SEC_IMG_AUTH_ALIGN - 1) w1 ltac:(unfold SEC_IMG_AUTH_ALIGN; lia))).
    destruct (seek_run _ (p0 + step_size h0) w1 Hq ltac:(lia)) as (w2 & r & Hrun2 & Hrv & Hp2 & _).
    rewrite (bind_ok _ _ _ _ _ Hrun2), Hrv, i32_small, (proj2 (Z.ltb_ge _ _)) by lia.
    pose proof (sec_padding_range (step_size h0) ltac:(lia)) as Hsp. unfold SEC_IMG_AUTH_SIZE, SEC_IMG_AUTH_ALIGN in Hsp.
    assert (walk_post img (p0 + step_size h0) (sec_padding (step_size h0))
      (find_loop fuel fd img (p0 + step_size h0) (sec_padding (step_size h0)) w2).2) as Hrec
      by (apply IH; try done; lia).
    assert (forall off s, located disk img p pad off s <->
      located disk img (p0 + step_size h0) (sec_padding (step_size h0)) off s) as Hiff.
    { intros off s. split; [|by eapply located_next].
      intros [(? & _)|(_ & _ & ?)]%(located_inv _ _ _ _ _ _ _ Hr); [congruence|done]. }
    unfold walk_post in *. destruct ((find_loop fuel fd img _ _ w2).2) as [[[e o] z]|hh]; [destruct e|].
    + destruct Hrec as (s & -> & Hl). exists s. by rewrite Hiff.
    + destruct Hrec as (? & ? & Hn). split_and!; [done|done|]. intros off s. rewrite Hiff. apply Hn.
    + destruct Hrec as (? & ? & Hn). split_and!; [done|done|]. intros off s. rewrite Hiff. apply Hn.
    + destruct Hrec as (? & Hn). split; [done|]. intros off s. rewrite Hiff. apply Hn.
  - split; [done|]. intros o s [(? & _)|(? & _)]%(located_inv _ _ _ _ _ _ _ Hr); congruence.
Qed.

(** Claim C17.  The search for an image answers what the headers of the
    partition say.  On a block device whose headers move forward, with fuel for
    its bytes, the search ends; it returns 0 exactly when the chain of headers
    from the start (each read where the one before says, or behind its signature)
    leads to one with the name, with the offset behind that header and the size it
    states; otherwise it returns an error and leaves the size alone. *)
Theorem find_image_walk img offset img_size fuel w :
  at_pos 0 w -> zlen disk < Z.of_nat fuel ->
  match (find_image_from_pt_internal fuel fd img offset img_size w).2 with
  | Ok (ret, off, size) =>
      if ret =? 0 then located disk img 0 0 off size
      else ret < 0 /\ size = img_size /\ (ret = -4 \/ forall o s, ~ located disk img 0 0 o s)
  | Halt h => h = OutOfBounds /\ forall o s, ~ located disk img 0 0 o s
  end.
Proof.
  intros Hp Hfuel. unfold find_image_from_pt_internal.
  destruct (os_do (Sys_malloc IMG_HDR_SIZE) (w_os w)) as [s ok] eqn:E.
  rewrite (bind_ok _ _ _ _ _ (psys_eq _ _ _ _ E)). destruct ok; cbn [negb].
  2:{ simpl. split_and!; [lia|done|by left]. }
  pose proof (zlen_nonneg disk).
  assert (walk_post img 0 0 (find_loop fuel fd img 0 0 (answered (Sys_malloc IMG_HDR_SIZE) true s w)).2) as Hw
    by (apply find_loop_walk; try lia; by eapply bd_malloc).
  unfold mbind, prog_bind. destruct (find_loop _ _ _ _ _ _) as [w' [[[e o] z]|h]]; cbn [snd] in Hw |- *; [|exact Hw].
  unfold mret, prog_ret. cbn [snd]. destruct e as [|e|e]; cbn [walk_post Z.eqb] in Hw |- *.
  - by destruct Hw as (sz & -> & Hl).
  - destruct Hw as (? & ? & ?). lia.
  - destruct Hw as (? & -> & Hn). split_and!; [done|done|by right].
Qed.
End Walk.

(** A header that moves nowhere. *)
Section Stuck.
Context `{OS} {X : Type} (fd : Z) (disk : list Z) `{!BlockDevice fd disk}.
Abbreviation W := (world X).

Lemma stuck_loop img p pad h fuel : forall w : W,
  header_at disk p = Some h -> valid h = true -> strcmp_eq img (name h) = Some false ->
  img_list_end h = 0 -> step_size h = 0 -> at_pos fd disk p w -> 0 <= p < 2 ^ 30 -> 0 <= pad < 2 ^ 30 ->
  (find_loop fuel fd img p pad w).2 = Halt NoFuel.
Proof.
  revert pad. induction fuel as [|fuel IH]; intros pad w Hh Hv Hc He Hs Hp Hp0 Hpad; [done|]. cbn [find_loop].
  destruct (load_header_run fd disk p pad w Hp) as (w1 & e & p' & h' & q & Hrun & Hq & Hq0 & Hres); [lia..|].
  rewrite (bind_ok _ _ _ _ _ Hrun). unfold resolve in Hres. rewrite Hh in Hres. cbn [mbind option_bind] in Hres.
  rewrite Hv in Hres. destruct Hres as (-> & -> & ->). cbn [negb Z.eqb]. rewrite Hc, He.
  rewrite (bind_ok _ _ _ w1 false eq_refl). cbn [negb Z.eqb].
  assert (img_step h w1 = (w1, Ok 0)) as Hstep.
  { revert Hs. unfold img_step, step_size. destruct (hdr_size h =? 0); intros Hs; [|by rewrite Hs].
    unfold padd. by rewrite Hs. }
  rewrite (bind_ok _ _ _ _ _ Hstep), (bind_ok _ _ _ _ _ (padd_run p 0 w1 ltac:(lia))).
  rewrite (bind_ok _ _ _ w1 _ eq_refl).
  destruct (seek_run fd disk _ (p + 0) w1 Hq ltac:(lia)) as (w2 & r & Hrun2 & Hrv & Hp2 & _).
  rewrite (bind_ok _ _ _ _ _ Hrun2), Hrv, Z.add_0_r, i32_small, (proj2 (Z.ltb_ge _ _)) by lia.
  rewrite Z.add_0_r in Hp2. by apply IH.
Qed.

(** A partition can keep the search from ending.  If the first header
    is valid, is not the one searched for nor the last, and its image and header
    sizes add up to nothing in 32 bits, then the search reads it again and again:
    no fuel is enough (unless there is no memory for the header). *)
Theorem find_image_hangs img offset img_size h (w : W) :
  header_at disk 0 = Some h -> valid h = true -> strcmp_eq img (name h) = Some false ->
  img_list_end h = 0 -> step_size h = 0 -> at_pos fd disk 0 w ->
  forall fuel, (find_image_from_pt_internal fuel fd img offset img_size w).2 =
    if (os_do (Sys_malloc IMG_HDR_SIZE) (w_os w)).2 then Halt NoFuel else Ok (-4, offset, img_size).
Proof.
  intros Hh Hv Hc He Hs Hp fuel. unfold find_image_from_pt_internal.
  destruct (os_do (Sys_malloc IMG_HDR_SIZE) (w_os w)) as [s ok] eqn:E.
  rewrite (bind_ok _ _ _ _ _ (psys_eq _ _ _ _ E)). destruct ok; cbn [negb snd]; [|done].
  pose proof (stuck_loop img 0 0 h fuel (answered (Sys_malloc IMG_HDR_SIZE) true s w) Hh Hv Hc He Hs
    (bd_malloc _ _ _ _ _ Hp E) ltac:(lia) ltac:(lia)) as Hloop.
  unfold mbind, prog_bind. destruct (find_loop _ _ _ _ _ _) as [w' o]. cbn [snd] in Hloop. by subst o.
Qed.
End Stuck.

(** ** The copy *)

(** The bytes the calls wrote to [fd]. *)
Definition written1 (fd : Z) (e : event) : list Z :=
  match e with
  | @Ev T c r =>
      match c in sys T return T -> list Z with
      | Sys_write fd' bs => fun r => if fd' =? fd then take (Z.to_nat (rv r)) bs else []
      | _ => fun _ => []
      end r
  end.
Definition written (fd : Z) (evs : list event) : list Z := concat (written1 fd <$> evs).

Lemma written_app fd e1 e2 : written fd (e1 ++ e2) = written fd e1 ++ written fd e2.
Proof. unfold written. by rewrite fmap_app, concat_app. Qed.

Lemma bytes_at_app disk p n m : 0 <= p -> 0 <= n -> 0 <= m ->
  bytes_at disk p n ++ bytes_at disk (p + n) m = bytes_at disk p (n + m).
Proof.
  intros Hp Hn Hm. unfold bytes_at. rewrite (Z2Nat.inj_add p n), (Z2Nat.inj_add n m) by done.
  rewrite <- drop_drop. by rewrite take_take_drop.
Qed.

Lemma zlen_bytes_at disk p n : 0 <= p -> 0 <= n -> zlen (bytes_at disk p n) = Z.min n (Z.max 0 (zlen disk - p)).
Proof. intros. unfold bytes_at, zlen. rewrite length_take, length_drop. lia. Qed.

Section Copy.
Context `{OS} {X : Type} (md : Z) (disk : list Z) `{!BlockDevice md disk}.
Abbreviation W := (world X).
Context (fd : Z) (Hfd : fd <> md) (offset img_size : Z).
Context (Hoff : 0 <= offset) (Hsize : 0 <= img_size) (Hbound : offset + img_size < 2 ^ 31).

(** The image as far as the device has it. *)
Definition available : Z := Z.min img_size (Z.max 0 (zlen disk - offset)).

(** One round: [r] is the answer of the write. *)
Lemma read_image_run n k (w : W) : 0 <= n < 2 ^ 31 -> 0 <= k -> (exists q, at_pos md disk q w) ->
  exists w' evs, read_image_from_pt_internal md n k w =
    (w', Ok (zlen (bytes_at disk n k), bytes_at disk n k)) /\ (exists q, at_pos md disk q w') /\
    w_trace w' = w_trace w ++ evs /\ written fd evs = [].
Proof.
  intros Hn Hk [q Hq]. unfold read_image_from_pt_internal.
  destruct (seek_run md disk q n w Hq) as (w1 & r1 & Hrun1 & Hr1 & Hq1 & Ht1); [lia|].
  rewrite (bind_ok _ _ _ _ _ Hrun1), Hr1, i32_small, (proj2 (Z.ltb_ge _ _)) by lia.
  destruct (read_run md disk n k w1 Hq1) as (w2 & Hrun2 & Hq2 & Ht2); [lia|done|].
  rewrite (bind_ok _ _ _ _ _ Hrun2). eexists w2, _. split; [reflexivity|]. split; [by eexists|].
  split; [by rewrite Ht2, Ht1, <- app_assoc|done].
Qed.

Definition copy_post (w_count : Z) (w : W) (r : Z) (w' : W) : Prop :=
  exists evs k, w_trace w' = w_trace w ++ evs /\ written fd evs = bytes_at disk (offset + w_count) k /\
    0 <= k /\ w_count + k <= Z.max w_count available /\
    (r = w_count + k /\ w_count + k = Z.max w_count available \/ r <= 0 /\ r <> w_count + k \/ r = 0).

Lemma restore_loop_run fuel : forall w_count (w : W),
  (exists q, at_pos md disk q w) -> 0 <= w_count <= available -> img_size - w_count < Z.of_nat fuel ->
  exists w' r, restore_loop fuel fd md offset img_size w_count w_count w = (w', Ok r) /\
    copy_post w_count w r w'.
Proof.
  induction fuel as [|fuel IH]; intros n w Hq Hn Hfuel; [unfold available in *; lia|]. cbn [restore_loop].
  assert (forall w', exists w'' r, (mret n : prog X Z) w' = (w'', Ok r) /\ w'' = w' /\ r = n) as Hret by (intros; by eexists _, _).
  assert (n < img_size \/ n = img_size) as [Hlt|Heq] by (unfold available in Hn; lia).
  2:{ rewrite (proj2 (Z.ltb_ge _ _)) by lia. eexists w, n. split; [done|]. exists [], 0. rewrite app_nil_r.
      unfold available in *. split_and!; [done|done|lia|lia|left; lia]. }
  rewrite (proj2 (Z.ltb_lt _ _)) by lia. cbn [negb].
  set (k := if img_size - n >? W_BUF_SIZE then W_BUF_SIZE else img_size - n).
  assert (0 < k <= img_size - n) as Hk
    by (unfold k, W_BUF_SIZE; rewrite Z.gtb_ltb; destruct (Z.ltb_spec (1024 * 4) (img_size - n)); lia).
  rewrite (bind_ok _ _ _ _ _ (padd_run offset n w ltac:(lia))).
  destruct (read_image_run (offset + n) k w) as (w1 & evs & Hrun & [q1 Hq1] & Ht & Hw); [lia|lia|done|].
  rewrite (bind_ok _ _ _ _ _ Hrun). pose proof (zlen_bytes_at disk (offset + n) k ltac:(lia) ltac:(lia)) as Hlen.
  set (bs := bytes_at disk (offset + n) k) in *. destruct (Z.gtb_spec (zlen bs) 0) as [Hbs|Hbs].
  - destruct (os_do (Sys_write fd bs) (w_os w1)) as [s2 r] eqn:E. rewrite (bind_ok _ _ _ _ _ (psys_eq _ _ _ _ E)).
    destruct (bd_write _ _ _ _ _ _ Hq1 Hfd E) as [Hq2 Hle].
    assert (written1 fd (Ev (Sys_write fd bs) r) = take (Z.to_nat (rv r)) bs) as Hw1 by (simpl; by rewrite Z.eqb_refl).
    destruct (Z.gtb_spec (rv r) 0) as [Hr|Hr].
    + destruct (IH (n + rv r) (answered (Sys_write fd bs) r s2 w1)) as (w' & res & Hrun' & evs' & k' & Ht' & Hw' & Hk' & Hb & Hres);
        [by exists q1|unfold available in *; lia|lia|].
      exists w', res. split; [done|]. exists (evs ++ [Ev (Sys_write fd bs) r] ++ evs'), (rv r + k').
      rewrite Z.add_assoc. rewrite Z.max_r in Hb, Hres by (unfold available in *; lia). rewrite Z.max_r by lia.
      split_and!; [|rewrite !written_app, Hw, Hw'|lia|lia|].
      * rewrite Ht'. cbn [w_trace answered]. rewrite Ht, <- !app_assoc. done.
      * unfold written at 1. cbn [fmap list_fmap concat app]. rewrite Hw1, app_nil_r. unfold bs, bytes_at at 1.
        rewrite take_take, Nat.min_l by lia. fold (bytes_at disk (offset + n) (rv r)).
        rewrite (Z.add_assoc offset). by apply bytes_at_app; lia.
      * destruct Hres as [Hres|[Hres|Hres]]; [left; lia|right; left; lia|right; by right].
    + eexists (answered (Sys_write fd bs) r s2 w1), (rv r). split; [done|].
      exists (evs ++ [Ev (Sys_write fd bs) r]), 0. rewrite Z.add_0_r.
      split_and!; [cbn [w_trace answered]; by rewrite Ht, <- app_assoc| |lia|lia|].
      * rewrite written_app, Hw. unfold written. cbn [fmap list_fmap concat app]. rewrite Hw1.
        by replace (Z.to_nat (rv r)) with 0%nat by lia.
      * destruct (Z.eq_dec (rv r) 0); [right; by right|]. right. left. lia.
  - destruct (Z.eqb_spec (zlen bs) 0) as [Hz|]; [|pose proof (zlen_nonneg bs); lia].
    eexists w1, n. split; [done|]. exists evs, 0. rewrite Hw. unfold available in *.
    split_and!; [done|done|lia|lia|left; lia].
Qed.

(** Claim C33.  The copy of an image writes the bytes of the image, in order and
    once each, however the writes split them.  From a device with the image at
    [offset], the loop of [restore_image_from_pt] ends; what it has written is a
    prefix of the image; and if its result is positive, the result is the number
    of bytes written and the whole image, or all the device has of it, is there. *)
Theorem restore_copies (w : W) :
  (exists q, at_pos md disk q w) ->
  exists w' r evs k, restore_loop (S (Z.to_nat img_size)) fd md offset img_size 0 0 w = (w', Ok r) /\
    w_trace w' = w_trace w ++ evs /\ written fd evs = bytes_at disk offset k /\ 0 <= k <= available /\
    (0 < r -> r = k /\ k = available).
Proof.
  intros Hq. destruct (restore_loop_run (S (Z.to_nat img_size)) 0 w Hq) as (w' & r & Hrun & evs & k & Ht & Hw & Hk & Hb & Hr);
    [unfold available; lia|lia|].
  exists w', r, evs, k. rewrite Z.add_0_r in Hw. rewrite Z.add_0_l in *.
  assert (Z.max 0 available = available) as Hm by (unfold available; lia). rewrite Hm in *.
  split_and!; [done|done|done|lia|lia|]. intros Hpos. lia.
Qed.
End Copy.

(** ** The demonstration *)

(** The in-memory environment with a partition of contents [disk] behind the
    descriptor 3; a write takes at most 5 bytes. *)
Definition img_do (disk : list Z) {T} (c : sys T) (s : Z * memfs) : (Z * memfs) * T :=
  match c in sys T return (Z * memfs) * T with
  | Sys_lseek fd off w => if fd =? 3 then ((off, s.2), ok off) else (s, fail 9)
  | Sys_read fd n =>
      if fd =? 3 then ((s.1 + zlen (bytes_at disk s.1 n), s.2), RData (bytes_at disk s.1 n)) else (s, RErr 9)
  | Sys_write fd bs => (s, ok (Z.min 5 (zlen bs)))
  | Sys_malloc _ => (s, true)
  | c => let '(m, r) := memfs_do c s.2 in ((s.1, m), r)
  end.

Definition ImgOS (disk : list Z) : OS := {| os_st := Z * memfs; os_do := @img_do disk |}.

#[export] Instance img_device (disk : list Z) : @BlockDevice (ImgOS disk) 3 disk.
Proof.
  refine (@Build_BlockDevice (ImgOS disk) 3 disk (fun s p => s.1 = p) _ _ _ _); cbn.
  - intros s s' p off r _ _ [= <- <-]. done.
  - intros s s' p n r <- _ [= <- <-]. done.
  - intros s s' p n r Hp [= <- <-]. done.
  - intros s s' p fd' bs r Hp _ [= <- <-]. split; [done|]. cbn. lia.
Defined.

Definition img_world (disk : list Z) : @world (ImgOS disk) unit := @World (ImgOS disk) unit (0, memfs_empty) [] ∅ 1 tt.

(** A header with a name, a data size, a header size and the end mark. *)
Definition demo_img (n : list Z) (size hsize last : Z) : list Z :=
  let nm := n ++ replicate (32 - length n) 0 in
  le32 IMG_MAGIC ++ le32 size ++ nm ++ replicate 12 0 ++ le32 hsize ++ replicate 8 0 ++ le32 last ++ le32 16
  ++ replicate 440 0.

(** Two images, the first of 20 bytes, and one that stands on the spot. *)
Definition demo_disk : list Z :=
  demo_img (lit "md1rom") 20 512 0 ++ replicate 32 7 ++ demo_img (lit "md1dsp") 12 512 1 ++
  [1; 2; 3; 4; 5; 6; 7; 8; 9; 10; 11; 12].
Definition stuck_disk : list Z := demo_img (lit "md1rom") (2 ^ 32 - 512) 512 0.

Lemma demo_disk_size : zlen demo_disk = 1068.
Proof. vm_compute. reflexivity. Qed.

Lemma demo_forward : forward demo_disk.
Proof.
  assert (forallb (fun p => match header_at demo_disk p with
    | Some h => negb (valid h) || ((0 <? step_size h) && (step_size h <=? 2 ^ 29)) | None => true end)
    (seqZ (-1) 600) = true) as Hall by (vm_compute; reflexivity).
  rewrite forallb_forall in Hall.
  intros p h Hh Hv. assert (forall q, 0 <= q < 598 -> header_at demo_disk q = Some h -> 0 < step_size h <= 2 ^ 29) as Hin.
  { intros q Hq Hhq. specialize (Hall q). rewrite Hhq, Hv in Hall. cbn [negb orb] in Hall.
    apply andb_prop in Hall as [?%Z.ltb_lt ?%Z.leb_le]; [done|]. apply list_elem_of_In, elem_of_seqZ. lia. }
  destruct (Z.le_gt_cases 0 p) as [Hp|Hp].
  - pose proof (header_at_range _ _ _ Hp Hh) as Hr. rewrite demo_disk_size in Hr. unfold IMG_HDR_SIZE in Hr.
    apply (Hin p); [lia|done].
  - apply (Hin 0); [lia|]. revert Hh. unfold header_at, bytes_at. by replace (Z.to_nat p) with (Z.to_nat 0) by lia.
Qed.

Lemma find_image_walk_witness : exists w : @world (ImgOS demo_disk) unit,
  find_image_from_pt_internal 1100 3 (lit "md1dsp") 0 0 (img_world demo_disk) = (w, Ok (0, 1056, 12)) /\
  located demo_disk (lit "md1dsp") 0 0 1056 12.
Proof.
  assert ((find_image_from_pt_internal 1100 3 (lit "md1dsp") 0 0 (img_world demo_disk)).2 = Ok (0, 1056, 12)) as Hrun
    by (vm_compute; reflexivity).
  eexists. split; [exact (run_ok _ _ _ Hrun)|].
  pose proof (@find_image_walk (ImgOS demo_disk) unit 3 demo_disk _ demo_forward) as Hw.
  specialize (Hw ltac:(rewrite demo_disk_size; done) (lit "md1dsp") 0 0 1100%nat (img_world demo_disk)).
  specialize (Hw ltac:(vm_compute; reflexivity) ltac:(rewrite demo_disk_size; done)).
  rewrite Hrun in Hw. exact Hw.
Defined.

Lemma find_image_hangs_witness :
  (find_image_from_pt_internal 1000 3 (lit "md1dsp") 0 0 (img_world stuck_disk)).2 = Halt NoFuel.
Proof.
  apply (@find_image_hangs (ImgOS stuck_disk) unit 3 stuck_disk _ (lit "md1dsp") 0 0
    (img_hdr (bytes_at stuck_disk 0 512)) (img_world stuck_disk)); vm_compute; reflexivity.
Defined.

(** Twelve bytes in writes of five. *)
Lemma restore_copies_witness : exists (w : @world (ImgOS demo_disk) unit),
  restore_loop 13 4 3 1056 12 0 0 (img_world demo_disk) = (w, Ok 12) /\
  exists evs, w_trace w = evs /\ written 4 evs = [1; 2; 3; 4; 5; 6; 7; 8; 9; 10; 11; 12].
Proof.
  destruct (@restore_copies (ImgOS demo_disk) unit 3 demo_disk _ 4 ltac:(lia) 1056 12 ltac:(lia) ltac:(lia) ltac:(lia)
    (img_world demo_disk)) as (w & r & evs & k & Hrun & Ht & Hw & Hk & Hr); [by exists 0|].
  change (S (Z.to_nat 12)) with 13%nat in Hrun.
  assert ((restore_loop 13 4 3 1056 12 0 0 (img_world demo_disk)).2 = Ok 12) as H12 by (vm_compute; reflexivity).
  rewrite Hrun in H12. injection H12 as ->. destruct (Hr ltac:(lia)) as [<- _].
  exists w. split; [done|]. exists evs. split; [done|]. rewrite Hw. vm_compute. reflexivity.
Defined.
