(* ===== verification/KSetting.v ===== *)
(** * Settings the kernel publishes

    The parsers of the text files the modem daemons read: the settings
    ["[name]:value"] per line of /sys/kernel/ccci/kcfg_setting ([parse_info] of
    ccci_lib.c, [parse_k_setting] of ccci_support_utils.c, the same automaton with
    buffers of different sizes), the numbers of [str2uint], the enabled modems of
    [kernel_setting_prepare] and the pairs ["key:value,"] of
    /sys/kernel/ccci/ft_info. *)
From S2P Require Import Prelude Posix.

(** ** Settings *)

(** The variable [state] of the parser with the strings read so far; [tmp_name]
    and [tmp_val] are compared as C strings. *)
Inductive kstate :=
| KInit                                  (** 0 *)
| KName (tmp_name : list Z)              (** 1 *)
| KColon (tmp_name : list Z)             (** 2 *)
| KValue (tmp_name tmp_val : list Z).    (** 3 *)

Definition is_newline (c : Z) : bool := (c =? 13) || (c =? 10).

(** One character, with buffers of [cap] bytes: the next state, the value if a
    setting with the name is complete, or an access outside a buffer.  The end
    of a value is state 4, which compares at once. *)
Definition k_step (cap : Z) (name : list Z) (s : kstate) (c : Z) : outcome (kstate + list Z) :=
  match s with
  | KInit => Ok (inl (if c =? 91 then KName [] else KInit))
  | KName n =>
      if is_newline c then Ok (inl KInit)
      else if zlen n >=? cap then Halt OutOfBounds
      else Ok (inl (if c =? 93 then KColon n else KName (n ++ [c])))
  | KColon n => Ok (inl (if c =? 58 then KValue n [] else KInit))
  | KValue n v =>
      if zlen v >=? cap then Halt OutOfBounds
      else if is_newline c then
        Ok (if streq (cstring n) name then inr (cstring v) else inl KInit)
      else Ok (inl (KValue n (v ++ [c])))
  end.

Fixpoint k_scan (cap : Z) (name : list Z) (s : kstate) (raw_data : list Z) : outcome (option (list Z)) :=
  match raw_data with
  | [] => Ok None
  | c :: l =>
      match k_step cap name s c with
      | Ok (inl s') => k_scan cap name s' l
      | Ok (inr v) => Ok (Some v)
      | Halt h => Halt h
      end
  end.

(** 0 with the value, cut to [size] bytes with the terminator; or -1 ([None]). *)
Definition parse_info (raw_data name : list Z) (size : Z) : outcome (option (list Z)) :=
  match k_scan 32 name KInit raw_data with
  | Ok (Some v) => Ok (Some (take (Z.to_nat (size - 1)) v))
  | o => o
  end.

Definition parse_k_setting (ref_data name : list Z) (size : Z) : outcome (option (list Z)) :=
  match k_scan 64 name KInit ref_data with
  | Ok (Some v) => Ok (Some (take (Z.to_nat (size - 1)) v))
  | o => o
  end.

(** ** Numbers *)

Definition is_digit (c : Z) : bool := (48 <=? c) && (c <=? 57).
Definition is_lower_hex (c : Z) : bool := (97 <=? c) && (c <=? 102).
Definition is_upper_hex (c : Z) : bool := (65 <=? c) && (c <=? 70).

(** The first loop of [str2uint]: the checked characters in lower case and the
    base; [None] is the return of 0.  It stops behind the terminator, or after 16
    characters. *)
Fixpoint format_digits (fuel : nat) (str buf : list Z) (base : Z) : option (list Z * Z) :=
  match fuel with
  | O => Some (buf, base)
  | S fuel' =>
      let c := match str with [] => 0 | c :: _ => c end in
      let next := fun b base => format_digits fuel' (tail str) (buf ++ [b]) base in
      if (c =? 88) || (c =? 120) then
        if negb (zlen buf =? 1) then None
        else if negb (nth 0 buf 0 =? 48) then None
        else next 120 16
      else if is_digit c then next c base
      else if is_lower_hex c then if negb (base =? 16) then None else next c base
      else if is_upper_hex c then if negb (base =? 16) then None else next (c - 65 + 97) base
      else if c =? 0 then Some (buf ++ [0], base)
      else None
  end.

Definition digit_value (c : Z) : Z := if c >=? 97 then c - 97 + 10 else c - 48.

(** The second loop: [ret_val*base + c - '0'] on [int], each operation in
    range. *)
Definition in_int (x : Z) : bool := (- 2 ^ 31 <=? x) && (x <? 2 ^ 31).

Fixpoint digits_value (base ret_val : Z) (l : list Z) : outcome Z :=
  match l with
  | [] => Ok ret_val
  | c :: l' =>
      if in_int (ret_val * base) && in_int (ret_val * base + c)
      then digits_value base (ret_val * base + digit_value c) l'
      else Halt Overflow
  end.

(** [str] is a C string, without its terminator.  The last of the formatted
    characters is not part of the number: it is the terminator, if there was one
    within 16 characters. *)
Definition str2uint (str : list Z) : outcome Z :=
  match format_digits 16 str [] 10 with
  | None => Ok 0
  | Some (buf, base) =>
      let l := take (length buf - 1) buf in
      match digits_value base 0 (if base =? 16 then drop 2 l else l) with
      | Ok v => Ok (u32 v)
      | Halt h => Halt h
      end
  end.

(** ** The enabled modems *)

(** The loop over [tmp_buf], the contents of the whole buffer: it ends after five
    digits, not at the terminator. *)
Fixpoint md_en_scan (tmp_buf : list Z) (en : list Z) : outcome (list Z) :=
  match tmp_buf with
  | [] => Halt OutOfBounds
  | c :: l =>
      let en := if c =? 49 then en ++ [1] else if c =? 48 then en ++ [0] else en in
      if 5 <=? zlen en then Ok en else md_en_scan l en
  end.

(** ** Pairs *)

Definition is_key_char (c : Z) : bool :=
  ((97 <=? c) && (c <=? 122)) || ((65 <=? c) && (c <=? 90)) || is_digit c || (c =? 95).

(** The loop of [get_ft_inf_key_val_helper]: [false] is step 0, the key.  Both
    buffers have 64 bytes; the result is 1 and the value, -1 or 0. *)
Fixpoint ft_scan (key : list Z) (step : bool) (curr_key curr_val str : list Z) : outcome (Z * option Z) :=
  match str with
  | [] =>
      if (64 <=? zlen curr_key) || (64 <=? zlen curr_val) then Halt OutOfBounds
      else if negb (streq key curr_key) then Ok (0, None)
      else if zlen curr_val =? 0 then Ok (-1, None)
      else Ok (1, Some (atoi curr_val))
  | c :: l =>
      if negb step then
        if is_key_char c then
          if 64 <=? zlen curr_key then Halt OutOfBounds else ft_scan key false (curr_key ++ [c]) curr_val l
        else if c =? 58 then ft_scan key true curr_key curr_val l
        else Ok (-1, None)
      else
        if is_digit c then
          if 64 <=? zlen curr_val then Halt OutOfBounds else ft_scan key true curr_key (curr_val ++ [c]) l
        else if (c =? 44) || (c =? 0) then
          if zlen curr_val =? 0 then Ok (-1, None)
          else if (64 <=? zlen curr_key) || (64 <=? zlen curr_val) then Halt OutOfBounds
          else if negb (streq key curr_key) then ft_scan key false [] [] l
          else Ok (1, Some (atoi curr_val))
        else Ok (-1, None)
  end.

Definition get_ft_inf_key_val_helper (key str : list Z) : outcome (Z * option Z) := ft_scan key false [] [] str.

(** ** The settings file *)

Section Kcfg.
Context `{OS} {X : Type}.

(** 0 with the value, or the error. *)
Definition query_kcfg_setting (name : list Z) (size : Z) : prog X (Z * option (list Z)) :=
  fd ← psys (Sys_open (lit "/sys/kernel/ccci/kcfg_setting") 0 0);
  if rv fd <? 0 then mret (-1, None)
  else
    ok ← psys (Sys_malloc 4096);
    if negb ok then _ ← psys (Sys_close (rv fd)); mret (-2, None)
    else
      r ← psys (Sys_read (rv fd) (4096 - 1));
      if rres_rv r <=? 0 then _ ← psys (Sys_close (rv fd)); mret (-3, None)
      else
        v ← match parse_info (rres_data r) name size with Ok v => mret v | Halt h => phalt h end;
        _ ← psys (Sys_close (rv fd));
        mret (match v with Some v => (0, Some v) | None => (-1, None) end).
End Kcfg.

(** ** Text of the settings *)

Definition k_entry (e : list Z * list Z) : list Z := 91 :: e.1 ++ 93 :: 58 :: e.2 ++ [10].
Definition k_render (l : list (list Z * list Z)) : list Z := concat (k_entry <$> l).

Fixpoint k_lookup (name : list Z) (l : list (list Z * list Z)) : option (list Z) :=
  match l with
  | [] => None
  | (n, v) :: l' => if streq n name then Some v else k_lookup name l'
  end.

(** Settings the buffers hold. *)
Definition k_wf (cap : Z) (e : list Z * list Z) : Prop :=
  Forall (fun c => c <> 93 /\ c <> 13 /\ c <> 10 /\ c <> 0) e.1 /\ zlen e.1 < cap /\
  Forall (fun c => c <> 13 /\ c <> 10 /\ c <> 0) e.2 /\ zlen e.2 < cap.

Lemma k_scan_name cap name l : forall acc rest,
  Forall (fun c => c <> 93 /\ c <> 13 /\ c <> 10 /\ c <> 0) l -> zlen (acc ++ l) < cap ->
  k_scan cap name (KName acc) (l ++ 93 :: rest) = k_scan cap name (KColon (acc ++ l)) rest.
Proof.
  induction l as [|c l IH]; intros acc rest Hl Hcap.
  - rewrite app_nil_r in *. simpl. unfold is_newline. simpl.
    destruct (Z.geb_spec (zlen acc) cap); [lia|done].
  - apply Forall_cons in Hl as [(H1 & H2 & H3 & _) Hl]. cbn [app k_scan k_step]. unfold is_newline.
    rewrite (proj2 (Z.eqb_neq c 13)), (proj2 (Z.eqb_neq c 10)), (proj2 (Z.eqb_neq c 93)) by done. cbn [orb].
    assert (zlen acc < cap) by (unfold zlen in *; rewrite length_app in Hcap; lia).
    destruct (Z.geb_spec (zlen acc) cap); [lia|].
    rewrite IH by (rewrite <- ?app_assoc; done). by rewrite <- app_assoc.
Qed.

Lemma k_scan_value cap name n l : forall acc rest,
  Forall (fun c => c <> 13 /\ c <> 10 /\ c <> 0) l -> zlen (acc ++ l) < cap ->
  k_scan cap name (KValue n acc) (l ++ 10 :: rest) =
    if streq (cstring n) name then Ok (Some (cstring (acc ++ l))) else k_scan cap name KInit rest.
Proof.
  induction l as [|c l IH]; intros acc rest Hl Hcap.
  - rewrite app_nil_r in *. simpl. unfold is_newline. simpl.
    destruct (Z.geb_spec (zlen acc) cap); [lia|]. by destruct (streq (cstring n) name).
  - apply Forall_cons in Hl as [(H1 & H2 & _) Hl]. cbn [app k_scan k_step]. unfold is_newline.
    rewrite (proj2 (Z.eqb_neq c 13)), (proj2 (Z.eqb_neq c 10)) by done. cbn [orb].
    assert (zlen acc < cap) by (unfold zlen in *; rewrite length_app in Hcap; lia).
    destruct (Z.geb_spec (zlen acc) cap); [lia|].
    rewrite IH by (rewrite <- ?app_assoc; done). by rewrite <- app_assoc.
Qed.

Lemma k_scan_entry cap name e rest : k_wf cap e ->
  k_scan cap name KInit (k_entry e ++ rest) = if streq e.1 name then Ok (Some e.2) else k_scan cap name KInit rest.
Proof.
  destruct e as [n v]. intros (Hn & Hnl & Hv & Hvl). cbn [fst snd] in *. unfold k_entry. cbn [fst snd app k_scan k_step Z.eqb Pos.eqb].
  rewrite <- app_assoc. cbn [app]. rewrite k_scan_name by done. cbn [k_scan k_step app Z.eqb Pos.eqb].
  rewrite <- app_assoc. change ([10] ++ rest) with (10 :: rest). rewrite k_scan_value by done. cbn [app].
  rewrite !cstring_id; [done|..]; eapply Forall_impl; try done; cbn; tauto.
Qed.

Lemma k_scan_render cap name l rest : Forall (k_wf cap) l ->
  k_scan cap name KInit (k_render l ++ rest) =
    match k_lookup name l with Some v => Ok (Some v) | None => k_scan cap name KInit rest end.
Proof.
  induction l as [|e l IH]; intros Hl; [done|]. apply Forall_cons in Hl as [He Hl].
  unfold k_render. cbn [fmap list_fmap concat]. rewrite <- app_assoc, k_scan_entry by done.
  destruct e as [n v]. cbn [k_lookup fst snd]. destruct (streq n name); [done|]. by apply IH.
Qed.

(** A cut that keeps values of the buffers. *)
Lemma k_lookup_wf cap name l v : Forall (k_wf cap) l -> k_lookup name l = Some v -> zlen v < cap.
Proof.
  induction l as [|[n v'] l IH]; [done|]. intros [He Hl]%Forall_cons. cbn [k_lookup].
  destruct (streq n name); [|by apply IH]. intros [= <-]. by destruct He as (_ & _ & _ & ?).
Qed.

Lemma k_parse_render cap name l rest size : Forall (k_wf cap) l -> cap <= size ->
  k_scan cap name KInit rest = Ok None ->
  match k_scan cap name KInit (k_render l ++ rest) with
  | Ok (Some v) => Ok (Some (take (Z.to_nat (size - 1)) v))
  | o => o
  end = Ok (k_lookup name l).
Proof.
  intros Hl Hsize Hrest. rewrite k_scan_render by done. destruct (k_lookup name l) as [v|] eqn:E; [|by rewrite Hrest].
  pose proof (k_lookup_wf _ _ _ _ Hl E). rewrite take_ge; [done|]. unfold zlen in *. lia.
Qed.

(** A setting without its line end. *)
Lemma k_scan_unfinished cap name l : forall n acc,
  Forall (fun c => c <> 13 /\ c <> 10) l -> zlen (acc ++ l) <= cap -> k_scan cap name (KValue n acc) l = Ok None.
Proof.
  induction l as [|c l IH]; intros n acc Hl Hcap; [done|]. apply Forall_cons in Hl as [[H1 H2] Hl].
  cbn [k_scan k_step]. unfold is_newline. rewrite (proj2 (Z.eqb_neq c 13)), (proj2 (Z.eqb_neq c 10)) by done.
  assert (zlen acc < cap) by (unfold zlen in *; rewrite length_app in Hcap; simpl in Hcap; lia).
  destruct (Z.geb_spec (zlen acc) cap); [lia|]. apply IH; [done|]. by rewrite <- app_assoc.
Qed.

(** Claim C36.  The parsers of the kernel's settings invert the text: of lines
    ["[name]:value"] whose names and values fit their buffers, both find the value
    of the first line with the name and fail exactly when there is none.  The
    reader in the start-up daemon overwrites the last byte with a terminator, and
    so never finds the setting of the last line. *)
Theorem settings_roundtrip l e name size :
  Forall (k_wf 32) (l ++ [e]) -> 64 <= size ->
  parse_info (k_render (l ++ [e])) name size = Ok (k_lookup name (l ++ [e])) /\
  parse_k_setting (k_render (l ++ [e])) name size = Ok (k_lookup name (l ++ [e])) /\
  parse_k_setting (removelast (k_render (l ++ [e])) ++ [0]) name size = Ok (k_lookup name l).
Proof.
  intros Hl Hsize. assert (Forall (k_wf 64) (l ++ [e])) as Hl64
    by (eapply Forall_impl; [exact Hl|]; intros x (? & ? & ? & ?); split_and!; try done; lia).
  split_and!; [rewrite <- (app_nil_r (k_render _)); apply k_parse_render; (done || lia)..|].
  unfold k_render. rewrite fmap_app, concat_app. cbn [fmap list_fmap concat]. rewrite app_nil_r. fold (k_render l).
  apply Forall_app in Hl64 as [Hl64 (Hn & Hnl & Hv & Hvl)%Forall_singleton]. destruct e as [n v]. cbn [fst snd] in *.
  assert (k_entry (n, v) = (91 :: n ++ 93 :: 58 :: v) ++ [10]) as -> by (unfold k_entry; simpl; by rewrite <- app_assoc).
  rewrite app_assoc, removelast_last, <- app_assoc. apply k_parse_render; [done|done|].
  cbn [app k_scan k_step Z.eqb Pos.eqb]. rewrite <- app_assoc. cbn [app]. rewrite k_scan_name by done.
  cbn [k_scan k_step app Z.eqb Pos.eqb]. apply k_scan_unfinished.
  - apply Forall_app. split; [|by repeat constructor]. eapply Forall_impl; [done|]. cbn. tauto.
  - unfold zlen in *. cbn [app]. rewrite length_app. simpl. lia.
Qed.

Lemma settings_roundtrip_witness :
  parse_info (lit "[modem en]:1-0-1-0-0
[ccci_drv_ver]:V2
") (lit "ccci_drv_ver") 64 = Ok (Some (lit "V2")).
Proof.
  apply (settings_roundtrip [(lit "modem en", lit "1-0-1-0-0")] (lit "ccci_drv_ver", lit "V2") (lit "ccci_drv_ver") 64);
    [|lia].
  repeat constructor; vm_compute; done.
Defined.

(** ** Values of numbers *)

Definition num_value (base : Z) (l : list Z) : Z := fold_left (fun a c => a * base + digit_value c) l 0.

Lemma num_value_snoc base l c : num_value base (l ++ [c]) = num_value base l * base + digit_value c.
Proof. unfold num_value. by rewrite fold_left_app. Qed.

Definition hex_char (c : Z) : bool := is_digit c || is_lower_hex c.

Lemma hex_char_value c : hex_char c = true -> 0 <= digit_value c < 16 /\ digit_value c + 48 <= c <= digit_value c + 87 /\
  (is_digit c = true -> digit_value c < 10 /\ c = digit_value c + 48).
Proof.
  unfold hex_char, is_digit, is_lower_hex, digit_value. rewrite orb_true_iff, !andb_true_iff, !Z.leb_le.
  destruct (Z.geb_spec c 97); intros; split_and!; lia.
Qed.

Lemma num_value_nonneg base l : 1 < base -> Forall (fun c => hex_char c = true) l -> 0 <= num_value base l.
Proof.
  intros Hb. induction l as [|c l IH] using rev_ind; [done|]. intros [Hl Hc]%Forall_app. rewrite num_value_snoc.
  apply Forall_singleton, hex_char_value in Hc. specialize (IH Hl). nia.
Qed.

Lemma digits_value_app base r l c : digits_value base r (l ++ [c]) =
  match digits_value base r l with
  | Ok v => if in_int (v * base) && in_int (v * base + c) then Ok (v * base + digit_value c) else Halt Overflow
  | Halt h => Halt h
  end.
Proof.
  revert r. induction l as [|c' l IH]; intros r; simpl; [done|].
  destruct (in_int (r * base) && in_int (r * base + c')); [apply IH|done].
Qed.

Lemma in_int_true x : in_int x = true <-> - 2 ^ 31 <= x < 2 ^ 31.
Proof. unfold in_int. by rewrite andb_true_iff, Z.leb_le, Z.ltb_lt. Qed.

(** Whether the number is computed, depending on what its subexpressions add to
    it: at least 48, at most [k]. *)
Lemma digits_value_spec base k l : 1 < base ->
  Forall (fun c => hex_char c = true /\ c <= digit_value c + k) l ->
  (num_value base l + k < 2 ^ 31 -> digits_value base 0 l = Ok (num_value base l)) /\
  (2 ^ 31 <= num_value base l + 48 -> digits_value base 0 l = Halt Overflow).
Proof.
  intros Hb Hl. assert (Forall (fun c => hex_char c = true) l) as Hh by (eapply Forall_impl; [done|by intros ? []]).
  assert (digits_value base 0 l = Ok (num_value base l) \/ digits_value base 0 l = Halt Overflow) as Hdich.
  { clear Hl. induction l as [|c l IH] using rev_ind; [by left|]. apply Forall_app in Hh as [Hh _].
    rewrite digits_value_app, num_value_snoc. destruct (IH Hh) as [-> | ->]; [|by right].
    destruct (_ && _); [by left|by right]. }
  split.
  - clear Hdich. induction l as [|c l IH] using rev_ind; [done|]. apply Forall_app in Hl as [Hl [Hc Hk]%Forall_singleton].
    apply Forall_app in Hh as [Hh _]. apply hex_char_value in Hc. pose proof (num_value_nonneg base l Hb Hh).
    rewrite digits_value_app, num_value_snoc. intros Hv. set (p := num_value base l) in *.
    assert (p <= p * base) by nia. rewrite IH by (done || lia). by rewrite !(proj2 (in_int_true _)) by lia.
  - intros Hv. destruct Hdich as [Hok|]; [|done]. exfalso.
    destruct l as [|c l _] using rev_ind; [unfold num_value in Hv; simpl in Hv; lia|]. apply Forall_app in Hh as [Hh Hc%Forall_singleton%hex_char_value].
    rewrite digits_value_app in Hok. rewrite num_value_snoc in Hv, Hok.
    destruct (digits_value base 0 l) as [v|]; [|done]. destruct (in_int (v * base)) eqn:E1; [|done].
    destruct (in_int (v * base + c)) eqn:E2; [|done]. apply in_int_true in E2. cbn [andb] in Hok. injection Hok as Hok. lia.
Qed.

Lemma format_digits_run base l : forall fuel buf,
  Forall (fun c => is_digit c = true \/ base = 16 /\ hex_char c = true) l -> (length l < fuel)%nat ->
  format_digits fuel l buf base = Some (buf ++ l ++ [0], base).
Proof.
  induction l as [|c l IH]; intros [|fuel] buf Hl Hf; simpl in Hf; try lia.
  - by simpl.
  - apply Forall_cons in Hl as [Hc Hl]. cbn [format_digits tail].
    assert ((c =? 88) || (c =? 120) = false) as ->.
    { unfold hex_char, is_digit, is_lower_hex in Hc. rewrite orb_true_iff, !andb_true_iff, !Z.leb_le in Hc.
      apply orb_false_iff. rewrite !Z.eqb_neq. lia. }
    rewrite IH by (done || lia). rewrite <- app_assoc. destruct (is_digit c) eqn:Hd; [done|].
    destruct Hc as [|[-> Hc]]; [done|]. unfold hex_char in Hc. rewrite Hd in Hc. cbn [orb] in Hc. by rewrite Hc.
Qed.

Lemma format_digits_hex fuel l :
  format_digits (S (S fuel)) (48 :: 120 :: l) [] 10 = format_digits fuel l [48; 120] 16.
Proof. reflexivity. Qed.

Lemma take_init {A} (l : list A) (x : A) : take (length (l ++ [x]) - 1) (l ++ [x]) = l.
Proof. rewrite length_app. simpl. replace (length l + 1 - 1)%nat with (length l) by lia. by rewrite take_app_length. Qed.

(** [str2uint] of a decimal number of at most 15 digits is the number,
    if it is below [2^31 - 48]; from there on the computation overflows [int],
    although the function promises any 32-bit number.  Of a hexadecimal number
    after ["0x"], of at most 13 lower-case digits, it is the number if that is
    below [2^31 - 87], and an overflow from [2^31 - 48] on. *)
Theorem str2uint_value l :
  (Forall (fun c => is_digit c = true) l -> (length l <= 15)%nat ->
    str2uint l = if num_value 10 l + 48 <? 2 ^ 31 then Ok (num_value 10 l) else Halt Overflow) /\
  (Forall (fun c => hex_char c = true) l -> (length l <= 13)%nat ->
    (num_value 16 l + 87 < 2 ^ 31 -> str2uint (lit "0x" ++ l) = Ok (num_value 16 l)) /\
    (2 ^ 31 <= num_value 16 l + 48 -> str2uint (lit "0x" ++ l) = Halt Overflow)).
Proof.
  split.
  - intros Hl Hlen. unfold str2uint. rewrite format_digits_run by (lia || (eapply Forall_impl; [done|by left])).
    cbn [app Z.eqb Pos.eqb]. rewrite take_init.
    assert (Forall (fun c => hex_char c = true) l) as Hh
      by (eapply Forall_impl; [done|]; intros c Hc; unfold hex_char; by rewrite Hc).
    assert (Forall (fun c => hex_char c = true /\ c <= digit_value c + 48) l) as H48.
    { eapply Forall_impl; [exact Hl|]. intros c Hc. assert (hex_char c = true) as Hh' by (unfold hex_char; by rewrite Hc).
      split; [done|]. destruct (hex_char_value c Hh') as (_ & _ & Hd). specialize (Hd Hc). lia. }
    pose proof (num_value_nonneg 10 l ltac:(lia) Hh).
    destruct (digits_value_spec 10 48 l ltac:(lia) H48) as [Hok Hov].
    destruct (Z.ltb_spec (num_value 10 l + 48) (2 ^ 31)); [rewrite Hok, u32_small by lia; done|by rewrite Hov].
  - intros Hl Hlen.
    assert (str2uint (lit "0x" ++ l) = match digits_value 16 0 l with Ok v => Ok (u32 v) | Halt h => Halt h end) as ->.
    { unfold str2uint. change (lit "0x" ++ l) with (48 :: 120 :: l).
      rewrite format_digits_hex.
      rewrite format_digits_run by (lia || (eapply Forall_impl; [done|by right])). rewrite app_assoc, take_init. done. }
    assert (Forall (fun c => hex_char c = true /\ c <= digit_value c + 87) l) as H87.
    { eapply Forall_impl; [done|]. intros c Hc. split; [done|]. apply hex_char_value in Hc. lia. }
    pose proof (num_value_nonneg 16 l ltac:(lia) Hl).
    destruct (digits_value_spec 16 87 l ltac:(lia) H87) as [Hok Hov].
    split; intros Hv; [by rewrite Hok, u32_small by lia|by rewrite Hov].
Qed.

Lemma str2uint_value_witness :
  str2uint (lit "2147483599") = Ok 2147483599 /\ str2uint (lit "2147483600") = Halt Overflow /\
  str2uint (lit "0x1f") = Ok 31.
Proof.
  split_and!.
  - rewrite (proj1 (str2uint_value (lit "2147483599"))); [reflexivity| |]; vm_compute; [repeat constructor|lia].
  - rewrite (proj1 (str2uint_value (lit "2147483600"))); [reflexivity| |]; vm_compute; [repeat constructor|lia].
  - apply (proj1 (proj2 (str2uint_value (lit "1f")) ltac:(vm_compute; repeat constructor) ltac:(vm_compute; lia))).
    vm_compute. reflexivity.
Defined.

(** With 16 characters the last is lost. *)
Example str2uint_16 : str2uint (lit "0000000000000123") = Ok 12.
Proof. reflexivity. Qed.

(** ** The enabled modems *)

Definition md_digits (l : list Z) : list Z := (fun c => if c =? 49 then 1 else 0) <$> filter (fun c => c = 48 \/ c = 49) l.

Lemma md_en_scan_spec l : forall en, zlen en < 5 ->
  (5 <= zlen (en ++ md_digits l) -> md_en_scan l en = Ok (take 5 (en ++ md_digits l))) /\
  (zlen (en ++ md_digits l) < 5 -> md_en_scan l en = Halt OutOfBounds).
Proof.
  unfold md_digits. induction l as [|c l IH]; intros en Hen.
  - simpl. rewrite app_nil_r. by split; [lia|].
  - cbn [md_en_scan]. destruct (decide (c = 48 \/ c = 49)) as [Hc|Hc].
    + rewrite filter_cons_True by done. rewrite fmap_cons.
      assert ((if c =? 49 then en ++ [1] else if c =? 48 then en ++ [0] else en) = en ++ [if c =? 49 then 1 else 0]) as ->
        by (destruct Hc as [-> | ->]; done).
      set (d := if c =? 49 then 1 else 0). rewrite (cons_middle d en).
      destruct (Z.leb_spec 5 (zlen (en ++ [d]))) as [Hge|Hlt].
      * assert (length (en ++ [d]) = 5%nat) as H5
          by (rewrite zlen_app in Hge; unfold zlen in *; rewrite length_app; simpl in *; lia).
        rewrite app_assoc. split; [|unfold zlen; rewrite length_app, H5; lia].
        intros _. by rewrite take_app_length'.
      * rewrite app_assoc. by apply IH.
    + rewrite filter_cons_False by done.
      assert ((if c =? 49 then en ++ [1] else if c =? 48 then en ++ [0] else en) = en) as ->
        by (destruct (Z.eqb_spec c 49), (Z.eqb_spec c 48); tauto).
      destruct (Z.leb_spec 5 (zlen en)); [lia|]. by apply IH.
Qed.

(** The reader of the enabled modems takes the first five digits 0 and
    1 of the buffer and does not stop at the end of the value: with fewer in the
    value it goes on into what the buffer held before, and out of the buffer if
    that has too few. *)
Theorem md_en_reads_on v junk :
  (5 <= zlen (md_digits v) -> md_en_scan (v ++ 0 :: junk) [] = Ok (take 5 (md_digits v))) /\
  (zlen (md_digits v) < 5 -> 5 <= zlen (md_digits v ++ md_digits junk) ->
     md_en_scan (v ++ 0 :: junk) [] = Ok (take 5 (md_digits v ++ md_digits junk))) /\
  (zlen (md_digits v ++ md_digits junk) < 5 -> md_en_scan (v ++ 0 :: junk) [] = Halt OutOfBounds).
Proof.
  assert (md_digits (v ++ 0 :: junk) = md_digits v ++ md_digits junk) as Heq
    by (unfold md_digits; rewrite filter_app, fmap_app, filter_cons_False; [done|lia]).
  destruct (md_en_scan_spec (v ++ 0 :: junk) [] ltac:(done)) as [Hok Hov]. cbn [app] in *. rewrite Heq in *.
  split_and!; intros; [rewrite Hok; [by rewrite take_app_le by zlia|rewrite zlen_app; zlia]|by apply Hok|by apply Hov].
Qed.

Lemma md_en_reads_on_witness :
  md_en_scan (lit "1-0-1-0-0" ++ 0 :: replicate 54 7) [] = Ok [1; 0; 1; 0; 0] /\
  md_en_scan (lit "1-0" ++ 0 :: replicate 60 7) [] = Halt OutOfBounds.
Proof.
  split.
  - rewrite (proj1 (md_en_reads_on (lit "1-0-1-0-0") (replicate 54 7))); [reflexivity|vm_compute; done].
  - apply (proj2 (proj2 (md_en_reads_on (lit "1-0") (replicate 60 7)))). vm_compute. done.
Defined.
