(* ===== verification/MdTypes.v ===== *)
(** * ccci_mdinit: constants and globals

    The daemon that boots a modem, restarts it on request and publishes its state
    in a property; src/external/ccci_mdinit_src.  One process runs for each
    modem.  Its globals are the static variables of its files and those of
    ccci_lib, which it is linked with ([run_lib]). *)
From S2P Require Import Prelude Posix CcciIntf CcbTypes.

(** ** Messages, states and events *)

Definition CCCI_MD_MSG_FORCE_STOP_REQUEST : Z := 0xFAF50001.
Definition CCCI_MD_MSG_FLIGHT_STOP_REQUEST : Z := 0xFAF50002.
Definition CCCI_MD_MSG_FORCE_START_REQUEST : Z := 0xFAF50003.
Definition CCCI_MD_MSG_FLIGHT_START_REQUEST : Z := 0xFAF50004.
Definition CCCI_MD_MSG_RESET_REQUEST : Z := 0xFAF50005.
Definition CCCI_MD_MSG_EXCEPTION : Z := 0xFAF50006.
Definition CCCI_MD_MSG_SEND_BATTERY_INFO : Z := 0xFAF50007.
Definition CCCI_MD_MSG_STORE_NVRAM_MD_TYPE : Z := 0xFAF50008.
Definition CCCI_MD_MSG_CFG_UPDATE : Z := 0xFAF50009.
Definition CCCI_MD_MSG_RANDOM_PATTERN : Z := 0xFAF5000A.

Definition CCCI_MD_STA_INIT : Z := -1.
Definition CCCI_MD_STA_BOOT_READY : Z := 0.
Definition CCCI_MD_STA_BOOT_UP : Z := 1.
Definition CCCI_MD_STA_RESET : Z := 2.
Definition CCCI_MD_STA_STOP : Z := 3.
Definition CCCI_MD_STA_FLIGHT_MODE : Z := 4.
Definition CCCI_MD_STA_EXCEPTION : Z := 5.

Definition MD_DEBUG_REL_INFO_NOT_READY : Z := 0.
Definition MD_IS_DEBUG_VERSION : Z := 1.
Definition MD_IS_RELEASE_VERSION : Z := 2.

Definition MD_STA_EV_READY : Z := 10.
Definition MD_STA_EV_EXCEPTION : Z := 11.
Definition MD_STA_EV_STOP : Z := 12.

Definition MD_BOOT_MODE_INVALID : Z := 0.
Definition MD_BOOT_MODE_META : Z := 2.
Definition MD_STATE_INVALID : Z := 0.
Definition MD_STATE_READY : Z := 2.

Definition CCCI_MONITOR_CH : Z := 0xf0000000.
Definition MAX_OPEN_PORT_RETRY_NUM : Z := 600.

Definition MAX_WAIT_FOR_PROPERTY : Z := 6000.
Definition PROPERTY_WAIT_TIME : Z := 10.

(** ** Globals *)

(** The static variables of md_init.c. *)
Record md_v1 := MdV1 {
  v1_state : Z;  (** [md_ctl_fsm_curr_state] *)
  v1_need_silent_reboot : Z;
  v1_ignore_time_out_msg : Z;
  v1_gotten_md_info : Z;
  v1_mdlogger_cnt : Z;
  v1_md_id : Z;
  v1_muxd_name : list Z;
  v1_rild_name : list Z;
  v1_mdlogger_name : list Z;
  v1_fsd_name : list Z;
  dev_monitor_fd : Z;
  v1_sbpc : Z;
  time_HS1 : Z;
  time_HS2 : Z
}.

Definition set_v1_state (x : Z) (v : md_v1) : md_v1 :=
  MdV1 x (v1_need_silent_reboot v) (v1_ignore_time_out_msg v) (v1_gotten_md_info v)
    (v1_mdlogger_cnt v) (v1_md_id v) (v1_muxd_name v) (v1_rild_name v) (v1_mdlogger_name v)
    (v1_fsd_name v) (dev_monitor_fd v) (v1_sbpc v) (time_HS1 v) (time_HS2 v).
Definition set_v1_need_silent_reboot (x : Z) (v : md_v1) : md_v1 :=
  MdV1 (v1_state v) x (v1_ignore_time_out_msg v) (v1_gotten_md_info v) (v1_mdlogger_cnt v)
    (v1_md_id v) (v1_muxd_name v) (v1_rild_name v) (v1_mdlogger_name v) (v1_fsd_name v)
    (dev_monitor_fd v) (v1_sbpc v) (time_HS1 v) (time_HS2 v).
Definition set_v1_ignore_time_out_msg (x : Z) (v : md_v1) : md_v1 :=
  MdV1 (v1_state v) (v1_need_silent_reboot v) x (v1_gotten_md_info v) (v1_mdlogger_cnt v)
    (v1_md_id v) (v1_muxd_name v) (v1_rild_name v) (v1_mdlogger_name v) (v1_fsd_name v)
    (dev_monitor_fd v) (v1_sbpc v) (time_HS1 v) (time_HS2 v).
Definition set_v1_gotten_md_info (x : Z) (v : md_v1) : md_v1 :=
  MdV1 (v1_state v) (v1_need_silent_reboot v) (v1_ignore_time_out_msg v) x (v1_mdlogger_cnt v)
    (v1_md_id v) (v1_muxd_name v) (v1_rild_name v) (v1_mdlogger_name v) (v1_fsd_name v)
    (dev_monitor_fd v) (v1_sbpc v) (time_HS1 v) (time_HS2 v).
Definition set_v1_mdlogger_cnt (x : Z) (v : md_v1) : md_v1 :=
  MdV1 (v1_state v) (v1_need_silent_reboot v) (v1_ignore_time_out_msg v) (v1_gotten_md_info v) x
    (v1_md_id v) (v1_muxd_name v) (v1_rild_name v) (v1_mdlogger_name v) (v1_fsd_name v)
    (dev_monitor_fd v) (v1_sbpc v) (time_HS1 v) (time_HS2 v).
Definition set_v1_md_id (x : Z) (v : md_v1) : md_v1 :=
  MdV1 (v1_state v) (v1_need_silent_reboot v) (v1_ignore_time_out_msg v) (v1_gotten_md_info v)
    (v1_mdlogger_cnt v) x (v1_muxd_name v) (v1_rild_name v) (v1_mdlogger_name v) (v1_fsd_name v)
    (dev_monitor_fd v) (v1_sbpc v) (time_HS1 v) (time_HS2 v).
Definition set_v1_muxd_name (x : list Z) (v : md_v1) : md_v1 :=
  MdV1 (v1_state v) (v1_need_silent_reboot v) (v1_ignore_time_out_msg v) (v1_gotten_md_info v)
    (v1_mdlogger_cnt v) (v1_md_id v) x (v1_rild_name v) (v1_mdlogger_name v) (v1_fsd_name v)
    (dev_monitor_fd v) (v1_sbpc v) (time_HS1 v) (time_HS2 v).
Definition set_v1_rild_name (x : list Z) (v : md_v1) : md_v1 :=
  MdV1 (v1_state v) (v1_need_silent_reboot v) (v1_ignore_time_out_msg v) (v1_gotten_md_info v)
    (v1_mdlogger_cnt v) (v1_md_id v) (v1_muxd_name v) x (v1_mdlogger_name v) (v1_fsd_name v)
    (dev_monitor_fd v) (v1_sbpc v) (time_HS1 v) (time_HS2 v).
Definition set_v1_mdlogger_name (x : list Z) (v : md_v1) : md_v1 :=
  MdV1 (v1_state v) (v1_need_silent_reboot v) (v1_ignore_time_out_msg v) (v1_gotten_md_info v)
    (v1_mdlogger_cnt v) (v1_md_id v) (v1_muxd_name v) (v1_rild_name v) x (v1_fsd_name v)
    (dev_monitor_fd v) (v1_sbpc v) (time_HS1 v) (time_HS2 v).
Definition set_v1_fsd_name (x : list Z) (v : md_v1) : md_v1 :=
  MdV1 (v1_state v) (v1_need_silent_reboot v) (v1_ignore_time_out_msg v) (v1_gotten_md_info v)
    (v1_mdlogger_cnt v) (v1_md_id v) (v1_muxd_name v) (v1_rild_name v) (v1_mdlogger_name v) x
    (dev_monitor_fd v) (v1_sbpc v) (time_HS1 v) (time_HS2 v).
Definition set_dev_monitor_fd (x : Z) (v : md_v1) : md_v1 :=
  MdV1 (v1_state v) (v1_need_silent_reboot v) (v1_ignore_time_out_msg v) (v1_gotten_md_info v)
    (v1_mdlogger_cnt v) (v1_md_id v) (v1_muxd_name v) (v1_rild_name v) (v1_mdlogger_name v)
    (v1_fsd_name v) x (v1_sbpc v) (time_HS1 v) (time_HS2 v).
Definition set_v1_sbpc (x : Z) (v : md_v1) : md_v1 :=
  MdV1 (v1_state v) (v1_need_silent_reboot v) (v1_ignore_time_out_msg v) (v1_gotten_md_info v)
    (v1_mdlogger_cnt v) (v1_md_id v) (v1_muxd_name v) (v1_rild_name v) (v1_mdlogger_name v)
    (v1_fsd_name v) (dev_monitor_fd v) x (time_HS1 v) (time_HS2 v).
Definition set_time_HS1 (x : Z) (v : md_v1) : md_v1 :=
  MdV1 (v1_state v) (v1_need_silent_reboot v) (v1_ignore_time_out_msg v) (v1_gotten_md_info v)
    (v1_mdlogger_cnt v) (v1_md_id v) (v1_muxd_name v) (v1_rild_name v) (v1_mdlogger_name v)
    (v1_fsd_name v) (dev_monitor_fd v) (v1_sbpc v) x (time_HS2 v).
Definition set_time_HS2 (x : Z) (v : md_v1) : md_v1 :=
  MdV1 (v1_state v) (v1_need_silent_reboot v) (v1_ignore_time_out_msg v) (v1_gotten_md_info v)
    (v1_mdlogger_cnt v) (v1_md_id v) (v1_muxd_name v) (v1_rild_name v) (v1_mdlogger_name v)
    (v1_fsd_name v) (dev_monitor_fd v) (v1_sbpc v) (time_HS1 v) x.

Definition md_v1_start : md_v1 := MdV1 (-1) 0 0 MD_DEBUG_REL_INFO_NOT_READY 0 (-1) [] [] [] [] 0 0 0 0.

Record mdinit := Mdinit {
  curr_md_id : Z;  (** main.c *)
  system_ch_handle : Z;
  boot_prof_fd : Z;
  k_setting_md_en : list Z;  (** ccci_support_utils.c *)
  k_setting_ccci_drv_ver : Z;
  aee_fun : bool;  (** whether [aee_system_exception_fun_ptr] is set *)
  lib_aed : bool;  (** whether [lib_handle_aed] is set *)
  sys_boot_mode : Z;  (** env_setting.c; a [char] *)
  sbpc : Z;  (** mdinit_platform.c *)
  muxd_name : list Z;  (** mdinit_relate.c *)
  rild_name : list Z;
  mdlogger_name : list Z;
  fsd_name : list Z;
  mdlogger_cnt : Z;
  relate_md_id : Z;  (** its [md_id] *)
  need_silent_reboot : Z;
  mdstatusfd : Z;  (** md_init_fsm.c *)
  status_buf : list Z;  (** the 48 bytes of a [struct md_status_event] *)
  md_ctl_fsm_curr_state : Z;
  gotten_md_info : Z;
  fsm_md_id : Z;  (** its [md_id] *)
  ipc_fd : Z;  (** time_clib_srv.c *)
  ccci_lib : ccb;  (** the library, in the same process *)
  v1 : md_v1  (** md_init.c *)
}.

Definition set_curr_md_id (v : Z) (g : mdinit) : mdinit :=
  Mdinit v (system_ch_handle g) (boot_prof_fd g) (k_setting_md_en g) (k_setting_ccci_drv_ver g)
    (aee_fun g) (lib_aed g) (sys_boot_mode g) (sbpc g) (muxd_name g) (rild_name g)
    (mdlogger_name g) (fsd_name g) (mdlogger_cnt g) (relate_md_id g) (need_silent_reboot g)
    (mdstatusfd g) (status_buf g) (md_ctl_fsm_curr_state g) (gotten_md_info g) (fsm_md_id g)
    (ipc_fd g) (ccci_lib g) (v1 g).
Definition set_system_ch_handle (v : Z) (g : mdinit) : mdinit :=
  Mdinit (curr_md_id g) v (boot_prof_fd g) (k_setting_md_en g) (k_setting_ccci_drv_ver g)
    (aee_fun g) (lib_aed g) (sys_boot_mode g) (sbpc g) (muxd_name g) (rild_name g)
    (mdlogger_name g) (fsd_name g) (mdlogger_cnt g) (relate_md_id g) (need_silent_reboot g)
    (mdstatusfd g) (status_buf g) (md_ctl_fsm_curr_state g) (gotten_md_info g) (fsm_md_id g)
    (ipc_fd g) (ccci_lib g) (v1 g).
Definition set_boot_prof_fd (v : Z) (g : mdinit) : mdinit :=
  Mdinit (curr_md_id g) (system_ch_handle g) v (k_setting_md_en g) (k_setting_ccci_drv_ver g)
    (aee_fun g) (lib_aed g) (sys_boot_mode g) (sbpc g) (muxd_name g) (rild_name g)
    (mdlogger_name g) (fsd_name g) (mdlogger_cnt g) (relate_md_id g) (need_silent_reboot g)
    (mdstatusfd g) (status_buf g) (md_ctl_fsm_curr_state g) (gotten_md_info g) (fsm_md_id g)
    (ipc_fd g) (ccci_lib g) (v1 g).
Definition set_k_setting_md_en (v : list Z) (g : mdinit) : mdinit :=
  Mdinit (curr_md_id g) (system_ch_handle g) (boot_prof_fd g) v (k_setting_ccci_drv_ver g)
    (aee_fun g) (lib_aed g) (sys_boot_mode g) (sbpc g) (muxd_name g) (rild_name g)
    (mdlogger_name g) (fsd_name g) (mdlogger_cnt g) (relate_md_id g) (need_silent_reboot g)
    (mdstatusfd g) (status_buf g) (md_ctl_fsm_curr_state g) (gotten_md_info g) (fsm_md_id g)
    (ipc_fd g) (ccci_lib g) (v1 g).
Definition set_k_setting_ccci_drv_ver (v : Z) (g : mdinit) : mdinit :=
  Mdinit (curr_md_id g) (system_ch_handle g) (boot_prof_fd g) (k_setting_md_en g) v (aee_fun g)
    (lib_aed g) (sys_boot_mode g) (sbpc g) (muxd_name g) (rild_name g) (mdlogger_name g)
    (fsd_name g) (mdlogger_cnt g) (relate_md_id g) (need_silent_reboot g) (mdstatusfd g)
    (status_buf g) (md_ctl_fsm_curr_state g) (gotten_md_info g) (fsm_md_id g) (ipc_fd g)
    (ccci_lib g) (v1 g).
Definition set_aee_fun (v : bool) (g : mdinit) : mdinit :=
  Mdinit (curr_md_id g) (system_ch_handle g) (boot_prof_fd g) (k_setting_md_en g)
    (k_setting_ccci_drv_ver g) v (lib_aed g) (sys_boot_mode g) (sbpc g) (muxd_name g)
    (rild_name g) (mdlogger_name g) (fsd_name g) (mdlogger_cnt g) (relate_md_id g)
    (need_silent_reboot g) (mdstatusfd g) (status_buf g) (md_ctl_fsm_curr_state g)
    (gotten_md_info g) (fsm_md_id g) (ipc_fd g) (ccci_lib g) (v1 g).
Definition set_lib_aed (v : bool) (g : mdinit) : mdinit :=
  Mdinit (curr_md_id g) (system_ch_handle g) (boot_prof_fd g) (k_setting_md_en g)
    (k_setting_ccci_drv_ver g) (aee_fun g) v (sys_boot_mode g) (sbpc g) (muxd_name g)
    (rild_name g) (mdlogger_name g) (fsd_name g) (mdlogger_cnt g) (relate_md_id g)
    (need_silent_reboot g) (mdstatusfd g) (status_buf g) (md_ctl_fsm_curr_state g)
    (gotten_md_info g) (fsm_md_id g) (ipc_fd g) (ccci_lib g) (v1 g).
Definition set_sys_boot_mode (v : Z) (g : mdinit) : mdinit :=
  Mdinit (curr_md_id g) (system_ch_handle g) (boot_prof_fd g) (k_setting_md_en g)
    (k_setting_ccci_drv_ver g) (aee_fun g) (lib_aed g) v (sbpc g) (muxd_name g) (rild_name g)
    (mdlogger_name g) (fsd_name g) (mdlogger_cnt g) (relate_md_id g) (need_silent_reboot g)
    (mdstatusfd g) (status_buf g) (md_ctl_fsm_curr_state g) (gotten_md_info g) (fsm_md_id g)
    (ipc_fd g) (ccci_lib g) (v1 g).
Definition set_sbpc (v : Z) (g : mdinit) : mdinit :=
  Mdinit (curr_md_id g) (system_ch_handle g) (boot_prof_fd g) (k_setting_md_en g)
    (k_setting_ccci_drv_ver g) (aee_fun g) (lib_aed g) (sys_boot_mode g) v (muxd_name g)
    (rild_name g) (mdlogger_name g) (fsd_name g) (mdlogger_cnt g) (relate_md_id g)
    (need_silent_reboot g) (mdstatusfd g) (status_buf g) (md_ctl_fsm_curr_state g)
    (gotten_md_info g) (fsm_md_id g) (ipc_fd g) (ccci_lib g) (v1 g).
Definition set_muxd_name (v : list Z) (g : mdinit) : mdinit :=
  Mdinit (curr_md_id g) (system_ch_handle g) (boot_prof_fd g) (k_setting_md_en g)
    (k_setting_ccci_drv_ver g) (aee_fun g) (lib_aed g) (sys_boot_mode g) (sbpc g) v
    (rild_name g) (mdlogger_name g) (fsd_name g) (mdlogger_cnt g) (relate_md_id g)
    (need_silent_reboot g) (mdstatusfd g) (status_buf g) (md_ctl_fsm_curr_state g)
    (gotten_md_info g) (fsm_md_id g) (ipc_fd g) (ccci_lib g) (v1 g).
Definition set_rild_name (v : list Z) (g : mdinit) : mdinit :=
  Mdinit (curr_md_id g) (system_ch_handle g) (boot_prof_fd g) (k_setting_md_en g)
    (k_setting_ccci_drv_ver g) (aee_fun g) (lib_aed g) (sys_boot_mode g) (sbpc g) (muxd_name g)
    v (mdlogger_name g) (fsd_name g) (mdlogger_cnt g) (relate_md_id g) (need_silent_reboot g)
    (mdstatusfd g) (status_buf g) (md_ctl_fsm_curr_state g) (gotten_md_info g) (fsm_md_id g)
    (ipc_fd g) (ccci_lib g) (v1 g).
Definition set_mdlogger_name (v : list Z) (g : mdinit) : mdinit :=
  Mdinit (curr_md_id g) (system_ch_handle g) (boot_prof_fd g) (k_setting_md_en g)
    (k_setting_ccci_drv_ver g) (aee_fun g) (lib_aed g) (sys_boot_mode g) (sbpc g) (muxd_name g)
    (rild_name g) v (fsd_name g) (mdlogger_cnt g) (relate_md_id g) (need_silent_reboot g)
    (mdstatusfd g) (status_buf g) (md_ctl_fsm_curr_state g) (gotten_md_info g) (fsm_md_id g)
    (ipc_fd g) (ccci_lib g) (v1 g).
Definition set_fsd_name (v : list Z) (g : mdinit) : mdinit :=
  Mdinit (curr_md_id g) (system_ch_handle g) (boot_prof_fd g) (k_setting_md_en g)
    (k_setting_ccci_drv_ver g) (aee_fun g) (lib_aed g) (sys_boot_mode g) (sbpc g) (muxd_name g)
    (rild_name g) (mdlogger_name g) v (mdlogger_cnt g) (relate_md_id g) (need_silent_reboot g)
    (mdstatusfd g) (status_buf g) (md_ctl_fsm_curr_state g) (gotten_md_info g) (fsm_md_id g)
    (ipc_fd g) (ccci_lib g) (v1 g).
Definition set_mdlogger_cnt (v : Z) (g : mdinit) : mdinit :=
  Mdinit (curr_md_id g) (system_ch_handle g) (boot_prof_fd g) (k_setting_md_en g)
    (k_setting_ccci_drv_ver g) (aee_fun g) (lib_aed g) (sys_boot_mode g) (sbpc g) (muxd_name g)
    (rild_name g) (mdlogger_name g) (fsd_name g) v (relate_md_id g) (need_silent_reboot g)
    (mdstatusfd g) (status_buf g) (md_ctl_fsm_curr_state g) (gotten_md_info g) (fsm_md_id g)
    (ipc_fd g) (ccci_lib g) (v1 g).
Definition set_relate_md_id (v : Z) (g : mdinit) : mdinit :=
  Mdinit (curr_md_id g) (system_ch_handle g) (boot_prof_fd g) (k_setting_md_en g)
    (k_setting_ccci_drv_ver g) (aee_fun g) (lib_aed g) (sys_boot_mode g) (sbpc g) (muxd_name g)
    (rild_name g) (mdlogger_name g) (fsd_name g) (mdlogger_cnt g) v (need_silent_reboot g)
    (mdstatusfd g) (status_buf g) (md_ctl_fsm_curr_state g) (gotten_md_info g) (fsm_md_id g)
    (ipc_fd g) (ccci_lib g) (v1 g).
Definition set_need_silent_reboot (v : Z) (g : mdinit) : mdinit :=
  Mdinit (curr_md_id g) (system_ch_handle g) (boot_prof_fd g) (k_setting_md_en g)
    (k_setting_ccci_drv_ver g) (aee_fun g) (lib_aed g) (sys_boot_mode g) (sbpc g) (muxd_name g)
    (rild_name g) (mdlogger_name g) (fsd_name g) (mdlogger_cnt g) (relate_md_id g) v
    (mdstatusfd g) (status_buf g) (md_ctl_fsm_curr_state g) (gotten_md_info g) (fsm_md_id g)
    (ipc_fd g) (ccci_lib g) (v1 g).
Definition set_mdstatusfd (v : Z) (g : mdinit) : mdinit :=
  Mdinit (curr_md_id g) (system_ch_handle g) (boot_prof_fd g) (k_setting_md_en g)
    (k_setting_ccci_drv_ver g) (aee_fun g) (lib_aed g) (sys_boot_mode g) (sbpc g) (muxd_name g)
    (rild_name g) (mdlogger_name g) (fsd_name g) (mdlogger_cnt g) (relate_md_id g)
    (need_silent_reboot g) v (status_buf g) (md_ctl_fsm_curr_state g) (gotten_md_info g)
    (fsm_md_id g) (ipc_fd g) (ccci_lib g) (v1 g).
Definition set_status_buf (v : list Z) (g : mdinit) : mdinit :=
  Mdinit (curr_md_id g) (system_ch_handle g) (boot_prof_fd g) (k_setting_md_en g)
    (k_setting_ccci_drv_ver g) (aee_fun g) (lib_aed g) (sys_boot_mode g) (sbpc g) (muxd_name g)
    (rild_name g) (mdlogger_name g) (fsd_name g) (mdlogger_cnt g) (relate_md_id g)
    (need_silent_reboot g) (mdstatusfd g) v (md_ctl_fsm_curr_state g) (gotten_md_info g)
    (fsm_md_id g) (ipc_fd g) (ccci_lib g) (v1 g).
Definition set_md_ctl_fsm_curr_state (v : Z) (g : mdinit) : mdinit :=
  Mdinit (curr_md_id g) (system_ch_handle g) (boot_prof_fd g) (k_setting_md_en g)
    (k_setting_ccci_drv_ver g) (aee_fun g) (lib_aed g) (sys_boot_mode g) (sbpc g) (muxd_name g)
    (rild_name g) (mdlogger_name g) (fsd_name g) (mdlogger_cnt g) (relate_md_id g)
    (need_silent_reboot g) (mdstatusfd g) (status_buf g) v (gotten_md_info g) (fsm_md_id g)
    (ipc_fd g) (ccci_lib g) (v1 g).
Definition set_gotten_md_info (v : Z) (g : mdinit) : mdinit :=
  Mdinit (curr_md_id g) (system_ch_handle g) (boot_prof_fd g) (k_setting_md_en g)
    (k_setting_ccci_drv_ver g) (aee_fun g) (lib_aed g) (sys_boot_mode g) (sbpc g) (muxd_name g)
    (rild_name g) (mdlogger_name g) (fsd_name g) (mdlogger_cnt g) (relate_md_id g)
    (need_silent_reboot g) (mdstatusfd g) (status_buf g) (md_ctl_fsm_curr_state g) v
    (fsm_md_id g) (ipc_fd g) (ccci_lib g) (v1 g).
Definition set_fsm_md_id (v : Z) (g : mdinit) : mdinit :=
  Mdinit (curr_md_id g) (system_ch_handle g) (boot_prof_fd g) (k_setting_md_en g)
    (k_setting_ccci_drv_ver g) (aee_fun g) (lib_aed g) (sys_boot_mode g) (sbpc g) (muxd_name g)
    (rild_name g) (mdlogger_name g) (fsd_name g) (mdlogger_cnt g) (relate_md_id g)
    (need_silent_reboot g) (mdstatusfd g) (status_buf g) (md_ctl_fsm_curr_state g)
    (gotten_md_info g) v (ipc_fd g) (ccci_lib g) (v1 g).
Definition set_ipc_fd (v : Z) (g : mdinit) : mdinit :=
  Mdinit (curr_md_id g) (system_ch_handle g) (boot_prof_fd g) (k_setting_md_en g)
    (k_setting_ccci_drv_ver g) (aee_fun g) (lib_aed g) (sys_boot_mode g) (sbpc g) (muxd_name g)
    (rild_name g) (mdlogger_name g) (fsd_name g) (mdlogger_cnt g) (relate_md_id g)
    (need_silent_reboot g) (mdstatusfd g) (status_buf g) (md_ctl_fsm_curr_state g)
    (gotten_md_info g) (fsm_md_id g) v (ccci_lib g) (v1 g).
Definition set_ccci_lib (v : ccb) (g : mdinit) : mdinit :=
  Mdinit (curr_md_id g) (system_ch_handle g) (boot_prof_fd g) (k_setting_md_en g)
    (k_setting_ccci_drv_ver g) (aee_fun g) (lib_aed g) (sys_boot_mode g) (sbpc g) (muxd_name g)
    (rild_name g) (mdlogger_name g) (fsd_name g) (mdlogger_cnt g) (relate_md_id g)
    (need_silent_reboot g) (mdstatusfd g) (status_buf g) (md_ctl_fsm_curr_state g)
    (gotten_md_info g) (fsm_md_id g) (ipc_fd g) v (v1 g).
Definition set_v1 (v : md_v1) (g : mdinit) : mdinit :=
  Mdinit (curr_md_id g) (system_ch_handle g) (boot_prof_fd g) (k_setting_md_en g) (k_setting_ccci_drv_ver g)
    (aee_fun g) (lib_aed g) (sys_boot_mode g) (sbpc g) (muxd_name g) (rild_name g)
    (mdlogger_name g) (fsd_name g) (mdlogger_cnt g) (relate_md_id g) (need_silent_reboot g)
    (mdstatusfd g) (status_buf g) (md_ctl_fsm_curr_state g) (gotten_md_info g) (fsm_md_id g)
    (ipc_fd g) (ccci_lib g) v.

(** The globals when the process starts. *)
Definition mdinit_start : mdinit :=
  Mdinit 0 0 0 [0; 0; 0; 0; 0] 0 false false 0 0 [] [] [] [] 0 (-1) 0 (-1) (replicate 48 0) CCCI_MD_STA_INIT
    MD_DEBUG_REL_INFO_NOT_READY (-1) 0 (Ccb None 0 None ∅ ∅) md_v1_start.

Section Lib.
Context `{OS}.

(** A function of ccci_lib in the daemon. *)
Definition run_lib {A} (m : prog ccb A) : prog mdinit A := fun w =>
  let '(w', o) := m (World (w_os w) (w_trace w) (w_heap w) (w_brk w) (ccci_lib (w_glob w))) in
  (World (w_os w') (w_trace w') (w_heap w') (w_brk w') (set_ccci_lib (w_glob w') (w_glob w)), o).
End Lib.
