(* ===== verification/MdEnv.v ===== *)
(** * ccci_mdinit: services of the daemon

    ccci_support_utils.c (the boot loader's report, the kernel's settings, the
    exception reporter), env_setting.c (the boot mode and the stored modem type),
    magic_pattern.c, time_clib_srv.c and ccci_legacy.c, and what main.c and
    mdinit_relate.c share with all: the boot profile and the wait for a property.
    [junk] is what uninitialised memory holds. *)
From S2P Require Import Prelude Posix KSetting MdTypes.

(** [strstr]: [p] occurs in [s]. *)
Fixpoint strstr (p s : list Z) : bool :=
  starts_with p s || match s with [] => false | _ :: s' => strstr p s' end.

Definition lift_outcome `{OS} {X A} (o : outcome A) : prog X A :=
  match o with Ok a => mret a | Halt h => phalt h end.

(** The contents of [snprintf (buf, size, ...)], without the terminator. *)
Definition snprintf (size : Z) (s : list Z) : list Z := take (Z.to_nat (size - 1)) s.

(** [atoi] of a 32-bit C library, where [long] is [int]: the number, or the end of
    the range it is beyond. *)
Definition atoi_int (s : list Z) : Z := Z.max (- 2 ^ 31) (Z.min (2 ^ 31 - 1) (atoi s)).

Section Env.
Context `{OS}.
Context (junk : Z -> list Z).
Abbreviation M := (prog mdinit).

(** ** main.c and mdinit_relate.c *)

Definition update_inf_to_bootprof (str : list Z) : M Z :=
  g ← pget;
  if boot_prof_fd g >=? 0 then
    let s := lit "ccci_md" ++ itoa (curr_md_id g) ++ lit ": " ++ str in
    r ← psys (Sys_write (boot_prof_fd g) (snprintf 64 s));
    mret (rv r)
  else mret (-1).

(** [property_get (name, buf, NULL)]: the result and the string in [buf]. *)
Definition property_get (name : list Z) : M (Z * list Z) :=
  '(r, buf) ← psys (Sys_property_get name); mret (r, cstring buf).

Definition property_get_default (name dflt : list Z) : M (list Z) :=
  '(_, buf) ← psys (Sys_property_get_default name dflt); mret (cstring buf).

Definition property_set (name value : list Z) : M unit :=
  _ ← psys (Sys_property_set name value); mret tt.

(** The [do]-[while] loop of [wait_for_property], [n] more rounds. *)
Fixpoint wait_loop (name : list Z) (desired : option (list Z)) (n : nat) : M Z :=
  match n with
  | O => mret (-1)
  | S n' =>
      '(r, value) ← property_get name;
      if (r >? 0) && (match desired with None => true | Some d => streq value d end) then mret 0
      else
        _ ← psys (Sys_usleep (PROPERTY_WAIT_TIME * 1000));
        wait_loop name desired n'
  end.

Definition wait_for_property (name : list Z) (desired : option (list Z)) (waitmsec : Z) : M Z :=
  wait_loop name desired (Nat.max 1 (Z.to_nat (Z.quot waitmsec PROPERTY_WAIT_TIME))).

(** ** ccci_support_utils.c *)

Definition show_aee_system_exception (module path : list Z) (flag : Z) (msg : list Z) : M Z :=
  ok ← psys (Sys_malloc 4096);
  if negb ok then mret (-2)
  else
    g ← pget;
    if aee_fun g then psys (Sys_aee_exception module path flag (snprintf 4096 msg)) else mret (-1).

Definition show_warning_for_lk_ld_fail (warn_msg : list Z) : M unit :=
  r ← wait_for_property (lit "init.svc.debuggerd") (Some (lit "running")) (30 * 1000);
  pwhen (r =? 0) (_ ← psys (Sys_sleep 1); mret tt);;
  _ ← show_aee_system_exception (lit "ccci_mdinit") (lit "external.ccci_mdinit") 0 warn_msg;
  mret tt.

Definition check_lk_load_md_status (md_id : Z) : M Z :=
  if negb (md_id =? 1) then mret 0
  else
    fd ← psys (Sys_open (lit "/sys/kernel/ccci/lk_md") 0 0);
    if rv fd <? 0 then mret 0
    else
      ok ← psys (Sys_malloc 4096);
      if negb ok then _ ← psys (Sys_close (rv fd)); mret (-1)
      else
        r ← psys (Sys_read (rv fd) (4096 - 1));
        ret ← (if rres_rv r <=? 0 then mret (-1)
               else
                 (** the last byte becomes the terminator *)
                 let lk_info := cstring (removelast (rres_data r) ++ [0]) in
                 if strstr (lit "LK Load MD:[Disabled]") lk_info then mret 0
                 else if strstr (lit "LK load MD success!") lk_info then mret 0
                 else show_warning_for_lk_ld_fail lk_info;; mret (-1));
        _ ← psys (Sys_close (rv fd));
        mret ret.

Definition depends_so_prepare : M unit :=
  pmod (set_aee_fun false);;
  ok ← psys (Sys_dlopen (lit "libaed.so"));
  pmod (set_lib_aed ok);;
  if ok : bool then
    func ← psys (Sys_dlsym (lit "aee_system_exception"));
    pwhen func (pmod (set_aee_fun true))
  else mret tt.

Definition depends_so_free : M unit :=
  g ← pget;
  pwhen (lib_aed g) (_ ← psys Sys_dlclose; mret tt).

Definition is_current_md_en (md_id : Z) : M Z :=
  g ← pget;
  mret (if (1 <=? md_id) && (md_id <=? 3) then nth (Z.to_nat (md_id - 1)) (k_setting_md_en g) 0 else 0).

Definition get_ccci_drv_ver : M Z := g ← pget; mret (k_setting_ccci_drv_ver g).

(** The contents of the 64 bytes of [tmp_buf] with a value in it. *)
Definition tmp_buf_of (v : list Z) : list Z := v ++ 0 :: take (64 - S (length v)) (junk 64).

Definition kernel_setting_prepare : M Z :=
  ok ← psys (Sys_malloc 4096);
  if negb ok then mret (-1)
  else
    fd ← psys (Sys_open (lit "/sys/kernel/ccci/kcfg_setting") 0 0);
    if rv fd <? 0 then mret (-1)
    else
      r ← psys (Sys_read (rv fd) (4096 - 1));
      ret ← (if rres_rv r <=? 0 then mret (-1)
             else
               let ref_data := removelast (rres_data r) ++ [0] in
               en ← lift_outcome (parse_k_setting ref_data (lit "modem en") 64);
               match en with
               | None => mret (-1)
               | Some v =>
                   pmod (set_k_setting_md_en [0; 0; 0; 0; 0]);;
                   l ← lift_outcome (md_en_scan (tmp_buf_of v) []);
                   pmod (set_k_setting_md_en l);;
                   ver ← lift_outcome (parse_k_setting ref_data (lit "ccci_drv_ver") 64);
                   match ver with
                   | None => mret (-1)
                   | Some v =>
                       pmod (set_k_setting_ccci_drv_ver (if streq v (lit "V2") then 2 else 1));;
                       mret 0
                   end
               end);
      _ ← psys (Sys_close (rv fd));
      mret ret.

(** ** env_setting.c: the boot mode *)

(** The first of the three bytes read, or [None] for the return on [s <= 0];
    [s] is unsigned, so that only 0 is, and a failed read leaves [data] as it
    was. *)
Definition boot_mode_byte (r : rres) : option Z :=
  match r with
  | RErr _ => Some (le_value (junk 1))
  | RData [] => None
  | RData (c :: _) => Some c
  end.

Definition boot_mode_file : list Z := lit "/sys/class/BOOT/BOOT/boot/boot_mode".

Definition get_sys_boot_mode : M Z :=
  g ← pget;
  if sys_boot_mode g =? 0 then
    fd ← psys (Sys_open boot_mode_file 0 0);
    if rv fd <? 0 then mret 0
    else
      r ← psys (Sys_read (rv fd) 3);
      let mode := default 48 (boot_mode_byte r) in
      pmod (set_sys_boot_mode mode);;
      _ ← psys (Sys_close (rv fd));
      mret mode
  else mret (sys_boot_mode g).

Definition is_factory_mode : M bool := m ← get_sys_boot_mode; mret (m =? 52).

Definition is_meta_mode : M bool :=
  fd ← psys (Sys_open boot_mode_file 0 0);
  if rv fd <? 0 then mret false
  else
    r ← psys (Sys_read (rv fd) 3);
    _ ← psys (Sys_close (rv fd));
    mret (match boot_mode_byte r with Some c => c =? 49 | None => false end).

(** ** env_setting.c: the stored modem type *)

Definition ccci_md_env_cfg_folder_init : M Z :=
  _ ← psys (Sys_umask 7);
  '(r, _) ← psys (Sys_stat (lit "/data/vendor/ccci_cfg"));
  if rv r <? 0 then
    m ← psys (Sys_mkdir (lit "/data/vendor/ccci_cfg") 448);
    mret (if rv m <? 0 then -1 else 0)
  else mret 0.

Definition md_env_val_get (name : list Z) (size : Z) : M (option (list Z)) :=
  r ← ccci_md_env_cfg_folder_init;
  if r <? 0 then mret None
  else
    tmp_buf ← psys (Sys_sysenv_get name);
    mret (Some (snprintf size (default (lit "(null)") tmp_buf))).

Definition md_env_val_set (name val : list Z) : M Z :=
  r ← ccci_md_env_cfg_folder_init;
  if r <? 0 then mret (-1)
  else
    ret ← psys (Sys_sysenv_set name val);
    mret (if ret =? 0 then ret else -1).
End Env.
