(* ===== verification/MdRat.v ===== *)
(** * ccci_mdinit: modem types, patterns, time and images

    The rest of env_setting.c (radio access technologies as bit maps and the
    stored modem type), magic_pattern.c, time_clib_srv.c and ccci_legacy.c. *)
From S2P Require Import Prelude Posix CcciIntf KSetting MdTypes MdEnv.

(** ** env_setting.c: radio access technologies *)

Definition MD_CAP_ENHANCE : Z := 0x5A000000.
Definition MD_CAP_GSM : Z := 1.
Definition MD_CAP_TDS_CDMA : Z := 2.
Definition MD_CAP_WCDMA : Z := 4.
Definition MD_CAP_TDD_LTE : Z := 8.
Definition MD_CAP_FDD_LTE : Z := 16.
Definition MD_CAP_CDMA2000 : Z := 32.
Definition MD_CAP_MASK : Z := 63.

Definition one_of (s : list Z) (l : list string) : bool := existsb (fun t => streq s (lit t)) l.

Definition get_capability_bit (cap_str : list Z) : Z :=
  if one_of cap_str ["LF"; "Lf"; "lf"]%string then MD_CAP_FDD_LTE
  else if one_of cap_str ["LT"; "Lt"; "lt"]%string then MD_CAP_TDD_LTE
  else if one_of cap_str ["W"; "w"]%string then MD_CAP_WCDMA
  else if one_of cap_str ["C"; "c"]%string then MD_CAP_CDMA2000
  else if one_of cap_str ["T"; "t"]%string then MD_CAP_TDS_CDMA
  else if one_of cap_str ["G"; "g"]%string then MD_CAP_GSM
  else 0.

Definition MAX_CAP_STR_LENGTH : Z := 16.

(** The bit of a finished name, if there is one. *)
Definition cap_flush (tmp_str : list Z) (map : Z) : Z :=
  match tmp_str with [] => map | _ => Z.lor map (get_capability_bit tmp_str) end.

Fixpoint rat_scan (tmp_str : list Z) (map : Z) (str : list Z) : Z :=
  match str with
  | [] => cap_flush tmp_str map
  | c :: l =>
      if (c =? 32) || (c =? 9) then rat_scan tmp_str map l
      else if (c =? 47) || (c =? 95) then rat_scan [] (cap_flush tmp_str map) l
      else if zlen tmp_str <? MAX_CAP_STR_LENGTH - 1 then rat_scan (tmp_str ++ [c]) map l
      else cap_flush tmp_str map
  end.

Definition ccci_rat_str_to_bitmap (str : list Z) : Z := rat_scan [] 0 str.

Definition lor_all (l : list Z) : Z := foldr Z.lor 0 l.

(** The eleventh entry has [||] for its last [|]: [a || b] is 1. *)
Definition legacy_rat_map : list Z := [
  lor_all [MD_CAP_FDD_LTE; MD_CAP_TDD_LTE; MD_CAP_TDS_CDMA; MD_CAP_GSM];
  lor_all [MD_CAP_FDD_LTE; MD_CAP_TDD_LTE; MD_CAP_WCDMA; MD_CAP_GSM];
  lor_all [MD_CAP_FDD_LTE; MD_CAP_TDD_LTE; MD_CAP_WCDMA; MD_CAP_TDS_CDMA; MD_CAP_GSM];
  lor_all [MD_CAP_FDD_LTE; MD_CAP_TDD_LTE; MD_CAP_WCDMA; MD_CAP_CDMA2000; MD_CAP_GSM];
  lor_all [MD_CAP_FDD_LTE; MD_CAP_TDD_LTE; MD_CAP_WCDMA; MD_CAP_CDMA2000; MD_CAP_TDS_CDMA; MD_CAP_GSM];
  lor_all [MD_CAP_TDD_LTE; MD_CAP_TDS_CDMA; MD_CAP_GSM];
  lor_all [MD_CAP_FDD_LTE; MD_CAP_WCDMA; MD_CAP_GSM];
  lor_all [MD_CAP_FDD_LTE; MD_CAP_WCDMA; MD_CAP_CDMA2000; MD_CAP_GSM];
  lor_all [MD_CAP_FDD_LTE; MD_CAP_TDD_LTE; MD_CAP_CDMA2000; MD_CAP_TDS_CDMA; MD_CAP_GSM];
  lor_all [MD_CAP_TDD_LTE; MD_CAP_CDMA2000; MD_CAP_TDS_CDMA; MD_CAP_GSM];
  (if negb (lor_all [MD_CAP_TDD_LTE; MD_CAP_WCDMA] =? 0) || negb (MD_CAP_GSM =? 0) then 1 else 0);
  lor_all [MD_CAP_TDD_LTE; MD_CAP_WCDMA; MD_CAP_CDMA2000; MD_CAP_GSM];
  lor_all [MD_CAP_FDD_LTE; MD_CAP_TDS_CDMA; MD_CAP_GSM];
  lor_all [MD_CAP_FDD_LTE; MD_CAP_CDMA2000; MD_CAP_TDS_CDMA; MD_CAP_GSM]].

Definition legacy_md_support_id_to_rat (md_support_id : Z) : Z :=
  if md_support_id <? 0 then 0
  else if md_support_id <? 8 then md_support_id
  else if md_support_id <=? 21 then nth (Z.to_nat (md_support_id - 8)) legacy_rat_map 0
  else if Z.land md_support_id MD_CAP_ENHANCE =? MD_CAP_ENHANCE then md_support_id
  else 0.

(** ** magic_pattern.c *)

Definition byte_reverse (id : list Z) : list Z :=
  match id with [a; b; c; d] => [b; a; d; c] | _ => id end.

Definition cross_id_switch (id_1 id_2 : list Z) : list Z * list Z :=
  match id_1, id_2 with
  | [a0; a1; a2; a3], [b0; b1; b2; b3] => ([a0; b0; b3; a3], [a1; b1; b2; a2])
  | _, _ => (id_1, id_2)
  end.

Definition random_pattern (id_1 id_2 : Z) : Z :=
  let '(a, b) := cross_id_switch (byte_reverse (le32 id_1)) (byte_reverse (le32 id_2)) in
  Z.lxor (de32 a) (de32 b).

Section Services.
Context `{OS}.
Context (junk : Z -> list Z).
Abbreviation M := (prog mdinit).

(** The new value of [*p_val], if the function succeeds. *)
Definition compute_random_pattern : M (option Z) :=
  let ID_INDEX := 12 in
  fd ← psys (Sys_open (lit "/dev/devmap") 0 0);
  if rv fd <? 0 then mret None
  else
    '(ret, id_1) ← psys (Sys_ioctl (rv fd) READ_DEV_DATA ID_INDEX);
    if negb (rv ret =? 0) then _ ← psys (Sys_close (rv fd)); mret None
    else
      '(ret, id_2) ← psys (Sys_ioctl (rv fd) READ_DEV_DATA (ID_INDEX + 1));
      if negb (rv ret =? 0) then _ ← psys (Sys_close (rv fd)); mret None
      else
        _ ← psys (Sys_close (rv fd));
        mret (Some (random_pattern (u32 id_1) (u32 id_2))).

(** ** env_setting.c and mdinit_relate.c: the modem type *)

Definition ENV_VALUE_MAX : Z := 64.

Definition get_rsc_protol_value (md_id : Z) (buf : list Z) (len : Z) : M (Z * list Z) :=
  '(r, value) ← (if md_id =? MD_SYS1 then property_get (lit "ro.vendor.mtk_md1_support")
                 else if md_id =? MD_SYS3 then property_get (lit "ro.vendor.mtk_md3_support")
                 else mret (0, []));
  mret (r, if r =? 0 then buf else snprintf len value).

(** [atoi] results are [int]s; the two variables are unsigned. *)
Definition parse_sys_env_rat_setting (md_id : Z) : M Z :=
  '(r, value) ← get_rsc_protol_value md_id [] ENV_VALUE_MAX;
  let rsc_value := if r >? 0 then u32 (atoi_int value) else 0 in
  saved ← (if md_id =? 0 then
             v ← md_env_val_get (lit "md_type") ENV_VALUE_MAX;
             mret (match v with Some v => u32 (atoi_int v) | None => 0 end)
           else mret 0);
  mret (if saved >? 0 then saved else rsc_value).

Definition get_stored_modem_type_val (md_id : Z) : M Z :=
  if negb (md_id =? 0) then mret 0
  else
    v ← md_env_val_get (lit "md_type") ENV_VALUE_MAX;
    mret (match v with Some v => i32 (legacy_md_support_id_to_rat (atoi_int v)) | None => -1 end).

Definition store_modem_type_val (md_id new_val : Z) : M Z :=
  if negb (md_id =? 0) then mret 0
  else if new_val =? 0 then mret 0
  else md_env_val_set (lit "md_type") (itoa new_val).

(** ** time_clib_srv.c *)

Definition timezone_file : list Z := lit "/data/vendor/ccci_cfg/timezone".

Definition save_timezone (tz : Z) : M Z :=
  fd ← psys (Sys_open timezone_file (64 + 2 + 512) 384);
  if rv fd <? 0 then mret (-1)
  else
    r ← psys (Sys_write (rv fd) (le32 tz));
    _ ← psys (Sys_close (rv fd));
    mret (if rv r =? 4 then 0 else -2).

(** The result and [*tz]. *)
Definition load_timezone (tz : Z) : M (Z * Z) :=
  fd ← psys (Sys_open timezone_file 0 0);
  if rv fd <? 0 then mret (-1, tz)
  else
    r ← psys (Sys_read (rv fd) 4);
    _ ← psys (Sys_close (rv fd));
    let bs := rres_data r in
    let tz := i32 (de32 (bs ++ drop (length bs) (le32 tz))) in
    mret (if rres_rv r =? 4 then 0 else -2, tz).

Definition initial_timezone : M Z :=
  '(r, tz) ← load_timezone (le_value (junk 4));
  if r <? 0 then psys Sys_gettimeofday_tz else mret tz.

Definition time_srv_init : M Z :=
  fd ← psys (Sys_open (lit "/dev/ccci_ipc_5") 2 0);
  pmod (set_ipc_fd (rv fd));;
  if rv fd <? 0 then mret (-1)
  else
    curr_tz ← initial_timezone;
    '(r, _) ← psys (Sys_ioctl (rv fd) CCCI_IPC_UPDATE_TIMEZONE curr_tz);
    mret (if rv r <? 0 then -2 else 0).

(** One round of the thread: the time zone after it. *)
Definition time_update_round (curr_tz : Z) : M Z :=
  g ← pget;
  '(r, _) ← psys (Sys_ioctl (ipc_fd g) CCCI_IPC_WAIT_TIME_UPDATE 0);
  if rv r =? 0 then
    tz ← psys Sys_gettimeofday_tz;
    pwhen (negb (curr_tz =? tz)) (_ ← save_timezone tz; mret tt);;
    _ ← psys (Sys_ioctl (ipc_fd g) CCCI_IPC_UPDATE_TIME tz);
    mret tz
  else mret curr_tz.

Fixpoint time_update_loop (fuel : nat) (curr_tz : Z) : M unit :=
  match fuel with
  | O => phalt NoFuel
  | S fuel' => tz ← time_update_round curr_tz; time_update_loop fuel' tz
  end.

Definition monitor_time_update_thread (fuel : nat) : M unit :=
  tz ← initial_timezone; time_update_loop fuel tz.

(** ** ccci_legacy.c *)

Definition md_img_folder : list Z := lit "/vendor/firmware/".
Definition md_img_cip_folder : list Z := lit "/custom/etc/firmware/".
Definition MAX_IMG_NUM : Z := 16.

(** File names and types ([modem_2g] is 1). *)
Definition md1_img_list : list (list Z * Z) :=
  [(lit "modem_1_2g_n.img", 1); (lit "modem_1_3g_n.img", 2); (lit "modem_1_wg_n.img", 3);
   (lit "modem_1_tg_n.img", 4); (lit "modem_1_lwg_n.img", 5); (lit "modem_1_ltg_n.img", 6)].
Definition md2_img_list : list (list Z * Z) :=
  [(lit "modem_2_2g_n.img", 1); (lit "modem_2_3g_n.img", 2); (lit "modem_2_wg_n.img", 3);
   (lit "modem_2_tg_n.img", 4); (lit "modem_2_lwg_n.img", 5); (lit "modem_2_ltg_n.img", 6)].
Definition md3_img_list : list (list Z * Z) := [(lit "modem_3_3g_n.img", 2)].

(** The types of the images that exist, in the order of the list. *)
Fixpoint scan_images (l : list (list Z * Z)) : M (list Z) :=
  match l with
  | [] => mret []
  | (file_name, ty) :: l' =>
      cip ← psys (Sys_access (snprintf 100 (md_img_cip_folder ++ file_name)) 0);
      found ← (if rv cip =? 0 then mret true
               else r ← psys (Sys_access (snprintf 100 (md_img_folder ++ file_name)) 0); mret (rv r =? 0));
      rest ← scan_images l';
      mret (if found : bool then ty :: rest else rest)
  end.

Definition md_image_exist_check (fd md_id : Z) : M Z :=
  let md_img_list := if md_id =? 1 then md1_img_list else if md_id =? 2 then md2_img_list
                     else if md_id =? 3 then md3_img_list else [] in
  types ← scan_images md_img_list;
  _ ← psys (Sys_ioctl_img_exist fd (types ++ replicate (Z.to_nat MAX_IMG_NUM - length types) 0));
  mret 0.
End Services.
