(* ===== verification/MdPlatform.v ===== *)
(** * ccci_mdinit: the boot data of a modem

    platform/mdinit_platform.c: the delay before a reset, the published state and
    the data the modem boots with, among it the SBP code that selects the
    operator's configuration.  The platform half of ccci_lib
    (ccci_lib_platform.c) answers the project's settings; its macros are
    parameters. *)
From S2P Require Import Prelude Posix CcciIntf KSetting MdTypes MdEnv MdRat.

(** ** [strtoul (s, NULL, 16)], with a 32-bit [unsigned long] *)

Fixpoint skip_space (s : list Z) : list Z :=
  match s with
  | c :: s' => if (c =? 32) || ((9 <=? c) && (c <=? 13)) then skip_space s' else s
  | [] => []
  end.

Definition is_hex (c : Z) : bool := is_digit c || is_lower_hex c || is_upper_hex c.
Definition hex_value (c : Z) : Z := if is_digit c then c - 48 else if is_lower_hex c then c - 87 else c - 55.

Fixpoint hex_digits (acc : Z) (s : list Z) : Z :=
  match s with
  | c :: s' => if is_hex c then hex_digits (acc * 16 + hex_value c) s' else acc
  | [] => acc
  end.

Definition strtoul16 (s : list Z) : Z :=
  let s := skip_space s in
  let neg := starts_with [45] s in
  let s := if neg || starts_with [43] s then tail s else s in
  let s := if (starts_with (lit "0x") s || starts_with (lit "0X") s) && is_hex (nth 2 s 0) then drop 2 s else s in
  let v := hex_digits 0 s in
  if v >=? 2 ^ 32 then 2 ^ 32 - 1 else if neg then u32 (- v) else v.

Section Platform.
Context `{OS}.
Context (junk : Z -> list Z).
Abbreviation M := (prog mdinit).

(** Macros of ccci_lib_platform.c, where they are defined. *)
Context (MTK_ECCCI_C2K : bool) (MD_SBP_CUSTOM_VALUE MD2_SBP_CUSTOM_VALUE : option Z).

Definition query_prj_cfg_setting_platform (name : list Z) (size : Z) : option (list Z) :=
  if MTK_ECCCI_C2K && streq name (lit "MTK_ECCCI_C2K") then Some (snprintf size (lit "1"))
  else
    let custom := fun macro n rest =>
      match macro with
      | Some v => if streq name (lit n) then Some (snprintf size (itoa v)) else rest
      | None => rest
      end in
    custom MD_SBP_CUSTOM_VALUE "MTK_MD_SBP_CUSTOM_VALUE"%string
      (custom MD2_SBP_CUSTOM_VALUE "MTK_MD2_SBP_CUSTOM_VALUE"%string None).

Definition query_prj_cfg_setting : list Z -> Z -> option (list Z) := query_prj_cfg_setting_platform.

(** ** The delay, and the published state *)

Definition delay_to_reset_md (version : Z) : M unit :=
  buf ← property_get_default
    (lit (if version =? 1 then "vendor.md.reset.wait" else "vendor.mediatek.debug.md.reset.wait")) (lit "none");
  if negb (streq buf (lit "none")) then
    let val := atoi_int buf in
    pwhen ((0 <? val) && (val <? 10)) (_ ← psys (Sys_sleep val); mret tt)
  else mret tt.

Definition store_md_statue (md_id : Z) (buf : list Z) (len : Z) : M unit :=
  let prop_val := snprintf 92 (take (Z.to_nat (len - 1)) buf) in
  property_set (lit "vendor.mtk.md" ++ itoa (md_id + 1) ++ lit ".status") prop_val;;
  pwhen (md_id =? MD_SYS3) (property_set (lit "vendor.net.cdma.mdmstat") prop_val).

(** ** SBP codes *)

Definition get_usp_sbp_setting_v2 : M Z :=
  fd ← psys (Sys_open (lit "/mnt/vendor/nvdata/APCFG/APRDCL/CXP_SBP") 0 0);
  if rv fd <? 0 then mret (-1)
  else
    r ← psys (Sys_read (rv fd) 15);
    _ ← psys (Sys_close (rv fd));
    mret (if rres_rv r <=? 0 then -1 else atoi_int (cstring (rres_data r))).

(** A property as a number, as three functions read it: [dflt] if it does not
    exist, 0 if the number is negative. *)
Definition property_number (name : list Z) (dflt : Z) : M Z :=
  '(ret, buf) ← property_get name;
  if ret =? 0 then mret dflt
  else
    v ← lift_outcome (str2uint buf);
    mret (if i32 v <? 0 then 0 else i32 v).

Definition get_usp_sbp_setting : M Z := property_number (lit "persist.vendor.mtk_usp_md_sbp_code") (-1).
Definition get_project_sbp_code (md_id : Z) : M Z := property_number (lit "ro.vendor.mtk_md_sbp_custom_value") 0.
Definition get_sbp_subid_setting : M Z := property_number (lit "persist.vendor.operator.subid") 0.

(** The property that does not exist is a number too here: the empty string. *)
Definition get_md_wait_time : M Z :=
  '(_, buf) ← property_get (lit "ro.vendor.md_log_memdump_wait");
  v ← lift_outcome (str2uint buf);
  mret (if i32 v <? 0 then 0 else i32 v).

Definition get_cip_sbp_setting (md_id : Z) : M Z :=
  if negb ((md_id =? MD_SYS1) || (md_id =? MD_SYS2)) then mret 0
  else
    let file := snprintf 100 (md_img_cip_folder ++ lit (if md_id =? MD_SYS1 then "CIP_MD_SBP" else "CIP_MD2_SBP")) in
    _ ← psys (Sys_umask 7);
    '(r, _) ← psys (Sys_stat file);
    if rv r <? 0 then mret 0
    else
      fd ← psys (Sys_open file 0 0);
      if rv fd <? 0 then mret 0
      else
        r ← psys (Sys_read (rv fd) 15);
        _ ← psys (Sys_close (rv fd));
        if rres_rv r <=? 0 then mret 0
        else
          v ← lift_outcome (str2uint (cstring (rres_data r)));
          mret (if i32 v >? 0 then v else 0).

Definition get_project_sbp_code_v1 (md_id : Z) : M Z :=
  match query_prj_cfg_setting (lit (if md_id =? MD_SYS2 then "MTK_MD2_SBP_CUSTOM_VALUE" else "MTK_MD_SBP_CUSTOM_VALUE")) 10 with
  | Some s => v ← lift_outcome (str2uint s); mret (i32 v)
  | None => mret 0
  end.

Definition sizeof_MD_SBP_Struct : Z := 24.

(** The result and the bytes read into [pdata], which holds [recsize]. *)
Definition get_nvram_ef_data (fid recsize : Z) (pdata : list Z) : M (Z * list Z) :=
  '(fd, rec_size, _) ← psys (Sys_nvm_get_file_desc fid);
  if fd <? 0 then mret (-1, pdata)
  else
    r ← psys (Sys_read fd rec_size);
    if zlen (rres_data r) >? recsize then phalt OutOfBounds
    else
      let pdata := rres_data r ++ drop (length (rres_data r)) pdata in
      if negb (rec_size =? rres_rv r) then mret (-1, pdata)
      else
        _ ← psys (Sys_nvm_close_file_desc fd);
        mret (0, pdata).

(** Nothing calls this one; the old contents are kept to be written back. *)
Definition store_nvram_ef_data (fid recsize : Z) (pdata : option (list Z)) : M Z :=
  match pdata with
  | None => mret (-1)
  | Some pdata =>
      ok ← psys (Sys_malloc recsize);
      '(ret, old) ← (if ok : bool then
                       '(r, d) ← get_nvram_ef_data fid recsize (take (Z.to_nat recsize) (junk recsize));
                       mret (r, Some d)
                     else mret (0, None));
      '(fd, rec_size, _) ← psys (Sys_nvm_get_file_desc fid);
      if fd <? 0 then mret (-1)
      else if zlen pdata <? rec_size then phalt OutOfBounds
      else
        w ← psys (Sys_write fd (take (Z.to_nat rec_size) pdata));
        ret ← (if negb (rec_size =? rv w) then
                 match old with
                 | Some d => _ ← psys (Sys_write fd (take (Z.to_nat recsize) d)); mret (-1)
                 | None => mret (-1)
                 end
               else mret ret);
        _ ← psys (Sys_nvm_close_file_desc fd);
        mret ret
  end.

(** The loop of [check_nvram_ready]: it ends when the property has the value,
    and the bound of 30 rounds only decides the result. *)
Fixpoint nvram_ready_loop (fuel : nat) (retry : Z) : M bool :=
  match fuel with
  | O => phalt NoFuel
  | S fuel' =>
      '(_, v) ← property_get (lit "vendor.service.nvram_init");
      if streq v (lit "Ready") || streq v (lit "Pre_Ready") then mret (negb (retry + 1 >=? 30))
      else _ ← psys (Sys_usleep (500 * 1000)); nvram_ready_loop fuel' (retry + 1)
  end.

Definition check_nvram_ready (fuel : nat) : M bool := nvram_ready_loop fuel 0.

Definition get_nvram_sbp_code (fuel : nat) (md_id : Z) : M Z :=
  _ ← check_nvram_ready fuel;
  lid ← psys (Sys_nvm_get_lid (lit "/vendor/nvdata/APCFG/APRDCL/MD_SBP"));
  if lid <? 0 then mret 0
  else
    ok ← psys (Sys_malloc sizeof_MD_SBP_Struct);
    if negb ok then mret 0
    else
      '(r, info) ← get_nvram_ef_data lid sizeof_MD_SBP_Struct (replicate (Z.to_nat sizeof_MD_SBP_Struct) 0);
      if negb (r =? 0) then mret 0
      else mret (i32 (de32 (take 4 (drop (if md_id =? MD_SYS2 then 8 else 0) info)))).

(** The code of the first source that has one: the operator's package, the
    custom partition, the project, the NVRAM; or the one of the last time. *)
Definition get_md_sbp_code (fuel : nat) (md_id version : Z) : M Z :=
  usp ← get_usp_sbp_setting_v2;
  if usp >=? 0 then pmod (set_sbpc usp);; mret usp
  else
    cip ← get_cip_sbp_setting md_id;
    dflt ← (if version =? 1 then get_project_sbp_code_v1 md_id else get_project_sbp_code md_id);
    stored ← get_nvram_sbp_code fuel md_id;
    (if i32 cip >? 0 then pmod (set_sbpc (i32 cip))
     else if dflt >? 0 then pmod (set_sbpc dflt)
     else pwhen (stored >? 0) (pmod (set_sbpc stored)));;
    g ← pget;
    mret (sbpc g).

(** ** The logger's mode and the dump flag *)

Definition MODE_IDLE : Z := 0.
Definition MODE_SD : Z := 2.

(** [mdl_mode |= get_md_wait_time() << 16], an [int] shift. *)
Definition default_mdlog_mode : M Z :=
  b ← property_get_default (lit "ro.build.type") (lit "eng");
  let mode := if streq b (lit "eng") then MODE_SD else MODE_IDLE in
  t ← get_md_wait_time;
  mret (Z.lor mode (u32 (Z.shiftl t 16))).

Definition mdlog_config_file (md_id : Z) : list (list Z) :=
  if md_id =? 0 then [lit "/data/mdlog/mdlog1_config"; lit "/data/mdl/mdl_config"]
  else if md_id =? 1 then [lit "/data/mdlog/mdlog2_config"]
  else if md_id =? 3 then [lit "/data/mdlog/mdlog3_config"]
  else [].

Fixpoint open_first (l : list (list Z)) : M Z :=
  match l with
  | [] => mret (-1)
  | p :: l' => fd ← psys (Sys_open p 0 0); if rv fd <? 0 then open_first l' else mret (rv fd)
  end.

Definition get_mdlog_boot_mode (md_id : Z) : M Z :=
  fd ← open_first (mdlog_config_file md_id);
  if fd <? 0 then default_mdlog_mode
  else
    r ← psys (Sys_read fd 4);
    mode ← (if negb (rres_rv r =? 4) then default_mdlog_mode else mret (de32 (rres_data r)));
    _ ← psys (Sys_close fd);
    mret mode.

Definition get_md_dbg_dump_flag (md_id : Z) : M Z :=
  buf ← (if md_id =? MD_SYS1 then property_get_default (lit "persist.vendor.ccci.md1.dbg_dump") (lit "none")
         else if md_id =? MD_SYS3 then property_get_default (lit "persist.vendor.ccci.md3.dbg_dump") (lit "none")
         else mret []);
  mret (if streq buf (lit "none") then -1 else i32 (strtoul16 buf)).
End Platform.
