(* ===== verification/MdRelate.v ===== *)
(** * ccci_mdinit: the other services, and the bound of a wait

    platform/mdinit_relate.c: starting and stopping the services above a modem,
    what happens when its state changes, and the rendezvous of the daemons of two
    modems that restart together. *)
From S2P Require Import Prelude Posix CcciIntf MemFs CcbTypes CcbSetup KSetting MdTypes MdEnv MdRat MdPlatform.

Definition RILD_PROXY_NAME : list Z := lit "vendor.ril-proxy".
Definition RILD_PROXY_SERVICE_STATUS : list Z := lit "init.svc.vendor.ril-proxy".
Definition MDLOGGER_CAN_RESET : list Z := lit "vendor.debug.md.reset".
Definition pre_service_status : list Z := lit "init.svc.".

(** [PROPERTY_KEY_MAX] *)
Definition KEY_MAX : Z := 32.

Definition service_status (name : list Z) : list Z := snprintf KEY_MAX (pre_service_status ++ name).

(** A property and the value it is waited for. *)
Definition wait_prop_t : Type := list Z * list Z.

Section Relate.
Context `{OS}.
Context (junk : Z -> list Z).
Abbreviation M := (prog mdinit).

(** ** Waiting and services *)

(** One round over the properties: those that still have to be waited for. *)
Fixpoint wait_round (wp : list wait_prop_t) : M (list wait_prop_t) :=
  match wp with
  | [] => mret []
  | (name, disr_value) :: wp' =>
      r ← wait_for_property name (Some disr_value) 0;
      rest ← wait_round wp';
      mret (if r >=? 0 then rest else (name, disr_value) :: rest)
  end.

Fixpoint wait_ready_loop (maxtimes : nat) (wp : list wait_prop_t) : M bool :=
  match maxtimes with
  | O => mret false
  | S n =>
      rest ← wait_round wp;
      match rest with
      | [] => mret true
      | _ => _ ← psys (Sys_usleep (PROPERTY_WAIT_TIME * 1000)); wait_ready_loop n rest
      end
  end.

Definition wait_property_ready (wp : list wait_prop_t) (waitmsec : Z) : M bool :=
  if zlen wp >? 32 then mret false
  else wait_ready_loop (Nat.max 1 (Z.to_nat (Z.quot waitmsec PROPERTY_WAIT_TIME))) wp.

Definition start_service_verified (service_name service_status_name : list Z) (waitmsec : Z) : M Z :=
  _ ← property_get service_status_name;
  property_set (lit "ctl.start") service_name;;
  wait_for_property service_status_name (Some (lit "running")) waitmsec.

Definition stop_service_verified (service_name service_status_name : list Z) (waitmsec : Z) : M Z :=
  property_set (lit "ctl.stop") service_name;;
  wait_for_property service_status_name (Some (lit "stopped")) waitmsec.

(** The wait for the logger: at most six rounds. *)
Fixpoint logger_can_reset (n : nat) : M unit :=
  match n with
  | O => mret tt
  | S n' =>
      buf ← property_get_default MDLOGGER_CAN_RESET (lit "0");
      if negb (streq buf (lit "0")) then mret tt
      else _ ← psys (Sys_usleep (50 * 1000)); logger_can_reset n'
  end.

Definition stop_all_ccci_up_layer_services : M unit :=
  g ← pget;
  _ ← stop_service_verified (fsd_name g) (service_status (fsd_name g)) MAX_WAIT_FOR_PROPERTY;
  _ ← psys Sys_wake_unlock;
  factory ← is_factory_mode junk;
  wp ← (if factory : bool then mret []
        else
          _ ← stop_service_verified (rild_name g) (service_status (rild_name g)) MAX_WAIT_FOR_PROPERTY;
          if negb (relate_md_id g =? MD_SYS3) then
            property_set (lit "ctl.stop") (muxd_name g);;
            mret [(service_status (muxd_name g), lit "stopped")]
          else mret []);
  wp ← (if negb (mdlogger_cnt g =? 0) then
          logger_can_reset 6;;
          property_set (lit "ctl.stop") (mdlogger_name g);;
          pmod (set_mdlogger_cnt 0);;
          mret (wp ++ [(service_status (mdlogger_name g), lit "stopped")])
        else mret wp);
  _ ← wait_property_ready wp MAX_WAIT_FOR_PROPERTY;
  mret tt.

Definition start_all_ccci_up_layer_services : M unit :=
  g ← pget;
  pwhen (negb (need_silent_reboot g =? 0)) (property_set (lit "vendor.ril.mux.report.case") (lit "2"));;
  pwhen (mdlogger_cnt g =? 0)
    (_ ← start_service_verified (mdlogger_name g) (service_status (mdlogger_name g)) 0;
     pmod (set_mdlogger_cnt 1));;
  factory ← is_factory_mode junk;
  pwhen (negb factory)
    (_ ← (if negb (relate_md_id g =? MD_SYS3)
          then start_service_verified (muxd_name g) (service_status (muxd_name g)) MAX_WAIT_FOR_PROPERTY
          else start_service_verified (rild_name g) (service_status (rild_name g)) MAX_WAIT_FOR_PROPERTY);
     mret tt).

Definition rild_generation : M Z :=
  '(r, value) ← (r ← psys (Sys_property_get_default (lit "ro.vendor.mtk_ril_mode") (lit "legacy chip"));
                 mret (r.1, cstring r.2));
  mret (if (r >? 0) && streq value (lit "c6m_1rild") then 1 else 0).

(** ** Encrypted storage

    The daemon no longer calls these three; [wait_nvram_ready] ends the process
    when the NVRAM does not become ready. *)

Definition DB_OPT_FTRACE : Z := 1.

(** [n] is the number of rounds left. *)
Fixpoint wait_nvram_loop (n : nat) (wait_level : Z) : M Z :=
  match n with
  | O => mret (-1)
  | S n' =>
      '(_, v) ← property_get (lit "vendor.service.nvram_init");
      if ((wait_level =? 1) || (wait_level =? 2)) && streq v (lit "Ready") then mret 0
      else if (wait_level =? 2) && streq v (lit "Pre_Ready") then mret 0
      else
        match n' with
        | O => mret (-1)
        | _ => _ ← psys (Sys_usleep (500 * 1000)); wait_nvram_loop n' wait_level
        end
  end.

Definition wait_nvram_ready (wait_level : Z) : M Z :=
  ret ← wait_nvram_loop 240 wait_level;
  if ret <? 0 then
    g ← pget;
    let md_id := relate_md_id g in
    let mod_name := if md_id =? 1 then "md1"%string else if md_id =? 2 then "md2"%string
                    else if md_id =? 3 then "md3"%string else "mdx"%string in
    _ ← show_aee_system_exception (lit "ccci_mdinit") (lit mod_name) DB_OPT_FTRACE
          (lit "Wait service.nvram_init ready timeout, please ask nvram owner to check!");
    phalt (Exited (- 0xF1))
  else mret ret.

(** The two texts of vold. *)
Definition restart_framework : list Z := lit "trigger_restart_framework".
Definition restart_min_framework : list Z := lit "trigger_restart_min_framework".

(** [isEncryptWithPasswd] and [toCheckIsEncryptWithPasswd], after the test of
    the first ten seconds. *)
Definition check_passwd (decrypt : list Z) (with_passwd to_check : bool) (since : Z) : M (bool * bool) :=
  if to_check && negb with_passwd then
    up ← psys Sys_sysinfo_uptime;
    d ← padd up (- since);
    mret (if d >? 10 then (streq decrypt restart_min_framework, false) else (with_passwd, to_check))
  else mret (with_passwd, to_check).

(** [since] is [becomeEncryptedTimestamp]. *)
Fixpoint decrypt_loop (fuel : nat) (crypto decrypt : list Z) (with_passwd to_check : bool) (since : Z) : M Z :=
  match fuel with
  | O => phalt NoFuel
  | S fuel' =>
      let next := fun with_passwd to_check since =>
        _ ← psys (Sys_usleep (500 * 1000));
        crypto ← property_get_default (lit "ro.crypto.state") [];
        '(_, decrypt) ← property_get (lit "vold.decrypt");
        decrypt_loop fuel' crypto decrypt with_passwd to_check since in
      if streq crypto (lit "encrypted") then
        since ← (if since =? 0 then psys Sys_sysinfo_uptime else mret since);
        '(with_passwd, to_check) ← check_passwd decrypt with_passwd to_check since;
        if streq decrypt (if with_passwd : bool then restart_min_framework else restart_framework) then mret 0
        else next with_passwd to_check since
      else if streq crypto (lit "unencrypted") then mret 0
      else next with_passwd to_check since
  end.

Definition wait_decrypt_done (fuel : nat) : M Z :=
  crypto ← property_get_default (lit "ro.crypto.state") [];
  '(_, decrypt) ← property_get (lit "vold.decrypt");
  decrypt_loop fuel crypto decrypt false true 0.

Fixpoint vold_loop (fuel : nat) : M Z :=
  match fuel with
  | O => phalt NoFuel
  | S fuel' =>
      '(_, v) ← property_get (lit "vold.decrypt");
      if streq v restart_framework then _ ← wait_nvram_ready 1; mret 2
      else if streq v restart_min_framework then _ ← wait_nvram_ready 2; mret 3
      else _ ← psys (Sys_usleep (100 * 1000)); vold_loop fuel'
  end.

Definition check_decrypt_ready (fuel : nat) : M Z :=
  '(_, v) ← property_get (lit "ro.crypto.state");
  if streq v [] then _ ← wait_decrypt_done fuel; _ ← wait_nvram_ready 2; mret 1
  else if streq v (lit "unencrypted") || streq v (lit "unsupported") then _ ← wait_nvram_ready 1; mret 0
  else if streq v (lit "encrypted") then
    '(_, ty) ← property_get (lit "ro.crypto.type");
    if streq ty (lit "file") then _ ← wait_nvram_ready 1; mret 0 else vold_loop fuel
  else mret (-1).

(** ** The rendezvous *)

Definition get_mdini_killed_state (monitor_fd : Z) : M Z :=
  '(ret, mdinit_killed) ← psys (Sys_ioctl monitor_fd CCCI_IOC_GET_MDINIT_KILLED 0);
  mret (if negb (rv ret =? 0) then 0 else i32 mdinit_killed).

Definition md1_status : list Z := lit "vendor.mtk.md1.status".
Definition md3_status : list Z := lit "vendor.mtk.md3.status".

Definition kill_ril_proxy (md_id : Z) : M unit :=
  if md_id =? MD_SYS1 then
    factory ← is_factory_mode junk;
    if factory : bool then mret tt
    else
      gen ← rild_generation;
      pwhen (gen =? 0) (_ ← stop_service_verified RILD_PROXY_NAME RILD_PROXY_SERVICE_STATUS MAX_WAIT_FOR_PROPERTY; mret tt)
  else mret tt.

(** The first loop: wait until the other modem is in reset and tell it to go on.
    [false] is the jump to [OTHER_CHECK]. *)
Fixpoint wait_other_reset (fuel : nat) (monitor_fd md_id : Z) (other : list Z) : M bool :=
  match fuel with
  | O => phalt NoFuel
  | S fuel' =>
      '(ret, buf) ← property_get other;
      if ret =? 0 then kill_ril_proxy md_id;; mret false
      else if streq buf (lit "reset") then
        pwhen (md_id =? MD_SYS3) (_ ← psys (Sys_ioctl monitor_fd CCCI_IOC_RESET_MD1_MD3_PCCIF 0); mret tt);;
        property_set other (lit "reset_start");;
        _ ← wait_for_property other (Some (lit "reset_start")) MAX_WAIT_FOR_PROPERTY;
        mret true
      else
        _ ← psys (Sys_usleep (30 * 1000));
        wait_other_reset fuel' monitor_fd md_id other
  end.

(** The second loop: wait until the other modem tells this one. *)
Fixpoint wait_this_start (fuel : nat) (this : list Z) : M bool :=
  match fuel with
  | O => phalt NoFuel
  | S fuel' =>
      '(ret, buf) ← property_get this;
      if ret =? 0 then mret false
      else if streq buf (lit "reset_start") then mret true
      else
        _ ← psys (Sys_usleep (30 * 1000));
        wait_this_start fuel' this
  end.

Definition rendezvous (fuel : nat) (monitor_fd md_id : Z) (this other : list Z) : M unit :=
  ok ← wait_other_reset fuel monitor_fd md_id other;
  if ok : bool then
    ok ← wait_this_start fuel this;
    if ok : bool then kill_ril_proxy md_id else mret tt
  else mret tt.

(** The keys are set for modems 1 and 3; modem 2 reads them uninitialised. *)
Definition check_to_restart_md_v2 (fuel : nat) (monitor_fd first_boot : Z) : M unit :=
  '(ret, ty) ← psys (Sys_ioctl monitor_fd CCCI_IOC_GET_MD_TYPE (le_value (junk 4)));
  pwhen (rv ret =? 0) (property_set (lit "vendor.ril.active.md") (snprintf 16 (itoa (i32 ty))));;
  g ← pget;
  let md_id := relate_md_id g in
  let '(this, other) :=
    if md_id =? MD_SYS1 then (md1_status, md3_status)
    else if md_id =? MD_SYS3 then (md3_status, md1_status)
    else (cstring (take 32 (junk 32)), cstring (take 32 (junk 32))) in
  mdinit_killed ← get_mdini_killed_state monitor_fd;
  pwhen ((first_boot =? 0) || negb (mdinit_killed =? 0)) (rendezvous fuel monitor_fd md_id this other);;
  _ ← start_service_verified (fsd_name g) (service_status (fsd_name g)) MAX_WAIT_FOR_PROPERTY;
  pwhen (negb (first_boot =? 0)) (_ ← run_lib (ccci_ccb_init_users junk md_id); mret tt).

(** ** Changes of state *)

Definition set_names (mux rild logger fsd : string) : M unit :=
  pmod (set_muxd_name (lit mux));; pmod (set_rild_name (lit rild));;
  pmod (set_mdlogger_name (lit logger));; pmod (set_fsd_name (lit fsd)).

Definition md_init_related_init (md_id : Z) : M unit :=
  if md_id =? 0 then
    set_names "vendor.gsm0710muxd" "vendor.ril-daemon-mtk" "emdlogger1" "vendor.ccci_fsd"
  else if md_id =? 1 then
    set_names "vendor.gsm0710muxdmd2" "vendor.ril-daemon-mtkmd2" "emdlogger2" "vendor.ccci2_fsd"
  else if md_id =? 2 then
    set_names "invalid" "vendor.viarild" "emdlogger3" "vendor.ccci3_fsd"
  else mret tt.

Definition notify_md_status (status flight_mode : Z) : M unit :=
  if status =? CCCI_MD_STA_INIT then
    g ← pget;
    pmod (set_relate_md_id (curr_md_id g - 1));;
    md_init_related_init (curr_md_id g - 1);;
    _ ← update_inf_to_bootprof (lit "decpyt ready"); mret tt
  else if status =? CCCI_MD_STA_BOOT_READY then
    g ← pget;
    _ ← run_lib (ccci_ccb_check_users (relate_md_id g));
    meta ← is_meta_mode junk;
    (if meta : bool then mret tt
     else
       '(r, mode) ← psys (Sys_ioctl (system_ch_handle g) CCCI_IOC_GET_MD_BOOT_MODE MD_BOOT_MODE_INVALID);
       pwhen (negb ((rv r =? 0) && (mode =? MD_BOOT_MODE_META))) start_all_ccci_up_layer_services);;
    pmod (set_need_silent_reboot 0)
  else if status =? CCCI_MD_STA_RESET then
    if negb (flight_mode =? 0) then
      _ ← wait_for_property (lit "vendor.ril.getccci.response") (Some (lit "1")) 500;
      meta ← is_meta_mode junk;
      pwhen (negb meta) stop_all_ccci_up_layer_services
    else mret tt
  else if status =? CCCI_MD_STA_EXCEPTION then
    g ← pget;
    pwhen (mdlogger_cnt g =? 0)
      (_ ← start_service_verified (mdlogger_name g) (service_status (mdlogger_name g)) MAX_WAIT_FOR_PROPERTY;
       pmod (set_mdlogger_cnt 1));;
    pmod (set_need_silent_reboot 1);;
    pwhen (relate_md_id g =? MD_SYS3) (property_set (lit "vendor.net.cdma.mdmstat") (lit "exception"))
  else mret tt.
End Relate.

(** ** ccci_mdinit: waiting for a property is bounded

    What the wait for a property reads, how long it sleeps and when it succeeds. *)

(** The reads of a property in a trace, and the microseconds slept. *)
Definition read1 (name : list Z) (e : event) : list (Z * list Z) :=
  match e with
  | @Ev T c r =>
      match c in sys T return T -> list (Z * list Z) with
      | Sys_property_get name' => fun r => if streq name' name then [(r.1, cstring r.2)] else []
      | _ => fun _ => []
      end r
  end.
Definition reads (name : list Z) (evs : list event) : list (Z * list Z) := concat (read1 name <$> evs).

Definition slept1 (e : event) : Z := match e with Ev (Sys_usleep us) _ => us | _ => 0 end.
Definition slept (evs : list event) : Z := foldr (fun e t => slept1 e + t) 0 evs.

Definition desired_by (desired : option (list Z)) (r : Z * list Z) : bool :=
  (r.1 >? 0) && (match desired with None => true | Some d => streq r.2 d end).

Section Wait.
Context `{OS}.
Abbreviation W := (world mdinit).

Lemma property_get_run name (w : W) : exists r s,
  property_get name w = (World s (w_trace w ++ [Ev (Sys_property_get name) r]) (w_heap w) (w_brk w) (w_glob w),
    Ok (r.1, cstring r.2)).
Proof.
  unfold property_get, psys, mbind, prog_bind. destruct (os_do (Sys_property_get name) (w_os w)) as [s [v buf]].
  by exists (v, buf), s.
Qed.

(** Rounds of the loop: the answers, of which only the last may be the one. *)
Lemma wait_loop_run name desired n : forall w : W, exists w' r evs,
  wait_loop name desired n w = (w', Ok r) /\ w_trace w' = w_trace w ++ evs /\ w_glob w' = w_glob w /\
  ((r = 0 /\ exists l x, reads name evs = l ++ [x] /\ desired_by desired x = true /\
      Forall (fun y => desired_by desired y = false) l /\ (length l < n)%nat /\
      slept evs = Z.of_nat (length l) * 10000) \/
   (r = -1 /\ length (reads name evs) = n /\ Forall (fun y => desired_by desired y = false) (reads name evs) /\
      slept evs = Z.of_nat n * 10000)).
Proof.
  induction n as [|n IH]; intros w; cbn [wait_loop].
  - exists w, (-1), []. rewrite app_nil_r. split_and!; try done. right. by split_and!.
  - destruct (property_get_run name w) as (x & s & Hrun). rewrite (bind_ok _ _ _ _ _ Hrun).
    assert (read1 name (Ev (Sys_property_get name) x) = [(x.1, cstring x.2)]) as Hread
      by (simpl; unfold streq; by rewrite bool_decide_eq_true_2).
    fold (desired_by desired (x.1, cstring x.2)).
    change ((x.1 >? 0) && _) with (desired_by desired (x.1, cstring x.2)).
    destruct (desired_by desired (x.1, cstring x.2)) eqn:Hd.
    + eexists _, 0, [_]. split_and!; [reflexivity|done|done|]. left. split; [done|].
      exists [], (x.1, cstring x.2). unfold reads. cbn [fmap list_fmap concat]. rewrite Hread.
      split_and!; try done. simpl. lia.
    + set (w1 := World _ _ _ _ _). destruct (os_do (Sys_usleep (PROPERTY_WAIT_TIME * 1000)) (w_os w1)) as [s2 r2] eqn:E.
      rewrite (bind_ok _ _ _ _ _ (psys_eq _ _ _ _ E)).
      destruct (IH (answered (Sys_usleep (PROPERTY_WAIT_TIME * 1000)) r2 s2 w1)) as (w' & r & evs & Hrun2 & Ht & Hg & Hcase).
      exists w', r, (Ev (Sys_property_get name) x :: Ev (Sys_usleep (PROPERTY_WAIT_TIME * 1000)) r2 :: evs).
      split_and!; [done| |done|].
      { rewrite Ht. cbn [w_trace answered]. unfold w1. cbn [w_trace]. by rewrite <- !app_assoc. }
      assert (reads name (Ev (Sys_property_get name) x :: Ev (Sys_usleep (PROPERTY_WAIT_TIME * 1000)) r2 :: evs)
        = (x.1, cstring x.2) :: reads name evs) as -> by (unfold reads; cbn [fmap list_fmap concat]; by rewrite Hread).
      change (slept (Ev (Sys_property_get name) x :: Ev (Sys_usleep (PROPERTY_WAIT_TIME * 1000)) r2 :: evs))
        with (10000 + slept evs).
      destruct Hcase as [(-> & l & y & -> & Hy & Hl & Hlen & ->)|(-> & Hlen & Hl & ->)].
      * left. split; [done|]. exists ((x.1, cstring x.2) :: l), y. split_and!; simpl; try done; [by constructor|lia|lia].
      * right. split_and!; simpl; [done|by rewrite Hlen|by constructor|lia].
Qed.

(** Claim C37.  [wait_for_property] always returns, and changes no global.  It
    reads the property at least once and at most every 10 ms of the time given,
    sleeping 10 ms after each read that does not have the value, and stops at the
    first that has: it returns 0 exactly then, and otherwise -1 after the last
    round.  With no desired value, any value is the one.  It never answers 1, as the comment
    above the code announces for a property that does not exist: that is read until the
    last round, too. *)
Theorem wait_for_property_bounded name desired waitmsec (w : W) :
  let n := Nat.max 1 (Z.to_nat (Z.quot waitmsec 10)) in
  exists w' r evs, wait_for_property name desired waitmsec w = (w', Ok r) /\
    w_trace w' = w_trace w ++ evs /\ w_glob w' = w_glob w /\
    ((r = 0 /\ exists l x, reads name evs = l ++ [x] /\ desired_by desired x = true /\
        Forall (fun y => desired_by desired y = false) l /\ (length l < n)%nat /\
        slept evs = Z.of_nat (length l) * 10000) \/
     (r = -1 /\ length (reads name evs) = n /\ Forall (fun y => desired_by desired y = false) (reads name evs) /\
        slept evs = Z.of_nat n * 10000)).
Proof. intros n. apply wait_loop_run. Qed.
End Wait.
