(* ===== verification/MdV1.v ===== *)
(** * ccci_mdinit: the earlier state machine

    platform/md_init.c, used with drivers before version 2: the modem reports its
    steps as messages, and a handler per state answers them.  Its static functions
    that are copies of functions of the other files are those functions here
    ([wait_property_ready], [check_nvram_ready], [get_cip_sbp_setting],
    [get_md_dbg_dump_flag], [get_project_sbp_code_v1], [delay_to_reset_md]). *)
From S2P Require Import Prelude Posix CcciIntf CcbTypes CcbSetup KSetting MdTypes MdEnv MdRat MdPlatform MdRelate.

(** ** Messages and states *)

Definition V1_MSG_BOOT_READY : Z := 0xFAF50001.
Definition V1_MSG_BOOT_UP : Z := 0xFAF50002.
Definition V1_MSG_EXCEPTION : Z := 0xFAF50003.
Definition V1_MSG_RESET : Z := 0xFAF50004.
Definition V1_MSG_READY_TO_RESET : Z := 0xFAF50006.
Definition V1_MSG_BOOT_TIMEOUT : Z := 0xFAF50007.
Definition V1_MSG_STOP_MD_REQUEST : Z := 0xFAF50008.
Definition V1_MSG_START_MD_REQUEST : Z := 0xFAF50009.
Definition V1_MSG_ENTER_FLIGHT_MODE : Z := 0xFAF5000A.
Definition V1_MSG_LEAVE_FLIGHT_MODE : Z := 0xFAF5000B.
Definition V1_MSG_SEND_BATTERY_INFO : Z := 0xFAF5000E.
Definition V1_MSG_NOTIFY : Z := 0xFAF5000F.
Definition V1_MSG_STORE_NVRAM_MD_TYPE : Z := 0xFAF50010.
Definition V1_MSG_CFG_UPDATE : Z := 0xFAF50011.
Definition V1_MSG_RESET_AP : Z := 0xFAF51234.

Definition V1_STA_INIT : Z := -1.
Definition V1_STA_BOOT_READY : Z := 0.
Definition V1_STA_BOOT_UP : Z := 1.
Definition V1_STA_RESET : Z := 2.
Definition V1_STA_WAIT_SRV_RDY_TO_RST : Z := 3.
Definition V1_STA_WAIT_SRV_RDY_TO_STOP : Z := 4.
Definition V1_STA_STOP : Z := 5.
Definition V1_STA_FLIGHT_MODE : Z := 6.

Definition V1_MAX_WAIT_FOR_PROPERTY : Z := 2000.
Definition V1_RILD_PROXY_SERVICE_STATUS : list Z := lit "vendor.init.svc.ril-proxy".
Definition MD_INIT_NEW_FILE : list Z := lit "/sys/kernel/ccci/boot".

Definition status_name_v1 (status : Z) : list Z :=
  if status =? V1_STA_INIT then lit "init"
  else if status =? V1_STA_BOOT_READY then lit "ready"
  else if status =? V1_STA_BOOT_UP then lit "bootup"
  else if status =? V1_STA_RESET then lit "reset"
  else if status =? V1_STA_WAIT_SRV_RDY_TO_RST then lit "wait to reset"
  else if status =? V1_STA_WAIT_SRV_RDY_TO_STOP then lit "wait to stop"
  else if status =? V1_STA_STOP then lit "stop"
  else if status =? V1_STA_FLIGHT_MODE then lit "flightmode"
  else lit "undefined".

Section V1.
Context `{OS}.
Context (junk : Z -> list Z).
Context (MTK_ECCCI_C2K : bool) (MD_SBP_CUSTOM_VALUE MD2_SBP_CUSTOM_VALUE : option Z).
Abbreviation M := (prog mdinit).

(** The static variables of the file. *)
Definition v1_get : M md_v1 := g ← pget; mret (v1 g).
Definition v1_mod (f : md_v1 -> md_v1) : M unit := pmod (fun g => set_v1 (f (v1 g)) g).

Definition set_current_md_status_v1 (status : Z) : M unit :=
  v1_mod (set_v1_state status);;
  v ← v1_get;
  let buf := status_name_v1 status in
  property_set (snprintf 50 (lit "vendor.mtk.md" ++ itoa (v1_md_id v + 1) ++ lit ".status")) buf;;
  pwhen (v1_md_id v =? MD_SYS3) (property_set (lit "vendor.net.cdma.mdmstat") buf).

(** ** The rendezvous *)

Definition stop_ril_proxy_v1 (md_id : Z) : M unit :=
  pwhen (md_id =? MD_SYS1)
    (_ ← stop_service_verified RILD_PROXY_NAME V1_RILD_PROXY_SERVICE_STATUS 500; mret tt).

Fixpoint wait_other_reset_v1 (fuel : nat) (md_id : Z) (other : list Z) : M bool :=
  match fuel with
  | O => phalt NoFuel
  | S fuel' =>
      '(ret, buf) ← property_get other;
      if ret =? 0 then stop_ril_proxy_v1 md_id;; mret false
      else if streq buf (lit "reset") then
        g ← pget;
        pwhen (md_id =? MD_SYS3) (_ ← psys (Sys_ioctl (system_ch_handle g) CCCI_IOC_RESET_MD1_MD3_PCCIF 0); mret tt);;
        property_set other (lit "reset_start");;
        mret true
      else
        _ ← psys (Sys_usleep (30 * 1000));
        wait_other_reset_v1 fuel' md_id other
  end.

Definition check_to_restart_md (fuel : nat) : M unit :=
  v ← v1_get;
  let md_id := v1_md_id v in
  let '(this, other) :=
    if md_id =? MD_SYS1 then (md1_status, md3_status)
    else if md_id =? MD_SYS3 then (md3_status, md1_status)
    else (cstring (take 32 (junk 32)), cstring (take 32 (junk 32))) in
  ok ← wait_other_reset_v1 fuel md_id other;
  if ok : bool then
    ok ← wait_this_start fuel this;
    if ok : bool then stop_ril_proxy_v1 md_id else mret tt
  else mret tt.

(** ** Services *)

Definition stop_all_ccci_up_layer_services_v1 : M unit :=
  v ← v1_get;
  property_set (lit "ctl.stop") (v1_rild_name v);;
  property_set (lit "ctl.stop") (v1_fsd_name v);;
  let wp := [(service_status (v1_fsd_name v), lit "stopped")] in
  _ ← wait_for_property (service_status (v1_rild_name v)) (Some (lit "stopped")) 300;
  wp ← (if negb (v1_md_id v =? MD_SYS3) then
          property_set (lit "ctl.stop") (v1_muxd_name v);;
          mret (wp ++ [(service_status (v1_muxd_name v), lit "stopped")])
        else mret wp);
  wp ← (if negb (v1_mdlogger_cnt v =? 0) then
          logger_can_reset 6;;
          property_set (lit "ctl.stop") (v1_mdlogger_name v);;
          v1_mod (set_v1_mdlogger_cnt 0);;
          mret (wp ++ [(service_status (v1_mdlogger_name v), lit "stopped")])
        else mret wp);
  _ ← wait_property_ready wp V1_MAX_WAIT_FOR_PROPERTY;
  _ ← psys Sys_wake_unlock;
  mret tt.

Definition update_service_name : M unit :=
  v ← v1_get;
  if negb (v1_md_id v =? 0) then mret tt
  else
    v1_mod (set_v1_muxd_name (lit "vendor.gsm0710muxd"));;
    v1_mod (set_v1_rild_name (lit "vendor.ril-daemon-mtk")).

(** The start of the logger when there is none. *)
Definition start_logger_v1 (waitmsec : Z) : M unit :=
  v ← v1_get;
  pwhen (v1_mdlogger_cnt v =? 0)
    (_ ← start_service_verified (v1_mdlogger_name v) (service_status (v1_mdlogger_name v)) waitmsec;
     v1_mod (set_v1_mdlogger_cnt 1)).

Definition start_all_ccci_up_layer_services_v1 : M unit :=
  v ← v1_get;
  pwhen (negb (v1_need_silent_reboot v =? 0)) (property_set (lit "vendor.ril.mux.report.case") (lit "2"));;
  start_logger_v1 0;;
  update_service_name;;
  v ← v1_get;
  _ ← (if negb (v1_md_id v =? MD_SYS3)
       then start_service_verified (v1_muxd_name v) (service_status (v1_muxd_name v)) V1_MAX_WAIT_FOR_PROPERTY
       else start_service_verified (v1_rild_name v) (service_status (v1_rild_name v)) V1_MAX_WAIT_FOR_PROPERTY);
  mret tt.

(** ** The boot data *)

Definition get_nvram_ef_data_v1 (fid recsize : Z) (pdata : list Z) : M (Z * list Z) :=
  '(fd, rec_size, _) ← psys (Sys_nvm_get_file_desc fid);
  if fd <? 0 then mret (-1, pdata)
  else
    r ← psys (Sys_read fd rec_size);
    if zlen (rres_data r) >? recsize then phalt OutOfBounds
    else
      _ ← psys (Sys_nvm_close_file_desc fd);
      mret (if rec_size =? rres_rv r then 0 else -1, rres_data r ++ drop (length (rres_data r)) pdata).

Definition get_nvram_sbp_code_v1 (fuel : nat) (md_id : Z) : M Z :=
  _ ← check_nvram_ready fuel;
  lid ← psys (Sys_nvm_get_lid (lit "/mnt/vendor/nvdata/APCFG/APRDCL/MD_SBP"));
  if lid <? 0 then mret 0
  else
    ok ← psys (Sys_malloc sizeof_MD_SBP_Struct);
    if negb ok then mret 0
    else
      '(r, info) ← get_nvram_ef_data_v1 lid sizeof_MD_SBP_Struct (replicate (Z.to_nat sizeof_MD_SBP_Struct) 0);
      if negb (r =? 0) then mret 0
      else mret (i32 (de32 (take 4 (drop (if md_id =? MD_SYS2 then 8 else 0) info)))).

Definition get_usp_sbp_setting_v1 : M Z := property_number (lit "persist.vendor.mtk_usp_md_sbp_code") 0.

(** The code, once there is one, is kept. *)
Definition get_md_sbp_code_v1 (fuel : nat) (md_id : Z) : M Z :=
  usp ← get_usp_sbp_setting_v1;
  v ← v1_get;
  pwhen (negb (usp =? 0) && negb (usp =? v1_sbpc v)) (v1_mod (set_v1_sbpc usp));;
  v ← v1_get;
  if negb (v1_sbpc v =? 0) then mret (v1_sbpc v)
  else
    cip ← get_cip_sbp_setting md_id;
    stored ← get_nvram_sbp_code_v1 fuel md_id;
    dflt ← get_project_sbp_code_v1 MTK_ECCCI_C2K MD_SBP_CUSTOM_VALUE MD2_SBP_CUSTOM_VALUE md_id;
    pwhen (stored >? 0) (v1_mod (set_v1_sbpc stored));;
    pwhen (dflt >? 0) (v1_mod (set_v1_sbpc dflt));;
    pwhen (i32 cip >? 0) (v1_mod (set_v1_sbpc (i32 cip)));;
    v ← v1_get;
    mret (v1_sbpc v).

Definition get_mdlog_boot_mode_v1 (md_id : Z) : M Z :=
  fd ← open_first (mdlog_config_file md_id);
  if fd <? 0 then mret MODE_SD
  else
    r ← psys (Sys_read fd 4);
    _ ← psys (Sys_close fd);
    mret (if rres_rv r =? 4 then de32 (rres_data r) else MODE_SD).

Definition set_md_boot_env_data_v1 (fuel : nat) (md_id fd : Z) : M Z :=
  mdl ← get_mdlog_boot_mode_v1 md_id;
  sbp ← get_md_sbp_code_v1 fuel md_id;
  dbg ← get_md_dbg_dump_flag md_id;
  _ ← psys (Sys_ioctl_boot_data fd ([u32 mdl; u32 sbp; u32 dbg] ++ replicate 13 0));
  mret 0.

(** ** The handlers *)

(** An [ioctl] that is tried a second time after a second. *)
Definition try_twice (req : ioctl_req) : M unit :=
  g ← pget;
  '(r, _) ← psys (Sys_ioctl (system_ch_handle g) req 0);
  if rv r =? 0 then mret tt
  else
    _ ← psys (Sys_sleep 1);
    _ ← psys (Sys_ioctl (system_ch_handle g) req 0);
    mret tt.

Definition unless_meta (m : M unit) : M unit := meta ← is_meta_mode junk; pwhen (negb meta) m.

Definition boot_ready_state_handler (message : Z) : M unit :=
  v ← v1_get;
  g ← pget;
  if message =? V1_MSG_EXCEPTION then
    v1_mod (set_v1_need_silent_reboot 1);;
    pwhen (v1_md_id v =? MD_SYS3) (property_set (lit "vendor.net.cdma.mdmstat") (lit "exception"))
  else if message =? V1_MSG_RESET then
    delay_to_reset_md 1;;
    set_current_md_status_v1 V1_STA_WAIT_SRV_RDY_TO_RST;;
    _ ← psys (Sys_ioctl (system_ch_handle g) CCCI_IOC_DO_STOP_MD 0);
    meta ← is_meta_mode junk;
    if negb meta then stop_all_ccci_up_layer_services_v1
    else
      _ ← stop_service_verified (v1_fsd_name v) (service_status (v1_fsd_name v)) V1_MAX_WAIT_FOR_PROPERTY;
      mret tt
  else if message =? V1_MSG_STOP_MD_REQUEST then
    set_current_md_status_v1 V1_STA_WAIT_SRV_RDY_TO_STOP;;
    unless_meta stop_all_ccci_up_layer_services_v1
  else if message =? V1_MSG_ENTER_FLIGHT_MODE then
    set_current_md_status_v1 V1_STA_FLIGHT_MODE;;
    unless_meta
      (_ ← stop_service_verified (v1_fsd_name v) (service_status (v1_fsd_name v)) V1_MAX_WAIT_FOR_PROPERTY;
       _ ← psys Sys_wake_unlock; mret tt)
  else if message =? V1_MSG_STORE_NVRAM_MD_TYPE then
    '(_, md_type) ← psys (Sys_ioctl (system_ch_handle g) CCCI_IOC_GET_MD_TYPE_SAVING 0);
    stored ← get_stored_modem_type_val (v1_md_id v);
    pwhen (negb (i32 md_type =? stored)) (_ ← store_modem_type_val (v1_md_id v) (i32 md_type); mret tt)
  else mret tt.

(** The flag that makes the next time-out message ignored. *)
Definition note_exception : M unit :=
  v ← v1_get;
  pwhen (v1_gotten_md_info v =? MD_IS_DEBUG_VERSION) (v1_mod (set_v1_ignore_time_out_msg 1)).

(** The reset of a modem that is booting: the services stopped are the file
    system daemon and the logger. *)
Definition reset_at_boot_up : M unit :=
  delay_to_reset_md 1;;
  g ← pget;
  v ← v1_get;
  _ ← psys (Sys_ioctl (system_ch_handle g) CCCI_IOC_DO_STOP_MD 0);
  property_set (lit "ctl.stop") (v1_fsd_name v);;
  let wp := [(service_status (v1_fsd_name v), lit "stopped")] in
  wp ← (if v1_mdlogger_cnt v =? 1 then
          property_set (lit "ctl.stop") (v1_mdlogger_name v);;
          v1_mod (set_v1_mdlogger_cnt 0);;
          mret (wp ++ [(service_status (v1_mdlogger_name v), lit "stopped")])
        else mret wp);
  _ ← wait_property_ready wp V1_MAX_WAIT_FOR_PROPERTY;
  _ ← psys Sys_wake_unlock;
  mret tt.

Definition boot_up_state_handler (message : Z) : M unit :=
  v ← v1_get;
  g ← pget;
  if message =? V1_MSG_BOOT_READY then
    set_current_md_status_v1 V1_STA_BOOT_READY;;
    _ ← run_lib (ccci_ccb_check_users (v1_md_id v));
    unless_meta
      ('(r, mode) ← psys (Sys_ioctl (system_ch_handle g) CCCI_IOC_GET_MD_BOOT_MODE MD_BOOT_MODE_INVALID);
       pwhen (negb ((rv r =? 0) && (mode =? MD_BOOT_MODE_META))) start_all_ccci_up_layer_services_v1);;
    v1_mod (set_v1_need_silent_reboot 0)
  else if message =? V1_MSG_EXCEPTION then
    note_exception;;
    start_logger_v1 V1_MAX_WAIT_FOR_PROPERTY
  else if message =? V1_MSG_RESET then
    set_current_md_status_v1 V1_STA_WAIT_SRV_RDY_TO_RST;;
    unless_meta reset_at_boot_up
  else if message =? V1_MSG_BOOT_TIMEOUT then
    if negb (v1_ignore_time_out_msg v =? 0) then v1_mod (set_v1_ignore_time_out_msg 0)
    else
      set_current_md_status_v1 V1_STA_WAIT_SRV_RDY_TO_RST;;
      unless_meta stop_all_ccci_up_layer_services_v1
  else if message =? V1_MSG_STOP_MD_REQUEST then
    set_current_md_status_v1 V1_STA_WAIT_SRV_RDY_TO_STOP;;
    unless_meta stop_all_ccci_up_layer_services_v1
  else mret tt.

(** [ccci_get_version () == ECCCI || ccci_get_version () == EDSDA] *)
Definition eccci_version : M bool :=
  ver ← ccci_get_version;
  if ver =? ECCCI then mret true else ver ← ccci_get_version; mret (ver =? EDSDA).

Definition reset_state_handler (message : Z) : M unit :=
  v ← v1_get;
  if message =? V1_MSG_BOOT_UP then
    set_current_md_status_v1 V1_STA_BOOT_UP;;
    try_twice CCCI_IOC_SEND_RUN_TIME_DATA;;
    _ ← run_lib (ccci_ccb_init_users junk (v1_md_id v));
    mret tt
  else if message =? V1_MSG_EXCEPTION then
    note_exception;;
    e ← eccci_version;
    pwhen e (start_logger_v1 V1_MAX_WAIT_FOR_PROPERTY)
  else if message =? V1_MSG_BOOT_TIMEOUT then
    pwhen (negb (v1_ignore_time_out_msg v =? 0)) (v1_mod (set_v1_ignore_time_out_msg 0))
  else if message =? V1_MSG_STOP_MD_REQUEST then
    set_current_md_status_v1 V1_STA_WAIT_SRV_RDY_TO_STOP;;
    unless_meta stop_all_ccci_up_layer_services_v1
  else mret tt.

(** The start is repeated until the driver accepts it. *)
Fixpoint start_until_done (fuel : nat) : M unit :=
  match fuel with
  | O => phalt NoFuel
  | S fuel' =>
      g ← pget;
      '(r, _) ← psys (Sys_ioctl (system_ch_handle g) CCCI_IOC_DO_START_MD 0);
      if rv r =? 0 then mret tt else _ ← psys (Sys_sleep 1); start_until_done fuel'
  end.

Definition start_fsd_v1 : M unit :=
  v ← v1_get;
  _ ← start_service_verified (v1_fsd_name v) (service_status (v1_fsd_name v)) V1_MAX_WAIT_FOR_PROPERTY;
  mret tt.

Definition boot_env_v1 (fuel : nat) : M unit :=
  v ← v1_get;
  _ ← set_md_boot_env_data_v1 fuel (v1_md_id v) (dev_monitor_fd v);
  mret tt.

Definition wait_service_ready_to_reset_state_handler (fuel : nat) (message : Z) : M unit :=
  if message =? V1_MSG_READY_TO_RESET then
    set_current_md_status_v1 V1_STA_RESET;;
    g ← pget;
    '(ret, ty) ← psys (Sys_ioctl (system_ch_handle g) CCCI_IOC_GET_MD_TYPE (le_value (junk 4)));
    pwhen (rv ret =? 0) (property_set (lit "vendor.ril.active.md") (snprintf 16 (itoa (i32 ty))));;
    check_to_restart_md fuel;;
    start_fsd_v1;;
    boot_env_v1 fuel;;
    start_until_done fuel
  else if message =? V1_MSG_STOP_MD_REQUEST then set_current_md_status_v1 V1_STA_STOP
  else mret tt.

Definition wait_service_ready_to_stop_state_handler (message : Z) : M unit :=
  pwhen (message =? V1_MSG_READY_TO_RESET) (set_current_md_status_v1 V1_STA_STOP).

Definition stop_state_handler (fuel : nat) (message : Z) : M unit :=
  if (message =? V1_MSG_RESET) || (message =? V1_MSG_START_MD_REQUEST) then
    delay_to_reset_md 1;;
    set_current_md_status_v1 V1_STA_RESET;;
    check_to_restart_md fuel;;
    unless_meta (start_fsd_v1;; _ ← psys (Sys_sleep 1); mret tt);;
    boot_env_v1 fuel;;
    try_twice CCCI_IOC_DO_START_MD
  else mret tt.

Definition flight_state_handler (message : Z) : M unit :=
  if message =? V1_MSG_LEAVE_FLIGHT_MODE then
    set_current_md_status_v1 V1_STA_WAIT_SRV_RDY_TO_RST;;
    _ ← wait_for_property (lit "vendor.ril.getccci.response") (Some (lit "1")) 500;
    unless_meta stop_all_ccci_up_layer_services_v1
  else mret tt.

Definition common_msg_handler_v1 (msg : Z) : M bool :=
  if msg =? V1_MSG_SEND_BATTERY_INFO then
    g ← pget; _ ← psys (Sys_ioctl (system_ch_handle g) CCCI_IOC_SEND_BATTERY_INFO 0); mret true
  else mret ((msg =? V1_MSG_NOTIFY) || (msg =? V1_MSG_CFG_UPDATE)).

(** ** The main loop *)

Definition trigger_modem_to_run_v1 (file_name : list Z) : M Z :=
  v ← v1_get;
  fd ← psys (Sys_open file_name 2 0);
  if rv fd <? 0 then mret (-1)
  else
    (if (0 <=? v1_md_id v) && (v1_md_id v <=? 2)
     then _ ← psys (Sys_write (rv fd) (itoa (v1_md_id v))); mret tt else mret tt);;
    _ ← psys (Sys_close (rv fd));
    mret 0.

Definition cal_md_starttime (message : Z) : M unit :=
  if message =? V1_MSG_BOOT_UP then t ← psys Sys_time; v1_mod (set_time_HS1 t)
  else if message =? V1_MSG_BOOT_READY then
    t ← psys Sys_time;
    v1_mod (set_time_HS2 t);;
    v ← v1_get;
    d ← padd (time_HS2 v) (- time_HS1 v);
    text ← psys (Sys_ctime (time_HS2 v));
    property_set (snprintf 50 (lit "vendor.mtk.md" ++ itoa (v1_md_id v + 1) ++ lit ".starttime"))
      (snprintf 92 (itoa d ++ lit "s " ++ text))
  else mret tt.

(** The handler of the state. *)
Definition handle_message_v1 (fuel : nat) (message : Z) : M unit :=
  v ← v1_get;
  let s := v1_state v in
  if s =? V1_STA_BOOT_READY then boot_ready_state_handler message
  else if s =? V1_STA_BOOT_UP then boot_up_state_handler message
  else if s =? V1_STA_RESET then reset_state_handler message
  else if s =? V1_STA_WAIT_SRV_RDY_TO_RST then wait_service_ready_to_reset_state_handler fuel message
  else if s =? V1_STA_WAIT_SRV_RDY_TO_STOP then wait_service_ready_to_stop_state_handler message
  else if s =? V1_STA_STOP then stop_state_handler fuel message
  else if s =? V1_STA_FLIGHT_MODE then flight_state_handler message
  else mret tt.

(** What happens before the handler. *)
Definition before_message_v1 (message : Z) : M unit :=
  cal_md_starttime message;;
  pwhen (message =? V1_MSG_RESET_AP)
    (p ← compute_random_pattern;
     g ← pget;
     _ ← psys (Sys_ioctl (system_ch_handle g) CCCI_IOC_RESET_AP (i32 (default (le_value (junk 4)) p)));
     mret tt).

(** One round of the loop; the message is four words. *)
Definition monitor_round_v1 (fuel : nat) (monitor_ch : Z) (r : rres) : M unit :=
  let word := fun i => de32 (take 4 (drop i (rres_data r))) in
  if (rres_rv r =? 16) && (word 0%nat =? 0xFFFFFFFF) && (word 8%nat =? monitor_ch) then
    handled ← common_msg_handler_v1 (word 4%nat);
    if handled : bool then mret tt
    else before_message_v1 (word 4%nat);; handle_message_v1 fuel (word 4%nat)
  else mret tt.

Fixpoint monitor_loop_v1 (n fuel : nat) (fd monitor_ch : Z) : M unit :=
  match n with
  | O => phalt NoFuel
  | S n' =>
      r ← psys (Sys_read fd 16);
      monitor_round_v1 fuel monitor_ch r;;
      monitor_loop_v1 n' fuel fd monitor_ch
  end.

(** ** The start *)

Definition set_names_v1 (mux rild logger_e logger fsd : string) : M unit :=
  v1_mod (set_v1_muxd_name (lit mux));;
  v1_mod (set_v1_rild_name (lit rild));;
  e ← eccci_version;
  v1_mod (set_v1_mdlogger_name (lit (if e : bool then logger_e else logger)));;
  v1_mod (set_v1_fsd_name (lit fsd)).

Fixpoint open_port_v1 (retries : nat) (dev_port : list Z) : M Z :=
  match retries with
  | O => mret (-1)
  | S n =>
      fd ← psys (Sys_open dev_port 2 0);
      if rv fd <? 0 then
        (match n with O => mret tt | _ => _ ← psys (Sys_usleep (10 * 1000)); mret tt end);;
        open_port_v1 n dev_port
      else mret (rv fd)
  end.

Definition read_md_info_v1 (fd tmp : Z) : M unit :=
  v ← v1_get;
  if v1_gotten_md_info v =? MD_DEBUG_REL_INFO_NOT_READY then
    '(r, info) ← psys (Sys_ioctl fd CCCI_IOC_GET_MD_INFO tmp);
    pwhen (rv r =? 0)
      (v1_mod (set_v1_gotten_md_info
         (if (info =? MD_IS_DEBUG_VERSION) || (info =? MD_IS_RELEASE_VERSION) then info
          else MD_DEBUG_REL_INFO_NOT_READY)))
  else mret tt.

(** The start-up, once the names are known. *)
Definition start_v1 (n fuel : nat) (md_id : Z) (dev_port : list Z) (monitor_ch : Z) : M Z :=
  set_current_md_status_v1 V1_STA_RESET;;
  fd ← open_port_v1 (Z.to_nat MAX_OPEN_PORT_RETRY_NUM) dev_port;
  if fd <? 0 then mret (-1)
  else
    v1_mod (set_dev_monitor_fd fd);;
    g ← pget;
    _ ← md_image_exist_check fd (curr_md_id g);
    update_service_name;;
    t ← time_srv_init junk;
    pwhen (t =? 0) (_ ← psys Sys_pthread_create; mret tt);;
    _ ← set_md_boot_env_data_v1 fuel md_id fd;
    tmp ← parse_sys_env_rat_setting md_id;
    '(_, tmp) ← psys (Sys_ioctl fd CCCI_IOC_RELOAD_MD_TYPE (i32 tmp));
    ret ← trigger_modem_to_run_v1 MD_INIT_NEW_FILE;
    if ret <? 0 then mret ret
    else
      read_md_info_v1 fd tmp;;
      pmod (set_system_ch_handle fd);;
      monitor_loop_v1 n fuel fd monitor_ch;;
      mret 0.

Definition main_v1 (n fuel : nat) (input_md_id sub_ver : Z) : M Z :=
  let '(md, monitor_ch) := if sub_ver =? 0 then (0, 2) else (input_md_id - 1, CCCI_MONITOR_CH) in
  v1_mod (set_v1_md_id md);;
  set_current_md_status_v1 V1_STA_INIT;;
  if negb ((0 <=? md) && (md <=? 2)) then mret (-1)
  else
    node ← ccci_get_node_name USR_CCCI_CTRL md;
    (if md =? 0 then set_names_v1 "vendor.gsm0710muxd" "vendor.ril-daemon-mtk" "emdlogger1" "mdlogger" "vendor.ccci_fsd"
     else if md =? 1 then
       set_names_v1 "vendor.gsm0710muxdmd2" "vendor.ril-daemon-mtkmd2" "emdlogger2" "dualmdlogger" "vendor.ccci2_fsd"
     else set_names_v1 "invalid" "vendor.viarild" "emdlogger3" "dualmdlogger" "vendor.ccci3_fsd");;
    start_v1 n fuel md (snprintf 32 (default (lit "(null)") node)) monitor_ch.
End V1.
