(* ===== verification/MdFsm.v ===== *)
(** * ccci_mdinit: the state machine of a modem

    md_init_fsm.c: the state of the modem, its publication, the messages that
    change it and the main loop; and main.c. *)
From S2P Require Import Prelude Posix CcciIntf KSetting MdTypes MdEnv MdRat MdPlatform MdRelate MdV1.

(** The text of a state. *)
Definition status_name (status : Z) : list Z :=
  if status =? CCCI_MD_STA_INIT then lit "init"
  else if status =? CCCI_MD_STA_BOOT_READY then lit "ready"
  else if status =? CCCI_MD_STA_BOOT_UP then lit "bootup"
  else if status =? CCCI_MD_STA_RESET then lit "reset"
  else if status =? CCCI_MD_STA_STOP then lit "stop"
  else if status =? CCCI_MD_STA_FLIGHT_MODE then lit "flightmode"
  else if status =? CCCI_MD_STA_EXCEPTION then lit "exception"
  else lit "undefined".

(** [CCCI_BUFF_T] *)
Record CCCI_BUFF_T := Buff { data0 : Z; data1 : Z; channel : Z; reserved : Z }.

Definition sizeof_CCCI_BUFF_T : Z := 16.

Definition buff_of (bs : list Z) : CCCI_BUFF_T :=
  Buff (de32 (take 4 bs)) (de32 (take 4 (drop 4 bs))) (de32 (take 4 (drop 8 bs))) (de32 (take 4 (drop 12 bs))).

Definition event_type (status_buf : list Z) : Z := i32 (de32 (take 4 (drop 12 status_buf))).

Section Fsm.
Context `{OS}.
Context (junk : Z -> list Z).
Context (MTK_ECCCI_C2K : bool) (MD_SBP_CUSTOM_VALUE MD2_SBP_CUSTOM_VALUE : option Z).
Abbreviation M := (prog mdinit).

Definition check_curret_md_status (desired : Z) : M bool :=
  g ← pget; mret (md_ctl_fsm_curr_state g =? desired).

Definition set_current_md_status (status flight_mode : Z) : M unit :=
  pmod (set_md_ctl_fsm_curr_state status);;
  let buf := status_name status in
  _ ← update_inf_to_bootprof buf;
  g ← pget;
  store_md_statue (fsm_md_id g) buf 32;;
  notify_md_status junk status flight_mode.

(** [true]: the message is handled. *)
Definition common_msg_handler (msg resv : Z) : M bool :=
  g ← pget;
  if msg =? CCCI_MD_MSG_SEND_BATTERY_INFO then
    _ ← psys (Sys_ioctl (system_ch_handle g) CCCI_IOC_SEND_BATTERY_INFO 0); mret true
  else if msg =? CCCI_MD_MSG_CFG_UPDATE then mret true
  else if msg =? CCCI_MD_MSG_RANDOM_PATTERN then
    p ← compute_random_pattern;
    _ ← psys (Sys_ioctl (system_ch_handle g) CCCI_IOC_RESET_AP (i32 (default 0 p))); mret true
  else if msg =? CCCI_MD_MSG_STORE_NVRAM_MD_TYPE then
    '(_, data) ← psys (Sys_ioctl (system_ch_handle g) CCCI_IOC_GET_MD_TYPE_SAVING 0);
    stored ← get_stored_modem_type_val (fsm_md_id g);
    pwhen (negb (i32 data =? stored)) (_ ← store_modem_type_val (fsm_md_id g) (i32 data); mret tt);;
    mret true
  else if msg =? CCCI_MD_MSG_EXCEPTION then
    same ← check_curret_md_status CCCI_MD_STA_EXCEPTION;
    pwhen (negb same) (set_current_md_status CCCI_MD_STA_EXCEPTION 0);;
    mret true
  else mret false.

(** The events the wait ends at. *)
Definition is_final (stop : bool) (ev : Z) : bool :=
  (ev =? (if stop then MD_STA_EV_STOP else MD_STA_EV_READY)) || (ev =? MD_STA_EV_EXCEPTION).

(** The loop: a failed read is repeated. *)
Fixpoint wait_event (fuel : nat) (fd : Z) (stop : bool) : M Z :=
  match fuel with
  | O => phalt NoFuel
  | S fuel' =>
      r ← psys (Sys_read fd 48);
      if rres_rv r >? 0 then
        pmod (fun g => set_status_buf (rres_data r ++ drop (length (rres_data r)) (status_buf g)) g);;
        g ← pget;
        if is_final stop (event_type (status_buf g)) then mret (event_type (status_buf g))
        else wait_event fuel' fd stop
      else wait_event fuel' fd stop
  end.

Definition is_md_command_finish (fuel : nat) (md_id : Z) (stop : bool) : M Z :=
  g ← pget;
  fd ← (if mdstatusfd g <? 0 then
          let path := if md_id =? 2 then Some (lit "/dev/ccci_md3_sta")
                      else if md_id =? 0 then Some (lit "/dev/ccci_md1_sta") else None in
          match path with
          | None => mret (-1)
          | Some path =>
              fd ← psys (Sys_open path 2 0);
              pmod (set_mdstatusfd (rv fd));;
              mret (rv fd)
          end
        else mret (mdstatusfd g));
  if fd <? 0 then mret (-1) else wait_event fuel fd stop.

Definition set_md_boot_env_data (fuel : nat) (md_id fd : Z) : M Z :=
  mdl ← get_mdlog_boot_mode md_id;
  sbp ← get_md_sbp_code MTK_ECCCI_C2K MD_SBP_CUSTOM_VALUE MD2_SBP_CUSTOM_VALUE fuel md_id 2;
  dbg ← get_md_dbg_dump_flag md_id;
  sub ← get_sbp_subid_setting;
  _ ← psys (Sys_ioctl_boot_data fd ([u32 mdl; u32 sbp; u32 dbg; u32 sub] ++ replicate 12 0));
  mret 0.

Definition trigger_modem_to_run (fuel : nat) (monitor_fd flight_mode first_boot : Z) : M Z :=
  set_current_md_status CCCI_MD_STA_RESET flight_mode;;
  check_to_restart_md_v2 junk fuel monitor_fd first_boot;;
  g ← pget;
  _ ← set_md_boot_env_data fuel (fsm_md_id g) monitor_fd;
  set_current_md_status CCCI_MD_STA_BOOT_UP 0;;
  '(ret, _) ← psys (Sys_ioctl monitor_fd CCCI_IOC_DO_START_MD 0);
  if negb (rv ret =? 0) then mret (-1)
  else
    g ← pget;
    Mdstatus ← is_md_command_finish fuel (fsm_md_id g) false;
    if negb (Mdstatus =? MD_STA_EV_READY) then mret (-1)
    else
      '(ret, current_md_status) ← psys (Sys_ioctl monitor_fd CCCI_IOC_GET_MD_STATE MD_STATE_INVALID);
      if rv ret <? 0 then mret (-1)
      else if current_md_status =? MD_STATE_READY then
        set_current_md_status CCCI_MD_STA_BOOT_READY 0;;
        mret 0
      else mret (-1).

Definition stop_modem (fuel : nat) (monitor_fd data : Z) : M Z :=
  '(ret, _) ← psys (Sys_ioctl monitor_fd CCCI_IOC_DO_STOP_MD data);
  if negb (rv ret =? 0) then mret (-1)
  else
    g ← pget;
    Mdstatus ← is_md_command_finish fuel (fsm_md_id g) true;
    mret (if negb (Mdstatus =? MD_STA_EV_STOP) then -1 else rv ret).

Fixpoint rst_lock_loop (n : nat) (fd : Z) : M unit :=
  match n with
  | O => mret tt
  | S n' =>
      '(r, rst_cnt) ← psys (Sys_ioctl fd CCCI_IOC_GET_HOLD_RST_CNT (le_value (junk 4)));
      if rv r <? 0 then mret tt
      else if rst_cnt =? 0 then mret tt
      else
        _ ← psys (Sys_sleep 1);
        _ ← psys (Sys_ioctl fd CCCI_IOC_SHOW_LOCK_USER rst_cnt);
        rst_lock_loop n' fd
  end.

Definition wait_for_rst_lock_free (fd : Z) : M unit :=
  if fd <? 0 then mret tt else rst_lock_loop 10 fd.

Definition get_ft_inf_key_val (key : list Z) : M (Z * option Z) :=
  fd ← psys (Sys_open (lit "/sys/kernel/ccci/ft_info") 0 0);
  if rv fd <? 0 then mret (-11, None)
  else
    ok ← psys (Sys_malloc 4096);
    if negb ok then _ ← psys (Sys_close (rv fd)); mret (-12, None)
    else
      r ← psys (Sys_read (rv fd) 4096);
      if rres_rv r <=? 0 then _ ← psys (Sys_close (rv fd)); mret (-13, None)
      else
        res ← lift_outcome (get_ft_inf_key_val_helper key (rres_data r));
        _ ← psys (Sys_close (rv fd));
        mret res.

(** ** The messages of the main loop *)

(** The stop of a forced stop and of a reset. *)
Definition stop_for_reset (fuel : nat) (fd bc_fd : Z) : M unit :=
  delay_to_reset_md 2;;
  _ ← stop_modem fuel fd 0;
  wait_for_rst_lock_free bc_fd;;
  meta ← is_meta_mode junk;
  pwhen (negb meta) (stop_all_ccci_up_layer_services junk);;
  set_current_md_status CCCI_MD_STA_STOP 0.

Definition unless_status (l : list Z) (m : M unit) : M unit :=
  g ← pget; if existsb (Z.eqb (md_ctl_fsm_curr_state g)) l then mret tt else m.

(** The [switch] over the other messages. *)
Definition handle_message (fuel : nat) (fd bc_fd msg : Z) : M unit :=
  if msg =? CCCI_MD_MSG_FORCE_STOP_REQUEST then
    unless_status [CCCI_MD_STA_STOP; CCCI_MD_STA_FLIGHT_MODE] (stop_for_reset fuel fd bc_fd)
  else if msg =? CCCI_MD_MSG_FORCE_START_REQUEST then
    unless_status [CCCI_MD_STA_BOOT_READY] (_ ← trigger_modem_to_run fuel fd 0 0; mret tt)
  else if msg =? CCCI_MD_MSG_FLIGHT_STOP_REQUEST then
    unless_status [CCCI_MD_STA_STOP; CCCI_MD_STA_FLIGHT_MODE]
      (_ ← stop_modem fuel fd 1; set_current_md_status CCCI_MD_STA_FLIGHT_MODE 0)
  else if msg =? CCCI_MD_MSG_FLIGHT_START_REQUEST then
    unless_status [CCCI_MD_STA_BOOT_READY] (_ ← trigger_modem_to_run fuel fd 1 0; mret tt)
  else if msg =? CCCI_MD_MSG_RESET_REQUEST then
    stop_for_reset fuel fd bc_fd;;
    _ ← trigger_modem_to_run fuel fd 0 0;
    mret tt
  else mret tt.

(** One round of the loop, on what was read from the monitor channel. *)
Definition monitor_round (fuel : nat) (fd bc_fd : Z) (r : rres) : M unit :=
  if rres_rv r =? sizeof_CCCI_BUFF_T then
    let buff := buff_of (rres_data r) in
    if (data0 buff =? 0xFFFFFFFF) && (channel buff =? CCCI_MONITOR_CH) then
      done ← common_msg_handler (data1 buff) (i32 (reserved buff));
      if done : bool then mret tt else handle_message fuel fd bc_fd (data1 buff)
    else mret tt
  else mret tt.

(** [n] rounds, each with [fuel] for its waits. *)
Fixpoint monitor_loop (n fuel : nat) (fd bc_fd : Z) : M unit :=
  match n with
  | O => phalt NoFuel
  | S n' =>
      r ← psys (Sys_read fd sizeof_CCCI_BUFF_T);
      monitor_round fuel fd bc_fd r;;
      monitor_loop n' fuel fd bc_fd
  end.

(** ** The start *)

Fixpoint open_port (retries : nat) (dev_port : list Z) : M Z :=
  match retries with
  | O => mret (-1)
  | S n =>
      fd ← psys (Sys_open dev_port 2 0);
      if rv fd <? 0 then
        (match n with O => mret tt | _ => _ ← psys (Sys_usleep (10 * 1000)); mret tt end);;
        open_port n dev_port
      else mret (rv fd)
  end.

Definition read_md_info (fd : Z) (tmp : Z) : M unit :=
  g ← pget;
  if gotten_md_info g =? MD_DEBUG_REL_INFO_NOT_READY then
    '(r, info) ← psys (Sys_ioctl fd CCCI_IOC_GET_MD_INFO tmp);
    pwhen (rv r =? 0)
      (pmod (set_gotten_md_info
         (if (info =? MD_IS_DEBUG_VERSION) || (info =? MD_IS_RELEASE_VERSION) then info
          else MD_DEBUG_REL_INFO_NOT_READY)))
  else mret tt.

Definition main_v2 (n fuel : nat) (input_md_id sub_ver : Z) : M Z :=
  let md := input_md_id - 1 in
  pmod (set_fsm_md_id md);;
  set_current_md_status CCCI_MD_STA_INIT md;;
  if negb ((0 <=? md) && (md <=? 2)) then mret (-1)
  else
    node ← ccci_get_node_name USR_CCCI_CTRL md;
    let dev_port := snprintf 32 (default (lit "(null)") node) in
    _ ← update_inf_to_bootprof (lit "decpyt ready");
    fd ← open_port (Z.to_nat MAX_OPEN_PORT_RETRY_NUM) dev_port;
    if fd <? 0 then mret (-1)
    else
      pmod (set_system_ch_handle fd);;
      g ← pget;
      _ ← md_image_exist_check fd (curr_md_id g);
      t ← time_srv_init junk;
      pwhen (t =? 0) (_ ← psys Sys_pthread_create; mret tt);;
      tmp ← parse_sys_env_rat_setting md;
      '(_, tmp) ← psys (Sys_ioctl fd CCCI_IOC_RELOAD_MD_TYPE (i32 tmp));
      _ ← trigger_modem_to_run fuel fd 0 1;
      read_md_info fd tmp;;
      bc_fd ← psys (Sys_open (lit "/dev/ccci_mdx_sta") 2 0);
      if rv bc_fd <? 0 then mret (-1)
      else monitor_loop n fuel fd (rv bc_fd);; mret 0.

(** ** main.c *)

Definition md_id_of_arg (arg : list Z) : option Z :=
  if streq arg (lit "0") then Some 1
  else if streq arg (lit "1") then Some 2
  else if streq arg (lit "2") then Some 3
  else None.

Definition main (n fuel : nat) (argv : list (list Z)) : M Z :=
  pmod (set_curr_md_id 0);;
  match argv with
  | _ :: arg :: _ =>
      match md_id_of_arg arg with
      | None => mret 0
      | Some id =>
          pmod (set_curr_md_id id);;
          fd ← psys (Sys_open (lit "/proc/bootprof") 2 0);
          pmod (set_boot_prof_fd (rv fd));;
          _ ← update_inf_to_bootprof (lit "md_init srv start");
          depends_so_prepare;;
          lk ← check_lk_load_md_status id;
          if lk <? 0 then mret 0
          else
            ks ← kernel_setting_prepare junk;
            if ks <? 0 then mret 0
            else
              en ← is_current_md_en id;
              if en =? 0 then mret 0
              else
                drv_ver ← get_ccci_drv_ver;
                let main_v1 := main_v1 junk MTK_ECCCI_C2K MD_SBP_CUSTOM_VALUE MD2_SBP_CUSTOM_VALUE n fuel id in
                _ ← (if drv_ver =? 2 then main_v2 n fuel id 0
                     else if drv_ver =? 1 then main_v1 1 else main_v1 0);
                depends_so_free;;
                g ← pget;
                pwhen (boot_prof_fd g >=? 0) (_ ← psys (Sys_close (boot_prof_fd g)); mret tt);;
                mret 0
      end
  | _ => mret 0
  end.
End Fsm.
