(* ===== verification/MdDemo.v ===== *)
(** * ccci_mdinit: a concrete environment

    The in-memory environment with a modem that boots: the witnesses start and
    stop it. *)
From S2P Require Import Prelude Posix CcciIntf MemFs MdTypes.

Definition ready_event : list Z := replicate 12 0 ++ le32 MD_STA_EV_READY ++ replicate 32 0.

Definition boot_do {T} (c : sys T) (s : memfs) : memfs * T :=
  match c in sys T return memfs * T with
  | Sys_open _ _ _ => (set_next (next_fd s + 1) s, ok (next_fd s))
  | Sys_read _ n => if n =? 48 then (s, RData ready_event) else (s, RErr 5)
  | Sys_ioctl _ CCCI_IOC_GET_MD_STATE _ => (s, (ok 0, MD_STATE_READY))
  | c => memfs_do c s
  end.

Definition BootOS : OS := {| os_st := memfs; os_do := @boot_do |}.

Definition boot_fs : memfs :=
  MemFs [] [] [] 3 []
    [(lit "vendor.service.nvram_init", lit "Ready"); (lit "init.svc.vendor.ccci_fsd", lit "running");
     (lit "init.svc.emdlogger1", lit "running"); (lit "init.svc.vendor.gsm0710muxd", lit "running")] 0 100.

(** The daemon of modem 1 in a state. *)
Definition boot_glob (s : Z) : mdinit :=
  set_curr_md_id 1 (set_fsm_md_id 0 (set_relate_md_id 0 (set_md_ctl_fsm_curr_state s
    (set_fsd_name (lit "vendor.ccci_fsd") (set_mdlogger_name (lit "emdlogger1")
      (set_muxd_name (lit "vendor.gsm0710muxd") mdinit_start)))))).

Definition boot_world (s : Z) : @world BootOS mdinit := @World BootOS mdinit boot_fs [] ∅ 1 (boot_glob s).
