(* ===== verification/MdTyped.v ===== *)
(** * ccci_mdinit: the globals are well typed

    The types the static variables of the daemon have beyond those of C: states
    are states of their machine, flags are 0 or 1, service names fit their
    buffers, the copies of the modem's number agree.  Every operation of the
    daemon keeps them, whatever the environment answers and wherever it stops
    ([mdinit_typed]). *)
From S2P Require Import Prelude Posix CcciIntf CcbTypes CcbRing CcbSetup KSetting MdTypes MdEnv MdRat MdPlatform MdRelate MdV1 MdFsm.

(** ** The types *)

Definition flag (x : Z) : Prop := x = 0 \/ x = 1.

(** A name in a buffer of [PROPERTY_KEY_MAX] bytes. *)
Definition fits (s : list Z) : Prop := zlen s < KEY_MAX.

(** The number of the modem, or not known yet. *)
Definition own (id x : Z) : Prop := x = -1 \/ x = id - 1.

Definition md_info (x : Z) : Prop :=
  x = MD_DEBUG_REL_INFO_NOT_READY \/ x = MD_IS_DEBUG_VERSION \/ x = MD_IS_RELEASE_VERSION.

Record typed_v1 (id : Z) (v : md_v1) : Prop := {
  ty1_state : V1_STA_INIT <= v1_state v <= V1_STA_FLIGHT_MODE;
  ty1_silent : flag (v1_need_silent_reboot v);
  ty1_ignore : flag (v1_ignore_time_out_msg v);
  ty1_info : md_info (v1_gotten_md_info v);
  ty1_logger : flag (v1_mdlogger_cnt v);
  ty1_id : own id (v1_md_id v);
  ty1_muxd : fits (v1_muxd_name v);
  ty1_rild : fits (v1_rild_name v);
  ty1_mdlogger : fits (v1_mdlogger_name v);
  ty1_fsd : fits (v1_fsd_name v)
}.

(** The daemon of the modem [id]. *)
Record typed (id : Z) (g : mdinit) : Prop := {
  ty_curr : curr_md_id g = id;
  ty_fsm : own id (fsm_md_id g);
  ty_relate : own id (relate_md_id g);
  ty_state : In (md_ctl_fsm_curr_state g) [CCCI_MD_STA_INIT; CCCI_MD_STA_BOOT_READY; CCCI_MD_STA_BOOT_UP;
    CCCI_MD_STA_RESET; CCCI_MD_STA_STOP; CCCI_MD_STA_FLIGHT_MODE; CCCI_MD_STA_EXCEPTION];
  ty_silent : flag (need_silent_reboot g);
  ty_info : md_info (gotten_md_info g);
  ty_logger : flag (mdlogger_cnt g);
  ty_muxd : fits (muxd_name g);
  ty_rild : fits (rild_name g);
  ty_mdlogger : fits (mdlogger_name g);
  ty_fsd : fits (fsd_name g);
  ty_md_en : length (k_setting_md_en g) = 5%nat;
  ty_drv_ver : 0 <= k_setting_ccci_drv_ver g <= 2;
  ty_aee : aee_fun g = true -> lib_aed g = true;
  ty_v1 : typed_v1 id (v1 g)
}.

Lemma own_curr id g : typed id g -> own id (curr_md_id g - 1).
Proof. intros [-> _ _]. by right. Qed.

Lemma info_read z :
  md_info (if (z =? MD_IS_DEBUG_VERSION) || (z =? MD_IS_RELEASE_VERSION) then z else MD_DEBUG_REL_INFO_NOT_READY).
Proof.
  unfold md_info. destruct (Z.eqb_spec z MD_IS_DEBUG_VERSION) as [->|]; [by right; left|].
  destruct (Z.eqb_spec z MD_IS_RELEASE_VERSION) as [->|]; [by right; right|by left].
Qed.

(** ** Programs that keep an invariant *)

Section Holds.
Context `{OS}.
Context (I : mdinit -> Prop).
Abbreviation M := (prog mdinit).

(** The invariant holds wherever the program stops. *)
Definition holds {A} (m : M A) : Prop := forall w, I (w_glob w) -> I (w_glob (m w).1).

Lemma holds_ret {A} (a : A) : holds (mret a).
Proof. by intros w Hw. Qed.

Lemma holds_halt {A} h : holds (phalt (A := A) h).
Proof. by intros w Hw. Qed.

Lemma holds_get {B} (k : mdinit -> M B) : (forall g, I g -> holds (k g)) -> holds (pget ≫= k).
Proof. intros Hk w Hw. by apply Hk. Qed.

Lemma holds_pget : holds pget.
Proof. by intros w Hw. Qed.

Lemma holds_bind {A B} (m : M A) (k : A -> M B) : holds m -> (forall a, holds (k a)) -> holds (m ≫= k).
Proof.
  intros Hm Hk w Hw. unfold mbind, prog_bind. specialize (Hm w Hw).
  destruct (m w) as [w' [a|h]]; [by apply Hk|done].
Qed.

Lemma holds_mod f : (forall g, I g -> I (f g)) -> holds (pmod f).
Proof. intros Hf w Hw. by apply Hf. Qed.

Lemma holds_sys {T} (c : sys T) : holds (psys c).
Proof. intros w Hw. unfold psys. by destruct (os_do c (w_os w)). Qed.

Lemma holds_lib {A} (m : prog ccb A) : (forall c g, I g -> I (set_ccci_lib c g)) -> holds (run_lib m).
Proof. intros Hc w Hw. unfold run_lib. destruct (m _) as [w' o]. by apply Hc. Qed.

Lemma holds_lift {A B} (o : outcome A) (k : A -> M B) : (forall a, o = Ok a -> holds (k a)) -> holds (lift_outcome o ≫= k).
Proof. intros Hk. destruct o as [a|h]; [by apply (Hk a)|by intros w Hw]. Qed.
End Holds.

(** [keep]: the rules of [holds], unfolding the operations on the way. *)
Ltac typed_mod := apply holds_mod; intros ? []; split; cbn -[lit]; eauto with typed.
Ltac head_of t := lazymatch t with ?f _ => head_of f | _ => t end.
Ltac keep_step :=
  lazymatch goal with
  | |- holds _ (mret _) => apply holds_ret
  | |- holds _ (phalt _) => apply holds_halt
  | |- holds _ pget => apply holds_pget
  | |- holds _ (psys _) => apply holds_sys
  | |- holds _ (run_lib _) => apply holds_lib; intros ? ? []; by split
  | |- holds _ (pget ≫= _) => apply holds_get; intros ? ?
  | |- holds _ (lift_outcome _ ≫= _) => apply holds_lift; intros ? ?
  | |- holds _ (_ ≫= _) => apply holds_bind; [|intros ?]
  | |- holds _ (pmod _) => typed_mod
  | |- holds _ (if ?b then _ else _) => destruct b eqn:?
  | |- holds _ (match ?x with _ => _ end) => destruct x eqn:?
  | |- holds _ ?m => let h := head_of m in unfold h
  end.
Ltac keep := repeat first [solve [eauto with typed nocore] | keep_step].
Create HintDb typed.
#[export] Hint Extern 1 (own _ (_ - 1)) => right; reflexivity : typed.
#[export] Hint Resolve own_curr info_read : typed.
#[export] Hint Extern 1 (flag _) => first [left; reflexivity | right; reflexivity] : typed.
#[export] Hint Extern 1 (fits (lit ?n)) => match n with if ?b then _ else _ => destruct b | _ => idtac end; reflexivity : typed.
#[export] Hint Extern 1 (In _ [_; _; _; _; _; _; _]) => simpl; tauto : typed.

#[export] Hint Extern 1 (typed_v1 _ (_ _)) =>
  match goal with Hv : typed_v1 _ _ |- _ => destruct Hv; split; cbn -[lit]; eauto with typed end : typed.
#[export] Hint Extern 1 (_ <= _ <= _) => first [assumption | split; vm_compute; discriminate] : typed.

Section Typed.
Context `{OS}.
Context (junk : Z -> list Z) (id : Z).
Abbreviation holds_ := (holds (typed id)).

(** ** Services *)

Lemma typed_wait_loop name d n : holds_ (wait_loop name d n).
Proof. induction n as [|n IH]; cbn [wait_loop]; keep. Qed.
Hint Resolve typed_wait_loop : typed.

Lemma typed_wait_round wp : holds_ (wait_round wp).
Proof. induction wp as [|[n v] wp IH]; cbn [wait_round]; keep. Qed.
Hint Resolve typed_wait_round : typed.

Lemma typed_wait_ready_loop n wp : holds_ (wait_ready_loop n wp).
Proof. revert wp. induction n as [|n IH]; intros wp; cbn [wait_ready_loop]; keep. Qed.

Lemma typed_logger n : holds_ (logger_can_reset n).
Proof. induction n as [|n IH]; cbn [logger_can_reset]; keep. Qed.

Lemma typed_open_first l : holds_ (open_first l).
Proof. induction l as [|p l IH]; cbn [open_first]; keep. Qed.

Lemma typed_nvram_ready fuel retry : holds_ (nvram_ready_loop fuel retry).
Proof. revert retry. induction fuel as [|fuel IH]; intros retry; cbn [nvram_ready_loop]; keep. Qed.

Lemma typed_scan_images l : holds_ (scan_images l).
Proof. induction l as [|p l IH]; cbn [scan_images]; keep. Qed.
Hint Resolve typed_wait_ready_loop typed_logger typed_open_first typed_nvram_ready typed_scan_images : typed.

Lemma typed_wait_other fuel fd md other : holds_ (wait_other_reset junk fuel fd md other).
Proof. induction fuel as [|fuel IH]; cbn [wait_other_reset]; keep. Qed.

Lemma typed_wait_this fuel this : holds_ (wait_this_start fuel this).
Proof. induction fuel as [|fuel IH]; cbn [wait_this_start]; keep. Qed.

Lemma typed_wait_event fuel fd stop : holds_ (wait_event fuel fd stop).
Proof. induction fuel as [|fuel IH]; cbn [wait_event]; keep. Qed.

Lemma typed_rst_lock n fd : holds_ (rst_lock_loop junk n fd).
Proof. induction n as [|n IH]; cbn [rst_lock_loop]; keep. Qed.

Lemma typed_open_port n p : holds_ (open_port n p).
Proof. induction n as [|n IH]; cbn [open_port]; keep. Qed.
Hint Resolve typed_wait_other typed_wait_this typed_wait_event typed_rst_lock typed_open_port : typed.

Lemma typed_stop_all : holds_ (stop_all_ccci_up_layer_services junk).
Proof. keep. Qed.

Lemma typed_start_all : holds_ (start_all_ccci_up_layer_services junk).
Proof. keep. Qed.
Hint Resolve typed_stop_all typed_start_all : typed.

Lemma typed_notify status flight : holds_ (notify_md_status junk status flight).
Proof. keep. Qed.
Hint Resolve typed_notify : typed.

(** ** The state machine *)

Lemma typed_status status flight :
  In status [CCCI_MD_STA_INIT; CCCI_MD_STA_BOOT_READY; CCCI_MD_STA_BOOT_UP; CCCI_MD_STA_RESET; CCCI_MD_STA_STOP;
    CCCI_MD_STA_FLIGHT_MODE; CCCI_MD_STA_EXCEPTION] ->
  holds_ (set_current_md_status junk status flight).
Proof. intros Hs. keep. Qed.
Hint Resolve typed_status : typed.

Section Machine.
Context (c2k : bool) (v1o v2o : option Z).

Lemma typed_trigger fuel fd flight first : holds_ (trigger_modem_to_run junk c2k v1o v2o fuel fd flight first).
Proof. keep. Qed.
Hint Resolve typed_trigger : typed.

Lemma typed_message fuel fd bc_fd msg : holds_ (handle_message junk c2k v1o v2o fuel fd bc_fd msg).
Proof. keep. Qed.
Hint Resolve typed_message : typed.

Lemma typed_round fuel fd bc_fd r : holds_ (monitor_round junk c2k v1o v2o fuel fd bc_fd r).
Proof. keep. Qed.
Hint Resolve typed_round : typed.

Lemma typed_loop n fuel fd bc_fd : holds_ (monitor_loop junk c2k v1o v2o n fuel fd bc_fd).
Proof. induction n as [|n IH]; cbn [monitor_loop]; keep. Qed.
Hint Resolve typed_loop : typed.
End Machine.
Hint Resolve typed_trigger typed_loop : typed.

(** ** The earlier state machine *)

Section V1.
Context (c2k : bool) (v1o v2o : option Z).

Lemma typed_wait_other_v1 fuel md other : holds_ (wait_other_reset_v1 fuel md other).
Proof. induction fuel as [|fuel IH]; cbn [wait_other_reset_v1]; keep. Qed.

Lemma typed_start_until fuel : holds_ (start_until_done fuel).
Proof. induction fuel as [|fuel IH]; cbn [start_until_done]; keep. Qed.

Lemma typed_open_port_v1 n p : holds_ (open_port_v1 n p).
Proof. induction n as [|n IH]; cbn [open_port_v1]; keep. Qed.
Hint Resolve typed_wait_other_v1 typed_start_until typed_open_port_v1 : typed.

Lemma typed_status_v1 status :
  V1_STA_INIT <= status <= V1_STA_FLIGHT_MODE -> holds_ (set_current_md_status_v1 status).
Proof. intros Hs. keep. Qed.
Hint Resolve typed_status_v1 : typed.

Lemma typed_stop_all_v1 : holds_ stop_all_ccci_up_layer_services_v1.
Proof. keep. Qed.
Hint Resolve typed_stop_all_v1 : typed.

Lemma typed_boot_env_v1 fuel : holds_ (boot_env_v1 c2k v1o v2o fuel).
Proof. keep. Qed.
Hint Resolve typed_boot_env_v1 : typed.

Lemma typed_message_v1 fuel msg : holds_ (handle_message_v1 junk c2k v1o v2o fuel msg).
Proof. keep. Qed.
Hint Resolve typed_message_v1 : typed.

Lemma typed_round_v1 fuel ch r : holds_ (monitor_round_v1 junk c2k v1o v2o fuel ch r).
Proof. keep. Qed.
Hint Resolve typed_round_v1 : typed.

Lemma typed_loop_v1 n fuel fd ch : holds_ (monitor_loop_v1 junk c2k v1o v2o n fuel fd ch).
Proof. induction n as [|n IH]; cbn [monitor_loop_v1]; keep. Qed.
Hint Resolve typed_loop_v1 : typed.

Lemma typed_info_v1 fd tmp : holds_ (read_md_info_v1 fd tmp).
Proof. keep. Qed.
Hint Resolve typed_info_v1 : typed.

(** [main] runs it with the sub-version 1 only ([settings_version]): the
    sub-version 0 would take the modem for the first. *)
Lemma typed_main_v1 n fuel : holds_ (main_v1 junk c2k v1o v2o n fuel id 1).
Proof. unfold main_v1. change (1 =? 0) with false. cbv iota. keep. Qed.
Hint Resolve typed_main_v1 : typed.
End V1.
Hint Resolve typed_main_v1 : typed.

(** ** The start *)

Lemma typed_prepare : holds_ depends_so_prepare.
Proof.
  intros w []. unfold depends_so_prepare. rewrite (bind_ok (pmod _) _ w _ tt eq_refl).
  unfold mbind, prog_bind, psys, pmod, pwhen. destruct (os_do (Sys_dlopen _) _) as [s1 ok]. cbn -[os_do].
  destruct ok; [destruct (os_do (Sys_dlsym _) _) as [s2 []]|]; by split.
Qed.
Hint Resolve typed_prepare : typed.

Lemma md_en_scan_length l : forall en r, (length en < 5)%nat -> md_en_scan l en = Ok r -> length r = 5%nat.
Proof.
  induction l as [|c l IH]; intros en r Hen; [done|]. cbn [md_en_scan]. unfold zlen.
  set (en' := if c =? 49 then _ else _).
  assert (length en' <= S (length en))%nat as Hl
    by (unfold en'; repeat case_match; rewrite ?length_app; simpl; lia).
  destruct (Z.leb_spec 5 (Z.of_nat (length en'))); [intros [= <-]; lia|]. apply IH. lia.
Qed.
Hint Extern 1 (length _ = 5%nat) =>
  match goal with He : md_en_scan _ _ = Ok _ |- _ => apply (md_en_scan_length _ _ _) in He; [exact He|simpl; lia] end : typed.
Hint Extern 1 (_ <= (if ?b then 2 else 1) <= _) => destruct b; lia : typed.

Lemma typed_settings : holds_ (kernel_setting_prepare junk).
Proof. keep. Qed.
Hint Resolve typed_settings : typed.

Lemma typed_main_v2 c2k v1o v2o n fuel sub_ver : holds_ (main_v2 junk c2k v1o v2o n fuel id sub_ver).
Proof. keep. Qed.
Hint Resolve typed_main_v2 : typed.

(** The kernel settings that are taken name the version of the driver. *)
Lemma settings_version (w w' : world mdinit) ks : kernel_setting_prepare junk w = (w', Ok ks) -> 0 <= ks ->
  k_setting_ccci_drv_ver (w_glob w') = 1 \/ k_setting_ccci_drv_ver (w_glob w') = 2.
Proof.
  unfold kernel_setting_prepare. intros (w1 & ok & _ & Hrun)%bind_inv Hks.
  destruct ok; cbn [negb] in Hrun; [|injection Hrun as <- <-; lia].
  apply bind_inv in Hrun as (w2 & fd & _ & Hrun). destruct (_ <? 0); [injection Hrun as <- <-; lia|].
  apply bind_inv in Hrun as (w3 & r & _ & Hrun). apply bind_inv in Hrun as (w4 & ret & Hret & Hrun).
  apply bind_inv in Hrun as (w5 & c & Hc & Hrun). injection Hrun as <- ->.
  assert (w_glob w5 = w_glob w4) as ->.
  { unfold psys in Hc. destruct (os_do _ (w_os w4)) as [s x]. by injection Hc as <- _. }
  clear Hc c w5. destruct (_ <=? 0); [injection Hret as <- <-; lia|].
  apply bind_inv in Hret as (w6 & en & _ & Hret). destruct en as [v|]; [|injection Hret as <- <-; lia].
  do 2 apply bind_inv in Hret as (? & ? & _ & Hret). apply bind_inv in Hret as (? & ? & _ & Hret).
  apply bind_inv in Hret as (w7 & ver & _ & Hret). destruct ver as [v'|]; [|injection Hret as <- <-; lia].
  injection Hret as <- <-. simpl. destruct (streq _ _); auto.
Qed.

(** What [main] does from the settings on. *)
Lemma typed_version_main c2k v1o v2o n fuel (k : Z -> prog mdinit Z) : (forall r, holds_ (k r)) ->
  holds_ (ks ← kernel_setting_prepare junk;
    if ks <? 0 then mret 0
    else
      en ← is_current_md_en id;
      if en =? 0 then mret 0
      else
        drv_ver ← get_ccci_drv_ver;
        let main_v1 := main_v1 junk c2k v1o v2o n fuel id in
        r ← (if drv_ver =? 2 then main_v2 junk c2k v1o v2o n fuel id 0
             else if drv_ver =? 1 then main_v1 1 else main_v1 0);
        k r).
Proof.
  intros Hk w Hw. unfold mbind at 1, prog_bind at 1. pose proof (typed_settings w Hw) as Hs.
  destruct (kernel_setting_prepare junk w) as [w1 [ks|h]] eqn:Hrun; [|done]. simpl in Hs.
  destruct (Z.ltb_spec ks 0); [done|]. pose proof (settings_version _ _ _ Hrun ltac:(done)) as Hv.
  unfold is_current_md_en, get_ccci_drv_ver. rewrite !(bind_ok _ _ w1 w1 _ eq_refl).
  destruct (_ =? 0); [done|]. rewrite !(bind_ok _ _ w1 w1 _ eq_refl).
  destruct Hv as [-> | ->]; cbn -[main_v1 main_v2]; (apply holds_bind; [|exact Hk|exact Hs]).
  - apply typed_main_v1.
  - apply typed_main_v2.
Qed.
Lemma typed_start : 0 <= id <= 3 -> typed id (set_curr_md_id id (set_curr_md_id 0 mdinit_start)).
Proof. intros Hid. repeat split; try (by left); try (simpl; lia); try (by simpl; tauto); try by vm_compute. Qed.
End Typed.
#[export] Hint Resolve typed_wait_loop typed_prepare typed_settings : typed.

(** Claim C29.  The globals of the daemon are well typed.  For any arguments,
    settings of the build and answers of the environment, wherever the daemon
    stops - it returns, waits for a next message or is in the middle of an
    operation - its states are states of its machines, its flags are 0 or 1, the
    names of the services fit their buffers, the copies of the modem's number,
    that of the earlier machine included, are unset or agree with the modem it
    was started for ([main] never runs the earlier machine with the sub-version 0,
    which would take the first modem), and the exception handler is called
    only with its library loaded. *)
Theorem mdinit_typed `{OS} junk c2k v1o v2o n fuel argv st tr heap brk :
  let g := w_glob (main junk c2k v1o v2o n fuel argv (World st tr heap brk mdinit_start)).1 in
  0 <= curr_md_id g <= 3 /\ typed (curr_md_id g) g.
Proof.
  cbv zeta. set (w := World _ _ _ _ _). unfold main. rewrite (bind_ok (pmod _) _ w _ tt eq_refl).
  assert (typed 0 (set_curr_md_id 0 mdinit_start)) as H0 by exact (typed_start 0 ltac:(lia)).
  destruct argv as [|? [|arg ?]]; [done..|]. unfold md_id_of_arg.
  assert (forall id, 0 <= id <= 3 -> forall m : prog mdinit Z, holds (typed id) m ->
    forall w, w_glob w = set_curr_md_id id (set_curr_md_id 0 mdinit_start) ->
    0 <= curr_md_id (w_glob (m w).1) <= 3 /\ typed (curr_md_id (w_glob (m w).1)) (w_glob (m w).1)) as Hmain.
  { intros id Hid m Hm w' Hw'. specialize (Hm w'). rewrite Hw' in Hm. specialize (Hm (typed_start id Hid)).
    pose proof (ty_curr _ _ Hm) as ->. by split. }
  repeat case_match; simplify_eq; try done;
  rewrite (bind_ok (pmod _) _ _ _ tt eq_refl); (eapply Hmain; [| |reflexivity]; [lia|]);
  repeat first [apply typed_version_main; intros ? | solve [eauto with typed nocore] | keep_step].
Qed.
