(* ===== verification/MdQuiet.v ===== *)
(** * ccci_mdinit: services that publish nothing

    What a daemon writes to the property of its modem ([published]), and that
    its services - waits, starts and stops of other daemons, the boot data, the
    circular buffers - write nothing there and leave its state alone, as an
    invariant of the globals sees it ([Inert]). *)
From S2P Require Import Prelude Posix CcciIntf CcbTypes CcbRing CcbSetup KSetting MdTypes MdEnv MdRat MdPlatform MdRelate MdFsm.

(** ** What is published *)

Definition status_key (md : Z) : list Z := lit "vendor.mtk.md" ++ itoa (md + 1) ++ lit ".status".

Definition published1 (md : Z) (e : event) : list (list Z) :=
  match e with Ev (Sys_property_set name value) _ => if streq name (status_key md) then [value] else [] | _ => [] end.
Definition published (md : Z) (evs : list event) : list (list Z) := concat (published1 md <$> evs).

Lemma published_app md e1 e2 : published md (e1 ++ e2) = published md e1 ++ published md e2.
Proof. unfold published. by rewrite fmap_app, concat_app. Qed.

Lemma published_none md evs : Forall (fun e => published1 md e = []) evs -> published md evs = [].
Proof. induction 1 as [|e evs He _ IH]; [done|]. unfold published. cbn [fmap list_fmap concat]. by rewrite He. Qed.

(** A modem with a rendezvous: 1 or 3. *)
Definition md_pair (md : Z) : Prop := md = 0 \/ md = 2.

(** ** Invariants of the globals *)

(** What the state machines see of the globals. *)
Definition core (g : mdinit) : Z * Z * Z * Z * md_v1 :=
  (md_ctl_fsm_curr_state g, fsm_md_id g, relate_md_id g, curr_md_id g, v1 g).

(** An invariant of the part the services do not change. *)
Class Inert (I : mdinit -> Prop) : Prop := inert : forall g g', core g = core g' -> I g -> I g'.

Section Quiet.
Context `{OS}.
Context (I : mdinit -> Prop) (md : Z) (Hmd : md_pair md).
Abbreviation quiet := (emits I (fun e => published1 md e = [])).

Lemma quiet_set name value : streq name (status_key md) = false -> quiet (property_set name value).
Proof.
  intros Hn. unfold property_set. emit; simpl; by rewrite Hn.
Qed.

Lemma quiet_lit name value : existsb (streq (lit name)) [md1_status; md3_status] = false -> quiet (property_set (lit name) value).
Proof.
  intros Hn. apply quiet_set. cbn [existsb] in Hn. apply orb_false_iff in Hn as [H1 H3]. rewrite orb_false_r in H3.
  by destruct Hmd as [-> | ->].
Qed.
End Quiet.

(** [quiet]: [emit], with writes of globals outside the state and writes of
    other properties. *)
Ltac quiet_step :=
  match goal with
  | |- emits _ _ (pmod _) => apply emits_mod; intros ? ?; eapply inert; [|eassumption]; reflexivity
  | |- emits _ _ (property_set (lit _) _) => apply quiet_lit; [assumption|vm_compute; reflexivity]
  | |- emits _ _ (let '(_, _) := ?x in _) => destruct x as [? ?] eqn:?
  | |- _ => emit_step
  end.
Ltac quiet := repeat (first [ solve [ auto with cfs quiet nocore ] | quiet_step ]); try reflexivity.

Create HintDb quiet.

Section Services.
Context `{OS}.
Context (junk : Z -> list Z) (I : mdinit -> Prop) {HI : Inert I} (md : Z) (Hmd : md_pair md).
Abbreviation quiet_ := (emits I (fun e => published1 md e = [])).

Lemma quiet_bootprof str : quiet_ (update_inf_to_bootprof str).
Proof. unfold update_inf_to_bootprof. quiet. Qed.

Lemma quiet_property_get name : quiet_ (property_get name).
Proof. unfold property_get. quiet. Qed.

Lemma quiet_property_get_default name d : quiet_ (property_get_default name d).
Proof. unfold property_get_default. quiet. Qed.
Hint Resolve quiet_bootprof quiet_property_get quiet_property_get_default : quiet.

Lemma quiet_wait name d ms : quiet_ (wait_for_property name d ms).
Proof.
  unfold wait_for_property. generalize (Nat.max 1 (Z.to_nat (ms `quot` PROPERTY_WAIT_TIME))).
  intros n. induction n as [|n IH]; cbn [wait_loop]; quiet.
Qed.
Hint Resolve quiet_wait : quiet.

Lemma quiet_factory : quiet_ (is_factory_mode junk).
Proof. unfold is_factory_mode, get_sys_boot_mode. quiet. Qed.

Lemma quiet_meta : quiet_ (is_meta_mode junk).
Proof. unfold is_meta_mode. quiet. Qed.

Lemma quiet_start n st ms : quiet_ (start_service_verified n st ms).
Proof. unfold start_service_verified. quiet. Qed.

Lemma quiet_stop n st ms : quiet_ (stop_service_verified n st ms).
Proof. unfold stop_service_verified. quiet. Qed.
Hint Resolve quiet_factory quiet_meta quiet_start quiet_stop : quiet.

Lemma quiet_wait_ready wp ms : quiet_ (wait_property_ready wp ms).
Proof.
  assert (forall wp, quiet_ (wait_round wp)) as Hround.
  { intros l. induction l as [|[n v] l IH]; cbn [wait_round]; quiet. }
  unfold wait_property_ready. destruct (zlen wp >? 32); [quiet|].
  generalize (Nat.max 1 (Z.to_nat (ms `quot` PROPERTY_WAIT_TIME))). intros n.
  revert wp. induction n as [|n IH]; intros wp; cbn [wait_ready_loop]; quiet.
Qed.

Lemma quiet_logger n : quiet_ (logger_can_reset n).
Proof. induction n as [|n IH]; cbn [logger_can_reset]; quiet. Qed.
Hint Resolve quiet_wait_ready quiet_logger : quiet.

Lemma quiet_stop_all : quiet_ (stop_all_ccci_up_layer_services junk).
Proof. unfold stop_all_ccci_up_layer_services. quiet. Qed.

Lemma quiet_start_all : quiet_ (start_all_ccci_up_layer_services junk).
Proof. unfold start_all_ccci_up_layer_services. quiet. Qed.
Hint Resolve quiet_stop_all quiet_start_all : quiet.

Lemma quiet_proxy id : quiet_ (kill_ril_proxy junk id).
Proof. unfold kill_ril_proxy, rild_generation. quiet. Qed.
Hint Resolve quiet_proxy : quiet.

(** The rendezvous writes the other modem's property. *)
Definition other_key : list Z := if md =? MD_SYS1 then md3_status else md1_status.

Lemma quiet_other v : quiet_ (property_set other_key v).
Proof. apply quiet_set. unfold other_key. by destruct Hmd as [-> | ->]. Qed.
Hint Resolve quiet_other : quiet.

Lemma quiet_wait_other fuel fd id : quiet_ (wait_other_reset junk fuel fd id other_key).
Proof. induction fuel as [|fuel IH]; cbn [wait_other_reset]; quiet. Qed.

Lemma quiet_wait_this fuel this : quiet_ (wait_this_start fuel this).
Proof. induction fuel as [|fuel IH]; cbn [wait_this_start]; quiet. Qed.
Hint Resolve quiet_wait_other quiet_wait_this : quiet.

Lemma quiet_rendezvous fuel fd id this : quiet_ (rendezvous junk fuel fd id this other_key).
Proof. unfold rendezvous. quiet. Qed.
Hint Resolve quiet_rendezvous : quiet.

(** A function of the library: its events set no property. *)
Lemma quiet_lib {A} (m : prog ccb A) :
  emits (fun _ => True) (fun e => published1 md e = []) m -> quiet_ (run_lib m).
Proof.
  intros Hm w Hw. unfold run_lib.
  destruct (Hm (World (w_os w) (w_trace w) (w_heap w) (w_brk w) (ccci_lib (w_glob w))) Logic.I) as (evs & Ht & HP & _).
  destruct (m _) as [w' o]. exists evs. split_and!; [done|done|]. destruct o; [|done]. cbn [fst snd w_glob]. eapply inert; [|eassumption]; reflexivity.
Qed.

Lemma quiet_check_users id : quiet_ (run_lib (ccci_ccb_check_users id)).
Proof. apply quiet_lib, emits_ret. Qed.

Lemma quiet_init_users id : quiet_ (run_lib (ccci_ccb_init_users junk id)).
Proof.
  apply quiet_lib.
  assert (forall fd n i, emits (fun _ => True) (fun e => published1 md e = []) (get_configs junk fd n i)) as Hconf.
  { intros fd n. induction n as [|n IH]; intros i; cbn [get_configs]; quiet. }
  assert (forall info a, emits (fun _ => True) (fun e => published1 md e = []) (ccci_ccb_ctrl_get junk info a)) as Hget.
  { intros info a. unfold ccci_ccb_ctrl_get. repeat first [apply Hconf | apply emits_mod; done | quiet_step]; try reflexivity; auto with cfs. }
  assert (forall p, emits (fun _ => True) (fun e => published1 md e = []) (hdr_get p)) as Hhdr.
  { intros p. unfold hdr_get. quiet. }
  assert (forall ports index ptr, emits (fun _ => True) (fun e => published1 md e = []) (init_headers index ptr ports)) as Hinit.
  { intros ports. induction ports as [|c ports IH]; intros index ptr; cbn [init_headers]; unfold hdr_put;
    repeat first [apply IH | apply Hhdr | apply emits_mod; done | quiet_step]; auto with cfs. }
  assert (forall uid, emits (fun _ => True) (fun e => published1 md e = []) (ccci_ccb_init_user junk id uid)) as Huser.
  { intros uid. unfold ccci_ccb_init_user, ccb_ports, ccci_ccb_ctrl_put.
    repeat first [apply Hget | apply Hinit | quiet_step]; try reflexivity; auto with cfs. }
  unfold ccci_ccb_init_users. repeat first [apply Huser | quiet_step]; auto with cfs.
Qed.
Hint Resolve quiet_init_users : quiet.

Lemma quiet_lift {A} (o : outcome A) : quiet_ (lift_outcome o).
Proof. destruct o; simpl; quiet. Qed.
Hint Resolve quiet_lift : quiet.

Lemma quiet_open_first l : quiet_ (open_first l).
Proof. induction l as [|p l IH]; cbn [open_first]; quiet. Qed.

Lemma quiet_number n d : quiet_ (property_number n d).
Proof. unfold property_number. quiet. Qed.
Hint Resolve quiet_open_first quiet_number : quiet.

Lemma quiet_cip id : quiet_ (get_cip_sbp_setting id).
Proof. unfold get_cip_sbp_setting. quiet. Qed.

Lemma quiet_project c2k v1 v2 id : quiet_ (get_project_sbp_code_v1 c2k v1 v2 id).
Proof. unfold get_project_sbp_code_v1. destruct (query_prj_cfg_setting _ _ _ _ _); quiet. Qed.

Lemma quiet_nvram_ready fuel : quiet_ (check_nvram_ready fuel).
Proof.
  unfold check_nvram_ready. generalize 0. induction fuel as [|fuel IH]; intros retry; cbn [nvram_ready_loop]; quiet.
Qed.

Lemma quiet_dbg id : quiet_ (get_md_dbg_dump_flag id).
Proof. unfold get_md_dbg_dump_flag. quiet. Qed.
Hint Resolve quiet_cip quiet_project quiet_nvram_ready quiet_dbg : quiet.

Lemma quiet_nvram_sbp fuel id : quiet_ (get_nvram_sbp_code fuel id).
Proof.
  assert (forall f r p, quiet_ (get_nvram_ef_data f r p)) as Hef by (intros; unfold get_nvram_ef_data; quiet).
  unfold get_nvram_sbp_code. quiet.
Qed.
Hint Resolve quiet_nvram_sbp : quiet.

Lemma quiet_boot_data c2k v1 v2 fuel id fd : quiet_ (set_md_boot_env_data c2k v1 v2 fuel id fd).
Proof.
  assert (quiet_ get_md_wait_time) as Hwt by (unfold get_md_wait_time; quiet).
  assert (quiet_ default_mdlog_mode) as Hmode by (unfold default_mdlog_mode; quiet).
  assert (quiet_ get_usp_sbp_setting_v2) as Husp by (unfold get_usp_sbp_setting_v2; quiet).
  unfold set_md_boot_env_data, get_mdlog_boot_mode, get_md_sbp_code, get_project_sbp_code, get_sbp_subid_setting. quiet.
Qed.

Lemma quiet_command_finish fuel id stop : quiet_ (is_md_command_finish fuel id stop).
Proof.
  assert (forall fd, quiet_ (wait_event fuel fd stop)) as Hw.
  { intros fd. induction fuel as [|fuel IH]; cbn [wait_event]; quiet. }
  unfold is_md_command_finish. quiet.
Qed.
Hint Resolve quiet_boot_data quiet_command_finish : quiet.

(** The stored type of the modem. *)
Lemma quiet_stored id : quiet_ (get_stored_modem_type_val id).
Proof. unfold get_stored_modem_type_val, md_env_val_get, ccci_md_env_cfg_folder_init. quiet. Qed.

Lemma quiet_store_type id v : quiet_ (store_modem_type_val id v).
Proof. unfold store_modem_type_val, md_env_val_set, ccci_md_env_cfg_folder_init. quiet. Qed.

Lemma quiet_stop_modem fuel fd data : quiet_ (stop_modem fuel fd data).
Proof. unfold stop_modem. quiet. Qed.

Lemma quiet_lock fd : quiet_ (wait_for_rst_lock_free junk fd).
Proof.
  unfold wait_for_rst_lock_free. destruct (fd <? 0); [quiet|]. generalize 10%nat.
  intros n. induction n as [|n IH]; cbn [rst_lock_loop]; quiet.
Qed.

Lemma quiet_delay v : quiet_ (delay_to_reset_md v).
Proof. unfold delay_to_reset_md. quiet. Qed.

End Services.

#[export] Hint Resolve quiet_bootprof quiet_property_get quiet_property_get_default quiet_wait quiet_factory quiet_meta
  quiet_start quiet_stop quiet_wait_ready quiet_logger quiet_stop_all quiet_start_all quiet_proxy quiet_other
  quiet_wait_other quiet_wait_this quiet_rendezvous quiet_init_users quiet_lift quiet_boot_data quiet_command_finish
  quiet_stop_modem quiet_lock quiet_delay quiet_open_first quiet_number quiet_cip quiet_project quiet_nvram_ready
  quiet_check_users quiet_dbg quiet_stored quiet_store_type : quiet.
