(* ===== verification/MdSpec.v ===== *)
(** * ccci_mdinit: the published state follows the state machine, and ready means started

    The specification: the states a message makes the modem go through
    ([md_step]).  Whatever the environment answers, the daemon publishes in the
    property of its modem exactly the states the specification allows, in that
    order, and its own state is the last ([message_refines]). *)
From S2P Require Import Prelude Posix CcciIntf MemFs CcbTypes CcbRing CcbSetup KSetting MdTypes MdEnv MdRat MdPlatform MdRelate MdFsm MdDemo MdQuiet.

(** ** The specification *)

(** [md_step s msg l]: in the state [s] the message [msg] takes the modem through
    the states [l]. *)
Inductive md_step (s : Z) : Z -> list Z -> Prop :=
| step_exception : s <> CCCI_MD_STA_EXCEPTION -> md_step s CCCI_MD_MSG_EXCEPTION [CCCI_MD_STA_EXCEPTION]
| step_stop : s <> CCCI_MD_STA_STOP -> s <> CCCI_MD_STA_FLIGHT_MODE ->
    md_step s CCCI_MD_MSG_FORCE_STOP_REQUEST [CCCI_MD_STA_STOP]
| step_flight : s <> CCCI_MD_STA_STOP -> s <> CCCI_MD_STA_FLIGHT_MODE ->
    md_step s CCCI_MD_MSG_FLIGHT_STOP_REQUEST [CCCI_MD_STA_FLIGHT_MODE]
| step_start msg l : s <> CCCI_MD_STA_BOOT_READY ->
    msg = CCCI_MD_MSG_FORCE_START_REQUEST \/ msg = CCCI_MD_MSG_FLIGHT_START_REQUEST ->
    l = [] \/ l = [CCCI_MD_STA_BOOT_READY] ->
    md_step s msg ([CCCI_MD_STA_RESET; CCCI_MD_STA_BOOT_UP] ++ l)
| step_reset l : l = [] \/ l = [CCCI_MD_STA_BOOT_READY] ->
    md_step s CCCI_MD_MSG_RESET_REQUEST ([CCCI_MD_STA_STOP; CCCI_MD_STA_RESET; CCCI_MD_STA_BOOT_UP] ++ l)
| step_stay msg :
    (msg = CCCI_MD_MSG_EXCEPTION -> s = CCCI_MD_STA_EXCEPTION) ->
    (msg = CCCI_MD_MSG_FORCE_STOP_REQUEST \/ msg = CCCI_MD_MSG_FLIGHT_STOP_REQUEST ->
       s = CCCI_MD_STA_STOP \/ s = CCCI_MD_STA_FLIGHT_MODE) ->
    (msg = CCCI_MD_MSG_FORCE_START_REQUEST \/ msg = CCCI_MD_MSG_FLIGHT_START_REQUEST -> s = CCCI_MD_STA_BOOT_READY) ->
    msg <> CCCI_MD_MSG_RESET_REQUEST ->
    md_step s msg [].

(** The globals of the daemon of the modem [md], in state [s]. *)
Definition daemon (md s : Z) (g : mdinit) : Prop :=
  md_ctl_fsm_curr_state g = s /\ fsm_md_id g = md /\ relate_md_id g = md /\ curr_md_id g = md + 1.

#[export] Instance daemon_inert md s : Inert (daemon md s).
Proof. intros g g' [= E1 E2 E3 E4 _] (? & ? & ? & ?). split_and!; congruence. Qed.
#[export] Hint Resolve daemon_inert : quiet.

Section Daemon.
Context `{OS}.
Context (junk : Z -> list Z) (md s : Z) (Hmd : md_pair md).
Abbreviation quiet_ := (emits (daemon md s) (fun e => published1 md e = [])).

Lemma quiet_restart fuel fd first : quiet_ (check_to_restart_md_v2 junk fuel fd first).
Proof.
  unfold check_to_restart_md_v2, get_mdini_killed_state. apply emits_bind; [quiet|]. intros [ret ty].
  apply emits_bind; [quiet|]. intros _. apply emits_get. intros g Hg. pose proof Hg as (_ & _ & -> & _).
  assert ((if md =? MD_SYS1 then (md1_status, md3_status)
           else if md =? MD_SYS3 then (md3_status, md1_status)
           else (cstring (take 32 (junk 32)), cstring (take 32 (junk 32)))) =
          (if md =? MD_SYS1 then md1_status else md3_status, other_key md)) as ->
    by (unfold other_key; by destruct Hmd as [-> | ->]).
  cbn iota. quiet.
Qed.

Lemma quiet_notify status flight : status <> CCCI_MD_STA_INIT -> quiet_ (notify_md_status junk status flight).
Proof.
  intros Hs. unfold notify_md_status. rewrite (proj2 (Z.eqb_neq _ _) Hs).
  destruct (status =? CCCI_MD_STA_BOOT_READY).
  - apply emits_get. intros g (_ & _ & -> & _). quiet.
  - quiet.
Qed.
End Daemon.

(** ** Programs that publish *)

Definition last_state (s : Z) (l : list Z) : Z := foldl (fun _ x => x) s l.

Section Publish.
Context `{OS}.
Context (junk : Z -> list Z) (md : Z) (Hmd : md_pair md).
Abbreviation M := (prog mdinit).

(** From state [s], the program publishes the states of a list with [Q] and ends
    in the last. *)
Definition pub {A} (s : Z) (m : M A) (Q : A -> list Z -> Prop) : Prop :=
  forall w, daemon md s (w_glob w) ->
  match m w with
  | (w', Ok a) => exists evs l, w_trace w' = w_trace w ++ evs /\ published md evs = status_name <$> l /\
      daemon md (last_state s l) (w_glob w') /\ Q a l
  | (_, Halt _) => True
  end.

Lemma pub_quiet {A} s (m : M A) : emits (daemon md s) (fun e => published1 md e = []) m ->
  pub s m (fun _ l => l = []).
Proof.
  intros Hm w Hw. destruct (Hm w Hw) as (evs & Ht & HP & HI). destruct (m w) as [w' [a|h]]; [|done].
  exists evs, []. split_and!; try done. by apply published_none.
Qed.

Lemma pub_bind {A B} s (m : M A) (k : A -> M B) Q1 Q :
  pub s m Q1 -> (forall a l, Q1 a l -> pub (last_state s l) (k a) (fun b l' => Q b (l ++ l'))) -> pub s (m ≫= k) Q.
Proof.
  intros Hm Hk w Hw. specialize (Hm w Hw). unfold mbind, prog_bind. destruct (m w) as [w1 [a|h]]; [|done].
  destruct Hm as (evs & l & Ht & Hp & Hd & HQ). specialize (Hk a l HQ w1 Hd).
  destruct (k a w1) as [w2 [b|h]]; [|done]. destruct Hk as (evs' & l' & Ht' & Hp' & Hd' & HQ').
  exists (evs ++ evs'), (l ++ l'). split_and!.
  - by rewrite Ht', Ht, app_assoc.
  - by rewrite published_app, Hp, Hp', fmap_app.
  - unfold last_state in *. by rewrite foldl_app.
  - done.
Qed.

(** A quiet program, then the rest. *)
Lemma pub_then {A B} s (m : M A) (k : A -> M B) Q :
  emits (daemon md s) (fun e => published1 md e = []) m -> (forall a, pub s (k a) Q) -> pub s (m ≫= k) Q.
Proof.
  intros Hm Hk. eapply pub_bind; [by apply pub_quiet|]. intros a l ->. intros w Hw. specialize (Hk a w Hw). exact Hk.
Qed.

Lemma pub_get {B} s (k : mdinit -> M B) Q : (forall g, daemon md s g -> pub s (k g) Q) -> pub s (pget ≫= k) Q.
Proof. intros Hk w Hw. exact (Hk (w_glob w) Hw w Hw). Qed.

Lemma pub_ret {A} s (a : A) (Q : A -> list Z -> Prop) : Q a [] -> pub s (mret a) Q.
Proof. intros HQ w Hw. exists [], []. rewrite app_nil_r. by split_and!. Qed.

Lemma pub_mono {A} s (m : M A) (Q Q' : A -> list Z -> Prop) : (forall a l, Q a l -> Q' a l) -> pub s m Q -> pub s m Q'.
Proof.
  intros HQ Hm w Hw. specialize (Hm w Hw). destruct (m w) as [w' [a|h]]; [|done].
  destruct Hm as (evs & l & ? & ? & ? & ?). exists evs, l. split_and!; auto.
Qed.

Lemma pub_silent {A} s (m : M A) (Q : A -> list Z -> Prop) :
  emits (daemon md s) (fun e => published1 md e = []) m -> (forall a, Q a []) -> pub s m Q.
Proof. intros Hm HQ. eapply pub_mono; [|by apply pub_quiet]. intros a l ->. apply HQ. Qed.

Lemma status_name_short status : (length (status_name status) <= 10)%nat.
Proof. unfold status_name. repeat case_match; vm_compute; lia. Qed.

(** [set_current_md_status] publishes the state. *)
Lemma pub_set s status flight : status <> CCCI_MD_STA_INIT ->
  pub s (set_current_md_status junk status flight) (fun _ l => l = [status]).
Proof.
  intros Hs w Hw. unfold set_current_md_status.
  rewrite (bind_ok (pmod (set_md_ctl_fsm_curr_state status)) _ w _ tt eq_refl).
  set (w0 := set_glob (set_md_ctl_fsm_curr_state status (w_glob w)) w). assert (daemon md status (w_glob w0)) as Hw0 by (destruct Hw as (? & ? & ? & ?); by split_and!).
  enough (match (update_inf_to_bootprof (status_name status) ≫= fun _ => pget ≫= fun g =>
      store_md_statue (fsm_md_id g) (status_name status) 32 ≫= fun _ => notify_md_status junk status flight) w0 with
    | (w', Ok a) => exists evs, w_trace w' = w_trace w0 ++ evs /\ published md evs = [status_name status] /\
        daemon md status (w_glob w')
    | (_, Halt _) => True end) as Hgoal.
  { cbv beta zeta. revert Hgoal. destruct (@mbind (prog mdinit) _ _ _ _ _ w0) as [w' [a|h]]; intros Hgoal; [|done]. destruct Hgoal as (evs & Ht & Hp & Hd).
    exists evs, [status]. by split_and!. }
  unfold mbind at 1, prog_bind at 1.
  destruct (quiet_bootprof _ md (status_name status) w0 Hw0) as (e1 & Ht1 & HP1 & Hd1).
  destruct (update_inf_to_bootprof (status_name status) w0) as [w1 [a|h]]; [|done]. cbn [fst snd] in *.
  unfold mbind at 1, prog_bind at 1. cbn [pget]. pose proof Hd1 as (_ & -> & _ & _).
  assert (exists w2 e2, store_md_statue md (status_name status) 32 w1 = (w2, Ok tt) /\ w_trace w2 = w_trace w1 ++ e2 /\
    published md e2 = [status_name status] /\ daemon md status (w_glob w2)) as (w2 & e2 & Hrun & Ht2 & Hp2 & Hd2).
  { unfold store_md_statue. pose proof (status_name_short status) as Hlen.
    assert (snprintf 92 (take (Z.to_nat (32 - 1)) (status_name status)) = status_name status) as ->
      by (unfold snprintf; rewrite !take_ge; try done; rewrite ?length_take; lia).
    assert (forall name value (w : world mdinit), exists r st, property_set name value w =
      (World st (w_trace w ++ [Ev (Sys_property_set name value) r]) (w_heap w) (w_brk w) (w_glob w), Ok tt)) as Hset.
    { intros name value w'. unfold property_set, psys, mbind, prog_bind. destruct (os_do _ (w_os w')) as [st r]. by exists r, st. }
    destruct (Hset (lit "vendor.mtk.md" ++ itoa (md + 1) ++ lit ".status") (status_name status) w1) as (r1 & st1 & Hr1).
    rewrite (bind_ok _ _ _ _ _ Hr1). fold (status_key md). set (w1' := World _ _ _ _ _).
    assert (published1 md (Ev (Sys_property_set (status_key md) (status_name status)) r1) = [status_name status]) as Hp1
      by (simpl; unfold streq; by rewrite bool_decide_eq_true_2).
    destruct Hmd as [-> | ->]; cbn [Z.eqb pwhen MD_SYS3 Pos.eqb].
    - exists w1', [Ev (Sys_property_set (status_key 0) (status_name status)) r1]. split_and!; try done.
    - destruct (Hset (lit "vendor.net.cdma.mdmstat") (status_name status) w1') as (r2 & st2 & Hr2). rewrite Hr2.
      eexists _, [_; _]. split_and!; [reflexivity|unfold w1'; cbn [w_trace]; by rewrite <- app_assoc| |done].
      unfold published. cbn [fmap list_fmap concat]. by rewrite Hp1. }
  rewrite (bind_ok _ _ _ _ _ Hrun).
  destruct (quiet_notify junk md status Hmd status flight Hs w2 Hd2) as (e3 & Ht3 & HP3 & Hd3).
  destruct (notify_md_status junk status flight w2) as [w3 [[]|h]]; [|done]. cbn [fst snd] in *.
  exists (e1 ++ e2 ++ e3). split_and!; [by rewrite Ht3, Ht2, Ht1, !app_assoc| |done].
  by rewrite !published_app, Hp2, (published_none _ e1), (published_none _ e3) by done.
Qed.
End Publish.

(** ** Messages *)

Section Messages.
Context `{OS}.
Context (junk : Z -> list Z) (c2k : bool) (v1 v2 : option Z) (md : Z) (Hmd : md_pair md).
Abbreviation M := (prog mdinit).
Abbreviation quiet_ s := (emits (daemon md s) (fun e => published1 md e = [])).
Abbreviation trigger := (trigger_modem_to_run junk c2k v1 v2).

(** The end of a start: ready, or not. *)
Definition started (r : Z) (l : list Z) : Prop := r = 0 /\ l = [CCCI_MD_STA_BOOT_READY] \/ r = -1 /\ l = [].

Lemma pub_trigger s fuel fd flight first :
  pub md s (trigger fuel fd flight first)
    (fun r l => exists l', l = [CCCI_MD_STA_RESET; CCCI_MD_STA_BOOT_UP] ++ l' /\ started r l').
Proof.
  unfold trigger_modem_to_run. eapply pub_bind; [by apply pub_set|]. intros [] l ->. cbn [last_state foldl].
  apply pub_then; [by apply quiet_restart|]. intros _. apply pub_get. intros g _.
  apply pub_then; [quiet|]. intros _.
  eapply pub_bind; [by apply pub_set|]. intros [] l ->. cbn [last_state foldl].
  assert (forall Q : Z -> list Z -> Prop, Q (-1) [] -> Q 0 [CCCI_MD_STA_BOOT_READY] ->
    pub md CCCI_MD_STA_BOOT_UP
    ('(ret, _) ← psys (Sys_ioctl fd CCCI_IOC_DO_START_MD 0);
     if negb (rv ret =? 0) then mret (-1)
     else
       g ← pget;
       Mdstatus ← is_md_command_finish fuel (fsm_md_id g) false;
       if negb (Mdstatus =? MD_STA_EV_READY) then mret (-1)
       else
         '(ret, current_md_status) ← psys (Sys_ioctl fd CCCI_IOC_GET_MD_STATE MD_STATE_INVALID);
         if rv ret <? 0 then mret (-1)
         else if current_md_status =? MD_STATE_READY then
           set_current_md_status junk CCCI_MD_STA_BOOT_READY 0;; mret 0
         else mret (-1)) Q) as Hstart.
  { intros Q Hn Hr. apply pub_then; [quiet|]. intros [ret ?]. destruct (rv ret =? 0); cbn [negb]; [|by apply pub_ret].
    apply pub_get. intros g' _. apply pub_then; [quiet|]. intros st.
    destruct (st =? MD_STA_EV_READY); cbn [negb]; [|by apply pub_ret].
    apply pub_then; [quiet|]. intros [ret' cur]. destruct (rv ret' <? 0); [by apply pub_ret|].
    destruct (cur =? MD_STATE_READY); [|by apply pub_ret].
    eapply pub_bind; [by apply pub_set|]. intros [] l ->. by apply pub_ret. }
  apply Hstart; eexists; (split; [reflexivity|]); [by right|by left].
Qed.

Lemma pub_stop_for_reset s fuel fd bc_fd :
  pub md s (stop_for_reset junk fuel fd bc_fd) (fun _ l => l = [CCCI_MD_STA_STOP]).
Proof.
  unfold stop_for_reset. apply pub_then; [quiet|]. intros _.
  apply pub_then; [quiet|]. intros _. apply pub_then; [quiet|]. intros _.
  apply pub_then; [quiet|]. intros meta.
  apply pub_then; [quiet|].
  intros _. by apply pub_set.
Qed.

Lemma pub_unless s l (m : M unit) Q :
  (existsb (Z.eqb s) l = true -> Q tt []) -> (existsb (Z.eqb s) l = false -> pub md s m Q) -> pub md s (unless_status l m) Q.
Proof.
  intros H1 H2. unfold unless_status. apply pub_get. intros g (-> & _). destruct (existsb (Z.eqb s) l); [|by apply H2].
  by apply pub_ret, H1.
Qed.

(** A message of the [switch]. *)
Lemma pub_handle s fuel fd bc_fd msg :
  msg <> CCCI_MD_MSG_EXCEPTION ->
  pub md s (handle_message junk c2k v1 v2 fuel fd bc_fd msg) (fun _ l => md_step s msg l).
Proof.
  intros Hexc. unfold handle_message.
  assert (forall flight, pub md s (_ ← trigger fuel fd flight 0; mret tt : M unit)
    (fun _ l => exists l', l = [CCCI_MD_STA_RESET; CCCI_MD_STA_BOOT_UP] ++ l' /\ (l' = [] \/ l' = [CCCI_MD_STA_BOOT_READY]))) as Htrig.
  { intros flight. eapply pub_bind; [apply pub_trigger|]. intros r l (l' & -> & Hl'). apply pub_ret.
    exists l'. rewrite app_nil_r. split; [done|]. destruct Hl' as [[_ ->]|[_ ->]]; auto. }
  assert (forall m, m = CCCI_MD_MSG_FORCE_START_REQUEST \/ m = CCCI_MD_MSG_FLIGHT_START_REQUEST -> forall flight,
    pub md s (unless_status [CCCI_MD_STA_BOOT_READY] (_ ← trigger fuel fd flight 0; mret tt)) (fun _ l => md_step s m l)) as Hst.
  { intros m Hm flight. apply pub_unless; cbn [existsb]; rewrite orb_false_r.
    - intros Hs%Z.eqb_eq. apply step_stay; destruct Hm as [-> | ->]; try done; intros [|]; done.
    - intros Hs%Z.eqb_neq. eapply pub_mono; [|apply Htrig]. intros _ l (l' & -> & Hl'). by apply step_start. }
  destruct (Z.eqb_spec msg CCCI_MD_MSG_FORCE_STOP_REQUEST) as [->|H1].
  { apply pub_unless; cbn [existsb]; rewrite orb_false_r.
    - intros Hs. apply orb_prop in Hs as [Hs|Hs]; apply Z.eqb_eq in Hs as ->; apply step_stay; try done; try (intros [|]; done); auto.
    - intros [Hs%Z.eqb_neq Hs'%Z.eqb_neq]%orb_false_iff. eapply pub_mono; [|apply pub_stop_for_reset]. intros _ l ->. by apply step_stop. }
  destruct (Z.eqb_spec msg CCCI_MD_MSG_FORCE_START_REQUEST) as [->|H2]; [apply Hst; auto|].
  destruct (Z.eqb_spec msg CCCI_MD_MSG_FLIGHT_STOP_REQUEST) as [->|H3].
  { apply pub_unless; cbn [existsb]; rewrite orb_false_r.
    - intros Hs. apply orb_prop in Hs as [Hs|Hs]; apply Z.eqb_eq in Hs as ->; apply step_stay; try done; try (intros [|]; done); auto.
    - intros [Hs%Z.eqb_neq Hs'%Z.eqb_neq]%orb_false_iff. apply pub_then; [quiet|]. intros _.
      eapply pub_mono; [|by apply pub_set]. intros _ l ->. by apply step_flight. }
  destruct (Z.eqb_spec msg CCCI_MD_MSG_FLIGHT_START_REQUEST) as [->|H4]; [apply Hst; auto|].
  destruct (Z.eqb_spec msg CCCI_MD_MSG_RESET_REQUEST) as [->|H5].
  { eapply pub_bind; [apply pub_stop_for_reset|]. intros _ l ->. cbn [last_state foldl].
    eapply pub_bind; [apply pub_trigger|]. intros r l (l' & -> & Hl'). apply pub_ret. rewrite app_nil_r.
    apply (step_reset s l'). destruct Hl' as [[_ ->]|[_ ->]]; auto. }
  apply pub_ret, step_stay; try done; intros [|]; done.
Qed.

Lemma pub_common s msg resv :
  pub md s (common_msg_handler junk msg resv)
    (fun done l => if done then md_step s msg l else l = [] /\ msg <> CCCI_MD_MSG_EXCEPTION).
Proof.
  unfold common_msg_handler. apply pub_get. intros g Hg.
  assert (forall m, m <> CCCI_MD_MSG_EXCEPTION -> m <> CCCI_MD_MSG_FORCE_STOP_REQUEST -> m <> CCCI_MD_MSG_FLIGHT_STOP_REQUEST ->
    m <> CCCI_MD_MSG_FORCE_START_REQUEST -> m <> CCCI_MD_MSG_FLIGHT_START_REQUEST -> m <> CCCI_MD_MSG_RESET_REQUEST ->
    md_step s m []) as Hstay by (intros; apply step_stay; try done; intros [|]; done).
  destruct (Z.eqb_spec msg CCCI_MD_MSG_SEND_BATTERY_INFO) as [->|H1].
  { apply pub_then; [quiet|]. intros _. by apply pub_ret, Hstay. }
  destruct (Z.eqb_spec msg CCCI_MD_MSG_CFG_UPDATE) as [->|H2]; [by apply pub_ret, Hstay|].
  destruct (Z.eqb_spec msg CCCI_MD_MSG_RANDOM_PATTERN) as [->|H3].
  { apply pub_then; [unfold compute_random_pattern; quiet|]. intros p. apply pub_then; [quiet|]. intros _.
    by apply pub_ret, Hstay. }
  destruct (Z.eqb_spec msg CCCI_MD_MSG_STORE_NVRAM_MD_TYPE) as [->|H4].
  { apply pub_then; [quiet|]. intros [? data]. apply pub_then; [quiet|]. intros stored.
    apply pub_then; [quiet|]. intros _. by apply pub_ret, Hstay. }
  destruct (Z.eqb_spec msg CCCI_MD_MSG_EXCEPTION) as [->|H5]; [|by apply pub_ret].
  unfold check_curret_md_status. cbn [mbind]. eapply pub_bind with (Q1 := fun b l => l = [] /\ b = (s =? CCCI_MD_STA_EXCEPTION)).
  { apply pub_get. intros g' (-> & _). by apply pub_ret. }
  intros same l (-> & ->). cbn [last_state foldl app].
  destruct (Z.eqb_spec s CCCI_MD_STA_EXCEPTION) as [Hs|Hs]; cbn [negb pwhen].
  - apply pub_then; [quiet|]. intros _. apply pub_ret, step_stay; try done; intros [|]; done.
  - eapply pub_bind; [by apply pub_set|]. intros [] l ->. apply pub_ret. by apply step_exception.
Qed.

(** What a read of the monitor channel asks for. *)
Definition message_of (r : rres) : option Z :=
  if rres_rv r =? sizeof_CCCI_BUFF_T then
    let buff := buff_of (rres_data r) in
    if (data0 buff =? 0xFFFFFFFF) && (channel buff =? CCCI_MONITOR_CH) then Some (data1 buff) else None
  else None.

(** Claim C2.  The daemon of modem 1 or 3 implements the state machine.  Whatever
    it reads from the monitor channel in a state, and whatever the environment
    answers on the way, when the round is over the values it has written to the
    property of its modem are the names of the states the message leads through,
    in order and nothing else, and its own state is the last of them; what is no
    message changes nothing. *)
Theorem message_refines s fuel fd bc_fd r w w' :
  daemon md s (w_glob w) ->
  monitor_round junk c2k v1 v2 fuel fd bc_fd r w = (w', Ok tt) ->
  exists evs l, w_trace w' = w_trace w ++ evs /\ published md evs = status_name <$> l /\
    daemon md (last_state s l) (w_glob w') /\
    match message_of r with Some msg => md_step s msg l | None => l = [] end.
Proof.
  intros Hd Hrun. assert (pub md s (monitor_round junk c2k v1 v2 fuel fd bc_fd r)
    (fun _ l => match message_of r with Some msg => md_step s msg l | None => l = [] end)) as Hpub.
  { unfold monitor_round, message_of. destruct (rres_rv r =? sizeof_CCCI_BUFF_T); [|by apply pub_ret].
    destruct (_ && _); [|by apply pub_ret]. eapply pub_bind; [apply pub_common|].
    intros [] l Hl; [by apply pub_ret; rewrite app_nil_r|]. destruct Hl as [-> Hne]. cbn [last_state foldl app].
    by apply pub_handle. }
  specialize (Hpub w Hd). rewrite Hrun in Hpub. exact Hpub.
Qed.
End Messages.

(** A forced stop of a booted modem whose driver refuses to stop: the daemon
    publishes "stop" all the same. *)
Definition stop_message : rres :=
  RData (le32 0xFFFFFFFF ++ le32 CCCI_MD_MSG_FORCE_STOP_REQUEST ++ le32 CCCI_MONITOR_CH ++ le32 0).

Lemma message_refines_witness : exists (w' : @world MemOS mdinit) evs,
  monitor_round (fun _ => []) false None None 100 5 6 stop_message
    (@World MemOS mdinit memfs_empty [] ∅ 1 (boot_glob CCCI_MD_STA_BOOT_UP)) = (w', Ok tt) /\
  w_trace w' = evs /\ published 0 evs = [lit "stop"].
Proof.
  set (w := @World MemOS mdinit memfs_empty [] ∅ 1 (boot_glob CCCI_MD_STA_BOOT_UP)).
  assert (daemon 0 CCCI_MD_STA_BOOT_UP (w_glob w)) as Hd by by split_and!.
  assert ((monitor_round (fun _ => []) false None None 100 5 6 stop_message w).2 = Ok tt) as H2
    by (vm_compute; reflexivity).
  destruct (monitor_round (fun _ => []) false None None 100 5 6 stop_message w) as [w' o] eqn:Hrun.
  cbn [snd] in H2. subst o. exists w'.
  destruct (@message_refines MemOS (fun _ => []) false None None 0 (or_introl eq_refl) CCCI_MD_STA_BOOT_UP
    100 5 6 stop_message w w' Hd Hrun) as (evs & l & Ht & Hp & _ & Hl).
  exists evs. split; [done|]. split; [exact Ht|]. rewrite Hp.
  assert (message_of stop_message = Some CCCI_MD_MSG_FORCE_STOP_REQUEST) as Hm by (vm_compute; reflexivity).
  rewrite Hm in Hl. clear - Hl. inversion Hl as [| | |m l' _ Hm|l' Hl'|m H1 H2]; subst; try done.
  - by destruct Hm.
  - by destruct (H2 (or_introl eq_refl)).
Defined.

(** ** ccci_mdinit: ready means started

    The evidence behind the published state "ready". *)

Section Ready.
Context `{OS}.
Context (junk : Z -> list Z) (c2k : bool) (v1 v2 : option Z) (md : Z) (Hmd : md_pair md).
Abbreviation M := (prog mdinit).

(** A value of a program that publishes, or of a quiet one. *)
Lemma pub_ok {A} s (m : M A) Q w w' a : pub md s m Q -> daemon md s (w_glob w) -> m w = (w', Ok a) ->
  exists evs l, w_trace w' = w_trace w ++ evs /\ published md evs = status_name <$> l /\
    daemon md (last_state s l) (w_glob w') /\ Q a l.
Proof. intros Hm Hd Hrun. specialize (Hm w Hd). by rewrite Hrun in Hm. Qed.

Lemma quiet_ok {A} s (m : M A) w w' a : emits (daemon md s) (fun e => published1 md e = []) m ->
  daemon md s (w_glob w) -> m w = (w', Ok a) ->
  exists evs, w_trace w' = w_trace w ++ evs /\ published md evs = [] /\ daemon md s (w_glob w').
Proof.
  intros Hm Hd Hrun. destruct (pub_ok s m _ _ _ _ (pub_quiet md s m Hm) Hd Hrun) as (evs & l & ? & ? & ? & ->).
  by exists evs.
Qed.

Lemma sys_ok {T} (c : sys T) (w w' : world mdinit) r : psys c w = (w', Ok r) ->
  w_trace w' = w_trace w ++ [Ev c r] /\ w_glob w' = w_glob w.
Proof. unfold psys. destruct (os_do c (w_os w)) as [s r']. by intros [= <- <-]. Qed.

(** The wait ends at a read that completes the event it answers. *)
Lemma wait_event_ok fuel fd stop : forall w w' ev, wait_event fuel fd stop w = (w', Ok ev) ->
  is_final stop ev = true /\ exists evs bs buf, w_trace w' = w_trace w ++ evs ++ [Ev (Sys_read fd 48) (RData bs)] /\
    0 < zlen bs /\ ev = event_type (bs ++ drop (length bs) buf) /\ published md evs = [].
Proof.
  induction fuel as [|fuel IH]; intros w w' ev; [done|]. cbn [wait_event].
  intros (w1 & r & Hread & Hrun)%bind_inv. apply sys_ok in Hread as [Ht1 Hg1].
  assert (forall w2, w_trace w2 = w_trace w1 -> wait_event fuel fd stop w2 = (w', Ok ev) ->
    is_final stop ev = true /\ exists evs bs buf, w_trace w' = w_trace w ++ evs ++ [Ev (Sys_read fd 48) (RData bs)] /\
    0 < zlen bs /\ ev = event_type (bs ++ drop (length bs) buf) /\ published md evs = []) as Hagain.
  { intros w2 Ht2 Hrec. destruct (IH _ _ _ Hrec) as (Hf & evs & bs & buf & Ht & Hbs & Hev & Hp). split; [done|].
    exists (Ev (Sys_read fd 48) r :: evs), bs, buf. split_and!; [|done|done|].
    - rewrite Ht, Ht2, Ht1. simpl. by rewrite <- app_assoc.
    - unfold published in *. cbn [fmap list_fmap concat]. by rewrite Hp. }
  destruct (rres_rv r >? 0) eqn:Hpos; [|by eapply Hagain].
  rewrite (bind_ok (pmod _) _ w1 _ tt eq_refl) in Hrun. rewrite (bind_ok pget _ _ _ _ eq_refl) in Hrun.
  cbn [w_glob set_glob status_buf set_status_buf] in Hrun. destruct (is_final stop _) eqn:Hf.
  - injection Hrun as <- <-. split; [done|]. destruct r as [bs|e]; [|done]. simpl in Hpos.
    exists [], bs, (status_buf (w_glob w1)). split_and!; [exact Ht1|apply Z.gtb_lt in Hpos; lia|done|done].
  - eapply Hagain; [|exact Hrun]. done.
Qed.

Lemma command_finish_ok fuel id stop w w' ev s : daemon md s (w_glob w) -> 0 < ev ->
  is_md_command_finish fuel id stop w = (w', Ok ev) ->
  exists evs fd bs buf, w_trace w' = w_trace w ++ evs ++ [Ev (Sys_read fd 48) (RData bs)] /\
    0 < zlen bs /\ ev = event_type (bs ++ drop (length bs) buf) /\ published md evs = [] /\ is_final stop ev = true.
Proof.
  intros Hd Hev. unfold is_md_command_finish. rewrite (bind_ok pget _ _ _ _ eq_refl).
  intros (w1 & fd & Hopen & Hrun)%bind_inv.
  destruct (fun Hm => quiet_ok s _ _ _ _ Hm Hd Hopen) as (e1 & Ht1 & Hp1 & _); [quiet|].
  destruct (fd <? 0); [injection Hrun as _ ?; lia|].
  destruct (wait_event_ok _ _ _ _ _ _ Hrun) as (Hf & e2 & bs & buf & Ht2 & Hbs & Heq & Hp2).
  exists (e1 ++ e2), fd, bs, buf. split_and!; [by rewrite Ht2, Ht1, <- !app_assoc|done|done| |done].
  by rewrite published_app, Hp1, Hp2.
Qed.

(** Claim C19.  "ready" is published only with evidence.  When a start succeeds,
    the daemon published "reset" and "bootup"; then the driver accepted the
    request to start; then a read of the status channel delivered the event
    READY, before which "ready" was not published; then the driver answered that
    the modem is in the state READY; and only then was "ready" published. *)
Theorem ready_evidence s fuel fd flight first w w' :
  daemon md s (w_glob w) ->
  trigger_modem_to_run junk c2k v1 v2 fuel fd flight first w = (w', Ok 0) ->
  exists e1 r1 x e2 sfd bs buf r2 e3,
    w_trace w' = w_trace w ++ e1 ++ [Ev (Sys_ioctl fd CCCI_IOC_DO_START_MD 0) (r1, x)] ++ e2 ++
      [Ev (Sys_read sfd 48) (RData bs); Ev (Sys_ioctl fd CCCI_IOC_GET_MD_STATE MD_STATE_INVALID) (r2, MD_STATE_READY)] ++ e3 /\
    rv r1 = 0 /\ 0 < zlen bs /\ event_type (bs ++ drop (length bs) buf) = MD_STA_EV_READY /\ 0 <= rv r2 /\
    published md e1 = [lit "reset"; lit "bootup"] /\ published md e2 = [] /\ published md e3 = [lit "ready"].
Proof.
  intros Hd. unfold trigger_modem_to_run. intros (w1 & [] & H1 & Hrun)%bind_inv.
  destruct (pub_ok _ _ _ _ _ _ (pub_set junk md Hmd s CCCI_MD_STA_RESET flight ltac:(done)) Hd H1) as (p1 & l & Ht1 & Hp1 & Hd1 & ->).
  apply bind_inv in Hrun as (w2 & [] & H2 & Hrun).
  destruct (quiet_ok _ _ _ _ _ (quiet_restart junk md CCCI_MD_STA_RESET Hmd fuel fd first) Hd1 H2) as (p2 & Ht2 & Hp2 & Hd2).
  rewrite (bind_ok pget _ _ _ _ eq_refl) in Hrun. apply bind_inv in Hrun as (w3 & z & H3 & Hrun).
  destruct (quiet_ok _ _ _ _ _ (quiet_boot_data _ md c2k v1 v2 fuel _ fd) Hd2 H3) as (p3 & Ht3 & Hp3 & Hd3).
  apply bind_inv in Hrun as (w4 & [] & H4 & Hrun).
  destruct (pub_ok _ _ _ _ _ _ (pub_set junk md Hmd CCCI_MD_STA_RESET CCCI_MD_STA_BOOT_UP 0 ltac:(done)) Hd3 H4) as (p4 & l & Ht4 & Hp4 & Hd4 & ->).
  apply bind_inv in Hrun as (w5 & [r1 x] & [Ht5 Hg5]%sys_ok & Hrun).
  destruct (Z.eqb_spec (rv r1) 0) as [Hr1|]; cbn [negb] in Hrun; [|discriminate Hrun].
  rewrite (bind_ok pget _ _ _ _ eq_refl) in Hrun. apply bind_inv in Hrun as (w6 & st & H6 & Hrun).
  destruct (Z.eqb_spec st MD_STA_EV_READY) as [->|]; cbn [negb] in Hrun; [|discriminate Hrun].
  rewrite <- Hg5 in Hd4.
  destruct (command_finish_ok _ _ _ _ _ _ _ Hd4 (eq_refl : 0 < MD_STA_EV_READY) H6) as (p6 & sfd & bs & buf & Ht6 & Hbs & Hev & Hp6 & _).
  destruct (quiet_ok _ _ _ _ _ (quiet_command_finish _ md fuel _ false) Hd4 H6) as (_ & _ & _ & Hd6).
  apply bind_inv in Hrun as (w7 & [r2 cur] & [Ht7 Hg7]%sys_ok & Hrun).
  destruct (Z.ltb_spec (rv r2) 0); [discriminate Hrun|].
  destruct (Z.eqb_spec cur MD_STATE_READY) as [->|]; [|discriminate Hrun].
  apply bind_inv in Hrun as (w8 & [] & H8 & [= <-]). rewrite <- Hg7 in Hd6.
  destruct (pub_ok _ _ _ _ _ _ (pub_set junk md Hmd CCCI_MD_STA_BOOT_UP CCCI_MD_STA_BOOT_READY 0 ltac:(done)) Hd6 H8) as (p8 & l & Ht8 & Hp8 & _ & ->).
  exists (p1 ++ p2 ++ p3 ++ p4), r1, x, p6, sfd, bs, buf, r2, p8. split_and!; try done.
  - rewrite Ht8, Ht7, Ht6, Ht5, Ht4, Ht3, Ht2, Ht1. rewrite <- !app_assoc. done.
  - by rewrite !published_app, Hp1, Hp2, Hp3, Hp4.
Qed.
End Ready.

Lemma ready_evidence_witness : exists (w' : @world BootOS mdinit),
  trigger_modem_to_run (fun _ => []) false None None 100 9 0 1 (boot_world CCCI_MD_STA_INIT) = (w', Ok 0) /\
  exists e1 e2, w_trace w' = e1 ++ e2 /\ published 0 e1 = [lit "reset"; lit "bootup"] /\ published 0 e2 = [lit "ready"].
Proof.
  assert (daemon 0 CCCI_MD_STA_INIT (w_glob (boot_world CCCI_MD_STA_INIT))) as Hd by by split_and!.
  assert ((trigger_modem_to_run (fun _ => []) false None None 100 9 0 1 (boot_world CCCI_MD_STA_INIT)).2 = Ok 0) as H2
    by (vm_compute; reflexivity).
  destruct (trigger_modem_to_run (fun _ => []) false None None 100 9 0 1 (boot_world CCCI_MD_STA_INIT)) as [w' o] eqn:Hrun.
  cbn [snd] in H2. subst o. exists w'. split; [done|].
  destruct (@ready_evidence BootOS (fun _ => []) false None None 0 (or_introl eq_refl) CCCI_MD_STA_INIT
    100 9 0 1 _ w' Hd Hrun) as (e1 & r1 & x & e2 & sfd & bs & buf & r2 & e3 & Ht & _ & _ & _ & _ & Hp1 & Hp2 & Hp3).
  eexists e1, _. split; [exact Ht|]. split; [done|]. rewrite !published_app, Hp2, Hp3. reflexivity.
Defined.
