(* ===== verification/MdHandshake.v ===== *)
(** * ccci_mdinit: the rendezvous of two modems

    Modems 1 and 3 restart together: each daemon publishes "reset", waits until
    the other's property is "reset", writes "reset_start" over it, and waits for
    "reset_start" in its own.  The code of one side is an automaton over the
    accesses to the two properties ([hs_step], [rendezvous_follows]); both sides
    interleave on a shared store ([joint]).  Neither side boots before both are in
    reset, and under every fair schedule both finish - unless a side starts with a
    stale "reset" in its property. *)
From S2P Require Import Prelude Posix CcciIntf MemFs KSetting MdTypes MdEnv MdRat MdPlatform MdRelate MdDemo MdSpec.

(** ** The automaton of one side *)

(** Sides: [false] is modem 1, [true] is modem 3. *)
Definition key_of (i : bool) : list Z := if i then md3_status else md1_status.
Definition side_md (i : bool) : Z := if i then 2 else 0.

(** An access to the property of a side; a read finds the value, or none. *)
Inductive access := AGet (i : bool) (v : option (list Z)) | ASet (i : bool) (v : list Z).

Inductive pc :=
| PReset               (** about to publish "reset" *)
| PLook                (** the first loop *)
| PTell                (** about to write "reset_start" *)
| PConfirm (k : nat)   (** [wait_for_property], [S k] reads left at most *)
| PWait                (** the second loop *)
| PBoot                (** the rendezvous is over, about to publish "bootup" *)
| PDone.

(** The reads of [wait_for_property] on the way to [MAX_WAIT_FOR_PROPERTY]. *)
Definition confirm_reads : nat := 599.

Inductive hs_step (i : bool) : pc -> access -> pc -> Prop :=
| hs_reset : hs_step i PReset (ASet i (lit "reset")) PLook
| hs_absent : hs_step i PLook (AGet (negb i) None) PBoot
| hs_other_reset : hs_step i PLook (AGet (negb i) (Some (lit "reset"))) PTell
| hs_spin v : v <> lit "reset" -> hs_step i PLook (AGet (negb i) (Some v)) PLook
| hs_tell : hs_step i PTell (ASet (negb i) (lit "reset_start")) (PConfirm confirm_reads)
| hs_confirmed k : hs_step i (PConfirm k) (AGet (negb i) (Some (lit "reset_start"))) PWait
| hs_unconfirmed k v : v <> Some (lit "reset_start") -> hs_step i (PConfirm (S k)) (AGet (negb i) v) (PConfirm k)
| hs_timeout v : v <> Some (lit "reset_start") -> hs_step i (PConfirm 0) (AGet (negb i) v) PWait
| hs_gone : hs_step i PWait (AGet i None) PBoot
| hs_start : hs_step i PWait (AGet i (Some (lit "reset_start"))) PBoot
| hs_spin_this v : v <> lit "reset_start" -> hs_step i PWait (AGet i (Some v)) PWait
| hs_boot : hs_step i PBoot (ASet i (lit "bootup")) PDone.

Inductive hs_path (i : bool) : pc -> list access -> pc -> Prop :=
| path_nil p : hs_path i p [] p
| path_cons p a p' l p'' : hs_step i p a p' -> hs_path i p' l p'' -> hs_path i p (a :: l) p''.

Lemma hs_path_app i p l p' l' p'' : hs_path i p l p' -> hs_path i p' l' p'' -> hs_path i p (l ++ l') p''.
Proof. induction 1; intros H2; [done|]. simpl. eapply path_cons; [done|auto]. Qed.

(** ** The accesses of a trace *)

(** The property does not exist when the length of its value is 0. *)
Definition found (r : Z * list Z) : option (list Z) := if r.1 =? 0 then None else Some (cstring r.2).

Definition side_of (name : list Z) : option bool :=
  if streq name md1_status then Some false else if streq name md3_status then Some true else None.

Definition access1 (e : event) : list access :=
  match e with
  | @Ev T c r =>
      match c in sys T return T -> list access with
      | Sys_property_get name => fun r => match side_of name with Some i => [AGet i (found r)] | None => [] end
      | Sys_property_set name v => fun _ => match side_of name with Some i => [ASet i v] | None => [] end
      | _ => fun _ => []
      end r
  end.
Definition accesses (evs : list event) : list access := concat (access1 <$> evs).

Lemma accesses_app e1 e2 : accesses (e1 ++ e2) = accesses e1 ++ accesses e2.
Proof. unfold accesses. by rewrite fmap_app, concat_app. Qed.

Lemma accesses_none evs : Forall (fun e => access1 e = []) evs -> accesses evs = [].
Proof. induction 1 as [|e evs He _ IH]; [done|]. unfold accesses. cbn [fmap list_fmap concat]. by rewrite He. Qed.

Lemma side_of_key i : side_of (key_of i) = Some i.
Proof. by destruct i. Qed.

(** Lengths of property values are not negative. *)
Definition property_law `{OS} : Prop := forall s s' name r,
  os_do (Sys_property_get name) s = (s', r) -> 0 <= r.1.

Section Follows.
Context `{OS} (junk : Z -> list Z) (Hlaw : property_law).
Abbreviation M := (prog mdinit).
Abbreviation away := (emits (fun _ : mdinit => True) (fun e => access1 e = [])).

(** The program follows the automaton: its accesses lead from [p] to a state that
    satisfies [Q] with its result, or to any if it does not return. *)
Definition follows {A} (i : bool) (p : pc) (m : M A) (Q : A -> pc -> Prop) : Prop :=
  forall w, exists evs p', w_trace (m w).1 = w_trace w ++ evs /\ hs_path i p (accesses evs) p' /\
    match (m w).2 with Ok a => Q a p' | Halt _ => True end.

Lemma follows_ret {A} i p (a : A) (Q : A -> pc -> Prop) : Q a p -> follows i p (mret a) Q.
Proof. intros HQ w. exists [], p. rewrite app_nil_r. split_and!; [done|constructor|done]. Qed.

Lemma follows_bind {A B} i p (m : M A) (k : A -> M B) Q1 Q :
  follows i p m Q1 -> (forall a p', Q1 a p' -> follows i p' (k a) Q) -> follows i p (m ≫= k) Q.
Proof.
  intros Hm Hk w. destruct (Hm w) as (evs & p' & Ht & Hp & HQ). unfold mbind, prog_bind.
  destruct (m w) as [w1 [a|h]]; cbn [fst snd] in *; [|by exists evs, p'].
  destruct (Hk a p' HQ w1) as (evs' & p'' & Ht' & Hp' & HQ').
  exists (evs ++ evs'), p''. rewrite Ht', Ht, app_assoc, accesses_app. split_and!; [done|by eapply hs_path_app|done].
Qed.

Lemma follows_away {A} i p (m : M A) : away m -> follows i p m (fun _ p' => p' = p).
Proof.
  intros Hm w. destruct (Hm w I) as (evs & Ht & HP & _). exists evs, p. rewrite accesses_none by done.
  split_and!; [done|constructor|]. by destruct (m w).2.
Qed.

Lemma follows_then {A B} i p (m : M A) (k : A -> M B) Q :
  away m -> (forall a, follows i p (k a) Q) -> follows i p (m ≫= k) Q.
Proof. intros Hm Hk. eapply follows_bind; [by apply follows_away|]. intros a p' ->. apply Hk. Qed.

Lemma follows_halt {A} i p h (Q : A -> pc -> Prop) : follows i p (phalt h) Q.
Proof. intros w. exists [], p. rewrite app_nil_r. split_and!; [done|constructor|done]. Qed.

(** A read of a side's property: with [r = 0] there is none. *)
Lemma follows_get {B} i p j (k : Z * list Z -> M B) Q :
  (forall v, exists p', hs_step i p (AGet j v) p' /\
     match v with None => forall s, follows i p' (k (0, s)) Q
                | Some s => forall r, 0 < r -> follows i p' (k (r, s)) Q end) ->
  follows i p (property_get (key_of j) ≫= k) Q.
Proof.
  intros Hk w. destruct (os_do (Sys_property_get (key_of j)) (w_os w)) as [s [r buf]] eqn:E.
  assert (property_get (key_of j) w = (answered (Sys_property_get (key_of j)) (r, buf) s w, Ok (r, cstring buf))) as Hrun
    by (unfold property_get; by rewrite (bind_ok _ _ _ _ _ (psys_eq _ _ _ _ E))).
  rewrite (bind_ok _ _ _ _ _ Hrun). pose proof (Hlaw _ _ _ _ E) as Hr. cbn [fst] in Hr.
  assert (access1 (Ev (Sys_property_get (key_of j)) (r, buf)) = [AGet j (found (r, buf))]) as Hacc
    by (simpl; by rewrite side_of_key).
  destruct (Hk (found (r, buf))) as (p' & Hstep & Hrest).
  set (w1 := answered _ _ _ _).
  assert (follows i p' (k (r, cstring buf)) Q) as Hf.
  { unfold found in Hrest. cbn [fst snd] in Hrest. destruct (Z.eqb_spec r 0) as [->|]; [apply Hrest|apply Hrest; lia]. }
  destruct (Hf w1) as (evs & p'' & Ht & Hp & HQ). exists (Ev (Sys_property_get (key_of j)) (r, buf) :: evs), p''.
  split; [rewrite Ht; unfold w1; cbn [w_trace answered]; by rewrite <- app_assoc|]. split; [|exact HQ].
  unfold accesses. cbn [fmap list_fmap concat]. rewrite Hacc. by eapply path_cons.
Qed.

Lemma follows_set {B} i p j v p' (k : unit -> M B) Q :
  hs_step i p (ASet j v) p' -> follows i p' (k tt) Q -> follows i p (property_set (key_of j) v ≫= k) Q.
Proof.
  intros Hstep Hk w. destruct (os_do (Sys_property_set (key_of j) v) (w_os w)) as [s r] eqn:E.
  assert (property_set (key_of j) v w = (answered (Sys_property_set (key_of j) v) r s w, Ok tt)) as Hrun
    by (unfold property_set; by rewrite (bind_ok _ _ _ _ _ (psys_eq _ _ _ _ E))).
  rewrite (bind_ok _ _ _ _ _ Hrun). set (w1 := answered _ _ _ _). destruct (Hk w1) as (evs & p'' & Ht & Hp & HQ).
  exists (Ev (Sys_property_set (key_of j) v) r :: evs), p''.
  split; [rewrite Ht; unfold w1; cbn [w_trace answered]; by rewrite <- app_assoc|]. split; [|exact HQ].
  unfold accesses. cbn [fmap list_fmap concat]. simpl access1. rewrite side_of_key. by eapply path_cons.
Qed.

(** Programs that do not touch the properties of the rendezvous. *)
Lemma away_set name v : side_of name = None -> away (property_set name v).
Proof. intros Hn. unfold property_set. emit; simpl; by rewrite Hn. Qed.

Lemma away_get name : side_of name = None -> away (property_get name).
Proof. intros Hn. unfold property_get. emit; simpl; by rewrite Hn. Qed.

Lemma away_wait name d n : side_of name = None -> away (wait_loop name d n).
Proof.
  intros Hn. induction n as [|n IH]; cbn [wait_loop]; [emit|].
  apply emits_bind; [by apply away_get|]. intros [r v]. emit; try done.
Qed.

Lemma away_proxy id : away (kill_ril_proxy junk id).
Proof.
  unfold kill_ril_proxy. destruct (id =? MD_SYS1); [|emit]. apply emits_bind.
  { unfold is_factory_mode, get_sys_boot_mode. emit; try reflexivity. by apply emits_mod. }
  intros []; [emit|]. unfold rild_generation, stop_service_verified, wait_for_property.
  repeat first [apply away_wait; reflexivity | apply away_set; reflexivity | emit_step | solve [auto with cfs] | reflexivity].
Qed.

Lemma follows_confirm i n : (0 < n)%nat ->
  follows i (PConfirm (pred n)) (wait_loop (key_of (negb i)) (Some (lit "reset_start")) n) (fun _ p => p = PWait).
Proof.
  intros Hn. destruct n as [|n]; [lia|]. clear Hn. cbn [Nat.pred]. induction n as [|n IH]; cbn [wait_loop].
  - apply follows_get. intros [v|].
    + destruct (decide (v = lit "reset_start")) as [->|Hv].
      * exists PWait. split; [constructor|]. intros r Hr. unfold streq. rewrite bool_decide_eq_true_2 by done.
        rewrite (proj2 (Z.gtb_lt _ _)) by done. by apply follows_ret.
      * exists PWait. split; [apply hs_timeout; congruence|]. intros r Hr. unfold streq.
        rewrite bool_decide_eq_false_2, andb_false_r by done. apply follows_then; [by emit|]. intros _. by apply follows_ret.
    + exists PWait. split; [by apply hs_timeout|]. intros s. cbn [Z.gtb Z.compare andb].
      apply follows_then; [by emit|]. intros _. by apply follows_ret.
  - cbn [wait_loop] in IH. apply follows_get. intros [v|].
    + destruct (decide (v = lit "reset_start")) as [->|Hv].
      * exists PWait. split; [constructor|]. intros r Hr. unfold streq. rewrite bool_decide_eq_true_2 by done.
        rewrite (proj2 (Z.gtb_lt _ _)) by done. by apply follows_ret.
      * exists (PConfirm n). split; [apply hs_unconfirmed; congruence|]. intros r Hr. unfold streq.
        rewrite bool_decide_eq_false_2, andb_false_r by done. apply follows_then; [by emit|]. intros _. exact IH.
    + exists (PConfirm n). split; [by apply hs_unconfirmed|]. intros s. cbn [Z.gtb Z.compare andb].
      apply follows_then; [by emit|]. intros _. exact IH.
Qed.

Lemma follows_other i fuel fd :
  follows i PLook (wait_other_reset junk fuel fd (side_md i) (key_of (negb i)))
    (fun ok p => p = if ok then PWait else PBoot).
Proof.
  induction fuel as [|fuel IH]; cbn [wait_other_reset]; [apply follows_halt|].
  apply follows_get. intros [v|].
  - destruct (decide (v = lit "reset")) as [->|Hv].
    + exists PTell. split; [constructor|]. intros r Hr. rewrite (proj2 (Z.eqb_neq _ _)) by lia.
      unfold streq. rewrite bool_decide_eq_true_2 by done.
      apply follows_then; [unfold pwhen; emit; reflexivity|]. intros _.
      eapply follows_set; [constructor|]. eapply follows_bind; [apply (follows_confirm i 600); lia|].
      intros _ p ->. by apply follows_ret.
    + exists PLook. split; [by constructor|]. intros r Hr. rewrite (proj2 (Z.eqb_neq _ _)) by lia.
      unfold streq. rewrite bool_decide_eq_false_2 by done. apply follows_then; [by emit|]. intros _. exact IH.
  - exists PBoot. split; [constructor|]. intros s. cbn [Z.eqb]. apply follows_then; [apply away_proxy|].
    intros _. by apply follows_ret.
Qed.

Lemma follows_this i fuel : follows i PWait (wait_this_start fuel (key_of i)) (fun _ p => p = PBoot).
Proof.
  induction fuel as [|fuel IH]; cbn [wait_this_start]; [apply follows_halt|].
  apply follows_get. intros [v|].
  - destruct (decide (v = lit "reset_start")) as [->|Hv].
    + exists PBoot. split; [constructor|]. intros r Hr. rewrite (proj2 (Z.eqb_neq _ _)) by lia.
      unfold streq. rewrite bool_decide_eq_true_2 by done. by apply follows_ret.
    + exists PWait. split; [by constructor|]. intros r Hr. rewrite (proj2 (Z.eqb_neq _ _)) by lia.
      unfold streq. rewrite bool_decide_eq_false_2 by done. apply follows_then; [by emit|]. intros _. exact IH.
  - exists PBoot. split; [constructor|]. intros s. by apply follows_ret.
Qed.

(** Claim C13.  The code of the rendezvous follows the automaton.  In any
    environment, the reads and writes it makes of the two properties are a path of
    the automaton from the first loop on, to its end when the code returns. *)
Theorem rendezvous_follows i fuel fd w :
  exists evs p, w_trace (rendezvous junk fuel fd (side_md i) (key_of i) (key_of (negb i)) w).1 = w_trace w ++ evs /\
    hs_path i PLook (accesses evs) p /\
    match (rendezvous junk fuel fd (side_md i) (key_of i) (key_of (negb i)) w).2 with
    | Ok _ => p = PBoot
    | Halt _ => True
    end.
Proof.
  enough (follows i PLook (rendezvous junk fuel fd (side_md i) (key_of i) (key_of (negb i))) (fun _ p => p = PBoot)) as Hf
    by exact (Hf w).
  unfold rendezvous. eapply follows_bind; [apply follows_other|]. intros [] p ->; [|by apply follows_ret].
  eapply follows_bind; [apply follows_this|]. intros [] p ->; [|by apply follows_ret].
  apply follows_away, away_proxy.
Qed.
End Follows.

(** ** Both sides on a shared store *)

Definition store : Type := bool -> option (list Z).

Definition put (i : bool) (v : list Z) (st : store) : store := fun j => if Bool.eqb i j then Some v else st j.

(** An access is possible in a store and leaves a store. *)
Inductive acc_ok (st : store) : access -> store -> Prop :=
| ok_get i : acc_ok st (AGet i (st i)) st
| ok_set i v : acc_ok st (ASet i v) (put i v st).

Record joint := Joint { pcs : bool -> pc; st : store }.

Definition set_pc (i : bool) (p : pc) (f : bool -> pc) : bool -> pc := fun j => if Bool.eqb i j then p else f j.

(** A step of side [i]; a side that is done stays. *)
Inductive joint_step (i : bool) : joint -> joint -> Prop :=
| step_access f s a p' s' : hs_step i (f i) a p' -> acc_ok s a s' -> joint_step i (Joint f s) (Joint (set_pc i p' f) s')
| step_done f s : f i = PDone -> joint_step i (Joint f s) (Joint f s).

(** An execution under a schedule. *)
Definition execution (sched : nat -> bool) (x : nat -> joint) : Prop := forall n, joint_step (sched n) (x n) (x (S n)).

Definition fair (sched : nat -> bool) : Prop := forall i n, exists m, (n <= m)%nat /\ sched m = i.

Definition both_done (x : joint) : Prop := pcs x false = PDone /\ pcs x true = PDone.

(** Both sides about to publish "reset", with properties that exist and are not
    "reset" yet. *)
Definition fresh (x : joint) : Prop := forall i, pcs x i = PReset /\
  exists v, st x i = Some v /\ v <> lit "reset".

(** ** The invariant *)

(** The side has told the other to go on. *)
Definition told (p : pc) : bool := match p with PConfirm _ | PWait | PBoot | PDone => true | _ => false end.

(** The property of a side at [p], when the other is at [q]. *)
Definition side_inv (p q : pc) (v : option (list Z)) : Prop :=
  match p with
  | PReset => exists u, v = Some u /\ u <> lit "reset"
  | PLook => v = Some (if told q then lit "reset_start" else lit "reset")
  | PTell | PConfirm _ | PWait => v = Some (if told q then lit "reset_start" else lit "reset") /\ q <> PReset
  | PBoot => v = Some (lit "reset_start") /\ told q = true
  | PDone => v = Some (lit "bootup") /\ told q = true
  end.

Definition joint_inv (x : joint) : Prop := forall i, side_inv (pcs x i) (pcs x (negb i)) (st x i).

Lemma set_pc_eq i p f : set_pc i p f i = p.
Proof. unfold set_pc. by rewrite Bool.eqb_reflx. Qed.
Lemma set_pc_neq i p f : set_pc i p f (negb i) = f (negb i).
Proof. unfold set_pc. by destruct i. Qed.
Lemma put_eq i v s : put i v s i = Some v.
Proof. unfold put. by rewrite Bool.eqb_reflx. Qed.
Lemma put_neq i v s : put i v s (negb i) = s (negb i).
Proof. unfold put. by destruct i. Qed.
Lemma put_neq' i v s : put (negb i) v s i = s i.
Proof. unfold put. by destruct i. Qed.

Lemma reset_start_ne : lit "reset_start" <> lit "reset".
Proof. vm_compute. discriminate. Qed.
Lemma bootup_ne : lit "bootup" <> lit "reset".
Proof. vm_compute. discriminate. Qed.

Lemma side_step i f s a p' s' :
  side_inv (f i) (f (negb i)) (s i) -> side_inv (f (negb i)) (f i) (s (negb i)) ->
  hs_step i (f i) a p' -> acc_ok s a s' ->
  side_inv p' (f (negb i)) (s' i) /\ side_inv (f (negb i)) p' (s' (negb i)).
Proof.
  intros Hi Hj Hstep Hacc. pose proof reset_start_ne as Hne. pose proof bootup_ne as Hne2.
  generalize dependent (f (negb i)). generalize dependent (f i). intros p Hstep q Hi Hj.
  destruct Hstep; inversion Hacc; subst; rewrite ?put_eq, ?put_neq, ?put_neq'; cbn [side_inv told] in *.
  all: destruct q; cbn [side_inv told] in *;
    set (rs := lit "reset_start") in *; set (re := lit "reset") in *; set (bo := lit "bootup") in *; clearbody rs re bo;
    repeat match goal with H : _ /\ _ |- _ => destruct H | H : exists _, _ |- _ => destruct H end;
    split_and!; eauto; try congruence.
Qed.

Lemma joint_inv_step i x y : joint_inv x -> joint_step i x y -> joint_inv y.
Proof.
  intros Hx Hstep. destruct Hstep as [f s a p' s' Hstep Hacc|f s Hf]; [|done].
  pose proof (Hx i) as Hi. pose proof (Hx (negb i)) as Hj. cbn [pcs st] in Hi, Hj. rewrite negb_involutive in Hj.
  destruct (side_step i f s a p' s' Hi Hj Hstep Hacc) as [Hi' Hj'].
  intros j. cbn [pcs st]. destruct (Bool.bool_dec j i) as [->|Hne].
  - by rewrite set_pc_eq, set_pc_neq.
  - assert (j = negb i) as -> by (by destruct i, j). by rewrite negb_involutive, set_pc_eq, set_pc_neq.
Qed.

Lemma fresh_inv x : fresh x -> joint_inv x.
Proof. intros Hf i. destruct (Hf i) as [-> Hv]. exact Hv. Qed.

Lemma execution_inv sched x : execution sched x -> joint_inv (x O) -> forall n, joint_inv (x n).
Proof. intros Hx H0 n. induction n as [|n IH]; [done|]. by eapply joint_inv_step. Qed.

(** ** Progress *)

Definition rank (p : pc) : nat :=
  match p with PReset => 606 | PLook => 605 | PTell => 604 | PConfirm k => 3 + k | PWait => 2 | PBoot => 1 | PDone => 0 end.
Definition measure (x : joint) : nat := rank (pcs x false) + rank (pcs x true).

(** States that differ in nothing observable. *)
Definition same (x y : joint) : Prop := forall i, pcs x i = pcs y i /\ st x i = st y i.

#[export] Instance same_equiv : Equivalence same.
Proof.
  split; [by intros x i|intros x y Hxy i; by destruct (Hxy i)|].
  intros x y z Hxy Hyz i. destruct (Hxy i) as [-> ->]. apply Hyz.
Qed.

#[export] Instance measure_proper : Proper (same ==> eq) measure.
Proof. intros x y Hxy. unfold measure. by rewrite (proj1 (Hxy false)), (proj1 (Hxy true)). Qed.

(** The next step of the side is not a turn of a waiting loop. *)
Definition moves (i : bool) (x : joint) : Prop :=
  match pcs x i with
  | PLook => forall v, st x (negb i) = Some v -> v = lit "reset"
  | PWait => forall v, st x i = Some v -> v = lit "reset_start"
  | PDone => False
  | _ => True
  end.

#[export] Instance moves_proper i : Proper (same ==> iff) (moves i).
Proof.
  intros x y Hxy. unfold moves. rewrite (proj1 (Hxy i)), (proj2 (Hxy i)), (proj2 (Hxy (negb i))). done.
Qed.

Lemma measure_set_pc i p f s s' :
  (measure (Joint (set_pc i p f) s') + rank (f i) = measure (Joint f s) + rank p)%nat.
Proof. unfold measure, set_pc. destruct i; cbn [pcs Bool.eqb]; lia. Qed.

Lemma step_measure i x y : joint_step i x y -> (measure y < measure x)%nat \/ same x y /\ ~ moves i x.
Proof.
  intros Hstep. destruct Hstep as [f s a p' s' Hstep Hacc|f s Hf].
  - pose proof (measure_set_pc i p' f s s') as Hm.
    assert ((rank p' < rank (f i))%nat \/ p' = f i /\ (forall j, s' j = s j) /\ ~ moves i (Joint f s)) as [Hlt|(-> & Hs & Hmv)].
    { unfold moves. cbn [pcs st]. clear Hm. generalize dependent (f i). intros p Hstep.
      destruct Hstep; cbn [rank]; unfold confirm_reads in *; try (left; lia);
        right; inversion Hacc; subst; (split; [done|split; [done|]]); intros Hall; match goal with H : ?v <> _ |- _ => apply H; by apply Hall end. }
    + left. lia.
    + right. split; [|done]. intros j. cbn [pcs st]. rewrite Hs. unfold set_pc.
      destruct (Bool.eqb i j) eqn:E; [|done]. apply Bool.eqb_prop in E. by subst.
  - right. split; [done|]. unfold moves. cbn [pcs]. rewrite Hf. by intros [].
Qed.

Lemma progress x : joint_inv x -> ~ both_done x -> exists i, moves i x.
Proof.
  intros Hx Hnd. pose proof (Hx false) as H1. pose proof (Hx true) as H3. cbn [negb] in H1, H3.
  unfold both_done in Hnd. unfold moves.
  destruct (pcs x false) eqn:E1; try (by exists false; rewrite E1);
  destruct (pcs x true) eqn:E3; try (by exists true; rewrite E3);
  cbn [side_inv told] in H1, H3;
    first [ exists false; rewrite E1; cbn [negb]; intros v; congruence
          | exists true; rewrite E3; cbn [negb]; intros v; intuition congruence
          | exists false; rewrite E1; cbn [negb]; intros v; intuition congruence
          | exfalso; intuition congruence ].
Qed.

Lemma soon sched x i : execution sched x -> forall d n, sched (n + d)%nat = i -> moves i (x n) ->
  exists m, (n < m)%nat /\ (measure (x m) < measure (x n))%nat.
Proof.
  intros Hx d. induction d as [|d IH]; intros n Hs Hm.
  - rewrite Nat.add_0_r in Hs. destruct (step_measure _ _ _ (Hx n)) as [Hlt|[_ Hno]]; [exists (S n); split; [lia|done]|].
    by rewrite Hs in Hno.
  - destruct (step_measure _ _ _ (Hx n)) as [Hlt|[Hsame _]]; [exists (S n); split; [lia|done]|].
    destruct (IH (S n)) as (m & Hnm & Hlt); [by rewrite Nat.add_succ_comm|by rewrite <- Hsame|].
    exists m. split; [lia|]. by rewrite Hsame.
Qed.

(** Claim C9.  The rendezvous ends.  Two daemons that restart their modems, with
    properties that exist and hold no "reset" from before, both get through,
    under every schedule that lets each of them run again and again. *)
Theorem rendezvous_live sched x :
  execution sched x -> fair sched -> fresh (x O) -> exists n, both_done (x n).
Proof.
  intros Hx Hfair Hfresh. pose proof (execution_inv _ _ Hx (fresh_inv _ Hfresh)) as Hinv.
  enough (forall k n, (measure (x n) <= k)%nat -> exists n, both_done (x n)) as Hall by by apply (Hall (measure (x O)) O).
  induction k as [|k IH]; intros n Hk.
  - exists n. unfold both_done, measure in *.
    destruct (pcs (x n) false), (pcs (x n) true); cbn [rank] in Hk; try lia; done.
  - destruct (decide (measure (x n) = 0%nat)) as [Hz|Hz].
    { apply (IH n). lia. }
    assert (~ both_done (x n)) as Hnd by (intros [H1 H3]; apply Hz; unfold measure; by rewrite H1, H3).
    destruct (progress _ (Hinv n) Hnd) as [i Hi]. destruct (Hfair i n) as (m & Hnm & Hs).
    destruct (soon sched x i Hx (m - n) n) as (m' & _ & Hlt); [by replace (n + (m - n))%nat with m by lia|done|].
    apply (IH m'). lia.
Qed.

(** ** Safety *)

Definition both_reset (x : joint) : Prop := forall i, st x i = Some (lit "reset").

(** The side has not left the first loop. *)
Definition early (p : pc) : bool := match p with PReset | PLook => true | _ => false end.

Lemma early_step i x y : joint_inv x -> joint_step i x y -> (forall j, early (pcs x j) = true) ->
  both_reset x \/ forall j, early (pcs y j) = true.
Proof.
  intros Hinv Hstep Hearly. destruct Hstep as [f s a p' s' Hs Hacc|f s Hf]; [|by right]. cbn [pcs] in Hearly.
  pose proof (Hinv i) as Hi. pose proof (Hinv (negb i)) as Hj. rewrite negb_involutive in Hj. cbn [pcs st] in Hi, Hj.
  pose proof (Hearly i) as Hei. pose proof (Hearly (negb i)) as Hej.
  enough (both_reset (Joint f s) \/ early p' = true) as [Hr|Hp]; [by left| |].
  - right. intros j. cbn [pcs]. unfold set_pc. destruct (Bool.eqb i j) eqn:E; [done|by apply Hearly].
  - destruct (f i) eqn:Ei; try done; inversion Hs; subst; auto.
    + exfalso. inversion Hacc; subst. destruct (f (negb i)); try done; cbn [side_inv] in Hj; [destruct Hj as (? & ? & _)|]; congruence.
    + left. inversion Hacc; subst. destruct (f (negb i)); try done; cbn [side_inv told] in Hi; intros j;
        (destruct (Bool.bool_dec j i) as [->|Hne]; [done|by replace j with (negb i) by (by destruct i, j)]).
Qed.

(** Claim C27.  Neither modem boots alone.  In every execution from such a start,
    under any schedule, before a side is through there was a moment at which both
    properties held "reset". *)
Theorem rendezvous_safe sched x :
  execution sched x -> fresh (x O) ->
  forall n i, pcs (x n) i = PBoot \/ pcs (x n) i = PDone -> exists m, (m < n)%nat /\ both_reset (x m).
Proof.
  intros Hx Hfresh. pose proof (execution_inv _ _ Hx (fresh_inv _ Hfresh)) as Hinv.
  assert (forall n, (exists m, (m < n)%nat /\ both_reset (x m)) \/ forall j, early (pcs (x n) j) = true) as Hall.
  { induction n as [|n [(m & Hm & Hr)|IH]]; [right; intros j; by rewrite (proj1 (Hfresh j))|left; exists m; auto with lia|].
    destruct (early_step _ _ _ (Hinv n) (Hx n) IH) as [Hr|He]; [left; exists n; auto with lia|by right]. }
  intros n i Hover. destruct (Hall n) as [|He]; [done|]. specialize (He i). by destruct Hover as [Hp|Hp]; rewrite Hp in He.
Qed.

Lemma set_pc_neq' i p f : set_pc (negb i) p f i = f i.
Proof. unfold set_pc. by destruct i. Qed.

(** ** The step of a side as a function *)

Definition joint_next (i : bool) (x : joint) : joint :=
  let go p := Joint (set_pc i p (pcs x)) (st x) in
  match pcs x i with
  | PReset => Joint (set_pc i PLook (pcs x)) (put i (lit "reset") (st x))
  | PLook => go (match st x (negb i) with
                 | None => PBoot
                 | Some v => if decide (v = lit "reset") then PTell else PLook
                 end)
  | PTell => Joint (set_pc i (PConfirm confirm_reads) (pcs x)) (put (negb i) (lit "reset_start") (st x))
  | PConfirm k => go (if decide (st x (negb i) = Some (lit "reset_start")) then PWait
                      else match k with O => PWait | S k' => PConfirm k' end)
  | PWait => go (match st x i with
                 | None => PBoot
                 | Some v => if decide (v = lit "reset_start") then PBoot else PWait
                 end)
  | PBoot => Joint (set_pc i PDone (pcs x)) (put i (lit "bootup") (st x))
  | PDone => x
  end.

Lemma joint_next_step i x : joint_step i x (joint_next i x).
Proof.
  destruct x as [f s]. unfold joint_next. cbn [pcs st].
  assert (forall p' j, hs_step i (f i) (AGet j (s j)) p' -> joint_step i (Joint f s) (Joint (set_pc i p' f) s)) as Hget
    by (intros; eapply step_access; [done|constructor]).
  assert (forall p' j v, hs_step i (f i) (ASet j v) p' -> joint_step i (Joint f s) (Joint (set_pc i p' f) (put j v s))) as Hset
    by (intros; eapply step_access; [done|constructor]).
  destruct (f i) eqn:Ei; try (by apply step_done); try (apply Hset; constructor).
  - apply (Hget _ (negb i)). destruct (s (negb i)) as [v|]; [|constructor]. destruct (decide _) as [->|]; by constructor.
  - apply (Hget _ (negb i)). destruct (decide _) as [->|]; [constructor|]. destruct k; by constructor.
  - apply (Hget _ i). destruct (s i) as [v|]; [|constructor]. destruct (decide _) as [->|]; by constructor.
Qed.

Lemma joint_step_next i x y : joint_step i x y -> y = joint_next i x.
Proof.
  intros Hstep. destruct Hstep as [f s a p' s' Hs Hacc|f s Hf]; unfold joint_next; cbn [pcs st]; [|by rewrite Hf].
  remember (f i) as p eqn:Ep. clear Ep. destruct Hs; inversion Hacc; subst; try done;
    repeat first [rewrite decide_True by congruence | rewrite decide_False by congruence | case_match; simplify_eq/=]; done.
Qed.

#[export] Instance joint_next_proper i : Proper (same ==> same) (joint_next i).
Proof.
  intros x y Hxy. assert (forall j, pcs x j = pcs y j) as Hp by (intros j; apply Hxy).
  assert (forall j, st x j = st y j) as Hs by (intros j; apply Hxy).
  unfold joint_next. rewrite !Hp, !Hs. destruct (pcs y i); try exact Hxy;
    intros j; cbn [pcs st]; unfold set_pc, put; rewrite ?Hp, ?Hs; done.
Qed.

(** The states under a schedule. *)
Fixpoint joint_run (l : list bool) (x : joint) : joint :=
  match l with [] => x | i :: l => joint_run l (joint_next i x) end.

#[export] Instance joint_run_proper l : Proper (same ==> same) (joint_run l).
Proof. induction l as [|i l IH]; intros x y Hxy; cbn [joint_run]; [done|]. apply IH. by rewrite Hxy. Qed.

Lemma execution_run sched x l n : execution sched x -> (forall k i, l !! k = Some i -> sched (n + k)%nat = i) ->
  x (n + length l)%nat = joint_run l (x n).
Proof.
  intros Hx. revert n. induction l as [|i l IH]; intros n Hl; cbn [length joint_run]; [by rewrite Nat.add_0_r|].
  rewrite <- Nat.add_succ_comm, IH; [|intros k j Hk; rewrite Nat.add_succ_comm; by apply Hl].
  rewrite (joint_step_next _ _ _ (Hx n)). pose proof (Hl O i eq_refl) as Hs. rewrite Nat.add_0_r in Hs. by rewrite Hs.
Qed.

(** ** A stale "reset" *)

Definition stale (j : bool) (x : joint) : Prop := (forall i, pcs x i = PReset) /\ st x j = Some (lit "reset").

(** Side [j] waits for a "reset_start" nobody will write. *)
Definition stuck (j : bool) (x : joint) : Prop :=
  pcs x j = PWait /\ st x j = Some (lit "reset") /\
  match pcs x (negb j) with PWait | PBoot | PDone => True | _ => False end.

Lemma stuck_step i j x : stuck j x -> stuck j (joint_next i x).
Proof.
  intros (Hp & Hs & Hq). unfold stuck, joint_next.
  destruct (Bool.bool_dec i j) as [->|Hne].
  - rewrite Hp, Hs, decide_False by exact (not_eq_sym reset_start_ne). cbn [pcs st]. by rewrite set_pc_eq, set_pc_neq.
  - assert (i = negb j) as -> by (by destruct i, j).
    rewrite !negb_involutive. destruct (pcs x (negb j)) eqn:Eq; try done; cbn [pcs st].
    + rewrite set_pc_eq, set_pc_neq'. split_and!; [done|done|]. by repeat case_match.
    + by rewrite set_pc_eq, set_pc_neq', put_neq'.
    + by rewrite Eq.
Qed.

(** Claim C39.  A "reset" left from before blocks a modem for ever.  When both
    modems restart while the property of one still holds "reset" (its daemon
    stopped inside the rendezvous), the other may run first: it sees that "reset"
    and writes "reset_start" over it, and the daemon that starts late writes "reset"
    over that.  From there on it stays in its second loop, in every execution. *)
Theorem rendezvous_stale j sched x :
  execution sched x -> stale j (x O) ->
  (forall k, (k < 8)%nat -> sched k = if decide (k < 4)%nat then negb j else j) ->
  forall n, (8 <= n)%nat -> pcs (x n) j = PWait.
Proof.
  intros Hx [Hp Hs] Hsched.
  set (l := [negb j; negb j; negb j; negb j; j; j; j; j]).
  set (y := Joint (fun _ => PReset) (fun i => if Bool.eqb i j then Some (lit "reset") else st (x O) (negb j))).
  assert (same (x O) y) as Hy.
  { intros i. unfold y. cbn [pcs st]. split; [done|]. destruct (Bool.bool_dec i j) as [->|Hne]; [by rewrite Bool.eqb_reflx|].
    by replace i with (negb j) by (by destruct i, j); destruct j. }
  assert (stuck j (x 8%nat)) as H8.
  { change 8%nat with (0 + length l)%nat. rewrite (execution_run sched x l 0 Hx).
    - pose proof (joint_run_proper l _ _ Hy) as Hsame. unfold stuck.
      rewrite (proj1 (Hsame j)), (proj2 (Hsame j)), (proj1 (Hsame (negb j))).
      subst l y. destruct j; vm_compute; done.
    - intros k i Hk. pose proof (lookup_lt_Some _ _ _ Hk) as Hlt. cbn [length l] in Hlt.
      rewrite Nat.add_0_l, Hsched by exact Hlt. do 8 (destruct k as [|k]; [by inversion Hk|]). simpl in Hlt. lia. }
  intros n Hn. replace n with (8 + (n - 8))%nat by lia. generalize (n - 8)%nat as d. intros d.
  enough (stuck j (x (8 + d)%nat)) as [? _] by done. induction d as [|d IH]; [by rewrite Nat.add_0_r|].
  rewrite <- plus_n_Sm, (joint_step_next _ _ _ (Hx _)). by apply stuck_step.
Qed.

(** ** Witnesses *)

(** The states of the execution under a schedule. *)
Fixpoint joint_exec (sched : nat -> bool) (x : joint) (n : nat) : joint :=
  match n with O => x | S n' => joint_next (sched n') (joint_exec sched x n') end.

Lemma joint_exec_execution sched x : execution sched (joint_exec sched x).
Proof. intros n. apply joint_next_step. Qed.

Lemma odd_fair : fair Nat.odd.
Proof.
  intros i n. destruct (Bool.bool_dec (Nat.odd n) i) as [Hi|Hi]; [by exists n|].
  exists (S n). split; [lia|]. rewrite Nat.odd_succ, <- Nat.negb_odd. by destruct (Nat.odd n), i.
Qed.

Definition restart : joint := Joint (fun _ => PReset) (fun _ => Some (lit "bootup")).

Lemma restart_fresh : fresh restart.
Proof. intros i. split; [done|]. exists (lit "bootup"). split; [done|apply bootup_ne]. Qed.

Lemma boot_property_law : @property_law BootOS.
Proof.
  intros s s' name r E. cbn in E. unfold memfs_do, ok in E. case_match; simplify_eq/=; unfold zlen; lia.
Qed.

Lemma rendezvous_follows_witness :
  exists evs p,
    w_trace (@rendezvous BootOS (fun n => replicate (Z.to_nat n) 0) 8 3 2 md3_status md1_status (boot_world 0)).1 = evs /\
    hs_path true PLook (accesses evs) p.
Proof.
  destruct (@rendezvous_follows BootOS (fun n => replicate (Z.to_nat n) 0) boot_property_law true 8 3 (boot_world 0))
    as (evs & p & Ht & Hp & _).
  exists evs, p. split; [exact Ht|exact Hp].
Defined.

Lemma rendezvous_live_witness : exists n, both_done (joint_exec Nat.odd restart n).
Proof. apply (rendezvous_live Nat.odd); [apply joint_exec_execution|apply odd_fair|apply restart_fresh]. Defined.

Lemma rendezvous_safe_witness :
  pcs (joint_exec Nat.odd restart 16) true = PDone /\ exists m, (m < 16)%nat /\ both_reset (joint_exec Nat.odd restart m).
Proof.
  split; [by vm_compute|].
  apply (rendezvous_safe Nat.odd (joint_exec Nat.odd restart) (joint_exec_execution _ _) restart_fresh 16 true).
  right. by vm_compute.
Defined.

Lemma rendezvous_stale_witness :
  pcs (joint_exec (fun n => (4 <=? n)%nat) (Joint (fun _ => PReset) (fun _ => Some (lit "reset"))) 100) true = PWait.
Proof.
  apply (rendezvous_stale true (fun n => (4 <=? n)%nat) _ (joint_exec_execution _ _)); [done| |lia].
  intros k Hk. do 8 (destruct k as [|k]; [done|]). lia.
Defined.
