(* ===== verification/MdV1Spec.v ===== *)
(** * ccci_mdinit: the earlier state machine follows its table

    The specification of platform/md_init.c: a table of transitions
    ([v1_arrows]) and the rule of the flag that has one time-out message ignored
    ([v1_flag]).  Whatever the environment answers, a round of the daemon goes
    the way of the table and publishes the state it goes to, nothing else
    ([v1_refines]). *)
From S2P Require Import Prelude Posix CcciIntf MemFs CcbTypes CcbRing CcbSetup KSetting MdTypes MdEnv MdRat MdPlatform MdRelate MdV1 MdFsm MdDemo MdQuiet.

(** ** The specification *)

(** From a state, on a message, to a state. *)
Definition v1_arrows : list (Z * Z * Z) := [
  (V1_STA_BOOT_READY, V1_MSG_RESET, V1_STA_WAIT_SRV_RDY_TO_RST);
  (V1_STA_BOOT_READY, V1_MSG_STOP_MD_REQUEST, V1_STA_WAIT_SRV_RDY_TO_STOP);
  (V1_STA_BOOT_READY, V1_MSG_ENTER_FLIGHT_MODE, V1_STA_FLIGHT_MODE);
  (V1_STA_BOOT_UP, V1_MSG_BOOT_READY, V1_STA_BOOT_READY);
  (V1_STA_BOOT_UP, V1_MSG_RESET, V1_STA_WAIT_SRV_RDY_TO_RST);
  (V1_STA_BOOT_UP, V1_MSG_BOOT_TIMEOUT, V1_STA_WAIT_SRV_RDY_TO_RST);
  (V1_STA_BOOT_UP, V1_MSG_STOP_MD_REQUEST, V1_STA_WAIT_SRV_RDY_TO_STOP);
  (V1_STA_RESET, V1_MSG_BOOT_UP, V1_STA_BOOT_UP);
  (V1_STA_RESET, V1_MSG_STOP_MD_REQUEST, V1_STA_WAIT_SRV_RDY_TO_STOP);
  (V1_STA_WAIT_SRV_RDY_TO_RST, V1_MSG_READY_TO_RESET, V1_STA_RESET);
  (V1_STA_WAIT_SRV_RDY_TO_RST, V1_MSG_STOP_MD_REQUEST, V1_STA_STOP);
  (V1_STA_WAIT_SRV_RDY_TO_STOP, V1_MSG_READY_TO_RESET, V1_STA_STOP);
  (V1_STA_STOP, V1_MSG_RESET, V1_STA_RESET);
  (V1_STA_STOP, V1_MSG_START_MD_REQUEST, V1_STA_RESET);
  (V1_STA_FLIGHT_MODE, V1_MSG_LEAVE_FLIGHT_MODE, V1_STA_WAIT_SRV_RDY_TO_RST) ].

Definition arrow (l : list (Z * Z * Z)) (s msg : Z) : list Z :=
  foldr (fun '(s', m, t) rest => if (s =? s') && (msg =? m) then [t] else rest) [] l.

(** The states a message leads to: one or none.  An exception of a debug build
    has the next time-out ignored. *)
Definition v1_goto (s ignore msg : Z) : list Z :=
  if (msg =? V1_MSG_BOOT_TIMEOUT) && negb (ignore =? 0) then [] else arrow v1_arrows s msg.

Definition v1_flag (info s ignore msg : Z) : Z :=
  if (s =? V1_STA_BOOT_UP) || (s =? V1_STA_RESET) then
    if msg =? V1_MSG_BOOT_TIMEOUT then 0
    else if (msg =? V1_MSG_EXCEPTION) && (info =? MD_IS_DEBUG_VERSION) then 1 else ignore
  else ignore.

(** The daemon of the modem [md], built as [info] says, in the state [s]. *)
Definition v1_daemon (md info s ignore : Z) (g : mdinit) : Prop :=
  v1_md_id (v1 g) = md /\ v1_gotten_md_info (v1 g) = info /\ v1_state (v1 g) = s /\ v1_ignore_time_out_msg (v1 g) = ignore.

#[export] Instance v1_daemon_inert md info s ignore : Inert (v1_daemon md info s ignore).
Proof. intros g g' [= _ _ _ _ E] (? & ? & ? & ?). unfold v1_daemon. rewrite <- E. by split_and!. Qed.
#[export] Hint Resolve v1_daemon_inert : quiet.

(** ** Quiet programs *)

Section Quiet.
Context `{OS}.
Context (junk : Z -> list Z) (md info s ignore : Z) (Hmd : md_pair md).
Abbreviation M := (prog mdinit).
Abbreviation I := (v1_daemon md info s ignore).
Abbreviation quiet_ := (emits I (fun e => published1 md e = [])).

(** The variables beside the state. *)
Lemma quiet_v1_mod f :
  (forall v, v1_md_id (f v) = v1_md_id v /\ v1_gotten_md_info (f v) = v1_gotten_md_info v /\
     v1_state (f v) = v1_state v /\ v1_ignore_time_out_msg (f v) = v1_ignore_time_out_msg v) -> quiet_ (v1_mod f).
Proof.
  intros Hf. apply emits_mod. intros g (? & ? & ? & ?). destruct (Hf (v1 g)) as (? & ? & ? & ?).
  unfold v1_daemon. cbn [v1 set_v1]. split_and!; congruence.
Qed.

Lemma quiet_v1_get : quiet_ v1_get.
Proof. unfold v1_get. quiet. Qed.
Hint Resolve quiet_v1_get : quiet.

Ltac q1 := repeat first
  [ solve [auto with cfs quiet nocore]
  | lazymatch goal with
    | |- emits _ _ (v1_mod _) => apply quiet_v1_mod; intros ?; by split_and!
    | |- emits _ _ (property_set ?n _) => apply quiet_lit; [assumption|vm_compute; reflexivity]
    end
  | quiet_step ]; try reflexivity.

Lemma quiet_proxy_v1 id : quiet_ (stop_ril_proxy_v1 id).
Proof. unfold stop_ril_proxy_v1. q1. Qed.
Hint Resolve quiet_proxy_v1 : quiet.

Lemma quiet_wait_other_v1 fuel id : quiet_ (wait_other_reset_v1 fuel id (other_key md)).
Proof. induction fuel as [|fuel IH]; cbn [wait_other_reset_v1]; q1. Qed.
Hint Resolve quiet_wait_other_v1 : quiet.

Lemma quiet_v1_bind {B} (k : md_v1 -> M B) : (forall v, v1_md_id v = md -> quiet_ (k v)) -> quiet_ (v1_get ≫= k).
Proof. intros Hk w Hw. exact (Hk (v1 (w_glob w)) (proj1 Hw) w Hw). Qed.

Lemma quiet_restart_v1 fuel : quiet_ (check_to_restart_md junk fuel).
Proof.
  unfold check_to_restart_md. apply quiet_v1_bind. intros v ->.
  assert ((if md =? MD_SYS1 then (md1_status, md3_status)
           else if md =? MD_SYS3 then (md3_status, md1_status)
           else (cstring (take 32 (junk 32)), cstring (take 32 (junk 32)))) =
          (if md =? MD_SYS1 then md1_status else md3_status, other_key md)) as ->
    by (unfold other_key; by destruct Hmd as [-> | ->]).
  cbn iota. q1.
Qed.

Lemma quiet_stop_all_v1 : quiet_ stop_all_ccci_up_layer_services_v1.
Proof. unfold stop_all_ccci_up_layer_services_v1. q1. Qed.

Lemma quiet_logger_v1 ms : quiet_ (start_logger_v1 ms).
Proof. unfold start_logger_v1. q1. Qed.

Lemma quiet_names_v1 : quiet_ update_service_name.
Proof. unfold update_service_name. q1. Qed.
Hint Resolve quiet_restart_v1 quiet_stop_all_v1 quiet_logger_v1 quiet_names_v1 : quiet.

Lemma quiet_start_all_v1 : quiet_ start_all_ccci_up_layer_services_v1.
Proof. unfold start_all_ccci_up_layer_services_v1. q1. Qed.
Hint Resolve quiet_start_all_v1 : quiet.

Lemma quiet_boot_env_v1 c2k v1 v2 fuel : quiet_ (boot_env_v1 c2k v1 v2 fuel).
Proof.
  assert (forall f r p, quiet_ (get_nvram_ef_data_v1 f r p)) as Hef by (intros; unfold get_nvram_ef_data_v1; q1).
  assert (forall id, quiet_ (get_nvram_sbp_code_v1 fuel id)) as Hnv by (intros; unfold get_nvram_sbp_code_v1; q1).
  assert (quiet_ get_usp_sbp_setting_v1) as Husp by (unfold get_usp_sbp_setting_v1; q1).
  unfold boot_env_v1, set_md_boot_env_data_v1, get_mdlog_boot_mode_v1, get_md_sbp_code_v1. q1.
Qed.

Lemma quiet_try_twice req : quiet_ (try_twice req).
Proof. unfold try_twice. q1. Qed.

Lemma quiet_start_until fuel : quiet_ (start_until_done fuel).
Proof. induction fuel as [|fuel IH]; cbn [start_until_done]; q1. Qed.

Lemma quiet_start_fsd_v1 : quiet_ start_fsd_v1.
Proof. unfold start_fsd_v1. q1. Qed.

Lemma quiet_unless_meta m : quiet_ m -> quiet_ (unless_meta junk m).
Proof. intros Hm. unfold unless_meta. q1. Qed.

Lemma quiet_reset_at_boot_up : quiet_ reset_at_boot_up.
Proof. unfold reset_at_boot_up. q1. Qed.

Lemma quiet_version : quiet_ eccci_version.
Proof. unfold eccci_version, ccci_get_version, query_kcfg_setting. q1. Qed.

Lemma quiet_starttime message : quiet_ (cal_md_starttime message).
Proof.
  unfold cal_md_starttime. destruct (message =? V1_MSG_BOOT_UP); [q1|].
  destruct (message =? V1_MSG_BOOT_READY); [|q1].
  apply emits_bind; [q1|]. intros t. apply emits_bind; [q1|]. intros _. apply quiet_v1_bind. intros v ->.
  apply emits_bind; [unfold padd; q1|]. intros d. apply emits_bind; [q1|]. intros text.
  apply quiet_set. by destruct Hmd as [-> | ->].
Qed.
End Quiet.

(** The boot-up reset, the services and the start: hints for the triples. *)
#[export] Hint Resolve quiet_v1_get quiet_restart_v1 quiet_stop_all_v1 quiet_logger_v1 quiet_start_all_v1 quiet_boot_env_v1
  quiet_try_twice quiet_start_until quiet_start_fsd_v1 quiet_unless_meta quiet_reset_at_boot_up quiet_version
  quiet_starttime : quiet.

(** ** Triples *)

Section Goes.
Context `{OS}.
Context (junk : Z -> list Z) (c2k : bool) (v1o v2o : option Z) (md info : Z) (Hmd : md_pair md).
Abbreviation M := (prog mdinit).
Abbreviation quiet_ s ig := (emits (v1_daemon md info s ig) (fun e => published1 md e = [])).

(** From the state [s] and the flag [ig], the program publishes the states [l]
    and leaves [s'] and [ig']. *)
Definition goes {A} (s ig : Z) (m : M A) (l : list Z) (s' ig' : Z) : Prop :=
  forall w w' a, v1_daemon md info s ig (w_glob w) -> m w = (w', Ok a) ->
  exists evs, w_trace w' = w_trace w ++ evs /\ published md evs = status_name_v1 <$> l /\
    v1_daemon md info s' ig' (w_glob w').

Lemma goes_quiet {A} s ig (m : M A) : quiet_ s ig m -> goes s ig m [] s ig.
Proof.
  intros Hm w w' a Hd Hrun. destruct (Hm w Hd) as (evs & Ht & HP & HI). rewrite Hrun in *.
  exists evs. split_and!; [done|by apply published_none|done].
Qed.

Lemma goes_bind {A B} s ig (m : M A) (k : A -> M B) l1 s1 ig1 l2 s2 ig2 :
  goes s ig m l1 s1 ig1 -> (forall a, goes s1 ig1 (k a) l2 s2 ig2) -> goes s ig (m ≫= k) (l1 ++ l2) s2 ig2.
Proof.
  intros Hm Hk w w' b Hd (w1 & a & H1 & H2)%bind_inv.
  destruct (Hm _ _ _ Hd H1) as (e1 & Ht1 & Hp1 & Hd1). destruct (Hk a _ _ _ Hd1 H2) as (e2 & Ht2 & Hp2 & Hd2).
  exists (e1 ++ e2). split_and!; [by rewrite Ht2, Ht1, app_assoc|by rewrite published_app, Hp1, Hp2, fmap_app|done].
Qed.

Lemma goes_then {A B} s ig (m : M A) (k : A -> M B) l s' ig' :
  quiet_ s ig m -> (forall a, goes s ig (k a) l s' ig') -> goes s ig (m ≫= k) l s' ig'.
Proof. intros Hm Hk. apply (goes_bind s ig m k [] s ig); [by apply goes_quiet|done]. Qed.

(** Last a quiet program. *)
Lemma goes_last {A B} s ig (m : M A) (k : A -> M B) l s' ig' :
  goes s ig m l s' ig' -> (forall a, quiet_ s' ig' (k a)) -> goes s ig (m ≫= k) l s' ig'.
Proof. intros Hm Hk. rewrite <- (app_nil_r l). eapply goes_bind; [exact Hm|]. intros a. by apply goes_quiet. Qed.

(** The variables read are those of the state. *)
Lemma goes_get {B} s ig (k : md_v1 -> M B) l s' ig' :
  (forall v, v1_md_id v = md -> v1_gotten_md_info v = info -> v1_state v = s -> v1_ignore_time_out_msg v = ig ->
     goes s ig (k v) l s' ig') -> goes s ig (v1_get ≫= k) l s' ig'.
Proof. intros Hk w w' b Hd Hrun. destruct Hd as (?&?&?&?). by eapply (Hk (v1 (w_glob w))). Qed.

Lemma goes_flag s ig x : goes s ig (v1_mod (set_v1_ignore_time_out_msg x)) [] s x.
Proof. intros w w' a (? & ? & ? & ?) [= <- _]. exists []. rewrite app_nil_r. by split_and!. Qed.

Lemma property_set_run name value (w : world mdinit) : exists r st, property_set name value w =
  (World st (w_trace w ++ [Ev (Sys_property_set name value) r]) (w_heap w) (w_brk w) (w_glob w), Ok tt).
Proof. unfold property_set, psys, mbind, prog_bind. destruct (os_do _ (w_os w)) as [st r]. by exists r, st. Qed.

(** [set_current_md_status] publishes the state. *)
Lemma goes_set s ig s' : goes s ig (set_current_md_status_v1 s') [s'] s' ig.
Proof.
  intros w w' a (Hid & Hinfo & Hs & Hig). unfold set_current_md_status_v1.
  rewrite (bind_ok (v1_mod _) _ w _ tt eq_refl).
  set (w0 := set_glob _ w). rewrite (bind_ok v1_get _ w0 _ (v1 (w_glob w0)) eq_refl).
  replace (v1_md_id (v1 (w_glob w0))) with md by done.
  assert (snprintf 50 (lit "vendor.mtk.md" ++ itoa (md + 1) ++ lit ".status") = status_key md) as ->
    by (by destruct Hmd as [-> | ->]).
  destruct (property_set_run (status_key md) (status_name_v1 s') w0) as (r1 & st1 & Hr1). rewrite (bind_ok _ _ _ _ _ Hr1).
  set (w1 := World st1 _ _ _ _).
  assert (published1 md (Ev (Sys_property_set (status_key md) (status_name_v1 s')) r1) = [status_name_v1 s']) as Hp1
    by (simpl; unfold streq; by rewrite bool_decide_eq_true_2).
  assert (v1_daemon md info s' ig (w_glob w0)) as Hd by (by split_and!).
  destruct Hmd as [-> | ->]; cbn [Z.eqb pwhen MD_SYS3 Pos.eqb].
  - intros [= <- _]. eexists [_]. split_and!; [reflexivity|unfold published; cbn [fmap list_fmap concat]; by rewrite Hp1|done].
  - destruct (property_set_run (lit "vendor.net.cdma.mdmstat") (status_name_v1 s') w1) as (r2 & st2 & Hr2). rewrite Hr2.
    intros [= <- _]. eexists [_; _]. split_and!; [unfold w1; cbn [w_trace]; by rewrite <- app_assoc| |done].
    unfold published. cbn [fmap list_fmap concat]. by rewrite Hp1.
Qed.

Lemma goes_pget {B} s ig (k : mdinit -> M B) l s' ig' : (forall g, goes s ig (k g) l s' ig') -> goes s ig (pget ≫= k) l s' ig'.
Proof. intros Hk w w' b Hd Hrun. by eapply (Hk (w_glob w)). Qed.

(** ** The handlers *)

(** The way of the specification. *)
Definition obeys {A} (s ig msg : Z) (m : M A) : Prop :=
  goes s ig m (v1_goto s ig msg) (default s (head (v1_goto s ig msg))) (v1_flag info s ig msg).

Lemma follow {A} l ig' s ig msg (m : M A) :
  v1_goto s ig msg = l -> v1_flag info s ig msg = ig' -> goes s ig m l (default s (head l)) ig' -> obeys s ig msg m.
Proof. intros <- <-. done. Qed.

Lemma obeys_get {A} s ig msg (k : md_v1 -> M A) :
  (forall v, v1_md_id v = md -> v1_gotten_md_info v = info -> v1_state v = s -> v1_ignore_time_out_msg v = ig ->
     obeys s ig msg (k v)) -> obeys s ig msg (v1_get ≫= k).
Proof. apply goes_get. Qed.

Lemma obeys_pget {A} s ig msg (k : mdinit -> M A) :
  (forall g, obeys s ig msg (k g)) -> obeys s ig msg (pget ≫= k).
Proof. apply goes_pget. Qed.

(** A message outside the table. *)
Lemma follow_none {A} s ig msg (m : M A) :
  v1_goto s ig msg = [] -> v1_flag info s ig msg = ig -> quiet_ s ig m -> obeys s ig msg m.
Proof. intros H1 H2 Hm. eapply follow; [exact H1|exact H2|]. by apply goes_quiet. Qed.

(** A message whose handler publishes first. *)
Lemma follow_set {A} t s ig msg (k : unit -> M A) :
  v1_goto s ig msg = [t] -> v1_flag info s ig msg = ig -> (forall x, quiet_ t ig (k x)) ->
  obeys s ig msg (set_current_md_status_v1 t ≫= k).
Proof. intros H1 H2 Hk. eapply follow; [exact H1|exact H2|]. apply goes_last; [apply goes_set|done]. Qed.

Tactic Notation "on" hyp(m) constr(c) := destruct (Z.eqb_spec m c) as [->|].
Ltac table :=
  unfold v1_goto, v1_flag, arrow, v1_arrows; cbn;
  repeat match goal with
  | Hn : _ <> ?c |- _ => rewrite ?(proj2 (Z.eqb_neq _ c) Hn); clear Hn
  end; cbn; repeat case_match; reflexivity.
Ltac q1 := repeat first
  [ solve [auto with cfs quiet nocore]
  | lazymatch goal with
    | |- emits _ _ (unless_meta _ _) => apply quiet_unless_meta; try assumption
    | |- emits _ _ (v1_mod _) => apply quiet_v1_mod; intros ?; by split_and!
    | |- emits _ _ (property_set ?n _) => apply quiet_lit; [assumption|vm_compute; reflexivity]
    end
  | quiet_step ]; try reflexivity.
Ltac sets := apply follow_set; [table|table|intros ?; q1].
Ltac none := apply follow_none; [table|table|q1].

Lemma obeys_ready ig msg : obeys V1_STA_BOOT_READY ig msg (boot_ready_state_handler junk msg).
Proof.
  unfold boot_ready_state_handler. apply obeys_get. intros v Hid _ _ _. apply obeys_pget. intros g.
  on msg V1_MSG_EXCEPTION; [none|].
  on msg V1_MSG_RESET.
  { eapply follow; [table|table|]. apply goes_then; [q1|]. intros _. apply goes_last; [apply goes_set|]. intros _. q1. }
  on msg V1_MSG_STOP_MD_REQUEST; [sets|]. on msg V1_MSG_ENTER_FLIGHT_MODE; [sets|].
  on msg V1_MSG_STORE_NVRAM_MD_TYPE; none.
Qed.

(** The flag of a debug build. *)
Lemma goes_note s ig :
  goes s ig note_exception [] s (if info =? MD_IS_DEBUG_VERSION then 1 else ig).
Proof.
  unfold note_exception. apply goes_get. intros v _ -> _ _.
  destruct (info =? MD_IS_DEBUG_VERSION); cbn [pwhen]; [apply goes_flag|apply goes_quiet; q1].
Qed.

Lemma obeys_boot_up ig msg : obeys V1_STA_BOOT_UP ig msg (boot_up_state_handler junk msg).
Proof.
  unfold boot_up_state_handler. apply obeys_get. intros v Hid _ _ Hig. apply obeys_pget. intros g.
  on msg V1_MSG_BOOT_READY; [sets|].
  on msg V1_MSG_EXCEPTION. { eapply follow; [table|reflexivity|]. apply goes_last; [apply goes_note|]. intros _. q1. }
  on msg V1_MSG_RESET; [sets|].
  on msg V1_MSG_BOOT_TIMEOUT.
  { rewrite Hig. destruct (Z.eqb_spec ig 0) as [->|Hne]; cbn [negb]; [sets|].
    eapply (follow []); [|reflexivity|apply goes_flag]. unfold v1_goto. by rewrite (proj2 (Z.eqb_neq ig 0) Hne). }
  on msg V1_MSG_STOP_MD_REQUEST; [sets|none].
Qed.

Lemma obeys_reset ig msg : obeys V1_STA_RESET ig msg (reset_state_handler junk msg).
Proof.
  unfold reset_state_handler. apply obeys_get. intros v Hid _ _ Hig.
  on msg V1_MSG_BOOT_UP; [sets|].
  on msg V1_MSG_EXCEPTION. { eapply follow; [table|reflexivity|]. apply goes_last; [apply goes_note|]. intros _. q1. }
  on msg V1_MSG_BOOT_TIMEOUT.
  { rewrite Hig. destruct (Z.eqb_spec ig 0) as [->|Hne]; cbn [negb pwhen]; [none|].
    eapply (follow []); [|reflexivity|apply goes_flag]. table. }
  on msg V1_MSG_STOP_MD_REQUEST; [sets|none].
Qed.

Lemma obeys_wait_reset fuel ig msg :
  obeys V1_STA_WAIT_SRV_RDY_TO_RST ig msg (wait_service_ready_to_reset_state_handler junk c2k v1o v2o fuel msg).
Proof.
  unfold wait_service_ready_to_reset_state_handler. on msg V1_MSG_READY_TO_RESET; [sets|].
  on msg V1_MSG_STOP_MD_REQUEST; [|none]. eapply follow; [table|table|apply goes_set].
Qed.

Lemma obeys_wait_stop ig msg :
  obeys V1_STA_WAIT_SRV_RDY_TO_STOP ig msg (wait_service_ready_to_stop_state_handler msg).
Proof.
  unfold wait_service_ready_to_stop_state_handler, pwhen. on msg V1_MSG_READY_TO_RESET; [|none].
  eapply follow; [table|table|apply goes_set].
Qed.

Lemma obeys_stop fuel ig msg : obeys V1_STA_STOP ig msg (stop_state_handler junk c2k v1o v2o fuel msg).
Proof.
  unfold stop_state_handler.
  assert (forall m, v1_goto V1_STA_STOP ig m = [V1_STA_RESET] -> obeys V1_STA_STOP ig m
    (delay_to_reset_md 1;; set_current_md_status_v1 V1_STA_RESET;; check_to_restart_md junk fuel;;
     unless_meta junk (start_fsd_v1;; _ ← psys (Sys_sleep 1); mret tt);;
     boot_env_v1 c2k v1o v2o fuel;; try_twice CCCI_IOC_DO_START_MD : M unit)) as Hstart.
  { intros m Hm. eapply follow; [exact Hm|table|]. apply goes_then; [q1|]. intros _.
    apply goes_last; [apply goes_set|]. intros _. q1. }
  on msg V1_MSG_RESET; [apply Hstart; table|]. on msg V1_MSG_START_MD_REQUEST; [apply Hstart; table|cbn [orb]; none].
Qed.

Lemma obeys_flight ig msg : obeys V1_STA_FLIGHT_MODE ig msg (flight_state_handler junk msg).
Proof. unfold flight_state_handler. on msg V1_MSG_LEAVE_FLIGHT_MODE; [sets|none]. Qed.

Lemma obeys_message fuel s ig msg : obeys s ig msg (handle_message_v1 junk c2k v1o v2o fuel msg).
Proof.
  unfold handle_message_v1. apply obeys_get. intros v _ _ -> _.
  on s V1_STA_BOOT_READY; [apply obeys_ready|]. on s V1_STA_BOOT_UP; [apply obeys_boot_up|].
  on s V1_STA_RESET; [apply obeys_reset|]. on s V1_STA_WAIT_SRV_RDY_TO_RST; [apply obeys_wait_reset|].
  on s V1_STA_WAIT_SRV_RDY_TO_STOP; [apply obeys_wait_stop|]. on s V1_STA_STOP; [apply obeys_stop|].
  on s V1_STA_FLIGHT_MODE; [apply obeys_flight|none].
Qed.
End Goes.

(** ** The refinement *)

(** What a read of the monitor channel [ch] asks for: the messages answered
    before the state machine change nothing. *)
Definition message_of_v1 (ch : Z) (r : rres) : option Z :=
  let word := fun i => de32 (take 4 (drop i (rres_data r))) in
  if (rres_rv r =? 16) && (word 0%nat =? 0xFFFFFFFF) && (word 8%nat =? ch) then Some (word 4%nat) else None.

Section Refines.
Context `{OS}.
Context (junk : Z -> list Z) (c2k : bool) (v1o v2o : option Z) (md info : Z) (Hmd : md_pair md).

Lemma quiet_before s ig msg :
  emits (v1_daemon md info s ig) (fun e => published1 md e = []) (before_message_v1 junk msg).
Proof. unfold before_message_v1, compute_random_pattern. quiet. Qed.

Lemma obeys_common s ig msg :
  emits (v1_daemon md info s ig) (fun e => published1 md e = []) (common_msg_handler_v1 msg).
Proof. unfold common_msg_handler_v1. quiet. Qed.

Lemma common_done msg (w w' : world mdinit) : common_msg_handler_v1 msg w = (w', Ok true) ->
  msg = V1_MSG_SEND_BATTERY_INFO \/ msg = V1_MSG_NOTIFY \/ msg = V1_MSG_CFG_UPDATE.
Proof.
  unfold common_msg_handler_v1. destruct (Z.eqb_spec msg V1_MSG_SEND_BATTERY_INFO) as [->|]; [auto|].
  intros [= _ Ho]. apply orb_prop in Ho as [->%Z.eqb_eq | ->%Z.eqb_eq]; auto.
Qed.

Lemma common_stays s ig msg (w w' : world mdinit) : common_msg_handler_v1 msg w = (w', Ok true) ->
  v1_goto s ig msg = [] /\ v1_flag info s ig msg = ig.
Proof.
  intros Hc. assert (forall l, existsb (fun '(_, m, _) => msg =? m) l = false -> arrow l s msg = []) as Harrow.
  { intros l. induction l as [|[[s' m] t] l IH]; [done|]. cbn [existsb arrow foldr]. intros [-> Hl]%orb_false_iff.
    rewrite andb_false_r. by apply IH. }
  apply common_done in Hc. unfold v1_goto, v1_flag. rewrite Harrow by (by destruct Hc as [-> | [-> | ->]]).
  destruct Hc as [-> | [-> | ->]]; cbn; by repeat case_match.
Qed.

(** Claim C4.  The daemon of a modem with an earlier driver implements its
    transition table.  Whatever it reads from the monitor channel in a state, and
    whatever the environment answers on the way, when the round is over it is in
    the state of the table, it has written to the property of its modem that
    state's name - nothing when the table has no transition - and the flag that
    has a time-out ignored is as its rule says. *)
Theorem v1_refines s ig fuel ch r w w' :
  v1_daemon md info s ig (w_glob w) ->
  monitor_round_v1 junk c2k v1o v2o fuel ch r w = (w', Ok tt) ->
  let l := match message_of_v1 ch r with Some msg => v1_goto s ig msg | None => [] end in
  let ig' := match message_of_v1 ch r with Some msg => v1_flag info s ig msg | None => ig end in
  exists evs, w_trace w' = w_trace w ++ evs /\ published md evs = status_name_v1 <$> l /\
    v1_daemon md info (default s (head l)) ig' (w_glob w').
Proof.
  intros Hd. unfold monitor_round_v1, message_of_v1. destruct (_ && _).
  2: { intros [= <-]. exists []. by rewrite app_nil_r. }
  generalize (de32 (take 4 (drop 4 (rres_data r)))). intros msg (w1 & done & Hc & Hrun)%bind_inv. cbv zeta.
  destruct (goes_quiet md info s ig _ (obeys_common s ig msg) _ _ _ Hd Hc) as (e1 & Ht1 & Hp1 & Hd1).
  destruct done.
  - injection Hrun as <-. destruct (common_stays s ig _ _ _ Hc) as [-> ->]. by exists e1.
  - apply bind_inv in Hrun as (w2 & [] & Hb & Hrun).
    destruct (goes_quiet md info s ig _ (quiet_before s ig msg) _ _ _ Hd1 Hb) as (e2 & Ht2 & Hp2 & Hd2).
    destruct (obeys_message junk c2k v1o v2o md info Hmd fuel s ig msg _ _ _ Hd2 Hrun) as (e3 & Ht3 & Hp3 & Hd3).
    exists (e1 ++ e2 ++ e3). split_and!; [by rewrite Ht3, Ht2, Ht1, !app_assoc| |done].
    by rewrite !published_app, Hp1, Hp2, Hp3.
Qed.
End Refines.

(** A stop request to a modem that waits for its services. *)
Definition v1_stop_message : rres :=
  RData (le32 0xFFFFFFFF ++ le32 V1_MSG_STOP_MD_REQUEST ++ le32 CCCI_MONITOR_CH ++ le32 0).
Definition v1_glob (s : Z) : mdinit :=
  set_v1 (set_v1_state s (set_v1_md_id 0 md_v1_start)) (boot_glob CCCI_MD_STA_INIT).

Lemma v1_refines_witness : exists (w' : @world MemOS mdinit),
  monitor_round_v1 (fun _ => []) false None None 100 CCCI_MONITOR_CH v1_stop_message
    (@World MemOS mdinit memfs_empty [] ∅ 1 (v1_glob V1_STA_WAIT_SRV_RDY_TO_RST)) = (w', Ok tt) /\
  published 0 (w_trace w') = [lit "stop"] /\ v1_state (v1 (w_glob w')) = V1_STA_STOP.
Proof.
  set (w := @World MemOS mdinit memfs_empty [] ∅ 1 (v1_glob V1_STA_WAIT_SRV_RDY_TO_RST)).
  assert (v1_daemon 0 MD_DEBUG_REL_INFO_NOT_READY V1_STA_WAIT_SRV_RDY_TO_RST 0 (w_glob w)) as Hd by by split_and!.
  assert ((monitor_round_v1 (fun _ => []) false None None 100 CCCI_MONITOR_CH v1_stop_message w).2 = Ok tt) as H2
    by (vm_compute; reflexivity).
  destruct (monitor_round_v1 (fun _ => []) false None None 100 CCCI_MONITOR_CH v1_stop_message w) as [w' o] eqn:Hrun.
  cbn [snd] in H2. subst o. exists w'.
  pose proof (@v1_refines MemOS (fun _ => []) false None None 0 _ (or_introl eq_refl) _ _
    100 CCCI_MONITOR_CH v1_stop_message w w' Hd Hrun) as Hr.
  replace (message_of_v1 CCCI_MONITOR_CH v1_stop_message) with (Some V1_MSG_STOP_MD_REQUEST) in Hr
    by (vm_compute; reflexivity).
  destruct Hr as (evs & Ht & Hp & (_ & _ & Hs & _)). split_and!; [done| |exact Hs]. rewrite Ht. exact Hp.
Defined.
