(* ===== verification/FileStore.v ===== *)
(** * A file system with room to spare

    The interface [FileStore] states what the kernel does to files,
    directories, descriptors and directory streams when nothing fails for want
    of memory, space or descriptors and nobody else changes the files: opening,
    reading, writing and seeking of regular files, listing and making
    directories.  A state of the kernel has a view, a [store]; every law says
    how a call moves it.  Directory listings after a file is created are left
    open.

    The rules ([run_open], ...) run a call of a program from a world with a known
    store ([ready]), which includes the live allocations.  The in-memory file
    system is an instance, with an allocator that does not run out. *)
From S2P Require Import Prelude Posix MemFs.

(** ** Stores *)

Record fdesc := Fd { fd_path : list Z; fd_off : Z; fd_reads : bool; fd_writes : bool }.

Record store := Store {
  files : gmap (list Z) (list Z);               (** regular files: path to contents *)
  dirs : gmap (list Z) (list (list Z));         (** directories: path, [[]] for the root, to the names listed *)
  open_fds : gmap Z fdesc;
  dir_streams : gmap Z (list (list Z))          (** streams: the names left *)
}.

Definition put_file (p data : list Z) (v : store) : store :=
  Store (<[p := data]> (files v)) (dirs v) (open_fds v) (dir_streams v).
Definition put_dir (p : list Z) (ns : list (list Z)) (v : store) : store :=
  Store (files v) (<[p := ns]> (dirs v)) (open_fds v) (dir_streams v).
Definition put_fd (fd : Z) (x : fdesc) (v : store) : store :=
  Store (files v) (dirs v) (<[fd := x]> (open_fds v)) (dir_streams v).
Definition drop_fd (fd : Z) (v : store) : store :=
  Store (files v) (dirs v) (delete fd (open_fds v)) (dir_streams v).
Definition put_stream (d : Z) (ns : list (list Z)) (v : store) : store :=
  Store (files v) (dirs v) (open_fds v) (<[d := ns]> (dir_streams v)).
Definition drop_stream (d : Z) (v : store) : store :=
  Store (files v) (dirs v) (open_fds v) (delete d (dir_streams v)).

(** [dir/name] *)
Definition child (d n : list Z) : list Z := d ++ [chr_slash] ++ n.

Definition is_name (n : list Z) : Prop := n <> [] /\ chr_slash ∉ n.

(** The contents after a write at [off]. *)
Definition write_at (data : list Z) (off : Z) (bs : list Z) : list Z :=
  take (Z.to_nat off) data ++ bs ++ drop (Z.to_nat off + length bs) data.

(** The contents a read of [n] bytes at [off] delivers. *)
Definition read_at (data : list Z) (off n : Z) : list Z := take (Z.to_nat n) (drop (Z.to_nat off) data).

(** Calls that change nothing of the store, whatever they answer. *)
Definition quiet_call {T} (c : sys T) : bool :=
  match c with
  | Sys_stat _ | Sys_lstat _ | Sys_chown _ _ _ | Sys_chmod _ _ | Sys_umask _ => true
  | Sys_time | Sys_ctime _ | Sys_property_get _ | Sys_usleep _ | Sys_sync => true
  | _ => false
  end.

(** Stores are equal when their lookups are. *)
Lemma store_ext v v' :
  (forall p, files v !! p = files v' !! p) -> (forall p, dirs v !! p = dirs v' !! p) ->
  (forall fd, open_fds v !! fd = open_fds v' !! fd) ->
  (forall d, dir_streams v !! d = dir_streams v' !! d) -> v = v'.
Proof. destruct v, v'; simpl; intros. f_equal; by apply map_eq. Qed.

(** Equations between updates of a store, lookup by lookup. *)
Ltac store_eq :=
  apply store_ext; intros;
  cbn [files dirs open_fds dir_streams put_file put_dir put_fd drop_fd put_stream drop_stream];
  rewrite ?lookup_insert, ?lookup_delete;
  repeat (case_decide; subst; rewrite ?lookup_insert, ?lookup_delete); congruence || done.

(** A descriptor that was closed. *)
Lemma drop_put_fd fd x v : open_fds v !! fd = None -> drop_fd fd (put_fd fd x v) = v.
Proof. intros Hn. unfold drop_fd, put_fd. destruct v; simpl in *. by rewrite delete_insert_id. Qed.

Lemma drop_put_stream d ns v : dir_streams v !! d = None -> drop_stream d (put_stream d ns v) = v.
Proof. intros Hn. unfold drop_stream, put_stream. destruct v; simpl in *. by rewrite delete_insert_id. Qed.

Lemma put_put_fd fd x y v : put_fd fd y (put_fd fd x v) = put_fd fd y v.
Proof. unfold put_fd. simpl. by rewrite insert_insert_eq. Qed.

Lemma put_put_file p x y v : put_file p y (put_file p x v) = put_file p y v.
Proof. unfold put_file. simpl. by rewrite insert_insert_eq. Qed.

Lemma put_put_stream d x y v : put_stream d y (put_stream d x v) = put_stream d y v.
Proof. unfold put_stream. simpl. by rewrite insert_insert_eq. Qed.

Lemma put_file_id p data v : files v !! p = Some data -> put_file p data v = v.
Proof. intros E. unfold put_file. destruct v; simpl in *. by rewrite insert_id. Qed.

Lemma fds_put_file p data v : open_fds (put_file p data v) = open_fds v.
Proof. done. Qed.

Lemma put_fd_file fd x p y v : put_fd fd x (put_file p y v) = put_file p y (put_fd fd x v).
Proof. done. Qed.

Lemma put_fd_comm fd fd' x y v : fd <> fd' -> put_fd fd x (put_fd fd' y v) = put_fd fd' y (put_fd fd x v).
Proof. intros Hne. unfold put_fd. simpl. f_equal. by apply insert_insert_ne. Qed.

Lemma drop_fd_put_ne fd fd' x v : fd <> fd' -> drop_fd fd (put_fd fd' x v) = put_fd fd' x (drop_fd fd v).
Proof. intros Hne. unfold drop_fd, put_fd. simpl. f_equal. by apply delete_insert_ne. Qed.

Lemma read_all data n : zlen data <= n -> read_at data 0 n = data.
Proof. intros Hn. unfold read_at. simpl. apply take_ge. unfold zlen in Hn. lia. Qed.

Lemma zlen_read_at data off n : 0 <= off -> 0 <= n -> off + n <= zlen data -> zlen (read_at data off n) = n.
Proof. intros. unfold read_at, zlen in *. rewrite length_take, length_drop. lia. Qed.

Lemma read_at_app data off n m : 0 <= off -> 0 <= n -> 0 <= m ->
  read_at data off (n + m) = read_at data off n ++ read_at data (off + n) m.
Proof.
  intros. unfold read_at. rewrite !Z2Nat.inj_add by lia. rewrite <- (drop_drop data).
  by rewrite take_take_drop.
Qed.

Lemma write_end data bs : write_at data (zlen data) bs = data ++ bs.
Proof.
  unfold write_at, zlen. rewrite Nat2Z.id, take_ge, drop_ge by lia. by rewrite app_nil_r.
Qed.

(** ** The kernel's side *)

Section Moves.
Context `{OS} (inv : os_st -> Prop) (view : os_st -> store).

Definition moves {T} (c : sys T) (s : os_st) (r : T) (v : store) : Prop :=
  exists s', os_do c s = (s', r) /\ inv s' /\ view s' = v.
End Moves.

Class FileStore `{OS} := {
  fs_inv : os_st -> Prop;
  fs_view : os_st -> store;
  law_open s p data flags mode : fs_inv s -> files (fs_view s) !! p = Some data ->
    flags = O_RDONLY \/ flags = O_WRONLY \/ flags = O_RDWR \/ flags = Z.lor O_CREAT O_RDWR \/
      flags = Z.lor O_RDWR O_SYNC ->
    exists fd e r w, 0 <= fd /\ open_fds (fs_view s) !! fd = None /\
      (flags <> O_WRONLY -> r = true) /\ (flags <> O_RDONLY -> w = true) /\
      moves fs_inv fs_view (Sys_open p flags mode) s (IRes fd e) (put_fd fd (Fd p 0 r w) (fs_view s));
  law_open_none s p flags mode : fs_inv s -> files (fs_view s) !! p = None -> dirs (fs_view s) !! p = None ->
    flags = O_RDONLY \/ flags = O_RDWR ->
    exists e, moves fs_inv fs_view (Sys_open p flags mode) s (IRes (-1) e) (fs_view s);
  law_create s d n ns flags mode : fs_inv s -> is_name n -> dirs (fs_view s) !! d = Some ns ->
    dirs (fs_view s) !! child d n = None ->
    flags = Z.lor (Z.lor O_TRUNC O_CREAT) O_WRONLY \/ flags = Z.lor (Z.lor O_TRUNC O_CREAT) O_RDWR ->
    exists fd e r ns', 0 <= fd /\ open_fds (fs_view s) !! fd = None /\
      moves fs_inv fs_view (Sys_open (child d n) flags mode) s (IRes fd e)
        (put_fd fd (Fd (child d n) 0 r true) (put_file (child d n) [] (put_dir d ns' (fs_view s))));
  law_create_new s d n ns mode : fs_inv s -> is_name n -> dirs (fs_view s) !! d = Some ns ->
    files (fs_view s) !! child d n = None -> dirs (fs_view s) !! child d n = None ->
    exists fd e r ns', 0 <= fd /\ open_fds (fs_view s) !! fd = None /\
      moves fs_inv fs_view (Sys_open (child d n) (Z.lor O_CREAT O_RDWR) mode) s (IRes fd e)
        (put_fd fd (Fd (child d n) 0 r true) (put_file (child d n) [] (put_dir d ns' (fs_view s))));
  law_truncate s p data flags mode : fs_inv s -> files (fs_view s) !! p = Some data ->
    flags = Z.lor (Z.lor O_TRUNC O_CREAT) O_WRONLY \/ flags = Z.lor (Z.lor O_TRUNC O_CREAT) O_RDWR \/ flags = Z.lor O_TRUNC O_RDWR ->
    exists fd e r, 0 <= fd /\ open_fds (fs_view s) !! fd = None /\
      moves fs_inv fs_view (Sys_open p flags mode) s (IRes fd e)
        (put_fd fd (Fd p 0 r true) (put_file p [] (fs_view s)));
  law_close s fd x : fs_inv s -> open_fds (fs_view s) !! fd = Some x ->
    exists e, moves fs_inv fs_view (Sys_close fd) s (IRes 0 e) (drop_fd fd (fs_view s));
  law_fsync s fd x : fs_inv s -> open_fds (fs_view s) !! fd = Some x ->
    exists e, moves fs_inv fs_view (Sys_fsync fd) s (IRes 0 e) (fs_view s);
  law_read s fd n p off w data : fs_inv s -> 0 <= n -> 0 <= off ->
    open_fds (fs_view s) !! fd = Some (Fd p off true w) -> files (fs_view s) !! p = Some data ->
    moves fs_inv fs_view (Sys_read fd n) s (RData (read_at data off n))
      (put_fd fd (Fd p (off + zlen (read_at data off n)) true w) (fs_view s));
  law_write s fd bs p off r data : fs_inv s -> 0 <= off <= zlen data ->
    open_fds (fs_view s) !! fd = Some (Fd p off r true) -> files (fs_view s) !! p = Some data ->
    exists e, moves fs_inv fs_view (Sys_write fd bs) s (IRes (zlen bs) e)
      (put_fd fd (Fd p (off + zlen bs) r true) (put_file p (write_at data off bs) (fs_view s)));
  law_seek_set s fd p off r w off' : fs_inv s -> 0 <= off' ->
    open_fds (fs_view s) !! fd = Some (Fd p off r w) ->
    exists e, moves fs_inv fs_view (Sys_lseek fd off' SEEK_SET) s (IRes off' e)
      (put_fd fd (Fd p off' r w) (fs_view s));
  law_seek_end s fd p off r w data d : fs_inv s ->
    open_fds (fs_view s) !! fd = Some (Fd p off r w) -> files (fs_view s) !! p = Some data -> 0 <= zlen data + d ->
    exists e, moves fs_inv fs_view (Sys_lseek fd d SEEK_END) s (IRes (zlen data + d) e)
      (put_fd fd (Fd p (zlen data + d) r w) (fs_view s));
  law_pread s fd n p off off' w data : fs_inv s -> 0 <= n -> 0 <= off' ->
    open_fds (fs_view s) !! fd = Some (Fd p off true w) -> files (fs_view s) !! p = Some data ->
    moves fs_inv fs_view (Sys_pread fd n off') s (RData (read_at data off' n)) (fs_view s);
  law_pwrite s fd bs p off off' r data : fs_inv s -> 0 <= off' <= zlen data ->
    open_fds (fs_view s) !! fd = Some (Fd p off r true) -> files (fs_view s) !! p = Some data ->
    exists e, moves fs_inv fs_view (Sys_pwrite fd bs off') s (IRes (zlen bs) e)
      (put_file p (write_at data off' bs) (fs_view s));
  law_stat s p data : fs_inv s -> files (fs_view s) !! p = Some data ->
    exists e st, st_size st = zlen data /\ Z.land (st_mode st) 61440 = 32768 /\
      moves fs_inv fs_view (Sys_stat p) s (IRes 0 e, st) (fs_view s);
  law_fstat s fd p off r w data : fs_inv s ->
    open_fds (fs_view s) !! fd = Some (Fd p off r w) -> files (fs_view s) !! p = Some data ->
    exists e st, st_size st = zlen data /\ moves fs_inv fs_view (Sys_fstat fd) s (IRes 0 e, st) (fs_view s);
  law_opendir s p ns : fs_inv s -> p <> [] -> dirs (fs_view s) !! p = Some ns ->
    exists d e, d <> 0 /\ dir_streams (fs_view s) !! d = None /\
      moves fs_inv fs_view (Sys_opendir p) s (IRes d e) (put_stream d ns (fs_view s));
  law_opendir_none s p : fs_inv s -> dirs (fs_view s) !! p = None ->
    exists e, moves fs_inv fs_view (Sys_opendir p) s (IRes 0 e) (fs_view s);
  law_readdir s d ns : fs_inv s -> dir_streams (fs_view s) !! d = Some ns ->
    moves fs_inv fs_view (Sys_readdir d) s (head ns) (put_stream d (tail ns) (fs_view s));
  law_closedir s d ns : fs_inv s -> dir_streams (fs_view s) !! d = Some ns ->
    exists r, moves fs_inv fs_view (Sys_closedir d) s r (drop_stream d (fs_view s));
  law_access s p : fs_inv s -> p <> [] ->
    exists r, moves fs_inv fs_view (Sys_access p F_OK) s r (fs_view s) /\
      (rv r = 0 <-> is_Some (files (fs_view s) !! p) \/ is_Some (dirs (fs_view s) !! p));
  law_mkdir s d n ns mode : fs_inv s -> is_name n -> dirs (fs_view s) !! d = Some ns ->
    files (fs_view s) !! child d n = None -> dirs (fs_view s) !! child d n = None ->
    exists e ns1 ns2, moves fs_inv fs_view (Sys_mkdir (child d n) mode) s (IRes 0 e)
      (put_dir (child d n) ns1 (put_dir d ns2 (fs_view s)));
  law_quiet {T} (c : sys T) s : fs_inv s -> quiet_call c = true ->
    exists r, moves fs_inv fs_view c s r (fs_view s);
  law_malloc s n : fs_inv s -> moves fs_inv fs_view (Sys_malloc n) s true (fs_view s)
}.

(** ** Runs of a program on a store *)

(** The program returns, and its value and the world after satisfy [Q]. *)
Definition runs `{OS} {X A} (m : prog X A) (w : world X) (Q : A -> world X -> Prop) : Prop :=
  wp m Q (fun _ _ => False) w.

Section Rules.
Context `{FileStore} {X : Type}.
Implicit Types (v : store) (g : X) (L : list Z) (w : world X).

(** The store and the globals of a world, and allocations that are live. *)
Record ready v g L w : Prop := {
  rd_inv : fs_inv (w_os w);
  rd_view : fs_view (w_os w) = v;
  rd_glob : w_glob w = g;
  rd_brk : 0 < w_brk w;
  rd_fresh p : w_brk w <= p -> w_heap w !! p = None;
  rd_live : Forall (fun p => 0 < p < w_brk w /\ is_Some (w_heap w !! p)) L
}.

Lemma runs_ret {A} (a : A) w (Q : A -> world X -> Prop) : Q a w -> runs (mret a) w Q.
Proof. done. Qed.

Lemma runs_bind {A B} (m : prog X A) (k : A -> prog X B) w Q :
  runs m w (fun a w' => runs (k a) w' Q) -> runs (m ≫= k) w Q.
Proof. apply wp_bind. Qed.

Lemma runs_mono {A} (m : prog X A) w (Q Q' : A -> world X -> Prop) :
  runs m w Q -> (forall a w', Q a w' -> Q' a w') -> runs m w Q'.
Proof. intros Hm HQ. by eapply wp_mono. Qed.

Lemma runs_result {A} (m : prog X A) w (Q : A -> world X -> Prop) :
  runs m w Q -> exists w' a, m w = (w', Ok a) /\ Q a w'.
Proof. intros Hm. apply (wp_intro _ _ _ _ Hm). auto. Qed.

Lemma run_get v g L w Q : ready v g L w -> Q g w -> runs pget w Q.
Proof. by intros [] HQ; subst. Qed.

Lemma run_mod v g L w f (Q : unit -> world X -> Prop) : ready v g L w ->
  (forall w', ready v (f g) L w' -> Q tt w') -> runs (pmod f) w Q.
Proof. intros [] HQ. apply HQ. constructor; simpl; congruence || done. Qed.

Lemma run_moves {T} (c : sys T) r v v' g L w (Q : T -> world X -> Prop) : ready v g L w ->
  moves fs_inv fs_view c (w_os w) r v' -> (forall w', ready v' g L w' -> Q r w') ->
  runs (psys c) w Q.
Proof.
  intros [] (s' & E & Hi & Hv) HQ. unfold runs, wp. rewrite (psys_eq _ _ _ _ E).
  apply HQ. by constructor.
Qed.

(** A rule is the law of the call. *)
Ltac by_law law :=
  let Hw := fresh in
  intros Hw; intros;
  pose proof (rd_inv _ _ _ _ Hw); pose proof (rd_view _ _ _ _ Hw); subst;
  first
    [ eapply run_moves; [exact Hw|solve [eapply law; eassumption]|solve [eauto]]
    | edestruct law; repeat first [eassumption | match goal with H : ex _ |- _ => destruct H | H : _ /\ _ |- _ => destruct H end];
      eapply run_moves; eauto ].

Lemma run_open v g L w p data flags mode Q : ready v g L w -> files v !! p = Some data ->
  flags = O_RDONLY \/ flags = O_WRONLY \/ flags = O_RDWR \/ flags = Z.lor O_CREAT O_RDWR \/
      flags = Z.lor O_RDWR O_SYNC ->
  (forall fd e r wr w', 0 <= fd -> open_fds v !! fd = None ->
    (flags <> O_WRONLY -> r = true) -> (flags <> O_RDONLY -> wr = true) ->
    ready (put_fd fd (Fd p 0 r wr) v) g L w' -> Q (IRes fd e) w') ->
  runs (psys (Sys_open p flags mode)) w Q.
Proof. by_law law_open. Qed.

Lemma run_open_none v g L w p flags mode Q : ready v g L w -> files v !! p = None -> dirs v !! p = None ->
  flags = O_RDONLY \/ flags = O_RDWR -> (forall e w', ready v g L w' -> Q (IRes (-1) e) w') ->
  runs (psys (Sys_open p flags mode)) w Q.
Proof. by_law law_open_none. Qed.

Lemma run_create v g L w d n ns flags mode Q : ready v g L w -> is_name n ->
  dirs v !! d = Some ns -> dirs v !! child d n = None ->
  flags = Z.lor (Z.lor O_TRUNC O_CREAT) O_WRONLY \/ flags = Z.lor (Z.lor O_TRUNC O_CREAT) O_RDWR ->
  (forall fd e r ns' w', 0 <= fd -> open_fds v !! fd = None ->
    ready (put_fd fd (Fd (child d n) 0 r true) (put_file (child d n) [] (put_dir d ns' v))) g L w' ->
    Q (IRes fd e) w') ->
  runs (psys (Sys_open (child d n) flags mode)) w Q.
Proof. by_law law_create. Qed.

Lemma run_create_new v g L w d n ns mode Q : ready v g L w -> is_name n ->
  dirs v !! d = Some ns -> files v !! child d n = None -> dirs v !! child d n = None ->
  (forall fd e r ns' w', 0 <= fd -> open_fds v !! fd = None ->
    ready (put_fd fd (Fd (child d n) 0 r true) (put_file (child d n) [] (put_dir d ns' v))) g L w' ->
    Q (IRes fd e) w') ->
  runs (psys (Sys_open (child d n) (Z.lor O_CREAT O_RDWR) mode)) w Q.
Proof. by_law law_create_new. Qed.

Lemma run_truncate v g L w p data flags mode Q : ready v g L w -> files v !! p = Some data ->
  flags = Z.lor (Z.lor O_TRUNC O_CREAT) O_WRONLY \/ flags = Z.lor (Z.lor O_TRUNC O_CREAT) O_RDWR \/ flags = Z.lor O_TRUNC O_RDWR ->
  (forall fd e r w', 0 <= fd -> open_fds v !! fd = None ->
    ready (put_fd fd (Fd p 0 r true) (put_file p [] v)) g L w' -> Q (IRes fd e) w') ->
  runs (psys (Sys_open p flags mode)) w Q.
Proof. by_law law_truncate. Qed.

Lemma run_close v g L w fd x Q : ready v g L w -> open_fds v !! fd = Some x ->
  (forall r w', ready (drop_fd fd v) g L w' -> Q r w') -> runs (psys (Sys_close fd)) w Q.
Proof. by_law law_close. Qed.

Lemma run_close_ok v g L w fd x Q : ready v g L w -> open_fds v !! fd = Some x ->
  (forall e w', ready (drop_fd fd v) g L w' -> Q (IRes 0 e) w') -> runs (psys (Sys_close fd)) w Q.
Proof. by_law law_close. Qed.

Lemma run_read v g L w fd n p off wr data Q : ready v g L w ->
  open_fds v !! fd = Some (Fd p off true wr) -> files v !! p = Some data -> 0 <= n -> 0 <= off ->
  (forall w', ready (put_fd fd (Fd p (off + zlen (read_at data off n)) true wr) v) g L w' ->
    Q (RData (read_at data off n)) w') ->
  runs (psys (Sys_read fd n)) w Q.
Proof. by_law law_read. Qed.

Lemma run_write v g L w fd bs p off r data Q : ready v g L w ->
  open_fds v !! fd = Some (Fd p off r true) -> files v !! p = Some data -> 0 <= off <= zlen data ->
  (forall e w', ready (put_fd fd (Fd p (off + zlen bs) r true) (put_file p (write_at data off bs) v)) g L w' ->
    Q (IRes (zlen bs) e) w') ->
  runs (psys (Sys_write fd bs)) w Q.
Proof. by_law law_write. Qed.

Lemma run_seek_set v g L w fd p off r wr off' Q : ready v g L w ->
  open_fds v !! fd = Some (Fd p off r wr) -> 0 <= off' ->
  (forall e w', ready (put_fd fd (Fd p off' r wr) v) g L w' -> Q (IRes off' e) w') ->
  runs (psys (Sys_lseek fd off' SEEK_SET)) w Q.
Proof. by_law law_seek_set. Qed.

(** From the end backwards. *)
Lemma run_seek_back v g L w fd p off r wr data d Q : ready v g L w ->
  open_fds v !! fd = Some (Fd p off r wr) -> files v !! p = Some data -> 0 <= zlen data + d ->
  (forall e w', ready (put_fd fd (Fd p (zlen data + d) r wr) v) g L w' -> Q (IRes (zlen data + d) e) w') ->
  runs (psys (Sys_lseek fd d SEEK_END)) w Q.
Proof. by_law law_seek_end. Qed.

Lemma run_seek_end v g L w fd p off r wr data Q : ready v g L w ->
  open_fds v !! fd = Some (Fd p off r wr) -> files v !! p = Some data ->
  (forall e w', ready (put_fd fd (Fd p (zlen data) r wr) v) g L w' -> Q (IRes (zlen data) e) w') ->
  runs (psys (Sys_lseek fd 0 SEEK_END)) w Q.
Proof.
  intros Hw Ho Hf HQ. eapply run_seek_back; [done..| |]; rewrite ?Z.add_0_r; [apply zlen_nonneg|done].
Qed.

Lemma run_pread v g L w fd n p off off' wr data Q : ready v g L w ->
  open_fds v !! fd = Some (Fd p off true wr) -> files v !! p = Some data -> 0 <= n -> 0 <= off' ->
  (forall w', ready v g L w' -> Q (RData (read_at data off' n)) w') ->
  runs (psys (Sys_pread fd n off')) w Q.
Proof. by_law law_pread. Qed.

Lemma run_pwrite v g L w fd bs p off off' r data Q : ready v g L w ->
  open_fds v !! fd = Some (Fd p off r true) -> files v !! p = Some data -> 0 <= off' <= zlen data ->
  (forall e w', ready (put_file p (write_at data off' bs) v) g L w' -> Q (IRes (zlen bs) e) w') ->
  runs (psys (Sys_pwrite fd bs off')) w Q.
Proof. by_law law_pwrite. Qed.

Lemma run_fsync v g L w fd x Q : ready v g L w -> open_fds v !! fd = Some x ->
  (forall e w', ready v g L w' -> Q (IRes 0 e) w') -> runs (psys (Sys_fsync fd)) w Q.
Proof. by_law law_fsync. Qed.

Lemma run_stat v g L w p data Q : ready v g L w -> files v !! p = Some data ->
  (forall e st w', st_size st = zlen data -> ready v g L w' -> Q (IRes 0 e, st) w') ->
  runs (psys (Sys_stat p)) w Q.
Proof. by_law law_stat. Qed.

(** A file is a regular one. *)
Lemma run_stat_reg v g L w p data Q : ready v g L w -> files v !! p = Some data ->
  (forall e st w', st_size st = zlen data -> Z.land (st_mode st) 61440 = 32768 -> ready v g L w' -> Q (IRes 0 e, st) w') ->
  runs (psys (Sys_stat p)) w Q.
Proof. by_law law_stat. Qed.

Lemma run_fstat v g L w fd p off r wr data Q : ready v g L w ->
  open_fds v !! fd = Some (Fd p off r wr) -> files v !! p = Some data ->
  (forall e st w', st_size st = zlen data -> ready v g L w' -> Q (IRes 0 e, st) w') ->
  runs (psys (Sys_fstat fd)) w Q.
Proof. by_law law_fstat. Qed.

Lemma run_opendir v g L w p ns Q : ready v g L w -> p <> [] -> dirs v !! p = Some ns ->
  (forall d e w', d <> 0 -> dir_streams v !! d = None -> ready (put_stream d ns v) g L w' -> Q (IRes d e) w') ->
  runs (psys (Sys_opendir p)) w Q.
Proof. by_law law_opendir. Qed.

Lemma run_opendir_none v g L w p Q : ready v g L w -> dirs v !! p = None ->
  (forall e w', ready v g L w' -> Q (IRes 0 e) w') -> runs (psys (Sys_opendir p)) w Q.
Proof. by_law law_opendir_none. Qed.

Lemma run_readdir v g L w d ns Q : ready v g L w -> dir_streams v !! d = Some ns ->
  (forall w', ready (put_stream d (tail ns) v) g L w' -> Q (head ns) w') ->
  runs (psys (Sys_readdir d)) w Q.
Proof. by_law law_readdir. Qed.

Lemma run_closedir v g L w d ns Q : ready v g L w -> dir_streams v !! d = Some ns ->
  (forall r w', ready (drop_stream d v) g L w' -> Q r w') -> runs (psys (Sys_closedir d)) w Q.
Proof. by_law law_closedir. Qed.

Lemma run_access v g L w p Q : ready v g L w -> p <> [] ->
  (forall r w', ready v g L w' ->
    (rv r = 0 <-> is_Some (files v !! p) \/ is_Some (dirs v !! p)) -> Q r w') ->
  runs (psys (Sys_access p F_OK)) w Q.
Proof. by_law law_access. Qed.

Lemma run_mkdir v g L w d n ns mode Q : ready v g L w -> is_name n -> dirs v !! d = Some ns ->
  files v !! child d n = None -> dirs v !! child d n = None ->
  (forall e ns1 ns2 w', ready (put_dir (child d n) ns1 (put_dir d ns2 v)) g L w' -> Q (IRes 0 e) w') ->
  runs (psys (Sys_mkdir (child d n) mode)) w Q.
Proof. by_law law_mkdir. Qed.

Lemma run_quiet {T} (c : sys T) v g L w Q : ready v g L w -> quiet_call c = true ->
  (forall r w', ready v g L w' -> Q r w') -> runs (psys c) w Q.
Proof.
  intros Hw Hc HQ. destruct (law_quiet c _ (rd_inv _ _ _ _ Hw) Hc) as [r Hm].
  rewrite (rd_view _ _ _ _ Hw) in Hm. eapply run_moves; eauto.
Qed.

(** ** Memory *)

Lemma run_malloc n v g L w Q : ready v g L w ->
  (forall p w', 0 < p -> p ∉ L -> ready v g (p :: L) w' -> Q p w') -> runs (pmalloc n) w Q.
Proof.
  intros Hw HQ. pose proof (law_malloc _ n (rd_inv _ _ _ _ Hw)) as Hm. rewrite (rd_view _ _ _ _ Hw) in Hm.
  apply runs_bind. eapply run_moves; [exact Hw|exact Hm|].
  intros w' []. apply HQ; [done| |].
  - intros Hp. pose proof (proj1 (Forall_forall _ _) rd_live0 _ Hp) as [? _]. lia.
  - constructor; simpl; try done; [lia|intros p Hp; rewrite lookup_insert_ne by lia; apply rd_fresh0; lia|].
    constructor; [split; [lia|by rewrite lookup_insert_eq]|].
    eapply Forall_impl; [exact rd_live0|]. intros p [? ?]. split; [lia|]. by rewrite lookup_insert_ne by lia.
Qed.

Lemma run_store p bs v g L w (Q : unit -> world X -> Prop) : ready v g L w -> p ∈ L ->
  (forall w', ready v g L w' -> Q tt w') -> runs (pstore p bs) w Q.
Proof.
  intros [] Hp HQ. pose proof (proj1 (Forall_forall _ _) rd_live0 _ Hp) as [Hlt [x Hx]].
  unfold runs, wp, pstore. rewrite Hx. apply HQ. constructor; simpl; try done.
  - intros q Hq. rewrite lookup_insert_ne by lia. by apply rd_fresh0.
  - eapply Forall_impl; [exact rd_live0|]. intros q [? [y Hy]]. split; [done|].
    destruct (decide (p = q)) as [->|]; [by rewrite lookup_insert_eq|by rewrite lookup_insert_ne, Hy].
Qed.

Lemma run_free p v g L w (Q : unit -> world X -> Prop) : ready v g (p :: L) w -> p ∉ L ->
  (forall w', ready v g L w' -> Q tt w') -> runs (pfree p) w Q.
Proof.
  intros [] Hp HQ. apply Forall_cons_1 in rd_live0 as [[Hlt [x Hx]] Hl].
  unfold runs, wp, pfree. destruct (Z.eqb_spec p 0); [lia|]. rewrite Hx. apply HQ. constructor; simpl; try done.
  - intros q Hq. rewrite lookup_delete_ne by lia. by apply rd_fresh0.
  - apply Forall_forall. intros q Hq. pose proof (proj1 (Forall_forall _ _) Hl _ Hq) as [? [y Hy]].
    split; [done|]. rewrite lookup_delete_ne by (intros ->; done). by rewrite Hy.
Qed.
(** [free] of the null pointer, or of a live allocation. *)
Lemma run_free_opt p v g L L' w (Q : unit -> world X -> Prop) : ready v g L' w ->
  (p = 0 /\ L' = L) \/ (~ p ∈ L /\ L' = p :: L) ->
  (forall w', ready v g L w' -> Q tt w') -> runs (pfree p) w Q.
Proof. intros Hw [[-> ->]|[Hp ->]] HQ; [by apply HQ|by eapply run_free]. Qed.
End Rules.

(** ** The in-memory file system is one *)

(** The in-memory environment with an allocator that does not run out. *)
Definition roomy_do {T} (c : sys T) (s : memfs) : memfs * T :=
  match c in sys T return memfs * T with
  | Sys_malloc _ => (s, true)
  | c => memfs_do c s
  end.

Definition RoomyOS : OS := {| os_st := memfs; os_do := @roomy_do |}.

Definition node_file (n : node) : option (list Z) := match n with NFile _ d => Some d | NDir => None end.

Definition mem_view (s : memfs) : store := {|
  files := omap node_file (list_to_map (nodes s) : gmap (list Z) node);
  dirs := map_imap (fun p n => match n with NDir => Some (lit "." :: lit ".." :: children p (nodes s)) | _ => None end)
            (list_to_map (nodes s) : gmap (list Z) node);
  open_fds := (fun x : list Z * Z => Fd x.1 x.2 true true) <$> (list_to_map (fds s) : gmap Z (list Z * Z));
  dir_streams := list_to_map (streams s)
|}.

Definition mem_ok (s : memfs) : Prop :=
  dev_fd < next_fd s /\ Forall (fun e => dev_fd < e.1 < next_fd s) (fds s) /\
  Forall (fun e => e.1 < next_fd s) (streams s).

Lemma assoc_map {A} p (l : list (list Z * A)) : assoc p l = (list_to_map l : gmap (list Z) A) !! p.
Proof.
  induction l as [|[q a] l IH]; simpl; [done|]. case_bool_decide as Hq; subst.
  - by rewrite lookup_insert_eq.
  - by rewrite lookup_insert_ne by done.
Qed.

Lemma zassoc_map {A} k (l : list (Z * A)) : zassoc k l = (list_to_map l : gmap Z A) !! k.
Proof.
  induction l as [|[q a] l IH]; simpl; [done|]. destruct (Z.eqb_spec k q); subst.
  - by rewrite lookup_insert_eq.
  - by rewrite lookup_insert_ne by done.
Qed.

Lemma put_node_children d p n l : children d (put_node p n l) = children d l.
Proof.
  unfold children. induction l as [|[q a] l IH]; simpl; [done|].
  unfold omap in IH. case_bool_decide; simpl in *; subst; by rewrite IH.
Qed.

(** A path is a directory and a name in one way. *)
Lemma child_inj d n d' n' : chr_slash ∉ n -> chr_slash ∉ n' -> child d n = child d' n' -> d = d' /\ n = n'.
Proof.
  intros Hn Hn' E. unfold child in E. simpl in E.
  assert (forall a b : list Z, chr_slash ∉ a -> chr_slash ∉ b -> forall x y,
    a ++ chr_slash :: x = b ++ chr_slash :: y -> a = b /\ x = y) as Hsplit.
  { intros a. induction a as [|z a IH]; intros [|u b] Ha Hb x y; simpl; intros Eq.
    - by injection Eq.
    - injection Eq as <- _. by apply not_elem_of_cons in Hb as [? _].
    - injection Eq as -> _. by apply not_elem_of_cons in Ha as [? _].
    - injection Eq as <- Eq. apply not_elem_of_cons in Ha as [_ Ha]. apply not_elem_of_cons in Hb as [_ Hb].
      by destruct (IH b Ha Hb x y Eq) as [-> ->]. }
  apply (f_equal reverse) in E. rewrite !reverse_app, !reverse_cons in E. rewrite <- !app_assoc in E. simpl in E.
  apply Hsplit in E as [E1 E2]; [|by rewrite elem_of_reverse..].
  apply (inj reverse) in E1. apply (inj reverse) in E2. done.
Qed.

Lemma no_slash_existsb n : existsb (fun b => b =? chr_slash) n = false <-> chr_slash ∉ n.
Proof.
  induction n as [|c n IH]; simpl; [by split; [intros _; apply not_elem_of_nil|]|]. rewrite orb_false_iff, IH, not_elem_of_cons.
  rewrite Z.eqb_neq. split; intros [? ?]; (split; [congruence|done]).
Qed.

Lemma children_cons q d n x l : is_name n ->
  children q ((child d n, x) :: l) = if decide (q = d) then n :: children q l else children q l.
Proof.
  intros [_ Hn]. unfold children at 1. simpl. fold (children q l).
  assert (forall p, drop (length (q ++ [chr_slash])) (q ++ chr_slash :: p) = p) as Hdrop.
  { intros p. change (chr_slash :: p) with ([chr_slash] ++ p). by rewrite (assoc_L app), drop_app_length. }
  unfold starts_with. case_bool_decide as Ht.
  - assert (child d n = q ++ [chr_slash] ++ drop (length (q ++ [chr_slash])) (child d n)) as E.
    { rewrite (assoc_L app), <- Ht at 1. by rewrite take_drop. }
    destruct (existsb _ _) eqn:Hs.
    + case_decide as Hq; [|done]. subst. unfold child in Hs. simpl in Hs. rewrite Hdrop in Hs.
      apply no_slash_existsb in Hn. congruence.
    + apply no_slash_existsb in Hs. destruct (child_inj _ _ _ _ Hn Hs E) as [<- Hnn].
      rewrite decide_True by done. by rewrite <- Hnn.
  - case_decide as Hq; [|done]. subst. exfalso. apply Ht. unfold child. simpl.
    change (chr_slash :: n) with ([chr_slash] ++ n). by rewrite (assoc_L app), take_app_length.
Qed.

Lemma mem_dirs s p : dirs (mem_view s) !! p = match assoc p (nodes s) with
  | Some NDir => Some (lit "." :: lit ".." :: children p (nodes s)) | _ => None end.
Proof.
  simpl. rewrite map_lookup_imap, assoc_map. by destruct (list_to_map (nodes s) !! p) as [[]|].
Qed.

Lemma mem_files s p : files (mem_view s) !! p = match assoc p (nodes s) with
  | Some (NFile _ d) => Some d | _ => None end.
Proof.
  simpl. rewrite lookup_omap, assoc_map. by destruct (list_to_map (nodes s) !! p) as [[]|].
Qed.

Lemma mem_fds s fd : open_fds (mem_view s) !! fd =
  (fun x : list Z * Z => Fd x.1 x.2 true true) <$> zassoc fd (fds s).
Proof. simpl. by rewrite lookup_fmap, zassoc_map. Qed.

Lemma mem_streams s d : dir_streams (mem_view s) !! d = zassoc d (streams s).
Proof. simpl. by rewrite zassoc_map. Qed.

(** What the updates of the in-memory state do to the view. *)

Lemma files_put_file p d v q : files (put_file p d v) !! q = if decide (q = p) then Some d else files v !! q.
Proof. simpl. case_decide; subst; [by rewrite lookup_insert_eq|by rewrite lookup_insert_ne]. Qed.

Lemma files_put_dir p ns v : files (put_dir p ns v) = files v.
Proof. done. Qed.

Lemma dirs_put_file p data v : dirs (put_file p data v) = dirs v.
Proof. done. Qed.

Lemma dirs_put_dir p ns v q : dirs (put_dir p ns v) !! q = if decide (q = p) then Some ns else dirs v !! q.
Proof. simpl. case_decide; subst; [by rewrite lookup_insert_eq|by rewrite lookup_insert_ne]. Qed.


Lemma fds_put_fd fd x v k : open_fds (put_fd fd x v) !! k = if decide (k = fd) then Some x else open_fds v !! k.
Proof. simpl. case_decide; subst; [by rewrite lookup_insert_eq|by rewrite lookup_insert_ne]. Qed.

Lemma fds_drop_fd fd v k : open_fds (drop_fd fd v) !! k = if decide (k = fd) then None else open_fds v !! k.
Proof. simpl. case_decide; subst; [by rewrite lookup_delete_eq|by rewrite lookup_delete_ne]. Qed.

Lemma streams_put d ns v k :
  dir_streams (put_stream d ns v) !! k = if decide (k = d) then Some ns else dir_streams v !! k.
Proof. simpl. case_decide; subst; [by rewrite lookup_insert_eq|by rewrite lookup_insert_ne]. Qed.

Lemma streams_drop d v k : dir_streams (drop_stream d v) !! k = if decide (k = d) then None else dir_streams v !! k.
Proof. simpl. case_decide; subst; [by rewrite lookup_delete_eq|by rewrite lookup_delete_ne]. Qed.

(** Compare the lookups of two states, key by key. *)
Ltac by_key :=
  cbn [fds set_fds streams set_streams zassoc]; rewrite ?zassoc_zremove;
  repeat match goal with
  | |- context [decide ?P] => destruct (decide P)
  | |- context [?a =? ?b] => destruct (Z.eqb_spec a b)
  end; subst; try done.

Lemma view_put_fd s fd p off :
  mem_view (set_fds ((fd, (p, off)) :: zremove fd (fds s)) s) = put_fd fd (Fd p off true true) (mem_view s).
Proof. apply store_ext; try done; intros k; rewrite fds_put_fd, !mem_fds; by_key. Qed.

Lemma view_new_fd s fd p off :
  mem_view (set_fds ((fd, (p, off)) :: fds s) s) = put_fd fd (Fd p off true true) (mem_view s).
Proof. apply store_ext; try done; intros k; rewrite fds_put_fd, !mem_fds; by_key. Qed.

Lemma view_drop_fd s fd : mem_view (set_fds (zremove fd (fds s)) s) = drop_fd fd (mem_view s).
Proof. apply store_ext; try done; intros k; rewrite fds_drop_fd, !mem_fds; by_key. Qed.

Lemma view_new_stream s d ns :
  mem_view (set_streams ((d, ns) :: streams s) s) = put_stream d ns (mem_view s).
Proof. apply store_ext; try done; intros k; rewrite streams_put, !mem_streams; by_key. Qed.

Lemma view_put_stream s d ns :
  mem_view (set_streams ((d, ns) :: zremove d (streams s)) s) = put_stream d ns (mem_view s).
Proof. apply store_ext; try done; intros k; rewrite streams_put, !mem_streams; by_key. Qed.

Lemma view_drop_stream s d : mem_view (set_streams (zremove d (streams s)) s) = drop_stream d (mem_view s).
Proof. apply store_ext; try done; intros k; rewrite streams_drop, !mem_streams; by_key. Qed.

Lemma view_put_node s p m m' data data' : assoc p (nodes s) = Some (NFile m data) ->
  mem_view (set_nodes (put_node p (NFile m' data') (nodes s)) s) = put_file p data' (mem_view s).
Proof.
  intros Hp. apply store_ext; try done.
  - intros q. rewrite mem_files, files_put_file. cbn [nodes set_nodes]. rewrite assoc_put, Hp.
    case_bool_decide; case_decide; try done. by rewrite mem_files.
  - intros q. rewrite mem_dirs. simpl nodes. rewrite assoc_put, Hp, put_node_children.
    rewrite dirs_put_file, mem_dirs.
    case_bool_decide; [|done]. subst. by rewrite Hp.
Qed.

Lemma view_new_node s d n x : is_name n -> assoc d (nodes s) = Some NDir -> assoc (child d n) (nodes s) = None ->
  exists ns, dirs (mem_view (set_nodes ((child d n, x) :: nodes s) s)) !! d = Some ns /\
    forall q, q <> child d n -> q <> d ->
      dirs (mem_view (set_nodes ((child d n, x) :: nodes s) s)) !! q = dirs (mem_view s) !! q.
Proof.
  intros Hn Hd Hc. assert (d <> child d n) as Hne by (intros E; congruence).
  eexists. split.
  - rewrite mem_dirs. simpl nodes. cbn [assoc]. rewrite bool_decide_eq_false_2 by done. by rewrite Hd.
  - intros q Hq Hqd. rewrite !mem_dirs. simpl nodes. cbn [assoc]. rewrite bool_decide_eq_false_2 by done.
    rewrite children_cons, decide_False by done. done.
Qed.

Lemma view_create s d n m : is_name n -> assoc d (nodes s) = Some NDir -> assoc (child d n) (nodes s) = None ->
  exists ns, mem_view (set_nodes ((child d n, NFile m []) :: nodes s) s)
    = put_file (child d n) [] (put_dir d ns (mem_view s)).
Proof.
  intros Hn Hd Hc. destruct (view_new_node s d n (NFile m []) Hn Hd Hc) as (ns & Hns & Hq).
  exists ns. apply store_ext; try done.
  - intros q. rewrite mem_files, files_put_file. cbn [nodes set_nodes assoc]. case_bool_decide; case_decide; try done.
    by rewrite files_put_dir, mem_files.
  - intros q. rewrite dirs_put_file, dirs_put_dir. case_decide as Hqd; [by subst|].
    destruct (decide (q = child d n)) as [->|]; [|by apply Hq].
    rewrite !mem_dirs, Hc. cbn [nodes set_nodes assoc]. by rewrite bool_decide_eq_true_2.
Qed.

Lemma view_mkdir s d n : is_name n -> assoc d (nodes s) = Some NDir -> assoc (child d n) (nodes s) = None ->
  exists ns1 ns2, mem_view (set_nodes ((child d n, NDir) :: nodes s) s)
    = put_dir (child d n) ns1 (put_dir d ns2 (mem_view s)).
Proof.
  intros Hn Hd Hc. destruct (view_new_node s d n NDir Hn Hd Hc) as (ns & Hns & Hq).
  exists (lit "." :: lit ".." :: children (child d n) ((child d n, NDir) :: nodes s)), ns. apply store_ext; try done.
  - intros q. rewrite !files_put_dir, !mem_files. cbn [nodes set_nodes assoc].
    case_bool_decide; [|done]. subst. by rewrite Hc.
  - intros q. rewrite !dirs_put_dir. case_decide as Hqc.
    + subst. rewrite mem_dirs. cbn [nodes set_nodes assoc]. by rewrite bool_decide_eq_true_2.
    + case_decide as Hqd; [by subst|]. by apply Hq.
Qed.

Lemma opened_flags flags : flags = O_RDONLY \/ flags = O_WRONLY \/ flags = O_RDWR \/ flags = Z.lor O_CREAT O_RDWR \/
      flags = Z.lor O_RDWR O_SYNC ->
  has_bits flags 512 = false.
Proof. by intros [->|[->|[->|[->| ->]]]]. Qed.

Lemma fd_range s fd p off : mem_ok s -> zassoc fd (fds s) = Some (p, off) -> (fd =? dev_fd) = false.
Proof.
  intros (_ & Hf & _) E. apply Z.eqb_neq. intros ->.
  rewrite zassoc_map in E. apply elem_of_list_to_map_2 in E.
  pose proof (proj1 (Forall_forall _ _) Hf _ E). simpl in *. lia.
Qed.

Lemma fresh_fd s : mem_ok s -> zassoc (next_fd s) (fds s) = None /\ zassoc (next_fd s) (streams s) = None.
Proof.
  intros (_ & Hf & Hs). split; apply zassoc_fresh; [|done].
  eapply Forall_impl; [exact Hf|]. simpl. lia.
Qed.

(** The updates keep the descriptors in their range. *)
Lemma ok_new_fd s p : mem_ok s ->
  mem_ok (set_next (next_fd s + 1) (set_fds ((next_fd s, (p, 0)) :: fds s) s)).
Proof.
  intros (Hn & Hf & Hs). split_and!; cbn; [lia| |].
  - constructor; [simpl; lia|]. eapply Forall_impl; [exact Hf|]. simpl. lia.
  - eapply Forall_impl; [exact Hs|]. simpl. lia.
Qed.

Lemma ok_put_fd s fd x y : mem_ok s -> zassoc fd (fds s) = Some x ->
  mem_ok (set_fds ((fd, y) :: zremove fd (fds s)) s).
Proof.
  intros (Hn & Hf & Hs) E. split_and!; cbn; [done| |done]. constructor; [|by apply zremove_keys].
  rewrite zassoc_map in E. apply elem_of_list_to_map_2 in E.
  by apply (proj1 (Forall_forall _ _) Hf _ E).
Qed.

Lemma ok_drop_fd s fd : mem_ok s -> mem_ok (set_fds (zremove fd (fds s)) s).
Proof. intros (Hn & Hf & Hs). split_and!; cbn; [done|by apply zremove_keys|done]. Qed.

Lemma ok_new_stream s ns : mem_ok s ->
  mem_ok (set_next (next_fd s + 1) (set_streams ((next_fd s, ns) :: streams s) s)).
Proof.
  intros (Hn & Hf & Hs). split_and!; cbn; [lia| |].
  - eapply Forall_impl; [exact Hf|]. simpl. lia.
  - constructor; [simpl; lia|]. eapply Forall_impl; [exact Hs|]. simpl. lia.
Qed.

Lemma ok_put_stream s d x ns : mem_ok s -> zassoc d (streams s) = Some x ->
  mem_ok (set_streams ((d, ns) :: zremove d (streams s)) s).
Proof.
  intros (Hn & Hf & Hs) E. split_and!; cbn; [done|done|]. constructor; [|by apply zremove_keys].
  rewrite zassoc_map in E. apply elem_of_list_to_map_2 in E.
  by apply (proj1 (Forall_forall _ _) Hs _ E).
Qed.

Lemma ok_drop_stream s d : mem_ok s -> mem_ok (set_streams (zremove d (streams s)) s).
Proof. intros (Hn & Hf & Hs). split_and!; cbn; [done|done|by apply zremove_keys]. Qed.

(** The lookups in the hypotheses of the laws. *)
Lemma mem_file_inv s p data : files (mem_view s) !! p = Some data ->
  exists m, assoc p (nodes s) = Some (NFile m data).
Proof. rewrite mem_files. destruct (assoc p (nodes s)) as [[m d|]|]; try done. intros [= ->]. by exists m. Qed.

Lemma mem_dir_inv s p ns : dirs (mem_view s) !! p = Some ns ->
  assoc p (nodes s) = Some NDir /\ ns = lit "." :: lit ".." :: children p (nodes s).
Proof. rewrite mem_dirs. destruct (assoc p (nodes s)) as [[m d|]|]; try done. by intros [= <-]. Qed.

Lemma mem_none_inv s p : files (mem_view s) !! p = None -> dirs (mem_view s) !! p = None ->
  assoc p (nodes s) = None.
Proof. rewrite mem_files, mem_dirs. by destruct (assoc p (nodes s)) as [[m d|]|]. Qed.

Lemma mem_fd_inv s fd p off r w : open_fds (mem_view s) !! fd = Some (Fd p off r w) ->
  zassoc fd (fds s) = Some (p, off) /\ r = true /\ w = true.
Proof. rewrite mem_fds. destruct (zassoc fd (fds s)) as [[q o]|]; simpl; [|done]. by intros [= -> -> <- <-]. Qed.

Lemma put_dir_id d ns v : dirs v !! d = Some ns -> put_dir d ns v = v.
Proof. intros E. destruct v; unfold put_dir; simpl in *. by rewrite insert_id. Qed.

(** ** The laws *)

Abbreviation mem_moves := (@moves RoomyOS mem_ok mem_view).

(** The state after a call: the call computes to it. *)
Ltac step_to := eexists; split_and!; [cbn|..].

Lemma mem_open s p data flags mode : mem_ok s -> files (mem_view s) !! p = Some data ->
  flags = O_RDONLY \/ flags = O_WRONLY \/ flags = O_RDWR \/ flags = Z.lor O_CREAT O_RDWR \/
      flags = Z.lor O_RDWR O_SYNC ->
  exists fd e r w, 0 <= fd /\ open_fds (mem_view s) !! fd = None /\
    (flags <> O_WRONLY -> r = true) /\ (flags <> O_RDONLY -> w = true) /\
    mem_moves (Sys_open p flags mode) s (IRes fd e) (put_fd fd (Fd p 0 r w) (mem_view s)).
Proof.
  intros Hs Hp Hf. apply mem_file_inv in Hp as [m Hp].
  pose proof (opened_flags _ Hf) as H5. pose proof (fresh_fd s Hs) as [Hfr _].
  exists (next_fd s), 0, true, true. split_and!; try done;
    [destruct Hs; unfold dev_fd in *; lia|by rewrite mem_fds, Hfr|].
  step_to; [unfold do_open; by rewrite Hp, H5|by apply ok_new_fd|by rewrite <- view_new_fd].
Qed.

Lemma mem_create s d n ns flags mode : mem_ok s -> is_name n -> dirs (mem_view s) !! d = Some ns ->
  dirs (mem_view s) !! child d n = None ->
  flags = Z.lor (Z.lor O_TRUNC O_CREAT) O_WRONLY \/ flags = Z.lor (Z.lor O_TRUNC O_CREAT) O_RDWR ->
  exists fd e r ns', 0 <= fd /\ open_fds (mem_view s) !! fd = None /\
    mem_moves (Sys_open (child d n) flags mode) s (IRes fd e)
      (put_fd fd (Fd (child d n) 0 r true) (put_file (child d n) [] (put_dir d ns' (mem_view s)))).
Proof.
  intros Hs Hn Hd Hc Hf. pose proof (fresh_fd s Hs) as [Hfr _].
  assert (has_bits flags 512 = true /\ has_bits flags 64 = true) as [H5 H6] by (by destruct Hf as [->| ->]).
  assert (0 <= next_fd s) by (destruct Hs; unfold dev_fd in *; lia).
  destruct (assoc (child d n) (nodes s)) as [[m data|]|] eqn:E.
  - exists (next_fd s), 0, true, ns. split_and!; [done|by rewrite mem_fds, Hfr|]. rewrite put_dir_id by done.
    step_to; [unfold do_open; by rewrite E, H5|by apply (ok_new_fd (set_nodes _ s))|].
    rewrite <- (view_put_node s (child d n) m m data []) by done. by rewrite <- view_new_fd.
  - rewrite mem_dirs, E in Hc. done.
  - apply mem_dir_inv in Hd as [Hd _]. destruct (view_create s d n mode Hn Hd E) as [ns' Hv].
    exists (next_fd s), 0, true, ns'. split_and!; [done|by rewrite mem_fds, Hfr|].
    step_to; [unfold do_open; by rewrite E, H6|by apply (ok_new_fd (set_nodes _ s))|].
    by rewrite <- Hv, <- view_new_fd.
Qed.

Lemma mem_create_new s d n ns mode : mem_ok s -> is_name n -> dirs (mem_view s) !! d = Some ns ->
  files (mem_view s) !! child d n = None -> dirs (mem_view s) !! child d n = None ->
  exists fd e r ns', 0 <= fd /\ open_fds (mem_view s) !! fd = None /\
    mem_moves (Sys_open (child d n) (Z.lor O_CREAT O_RDWR) mode) s (IRes fd e)
      (put_fd fd (Fd (child d n) 0 r true) (put_file (child d n) [] (put_dir d ns' (mem_view s)))).
Proof.
  intros Hs Hn Hd Hf Hc. pose proof (fresh_fd s Hs) as [Hfr _]. pose proof (mem_none_inv _ _ Hf Hc) as E.
  assert (0 <= next_fd s) by (destruct Hs; unfold dev_fd in *; lia).
  apply mem_dir_inv in Hd as [Hd _]. destruct (view_create s d n mode Hn Hd E) as [ns' Hv].
  exists (next_fd s), 0, true, ns'. split_and!; [done|by rewrite mem_fds, Hfr|].
  step_to; [unfold do_open; by rewrite E|by apply (ok_new_fd (set_nodes _ s))|by rewrite <- Hv, <- view_new_fd].
Qed.

Lemma regular_mode m : Z.land (32768 + m mod 4096) 61440 = 32768.
Proof.
  assert (forallb (fun k => Z.land (32768 + Z.of_nat k) 61440 =? 32768) (seq 0 4096) = true) as Hall by (by vm_compute).
  pose proof (Z.mod_pos_bound m 4096 ltac:(done)). rewrite forallb_forall in Hall.
  specialize (Hall (Z.to_nat (m mod 4096))). rewrite Z2Nat.id in Hall by lia. apply Z.eqb_eq, Hall, in_seq. lia.
Qed.

Lemma mem_truncate s p data flags mode : mem_ok s -> files (mem_view s) !! p = Some data ->
  flags = Z.lor (Z.lor O_TRUNC O_CREAT) O_WRONLY \/ flags = Z.lor (Z.lor O_TRUNC O_CREAT) O_RDWR \/ flags = Z.lor O_TRUNC O_RDWR ->
  exists fd e r, 0 <= fd /\ open_fds (mem_view s) !! fd = None /\
    mem_moves (Sys_open p flags mode) s (IRes fd e) (put_fd fd (Fd p 0 r true) (put_file p [] (mem_view s))).
Proof.
  intros Hs Hp Hf. pose proof (fresh_fd s Hs) as [Hfr _]. apply mem_file_inv in Hp as [m E].
  assert (has_bits flags 512 = true) as H5 by (by destruct Hf as [->|[->| ->]]).
  exists (next_fd s), 0, true. split_and!; [destruct Hs; unfold dev_fd in *; lia|by rewrite mem_fds, Hfr|].
  step_to; [unfold do_open; by rewrite E, H5|by apply (ok_new_fd (set_nodes _ s))|].
  rewrite <- (view_put_node s p m m data []) by done. by rewrite <- view_new_fd.
Qed.

Lemma mem_read s fd n p off w data : mem_ok s -> open_fds (mem_view s) !! fd = Some (Fd p off true w) ->
  files (mem_view s) !! p = Some data ->
  mem_moves (Sys_read fd n) s (RData (read_at data off n))
    (put_fd fd (Fd p (off + zlen (read_at data off n)) true w) (mem_view s)).
Proof.
  intros Hs Hfd Hp. apply mem_fd_inv in Hfd as (Hfd & _ & ->). apply mem_file_inv in Hp as [m Hp].
  step_to; [unfold do_read; by rewrite (fd_range _ _ _ _ Hs Hfd), Hfd, Hp|by eapply ok_put_fd|by rewrite <- view_put_fd].
Qed.

Lemma mem_write s fd bs p off r data : mem_ok s -> open_fds (mem_view s) !! fd = Some (Fd p off r true) ->
  files (mem_view s) !! p = Some data ->
  exists e, mem_moves (Sys_write fd bs) s (IRes (zlen bs) e)
    (put_fd fd (Fd p (off + zlen bs) r true) (put_file p (write_at data off bs) (mem_view s))).
Proof.
  intros Hs Hfd Hp. apply mem_fd_inv in Hfd as (Hfd & -> & _). apply mem_file_inv in Hp as [m Hp].
  exists 0. step_to; [unfold do_write; by rewrite (fd_range _ _ _ _ Hs Hfd), Hfd, Hp| |].
  - by eapply (ok_put_fd (set_nodes _ s)).
  - rewrite <- (view_put_node s p m m data) by done. by rewrite <- view_put_fd.
Qed.

Lemma mem_pread s fd n p off off' w data : mem_ok s -> open_fds (mem_view s) !! fd = Some (Fd p off true w) ->
  files (mem_view s) !! p = Some data ->
  mem_moves (Sys_pread fd n off') s (RData (read_at data off' n)) (mem_view s).
Proof.
  intros Hs Hfd Hp. apply mem_fd_inv in Hfd as (Hfd & _ & _). apply mem_file_inv in Hp as [m Hp].
  step_to; [unfold do_pread; by rewrite Hfd, Hp|done|done].
Qed.

Lemma mem_pwrite s fd bs p off off' r data : mem_ok s -> open_fds (mem_view s) !! fd = Some (Fd p off r true) ->
  files (mem_view s) !! p = Some data ->
  exists e, mem_moves (Sys_pwrite fd bs off') s (IRes (zlen bs) e) (put_file p (write_at data off' bs) (mem_view s)).
Proof.
  intros Hs Hfd Hp. apply mem_fd_inv in Hfd as (Hfd & _ & _). apply mem_file_inv in Hp as [m Hp].
  exists 0. step_to; [unfold do_pwrite; by rewrite Hfd, Hp|done|by rewrite <- (view_put_node s p m m data)].
Qed.

Lemma mem_seek s fd p off r w off' size : mem_ok s -> open_fds (mem_view s) !! fd = Some (Fd p off r w) ->
  match assoc p (nodes s) with Some (NFile _ d) => zlen d | _ => 0 end = size -> 0 <= off' ->
  (exists e, mem_moves (Sys_lseek fd off' SEEK_SET) s (IRes off' e) (put_fd fd (Fd p off' r w) (mem_view s))) /\
  (forall d, 0 <= size + d -> exists e, mem_moves (Sys_lseek fd d SEEK_END) s (IRes (size + d) e)
    (put_fd fd (Fd p (size + d) r w) (mem_view s))).
Proof.
  intros Hs Hfd Hsz Ho. apply mem_fd_inv in Hfd as (Hfd & -> & ->). split; [|intros d Hd]; exists 0.
  - step_to; [unfold do_lseek; rewrite Hfd; cbn; by destruct (Z.ltb_spec off' 0); [lia|]
      |by eapply ok_put_fd|by rewrite <- view_put_fd].
  - step_to; [unfold do_lseek; rewrite Hfd, Hsz; cbn; by destruct (Z.ltb_spec (size + d) 0); [lia|]
      |by eapply ok_put_fd|by rewrite <- view_put_fd].
Qed.

#[export] Instance MemStore : @FileStore RoomyOS.
Proof.
  unshelve eapply (@Build_FileStore RoomyOS mem_ok mem_view).
  - apply mem_open.
  - intros s p flags mode Hs Hf Hd [->| ->]; pose proof (mem_none_inv _ _ Hf Hd) as E; eexists;
      (step_to; [unfold do_open; by rewrite E|done|done]).
  - apply mem_create.
  - apply mem_create_new.
  - apply mem_truncate.
  - intros s fd [p off r w] Hs Hfd. apply mem_fd_inv in Hfd as (Hfd & _ & _). eexists.
    step_to; [by rewrite Hfd|by apply ok_drop_fd|by rewrite <- view_drop_fd].
  - intros s fd x Hs _. eexists. by step_to.
  - intros s fd n p off w data Hs _ _. by apply mem_read.
  - intros s fd bs p off r data Hs _. by apply mem_write.
  - intros s fd p off r w off' Hs Ho Hfd.
    by eapply (mem_seek s fd p off r w off').
  - intros s fd p off r w data d Hs Hfd Hp. apply mem_file_inv in Hp as [m Hp].
    eapply (mem_seek s fd p off r w 0); try done. by rewrite Hp.
  - intros s fd n p off off' w data Hs _ _. by apply (mem_pread s fd n p off).
  - intros s fd bs p off off' r data Hs _. by apply (mem_pwrite s fd bs p off).
  - intros s p data Hs Hp. apply mem_file_inv in Hp as [m Hp].
    eexists _, _. split_and!; [| |step_to; [by rewrite Hp|done|done]]; [done|apply regular_mode].
  - intros s fd p off r w data Hs Hfd Hp. apply mem_file_inv in Hp as [m Hp]. apply mem_fd_inv in Hfd as (Hfd & _ & _).
    eexists _, _. split; [|step_to; [by rewrite Hfd, Hp|done|done]]. done.
  - intros s p ns Hs _ Hp. apply mem_dir_inv in Hp as [Hp ->]. pose proof (fresh_fd s Hs) as [_ Hfr].
    exists (next_fd s), 0. split_and!; [destruct Hs; unfold dev_fd in *; lia|by rewrite mem_streams|].
    step_to; [by rewrite Hp|by apply ok_new_stream|by rewrite <- view_new_stream].
  - intros s p Hs Hp. rewrite mem_dirs in Hp. eexists. step_to; [by destruct (assoc p (nodes s)) as [[]|]|done|done].
  - intros s d ns Hs Hd. rewrite mem_streams in Hd. destruct ns as [|n ns].
    + step_to; [by rewrite Hd|done|]. symmetry. apply store_ext; try done. intros k. rewrite streams_put, !mem_streams.
      by case_decide; subst.
    + step_to; [by rewrite Hd|by eapply ok_put_stream|by rewrite <- view_put_stream].
  - intros s d ns Hs Hd. rewrite mem_streams in Hd. eexists.
    step_to; [by rewrite Hd|by apply ok_drop_stream|by rewrite <- view_drop_stream].
  - intros s p Hs _. eexists. split; [step_to; [done|done|done]|]. rewrite mem_files, mem_dirs.
    destruct (assoc p (nodes s)) as [[]|]; simpl; split; try done; try (by eauto); by intros [[? ?]|[? ?]].
  - intros s d n ns mode Hs Hn Hd Hf Hc. apply mem_dir_inv in Hd as [Hd _].
    pose proof (mem_none_inv _ _ Hf Hc) as E. destruct (view_mkdir s d n Hn Hd E) as (ns1 & ns2 & Hv).
    exists 0, ns1, ns2. step_to; [by rewrite E|done|by rewrite <- Hv].
  - intros T c s Hs Hc. destruct c; try done; (eexists; step_to; [done|done|done]).
  - intros s n Hs. by step_to.
Defined.
