(* ===== verification/NvTypes.v ===== *)
(** * libnvram: constants, headers and globals of the archive

    The NVRAM partition is backed up as an archive of two files, the map
    [AllMap] (checksum, a header with the number of files of each kind, a title
    for each file) and [AllFile] (the contents, one after the other).  This
    file holds the data of libfile_op.h and the static variables of libfile_op.c
    that the archive uses.

    The header has five layouts, of which the modems of the platform select one.
    It is the bytes of its structure here: the code writes it shortened by its
    last fields, and on some platforms moves fields in it.  What other
    libraries say of the platform is the class [NvPlatform]. *)
From S2P Require Import Prelude Posix.

(** ** The platform *)

(** The modems ([nvram_md5_support ()] and so on), the variables of libnvram, the
    tables of libcustom_nvram (file names, with the numbers of their records), and
    the group ids of android_filesystem_config.h. *)
Class NvPlatform := {
  nvram_md5_support : bool;
  nvram_evdo_support : bool;
  nvram_ecci_c2k_support : bool;
  nvram_platform_header_offset : Z;
  g_i4CFG_File_Count : Z;
  g_i4CFG_File_Custom_Count : Z;
  aBackupToBinRegion : list (list Z * Z);
  aPerformance : list (list Z * Z);
  g_NVRAM_BACKUP_DEVICE : list Z;
  AID_SYSTEM : Z;
  AID_AUDIO : Z;
  AID_BLUETOOTH : Z
}.

(** ** Constants *)

Definition MAX_NAMESIZE : Z := 128.
Definition Loop_num : Z := 4096.
Definition INVALID_HANDLE_VALUE : Z := -1.
Definition SHRT_MAX : Z := 32767.
Definition INT_MAX : Z := 2147483647.

(** [S_IRUSR | S_IWUSR | S_IRGRP | S_IWGRP] *)
Definition S_IRW_UG : Z := 432.

Definition g_nvram_path_prefix : list Z := lit "/mnt/vendor/nvdata/".
Definition g_pcNVM_AllFile : list Z := lit "/mnt/vendor/nvdata/AllFile".
Definition g_pcNVM_AllMap : list Z := lit "/mnt/vendor/nvdata/AllMap".
Definition g_pcNVM_AllFile_Check : list Z := lit "/mnt/vendor/nvdata/AllFileCheck".
Definition g_pcNVM_AllMap_Check : list Z := lit "/mnt/vendor/nvdata/AllMapCheck".
Definition g_pcNVM_Flag : list Z := lit "/mnt/vendor/nvdata/RestoreFlag".

(** ** Kinds of files *)

Inductive MetaData :=
| APBOOT | APCLN | MDBOOT | MDCLN | MDIMP | MDCOR | MDDATA
| MD2BOOT | MD2CLN | MD2IMP
| MD5BOOT | MD5CLN | MD5IMP
| VIA
| MD3BOOT | MD3CLN | MD3IMP
| ALL.

#[export] Instance MetaData_eq_dec : EqDecision MetaData.
Proof. solve_decision. Defined.

(** The values of the enumeration, in order; [ALL] is their number. *)
Definition kinds : list MetaData :=
  [APBOOT; APCLN; MDBOOT; MDCLN; MDIMP; MDCOR; MDDATA; MD2BOOT; MD2CLN; MD2IMP;
   MD5BOOT; MD5CLN; MD5IMP; VIA; MD3BOOT; MD3CLN; MD3IMP].

Fixpoint index_in (t : MetaData) (l : list MetaData) : Z :=
  match l with
  | [] => 0
  | t' :: l' => if decide (t = t') then 0 else 1 + index_in t l'
  end.

Definition kind_value (t : MetaData) : Z := index_in t kinds.

Definition kind_of_value (e : Z) : option MetaData :=
  if (e <? 0) then None else (kinds ++ [ALL]) !! Z.to_nat e.

(** The directory of a kind. *)
Definition kind_dir (t : MetaData) : list Z :=
  match t with
  | APBOOT => lit "/mnt/vendor/nvdata/APCFG/APRDEB"
  | APCLN => lit "/mnt/vendor/nvdata/APCFG/APRDCL"
  | MDBOOT => lit "/mnt/vendor/nvdata/md/NVRAM/NVD_IMEI"
  | MDCLN => lit "/mnt/vendor/nvdata/md/NVRAM/CALIBRAT"
  | MDIMP => lit "/mnt/vendor/nvdata/md/NVRAM/IMPORTNT"
  | MDCOR => lit "/mnt/vendor/nvdata/md/NVRAM/NVD_CORE"
  | MDDATA => lit "/mnt/vendor/nvdata/md/NVRAM/NVD_DATA"
  | MD2BOOT => lit "/mnt/vendor/nvdata/md2/NVRAM/NVD_IMEI"
  | MD2CLN => lit "/mnt/vendor/nvdata/md2/NVRAM/CALIBRAT"
  | MD2IMP => lit "/mnt/vendor/nvdata/md2/NVRAM/IMPORTNT"
  | MD5BOOT => lit "/mnt/vendor/nvdata/md5/NVRAM/NVD_IMEI"
  | MD5CLN => lit "/mnt/vendor/nvdata/md5/NVRAM/CALIBRAT"
  | MD5IMP => lit "/mnt/vendor/nvdata/md5/NVRAM/IMPORTNT"
  | VIA => lit "/mnt/vendor/nvdata/md_via"
  | MD3BOOT => lit "/mnt/vendor/nvdata/md3/NVRAM/NVD_IMEI"
  | MD3CLN => lit "/mnt/vendor/nvdata/md3/NVRAM/CALIBRAT"
  | MD3IMP => lit "/mnt/vendor/nvdata/md3/NVRAM/IMPORTNT"
  | ALL => []
  end.

(** ** The header of the map *)

(** [File_Title_Header1] to [File_Title_Header5]: lists of fields, the numbers of
    files (short) and two ints, placed at their alignment. *)
Inductive layout := H1 | H2 | H3 | H4 | H5.

Inductive field := Num (t : MetaData) | iFileBufLen | BackupFlag.

#[export] Instance field_eq_dec : EqDecision field.
Proof. solve_decision. Defined.

Definition fields (l : layout) : list field :=
  let common := Num <$> [APBOOT; APCLN; MDBOOT; MDCLN; MDIMP; MDCOR; MDDATA; MD2BOOT; MD2CLN; MD2IMP] in
  let md5 := Num <$> [MD5BOOT; MD5CLN; MD5IMP] in
  let md3 := Num <$> [MD3BOOT; MD3CLN; MD3IMP] in
  let bufs := [iFileBufLen; BackupFlag] in
  match l with
  | H1 => common ++ md5 ++ [Num VIA] ++ bufs
  | H2 => common ++ md5 ++ bufs ++ [Num VIA]
  | H3 => common ++ [Num VIA] ++ bufs ++ md5
  | H4 => common ++ bufs ++ md5 ++ [Num VIA]
  | H5 => common ++ md5 ++ md3 ++ bufs
  end.

Definition field_size (f : field) : Z := match f with Num _ => 2 | _ => 4 end.

Definition align_up (x a : Z) : Z := (x + a - 1) / a * a.

(** The offset of a field in a structure, when the fields from [off] on are
    [fs], and the end of its last field. *)
Fixpoint place (off : Z) (fs : list field) (f : field) : option Z :=
  match fs with
  | [] => None
  | f' :: fs' =>
      let o := align_up off (field_size f') in
      if decide (f = f') then Some o else place (o + field_size f') fs' f
  end.

Fixpoint place_end (off : Z) (fs : list field) : Z :=
  match fs with
  | [] => off
  | f :: fs' => place_end (align_up off (field_size f) + field_size f) fs'
  end.

Definition offsetof (l : layout) (f : field) : option Z := place 0 (fields l) f.

Definition sizeof_header (l : layout) : Z := align_up (place_end 0 (fields l)) 4.

(** What the code leaves out at the end of a header: "in order to align". *)
Definition unaligned_tail (l : layout) : Z :=
  match l with H1 => 0 | H2 => 2 * 2 | H3 => 4 * 2 | H4 => 4 * 2 | H5 => 0 end.

(** A [short] of the header. *)
Definition i16 (x : Z) : Z := (x + 2 ^ 15) mod 2 ^ 16 - 2 ^ 15.

Definition get_num (l : layout) (h : list Z) (t : MetaData) : Z :=
  match offsetof l (Num t) with
  | Some o => match mread h o 2 with Some bs => i16 (le_value bs) | None => 0 end
  | None => 0
  end.

(** [header.iXxxNum = n] *)
Definition set_num (l : layout) (t : MetaData) (n : Z) (h : list Z) : list Z :=
  match offsetof l (Num t) with
  | Some o => default h (mwrite h o (le_bytes 2 n))
  | None => h
  end.

(** ** Titles *)

(** [sizeof (File_Title)]: three ints and the name. *)
Definition sizeof_File_Title : Z := 140.

Definition title_bytes (start size : Z) (cFileName : list Z) : list Z :=
  le32 7 ++ le32 start ++ le32 size ++ cFileName.

Definition title_start (t : list Z) : Z := i32 (de32 (take 4 (drop 4 t))).
Definition title_size (t : list Z) : Z := i32 (de32 (take 4 (drop 8 t))).
Definition title_name (t : list Z) : list Z := drop 12 t.

(** ** Globals *)

Record BackupFileInfo := BackupInfo {
  ulCheckSum : Z;
  iCommonFileNum : Z;
  iCustomFileNum : Z
}.

(** The static variables; the third and fourth are those of
    [fix_legacy_nvram_path_in_binregion], the others are of the backup partition.
    [bBadBlockBitMap] is a pointer, to what [malloc] gave. *)
Record nvram := Nvram {
  gFileStartAddr : Z;
  stBackupFileInfo : BackupFileInfo;
  is_check_legacy_path : bool;
  legacy_path_index : Z;
  BinRegionBlockTotalNum : Z;
  NvRamBlockNum : Z;
  bBadBlockBitMap : Z
}.

Definition set_gFileStartAddr (v : Z) (g : nvram) : nvram :=
  Nvram v (stBackupFileInfo g) (is_check_legacy_path g) (legacy_path_index g)
    (BinRegionBlockTotalNum g) (NvRamBlockNum g) (bBadBlockBitMap g).
Definition set_stBackupFileInfo (v : BackupFileInfo) (g : nvram) : nvram :=
  Nvram (gFileStartAddr g) v (is_check_legacy_path g) (legacy_path_index g)
    (BinRegionBlockTotalNum g) (NvRamBlockNum g) (bBadBlockBitMap g).
Definition set_legacy (checked : bool) (i : Z) (g : nvram) : nvram :=
  Nvram (gFileStartAddr g) (stBackupFileInfo g) checked i
    (BinRegionBlockTotalNum g) (NvRamBlockNum g) (bBadBlockBitMap g).
Definition set_block_nums (total n : Z) (g : nvram) : nvram :=
  Nvram (gFileStartAddr g) (stBackupFileInfo g) (is_check_legacy_path g) (legacy_path_index g)
    total n (bBadBlockBitMap g).
Definition set_bBadBlockBitMap (p : Z) (g : nvram) : nvram :=
  Nvram (gFileStartAddr g) (stBackupFileInfo g) (is_check_legacy_path g) (legacy_path_index g)
    (BinRegionBlockTotalNum g) (NvRamBlockNum g) p.

Definition static_nvram : nvram := Nvram 0 (BackupInfo 0 0 0) false (-1) 0 0 0.

(** The structures have the sizes and offsets of the C compiler. *)
Example header_sizes : sizeof_header <$> [H1; H2; H3; H4; H5] = [36; 40; 40; 36; 40].
Proof. reflexivity. Qed.

Example via_offsets : (fun l => offsetof l (Num VIA)) <$> [H1; H2; H3; H4; H5]
  = [Some 26; Some 36; Some 20; Some 34; None].
Proof. reflexivity. Qed.

Example buflen_offsets : (fun l => offsetof l iFileBufLen) <$> [H1; H2; H3; H4; H5]
  = [Some 28; Some 28; Some 24; Some 20; Some 32].
Proof. reflexivity. Qed.
