(* ===== verification/NvFiles.v ===== *)
(** * libnvram: the checksum of the archive, putting files in and taking them out

    The checksum of [AllFile] - its words, exclusive-ored and added in turn, and
    the bytes left over - in the two versions of the code, one that reads 4096
    words at a time and one that reads them one by one; and its place at the
    start of [AllMap], with the numbers of NVRAM records of the build. *)
From S2P Require Import Prelude Posix NvTypes.

(** ** The sum *)

(** The words of a buffer. *)
Fixpoint words (bs : list Z) : list Z :=
  match bs with
  | a :: b :: c :: d :: bs' => de32 [a; b; c; d] :: words bs'
  | _ => []
  end.

(** [flag] and [ulCheckSum]. *)
Definition sum_word (acc : bool * Z) (w : Z) : bool * Z :=
  let '(flag, ulCheckSum) := acc in
  if flag then (false, Z.lxor ulCheckSum w) else (true, u32 (ulCheckSum + w)).

Section Sum.
Context `{OS}.
Abbreviation P := (prog nvram).

(** The bytes after the last word. *)
Definition sum_rest (fd iFileSize ulCheckSum : Z) : P Z :=
  let iLength := iFileSize mod 4 in
  r ← psys (Sys_read fd iLength);
  _ ← psys (Sys_close fd);
  if negb (rres_rv r =? iLength) then mret 0
  else mret (u32 (ulCheckSum + le_value (rres_data r))).

(** [n] rounds are left; the last one reads what a full round does not. *)
Fixpoint sum_chunks (fd looptime : Z) (n : nat) (acc : bool * Z) : P (option Z) :=
  match n with
  | O => mret (Some acc.2)
  | S n' =>
      let jloop_num := match n' with O => looptime mod Loop_num | S _ => Loop_num end in
      r ← psys (Sys_read fd (jloop_num * 4));
      if negb (rres_rv r =? jloop_num * 4) then mret None
      else sum_chunks fd looptime n' (fold_left sum_word (words (rres_data r)) acc)
  end.

Definition FileOp_ComputeCheckSum : P Z :=
  '(r, st) ← psys (Sys_stat g_pcNVM_AllFile);
  if rv r <? 0 then mret 0
  else
    let iFileSize := u32 (st_size st) in
    let looptime := iFileSize / 4 in
    let tmplooptime := looptime / Loop_num + 1 in
    fd ← psys (Sys_open g_pcNVM_AllFile O_RDWR 0);
    if rv fd <? 0 then mret 0
    else
      res ← sum_chunks (rv fd) looptime (Z.to_nat tmplooptime) (true, 0);
      match res with
      | None => _ ← psys (Sys_close (rv fd)); mret 0
      | Some ulCheckSum => sum_rest (rv fd) iFileSize ulCheckSum
      end.

Fixpoint sum_words (fd : Z) (n : nat) (acc : bool * Z) : P (option Z) :=
  match n with
  | O => mret (Some acc.2)
  | S n' =>
      r ← psys (Sys_read fd 4);
      if negb (rres_rv r =? 4) then mret None
      else sum_words fd n' (sum_word acc (le_value (rres_data r)))
  end.

Definition FileOp_ComputeReadBackCheckSum : P Z :=
  '(r, st) ← psys (Sys_stat g_pcNVM_AllFile_Check);
  if rv r <? 0 then mret 0
  else
    let iFileSize := u32 (st_size st) in
    fd ← psys (Sys_open g_pcNVM_AllFile_Check O_RDWR 0);
    if rv fd <? 0 then mret 0
    else
      res ← sum_words (rv fd) (Z.to_nat (iFileSize / 4)) (true, 0);
      match res with
      | None => _ ← psys (Sys_close (rv fd)); mret 0
      | Some ulCheckSum => sum_rest (rv fd) iFileSize ulCheckSum
      end.

(** ** The checksum in the map *)

(** [read] into an [unsigned int]: the result, and the variable afterwards. *)
Definition read_word (fd old : Z) : P (Z * Z) :=
  r ← psys (Sys_read fd 4);
  let bs := rres_data r in
  mret (rres_rv r, le_value (bs ++ drop (length bs) (le32 old))).

Definition FileOp_GetCheckSum : P bool :=
  fd ← psys (Sys_open g_pcNVM_AllMap O_RDONLY 0);
  if rv fd <? 0 then mret false
  else
    let failed := _ ← psys (Sys_close (rv fd)); mret false in
    g ← pget;
    '(n, v) ← read_word (rv fd) (ulCheckSum (stBackupFileInfo g));
    pmod (fun g => let i := stBackupFileInfo g in
      set_stBackupFileInfo (BackupInfo v (iCommonFileNum i) (iCustomFileNum i)) g);;
    if negb (n =? 4) then failed
    else
      '(n, v) ← read_word (rv fd) (iCommonFileNum (stBackupFileInfo g));
      pmod (fun g => let i := stBackupFileInfo g in
        set_stBackupFileInfo (BackupInfo (ulCheckSum i) v (iCustomFileNum i)) g);;
      if negb (n =? 4) then failed
      else
        '(n, v) ← read_word (rv fd) (iCustomFileNum (stBackupFileInfo g));
        pmod (fun g => let i := stBackupFileInfo g in
          set_stBackupFileInfo (BackupInfo (ulCheckSum i) (iCommonFileNum i) v) g);;
        if negb (n =? 4) then failed
        else
          _ ← psys (Sys_close (rv fd));
          mret true.

Definition FileOp_SetCheckSum `{NvPlatform} (ulCheckSum : Z) : P bool :=
  g ← pget;
  let ulCheckSum := Z.lxor ulCheckSum (gFileStartAddr g) in
  pmod (set_gFileStartAddr 0);;
  fd ← psys (Sys_open g_pcNVM_AllMap O_WRONLY 0);
  if rv fd <? 0 then mret false
  else
    let failed := _ ← psys (Sys_close (rv fd)); mret false in
    r ← psys (Sys_write (rv fd) (le32 ulCheckSum));
    if negb (rv r =? 4) then failed
    else
      r ← psys (Sys_write (rv fd) (le32 g_i4CFG_File_Count));
      if negb (rv r =? 4) then failed
      else
        r ← psys (Sys_write (rv fd) (le32 g_i4CFG_File_Custom_Count));
        if negb (rv r =? 4) then failed
        else
          _ ← psys (Sys_close (rv fd));
          mret true.

Definition FileOp_CompareCheckSum (ulCheckSum1 ulCheckSum2 : Z) : bool := ulCheckSum1 =? ulCheckSum2.
End Sum.

(** ** libnvram: putting files into the archive and taking them out

    [FileOp_MakeFile] appends a file to [AllFile] and its title to [AllMap];
    [FileOp_RestoreFromFiles] creates the files of one kind from them, with the
    directories above ([open_file_with_dirs]), under the present path of the NVRAM
    when the archive is of an older build ([fix_legacy_nvram_path_in_binregion]).

    The names in the archive are arrays of [MAX_NAMESIZE] bytes; a C string is
    what they hold up to the first NUL. *)

(** [strstr (s, t) != NULL] *)
Fixpoint strstr (s t : list Z) : bool :=
  starts_with t s || match s with [] => false | _ :: s' => strstr s' t end.

Definition S_ISDIR (mode : Z) : bool := Z.land mode 61440 =? S_IFDIR.

(** The longest path of the kernel, with its terminator. *)
Definition PATH_MAX : Z := 4096.

Definition legacy_nvram_path_prefix : list (list Z) := [lit "/vendor/nvdata/"; lit "/data/nvram/"].

(** The index of the first prefix of [path], from [i] on. *)
Fixpoint find_prefix (path : list Z) (i : Z) (ps : list (list Z)) : Z :=
  match ps with
  | [] => -1
  | p :: ps' => if starts_with p path then i else find_prefix path (i + 1) ps'
  end.

Section Files.
Context `{OS} `{NvPlatform}.
Abbreviation P := (prog nvram).

(** The string in the array afterwards. *)
Definition fix_legacy_nvram_path_in_binregion (path : list Z) : P (list Z) :=
  g ← pget;
  pwhen (negb (is_check_legacy_path g))
    (pmod (set_legacy true (find_prefix (cstring path) 0 legacy_nvram_path_prefix)));;
  g ← pget;
  if legacy_path_index g =? -1 then mret (cstring path)
  else
    let prefix := nth (Z.to_nat (legacy_path_index g)) legacy_nvram_path_prefix [] in
    let path_suffix := take 127 (cstring (drop (length prefix) path)) in
    mret (take 127 (g_nvram_path_prefix ++ path_suffix)).

(** ** Creating a file *)

Definition change_group (tmp : list Z) : P unit :=
  let gid :=
    if strstr tmp (lit "/media") then AID_AUDIO
    else if strstr tmp (lit "BT_Addr") then AID_BLUETOOTH
    else AID_SYSTEM in
  _ ← psys (Sys_chown tmp (-1) gid);
  mret tt.

(** One directory: [false] is the return of -1. *)
Definition make_dir (tmp : list Z) : P bool :=
  a ← psys (Sys_access tmp F_OK);
  if rv a =? 0 then mret true
  else
    m ← psys (Sys_mkdir tmp 505);
    if (rv m =? -1) && negb (eno m =? EEXIST) then mret false
    else
      '(val, _) ← psys (Sys_stat tmp);
      pwhen (rv val =? 0) (change_group tmp);;
      mret true.

Fixpoint make_dirs (tmp fn : list Z) : P bool :=
  if PATH_MAX <=? zlen tmp then phalt OutOfBounds
  else
    match fn with
    | [] => mret true
    | c :: fn' =>
        ok ← (if (c =? chr_slash) && (0 <? zlen tmp) then make_dir tmp else mret true);
        if ok : bool then make_dirs (tmp ++ [c]) fn' else mret false
    end.

Definition open_file_with_dirs (fn : list Z) (mode : Z) : P Z :=
  _ ← psys (Sys_umask 0);
  ok ← make_dirs [] fn;
  if negb ok then mret (-1)
  else
    filedesc ← psys (Sys_open fn (Z.lor (Z.lor O_TRUNC O_CREAT) O_WRONLY) mode);
    pwhen (negb (rv filedesc =? -1)) (
      '(val, info) ← psys (Sys_stat fn);
      pwhen (rv val =? 0) (
        change_group fn;;
        pwhen (negb (S_ISDIR (st_mode info))) (_ ← psys (Sys_chmod fn mode); mret tt)));;
    mret (rv filedesc).

(** ** Appending a file to the archive *)

Definition close_if (fd : Z) : P unit :=
  pwhen (negb (fd =? -1)) (_ ← psys (Sys_close fd); mret tt).

(** The copy: [n] chunks of 1024 bytes hold the [iFileSize] bytes left. *)
Fixpoint copy_chunks (iSrc iDst : Z) (n : nat) (iFileSize : Z) : P bool :=
  match n with
  | O => mret true
  | S n' =>
      let iWriteSize := Z.min iFileSize 1024 in
      r ← psys (Sys_read iSrc iWriteSize);
      if negb (rres_rv r =? iWriteSize) then mret false
      else
        r2 ← psys (Sys_write iDst (rres_data r));
        if negb (rv r2 =? iWriteSize) then mret false
        else copy_chunks iSrc iDst n' (iFileSize - iWriteSize)
  end.

(** The label [EXIT]. *)
Definition make_exit (iSrc file map FileInfo : Z) (bRet : bool) (nums : Z * Z) : P (bool * (Z * Z)) :=
  close_if iSrc;;
  close_if file;;
  close_if map;;
  pfree FileInfo;;
  mret (bRet, nums).

(** The title of the file just copied. *)
Definition make_title (src : list Z) (map FileInfo size : Z) : P unit :=
  g ← pget;
  let title := title_bytes (gFileStartAddr g) size src in
  pstore FileInfo title;;
  _ ← psys (Sys_write map title);
  pmod (set_gFileStartAddr (u32 (gFileStartAddr g + size))).

(** [src] is the array of the caller; the result has the new [*iFileNum] and
    [*FileSize]. *)
Definition FileOp_MakeFile (src : list Z) (iFileNum FileSize : Z) : P (bool * (Z * Z)) :=
  fileo ← psys (Sys_open g_pcNVM_AllFile O_RDWR 0);
  mapo ← psys (Sys_open g_pcNVM_AllMap O_RDWR 0);
  let file := rv fileo in
  let map := rv mapo in
  let failed := mret (false, (iFileNum, FileSize)) in
  if file =? INVALID_HANDLE_VALUE then close_if map;; failed
  else if map =? INVALID_HANDLE_VALUE then close_if file;; failed
  else
    s ← psys (Sys_lseek file 0 SEEK_END);
    if rv s =? -1 then close_if file;; close_if map;; failed
    else
      s ← psys (Sys_lseek map 0 SEEK_END);
      if rv s =? -1 then close_if file;; close_if map;; failed
      else
        srco ← psys (Sys_open (cstring src) O_RDONLY 0);
        let iSrc := rv srco in
        if iSrc =? -1 then make_exit iSrc file map 0 false (iFileNum, FileSize)
        else
          '(_, statbuf) ← psys (Sys_fstat iSrc);
          let size := i32 (st_size statbuf) in
          if size =? 0 then make_exit iSrc file map 0 false (iFileNum, size)
          else
            ok ← copy_chunks iSrc file (Z.to_nat ((size + 1023) / 1024)) size;
            if negb ok then make_exit iSrc file map 0 false (iFileNum, size)
            else
              FileInfo ← pmalloc sizeof_File_Title;
              if FileInfo =? 0 then
                close_if file;; close_if map;; close_if iSrc;; mret (false, (iFileNum, size))
              else
                make_title src map FileInfo size;;
                make_exit iSrc file map FileInfo true (u32 (iFileNum + 1), size).

(** ** The layout in use *)

Definition header_layout : layout :=
  if nvram_md5_support && nvram_evdo_support && negb nvram_ecci_c2k_support then H1
  else if nvram_md5_support && negb nvram_evdo_support && negb nvram_ecci_c2k_support then H2
  else if negb nvram_md5_support && nvram_evdo_support && negb nvram_ecci_c2k_support then H3
  else if negb nvram_md5_support && negb nvram_evdo_support && negb nvram_ecci_c2k_support then H4
  else H5.

(** The bytes of the header that are read from the map. *)
Definition header_read : Z := sizeof_header header_layout - unaligned_tail header_layout.

(** [fhs] and [fis]: where the titles start, and the size of one. *)
Definition fhs : Z :=
  4 + 2 * 4 + header_read -
  (if nvram_platform_header_offset =? 0 then 0 else nvram_platform_header_offset * 2).

Definition fis : Z := sizeof_File_Title.

Definition sum_nums (l : layout) (h : list Z) (ts : list MetaData) : Z :=
  foldr (fun t acc => get_num l h t + acc) 0 ts.

(** The kinds in front of a kind, as the sums of the code list them. *)
Definition before (t : MetaData) : list MetaData :=
  List.filter (fun t' => negb (bool_decide (t' = VIA))) (take (Z.to_nat (kind_value t)) kinds).

(** The number of files of the kind and the offset of its first title: the
    [switch] of [FileOp_RestoreFromFiles].  The branches of a case for the five
    layouts differ in the layout only, except that with a header offset VIA is
    looked up in [FileTitleInfo3], read or not. *)
Definition restore_select (h : list Z) (t : MetaData) : Z * Z :=
  let l := header_layout in
  let here := (get_num l h t, fhs + sum_nums l h (before t) * fis) in
  let unmoved := nvram_platform_header_offset =? 0 in
  match t with
  | APBOOT | APCLN | MDBOOT | MDCLN | MDIMP | MDCOR | MDDATA => here
  | MD2BOOT | MD2CLN | MD2IMP => if unmoved then here else (0, 0)
  | MD5BOOT | MD5CLN | MD5IMP => if unmoved && nvram_md5_support then here else (0, 0)
  | VIA =>
      if nvram_evdo_support && negb nvram_ecci_c2k_support then
        if unmoved then here
        else
          let h3 := match l with H3 => h | _ => replicate (Z.to_nat (sizeof_header H3)) 0 end in
          (get_num H3 h3 VIA, fhs + sum_nums H3 h3 (take 7 kinds) * fis)
      else (0, 0)
  | MD3BOOT | MD3CLN | MD3IMP => if unmoved && nvram_ecci_c2k_support then here else (0, 0)
  | ALL => (0, 0)
  end.

(** ** Restoring the files of a kind *)

(** How a round ends: a failure may leave the new file open. *)
Inductive restored := Restored | RestoreFailed (left_open : Z).

(** The contents of one file, of [Filesize] bytes from [start] on. *)
Definition restore_content (file iFileDesc start Filesize : Z) : P restored :=
  if (Filesize <=? 0) || (INT_MAX <=? Filesize) then mret (RestoreFailed iFileDesc)
  else
    buf ← pmalloc Filesize;
    if buf =? 0 then mret (RestoreFailed iFileDesc)
    else
      let failed := _ ← psys (Sys_close iFileDesc); pfree buf;; mret (RestoreFailed (-1)) in
      s ← psys (Sys_lseek file start SEEK_SET);
      if rv s =? -1 then failed
      else
        r ← psys (Sys_read file Filesize);
        pstore buf (rres_data r);;
        if negb (rres_rv r =? Filesize) then failed
        else
          r2 ← psys (Sys_write iFileDesc (rres_data r));
          if negb (rv r2 =? Filesize) then failed
          else
            _ ← psys (Sys_close iFileDesc);
            pfree buf;;
            mret Restored.

(** One round of the loop. *)
Definition restore_file (file map FileInfo : Z) : P restored :=
  r ← psys (Sys_read map sizeof_File_Title);
  let title := rres_data r ++ replicate (Z.to_nat sizeof_File_Title - length (rres_data r)) 0 in
  pstore FileInfo title;;
  cFileName ← fix_legacy_nvram_path_in_binregion (take 127 (title_name title) ++ [0]);
  iFileDesc ← open_file_with_dirs cFileName (if strstr cFileName (lit "FILE_VER") then 436 else 432);
  if iFileDesc =? INVALID_HANDLE_VALUE then mret (RestoreFailed (-1))
  else restore_content file iFileDesc (title_start title) (title_size title).

Fixpoint restore_files (file map FileInfo : Z) (n : nat) : P restored :=
  match n with
  | O => mret Restored
  | S n' =>
      r ← restore_file file map FileInfo;
      match r with
      | Restored => restore_files file map FileInfo n'
      | RestoreFailed _ => mret r
      end
  end.

Definition FileOp_RestoreFromFiles (eBackupType : Z) : P bool :=
  FileInfo ← pmalloc sizeof_File_Title;
  if FileInfo =? 0 then mret false
  else
    fileo ← psys (Sys_open g_pcNVM_AllFile O_RDWR 0);
    mapo ← psys (Sys_open g_pcNVM_AllMap O_RDWR 0);
    let file := rv fileo in
    let map := rv mapo in
    if file =? INVALID_HANDLE_VALUE then close_if map;; pfree FileInfo;; mret false
    else if map =? INVALID_HANDLE_VALUE then close_if file;; pfree FileInfo;; mret false
    else
      let done (left_open : Z) (b : bool) :=
        close_if map;; close_if file;; close_if left_open;; pfree FileInfo;; mret b in
      _ ← psys (Sys_lseek map (4 + 2 * 4) SEEK_SET);
      r ← psys (Sys_read map header_read);
      let h := rres_data r ++
        replicate (Z.to_nat (sizeof_header header_layout) - length (rres_data r)) 0 in
      match kind_of_value eBackupType with
      | None => done (-1) false
      | Some t =>
          let '(iFileNum, iFileTitleOffset) := restore_select h t in
          _ ← psys (Sys_lseek map iFileTitleOffset SEEK_SET);
          r ← restore_files file map FileInfo (Z.to_nat iFileNum);
          match r with
          | Restored => done (-1) true
          | RestoreFailed left_open => done left_open false
          end
      end.
End Files.
