(* ===== verification/NvArchive.v ===== *)
(** * libnvram: the archive as a whole

    [FileOp_BackupDataToFiles] writes the archive of the files in the directories
    of the kinds that a mask does not exclude, [FileOp_RestoreData_All] checks it
    and restores the files; what the meta tool calls is built on the two.

    [NVM_DataVerConvertAll], of libnvram.cpp, is an argument.  [junk n] is what [n] bytes of uninitialised memory hold.
    [fuel] bounds the entries read from a directory. *)
From S2P Require Import Prelude Posix NvTypes NvFiles.

(** [iFileMask] of the callers: the kinds the platform has no modem for, and
    NVD_CORE and NVD_DATA. *)
Definition default_mask `{NvPlatform} : list Z :=
  let masked : list Z :=
    (if negb nvram_md5_support && negb nvram_evdo_support then [5; 6; 10; 11; 12; 13]
     else if negb nvram_md5_support && nvram_evdo_support then [5; 6; 10; 11; 12]
     else if nvram_md5_support && negb nvram_evdo_support then [5; 6; 13]
     else [5; 6]) ++
    (if negb nvram_ecci_c2k_support then [14; 15; 16] else []) in
  (fun i => if bool_decide (i ∈ masked) then 1 else 0) <$> (Z.of_nat <$> seq 0 17).

Section Archive.
Context `{OS} `{NvPlatform} (junk : Z -> list Z) (fuel : nat).
Abbreviation P := (prog nvram).

(** ** Writing the archive *)

(** The bytes of the header that are written. *)
Definition header_written : Z :=
  match header_layout with
  | H5 => sizeof_header H5
  | l => sizeof_header l - unaligned_tail l -
         (if nvram_platform_header_offset =? 0 then 0 else nvram_platform_header_offset * 2)
  end.

(** The three words in front of the header, and the header. *)
Definition write_header (map : Z) (FileTitleInfo : list Z) : P unit :=
  _ ← psys (Sys_write map (le32 0));
  _ ← psys (Sys_write map (le32 0));
  _ ← psys (Sys_write map (le32 0));
  bs ← popt OutOfBounds (mread FileTitleInfo 0 header_written);
  _ ← psys (Sys_write map bs);
  mret tt.

(** [iFileBufLen += FileSize]; with a header offset it is a [short] of the fields
    that have moved. *)
Definition add_buf_len (FileTitleInfo : list Z) (FileSize : Z) : P (list Z) :=
  o ← popt OutOfBounds (offsetof header_layout iFileBufLen);
  if nvram_platform_header_offset =? 0 then
    old ← popt OutOfBounds (mread32 FileTitleInfo o);
    v ← padd (i32 old) FileSize;
    popt OutOfBounds (mwrite FileTitleInfo o (le32 v))
  else if negb nvram_ecci_c2k_support then
    let o' := o - 2 * nvram_platform_header_offset in
    old ← popt OutOfBounds (mread FileTitleInfo o' 2);
    v ← padd (i16 (le_value old)) FileSize;
    popt OutOfBounds (mwrite FileTitleInfo o' (le_bytes 2 v))
  else mret FileTitleInfo.

(** The second [switch]: the number of files of the kind. *)
Definition count_files (t : MetaData) (iFileNum : Z) (FileTitleInfo : list Z) : list Z :=
  let here := set_num header_layout t iFileNum FileTitleInfo in
  match t with
  | APBOOT | APCLN | MDBOOT | MDCLN | MDIMP | MDCOR | MDDATA => here
  | MD2BOOT | MD2CLN | MD2IMP | MD5BOOT | MD5CLN | MD5IMP =>
      if nvram_platform_header_offset =? 0 then here else FileTitleInfo
  | VIA => if negb nvram_ecci_c2k_support then here else FileTitleInfo
  | MD3BOOT | MD3CLN | MD3IMP => if nvram_ecci_c2k_support then here else FileTitleInfo
  | ALL => FileTitleInfo
  end.

(** The first [switch]: the directory of the kind, or else the last one. *)
Definition source_dir (t : MetaData) (lpSrcDirName : option (list Z)) : option (list Z) :=
  match t with
  | APBOOT | APCLN | MDBOOT | MDCLN | MDIMP | MDCOR | MDDATA | VIA => Some (kind_dir t)
  | ALL => lpSrcDirName
  | _ => if nvram_platform_header_offset =? 0 then Some (kind_dir t) else lpSrcDirName
  end.

(** The files that are left out: those not meant for the bin region, or those kept
    from the PC. *)
Definition masked_file (bWorkForBinRegion : bool) (t : MetaData) (d_name : list Z) : bool :=
  match t with
  | APBOOT | APCLN =>
      if bWorkForBinRegion then negb (existsb (streq d_name) aBackupToBinRegion.*1)
      else existsb (streq d_name) aPerformance.*1
  | _ => false
  end.

(** The variables of the loop over a directory. *)
Record scan := Scan {
  acSrcPathName : list Z;
  iFileNum : Z;
  FileSize : Z;
  bRet : bool
}.

(** [sprintf (acSrcPathName, "%s/%s", ...)]: [None] writes behind the array. *)
Definition sprintf_path (buf dir d_name : list Z) : option (list Z) :=
  mwrite buf 0 (dir ++ [chr_slash] ++ d_name ++ [0]).

Fixpoint scan_dir (n : nat) (bWorkForBinRegion : bool) (t : MetaData) (lpSrcDirName : list Z) (dir : Z)
    (s : scan) : P scan :=
  match n with
  | O => phalt NoFuel
  | S n' =>
      entry ← psys (Sys_readdir dir);
      match entry with
      | None => mret s
      | Some d_name =>
          _ ← psys (Sys_lstat d_name);
          if streq d_name (lit ".") || streq d_name (lit "..") then
            scan_dir n' bWorkForBinRegion t lpSrcDirName dir s
          else
            path ← popt OutOfBounds (sprintf_path (acSrcPathName s) lpSrcDirName d_name);
            if masked_file bWorkForBinRegion t d_name then
              scan_dir n' bWorkForBinRegion t lpSrcDirName dir (Scan path (iFileNum s) (FileSize s) (bRet s))
            else
              '(r, (num, size)) ← FileOp_MakeFile path (iFileNum s) (FileSize s);
              scan_dir n' bWorkForBinRegion t lpSrcDirName dir (Scan path num size (r && bRet s))
      end
  end.

(** The variables of the loop over the kinds.  [iFileNum] and [FileSize] are 0
    at the start of each round. *)
Record backup := Backup {
  b_dir : option (list Z);     (** [lpSrcDirName] *)
  b_path : list Z;             (** [acSrcPathName] *)
  b_header : list Z;           (** [FileTitleInfo] of the layout in use *)
  b_ret : bool                 (** [bRet] *)
}.

Definition backup_kind (bWorkForBinRegion : bool) (iMask : list Z) (t : MetaData) (b : backup) : P backup :=
  m ← popt OutOfBounds (iMask !! Z.to_nat (kind_value t));
  if m =? 1 then mret b
  else
    match source_dir t (b_dir b) with
    | None => phalt NullDeref   (* [dir] is used uninitialised *)
    | Some d =>
        dir ← psys (Sys_opendir d);
        if rv dir =? 0 then mret (Backup (Some d) (b_path b) (b_header b) (b_ret b))
        else
          s ← scan_dir fuel bWorkForBinRegion t d (rv dir) (Scan (b_path b) 0 0 (b_ret b));
          _ ← psys (Sys_closedir (rv dir));
          h ← add_buf_len (b_header b) (FileSize s);
          mret (Backup (Some d) (acSrcPathName s) (count_files t (iFileNum s) h) (bRet s))
    end.

Fixpoint backup_kinds (bWorkForBinRegion : bool) (iMask : list Z) (ts : list MetaData) (b : backup) : P backup :=
  match ts with
  | [] => mret b
  | t :: ts' =>
      b' ← backup_kind bWorkForBinRegion iMask t b;
      backup_kinds bWorkForBinRegion iMask ts' b'
  end.

(** The rest: the header with the numbers, which is read back, and the checksum. *)
Definition finish_archive (b : backup) : P bool :=
  mapo ← psys (Sys_open g_pcNVM_AllMap O_WRONLY 0);
  if rv mapo =? INVALID_HANDLE_VALUE then mret false
  else
    write_header (rv mapo) (b_header b);;
    _ ← psys (Sys_close (rv mapo));
    mapo ← psys (Sys_open g_pcNVM_AllMap O_RDONLY 0);
    if rv mapo =? INVALID_HANDLE_VALUE then mret false
    else
      _ ← psys (Sys_lseek (rv mapo) (4 + 2 * 4) SEEK_SET);
      _ ← psys (Sys_read (rv mapo) header_written);
      _ ← psys (Sys_close (rv mapo));
      ulCheckSum ← FileOp_ComputeCheckSum;
      ok ← FileOp_SetCheckSum ulCheckSum;
      mret (if ok : bool then b_ret b else false).

Definition FileOp_BackupDataToFiles (iFileMask : option (list Z)) (bWorkForBinRegion : bool) : P bool :=
  _ ← psys (Sys_umask 0);
  match iFileMask with
  | None => mret false
  | Some iMask =>
      mapo ← psys (Sys_open g_pcNVM_AllMap (Z.lor (Z.lor O_TRUNC O_CREAT) O_WRONLY) S_IRW_UG);
      if rv mapo =? INVALID_HANDLE_VALUE then mret false
      else
        let FileTitleInfo := replicate (Z.to_nat (sizeof_header header_layout)) 0 in
        write_header (rv mapo) FileTitleInfo;;
        _ ← psys (Sys_close (rv mapo));
        fileo ← psys (Sys_open g_pcNVM_AllFile (Z.lor (Z.lor O_TRUNC O_CREAT) O_RDWR) S_IRW_UG);
        if rv fileo =? INVALID_HANDLE_VALUE then mret false
        else
          _ ← psys (Sys_close (rv fileo));
          b ← backup_kinds bWorkForBinRegion iMask kinds
                (Backup None (junk MAX_NAMESIZE) FileTitleInfo true);
          finish_archive b
  end.

Definition FileOp_BackupAll_NvRam : P bool :=
  FileOp_BackupDataToFiles (Some default_mask) false.

(** ** Backing up what a list does not name *)

(** [strFolder], an array of 17 rows of 10 bytes: only the first seven are
    initialised. *)
Definition strFolder : list Z :=
  let names := [lit "APRDEB"; lit "APRDCL"; lit "NVD_IMEI"; lit "CALIBRAT"; lit "IMPORTNT"; lit "NVD_CORE"; lit "NVD_DATA"] in
  foldr (fun e obj => default obj (mwrite obj (10 * e.1) (e.2 ++ [0]))) (junk 170)
    (zip (Z.of_nat <$> seq 0 7) names).

Definition folder_name (i : nat) : list Z := cstring (drop (10 * i) strFolder).

(** The names up to the semicolons, copied into the rows of [tempBuf], one array of
    [count] rows of [row] bytes. *)
Fixpoint split_names (row : Z) (buffer : list Z) (i iTmpStart iNum : Z) (rest tempBuf : list Z)
    : P (Z * list Z) :=
  match rest with
  | [] => mret (iNum, tempBuf)
  | c :: rest' =>
      if c =? 59 then
        let name := take (Z.to_nat (i - iTmpStart)) (drop (Z.to_nat iTmpStart) buffer) in
        tempBuf ← popt OutOfBounds (mwrite tempBuf (iNum * row) (name ++ [0]));
        split_names row buffer (i + 1) (i + 1) (iNum + 1) rest' tempBuf
      else split_names row buffer (i + 1) iTmpStart iNum rest' tempBuf
  end.

(** The index of the first folder with the name. *)
Fixpoint folder_index (name : list Z) (n : nat) (i : nat) : option nat :=
  match n with
  | O => None
  | S n' => if streq name (folder_name i) then Some i else folder_index name n' (S i)
  end.

Fixpoint mask_names (row : Z) (tempBuf : list Z) (n : nat) (i : Z) (iMask : list Z) : list Z :=
  match n with
  | O => iMask
  | S n' =>
      let name := cstring (drop (Z.to_nat (i * row)) tempBuf) in
      mask_names row tempBuf n' (i + 1)
        (match folder_index name 17 0 with Some k => <[k := 1]> iMask | None => iMask end)
  end.

(** [buffer] is the string of the caller, or a null pointer. *)
Definition FileOp_BackupData_Special (buffer : option (list Z)) (count mode : Z) : P bool :=
  match buffer with
  | None => mret false
  | Some buffer =>
      if (count <? 0) || (1024 <=? count) || (mode <? 0) then mret false
      else if count =? 0 then phalt DivZero
      else
        let row := 1024 / count + 1 in
        '(iNum, tempBuf) ← split_names row buffer 0 0 0 buffer (junk (count * row));
        if negb (iNum =? count) then mret false
        else
          FileOp_BackupDataToFiles
            (Some (mask_names row tempBuf (Z.to_nat iNum) 0 (replicate 17 0))) false
  end.

(** ** Restoring *)

(** The loop over the kinds: whether all succeeded. *)
Fixpoint restore_kinds (iFileMask : list Z) (ts : list MetaData) (ok : bool) : P bool :=
  match ts with
  | [] => mret ok
  | t :: ts' =>
      m ← popt OutOfBounds (iFileMask !! Z.to_nat (kind_value t));
      if m =? 1 then restore_kinds iFileMask ts' ok
      else
        r ← FileOp_RestoreFromFiles (kind_value t);
        restore_kinds iFileMask ts' (r && ok)
  end.

Definition FileOp_RestoreData_All : P bool :=
  ok ← FileOp_GetCheckSum;
  if negb ok then mret false
  else
    g ← pget;
    let ulSavedCheckSum := ulCheckSum (stBackupFileInfo g) in
    ulCheckSum ← FileOp_ComputeCheckSum;
    '(r, st) ← psys (Sys_stat g_pcNVM_AllFile);
    if rv r <? 0 then mret false
    else
      let ulCheckSum := Z.lxor ulCheckSum (u32 (st_size st)) in
      if negb (FileOp_CompareCheckSum ulSavedCheckSum ulCheckSum) then mret false
      else restore_kinds default_mask kinds true.

Definition FileOp_RestoreAll_NvRam (NVM_DataVerConvertAll : Z -> Z -> P bool) : P bool :=
  ok ← FileOp_RestoreData_All;
  if ok : bool then
    g ← pget;
    NVM_DataVerConvertAll (iCommonFileNum (stBackupFileInfo g)) (iCustomFileNum (stBackupFileInfo g))
  else mret false.
End Archive.
