(* ===== verification/NvSum.v ===== *)
(** * libnvram: the two checksums are one function of the contents

    [FileOp_ComputeCheckSum] reads 4096 words at a time,
    [FileOp_ComputeReadBackCheckSum] one by one; on files of the same contents
    both answer [checksum] of them. *)
From S2P Require Import Prelude Posix MemFs FileStore NvTypes NvFiles.

(** The words, exclusive-ored and added in turn, and the bytes left over. *)
Definition checksum (data : list Z) : Z :=
  u32 ((fold_left sum_word (words data) (true, 0)).2
       + le_value (drop (4 * (length data / 4)) data)).

Lemma words_app a b n : length a = (4 * n)%nat -> words (a ++ b) = words a ++ words b.
Proof.
  revert a. induction n as [|n IH]; intros a Ha.
  - by destruct a.
  - destruct a as [|x1 [|x2 [|x3 [|x4 a]]]]; simpl in Ha; try lia. simpl. f_equal. apply IH. lia.
Qed.

(** Bytes behind the last word are no word. *)
Lemma words_rest a b : (length b < 4)%nat -> (exists n, length a = 4 * n)%nat -> words (a ++ b) = words a.
Proof.
  intros Hb [n Ha]. rewrite (words_app a b n Ha). destruct b as [|? [|? [|? [|? ?]]]]; simpl in *; try lia; by rewrite app_nil_r.
Qed.

Section Sum.
Context `{FileStore}.
Abbreviation W := (world nvram).
Implicit Types (v : store) (w : W).

(** A descriptor [fd] on [p] at [off]. *)
Definition at_off (fd : Z) (p : list Z) (off : Z) (wr : bool) v : store := put_fd fd (Fd p off true wr) v.

Lemma at_off_lookup fd p off wr v : open_fds (at_off fd p off wr v) !! fd = Some (Fd p off true wr).
Proof. unfold at_off. by rewrite fds_put_fd, decide_True. Qed.

(** A read in range moves the descriptor. *)
Lemma run_read_range v g L w fd p off wr n data Q : ready (at_off fd p off wr v) g L w ->
  files v !! p = Some data -> 0 <= off -> 0 <= n -> off + n <= zlen data ->
  (forall w', ready (at_off fd p (off + n) wr v) g L w' -> Q (RData (read_at data off n)) w') ->
  runs (psys (Sys_read fd n)) w Q.
Proof.
  intros Hw Hp Ho Hn Hr HQ. eapply run_read; [exact Hw|apply at_off_lookup|exact Hp|done|done|].
  intros w' Hw'. apply HQ. unfold at_off in *. by rewrite put_put_fd, zlen_read_at in Hw'.
Qed.

Lemma sum_rest_run v g L w fd p off wr data acc : open_fds v !! fd = None ->
  ready (at_off fd p off wr v) g L w -> files v !! p = Some data -> zlen data < 2 ^ 32 ->
  off = 4 * (zlen data / 4) ->
  runs (sum_rest fd (zlen data) acc) w (fun r w' =>
    r = u32 (acc + le_value (drop (4 * (length data / 4)) data)) /\ ready v g L w').
Proof.
  intros Hfd Hw Hp Hlt ->. pose proof (zlen_nonneg data) as Hnn. unfold sum_rest.
  pose proof (Z.div_mod (zlen data) 4 ltac:(done)). pose proof (Z.mod_pos_bound (zlen data) 4 ltac:(done)).
  apply runs_bind. eapply run_read_range; [exact Hw|exact Hp|lia|lia|lia|]. intros w1 Hw1.
  apply runs_bind. eapply run_close; [exact Hw1|apply at_off_lookup|]. intros r w2 Hw2.
  unfold at_off in Hw2. rewrite drop_put_fd in Hw2 by done.
  cbn [rres_rv rres_data]. rewrite zlen_read_at, Z.eqb_refl by lia. cbn [negb]. split; [|done].
  f_equal. f_equal. f_equal. unfold read_at, zlen in *.
  replace (Z.to_nat (4 * (Z.of_nat (length data) / 4))) with (4 * (length data / 4))%nat.
  2:{ pose proof (Nat2Z.inj_div (length data) 4). lia. }
  apply take_ge. rewrite length_drop. pose proof (Nat.div_mod_eq (length data) 4).
  pose proof (Nat2Z.inj_mod (length data) 4). lia.
Qed.

(** The words of the range [off, off + 4 k). *)
Definition words_at (data : list Z) (off k : Z) : list Z := words (read_at data off (4 * k)).

Lemma words_at_add data off a b : 0 <= off -> 0 <= a -> 0 <= b -> off + 4 * (a + b) <= zlen data ->
  words_at data off (a + b) = words_at data off a ++ words_at data (off + 4 * a) b.
Proof.
  intros. unfold words_at. replace (4 * (a + b)) with (4 * a + 4 * b) by lia.
  rewrite read_at_app by lia. apply (words_app _ _ (Z.to_nat a)).
  pose proof (zlen_read_at data off (4 * a)). unfold zlen in *. lia.
Qed.

Lemma words_at_all data : words_at data 0 (zlen data / 4) = words data.
Proof.
  unfold words_at, read_at. rewrite drop_0.
  pose proof (zlen_nonneg data). pose proof (Z.div_mod (zlen data) 4 ltac:(done)).
  pose proof (Z.mod_pos_bound (zlen data) 4 ltac:(done)). pose proof (Z.div_pos (zlen data) 4).
  etrans; [symmetry; apply (words_rest _ (drop (Z.to_nat (4 * (zlen data / 4))) data))|by rewrite take_drop];
    unfold zlen in *.
  - rewrite length_drop. lia.
  - exists (Z.to_nat (Z.of_nat (length data) / 4)). rewrite length_take. lia.
Qed.

Lemma sum_chunks_run v g L fd p wr data looptime n : files v !! p = Some data ->
  forall off k acc w, n = S (Z.to_nat (k / Loop_num)) -> 0 <= k -> 0 <= off ->
  off + 4 * k <= zlen data -> k mod Loop_num = looptime mod Loop_num ->
  ready (at_off fd p off wr v) g L w ->
  runs (sum_chunks fd looptime n acc) w (fun r w' =>
    r = Some (fold_left sum_word (words_at data off k) acc).2 /\
    ready (at_off fd p (off + 4 * k) wr v) g L w').
Proof.
  intros Hp. induction n as [|n IH]; intros off k acc w Hn Hk Ho Hr Hmod Hw; [lia|].
  unfold Loop_num in *. cbn [sum_chunks].
  assert (exists j, match n with O => looptime mod Loop_num | S _ => Loop_num end = j /\ 0 <= j <= k /\
    (n = O -> j = k) /\ (n <> O -> n = S (Z.to_nat ((k - j) / 4096)) /\ (k - j) mod 4096 = k mod 4096))
    as (j & Ej & Hj & Hj0 & HjS).
  { unfold Loop_num. destruct n as [|n].
    - exists k. assert (k / 4096 = 0) as Hz by (pose proof (Z.div_pos k 4096); lia).
      apply Z.div_small_iff in Hz; [|done]. rewrite <- Hmod, Z.mod_small by lia. split_and!; try done; lia.
    - exists 4096. assert (1 <= k / 4096) by lia. assert (4096 <= k) by (pose proof (Z.mul_div_le k 4096); lia).
      split_and!; try done; try lia. intros _. replace (k - 4096) with (k + (-1) * 4096) by lia.
      rewrite Z.div_add, Z.mod_add by done. split; [lia|done]. }
  rewrite Ej. apply runs_bind. replace (j * 4) with (4 * j) by lia.
  eapply run_read_range; [exact Hw|exact Hp|lia|lia|lia|]. intros w1 Hw1. cbn [rres_rv rres_data].
  rewrite zlen_read_at, Z.eqb_refl by lia. cbn [negb]. fold (words_at data off j).
  destruct n as [|n].
  - cbn [sum_chunks]. rewrite (Hj0 eq_refl) in *. by split.
  - destruct (HjS ltac:(done)) as [Hn' Hm']. eapply runs_mono.
    + apply (IH (off + 4 * j) (k - j)); try done; try lia; congruence.
    + intros r w' [-> Hw'].
      replace (words_at data off k) with (words_at data off j ++ words_at data (off + 4 * j) (k - j)).
      2:{ rewrite <- words_at_add by lia. f_equal. lia. }
      rewrite fold_left_app. split; [done|].
      by replace (off + 4 * k) with (off + 4 * j + 4 * (k - j)) by lia.
Qed.

Lemma sum_words_run v g L fd p wr data n : files v !! p = Some data ->
  forall off acc w, 0 <= off -> off + 4 * Z.of_nat n <= zlen data ->
  ready (at_off fd p off wr v) g L w ->
  runs (sum_words fd n acc) w (fun r w' =>
    r = Some (fold_left sum_word (words_at data off (Z.of_nat n)) acc).2 /\
    ready (at_off fd p (off + 4 * Z.of_nat n) wr v) g L w').
Proof.
  intros Hp. induction n as [|n IH]; intros off acc w Ho Hr Hw.
  - split; [done|]. by replace (off + 4 * Z.of_nat 0) with off by lia.
  - cbn [sum_words]. apply runs_bind.
    eapply run_read_range; [exact Hw|exact Hp|lia|lia|lia|]. intros w1 Hw1. cbn [rres_rv rres_data].
    pose proof (zlen_read_at data off 4 ltac:(lia) ltac:(lia) ltac:(lia)) as Hl.
    rewrite Hl. cbn [Z.eqb Pos.eqb negb]. eapply runs_mono.
    + apply (IH (off + 4)); [lia|lia|done].
    + intros r w' [-> Hw']. replace (Z.of_nat (S n)) with (1 + Z.of_nat n) by lia.
      rewrite words_at_add, fold_left_app by lia. replace (4 * (1 + Z.of_nat n)) with (4 + 4 * Z.of_nat n) by lia.
      rewrite Z.add_assoc. split; [|done]. do 3 f_equal. unfold words_at at 1. change (4 * 1) with 4.
      unfold zlen in Hl. destruct (read_at data off 4) as [|x1 [|x2 [|x3 [|x4 [|]]]]]; simpl in Hl; try lia. done.
Qed.
(** What follows the loop over the words. *)
Definition after_words (fd n : Z) (res : option Z) : prog nvram Z :=
  match res with
  | None => _ ← psys (Sys_close fd); mret 0
  | Some ulCheckSum => sum_rest fd n ulCheckSum
  end.

(** Both functions, behind their [stat] and [open]. *)
Lemma checksum_frame v g L w p data (body : Z -> Z -> prog nvram Z) :
  ready v g L w -> files v !! p = Some data -> zlen data < 2 ^ 32 ->
  (forall fd wr w', open_fds v !! fd = None -> ready (at_off fd p 0 wr v) g L w' ->
    runs (body fd (zlen data)) w' (fun r w2 => r = checksum data /\ ready v g L w2)) ->
  runs ('(r, st) ← psys (Sys_stat p);
        if rv r <? 0 then mret 0
        else
          let iFileSize := u32 (st_size st) in
          fd ← psys (Sys_open p O_RDWR 0);
          if rv fd <? 0 then mret 0 else body (rv fd) iFileSize) w
    (fun r w2 => r = checksum data /\ ready v g L w2).
Proof.
  intros Hw Hp Hlt Hb. pose proof (zlen_nonneg data).
  apply runs_bind. eapply run_stat; [exact Hw|exact Hp|]. intros e st w1 Hst Hw1. cbn [rv Z.ltb Z.compare].
  apply runs_bind. eapply run_open; [exact Hw1|exact Hp|by auto|]. intros fd e' r wr w2 Hfd Hn Hr _ Hw2. cbn [rv].
  destruct (Z.ltb_spec fd 0); [lia|]. rewrite Hst, u32_small by lia. rewrite Hr in Hw2 by done. by eapply Hb.
Qed.

Lemma compute_checksum v g L w data : ready v g L w -> files v !! g_pcNVM_AllFile = Some data ->
  zlen data < 2 ^ 32 ->
  runs FileOp_ComputeCheckSum w (fun r w' => r = checksum data /\ ready v g L w').
Proof.
  intros Hw Hp Hlt. pose proof (zlen_nonneg data).
  eapply (checksum_frame v g L w _ data (fun fd n => sum_chunks fd (n / 4) (Z.to_nat (n / 4 / Loop_num + 1)) (true, 0) ≫= after_words fd n)); [done..|].
  intros fd wr w1 Hn Hw1. apply runs_bind.
  pose proof (Z.div_mod (zlen data) 4 ltac:(done)). pose proof (Z.mod_pos_bound (zlen data) 4 ltac:(done)).
  assert (0 <= zlen data / 4) by (by apply Z.div_pos).
  eapply runs_mono; [eapply (sum_chunks_run v g L fd _ wr data _ _ Hp 0 (zlen data / 4)); try done; try lia|].
  { unfold Loop_num. pose proof (Z.div_pos (zlen data / 4) 4096). lia. }
  intros r w2 [-> Hw2]. rewrite words_at_all. by eapply sum_rest_run.
Qed.

Lemma compute_readback v g L w data : ready v g L w -> files v !! g_pcNVM_AllFile_Check = Some data ->
  zlen data < 2 ^ 32 ->
  runs FileOp_ComputeReadBackCheckSum w (fun r w' => r = checksum data /\ ready v g L w').
Proof.
  intros Hw Hp Hlt. pose proof (zlen_nonneg data).
  eapply (checksum_frame v g L w _ data (fun fd n => sum_words fd (Z.to_nat (n / 4)) (true, 0) ≫= after_words fd n)); [done..|].
  intros fd wr w1 Hn Hw1. apply runs_bind.
  pose proof (Z.div_mod (zlen data) 4 ltac:(done)). pose proof (Z.mod_pos_bound (zlen data) 4 ltac:(done)).
  assert (0 <= zlen data / 4) by (by apply Z.div_pos).
  eapply runs_mono; [eapply (sum_words_run v g L fd _ wr data _ Hp 0); try done; lia|].
  intros r w2 [-> Hw2]. rewrite Z2Nat.id in * by done. rewrite words_at_all. by eapply sum_rest_run.
Qed.
End Sum.
