(* ===== verification/NvMake.v ===== *)
(** * libnvram: what [FileOp_MakeFile] appends

    A file is appended to [AllFile] and its title to [AllMap]; the title has the
    place of the contents.  An empty file is left out. *)
From S2P Require Import Prelude Posix MemFs FileStore NvTypes NvFiles NvSum.

Lemma AllFile_AllMap : g_pcNVM_AllFile <> g_pcNVM_AllMap.
Proof. by vm_compute. Qed.

Section Make.
Context `{FileStore} `{NvPlatform}.
Abbreviation W := (world nvram).
Implicit Types (v : store) (w : W).

Lemma run_close_if v g L w fd x (Q : unit -> W -> Prop) : ready v g L w -> open_fds v !! fd = Some x ->
  (forall w', ready (drop_fd fd v) g L w' -> Q tt w') -> (fd = -1 -> False) -> runs (close_if fd) w Q.
Proof.
  intros Hw Hx HQ Hne. unfold close_if, pwhen. destruct (Z.eqb_spec fd (-1)); [done|].
  apply runs_bind. eapply run_close; [done..|]. intros r w' Hw'. by apply HQ.
Qed.

(** ** The copy *)

Section Copy.
Context (p data : list Z) (iSrc file : Z) (r wr : bool) (v : store).
Context (Hne : iSrc <> file) (Hp : p <> g_pcNVM_AllFile) (Hdata : files v !! p = Some data).

(** The source at [off], and the archive [A] open at its end. *)
Definition copying (A : list Z) (off : Z) : store :=
  put_fd iSrc (Fd p off true wr)
    (put_fd file (Fd g_pcNVM_AllFile (zlen A) r true) (put_file g_pcNVM_AllFile A v)).

Lemma copying_read A off off' : put_fd iSrc (Fd p off' true wr) (copying A off) = copying A off'.
Proof. apply put_put_fd. Qed.

Lemma copying_write A off bs :
  put_fd file (Fd g_pcNVM_AllFile (zlen A + zlen bs) r true)
    (put_file g_pcNVM_AllFile (write_at A (zlen A) bs) (copying A off)) = copying (A ++ bs) off.
Proof.
  unfold copying, put_fd, put_file. simpl. rewrite write_end, zlen_app, insert_insert_eq.
  by rewrite (insert_insert_ne _ file iSrc), insert_insert_eq by done.
Qed.

Lemma copying_src A off : open_fds (copying A off) !! iSrc = Some (Fd p off true wr).
Proof. unfold copying. by rewrite fds_put_fd, decide_True. Qed.

Lemma copying_file A off : open_fds (copying A off) !! file = Some (Fd g_pcNVM_AllFile (zlen A) r true).
Proof. unfold copying. by rewrite fds_put_fd, decide_False, fds_put_fd, decide_True. Qed.

Lemma copying_data A off : files (copying A off) !! p = Some data.
Proof. unfold copying. simpl. by rewrite lookup_insert_ne. Qed.

Lemma copying_archive A off : files (copying A off) !! g_pcNVM_AllFile = Some A.
Proof. unfold copying. simpl. by rewrite lookup_insert_eq. Qed.

Lemma copy_chunks_run g L n : forall A off w, n = Z.to_nat ((zlen data - off + 1023) / 1024) ->
  0 <= off <= zlen data -> ready (copying A off) g L w ->
  runs (copy_chunks iSrc file n (zlen data - off)) w (fun ok w' =>
    ok = true /\ ready (copying (A ++ drop (Z.to_nat off) data) (zlen data)) g L w').
Proof.
  induction n as [|n IH]; intros A off w Hn Ho Hw.
  - assert (off = zlen data) as -> by (pose proof (Z.div_mod (zlen data - off + 1023) 1024); pose proof (Z.mod_pos_bound (zlen data - off + 1023) 1024); lia).
    split; [done|]. rewrite drop_ge by (unfold zlen; lia). by rewrite app_nil_r.
  - assert (0 < zlen data - off).
    { pose proof (Z.div_mod (zlen data - off + 1023) 1024). pose proof (Z.mod_pos_bound (zlen data - off + 1023) 1024). lia. }
    cbn [copy_chunks]. set (k := Z.min (zlen data - off) 1024). assert (0 < k <= zlen data - off) by lia.
    apply runs_bind. eapply run_read; [exact Hw|apply copying_src|apply copying_data|lia|lia|].
    intros w1 Hw1. rewrite copying_read in Hw1. rewrite zlen_read_at in Hw1 by lia.
    cbn [rres_rv rres_data]. rewrite zlen_read_at, Z.eqb_refl by lia. cbn [negb].
    apply runs_bind. eapply run_write; [exact Hw1|apply copying_file|apply copying_archive|pose proof (zlen_nonneg A); lia|].
    intros e w2 Hw2. rewrite copying_write in Hw2. cbn [rv]. rewrite zlen_read_at, Z.eqb_refl by lia. cbn [negb].
    replace (zlen data - off - k) with (zlen data - (off + k)) by lia.
    eapply runs_mono; [apply (IH (A ++ read_at data off k) (off + k)); [|lia|exact Hw2]|].
    + apply (f_equal pred) in Hn. simpl in Hn. rewrite Hn.
      destruct (Z.min_spec (zlen data - off) 1024) as [[? Ek]|[? Ek]]; unfold k; rewrite Ek.
      * replace (zlen data - (off + (zlen data - off)) + 1023) with 1023 by lia.
        assert ((zlen data - off + 1023) / 1024 = 1) as -> by (symmetry; eapply (Z.div_unique _ _ _ (zlen data - off - 1)); lia). done.
      * replace (zlen data - off + 1023) with (zlen data - (off + 1024) + 1023 + 1 * 1024) by lia.
        rewrite Z.div_add by done. pose proof (Z.div_pos (zlen data - (off + 1024) + 1023) 1024). lia.
    + intros ok w' [-> Hw']. split; [done|]. rewrite <- (assoc_L app) in Hw'. unfold read_at in Hw'.
      rewrite Z2Nat.inj_add, <- drop_drop, take_drop in Hw' by lia. done.
Qed.
End Copy.

(** ** The whole function *)

(** The label [EXIT], with three files open. *)
Lemma make_exit_run v v' g L L' w iSrc file map FileInfo bRet nums x y z (Q : bool * (Z * Z) -> W -> Prop) :
  ready v' g L' w -> (FileInfo = 0 /\ L' = L) \/ (~ FileInfo ∈ L /\ L' = FileInfo :: L) -> 0 <= iSrc -> 0 <= file -> 0 <= map ->
  iSrc <> file -> iSrc <> map -> file <> map ->
  open_fds v !! iSrc = None -> open_fds v !! file = None -> open_fds v !! map = None ->
  v' = put_fd iSrc x (put_fd file y (put_fd map z v)) ->
  (forall w', ready v g L w' -> Q (bRet, nums) w') ->
  runs (make_exit iSrc file map FileInfo bRet nums) w Q.
Proof.
  intros Hw HF Hs Hf Hm N1 N2 N3 Os Of Om Hv HQ. unfold make_exit.
  apply runs_bind. eapply run_close_if; [exact Hw|subst; simpl; by rewrite lookup_insert_eq| |lia]. intros w1 Hw1.
  apply runs_bind. eapply run_close_if; [exact Hw1|subst; simpl; rewrite lookup_delete_ne, lookup_insert_ne by done; by rewrite lookup_insert_eq| |lia]. intros w2 Hw2.
  apply runs_bind. eapply run_close_if; [exact Hw2|subst; simpl; by rewrite !lookup_delete_ne, !lookup_insert_ne, lookup_insert_eq by done| |lia]. intros w3 Hw3.
  apply runs_bind. eapply run_free_opt; [exact Hw3|exact HF|]. intros w4 Hw4. apply HQ.
  replace v with (drop_fd map (drop_fd file (drop_fd iSrc v'))) at 1; [done|].
  subst. store_eq.
Qed.

(** The archive has the contents [A] and the map [M]; [src] is the array with the
    path of a file with the contents [data]. *)
Lemma make_file_run v g L w A M src data num size :
  ready v g L w -> files v !! g_pcNVM_AllFile = Some A -> files v !! g_pcNVM_AllMap = Some M ->
  files v !! cstring src = Some data -> cstring src <> g_pcNVM_AllFile -> zlen data < 2 ^ 31 ->
  zlen src = 128 ->
  runs (FileOp_MakeFile src num size) w (fun r w' =>
    match data with
    | [] => r = (false, (num, 0)) /\ ready v g L w'
    | _ => r = (true, (u32 (num + 1), zlen data)) /\
        ready (put_file g_pcNVM_AllMap (M ++ title_bytes (gFileStartAddr g) (zlen data) src)
                (put_file g_pcNVM_AllFile (A ++ data) v))
          (set_gFileStartAddr (u32 (gFileStartAddr g + zlen data)) g) L w'
    end).
Proof.
  intros Hw HA HM Hd Hne Hlt Hsrc. pose proof (zlen_nonneg data) as Hnn. unfold FileOp_MakeFile.
  apply runs_bind. eapply run_open; [exact Hw|exact HA|by auto|]. intros file e1 r1 wr1 w1 Hf1 Of Hr1 Hwr1 Hw1.
  rewrite Hr1, Hwr1 in Hw1 by done.
  apply runs_bind. eapply run_open; [exact Hw1|exact HM|by auto|]. intros map e2 r2 wr2 w2 Hf2 Om Hr2 Hwr2 Hw2.
  rewrite Hr2, Hwr2 in Hw2 by done. cbn [rv].
  rewrite fds_put_fd in Om. case_decide as N1; [done|].
  unfold INVALID_HANDLE_VALUE. destruct (Z.eqb_spec file (-1)); [lia|]. destruct (Z.eqb_spec map (-1)); [lia|].
  apply runs_bind. eapply run_seek_end; [exact Hw2|by rewrite fds_put_fd, decide_False, fds_put_fd, decide_True|exact HA|].
  intros e3 w3 Hw3. cbn [rv]. pose proof (zlen_nonneg A). destruct (Z.eqb_spec (zlen A) (-1)); [lia|].
  apply runs_bind. eapply run_seek_end; [exact Hw3|by rewrite fds_put_fd, decide_False, fds_put_fd, decide_True|exact HM|].
  intros e4 w4 Hw4. cbn [rv]. pose proof (zlen_nonneg M). destruct (Z.eqb_spec (zlen M) (-1)); [lia|].
  replace (put_fd map _ _) with (put_fd file (Fd g_pcNVM_AllFile (zlen A) true true)
    (put_fd map (Fd g_pcNVM_AllMap (zlen M) true true) v)) in Hw4 by store_eq.
  set (v1 := put_fd map (Fd g_pcNVM_AllMap (zlen M) true true) v) in Hw4.
  apply runs_bind. eapply run_open; [exact Hw4|exact Hd|by auto|]. intros iSrc e5 r5 wr5 w5 Hf5 Os Hr5 _ Hw5. cbn [rv].
  rewrite Hr5 in Hw5 by done. rewrite fds_put_fd in Os. case_decide as N2; [done|].
  unfold v1 in Os. rewrite fds_put_fd in Os. case_decide as N3; [done|].
  destruct (Z.eqb_spec iSrc (-1)); [lia|].
  apply runs_bind. eapply run_fstat; [exact Hw5|by rewrite fds_put_fd, decide_True|exact Hd|].
  intros e6 st w6 Hst Hw6. rewrite Hst, i32_small by lia.
  destruct (Z.eqb_spec (zlen data) 0) as [Hz|Hz].
  { destruct data; [|done]. eapply make_exit_run; [exact Hw6|by left| | | | | | | | | |reflexivity|]; try done. }
  destruct data as [|b0 data0]; [done|]. set (data := b0 :: data0) in *.
  replace (put_fd iSrc _ _) with (copying (cstring src) iSrc file true wr5 v1 A 0) in Hw6.
  2:{ unfold copying. by rewrite put_file_id. }
  apply runs_bind. eapply runs_mono.
  { rewrite <- (Z.sub_0_r (zlen data)) at 2. eapply (copy_chunks_run (cstring src) data iSrc file true wr5 v1); done. }
  intros ok w7 [-> Hw7]. cbn [negb]. rewrite drop_0 in Hw7.
  apply runs_bind. eapply run_malloc; [exact Hw7|]. intros FileInfo w8 HF HFL Hw8.
  destruct (Z.eqb_spec FileInfo 0); [lia|].
  apply runs_bind. unfold make_title.
  apply runs_bind. eapply run_get; [exact Hw8|].
  apply runs_bind. eapply run_store; [exact Hw8|by left|]. intros w9 Hw9.
  apply runs_bind. eapply run_write; [exact Hw9| | |pose proof (zlen_nonneg M); done|].
  { unfold copying, v1. by rewrite !fds_put_fd, !fds_put_file, !fds_put_fd, !decide_False, decide_True by done. }
  { unfold copying, v1. simpl. by rewrite lookup_insert_ne. }
  intros e10 w10 Hw10. eapply run_mod; [exact Hw10|]. intros w11 Hw11.
  eapply (make_exit_run (put_file g_pcNVM_AllMap (M ++ title_bytes (gFileStartAddr g) (zlen data) src)
    (put_file g_pcNVM_AllFile (A ++ data) v))); [exact Hw11|by right| | | | | | | | | | |]; try done.
  { rewrite write_end. unfold copying, v1. store_eq. }
Qed.
End Make.
