(* ===== verification/NvSpec.v ===== *)
(** * libnvram: what an archive is

    An archive is a list of files for each kind.  [titled] relates them to the
    titles in the map, [is_archive] to the two files: the header has the
    numbers, the titles are in the order of the kinds, the contents follow
    each other, and the map starts with the checksum. *)
From S2P Require Import Prelude Posix MemFs FileStore NvTypes NvFiles NvArchive NvSum.

(** A file: its path and its contents. *)
Abbreviation entry := (list Z * list Z)%type.

Definition contents (es : list entry) : list Z := concat (snd <$> es).

(** The titles of files whose contents start at [start]. *)
Inductive titled : Z -> list entry -> list Z -> Prop :=
| titled_nil start : titled start [] []
| titled_cons start p data es name ts :
    zlen name = MAX_NAMESIZE -> cstring name = p -> zlen p < MAX_NAMESIZE ->
    titled (start + zlen data) es ts ->
    titled start ((p, data) :: es) (title_bytes start (zlen data) name ++ ts).

Lemma contents_app es es' : contents (es ++ es') = contents es ++ contents es'.
Proof. unfold contents. by rewrite fmap_app, concat_app. Qed.

Lemma contents_cons p data es : contents ((p, data) :: es) = data ++ contents es.
Proof. done. Qed.

Lemma length_title start size name : zlen name = 128 -> zlen (title_bytes start size name) = 140.
Proof. unfold title_bytes. rewrite !zlen_app. unfold zlen. rewrite !length_le32. lia. Qed.

Lemma titled_app start es es' ts ts' : titled start es ts -> titled (start + zlen (contents es)) es' ts' ->
  titled start (es ++ es') (ts ++ ts').
Proof.
  induction 1 as [|start p data es name ts Hl Hc Hp _ IH]; simpl; intros Ht.
  - by rewrite Z.add_0_r in Ht.
  - rewrite <- (assoc_L app). constructor; [done..|]. apply IH. unfold contents in *. simpl in Ht.
    rewrite zlen_app in Ht. by rewrite <- Z.add_assoc.
Qed.

Lemma titled_app_inv start es es' ts : titled start (es ++ es') ts ->
  exists ts1 ts2, ts = ts1 ++ ts2 /\ titled start es ts1 /\ titled (start + zlen (contents es)) es' ts2.
Proof.
  revert start ts. induction es as [|[p data] es IH]; intros start ts; simpl.
  - intros Ht. exists [], ts. rewrite Z.add_0_r. split_and!; [done|constructor|done].
  - intros Ht. inversion Ht as [|? ? ? ? name ts' Hl Hc Hp Ht']; subst.
    destruct (IH _ _ Ht') as (ts1 & ts2 & -> & H1 & H2). exists (title_bytes start (zlen data) name ++ ts1), ts2.
    split_and!; [by rewrite (assoc_L app)|by constructor|]. unfold contents in *. simpl. rewrite zlen_app.
    by rewrite Z.add_assoc.
Qed.

Lemma titled_length start es ts : titled start es ts -> zlen ts = 140 * zlen es.
Proof.
  induction 1 as [|start p data es name ts Hl Hc Hp _ IH]; [done|].
  rewrite zlen_app, length_title, IH by done. unfold zlen. simpl. lia.
Qed.

(** ** Reading and writing the fields of a header *)

(** The fields the code changes, with their places. *)
Definition changed_fields : list field := (Num <$> kinds) ++ [iFileBufLen].

Definition field_places (l : layout) : list (field * Z) :=
  omap (fun f => o ← offsetof l f; Some (f, o)) changed_fields.

(** They are inside the header and do not overlap. *)
Definition inside (l : layout) (x : field * Z) : bool :=
  (0 <=? x.2) && (x.2 + field_size x.1 <=? sizeof_header l).
Definition apart (x y : field * Z) : bool :=
  bool_decide (x.1 = y.1) || (x.2 + field_size x.1 <=? y.2) || (y.2 + field_size y.1 <=? x.2).

Lemma layouts_inside l : forallb (inside l) (field_places l) = true.
Proof. by destruct l; vm_compute. Qed.

Lemma layouts_apart l : forallb (fun x => forallb (apart x) (field_places l)) (field_places l) = true.
Proof. by destruct l; vm_compute. Qed.

Lemma placed l f o : f ∈ changed_fields -> offsetof l f = Some o -> In (f, o) (field_places l).
Proof.
  intros Hf Ho. apply list_elem_of_In. unfold field_places. apply list_elem_of_omap.
  exists f. split; [done|]. by rewrite Ho.
Qed.

Lemma offset_range l f o : f ∈ changed_fields -> offsetof l f = Some o ->
  0 <= o /\ o + field_size f <= sizeof_header l.
Proof.
  intros Hf Ho. pose proof (layouts_inside l) as Hl. rewrite forallb_forall in Hl.
  specialize (Hl _ (placed _ _ _ Hf Ho)). unfold inside in Hl. apply andb_true_iff in Hl as [H1 H2].
  by apply Z.leb_le in H1, H2.
Qed.

Lemma offset_disjoint l f o f' o' : f ∈ changed_fields -> f' ∈ changed_fields ->
  offsetof l f = Some o -> offsetof l f' = Some o' -> f <> f' ->
  o + field_size f <= o' \/ o' + field_size f' <= o.
Proof.
  intros Hf Hf' Ho Ho' Hne. pose proof (layouts_apart l) as Hl. rewrite forallb_forall in Hl.
  specialize (Hl _ (placed _ _ _ Hf Ho)). rewrite forallb_forall in Hl.
  specialize (Hl _ (placed _ _ _ Hf' Ho')). unfold apart in Hl. apply orb_true_iff in Hl as [Hl|Hl].
  - apply orb_true_iff in Hl as [Hl|Hl]; [by apply bool_decide_eq_true in Hl|]. apply Z.leb_le in Hl. by left.
  - apply Z.leb_le in Hl. by right.
Qed.

Lemma kind_changed t : t ∈ kinds -> Num t ∈ changed_fields.
Proof. intros Ht. apply elem_of_app. left. by apply list_elem_of_fmap_2. Qed.

Lemma buflen_changed : iFileBufLen ∈ changed_fields.
Proof. apply elem_of_app. right. by apply list_elem_of_singleton. Qed.

(** Writing one field leaves the others alone. *)
Lemma get_num_write l h h' f o bs t : f ∈ changed_fields -> offsetof l f = Some o ->
  zlen bs = field_size f -> mwrite h o bs = Some h' -> t ∈ kinds -> f <> Num t ->
  get_num l h' t = get_num l h t.
Proof.
  intros Hf Ho Hb Hw Ht Hne. unfold get_num. destruct (offsetof l (Num t)) as [o'|] eqn:E; [|done].
  rewrite (mread_mwrite_disjoint _ _ _ _ _ _ Hw); [done|]. rewrite Hb.
  pose proof (offset_disjoint l _ _ _ _ Hf (kind_changed _ Ht) Ho E Hne) as Hd. simpl in Hd. lia.
Qed.

Lemma i16_le n : 0 <= n < 2 ^ 15 -> i16 (le_value (le_bytes 2 n)) = n.
Proof.
  intros Hn. rewrite le_value_bytes. change (2 ^ (8 * Z.of_nat 2)) with (2 ^ 16). unfold i16.
  rewrite (Z.mod_small n) by lia. rewrite Z.mod_small by lia. lia.
Qed.

(** ** Headers *)

Section Header.
Context `{OS} `{NvPlatform} (unmoved : nvram_platform_header_offset = 0).
Abbreviation L := header_layout.

(** The kinds whose numbers are kept in the written part of the header. *)
Definition kept (t : MetaData) : bool :=
  match t with
  | MD5BOOT | MD5CLN | MD5IMP => nvram_md5_support
  | VIA => nvram_evdo_support && negb nvram_ecci_c2k_support
  | MD3BOOT | MD3CLN | MD3IMP => nvram_ecci_c2k_support
  | ALL => false
  | _ => true
  end.

Lemma written_read : header_written = header_read.
Proof.
  unfold header_written, header_read. rewrite unmoved. destruct L; reflexivity.
Qed.

Lemma written_range : 0 <= header_written <= sizeof_header L.
Proof. rewrite written_read. unfold header_read. destruct L; vm_compute; split; discriminate. Qed.

(** The number of a kept kind is in the written part, others are behind it, or
    not in the header, or the kind is masked. *)
Lemma kept_offset t : kept t = true -> exists o, offsetof L (Num t) = Some o /\ o + 2 <= header_written.
Proof.
  rewrite written_read. unfold kept, header_read, header_layout.
  destruct t, nvram_md5_support, nvram_evdo_support, nvram_ecci_c2k_support; cbn [andb negb]; try done; intros _;
    (eexists; split; [reflexivity|by vm_compute]).
Qed.

Lemma offset_aligned t o : offsetof L (Num t) = Some o -> o + 2 <= header_written \/ header_written <= o.
Proof.
  rewrite written_read. unfold header_read, header_layout.
  destruct nvram_md5_support, nvram_evdo_support, nvram_ecci_c2k_support; cbn [andb negb];
    destruct t; vm_compute; intros [= <-]; (left; discriminate) || (right; discriminate).
Qed.

Record header_ok (h : list Z) (cnt : MetaData -> Z) (B : Z) : Prop := {
  ho_size : zlen h = sizeof_header L;
  ho_nums t : t ∈ kinds -> get_num L h t = cnt t;
  ho_len : exists o raw, offsetof L iFileBufLen = Some o /\ mread32 h o = Some raw /\ i32 raw = B
}.

Lemma mwrite_ok (h : list Z) o bs : 0 <= o -> o + zlen bs <= zlen h -> exists h', mwrite h o bs = Some h'.
Proof. intros. eexists. by apply mwrite_Some. Qed.

Lemma mread32_write h o h' x : mwrite h o (le32 x) = Some h' -> mread32 h' o = Some (u32 x).
Proof.
  intros Hw. unfold mread32. pose proof (mread_mwrite_same _ _ _ _ Hw) as Hr.
  unfold zlen in Hr. rewrite length_le32 in Hr. change (Z.of_nat 4) with 4 in Hr. rewrite Hr. apply (f_equal Some), de32_le32.
Qed.

(** Adding to [iFileBufLen]. *)
Lemma add_buf_len_run h cnt B s (w : world nvram) : header_ok h cnt B -> 0 <= B -> 0 <= s -> B + s < 2 ^ 31 ->
  exists h', add_buf_len h s w = (w, Ok h') /\ header_ok h' cnt (B + s).
Proof.
  intros [Hz Hn (o & raw & Ho & Hr & HB)] HB0 Hs Hlt. unfold add_buf_len. rewrite Ho, unmoved. cbn [Z.eqb].
  rewrite (bind_ok _ _ w w o eq_refl). rewrite Hr, (bind_ok _ _ w w raw eq_refl), HB.
  rewrite (bind_ok _ _ _ _ _ (padd_run B s w ltac:(lia))).
  pose proof (offset_range _ _ _ buflen_changed Ho) as [Ho0 Ho1]. simpl in Ho1.
  destruct (mwrite_ok h o (le32 (B + s))) as [h' Hw]; [done|unfold zlen; rewrite length_le32; unfold zlen in Hz; lia|].
  rewrite Hw. exists h'. split; [done|]. pose proof (length_mwrite _ _ _ _ Hw) as Hl. constructor.
  - unfold zlen in *. lia.
  - intros t Ht. rewrite <- Hn by done. eapply (get_num_write _ _ _ iFileBufLen _ (le32 (B + s))); [apply buflen_changed|exact Ho|by unfold zlen; rewrite length_le32|exact Hw|done|done].
  - exists o, (u32 (B + s)). split_and!; [done|by eapply mread32_write|]. rewrite i32_u32, i32_small; lia.
Qed.

Lemma set_num_ok h cnt B t n : header_ok h cnt B -> t ∈ kinds -> 0 <= n < 2 ^ 15 ->
  (offsetof L (Num t) = None -> n = 0) ->
  header_ok (set_num L t n h) (fun t' => if decide (t' = t) then n else cnt t') B.
Proof.
  intros [Hz Hn (ob & raw & Hob & Hr & HB)] Ht Hnr Hnone. unfold set_num.
  destruct (offsetof L (Num t)) as [o|] eqn:E.
  - pose proof (offset_range _ _ _ (kind_changed _ Ht) E) as [Ho0 Ho1]. simpl in Ho1.
    destruct (mwrite_ok h o (le_bytes 2 n)) as [h' Hw]; [done|unfold zlen; rewrite length_le_bytes; unfold zlen in Hz; lia|].
    rewrite Hw. simpl. pose proof (length_mwrite _ _ _ _ Hw) as Hl. constructor.
    + unfold zlen in *. lia.
    + intros t' Ht'. case_decide as Htt.
      * subst. unfold get_num. rewrite E. pose proof (mread_mwrite_same _ _ _ _ Hw) as Hrd.
        unfold zlen in Hrd. rewrite length_le_bytes in Hrd. change (Z.of_nat 2) with 2 in Hrd. rewrite Hrd. by apply i16_le.
      * rewrite <- Hn by done. eapply (get_num_write _ _ _ (Num t) _ (le_bytes 2 n)); [by apply kind_changed|exact E|by unfold zlen; rewrite length_le_bytes|exact Hw|done|congruence].
    + exists ob, raw. split_and!; [done| |done]. unfold mread32 in *.
      rewrite (mread_mwrite_disjoint _ _ _ _ _ _ Hw); [done|]. unfold zlen. rewrite length_le_bytes.
      pose proof (offset_disjoint L _ _ _ _ (kind_changed _ Ht) buflen_changed E Hob ltac:(done)) as Hd. simpl in Hd. lia.
  - rewrite (Hnone eq_refl). constructor; [done| |by exists ob, raw]. intros t' Ht'. case_decide as Htt; [|by apply Hn].
    subst. unfold get_num. by rewrite E.
Qed.

Lemma header_ok_ext h cnt cnt' B : header_ok h cnt B -> (forall t, t ∈ kinds -> cnt t = cnt' t) -> header_ok h cnt' B.
Proof. intros [] Heq. constructor; [done| |done]. intros t Ht. rewrite <- Heq by done. auto. Qed.

Lemma count_files_ok h cnt B t n : header_ok h cnt B -> t ∈ kinds -> 0 <= n < 2 ^ 15 ->
  (kept t = false -> n = 0 /\ cnt t = 0) ->
  header_ok (count_files t n h) (fun t' => if decide (t' = t) then n else cnt t') B.
Proof.
  intros Hok Ht Hn Hk.
  assert (header_ok (set_num L t n h) (fun t' => if decide (t' = t) then n else cnt t') B) as Hset.
  { apply set_num_ok; [done..|]. intros E. destruct (kept t) eqn:Ek; [|by apply Hk].
    destruct (kept_offset t Ek) as (o & Eo & _). congruence. }
  assert (kept t = false -> header_ok h (fun t' => if decide (t' = t) then n else cnt t') B) as Hskip.
  { intros Ek. destruct (Hk Ek) as [-> Hc]. eapply header_ok_ext; [exact Hok|]. intros t' _. by case_decide; subst. }
  unfold count_files. rewrite unmoved. cbn [Z.eqb].
  destruct t; try exact Hset; try (by apply Hskip); unfold kept in Hskip;
    destruct nvram_ecci_c2k_support; cbn [negb andb] in *; try exact Hset; apply Hskip; try done; by rewrite andb_false_r.
Qed.

Lemma mread_prefix (a b c : list Z) o n : 0 <= o -> o + n <= zlen a -> mread (a ++ b) o n = mread (a ++ c) o n.
Proof.
  intros Ho Hn. unfold mread. rewrite !zlen_app. pose proof (zlen_nonneg b). pose proof (zlen_nonneg c).
  destruct (Z.leb_spec 0 o), (Z.leb_spec 0 n); cbn [andb]; try done.
  destruct (Z.leb_spec (o + n) (zlen a + zlen b)), (Z.leb_spec (o + n) (zlen a + zlen c)); try lia.
  unfold zlen in *. rewrite !drop_app_le by lia. by rewrite !take_app_le by (rewrite length_drop; lia).
Qed.

(** What is read back of the written part, over zeros. *)
Lemma get_num_padded h cnt B t : header_ok h cnt B -> t ∈ kinds -> (kept t = false -> cnt t = 0) ->
  get_num L (take (Z.to_nat header_written) h ++
    replicate (Z.to_nat (sizeof_header L) - Z.to_nat header_written) 0) t = cnt t.
Proof.
  intros [Hz Hn _] Ht Hk. pose proof written_range as Hr. specialize (Hn t Ht). unfold get_num in *.
  destruct (offsetof L (Num t)) as [o|] eqn:E; [|done].
  pose proof (offset_range _ _ _ (kind_changed _ Ht) E) as [Ho0 Ho1]. simpl in Ho1.
  set (W := Z.to_nat header_written) in *. set (S := Z.to_nat (sizeof_header L)).
  destruct (offset_aligned t o E) as [Hin|Hout].
  - replace (mread (take W h ++ replicate (S - W) 0) o 2) with (mread h o 2); [done|].
    rewrite <- (take_drop W h) at 1. symmetry. apply mread_prefix; [done|].
    unfold zlen in *. rewrite length_take. lia.
  - destruct (kept t) eqn:Ek.
    { destruct (kept_offset t Ek) as (o' & Eo & Ho'). rewrite Eo in E. injection E as ->. lia. }
    rewrite Hk by done. rewrite (proj2 (mread_Some _ o 2 [0; 0])); [done|].
    unfold zlen in *. rewrite length_app, length_take, length_replicate. split_and!; [lia|lia|lia|].
    rewrite drop_app_ge by (rewrite length_take; lia). rewrite length_take, drop_replicate, take_replicate.
    replace (Z.to_nat 2 `min` _)%nat with 2%nat by lia. done.
Qed.
(** ** Archives *)

Definition all_entries (a : MetaData -> list entry) : list entry := concat (a <$> kinds).

(** The header as [FileOp_RestoreFromFiles] sees it. *)
Definition padded (h : list Z) : list Z :=
  take (Z.to_nat header_written) h ++ replicate (Z.to_nat (sizeof_header L) - Z.to_nat header_written) 0.

(** [map] and [data] are the two files of an archive of [a], written by a build
    with [common] and [custom] NVRAM records. *)
Record is_archive (a : MetaData -> list entry) (common custom : Z) (map data : list Z) : Prop := {
  ar_data : data = contents (all_entries a);
  ar_map : exists h ts,
    map = le32 (Z.lxor (checksum data) (zlen data)) ++ le32 common ++ le32 custom ++
          take (Z.to_nat header_written) h ++ ts /\
    zlen h = sizeof_header L /\
    (forall t, t ∈ kinds -> get_num L (padded h) t = zlen (a t)) /\
    titled 0 (all_entries a) ts
}.
End Header.
