(* ===== verification/NvBackup.v ===== *)
(** * libnvram: a backup writes the archive of the directories

    On a file system with room to spare [FileOp_BackupDataToFiles] writes the
    archive of the files the directories list, except those the masks exclude
    and the empty ones ([kind_entries]), and answers whether no file was
    empty. *)
From S2P Require Import Prelude Posix MemFs FileStore NvTypes NvFiles NvArchive NvSum NvMake NvSpec.

(** ** What there is to back up *)

Definition is_dot (n : list Z) : bool := streq n (lit ".") || streq n (lit "..").

Section Entries.
Context `{NvPlatform} (bin : bool) (iMask : list Z) (v : store).

(** The entry of a name in the directory of a kind, if it is backed up. *)
Definition name_entry (t : MetaData) (n : list Z) : option entry :=
  if is_dot n || masked_file bin t n then None
  else match files v !! child (kind_dir t) n with
       | Some (b :: data) => Some (child (kind_dir t) n, b :: data)
       | _ => None
       end.

(** The file is not there, or empty. *)
Definition name_empty (t : MetaData) (n : list Z) : bool :=
  negb (is_dot n || masked_file bin t n) &&
  match files v !! child (kind_dir t) n with Some (_ :: _) => false | _ => true end.

Definition masked_kind (t : MetaData) : bool := bool_decide (iMask !! Z.to_nat (kind_value t) = Some 1).

Definition kind_names (t : MetaData) : list (list Z) :=
  if masked_kind t then [] else default [] (dirs v !! kind_dir t).

Definition kind_entries (t : MetaData) : list entry := omap (name_entry t) (kind_names t).

(** A name in a directory the code handles: a regular file with a path that fits. *)
Definition name_ok (t : MetaData) (n : list Z) : Prop :=
  is_dot n = true \/
  (is_name n /\ Forall (fun b => b <> 0) n /\ zlen (child (kind_dir t) n) < MAX_NAMESIZE /\
   is_Some (files v !! child (kind_dir t) n)).
End Entries.

Section Backup.
Context `{FileStore} `{NvPlatform} (junk : Z -> list Z) (fuel : nat).
Context (unmoved : nvram_platform_header_offset = 0).
Context (junk_size : zlen (junk MAX_NAMESIZE) = MAX_NAMESIZE).
Abbreviation W := (world nvram).
Implicit Types (v : store) (w : W).

(** The store with the two files of the archive. *)
Definition arch (M A : list Z) v : store := put_file g_pcNVM_AllMap M (put_file g_pcNVM_AllFile A v).

(** The path of a file of the archive. *)
Lemma kind_dir_chars t : Forall (fun b => b <> 0) (kind_dir t).
Proof.
  apply Forall_forall. intros b Hb ->. assert (forallb (fun b => negb (b =? 0)) (kind_dir t) = true) as Hz by (by destruct t; vm_compute).
  rewrite forallb_forall in Hz. apply list_elem_of_In in Hb. by specialize (Hz _ Hb).
Qed.

Definition nvdata : list Z := lit "/mnt/vendor/nvdata".

Lemma kind_dir_nvdata t : kind_dir t <> nvdata.
Proof. by destruct t; vm_compute. Qed.

Lemma child_archive t n : is_name n -> child (kind_dir t) n <> g_pcNVM_AllFile /\ child (kind_dir t) n <> g_pcNVM_AllMap.
Proof.
  intros [_ Hn]. change g_pcNVM_AllFile with (child nvdata (lit "AllFile")).
  change g_pcNVM_AllMap with (child nvdata (lit "AllMap")).
  split; intros E; (apply child_inj in E as [E _]; [by apply (kind_dir_nvdata t)|done|by apply no_slash_existsb]).
Qed.

(** [sprintf] of a path that fits. *)
Lemma sprintf_fits buf t n : zlen buf = MAX_NAMESIZE -> zlen (child (kind_dir t) n) < MAX_NAMESIZE ->
  Forall (fun b => b <> 0) n ->
  exists buf', sprintf_path buf (kind_dir t) n = Some buf' /\ zlen buf' = MAX_NAMESIZE /\
    cstring buf' = child (kind_dir t) n.
Proof.
  intros Hb Hc Hn. unfold sprintf_path.
  destruct (mwrite_ok buf 0 (kind_dir t ++ [chr_slash] ++ n ++ [0])) as [buf' Hw]; [done| |].
  { unfold child in Hc. rewrite !zlen_app in *. unfold MAX_NAMESIZE, zlen in *. simpl in *. lia. }
  exists buf'. split; [done|]. pose proof (length_mwrite _ _ _ _ Hw) as Hl. split; [unfold zlen in *; lia|].
  apply mwrite_Some in Hw as (_ & _ & ->). simpl take.
  replace (kind_dir t ++ [chr_slash] ++ n ++ [0]) with (child (kind_dir t) n ++ [0])
    by (unfold child; by rewrite <- !(assoc_L app)).
  rewrite <- (assoc_L app). apply cstring_app_nul. unfold child. apply Forall_app; split; [apply kind_dir_chars|].
  by constructor.
Qed.

(** ** One directory *)

Lemma arch_files M A v p : p <> g_pcNVM_AllFile -> p <> g_pcNVM_AllMap -> files (arch M A v) !! p = files v !! p.
Proof. intros H1 H2. unfold arch. simpl. by rewrite !lookup_insert_ne by done. Qed.

Lemma arch_A M A v : files (arch M A v) !! g_pcNVM_AllFile = Some A.
Proof. unfold arch. simpl. rewrite lookup_insert_ne by (apply not_eq_sym, AllFile_AllMap). by rewrite lookup_insert_eq. Qed.

Lemma arch_M M A v : files (arch M A v) !! g_pcNVM_AllMap = Some M.
Proof. unfold arch. simpl. by rewrite lookup_insert_eq. Qed.

Lemma arch_append dir ns M A M' A' v :
  put_file g_pcNVM_AllMap M' (put_file g_pcNVM_AllFile A' (put_stream dir ns (arch M A v)))
  = put_stream dir ns (arch M' A' v).
Proof. pose proof AllFile_AllMap. unfold arch. store_eq. Qed.

Section Scan.
Context (bin : bool) (v : store) (t : MetaData) (dir : Z).
Abbreviation entries := (omap (name_entry bin v t)).

(** A name that is not backed up, and one that is. *)
Lemma entries_skip n ns : is_dot n = true \/ masked_file bin t n = true ->
  entries (n :: ns) = entries ns /\ negb (name_empty bin v t n) = true.
Proof.
  intros Hm. cbn [omap list_omap]. unfold name_entry at 1, name_empty.
  assert (is_dot n || masked_file bin t n = true) as -> by (by apply orb_true_iff). done.
Qed.

Lemma entries_file n ns data : is_dot n = false -> masked_file bin t n = false ->
  files v !! child (kind_dir t) n = Some data ->
  match data with
  | [] => entries (n :: ns) = entries ns /\ negb (name_empty bin v t n) = false
  | _ => entries (n :: ns) = (child (kind_dir t) n, data) :: entries ns /\ negb (name_empty bin v t n) = true
  end.
Proof.
  intros Hd Hm Hf.
  assert (name_entry bin v t n = match data with [] => None | _ => Some (child (kind_dir t) n, data) end) as E.
  { unfold name_entry. rewrite Hd, Hm, Hf. by destruct data. }
  unfold name_empty. rewrite Hd, Hm, Hf. cbn [omap list_omap]. rewrite E. by destruct data.
Qed.

Lemma scan_run n : forall ns buf num size ret M A g L w,
  (length ns < n)%nat -> Forall (name_ok v t) ns -> zlen buf = MAX_NAMESIZE ->
  gFileStartAddr g = zlen A -> zlen A + zlen (contents (entries ns)) < 2 ^ 31 ->
  0 <= num -> num + zlen (entries ns) < 2 ^ 32 -> 0 <= size ->
  ready (put_stream dir ns (arch M A v)) g L w ->
  runs (scan_dir n bin t (kind_dir t) dir (Scan buf num size ret)) w (fun s w' =>
    exists buf' size' ts, s = Scan buf' (num + zlen (entries ns)) size'
      (ret && forallb (fun x => negb (name_empty bin v t x)) ns) /\
      zlen buf' = MAX_NAMESIZE /\ 0 <= size' <= size + zlen (contents (entries ns)) /\
      titled (zlen A) (entries ns) ts /\
      ready (put_stream dir [] (arch (M ++ ts) (A ++ contents (entries ns)) v))
        (set_gFileStartAddr (zlen A + zlen (contents (entries ns))) g) L w').
Proof.
  induction n as [|n IH]; intros ns buf num size ret M A g L w Hn Hok Hb Hg HA Hnum Hnum2 Hsz Hw; [lia|].
  cbn [scan_dir]. apply runs_bind. eapply run_readdir; [exact Hw|apply lookup_insert_eq|]. intros w1 Hw1.
  rewrite put_put_stream in Hw1. destruct ns as [|d_name ns]; cbn [head tail] in *.
  { exists buf, size, []. cbn [omap list_omap forallb]. rewrite andb_true_r, !app_nil_r.
    unfold contents, zlen at 1. simpl. rewrite !Z.add_0_r. split_and!; try done; try lia; [constructor|].
    unfold set_gFileStartAddr. rewrite <- Hg. by destruct g. }
  apply runs_bind. eapply run_quiet; [exact Hw1|done|]. intros _ w2 Hw2.
  apply Forall_cons_1 in Hok as [Hok1 Hok]. simpl in Hn.
  change (streq d_name (lit ".") || streq d_name (lit "..")) with (is_dot d_name).
  destruct (is_dot d_name) eqn:Hdot.
  { destruct (entries_skip d_name ns) as [E1 E2]; [by left|]. rewrite E1 in *. cbn [forallb].
    rewrite E2. apply IH; try done; lia. }
  destruct Hok1 as [|(Hname & Hnz & Hlen & data & Hd)]; [congruence|].
  destruct (sprintf_fits buf t d_name Hb Hlen Hnz) as (buf' & Hsp & Hb' & Hc).
  apply runs_bind. cbn [acSrcPathName]. rewrite Hsp. apply runs_ret.
  destruct (masked_file bin t d_name) eqn:Hm.
  { destruct (entries_skip d_name ns) as [E1 E2]; [by right|]. rewrite E1 in *. cbn [forallb FileSize iFileNum bRet].
    rewrite E2. apply IH; try done; lia. }
  destruct (child_archive t d_name Hname) as [N1 N2].
  pose proof (entries_file d_name ns data Hdot Hm Hd) as HE. cbn [FileSize iFileNum bRet].
  apply runs_bind. eapply runs_mono.
  { eapply (make_file_run _ _ _ _ A M buf' data); [exact Hw2|apply arch_A|apply arch_M| | | |exact Hb']; try (by rewrite Hc).
    - rewrite Hc. etrans; [by apply (arch_files M A v)|done].
    - destruct data; [done|]. destruct HE as [E1 _]. rewrite E1, contents_cons, zlen_app in HA.
      pose proof (zlen_nonneg A). pose proof (zlen_nonneg (contents (entries ns))). lia. }
  intros [r [num' size']] w3 Hr. cbv beta iota.
  destruct data as [|b0 data0]; destruct HE as [E1 E2], Hr as [[= -> -> ->] Hw3]; rewrite E1 in *; cbn [forallb]; rewrite E2.
  { rewrite (andb_false_l), andb_false_r. eapply runs_mono; [apply (IH ns buf' num 0 false M A g L w3); try done; lia|].
    intros s w4 (b & sz & ts & -> & Hs2 & Hs3 & Hs4 & Hs5). exists b, sz, ts. split_and!; try done; lia. }
  set (data := b0 :: data0) in *. rewrite arch_append in Hw3.
  assert (zlen (contents ((child (kind_dir t) d_name, data) :: entries ns)) = zlen data + zlen (contents (entries ns))) as EL
    by (by rewrite contents_cons, zlen_app).
  pose proof (zlen_nonneg A). pose proof (zlen_nonneg data). pose proof (zlen_nonneg (contents (entries ns))).
  assert (zlen ((child (kind_dir t) d_name, data) :: entries ns) = 1 + zlen (entries ns)) as EN by (unfold zlen; simpl; lia).
  pose proof (zlen_nonneg (entries ns)). rewrite EL, EN in *. rewrite Hg in Hw3.
  rewrite (u32_small (num + 1)) by lia. rewrite u32_small in Hw3 by lia.
  eapply runs_mono.
  { apply (IH ns buf' (num + 1) (zlen data) (true && ret) (M ++ title_bytes (zlen A) (zlen data) buf') (A ++ data)
      (set_gFileStartAddr (zlen A + zlen data) g) L w3); try done; try lia; by rewrite zlen_app; try lia. }
  intros s w4 (b & sz & ts & -> & Hs2 & Hs3 & Hs4 & Hw4).
  exists b, sz, (title_bytes (zlen A) (zlen data) buf' ++ ts). rewrite zlen_app in Hs4.
  split_and!; [f_equal; lia|done|lia|lia|by constructor|].
  rewrite contents_cons. rewrite <- !(assoc_L app), zlen_app in Hw4.
  unfold set_gFileStartAddr in *. simpl in Hw4. by rewrite <- Z.add_assoc in Hw4.
Qed.
End Scan.
(** ** All directories *)

Lemma not_all t : t ∈ kinds -> t <> ALL.
Proof. intros Ht ->. apply list_elem_of_In in Ht. vm_compute in Ht. intuition discriminate. Qed.

Lemma kind_value_range t : t ∈ kinds -> (Z.to_nat (kind_value t) < 17)%nat.
Proof. intros Ht. pose proof (not_all t Ht). destruct t; try done; vm_compute; lia. Qed.

Lemma kind_dir_some t : t ∈ kinds -> kind_dir t <> [].
Proof. intros Ht. pose proof (not_all t Ht). by destruct t. Qed.

Section Kinds.
Context (bin : bool) (iMask : list Z) (v : store) (M0 : list Z) (g0 : nvram).
Abbreviation names := (kind_names iMask v).
Abbreviation entries := (kind_entries bin iMask v).

(** No file of the kind is empty. *)
Definition kind_full (t : MetaData) : bool := forallb (fun n => negb (name_empty bin v t n)) (names t).

(** The directories can be backed up: the paths fit, the numbers fit a short,
    the contents fit an int, and files are only where the platform keeps them. *)
Record can_backup : Prop := {
  cb_mask : length iMask = 17%nat;
  cb_names t : t ∈ kinds -> Forall (name_ok v t) (names t);
  cb_fuel t : t ∈ kinds -> (length (names t) < fuel)%nat;
  cb_count t : t ∈ kinds -> zlen (entries t) < 2 ^ 15;
  cb_kept t : t ∈ kinds -> kept t = false -> entries t = [];
  cb_total : zlen (contents (all_entries entries)) < 2 ^ 31
}.
Context (Hcan : can_backup).

Definition done_entries (done : list MetaData) : list entry := concat (entries <$> done).

Definition counts (done : list MetaData) (t : MetaData) : Z :=
  if decide (t ∈ done) then zlen (entries t) else 0.

(** After the kinds [done]. *)
Definition scanned (done : list MetaData) (b : backup) (L : list Z) (w : W) : Prop :=
  exists ts B, zlen (b_path b) = MAX_NAMESIZE /\ titled 0 (done_entries done) ts /\
    header_ok (b_header b) (counts done) B /\ 0 <= B <= zlen (contents (done_entries done)) /\
    b_ret b = forallb kind_full done /\
    ready (arch (M0 ++ ts) (contents (done_entries done)) v)
      (set_gFileStartAddr (zlen (contents (done_entries done))) g0) L w.

Lemma done_entries_snoc done t : done_entries (done ++ [t]) = done_entries done ++ entries t.
Proof. unfold done_entries. rewrite fmap_app, concat_app. simpl. by rewrite app_nil_r. Qed.

Lemma done_total done todo : kinds = done ++ todo -> zlen (contents (done_entries done)) < 2 ^ 31.
Proof.
  intros E. pose proof (cb_total Hcan) as Ht. unfold all_entries in Ht. rewrite E, fmap_app, concat_app, contents_app, zlen_app in Ht.
  pose proof (zlen_nonneg (contents (concat (entries <$> todo)))). unfold done_entries. lia.
Qed.

(** A kind without entries. *)
Lemma scanned_none done t b b' L w : t ∉ done -> entries t = [] -> kind_full t = true ->
  b_path b' = b_path b -> b_header b' = b_header b -> b_ret b' = b_ret b ->
  scanned done b L w -> scanned (done ++ [t]) b' L w.
Proof.
  intros Ht He Hf Hp Hh Hr (ts & B & S1 & S2 & S3 & S4 & S5 & S6). exists ts, B.
  rewrite done_entries_snoc, He, app_nil_r, Hp, Hh, Hr, forallb_app. simpl. rewrite Hf, andb_true_r. split_and!; try done; [|lia..].
  eapply header_ok_ext; [exact S3|]. intros t' _. unfold counts.
  destruct (decide (t' ∈ done)), (decide (t' ∈ done ++ [t])); try done; [set_solver|].
  assert (t' = t) as -> by set_solver. by rewrite He.
Qed.

(** A kind with a directory. *)
Lemma backup_dir_run done todo t b ns L w : kinds = done ++ t :: todo -> t ∉ done -> t ∈ kinds ->
  dirs v !! kind_dir t = Some ns -> names t = ns -> scanned done b L w ->
  runs (dir ← psys (Sys_opendir (kind_dir t));
        if rv dir =? 0 then mret (Backup (Some (kind_dir t)) (b_path b) (b_header b) (b_ret b))
        else
          s ← scan_dir fuel bin t (kind_dir t) (rv dir) (Scan (b_path b) 0 0 (b_ret b));
          _ ← psys (Sys_closedir (rv dir));
          h ← add_buf_len (b_header b) (FileSize s);
          mret (Backup (Some (kind_dir t)) (acSrcPathName s) (count_files t (iFileNum s) h) (bRet s))) w
    (fun b' w' => scanned (done ++ [t]) b' L w').
Proof.
  intros Ek Hnd Ht Ed <- (ts & B & S1 & S2 & S3 & S4 & S5 & S6).
  assert (omap (name_entry bin v t) (names t) = entries t) as Ee by done.
  pose proof (done_total (done ++ [t]) todo ltac:(by rewrite <- (assoc_L app))) as Htot.
  rewrite done_entries_snoc, contents_app, zlen_app in Htot.
  pose proof (zlen_nonneg (entries t)) as Hn0. pose proof (cb_count Hcan t Ht) as Hn1.
  apply runs_bind. eapply run_opendir; [exact S6|by apply kind_dir_some|exact Ed|].
  intros d e w1 Hd Hfr Hw1. cbn [rv]. destruct (Z.eqb_spec d 0); [done|].
  apply runs_bind. eapply runs_mono.
  { eapply scan_run; [by apply (cb_fuel Hcan)|by apply (cb_names Hcan)
      |exact S1| | | | | |exact Hw1]; rewrite ?Ee; try done; lia. }
  intros s w2 (buf' & size' & ts' & -> & B1 & B2 & B3 & B4). rewrite Ee in *.
  cbn [FileSize acSrcPathName iFileNum bRet]. rewrite Z.add_0_l in *.
  apply runs_bind. eapply run_closedir; [exact B4|apply lookup_insert_eq|]. intros r w3 Hw3.
  rewrite drop_put_stream in Hw3 by done.
  destruct (add_buf_len_run unmoved _ _ _ size' w3 S3) as (h' & Eh & Hh'); [lia|lia|lia|].
  apply runs_bind. unfold runs, wp. rewrite Eh. apply runs_ret.
  exists (ts ++ ts'), (B + size'). rewrite done_entries_snoc, contents_app, zlen_app. cbn [b_path b_header b_ret].
  split_and!; [done|by apply titled_app| |lia|lia| |].
  - eapply header_ok_ext.
    + eapply count_files_ok; [done|exact Hh'|exact Ht|lia|]. intros Hk. split; [by rewrite (cb_kept Hcan t Ht Hk)|].
      unfold counts. by rewrite decide_False.
    + intros t' _. unfold counts. destruct (decide (t' = t)) as [->|Hne].
      * rewrite decide_True; [done|set_solver].
      * destruct (decide (t' ∈ done)), (decide (t' ∈ done ++ [t])); try done; set_solver.
  - rewrite S5, forallb_app. simpl. by rewrite andb_true_r.
  - by rewrite (assoc_L app).
Qed.

Lemma backup_kind_run done todo t b L w : kinds = done ++ t :: todo -> t ∉ done -> scanned done b L w ->
  runs (backup_kind fuel bin iMask t b) w (fun b' w' => scanned (done ++ [t]) b' L w').
Proof.
  intros Ek Hnd Hs. assert (t ∈ kinds) as Ht by (rewrite Ek; set_solver).
  unfold backup_kind. destruct (lookup_lt_is_Some_2 iMask (Z.to_nat (kind_value t))) as [m Em].
  { rewrite (cb_mask Hcan). by apply kind_value_range. }
  apply runs_bind. rewrite Em. apply runs_ret. destruct (Z.eqb_spec m 1) as [->|Hm].
  { apply runs_ret. eapply scanned_none; [done| | |done|done|done|exact Hs].
    - unfold kind_entries, kind_names, masked_kind. by rewrite bool_decide_eq_true_2.
    - unfold kind_full, kind_names, masked_kind. by rewrite bool_decide_eq_true_2. }
  assert (source_dir t (b_dir b) = Some (kind_dir t)) as ->.
  { unfold source_dir. rewrite unmoved. pose proof (not_all t Ht). by destruct t. }
  assert (names t = default [] (dirs v !! kind_dir t)) as En.
  { unfold kind_names, masked_kind. rewrite bool_decide_eq_false_2; [done|]. rewrite Em. congruence. }
  destruct (dirs v !! kind_dir t) as [ns|] eqn:Ed; simpl in En.
  2:{ destruct Hs as (ts & B & S1 & S2 & S3 & S4 & S5 & S6).
      apply runs_bind. eapply run_opendir_none; [exact S6|exact Ed|]. intros e w1 Hw1. cbn [rv Z.eqb].
      apply runs_ret. eapply (scanned_none done t b); [done| | |done|done|done|by exists ts, B].
      - unfold kind_entries. by rewrite En.
      - unfold kind_full. by rewrite En. }
  eapply runs_mono; [by eapply backup_dir_run|done].
Qed.

Lemma backup_kinds_run todo : forall done b L w, kinds = done ++ todo -> NoDup kinds -> scanned done b L w ->
  runs (backup_kinds fuel bin iMask todo b) w (fun b' w' => scanned kinds b' L w').
Proof.
  induction todo as [|t todo IH]; intros done b L w Ek Hnd Hs.
  - rewrite app_nil_r in Ek. by rewrite Ek.
  - cbn [backup_kinds]. apply runs_bind. eapply runs_mono.
    + eapply backup_kind_run; [exact Ek| |exact Hs]. rewrite Ek in Hnd.
      apply NoDup_app in Hnd as (_ & Hd & _). intros Hin. apply (Hd t Hin). by left.
    + intros b' w' Hs'. apply (IH (done ++ [t])); [by rewrite <- (assoc_L app)|done|done].
Qed.
End Kinds.

(** ** Writing over the start of a file *)

(** [P] has been written over the contents [D]. *)
Definition over (fd : Z) (p : list Z) (r : bool) (P D : list Z) v : store :=
  put_fd fd (Fd p (zlen P) r true) (put_file p (P ++ drop (length P) D) v).

Lemma run_over fd p r P D bs v g L w (Q : ires -> W -> Prop) : ready (over fd p r P D v) g L w ->
  (forall e w', ready (over fd p r (P ++ bs) D v) g L w' -> Q (IRes (zlen bs) e) w') ->
  runs (psys (Sys_write fd bs)) w Q.
Proof.
  intros Hw HQ. pose proof (zlen_nonneg P).
  eapply run_write; [exact Hw|unfold over; by rewrite fds_put_fd, decide_True|simpl; by rewrite lookup_insert_eq| |].
  { rewrite zlen_app. pose proof (zlen_nonneg (drop (length P) D)). lia. }
  intros e w' Hw'. apply HQ. unfold over in *. rewrite !put_fd_file, put_put_file, put_put_fd in Hw'.
  assert (write_at (P ++ drop (length P) D) (zlen P) bs = (P ++ bs) ++ drop (length (P ++ bs)) D) as E.
  { unfold write_at, zlen. rewrite Nat2Z.id, take_app_length, <- (drop_drop _ (length bs)), drop_app_length.
    by rewrite drop_drop, length_app, <- (assoc_L app). }
  rewrite E in Hw'. by rewrite put_fd_file, zlen_app.
Qed.

Lemma over_start fd p r D v : put_fd fd (Fd p 0 r true) (put_file p D v) = over fd p r [] D v.
Proof. done. Qed.

(** The front of a map. *)
Definition blank (h : list Z) : list Z := le32 0 ++ le32 0 ++ le32 0 ++ take (Z.to_nat header_written) h.

Lemma write_header_run fd r D h v g L w (Q : unit -> W -> Prop) : zlen h = sizeof_header header_layout ->
  ready (over fd g_pcNVM_AllMap r [] D v) g L w ->
  (forall w', ready (over fd g_pcNVM_AllMap r (blank h) D v) g L w' -> Q tt w') ->
  runs (write_header fd h) w Q.
Proof.
  intros Hh Hw HQ. pose proof (written_range unmoved) as Hr. unfold write_header.
  apply runs_bind. eapply run_over; [exact Hw|]. intros e1 w1 Hw1.
  apply runs_bind. eapply run_over; [exact Hw1|]. intros e2 w2 Hw2.
  apply runs_bind. eapply run_over; [exact Hw2|]. intros e3 w3 Hw3.
  apply runs_bind. rewrite (proj2 (mread_Some h 0 header_written (take (Z.to_nat header_written) h))) by (split_and!; [lia..|done]).
  apply runs_ret. apply runs_bind. eapply run_over; [exact Hw3|]. intros e4 w4 Hw4.
  apply runs_ret, HQ. by rewrite <- !(assoc_L app) in Hw4.
Qed.

Lemma zlen_blank h : zlen h = sizeof_header header_layout -> zlen (blank h) = 12 + header_written.
Proof.
  intros Hh. pose proof (written_range unmoved). unfold blank. rewrite !zlen_app. unfold zlen in *.
  rewrite !length_le32, length_take. lia.
Qed.

(** Closing the file. *)
Lemma drop_over fd p r P D v : open_fds v !! fd = None -> drop_fd fd (over fd p r P D v) = put_file p (P ++ drop (length P) D) v.
Proof. intros Hfd. unfold over. by rewrite drop_put_fd. Qed.

(** ** The whole function *)

Lemma kinds_nodup : NoDup kinds.
Proof. apply (bool_decide_unpack _). by vm_compute. Qed.

(** Another listing of the directory above changes nothing. *)
Section AnyListing.
Context (bin : bool) (iMask : list Z) (ns : list (list Z)) (v : store).

Lemma kind_names_dir t : kind_names iMask (put_dir nvdata ns v) t = kind_names iMask v t.
Proof. unfold kind_names. rewrite dirs_put_dir, decide_False by apply kind_dir_nvdata. done. Qed.

Lemma kind_entries_dir t : kind_entries bin iMask (put_dir nvdata ns v) t = kind_entries bin iMask v t.
Proof. unfold kind_entries. by rewrite kind_names_dir. Qed.

Lemma all_entries_dir : all_entries (kind_entries bin iMask (put_dir nvdata ns v)) = all_entries (kind_entries bin iMask v).
Proof. unfold all_entries. f_equal. apply list_fmap_ext. intros. apply kind_entries_dir. Qed.

Lemma can_backup_dir : can_backup bin iMask v -> can_backup bin iMask (put_dir nvdata ns v).
Proof.
  intros [C1 C2 C3 C4 C5 C6]. constructor; [done|..]; intros; rewrite ?kind_names_dir, ?kind_entries_dir, ?all_entries_dir; auto.
  by apply C2.
Qed.

Lemma all_full_dir : forallb (kind_full bin iMask (put_dir nvdata ns v)) kinds = forallb (kind_full bin iMask v) kinds.
Proof.
  generalize kinds. intros ts. induction ts as [|t ts IH]; simpl; [done|]. rewrite IH. f_equal.
  unfold kind_full. by rewrite kind_names_dir.
Qed.
End AnyListing.

(** The checksum and the numbers of records go over the first three words. *)
Lemma set_checksum_run ulCheckSum M v g L w : ready (put_file g_pcNVM_AllMap M v) g L w ->
  runs (FileOp_SetCheckSum ulCheckSum) w (fun r w' => r = true /\
    ready (put_file g_pcNVM_AllMap (le32 (Z.lxor ulCheckSum (gFileStartAddr g)) ++ le32 g_i4CFG_File_Count ++
        le32 g_i4CFG_File_Custom_Count ++ drop 12 M) v) (set_gFileStartAddr 0 g) L w').
Proof.
  intros Hw. unfold FileOp_SetCheckSum. apply runs_bind. eapply run_get; [exact Hw|].
  apply runs_bind. eapply run_mod; [exact Hw|]. intros w1 Hw1.
  apply runs_bind. eapply run_open; [exact Hw1|simpl; apply lookup_insert_eq|by auto|].
  intros fd e r wr w2 Hfd Ofd _ Hwr Hw2. rewrite Hwr in Hw2 by done. rewrite over_start in Hw2. cbn [rv].
  destruct (Z.ltb_spec fd 0); [lia|].
  apply runs_bind. eapply run_over; [exact Hw2|]. intros e1 w3 Hw3. cbn [rv].
  apply runs_bind. eapply run_over; [exact Hw3|]. intros e2 w4 Hw4. cbn [rv].
  apply runs_bind. eapply run_over; [exact Hw4|]. intros e3 w5 Hw5. cbn [rv].
  apply runs_bind. eapply run_close; [exact Hw5|unfold over; by rewrite fds_put_fd, decide_True|]. intros r' w6 Hw6.
  rewrite drop_over in Hw6 by exact Ofd. apply runs_ret. split; [done|]. by rewrite <- !(assoc_L app) in Hw6.
Qed.

Section Finish.
Context (bin : bool) (iMask : list Z) (v : store) (Hcan : can_backup bin iMask v).
Abbreviation es := (kind_entries bin iMask v).
Abbreviation data := (contents (all_entries es)).

(** The header read back is not used. *)
Lemma reread_run B M g L w : ready (arch M data v) g L w ->
  runs (mapo ← psys (Sys_open g_pcNVM_AllMap O_RDONLY 0);
        if rv mapo =? INVALID_HANDLE_VALUE then mret false
        else
          _ ← psys (Sys_lseek (rv mapo) (4 + 2 * 4) SEEK_SET);
          _ ← psys (Sys_read (rv mapo) header_written);
          _ ← psys (Sys_close (rv mapo));
          ulCheckSum ← FileOp_ComputeCheckSum;
          ok ← FileOp_SetCheckSum ulCheckSum;
          mret (if ok : bool then B else false)) w
    (fun r w' => r = B /\ ready (arch (le32 (Z.lxor (checksum data) (gFileStartAddr g)) ++ le32 g_i4CFG_File_Count ++
        le32 g_i4CFG_File_Custom_Count ++ drop 12 M) data v) (set_gFileStartAddr 0 g) L w').
Proof.
  intros Hw. pose proof (written_range unmoved). pose proof (cb_total _ _ _ Hcan).
  apply runs_bind. eapply run_open; [exact Hw|apply arch_M|by auto|]. intros fd e r wr w1 Hfd Ofd Hr _ Hw1.
  rewrite Hr in Hw1 by done. cbn [rv]. unfold INVALID_HANDLE_VALUE. destruct (Z.eqb_spec fd (-1)); [lia|].
  apply runs_bind. eapply run_seek_set; [exact Hw1|by rewrite fds_put_fd, decide_True|done|]. intros e1 w2 Hw2.
  rewrite put_put_fd in Hw2.
  apply runs_bind. eapply run_read; [exact Hw2|by rewrite fds_put_fd, decide_True|apply arch_M|lia|done|]. intros w3 Hw3.
  rewrite put_put_fd in Hw3.
  apply runs_bind. eapply run_close; [exact Hw3|by rewrite fds_put_fd, decide_True|]. intros r' w4 Hw4.
  rewrite drop_put_fd in Hw4 by done.
  apply runs_bind. eapply runs_mono; [eapply compute_checksum; [exact Hw4|apply arch_A|lia]|]. intros sum w5 [-> Hw5].
  apply runs_bind. eapply runs_mono; [eapply set_checksum_run; exact Hw5|]. intros ok w6 [-> Hw6]. by split.
Qed.

Lemma finish_run M0 g b L w : gFileStartAddr g = 0 -> zlen M0 = 12 + header_written ->
  scanned bin iMask v M0 g kinds b L w ->
  runs (finish_archive b) w (fun r w' => exists M, r = forallb (kind_full bin iMask v) kinds /\
    is_archive es g_i4CFG_File_Count g_i4CFG_File_Custom_Count M data /\ ready (arch M data v) g L w').
Proof.
  intros Hg HM0 (ts & B & S1 & S2 & S3 & S4 & S5 & S6). change (done_entries bin iMask v kinds) with (all_entries es) in *.
  pose proof (written_range unmoved) as Hrange. unfold finish_archive.
  apply runs_bind. eapply run_open; [exact S6|apply arch_M|by auto|]. intros fd e r wr w1 Hfd Ofd _ Hwr Hw1.
  rewrite Hwr in Hw1 by done. cbn [rv]. unfold INVALID_HANDLE_VALUE. destruct (Z.eqb_spec fd (-1)); [lia|].
  unfold arch in Hw1. rewrite over_start in Hw1. pose proof (ho_size _ _ _ S3) as Hz.
  apply runs_bind. eapply write_header_run; [exact Hz|exact Hw1|]. intros w2 Hw2.
  apply runs_bind. eapply run_close; [exact Hw2|unfold over; by rewrite fds_put_fd, decide_True|]. intros r' w3 Hw3.
  rewrite drop_over in Hw3 by exact Ofd.
  assert (length (blank (b_header b)) = length M0) as El by (pose proof (zlen_blank _ Hz); unfold zlen in *; lia).
  rewrite El, drop_app_length in Hw3.
  eapply runs_mono; [apply (reread_run (b_ret b)); exact Hw3|]. intros r2 w4 [-> Hw4]. eexists. split; [exact S5|].
  split; [|by destruct g; simpl in Hg; subst].
  constructor; [done|]. exists (b_header b), ts. split_and!; [done|exact Hz| |exact S2].
  intros t Ht. unfold padded. rewrite (get_num_padded unmoved _ _ _ _ S3 Ht); unfold counts; rewrite decide_True by done; [done|].
  intros Hk. by rewrite (cb_kept _ _ _ Hcan t Ht Hk).
Qed.

End Finish.

Section Whole.
Context (bin : bool) (iMask : list Z) (v : store) (Hcan : can_backup bin iMask v).
Abbreviation es := (kind_entries bin iMask v).
Abbreviation data := (contents (all_entries es)).

(** The map and the contents are created in the directory above. *)
Definition archive_place : Prop :=
  is_Some (dirs v !! nvdata) /\ dirs v !! g_pcNVM_AllMap = None /\ dirs v !! g_pcNVM_AllFile = None.

Lemma zero_header : header_ok (replicate (Z.to_nat (sizeof_header header_layout)) 0) (counts bin iMask v []) 0.
Proof.
  unfold counts. constructor.
  - unfold zlen. rewrite length_replicate. destruct header_layout; reflexivity.
  - intros t _. rewrite decide_False by set_solver. destruct header_layout, t; reflexivity.
  - destruct header_layout; by eexists _, _.
Qed.

Lemma backup_run g L w : archive_place -> gFileStartAddr g = 0 -> ready v g L w ->
  runs (FileOp_BackupDataToFiles junk fuel (Some iMask) bin) w (fun r w' => exists ns M,
    r = forallb (kind_full bin iMask v) kinds /\
    is_archive es g_i4CFG_File_Count g_i4CFG_File_Custom_Count M data /\
    ready (arch M data (put_dir nvdata ns v)) g L w').
Proof.
  intros ([ns Hd] & Hm & Ha) Hg Hw. unfold FileOp_BackupDataToFiles.
  apply runs_bind. eapply run_quiet; [exact Hw|done|]. intros _ w1 Hw1.
  apply runs_bind. eapply (run_create _ _ _ _ nvdata (lit "AllMap")); [exact Hw1|split; [done|by apply no_slash_existsb]|exact Hd|exact Hm|by auto|].
  intros map e r ns1 w2 Hmap Omap Hw2. change (child nvdata (lit "AllMap")) with g_pcNVM_AllMap in Hw2.
  rewrite over_start in Hw2. cbn [rv]. unfold INVALID_HANDLE_VALUE. destruct (Z.eqb_spec map (-1)); [lia|].
  pose proof zero_header as Hz. pose proof (ho_size _ _ _ Hz) as Hz0.
  apply runs_bind. eapply write_header_run; [exact Hz0|exact Hw2|]. intros w3 Hw3.
  apply runs_bind. eapply run_close; [exact Hw3|unfold over; by rewrite fds_put_fd, decide_True|]. intros r1 w4 Hw4.
  rewrite drop_over, drop_nil, app_nil_r in Hw4 by exact Omap. set (M0 := blank _) in Hw4.
  apply runs_bind. eapply (run_create _ _ _ _ nvdata (lit "AllFile")); [exact Hw4|split; [done|by apply no_slash_existsb]| | |by auto|].
  { rewrite dirs_put_file, dirs_put_dir, decide_True by done. done. }
  { rewrite dirs_put_file, dirs_put_dir, decide_False by done. done. }
  intros file e2 r2 ns2 w5 Hfile Ofile Hw5. cbn [rv]. destruct (Z.eqb_spec file (-1)); [lia|].
  change (child nvdata (lit "AllFile")) with g_pcNVM_AllFile in Hw5.
  apply runs_bind. eapply run_close; [exact Hw5|by rewrite fds_put_fd, decide_True|]. intros r3 w6 Hw6.
  rewrite drop_put_fd in Hw6 by done.
  replace (put_file g_pcNVM_AllFile [] _) with (arch M0 [] (put_dir nvdata ns2 v)) in Hw6.
  2:{ pose proof AllFile_AllMap. unfold arch. store_eq. }
  pose proof (can_backup_dir bin iMask ns2 v Hcan) as Hcan'.
  apply runs_bind. eapply runs_mono.
  { apply (backup_kinds_run bin iMask (put_dir nvdata ns2 v) M0 g Hcan' kinds [] _ L w6); [done|apply kinds_nodup|].
    exists [], 0. unfold done_entries. cbn [b_path b_header b_ret fmap list_fmap concat forallb]. rewrite app_nil_r.
    split_and!; [done|constructor|exact Hz|done|done|done|]. by destruct g; simpl in Hg; subst. }
  intros b w7 Hs. eapply runs_mono; [eapply finish_run; [exact Hcan'|exact Hg|by apply zlen_blank|exact Hs]|].
  intros r4 w8 (M & -> & [Ea Em] & Hw8). exists ns2, M. rewrite all_full_dir, all_entries_dir in *.
  split_and!; [done| |done]. constructor; [done|]. destruct Em as (h & ts & E1 & E2 & E3 & E4).
  exists h, ts. split_and!; [done|done| |exact E4].
  intros t Ht. by rewrite (E3 t Ht), kind_entries_dir.
Qed.

(** Claim C15.  A backup succeeds exactly when no file it copies is empty, and
    in either case it leaves the archive of the other files in [AllMap] and
    [AllFile], whose checksum is their contents'; it changes no other file and no
    descriptor stays open. *)
Theorem backup_archives g L w : archive_place -> gFileStartAddr g = 0 -> ready v g L w ->
  exists w' ns M,
    FileOp_BackupDataToFiles junk fuel (Some iMask) bin w = (w', Ok (forallb (kind_full bin iMask v) kinds)) /\
    is_archive es g_i4CFG_File_Count g_i4CFG_File_Custom_Count M data /\
    ready (arch M data (put_dir nvdata ns v)) g L w'.
Proof.
  intros Hp Hg Hw. destruct (runs_result _ _ _ (backup_run g L w Hp Hg Hw)) as (w' & r & E & ns & M & -> & Ha & Hr).
  by exists w', ns, M.
Qed.
End Whole.
End Backup.
