(* ===== verification/NvPaths.v ===== *)
(** * libnvram: creating a file with its directories

    [open_file_with_dirs] on a path of names makes the directories on the way
    that do not exist and creates or truncates the file ([open_with_dirs_run]). *)
From S2P Require Import Prelude Posix MemFs FileStore NvTypes NvFiles.

(** ** Paths *)

(** The directories on the way from [d] along [cs], the last one left out. *)
Fixpoint above (d : list Z) (cs : list (list Z)) : list (list Z) :=
  match cs with
  | [] | [_] => []
  | c :: cs' => child d c :: above (child d c) cs'
  end.

Definition path_of (d : list Z) (cs : list (list Z)) : list Z := foldl child d cs.

(** The slashes and names of [cs]. *)
Definition steps (cs : list (list Z)) : list Z := concat ((fun c => chr_slash :: c) <$> cs).

Lemma path_of_steps cs : forall d, path_of d cs = d ++ steps cs.
Proof.
  unfold path_of, steps. induction cs as [|c cs IH]; intros d; simpl; [by rewrite app_nil_r|].
  rewrite IH. unfold child. by rewrite <- !(assoc_L app).
Qed.

Lemma zlen_steps c cs : zlen (steps (c :: cs)) = 1 + zlen c + zlen (steps cs).
Proof. unfold steps. cbn [fmap list_fmap concat]. rewrite zlen_app. unfold zlen. simpl. lia. Qed.

Lemma zlen_child d c : zlen (child d c) = zlen d + 1 + zlen c.
Proof. unfold child. rewrite !zlen_app. unfold zlen. simpl. lia. Qed.

(** Stores that differ in directories only: new ones are of [D]. *)
Record grown (D : list Z -> Prop) (v v' : store) : Prop := {
  gr_files : files v' = files v;
  gr_fds : open_fds v' = open_fds v;
  gr_streams : dir_streams v' = dir_streams v;
  gr_kept q : is_Some (dirs v !! q) -> is_Some (dirs v' !! q);
  gr_new q : is_Some (dirs v' !! q) -> is_Some (dirs v !! q) \/ D q
}.

#[export] Instance grown_refl D : Reflexive (grown D).
Proof. intros v. constructor; auto. Qed.

#[export] Instance grown_trans D : Transitive (grown D).
Proof.
  intros v1 v2 v3 [] []. constructor; try congruence; auto. intros q Hq.
  destruct (gr_new1 q Hq); auto.
Qed.

Lemma grown_weaken (D D' : list Z -> Prop) v v' : (forall q, D q -> D' q) -> grown D v v' -> grown D' v v'.
Proof. intros HD []. constructor; try done. intros q Hq. destruct (gr_new0 q Hq); auto. Qed.

(** A new listing of a directory, and a new directory. *)
Lemma grown_listing D p ns v : is_Some (dirs v !! p) -> grown D v (put_dir p ns v).
Proof.
  intros Hp. constructor; try done; intros q; rewrite dirs_put_dir; case_decide; subst; eauto.
Qed.

Lemma grown_dir (D : list Z -> Prop) p ns v : D p -> grown D v (put_dir p ns v).
Proof.
  intros Hp. constructor; try done; intros q; rewrite dirs_put_dir; case_decide; subst; eauto.
Qed.

(** Writing the same files afterwards. *)
Definition put_files (es : list (list Z * list Z)) (v : store) : store := foldl (fun v e => put_file e.1 e.2 v) v es.

Lemma grown_put_files D es : forall v v', grown D v v' -> grown D (put_files es v) (put_files es v').
Proof.
  induction es as [|e es IH]; intros v v' Hv; [done|]. apply IH. destruct Hv. constructor; try done.
  unfold put_file. simpl. by rewrite gr_files0.
Qed.

(** [q] is a directory on the way to [p]. *)
Definition on_way (q p : list Z) : Prop := q <> [] /\ (q ++ [chr_slash]) `prefix_of` p.

#[export] Instance on_way_dec q p : Decision (on_way q p).
Proof. unfold on_way. apply _. Defined.

Lemma on_way_self p : ~ on_way p p.
Proof. intros [_ Hp]. apply prefix_length in Hp. rewrite length_app in Hp. simpl in Hp. lia. Qed.

Lemma above_on_way cs : forall d q, q ∈ above d cs -> on_way q (path_of d cs).
Proof.
  induction cs as [|c [|c' cs] IH]; intros d q Hq; [by inversion Hq..|].
  apply elem_of_cons in Hq as [->|Hq]; [|by apply IH].
  split; [by destruct d|]. unfold path_of. cbn [foldl]. change (foldl child ?d ?l) with (path_of d l).
  rewrite path_of_steps. exists (c' ++ steps cs). unfold child. by rewrite <- !(assoc_L app).
Qed.

Section Paths.
Context `{FileStore} `{NvPlatform}.
Abbreviation W := (world nvram).
Implicit Types (v : store) (w : W).

Lemma change_group_run tmp v g L w (Q : unit -> W -> Prop) : ready v g L w ->
  (forall w', ready v g L w' -> Q tt w') -> runs (change_group tmp) w Q.
Proof.
  intros Hw HQ. unfold change_group. apply runs_bind. eapply run_quiet; [exact Hw|done|]. intros _ w' Hw'. by apply HQ.
Qed.

(** The group and the mode of a new file. *)
Lemma grant_run fn mode v g L w : ready v g L w ->
  runs ('(val, info) ← psys (Sys_stat fn);
        pwhen (rv val =? 0) (
          change_group fn;;
          pwhen (negb (S_ISDIR (st_mode info))) (_ ← psys (Sys_chmod fn mode); mret tt))) w
    (fun _ w' => ready v g L w').
Proof.
  intros Hw. apply runs_bind. eapply run_quiet; [exact Hw|done|]. intros [val info] w1 Hw1.
  unfold pwhen at 1. destruct (rv val =? 0); [|exact Hw1]. apply runs_bind. eapply change_group_run; [exact Hw1|].
  intros w2 Hw2. unfold pwhen. destruct (negb _); [|exact Hw2]. apply runs_bind.
  eapply run_quiet; [exact Hw2|done|]. by intros _ w3.
Qed.

(** The directory above is there, and no file has the name. *)
Lemma make_dir_run d c v g L w : is_name c -> is_Some (dirs v !! d) -> files v !! child d c = None ->
  ready v g L w ->
  runs (make_dir (child d c)) w (fun ok w' => ok = true /\
    exists v', grown (fun q => q = child d c) v v' /\ is_Some (dirs v' !! child d c) /\ ready v' g L w').
Proof.
  intros Hc [ns Hd] Hf Hw. unfold make_dir.
  assert (child d c <> []) as Hne by (unfold child; destruct d; discriminate).
  apply runs_bind. eapply run_access; [exact Hw|exact Hne|]. intros r w1 Hw1 Hr.
  destruct (Z.eqb_spec (rv r) 0) as [E|E].
  { apply Hr in E as [[? E]|E]; [congruence|]. split; [done|]. by exists v. }
  assert (dirs v !! child d c = None) as Hn.
  { destruct (dirs v !! child d c) eqn:Ed; [|done]. destruct E. apply Hr. right. by eexists. }
  apply runs_bind. eapply run_mkdir; [exact Hw1|exact Hc|exact Hd|exact Hf|exact Hn|]. intros e ns1 ns2 w2 Hw2. cbn [rv].
  apply runs_bind. eapply run_quiet; [exact Hw2|done|]. intros [val st] w3 Hw3.
  assert (grown (fun q => q = child d c) v (put_dir (child d c) ns1 (put_dir d ns2 v))) as Hg.
  { etrans; [apply grown_listing; by eexists|]. by apply grown_dir. }
  apply runs_bind. eapply runs_mono with (Q := fun _ w' => ready (put_dir (child d c) ns1 (put_dir d ns2 v)) g L w').
  { unfold pwhen. destruct (rv val =? 0); [|done]. by eapply change_group_run. }
  intros _ w4 Hw4. split; [done|]. eexists. split_and!; [exact Hg| |exact Hw4].
  rewrite dirs_put_dir, decide_True by done. by eexists.
Qed.

(** A character that ends no name. *)
Lemma make_dirs_char tmp c fn v g L w Q : c <> chr_slash \/ tmp = [] -> zlen tmp < PATH_MAX -> ready v g L w ->
  runs (make_dirs (tmp ++ [c]) fn) w Q -> runs (make_dirs tmp (c :: fn)) w Q.
Proof.
  intros Hc Hl Hw HQ. cbn [make_dirs]. destruct (Z.leb_spec PATH_MAX (zlen tmp)); [lia|].
  apply runs_bind. assert ((c =? chr_slash) && (0 <? zlen tmp) = false) as ->; [|by apply runs_ret].
  destruct Hc as [Hc| ->]; [by apply Z.eqb_neq in Hc as ->|by rewrite andb_false_r].
Qed.

Lemma make_dirs_name n : forall tmp fn v g L w Q, chr_slash ∉ n -> zlen tmp + zlen n < PATH_MAX -> ready v g L w ->
  runs (make_dirs (tmp ++ n) fn) w Q -> runs (make_dirs tmp (n ++ fn)) w Q.
Proof.
  induction n as [|c n IH]; intros tmp fn v g L w Q Hn Hl Hw HQ; [by rewrite app_nil_r in HQ|].
  apply not_elem_of_cons in Hn as [Hc Hn]. unfold zlen in *. simpl in *. eapply make_dirs_char; [by left|unfold zlen; lia|exact Hw|].
  eapply IH; [done| |exact Hw|by rewrite <- (assoc_L app)]. unfold zlen. rewrite length_app. simpl. lia.
Qed.

(** Behind the slash after a directory. *)
Lemma make_dirs_steps cs : forall d c v g L w, is_name c -> Forall is_name cs ->
  zlen (d ++ steps (c :: cs)) < PATH_MAX -> is_Some (dirs v !! d) ->
  (forall q, q ∈ above d (c :: cs) -> files v !! q = None) -> ready v g L w ->
  runs (make_dirs (d ++ [chr_slash]) (c ++ steps cs)) w (fun ok w' => ok = true /\
    exists v', grown (fun q => q ∈ above d (c :: cs)) v v' /\
      is_Some (dirs v' !! path_of d (removelast (c :: cs))) /\ ready v' g L w').
Proof.
  induction cs as [|c' cs IH]; intros d c v g L w Hc Hcs Hl Hd Hab Hw;
    rewrite zlen_app, zlen_steps in Hl; pose proof (zlen_nonneg d); pose proof (zlen_nonneg c);
    (eapply make_dirs_name; [apply Hc|rewrite zlen_app; change (zlen [chr_slash]) with 1|exact Hw|]).
  1: unfold steps, zlen in *; simpl in *; lia.
  2: pose proof (zlen_nonneg (steps (c' :: cs))); lia.
  all: rewrite <- (assoc_L app); change (d ++ [chr_slash] ++ c) with (child d c).
  - change (steps []) with (@nil Z). cbn [make_dirs]. destruct (Z.leb_spec PATH_MAX (zlen (child d c))) as [Hlen|Hlen].
    + rewrite zlen_child in Hlen. unfold steps, zlen in *. simpl in *. lia.
    + apply runs_ret. split; [done|]. by exists v.
  - apply Forall_cons_1 in Hcs as [Hc' Hcs]. unfold steps. cbn [fmap list_fmap concat app make_dirs]. fold (steps cs).
    destruct (Z.leb_spec PATH_MAX (zlen (child d c))) as [Hlen|Hlen].
    { rewrite zlen_child in Hlen. pose proof (zlen_nonneg (steps (c' :: cs))). lia. }
    assert (0 < zlen (child d c)) as Hpos by (rewrite zlen_child; lia).
    apply Z.ltb_lt in Hpos as ->. cbn [Z.eqb Pos.eqb andb chr_slash].
    apply runs_bind. eapply runs_mono; [eapply make_dir_run; [exact Hc|exact Hd|apply Hab; by left|exact Hw]|].
    intros ok w1 [-> (v1 & Hv1 & Hd1 & Hw1)].
    eapply runs_mono; [apply (IH (child d c) c' v1); [done|done| |done| |exact Hw1]|].
    + rewrite zlen_app, zlen_child. lia.
    + intros q Hq. rewrite (gr_files _ _ _ Hv1). apply Hab. by right.
    + intros ok w' [-> (v' & Hv & Hd' & Hw')]. split; [done|]. exists v'. split_and!; [|done|done].
      etrans; (eapply grown_weaken; [|eassumption]); simpl; set_solver.
Qed.

(** A path of names that can be created: the directories on the way are no
    files, and it is no directory. *)
Record creatable (v : store) (p : list Z) : Prop := {
  cr_names : exists cs c, Forall is_name (cs ++ [c]) /\ p = steps (cs ++ [c]);
  cr_len : zlen p < PATH_MAX;
  cr_root : is_Some (dirs v !! []);
  cr_above : map_Forall (fun q _ => ~ on_way q p) (files v);
  cr_nodir : dirs v !! p = None
}.

Lemma open_with_dirs_run v p mode g L w : creatable v p -> ready v g L w ->
  runs (open_file_with_dirs p mode) w (fun fd w' => exists v' r, grown (fun q => on_way q p) v v' /\
    0 <= fd /\ open_fds v !! fd = None /\ ready (put_fd fd (Fd p 0 r true) (put_file p [] v')) g L w').
Proof.
  intros [(cs & c & Hn & Hp) Hl Hr Hab Hnd] Hw. change (steps (cs ++ [c])) with ([] ++ steps (cs ++ [c])) in Hp.
  rewrite <- path_of_steps in Hp.
  assert (forall q, q ∈ above [] (cs ++ [c]) -> on_way q p) as Hway by (rewrite Hp; apply above_on_way).
  assert (forall q, q ∈ above [] (cs ++ [c]) -> files v !! q = None) as Hab'.
  { intros q Hq. destruct (files v !! q) eqn:Eq; [|done]. by destruct (Hab q _ Eq (Hway q Hq)). }
  unfold open_file_with_dirs.
  apply runs_bind. eapply run_quiet; [exact Hw|done|]. intros _ w1 Hw1.
  assert (exists c0 cs0, cs ++ [c] = c0 :: cs0) as (c0 & cs0 & E) by (destruct cs; simpl; eauto).
  rewrite E in Hn. apply Forall_cons_1 in Hn as [Hc0 Hcs0].
  assert (p = chr_slash :: c0 ++ steps cs0) as Ep by (by rewrite Hp, path_of_steps, E).
  apply runs_bind. rewrite Ep at 1. eapply make_dirs_char; [by right|done|exact Hw1|].
  eapply runs_mono; [apply (make_dirs_steps cs0 [] c0 v); [done|done| |done|by rewrite <- E|exact Hw1]|].
  { by rewrite <- E, <- path_of_steps, <- Hp. }
  rewrite <- E, removelast_last. intros ok w2 [-> (v1 & Hv1 & [ns Hd1] & Hw2)]. cbn [negb].
  assert (p = child (path_of [] cs) c) as Ec by (rewrite Hp; unfold path_of; by rewrite foldl_app).
  apply runs_bind. rewrite Ec at 1. eapply run_create; [exact Hw2| |exact Hd1| |by auto|].
  { assert (Forall is_name (cs ++ [c])) as Hall by (rewrite E; by constructor).
    apply Forall_app in Hall as [_ Hall]. by apply Forall_cons_1 in Hall as [? _]. }
  { rewrite <- Ec. destruct (dirs v1 !! p) eqn:Ed; [|done].
    destruct (gr_new _ _ _ Hv1 p) as [[? Hx]|Hx]; [by eexists|congruence|]. by apply Hway, on_way_self in Hx. }
  rewrite <- Ec. intros fd e r ns' w3 Hfd Ofd Hw3. cbn [rv]. destruct (Z.eqb_spec fd (-1)); [lia|]. cbn [negb pwhen].
  assert (ready (put_fd fd (Fd p 0 r true) (put_file p [] (put_dir (path_of [] cs) ns' v1))) g L w3) as Hw3' by done.
  clear Hw3. apply runs_bind. eapply runs_mono; [eapply grant_run; exact Hw3'|].
  intros [] w5 Hw5. apply runs_ret. exists (put_dir (path_of [] cs) ns' v1), r.
  split_and!; [|done|by rewrite <- (gr_fds _ _ _ Hv1)|exact Hw5]. etrans; [by eapply grown_weaken; [|exact Hv1]|]. apply grown_listing. by eexists.
Qed.
End Paths.
