(* ===== verification/NvRestore.v ===== *)
(** * libnvram: restoring the files of an archive

    [FileOp_RestoreFromFiles] reads the titles of a kind and creates its files
    with their contents; [FileOp_RestoreData_All] checks the archive and does so
    for all kinds ([restore_run]). *)
From S2P Require Import Prelude Posix MemFs FileStore NvTypes NvFiles NvArchive NvSum NvSpec NvPaths.

(** ** What can be restored *)

(** An archive restored into the files [v]: the paths can be created, are not
    the archive's own and not of an older build, no file is empty, and no file
    is a directory on the way to another. *)
Record restorable (v : store) (es : list entry) : Prop := {
  rs_creatable : Forall (fun e => creatable v e.1) es;
  rs_present : Forall (fun e => find_prefix e.1 0 legacy_nvram_path_prefix = -1) es;
  rs_archive : Forall (fun e => e.1 <> g_pcNVM_AllFile /\ e.1 <> g_pcNVM_AllMap) es;
  rs_full : Forall (fun e => e.2 <> []) es;
  rs_apart : Forall (fun e => Forall (fun e' => ~ on_way e.1 e'.1) es) es
}.

(** The directories made. *)
Definition on_ways (es : list entry) (q : list Z) : Prop := exists e, e ∈ es /\ on_way q e.1.

Lemma restorable_step v v' U e : restorable v U -> e ∈ U -> grown (on_ways U) v v' ->
  restorable (put_file e.1 e.2 v') U.
Proof.
  intros [] He Hg. constructor; try done. rewrite Forall_forall in *. intros x Hx.
  destruct (rs_creatable0 x Hx). constructor; try done; simpl.
  - by apply (gr_kept _ _ _ Hg).
  - rewrite (gr_files _ _ _ Hg). apply map_Forall_insert_2; [|done].
    pose proof (rs_apart0 e He) as Ha. rewrite Forall_forall in Ha. by apply Ha.
  - destruct (dirs v' !! x.1) eqn:Ed; [|done].
    destruct (gr_new _ _ _ Hg x.1) as [[? Hd]|(e' & He' & Hw)]; [by eexists|congruence|].
    pose proof (rs_apart0 x Hx) as Ha. rewrite Forall_forall in Ha. by destruct (Ha e' He').
Qed.

(** The static variables once a path was checked. *)
Definition settled (g g' : nvram) : Prop := g' = g \/ g' = set_legacy true (-1) g.

#[export] Instance settled_trans : Transitive settled.
Proof. intros g1 g2 g3 [->| ->] [->| ->]; [by left|by right..]. Qed.

Section Restore.
Context `{FileStore} `{NvPlatform}.
Abbreviation W := (world nvram).
Implicit Types (v : store) (w : W).

(** ** One file *)

Lemma fix_run path v g L w : legacy_path_index g = -1 ->
  find_prefix (cstring path) 0 legacy_nvram_path_prefix = -1 -> ready v g L w ->
  runs (fix_legacy_nvram_path_in_binregion path) w (fun r w' =>
    r = cstring path /\ ready v (set_legacy true (-1) g) L w').
Proof.
  intros Hi Hp Hw. unfold fix_legacy_nvram_path_in_binregion.
  apply runs_bind. eapply run_get; [exact Hw|]. unfold pwhen.
  assert (forall w1, ready v (set_legacy true (-1) g) L w1 -> runs (g ← pget;
    if legacy_path_index g =? -1 then mret (cstring path)
    else
      let prefix := nth (Z.to_nat (legacy_path_index g)) legacy_nvram_path_prefix [] in
      let path_suffix := take 127 (cstring (drop (length prefix) path)) in
      mret (take 127 (g_nvram_path_prefix ++ path_suffix))) w1 (fun r w' =>
    r = cstring path /\ ready v (set_legacy true (-1) g) L w')) as Hrest.
  { intros w1 Hw1. apply runs_bind. eapply run_get; [exact Hw1|]. by split. }
  apply runs_bind. destruct (is_check_legacy_path g) eqn:Ec; cbn [negb].
  - apply runs_ret, Hrest. destruct g; simpl in *; subst. exact Hw.
  - rewrite Hp. eapply run_mod; [exact Hw|]. exact Hrest.
Qed.

(** The archive open for reading, its map at [mo]. *)
Definition opened (file map fo mo : Z) (wf wm : bool) v : store :=
  put_fd file (Fd g_pcNVM_AllFile fo true wf) (put_fd map (Fd g_pcNVM_AllMap mo true wm) v).

Lemma restore_content_run fd file p A start data fo r wr V g L w :
  fd <> file -> p <> g_pcNVM_AllFile -> open_fds V !! fd = None ->
  open_fds V !! file = Some (Fd g_pcNVM_AllFile fo true wr) -> files V !! g_pcNVM_AllFile = Some A ->
  0 <= start -> read_at A start (zlen data) = data -> data <> [] -> zlen data < INT_MAX ->
  ready (put_fd fd (Fd p 0 r true) (put_file p [] V)) g L w ->
  runs (restore_content file fd start (zlen data)) w (fun x w' => x = Restored /\
    ready (put_file p data (put_fd file (Fd g_pcNVM_AllFile (start + zlen data) true wr) V)) g L w').
Proof.
  intros Hne Hp Hfd Hfile HA Hs Hread Hd Hlt Hw. unfold restore_content.
  assert (0 < zlen data) by (unfold zlen; destruct data; [done|simpl; lia]).
  destruct (Z.leb_spec (zlen data) 0); [lia|]. destruct (Z.leb_spec INT_MAX (zlen data)); [lia|]. cbn [orb].
  apply runs_bind. eapply run_malloc; [exact Hw|]. intros buf w1 Hb HbL Hw1. destruct (Z.eqb_spec buf 0); [lia|].
  apply runs_bind. eapply run_seek_set; [exact Hw1|by rewrite fds_put_fd, decide_False, fds_put_file|done|].
  intros e w2 Hw2. cbn [rv]. destruct (Z.eqb_spec start (-1)); [lia|].
  apply runs_bind. eapply run_read; [exact Hw2|by rewrite fds_put_fd, decide_True|simpl; by rewrite lookup_insert_ne|lia|lia|].
  intros w3 Hw3. rewrite put_put_fd, Hread in Hw3. cbn [rres_data rres_rv]. rewrite Hread.
  apply runs_bind. eapply run_store; [exact Hw3|by left|]. intros w4 Hw4. rewrite Z.eqb_refl. cbn [negb].
  apply runs_bind. eapply run_write; [exact Hw4|by rewrite fds_put_fd, decide_False, fds_put_fd, decide_True
    |simpl; by rewrite lookup_insert_eq|done|].
  intros e5 w5 Hw5. cbn [rv]. rewrite Z.eqb_refl. cbn [negb].
  apply runs_bind. eapply run_close; [exact Hw5|by rewrite fds_put_fd, decide_True|]. intros r6 w6 Hw6.
  apply runs_bind. eapply run_free; [exact Hw6|done|]. intros w7 Hw7. apply runs_ret. split; [done|].
  replace (put_file p data _) with (drop_fd fd (put_fd fd (Fd p (0 + zlen data) r true)
    (put_file p (write_at [] 0 data)
      (put_fd file (Fd g_pcNVM_AllFile (start + zlen data) true wr) (put_fd fd (Fd p 0 r true) (put_file p [] V)))))); [done|].
  rewrite (write_end [] data : write_at [] 0 data = data). store_eq.
Qed.

(** ** The files of titles *)

Lemma title_fields start size name : 0 <= start < 2 ^ 31 -> 0 <= size < 2 ^ 31 ->
  title_start (title_bytes start size name) = start /\ title_size (title_bytes start size name) = size /\
  title_name (title_bytes start size name) = name.
Proof.
  intros Hs Hz. unfold title_start, title_size, title_name, title_bytes.
  change (drop 4 (le32 7 ++ ?x)) with x. change (drop 8 (le32 7 ++ le32 start ++ ?x)) with x.
  change (take 4 (le32 ?y ++ ?x)) with (le32 y). rewrite !de32_le32, !i32_u32, !i32_small by lia. done.
Qed.

(** The name of a title, cut to the length of the array. *)
Lemma cut_name name : zlen name = 128 -> zlen (cstring name) < 128 -> cstring (take 127 name ++ [0]) = cstring name.
Proof.
  unfold zlen. intros Hn Hc. assert (forall k (l : list Z), (length (cstring l) <= k)%nat -> cstring (take k l ++ [0]) = cstring l) as Hcut.
  { intros k l. revert k. induction l as [|b l IH]; intros k Hk; [by rewrite take_nil|]. simpl in *.
    destruct (Z.eqb_spec b 0) as [->|Hb]; [by destruct k|]. destruct k as [|k]; simpl in *; [lia|].
    destruct (Z.eqb_spec b 0); [done|]. by rewrite IH by lia. }
  apply Hcut. lia.
Qed.

Lemma creatable_opened file map fo mo wf wm v p : creatable v p -> creatable (opened file map fo mo wf wm v) p.
Proof. intros []. by constructor. Qed.

Lemma grown_opened D file map fo mo wf wm v v' : grown D (opened file map fo mo wf wm v) v' ->
  exists v1, v' = opened file map fo mo wf wm v1 /\ grown D v v1.
Proof.
  intros [G1 G2 G3 G4 G5]. exists (Store (files v') (dirs v') (open_fds v) (dir_streams v)). split; [|by constructor].
  destruct v'; simpl in *; subst. done.
Qed.

Section Files.
Context (file map FileInfo : Z) (wf wm : bool) (U : list entry) (M A : list Z) (L : list Z).
Context (Hfm : file <> map) (HFI : FileInfo ∈ L) (HA : zlen A < INT_MAX).

(** The archive is open, and the entries can be restored. *)
Record open_archive v : Prop := {
  oa_file : open_fds v !! file = None;
  oa_map : open_fds v !! map = None;
  oa_M : files v !! g_pcNVM_AllMap = Some M;
  oa_A : files v !! g_pcNVM_AllFile = Some A;
  oa_rest : restorable v U
}.

Lemma open_archive_step v v' e : open_archive v -> e ∈ U -> grown (on_ways U) v v' -> open_archive (put_file e.1 e.2 v').
Proof.
  intros [] He Hg. pose proof (restorable_step _ _ _ _ oa_rest0 He Hg) as Hr.
  pose proof (proj1 (Forall_forall _ _) (rs_archive _ _ oa_rest0) e He) as [N1 N2].
  constructor; simpl; rewrite ?(gr_fds _ _ _ Hg), ?lookup_insert_ne, ?(gr_files _ _ _ Hg) by done; done.
Qed.

Lemma restore_file_run v fo mo p data start name rest g w : open_archive v -> (p, data) ∈ U ->
  legacy_path_index g = -1 -> 0 <= mo -> drop (Z.to_nat mo) M = title_bytes start (zlen data) name ++ rest ->
  zlen name = MAX_NAMESIZE -> cstring name = p -> zlen p < MAX_NAMESIZE ->
  0 <= start -> read_at A start (zlen data) = data -> zlen data < INT_MAX -> start < INT_MAX ->
  ready (opened file map fo mo wf wm v) g L w ->
  runs (restore_file file map FileInfo) w (fun x w' => x = Restored /\ exists v1, grown (on_ways U) v v1 /\
    ready (opened file map (start + zlen data) (mo + 140) wf wm (put_file p data v1)) (set_legacy true (-1) g) L w').
Proof.
  pose proof (not_eq_sym Hfm). intros Ho HU Hg Hmo HM Hn Hc Hp Hs Hread Hlt Hst Hw. destruct Ho as [O1 O2 O3 O4 O5].
  assert (forall P : entry -> Prop, Forall P U -> P (p, data)) as HFU by (intros P HP; by eapply Forall_forall in HP).
  pose proof (HFU _ (rs_creatable _ _ O5)) as Hcr. pose proof (HFU _ (rs_archive _ _ O5)) as [Hp1 Hp2].
  pose proof (HFU _ (rs_full _ _ O5)) as Hfull. pose proof (HFU _ (rs_present _ _ O5)) as Hpre. cbn [fst snd] in *.
  assert (length (title_bytes start (zlen data) name) = 140%nat) as Hl140.
  { pose proof (length_title start (zlen data) name Hn) as Hl. unfold zlen at 1 in Hl. lia. }
  unfold restore_file. apply runs_bind.
  eapply run_read; [exact Hw| |exact O3|done|exact Hmo|].
  { unfold opened. by rewrite fds_put_fd, decide_False, fds_put_fd, decide_True. }
  assert (read_at M mo sizeof_File_Title = title_bytes start (zlen data) name) as ->.
  { unfold read_at. by rewrite HM, take_app_length' by done. }
  rewrite (length_title _ _ _ Hn). intros w1 Hw1. cbn [rres_data].
  replace (Z.to_nat sizeof_File_Title - length (title_bytes start (zlen data) name))%nat with 0%nat by (by rewrite Hl140).
  cbn [replicate]. rewrite app_nil_r. pose proof (zlen_nonneg data) as Hd0.
  destruct (title_fields start (zlen data) name) as (-> & -> & ->); [unfold INT_MAX in *; lia..|].
  replace (put_fd map _ _) with (opened file map fo (mo + 140) wf wm v) in Hw1 by (unfold opened; store_eq).
  apply runs_bind. eapply run_store; [exact Hw1|exact HFI|]. intros w2 Hw2.
  assert (cstring (take 127 name ++ [0]) = p) as Hcut by (rewrite cut_name by (by rewrite ?Hc); done).
  apply runs_bind. eapply runs_mono; [eapply (fix_run (take 127 name ++ [0])); [exact Hg|by rewrite Hcut|exact Hw2]|].
  rewrite Hcut. intros cFileName w3 [-> Hw3].
  apply runs_bind. eapply runs_mono; [eapply open_with_dirs_run; [by apply creatable_opened|exact Hw3]|].
  intros fd w4 (v' & r & Hv' & Hfd & Ofd & Hw4). unfold INVALID_HANDLE_VALUE. destruct (Z.eqb_spec fd (-1)); [lia|].
  destruct (grown_opened _ _ _ _ _ _ _ _ _ Hv') as (v1 & -> & Hv1).
  unfold opened in Ofd. rewrite !fds_put_fd in Ofd. case_decide as Nf; [done|]. case_decide as Nm; [done|].
  assert (files v1 !! g_pcNVM_AllFile = Some A) as HA1 by (by rewrite (gr_files _ _ _ Hv1)).
  eapply runs_mono.
  { eapply (restore_content_run fd file p A start data fo r wf (opened file map fo (mo + 140) wf wm v1)); try done.
    - unfold opened. by rewrite !fds_put_fd, !decide_False, (gr_fds _ _ _ Hv1).
    - unfold opened. by rewrite fds_put_fd, decide_True. }
  intros x w5 [-> Hw5]. split; [done|]. exists v1. split.
  - eapply grown_weaken; [|exact Hv1]. intros q Hq. by exists (p, data).
  - replace (opened _ _ _ _ _ _ _) with (put_file p data (put_fd file (Fd g_pcNVM_AllFile (start + zlen data) true wf) (opened file map fo (mo + 140) wf wm v1))); [done|].
    unfold opened. store_eq.
Qed.

Lemma restore_files_run es : forall v fo mo start ts rest rest' g w, open_archive v -> Forall (fun e => e ∈ U) es ->
  legacy_path_index g = -1 -> 0 <= mo -> drop (Z.to_nat mo) M = ts ++ rest -> titled start es ts ->
  0 <= start -> drop (Z.to_nat start) A = contents es ++ rest' -> start + zlen (contents es) <= zlen A ->
  ready (opened file map fo mo wf wm v) g L w ->
  runs (restore_files file map FileInfo (length es)) w (fun x w' => x = Restored /\
    exists v' g' fo' mo', grown (on_ways U) (put_files es v) v' /\ open_archive v' /\ settled g g' /\
      ready (opened file map fo' mo' wf wm v') g' L w').
Proof.
  induction es as [|[p data] es IH]; intros v fo mo start ts rest rest' g w Ho HU Hg Hmo HM Ht Hs HAd HAl Hw.
  { split; [done|]. exists v, g, fo, mo. split_and!; [done|done|by left|done]. }
  apply Forall_cons_1 in HU as [Hin HU]. inversion Ht as [|? ? ? ? name ts' Hn Hc Hp Ht']; subst.
  rewrite contents_cons, zlen_app in HAl. rewrite contents_cons, <- (assoc_L app) in HAd.
  pose proof (zlen_nonneg data). pose proof (zlen_nonneg (contents es)). cbn [length restore_files].
  apply runs_bind. eapply runs_mono.
  { eapply (restore_file_run v fo mo (cstring name) data start name (ts' ++ rest)); try done; try lia.
    - by rewrite HM, <- (assoc_L app).
    - unfold read_at. rewrite HAd. apply take_app_length'. unfold zlen. lia. }
  intros x w1 [-> (v1 & Hv1 & Hw1)].
  eapply runs_mono.
  { eapply (IH (put_file (cstring name) data v1)); [by apply (open_archive_step v v1 (cstring name, data))|done| | | |exact Ht'| | | |exact Hw1].
    - done.
    - lia.
    - rewrite Z2Nat.inj_add, <- drop_drop, HM by lia. rewrite <- (assoc_L app). apply drop_app_length'.
      pose proof (length_title start (zlen data) name Hn) as Hl. unfold zlen at 1 in Hl. lia.
    - lia.
    - rewrite Z2Nat.inj_add, <- drop_drop, HAd by lia. apply drop_app_length'. unfold zlen. lia.
    - lia. }
  intros x w2 [-> (v' & g' & fo' & mo' & G1 & G2 & G3 & G4)]. split; [done|]. exists v', g', fo', mo'. split_and!; [|done| |done].
  - etrans; [|exact G1]. by apply (grown_put_files _ ((cstring name, data) :: es)).
  - etrans; [|exact G3]. by right.
Qed.
End Files.

(** ** The files of a kind *)

Section Kind.
Context (unmoved : nvram_platform_header_offset = 0).
Context (a : MetaData -> list entry) (common custom : Z) (M A : list Z).
Context (Har : is_archive a common custom M A) (Hkept : forall t, t ∈ kinds -> kept t = false -> a t = []).
Context (HA : zlen A < INT_MAX).

Lemma select_kept h t : kept t = true ->
  restore_select h t = (get_num header_layout h t, fhs + sum_nums header_layout h (before t) * fis).
Proof.
  unfold restore_select, kept. rewrite unmoved. cbn [Z.eqb andb]. by destruct t; try done; intros ->.
Qed.

Lemma select_other h t : t ∈ kinds -> kept t = false -> restore_select h t = (0, 0).
Proof.
  intros _. unfold restore_select, kept. rewrite unmoved. cbn [Z.eqb andb]. by destruct t; try done; intros ->.
Qed.

Lemma sum_nums_zlen h ts : (forall t, t ∈ kinds -> get_num header_layout h t = zlen (a t)) ->
  (forall t, t ∈ ts -> t ∈ kinds) -> sum_nums header_layout h ts = zlen (concat (a <$> ts)).
Proof.
  intros Hn. unfold sum_nums. induction ts as [|t ts IH]; intros Hts; [done|]. simpl. rewrite zlen_app, IH.
  - rewrite Hn; [done|]. apply Hts. by left.
  - intros t' Ht'. apply Hts. by right.
Qed.

(** The kinds in front of one are those before it, or VIA has no file. *)
Lemma before_entries t : t ∈ kinds -> kept t = true ->
  concat (a <$> before t) = concat (a <$> take (Z.to_nat (kind_value t)) kinds).
Proof.
  intros Ht Hk. destruct (decide (a VIA = [])) as [Hv|Hv].
  - unfold before. generalize (take (Z.to_nat (kind_value t)) kinds). intros ts.
    induction ts as [|t' ts IH]; [done|]. cbn [List.filter]. case_bool_decide as E; csimpl; rewrite IH; [by rewrite E, Hv|done].
  - assert (nvram_ecci_c2k_support = false) as Hc.
    { destruct nvram_ecci_c2k_support eqn:E; [|done]. destruct Hv. apply Hkept; [apply (bool_decide_unpack _); by vm_compute|]. unfold kept. by rewrite E, andb_false_r. }
    destruct t; try reflexivity; unfold kept in Hk; congruence.
Qed.

Lemma all_entries_at t : t ∈ kinds -> exists es',
  all_entries a = concat (a <$> take (Z.to_nat (kind_value t)) kinds) ++ a t ++ es'.
Proof.
  intros Hin. set (k := Z.to_nat (kind_value t)). exists (concat (a <$> drop (S k) kinds)).
  pose proof (take_drop_middle kinds k t) as E. unfold all_entries. rewrite <- E at 1.
  - by rewrite fmap_app, concat_app.
  - apply list_elem_of_In in Hin. simpl in Hin.
    repeat (destruct Hin as [<-|Hin]; [reflexivity|]). done.
Qed.

Lemma elem_of_take_kinds t k : t ∈ take k kinds -> t ∈ kinds.
Proof. rewrite <- (take_drop k kinds) at 2. intros Ht. apply elem_of_app. by left. Qed.

(** Where the titles and the contents of a kind are. *)
Lemma select_titles : exists h, read_at M 12 header_read = take (Z.to_nat header_written) h /\
  zlen h = sizeof_header header_layout /\
  forall t, t ∈ kinds -> exists o start ts rest rest', restore_select (padded h) t = (zlen (a t), o) /\ 0 <= o /\
    drop (Z.to_nat o) M = ts ++ rest /\ titled start (a t) ts /\ 0 <= start /\
    drop (Z.to_nat start) A = contents (a t) ++ rest' /\ start + zlen (contents (a t)) <= zlen A.
Proof.
  destruct Har as [EA (h & ts & EM & Hz & Hn & Ht)]. exists h. pose proof (written_range unmoved) as Hr.
  set (front := le32 (Z.lxor (checksum A) (zlen A)) ++ le32 common ++ le32 custom) in *.
  assert (length front = 12%nat) as Hfront by done.
  assert (length (take (Z.to_nat header_written) h) = Z.to_nat header_written) as Hhl
    by (rewrite length_take; unfold zlen in Hz; lia).
  assert (M = front ++ take (Z.to_nat header_written) h ++ ts) as EM' by (unfold front; by rewrite <- !(assoc_L app)).
  clear EM. split_and!; [|done|].
  { unfold read_at. rewrite EM', <- (written_read unmoved), drop_app_length' by done. by apply take_app_length'. }
  intros t Hin. destruct (kept t) eqn:Ek.
  - destruct (all_entries_at t Hin) as [es' Esplit]. rewrite <- before_entries in Esplit by done.
    rewrite Esplit in Ht, EA. apply titled_app_inv in Ht as (ts1 & ts2 & -> & Ht1 & Ht2).
    apply titled_app_inv in Ht2 as (ts3 & ts4 & -> & Ht3 & _). rewrite !contents_app in EA.
    set (pre := concat (a <$> before t)) in *. pose proof (titled_length _ _ _ Ht1) as Hl1.
    exists (fhs + zlen pre * fis), (zlen (contents pre)), ts3, ts4, (contents es').
    pose proof (zlen_nonneg pre). pose proof (zlen_nonneg (contents pre)). pose proof (zlen_nonneg (contents es')).
    assert (fhs = 12 + header_written) as Efhs by (unfold fhs; rewrite unmoved, (written_read unmoved); simpl; lia).
    split_and!.
    + rewrite select_kept, Hn by done. f_equal. unfold pre. rewrite (sum_nums_zlen _ (before t)); [done|exact Hn|].
      intros t'. unfold before. intros Ht'. apply list_elem_of_In, filter_In in Ht' as [Ht' _].
      apply list_elem_of_In in Ht'. by eapply elem_of_take_kinds.
    + unfold fis, sizeof_File_Title. lia.
    + rewrite EM', !(assoc_L app). rewrite <- (assoc_L app _ ts3). apply drop_app_length'.
      rewrite !length_app, Hfront, Hhl. unfold zlen, fis, sizeof_File_Title in *. lia.
    + rewrite Z.add_0_l in Ht3. done.
    + done.
    + rewrite EA. apply drop_app_length'. unfold zlen. lia.
    + rewrite EA, !zlen_app. lia.
  - rewrite (Hkept t Hin Ek). exists 0, 0, [], M, A. rewrite select_other by done.
    split_and!; try done; [constructor|apply zlen_nonneg].
Qed.

(** The store has the archive, and its files can be restored. *)
Record has_archive (U : list entry) v : Prop := {
  ha_M : files v !! g_pcNVM_AllMap = Some M;
  ha_A : files v !! g_pcNVM_AllFile = Some A;
  ha_rest : restorable v U
}.

Lemma kind_of_value_ok t : t ∈ kinds -> kind_of_value (kind_value t) = Some t.
Proof. intros Hin. apply list_elem_of_In in Hin. simpl in Hin. repeat (destruct Hin as [<-|Hin]; [reflexivity|]). done. Qed.

(** Both files are closed at the end. *)
Lemma close_opened file map fo mo wf wm FileInfo b v g L w (Q : bool -> W -> Prop) :
  file <> map -> open_fds v !! file = None -> open_fds v !! map = None -> 0 <= file -> 0 <= map -> FileInfo ∉ L ->
  ready (opened file map fo mo wf wm v) g (FileInfo :: L) w -> (forall w', ready v g L w' -> Q b w') ->
  runs (close_if map;; close_if file;; close_if (-1);; pfree FileInfo;; mret b) w Q.
Proof.
  intros Hne Of Om Hf Hm HF Hw HQ. unfold close_if, pwhen.
  destruct (Z.eqb_spec map (-1)); [lia|]. destruct (Z.eqb_spec file (-1)); [lia|]. cbn [negb].
  apply runs_bind, runs_bind. eapply run_close; [exact Hw|unfold opened; by rewrite fds_put_fd, decide_False, fds_put_fd, decide_True by done|].
  intros r w1 Hw1. unfold opened in Hw1. rewrite drop_fd_put_ne, drop_put_fd in Hw1 by done. apply runs_ret.
  apply runs_bind, runs_bind. eapply run_close; [exact Hw1|by rewrite fds_put_fd, decide_True|].
  intros r2 w2 Hw2. rewrite drop_put_fd in Hw2 by done. apply runs_ret.
  apply runs_bind, runs_ret, runs_bind. eapply run_free; [exact Hw2|done|]. intros w3 Hw3. by apply runs_ret, HQ.
Qed.

Lemma restore_kind_run U t v g L w : t ∈ kinds -> has_archive U v -> Forall (fun e => e ∈ U) (a t) ->
  legacy_path_index g = -1 -> ready v g L w ->
  runs (FileOp_RestoreFromFiles (kind_value t)) w (fun r w' => r = true /\
    exists v' g', grown (on_ways U) (put_files (a t) v) v' /\ has_archive U v' /\ settled g g' /\ ready v' g' L w').
Proof.
  intros Ht [HM HAf Hrest] HU Hg Hw. destruct select_titles as (h & Hh & Hz & Hsel).
  pose proof (written_range unmoved) as Hr. pose proof (written_read unmoved) as Hrw. unfold FileOp_RestoreFromFiles.
  apply runs_bind. eapply run_malloc; [exact Hw|]. intros FileInfo w1 HF HFL Hw1. destruct (Z.eqb_spec FileInfo 0); [lia|].
  apply runs_bind. eapply run_open; [exact Hw1|exact HAf|by auto|]. intros file e r1 wf w2 Hf Of Hr1 _ Hw2. rewrite Hr1 in Hw2 by done.
  apply runs_bind. eapply run_open; [exact Hw2|exact HM|by auto|]. intros map e' r2 wm w3 Hm Om Hr2 _ Hw3. rewrite Hr2 in Hw3 by done.
  cbn [rv]. rewrite fds_put_fd in Om. case_decide as Nm; [done|].
  unfold INVALID_HANDLE_VALUE. destruct (Z.eqb_spec file (-1)); [lia|]. destruct (Z.eqb_spec map (-1)); [lia|].
  rewrite put_fd_comm in Hw3 by done.
  assert (forall fo mo, open_fds (opened file map fo mo wf wm v) !! map = Some (Fd g_pcNVM_AllMap mo true wm)) as Hmap
    by (intros; unfold opened; by rewrite fds_put_fd, decide_False, fds_put_fd, decide_True).
  assert (forall fo mo mo', put_fd map (Fd g_pcNVM_AllMap mo' true wm) (opened file map fo mo wf wm v) = opened file map fo mo' wf wm v) as Hmove
    by (intros; unfold opened; store_eq).
  apply runs_bind. eapply run_seek_set; [exact Hw3|apply (Hmap 0 0)|done|]. intros e3 w4 Hw4. setoid_rewrite (Hmove 0 0) in Hw4.
  apply runs_bind. eapply run_read; [exact Hw4|apply Hmap|exact HM|lia|done|]. intros w5 Hw5. rewrite Hmove in Hw5.
  change (4 + 2 * 4) with 12 in *. rewrite Hh in *. cbn [rres_data].
  replace (length (take (Z.to_nat header_written) h)) with (Z.to_nat header_written) by (rewrite length_take; unfold zlen in Hz; lia).
  rewrite kind_of_value_ok by done. fold (padded h).
  destruct (Hsel t Ht) as (o & start & ts & rest & rest' & -> & Ho & E1 & E2 & E3 & E4 & E5).
  apply runs_bind. eapply run_seek_set; [exact Hw5|apply Hmap|done|]. intros e6 w6 Hw6. rewrite Hmove in Hw6.
  apply runs_bind. unfold zlen at 1. rewrite Nat2Z.id. eapply runs_mono.
  { eapply (restore_files_run file map FileInfo wf wm U M A (FileInfo :: L)); [done|by left|done|by constructor|exact HU|done|exact Ho|exact E1|exact E2|done|exact E4|done|exact Hw6]. }
  intros x w7 [-> (v' & g' & fo' & mo' & G1 & [] & G3 & G4)].
  eapply close_opened; [|done|done|done|done|exact HFL|exact G4|]; [by apply not_eq_sym|].
  intros w8 Hw8. split; [done|]. exists v', g'. by split_and!.
Qed.

(** ** All kinds *)

Lemma settled_index g g' : settled g g' -> legacy_path_index g = -1 -> legacy_path_index g' = -1.
Proof. by intros [->| ->]. Qed.

(** The kinds [ts] that the mask lets pass. *)
Definition unmasked (iMask : list Z) (ts : list MetaData) : list MetaData :=
  base.filter (fun t => iMask !! Z.to_nat (kind_value t) <> Some 1) ts.

Lemma restore_kinds_run U iMask : length iMask = 17%nat -> forall ts v g L w, Forall (fun t => t ∈ kinds) ts ->
  Forall (fun t => Forall (fun e => e ∈ U) (a t)) (unmasked iMask ts) -> has_archive U v ->
  legacy_path_index g = -1 -> ready v g L w ->
  runs (restore_kinds iMask ts true) w (fun r w' => r = true /\
    exists v' g', grown (on_ways U) (put_files (concat (a <$> unmasked iMask ts)) v) v' /\ settled g g' /\ ready v' g' L w').
Proof.
  intros Hm. induction ts as [|t ts IH]; intros v g L w Hts HU Hv Hg Hw.
  { split; [done|]. exists v, g. split_and!; [done|by left|done]. }
  apply Forall_cons_1 in Hts as [Ht Hts]. cbn [restore_kinds].
  destruct (lookup_lt_is_Some_2 iMask (Z.to_nat (kind_value t))) as [m Em].
  { rewrite Hm. apply list_elem_of_In in Ht. simpl in Ht. repeat (destruct Ht as [<-|Ht]; [vm_compute; lia|]). done. }
  apply runs_bind. rewrite Em. apply runs_ret. unfold unmasked in *. rewrite filter_cons, Em in *.
  destruct (Z.eqb_spec m 1) as [->|Hm1].
  { rewrite decide_False in * by (intros Hx; by apply Hx). by apply IH. }
  rewrite decide_True in * by congruence. apply Forall_cons_1 in HU as [HUt HU].
  apply runs_bind. eapply runs_mono; [by eapply (restore_kind_run U t v)|].
  intros r w1 [-> (v1 & g1 & V1 & V2 & V3 & V4)]. cbn [andb].
  eapply runs_mono; [apply (IH v1 g1); [done|done|done|by eapply settled_index|exact V4]|].
  intros r w2 [-> (v' & g' & V5 & V6 & V7)]. split; [done|]. exists v', g'. split_and!; [|by etrans|done].
  etrans; [|exact V5]. csimpl. unfold put_files. rewrite foldl_app. by apply grown_put_files.
Qed.
End Kind.
End Restore.
