(* ===== verification/NvIntegrity.v ===== *)
(** * libnvram: a damaged archive is refused

    [FileOp_RestoreData_All] compares the checksum of [AllFile] with the one in
    [AllMap] before it restores anything ([checked_run]).  The checksum changes
    with every single byte ([checksum_byte]). *)
From S2P Require Import Prelude Posix MemFs FileStore NvTypes NvFiles NvArchive NvSum.

(** ** The checksum of a changed byte *)

Lemma lxor_range a b : 0 <= a < 2 ^ 32 -> 0 <= b < 2 ^ 32 -> 0 <= Z.lxor a b < 2 ^ 32.
Proof.
  intros Ha Hb. assert (0 <= Z.lxor a b) by (apply Z.lxor_nonneg; lia). split; [done|].
  destruct (Z.eq_dec (Z.lxor a b) 0) as [->|Hn]; [done|]. apply Z.log2_lt_pow2; [lia|].
  pose proof (Z.log2_lxor a b ltac:(lia) ltac:(lia)).
  assert (forall x, 0 <= x < 2 ^ 32 -> Z.log2 x < 32) as Hlog.
  { intros x Hx. destruct (Z.eq_dec x 0) as [->|]; [done|]. apply Z.log2_lt_pow2; lia. }
  pose proof (Hlog a Ha). pose proof (Hlog b Hb). lia.
Qed.

Lemma lxor_inj a b c : Z.lxor a c = Z.lxor b c -> a = b.
Proof.
  intros E. rewrite <- (Z.lxor_0_r a), <- (Z.lxor_0_r b), <- (Z.lxor_nilpotent c), <- !Z.lxor_assoc. by rewrite E.
Qed.

Lemma u32_add_inj a b c : 0 <= a < 2 ^ 32 -> 0 <= b < 2 ^ 32 -> u32 (a + c) = u32 (b + c) -> a = b.
Proof.
  unfold u32. intros Ha Hb E. rewrite <- (Z.mod_small a (2 ^ 32)), <- (Z.mod_small b (2 ^ 32)) by done.
  replace a with (a + c - c) at 1 by lia. replace b with (b + c - c) at 1 by lia.
  by rewrite Zminus_mod, E, <- Zminus_mod.
Qed.

Lemma le_value_range bs : Forall is_byte bs -> 0 <= le_value bs < 2 ^ (8 * zlen bs).
Proof.
  induction 1 as [|b bs Hb _ IH]; [done|]. cbn [le_value]. unfold is_byte in Hb.
  replace (8 * zlen (b :: bs)) with (8 + 8 * zlen bs) by (unfold zlen; simpl; lia).
  rewrite Z.pow_add_r by (unfold zlen; lia). change (2 ^ 8) with 256. lia.
Qed.

(** The words and the rest in one pass. *)
Fixpoint sum_all (acc : bool * Z) (bs : list Z) : Z :=
  match bs with
  | a :: b :: c :: d :: bs' => sum_all (sum_word acc (de32 [a; b; c; d])) bs'
  | _ => u32 (acc.2 + le_value bs)
  end.

(** Induction by words. *)
Lemma words_ind (P : list Z -> Prop) : (forall bs, (length bs < 4)%nat -> P bs) ->
  (forall a b c d bs, P bs -> P (a :: b :: c :: d :: bs)) -> forall bs, P bs.
Proof.
  intros H0 H4 bs. remember (length bs) as n eqn:Hn. revert bs Hn. induction (lt_wf n) as [n _ IH]. intros bs ->.
  destruct bs as [|a [|b [|c [|d bs]]]]; [apply H0; simpl; lia..|]. apply H4. apply (IH (length bs)); [simpl; lia|done].
Qed.

Lemma sum_all_checksum data : checksum data = sum_all (true, 0) data.
Proof.
  unfold checksum. generalize (true, 0). induction data as [bs Hbs|a b c d bs IH] using words_ind; intros acc.
  - destruct bs as [|a [|b [|c [|d bs]]]]; simpl in *; try done; lia.
  - cbn [words fold_left sum_all]. rewrite <- IH. f_equal. f_equal. f_equal.
    replace (length (a :: b :: c :: d :: bs)) with (1 * 4 + length bs)%nat by done.
    rewrite Nat.div_add_l, Nat.mul_add_distr_l by done. done.
Qed.

Definition word_range (acc : bool * Z) : Prop := 0 <= acc.2 < 2 ^ 32.

Lemma de32_range a b c d : Forall is_byte [a; b; c; d] -> 0 <= de32 [a; b; c; d] < 2 ^ 32.
Proof. apply le_value_range. Qed.

Lemma sum_word_range acc x : word_range acc -> 0 <= x < 2 ^ 32 -> word_range (sum_word acc x).
Proof. destruct acc as [[] s]; intros Ha Hx; [by apply lxor_range|apply u32_range]. Qed.

(** Different sums stay different. *)
Lemma sum_all_inj bs : forall f s s', Forall is_byte bs -> 0 <= s < 2 ^ 32 -> 0 <= s' < 2 ^ 32 ->
  sum_all (f, s) bs = sum_all (f, s') bs -> s = s'.
Proof.
  induction bs as [bs Hbs|a b c d bs IH] using words_ind; intros f s s' Hb Hs Hs' E.
  - destruct bs as [|? [|? [|? [|? bs]]]]; simpl in Hbs; [..|lia]; by apply (u32_add_inj _ _ _ Hs Hs') in E.
  - apply Forall_app with (l1 := [a; b; c; d]) in Hb as [Hw Hb]. apply de32_range in Hw. cbn [sum_all] in E.
    destruct f; unfold sum_word in E; apply IH in E; try done; try apply u32_range; try by apply lxor_range.
    + by apply lxor_inj in E.
    + by apply u32_add_inj in E.
Qed.

Lemma le_value_inj bs bs' : length bs = length bs' -> Forall is_byte bs -> Forall is_byte bs' ->
  le_value bs = le_value bs' -> bs = bs'.
Proof. intros Hl Hb Hb' E. by rewrite <- (le_bytes_value bs), <- (le_bytes_value bs'), Hl, E by done. Qed.

Lemma sum_word_inj acc x x' : 0 <= x < 2 ^ 32 -> 0 <= x' < 2 ^ 32 -> sum_word acc x = sum_word acc x' -> x = x'.
Proof.
  destruct acc as [[] s]; intros Hx Hx' [= E].
  - rewrite !(Z.lxor_comm s) in E. by apply lxor_inj in E.
  - rewrite !(Z.add_comm s) in E. by apply u32_add_inj in E.
Qed.

Lemma sum_short_inj acc bs bs' : (length bs < 4)%nat -> length bs = length bs' -> Forall is_byte bs -> Forall is_byte bs' ->
  sum_all acc bs = sum_all acc bs' -> bs = bs'.
Proof.
  intros Hlt Hl Hb Hb' E. apply le_value_inj; [done..|].
  assert (forall l, (length l < 4)%nat -> Forall is_byte l -> 0 <= le_value l < 2 ^ 32) as Hr.
  { intros l Hlen Hl'. pose proof (le_value_range l Hl'). split; [lia|]. eapply Z.lt_le_trans; [apply H|].
    apply Z.pow_le_mono_r; unfold zlen; lia. }
  assert (forall l, (length l < 4)%nat -> sum_all acc l = u32 (le_value l + acc.2)) as Hs.
  { intros l Hlen. rewrite Z.add_comm. by destruct l as [|? [|? [|? [|? l]]]]; [..|simpl in Hlen; lia]. }
  rewrite !Hs in E by lia. apply u32_add_inj in E; [done|apply Hr; [lia|done]..].
Qed.

Lemma sum_all_byte pre b b' post : b <> b' -> Forall is_byte (pre ++ b :: post) -> Forall is_byte (pre ++ b' :: post) ->
  forall acc, word_range acc -> sum_all acc (pre ++ b :: post) <> sum_all acc (pre ++ b' :: post).
Proof.
  intros Hne. induction pre as [pre Hpre|p1 p2 p3 p4 pre IH] using words_ind; intros Hb Hb' acc Hacc E.
  2:{ simpl app in *. cbn [sum_all] in E. apply Forall_app with (l1 := [p1; p2; p3; p4]) in Hb as [Hw Hb].
      apply Forall_app with (l1 := [p1; p2; p3; p4]) in Hb' as [_ Hb'].
      eapply IH; [done|done| |exact E]. apply sum_word_range; [done|by apply de32_range]. }
  set (data := pre ++ b :: post) in *. set (data' := pre ++ b' :: post) in *.
  assert (length data = length data') as Hl by (unfold data, data'; rewrite !length_app; done).
  assert (forall k, (length pre < k)%nat -> take k data <> take k data') as Ht.
  { intros k Hk Et. apply Hne. assert (take k data !! length pre = take k data' !! length pre) as El by (by rewrite Et).
    rewrite !lookup_take in El by done. rewrite !decide_True in El by done. unfold data, data' in El. rewrite !list_lookup_middle in El by done. congruence. }
  assert (drop 4 data = drop 4 data') as Hd.
  { unfold data, data'. rewrite !drop_app, !(drop_ge pre) by lia. f_equal. by destruct (4 - length pre)%nat eqn:Ek; [lia|]. }
  clearbody data data'.
  destruct data as [|a1 [|a2 [|a3 [|a4 data]]]], data' as [|c1 [|c2 [|c3 [|c4 data']]]]; simpl in Hl; try lia.
  1-4: exfalso; eapply (Ht 4%nat); [lia|apply (f_equal (take 4)); eapply sum_short_inj; [..|exact E]; done || (simpl; lia)].
  cbn [drop] in Hd. rewrite !drop_0 in Hd. subst data'. cbn [sum_all] in E.
  apply Forall_app with (l1 := [a1; a2; a3; a4]) in Hb as [Hw Hb].
  apply Forall_app with (l1 := [c1; c2; c3; c4]) in Hb' as [Hw' _].
  apply (Ht 4%nat); [lia|]. simpl. apply le_value_inj; [done..|].
  apply (sum_word_inj acc); [by apply de32_range..|].
  assert ((sum_word acc (de32 [a1; a2; a3; a4])).1 = (sum_word acc (de32 [c1; c2; c3; c4])).1) as E1 by (by destruct acc as [[] ?]).
  destruct (sum_word acc (de32 [a1; a2; a3; a4])) as [f s] eqn:Es, (sum_word acc (de32 [c1; c2; c3; c4])) as [f' s'] eqn:Es'.
  simpl in E1. subst f'. apply sum_all_inj in E; [subst s'; etrans; [exact Es|symmetry; exact Es']|done|..].
  - change s with (f, s).2. rewrite <- Es. apply sum_word_range; [done|by apply de32_range].
  - change s' with (f, s').2. rewrite <- Es'. apply sum_word_range; [done|by apply de32_range].
Qed.

(** A single changed byte changes the checksum. *)
Lemma checksum_byte pre b b' post : b <> b' -> Forall is_byte (pre ++ b :: post) -> Forall is_byte (pre ++ b' :: post) ->
  checksum (pre ++ b :: post) <> checksum (pre ++ b' :: post).
Proof. intros Hne Hb Hb'. rewrite !sum_all_checksum. by apply sum_all_byte. Qed.

Lemma checksum_range data : 0 <= checksum data < 2 ^ 32.
Proof. apply u32_range. Qed.

Section Integrity.
Context `{FileStore} `{NvPlatform}.
Abbreviation W := (world nvram).
Implicit Types (v : store) (w : W).

(** ** What the map says *)

(** The word at [off]. *)
Definition word_at (M : list Z) (off : Z) : Z := le_value (read_at M off 4).

Definition map_info (M : list Z) : BackupFileInfo := BackupInfo (word_at M 0) (word_at M 4) (word_at M 8).

Lemma read_word_run fd p off wr M old v g L w (Q : Z * Z -> W -> Prop) : ready (at_off fd p off wr v) g L w ->
  files v !! p = Some M -> 0 <= off -> off + 4 <= zlen M ->
  (forall w', ready (at_off fd p (off + 4) wr v) g L w' -> Q (4, word_at M off) w') ->
  runs (read_word fd old) w Q.
Proof.
  intros Hw Hp Ho Hr HQ. unfold read_word. apply runs_bind. eapply run_read_range; [exact Hw|exact Hp|lia|lia|lia|].
  intros w' Hw'. apply runs_ret. cbn [rres_rv rres_data]. pose proof (zlen_read_at M off 4 Ho ltac:(lia) Hr) as Hl.
  rewrite Hl. assert (length (read_at M off 4) = 4%nat) as -> by (unfold zlen in Hl; lia).
  rewrite (drop_ge (le32 old)), app_nil_r by done. by apply HQ.
Qed.

Lemma get_checksum_run M v g L w : ready v g L w -> files v !! g_pcNVM_AllMap = Some M -> 12 <= zlen M ->
  runs FileOp_GetCheckSum w (fun r w' => r = true /\ ready v (set_stBackupFileInfo (map_info M) g) L w').
Proof.
  intros Hw HM Hl. unfold FileOp_GetCheckSum.
  apply runs_bind. eapply run_open; [exact Hw|exact HM|by auto|]. intros fd e r wr w1 Hfd Ofd Hr _ Hw1.
  rewrite Hr in Hw1 by done. fold (at_off fd g_pcNVM_AllMap 0 wr v) in Hw1. cbn [rv]. destruct (Z.ltb_spec fd 0); [lia|].
  apply runs_bind. eapply run_get; [exact Hw1|].
  apply runs_bind. eapply read_word_run; [exact Hw1|exact HM|lia|lia|]. intros w2 Hw2.
  apply runs_bind. eapply run_mod; [exact Hw2|]. intros w3 Hw3.
  apply runs_bind. eapply read_word_run; [exact Hw3|exact HM|lia|lia|]. intros w4 Hw4.
  apply runs_bind. eapply run_mod; [exact Hw4|]. intros w5 Hw5.
  apply runs_bind. eapply read_word_run; [exact Hw5|exact HM|lia|lia|]. intros w6 Hw6.
  apply runs_bind. eapply run_mod; [exact Hw6|]. intros w7 Hw7.
  apply runs_bind. eapply run_close; [exact Hw7|apply at_off_lookup|]. intros r' w8 Hw8.
  unfold at_off in Hw8. rewrite drop_put_fd in Hw8 by done. by split.
Qed.

(** ** The check before a restore *)

Lemma checked_run M A v g L w (Q : bool -> W -> Prop) : ready v g L w -> files v !! g_pcNVM_AllMap = Some M ->
  files v !! g_pcNVM_AllFile = Some A -> 12 <= zlen M -> zlen A < 2 ^ 31 ->
  (forall w', ready v (set_stBackupFileInfo (map_info M) g) L w' ->
    runs (if word_at M 0 =? Z.lxor (checksum A) (zlen A) then restore_kinds default_mask kinds true else mret false) w' Q) ->
  runs FileOp_RestoreData_All w Q.
Proof.
  intros Hw HM HA Hl Hlt HQ. pose proof (zlen_nonneg A). unfold FileOp_RestoreData_All.
  apply runs_bind. eapply runs_mono; [by eapply get_checksum_run|]. intros ok w1 [-> Hw1]. cbn [negb].
  apply runs_bind. eapply run_get; [exact Hw1|]. cbn [stBackupFileInfo set_stBackupFileInfo ulCheckSum map_info].
  apply runs_bind. eapply runs_mono; [eapply compute_checksum; [exact Hw1|exact HA|lia]|]. intros s w2 [-> Hw2].
  apply runs_bind. eapply run_stat; [exact Hw2|exact HA|]. intros e st w3 Hst Hw3. cbn [rv Z.ltb Z.compare].
  rewrite Hst, u32_small by lia. unfold FileOp_CompareCheckSum. specialize (HQ w3 Hw3). by destruct (_ =? _).
Qed.

(** The stored checksum of an archive is that of its contents. *)
Lemma stored_checksum A rest : zlen A < 2 ^ 31 ->
  word_at (le32 (Z.lxor (checksum A) (zlen A)) ++ rest) 0 = Z.lxor (checksum A) (zlen A).
Proof.
  intros Hlt. unfold word_at, read_at. rewrite drop_0, take_app_length' by done. change (le_value ?x) with (de32 x).
  rewrite de32_le32. apply u32_small, lxor_range; [apply checksum_range|]. pose proof (zlen_nonneg A). lia.
Qed.
End Integrity.
