(* ===== verification/NvJournal.v ===== *)
(** * libnvram: the backup device, its logs, and finding the devices

    libnvram.cpp: the geometry of the device that holds the backup of the NVRAM
    ([NVM_GetDeviceInfo]), the erasure of a block, and the history log, which is
    kept in the last blocks of the same device: a ring of pages, and a super page
    in the last block that holds the next sequence number.  The misc log has its
    pages behind its own super page, in a block that is counted from the end of
    [g_MISC_DEVICE].

    The variables that [NVM_Init] sets are the class [NvDevice]: the partition
    is found in the table of file systems, the numbers of blocks are those of the
    chip (nvram_platform.c). *)
From S2P Require Import Prelude Posix NvTypes NvFiles.

(** [nvram_gpt_flag]: the device is a partition of a block device, not an MTD.
    [log_func] and the line numbers of the callers are [__func__] and [__LINE__]. *)
Class NvDevice := {
  nvram_gpt_flag : bool;
  nvram_emmc_support : bool;
  nvram_ufs_support : bool;
  g_LOG_DEVICE : list Z;
  g_MISC_DEVICE : list Z;
  nvram_misc_log_block_offset : Z;
  nvram_platform_log_block : Z;
  nvram_platform_resv_block : Z;
  nvram_platform_DM_block : Z;
  nvram_platform_layout_version : Z
}.

Definition NVRAM_JOURNAL_HANDLE_SIZE : Z := 512.
Definition NVRAM_JOURNAL_MAGIC : Z := 0x5a5a7b7b.
Definition NVRAM_MISC_JOURNAL_MAGIC : Z := 0x4D52564E.
Definition MAX_FUNCTION_NAME_LENGTH : Z := 48.
Definition MAX_IMEI_LENGTH : Z := 130.
Definition MAX_BARCODE_LENGTH : Z := 250.
Definition MAX_LOG_LENGTH : Z :=
  NVRAM_JOURNAL_HANDLE_SIZE - 5 * 4 - 4 - MAX_FUNCTION_NAME_LENGTH - MAX_IMEI_LENGTH - MAX_BARCODE_LENGTH.
Definition DEFAULT_LOG_LEVEL : Z := 1.
Definition NVRAM_JOURNAL_SUPER_PAGE : Z := 0.
Definition NVRAM_JOURNAL_LOG_PAGE : Z := 1.

(** An array of [n] bytes that holds [bs] and zeros. *)
Definition zero_padded (n : Z) (bs : list Z) : list Z := bs ++ replicate (Z.to_nat n - length bs) 0.

(** [snprintf (array, n, "%s", s)] into zeros. *)
Definition string_array (n : Z) (s : list Z) : list Z := zero_padded n (take (Z.to_nat (n - 1)) s).

(** [nvram_journal_handle_t] *)
Record nvram_journal_handle := Journal {
  h_magic : Z;
  h_type : Z;
  h_sequence : Z;
  h_utc_time : Z;
  h_func_name : list Z;
  h_func_line : Z;
  h_log_lengeh : Z;
  h_log : list Z
}.

Definition sizeof_journal : Z := NVRAM_JOURNAL_HANDLE_SIZE.

(** Its bytes; [imei] and [barcode] stay zero. *)
Definition journal_bytes (j : nvram_journal_handle) : list Z :=
  zero_padded sizeof_journal
    (le32 (h_magic j) ++ le32 (h_type j) ++ le32 (h_sequence j) ++ le32 (h_utc_time j) ++
     string_array MAX_FUNCTION_NAME_LENGTH (h_func_name j) ++ le32 (h_func_line j) ++
     le32 (h_log_lengeh j) ++ string_array MAX_LOG_LENGTH (h_log j)).

Section Journal.
Context `{OS} `{NvPlatform} `{NvDevice}.
Abbreviation P := (prog nvram).

(** Division and remainder of the C code, which trap at zero. *)
Definition pdiv (a b : Z) : P Z := if b =? 0 then phalt DivZero else mret (a / b).
Definition prem (a b : Z) : P Z := if b =? 0 then phalt DivZero else mret (Z.rem a b).

(** Neither eMMC nor UFS: flash that has to be erased. *)
Definition is_nand : bool := negb nvram_emmc_support && negb nvram_ufs_support.

(** [None] is the result [false]. *)
Definition NVM_GetDeviceInfo (path : list Z) : P (option mtd_info) :=
  fdo ← psys (Sys_open path O_RDWR 0);
  let fd := rv fdo in
  if fd <? 0 then mret None
  else if nvram_gpt_flag then
    r ← psys (Sys_lseek fd 0 SEEK_END);
    _ ← psys (Sys_close fd);
    mret (Some (Mtd (u32 (rv r)) (128 * 1024) 512))
  else
    '(r, info) ← psys (Sys_mtd_getinfo fd);
    _ ← psys (Sys_close fd);
    mret (if rv r <? 0 then None else Some info).

Definition NVM_EraseDeviceBlock (path : list Z) (start length : Z) : P bool :=
  fdo ← psys (Sys_open path O_RDWR 0);
  let fd := rv fdo in
  if fd <? 0 then mret false
  else
    r ← psys (Sys_mtd_erase fd start length);
    _ ← psys (Sys_close fd);
    mret (negb (rv r <? 0)).

(** ** The sequence number *)

(** Frees and closes, and the result. *)
Definition quit {A} (ps : list Z) (fds : list Z) (a : A) : P A :=
  foldr (fun p m => pfree p;; m) (foldr (fun fd m => _ ← psys (Sys_close fd); m) (mret a) fds) ps.

(** The geometry, if a page of a log fits in. *)
Definition log_info (device : list Z) : P (option mtd_info) :=
  i ← NVM_GetDeviceInfo device;
  mret (match i with
        | Some info => if (writesize info <? sizeof_journal) || (info_size info =? 0) then None else Some info
        | None => None
        end).

(** The number in the super page at [offset].  It is unsigned: [-1], [false] and
    [true] are numbers too. *)
Definition read_super (device : list Z) (info : mtd_info) (offset magic : Z) : P Z :=
  let minus1 := u32 (-1) in
  journal ← pmalloc sizeof_journal;
  if journal =? 0 then mret 0
  else
    buffer ← pmalloc (writesize info);
    if buffer =? 0 then quit [journal] [] minus1
    else
      fdo ← psys (Sys_open device O_RDWR 0);
      let fd := rv fdo in
      if fd <? 0 then quit [journal; buffer] [] minus1
      else
        r ← psys (Sys_lseek fd offset SEEK_SET);
        if i32 (rv r) <? 0 then quit [journal; buffer] [fd] minus1
        else
          r ← psys (Sys_read fd (writesize info));
          if negb (u32 (rres_rv r) =? writesize info) then quit [journal; buffer] [fd] minus1
          else
            _ ← psys (Sys_close fd);
            let page := rres_data r in
            let sequence := if de32 (take 4 page) =? magic then u32 (de32 (take 4 (drop 8 page))) else 0 in
            quit [journal; buffer] [] sequence.

Definition NVM_GetSequenceNum : P Z :=
  if nvram_platform_layout_version =? 1 then mret 1
  else if negb (nvram_platform_layout_version =? 0) then mret 0
  else
    i ← log_info g_LOG_DEVICE;
    match i with
    | None => mret (u32 (-1))
    | Some info => read_super g_LOG_DEVICE info (u32 (info_size info - erasesize info)) NVRAM_JOURNAL_MAGIC
    end.

(** A page written at [offset]; [journal] and [buffer] are freed. *)
Definition write_page (device : list Z) (info : mtd_info) (offset : Z) (j : nvram_journal_handle) (journal buffer : Z) : P bool :=
  fdo ← psys (Sys_open device O_RDWR 0);
  let fd := rv fdo in
  if fd <? 0 then quit [journal; buffer] [] false
  else
    r ← psys (Sys_lseek fd offset SEEK_SET);
    if i32 (rv r) <? 0 then quit [journal; buffer] [fd] false
    else
      r ← psys (Sys_write fd (zero_padded (writesize info) (journal_bytes j)));
      quit [journal; buffer] [fd] (u32 (rv r) =? writesize info).

(** The next number in the super page at [offset]. *)
Definition write_super (device : list Z) (info : mtd_info) (offset magic sequence : Z) (erase : bool) : P bool :=
  journal ← pmalloc sizeof_journal;
  if journal =? 0 then mret false
  else
    buffer ← pmalloc (writesize info);
    if buffer =? 0 then quit [journal] [] false
    else
      tm ← psys Sys_time;
      erased ← (if erase then NVM_EraseDeviceBlock device offset (erasesize info) else mret true);
      if negb erased then quit [journal; buffer] [] false
      else
        write_page device info offset (Journal magic NVRAM_JOURNAL_SUPER_PAGE (u32 (sequence + 1)) tm [] 0 0 [])
          journal buffer.

Definition NVM_IncSequenceNum (sequence : Z) : P bool :=
  if nvram_platform_layout_version =? 1 then mret true
  else if negb (nvram_platform_layout_version =? 0) then mret false
  else
    i ← log_info g_LOG_DEVICE;
    match i with
    | None => mret false
    | Some info =>
        write_super g_LOG_DEVICE info (u32 (info_size info - erasesize info)) NVRAM_JOURNAL_MAGIC sequence is_nand
    end.

(** ** The log *)

(** Where the page of a sequence number is: in the [log_block] last blocks, but
    not in the last. *)
Definition log_place (info : mtd_info) (sequence : Z) : P (Z * Z * Z) :=
  pages ← pdiv (erasesize info) (writesize info);
  let start_address := info_size info - nvram_platform_log_block * erasesize info in
  slot ← prem sequence (pages * (nvram_platform_log_block - 1));
  mret (pages, start_address, writesize info * slot).

(** The text of an entry. *)
Definition log_text (time log : list Z) : list Z := take (Z.to_nat (MAX_LOG_LENGTH - 1)) (time ++ [58] ++ log).

(** The page of an entry. *)
Definition write_entry (device : list Z) (info : mtd_info) (offset magic sequence : Z) (func : list Z) (line : Z) (log : list Z) : P bool :=
  journal ← pmalloc sizeof_journal;
  if journal =? 0 then mret false
  else
    buffer ← pmalloc (writesize info);
    if buffer =? 0 then quit [journal] [] false
    else
      tm ← psys Sys_time;
      text ← psys (Sys_ctime tm);
      let h_log := log_text text log in
      write_page device info offset
        (Journal magic NVRAM_JOURNAL_LOG_PAGE sequence tm func line (zlen h_log) h_log) journal buffer.

Definition NVM_HistoryLog (level : Z) (func : list Z) (line : Z) (log : list Z) : P bool :=
  if level <? DEFAULT_LOG_LEVEL then mret true
  else if nvram_platform_layout_version =? 1 then mret true
  else if negb (nvram_platform_layout_version =? 0) then mret false
  else
    i ← log_info g_LOG_DEVICE;
    match i with
    | None => mret false
    | Some info =>
        sequence ← NVM_GetSequenceNum;
        '(pages, start_address, offset) ← log_place info sequence;
        erased ← (if is_nand && (sequence mod pages =? 0)
                  then NVM_EraseDeviceBlock g_LOG_DEVICE (u32 (start_address + offset)) (erasesize info)
                  else mret true);
        if negb erased then mret false
        else
          ok ← write_entry g_LOG_DEVICE info (start_address + offset) NVRAM_JOURNAL_MAGIC sequence func line log;
          if negb ok then mret false else NVM_IncSequenceNum sequence
    end.

(** ** The misc log *)

(** Its super page. *)
Definition misc_start (info : mtd_info) : Z := info_size info - erasesize info * nvram_misc_log_block_offset.

Definition NVM_MiscGetSeqNum : P Z :=
  if is_nand then mret 0
  else if nvram_platform_layout_version =? 1 then mret (u32 (-1))
  else
    i ← log_info g_MISC_DEVICE;
    match i with
    | None => mret (u32 (-1))
    | Some info => read_super g_MISC_DEVICE info (misc_start info) NVRAM_MISC_JOURNAL_MAGIC
    end.

(** The result [-1] is [true]. *)
Definition NVM_MiscIncSeqNum (sequence : Z) : P bool :=
  if is_nand then mret false
  else if nvram_platform_layout_version =? 1 then mret true
  else
    i ← log_info g_MISC_DEVICE;
    match i with
    | None => mret false
    | Some info => write_super g_MISC_DEVICE info (misc_start info) NVRAM_MISC_JOURNAL_MAGIC sequence false
    end.

(** The page of a sequence number, behind the super page. *)
Definition misc_offset (info : mtd_info) (sequence : Z) : P Z :=
  pages ← pdiv (erasesize info) (writesize info);
  slot ← prem sequence pages;
  mret (writesize info * (slot + 1)).

Definition NVM_MiscLog (level : Z) (func : list Z) (line : Z) (log : list Z) : P bool :=
  if nvram_platform_layout_version =? 1 then mret false
  else if is_nand then mret false
  else
    i ← log_info g_MISC_DEVICE;
    match i with
    | None => mret false
    | Some info =>
        sequence ← NVM_MiscGetSeqNum;
        offset ← misc_offset info sequence;
        ok ← write_entry g_MISC_DEVICE info (misc_start info + offset) NVRAM_MISC_JOURNAL_MAGIC sequence func line log;
        if negb ok then mret false else NVM_MiscIncSeqNum sequence
    end.
End Journal.

Example journal_size : zlen (journal_bytes (Journal 0 0 0 0 (lit "f") 0 0 (lit "log"))) = 512.
Proof. reflexivity. Qed.

(** ** libnvram: finding the devices

    [NVM_Init] (libnvram.cpp) finds the partitions in the table of file systems, once
    for a process, and takes the layout of the chip.  What it sets are the classes
    [NvPlatform] and [NvDevice] of the other files, which begin where it has run:
    there a call is [NVM_Init_again]. *)

(** [NVRAM_PLATFORM_T] *)
Record platform := Platform {
  log_block : Z;
  resv_block : Z;
  DM_block : Z;
  layout_version : Z;
  header_offset : Z
}.

(** The paths found. *)
Record devices := Devices {
  d_LOG : list Z;
  d_MISC : list Z;
  d_BACKUP : list Z;
  d_PROINFO : list Z;
  d_NVDATA : list Z
}.

Record lib_state := LibState {
  nvram_init_flag : Z;
  gpt_flag : Z;
  g_i4MaxNvRamLid : Z;
  layout_of : platform;
  devices_of : devices
}.

Definition NVRAM_MNT_POINT : list Z := lit "/nvram".
Definition MISC_MNT_POINT : list Z := lit "/misc".
Definition PROINFO_MNT_POINT : list Z := lit "/proinfo".
Definition NVDATA_MNT_POINT : list Z := lit "/mnt/vendor/nvdata".

(** [snprintf] of a path into an array of 128 bytes: what it holds then. *)
Definition device_path (blk_device : list Z) : list Z := take 127 (cstring blk_device).

Section Init.
(** [ReadDefaultFstab] and [GetEntryForMountPoint] of fs_mgr: the table, if it can be
    read, and the device of a mount point. *)
Context (fstab : option (list Z -> option (list Z))) (emmc ufs : bool).

(** The device of a mount point, or the path as it was. *)
Definition found (entry : list Z -> option (list Z)) (mount old : list Z) : list Z :=
  match entry mount with Some blk_device => device_path blk_device | None => old end.

(** The mount point of the misc device is that of the NVRAM.  [None]: -1. *)
Definition get_partition_path (d : devices) : option devices :=
  if emmc || ufs then
    match fstab with
    | None => None
    | Some entry =>
        Some (Devices (found entry NVRAM_MNT_POINT (d_LOG d)) (found entry NVRAM_MNT_POINT (d_MISC d))
          (found entry NVRAM_MNT_POINT (d_BACKUP d)) (found entry PROINFO_MNT_POINT (d_PROINFO d))
          (found entry NVDATA_MNT_POINT (d_NVDATA d)))
    end
  else
    Some (Devices (lit "/dev/nvram") (lit "/dev/misc") (lit "/dev/nvram") (lit "/dev/pro_info") (d_NVDATA d)).

(** [nvram_platform_callback] is the chip's.  [nvram_multi_storage_support] answers
    [false] (CFG_file_info.c), but where [NVRAM_MULTI_STORAGE_SUPPORT] is defined. *)
Context (nvram_platform_callback : platform) (nvram_multi_storage_support : option platform).
Context (file_count custom_count : Z).

Definition NVM_Init (s : lib_state) : lib_state * Z :=
  if negb (nvram_init_flag s =? 0) then (s, g_i4MaxNvRamLid s)
  else
    match get_partition_path (devices_of s) with
    | None => (s, -1)
    | Some d =>
        let p := default nvram_platform_callback nvram_multi_storage_support in
        let lid := i32 (file_count + custom_count) in
        (LibState 1 (if strstr (d_BACKUP d) (lit "block") then 1 else 0) lid p d, lid)
    end.

(** On eMMC and UFS the first call takes the device of the NVRAM for the
    backup, for the history log and for the misc log too, whatever device the table
    has for the misc partition; it is taken for a partition of a block device
    exactly when its path says so, and later calls change nothing. *)
Theorem init_devices s entry blk_device : nvram_init_flag s = 0 -> emmc || ufs = true -> fstab = Some entry ->
  entry NVRAM_MNT_POINT = Some blk_device ->
  exists s', NVM_Init s = (s', i32 (file_count + custom_count)) /\ NVM_Init s' = NVM_Init s /\
    d_BACKUP (devices_of s') = device_path blk_device /\ d_LOG (devices_of s') = device_path blk_device /\
    d_MISC (devices_of s') = device_path blk_device /\
    (gpt_flag s' = 1 <-> strstr (device_path blk_device) (lit "block") = true).
Proof.
  intros Hs Hf Ht He. unfold NVM_Init at 1 3, get_partition_path. rewrite Hs, Hf, Ht. cbn [negb Z.eqb].
  eexists. split; [done|]. split; [done|]. simpl. unfold found. rewrite He. split_and!; [done..|]. by destruct (strstr _ _).
Qed.
End Init.

(** A call when the flag is set. *)
Definition NVM_Init_again `{OS} `{NvPlatform} : prog nvram Z := mret (i32 (g_i4CFG_File_Count + g_i4CFG_File_Custom_Count)).
