(* ===== verification/NvVersion.v ===== *)
(** * libnvram: the version file

    [NVM_GenerateFileVer] (libnvram.cpp) writes the names and versions of all records
    into the first file of the table, behind a title; [Check_FileVerinFirstBoot]
    has it do so when the size of the file is not that of the tables.  The file is
    not truncated: [version_file_written] says what it holds. *)
From S2P Require Import Prelude Posix MemFs FileStore NvTypes NvFiles NvSum NvMake NvSpec NvBackup NvJournal.

Definition FILENAMELENGTH : Z := 70.
Definition FILEVERLENGTH : Z := 4.
Definition strVerInfo : list Z := lit "NVRAM_VER_INFO".

(** How a record without contents is made. *)
Inductive FILE_DEFAULT_TYPE := MULTIPLE_DEFUALT_REC | SIGNLE_DEFUALT_REC | DEFAULT_ZERO | DEFAULT_FF.

(** [TCFG_FILE].  The default value is the object behind the pointer, [None] for the
    null pointer; the conversion is from the version of the file to that of the build and
    from the old contents to a buffer, and answers with that buffer. *)
Record TCFG_FILE := Cfg {
  cFileName : list Z;
  cFileVer : list Z;
  i4RecSize : Z;
  i4RecNum : Z;
  stDefualType : FILE_DEFAULT_TYPE;
  pDefualtVaule : option (list Z);
  bDataProcessingType : Z;
  NVM_DataConvertFunc : option (Z -> Z -> list Z -> list Z -> Z * list Z)
}.

(** The tables of CFG_file_info.c and CFG_file_info_custom.h, whose lengths are
    [g_i4CFG_File_Count] and [g_i4CFG_File_Custom_Count]. *)
Class NvTables := {
  g_akCFG_File : list TCFG_FILE;
  g_akCFG_File_Custom : list TCFG_FILE;
  iCustomBeginLID : Z;
  iFileVerInfoLID : Z
}.

(** An element of an array. *)
Definition element {A} (l : list A) (i : Z) : option A := if i <? 0 then None else l !! Z.to_nat i.

(** The name behind the last slash, if there is one. *)
Fixpoint after_last (n : list Z) : option (list Z) :=
  match n with
  | [] => None
  | c :: n' =>
      match after_last n' with
      | Some r => Some r
      | None => if c =? chr_slash then Some n' else None
      end
  end.

(** An array of [n] bytes, cut to a string of [n - 1]; one of [n] bytes. *)
Definition name_field (s : list Z) : list Z :=
  let t := take (Z.to_nat (FILENAMELENGTH - 1)) s in t ++ replicate (Z.to_nat FILENAMELENGTH - length t) 0.

Definition ver_field (s : list Z) : list Z :=
  let t := take (Z.to_nat FILEVERLENGTH) s in t ++ replicate (Z.to_nat FILEVERLENGTH - length t) 0.

(** The record of a file, and that at the start. *)
Definition version_record (f : TCFG_FILE) : list Z :=
  name_field (default [] (after_last (cFileName f))) ++ ver_field (cFileVer f).

Definition version_title (f : TCFG_FILE) : list Z := name_field strVerInfo ++ ver_field (cFileVer f).

Definition S_ISREG (mode : Z) : bool := Z.land mode 61440 =? 32768.

Section Version.
Context `{OS} `{NvPlatform} `{NvTables}.
Abbreviation P := (prog nvram).

(** [open_file_with_dirs] of libnvram.cpp. *)
Definition open_file_with_dirs_flags (fn : list Z) (flag mode : Z) : P Z :=
  _ ← psys (Sys_umask 0);
  ok ← make_dirs [] fn;
  if negb ok then mret (-1)
  else
    filedesc ← psys (Sys_open fn flag mode);
    pwhen (negb (rv filedesc =? -1)) (
      '(val, info) ← psys (Sys_stat fn);
      pwhen (rv val =? 0) (
        change_group fn;;
        pwhen (negb (S_ISDIR (st_mode info))) (_ ← psys (Sys_chmod fn mode); mret tt)));;
    mret (rv filedesc).

(** The records [i], [i + 1], ... of a table; the results of the writes are not looked at. *)
Fixpoint write_versions (fd : Z) (table : list TCFG_FILE) (n : nat) (i : Z) : P unit :=
  match n with
  | O => mret tt
  | S n' =>
      f ← popt OutOfBounds (element table i);
      _ ← psys (Sys_write fd (name_field (default [] (after_last (cFileName f)))));
      _ ← psys (Sys_write fd (ver_field (cFileVer f)));
      write_versions fd table n' (i + 1)
  end.

(** [S_IRUSR | S_IWUSR | S_IRGRP | S_IWGRP | S_IROTH] *)
Definition S_IRW_UG_R : Z := 436.

Definition NVM_GenerateFileVer (CPY_File_To_NVM : bool) : P bool :=
  if negb CPY_File_To_NVM then mret true
  else
    info ← popt OutOfBounds (element g_akCFG_File iFileVerInfoLID);
    let flags := Z.lor O_CREAT O_RDWR in
    r ← psys (Sys_open (cFileName info) flags S_IRW_UG_R);
    iFileDesc ← (if rv r =? -1 then open_file_with_dirs_flags (cFileName info) flags S_IRW_UG_R else mret (rv r));
    if iFileDesc =? -1 then mret false
    else
      _ ← psys (Sys_write iFileDesc (name_field strVerInfo));
      _ ← psys (Sys_write iFileDesc (ver_field (cFileVer info)));
      write_versions iFileDesc g_akCFG_File (Z.to_nat (iCustomBeginLID - iFileVerInfoLID)) iFileVerInfoLID;;
      write_versions iFileDesc g_akCFG_File_Custom
        (Z.to_nat (g_i4CFG_File_Count + g_i4CFG_File_Custom_Count - iCustomBeginLID)) 0;;
      _ ← psys (Sys_chown (cFileName info) (-1) AID_SYSTEM);
      _ ← psys (Sys_chmod (cFileName info) S_IRW_UG_R);
      _ ← psys (Sys_close iFileDesc);
      mret true.

(** Whether the version file is there. *)
Definition NVM_CheckVerFile (In_NVM : bool) : P bool :=
  if In_NVM then
    info ← popt OutOfBounds (element g_akCFG_File iFileVerInfoLID);
    '(r, st) ← psys (Sys_stat (cFileName info));
    mret (negb (rv r =? -1) && S_ISREG (st_mode st))
  else mret true.

Definition Check_FileVerinFirstBoot : P bool :=
  max_lid_num ← NVM_Init_again;
  if max_lid_num <=? 0 then mret false
  else
    '(ret, _) ← psys (Sys_stat g_pcNVM_Flag);
    if rv ret =? -1 then
      info ← popt OutOfBounds (element g_akCFG_File iFileVerInfoLID);
      '(r, st) ← psys (Sys_stat (cFileName info));
      if (rv r =? -1) || negb (S_ISREG (st_mode st)) ||
         negb (st_size st =? (FILENAMELENGTH + FILEVERLENGTH) * (max_lid_num + 1))
      then NVM_GenerateFileVer true
      else mret true
    else mret true.
End Version.

(** ** The contents of the file *)

Lemma zlen_name_field s : zlen (name_field s) = FILENAMELENGTH.
Proof. unfold name_field, FILENAMELENGTH, zlen. rewrite length_app, length_replicate, length_take. lia. Qed.

Lemma zlen_ver_field s : zlen (ver_field s) = FILEVERLENGTH.
Proof. unfold ver_field, FILEVERLENGTH, zlen. rewrite length_app, length_replicate, length_take. lia. Qed.

Lemma zlen_records fs : zlen (concat (version_record <$> fs)) = (FILENAMELENGTH + FILEVERLENGTH) * zlen fs.
Proof.
  induction fs as [|f fs IH]; [done|]. csimpl. rewrite zlen_app, IH. unfold version_record at 1.
  rewrite zlen_app, zlen_name_field, zlen_ver_field. unfold zlen. simpl length. lia.
Qed.

Section Contents.
Context `{FileStore} `{NvPlatform} `{!NvTables}.
Abbreviation W := (world nvram).
Implicit Types (v : store) (w : W).

(** The tables as the build makes them: the version file is the first. *)
Record tables_ok : Prop := {
  tb_first : iFileVerInfoLID = 0;
  tb_common : iCustomBeginLID = zlen g_akCFG_File;
  tb_count : g_i4CFG_File_Count = zlen g_akCFG_File;
  tb_custom : g_i4CFG_File_Custom_Count = zlen g_akCFG_File_Custom;
  tb_small : zlen g_akCFG_File + zlen g_akCFG_File_Custom < 2 ^ 31
}.

(** The file with the record [f] first. *)
Definition version_text (f : TCFG_FILE) : list Z :=
  version_title f ++ concat (version_record <$> g_akCFG_File) ++ concat (version_record <$> g_akCFG_File_Custom).

Lemma zlen_version_text f : tables_ok ->
  zlen (version_text f) = (FILENAMELENGTH + FILEVERLENGTH) * (g_i4CFG_File_Count + g_i4CFG_File_Custom_Count + 1).
Proof.
  intros [_ _ -> -> _]. unfold version_text, version_title.
  rewrite !zlen_app, !zlen_records, zlen_name_field, zlen_ver_field. lia.
Qed.

Lemma element_middle {A} (l1 : list A) x l2 : element (l1 ++ x :: l2) (zlen l1) = Some x.
Proof.
  unfold element. pose proof (zlen_nonneg l1). destruct (Z.ltb_spec (zlen l1) 0); [lia|].
  unfold zlen. rewrite Nat2Z.id. by apply list_lookup_middle.
Qed.

Lemma write_versions_run fd p r D table fs : forall done P v g L w, table = done ++ fs ->
  ready (over fd p r P D v) g L w ->
  runs (write_versions fd table (length fs) (zlen done)) w (fun _ w' =>
    ready (over fd p r (P ++ concat (version_record <$> fs)) D v) g L w').
Proof.
  induction fs as [|f fs IH]; intros done P v g L w Et Hw; [by rewrite app_nil_r|].
  cbn [length write_versions]. rewrite Et at 1. rewrite element_middle. apply runs_bind, runs_ret.
  apply runs_bind. eapply run_over; [exact Hw|]. intros e1 w1 Hw1.
  apply runs_bind. eapply run_over; [exact Hw1|]. intros e2 w2 Hw2.
  assert (zlen done + 1 = zlen (done ++ [f])) as -> by (by rewrite zlen_app).
  csimpl. unfold version_record at 1. rewrite !(assoc_L app). apply IH; [by rewrite Et, <- (assoc_L app)|done].
Qed.

Lemma init_run w (Q : Z -> W -> Prop) : tables_ok -> (forall n, 0 <= n -> Q n w) -> runs NVM_Init_again w Q.
Proof.
  intros [_ _ T1 T2 T3] HQ. apply runs_ret, HQ. pose proof (zlen_nonneg g_akCFG_File). pose proof (zlen_nonneg g_akCFG_File_Custom).
  rewrite T1, T2, i32_small; lia.
Qed.

(** The store with the version file written. *)
Definition generated v : store :=
  match g_akCFG_File with
  | f :: _ =>
      match files v !! cFileName f with
      | Some D => put_file (cFileName f) (version_text f ++ drop (length (version_text f)) D) v
      | None => v
      end
  | [] => v
  end.

(** The version file is there. *)
Definition has_version v : Prop := match g_akCFG_File with f :: _ => is_Some (files v !! cFileName f) | [] => False end.

Lemma generate_run v g L w : tables_ok -> has_version v -> ready v g L w ->
  runs (NVM_GenerateFileVer true) w (fun ok w' => ok = true /\ ready (generated v) g L w').
Proof.
  intros [T1 T2 T3 T4 _] Hv Hw. unfold has_version, generated in *. unfold NVM_GenerateFileVer. cbn [negb]. rewrite T1, T2, T3, T4.
  destruct g_akCFG_File as [|f fs] eqn:Et; [done|]. destruct Hv as [D HD]. rewrite HD.
  change (element (f :: fs) 0) with (Some f). apply runs_bind, runs_ret.
  apply runs_bind. eapply run_open; [exact Hw|exact HD|by auto|]. intros fd e r wr w1 Hfd Ofd _ Hwr Hw1.
  rewrite Hwr in Hw1 by done. rewrite <- (put_file_id (cFileName f) D v HD), over_start in Hw1. cbn [rv].
  destruct (Z.eqb_spec fd (-1)); [lia|]. apply runs_bind, runs_ret. destruct (Z.eqb_spec fd (-1)); [lia|].
  apply runs_bind. eapply run_over; [exact Hw1|]. intros e1 w2 Hw2.
  apply runs_bind. eapply run_over; [exact Hw2|]. intros e2 w3 Hw3.
  replace (Z.to_nat (zlen (f :: fs) - 0)) with (length (f :: fs)) by (unfold zlen; lia).
  apply runs_bind. eapply runs_mono; [eapply (write_versions_run _ _ _ _ _ (f :: fs) []); [done|exact Hw3]|]. intros _u w4 Hw4.
  replace (Z.to_nat (zlen (f :: fs) + zlen g_akCFG_File_Custom - zlen (f :: fs))) with (length g_akCFG_File_Custom) by (unfold zlen; lia).
  apply runs_bind. eapply runs_mono; [eapply (write_versions_run _ _ _ _ _ g_akCFG_File_Custom []); [done|exact Hw4]|]. intros _u' w5 Hw5.
  apply runs_bind. eapply run_quiet; [exact Hw5|done|]. intros r1 w6 Hw6.
  apply runs_bind. eapply run_quiet; [exact Hw6|done|]. intros r2 w7 Hw7.
  apply runs_bind. eapply run_close; [exact Hw7|unfold over; by rewrite fds_put_fd, decide_True|]. intros r3 w8 Hw8.
  rewrite drop_over in Hw8 by exact Ofd. apply runs_ret. split; [done|].
  unfold version_text, version_title. rewrite Et. rewrite !(assoc_L app) in *. exact Hw8.
Qed.

(** Claim C34.  The version file, written again, begins with the title and the names and
    versions of all records of the two tables; what it held behind that stays, so
    it has the size that the check at the first boot wants exactly when it was not
    longer. *)
Theorem version_file_written f fs D v g L w : tables_ok -> g_akCFG_File = f :: fs -> files v !! cFileName f = Some D -> ready v g L w ->
  exists w' D', NVM_GenerateFileVer true w = (w', Ok true) /\ ready (put_file (cFileName f) D' v) g L w' /\
    D' = version_text f ++ drop (length (version_text f)) D /\
    (zlen D' = (FILENAMELENGTH + FILEVERLENGTH) * (g_i4CFG_File_Count + g_i4CFG_File_Custom_Count + 1) <->
     zlen D <= (FILENAMELENGTH + FILEVERLENGTH) * (g_i4CFG_File_Count + g_i4CFG_File_Custom_Count + 1)).
Proof.
  intros Ht Et HD Hw. assert (has_version v) as Hv by (unfold has_version; rewrite Et; by eexists).
  destruct (runs_result _ _ _ (generate_run v g L w Ht Hv Hw)) as (w' & ok & E & -> & Hw'). unfold generated in Hw'. rewrite Et, HD in Hw'.
  exists w'. eexists. split; [done|]. split; [exact Hw'|]. split; [done|]. rewrite <- (zlen_version_text f Ht); unfold zlen; rewrite length_app, length_drop; lia.
Qed.
End Contents.
