(* ===== verification/NvLog.v ===== *)
(** * libnvram: bytes of a device, and the history log

    What a write of a range of a device leaves in its other ranges, and the calls
    on a descriptor of the device. *)
From S2P Require Import Prelude Posix MemFs FileStore NvTypes NvSum NvJournal.

(** ** Ranges *)

Lemma zlen_write_at data off bs : 0 <= off -> off + zlen bs <= zlen data -> zlen (write_at data off bs) = zlen data.
Proof. intros. unfold write_at. rewrite !zlen_app. unfold zlen in *. rewrite length_take, length_drop. lia. Qed.

(** A range of what was written. *)
Lemma read_written data off bs a n : 0 <= off -> off + zlen bs <= zlen data -> 0 <= a -> 0 <= n -> a + n <= zlen bs ->
  read_at (write_at data off bs) (off + a) n = read_at bs a n.
Proof.
  intros. unfold read_at, write_at, zlen in *. rewrite Z2Nat.inj_add by lia.
  rewrite drop_app_ge by (rewrite length_take; lia). rewrite length_take.
  replace (Z.to_nat off + Z.to_nat a - Z.to_nat off `min` length data)%nat with (Z.to_nat a) by lia.
  rewrite drop_app_le by lia. rewrite take_app_le; [done|]. rewrite length_drop. lia.
Qed.

Lemma read_written_start data off bs n : 0 <= off -> off + zlen bs <= zlen data -> 0 <= n <= zlen bs ->
  read_at (write_at data off bs) off n = read_at bs 0 n.
Proof. intros. rewrite <- (Z.add_0_r off) at 2. apply read_written; lia. Qed.

Lemma read_before data off bs a n : 0 <= a -> 0 <= n -> a + n <= off -> off + zlen bs <= zlen data ->
  read_at (write_at data off bs) a n = read_at data a n.
Proof.
  intros. unfold read_at, write_at, zlen in *.
  rewrite drop_app_le by (rewrite length_take; lia). rewrite take_app_le by (rewrite length_drop, length_take; lia).
  rewrite <- (take_drop (Z.to_nat off) data) at 2.
  rewrite drop_app_le by (rewrite length_take; lia). rewrite take_app_le by (rewrite length_drop, length_take; lia). done.
Qed.

Lemma read_after data off bs a n : 0 <= off -> off + zlen bs <= a -> 0 <= n -> off + zlen bs <= zlen data ->
  read_at (write_at data off bs) a n = read_at data a n.
Proof.
  intros. unfold read_at, write_at, zlen in *. f_equal.
  rewrite drop_app_ge by (rewrite length_take; lia). rewrite length_take, drop_app_ge by lia.
  rewrite drop_drop. f_equal. lia.
Qed.

(** Writes that follow each other. *)
Lemma write_at_app data off bs bs' : 0 <= off <= zlen data ->
  write_at (write_at data off bs) (off + zlen bs) bs' = write_at data off (bs ++ bs').
Proof.
  intros. unfold write_at, zlen in *. rewrite Z2Nat.inj_add, Nat2Z.id by lia.
  rewrite take_app_ge by (rewrite length_take; lia). rewrite length_take.
  replace (Z.to_nat off + length bs - Z.to_nat off `min` length data)%nat with (length bs) by lia.
  rewrite take_app_length, <- !(assoc_L app), length_app. f_equal. f_equal. f_equal.
  rewrite drop_app_ge by (rewrite length_take; lia). rewrite length_take, drop_app_ge by lia. rewrite drop_drop. f_equal. lia.
Qed.

Lemma write_at_nil data off : write_at data off [] = data.
Proof. unfold write_at. simpl. rewrite Nat.add_0_r. apply take_drop. Qed.

(** Reading a device of which a prefix is known. *)
Lemma read_prefix D D' n a m : take (Z.to_nat n) D = take (Z.to_nat n) D' -> 0 <= a -> 0 <= m -> a + m <= n ->
  read_at D a m = read_at D' a m.
Proof.
  intros E Ha Hm Hn. unfold read_at.
  assert (forall X : list Z, take (Z.to_nat m) (drop (Z.to_nat a) X) = take (Z.to_nat m) (drop (Z.to_nat a) (take (Z.to_nat n) X))) as Hx.
  { intros X. rewrite !take_drop_commute, take_take. f_equal. f_equal. lia. }
  rewrite (Hx D), (Hx D'). by rewrite E.
Qed.

Lemma take_write data off bs n : 0 <= n -> n <= off -> off <= zlen data ->
  take (Z.to_nat n) (write_at data off bs) = take (Z.to_nat n) data.
Proof.
  intros. unfold write_at, zlen in *. rewrite take_app_le by (rewrite length_take; lia). rewrite take_take. f_equal. lia.
Qed.

Lemma drop_write data off bs n : 0 <= off -> off + zlen bs <= n -> off + zlen bs <= zlen data ->
  drop (Z.to_nat n) (write_at data off bs) = drop (Z.to_nat n) data.
Proof.
  intros. unfold write_at, zlen in *. rewrite drop_app_ge by (rewrite length_take; lia).
  rewrite length_take, drop_app_ge, drop_drop by lia. f_equal. lia.
Qed.

(** A part of a range. *)
Lemma read_sub D a n b m x : read_at D a n = x -> 0 <= a -> 0 <= b -> 0 <= m -> b + m <= n ->
  read_at D (a + b) m = read_at x b m.
Proof.
  intros <- Ha Hb Hm Hn. unfold read_at. rewrite Z2Nat.inj_add by lia.
  rewrite (take_drop_commute (take _ _)), take_take.
  replace ((Z.to_nat b + Z.to_nat m) `min` Z.to_nat n)%nat with (Z.to_nat b + Z.to_nat m)%nat by lia.
  rewrite <- take_drop_commute, drop_drop. done.
Qed.

(** A read of a whole object, in two ways. *)
Lemma mread_read obj off n : 0 <= off -> 0 <= n -> off + n <= zlen obj -> mread obj off n = Some (read_at obj off n).
Proof. intros. unfold mread. rewrite !(proj2 (Z.leb_le _ _)) by lia. done. Qed.

Lemma mwrite_write obj off bs : 0 <= off -> off + zlen bs <= zlen obj -> mwrite obj off bs = Some (write_at obj off bs).
Proof. intros. unfold mwrite. rewrite !(proj2 (Z.leb_le _ _)) by lia. done. Qed.

Lemma read_whole x : read_at x 0 (zlen x) = x.
Proof. by apply read_all. Qed.

Lemma read_at_app_l x y n : 0 <= n <= zlen x -> read_at (x ++ y) 0 n = read_at x 0 n.
Proof. intros. unfold read_at, zlen in *. simpl. rewrite !drop_0. apply take_app_le. lia. Qed.

Lemma read_at_app_r x y a n : zlen x <= a -> read_at (x ++ y) a n = read_at y (a - zlen x) n.
Proof. intros. unfold read_at, zlen in *. rewrite drop_app_ge by lia. f_equal. f_equal. lia. Qed.

(** ** Calls on the device *)

Section Device.
Context `{FileStore} `{NvPlatform}.
Abbreviation W := (world nvram).
Implicit Types (v : store) (w : W).
Abbreviation dev := g_NVRAM_BACKUP_DEVICE.

(** The device has contents [D], and [fd] is on it at [off]. *)
Definition on_dev (fd off : Z) (D : list Z) v : store := put_fd fd (Fd dev off true true) (put_file dev D v).

Lemma on_dev_fd fd off D v : open_fds (on_dev fd off D v) !! fd = Some (Fd dev off true true).
Proof. unfold on_dev. by rewrite fds_put_fd, decide_True. Qed.

Lemma on_dev_file fd off D v : files (on_dev fd off D v) !! dev = Some D.
Proof. unfold on_dev. simpl. by rewrite lookup_insert_eq. Qed.

Lemma dev_open v g L w D Q : ready v g L w -> files v !! dev = Some D ->
  (forall fd e w', 0 <= fd -> open_fds v !! fd = None -> ready (on_dev fd 0 D v) g L w' -> Q (IRes fd e) w') ->
  runs (psys (Sys_open dev O_RDWR 0)) w Q.
Proof.
  intros Hw Hd HQ. eapply run_open; [exact Hw|exact Hd|by auto|]. intros fd e r wr w' Hfd Ofd Hr Hwr Hw'.
  rewrite Hr, Hwr in Hw' by done. apply HQ; [done..|]. unfold on_dev. by rewrite put_file_id.
Qed.

Lemma dev_close fd off D v g L w Q : ready (on_dev fd off D v) g L w -> open_fds v !! fd = None ->
  (forall r w', ready (put_file dev D v) g L w' -> Q r w') -> runs (psys (Sys_close fd)) w Q.
Proof.
  intros Hw Ofd HQ. eapply run_close; [exact Hw|apply on_dev_fd|]. intros r w' Hw'.
  unfold on_dev in Hw'. rewrite drop_put_fd in Hw' by done. by apply HQ.
Qed.

Lemma dev_seek fd off off' D v g L w Q : ready (on_dev fd off D v) g L w -> 0 <= off' ->
  (forall e w', ready (on_dev fd off' D v) g L w' -> Q (IRes off' e) w') ->
  runs (psys (Sys_lseek fd off' SEEK_SET)) w Q.
Proof.
  intros Hw Ho HQ. eapply run_seek_set; [exact Hw|apply on_dev_fd|done|]. intros e w' Hw'.
  unfold on_dev in Hw'. rewrite put_put_fd in Hw'. by eapply HQ.
Qed.

Lemma dev_read fd off n D v g L w Q : ready (on_dev fd off D v) g L w -> 0 <= off -> 0 <= n -> off + n <= zlen D ->
  (forall w', ready (on_dev fd (off + n) D v) g L w' -> Q (RData (read_at D off n)) w') ->
  runs (psys (Sys_read fd n)) w Q.
Proof.
  intros Hw Ho Hn Hr HQ. eapply run_read; [exact Hw|apply on_dev_fd|apply on_dev_file|done|done|]. intros w' Hw'.
  rewrite zlen_read_at in Hw' by done. unfold on_dev in Hw'. rewrite put_put_fd in Hw'. by apply HQ.
Qed.

Lemma dev_write fd off bs D v g L w Q : ready (on_dev fd off D v) g L w -> 0 <= off -> off + zlen bs <= zlen D ->
  (forall e w', ready (on_dev fd (off + zlen bs) (write_at D off bs) v) g L w' -> Q (IRes (zlen bs) e) w') ->
  runs (psys (Sys_write fd bs)) w Q.
Proof.
  intros Hw Ho Hr HQ. pose proof (zlen_nonneg bs).
  eapply run_write; [exact Hw|apply on_dev_fd|apply on_dev_file|lia|]. intros e w' Hw'.
  unfold on_dev in Hw'. rewrite put_fd_file, put_put_fd, <- put_fd_file, put_put_file in Hw'. by eapply HQ.
Qed.

(** Another descriptor beside it. *)
Lemma on_dev_put fd off D fd' x v : fd' <> fd -> put_fd fd' x (on_dev fd off D v) = on_dev fd off D (put_fd fd' x v).
Proof. intros Hne. unfold on_dev. rewrite put_fd_comm by done. by rewrite put_fd_file. Qed.

Lemma on_dev_none fd off D v k : open_fds (on_dev fd off D v) !! k = None -> k <> fd /\ open_fds v !! k = None.
Proof. unfold on_dev. rewrite fds_put_fd. case_decide; [done|]. intros ?. by split. Qed.

(** ** Frees and closes *)

Lemma ready_perm v g L L' w : L ≡ₚ L' -> ready v g L w -> ready v g L' w.
Proof. intros HL [? ? ? ? ? Hl]. constructor; [done..|]. by rewrite <- HL. Qed.

Lemma quit_free {A} p ps fds (a : A) v g L w (Q : A -> W -> Prop) : ready v g (p :: L) w -> p ∉ L ->
  (forall w', ready v g L w' -> runs (quit ps fds a) w' Q) -> runs (quit (p :: ps) fds a) w Q.
Proof. intros Hw Hp HQ. unfold quit. cbn [foldr]. apply runs_bind. eapply run_free; [exact Hw|exact Hp|]. exact HQ. Qed.

Lemma quit_close {A} fd fds (a : A) v g L w x (Q : A -> W -> Prop) : ready v g L w -> open_fds v !! fd = Some x ->
  (forall w', ready (drop_fd fd v) g L w' -> runs (quit [] fds a) w' Q) -> runs (quit [] (fd :: fds) a) w Q.
Proof. intros Hw Hx HQ. unfold quit. cbn [foldr]. apply runs_bind. eapply run_close; [exact Hw|exact Hx|]. intros r. apply HQ. Qed.

Lemma quit_done {A} (a : A) w (Q : A -> W -> Prop) : Q a w -> runs (quit [] [] a) w Q.
Proof. done. Qed.
(** The two buffers are freed. *)
Lemma quit_buffers {A} p q fds (a : A) v g L w (Q : A -> W -> Prop) : ready v g (q :: p :: L) w -> p ∉ L -> q ∉ p :: L ->
  (forall w', ready v g L w' -> runs (quit [] fds a) w' Q) -> runs (quit [p; q] fds a) w Q.
Proof.
  intros Hw Np Nq HQ. apply not_elem_of_cons in Nq as [Nqp Nq]. apply (ready_perm _ _ _ (p :: q :: L)) in Hw; [|constructor].
  eapply quit_free; [exact Hw|by apply not_elem_of_cons|]. intros w1 Hw1. by eapply quit_free.
Qed.
End Device.

(** ** libnvram: the history log stays in its blocks

    The backup and the history log share a device.  [Geometry] is what the clients
    of [NVM_GetDeviceInfo] rely on, and holds of a GPT partition
    ([gpt_geometry]); [SparingLog] is what the backup relies on: an entry of the
    log changes nothing in front of the last [log_block] blocks.  The code of the
    log has it ([history_log_spares]). *)

Section Interfaces.
Context `{FileStore} `{NvPlatform} `{NvDevice}.
Abbreviation W := (world nvram).

(** A device of that size has that geometry. *)
Class Geometry (info : mtd_info) : Prop := geometry_run : forall v g L (w : W) D Q,
  ready v g L w -> files v !! g_NVRAM_BACKUP_DEVICE = Some D -> zlen D = info_size info ->
  (forall w', ready v g L w' -> Q (Some info) w') -> runs (NVM_GetDeviceInfo g_NVRAM_BACKUP_DEVICE) w Q.

(** Where the log begins. *)
Definition log_start (info : mtd_info) : Z := info_size info - nvram_platform_log_block * erasesize info.

(** The two devices agree before the log. *)
Definition same_before_log (info : mtd_info) (D D' : list Z) : Prop :=
  zlen D' = zlen D /\ take (Z.to_nat (log_start info)) D' = take (Z.to_nat (log_start info)) D.

#[export] Instance same_trans info : Transitive (same_before_log info).
Proof. intros D1 D2 D3 [L1 T1] [L2 T2]. split; congruence. Qed.

(** Neither log changes anything in front of the log. *)
Class SparingLog (info : mtd_info) : Prop := {
  log_run level func line log v g L (w : W) D :
    ready v g L w -> files v !! g_NVRAM_BACKUP_DEVICE = Some D -> zlen D = info_size info ->
    runs (NVM_HistoryLog level func line log) w (fun ok w' => ok = true /\
      exists D', same_before_log info D D' /\ ready (put_file g_NVRAM_BACKUP_DEVICE D' v) g L w');
  misc_run level func line log v g L (w : W) D :
    ready v g L w -> files v !! g_NVRAM_BACKUP_DEVICE = Some D -> zlen D = info_size info ->
    runs (NVM_MiscLog level func line log) w (fun ok w' => ok = true /\
      exists D', same_before_log info D D' /\ ready (put_file g_NVRAM_BACKUP_DEVICE D' v) g L w')
}.
End Interfaces.

Section Log.
Context `{FileStore} `{NvPlatform} `{NvDevice}.
Abbreviation W := (world nvram).
Implicit Types (v : store) (w : W).
Abbreviation dev := g_NVRAM_BACKUP_DEVICE.

(** A partition of a block device. *)
Lemma gpt_geometry size : nvram_gpt_flag = true -> 0 <= size < 2 ^ 32 -> Geometry (Mtd size (128 * 1024) 512).
Proof.
  intros Hgpt Hs v g L w D Q Hw Hd Hl HQ. unfold NVM_GetDeviceInfo.
  apply runs_bind. eapply dev_open; [exact Hw|exact Hd|]. intros fd e w1 Hfd Ofd Hw1. cbn [rv].
  destruct (Z.ltb_spec fd 0); [lia|]. rewrite Hgpt.
  apply runs_bind. eapply run_seek_end; [exact Hw1|apply on_dev_fd|apply on_dev_file|]. intros e' w2 Hw2.
  unfold on_dev in Hw2. rewrite put_put_fd in Hw2.
  apply runs_bind. eapply dev_close; [exact Hw2|done|]. intros r w3 Hw3. rewrite put_file_id in Hw3 by done.
  apply runs_ret. cbn [rv]. rewrite Hl. cbn [info_size]. rewrite u32_small by lia. by apply HQ.
Qed.

(** ** Pages *)

Lemma zlen_zero_padded n bs : zlen bs <= n -> zlen (zero_padded n bs) = n.
Proof. unfold zero_padded, zlen. rewrite length_app, length_replicate. lia. Qed.

Lemma zlen_string_array n s : 0 < n -> zlen (string_array n s) = n.
Proof. intros. apply zlen_zero_padded. unfold zlen. rewrite length_take. lia. Qed.

Lemma zlen_journal j : zlen (journal_bytes j) = sizeof_journal.
Proof.
  apply zlen_zero_padded. rewrite !zlen_app, !zlen_string_array by done.
  unfold zlen. rewrite !length_le32. vm_compute. done.
Qed.

(** ** Pages of a device *)

Context (info : mtd_info) `{!Geometry info} (layout0 : nvram_platform_layout_version = 0) (not_nand : is_nand = false).
Abbreviation B := (erasesize info).
Context (page_fits : sizeof_journal <= writesize info <= B) (two_blocks : 2 <= nvram_platform_log_block).
Context (log_fits : nvram_platform_log_block * B <= info_size info) (small : info_size info < 2 ^ 31).

Lemma page_pos : 0 < writesize info.
Proof. unfold sizeof_journal, NVRAM_JOURNAL_HANDLE_SIZE in page_fits. lia. Qed.

Lemma block_in_device : 0 < B /\ 2 * B <= info_size info.
Proof.
  pose proof page_pos. split; [lia|]. etrans; [|exact log_fits]. apply Z.mul_le_mono_nonneg_r; lia.
Qed.

(** A page at [o] is in the device. *)
Definition page_at (o : Z) : Prop := 0 <= o /\ o + writesize info <= info_size info.

Lemma log_info_run v g L w D Q : ready v g L w -> files v !! dev = Some D -> zlen D = info_size info ->
  (forall w', ready v g L w' -> Q (Some info) w') -> runs (log_info dev) w Q.
Proof.
  intros Hw Hd Hl HQ. unfold log_info.
  apply runs_bind. eapply geometry_run; [exact Hw|exact Hd|exact Hl|]. intros w1 Hw1. apply runs_ret.
  destruct (Z.ltb_spec (writesize info) sizeof_journal); [lia|].
  destruct (Z.eqb_spec (info_size info) 0); [pose proof block_in_device; lia|]. by apply HQ.
Qed.

(** The number a super page holds. *)
Definition super_number (magic : Z) (page : list Z) : Z :=
  if de32 (take 4 page) =? magic then u32 (de32 (take 4 (drop 8 page))) else 0.

Lemma super_number_range magic page : 0 <= super_number magic page < 2 ^ 32.
Proof. unfold super_number. case_match; [apply u32_range|lia]. Qed.

Lemma read_super_run o magic v g L w D : ready v g L w -> files v !! dev = Some D -> zlen D = info_size info -> page_at o ->
  runs (read_super dev info o magic) w (fun s w' => s = super_number magic (read_at D o (writesize info)) /\ ready v g L w').
Proof.
  intros Hw Hd Hl [Ho Hr]. pose proof page_pos. unfold read_super.
  apply runs_bind. eapply run_malloc; [exact Hw|]. intros p w2 Hp Np Hw2. destruct (Z.eqb_spec p 0); [lia|].
  apply runs_bind. eapply run_malloc; [exact Hw2|]. intros q w3 Hq Nq Hw3. destruct (Z.eqb_spec q 0); [lia|].
  apply runs_bind. eapply dev_open; [exact Hw3|exact Hd|]. intros fd e w4 Hfd Ofd Hw4. cbn [rv].
  destruct (Z.ltb_spec fd 0); [lia|].
  apply runs_bind. eapply dev_seek; [exact Hw4|lia|]. intros e' w5 Hw5. cbn [rv]. rewrite i32_small by lia.
  destruct (Z.ltb_spec o 0); [lia|].
  apply runs_bind. eapply dev_read; [exact Hw5|lia|lia|lia|]. intros w6 Hw6. cbn [rres_rv rres_data].
  rewrite zlen_read_at by lia. rewrite (u32_small (writesize info)), Z.eqb_refl by lia. cbn [negb].
  apply runs_bind. eapply dev_close; [exact Hw6|done|]. intros r w7 Hw7. rewrite put_file_id in Hw7 by done.
  eapply quit_buffers; [exact Hw7|exact Np|exact Nq|]. intros w8 Hw8. by apply quit_done.
Qed.

(** The contents of the device with a page of this record at [o]. *)
Definition with_page (o : Z) (j : nvram_journal_handle) (D : list Z) : list Z :=
  write_at D o (zero_padded (writesize info) (journal_bytes j)).

Lemma write_page_run o j p q v g L w D : ready v g (q :: p :: L) w -> p ∉ L -> q ∉ p :: L ->
  files v !! dev = Some D -> zlen D = info_size info -> page_at o ->
  runs (write_page dev info o j p q) w (fun ok w' => ok = true /\ ready (put_file dev (with_page o j D) v) g L w').
Proof.
  intros Hw Np Nq Hd Hl [Ho Hr]. pose proof page_pos. pose proof block_in_device as [? ?].
  unfold write_page, with_page. set (bs := zero_padded _ _).
  assert (zlen bs = writesize info) as Hbs by (apply zlen_zero_padded; rewrite zlen_journal; lia). clearbody bs.
  apply runs_bind. eapply dev_open; [exact Hw|exact Hd|]. intros fd e w1 Hfd Ofd Hw1. cbn [rv].
  destruct (Z.ltb_spec fd 0); [lia|].
  apply runs_bind. eapply dev_seek; [exact Hw1|exact Ho|]. intros e1 w2 Hw2. cbn [rv]. rewrite i32_small by lia.
  destruct (Z.ltb_spec o 0); [lia|].
  apply runs_bind. eapply dev_write; [exact Hw2|exact Ho|lia|]. intros e2 w3 Hw3. cbn [rv].
  rewrite Hbs, u32_small, Z.eqb_refl by lia.
  eapply quit_buffers; [exact Hw3|exact Np|exact Nq|]. intros w4 Hw4.
  eapply quit_close; [exact Hw4|apply on_dev_fd|]. intros w5 Hw5. apply quit_done. split; [done|].
  unfold on_dev in Hw5. by rewrite drop_put_fd in Hw5.
Qed.

Lemma zlen_page j : zlen (zero_padded (writesize info) (journal_bytes j)) = writesize info.
Proof. apply zlen_zero_padded. rewrite zlen_journal. lia. Qed.

Lemma zlen_with_page o j D : zlen D = info_size info -> page_at o -> zlen (with_page o j D) = info_size info.
Proof. intros Hl [Ho Hr]. unfold with_page. rewrite zlen_write_at; rewrite ?zlen_page; lia. Qed.

(** A super page and the page of an entry, with the clock of the moment. *)
Definition super_journal (magic s tm : Z) : nvram_journal_handle :=
  Journal magic NVRAM_JOURNAL_SUPER_PAGE (u32 (s + 1)) tm [] 0 0 [].

Lemma write_super_run o magic s v g L w D : ready v g L w -> files v !! dev = Some D -> zlen D = info_size info -> page_at o ->
  runs (write_super dev info o magic s false) w (fun ok w' => ok = true /\ exists tm,
    ready (put_file dev (with_page o (super_journal magic s tm) D) v) g L w').
Proof.
  intros Hw Hd Hl Ho. unfold write_super.
  apply runs_bind. eapply run_malloc; [exact Hw|]. intros p w2 Hp Np Hw2. destruct (Z.eqb_spec p 0); [lia|].
  apply runs_bind. eapply run_malloc; [exact Hw2|]. intros q w3 Hq Nq Hw3. destruct (Z.eqb_spec q 0); [lia|].
  apply runs_bind. eapply run_quiet; [exact Hw3|done|]. intros tm w4 Hw4.
  apply runs_bind, runs_ret. cbn [negb].
  eapply runs_mono; [by eapply write_page_run|]. intros ok w5 [-> Hw5]. split; [done|]. by exists tm.
Qed.

Lemma write_entry_run o magic s func line log v g L w D : ready v g L w -> files v !! dev = Some D ->
  zlen D = info_size info -> page_at o ->
  runs (write_entry dev info o magic s func line log) w (fun ok w' => ok = true /\ exists j, h_magic j = magic /\
    ready (put_file dev (with_page o j D) v) g L w').
Proof.
  intros Hw Hd Hl Ho. unfold write_entry.
  apply runs_bind. eapply run_malloc; [exact Hw|]. intros p w3 Hp Np Hw3. destruct (Z.eqb_spec p 0); [lia|].
  apply runs_bind. eapply run_malloc; [exact Hw3|]. intros q w4 Hq Nq Hw4. destruct (Z.eqb_spec q 0); [lia|].
  apply runs_bind. eapply run_quiet; [exact Hw4|done|]. intros tm w5 Hw5.
  apply runs_bind. eapply run_quiet; [exact Hw5|done|]. intros text w6 Hw6.
  eapply runs_mono; [by eapply write_page_run|]. intros ok w7 [-> Hw7]. split; [done|]. eexists. by split; [|exact Hw7].
Qed.

(** A page of the log is in its blocks. *)
Lemma same_after_page o j D : zlen D = info_size info -> log_start info <= o -> page_at o ->
  same_before_log info D (with_page o j D).
Proof.
  intros Hl Ho Hp. assert (0 <= log_start info) by (unfold log_start; lia).
  split; [by rewrite zlen_with_page|]. pose proof page_pos. destruct Hp. apply take_write; lia.
Qed.

(** ** The history log *)

Context (same_device : g_LOG_DEVICE = dev).

Lemma super_page : page_at (info_size info - B) /\ log_start info <= info_size info - B.
Proof. pose proof page_pos. pose proof block_in_device as [? ?]. unfold page_at, log_start.
  assert (2 * B <= nvram_platform_log_block * B) by (apply Z.mul_le_mono_nonneg_r; lia). lia.
Qed.

Lemma sequence_run v g L w D : ready v g L w -> files v !! dev = Some D -> zlen D = info_size info ->
  runs NVM_GetSequenceNum w (fun s w' =>
    s = super_number NVRAM_JOURNAL_MAGIC (read_at D (info_size info - B) (writesize info)) /\ ready v g L w').
Proof.
  intros Hw Hd Hl. pose proof page_pos. pose proof block_in_device as [? ?].
  unfold NVM_GetSequenceNum. rewrite layout0, same_device. cbn [Z.eqb negb].
  apply runs_bind. eapply log_info_run; [exact Hw|exact Hd|exact Hl|]. intros w1 Hw1.
  rewrite (u32_small (info_size info - B)) by lia. by eapply read_super_run; [..|apply super_page].
Qed.

Lemma inc_run s v g L w D : ready v g L w -> files v !! dev = Some D -> zlen D = info_size info ->
  runs (NVM_IncSequenceNum s) w (fun ok w' => ok = true /\
    exists D', same_before_log info D D' /\ ready (put_file dev D' v) g L w').
Proof.
  intros Hw Hd Hl. pose proof page_pos. pose proof block_in_device as [? ?]. pose proof super_page as [? ?].
  unfold NVM_IncSequenceNum. rewrite layout0, same_device. cbn [Z.eqb negb].
  apply runs_bind. eapply log_info_run; [exact Hw|exact Hd|exact Hl|]. intros w1 Hw1.
  rewrite not_nand, (u32_small (info_size info - B)) by lia.
  eapply runs_mono; [by eapply write_super_run|]. intros ok w2 (-> & tm & Hw2). split; [done|].
  eexists. split; [|exact Hw2]. by apply same_after_page.
Qed.

Lemma place_run s w : 0 <= s -> exists pages o, log_place info s w = (w, Ok (pages, log_start info, o)) /\
  0 <= o /\ log_start info + o + writesize info <= info_size info.
Proof.
  intros Hs. pose proof page_pos. pose proof block_in_device as [? ?]. unfold log_place, pdiv, prem, mbind, prog_bind.
  destruct (Z.eqb_spec (writesize info) 0); [lia|]. unfold mret, prog_ret.
  assert (0 < B / writesize info) by (apply Z.div_str_pos; lia).
  assert (B / writesize info * writesize info <= B) by (rewrite Z.mul_comm; apply Z.mul_div_le; lia).
  set (pages := B / writesize info) in *. set (slots := pages * (nvram_platform_log_block - 1)).
  assert (0 < slots) by (unfold slots; nia).
  exists pages, (writesize info * Z.rem s slots).
  destruct (Z.eqb_spec slots 0); [lia|]. split; [done|].
  pose proof (Z.rem_bound_pos s slots Hs ltac:(lia)). unfold log_start, slots in *. split; nia.
Qed.

Lemma history_run level func line log v g L w D :
  ready v g L w -> files v !! dev = Some D -> zlen D = info_size info ->
  runs (NVM_HistoryLog level func line log) w (fun ok w' => ok = true /\
    exists D', same_before_log info D D' /\ ready (put_file dev D' v) g L w').
Proof.
  intros Hw Hd Hl. unfold NVM_HistoryLog. assert (same_before_log info D D) as Hsame by done.
  destruct (level <? DEFAULT_LOG_LEVEL).
  { apply runs_ret. split; [done|]. exists D. by rewrite put_file_id. }
  rewrite layout0, same_device. cbn [Z.eqb negb].
  apply runs_bind. eapply log_info_run; [exact Hw|exact Hd|exact Hl|]. intros w1 Hw1.
  apply runs_bind. eapply runs_mono; [by eapply sequence_run|]. intros s w2 [-> Hw2]. set (s := super_number _ _).
  pose proof (super_number_range NVRAM_JOURNAL_MAGIC (read_at D (info_size info - B) (writesize info))).
  destruct (place_run s w2 ltac:(unfold s; lia)) as (pages & o & E & Ho & Hr).
  apply runs_bind. unfold runs at 1, wp. rewrite E. rewrite not_nand. apply runs_bind, runs_ret. cbn [negb andb].
  assert (0 <= log_start info) by (unfold log_start; lia). assert (page_at (log_start info + o)) as Hp by (split; lia).
  apply runs_bind. eapply runs_mono; [by eapply write_entry_run|]. intros ok w3 (-> & j & _ & Hw3). cbn [negb].
  eapply runs_mono; [eapply inc_run; [exact Hw3| |by apply zlen_with_page]|]; [by rewrite files_put_file, decide_True|].
  intros ok w4 (-> & D' & Hs & Hw4). split; [done|]. exists D'. rewrite put_put_file in Hw4.
  split; [|exact Hw4]. etrans; [|exact Hs]. apply same_after_page; [done|lia|done].
Qed.

(** ** The misc log *)

Context (misc_device : g_MISC_DEVICE = dev) (misc_block : 2 <= nvram_misc_log_block_offset <= nvram_platform_log_block).

Lemma misc_page : page_at (misc_start info) /\ log_start info <= misc_start info /\ misc_start info <= info_size info - 2 * B.
Proof. pose proof page_pos. pose proof block_in_device as [? ?]. unfold page_at, misc_start, log_start.
  assert (2 * B <= nvram_misc_log_block_offset * B <= nvram_platform_log_block * B) by (split; apply Z.mul_le_mono_nonneg_r; lia). lia.
Qed.

Lemma misc_number_run v g L w D : ready v g L w -> files v !! dev = Some D -> zlen D = info_size info ->
  runs NVM_MiscGetSeqNum w (fun s w' =>
    s = super_number NVRAM_MISC_JOURNAL_MAGIC (read_at D (misc_start info) (writesize info)) /\ ready v g L w').
Proof.
  intros Hw Hd Hl. unfold NVM_MiscGetSeqNum. rewrite not_nand, layout0, misc_device. cbn [Z.eqb].
  apply runs_bind. eapply log_info_run; [exact Hw|exact Hd|exact Hl|]. intros w1 Hw1. by eapply read_super_run; [..|apply misc_page].
Qed.

Lemma misc_offset_run s w : 0 <= s -> exists o, misc_offset info s w = (w, Ok o) /\
  o = writesize info * (Z.rem s (B / writesize info) + 1) /\ 0 < o <= B.
Proof.
  intros Hs. pose proof page_pos. pose proof block_in_device as [? ?]. unfold misc_offset, pdiv, prem, mbind, prog_bind.
  destruct (Z.eqb_spec (writesize info) 0); [lia|]. unfold mret, prog_ret.
  assert (0 < B / writesize info) by (apply Z.div_str_pos; lia).
  assert (B / writesize info * writesize info <= B) by (rewrite Z.mul_comm; apply Z.mul_div_le; lia).
  set (pages := B / writesize info) in *. destruct (Z.eqb_spec pages 0); [lia|]. eexists. split; [done|]. split; [done|].
  pose proof (Z.rem_bound_pos s pages Hs ltac:(lia)). nia.
Qed.

(** The page of the entry and the super page. *)
Lemma misc_pages_run level func line log v g L w D :
  ready v g L w -> files v !! dev = Some D -> zlen D = info_size info ->
  let s := super_number NVRAM_MISC_JOURNAL_MAGIC (read_at D (misc_start info) (writesize info)) in
  let o := misc_start info + writesize info * (Z.rem s (B / writesize info) + 1) in
  page_at o /\ misc_start info < o /\
  runs (NVM_MiscLog level func line log) w (fun ok w' => ok = true /\ exists j tm, h_magic j = NVRAM_MISC_JOURNAL_MAGIC /\
    ready (put_file dev (with_page (misc_start info) (super_journal NVRAM_MISC_JOURNAL_MAGIC s tm) (with_page o j D)) v) g L w').
Proof.
  intros Hw Hd Hl s o. pose proof misc_page as (Hp1 & Hp2 & Hp3). pose proof Hp1 as [? _].
  pose proof (super_number_range NVRAM_MISC_JOURNAL_MAGIC (read_at D (misc_start info) (writesize info))) as Hs. fold s in Hs.
  destruct (misc_offset_run s w ltac:(lia)) as (o1 & _ & Eo & Ho). fold o in Eo.
  assert (o = misc_start info + o1) as Eoo by (unfold o; by rewrite Eo).
  assert (page_at o) as Hpo by (pose proof page_pos; split; lia). split; [done|]. split; [lia|].
  unfold NVM_MiscLog. rewrite not_nand, layout0, misc_device. cbn [Z.eqb].
  apply runs_bind. eapply log_info_run; [exact Hw|exact Hd|exact Hl|]. intros w1 Hw1.
  apply runs_bind. eapply runs_mono; [by eapply misc_number_run|]. intros s' w2 [-> Hw2]. fold s.
  destruct (misc_offset_run s w2 ltac:(lia)) as (o2 & E & Eo2 & _).
  apply runs_bind. unfold runs at 1, wp. rewrite E, Eo2. fold o.
  apply runs_bind. eapply runs_mono; [by eapply write_entry_run|]. intros ok w3 (-> & j & Hj & Hw3). cbn [negb].
  unfold NVM_MiscIncSeqNum. rewrite not_nand, layout0, misc_device. cbn [Z.eqb].
  assert (files (put_file dev (with_page o j D) v) !! dev = Some (with_page o j D)) as Hd3 by (by rewrite files_put_file, decide_True).
  assert (zlen (with_page o j D) = info_size info) as Hl3 by (by apply zlen_with_page).
  apply runs_bind. eapply log_info_run; [exact Hw3|exact Hd3|exact Hl3|]. intros w4 Hw4.
  eapply runs_mono; [by eapply write_super_run|]. intros ok w5 (-> & tm & Hw5). split; [done|]. exists j, tm.
  split; [done|]. by rewrite put_put_file in Hw5.
Qed.

Lemma logs_spare : SparingLog info.
Proof.
  constructor; [exact history_run|]. intros level func line log v g L w D Hw Hd Hl.
  destruct (misc_pages_run level func line log v g L w D Hw Hd Hl) as (Hp & Ho & Hr).
  pose proof misc_page as (Hp1 & Hp2 & Hp3).
  eapply runs_mono; [exact Hr|]. intros ok w1 (-> & j & tm & _ & Hw1). split; [done|]. eexists. split; [|exact Hw1].
  etrans; apply same_after_page; try done; [lia|by apply zlen_with_page].
Qed.

(** ** What the logs do to the device *)

(** Claim C28.  An entry of the history log, whatever the device holds, changes no
    byte before the blocks of the log, in which the backup is, nor the size of the
    device; it leaves no descriptor open. *)
Theorem log_confined level func line log v g L w D :
  ready v g L w -> files v !! dev = Some D -> zlen D = info_size info ->
  exists w' D', NVM_HistoryLog level func line log w = (w', Ok true) /\ same_before_log info D D' /\
    ready (put_file dev D' v) g L w'.
Proof.
  intros Hw Hd Hl. destruct (runs_result _ _ _ (history_run level func line log v g L w D Hw Hd Hl)) as (w' & ok & E & -> & D' & V1 & V2).
  by exists w', D'.
Qed.

Lemma page_magic j : take 4 (zero_padded (writesize info) (journal_bytes j)) = le32 (h_magic j).
Proof.
  unfold journal_bytes, zero_padded. rewrite <- !(assoc_L app). apply take_app_length'. by rewrite length_le32.
Qed.

(** Claim C35.  With the super page of the misc log in the block before the last, the
    entry whose number is the last of its block goes over the super page of the
    history log: the history log starts again at number 0. *)
Theorem misc_resets_history level func line log v g L w D : nvram_misc_log_block_offset = 2 -> B mod writesize info = 0 ->
  ready v g L w -> files v !! dev = Some D -> zlen D = info_size info ->
  let s := super_number NVRAM_MISC_JOURNAL_MAGIC (read_at D (misc_start info) (writesize info)) in
  Z.rem s (B / writesize info) = B / writesize info - 1 ->
  exists w1 w2, NVM_MiscLog level func line log w = (w1, Ok true) /\ NVM_GetSequenceNum w1 = (w2, Ok 0).
Proof.
  intros Htwo Hmod Hw Hd Hl s Hs. destruct (misc_pages_run level func line log v g L w D Hw Hd Hl) as (Hp & Ho & Hr).
  pose proof page_pos. pose proof block_in_device as [? ?]. pose proof misc_page as (Hp1 & _ & Hp3). fold s in Hp, Ho, Hr.
  assert (writesize info * (B / writesize info) = B) as EB by (pose proof (Z.div_mod B (writesize info)); lia).
  assert (misc_start info + writesize info * (Z.rem s (B / writesize info) + 1) = info_size info - B) as Eo.
  { rewrite Hs. replace (B / writesize info - 1 + 1) with (B / writesize info) by lia. rewrite EB. unfold misc_start. lia. }
  rewrite Eo in *. destruct (runs_result _ _ _ Hr) as (w1 & ok & E & -> & j & tm & Hj & Hw1). exists w1.
  set (D1 := with_page (info_size info - B) j D) in *. assert (zlen D1 = info_size info) as L1 by (by apply zlen_with_page).
  destruct (runs_result _ _ _ (sequence_run _ _ _ _ _ Hw1 ltac:(by rewrite files_put_file, decide_True) (zlen_with_page _ _ _ L1 Hp1)))
    as (w2 & r & E2 & -> & _). exists w2. split; [done|]. rewrite E2. f_equal. f_equal.
  destruct Hp1 as [? ?]. unfold with_page at 1. rewrite read_after by (rewrite ?zlen_page; lia).
  unfold D1, with_page. destruct Hp as [? ?]. rewrite read_written_start by (rewrite ?zlen_page; lia).
  rewrite <- (zlen_page j) at 2. rewrite read_whole. unfold super_number. by rewrite page_magic, Hj.
Qed.
End Log.
