(* ===== verification/NvRegion.v ===== *)
(** * libnvram: the backup partition

    [FileOp_BackupToBinRegion_All] makes an archive and copies it to the backup
    device, block by block, past blocks that are bad:

    - the map, with the two sizes in front, in the first good block (or, when it
      does not fit, in two);
    - the bitmap of bad blocks, three times, in the last good block, with a copy
      of the map behind it;
    - the contents in the good blocks after the map.

    [FileOp_RestoreFromBinRegion] searches for the bitmap from the end, copies the
    two files back and restores the archive; [FileOp_RestoreFromBinRegion_ToFile]
    copies them beside the archive, to check what was written.

    The code under [MTK_NVRAM_AUTO_BACKUP], which no makefile of the tree defines,
    is left out.  The bitmap is the contents of the allocation behind the static
    pointer [bBadBlockBitMap], passed along here; the pointer is kept in the
    globals, for it is freed by whoever comes last. *)
From S2P Require Import Prelude Posix NvTypes NvFiles NvArchive NvJournal NvVersion.

(** The switches and the list of CFG_file_info.c. *)
Class NvLib := {
  nvram_misc_log_feature : bool;
  nvram_check_exist_feature : bool;
  nvram_read_back_feature : bool;
  nvram_check_exist_block_offset : Z;
  aCheckExistList : list (list Z * Z)
}.

Definition BitmapFlag : Z := 0xAABBCCDD.
Definition CHECK_FILE_EXIST_NUMBER : Z := 10.
Definition CHECK_FILE_EXIST_MARK : Z := 0x54535845.
Definition MAX_RETRY_COUNT : nat := 30.

(** ** Searching a bitmap

    The bitmap has a 0 for a good block. *)

Definition is_good (bm : list Z) (i : Z) : bool := nth (Z.to_nat i) bm 0 =? 0.

(** The index at which [for (i = ...; n times; i++) if (good) break;] ends. *)
Fixpoint good_from (bm : list Z) (n : nat) (i : Z) : Z :=
  match n with
  | O => i
  | S n' => if is_good bm i then i else good_from bm n' (i + 1)
  end.

(** The loop from [i] to [limit]. *)
Definition first_good (bm : list Z) (i limit : Z) : Z := good_from bm (Z.to_nat (limit - i)) i.

(** The same, downwards. *)
Fixpoint good_down (bm : list Z) (n : nat) (j : Z) : Z :=
  match n with
  | O => j
  | S n' => if is_good bm j then j else good_down bm n' (j - 1)
  end.

Definition last_good (bm : list Z) (j limit : Z) : Z := good_down bm (Z.to_nat (j - limit)) j.

(** The number of good blocks from [i] to [limit]. *)
Definition count_good (bm : list Z) (i limit : Z) : Z :=
  zlen (filter (fun k => is_good bm k = true) ((fun k => i + Z.of_nat k) <$> seq 0 (Z.to_nat (limit - i)))).

(** What a read of [data] leaves in a buffer. *)
Definition overlay (data buf : list Z) : list Z := data ++ drop (length data) buf.

Section Region.
Context `{OS} `{NvPlatform} `{!NvDevice} `{!NvTables} `{!NvLib} (junk : Z -> list Z) (fuel : nat).
Abbreviation P := (prog nvram).

(** ** The geometry *)

(** [BinRegionBlockTotalNum] and [NvRamBlockNum] from the geometry. *)
Definition region_blocks (info : mtd_info) : P bool :=
  n ← pdiv (info_size info) (erasesize info);
  let set (total : Z) := pmod (set_block_nums total (total - nvram_platform_DM_block));; mret true in
  if nvram_platform_layout_version =? 0 then set (i32 (n - nvram_platform_log_block - nvram_platform_resv_block))
  else if nvram_platform_layout_version =? 1 then set (i32 n)
  else mret false.

(** The size of the map in the device: with the two sizes and the clean boot flag
    in front, in whole pages. *)
Definition map_room (info : mtd_info) (iMapFileSize : Z) : P Z :=
  let size := u32 (iMapFileSize + 3 * 4) in
  pages ← pdiv size (writesize info);
  mret (if size mod writesize info =? 0 then size else u32 ((pages + 1) * writesize info)).

(** The size of the contents in whole blocks. *)
Definition whole_blocks (B iDatFileSize : Z) : P Z :=
  blocks ← pdiv iDatFileSize B;
  mret (if iDatFileSize mod B =? 0 then iDatFileSize else u32 ((blocks + 1) * B)).

(** The blocks are erased, which tells the bad ones; a block of an eMMC or UFS is
    neither.  [None] is the result [false]. *)
Fixpoint erase_blocks (info : mtd_info) (n : nat) (i : Z) : P (list Z) :=
  match n with
  | O => mret []
  | S n' =>
      b ← (if is_nand then
             ok ← NVM_EraseDeviceBlock g_NVRAM_BACKUP_DEVICE (u32 (i * erasesize info)) (erasesize info);
             mret (if ok : bool then 0 else 1)
           else mret 0);
      bm ← erase_blocks info n' (i + 1);
      mret (b :: bm)
  end.

Definition FileOp_CreateBinRegionBadBlockBitMap : P (option (list Z)) :=
  i ← NVM_GetDeviceInfo g_NVRAM_BACKUP_DEVICE;
  match i with
  | None => mret None
  | Some info =>
      fdo ← psys (Sys_open g_NVRAM_BACKUP_DEVICE O_RDWR 0);
      let fd := rv fdo in
      if fd <? 0 then mret None
      else
        _ ← pdiv (i32 (info_size info)) (i32 (erasesize info));
        let total := i32 (Z.quot (i32 (info_size info)) (i32 (erasesize info)) -
                          nvram_platform_log_block - nvram_platform_resv_block) in
        pmod (fun g => set_block_nums total (NvRamBlockNum g) g);;
        ok ← region_blocks info;
        if negb ok then quit [] [fd] None
        else
          g ← pget;
          p ← pmalloc (u32 (NvRamBlockNum g));
          pmod (set_bBadBlockBitMap p);;
          if p =? 0 then quit [] [fd] None
          else
            bm ← erase_blocks info (Z.to_nat (NvRamBlockNum g)) 0;
            quit [] [fd] (Some bm)
  end.

(** ** Before a backup *)

Fixpoint ready_tries (n : nat) : P bool :=
  match n with
  | O => mret false
  | S n' =>
      '(_, val) ← psys (Sys_property_get (lit "vendor.service.nvram_init"));
      let val := cstring val in
      if streq val (lit "Ready") || streq val (lit "Pre_Ready") then
        mret (match n' with O => false | _ => true end)
      else
        _ ← psys (Sys_usleep 500000);
        ready_tries n'
  end.

(** Whether it is ready before the last try. *)
Definition checkNvramReady : P bool := ready_tries MAX_RETRY_COUNT.

(** The names of a directory, each with its NUL. *)
Fixpoint list_names (n : nat) (dir filelistfd pos : Z) : P bool :=
  match n with
  | O => phalt NoFuel
  | S n' =>
      entry ← psys (Sys_readdir dir);
      match entry with
      | None => mret true
      | Some d_name =>
          if streq d_name (lit ".") || streq d_name (lit "..") then list_names n' dir filelistfd pos
          else
            r ← psys (Sys_write filelistfd (d_name ++ [0]));
            if negb (rv r =? zlen d_name + 1) then mret false
            else
              let pos := pos + zlen d_name + 1 in
              r ← psys (Sys_lseek filelistfd pos SEEK_SET);
              if negb (rv r =? pos) then mret false else list_names n' dir filelistfd pos
      end
  end.

(** FILELIST in the directory itself; the descriptor is not checked. *)
Definition FileOp_CreatMdFileList (SrcDirName : list Z) : P bool :=
  dir ← psys (Sys_opendir SrcDirName);
  if rv dir =? 0 then mret false
  else
    let path := SrcDirName ++ lit "/FILELIST" in
    fdo ← psys (Sys_open path (Z.lor (Z.lor O_TRUNC O_CREAT) O_WRONLY) S_IRW_UG);
    ok ← list_names fuel (rv dir) (rv fdo) 0;
    pwhen ok (_ ← psys (Sys_chmod path 420); mret tt);;
    _ ← psys (Sys_close (rv fdo));
    _ ← psys (Sys_closedir (rv dir));
    mret ok.

(** The directories of the modem that get a list. *)
Definition listed_dirs : list (list Z) :=
  [lit "/mnt/vendor/nvdata/md/NVRAM/CALIBRAT"; lit "/mnt/vendor/nvdata/md/NVRAM/BACKUP";
   lit "/mnt/vendor/nvdata/md/NVRAM/INFO_FILE"; lit "/mnt/vendor/nvdata/md/NVRAM/NVD_CORE";
   lit "/mnt/vendor/nvdata/md/NVRAM/NVD_DATA"; lit "/mnt/vendor/nvdata/md/NVRAM/NVD_IMEI"].

Fixpoint create_lists (ds : list (list Z)) : P unit :=
  match ds with
  | [] => mret tt
  | d :: ds' => _ ← FileOp_CreatMdFileList d; create_lists ds'
  end.

(** The marks of the files that are there: a bit for each index of the list. *)
Fixpoint exist_marks (l : list (list Z * Z)) (marks : list Z) : P (list Z) :=
  match l with
  | [] => mret marks
  | (cCheckFileName, index) :: l' =>
      '(r, _) ← psys (Sys_stat cCheckFileName);
      let word := Z.to_nat (Z.quot index 32 + 1) in
      old ← popt OutOfBounds (marks !! word);
      let bit := Z.shiftl 1 (Z.rem index 32) in
      exist_marks l' (<[word := if rv r =? 0 then Z.lor old bit else Z.land old (Z.lxor (2 ^ 32 - 1) bit)]> marks)
  end.

Definition FileOp_CheckFileExist : P bool :=
  if nvram_platform_layout_version =? 1 then mret false
  else
    match aCheckExistList with
    | [] => mret true
    | _ =>
        gFileExistMark ← exist_marks aCheckExistList (CHECK_FILE_EXIST_MARK :: replicate 9 0);
        fdo ← psys (Sys_open g_NVRAM_BACKUP_DEVICE O_RDWR 0);
        let fd := rv fdo in
        if fd <? 0 then mret false
        else
          i ← NVM_GetDeviceInfo g_NVRAM_BACKUP_DEVICE;
          match i with
          | None => quit [] [fd] false
          | Some info =>
              let start_address := info_size info -
                (nvram_platform_log_block + nvram_check_exist_block_offset) * erasesize info in
              erased ← (if is_nand then NVM_EraseDeviceBlock g_NVRAM_BACKUP_DEVICE (u32 start_address) (erasesize info)
                        else mret true);
              if negb erased then quit [] [fd] false
              else
                r ← psys (Sys_lseek fd start_address SEEK_SET);
                if i32 (rv r) <? 0 then quit [] [fd] false
                else
                  r ← psys (Sys_write fd (concat (le32 <$> gFileExistMark)));
                  quit [] [fd] (rv r =? CHECK_FILE_EXIST_NUMBER * 4)
          end
    end.

(** ** Writing *)

(** The size of the map as it is in the device at [off]. *)
Definition check_map (fd off iMapFileSize : Z) : P bool :=
  r ← psys (Sys_lseek fd off SEEK_SET);
  if rv r <? 0 then mret false
  else
    r ← psys (Sys_read fd 4);
    let i := i32 (de32 (overlay (rres_data r) (le32 0))) in
    mret (negb (rres_rv r <? 0) && (i =? i32 iMapFileSize)).

(** The map in one block or in two: the last block used. *)
Definition write_map (fd : Z) (bm : list Z) (B iMapFileSize : Z) (tempBuffer : list Z) : P (option Z) :=
  g ← pget;
  let N := NvRamBlockNum g in
  let pos := first_good bm 0 N in
  if pos =? N then mret None
  else
    r ← psys (Sys_lseek fd (u32 (pos * B)) SEEK_SET);
    if rv r <? 0 then mret None
    else if B <? zlen tempBuffer then
      r ← psys (Sys_write fd (take (Z.to_nat B) tempBuffer));
      if negb (rv r =? i32 B) then mret None
      else
        let m := first_good bm (pos + 1) N in
        if N <=? m then mret None
        else
          r ← psys (Sys_lseek fd (u32 (m * B)) SEEK_SET);
          if rv r <? 0 then mret None
          else
            let rest := drop (Z.to_nat B) tempBuffer in
            r ← psys (Sys_write fd rest);
            if negb (rv r =? i32 (zlen rest)) then mret None
            else
              ok ← check_map fd (u32 ((m - 1) * B)) iMapFileSize;
              mret (if ok : bool then Some m else None)
    else
      r ← psys (Sys_write fd tempBuffer);
      if negb (rv r =? i32 (zlen tempBuffer)) then mret None
      else
        ok ← check_map fd (u32 (pos * B)) iMapFileSize;
        mret (if ok : bool then Some pos else None).

(** The three bitmaps, the flag and, if there is room, the map. *)
Definition bitmap_blocks (bm : list Z) (size : Z) (tempBuffer : list Z) : option (list Z) :=
  let N := zlen bm in
  b0 ← mwrite (replicate (Z.to_nat size) 255) 0 bm;
  b1 ← mwrite b0 N bm;
  b2 ← mwrite b1 (2 * N) bm;
  b3 ← mwrite b2 (3 * N) (le32 BitmapFlag);
  if 3 * N + 4 + zlen tempBuffer <? size then mwrite b3 (3 * N + 4) tempBuffer else Some b3.

(** The first two bitmaps are read back. *)
Definition check_bitmap (fd off N : Z) : P bool :=
  tempBitmap1 ← pmalloc (u32 N);
  if tempBitmap1 =? 0 then mret false
  else
    tempBitmap2 ← pmalloc (u32 N);
    if tempBitmap2 =? 0 then quit [tempBitmap1] [] false
    else
      let bufs := [tempBitmap1; tempBitmap2] in
      r ← psys (Sys_lseek fd off SEEK_SET);
      if rv r <? 0 then quit bufs [] false
      else
        r1 ← psys (Sys_read fd N);
        if negb (u32 (rres_rv r1) =? N) then quit bufs [] false
        else
          r2 ← psys (Sys_read fd N);
          if negb (u32 (rres_rv r2) =? N) then quit bufs [] false
          else quit bufs [] (bool_decide (rres_data r1 = rres_data r2)).

(** The bitmap in the last good block: which one. *)
Definition write_bitmap (fd : Z) (bm : list Z) (B pos : Z) (tempBuffer : list Z) : P (option Z) :=
  g ← pget;
  let N := NvRamBlockNum g in
  let j := last_good bm (N - 1) pos in
  if j =? pos then mret None
  else
    let iReservePos := if B <? zlen tempBuffer then 1 else 0 in
    let size := u32 (B * (iReservePos + 1)) in
    BitMapBuffer ← pmalloc size;
    if BitMapBuffer =? 0 then mret None
    else
      bytes ← popt OutOfBounds (bitmap_blocks bm size tempBuffer);
      let off := u32 ((j - iReservePos) * B) in
      r ← psys (Sys_lseek fd off SEEK_SET);
      if rv r <? 0 then quit [BitMapBuffer] [] None
      else
        r ← psys (Sys_write fd bytes);
        if negb (rv r =? i32 B * (iReservePos + 1)) then quit [BitMapBuffer] [] None
        else
          ok ← check_bitmap fd off N;
          quit [BitMapBuffer] [] (if ok : bool then Some j else None).

(** Blocks of the contents, from the [i]th on, the first of them to block [pos]. *)
Fixpoint write_blocks (fd : Z) (bm : list Z) (B bitmappos : Z) (tempBuffer : list Z) (n : nat) (i pos : Z) : P bool :=
  match n with
  | O => mret true
  | S n' =>
      r ← psys (Sys_lseek fd (u32 (pos * B)) SEEK_SET);
      if negb (i32 (rv r) =? i32 (u32 (pos * B))) then mret false
      else
        block ← popt OutOfBounds (mread tempBuffer (i * B) B);
        r ← psys (Sys_write fd block);
        if negb (rv r =? i32 B) then mret false
        else
          match n' with
          | O => mret true
          | S _ =>
              let j := first_good bm (pos + 1) bitmappos in
              if bitmappos <=? j then mret false
              else write_blocks fd bm B bitmappos tempBuffer n' (i + 1) j
          end
  end.

(** The contents in the good blocks between the map and the bitmap, padded to
    whole blocks. *)
Definition write_data (fd file : Z) (bm : list Z) (B pos j iDatFileSize : Z) : P bool :=
  iMemSize ← whole_blocks B iDatFileSize;
  tempBuffer ← pmalloc iMemSize;
  if tempBuffer =? 0 then mret false
  else
    r ← psys (Sys_read file iDatFileSize);
    if negb (rres_rv r =? i32 iDatFileSize) then quit [tempBuffer] [] false
    else
      let bytes := overlay (rres_data r) (replicate (Z.to_nat iMemSize) 255) in
      let i := first_good bm (pos + 1) j in
      if i =? j then quit [tempBuffer] [] false
      else if u32 (count_good bm i j * B) <? iMemSize then quit [tempBuffer] [] false
      else
        ok ← write_blocks fd bm B j bytes (Z.to_nat (iMemSize / B)) 0 i;
        quit [tempBuffer] [] ok.

(** The two files to the device. *)
Definition write_region (fd file map : Z) (info : mtd_info) (bm : list Z) (iMapFileSize iDatFileSize : Z) : P bool :=
  let B := erasesize info in
  iMemSize ← map_room info iMapFileSize;
  if u32 (2 * B) <? iMemSize then mret false
  else
    tempBuffer ← pmalloc iMemSize;
    if tempBuffer =? 0 then mret false
    else
      r ← psys (Sys_read map iMapFileSize);
      if negb (rres_rv r =? i32 iMapFileSize) then quit [tempBuffer] [] false
      else
        bytes ← popt OutOfBounds
          (mwrite (replicate (Z.to_nat iMemSize) 255) 0
            (le32 iMapFileSize ++ le32 iDatFileSize ++ le32 (-1) ++ rres_data r));
        pos ← write_map fd bm B iMapFileSize bytes;
        match pos with
        | None => quit [tempBuffer] [] false
        | Some pos =>
            j ← write_bitmap fd bm B pos bytes;
            pfree tempBuffer;;
            match j with
            | None => mret false
            | Some j => write_data fd file bm B pos j iDatFileSize
            end
        end.

(** The archive, made already, to the device. *)
Definition copy_archive (iMapFileSize iDatFileSize : Z) : P bool :=
  b ← FileOp_CreateBinRegionBadBlockBitMap;
  match b with
  | None => mret false
  | Some bm =>
      pwhen nvram_check_exist_feature (_ ← FileOp_CheckFileExist; mret tt);;
      g ← pget;
      let bitmap := bBadBlockBitMap g in
      i ← NVM_GetDeviceInfo g_NVRAM_BACKUP_DEVICE;
      match i with
      | None => quit [bitmap] [] false
      | Some info =>
          fdo ← psys (Sys_open g_NVRAM_BACKUP_DEVICE O_RDWR 0);
          let fd := rv fdo in
          if fd <? 0 then quit [bitmap] [] false
          else
            fileo ← psys (Sys_open g_pcNVM_AllFile O_RDWR 0);
            mapo ← psys (Sys_open g_pcNVM_AllMap O_RDWR 0);
            let file := rv fileo in
            let map := rv mapo in
            if file =? INVALID_HANDLE_VALUE then close_if map;; quit [bitmap] [fd] false
            else if map =? INVALID_HANDLE_VALUE then quit [bitmap] [file; fd] false
            else
              ok ← write_region fd file map info bm iMapFileSize iDatFileSize;
              quit [bitmap] [fd; file; map] ok
      end
  end.
(** [FileOp_BackupToBinRegion_All] up to the archive. *)
Definition prepare_backup : P bool :=
  _ ← checkNvramReady;
  create_lists listed_dirs;;
  n ← NVM_Init_again;
  if n <? 0 then mret false
  else
    ok ← NVM_GenerateFileVer true;
    if negb ok then mret false
    else
      ok ← NVM_HistoryLog 1 (lit "FileOp_BackupToBinRegion_All") 1639 (lit "Enter BackupToBinRegion_all");
      if negb ok then mret false
      else
        pwhen nvram_misc_log_feature
          (_ ← NVM_MiscLog 1 (lit "FileOp_BackupToBinRegion_All") 1646 (lit "Enter BackupToBinRegion_all"); mret tt);;
        mret true.

(** ** Reading

    [checked]: [FileOp_RestoreFromBinRegion] looks at the results of the seeks and of
    the first read and at the two sizes, [FileOp_RestoreFromBinRegion_ToFile] does
    not. *)

Section Reading.
Context (checked : bool).

Definition seek_block (fd off : Z) : P bool :=
  r ← psys (Sys_lseek fd off SEEK_SET);
  mret (negb checked || negb (rv r <? 0)).

Definition sizes_ok (iMapFileSize iDatFileSize : Z) : bool :=
  let bad n := (n =? 0) || (n =? 0xFFFFFFFF) in
  negb checked || negb (bad iMapFileSize) && negb (bad iDatFileSize).

(** The size of the map, from the first block of the device. *)
Definition first_size (fd B : Z) : P (option Z) :=
  ok ← seek_block fd 0;
  if negb ok then mret None
  else
    r ← psys (Sys_read fd B);
    if checked && negb (u32 (rres_rv r) =? B) then mret None
    else
      let buf := overlay (rres_data r) (junk B) in
      iMapFileSize ← popt OutOfBounds (mread32 buf 0);
      iDatFileSize ← popt OutOfBounds (mread32 buf 4);
      mret (if sizes_ok iMapFileSize iDatFileSize then Some iMapFileSize else None).

(** Three equal bitmaps and the flag at the start of a buffer. *)
Definition bitmap_in (N : Z) (buf : list Z) : P (option (list Z)) :=
  b1 ← popt OutOfBounds (mread buf 0 N);
  b2 ← popt OutOfBounds (mread buf N N);
  if negb (bool_decide (b1 = b2)) then mret None
  else
    b3 ← popt OutOfBounds (mread buf (2 * N) N);
    if negb (bool_decide (b1 = b3)) then mret None
    else
      iBitmapFlag ← popt OutOfBounds (mread32 buf (3 * N));
      mret (if iBitmapFlag =? BitmapFlag then Some b1 else None).

(** The search for the bitmap, from block [n - 1] down: the block, the bitmap and
    the buffer. *)
Fixpoint find_bitmap (fd B iReservePos : Z) (n : nat) (buf : list Z) : P (option (Z * list Z * list Z)) :=
  match n with
  | O => mret None
  | S n' =>
      let iBlockNum := Z.of_nat n' in
      g ← pget;
      ok ← seek_block fd (u32 ((iBlockNum - iReservePos) * B));
      if negb ok then mret None
      else
        r ← psys (Sys_read fd B);
        if rres_rv r <=? 0 then mret None
        else
          let buf := overlay (rres_data r) buf in
          b ← bitmap_in (NvRamBlockNum g) buf;
          match b with
          | Some bm => mret (Some (iBlockNum, bm, buf))
          | None => find_bitmap fd B iReservePos n' buf
          end
  end.

(** Blocks of the contents: the buffer, or [None]. *)
Fixpoint read_blocks (fd : Z) (bm : list Z) (B iBlockNum : Z) (n : nat) (pos : Z) (done : list Z) : P (option (list Z)) :=
  match n with
  | O => mret (Some done)
  | S n' =>
      r ← psys (Sys_lseek fd (u32 (pos * B)) SEEK_SET);
      if negb (i32 (rv r) =? i32 (u32 (pos * B))) then mret None
      else
        r ← psys (Sys_read fd B);
        if negb (rres_rv r =? i32 B) then mret None
        else
          let done := done ++ rres_data r in
          match n' with
          | O => mret (Some done)
          | S _ =>
              let j := first_good bm (pos + 1) iBlockNum in
              if iBlockNum <=? j then mret None
              else read_blocks fd bm B iBlockNum n' j done
          end
  end.

(** The contents from the good blocks from [start] on, to [file]. *)
Definition read_data (fd file : Z) (bm : list Z) (B start iBlockNum iDatFileSize : Z) : P bool :=
  iMemSize ← whole_blocks B iDatFileSize;
  tempBuffer ← pmalloc iMemSize;
  if tempBuffer =? 0 then mret false
  else
    let i := first_good bm start iBlockNum in
    if i =? iBlockNum then quit [tempBuffer] [] false
    else if u32 (count_good bm i iBlockNum * B) <? iDatFileSize then quit [tempBuffer] [] false
    else
      bytes ← read_blocks fd bm B iBlockNum (Z.to_nat (iMemSize / B)) i [];
      match bytes with
      | None => quit [tempBuffer] [] false
      | Some bytes =>
          bs ← popt OutOfBounds (mread bytes 0 iDatFileSize);
          r ← psys (Sys_write file bs);
          quit [tempBuffer] [] (rv r =? i32 iDatFileSize)
      end.

(** The map in [buf] and the contents on the device, to two files. *)
Definition write_files (fd : Z) (file_path map_path : list Z) (bm : list Z) (B pos iReservePos iBlockNum : Z)
    (iMapFileSize iDatFileSize tempBuffer : Z) (buf : list Z) : P bool :=
  fileo ← psys (Sys_open file_path (Z.lor (Z.lor O_TRUNC O_CREAT) O_RDWR) S_IRW_UG);
  mapo ← psys (Sys_open map_path (Z.lor (Z.lor O_TRUNC O_CREAT) O_RDWR) S_IRW_UG);
  let file := rv fileo in
  let map := rv mapo in
  if file =? INVALID_HANDLE_VALUE then close_if map;; quit [tempBuffer] [fd] false
  else if map =? INVALID_HANDLE_VALUE then quit [tempBuffer] [file; fd] false
  else
    bs ← popt OutOfBounds (mread buf (3 * 4) iMapFileSize);
    r ← psys (Sys_write map bs);
    if negb (rv r =? i32 iMapFileSize) then quit [tempBuffer] [fd; file; map] false
    else
      pfree tempBuffer;;
      ok ← read_data fd file bm B (pos + 1 + iReservePos) iBlockNum iDatFileSize;
      quit [] [fd; file; map] ok.

(** With the bitmap found: the map is in the first good block. *)
Definition read_files (fd : Z) (file_path map_path : list Z) (B iReservePos tempBuffer : Z)
    (found : Z * list Z * list Z) : P bool :=
  let '(iBlockNum, bm, buf) := found in
  let pos := first_good bm 0 iBlockNum in
  if pos =? iBlockNum then quit [tempBuffer] [fd] false
  else
    ok ← seek_block fd (u32 (pos * B));
    if negb ok then quit [tempBuffer] [fd] false
    else
      r ← psys (Sys_read fd (u32 (B * (iReservePos + 1))));
      if rres_rv r <=? 0 then quit [tempBuffer] [fd] false
      else
        let buf := overlay (rres_data r) buf in
        iMapFileSize ← popt OutOfBounds (mread32 buf 0);
        iDatFileSize ← popt OutOfBounds (mread32 buf 4);
        _ ← popt OutOfBounds (mread buf (3 * 4 + iMapFileSize) 4);        (* iAPBackupFileNum *)
        _ ← popt OutOfBounds (mread buf (3 * 4 + iMapFileSize + 4) 2);    (* iMDBackupFileNum *)
        if negb (sizes_ok iMapFileSize iDatFileSize) then quit [tempBuffer] [fd] false
        else write_files fd file_path map_path bm B pos iReservePos iBlockNum iMapFileSize iDatFileSize tempBuffer buf.

(** The search and the copy, with the buffers they need. *)
Definition search_region (fd : Z) (file_path map_path : list Z) (info : mtd_info) (iMapFileSize : Z) : P bool :=
  let B := erasesize info in
  iMemSize ← map_room info iMapFileSize;
  let iReservePos := if B <? iMemSize then 1 else 0 in
  let size := u32 (B * (iReservePos + 1)) in
  tempBuffer ← pmalloc size;
  if tempBuffer =? 0 then quit [] [fd] false
  else
    g ← pget;
    let N := NvRamBlockNum g in
    tempBitmap1 ← pmalloc (u32 N);
    if tempBitmap1 =? 0 then quit [tempBuffer] [fd] false
    else
      tempBitmap2 ← pmalloc (u32 N);
      if tempBitmap2 =? 0 then quit [tempBuffer; tempBitmap1] [fd] false
      else
        f ← find_bitmap fd B iReservePos (Z.to_nat N) (junk size);
        ok ← match f with
             | None => quit [tempBuffer] [fd] false
             | Some found => read_files fd file_path map_path B iReservePos tempBuffer found
             end;
        quit [tempBitmap1; tempBitmap2] [] ok.

(** The archive on the device, to two files. *)
Definition read_region (file_path map_path : list Z) : P bool :=
  i ← NVM_GetDeviceInfo g_NVRAM_BACKUP_DEVICE;
  match i with
  | None => mret false
  | Some info =>
      fdo ← psys (Sys_open g_NVRAM_BACKUP_DEVICE O_RDWR 0);
      let fd := rv fdo in
      if fd <? 0 then mret false
      else
        ok ← region_blocks info;
        if negb ok then quit [] [fd] false
        else
          tempBuffer ← pmalloc (erasesize info);
          if tempBuffer =? 0 then quit [] [fd] false
          else
            s ← first_size fd (erasesize info);
            pfree tempBuffer;;
            match s with
            | None => quit [] [fd] false
            | Some iMapFileSize => search_region fd file_path map_path info iMapFileSize
            end
  end.
End Reading.

(** ** The operations *)

Definition FileOp_RestoreFromBinRegion_ToFile : P bool :=
  n ← NVM_Init_again;
  if n <? 0 then mret false else read_region false g_pcNVM_AllFile_Check g_pcNVM_AllMap_Check.

Definition FileOp_RestoreFromBinRegion (bCleanBoot : bool) : P bool :=
  n ← NVM_Init_again;
  if n <? 0 then mret false
  else
    ok ← read_region true g_pcNVM_AllFile g_pcNVM_AllMap;
    if negb ok then mret false
    else if bCleanBoot then FileOp_RestoreData_All
    else
      _ ← FileOp_RestoreFromFiles (kind_value APBOOT);
      _ ← FileOp_RestoreFromFiles (kind_value MDBOOT);
      FileOp_RestoreFromFiles (kind_value MD2BOOT).

(** The archive beside, compared with the checksum of the archive. *)
Definition FileOp_CheckBackUpResult : P bool :=
  ok ← FileOp_GetCheckSum;
  if negb ok then mret false
  else
    g ← pget;
    let ulSavedCheckSum := ulCheckSum (stBackupFileInfo g) in
    ulCheckSum ← FileOp_ComputeReadBackCheckSum;
    '(r, st) ← psys (Sys_stat g_pcNVM_AllFile_Check);
    if rv r <? 0 then mret false
    else mret (FileOp_CompareCheckSum ulSavedCheckSum (Z.lxor ulCheckSum (u32 (st_size st)))).

(** After the archive is on the device. *)
Definition finish_backup : P bool :=
  _ ← psys (Sys_chown g_pcNVM_AllFile (-1) AID_SYSTEM);
  _ ← psys (Sys_chown g_pcNVM_AllMap (-1) AID_SYSTEM);
  ok ← NVM_HistoryLog 1 (lit "FileOp_BackupToBinRegion_All") 2225 (lit "Leave BackupToBinRegion_all" ++ [10]);
  if negb ok then mret false
  else
    pwhen nvram_misc_log_feature
      (_ ← NVM_MiscLog 1 (lit "FileOp_BackupToBinRegion_All") 2232 (lit "Leave BackupToBinRegion_all"); mret tt);;
    _ ← psys Sys_sync;
    if nvram_read_back_feature then
      ok ← FileOp_RestoreFromBinRegion_ToFile;
      if negb ok then mret false else FileOp_CheckBackUpResult
    else mret true.

Definition FileOp_BackupToBinRegion_All : P bool :=
  ok ← prepare_backup;
  if negb ok then mret false
  else
    ok ← FileOp_BackupDataToFiles junk fuel (Some default_mask) true;
    if negb ok then mret false
    else
      '(r, st) ← psys (Sys_stat g_pcNVM_AllMap);
      if rv r <? 0 then mret false
      else
        let iMapFileSize := u32 (st_size st) in
        '(r, st) ← psys (Sys_stat g_pcNVM_AllFile);
        if rv r <? 0 then mret false
        else
          ok ← copy_archive iMapFileSize (u32 (st_size st));
          if negb ok then mret false else finish_backup.

(** Whether the device has the checksum of the files as they are.  The bitmap that
    is freed is that of an earlier backup. *)
Definition FileOp_IsSyncWithBinRegion : P bool :=
  n ← NVM_Init_again;
  if n <? 0 then mret false
  else
    ok ← FileOp_BackupDataToFiles junk fuel (Some default_mask) true;
    if negb ok then mret false
    else
      '(r, _) ← psys (Sys_stat g_pcNVM_AllMap);
      if rv r <? 0 then mret false
      else
        '(r, _) ← psys (Sys_stat g_pcNVM_AllFile);
        if rv r <? 0 then mret false
        else
          fdo ← psys (Sys_open g_NVRAM_BACKUP_DEVICE O_RDWR 0);
          let fd := rv fdo in
          if fd <? 0 then g ← pget; pfree (bBadBlockBitMap g);; mret false
          else
            ok ← FileOp_GetCheckSum;
            if negb ok then quit [] [fd] false
            else
              r ← psys (Sys_lseek fd (3 * 4) SEEK_SET);
              if rv r <? 0 then quit [] [fd] false
              else
                r ← psys (Sys_read fd 4);
                if negb (rres_rv r =? 4) then quit [] [fd] false
                else
                  g ← pget;
                  quit [] [fd] (ulCheckSum (stBackupFileInfo g) =? de32 (rres_data r)).
End Region.
