(* ===== verification/NvCopy.v ===== *)
(** * libnvram: the archive on the backup device

    [holds_archive] says where the two files of an archive are on a device without
    bad blocks; [copy_archive] puts them there ([copy_archive_run]), in the blocks of
    the region only.  The layout ([region_layout]) is that of eMMC and UFS, whose
    blocks are never bad; the sizes have to fit ([fits]), for the code does not
    check all that it relies on. *)
From S2P Require Import Prelude Posix MemFs FileStore NvTypes NvFiles NvArchive NvSum NvMake NvJournal NvVersion NvLog NvRegion.

(** ** Bitmaps without bad blocks *)

Definition all_good (n : Z) : list Z := replicate (Z.to_nat n) 0.

Lemma zlen_all_good n : 0 <= n -> zlen (all_good n) = n.
Proof. intros. unfold all_good, zlen. rewrite length_replicate. lia. Qed.

Lemma all_good_block n i : is_good (all_good n) i = true.
Proof.
  unfold is_good, all_good. generalize (Z.to_nat i). intros k. apply Z.eqb_eq. revert k.
  induction (Z.to_nat n) as [|m IH]; intros [|k]; [done..|]. apply IH.
Qed.

Lemma all_good_first n i limit : i < limit -> first_good (all_good n) i limit = i.
Proof. intros. unfold first_good. destruct (Z.to_nat (limit - i)) eqn:E; [lia|]. simpl. by rewrite all_good_block. Qed.

Lemma all_good_last n j limit : last_good (all_good n) j limit = j.
Proof. unfold last_good. destruct (Z.to_nat (j - limit)); [done|]. simpl. by rewrite all_good_block. Qed.

Lemma all_good_count n i limit : i <= limit -> count_good (all_good n) i limit = limit - i.
Proof.
  intros. unfold count_good.
  assert (forall l, filter (fun k => is_good (all_good n) k = true) l = l) as ->.
  { induction l as [|k l IH]; [done|]. rewrite filter_cons_True by apply all_good_block. by rewrite IH. }
  unfold zlen. rewrite length_fmap, length_seq. lia.
Qed.

(** ** The layout *)

Section Layout.
Context `{NvDevice} (info : mtd_info).
Abbreviation B := (erasesize info).

(** [NvRamBlockNum] *)
Definition region_size : Z :=
  info_size info / B - nvram_platform_log_block - nvram_platform_resv_block - nvram_platform_DM_block.
Abbreviation N := region_size.

Record region_layout : Prop := {
  rl_version : nvram_platform_layout_version = 0;
  rl_flash : is_nand = false;
  rl_page : 0 < writesize info;
  rl_block : 0 < B;
  rl_device : 0 <= info_size info < 2 ^ 31;
  rl_counts : 0 <= nvram_platform_log_block /\ 0 <= nvram_platform_resv_block /\ 0 <= nvram_platform_DM_block;
  rl_bitmap : 0 < N /\ 3 * N + 4 <= B
}.

(** The bytes of the map with the sizes in front, in whole pages; one block or two; the
    bytes of the contents in whole blocks. *)
Definition room (s : Z) : Z :=
  if (s + 12) mod writesize info =? 0 then s + 12 else ((s + 12) / writesize info + 1) * writesize info.

Definition second_block (s : Z) : Z := if B <? room s then 1 else 0.

Definition whole (a : Z) : Z := if a mod B =? 0 then a else (a / B + 1) * B.

(** The contents end before the bitmap, and the two numbers that are read behind
    the map are in its blocks. *)
Record fits (m a : Z) : Prop := {
  ft_some : 0 < m;
  ft_map : room m <= 2 * B;
  ft_behind : m + 18 <= (second_block m + 1) * B;
  ft_contents : 0 < a;
  ft_end : (second_block m + 1) * B + whole a <= (N - 1 - second_block m) * B
}.

(** The sizes, and the flag of a clean boot, in front of the map. *)
Definition map_head (M A : list Z) : list Z := le32 (zlen M) ++ le32 (zlen A) ++ le32 (-1).

Definition bitmap_head : list Z := all_good N ++ all_good N ++ all_good N ++ le32 BitmapFlag.

Record holds_archive (M A D : list Z) : Prop := {
  hd_map : read_at D 0 (12 + zlen M) = map_head M A ++ M;
  hd_bitmap : read_at D ((N - 1 - second_block (zlen M)) * B) (3 * N + 4) = bitmap_head;
  hd_contents : read_at D ((second_block (zlen M) + 1) * B) (zlen A) = A
}.

Context (lay : region_layout).

Lemma whole_range a : 0 <= a -> a <= whole a /\ whole a mod B = 0 /\ whole a / B * B = whole a.
Proof.
  intros Ha. pose proof (rl_block lay). unfold whole. destruct (Z.eqb_spec (a mod B) 0) as [E|E].
  - pose proof (Z.div_mod a B ltac:(lia)). split_and!; lia.
  - pose proof (Z.div_mod a B ltac:(lia)). pose proof (Z.mod_pos_bound a B ltac:(lia)).
    rewrite Z.mod_mul, Z.div_mul by lia. split_and!; lia.
Qed.

Lemma room_range s : 0 <= s -> s + 12 <= room s.
Proof.
  intros Hs. pose proof (rl_page lay). unfold room. destruct (Z.eqb_spec ((s + 12) mod writesize info) 0) as [E|E]; [lia|].
  pose proof (Z.div_mod (s + 12) (writesize info) ltac:(lia)). pose proof (Z.mod_pos_bound (s + 12) (writesize info) ltac:(lia)). lia.
Qed.

Lemma second_block_cases s : second_block s = 0 /\ room s <= B \/ second_block s = 1 /\ B < room s.
Proof. unfold second_block. destruct (Z.ltb_spec B (room s)); lia. Qed.

(** The region, and the log behind it. *)
Lemma region_before_log : N * B <= log_start info.
Proof.
  pose proof (rl_block lay). pose proof (rl_counts lay) as (? & ? & ?). unfold log_start.
  pose proof (Z.mul_div_le (info_size info) B ltac:(lia)).
  transitivity ((info_size info / B - nvram_platform_log_block) * B); [|lia].
  apply Z.mul_le_mono_nonneg_r; unfold N; lia.
Qed.

Lemma region_in_device : N * B <= info_size info /\ B <= info_size info /\ 0 <= N * B.
Proof.
  pose proof region_before_log. pose proof (rl_block lay). pose proof (rl_counts lay) as (? & ? & ?).
  pose proof (rl_bitmap lay). unfold log_start in *. assert (0 <= nvram_platform_log_block * B) by nia. split; [lia|]. nia.
Qed.
End Layout.

(** ** The geometry at work *)

Section Copy.
Context `{FileStore} `{NvPlatform} `{!NvDevice} `{!NvTables} `{!NvLib}.
Context (info : mtd_info) `{!Geometry info} (lay : region_layout info).
Abbreviation W := (world nvram).
Implicit Types (v : store) (w : W).
Abbreviation dev := g_NVRAM_BACKUP_DEVICE.
Abbreviation B := (erasesize info).
Abbreviation N := (region_size info).

Definition with_blocks (g : nvram) : nvram := set_block_nums (N + nvram_platform_DM_block) N g.

Lemma blocks_small : i32 (info_size info / B - nvram_platform_log_block - nvram_platform_resv_block) = N + nvram_platform_DM_block.
Proof.
  pose proof (rl_block _ lay). pose proof (rl_device _ lay). pose proof (rl_counts _ lay) as (? & ? & ?). pose proof (rl_bitmap _ lay).
  assert (info_size info / B <= info_size info) by (apply Z.div_le_upper_bound; nia).
  unfold region_size in *. rewrite i32_small by lia. lia.
Qed.

Lemma pdiv_run a b w (Q : Z -> W -> Prop) : b <> 0 -> Q (a / b) w -> runs (pdiv a b) w Q.
Proof. intros Hb HQ. unfold pdiv. by destruct (Z.eqb_spec b 0). Qed.

Lemma region_blocks_run v g L w Q : ready v g L w -> (forall w', ready v (with_blocks g) L w' -> Q true w') ->
  runs (region_blocks info) w Q.
Proof.
  intros Hw HQ. pose proof (rl_block _ lay). unfold region_blocks. apply runs_bind, pdiv_run; [lia|].
  rewrite (rl_version _ lay). cbn [Z.eqb]. rewrite blocks_small.
  apply runs_bind. eapply run_mod; [exact Hw|]. intros w1 Hw1. apply runs_ret, HQ. unfold with_blocks.
  by replace N with (N + nvram_platform_DM_block - nvram_platform_DM_block) at 2 by lia.
Qed.

Lemma small_sum s : 0 <= s -> room info s < 2 ^ 32 -> u32 (s + 3 * 4) = s + 12.
Proof. intros Hs Hr. pose proof (room_range info lay s Hs). apply u32_small. lia. Qed.

Lemma map_room_run s w (Q : Z -> W -> Prop) : 0 <= s -> room info s < 2 ^ 32 -> Q (room info s) w -> runs (map_room info s) w Q.
Proof.
  intros Hs Hr HQ. pose proof (rl_page _ lay). unfold map_room. rewrite small_sum by done.
  apply runs_bind, pdiv_run; [lia|]. unfold room in *. destruct (_ =? 0); [done|]. rewrite u32_small; [done|].
  split; [|done]. assert (0 <= (s + 12) / writesize info) by (apply Z.div_pos; lia). nia.
Qed.

Lemma whole_blocks_run a w (Q : Z -> W -> Prop) : 0 <= a -> whole info a < 2 ^ 32 -> Q (whole info a) w -> runs (whole_blocks B a) w Q.
Proof.
  intros Ha Hr HQ. pose proof (rl_block _ lay). pose proof (whole_range info lay a Ha). unfold whole_blocks.
  apply runs_bind, pdiv_run; [lia|]. unfold whole in *. destruct (_ =? 0); [done|]. by rewrite u32_small by lia.
Qed.

Lemma erase_blocks_run n : forall i w (Q : list Z -> W -> Prop), Q (replicate n 0) w -> runs (erase_blocks info n i) w Q.
Proof.
  induction n as [|n IH]; intros i w Q HQ; [done|]. cbn [erase_blocks]. rewrite (rl_flash _ lay).
  apply runs_bind, runs_ret, runs_bind, IH, runs_ret, HQ.
Qed.

(** The bitmap, in a new allocation. *)
Lemma create_bitmap_run v g L w D : ready v g L w -> files v !! dev = Some D -> zlen D = info_size info ->
  runs FileOp_CreateBinRegionBadBlockBitMap w (fun b w' => b = Some (all_good N) /\
    exists p, 0 < p /\ ~ p ∈ L /\ ready v (set_bBadBlockBitMap p (with_blocks g)) (p :: L) w').
Proof.
  intros Hw Hd Hl. pose proof (rl_block _ lay). pose proof (rl_device _ lay). pose proof (region_in_device _ lay) as (? & ? & ?).
  unfold FileOp_CreateBinRegionBadBlockBitMap.
  apply runs_bind. eapply geometry_run; [exact Hw|exact Hd|exact Hl|]. intros w1 Hw1.
  apply runs_bind. eapply dev_open; [exact Hw1|exact Hd|]. intros fd e w2 Hfd Ofd Hw2. cbn [rv]. destruct (Z.ltb_spec fd 0); [lia|].
  rewrite (i32_small (info_size info)), (i32_small B) by lia. apply runs_bind, pdiv_run; [lia|].
  apply runs_bind. eapply run_mod; [exact Hw2|]. intros w3 Hw3.
  apply runs_bind. eapply region_blocks_run; [exact Hw3|]. intros w4 Hw4. cbn [negb].
  apply runs_bind. eapply run_get; [exact Hw4|].
  apply runs_bind. eapply run_malloc; [exact Hw4|]. intros p w5 Hp Np Hw5.
  apply runs_bind. eapply run_mod; [exact Hw5|]. intros w6 Hw6. destruct (Z.eqb_spec p 0); [lia|].
  apply runs_bind, erase_blocks_run. eapply quit_close; [exact Hw6|apply on_dev_fd|]. intros w7 Hw7. apply quit_done.
  split; [done|]. exists p. split_and!; [done|done|]. unfold on_dev in Hw7. rewrite drop_put_fd, put_file_id in Hw7 by done. done.
Qed.

(** ** The map *)

Lemma check_map_run fd o D v g L w s Q : ready (on_dev fd o D v) g L w -> 4 <= zlen D -> 0 <= s < 2 ^ 31 ->
  read_at D 0 4 = le32 s -> (forall w', ready (on_dev fd 4 D v) g L w' -> Q true w') -> runs (check_map fd 0 s) w Q.
Proof.
  intros Hw Hl Hs Hr HQ. unfold check_map. apply runs_bind. eapply dev_seek; [exact Hw|lia|]. intros e w1 Hw1. cbn [rv Z.ltb Z.compare].
  apply runs_bind. eapply dev_read; [exact Hw1|lia|lia|lia|]. intros w2 Hw2. cbn [rres_data rres_rv]. apply runs_ret.
  rewrite Hr. unfold overlay. rewrite drop_ge, app_nil_r by done. rewrite de32_le32, u32_small by lia.
  assert (zlen (le32 s) = 4) as -> by (unfold zlen; by rewrite length_le32). rewrite Z.eqb_refl. by apply HQ.
Qed.

Lemma block_offset i : 0 <= i -> i < N -> 0 <= i * B /\ (i + 1) * B <= N * B /\ u32 (i * B) = i * B.
Proof.
  intros Hi Hn. pose proof (rl_block _ lay). pose proof (rl_device _ lay). pose proof (region_in_device _ lay) as (? & ? & ?).
  assert ((i + 1) * B <= N * B) by (apply Z.mul_le_mono_nonneg_r; lia). assert (0 <= i * B) by (apply Z.mul_nonneg_nonneg; lia).
  split_and!; [done|done|]. apply u32_small. lia.
Qed.

Lemma block_small : i32 B = B.
Proof.
  pose proof (rl_block _ lay). pose proof (rl_device _ lay). pose proof (region_in_device _ lay) as (? & ? & ?).
  apply i32_small. lia.
Qed.

Lemma write_map_run fd o D v g L w s bytes : ready (on_dev fd o D v) g L w -> NvRamBlockNum g = N -> zlen D = info_size info ->
  0 <= s -> zlen bytes = room info s -> room info s <= 2 * B -> second_block info s < N -> read_at bytes 0 4 = le32 s ->
  runs (write_map fd (all_good N) B s bytes) w (fun r w' => r = Some (second_block info s) /\
    exists o', ready (on_dev fd o' (write_at D 0 bytes) v) g L w').
Proof.
  intros Hw Hg Hl Hs Hb Hroom Hn Hr. pose proof (rl_block _ lay). pose proof (rl_device _ lay). pose proof (rl_bitmap _ lay) as [? ?].
  pose proof (region_in_device _ lay) as (? & ? & ?). pose proof (room_range _ lay s Hs). pose proof block_small as Bs.
  destruct (block_offset 0) as (_ & F0 & _); [lia|lia|].
  unfold write_map. apply runs_bind. eapply run_get; [exact Hw|]. rewrite Hg, all_good_first by lia. destruct (Z.eqb_spec 0 N); [lia|].
  apply runs_bind. eapply dev_seek; [exact Hw|apply u32_range|]. intros e w1 Hw1. cbn [rv]. change (u32 (0 * B)) with (u32 0) in *.
  change (u32 0) with 0 in *. cbn [Z.ltb Z.compare]. rewrite Hb.
  destruct (second_block_cases info s) as [[E Er]|[E Er]]; rewrite E in *; [destruct (Z.ltb_spec B (room info s)); [lia|]|destruct (Z.ltb_spec B (room info s)); [|lia]].
  - apply runs_bind. eapply dev_write; [exact Hw1|lia|lia|]. intros e2 w2 Hw2. cbn [rv].
    rewrite i32_small by lia. rewrite Hb, Z.eqb_refl. cbn [negb]. apply runs_bind.
    eapply check_map_run; [exact Hw2|rewrite zlen_write_at; lia|lia| |].
    { rewrite <- Hr. rewrite read_written_start by lia. done. }
    intros w3 Hw3. apply runs_ret. split; [done|]. by eexists.
  - destruct (block_offset 1) as (G0 & G1 & G2); [lia|lia|]. rewrite !Z.mul_1_l in G2.
    assert (zlen (take (Z.to_nat B) bytes) = B) as Ht by (unfold zlen in *; rewrite length_take; lia).
    assert (zlen (drop (Z.to_nat B) bytes) = room info s - B) as Hdr by (unfold zlen in *; rewrite length_drop; lia).
    apply runs_bind. eapply dev_write; [exact Hw1|lia|lia|]. intros e2 w2 Hw2. cbn [rv]. rewrite Ht, Bs, Z.eqb_refl. cbn [negb].
    rewrite all_good_first by lia. destruct (Z.leb_spec N (0 + 1)); [lia|]. change (0 + 1) with 1. rewrite Z.mul_1_l, G2.
    apply runs_bind. eapply dev_seek; [exact Hw2|lia|]. intros e3 w3 Hw3. cbn [rv]. destruct (Z.ltb_spec B 0); [lia|].
    apply runs_bind. eapply dev_write; [exact Hw3|lia|rewrite zlen_write_at by lia; lia|]. intros e4 w4 Hw4. cbn [rv].
    rewrite Hdr, i32_small by lia. rewrite Z.eqb_refl. cbn [negb]. change (u32 ((1 - 1) * B)) with 0.
    pose proof (write_at_app D 0 (take (Z.to_nat B) bytes) (drop (Z.to_nat B) bytes) ltac:(lia)) as Ew.
    rewrite Ht, take_drop, Z.add_0_l in Ew. rewrite Ew in Hw4. apply runs_bind.
    eapply check_map_run; [exact Hw4|rewrite zlen_write_at; lia|lia| |].
    { rewrite <- Hr. rewrite read_written_start by lia. done. }
    intros w5 Hw5. apply runs_ret. split; [done|]. by eexists.
Qed.

(** ** The bitmap *)

Lemma zlen_bitmap_head : zlen (bitmap_head info) = 3 * N + 4.
Proof.
  pose proof (rl_bitmap _ lay) as [? ?]. unfold bitmap_head. rewrite !zlen_app, !zlen_all_good by lia.
  assert (zlen (le32 BitmapFlag) = 4) as -> by done. lia.
Qed.

Lemma bitmap_blocks_head size bytes : 3 * N + 4 <= size -> exists bb,
  bitmap_blocks (all_good N) size bytes = Some bb /\ zlen bb = size /\ read_at bb 0 (3 * N + 4) = bitmap_head info.
Proof.
  intros Hs. pose proof (rl_bitmap _ lay) as [? ?]. pose proof zlen_bitmap_head as Hh. unfold bitmap_blocks.
  set (R := replicate (Z.to_nat size) 255). assert (zlen R = size) as HR by (unfold R, zlen; rewrite length_replicate; lia). clearbody R.
  rewrite zlen_all_good by lia. assert (zlen (all_good N) = N) as Ha by (apply zlen_all_good; lia). assert (zlen (le32 BitmapFlag) = 4) as Hf by done.
  pose proof (write_at_app R 0 (all_good N) (all_good N) ltac:(lia)) as E1. rewrite Ha, Z.add_0_l in E1.
  pose proof (write_at_app R 0 (all_good N ++ all_good N) (all_good N) ltac:(lia)) as E2. rewrite zlen_app, Ha, Z.add_0_l in E2.
  pose proof (write_at_app R 0 ((all_good N ++ all_good N) ++ all_good N) (le32 BitmapFlag) ltac:(lia)) as E3. rewrite !zlen_app, Ha, Z.add_0_l in E3.
  replace (2 * N) with (N + N) by lia. replace (3 * N) with (N + N + N) in * by lia.
  rewrite mwrite_write by lia. cbn [mbind option_bind].
  rewrite mwrite_write by (rewrite ?zlen_write_at; lia). rewrite E1. cbn [mbind option_bind].
  rewrite mwrite_write by (rewrite ?zlen_write_at; rewrite ?zlen_app; lia). rewrite E2. cbn [mbind option_bind].
  rewrite mwrite_write by (rewrite ?zlen_write_at; rewrite ?zlen_app; lia). rewrite E3. cbn [mbind option_bind].
  replace (((all_good N ++ all_good N) ++ all_good N) ++ le32 BitmapFlag) with (bitmap_head info) in * by (unfold bitmap_head; by rewrite !(assoc_L app)).
  set (W0 := write_at R 0 (bitmap_head info)) in *.
  assert (zlen W0 = size) as HW by (unfold W0; rewrite zlen_write_at; lia).
  assert (read_at W0 0 (N + N + N + 4) = bitmap_head info) as Hread.
  { unfold W0. rewrite read_written_start by lia. rewrite <- Hh. apply read_whole. }
  destruct (Z.ltb_spec (N + N + N + 4 + zlen bytes) size); [|by exists W0].
  pose proof (zlen_nonneg bytes). rewrite mwrite_write by lia. eexists. split; [done|].
  split; [rewrite zlen_write_at; lia|]. by rewrite read_before by lia.
Qed.

(** The parts of the bitmap at the start of [x]. *)
Lemma bitmap_parts D o x : read_at D o (3 * N + 4) = bitmap_head info -> 0 <= o -> 0 <= x -> x + N <= 3 * N -> (x = 0 \/ x = N \/ x = 2 * N) ->
  read_at D (o + x) N = all_good N.
Proof.
  intros Hr Ho Hx Hn Hc. pose proof (rl_bitmap _ lay) as [? ?]. assert (zlen (all_good N) = N) as Ha by (apply zlen_all_good; lia).
  rewrite (read_sub _ _ _ _ _ _ Hr) by lia. unfold bitmap_head.
  assert (forall y, read_at (all_good N ++ y) 0 N = all_good N) as Hhead.
  { intros y. rewrite read_at_app_l by lia. rewrite <- Ha at 2. apply read_whole. }
  destruct Hc as [->|[->| ->]]; [done|..].
  - rewrite read_at_app_r by lia. by rewrite Ha, Z.sub_diag.
  - rewrite !read_at_app_r by lia. rewrite Ha. by replace (2 * N - N - N) with 0 by lia.
Qed.

Lemma check_bitmap_run fd o off D v g L w : ready (on_dev fd o D v) g L w -> 0 <= off -> off + B <= zlen D ->
  read_at D off (3 * N + 4) = bitmap_head info ->
  runs (check_bitmap fd off N) w (fun r w' => r = true /\ exists o', ready (on_dev fd o' D v) g L w').
Proof.
  intros Hw Ho Hl Hr. pose proof (rl_bitmap _ lay) as [? ?]. pose proof (rl_device _ lay). pose proof (region_in_device _ lay) as (? & ? & ?).
  unfold check_bitmap.
  apply runs_bind. eapply run_malloc; [exact Hw|]. intros p w1 Hp Np Hw1. destruct (Z.eqb_spec p 0); [lia|].
  apply runs_bind. eapply run_malloc; [exact Hw1|]. intros q w2 Hq Nq Hw2. destruct (Z.eqb_spec q 0); [lia|].
  apply runs_bind. eapply dev_seek; [exact Hw2|done|]. intros e w3 Hw3. cbn [rv]. destruct (Z.ltb_spec off 0); [lia|].
  assert (read_at D (off + 0) N = all_good N) as P0 by (apply bitmap_parts; auto; lia). rewrite Z.add_0_r in P0.
  assert (read_at D (off + N) N = all_good N) as P1 by (apply bitmap_parts; auto; lia).
  apply runs_bind. eapply dev_read; [exact Hw3|done|lia|lia|]. intros w4 Hw4. cbn [rres_rv rres_data]. rewrite P0, zlen_all_good by lia.
  rewrite u32_small, Z.eqb_refl by nia. cbn [negb].
  apply runs_bind. eapply dev_read; [exact Hw4|lia|lia|lia|]. intros w5 Hw5. cbn [rres_rv rres_data]. rewrite P1, zlen_all_good by lia.
  rewrite u32_small, Z.eqb_refl by nia. cbn [negb].
  eapply quit_buffers; [exact Hw5|exact Np|exact Nq|]. intros w6 Hw6. apply quit_done.
  rewrite bool_decide_eq_true_2 by done. split; [done|]. by eexists.
Qed.

Lemma write_bitmap_run fd o D v g L w pos s bytes : ready (on_dev fd o D v) g L w -> NvRamBlockNum g = N -> zlen D = info_size info ->
  zlen bytes = room info s -> 0 <= pos -> pos = second_block info s -> 2 * pos + 1 < N ->
  runs (write_bitmap fd (all_good N) B pos bytes) w (fun r w' => r = Some (N - 1) /\
    exists bb o', zlen bb = (pos + 1) * B /\ read_at bb 0 (3 * N + 4) = bitmap_head info /\
      ready (on_dev fd o' (write_at D ((N - 1 - pos) * B) bb) v) g L w').
Proof.
  intros Hw Hg Hl Hb Hpos Hs Hn. pose proof (rl_block _ lay). pose proof (rl_device _ lay). pose proof (rl_bitmap _ lay) as [? ?].
  pose proof (region_in_device _ lay) as (? & ? & ?). pose proof block_small as Bs.
  destruct (block_offset (N - 1 - pos)) as (F0 & F1 & F2); [lia|lia|].
  assert ((N - 1 - pos) * B + (pos + 1) * B = N * B) as Fe by lia.
  assert (B <= (pos + 1) * B) by nia.
  unfold write_bitmap. apply runs_bind. eapply run_get; [exact Hw|]. rewrite Hg, all_good_last. destruct (Z.eqb_spec (N - 1) pos); [lia|].
  rewrite Hb. replace (if B <? room info s then 1 else 0) with pos by done. rewrite F2.
  replace (u32 (B * (pos + 1))) with ((pos + 1) * B) by (rewrite u32_small by lia; lia).
  apply runs_bind. eapply run_malloc; [exact Hw|]. intros p w1 Hp Np Hw1. destruct (Z.eqb_spec p 0); [lia|].
  destruct (bitmap_blocks_head ((pos + 1) * B) bytes) as (bb & Eb & Hbb & Hr); [lia|]. rewrite Eb. apply runs_bind, runs_ret.
  apply runs_bind. eapply dev_seek; [exact Hw1|lia|]. intros e w2 Hw2. cbn [rv]. destruct (Z.ltb_spec ((N - 1 - pos) * B) 0); [lia|].
  apply runs_bind. eapply dev_write; [exact Hw2|lia|lia|]. intros e2 w3 Hw3. cbn [rv].
  rewrite Hbb, Bs. destruct (Z.eqb_spec ((pos + 1) * B) (B * (pos + 1))); [|lia]. cbn [negb].
  apply runs_bind. eapply runs_mono; [eapply check_bitmap_run; [exact Hw3|lia|rewrite zlen_write_at by lia; lia|]|].
  { rewrite read_written_start by lia. exact Hr. }
  intros ok w4 (-> & o' & Hw4). eapply quit_free; [exact Hw4|exact Np|]. intros w5 Hw5. apply quit_done. split; [done|]. by exists bb, o'.
Qed.

(** ** The contents *)

Lemma write_blocks_run fd v g L bytes limit n : limit <= N -> forall i pos o D w, ready (on_dev fd o D v) g L w ->
  0 <= i -> 0 <= pos -> zlen D = info_size info -> (i + Z.of_nat n) * B <= zlen bytes -> pos + Z.of_nat n <= limit ->
  runs (write_blocks fd (all_good N) B limit bytes n i pos) w (fun r w' => r = true /\
    exists o', ready (on_dev fd o' (write_at D (pos * B) (read_at bytes (i * B) (Z.of_nat n * B))) v) g L w').
Proof.
  intros Hlim. pose proof (rl_block _ lay). pose proof block_small as Bs. pose proof (region_in_device _ lay) as (? & ? & ?).
  induction n as [|n IH]; intros i pos o D w Hw Hi Hpos Hl Hb Hn.
  { split; [done|]. exists o. change (Z.of_nat 0 * B) with 0. unfold read_at at 1. simpl take. by rewrite write_at_nil. }
  cbn [write_blocks]. destruct (block_offset pos) as (F0 & F1 & F2); [lia|lia|]. rewrite F2.
  apply runs_bind. eapply dev_seek; [exact Hw|lia|]. intros e w1 Hw1. cbn [rv]. rewrite Z.eqb_refl. cbn [negb].
  assert (0 <= i * B) by nia. assert (i * B + B <= zlen bytes) by nia.
  rewrite mread_read by lia. apply runs_bind, runs_ret.
  assert (zlen (read_at bytes (i * B) B) = B) as Hc by (apply zlen_read_at; lia). set (c := read_at bytes (i * B) B) in *.
  apply runs_bind. eapply dev_write; [exact Hw1|lia|lia|]. intros e2 w2 Hw2. cbn [rv]. rewrite Hc, Bs, Z.eqb_refl. cbn [negb].
  assert (read_at bytes (i * B) (Z.of_nat (S n) * B) = c ++ read_at bytes ((i + 1) * B) (Z.of_nat n * B)) as Er.
  { replace (Z.of_nat (S n) * B) with (B + Z.of_nat n * B) by lia. rewrite read_at_app by nia. by replace (i * B + B) with ((i + 1) * B) by lia. }
  rewrite Er. pose proof (write_at_app D (pos * B) c (read_at bytes ((i + 1) * B) (Z.of_nat n * B)) ltac:(lia)) as Ew.
  rewrite Hc in Ew. rewrite <- Ew. replace (pos * B + B) with ((pos + 1) * B) by lia.
  destruct n as [|n]; [apply runs_ret; split; [done|]; eexists|].
  - change (Z.of_nat 0 * B) with 0. unfold read_at at 1. simpl take. by rewrite write_at_nil.
  - rewrite all_good_first by lia. destruct (Z.leb_spec limit (pos + 1)); [lia|].
    eapply IH; [exact Hw2|lia|lia|rewrite zlen_write_at; lia|lia|lia].
Qed.

(** A read of another file beside the device. *)
Lemma side_read fd o D file p off n data wr v g L w Q : ready (on_dev fd o D (at_off file p off wr v)) g L w ->
  file <> fd -> p <> dev -> files v !! p = Some data -> 0 <= off -> 0 <= n -> off + n <= zlen data ->
  (forall w', ready (on_dev fd o D (at_off file p (off + n) wr v)) g L w' -> Q (RData (read_at data off n)) w') ->
  runs (psys (Sys_read file n)) w Q.
Proof.
  intros Hw Hne Hp Hd Ho Hn Hr HQ. eapply (run_read _ _ _ _ _ _ p off wr data); [exact Hw| | |done|done|].
  - unfold on_dev. rewrite fds_put_fd, decide_False, fds_put_file by done. apply at_off_lookup.
  - simpl. by rewrite lookup_insert_ne.
  - intros w' Hw'. rewrite zlen_read_at in Hw' by done. rewrite on_dev_put in Hw' by done.
    unfold at_off in Hw'. rewrite put_put_fd in Hw'. by apply HQ.
Qed.

Lemma overlay_fill data n c : zlen data <= n -> exists pad, overlay data (replicate (Z.to_nat n) c) = data ++ pad /\ zlen (data ++ pad) = n.
Proof.
  intros Hn. unfold overlay. eexists. split; [done|]. unfold zlen in *. rewrite length_app, length_drop, length_replicate. lia.
Qed.

Lemma write_data_run fd o D file v wr A g L w pos : ready (on_dev fd o D (at_off file g_pcNVM_AllFile 0 wr v)) g L w ->
  file <> fd -> g_pcNVM_AllFile <> dev -> files v !! g_pcNVM_AllFile = Some A -> zlen D = info_size info -> 0 <= pos -> 0 < zlen A ->
  (pos + 1) * B + whole info (zlen A) <= (N - 1) * B ->
  runs (write_data fd file (all_good N) B pos (N - 1) (zlen A)) w (fun r w' => r = true /\
    exists pad o', zlen (A ++ pad) = whole info (zlen A) /\
      ready (on_dev fd o' (write_at D ((pos + 1) * B) (A ++ pad)) (at_off file g_pcNVM_AllFile (zlen A) wr v)) g L w').
Proof.
  intros Hw Hne Hp HA Hl Hpos HA0 Hend. pose proof (rl_block _ lay). pose proof (rl_device _ lay). pose proof (region_in_device _ lay) as (? & ? & ?).
  pose proof (whole_range _ lay (zlen A) ltac:(lia)) as (Hw1 & Hw2 & Hw3).
  assert (0 < whole info (zlen A) / B) as Hk by nia. assert (pos + 1 + whole info (zlen A) / B <= N - 1) by nia.
  unfold write_data. apply runs_bind, whole_blocks_run; [lia|lia|].
  apply runs_bind. eapply run_malloc; [exact Hw|]. intros p w1 Hp1 Np Hw1'. destruct (Z.eqb_spec p 0); [lia|].
  apply runs_bind. eapply side_read; [exact Hw1'|exact Hne|exact Hp|exact HA|lia|lia|lia|]. intros w2 Hw2'. cbn [rres_rv rres_data].
  rewrite read_whole, i32_small, Z.eqb_refl by lia. cbn [negb].
  destruct (overlay_fill A (whole info (zlen A)) 255 Hw1) as (pad & -> & Hpad).
  rewrite all_good_first by lia. destruct (Z.eqb_spec (pos + 1) (N - 1)); [lia|].
  rewrite all_good_count by lia. rewrite u32_small by nia. destruct (Z.ltb_spec ((N - 1 - (pos + 1)) * B) (whole info (zlen A))); [nia|].
  rewrite <- Hpad. apply runs_bind. rewrite Hpad.
  eapply runs_mono; [eapply write_blocks_run; [lia|exact Hw2'|lia|lia|exact Hl|rewrite Hpad; lia|lia]|].
  intros ok w3 (-> & o' & Hw3'). rewrite Z2Nat.id, Hw3 in Hw3' by lia. change (0 * B) with 0 in Hw3'. rewrite <- Hpad, read_whole in Hw3'.
  eapply quit_free; [exact Hw3'|exact Np|]. intros w4 Hw4. apply quit_done. split; [done|]. exists pad, o'. by split.
Qed.

(** ** The two files *)

(** The device [D] after the archive of [M] and [A] was put on it. *)
Definition stored (M A D D' : list Z) : Prop :=
  holds_archive info M A D' /\ zlen D' = zlen D /\ drop (Z.to_nat (N * B)) D' = drop (Z.to_nat (N * B)) D.

Lemma fits_blocks (M A : list Z) : fits info (zlen M) (zlen A) -> let sb := second_block info (zlen M) in
  0 <= sb /\ 2 * sb + 1 < N /\ room info (zlen M) <= (sb + 1) * B /\ (sb + 1) * B <= (N - 1 - sb) * B /\ zlen A <= whole info (zlen A).
Proof.
  intros [_ F1 F2 F3 F4] sb. subst sb. pose proof (rl_block _ lay). pose proof (whole_range _ lay (zlen A) ltac:(lia)) as (? & _ & _).
  destruct (second_block_cases info (zlen M)) as [[E Er]|[E Er]]; rewrite E in *; split_and!; nia.
Qed.

Lemma stored_writes M A D bytes bb pad : fits info (zlen M) (zlen A) -> zlen D = info_size info ->
  zlen bytes = room info (zlen M) -> read_at bytes 0 (12 + zlen M) = map_head M A ++ M ->
  zlen bb = (second_block info (zlen M) + 1) * B -> read_at bb 0 (3 * N + 4) = bitmap_head info ->
  zlen (A ++ pad) = whole info (zlen A) ->
  stored M A D (write_at (write_at (write_at D 0 bytes) ((N - 1 - second_block info (zlen M)) * B) bb)
    ((second_block info (zlen M) + 1) * B) (A ++ pad)).
Proof.
  intros Hf Hl Hb Hbr Hbb Hbbr Hpad. pose proof (fits_blocks _ _ Hf) as (S0 & S1 & S2 & S3 & S4). destruct Hf as [_ F1 F2 F3 F4].
  set (sb := second_block info (zlen M)) in *. pose proof (rl_block _ lay). pose proof (rl_bitmap _ lay) as [? ?].
  pose proof (region_in_device _ lay) as (? & ? & ?). pose proof (zlen_nonneg M).
  pose proof (room_range _ lay (zlen M) ltac:(lia)).
  assert ((N - 1 - sb) * B + (sb + 1) * B = N * B) as Fe by lia. assert (B <= (sb + 1) * B) by nia.
  set (D1 := write_at D 0 bytes). assert (zlen D1 = info_size info) as L1 by (unfold D1; rewrite zlen_write_at; lia).
  set (D2 := write_at D1 _ bb). assert (zlen D2 = info_size info) as L2 by (unfold D2; rewrite zlen_write_at; lia).
  split; [constructor|split].
  - rewrite read_before by lia. unfold D2. rewrite read_before by lia. unfold D1.
    rewrite read_written_start by lia. exact Hbr.
  - rewrite read_after by lia. unfold D2. rewrite read_written_start by lia. exact Hbbr.
  - rewrite read_written_start by lia. rewrite read_at_app_l by lia. apply read_whole.
  - rewrite zlen_write_at by lia. lia.
  - rewrite drop_write by lia. unfold D2. rewrite drop_write by lia. unfold D1. by rewrite drop_write by lia.
Qed.

Abbreviation F := g_pcNVM_AllFile.
Abbreviation G := g_pcNVM_AllMap.

Lemma write_region_run fd o D file map v wf wm M A g L w :
  ready (on_dev fd o D (at_off file F 0 wf (at_off map G 0 wm v))) g L w ->
  file <> fd -> map <> fd -> map <> file -> F <> dev -> G <> dev -> files v !! F = Some A -> files v !! G = Some M ->
  NvRamBlockNum g = N -> zlen D = info_size info -> fits info (zlen M) (zlen A) ->
  runs (write_region fd file map info (all_good N) (zlen M) (zlen A)) w (fun r w' => r = true /\
    exists D' o', stored M A D D' /\
      ready (on_dev fd o' D' (at_off file F (zlen A) wf (at_off map G (zlen M) wm v))) g L w').
Proof.
  intros Hw Hne Hnm Hmf HFd HGd HA HM Hg Hl Hf. pose proof (fits_blocks _ _ Hf) as (S0 & S1 & S2 & S3 & S4).
  pose proof Hf as [_ F1 F2 F3 F4]. pose proof (rl_block _ lay). pose proof (rl_device _ lay). pose proof (rl_bitmap _ lay) as [? ?].
  pose proof (region_in_device _ lay) as (? & ? & ?). pose proof (zlen_nonneg M). pose proof (room_range _ lay (zlen M) ltac:(lia)).
  set (sb := second_block info (zlen M)) in *. assert ((N - 1 - sb) * B <= N * B) by nia.
  unfold write_region. apply runs_bind, map_room_run; [lia|lia|].
  assert (B <= N * B) by nia. assert (2 * B <= N * B \/ N = 1) by nia.
  rewrite (u32_small (2 * B)) by nia. destruct (Z.ltb_spec (2 * B) (room info (zlen M))); [lia|].
  apply runs_bind. eapply run_malloc; [exact Hw|]. intros p w1 Hp Np Hw1. destruct (Z.eqb_spec p 0); [lia|].
  assert (forall x y u, at_off file F x wf (at_off map G y wm u) = at_off map G y wm (at_off file F x wf u)) as Hcomm
    by (intros; unfold at_off; by rewrite put_fd_comm).
  rewrite Hcomm in Hw1. apply runs_bind. eapply side_read; [exact Hw1|exact Hnm|exact HGd|exact HM|lia|lia|lia|].
  intros w2 Hw2. rewrite Z.add_0_l in Hw2. cbn [rres_rv rres_data]. rewrite read_whole, i32_small, Z.eqb_refl by lia. cbn [negb].
  rewrite !(assoc_L app). change ((le32 (zlen M) ++ le32 (zlen A)) ++ le32 (-1)) with (map_head M A).
  assert (zlen (map_head M A ++ M) = 12 + zlen M) as Hh by (rewrite zlen_app; done).
  rewrite mwrite_write by (rewrite ?Hh; unfold zlen in *; rewrite ?length_replicate; lia).
  set (bytes := write_at _ 0 _).
  assert (zlen bytes = room info (zlen M)) as Hb by (unfold bytes; rewrite zlen_write_at; rewrite ?Hh; unfold zlen in *; rewrite ?length_replicate; lia).
  assert (read_at bytes 0 (12 + zlen M) = map_head M A ++ M) as Hbr.
  { unfold bytes. rewrite read_written_start by (rewrite ?Hh; unfold zlen in *; rewrite ?length_replicate; lia).
    rewrite <- Hh. apply read_whole. }
  clearbody bytes. apply runs_bind, runs_ret.
  apply runs_bind. eapply runs_mono; [eapply write_map_run; [exact Hw2|exact Hg|exact Hl|lia|exact Hb|lia|lia|]|].
  { change 0 with (0 + 0) at 1. rewrite (read_sub _ _ _ _ _ _ Hbr) by lia. done. }
  intros r w3 (-> & o3 & Hw3). fold sb.
  apply runs_bind. eapply runs_mono; [eapply (write_bitmap_run _ _ _ _ _ _ _ sb (zlen M)); [exact Hw3|exact Hg|rewrite zlen_write_at; lia|exact Hb|lia|done|lia]|].
  intros r w4 (-> & bb & o4 & Hbb & Hbbr & Hw4). apply runs_bind. eapply run_free; [exact Hw4|exact Np|]. intros w5 Hw5.
  rewrite <- Hcomm in Hw5.
  eapply runs_mono; [eapply write_data_run; [exact Hw5|exact Hne|exact HFd|exact HA| |lia|lia|]|].
  { rewrite !zlen_write_at; lia || (rewrite ?zlen_write_at; lia). }
  { nia. }
  intros r w6 (-> & pad & o6 & Hpad & Hw6). split; [done|]. eexists _, o6. split; [|exact Hw6]. by apply stored_writes.
Qed.

(** Opening another file beside the device. *)
Lemma side_open fd o D v g L w p data Q : ready (on_dev fd o D v) g L w -> p <> dev -> files v !! p = Some data ->
  (forall file e wr w', 0 <= file -> file <> fd -> open_fds v !! file = None ->
    ready (on_dev fd o D (at_off file p 0 wr v)) g L w' -> Q (IRes file e) w') ->
  runs (psys (Sys_open p O_RDWR 0)) w Q.
Proof.
  intros Hw Hp Hd HQ. eapply run_open; [exact Hw|by unfold on_dev; simpl; rewrite lookup_insert_ne by done|by auto|].
  intros file e r wr w' Hfile Ofile Hr _ Hw'. apply on_dev_none in Ofile as [Hne Ofile]. rewrite Hr in Hw' by done.
  rewrite on_dev_put in Hw' by done. by eapply HQ.
Qed.

(** The three descriptors are closed. *)
Lemma close_three {A} fd o D file p x wf map q y wm v g L w (a : A) (Q : A -> W -> Prop) :
  ready (on_dev fd o D (at_off file p x wf (at_off map q y wm v))) g L w -> file <> fd -> map <> fd -> map <> file ->
  open_fds v !! fd = None -> open_fds v !! file = None -> open_fds v !! map = None ->
  (forall w', ready (put_file dev D v) g L w' -> Q a w') -> runs (quit [] [fd; file; map] a) w Q.
Proof.
  intros Hw Hne Hnm Hmf Ofd Ofile Omap HQ.
  assert (open_fds (at_off map q y wm v) !! file = None) as O1 by (unfold at_off; by rewrite fds_put_fd, decide_False).
  assert (open_fds (at_off file p x wf (at_off map q y wm v)) !! fd = None) as O2 by (unfold at_off; by rewrite !fds_put_fd, !decide_False).
  eapply quit_close; [exact Hw|apply on_dev_fd|]. intros w1 Hw1. unfold on_dev in Hw1. rewrite drop_put_fd in Hw1 by done.
  eapply quit_close; [exact Hw1|rewrite fds_put_file; apply at_off_lookup|]. intros w2 Hw2.
  change (drop_fd file (put_file dev D (at_off file p x wf (at_off map q y wm v))))
    with (put_file dev D (drop_fd file (at_off file p x wf (at_off map q y wm v)))) in Hw2.
  unfold at_off at 1 in Hw2. rewrite drop_put_fd in Hw2 by done.
  eapply quit_close; [exact Hw2|rewrite fds_put_file; apply at_off_lookup|]. intros w3 Hw3.
  change (drop_fd map (put_file dev D (at_off map q y wm v))) with (put_file dev D (drop_fd map (at_off map q y wm v))) in Hw3.
  unfold at_off in Hw3. rewrite drop_put_fd in Hw3 by done. by apply quit_done, HQ.
Qed.

Lemma copy_archive_run v M A D g L w : nvram_check_exist_feature = false -> ready v g L w -> F <> dev -> G <> dev ->
  files v !! F = Some A -> files v !! G = Some M -> files v !! dev = Some D -> zlen D = info_size info -> fits info (zlen M) (zlen A) ->
  runs (copy_archive (zlen M) (zlen A)) w (fun r w' => r = true /\
    exists D' p, stored M A D D' /\ ready (put_file dev D' v) (set_bBadBlockBitMap p (with_blocks g)) L w').
Proof.
  intros Hmarks Hw HF HG HA HM Hd Hl Hf. unfold copy_archive.
  apply runs_bind. eapply runs_mono; [eapply create_bitmap_run; [exact Hw|exact Hd|exact Hl]|]. intros b w1 (-> & p & Hp & Np & Hw1).
  rewrite Hmarks. cbn [pwhen]. apply runs_bind, runs_ret. apply runs_bind. eapply run_get; [exact Hw1|]. cbn [bBadBlockBitMap set_bBadBlockBitMap].
  apply runs_bind. eapply geometry_run; [exact Hw1|exact Hd|exact Hl|]. intros w2 Hw2.
  apply runs_bind. eapply dev_open; [exact Hw2|exact Hd|]. intros fd e w3 Hfd Ofd Hw3. cbn [rv]. destruct (Z.ltb_spec fd 0); [lia|].
  apply runs_bind. eapply side_open; [exact Hw3|exact HF|exact HA|]. intros file e1 wf w4 Hfile Nfile Ofile Hw4. cbn [rv].
  apply runs_bind. eapply side_open; [exact Hw4|exact HG|exact HM|]. intros map e2 wm w5 Hmap Nmap Omap Hw5. cbn [rv].
  unfold at_off in Omap. rewrite fds_put_fd in Omap. case_decide as Nmf; [done|].
  unfold INVALID_HANDLE_VALUE. destruct (Z.eqb_spec file (-1)); [lia|]. destruct (Z.eqb_spec map (-1)); [lia|].
  replace (at_off map G 0 wm (at_off file F 0 wf v)) with (at_off file F 0 wf (at_off map G 0 wm v)) in Hw5
    by (unfold at_off; by rewrite put_fd_comm).
  apply runs_bind. eapply runs_mono; [eapply write_region_run; [exact Hw5|done|done|done|exact HF|exact HG|exact HA|exact HM|done|exact Hl|exact Hf]|].
  intros r w6 (-> & D' & o' & Hst & Hw6).
  eapply quit_free; [exact Hw6|exact Np|]. intros w7 Hw7.
  eapply close_three; [exact Hw7|done|done|done|done|done|done|]. intros w8 Hw8. split; [done|]. by exists D', p.
Qed.
End Copy.
