(* ===== verification/NvFetch.v ===== *)
(** * libnvram: the archive back from the device

    [read_region] finds an archive that the device holds and writes its two files
    ([read_region_run]); with the check and without. *)
From S2P Require Import Prelude Posix MemFs FileStore NvTypes NvFiles NvArchive NvSum NvMake NvBackup NvJournal NvVersion NvLog NvRegion NvCopy.

Lemma mread_app_l x y o n : 0 <= o -> 0 <= n -> o + n <= zlen x -> mread (x ++ y) o n = Some (read_at x o n).
Proof.
  intros. rewrite mread_read by (rewrite ?zlen_app; pose proof (zlen_nonneg y); lia). f_equal.
  unfold read_at, zlen in *. rewrite drop_app_le by lia. apply take_app_le. rewrite length_drop. lia.
Qed.

Lemma mread_overlay x y o n : 0 <= o -> 0 <= n -> o + n <= zlen x -> mread (overlay x y) o n = Some (read_at x o n).
Proof. apply mread_app_l. Qed.

Lemma mread32_overlay x y o : 0 <= o -> o + 4 <= zlen x -> mread32 (overlay x y) o = Some (de32 (read_at x o 4)).
Proof. intros. unfold mread32, overlay. by rewrite mread_app_l by lia. Qed.

Section Fetch.
Context `{FileStore} `{NvPlatform} `{!NvDevice} `{!NvTables} `{!NvLib} (junk : Z -> list Z).
Context (info : mtd_info) `{!Geometry info} (lay : region_layout info).
Abbreviation W := (world nvram).
Implicit Types (v : store) (w : W).
Abbreviation dev := g_NVRAM_BACKUP_DEVICE.
Abbreviation B := (erasesize info).
Abbreviation N := (region_size info).

Context (M A D : list Z) (Hf : fits info (zlen M) (zlen A)) (Hold : holds_archive info M A D) (Hl : zlen D = info_size info).
Abbreviation sb := (second_block info (zlen M)).

(** What [fits] says of the numbers. *)
Record numbers : Prop := {
  nb_sb : 0 <= sb;
  nb_blocks : 2 * sb + 1 < N;
  nb_block : 10 <= B;
  nb_map : zlen M + 18 <= (sb + 1) * B;
  nb_room : room info (zlen M) <= (sb + 1) * B;
  nb_front : B <= (sb + 1) * B;
  nb_bitmap : (sb + 1) * B <= (N - 1 - sb) * B;
  nb_end : (sb + 1) * B + whole info (zlen A) <= (N - 1 - sb) * B;
  nb_region : (N - 1 - sb) * B + (sb + 1) * B = N * B;
  nb_device : N * B <= info_size info;
  nb_small : info_size info < 2 ^ 31;
  nb_M : 0 < zlen M;
  nb_A : 0 < zlen A <= whole info (zlen A)
}.

Lemma the_numbers : numbers.
Proof.
  pose proof (fits_blocks _ lay _ _ Hf) as (S0 & S1 & S2 & S3 & S4). destruct Hf as [F0 F1 F2 F3 F4].
  pose proof (rl_block _ lay). pose proof (rl_bitmap _ lay) as [? ?]. pose proof (rl_device _ lay) as [? ?].
  pose proof (region_in_device _ lay) as (? & ? & ?). constructor; try lia; nia.
Qed.

(** The sizes in the first block. *)
Lemma sizes_at n : 8 <= n -> n <= zlen D ->
  read_at (read_at D 0 n) 0 4 = le32 (zlen M) /\ read_at (read_at D 0 n) 4 4 = le32 (zlen A).
Proof.
  intros Hn Hd. pose proof (zlen_nonneg M). pose proof (hd_map _ _ _ _ Hold) as Hm.
  rewrite <- (read_sub D 0 n 0 4 _ eq_refl), <- (read_sub D 0 n 4 4 _ eq_refl) by lia.
  rewrite (read_sub _ _ _ 0 4 _ Hm), (read_sub _ _ _ 4 4 _ Hm) by lia. done.
Qed.

Lemma size_value n : 0 <= n < 2 ^ 32 -> de32 (le32 n) = n.
Proof. intros. rewrite de32_le32. by apply u32_small. Qed.

Section Checked.
Context (checked : bool).

Lemma seek_block_run fd o off D' v g L w Q : ready (on_dev fd o D' v) g L w -> 0 <= off ->
  (forall w', ready (on_dev fd off D' v) g L w' -> Q true w') -> runs (seek_block checked fd off) w Q.
Proof.
  intros Hw Ho HQ. unfold seek_block. apply runs_bind. eapply dev_seek; [exact Hw|done|]. intros e w1 Hw1. apply runs_ret.
  cbn [rv]. destruct (Z.ltb_spec off 0); [lia|]. rewrite orb_true_r. by apply HQ.
Qed.

Lemma sizes_fine : sizes_ok checked (zlen M) (zlen A) = true.
Proof.
  destruct the_numbers. unfold sizes_ok.
  rewrite !(proj2 (Z.eqb_neq _ _)) by lia. by destruct checked.
Qed.

Lemma first_size_run fd v g L w : ready (on_dev fd 0 D v) g L w ->
  runs (first_size junk checked fd B) w (fun s w' => s = Some (zlen M) /\ exists o, ready (on_dev fd o D v) g L w').
Proof.
  intros Hw. destruct the_numbers. unfold first_size.
  apply runs_bind. eapply seek_block_run; [exact Hw|lia|]. intros w1 Hw1. cbn [negb].
  apply runs_bind. eapply dev_read; [exact Hw1|lia|lia|lia|]. intros w2 Hw2. cbn [rres_rv rres_data].
  assert (zlen (read_at D 0 B) = B) as Hr by (apply zlen_read_at; lia). rewrite Hr, u32_small, Z.eqb_refl by lia.
  rewrite andb_false_r. destruct (sizes_at B) as [E1 E2]; [lia|lia|].
  rewrite !mread32_overlay by lia. rewrite E1, E2. apply runs_bind, runs_ret, runs_bind, runs_ret.
  rewrite !size_value by lia. rewrite sizes_fine. apply runs_ret. split; [done|]. by eexists.
Qed.

(** ** The bitmap *)

Lemma bitmap_in_run x y w (Q : option (list Z) -> W -> Prop) : read_at x 0 (3 * N + 4) = bitmap_head info -> 3 * N + 4 <= zlen x ->
  Q (Some (all_good N)) w -> runs (bitmap_in N (overlay x y)) w Q.
Proof.
  intros Hx Hz HQ. pose proof (rl_bitmap _ lay) as [? ?].
  assert (zlen (all_good N) = N) as Ha by (apply zlen_all_good; lia).
  assert (forall k, k = 0 \/ k = N \/ k = 2 * N -> read_at x (0 + k) N = all_good N) as Hp.
  { intros k Hk. apply (bitmap_parts _ lay); lia || done. }
  pose proof (Hp 0 ltac:(auto)) as P0. pose proof (Hp _ (or_intror (or_introl eq_refl))) as P1.
  pose proof (Hp _ (or_intror (or_intror eq_refl))) as P2. rewrite !Z.add_0_l in *.
  unfold bitmap_in, overlay. rewrite !mread_app_l by lia. rewrite P0, P1, P2.
  apply runs_bind, runs_ret, runs_bind, runs_ret. rewrite bool_decide_eq_true_2 by done. cbn [negb].
  apply runs_bind, runs_ret. rewrite bool_decide_eq_true_2 by done. cbn [negb]. unfold mread32. rewrite mread_app_l by lia.
  rewrite <- (Z.add_0_l (3 * N)). rewrite (read_sub _ _ _ _ _ _ Hx) by lia. unfold bitmap_head.
  rewrite !read_at_app_r by lia. rewrite Ha. replace (3 * N - N - N - N) with 0 by lia. apply runs_bind, runs_ret, runs_ret. done.
Qed.

Lemma find_bitmap_run fd o v g L w buf : ready (on_dev fd o D v) g L w -> NvRamBlockNum g = N ->
  runs (find_bitmap checked fd B sb (Z.to_nat N) buf) w (fun r w' =>
    exists buf' o', r = Some (N - 1, all_good N, buf') /\ ready (on_dev fd o' D v) g L w').
Proof.
  intros Hw Hg. destruct the_numbers. pose proof (rl_bitmap _ lay) as [? ?].
  replace (Z.to_nat N) with (S (Z.to_nat (N - 1))) by lia. cbn [find_bitmap]. rewrite Z2Nat.id by lia.
  destruct (block_offset _ lay (N - 1 - sb)) as (F0 & F1 & F2); [lia|lia|]. rewrite F2.
  apply runs_bind. eapply run_get; [exact Hw|].
  apply runs_bind. eapply seek_block_run; [exact Hw|lia|]. intros w1 Hw1. cbn [negb].
  apply runs_bind. eapply dev_read; [exact Hw1|lia|lia|lia|]. intros w2 Hw2. cbn [rres_rv rres_data].
  assert (zlen (read_at D ((N - 1 - sb) * B) B) = B) as Hr by (apply zlen_read_at; lia).
  rewrite Hr. destruct (Z.leb_spec B 0); [lia|]. rewrite Hg. apply runs_bind. eapply bitmap_in_run; [|lia|].
  - rewrite <- (read_sub D _ B 0 _ _ eq_refl) by lia. rewrite Z.add_0_r. apply Hold.
  - apply runs_ret. by eexists _, _.
Qed.

(** ** The contents *)

Lemma read_blocks_run fd v g L limit n : limit <= N -> forall pos o done w, ready (on_dev fd o D v) g L w -> 0 <= pos ->
  pos + Z.of_nat n <= limit ->
  runs (read_blocks fd (all_good N) B limit n pos done) w (fun r w' =>
    r = Some (done ++ read_at D (pos * B) (Z.of_nat n * B)) /\ exists o', ready (on_dev fd o' D v) g L w').
Proof.
  intros Hlim. destruct the_numbers. pose proof (block_small _ lay) as Bs.
  induction n as [|n IH]; intros pos o done w Hw Hpos Hn.
  { split; [by rewrite app_nil_r|]. by exists o. }
  cbn [read_blocks]. destruct (block_offset _ lay pos) as (F0 & F1 & F2); [lia|lia|]. rewrite F2.
  apply runs_bind. eapply dev_seek; [exact Hw|lia|]. intros e w1 Hw1. cbn [rv]. rewrite Z.eqb_refl. cbn [negb].
  apply runs_bind. eapply dev_read; [exact Hw1|lia|lia|lia|]. intros w2 Hw2. cbn [rres_rv rres_data].
  rewrite zlen_read_at by lia. rewrite Bs, Z.eqb_refl. cbn [negb].
  replace (Z.of_nat (S n) * B) with (B + Z.of_nat n * B) by lia. rewrite read_at_app by nia.
  replace (pos * B + B) with ((pos + 1) * B) in * by lia. rewrite (assoc_L app).
  destruct n as [|n]; [apply runs_ret; split; [by rewrite app_nil_r|by eexists]|].
  rewrite all_good_first by lia. destruct (Z.leb_spec limit (pos + 1)); [lia|]. eapply IH; [exact Hw2|lia|lia].
Qed.

(** A file being written beside the device. *)
Definition writing (file : Z) (p : list Z) (r : bool) (X : list Z) v : store :=
  put_fd file (Fd p (zlen X) r true) (put_file p X v).

Lemma side_write fd o D' file p r bs v g L w Q : ready (on_dev fd o D' (writing file p r [] v)) g L w -> file <> fd -> p <> dev ->
  (forall e w', ready (on_dev fd o D' (writing file p r bs v)) g L w' -> Q (IRes (zlen bs) e) w') ->
  runs (psys (Sys_write file bs)) w Q.
Proof.
  intros Hw Hne Hp HQ. eapply (run_write _ _ _ _ _ _ p 0 r []); [exact Hw| | |done|].
  - unfold on_dev, writing. by rewrite fds_put_fd, decide_False, fds_put_file, fds_put_fd, decide_True.
  - simpl. by rewrite lookup_insert_ne, lookup_insert_eq.
  - intros e w' Hw'. eapply HQ. replace (write_at [] 0 bs) with bs in Hw' by (unfold write_at; simpl; by rewrite drop_nil, app_nil_r).
    replace (on_dev fd o D' (writing file p r bs v)) with
      (put_fd file (Fd p (0 + zlen bs) r true) (put_file p bs (on_dev fd o D' (writing file p r [] v)))); [exact Hw'|].
    unfold on_dev, writing. rewrite Z.add_0_l. store_eq.
Qed.

Lemma read_data_run fd o file p r v g L w : ready (on_dev fd o D (writing file p r [] v)) g L w -> file <> fd -> p <> dev ->
  runs (read_data fd file (all_good N) B (0 + 1 + sb) (N - 1) (zlen A)) w (fun b w' => b = true /\
    exists o', ready (on_dev fd o' D (writing file p r A v)) g L w').
Proof.
  intros Hw Hne Hp. destruct the_numbers. pose proof (whole_range _ lay (zlen A) ltac:(lia)) as (Hw1 & Hw2 & Hw3).
  pose proof (rl_block _ lay). assert (0 < whole info (zlen A) / B) as Hk by nia.
  assert (sb + 1 + whole info (zlen A) / B <= N - 1 - sb) by nia. replace (0 + 1 + sb) with (sb + 1) by lia.
  unfold read_data. apply runs_bind, (whole_blocks_run _ lay); [lia|lia|].
  apply runs_bind. eapply run_malloc; [exact Hw|]. intros q w1 Hq Nq Hw1'. destruct (Z.eqb_spec q 0); [lia|].
  rewrite all_good_first by lia. destruct (Z.eqb_spec (sb + 1) (N - 1)); [lia|].
  rewrite all_good_count by lia. assert ((N - 1 - (sb + 1)) * B <= N * B) by nia. assert (whole info (zlen A) <= (N - 1 - (sb + 1)) * B) by nia.
  rewrite u32_small by lia. destruct (Z.ltb_spec ((N - 1 - (sb + 1)) * B) (zlen A)); [lia|].
  apply runs_bind. eapply runs_mono; [eapply read_blocks_run; [|exact Hw1'|lia|]; lia|].
  intros bytes w2 (-> & o' & Hw2'). rewrite app_nil_l, Z2Nat.id, Hw3 by lia.
  assert (zlen (read_at D ((sb + 1) * B) (whole info (zlen A))) = whole info (zlen A)) as Hz by (apply zlen_read_at; lia).
  rewrite mread_read by lia. rewrite <- (read_sub D _ _ 0 (zlen A) _ eq_refl) by lia. rewrite Z.add_0_r, (hd_contents _ _ _ _ Hold).
  apply runs_bind, runs_ret. apply runs_bind. eapply side_write; [exact Hw2'|exact Hne|exact Hp|]. intros e w3 Hw3'. cbn [rv].
  rewrite i32_small, Z.eqb_refl by lia. eapply quit_free; [exact Hw3'|exact Nq|]. intros w4 Hw4. apply quit_done.
  split; [done|]. by eexists.
Qed.

(** ** The two files *)

Context (n1 n2 : list Z) (name1 : is_name n1) (name2 : is_name n2) (apart : child nvdata n1 <> child nvdata n2).
Abbreviation p1 := (child nvdata n1).
Abbreviation p2 := (child nvdata n2).
Context (other1 : p1 <> dev) (other2 : p2 <> dev).

(** The store with the two files. *)
Definition fetched ns v : store := put_file p2 M (put_file p1 A (put_dir nvdata ns v)).

Lemma side_create fd o D' v g L w p n ns Q : ready (on_dev fd o D' v) g L w -> p = child nvdata n -> is_name n -> p <> dev ->
  dirs v !! nvdata = Some ns -> dirs v !! p = None ->
  (forall file e r ns' w', 0 <= file -> file <> fd -> open_fds v !! file = None ->
    ready (on_dev fd o D' (writing file p r [] (put_dir nvdata ns' v))) g L w' -> Q (IRes file e) w') ->
  runs (psys (Sys_open p (Z.lor (Z.lor O_TRUNC O_CREAT) O_RDWR) S_IRW_UG)) w Q.
Proof.
  intros Hw -> Hn Hp Hns Hnone HQ. eapply run_create; [exact Hw|exact Hn|exact Hns|exact Hnone|by auto|].
  intros file e r ns' w' Hfile Ofile Hw'. apply on_dev_none in Ofile as [Hne Ofile]. eapply HQ; [done..|].
  replace (on_dev _ _ _ _) with (put_fd file (Fd (child nvdata n) 0 r true)
    (put_file (child nvdata n) [] (put_dir nvdata ns' (on_dev fd o D' v)))); [exact Hw'|].
  unfold on_dev, writing. change (zlen []) with 0. store_eq.
Qed.

Lemma write_files_run fd o temp v g L w ns buf : ready (on_dev fd o D v) g (temp :: L) w -> ~ temp ∈ L ->
  open_fds v !! fd = None -> files v !! dev = Some D -> dirs v !! nvdata = Some ns -> dirs v !! p1 = None -> dirs v !! p2 = None ->
  runs (write_files fd p1 p2 (all_good N) B 0 sb (N - 1) (zlen M) (zlen A) temp (overlay (read_at D 0 ((sb + 1) * B)) buf)) w
    (fun b w' => b = true /\ exists ns', ready (fetched ns' v) g L w').
Proof.
  intros Hw Nt Ofd Hdev Hns H1 H2. destruct the_numbers. unfold write_files.
  apply runs_bind. eapply side_create; [exact Hw|done|exact name1|exact other1|exact Hns|exact H1|].
  intros file e1 r1 ns1 w1 Hfile Nfile Ofile Hw1. cbn [rv].
  apply runs_bind. eapply side_create; [exact Hw1|done|exact name2|exact other2| | |].
  { unfold writing. simpl. by rewrite lookup_insert_eq. }
  { unfold writing. simpl. rewrite lookup_insert_ne; [done|]. intros E. rewrite <- E in H2. congruence. }
  intros map e2 r2 ns2 w2 Hmap Nmap Omap Hw2. cbn [rv]. unfold writing in Omap. rewrite fds_put_fd in Omap. case_decide as Nmf; [done|].
  unfold INVALID_HANDLE_VALUE. destruct (Z.eqb_spec file (-1)); [lia|]. destruct (Z.eqb_spec map (-1)); [lia|].
  assert (zlen (read_at D 0 ((sb + 1) * B)) = (sb + 1) * B) as Hz by (apply zlen_read_at; lia).
  rewrite mread_overlay by lia. apply runs_bind, runs_ret.
  rewrite <- (read_sub D 0 _ (3 * 4) (zlen M) _ eq_refl) by lia. rewrite (read_sub _ _ _ (3 * 4) (zlen M) _ (hd_map _ _ _ _ Hold)) by lia.
  rewrite read_at_app_r by (unfold map_head; rewrite !zlen_app; done). change (3 * 4 - zlen (map_head M A)) with 0. rewrite read_whole.
  apply runs_bind. eapply side_write; [exact Hw2|done|exact other2|]. intros e3 w3 Hw3. cbn [rv].
  rewrite i32_small, Z.eqb_refl by lia. cbn [negb]. apply runs_bind. eapply run_free; [exact Hw3|exact Nt|]. intros w4 Hw4.
  set (v1 := put_dir nvdata ns2 (put_dir nvdata ns1 v)).
  replace (writing map p2 r2 M (put_dir nvdata ns2 (writing file p1 r1 [] (put_dir nvdata ns1 v))))
    with (writing file p1 r1 [] (writing map p2 r2 M v1)) in Hw4 by (unfold writing, v1; store_eq).
  apply runs_bind. eapply runs_mono; [eapply read_data_run; [exact Hw4|done|exact other1]|]. intros b w5 (-> & o5 & Hw5).
  eapply quit_close; [exact Hw5|apply on_dev_fd|]. intros w6 Hw6.
  eapply quit_close; [exact Hw6| |]. { unfold on_dev, writing. by rewrite fds_drop_fd, decide_False, fds_put_fd, decide_False, fds_put_file, fds_put_fd, decide_True. }
  intros w7 Hw7. eapply quit_close; [exact Hw7| |].
  { unfold on_dev, writing. by rewrite !fds_drop_fd, !decide_False, fds_put_fd, decide_False, fds_put_file, fds_put_fd, decide_False, fds_put_file, fds_put_fd, decide_True. }
  intros w8 Hw8. apply quit_done. split; [done|]. exists ns2.
  replace (fetched ns2 v) with (drop_fd map (drop_fd file (drop_fd fd (on_dev fd o5 D (writing file p1 r1 A (writing map p2 r2 M v1)))))); [exact Hw8|].
  unfold fetched, on_dev, writing, v1. store_eq.
Qed.

Lemma read_files_run fd o temp v g L w ns buf : ready (on_dev fd o D v) g (temp :: L) w -> ~ temp ∈ L ->
  open_fds v !! fd = None -> files v !! dev = Some D -> dirs v !! nvdata = Some ns -> dirs v !! p1 = None -> dirs v !! p2 = None ->
  runs (read_files checked fd p1 p2 B sb temp (N - 1, all_good N, buf)) w
    (fun b w' => b = true /\ exists ns', ready (fetched ns' v) g L w').
Proof.
  intros Hw Nt Ofd Hdev Hns H1 H2. destruct the_numbers. unfold read_files. rewrite all_good_first by lia.
  destruct (Z.eqb_spec 0 (N - 1)); [lia|]. change (u32 (0 * B)) with 0.
  apply runs_bind. eapply seek_block_run; [exact Hw|lia|]. intros w1 Hw1. cbn [negb].
  replace (u32 (B * (sb + 1))) with ((sb + 1) * B) by (rewrite u32_small by lia; lia).
  apply runs_bind. eapply dev_read; [exact Hw1|lia|lia|lia|]. intros w2 Hw2. cbn [rres_rv rres_data].
  assert (zlen (read_at D 0 ((sb + 1) * B)) = (sb + 1) * B) as Hz by (apply zlen_read_at; lia).
  rewrite Hz. destruct (Z.leb_spec ((sb + 1) * B) 0); [lia|].
  destruct (sizes_at ((sb + 1) * B)) as [E1 E2]; [lia|lia|]. rewrite !mread32_overlay by lia. rewrite E1, E2.
  apply runs_bind, runs_ret, runs_bind, runs_ret. rewrite !size_value by lia.
  rewrite !mread_overlay by lia. apply runs_bind, runs_ret, runs_bind, runs_ret. rewrite sizes_fine. cbn [negb].
  by eapply write_files_run.
Qed.

Lemma search_region_run fd o v g L w ns : ready (on_dev fd o D v) g L w -> NvRamBlockNum g = N ->
  open_fds v !! fd = None -> files v !! dev = Some D -> dirs v !! nvdata = Some ns -> dirs v !! p1 = None -> dirs v !! p2 = None ->
  runs (search_region junk checked fd p1 p2 info (zlen M)) w (fun b w' => b = true /\ exists ns', ready (fetched ns' v) g L w').
Proof.
  intros Hw Hg Ofd Hdev Hns H1 H2. destruct the_numbers. unfold search_region.
  apply runs_bind, (map_room_run _ lay); [lia|lia|].
  replace (if B <? room info (zlen M) then 1 else 0) with sb by done.
  apply runs_bind. eapply run_malloc; [exact Hw|]. intros temp w1 Ht Nt Hw1. destruct (Z.eqb_spec temp 0); [lia|].
  apply runs_bind. eapply run_get; [exact Hw1|]. rewrite Hg.
  apply runs_bind. eapply run_malloc; [exact Hw1|]. intros b1 w2 Hb1 Nb1 Hw2. destruct (Z.eqb_spec b1 0); [lia|].
  apply runs_bind. eapply run_malloc; [exact Hw2|]. intros b2 w3 Hb2 Nb2 Hw3. destruct (Z.eqb_spec b2 0); [lia|].
  apply not_elem_of_cons in Nb1 as [Nb1t Nb1]. apply not_elem_of_cons in Nb2 as [Nb21 [Nb2t Nb2]%not_elem_of_cons].
  apply runs_bind. eapply runs_mono; [by eapply find_bitmap_run|]. intros r w4 (buf & o4 & -> & Hw4).
  apply (ready_perm _ _ _ (temp :: b2 :: b1 :: L)) in Hw4; [|solve_Permutation].
  apply runs_bind. eapply runs_mono; [eapply read_files_run; [exact Hw4| |done..]|].
  { rewrite !not_elem_of_cons. split_and!; congruence || done. }
  intros b w5 (-> & ns' & Hw5). eapply quit_buffers; [exact Hw5|done|by apply not_elem_of_cons|].
  intros w6 Hw6. apply quit_done. split; [done|]. by eexists.
Qed.

Lemma read_region_run v g L w ns : ready v g L w -> files v !! dev = Some D -> dirs v !! nvdata = Some ns ->
  dirs v !! p1 = None -> dirs v !! p2 = None ->
  runs (read_region junk checked p1 p2) w (fun b w' => b = true /\ exists ns', ready (fetched ns' v) (with_blocks info g) L w').
Proof.
  intros Hw Hdev Hns H1 H2. destruct the_numbers. unfold read_region.
  apply runs_bind. eapply geometry_run; [exact Hw|exact Hdev|exact Hl|]. intros w1 Hw1.
  apply runs_bind. eapply dev_open; [exact Hw1|exact Hdev|]. intros fd e w2 Hfd Ofd Hw2. cbn [rv]. destruct (Z.ltb_spec fd 0); [lia|].
  apply runs_bind. eapply (region_blocks_run _ lay); [exact Hw2|]. intros w3 Hw3. cbn [negb].
  apply runs_bind. eapply run_malloc; [exact Hw3|]. intros temp w4 Ht Nt Hw4. destruct (Z.eqb_spec temp 0); [lia|].
  apply runs_bind. eapply runs_mono; [eapply first_size_run; exact Hw4|]. intros s w5 (-> & o & Hw5).
  apply runs_bind. eapply run_free; [exact Hw5|exact Nt|]. intros w6 Hw6.
  by eapply search_region_run.
Qed.
End Checked.
End Fetch.
