(* ===== verification/NvPrepare.v ===== *)
(** * libnvram: what comes before a backup to the device

    The lists of the directories of the modem ([create_lists_run]), and the steps of
    [FileOp_BackupToBinRegion_All] up to the archive ([prepare_run]). *)
From S2P Require Import Prelude Posix MemFs FileStore NvTypes NvArchive NvSum NvBackup NvJournal NvVersion NvLog NvRegion.

Definition FILELIST : list Z := lit "FILELIST".

(** What a list holds. *)
Definition list_text (ns : list (list Z)) : list Z :=
  concat ((fun n => n ++ [0]) <$> filter (fun n => is_dot n = false) ns).

(** The store with the list of a directory, and of all. *)
Definition listed_dir (v : store) (d : list Z) : store :=
  match dirs v !! d with Some ns => put_file (child d FILELIST) (list_text ns) v | None => v end.

Definition listed (v : store) : store := foldl listed_dir v listed_dirs.

Section Lists.
Context `{FileStore} `{NvPlatform} (fuel : nat).
Abbreviation W := (world nvram).
Implicit Types (v : store) (w : W).

(** The directories that are there have a list already. *)
Definition listable (d : list Z) v : Prop :=
  dirs v !! d = None \/ exists ns data, dirs v !! d = Some ns /\ (length ns < fuel)%nat /\ files v !! child d FILELIST = Some data.

Lemma listable_listed d d' v : listable d v -> listable d (listed_dir v d').
Proof.
  unfold listed_dir. destruct (dirs v !! d') as [ns'|]; [|done]. intros [Hd|(ns & data & Hd & Hf & Hl)]; [by left|right].
  exists ns. rewrite files_put_file. case_decide; by eexists.
Qed.

(** A list being written, with the names [ns] left. *)
Definition listing (fd dir : Z) (p : list Z) (r : bool) (T : list Z) (ns : list (list Z)) v : store :=
  put_stream dir ns (put_fd fd (Fd p (zlen T) r true) (put_file p T v)).

Lemma list_names_run fd dir p r ns : forall n T v g L w, (length ns < n)%nat -> ready (listing fd dir p r T ns v) g L w ->
  runs (list_names n dir fd (zlen T)) w (fun ok w' => ok = true /\ ready (listing fd dir p r (T ++ list_text ns) [] v) g L w').
Proof.
  induction ns as [|d_name ns IH]; intros [|n] T v g L w Hn Hw; simpl in Hn; try lia; cbn [list_names].
  - apply runs_bind. eapply run_readdir; [exact Hw|unfold listing; by rewrite streams_put, decide_True|]. intros w1 Hw1.
    apply runs_ret. split; [done|]. unfold listing in *. rewrite put_put_stream in Hw1. unfold list_text. csimpl. by rewrite app_nil_r.
  - apply runs_bind. eapply run_readdir; [exact Hw|unfold listing; by rewrite streams_put, decide_True|]. intros w1 Hw1. cbn [head tail].
    assert (ready (listing fd dir p r T ns v) g L w1) as Hw1' by (unfold listing in *; by rewrite put_put_stream in Hw1).
    change (streq d_name (lit ".") || streq d_name (lit "..")) with (is_dot d_name).
    destruct (is_dot d_name) eqn:Edot.
    { unfold list_text. rewrite filter_cons_False by congruence. apply IH; [lia|done]. }
    assert (zlen (d_name ++ [0]) = zlen d_name + 1) as El by (rewrite zlen_app; done).
    apply runs_bind. eapply (run_write _ _ _ _ _ _ p (zlen T) r T); [exact Hw1'| | |pose proof (zlen_nonneg T); lia|].
    { unfold listing. simpl. by rewrite lookup_insert_eq. }
    { unfold listing. simpl. by rewrite lookup_insert_eq. }
    intros e w2 Hw2. cbn [rv]. rewrite El, Z.eqb_refl. cbn [negb]. rewrite write_end, El in Hw2.
    assert (zlen (T ++ d_name ++ [0]) = zlen T + zlen d_name + 1) as ET by (rewrite zlen_app, El; lia).
    apply runs_bind. eapply run_seek_set; [exact Hw2|simpl; by rewrite lookup_insert_eq|pose proof (zlen_nonneg (T ++ d_name ++ [0])); lia|].
    intros e' w3 Hw3. cbn [rv]. rewrite Z.eqb_refl. cbn [negb]. rewrite <- ET.
    assert (list_text (d_name :: ns) = (d_name ++ [0]) ++ list_text ns) as -> by (unfold list_text; by rewrite filter_cons_True).
    replace (T ++ (d_name ++ [0]) ++ list_text ns) with ((T ++ d_name ++ [0]) ++ list_text ns) by (by rewrite <- !(assoc_L app)).
    apply IH; [lia|]. unfold listing in *. rewrite ET.
    match type of Hw3 with ready ?u _ _ _ => match goal with |- ready ?u' _ _ _ => replace u' with u by store_eq end end. exact Hw3.
Qed.

Lemma create_list_run d v g L w : d <> [] -> listable d v -> ready v g L w ->
  runs (FileOp_CreatMdFileList fuel d) w (fun _ w' => ready (listed_dir v d) g L w').
Proof.
  intros Hne Hd Hw. unfold FileOp_CreatMdFileList, listed_dir. destruct Hd as [Hd|(ns & data & Hd & Hfuel & Hf)]; rewrite Hd.
  { apply runs_bind. eapply run_opendir_none; [exact Hw|exact Hd|]. intros e w1 Hw1. by apply runs_ret. }
  apply runs_bind. eapply run_opendir; [exact Hw|exact Hne|exact Hd|]. intros dir e w1 Hdir Odir Hw1. cbn [rv].
  destruct (Z.eqb_spec dir 0); [done|]. change (d ++ lit "/FILELIST") with (child d FILELIST).
  apply runs_bind. eapply run_truncate; [exact Hw1|exact Hf|by auto|]. intros fd e1 r w2 Hfd Ofd Hw2. cbn [rv]. simpl in Ofd.
  assert (ready (listing fd dir (child d FILELIST) r [] ns v) g L w2) as Hw2'.
  { unfold listing. change (zlen []) with 0.
    match type of Hw2 with ready ?u _ _ _ => match goal with |- ready ?u' _ _ _ => replace u' with u by store_eq end end. exact Hw2. }
  apply runs_bind. eapply runs_mono; [eapply (list_names_run fd dir _ r ns fuel [] v); [exact Hfuel|exact Hw2']|].
  intros ok w3 [-> Hw3]. cbn [pwhen]. rewrite app_nil_l in Hw3.
  apply runs_bind, runs_bind. eapply run_quiet; [exact Hw3|done|]. intros rc w4 Hw4. apply runs_ret.
  apply runs_bind. eapply run_close; [exact Hw4|unfold listing; simpl; by rewrite lookup_insert_eq|]. intros rc1 w5 Hw5.
  apply runs_bind. eapply run_closedir; [exact Hw5|unfold listing; simpl; by rewrite lookup_insert_eq|]. intros rc2 w6 Hw6.
  apply runs_ret. unfold listing in Hw6.
  match type of Hw6 with ready ?u _ _ _ => match goal with |- ready ?u' _ _ _ => replace u' with u by store_eq end end. exact Hw6.
Qed.

Lemma create_lists_run ds : forall v g L w, Forall (fun d => d <> [] /\ listable d v) ds -> ready v g L w ->
  runs (create_lists fuel ds) w (fun _ w' => ready (foldl listed_dir v ds) g L w').
Proof.
  induction ds as [|d ds IH]; intros v g L w Hds Hw; [done|]. apply Forall_cons_1 in Hds as [[Hne Hd] Hds]. cbn [create_lists foldl].
  apply runs_bind. eapply runs_mono; [by eapply create_list_run|]. intros b w1 Hw1. apply IH; [|done].
  eapply Forall_impl; [exact Hds|]. intros d' [? ?]. split; [done|]. by apply listable_listed.
Qed.

Lemma ready_tries_run n : forall v g L w, ready v g L w -> runs (ready_tries n) w (fun _ w' => ready v g L w').
Proof.
  induction n as [|n IH]; intros v g L w Hw; [done|]. cbn [ready_tries].
  apply runs_bind. eapply run_quiet; [exact Hw|done|]. intros [l val] w1 Hw1. destruct (_ || _).
  - by destruct n.
  - apply runs_bind. eapply run_quiet; [exact Hw1|done|]. intros r w2 Hw2. by apply IH.
Qed.

Context `{!NvDevice} `{!NvTables} `{!NvLib}.

(** The store the archive is taken from: the lists and the version file are written
    first, by the same call. *)
Definition prepared v : store := generated (listed v).

(** The files that have changed by then. *)
Definition rewritten : list (list Z) :=
  ((fun d => child d FILELIST) <$> listed_dirs) ++ (match g_akCFG_File with f :: _ => [cFileName f] | [] => [] end).

Lemma listed_dir_frame d v p : p <> child d FILELIST -> files (listed_dir v d) !! p = files v !! p.
Proof. intros Hp. unfold listed_dir. destruct (dirs v !! d); [|done]. by rewrite files_put_file, decide_False. Qed.

Lemma foldl_listed_frame ds p : forall v, p ∉ (fun d => child d FILELIST) <$> ds ->
  files (foldl listed_dir v ds) !! p = files v !! p.
Proof.
  induction ds as [|d ds IH]; intros v Hp; [done|]. csimpl in Hp. apply not_elem_of_cons in Hp as [Hd Hp].
  cbn [foldl]. rewrite IH by done. by apply listed_dir_frame.
Qed.

Lemma foldl_listed_handles ds : forall v,
  open_fds (foldl listed_dir v ds) = open_fds v /\ dir_streams (foldl listed_dir v ds) = dir_streams v.
Proof.
  induction ds as [|d ds IH]; intros v; [done|]. cbn [foldl]. destruct (IH (listed_dir v d)) as [-> ->].
  unfold listed_dir. by destruct (dirs v !! d).
Qed.

Lemma prepared_frame v p : p ∉ rewritten -> files (prepared v) !! p = files v !! p.
Proof.
  unfold rewritten. intros [Hl Hv]%not_elem_of_app. unfold prepared, generated. rewrite <- (foldl_listed_frame listed_dirs p v Hl).
  change (foldl listed_dir v listed_dirs) with (listed v). destruct g_akCFG_File as [|f fs]; [done|].
  destruct (files (listed v) !! cFileName f); [|done]. rewrite files_put_file, decide_False; [done|]. set_solver.
Qed.

Lemma prepared_handles v : open_fds (prepared v) = open_fds v /\ dir_streams (prepared v) = dir_streams v.
Proof.
  destruct (foldl_listed_handles listed_dirs v) as [<- <-]. unfold prepared, generated.
  change (foldl listed_dir v listed_dirs) with (listed v). destruct g_akCFG_File as [|f fs]; [done|]. by case_match.
Qed.

Context (tables : tables_ok) (info : mtd_info) `{!SparingLog info}.

Lemma misc_when_run level func line log v g L w D : files v !! g_NVRAM_BACKUP_DEVICE = Some D ->
  zlen D = info_size info -> ready v g L w ->
  runs (pwhen nvram_misc_log_feature (_ ← NVM_MiscLog level func line log; mret tt)) w (fun _ w' =>
    exists D', same_before_log info D D' /\ ready (put_file g_NVRAM_BACKUP_DEVICE D' v) g L w').
Proof.
  intros Hd Hl Hw. destruct nvram_misc_log_feature; cbn [pwhen].
  - apply runs_bind. eapply runs_mono; [by eapply misc_run|]. intros ok w1 (_ & D' & Hs & Hw1). apply runs_ret. by exists D'.
  - apply runs_ret. exists D. split; [done|]. by rewrite put_file_id.
Qed.

Lemma prepare_run v g L w D : Forall (fun d => listable d v) listed_dirs -> has_version (listed v) ->
  files (prepared v) !! g_NVRAM_BACKUP_DEVICE = Some D -> zlen D = info_size info -> ready v g L w ->
  runs (prepare_backup fuel) w (fun ok w' => ok = true /\
    exists D', same_before_log info D D' /\ ready (put_file g_NVRAM_BACKUP_DEVICE D' (prepared v)) g L w').
Proof.
  intros Hlist Hver Hd Hl Hw. unfold prepare_backup.
  apply runs_bind. eapply runs_mono; [by eapply ready_tries_run|]. intros b w1 Hw1.
  apply runs_bind. eapply runs_mono; [eapply create_lists_run; [|exact Hw1]|].
  { eapply Forall_impl; [|intros d Hd'; exact Hd']. apply Forall_and. split; [by repeat constructor|exact Hlist]. }
  intros [] w2 Hw2. fold (listed v) in Hw2.
  apply runs_bind. apply init_run; [done|]. intros n Hn. destruct (Z.ltb_spec n 0); [lia|].
  apply runs_bind. eapply runs_mono; [by eapply generate_run|]. intros ok w4 [-> Hw4]. cbn [negb]. fold (prepared v) in Hw4.
  apply runs_bind. eapply runs_mono; [by eapply log_run|]. intros ok w5 (-> & D1 & Hs1 & Hw5). cbn [negb].
  apply runs_bind. eapply runs_mono; [eapply misc_when_run; [by rewrite files_put_file, decide_True|by rewrite (proj1 Hs1)|exact Hw5]|].
  intros u w6 (D2 & Hs2 & Hw6). rewrite put_put_file in Hw6. apply runs_ret. split; [done|]. exists D2. split; [by etrans|done].
Qed.
End Lists.
