(* ===== verification/NvRoundTrip.v ===== *)
(** * libnvram: a backup and its restore

    What the archive is for: a restore gives every file that was backed up its
    contents ([nvram_roundtrip]), wherever and whenever it runs; an archive with
    a changed byte restores nothing ([corrupt_archive_refused]). *)
From S2P Require Import Prelude Posix MemFs FileStore NvTypes NvFiles NvArchive NvSum NvSpec NvBackup NvPaths NvRestore NvIntegrity.

Lemma lookup_put_files es : forall v p, p ∉ es.*1 -> files (put_files es v) !! p = files v !! p.
Proof.
  induction es as [|[q d] es IH]; intros v p Hp; [done|]. csimpl in *. apply not_elem_of_cons in Hp as [Hq Hp].
  cbn [put_files foldl]. etrans; [by apply IH|]. simpl. by rewrite lookup_insert_ne.
Qed.

(** Files that are written with contents that depend on the path only. *)
Lemma put_files_same (es : list entry) (m : gmap (list Z) (list Z)) : (forall p d, (p, d) ∈ es -> m !! p = Some d) -> forall v p, p ∈ es.*1 ->
  files (put_files es v) !! p = m !! p.
Proof.
  induction es as [|[q d] es IH] using rev_ind; intros Hm v p Hp; [by apply elem_of_nil in Hp|].
  unfold put_files. rewrite foldl_app. cbn [foldl fst snd]. fold (put_files es v). rewrite files_put_file.
  case_decide as Hq.
  - subst. symmetry. apply Hm. apply elem_of_app. right. by left.
  - apply IH.
    + intros p' d' H'. apply Hm. apply elem_of_app. by left.
    + rewrite fmap_app in Hp. apply elem_of_app in Hp as [Hp|Hp]; [done|]. csimpl in Hp. by apply list_elem_of_singleton in Hp.
Qed.

Section RoundTrip.
Context `{FileStore} `{NvPlatform} (unmoved : nvram_platform_header_offset = 0).
Abbreviation W := (world nvram).
Implicit Types (v : store) (w : W).

(** The files a restore creates. *)
Definition restored_entries (a : MetaData -> list entry) : list entry := concat (a <$> unmasked default_mask kinds).

Lemma archive_head a common custom M A : is_archive a common custom M A -> zlen A < 2 ^ 31 ->
  12 <= zlen M /\ map_info M = BackupInfo (Z.lxor (checksum A) (zlen A)) (u32 common) (u32 custom).
Proof.
  intros [_ (h & ts & -> & _)] Hlt. split.
  { rewrite !zlen_app. pose proof (zlen_nonneg (take (Z.to_nat header_written) h)). pose proof (zlen_nonneg ts).
    rewrite !(fun x => eq_refl : zlen (le32 x) = 4). lia. }
  unfold map_info. rewrite stored_checksum by done. f_equal; unfold word_at, read_at; change (le_value ?x) with (de32 x).
  - change (Z.to_nat 4) with (length (le32 (Z.lxor (checksum A) (zlen A)))) at 2.
    rewrite drop_app_length, take_app_length' by done. apply de32_le32.
  - rewrite (assoc_L app). rewrite drop_app_length' by done. rewrite take_app_length' by done. apply de32_le32.
Qed.

(** The restore of an archive that the store has. *)
Lemma restore_run a common custom M A v g L w : is_archive a common custom M A ->
  (forall t, t ∈ kinds -> kept t = false -> a t = []) -> zlen A < INT_MAX ->
  has_archive M A (restored_entries a) v -> legacy_path_index g = -1 -> ready v g L w ->
  runs FileOp_RestoreData_All w (fun r w' => r = true /\ exists v' g',
    grown (on_ways (restored_entries a)) (put_files (restored_entries a) v) v' /\
    stBackupFileInfo g' = map_info M /\ ready v' g' L w').
Proof.
  intros Ha Hk HA Hv Hg Hw. destruct (archive_head _ _ _ _ _ Ha) as [Hl Hi]; [unfold INT_MAX in HA; lia|].
  eapply checked_run; [exact Hw|apply Hv|apply Hv|done|unfold INT_MAX in HA; lia|]. intros w1 Hw1.
  assert (word_at M 0 = Z.lxor (checksum A) (zlen A)) as -> by (by injection Hi).
  rewrite Z.eqb_refl. eapply runs_mono.
  { eapply (restore_kinds_run unmoved a common custom M A Ha Hk HA (restored_entries a) default_mask); [..|exact Hw1]; try done.
    - by apply Forall_forall.
    - apply Forall_forall. intros t Ht. apply Forall_forall. intros e He. unfold restored_entries.
      apply list_elem_of_In, in_concat. exists (a t). split; [|by apply list_elem_of_In].
      apply list_elem_of_In. by apply list_elem_of_fmap_2. }
  intros r w2 [-> (v' & g' & V1 & V2 & V3)]. split; [done|]. exists v', g'. split_and!; [done| |done].
  by destruct V2 as [->| ->].
Qed.

(** Claim C20.  A restore from an archive creates its files of the kinds the platform
    restores, with their contents, and nothing else but directories on the way;
    the conversion of the records then runs with the numbers of the archive. *)
Theorem restore_archive conv a common custom M A v g L w : is_archive a common custom M A ->
  (forall t, t ∈ kinds -> kept t = false -> a t = []) -> zlen A < INT_MAX ->
  has_archive M A (restored_entries a) v -> legacy_path_index g = -1 -> ready v g L w ->
  exists w' v' g', FileOp_RestoreAll_NvRam conv w = conv (u32 common) (u32 custom) w' /\
    ready v' g' L w' /\ grown (on_ways (restored_entries a)) (put_files (restored_entries a) v) v'.
Proof.
  intros Ha Hk HA Hv Hg Hw. destruct (runs_result _ _ _ (restore_run _ _ _ _ _ _ _ _ _ Ha Hk HA Hv Hg Hw))
    as (w' & r & E & -> & v' & g' & V1 & V2 & V3).
  exists w', v', g'. split_and!; [|done|done]. unfold FileOp_RestoreAll_NvRam.
  rewrite (bind_ok _ _ _ _ _ E). destruct (archive_head _ _ _ _ _ Ha) as [_ Hi]; [unfold INT_MAX in HA; lia|].
  unfold pget. rewrite (bind_ok _ _ w' w' (w_glob w') eq_refl). rewrite (rd_glob _ _ _ _ V3), V2, Hi. done.
Qed.

(** Claim C16.  A single byte changed in the contents of an archive makes the restore fail
    and leave every file, directory and descriptor as it is. *)
Theorem corrupt_archive_refused a common custom M pre b b' post v g L w :
  is_archive a common custom M (pre ++ b :: post) -> b <> b' ->
  Forall is_byte (pre ++ b :: post) -> is_byte b' -> zlen (pre ++ b :: post) < 2 ^ 31 ->
  files v !! g_pcNVM_AllMap = Some M -> files v !! g_pcNVM_AllFile = Some (pre ++ b' :: post) -> ready v g L w ->
  exists w' g', FileOp_RestoreData_All w = (w', Ok false) /\ ready v g' L w'.
Proof.
  intros Ha Hne Hb Hb' Hlt HM HA Hw. destruct (archive_head _ _ _ _ _ Ha Hlt) as [Hl Hi].
  assert (zlen (pre ++ b' :: post) = zlen (pre ++ b :: post)) as El by (unfold zlen; by rewrite !length_app).
  assert (runs FileOp_RestoreData_All w (fun r w' => r = false /\ exists g', ready v g' L w')) as Hr.
  { eapply checked_run; [exact Hw|exact HM|exact HA|done|by rewrite El|]. intros w1 Hw1.
    assert (word_at M 0 = Z.lxor (checksum (pre ++ b :: post)) (zlen (pre ++ b :: post))) as -> by (by injection Hi).
    rewrite El. destruct (Z.eqb_spec (Z.lxor (checksum (pre ++ b :: post)) (zlen (pre ++ b :: post))) (Z.lxor (checksum (pre ++ b' :: post)) (zlen (pre ++ b :: post)))) as [E|].
    - apply lxor_inj in E. apply checksum_byte in E; [done|done|done|].
      apply Forall_app in Hb as [H1 H2]. apply Forall_cons_1 in H2 as [_ H2]. apply Forall_app. split; [done|by constructor].
    - apply runs_ret. split; [done|]. by eexists. }
  destruct (runs_result _ _ _ Hr) as (w' & r & E & -> & g' & Hg). by exists w', g'.
Qed.

(** Claim C30.  The two checksum functions of the library answer the same for files of the
    same contents, whatever the length. *)
Theorem checksums_agree data v g L w : files v !! g_pcNVM_AllFile = Some data ->
  files v !! g_pcNVM_AllFile_Check = Some data -> zlen data < 2 ^ 32 -> ready v g L w ->
  exists w1 w2, FileOp_ComputeCheckSum w = (w1, Ok (checksum data)) /\ ready v g L w1 /\
    FileOp_ComputeReadBackCheckSum w = (w2, Ok (checksum data)) /\ ready v g L w2.
Proof.
  intros H1 H2 Hlt Hw.
  destruct (runs_result _ _ _ (compute_checksum v g L w data Hw H1 Hlt)) as (w1 & r1 & E1 & -> & Hr1).
  destruct (runs_result _ _ _ (compute_readback v g L w data Hw H2 Hlt)) as (w2 & r2 & E2 & -> & Hr2).
  by exists w1, w2.
Qed.

(** ** Backup and restore *)

Context (junk : Z -> list Z) (fuel : nat) (junk_size : zlen (junk MAX_NAMESIZE) = MAX_NAMESIZE).

(** The files of a store that a backup takes. *)
Definition backup_entries v : list entry := all_entries (kind_entries false default_mask v).

Lemma restored_all bin v : restored_entries (kind_entries bin default_mask v) = all_entries (kind_entries bin default_mask v).
Proof.
  unfold restored_entries, all_entries, unmasked. generalize kinds. intros ts.
  induction ts as [|t ts IH]; [done|]. rewrite filter_cons. case_decide as Ht; csimpl; rewrite IH; [done|].
  assert (kind_entries bin default_mask v t = []) as ->; [|done].
  unfold kind_entries, kind_names, masked_kind. rewrite bool_decide_eq_true_2; [done|]. exact Ht.
Qed.

Lemma restored_backup v : restored_entries (kind_entries false default_mask v) = backup_entries v.
Proof. apply restored_all. Qed.

Lemma all_entries_files bin v p d : (p, d) ∈ all_entries (kind_entries bin default_mask v) -> files v !! p = Some d.
Proof.
  intros He. unfold all_entries in He. apply list_elem_of_In, in_concat in He as (l & Hl & He).
  apply list_elem_of_In, list_elem_of_fmap in Hl as (t & -> & _). apply list_elem_of_In in He.
  unfold kind_entries in He. apply list_elem_of_omap in He as (n & _ & Hn). unfold name_entry in Hn.
  destruct (is_dot n || _); [done|]. destruct (files v !! child (kind_dir t) n) as [[|b data]|] eqn:E; try done.
  injection Hn as <- <-. exact E.
Qed.

(** Claim C7.  A backup of one store, restored later into any store that has the archive:
    every file that was backed up has the contents it had then, and all other
    files are as they were. *)
Theorem nvram_roundtrip v g L w : can_backup fuel false default_mask v -> archive_place v -> gFileStartAddr g = 0 ->
  zlen (contents (backup_entries v)) < INT_MAX -> ready v g L w ->
  exists w1 v1 b, FileOp_BackupAll_NvRam junk fuel w = (w1, Ok b) /\ ready v1 g L w1 /\
    forall v2 g2 L2 w2, files v2 !! g_pcNVM_AllMap = files v1 !! g_pcNVM_AllMap ->
      files v2 !! g_pcNVM_AllFile = files v1 !! g_pcNVM_AllFile -> restorable v2 (backup_entries v) ->
      legacy_path_index g2 = -1 -> ready v2 g2 L2 w2 ->
      exists w3 v3 g3, FileOp_RestoreData_All w2 = (w3, Ok true) /\ ready v3 g3 L2 w3 /\
        forall p, files v3 !! p = if decide (p ∈ (backup_entries v).*1) then files v !! p else files v2 !! p.
Proof.
  intros Hcan Hp Hg Hlt Hw.
  destruct (runs_result _ _ _ (backup_run junk fuel unmoved junk_size false default_mask v Hcan g L w Hp Hg Hw))
    as (w1 & r & E & ns & M & _ & Ha & Hr1).
  eexists w1, _, r. split_and!; [exact E|exact Hr1|]. intros v2 g2 L2 w2 HM HA Hrest Hi Hw2.
  rewrite arch_M in HM. rewrite arch_A in HA. rewrite <- restored_backup in Hrest.
  destruct (runs_result _ _ _ (restore_run _ _ _ M _ v2 g2 L2 w2 Ha (cb_kept _ _ _ _ Hcan) Hlt ltac:(by constructor) Hi Hw2))
    as (w3 & b & E3 & -> & v3 & g3 & V1 & _ & V3).
  exists w3, v3, g3. split_and!; [done|done|]. intros p. rewrite (gr_files _ _ _ V1), restored_backup.
  case_decide as Hin.
  - apply put_files_same; [|done]. apply all_entries_files.
  - by apply lookup_put_files.
Qed.
End RoundTrip.
