(* ===== verification/NvPartition.v ===== *)
(** * libnvram: a backup to the device and its restore

    What the backup partition is for.  [FileOp_BackupToBinRegion_All] puts an
    archive of the files on the device and nothing outside its region but the
    entries of the log ([region_confined]); whatever becomes of the files,
    [FileOp_RestoreFromBinRegion] on that device gives them back
    ([region_roundtrip]); [FileOp_IsSyncWithBinRegion] compares the checksum on
    the device with that of the files ([sync_answers]). *)
From S2P Require Import Prelude Posix MemFs FileStore NvTypes NvFiles NvArchive NvSum NvMake NvSpec NvBackup NvPaths NvRestore NvIntegrity NvJournal NvVersion NvLog NvRegion NvCopy NvFetch NvPrepare NvRoundTrip.

(** ** A file outside the directories of the kinds *)

Definition elsewhere (p : list Z) : Prop := forall t n, t ∈ kinds -> child (kind_dir t) n <> p.

Section AnyFile.
Context `{NvPlatform} (fuel : nat) (bin : bool) (iMask : list Z) (v : store) (p d : list Z) (Hp : elsewhere p).

Lemma name_entry_file t n : t ∈ kinds -> name_entry bin (put_file p d v) t n = name_entry bin v t n.
Proof. intros Ht. unfold name_entry. by rewrite files_put_file, decide_False by by apply Hp. Qed.

Lemma kind_entries_file t : t ∈ kinds -> kind_entries bin iMask (put_file p d v) t = kind_entries bin iMask v t.
Proof.
  intros Ht. unfold kind_entries. change (kind_names iMask (put_file p d v) t) with (kind_names iMask v t).
  generalize (kind_names iMask v t). intros ns. induction ns as [|n ns IH]; csimpl; [done|]. by rewrite name_entry_file, IH.
Qed.

Lemma all_entries_file : all_entries (kind_entries bin iMask (put_file p d v)) = all_entries (kind_entries bin iMask v).
Proof. unfold all_entries. f_equal. apply list_fmap_ext. intros i t Ht. apply kind_entries_file. by eapply list_elem_of_lookup_2. Qed.

Lemma kind_full_file t : t ∈ kinds -> kind_full bin iMask (put_file p d v) t = kind_full bin iMask v t.
Proof.
  intros Ht. unfold kind_full. change (kind_names iMask (put_file p d v) t) with (kind_names iMask v t).
  generalize (kind_names iMask v t). intros ns. induction ns as [|n ns IH]; simpl; [done|]. rewrite IH. f_equal. f_equal.
  unfold name_empty. by rewrite files_put_file, decide_False by by apply Hp.
Qed.

Lemma all_full_file : forallb (kind_full bin iMask (put_file p d v)) kinds = forallb (kind_full bin iMask v) kinds.
Proof.
  pose proof kind_full_file as Hk. revert Hk. generalize kinds. intros ts Hk.
  induction ts as [|t ts IH]; simpl; [done|]. rewrite Hk by by left. f_equal. apply IH. intros t' Ht'. apply Hk. by right.
Qed.

Lemma can_backup_file : can_backup fuel bin iMask v -> can_backup fuel bin iMask (put_file p d v).
Proof.
  intros [C1 C2 C3 C4 C5 C6]. constructor; [done|..].
  - intros t Ht. change (kind_names iMask (put_file p d v) t) with (kind_names iMask v t). specialize (C2 t Ht).
    eapply Forall_impl; [exact C2|]. intros n [Hn|(N1 & N2 & N3 & N4)]; [by left|right].
    split_and!; [done..|]. by rewrite files_put_file, decide_False by by apply Hp.
  - done.
  - intros t Ht. rewrite kind_entries_file by done. by apply C4.
  - intros t Ht. rewrite kind_entries_file by done. by apply C5.
  - by rewrite all_entries_file.
Qed.
End AnyFile.

(** The path of an entry. *)
Lemma entry_path `{NvPlatform} bin iMask v e : e ∈ all_entries (kind_entries bin iMask v) ->
  exists t n, t ∈ kinds /\ e.1 = child (kind_dir t) n.
Proof.
  intros He. unfold all_entries in He. apply list_elem_of_In, in_concat in He as (l & Hl & He).
  apply list_elem_of_In, list_elem_of_fmap in Hl as (t & -> & Ht). apply list_elem_of_In in He.
  unfold kind_entries in He. apply list_elem_of_omap in He as (n & _ & Hn). exists t, n. split; [done|].
  unfold name_entry in Hn. destruct (is_dot n || _); [done|]. destruct (files v !! _) as [[|]|]; by simplify_eq/=.
Qed.

(** The files of an archive are not above the directories of the kinds. *)
Lemma archive_not_above t n : t ∈ kinds -> ~ on_way g_pcNVM_AllFile (child (kind_dir t) n) /\ ~ on_way g_pcNVM_AllMap (child (kind_dir t) n).
Proof.
  intros Ht. assert (take 21 (child (kind_dir t) n) = take 21 (kind_dir t)) as E.
  { unfold child. apply take_app_le. pose proof (not_all t Ht). by destruct t; try done; vm_compute; lia. }
  split; intros [_ [x Hx]]; (assert (take 21 (child (kind_dir t) n) = lit "/mnt/vendor/nvdata/Al") as E' by (by rewrite Hx));
    rewrite E' in E; by destruct t.
Qed.

Lemma is_archive_ext `{OS} `{NvPlatform} a a' common custom M A : (forall t, t ∈ kinds -> a t = a' t) ->
  is_archive a common custom M A -> is_archive a' common custom M A.
Proof.
  intros Ht [E (h & ts & E1 & E2 & E3 & E4)].
  assert (all_entries a = all_entries a') as Ea.
  { unfold all_entries. f_equal. apply list_fmap_ext. intros i t Hi. apply Ht. by eapply list_elem_of_lookup_2. }
  rewrite Ea in *. constructor; [done|]. exists h, ts. split_and!; [done|done| |done].
  intros t Hk. by rewrite <- Ht, <- E3.
Qed.

(** The bytes of a map. *)
Definition map_size `{NvPlatform} (es : list entry) : Z := 12 + header_written + 140 * zlen es.

Lemma archive_size `{OS} `{NvPlatform} (unmoved : nvram_platform_header_offset = 0) a common custom M A :
  is_archive a common custom M A -> zlen M = map_size (all_entries a).
Proof.
  intros [_ (h & ts & -> & Hz & _ & Ht)]. pose proof (written_range unmoved). apply titled_length in Ht.
  unfold map_size. rewrite !zlen_app, !(fun x => eq_refl : zlen (le32 x) = 4), Ht.
  assert (zlen (take (Z.to_nat header_written) h) = header_written) as -> by (unfold zlen in *; rewrite length_take; lia). lia.
Qed.

(** ** The device *)

Section Device.
Context `{FileStore} `{NvPlatform} `{NvDevice} (info : mtd_info) (lay : region_layout info).
Abbreviation B := (erasesize info).
Abbreviation N := (region_size info).

(** The same region of the archive. *)
Definition same_region (D D' : list Z) : Prop :=
  zlen D' = zlen D /\ take (Z.to_nat (N * B)) D' = take (Z.to_nat (N * B)) D.

Lemma holds_same M A D D' : fits info (zlen M) (zlen A) -> holds_archive info M A D -> same_region D D' -> holds_archive info M A D'.
Proof.
  intros Hf [H1 H2 H3] [_ Hs]. pose proof (fits_blocks _ lay _ _ Hf) as (S0 & S1 & S2 & S3 & S4).
  destruct Hf as [F0 F1 F2 F3 F4]. pose proof (rl_block _ lay). pose proof (rl_bitmap _ lay) as [? ?].
  pose proof (zlen_nonneg M). pose proof (zlen_nonneg A). set (sb := second_block info (zlen M)) in *.
  assert ((N - 1 - sb) * B + (sb + 1) * B = N * B) by lia. assert (B <= (sb + 1) * B) by nia.
  constructor; rewrite (read_prefix D' D (N * B)); try done; try lia.
Qed.

Lemma region_of_log D D' : same_before_log info D D' -> same_region D D'.
Proof.
  intros [Hl Ht]. split; [done|]. pose proof (region_before_log _ lay). pose proof (region_in_device _ lay) as (_ & _ & ?).
  assert (forall X : list Z, take (Z.to_nat (N * B)) X = take (Z.to_nat (N * B)) (take (Z.to_nat (log_start info)) X)) as Hx.
  { intros X. rewrite take_take. f_equal. lia. }
  by rewrite Hx, Ht, <- Hx.
Qed.

Lemma read_suffix D D' k a n : drop (Z.to_nat k) D = drop (Z.to_nat k) D' -> 0 <= k <= a -> read_at D a n = read_at D' a n.
Proof.
  intros E Hk. unfold read_at. replace (Z.to_nat a) with (Z.to_nat k + Z.to_nat (a - k))%nat by lia.
  by rewrite <- !drop_drop, E.
Qed.

(** Between the region and the log nothing changes. *)
Lemma beyond_kept M A D D1 D2 D3 a n : same_before_log info D D1 -> stored info M A D1 D2 -> same_before_log info D2 D3 ->
  N * B <= a -> 0 <= n -> a + n <= log_start info -> read_at D3 a n = read_at D a n.
Proof.
  intros [_ H1] (_ & _ & H2) [_ H3] Ha Hn Hr. pose proof (region_in_device _ lay) as (_ & _ & ?).
  rewrite (read_prefix D3 D2 (log_start info)) by (done || lia). rewrite (read_suffix D2 D1 (N * B)) by (done || lia).
  by apply (read_prefix D1 D (log_start info)); try lia.
Qed.
End Device.

(** ** The backup *)

Definition AllFileCheck : list Z := lit "AllFileCheck".
Definition AllMapCheck : list Z := lit "AllMapCheck".

Lemma is_name_AllFileCheck : is_name AllFileCheck.
Proof. split; [done|by apply no_slash_existsb]. Qed.

Lemma is_name_AllMapCheck : is_name AllMapCheck.
Proof. split; [done|by apply no_slash_existsb]. Qed.

Section Partition.
Context `{FileStore} `{NvPlatform} `{!NvDevice} `{!NvTables} `{!NvLib} (junk : Z -> list Z) (fuel : nat).
Context (unmoved : nvram_platform_header_offset = 0) (junk_size : zlen (junk MAX_NAMESIZE) = MAX_NAMESIZE).
Context (tables : tables_ok) (no_marks : nvram_check_exist_feature = false).
Context (info : mtd_info) `{!Geometry info} `{!SparingLog info} (lay : region_layout info).
Abbreviation W := (world nvram).
Implicit Types (v u : store) (w : W).
Abbreviation dev := g_NVRAM_BACKUP_DEVICE.
Abbreviation F := g_pcNVM_AllFile.
Abbreviation G := g_pcNVM_AllMap.
Abbreviation F' := g_pcNVM_AllFile_Check.
Abbreviation G' := g_pcNVM_AllMap_Check.

(** The files of an archive, and all that a backup writes. *)
Definition archive_files : list (list Z) := [F; G; F'; G'].

Definition outputs : list (list Z) := dev :: archive_files.

(** The device [D] is in the store and is none of the other files. *)
Record partition u (D : list Z) : Prop := {
  pt_device : files u !! dev = Some D;
  pt_size : zlen D = info_size info;
  pt_elsewhere : elsewhere dev;
  pt_apart : dev ∉ archive_files
}.

(** The places of the copies for the check. *)
Definition check_place u : Prop := nvram_read_back_feature = true -> dirs u !! F' = None /\ dirs u !! G' = None.


Lemma dev_apart u D : partition u D -> F <> dev /\ G <> dev /\ F' <> dev /\ G' <> dev.
Proof. intros [_ _ _ Ha]. unfold archive_files in Ha. rewrite !not_elem_of_cons in Ha. split_and!; intuition congruence. Qed.

(** A store that has the archive of [M] and [A] and a device with a copy. *)
Record copied u (M A D : list Z) : Prop := {
  cp_partition : partition u D;
  cp_file : files u !! F = Some A;
  cp_map : files u !! G = Some M;
  cp_dir : is_Some (dirs u !! nvdata);
  cp_check : check_place u;
  cp_fits : fits info (zlen M) (zlen A);
  cp_holds : holds_archive info M A D
}.

Lemma partition_put u D D' : partition u D -> zlen D' = zlen D -> partition (put_file dev D' u) D'.
Proof. intros [] E. constructor; [by rewrite files_put_file, decide_True|congruence|done..]. Qed.

Lemma copied_log u M A D D' : copied u M A D -> same_before_log info D D' -> copied (put_file dev D' u) M A D'.
Proof.
  intros [P1 P2 P3 P4 P5 P6 P7] Hs. pose proof (dev_apart _ _ P1) as (? & ? & _). constructor; try done.
  - eapply partition_put; [exact P1|apply Hs].
  - by rewrite files_put_file, decide_False.
  - by rewrite files_put_file, decide_False.
  - eapply holds_same; [done|done|exact P7|]. by apply region_of_log.
Qed.

Lemma small_sizes u M A D : copied u M A D -> 0 < zlen M < 2 ^ 31 /\ 0 < zlen A < INT_MAX.
Proof.
  intros Hc. destruct (the_numbers info lay M A (cp_fits _ _ _ _ Hc)). pose proof (region_in_device _ lay) as (? & ? & ?).
  unfold INT_MAX. nia.
Qed.

(** The copy read back, and its checksum compared. *)
Lemma read_back_run u M A D a common custom g L w : copied u M A D -> nvram_read_back_feature = true ->
  is_archive a common custom M A -> ready u g L w ->
  runs (ok ← FileOp_RestoreFromBinRegion_ToFile junk; if negb ok then mret false else FileOp_CheckBackUpResult) w
    (fun ok w' => ok = true /\ exists ns g', ready (fetched M A AllFileCheck AllMapCheck ns u) g' L w').
Proof.
  intros Hc Hback Ha Hw. destruct (small_sizes _ _ _ _ Hc) as [? HA]. unfold INT_MAX in HA.
  destruct (archive_head _ _ _ _ _ Ha) as [Hl Hi]; [lia|].
  destruct Hc as [[P1 P2 P3 P4] P5 P6 [ns Hns] P7 P8 P9]. destruct (P7 Hback) as [D1 D2].
  pose proof (dev_apart u D ltac:(by constructor)) as (_ & _ & A1 & A2).
  apply runs_bind. unfold FileOp_RestoreFromBinRegion_ToFile.
  apply runs_bind, init_run; [done|]. intros n Hn. destruct (Z.ltb_spec n 0); [lia|]. rename Hw into Hw1.
  eapply runs_mono; [eapply (read_region_run junk info lay M A D P8 P9 P2 false AllFileCheck AllMapCheck is_name_AllFileCheck is_name_AllMapCheck); [done|exact A1|exact A2|exact Hw1|done..]|].
  intros ok w2 (-> & ns' & Hw2). cbn [negb]. set (u' := fetched _ _ _ _ _ _) in *.
  assert (files u' !! G = Some M) as HG by (unfold u', fetched; rewrite !files_put_file, !decide_False by done; exact P6).
  assert (files u' !! F' = Some A) as HF by (unfold u', fetched; rewrite files_put_file, decide_False by done; by rewrite files_put_file, decide_True).
  unfold FileOp_CheckBackUpResult.
  apply runs_bind. eapply runs_mono; [by eapply get_checksum_run|]. intros ok w3 [-> Hw3]. cbn [negb].
  apply runs_bind. eapply run_get; [exact Hw3|]. cbn [stBackupFileInfo set_stBackupFileInfo].
  apply runs_bind. eapply runs_mono; [eapply compute_readback; [exact Hw3|exact HF|lia]|]. intros s w4 [-> Hw4].
  apply runs_bind. eapply run_stat; [exact Hw4|exact HF|]. intros e st w5 Hst Hw5. cbn [rv Z.ltb Z.compare].
  apply runs_ret. rewrite Hi, Hst, (u32_small (zlen A)) by lia. split; [apply Z.eqb_refl|].
  exists ns'. by eexists.
Qed.

(** What is left when a copy is on the device: it is on [D'], and other files than the
    [outputs] are as they were in [u]. *)
Record left_by u (D : list Z) v1 (D' : list Z) : Prop := {
  lb_device : files v1 !! dev = Some D';
  lb_log : same_before_log info D D';
  lb_others p : p ∉ outputs -> files v1 !! p = files u !! p;
  lb_fds : open_fds v1 = open_fds u /\ dir_streams v1 = dir_streams u
}.

Lemma finish_backup_run u M A D a common custom g L w : copied u M A D -> is_archive a common custom M A -> ready u g L w ->
  runs (finish_backup junk) w (fun ok w' => ok = true /\ exists v1 g1 D', left_by u D v1 D' /\ ready v1 g1 L w').
Proof.
  intros Hc Ha Hw. pose proof Hc as [P _ _ _ _ _ _]. pose proof (dev_apart _ _ P) as (A0 & A0' & A1 & A2). unfold finish_backup.
  apply runs_bind. eapply run_quiet; [exact Hw|done|]. intros r1 w1 Hw1.
  apply runs_bind. eapply run_quiet; [exact Hw1|done|]. intros r2 w2 Hw2.
  apply runs_bind. eapply runs_mono; [eapply log_run; [exact Hw2|apply P|apply P]|]. intros ok w3 (-> & D' & Hs & Hw3). cbn [negb].
  apply runs_bind. eapply runs_mono; [eapply (misc_when_run info); [| |exact Hw3]; [by rewrite files_put_file, decide_True|rewrite (proj1 Hs); apply P]|]. intros [] w3' (D2 & Hs2 & Hw3'). rewrite put_put_file in Hw3'.
  pose proof (transitivity Hs Hs2) as Hs'. clear dependent D'. rename D2 into D', Hs' into Hs.
  apply runs_bind. eapply run_quiet; [exact Hw3'|done|]. intros r4 w4 Hw4.
  pose proof (copied_log _ _ _ _ _ Hc Hs) as Hc'. destruct nvram_read_back_feature eqn:Eback.
  - eapply runs_mono; [by eapply read_back_run|]. intros ok w5 (-> & ns & g' & Hw5). split; [done|].
    eexists _, g', D'. split; [|exact Hw5]. constructor; [|exact Hs| |done].
    + unfold fetched. rewrite !files_put_file, !decide_False by done. simpl. by rewrite lookup_insert_eq.
    + intros p Hp. unfold outputs, archive_files in Hp. rewrite !not_elem_of_cons in Hp. destruct Hp as (? & ? & ? & ? & ? & _).
      unfold fetched. rewrite !files_put_file, !decide_False by done. by rewrite files_put_dir, files_put_file, decide_False.
  - apply runs_ret. split; [done|]. eexists _, g, D'. split; [|exact Hw4]. constructor; [|exact Hs| |done].
    + by rewrite files_put_file, decide_True.
    + intros p Hp. unfold outputs in Hp. apply not_elem_of_cons in Hp as [? _]. by rewrite files_put_file, decide_False.
Qed.

(** ** The whole backup *)

Abbreviation taken u := (kind_entries true default_mask u).
Abbreviation data u := (contents (all_entries (taken u))).

(** What a backup of the store [u] takes, and that its archive fits. *)
Record region_backup u (D : list Z) : Prop := {
  rb_partition : partition u D;
  rb_can : can_backup fuel true default_mask u;
  rb_place : archive_place u;
  rb_check : check_place u;
  rb_fits : fits info (map_size (all_entries (taken u))) (zlen (data u))
}.

Lemma region_backup_put u D D' : region_backup u D -> zlen D' = zlen D -> region_backup (put_file dev D' u) D'.
Proof.
  intros [P1 P2 P3 P4 P5] Hs. constructor; [by eapply partition_put|by apply can_backup_file; [apply P1|]|done|done|].
  by rewrite all_entries_file by apply P1.
Qed.

(** The archive of [u] is on the device [D'], which was [D]. *)
Record saved u (D : list Z) v1 (D' : list Z) : Prop := {
  sv_holds : exists M, is_archive (taken u) g_i4CFG_File_Count g_i4CFG_File_Custom_Count M (data u) /\ holds_archive info M (data u) D';
  sv_device : files v1 !! dev = Some D';
  sv_size : zlen D' = zlen D;
  sv_beyond a n : region_size info * erasesize info <= a -> 0 <= n -> a + n <= log_start info -> read_at D' a n = read_at D a n;
  sv_others p : p ∉ outputs -> files v1 !! p = files u !! p;
  sv_fds : open_fds v1 = open_fds u /\ dir_streams v1 = dir_streams u
}.

(** The archive in the files, and whether no file was empty. *)
Lemma archive_run u D g L w : region_backup u D -> gFileStartAddr g = 0 -> ready u g L w ->
  runs (FileOp_BackupDataToFiles junk fuel (Some default_mask) true) w (fun ok w' => ok = forallb (kind_full true default_mask u) kinds /\
    exists ns M, is_archive (taken u) g_i4CFG_File_Count g_i4CFG_File_Custom_Count M (data u) /\
      zlen M = map_size (all_entries (taken u)) /\ ready (arch M (data u) (put_dir nvdata ns u)) g L w').
Proof.
  intros [P1 P2 P3 P4 P5] Hg Hw. eapply runs_mono; [by eapply (backup_run junk fuel unmoved junk_size true default_mask u P2)|].
  intros ok w1 (ns & M & -> & Ha & Hw1). split; [done|]. exists ns, M. split_and!; [done|by eapply archive_size|done].
Qed.

Lemma copy_run u M A D ns g L w : partition u D -> archive_place u -> check_place u -> fits info (zlen M) (zlen A) ->
  ready (arch M A (put_dir nvdata ns u)) g L w ->
  runs (copy_archive (zlen M) (zlen A)) w (fun ok w' => ok = true /\ exists D' g' ns', stored info M A D D' /\
    copied (put_file dev D' (arch M A (put_dir nvdata ns' u))) M A D' /\
    ready (put_file dev D' (arch M A (put_dir nvdata ns' u))) g' L w').
Proof.
  intros P1 P3 P4 Hf Hw. pose proof (dev_apart _ _ P1) as (A0 & A0' & A1 & A2).
  eapply runs_mono; [eapply (copy_archive_run info lay); [exact no_marks|exact Hw|exact A0|exact A0'|apply arch_A|apply arch_M| |apply P1|exact Hf]|].
  { rewrite arch_files by done. apply P1. }
  intros ok w1 (-> & D' & p & Hst & Hw1). split; [done|]. exists D'. eexists _, ns. split_and!; [done| |exact Hw1].
  destruct Hst as (Hh & Hs & _). constructor; [| | | | |done|done].
  - constructor; [by rewrite files_put_file, decide_True|rewrite Hs; apply P1|apply P1|apply P1].
  - rewrite files_put_file, decide_False by done. apply arch_A.
  - rewrite files_put_file, decide_False by done. apply arch_M.
  - rewrite dirs_put_file. unfold arch. rewrite !dirs_put_file, dirs_put_dir, decide_True by done. by eexists.
  - intros Hb. destruct (P4 Hb). rewrite dirs_put_file. unfold arch. rewrite !dirs_put_file, !dirs_put_dir, !decide_False by done. done.
Qed.

(** The first files are those of the store before. *)
Lemma arch_others M A ns u p : p ∉ outputs -> files (arch M A (put_dir nvdata ns u)) !! p = files u !! p.
Proof.
  intros Hp. unfold outputs, archive_files in Hp. rewrite !not_elem_of_cons in Hp. destruct Hp as (_ & ? & ? & _).
  by rewrite arch_files, files_put_dir.
Qed.

Lemma full_run u D D0 g L w : region_backup u D -> same_before_log info D0 D -> gFileStartAddr g = 0 -> ready u g L w ->
  runs (ok ← FileOp_BackupDataToFiles junk fuel (Some default_mask) true;
        if negb ok then mret false
        else
          '(r, st) ← psys (Sys_stat G);
          if rv r <? 0 then mret false
          else
            let iMapFileSize := u32 (st_size st) in
            '(r, st) ← psys (Sys_stat F);
            if rv r <? 0 then mret false
            else
              ok ← copy_archive iMapFileSize (u32 (st_size st));
              if negb ok then mret false else finish_backup junk) w
    (fun ok w' => ok = forallb (kind_full true default_mask u) kinds /\ exists v1 g1 D1, ready v1 g1 L w' /\
      if ok then saved u D0 v1 D1 else left_by u D0 v1 D1).
Proof.
  intros Hb Hlog Hg Hw. pose proof Hb as [P1 P2 P3 P4 P5].
  apply runs_bind. eapply runs_mono; [by eapply archive_run|]. intros ok w1 (Eok & ns & M & Ha & Hm & Hw1).
  rewrite <- Eok. destruct ok; cbn [negb].
  2:{ apply runs_ret. split; [done|]. eexists _, g, D. split; [exact Hw1|]. constructor; [|done|apply arch_others|done].
      pose proof (dev_apart _ _ P1) as (? & ? & _). rewrite arch_files by done. apply P1. }
  rewrite <- Hm in P5. destruct (the_numbers info lay M (data u) P5). pose proof (zlen_nonneg M).
  apply runs_bind. eapply run_stat; [exact Hw1|apply arch_M|]. intros e1 st1 w2 Hst1 Hw2. cbn [rv Z.ltb Z.compare].
  apply runs_bind. eapply run_stat; [exact Hw2|apply arch_A|]. intros e2 st2 w3 Hst2 Hw3. cbn [rv Z.ltb Z.compare].
  rewrite Hst1, Hst2, !u32_small by lia.
  apply runs_bind. eapply runs_mono; [by eapply copy_run|]. intros ok w4 (-> & D1 & g1 & ns1 & Hst & Hc & Hw4). cbn [negb].
  eapply runs_mono; [by eapply finish_backup_run|]. intros ok w5 (-> & v1 & g2 & D2 & [L1 L2 L3 L4] & Hw5). split; [done|].
  exists v1, g2, D2. split; [done|]. pose proof Hst as (Hh & Hs & _). constructor.
  - exists M. split; [done|]. eapply (holds_same info lay); [exact P5|exact Hh|]. by apply (region_of_log info lay).
  - exact L1.
  - rewrite (proj1 L2), Hs. apply Hlog.
  - intros a n. by eapply (beyond_kept info lay).
  - intros p Hp. rewrite L3 by done. rewrite files_put_file, decide_False by (intros ->; apply Hp; by left). by apply arch_others.
  - exact L4.
Qed.

Lemma backup_all_run v g L w D : Forall (fun d => listable fuel d v) listed_dirs -> has_version (listed v) -> region_backup (prepared v) D ->
  gFileStartAddr g = 0 -> ready v g L w ->
  runs (FileOp_BackupToBinRegion_All junk fuel) w (fun ok w' =>
    ok = forallb (kind_full true default_mask (prepared v)) kinds /\ exists v1 g1 D1, ready v1 g1 L w' /\
      if ok then saved (prepared v) D v1 D1 else left_by (prepared v) D v1 D1).
Proof.
  intros Hlist Hver Hb Hg Hw. unfold FileOp_BackupToBinRegion_All. pose proof (rb_partition _ _ Hb) as P. set (u := prepared v) in *.
  apply runs_bind. eapply runs_mono; [by eapply (prepare_run fuel tables info); [..|apply P|apply P|]|].
  intros ok w1 (-> & D' & Hs & Hw1). cbn [negb]. fold u in Hw1.
  eapply runs_mono; [eapply (full_run (put_file dev D' u) D' D); [by eapply region_backup_put; [|apply Hs]|done|done|exact Hw1]|].
  cbv beta. rewrite all_full_file by apply P. intros ok w2 (-> & v1 & g1 & D1 & Hw2 & HS). split; [done|].
  exists v1, g1, D1. split; [done|]. pose proof (pt_elsewhere _ _ P) as Pe.
  assert (forall p, p ∉ outputs -> files (put_file dev D' u) !! p = files u !! p) as Hput.
  { intros p Hp. rewrite files_put_file, decide_False; [done|]. intros ->. apply Hp. by left. }
  destruct (forallb _ _).
  - destruct HS as [(M & S1 & S1') S2 S3 S4 S5 S6]. rewrite all_entries_file in * by done. constructor; [|done..| |].
    + exists M. split; [|done]. eapply is_archive_ext; [|exact S1]. intros t Ht. by apply kind_entries_file.
    + intros p Hp. by rewrite S5, Hput.
    + exact S6.
  - destruct HS as [S1 S2 S3 S4]. constructor; [done..| |exact S4]. intros p Hp. by rewrite S3, Hput.
Qed.

(** ** The restore *)

Lemma restorable_fetched bin mask u v M A ns : let es := all_entries (kind_entries bin mask u) in
  restorable v es -> archive_place v -> restorable (fetched M A (lit "AllFile") (lit "AllMap") ns v) es.
Proof.
  intros es [R1 R2 R3 R4 R5] ([ns0 Hns] & _). constructor; try done. rewrite Forall_forall in *. intros e He.
  destruct (R1 e He) as [C1 C2 C3 C4 C5]. destruct (entry_path _ _ _ _ He) as (t & n & Ht & E).
  destruct (archive_not_above t n Ht) as [N1 N2]. rewrite <- E in N1, N2. unfold fetched. constructor; [done|done|..].
  - rewrite !dirs_put_file, dirs_put_dir, decide_False by done. done.
  - apply map_Forall_insert_2; [exact N2|]. by apply map_Forall_insert_2; [exact N1|].
  - rewrite !dirs_put_file, dirs_put_dir, decide_False; [done|]. intros Ep. rewrite Ep in C5. congruence.
Qed.

(** A device that holds an archive of [u], in any store. *)
Lemma restore_region_run u D M v g L w : is_archive (taken u) g_i4CFG_File_Count g_i4CFG_File_Custom_Count M (data u) ->
  (forall t, t ∈ kinds -> kept t = false -> taken u t = []) -> fits info (zlen M) (zlen (data u)) ->
  holds_archive info M (data u) D -> partition v D -> archive_place v -> restorable v (all_entries (taken u)) ->
  legacy_path_index g = -1 -> ready v g L w ->
  runs (FileOp_RestoreFromBinRegion junk true) w (fun ok w' => ok = true /\ exists v' g', ready v' g' L w' /\
    forall p, p <> F -> p <> G -> files v' !! p = if decide (p ∈ (all_entries (taken u)).*1) then files u !! p else files v !! p).
Proof.
  intros Ha Hk Hf Hh P Hp Hr Hi Hw. pose proof (dev_apart _ _ P) as (A0 & A0' & _). pose proof Hp as ([ns Hns] & HG & HF).
  unfold FileOp_RestoreFromBinRegion.
  apply runs_bind, init_run; [done|]. intros n Hn. destruct (Z.ltb_spec n 0); [lia|]. rename Hw into Hw1.
  assert (forall s, forallb (fun c => negb (c =? chr_slash)) s = true -> s <> [] -> is_name s) as Hname.
  { intros s Hs Hne. split; [done|]. intros Hin. rewrite forallb_forall in Hs. apply list_elem_of_In, Hs in Hin. by apply negb_true_iff, Z.eqb_neq in Hin. }
  apply runs_bind. eapply runs_mono; [eapply (read_region_run junk info lay M (data u) D Hf Hh (pt_size _ _ P) true (lit "AllFile") (lit "AllMap"));
    [by apply Hname|by apply Hname|done|exact A0|exact A0'|exact Hw1|apply P|exact Hns|exact HF|exact HG]|].
  intros ok w2 (-> & ns' & Hw2). cbn [negb]. destruct (the_numbers info lay M (data u) Hf). pose proof (region_in_device _ lay) as (? & ? & ?).
  assert (zlen (data u) < INT_MAX) as Hlt by (unfold INT_MAX; nia).
  eapply runs_mono; [eapply (restore_run unmoved (taken u) _ _ M (data u) _ (with_blocks info g)); [exact Ha|exact Hk|exact Hlt| |exact Hi|exact Hw2]|].
  - rewrite restored_all. constructor; [by unfold fetched; rewrite files_put_file, decide_True| |by apply restorable_fetched].
    unfold fetched. rewrite files_put_file, decide_False by done. by rewrite files_put_file, decide_True.
  - intros ok w3 (-> & v' & g' & V1 & _ & V3). split; [done|]. exists v', g'. split; [done|]. intros p N1 N2.
    rewrite (gr_files _ _ _ V1), restored_all. case_decide as Hin.
    + apply put_files_same; [|done]. apply all_entries_files.
    + rewrite lookup_put_files by done. unfold fetched. rewrite !files_put_file, !decide_False by done. by rewrite files_put_dir.
Qed.

(** ** What the partition is for *)

(** Claim C8.  A backup of the files to the device succeeds, and from a device with the
    same region, in whatever store, a restore gives every file that was taken the
    contents it had and leaves all other files but the archive's as they were.  No file to
    take is empty, and the lists and the version file, which the backup rewrites, are there. *)
Theorem region_roundtrip v g L w D : let u := prepared v in
  Forall (fun d => listable fuel d v) listed_dirs -> has_version (listed v) -> region_backup u D ->
  forallb (kind_full true default_mask u) kinds = true -> gFileStartAddr g = 0 -> ready v g L w ->
  exists w1 v1 g1 D1, FileOp_BackupToBinRegion_All junk fuel w = (w1, Ok true) /\ ready v1 g1 L w1 /\ files v1 !! dev = Some D1 /\
    forall v2 g2 L2 w2 D2, same_region info D1 D2 -> partition v2 D2 -> archive_place v2 ->
      restorable v2 (all_entries (taken u)) -> legacy_path_index g2 = -1 -> ready v2 g2 L2 w2 ->
      exists w3 v3 g3, FileOp_RestoreFromBinRegion junk true w2 = (w3, Ok true) /\ ready v3 g3 L2 w3 /\
        forall p, p <> F -> p <> G ->
          files v3 !! p = if decide (p ∈ (all_entries (taken u)).*1) then files u !! p else files v2 !! p.
Proof.
  intros u Hlist Hver Hb Hfull Hg Hw.
  destruct (runs_result _ _ _ (backup_all_run v g L w D Hlist Hver Hb Hg Hw)) as (w1 & ok & E & -> & v1 & g1 & D1 & Hw1 & HS).
  fold u in HS, E. rewrite Hfull in HS, E. destruct HS as [(M & Ha & Hh) S2 S3 S4 S5 S6].
  exists w1, v1, g1, D1. split_and!; [done..|]. intros v2 g2 L2 w2 D2 Hsame P2 Hp2 Hr2 Hi2 Hw2.
  pose proof (rb_fits _ _ Hb) as Hf. rewrite <- (archive_size unmoved _ _ _ _ _ Ha) in Hf.
  destruct (runs_result _ _ _ (restore_region_run u D2 M v2 g2 L2 w2 Ha (cb_kept _ _ _ _ (rb_can _ _ Hb)) Hf
    (holds_same info lay _ _ _ _ Hf Hh Hsame) P2 Hp2 Hr2 Hi2 Hw2)) as (w3 & b & E3 & -> & v3 & g3 & V1 & V2).
  by exists w3, v3, g3.
Qed.

(** Claim C12.  A backup to the device first writes the lists of the directories of the
    modem and the version file, then fails exactly when a file to take is empty, and
    then the region is as it was.  In either case it changes nothing on the device
    between the region and the log; against the store it started in it changes no file but those lists,
    the version file, the device and the archive's (its data, its map and their
    check copies); and it leaves no descriptor and no directory open that was not. *)
Theorem region_confined v g L w D : let u := prepared v in
  Forall (fun d => listable fuel d v) listed_dirs -> has_version (listed v) -> region_backup u D -> gFileStartAddr g = 0 -> ready v g L w ->
  let full := forallb (kind_full true default_mask u) kinds in
  exists w1 v1 g1 D1, FileOp_BackupToBinRegion_All junk fuel w = (w1, Ok full) /\ ready v1 g1 L w1 /\
    (dev ∉ rewritten -> files v !! dev = Some D) /\
    files v1 !! dev = Some D1 /\ zlen D1 = zlen D /\ (full = false -> same_region info D D1) /\
    (forall a n, region_size info * erasesize info <= a -> 0 <= n -> a + n <= log_start info -> read_at D1 a n = read_at D a n) /\
    (forall p, p ∉ outputs -> files v1 !! p = files u !! p) /\
    (forall p, p ∉ outputs -> p ∉ rewritten -> files v1 !! p = files v !! p) /\
    open_fds v1 = open_fds v /\ dir_streams v1 = dir_streams v.
Proof.
  intros u Hlist Hver Hb Hg Hw full. destruct (prepared_handles v) as [Ho Hd]. fold u in Ho, Hd.
  destruct (runs_result _ _ _ (backup_all_run v g L w D Hlist Hver Hb Hg Hw)) as (w1 & ok & E & -> & v1 & g1 & D1 & Hw1 & HS).
  fold u in HS, E. fold full in HS, E. exists w1, v1, g1, D1. split; [done|]. split; [done|].
  assert (dev ∉ rewritten -> files v !! dev = Some D) as HD by (intros Hp; rewrite <- (prepared_frame v dev Hp); apply Hb).
  assert ((forall p, p ∉ outputs -> files v1 !! p = files u !! p) ->
    forall p, p ∉ outputs -> p ∉ rewritten -> files v1 !! p = files v !! p) as Hframe
    by (intros Hf p Hp Hr; rewrite Hf by done; by apply prepared_frame).
  rewrite <- Ho, <- Hd. destruct full; [destruct HS as [_ S2 S3 S4 S5 [S6 S7]]; split_and!; [done..|by apply Hframe|done|done]|].
  destruct HS as [S1 S2 S3 [S4 S5]]. split_and!; [done|done|apply S2|intros _; by apply (region_of_log info lay)| |done|by apply Hframe|done|done].
  intros a n Ha Hn Hr. pose proof (region_in_device _ lay) as (_ & _ & ?).
  apply (read_prefix D1 D (log_start info)); [apply S2|lia..].
Qed.

(** ** The question whether the device is in sync *)

(** The checksum an archive starts with. *)
Definition archive_sum (A : list Z) : Z := Z.lxor (checksum A) (zlen A).

Lemma archive_sum_range A : zlen A < 2 ^ 32 -> 0 <= archive_sum A < 2 ^ 32.
Proof. intros. pose proof (zlen_nonneg A). apply lxor_range; [apply checksum_range|lia]. Qed.

Lemma archive_starts a common custom M A : is_archive a common custom M A -> exists rest, M = le32 (archive_sum A) ++ rest.
Proof. intros [_ (h & ts & -> & _)]. by eexists. Qed.

(** The word of the device behind the two sizes and the flag. *)
Lemma stored_sum a common custom M A D : is_archive a common custom M A -> holds_archive info M A D -> 12 <= zlen M ->
  read_at D 12 4 = le32 (archive_sum A).
Proof.
  intros Ha [Hh _ _] Hl. destruct (archive_starts _ _ _ _ _ Ha) as [rest EM].
  rewrite <- (Z.add_0_l 12), (read_sub _ _ _ _ _ _ Hh) by lia. rewrite read_at_app_r by done. change (12 - zlen (map_head M A)) with 0.
  rewrite EM, read_at_app_l by done. apply read_all. done.
Qed.

(** Claim C21.  Asked about a device that holds an archive, the library answers whether
    the checksum there is that of the files as they are; if a file is empty it
    answers no. *)
Theorem sync_answers u D a common custom M A g L w : region_backup u D -> is_archive a common custom M A ->
  holds_archive info M A D -> fits info (zlen M) (zlen A) -> gFileStartAddr g = 0 -> ready u g L w ->
  exists w' v' g', FileOp_IsSyncWithBinRegion junk fuel w =
    (w', Ok (forallb (kind_full true default_mask u) kinds && (archive_sum (data u) =? archive_sum A))) /\
    ready v' g' L w' /\ forall p, p ∉ outputs -> files v' !! p = files u !! p.
Proof.
  intros Hb Ha Hh Hf Hg Hw. pose proof Hb as [P _ _ _ Hf']. pose proof (dev_apart _ _ P) as (A0 & A0' & _).
  match goal with |- exists w' v' g', _ = (w', Ok ?ans) /\ _ => set (answer := ans) end.
  assert (runs (FileOp_IsSyncWithBinRegion junk fuel) w (fun r w' => r = answer /\ exists v' g', ready v' g' L w' /\
    forall p, p ∉ outputs -> files v' !! p = files u !! p)) as Hr.
  2:{ destruct (runs_result _ _ _ Hr) as (w' & r & E & -> & v' & g' & V1 & V2). by exists w', v', g'. }
  unfold FileOp_IsSyncWithBinRegion.
  apply runs_bind, init_run; [done|]. intros n Hn. destruct (Z.ltb_spec n 0); [lia|]. rename Hw into Hw1.
  apply runs_bind. eapply runs_mono; [by eapply archive_run|]. intros ok w2 (Eok & ns & M' & Ha' & Hm' & Hw2).
  unfold answer. rewrite <- Eok. clear Eok. destruct ok; cbn [negb andb].
  2:{ apply runs_ret. split; [done|]. eexists _, g. split; [exact Hw2|]. apply arch_others. }
  destruct (the_numbers info lay M A Hf). pose proof (cb_total _ _ _ _ (rb_can _ _ Hb)) as Hlt.
  destruct (archive_head _ _ _ _ _ Ha' Hlt) as [Hl' Hi']. destruct (archive_head _ _ _ _ _ Ha) as [Hl _]; [lia|].
  set (v := arch M' (data u) (put_dir nvdata ns u)) in *.
  assert (files v !! dev = Some D) as Hd by (unfold v; rewrite arch_files by done; apply P).
  assert (files v !! G = Some M' /\ files v !! F = Some (data u)) as [HG HF] by (split; [apply arch_M|apply arch_A]).
  apply runs_bind. eapply run_stat; [exact Hw2|exact HG|]. intros e1 st1 w3 _ Hw3. cbn [rv Z.ltb Z.compare].
  apply runs_bind. eapply run_stat; [exact Hw3|exact HF|]. intros e2 st2 w4 _ Hw4. cbn [rv Z.ltb Z.compare].
  apply runs_bind. eapply dev_open; [exact Hw4|exact Hd|]. intros fd e w5 Hfd Ofd Hw5. cbn [rv]. destruct (Z.ltb_spec fd 0); [lia|].
  apply runs_bind. eapply runs_mono; [eapply get_checksum_run; [exact Hw5| |exact Hl']|]; [by unfold on_dev; simpl; rewrite lookup_insert_ne|].
  intros ok w6 [-> Hw6]. cbn [negb].
  apply runs_bind. eapply dev_seek; [exact Hw6|done|]. intros e3 w7 Hw7. cbn [rv]. change (3 * 4) with 12. cbn [Z.ltb Z.compare].
  pose proof (region_in_device _ lay) as (? & ? & ?). pose proof (pt_size _ _ P).
  apply runs_bind. eapply dev_read; [exact Hw7|done|done|lia|]. intros w8 Hw8. cbn [rres_rv rres_data].
  change (read_at D (3 * 4) 4) with (read_at D 12 4). rewrite (stored_sum _ _ _ _ _ _ Ha Hh Hl). change (zlen (le32 (archive_sum A)) =? 4) with true. cbn [negb].
  apply runs_bind. eapply run_get; [exact Hw8|]. cbn [stBackupFileInfo set_stBackupFileInfo]. rewrite Hi'. cbn [ulCheckSum].
  rewrite de32_le32, u32_small by (apply archive_sum_range; lia).
  eapply quit_close; [exact Hw8|apply on_dev_fd|]. intros w9 Hw9. apply quit_done. split; [done|].
  eexists _, _. split; [exact Hw9|]. intros p Hp. unfold on_dev. rewrite drop_put_fd by done.
  rewrite files_put_file, decide_False by (intros ->; apply Hp; by left). by apply arch_others.
Qed.
End Partition.
