(* ===== verification/NvCheck.v ===== *)
(** * libnvram: the check bytes and the encryption of a record

    Every record of the NVRAM is a file; behind its contents are two bytes, a flag and a
    check number over the contents ([NVM_SetCheckNo], [NVM_CheckFile] of libnvram.cpp).
    Records on a list of the project are encrypted in blocks while they are closed
    ([NVM_Enc_Dnc_File] of libnvram_sec.c).

    [char] is unsigned, as on ARM: the value 0xFF of a [char], which says that a check number
    could not be computed, is compared with 255.  The model's [None] is that value.

    The theorems: what the check bytes are ([set_check_run], [check_file_run]), and that
    they notice every changed byte ([changed_no_check]). *)
From S2P Require Import Prelude Posix MemFs FileStore NvTypes NvFiles NvSum NvIntegrity NvLog NvVersion.

(** The tables and switches of CFG_file_info.c that records use, and the cipher: [sec_nvram_enc]
    and [sec_nvram_dec] are weak symbols that a closed library replaces; they answer with a
    result and the block. *)
Class NvRecords := {
  g_akCFG_File_Protect : list (Z * (bool * bool));   (** lid, [meta_mode_write], [security_enable] *)
  sec_nvram_enc : list Z -> Z * list Z;
  sec_nvram_dec : list Z -> Z * list Z;
  nvram_new_partition_support : bool;
  g_new_nvram_lid : list (Z * (Z * Z));              (** lid, [start_address], [size] *)
  g_NVRAM_PROINFO_DEVICE : list Z;
  iNvRamFileMaxLID : Z
}.

Definition NVRAM_CIPHER_LEN : Z := 16.
Definition BOOT_MODE_FILE : list Z := lit "/sys/class/BOOT/BOOT/boot/boot_mode".
Definition META_MODE : Z := 49.
Definition ADVMETA_MODE : Z := 53.
Definition ENCODE : bool := true.
Definition DECODE : bool := false.

(** ** The tables *)

Section Tables.
Context `{NvPlatform} `{NvTables}.

Definition NVM_GetCfgFileTable (file_lid : Z) : option (list TCFG_FILE) :=
  if i32 (g_i4CFG_File_Count + g_i4CFG_File_Custom_Count) <=? file_lid then None
  else if file_lid <? iCustomBeginLID then Some g_akCFG_File
  else Some g_akCFG_File_Custom.

(** [iRealFileLid] *)
Definition real_lid (file_lid : Z) : Z := if iCustomBeginLID <=? file_lid then file_lid - iCustomBeginLID else file_lid.

(** The entry of a record: [None] when there is no table for it. *)
Definition cfg_entry `{OS} {X} (file_lid : Z) : prog X (option TCFG_FILE) :=
  match NVM_GetCfgFileTable file_lid with
  | None => mret None
  | Some pCfgFielTable =>
      f ← popt OutOfBounds (element pCfgFielTable (real_lid file_lid));
      mret (Some f)
  end.
End Tables.

(** The size of the contents of a record. *)
Definition rec_bytes (f : TCFG_FILE) : Z := i4RecSize f * i4RecNum f.

(** ** The encryption *)

Section Sec.
Context `{OS} `{NvPlatform} `{NvTables} `{NvRecords} (junk : Z -> list Z).
Abbreviation P := (prog nvram).

(** The entry that counts is the first of the record. *)
Definition NVM_InProtectList (file_lid : Z) (security : bool) : bool :=
  match List.find (fun e => fst e =? file_lid) g_akCFG_File_Protect with
  | Some (_, (meta_mode_write, security_enable)) => if security then security_enable else meta_mode_write
  | None => false
  end.

(** The result of [read] is unsigned: a failure counts as a success. *)
Definition NVM_CheckBootMode : P bool :=
  fdo ← psys (Sys_open BOOT_MODE_FILE O_RDONLY 0);
  let fd := rv fdo in
  if fd <? 0 then mret false
  else
    r ← psys (Sys_read fd 3);
    let data := rres_data r ++ drop (length (rres_data r)) (junk 20) in
    _ ← psys (Sys_close fd);
    if rres_rv r =? 0 then mret false
    else
      c ← popt OutOfBounds (data !! 0%nat);
      mret ((c =? META_MODE) || (c =? ADVMETA_MODE)).

Definition NVM_CheckWritePermission (IsRead : bool) (file_lid : Z) : P bool :=
  meta ← NVM_CheckBootMode;
  mret (negb (negb meta && negb IsRead && NVM_InProtectList file_lid false)).

(** The blocks of a file; the last one is left as it is when it is short. *)
Fixpoint crypt_blocks (IS_enc : bool) (fd left_size : Z) (loop_time : nat) (temp_buf : list Z) : P (option (list Z)) :=
  match loop_time with
  | O => mret (Some temp_buf)
  | S n' =>
      let length := match n' with O => if left_size =? 0 then NVRAM_CIPHER_LEN else left_size | S _ => NVRAM_CIPHER_LEN end in
      r ← psys (Sys_read fd length);
      if negb (rres_rv r =? length) then mret None
      else if length =? NVRAM_CIPHER_LEN then
        let '(sec_ret, data) := (if IS_enc then sec_nvram_enc else sec_nvram_dec) (rres_data r) in
        if negb (sec_ret =? 0) then mret None
        else crypt_blocks IS_enc fd left_size n' (temp_buf ++ data)
      else crypt_blocks IS_enc fd left_size n' (temp_buf ++ rres_data r)
  end.

Definition NVM_Enc_Dnc_File (file_lid : Z) (IS_enc : bool) : P bool :=
  if negb (NVM_InProtectList file_lid true) then mret true
  else
    e ← cfg_entry file_lid;
    match e with
    | None => mret false
    | Some f =>
        fdo ← psys (Sys_open (cFileName f) O_RDWR S_IRW_UG);
        let fd := rv fdo in
        if fd <? 0 then mret false
        else
          '(r, st) ← psys (Sys_fstat fd);
          if rv r <? 0 then _ ← psys (Sys_close fd); mret false
          else
            temp_buf ← pmalloc (st_size st);
            if temp_buf =? 0 then _ ← psys (Sys_close fd); mret false
            else
              let fail := _ ← psys (Sys_close fd); pfree temp_buf;; mret false in
              let left_size := st_size st mod NVRAM_CIPHER_LEN in
              let loop_time := st_size st / NVRAM_CIPHER_LEN + (if left_size =? 0 then 0 else 1) in
              bytes ← crypt_blocks IS_enc fd left_size (Z.to_nat loop_time) [];
              match bytes with
              | None => fail
              | Some bytes =>
                  r ← psys (Sys_lseek fd 0 SEEK_SET);
                  if rv r =? -1 then fail
                  else
                    r ← psys (Sys_write fd bytes);
                    if negb (rv r =? st_size st) then fail
                    else pfree temp_buf;; _ ← psys (Sys_close fd); mret true
              end
    end.
End Sec.

(** ** The check number *)

(** [flag] and [cCheckNo]. *)
Definition check_step (acc : bool * Z) (buf : Z) : bool * Z :=
  let '(flag, cCheckNo) := acc in
  if flag then (false, Z.lxor cCheckNo buf) else (true, u8 (cCheckNo + buf)).

Definition check_no (data : list Z) : Z := (fold_left check_step data (false, 0)).2.

Definition cFlagValue : Z := 0xAA.

Section Check.
Context `{OS}.
Abbreviation P := (prog nvram).

Fixpoint check_bytes (fd : Z) (n : nat) (acc : bool * Z) : P (option Z) :=
  match n with
  | O => mret (Some acc.2)
  | S n' =>
      r ← psys (Sys_read fd 1);
      match r with
      | RData [buf] => check_bytes fd n' (check_step acc buf)
      | _ => mret None
      end
  end.

Definition NVM_ComputeCheckNo (filepath : list Z) (IS_OLD_FILE : bool) : P (option Z) :=
  '(r, st) ← psys (Sys_stat filepath);
  if rv r <? 0 then mret None
  else
    fdo ← psys (Sys_open filepath O_RDONLY 0);
    let iFileDesc := rv fdo in
    if iFileDesc =? -1 then mret None
    else
      let ilooptimes := if IS_OLD_FILE then u32 (st_size st - 2) else u32 (st_size st) in
      c ← check_bytes iFileDesc (Z.to_nat ilooptimes) (false, 0);
      _ ← psys (Sys_close iFileDesc);
      mret c.

Definition NVM_SetCheckNo (filepath : list Z) (isOldFile : bool) : P bool :=
  c ← NVM_ComputeCheckNo filepath isOldFile;
  match c with
  | None => mret false
  | Some cCheckNo =>
      fdo ← psys (Sys_open filepath (Z.lor O_RDWR O_SYNC) 0);
      let iFileDesc := rv fdo in
      if iFileDesc =? -1 then mret false
      else
        let done (ok : bool) := _ ← psys (Sys_close iFileDesc); mret ok in
        r ← psys (Sys_lseek iFileDesc (if isOldFile then -2 else 0) SEEK_END);
        if rv r <? 0 then done false
        else
          r ← psys (Sys_write iFileDesc [cFlagValue]);
          if negb (rv r =? 1) then done false
          else
            r ← psys (Sys_write iFileDesc [cCheckNo]);
            done (rv r =? 1)
  end.

Definition NVM_CheckFile (filepath : list Z) : P bool :=
  c ← NVM_ComputeCheckNo filepath true;
  match c with
  | None => mret false
  | Some cCheckNo =>
      fdo ← psys (Sys_open filepath O_RDONLY 0);
      let iFileDesc := rv fdo in
      if iFileDesc =? -1 then mret false
      else
        r ← psys (Sys_lseek iFileDesc (-2) SEEK_END);
        if rv r <? 0 then _ ← psys (Sys_close iFileDesc); mret false
        else
          r ← psys (Sys_read iFileDesc 2);
          _ ← psys (Sys_close iFileDesc);
          match r with
          | RData [f; n] => mret ((f =? cFlagValue) && (n =? cCheckNo))
          | _ => mret false
          end
  end.

(** -1 for a wrong size, 0 for a record without check bytes, 1 for one with them. *)
Definition NVM_CheckFileSize (f : TCFG_FILE) : P Z :=
  '(r, st) ← psys (Sys_stat (cFileName f));
  if rv r <? 0 then mret (-1)
  else
    let size := match stDefualType f with
                | DEFAULT_ZERO | DEFAULT_FF | SIGNLE_DEFUALT_REC => i4RecNum f * i4RecSize f
                | MULTIPLE_DEFUALT_REC => i4RecNum f * i4RecNum f * i4RecSize f
                end in
    mret (if size =? st_size st then 0 else if size =? u32 (st_size st - 2) then 1 else -1).
End Check.

(** ** What the check bytes are *)

(** A record with contents [D]. *)
Definition with_check (D : list Z) : list Z := D ++ [cFlagValue; check_no D].

Definition contents_of (F : list Z) : list Z := take (length F - 2) F.

Lemma zlen_with_check D : zlen (with_check D) = zlen D + 2.
Proof. unfold with_check. by rewrite zlen_app. Qed.

Lemma contents_of_app D a b : contents_of (D ++ [a; b]) = D.
Proof. unfold contents_of. rewrite length_app. simpl. replace (length D + 2 - 2)%nat with (length D) by lia. apply take_app_length. Qed.

Lemma split_check F : 2 <= zlen F -> exists a b, F = contents_of F ++ [a; b].
Proof.
  intros HF. unfold contents_of. assert (length (drop (length F - 2) F) = 2%nat) as El by (rewrite length_drop; unfold zlen in HF; lia).
  destruct (drop (length F - 2) F) as [|a [|b [|]]] eqn:E; try done. exists a, b. by rewrite <- E, take_drop.
Qed.

Lemma read_one data off : 0 <= off < zlen data -> read_at data off 1 = [nth (Z.to_nat off) data 0].
Proof.
  intros Ho. unfold read_at, zlen in *. change (Z.to_nat 1) with 1%nat.
  destruct (lookup_lt_is_Some_2 data (Z.to_nat off) ltac:(lia)) as [x Hx].
  rewrite (drop_S _ x) by done. by rewrite nth_lookup, Hx.
Qed.

Lemma files_put_fd fd x v : files (put_fd fd x v) = files v.
Proof. done. Qed.

Section Runs.
Context `{FileStore}.
Implicit Types (v : store) (w : world nvram) (g : nvram) (L : list Z).

Lemma check_bytes_run fd p F wr n v g L : files v !! p = Some F -> forall off acc w, 0 <= off -> off + Z.of_nat n <= zlen F ->
  ready (at_off fd p off wr v) g L w ->
  runs (check_bytes fd n acc) w (fun r w' => r = Some (fold_left check_step (read_at F off (Z.of_nat n)) acc).2 /\
    ready (at_off fd p (off + Z.of_nat n) wr v) g L w').
Proof.
  intros HF. induction n as [|n IH]; intros off acc w Ho Hr Hw.
  - split; [done|]. by rewrite Z.add_0_r.
  - cbn [check_bytes]. apply runs_bind. eapply run_read_range; [exact Hw|exact HF|lia|lia|lia|]. intros w1 Hw1.
    rewrite read_one in * by lia. eapply runs_mono; [apply (IH (off + 1)); [lia|lia|done]|]. intros r w2 [-> Hw2].
    replace (Z.of_nat (S n)) with (1 + Z.of_nat n) by lia. rewrite read_at_app, read_one by lia.
    split; [done|]. by rewrite (Z.add_assoc off).
Qed.

(** The bytes the check number is of. *)
Definition checked_part (old : bool) (F : list Z) : list Z := if old then contents_of F else F.

Lemma compute_check_run p (old : bool) F v g L w : ready v g L w -> files v !! p = Some F -> (if old then 2 else 0) <= zlen F < 2 ^ 32 ->
  runs (NVM_ComputeCheckNo p old) w (fun r w' => r = Some (check_no (checked_part old F)) /\ ready v g L w').
Proof.
  intros Hw HF Hl. unfold NVM_ComputeCheckNo. apply runs_bind. eapply run_stat; [exact Hw|exact HF|]. intros e st w1 Hst Hw1.
  cbn [rv]. change (0 <? 0) with false. cbn iota. apply runs_bind. eapply run_open; [exact Hw1|exact HF|by auto|].
  intros fd e2 r wr w2 Hfd Ofd Hr _ Hw2. rewrite Hr in Hw2 by done. cbn [rv]. destruct (Z.eqb_spec fd (-1)) as [?|_]; [lia|]. rewrite Hst.
  assert (exists k, Z.to_nat (if old then u32 (zlen F - 2) else u32 (zlen F)) = k /\ Z.of_nat k <= zlen F /\
    read_at F 0 (Z.of_nat k) = checked_part old F) as (k & -> & Hn & Hc).
  { destruct old; rewrite u32_small by lia; eexists; (split; [done|]); unfold checked_part, contents_of, read_at, zlen in *; simpl drop.
    - split; [lia|]. f_equal. lia.
    - split; [lia|]. apply take_ge. lia. }
  apply runs_bind. eapply runs_mono; [eapply (check_bytes_run fd p F wr k v g L HF 0); [done|lia|exact Hw2]|]. intros c w3 [-> Hw3].
  apply runs_bind. eapply run_close; [exact Hw3|apply at_off_lookup|]. intros r3 w4 Hw4. unfold at_off in Hw4. rewrite drop_put_fd in Hw4 by done.
  apply runs_ret. split; [|done]. by rewrite Hc.
Qed.

Lemma set_check_run p (old : bool) F v g L w : ready v g L w -> files v !! p = Some F -> (if old then 2 else 0) <= zlen F < 2 ^ 32 ->
  runs (NVM_SetCheckNo p old) w (fun ok w' => ok = true /\ ready (put_file p (with_check (checked_part old F)) v) g L w').
Proof.
  intros Hw HF Hl. unfold NVM_SetCheckNo. apply runs_bind. eapply runs_mono; [by eapply compute_check_run|]. intros c w1 [-> Hw1].
  apply runs_bind. eapply run_open; [exact Hw1|exact HF|by auto|]. intros fd e2 r wr w2 Hfd Ofd _ Hwr Hw2. rewrite Hwr in Hw2 by done.
  cbn [rv]. destruct (Z.eqb_spec fd (-1)); [lia|]. set (D := checked_part old F).
  assert (zlen F + (if old then -2 else 0) = zlen D) as HD.
  { subst D. unfold checked_part, contents_of, zlen in *. destruct old; rewrite ?length_take; lia. }
  pose proof (zlen_nonneg D). apply runs_bind. eapply run_seek_back; [exact Hw2|by rewrite fds_put_fd, decide_True|exact HF|lia|].
  intros e3 w3 Hw3. rewrite put_put_fd, HD in Hw3. rewrite HD. cbn [rv]. destruct (Z.ltb_spec (zlen D) 0); [lia|].
  apply runs_bind. eapply run_write; [exact Hw3|by rewrite fds_put_fd, decide_True|exact HF|destruct old; lia|]. intros e4 w4 Hw4.
  cbn [rv]. change (zlen [cFlagValue]) with 1 in *. rewrite Z.eqb_refl. cbn [negb].
  rewrite <- put_fd_file, put_put_fd in Hw4. set (F1 := write_at F (zlen D) [cFlagValue]) in *.
  assert (zlen D + 1 <= zlen F1) as HF1.
  { subst F1. unfold write_at, zlen in *. rewrite !length_app, length_take. simpl. rewrite length_drop. destruct old; lia. }
  apply runs_bind. eapply run_write; [exact Hw4|by rewrite fds_put_fd, decide_True|by rewrite files_put_fd, files_put_file, decide_True|lia|].
  intros e5 w5 Hw5. change (zlen [check_no D]) with 1 in *. cbn [rv].
  apply runs_bind. eapply run_close; [exact Hw5|by rewrite fds_put_fd, decide_True|]. intros r6 w6 Hw6.
  apply runs_ret. split; [done|].
  match type of Hw6 with ready ?u _ _ _ => replace u with (put_file p (write_at F1 (zlen D + 1) [check_no D]) v) in Hw6 by store_eq end.
  subst F1. change (zlen D + 1) with (zlen D + zlen [cFlagValue]) in Hw6. rewrite write_at_app in Hw6 by (destruct old; lia).
  replace (with_check D) with (write_at F (zlen D) ([cFlagValue] ++ [check_no D])); [done|].
  unfold with_check, write_at. rewrite (drop_ge F) by (subst D; unfold zlen in *; simpl; destruct old; lia). rewrite app_nil_r. f_equal.
  subst D. unfold checked_part, contents_of, zlen in *. destruct old; rewrite Nat2Z.id; [|by rewrite take_ge].
  rewrite length_take. f_equal. lia.
Qed.

(** The check tells whether the last two bytes are those of the contents. *)
Lemma check_file_run p F v g L w : ready v g L w -> files v !! p = Some F -> 2 <= zlen F < 2 ^ 32 ->
  runs (NVM_CheckFile p) w (fun ok w' => ok = bool_decide (F = with_check (contents_of F)) /\ ready v g L w').
Proof.
  intros Hw HF Hl. unfold NVM_CheckFile. apply runs_bind. eapply runs_mono; [by eapply compute_check_run|]. intros c w1 [-> Hw1].
  apply runs_bind. eapply run_open; [exact Hw1|exact HF|by auto|]. intros fd e2 r wr w2 Hfd Ofd Hr _ Hw2. rewrite Hr in Hw2 by done.
  cbn [rv]. destruct (Z.eqb_spec fd (-1)); [lia|].
  apply runs_bind. eapply run_seek_back; [exact Hw2|by rewrite fds_put_fd, decide_True|exact HF|lia|].
  intros e3 w3 Hw3. rewrite put_put_fd in Hw3. cbn [rv]. destruct (Z.ltb_spec (zlen F + -2) 0); [lia|].
  apply runs_bind. eapply run_read_range; [exact Hw3|exact HF|lia|lia|lia|]. intros w4 Hw4.
  apply runs_bind. eapply run_close; [exact Hw4|apply at_off_lookup|]. intros r5 w5 Hw5. unfold at_off in Hw5. rewrite drop_put_fd in Hw5 by done.
  cbn [checked_part]. destruct (split_check F ltac:(lia)) as (a & b & EF). remember (contents_of F) as C eqn:EC. clear EC.
  assert (read_at F (zlen F + -2) 2 = [a; b]) as ->.
  { rewrite EF. unfold read_at. rewrite zlen_app. change (zlen [a; b]) with 2. replace (zlen C + 2 + -2) with (zlen C) by lia.
    unfold zlen. by rewrite Nat2Z.id, drop_app_length. }
  apply runs_ret. split; [|done]. rewrite EF. unfold with_check.
  destruct (Z.eqb_spec a cFlagValue) as [->|Ha]; [destruct (Z.eqb_spec b (check_no C)) as [->|Hb]|]; cbn [andb]; symmetry.
  - by apply bool_decide_eq_true_2.
  - apply bool_decide_eq_false_2. intros E. apply (inj (app _)) in E. congruence.
  - apply bool_decide_eq_false_2. intros E. apply (inj (app _)) in E. congruence.
Qed.

(** Of what size a record without check bytes is. *)
Definition table_size (f : TCFG_FILE) : Z :=
  match stDefualType f with
  | DEFAULT_ZERO | DEFAULT_FF | SIGNLE_DEFUALT_REC => i4RecNum f * i4RecSize f
  | MULTIPLE_DEFUALT_REC => i4RecNum f * i4RecNum f * i4RecSize f
  end.

Lemma check_size_run f F v g L w : ready v g L w -> files v !! cFileName f = Some F ->
  runs (NVM_CheckFileSize f) w (fun r w' =>
    r = (if table_size f =? zlen F then 0 else if table_size f =? u32 (zlen F - 2) then 1 else -1) /\ ready v g L w').
Proof.
  intros Hw HF. unfold NVM_CheckFileSize. apply runs_bind. eapply run_stat; [exact Hw|exact HF|]. intros e st w1 Hst Hw1.
  apply runs_ret. by rewrite Hst.
Qed.
End Runs.

(** ** Every changed byte is noticed *)

Lemma check_step_range acc b : is_byte acc.2 -> is_byte b -> is_byte (check_step acc b).2.
Proof.
  destruct acc as [[] c]; unfold is_byte; simpl; intros Hc Hb; [|apply Z.mod_pos_bound; lia].
  split; [apply Z.lxor_nonneg; lia|]. destruct (Z.eq_dec (Z.lxor c b) 0) as [->|Hn]; [lia|].
  change 256 with (2 ^ 8). apply Z.log2_lt_pow2; [pose proof (Z.lxor_nonneg c b); lia|].
  pose proof (Z.log2_lxor c b ltac:(lia) ltac:(lia)).
  assert (forall x, 0 <= x < 256 -> Z.log2 x < 8) as Hlog; [|pose proof (Hlog c Hc); pose proof (Hlog b Hb); lia].
  intros x Hx. destruct (Z.eq_dec x 0) as [->|]; [done|]. apply Z.log2_lt_pow2; lia.
Qed.

Lemma u8_add_inj a b c : is_byte a -> is_byte b -> u8 (a + c) = u8 (b + c) -> a = b.
Proof.
  unfold is_byte, u8. intros Ha Hb E. change (2 ^ 8) with 256 in E.
  assert ((a - b) mod 256 = 0) as Hz.
  { replace (a - b) with ((a + c) - (b + c)) by lia. by rewrite Zminus_mod, E, Z.sub_diag. }
  apply Z.mod_divide in Hz as [k Hk]; lia.
Qed.

(** Different numbers stay different, and different bytes make them different. *)
Lemma check_fold_inj l f : forall c c', Forall is_byte l -> is_byte c -> is_byte c' ->
  (fold_left check_step l (f, c)).2 = (fold_left check_step l (f, c')).2 -> c = c'.
Proof.
  revert f. induction l as [|b l IH]; intros f c c' Hl Hc Hc' E; [done|]. apply Forall_cons in Hl as [Hb Hl].
  pose proof (check_step_range (f, c) b Hc Hb). pose proof (check_step_range (f, c') b Hc' Hb).
  destruct f; simpl in *; apply IH in E; try done; [by apply lxor_inj in E|by apply u8_add_inj in E].
Qed.

Lemma check_step_inj acc b b' : is_byte b -> is_byte b' -> (check_step acc b).2 = (check_step acc b').2 -> b = b'.
Proof.
  destruct acc as [[] c]; simpl; intros Hb Hb' E.
  - rewrite !(Z.lxor_comm c) in E. by apply lxor_inj in E.
  - rewrite !(Z.add_comm c) in E. by apply u8_add_inj in E.
Qed.

Lemma check_fold_range l : forall acc, Forall is_byte l -> is_byte acc.2 -> is_byte (fold_left check_step l acc).2.
Proof.
  induction l as [|x l IH]; intros acc Hl Ha; [done|]. apply Forall_cons in Hl as [Hx Hl]. apply IH; [done|by apply check_step_range].
Qed.

Lemma check_no_changed l b b' l' : Forall is_byte (l ++ [b; b'] ++ l') -> b <> b' ->
  check_no (l ++ b :: l') <> check_no (l ++ b' :: l').
Proof.
  intros Hl Hne E. apply Hne. apply Forall_app in Hl as [Hl Hl']. simpl in Hl'. rewrite !Forall_cons in Hl'. destruct Hl' as (Hb & Hb' & Hl').
  unfold check_no in E. rewrite !fold_left_app in E. cbn [fold_left] in E.
  pose proof (check_fold_range l (false, 0) Hl ltac:(done)) as Hr.
  destruct (fold_left check_step l (false, 0)) as [f c]. apply (check_step_inj (f, c)); [done..|].
  pose proof (check_step_range (f, c) b Hr Hb). pose proof (check_step_range (f, c) b' Hr Hb').
  destruct f; cbn [check_step fst snd] in *; by eapply check_fold_inj in E.
Qed.

(** A record with one byte changed, of the contents or of the check bytes, is none. *)
Lemma changed_no_check D i x : Forall is_byte D -> is_byte x -> (i < length (with_check D))%nat -> with_check D !! i <> Some x ->
  <[i := x]> (with_check D) <> with_check (contents_of (<[i := x]> (with_check D))).
Proof.
  intros HD Hx Hi Hne E. unfold with_check in *. rewrite length_app in Hi. simpl in Hi.
  destruct (decide (i < length D)%nat) as [Hlt|Hge].
  - rewrite insert_app_l, contents_of_app in E by done. rewrite lookup_app_l in Hne by done. apply (inj (app _)) in E. injection E as E.
    destruct (lookup_lt_is_Some_2 D i Hlt) as [b Hb]. rewrite Hb in Hne.
    pose proof (take_drop_middle D i b Hb) as Em. rewrite <- Em in E at 1. rewrite insert_take_drop in E by done.
    revert E. apply check_no_changed; [|congruence]. rewrite <- Em in HD. apply Forall_app in HD as [H1 H2]. apply Forall_cons in H2 as [H2 H3].
    apply Forall_app; split; [done|]. by do 2 (apply Forall_cons; split; [done|]).
  - rewrite insert_app_r_alt, lookup_app_r in * by lia. destruct (i - length D)%nat as [|[|k]] eqn:Ek; [..|lia].
    + cbn [insert list_insert lookup list_lookup] in *. rewrite contents_of_app in E. apply (inj (app _)) in E. congruence.
    + cbn [insert list_insert lookup list_lookup] in *. rewrite contents_of_app in E. apply (inj (app _)) in E. congruence.
Qed.
