(* ===== verification/NvOneFile.v ===== *)
(** * libnvram: one record out of the backup

    [NVM_RestoreFromBinRegion_OneFile] of libnvram.cpp copies the archive from the backup
    partition, checks it as the restore of everything does, and takes one file out of it:
    that of a record, or one of a modem by its name.

    libnvram.cpp has its own [stBackupFileInfo], of which only the checksum is used, right
    after it was read: [NVM_GetCheckSum] answers with it. *)
From S2P Require Import Prelude Posix NvTypes NvFiles NvArchive NvJournal NvVersion NvRegion NvCheck.

Definition MAX_FILENUM : Z := 32767.

(** The bytes of an uninitialised [struct mtd_info_user]. *)
Definition junk_info (junk : Z -> list Z) : mtd_info :=
  let word i := le_value (take 4 (drop (4 * i) (junk 12))) in Mtd (word 0%nat) (word 1%nat) (word 2%nat).

Section OneFile.
Context `{OS} `{NvPlatform} `{!NvDevice} `{!NvTables} `{!NvRecords} (junk : Z -> list Z).
Abbreviation P := (prog nvram).

(** ** The checksums *)

Definition NVM_GetCheckSum : P (option Z) :=
  fdo ← psys (Sys_open g_pcNVM_AllMap O_RDONLY 0);
  let iFileDesc_map := rv fdo in
  if iFileDesc_map <? 0 then mret None
  else
    '(n, ulCheckSum) ← read_word iFileDesc_map 0;
    if negb (n =? 4) then quit [] [iFileDesc_map] None
    else
      '(n, _) ← read_word iFileDesc_map 0;
      if negb (n =? 4) then quit [] [iFileDesc_map] None
      else
        '(n, _) ← read_word iFileDesc_map 0;
        quit [] [iFileDesc_map] (if n =? 4 then Some ulCheckSum else None).

(** The same code as [FileOp_ComputeCheckSum]. *)
Definition NVM_ComputeCheckSum : P Z := FileOp_ComputeCheckSum.

Definition NVM_CompareCheckSum (ulCheckSum1 ulCheckSum2 : Z) : bool := ulCheckSum1 =? ulCheckSum2.

(** ** One file *)

(** The entry of a record whose file is looked for: the version file, which comes from the
    tables, is written instead. *)
Definition protect_entry (file_lid : Z) : P (option TCFG_FILE) :=
  ok ← NVM_CheckVerFile true;
  pwhen (negb ok) (_ ← NVM_GenerateFileVer true; mret tt);;
  match NVM_GetCfgFileTable file_lid with
  | None => mret None
  | Some _ => if file_lid =? iFileVerInfoLID then _ ← NVM_GenerateFileVer true; mret None else cfg_entry file_lid
  end.

(** Whether the array of a title has the name: that of the entry of the record, or
    [filename], of which one below /nvdata is compared without the prefixes. *)
Definition wanted (entry : option TCFG_FILE) (filename : option (list Z)) (cName : list Z) : bool :=
  match entry, filename with
  | Some f, _ => streq (cstring cName) (cFileName f)
  | None, Some n =>
      if starts_with (lit "/nvdata") n then streq (cstring (drop 11 cName)) (drop 7 n) else streq (cstring cName) n
  | None, None => true
  end.

(** The titles, until one is wanted; [FileInfo] is the buffer for them. *)
Fixpoint find_title (map : Z) (is_wanted : list Z -> bool) (n : nat) (FileInfo : list Z) : P (option (list Z)) :=
  match n with
  | O => mret None
  | S n' =>
      r ← psys (Sys_read map sizeof_File_Title);
      let FileInfo := <[139%nat := 0]> (overlay (rres_data r) FileInfo) in
      if is_wanted (title_name FileInfo) then mret (Some FileInfo) else find_title map is_wanted n' FileInfo
  end.

(** The contents, from [AllFile] to the file of the title.  A failed [malloc] makes the read fail. *)
Definition extract (file : Z) (FileInfo : list Z) : P bool :=
  let Filesize := title_size FileInfo in
  if (Filesize <=? 0) || (INT_MAX <=? Filesize) then mret false
  else
    buf ← pmalloc Filesize;
    s ← psys (Sys_lseek file (title_start FileInfo) SEEK_SET);
    if (rv s =? -1) || (buf =? 0) then quit [buf] [] false
    else
      r ← psys (Sys_read file Filesize);
      if negb (rres_rv r =? Filesize) then quit [buf] [] false
      else
        iFileDesc ← open_file_with_dirs_flags (cstring (title_name FileInfo)) (Z.lor (Z.lor O_CREAT O_TRUNC) O_RDWR) S_IRW_UG;
        if iFileDesc =? INVALID_HANDLE_VALUE then quit [buf] [] false
        else
          r2 ← psys (Sys_write iFileDesc (rres_data r));
          _ ← psys (Sys_close iFileDesc);
          quit [buf] [] (rv r2 =? Filesize).

(** A record must have the size of the table and its two check bytes, and valid ones when it
    is there. *)
Definition take_out (file file_lid : Z) (entry : option TCFG_FILE) (FileInfo : list Z) : P bool :=
  match entry with
  | None => extract file FileInfo
  | Some f =>
      if negb (title_size FileInfo =? rec_bytes f + 2) then mret false
      else
        ok ← extract file FileInfo;
        if negb ok then mret false
        else
          ok ← NVM_Enc_Dnc_File file_lid DECODE;
          if negb ok then mret false
          else
            ok ← NVM_CheckFile (cstring (title_name FileInfo));
            if negb ok then mret false else s ← NVM_CheckFileSize f; mret (negb (s =? -1))
  end.

(** The result, and [*find_flag]. *)
Definition NVM_RestoreFromFiles_OneFile (t : MetaData) (file_lid : Z) (filename : option (list Z)) : P (bool * bool) :=
  let of_record := (match filename with None => true | Some _ => false end) && (0 <=? file_lid) in
  entry ← (if of_record then protect_entry file_lid else mret None);
  if of_record && (match entry with None => true | Some _ => false end) then mret (false, false)
  else
    FileInfo ← pmalloc sizeof_File_Title;
    if FileInfo =? 0 then phalt NullDeref
    else
      fileo ← psys (Sys_open g_pcNVM_AllFile O_RDWR 0);
      mapo ← psys (Sys_open g_pcNVM_AllMap O_RDWR 0);
      let file := rv fileo in
      let map := rv mapo in
      if file =? INVALID_HANDLE_VALUE then
        pfree FileInfo;; pwhen (0 <? map) (_ ← psys (Sys_close map); mret tt);; mret (false, false)
      else if map =? INVALID_HANDLE_VALUE then _ ← psys (Sys_close file); pfree FileInfo;; mret (false, false)
      else
        let done (r : bool * bool) := _ ← psys (Sys_close map); _ ← psys (Sys_close file); pfree FileInfo;; mret r in
        _ ← psys (Sys_lseek map (4 + 2 * 4) SEEK_SET);
        r ← psys (Sys_read map header_read);
        let uninit := match header_layout with H3 => replicate (Z.to_nat (sizeof_header H3)) 0 | l => junk (sizeof_header l) end in
        let '(iFileNum, iFileTitleOffset) := restore_select (overlay (rres_data r) uninit) t in
        _ ← psys (Sys_lseek map iFileTitleOffset SEEK_SET);
        title ← (if iFileNum <? MAX_FILENUM
                 then find_title map (wanted entry filename) (Z.to_nat iFileNum) (replicate (Z.to_nat sizeof_File_Title) 0)
                 else mret None);
        match title with
        | None => done (false, false)
        | Some title => ok ← take_out file file_lid entry title; done (ok, true)
        end.

(** The kinds, until one has the file. *)
Fixpoint restore_one (iFileMask : list Z) (ts : list MetaData) (file_lid : Z) (filename : option (list Z)) (bRet : bool) : P bool :=
  match ts with
  | [] => mret bRet
  | t :: ts' =>
      m ← popt OutOfBounds (iFileMask !! Z.to_nat (kind_value t));
      if m =? 1 then restore_one iFileMask ts' file_lid filename bRet
      else
        '(ok, find_flag) ← NVM_RestoreFromFiles_OneFile t file_lid filename;
        if find_flag : bool then mret ok else restore_one iFileMask ts' file_lid filename ok
  end.

Definition NVM_CheckData_OneFile (file_lid : Z) (filename : option (list Z)) : P bool :=
  s ← NVM_GetCheckSum;
  match s with
  | None => mret false
  | Some ulSavedCheckSum =>
      ulCheckSum ← NVM_ComputeCheckSum;
      '(r, st) ← psys (Sys_stat g_pcNVM_AllFile);
      if rv r <? 0 then mret false
      else if negb (NVM_CompareCheckSum ulSavedCheckSum (Z.lxor ulCheckSum (u32 (st_size st)))) then mret false
      else restore_one default_mask kinds file_lid filename false
  end.

(** ** From the device *)

(** The size of the map, from the first block. *)
Definition first_sizes (fd B : Z) : P (option Z) :=
  _ ← psys (Sys_lseek fd 0 SEEK_SET);
  r ← psys (Sys_read fd B);
  let buf := overlay (rres_data r) (junk B) in
  iMapFileSize ← popt OutOfBounds (mread32 buf 0);
  iDatFileSize ← popt OutOfBounds (mread32 buf 4);
  mret (if sizes_ok true iMapFileSize iDatFileSize then Some iMapFileSize else None).

(** The search and the copy are those of [FileOp_RestoreFromBinRegion_ToFile].  A failure to get
    the geometry is logged only. *)
Definition NVM_RestoreFromBinRegion_OneFile (file_lid : Z) (filename : option (list Z)) : P bool :=
  n ← NVM_Init_again;
  if n <? 0 then mret false
  else if (file_lid <? 0) && (match filename with None => true | Some _ => false end) then mret false
  else
    i ← NVM_GetDeviceInfo g_NVRAM_BACKUP_DEVICE;
    let info := default (junk_info junk) i in
    fdo ← psys (Sys_open g_NVRAM_BACKUP_DEVICE O_RDWR 0);
    let fd := rv fdo in
    if fd <? 0 then mret false
    else
      ok ← region_blocks info;
      if negb ok then quit [] [fd] false
      else
        tempBuffer ← pmalloc (erasesize info);
        if tempBuffer =? 0 then quit [] [fd] false
        else
          s ← first_sizes fd (erasesize info);
          pfree tempBuffer;;
          match s with
          | None => quit [] [fd] false
          | Some iMapFileSize =>
              ok ← search_region junk false fd g_pcNVM_AllFile g_pcNVM_AllMap info iMapFileSize;
              if negb ok then mret false else NVM_CheckData_OneFile file_lid filename
          end.
End OneFile.
