(* ===== verification/NvRecord.v ===== *)
(** * libnvram: opening, resetting and converting the records

    A client opens a record with [NVM_GetFileDesc] and closes it with [NVM_CloseFileDesc].
    Opening compares the version of the record in the version file with that of the build,
    resets or converts the record when they differ, decrypts it and checks its check bytes;
    a record that fails is taken out of the backup or reset to its default.  Closing writes
    the check bytes and encrypts.

    The mutexes have one user here.  [TCFG_FILE.cFileVer] is four characters. *)
From S2P Require Import Prelude Posix NvTypes NvFiles NvArchive NvJournal NvVersion NvRegion NvCheck NvOneFile.

Inductive VerInfoUpdateFlag := VerUpdate | VerDel | VerAdd.

Definition DataReset : Z := 1.
Definition DataConvert : Z := 0.

Record F_INFO := FInfo {
  fi_cFileVer : list Z; fi_cFileName : list Z; fi_i4RecSize : Z; fi_i4RecNum : Z; fi_i4MaxFileLid : Z }.

Record F_ID := FId { iFileDesc : Z; ifile_lid : Z; bIsRead : bool }.

(** The size of a record of the version file. *)
Definition VERSION_SIZE : Z := FILEVERLENGTH + FILENAMELENGTH.

(** The name of a record in the version file: an array of [FILENAMELENGTH]. *)
Definition target_name (f : TCFG_FILE) : list Z := take (Z.to_nat (FILENAMELENGTH - 1)) (default [] (after_last (cFileName f))).

Section Record.
Context `{OS} `{NvPlatform} `{!NvDevice} `{!NvTables} `{!NvRecords} (junk : Z -> list Z).
Abbreviation P := (prog nvram).

(** [g_akCFG_File[iFileVerInfoLID].cFileName] *)
Definition version_path : P (list Z) := info ← popt OutOfBounds (element g_akCFG_File iFileVerInfoLID); mret (cFileName info).

(** The entry of a record, without the check of [NVM_GetCfgFileTable]. *)
Definition table_entry (file_lid : Z) : P TCFG_FILE :=
  popt OutOfBounds (element (if file_lid <? iCustomBeginLID then g_akCFG_File else g_akCFG_File_Custom) (real_lid file_lid)).

(** The version file is generated when it is not there. *)
Definition ensure_version : P bool :=
  ok ← NVM_CheckVerFile true;
  if ok : bool then mret true else NVM_GenerateFileVer true.

(** ** One record of the version file *)

(** The name at an offset; a failed read counts as an empty one. *)
Definition pread_name (fd offset : Z) : P (list Z) :=
  r ← psys (Sys_pread fd (FILENAMELENGTH - 1) offset);
  mret (cstring (rres_data r)).

(** The search for a name among the records from the [iIndex]th on: whether it is there, and [offset]. *)
Fixpoint locate (fd : Z) (name : list Z) (n : nat) (iIndex offset : Z) : P (bool * Z) :=
  match n with
  | O => mret (false, offset)
  | S n' =>
      let offset := iIndex * VERSION_SIZE in
      tempstr ← pread_name fd offset;
      if streq tempstr name then mret (true, offset) else locate fd name n' (iIndex + 1) offset
  end.

(** A record that is not in the file is added. *)
Definition locate_record (file_lid : Z) : P (option (VerInfoUpdateFlag * Z)) :=
  e ← cfg_entry file_lid;
  match e with
  | None => mret None
  | Some f =>
      path ← version_path;
      fdo ← psys (Sys_open path O_RDONLY 0);
      let fd := rv fdo in
      if fd =? -1 then mret None
      else
        '(_, st) ← psys (Sys_fstat fd);
        '(there, offset) ← locate fd (target_name f) (Z.to_nat (Z.quot (i32 (st_size st)) VERSION_SIZE)) 0 0;
        _ ← psys (Sys_close fd);
        mret (Some (if there : bool then VerUpdate else VerAdd, offset))
  end.

(** The name, in a file of the new format, and the version. *)
Definition put_version (fd file_lid : Z) (bIsNewVerInfo : bool) (offset : Z) : P unit :=
  f ← table_entry file_lid;
  pwhen bIsNewVerInfo (_ ← psys (Sys_pwrite fd (name_field (default [] (after_last (cFileName f)))) offset); mret tt);;
  _ ← psys (Sys_pwrite fd (ver_field (cFileVer f)) (offset + FILENAMELENGTH));
  mret tt.

(** The whole file through two buffers: [edit] makes the new contents from the old. *)
Definition rewrite_version (path : list Z) (fd iFileSize size : Z) (reopen : bool)
    (edit : list Z -> P (list Z)) : P bool :=
  buffer1 ← pmalloc (u32 iFileSize);
  buffer2 ← pmalloc (u32 size);
  let bufs := [buffer1; buffer2] in
  if (buffer1 =? 0) || (buffer2 =? 0) then quit bufs [fd] false
  else
    fd ← (if reopen then _ ← psys (Sys_close fd); fdo ← psys (Sys_open path O_RDWR 0); mret (rv fdo) else mret fd);
    if fd =? -1 then quit bufs [] false
    else
      r ← psys (Sys_pread fd iFileSize 0);
      if negb (rres_rv r =? iFileSize) then quit bufs [fd] false
      else
        _ ← psys (Sys_close fd);
        bytes ← edit (rres_data r);
        fdo ← psys (Sys_open path (Z.lor O_TRUNC O_RDWR) 0);
        let fd := rv fdo in
        if fd =? -1 then quit bufs [] false
        else
          r ← psys (Sys_pwrite fd bytes 0);
          if negb (rv r =? size) then _ ← psys (Sys_close fd); quit bufs [] false
          else quit bufs [fd] true.

(** The records without that at [from], [len] bytes long. *)
Definition cut_record (from len : Z) (buffer1 : list Z) : P (list Z) :=
  a ← popt OutOfBounds (mread buffer1 0 from);
  b ← popt OutOfBounds (mread buffer1 (from + len) (zlen buffer1 - (from + len)));
  mret (a ++ b).

(** The records with one more at [from]. *)
Definition insert_record (from : Z) (record buffer1 : list Z) : P (list Z) :=
  a ← popt OutOfBounds (mread buffer1 0 from);
  b ← popt OutOfBounds (mread buffer1 from (zlen buffer1 - from));
  mret (a ++ record ++ b).

(** An update changes the version of a record where the search found it; in a file of the old
    format, versions only, it goes by the number of the record. *)
Definition NVM_UpdateFileVerNo (file_lid : Z) (UpdateFlag : VerInfoUpdateFlag) : P bool :=
  l ← (match UpdateFlag with VerUpdate => locate_record file_lid | _ => mret (Some (UpdateFlag, 0)) end);
  match l with
  | None => mret false
  | Some (UpdateFlag, offset) =>
      path ← version_path;
      fdo ← psys (Sys_open path O_RDWR 0);
      let fd := rv fdo in
      if fd =? -1 then mret false
      else
        tempstr ← pread_name fd 0;
        let bIsNewVerInfo := streq tempstr strVerInfo in
        let size := if bIsNewVerInfo then VERSION_SIZE else FILEVERLENGTH in
        let place := if bIsNewVerInfo then (file_lid + 1) * VERSION_SIZE else file_lid * FILEVERLENGTH in
        match UpdateFlag with
        | VerUpdate =>
            put_version fd file_lid bIsNewVerInfo (if bIsNewVerInfo then offset else place);;
            quit [] [fd] true
        | VerDel =>
            '(r, st) ← psys (Sys_stat path);
            if rv r <? 0 then quit [] [fd] false
            else
              let iFileSize := i32 (st_size st) in
              rewrite_version path fd iFileSize (iFileSize - size) false (cut_record place size)
        | VerAdd =>
            '(r, st) ← psys (Sys_stat path);
            if rv r <? 0 then quit [] [fd] false
            else
              let iFileSize := i32 (st_size st) in
              if iFileSize <=? place then put_version fd file_lid bIsNewVerInfo place;; quit [] [fd] true
              else
                f ← table_entry file_lid;
                rewrite_version path fd iFileSize (iFileSize + size) true
                  (insert_record place (if bIsNewVerInfo then version_record f else ver_field (cFileVer f)))
        end
  end.

(** ** The version of a record *)

(** The name at the position of the descriptor. *)
Definition read_name (fd : Z) : P (list Z) :=
  r ← psys (Sys_read fd (FILENAMELENGTH - 1));
  mret (cstring (rres_data r)).

Definition read_version (fd : Z) : P (list Z) :=
  r ← psys (Sys_read fd FILEVERLENGTH);
  mret (overlay (rres_data r) [0; 0; 0; 0]).

(** A seek, and what comes after it unless it failed. *)
Definition seek_then {A} (fd offset : Z) (next : P (option A)) : P (option A) :=
  r ← psys (Sys_lseek fd offset SEEK_SET);
  if rv r =? -1 then mret None else next.

(** The version behind a name, among the records from the [i]th on. *)
Fixpoint search_version (fd : Z) (name : list Z) (n : nat) (i : Z) : P (option (list Z)) :=
  match n with
  | O => mret None
  | S n' =>
      seek_then fd (i * VERSION_SIZE) (
        tempstr ← read_name fd;
        if streq tempstr name then
          seek_then fd (i * VERSION_SIZE + FILENAMELENGTH) (b ← read_version fd; mret (Some b))
        else search_version fd name n' (i + 1))
  end.

(** Where the record is expected, or else wherever its name is. *)
Definition version_of (fd file_lid : Z) (name : list Z) : P (option (list Z)) :=
  tempstr ← read_name fd;
  if streq tempstr strVerInfo then
    seek_then fd ((file_lid + 1) * VERSION_SIZE) (
      tempstr ← read_name fd;
      if streq tempstr name then
        seek_then fd ((file_lid + 1) * VERSION_SIZE + FILENAMELENGTH) (b ← read_version fd; mret (Some b))
      else
        '(_, st) ← psys (Sys_fstat fd);
        search_version fd name (Z.to_nat (Z.quot (i32 (st_size st)) VERSION_SIZE)) 0)
  else seek_then fd (file_lid * FILEVERLENGTH) (b ← read_version fd; mret (Some b)).

Definition NVM_CmpFileVerNo (file_lid : Z) : P bool :=
  e ← cfg_entry file_lid;
  match e with
  | None => mret false
  | Some f =>
      match after_last (cFileName f) with
      | None => mret false
      | Some _ =>
          ok ← ensure_version;
          if negb ok then mret false
          else
            path ← version_path;
            fdo ← psys (Sys_open path O_RDONLY 0);
            let fd := rv fdo in
            if fd =? -1 then mret false
            else
              cFbyte ← version_of fd file_lid (target_name f);
              _ ← psys (Sys_close fd);
              mret (match cFbyte with Some b => bool_decide (ver_field (cFileVer f) = b) | None => false end)
      end
  end.

(** ** The default *)

(** A record empty and open. *)
Definition open_empty (f : TCFG_FILE) : P Z :=
  r ← psys (Sys_open (cFileName f) (Z.lor (Z.lor O_CREAT O_TRUNC) O_RDWR) S_IRW_UG);
  if rv r =? -1 then open_file_with_dirs_flags (cFileName f) (Z.lor O_CREAT O_RDWR) S_IRW_UG else mret (rv r).

(** [n] writes of the default value, each as long as the whole record.  A null pointer makes
    [write] fail, which is not looked at. *)
Fixpoint write_default (fd : Z) (f : TCFG_FILE) (n : nat) : P unit :=
  match n with
  | O => mret tt
  | S n' =>
      match pDefualtVaule f with
      | None => mret tt
      | Some d => bs ← popt OutOfBounds (mread d 0 (rec_bytes f)); _ ← psys (Sys_write fd bs); mret tt
      end;;
      write_default fd f n'
  end.

Definition fill_default (fd : Z) (f : TCFG_FILE) : P bool :=
  match stDefualType f with
  | DEFAULT_ZERO | DEFAULT_FF =>
      databuf ← pmalloc (u32 (rec_bytes f));
      if databuf =? 0 then quit [] [fd] false
      else
        _ ← psys (Sys_write fd (replicate (Z.to_nat (rec_bytes f)) (match stDefualType f with DEFAULT_ZERO => 0 | _ => 255 end)));
        quit [databuf] [fd] true
  | SIGNLE_DEFUALT_REC => write_default fd f 1;; quit [] [fd] true
  | MULTIPLE_DEFUALT_REC =>
      match pDefualtVaule f with
      | None => quit [] [fd] false
      | Some _ =>
          if i4RecNum f <? 2 then quit [] [fd] false
          else write_default fd f (Z.to_nat (i4RecNum f));; quit [] [fd] true
      end
  end.

(** [maskflag] *)
Definition in_performance (file_lid : Z) : bool := existsb (fun e => u32 file_lid =? e.2) aPerformance.

Definition NVM_ResetFileToDefault (file_lid : Z) : P bool :=
  ok ← ensure_version;
  if negb ok then mret false
  else
    match NVM_GetCfgFileTable file_lid with
    | None => mret false
    | Some _ =>
        if file_lid =? iFileVerInfoLID then NVM_GenerateFileVer true
        else
          f ← table_entry file_lid;
          fd ← open_empty f;
          if fd =? -1 then mret false
          else
            ok ← fill_default fd f;
            if negb ok then mret false
            else
              _ ← NVM_UpdateFileVerNo file_lid VerUpdate;
              ok ← (if in_performance file_lid then mret true else NVM_SetCheckNo (cFileName f) false);
              if negb ok then mret false else NVM_Enc_Dnc_File file_lid ENCODE
    end.

(** ** The check bytes *)

(** A record that the backup may have. *)
Definition in_backup (file_lid : Z) (f : TCFG_FILE) : bool :=
  let filename := take (Z.to_nat (MAX_NAMESIZE - 1)) (default [] (after_last (cFileName f))) in
  existsb (fun e => streq filename e.1 && (u32 file_lid =? e.2)) aBackupToBinRegion.

(** The label [restore]. *)
Definition recover (file_lid : Z) (f : TCFG_FILE) : P Z :=
  restored ← (if in_backup file_lid f then NVM_RestoreFromBinRegion_OneFile junk file_lid None else mret false);
  if restored : bool then mret 1
  else
    ok ← NVM_ResetFileToDefault file_lid;
    if negb ok then mret 0
    else
      ok ← NVM_Enc_Dnc_File file_lid DECODE;
      mret (if ok : bool then 1 else 0).

Definition NVM_ProtectDataFile (file_lid : Z) (Setflag : bool) : P Z :=
  e ← protect_entry file_lid;
  match e with
  | None => mret (-1)
  | Some f =>
      CheckFileSize_flag ← NVM_CheckFileSize f;
      if CheckFileSize_flag =? -1 then recover file_lid f
      else if Setflag || (CheckFileSize_flag =? 0) then
        ok ← NVM_SetCheckNo (cFileName f) (negb (CheckFileSize_flag =? 0));
        mret (if ok : bool then 1 else 0)
      else
        ok ← NVM_CheckFile (cFileName f);
        if ok : bool then mret 1 else recover file_lid f
  end.
(** ** Conversion *)

(** Whether the version file ends before the record; the descriptor is at the start. *)
Definition beyond_file (tempstr : list Z) (file_lid st_size : Z) : bool :=
  if streq tempstr strVerInfo then st_size <? (file_lid + 1 + 1) * VERSION_SIZE else st_size <? (file_lid + 1) * FILEVERLENGTH.

(** The contents, converted by the function of the table: [None] when that fails. *)
Definition convert_contents (f : TCFG_FILE) (pFileVerInfo : list Z) : P (option (list Z)) :=
  '(r, st) ← psys (Sys_stat (cFileName f));
  if rv r <? 0 then mret None
  else
    let iFileSize := i32 (st_size st) in
    fdo ← psys (Sys_open (cFileName f) O_RDWR 0);
    let fd := rv fdo in
    if fd =? -1 then mret None
    else
      pSrcMem ← pmalloc (u32 iFileSize);
      if pSrcMem =? 0 then quit [] [fd] None
      else
        r ← psys (Sys_read fd iFileSize);
        if rres_rv r <? 0 then _ ← psys (Sys_close fd); quit [pSrcMem] [] None
        else
          pDstMem ← pmalloc (u32 (rec_bytes f));
          if pDstMem =? 0 then quit [pSrcMem] [fd] None
          else
            let src := overlay (rres_data r) (replicate (Z.to_nat iFileSize) 0) in
            match NVM_DataConvertFunc f with
            | None => quit [pSrcMem; pDstMem] [fd] None
            | Some fn =>
                let '(iResult, dst) := fn (atoi pFileVerInfo) (atoi (cFileVer f)) src (replicate (Z.to_nat (rec_bytes f)) 0) in
                if negb (iResult =? 1) then quit [pSrcMem; pDstMem] [fd] None
                else
                  _ ← psys (Sys_close fd);
                  fdo ← psys (Sys_open (cFileName f) (Z.lor O_TRUNC O_RDWR) 0);
                  let fd := rv fdo in
                  if fd =? -1 then quit [pSrcMem; pDstMem] [] None
                  else
                    r ← psys (Sys_write fd dst);
                    quit [pSrcMem; pDstMem] [fd] (if rv r <? 0 then None else Some dst)
            end.

(** The version is read as three characters. *)
Definition NVM_DataVerConvert (file_lid : Z) : P Z :=
  path ← version_path;
  fdo ← psys (Sys_open path O_RDONLY 0);
  let fd := rv fdo in
  if fd =? -1 then mret 0
  else
    tempstr ← read_name fd;
    '(r, st) ← psys (Sys_stat path);
    if rv r <? 0 then quit [] [fd] 0
    else if beyond_file tempstr file_lid (st_size st) then
      ok ← NVM_ResetFileToDefault file_lid;
      quit [] [fd] (if ok : bool then 1 else 0)
    else
      e ← cfg_entry file_lid;
      match e with
      | None => quit [] [fd] 0
      | Some f =>
          let offset := if streq tempstr strVerInfo then (file_lid + 1) * VERSION_SIZE + FILENAMELENGTH
                        else file_lid * FILEVERLENGTH in
          r ← psys (Sys_lseek fd offset SEEK_SET);
          if rv r =? -1 then quit [] [fd] 0
          else
            r ← psys (Sys_read fd (FILEVERLENGTH - 1));
            _ ← psys (Sys_close fd);
            c ← convert_contents f (cstring (rres_data r));
            match c with
            | None => mret 0
            | Some _ =>
                _ ← NVM_UpdateFileVerNo file_lid VerUpdate;
                if in_performance file_lid then mret 1
                else n ← NVM_ProtectDataFile file_lid true; mret (if n =? 1 then 1 else 0)
            end
      end.

(** [n] updates of the version file, from record [iLid] on. *)
Fixpoint update_versions (flag : VerInfoUpdateFlag) (n : nat) (iLid : Z) : P bool :=
  match n with
  | O => mret true
  | S n' =>
      ok ← NVM_UpdateFileVerNo iLid flag;
      if ok : bool then update_versions flag n' (iLid + 1) else mret false
  end.

(** The updates for the records from [from] to [limit]. *)
Definition update_range (flag : VerInfoUpdateFlag) (from limit : Z) : P bool := update_versions flag (Z.to_nat (limit - from)) from.

(** The version file of a build with other numbers of records: records are added behind the
    common and the custom ones, and those too many are deleted. *)
Definition NVM_CheckFileNum (iOldCommonFileNum iOldCustomFileNum : Z) : P bool :=
  let iNewCustomFileNum := u32 (iNvRamFileMaxLID - iCustomBeginLID) in
  let common := u32 iCustomBeginLID in
  if (iOldCommonFileNum =? 0) || (iOldCustomFileNum =? 0) then mret true
  else if (iOldCommonFileNum =? common) && (iOldCustomFileNum =? iNewCustomFileNum) then mret true
  else
    ok ← (if (iOldCommonFileNum <? common) && (0 <? iOldCommonFileNum)
          then update_range VerAdd iOldCommonFileNum common else mret true);
    if negb ok then mret false
    else
      ok ← (if (iOldCustomFileNum <? iNewCustomFileNum) && (0 <? iOldCustomFileNum)
            then update_range VerAdd (u32 (iCustomBeginLID + iOldCustomFileNum)) (u32 (iCustomBeginLID + iNewCustomFileNum))
            else mret true);
      if negb ok then mret false
      else
        ok ← (if common <? iOldCommonFileNum then update_range VerDel common iOldCommonFileNum else mret true);
        if negb ok then mret false
        else if iNewCustomFileNum <? iOldCustomFileNum
        then update_range VerDel (u32 (iOldCommonFileNum + iNewCustomFileNum)) (u32 (iOldCommonFileNum + iOldCustomFileNum))
        else mret true.

(** A record whose version differs is converted, or emptied and reset; [None] is the return
    [false], and the flag of the result says that a size does not match. *)
Definition convert_record (iLID : Z) (bWrongFileVer : bool) : P (option bool) :=
  e ← cfg_entry iLID;
  match e with
  | None => mret None
  | Some f =>
      '(r, st) ← psys (Sys_stat (cFileName f));
      if rv r <? 0 then mret (Some bWrongFileVer)
      else
        same ← NVM_CmpFileVerNo iLID;
        if same : bool then
          mret (Some (bWrongFileVer || negb ((rec_bytes f =? st_size st) || (rec_bytes f + 2 =? st_size st))))
        else
          n ← NVM_DataVerConvert iLID;
          if negb (n =? 0) then mret (Some bWrongFileVer)
          else
            fdo ← psys (Sys_open (cFileName f) (Z.lor O_TRUNC O_RDWR) 0);
            if rv fdo =? -1 then mret None
            else
              _ ← psys (Sys_close (rv fdo));
              ok ← NVM_ResetFileToDefault iLID;
              mret (if ok : bool then Some bWrongFileVer else None)
  end.

Fixpoint convert_records (n : nat) (iLID : Z) (bWrongFileVer : bool) : P bool :=
  match n with
  | O => mret (negb bWrongFileVer)
  | S n' =>
      r ← convert_record iLID bWrongFileVer;
      match r with
      | None => mret false
      | Some b => convert_records n' (iLID + 1) b
      end
  end.

Definition NVM_DataVerConvertAll (iOldCommonFileNum iOldCustomFileNum : Z) : P bool :=
  if (iOldCommonFileNum =? 0) || (iOldCustomFileNum =? 0) then mret true
  else
    ok ← NVM_CheckVerFile true;
    if negb ok then mret false
    else
      ok ← NVM_CheckFileNum iOldCommonFileNum iOldCustomFileNum;
      if negb ok then mret false else convert_records (Z.to_nat (iNvRamFileMaxLID - 1)) 1 false.

(** ** Records by number *)

Definition NVM_CheckFileID (file_lid rec_id : Z) : P bool :=
  e ← cfg_entry file_lid;
  match e with
  | None => mret false
  | Some f => mret (negb ((i4RecNum f <? rec_id) || (i32 (g_i4CFG_File_Count + g_i4CFG_File_Custom_Count) <=? file_lid)))
  end.

(** The record is there after this, of this version. *)
Definition reset_unless_there (file_lid : Z) (f : TCFG_FILE) : P bool :=
  '(r, st) ← psys (Sys_stat (cFileName f));
  if (rv r =? -1) || negb (S_ISREG (st_mode st)) then NVM_ResetFileToDefault file_lid else mret true.

Definition NVM_CheckFileInfo (file_lid rec_id : Z) : P bool :=
  e ← cfg_entry file_lid;
  match e with
  | None => mret false
  | Some f =>
      ok ← NVM_CheckFileID file_lid rec_id;
      if negb ok then mret false
      else
        ok ← NVM_CheckVerFile true;
        if ok : bool then
          same ← NVM_CmpFileVerNo file_lid;
          if same : bool then reset_unless_there file_lid f else NVM_ResetFileToDefault file_lid
        else
          ok ← NVM_GenerateFileVer true;
          if ok : bool then NVM_ResetFileToDefault file_lid else mret false
  end.

(** A record of another version: reset at once, or when the conversion fails.  [flags] empties it. *)
Definition reset_or_convert (file_lid : Z) (f : TCFG_FILE) (flags mode : Z) : P bool :=
  n ← (if bDataProcessingType f =? DataReset then mret 0 else NVM_DataVerConvert file_lid);
  if negb (n =? 0) then mret true
  else
    fdo ← psys (Sys_open (cFileName f) flags mode);
    if rv fdo =? -1 then mret false
    else
      _ ← psys (Sys_close (rv fdo));
      NVM_ResetFileToDefault file_lid.

(** The record and the version file made right. *)
Definition refresh_record (file_lid : Z) (f : TCFG_FILE) : P bool :=
  ok ← NVM_CheckVerFile true;
  if ok : bool then
    same ← NVM_CmpFileVerNo file_lid;
    if same : bool then reset_unless_there file_lid f
    else reset_or_convert file_lid f (Z.lor O_CREAT O_TRUNC) S_IRW_UG
  else
    ok ← NVM_GenerateFileVer true;
    if ok : bool then NVM_ResetFileToDefault file_lid else mret false.

Definition NVM_ReadFileVerInfo (file_lid : Z) : P F_INFO :=
  let empty := FInfo [0; 0; 0; 0] (replicate (Z.to_nat FILENAMELENGTH) 0) 0 0 0 in
  e ← cfg_entry file_lid;
  match e with
  | None => mret empty
  | Some f =>
      ok ← refresh_record file_lid f;
      if negb ok then mret empty
      else
        path ← version_path;
        fdo ← psys (Sys_open path O_RDONLY 0);
        let fd := rv fdo in
        if fd =? -1 then mret empty
        else
          tempstr ← read_name fd;
          let offset := if streq tempstr strVerInfo then (file_lid + 1) * VERSION_SIZE + FILENAMELENGTH
                        else file_lid * FILEVERLENGTH in
          b ← seek_then fd offset (b ← read_version fd; mret (Some b));
          _ ← psys (Sys_close fd);
          mret (match b with
                | None => empty
                | Some byte => FInfo byte (cFileName f ++ replicate (Z.to_nat FILENAMELENGTH - length (cFileName f)) 0)
                                 (i4RecSize f) (i4RecNum f) (i32 (g_i4CFG_File_Count + g_i4CFG_File_Custom_Count))
                end)
  end.

(** ** Opening and closing *)

(** [*index], when the record is in the new partition. *)
Definition NVM_InSpecialLidList (file_lid : Z) : option (Z * Z) :=
  match List.find (fun e => file_lid =? e.1) g_new_nvram_lid with Some e => Some e.2 | None => None end.

Definition special (file_lid : Z) : option (Z * Z) := if nvram_new_partition_support then NVM_InSpecialLidList file_lid else None.

(** [Solve_Special_Lid]: the descriptor, and [*pRecSize].  [pRec] is [*pRecSize] and [*pRecNum],
    [None] for null pointers. *)
Definition open_special (IsRead : bool) (start_address size : Z) (pRec : option (Z * Z)) : P (Z * option (Z * Z)) :=
  let cMtdDevName := take 127 g_NVRAM_PROINFO_DEVICE in
  i ← NVM_GetDeviceInfo cMtdDevName;
  match i with
  | None => mret (-1, pRec)
  | Some info =>
      over ← prem start_address (erasesize info);
      if negb (over =? 0) || (info_size info <? start_address + size) then mret (-1, pRec)
      else
        let pRec := match pRec with
                    | Some (s, n) => Some (if is_nand && (u32 s <? writesize info) then i32 (writesize info) else s, n)
                    | None => None
                    end in
        '(s, _) ← popt NullDeref pRec;
        over ← prem (u32 s) (writesize info);
        if negb (over =? 0) then mret (-1, pRec)
        else
          let seek (fd : Z) :=
            r ← psys (Sys_lseek fd start_address SEEK_SET);
            if rv r <? 0 then _ ← psys (Sys_close fd); mret (-1, pRec) else mret (fd, pRec) in
          if IsRead then fdo ← psys (Sys_open cMtdDevName O_RDONLY 0); seek (rv fdo)
          else
            erased ← (if is_nand then
                        NVM_EraseDeviceBlock cMtdDevName (u32 start_address)
                          (if size <? erasesize info then erasesize info else u32 size)
                      else mret true);
            if negb erased then mret (-1, pRec)
            else
              fdo ← psys (Sys_open cMtdDevName (Z.lor O_RDWR O_SYNC) 0);
              if rv fdo <? 0 then mret (-1, pRec) else seek (rv fdo)
  end.

(** A record whose file is not there comes from the backup, if a restore was asked for, or is
    made from its default; the result says whether to go on. *)
Definition create_record (file_lid : Z) (f : TCFG_FILE) : P bool :=
  a ← psys (Sys_access g_pcNVM_Flag F_OK);
  restored ← (if (rv a =? 0) && existsb (fun e => u32 file_lid =? e.2) aBackupToBinRegion
              then NVM_RestoreFromBinRegion_OneFile junk file_lid None else mret false);
  if restored : bool then mret true
  else
    fd ← open_file_with_dirs_flags (cFileName f) (Z.lor O_CREAT O_RDWR) S_IRW_UG;
    close_if fd;;
    NVM_ResetFileToDefault file_lid.

(** The record made good: there, of the version of the build, decrypted, with valid check bytes. *)
Definition prepare_record (file_lid : Z) (f : TCFG_FILE) (IsRead : bool) : P bool :=
  fdo ← psys (Sys_open (cFileName f) (if IsRead then O_RDONLY else O_RDWR) 0);
  let fd := rv fdo in
  ok ← (if fd =? -1 then create_record file_lid f
        else
          _ ← psys (Sys_close fd);
          same ← NVM_CmpFileVerNo file_lid;
          if same : bool then mret true else reset_or_convert file_lid f O_TRUNC 0);
  if negb ok then mret false
  else
    ok ← NVM_Enc_Dnc_File file_lid DECODE;
    if negb ok then mret false
    else if in_performance file_lid then mret true
    else n ← NVM_ProtectDataFile file_lid false; mret (n =? 1).

Definition NVM_GetFileDesc (file_lid : Z) (pRec : option (Z * Z)) (IsRead : bool) : P (F_ID * option (Z * Z)) :=
  let FileID (fd : Z) := FId fd file_lid IsRead in
  n ← NVM_Init_again;
  if n <? 0 then mret (FileID (-1), pRec)
  else
    ok ← NVM_CheckWritePermission junk IsRead file_lid;
    if negb ok then mret (FileID (-1), pRec)
    else
      e ← cfg_entry file_lid;
      match e with
      | None => mret (FileID (-1), pRec)
      | Some f =>
          let sizes := match pRec with Some _ => Some (i4RecSize f, i4RecNum f) | None => None end in
          match special file_lid with
          | Some (start_address, size) =>
              '(fd, sizes) ← open_special IsRead start_address size sizes;
              mret (FileID fd, sizes)
          | None =>
              if streq (cFileName f) (lit "Reserved") then mret (FileID (-1), pRec)
              else
                ok ← prepare_record file_lid f IsRead;
                if negb ok then mret (FileID (-1), sizes)
                else
                  fdo ← psys (Sys_open (cFileName f) (if IsRead then O_RDONLY else Z.lor O_RDWR O_SYNC) 0);
                  mret (FileID (rv fdo), sizes)
          end
      end.

Definition NVM_CloseFileDesc (FileID : F_ID) : P bool :=
  match special (ifile_lid FileID) with
  | Some _ =>
      if iFileDesc FileID =? -1 then mret false
      else r ← psys (Sys_close (iFileDesc FileID)); mret (rv r =? 0)
  | None =>
      if iFileDesc FileID =? -1 then mret false
      else
        r ← psys (Sys_fsync (iFileDesc FileID));
        if negb (rv r =? 0) then mret false
        else
          r ← psys (Sys_close (iFileDesc FileID));
          if negb (rv r =? 0) then mret false
          else
            let maskflag := in_performance (ifile_lid FileID) in
            ok ← (if maskflag || bIsRead FileID then NVM_Enc_Dnc_File (ifile_lid FileID) ENCODE else mret true);
            if negb ok then mret false
            else if maskflag || bIsRead FileID then mret true
            else
              n ← NVM_ProtectDataFile (ifile_lid FileID) true;
              if n =? 1 then NVM_Enc_Dnc_File (ifile_lid FileID) ENCODE else mret false
  end.
End Record.
