(* ===== verification/NvKeep.v ===== *)
(** * libnvram: what becomes of a record

    Against the interface [FileStore]: the version file as a list of records, one of which an
    update replaces and a deletion removes, the version found for a record, the deletions of
    [NVM_CheckFileNum], which miss; and the default written into a record. *)
From S2P Require Import Prelude Posix MemFs FileStore NvTypes NvFiles NvArchive NvSum NvJournal NvVersion NvLog NvRegion NvFetch NvCheck NvOneFile NvRecord.

(** ** The version file as records *)

Definition name_of (r : list Z) : list Z := cstring (read_at r 0 (FILENAMELENGTH - 1)).
Definition ver_of (r : list Z) : list Z := read_at r FILENAMELENGTH FILEVERLENGTH.

Definition records (R : list (list Z)) : Prop := Forall (fun r => zlen r = VERSION_SIZE) R.

Lemma zlen_records_concat R : records R -> zlen (concat R) = zlen R * VERSION_SIZE.
Proof. induction 1 as [|r R Hr _ IH]; [done|]. cbn [concat]. rewrite zlen_app, IH, Hr. unfold zlen. simpl length. lia. Qed.

(** A record in its place. *)
Lemma records_split R i r : records R -> R !! i = Some r ->
  exists a b, concat R = a ++ r ++ b /\ zlen a = Z.of_nat i * VERSION_SIZE /\ zlen r = VERSION_SIZE /\
    (forall r', concat (<[i := r']> R) = a ++ r' ++ b) /\ concat (delete i R) = a ++ b.
Proof.
  intros HR Hi. pose proof (lookup_lt_Some _ _ _ Hi) as Hl.
  exists (concat (take i R)), (concat (drop (S i) R)).
  assert (forall r', concat (<[i := r']> R) = concat (take i R) ++ r' ++ concat (drop (S i) R)) as Hins.
  { intros r'. rewrite insert_take_drop, concat_app by done. done. }
  split_and!; [by rewrite <- Hins, list_insert_id| |by eapply Forall_lookup_1 in HR|done|by rewrite delete_take_drop, concat_app].
  rewrite zlen_records_concat by by apply Forall_take. unfold zlen. rewrite length_take. lia.
Qed.

Lemma read_in_middle a r b o n : 0 <= o -> 0 <= n -> o + n <= zlen r -> read_at (a ++ r ++ b) (zlen a + o) n = read_at r o n.
Proof.
  intros Ho Hn Hl. unfold read_at, zlen in *. rewrite Z2Nat.inj_add, Nat2Z.id by lia.
  rewrite <- drop_drop, drop_app_length, drop_app_le by lia. rewrite take_app_le; [done|]. rewrite length_drop. lia.
Qed.

Lemma read_record R i r o n : records R -> R !! i = Some r -> 0 <= o -> 0 <= n -> o + n <= VERSION_SIZE ->
  read_at (concat R) (Z.of_nat i * VERSION_SIZE + o) n = read_at r o n.
Proof.
  intros HR Hi Ho Hn Hl. destruct (records_split R i r HR Hi) as (a & b & -> & Ha & Hr & _). rewrite <- Ha. apply read_in_middle; lia.
Qed.

(** Of the record of an entry. *)
Lemma name_of_record f : 0 ∉ cFileName f -> name_of (version_record f) = target_name f.
Proof.
  intros Hz. unfold name_of, version_record, target_name, name_field. change (FILENAMELENGTH - 1) with 69. change FILENAMELENGTH with 70.
  set (s := default [] (after_last (cFileName f))). change (Z.to_nat 70) with 70%nat.
  assert (Forall (fun b => b <> 0) (take (Z.to_nat 69) s)) as Hs.
  { apply Forall_take. subst s. clear -Hz. unfold default. revert Hz. generalize (cFileName f). intros n.
    assert (forall r, after_last n = Some r -> 0 ∉ n -> 0 ∉ r) as Hal.
    { induction n as [|c n IH]; intros r E Hn; [done|]. apply not_elem_of_cons in Hn as [Hc Hn]. simpl in E.
      destruct (after_last n); [by simplify_eq; apply (IH r)|]. destruct (c =? chr_slash); by simplify_eq. }
    intros Hn. destruct (after_last n) as [r|] eqn:E; [|constructor]. apply Forall_forall. intros x Hx ->. by apply (Hal r). }
  unfold read_at. change (Z.to_nat 0) with 0%nat. rewrite drop_0. change (Z.to_nat 69) with 69%nat in *. rewrite <- (assoc_L app).
  assert (length (take 69 s) <= 69)%nat as Hl by (rewrite length_take; lia).
  rewrite take_app, (take_ge (take 69 s)) by lia. rewrite (take_app_le (replicate _ _)) by (rewrite length_replicate; lia).
  rewrite take_replicate. destruct (_ `min` _)%nat as [|q]; simpl; [rewrite app_nil_r; by apply cstring_id|by apply cstring_app_nul].
Qed.

Lemma ver_of_record f : ver_of (version_record f) = ver_field (cFileVer f).
Proof.
  unfold ver_of, version_record. rewrite read_at_app_r by by rewrite zlen_name_field. rewrite zlen_name_field, Z.sub_diag.
  rewrite <- (zlen_ver_field (cFileVer f)). apply read_whole.
Qed.

Lemma zlen_version_record f : zlen (version_record f) = VERSION_SIZE.
Proof. unfold version_record. by rewrite zlen_app, zlen_name_field, zlen_ver_field. Qed.

Section Versions.
Context `{FileStore} `{NvPlatform} `{!NvDevice} `{!NvTables}.
Abbreviation W := (world nvram).
Implicit Types (v : store) (w : W) (R : list (list Z)) (f : TCFG_FILE).

(** The record with number [file_lid] has the entry [f]. *)
Definition entry_of (file_lid : Z) f : Prop := 0 <= file_lid /\ (g_akCFG_File ++ g_akCFG_File_Custom) !! Z.to_nat file_lid = Some f.

(** The path of the version file. *)
Definition vpath : list Z := match g_akCFG_File with f :: _ => cFileName f | [] => [] end.

Lemma entry_lookup file_lid f : tables_ok -> entry_of file_lid f ->
  NVM_GetCfgFileTable file_lid = Some (if file_lid <? iCustomBeginLID then g_akCFG_File else g_akCFG_File_Custom) /\
  element (if file_lid <? iCustomBeginLID then g_akCFG_File else g_akCFG_File_Custom) (real_lid file_lid) = Some f /\
  (i32 (g_i4CFG_File_Count + g_i4CFG_File_Custom_Count) <=? file_lid) = false.
Proof.
  intros [_ T1 T2 T3 T4] [Hl Hf]. pose proof (lookup_lt_Some _ _ _ Hf) as Hlt. rewrite length_app in Hlt.
  unfold NVM_GetCfgFileTable, real_lid, element. rewrite T1, T2, T3. unfold zlen in *. rewrite i32_small by lia.
  destruct (Z.leb_spec (Z.of_nat (length g_akCFG_File) + Z.of_nat (length g_akCFG_File_Custom)) file_lid) as [?|_]; [lia|].
  destruct (Z.ltb_spec file_lid (Z.of_nat (length g_akCFG_File))) as [Hc|Hc]; split_and!; try done.
  - destruct (Z.leb_spec (Z.of_nat (length g_akCFG_File)) file_lid); [lia|]. destruct (Z.ltb_spec file_lid 0); [lia|].
    rewrite lookup_app_l in Hf by lia. done.
  - destruct (Z.leb_spec (Z.of_nat (length g_akCFG_File)) file_lid); [|lia].
    destruct (Z.ltb_spec (file_lid - Z.of_nat (length g_akCFG_File)) 0); [lia|].
    rewrite lookup_app_r in Hf by lia. rewrite <- Hf. f_equal. lia.
Qed.

Lemma cfg_entry_run file_lid f w (Q : option TCFG_FILE -> W -> Prop) : tables_ok -> entry_of file_lid f ->
  Q (Some f) w -> runs (cfg_entry file_lid) w Q.
Proof.
  intros Ht He HQ. destruct (entry_lookup _ _ Ht He) as (E1 & E2 & _). unfold cfg_entry. rewrite E1, E2. done.
Qed.

Lemma table_entry_run file_lid f w (Q : TCFG_FILE -> W -> Prop) : tables_ok -> entry_of file_lid f ->
  Q f w -> runs (table_entry file_lid) w Q.
Proof. intros Ht He HQ. destruct (entry_lookup _ _ Ht He) as (_ & E2 & _). unfold table_entry. by rewrite E2. Qed.

(** A version file of the new format with the records [R]. *)
Record versions R v : Prop := {
  vs_path : g_akCFG_File <> [];
  vs_file : files v !! vpath = Some (concat R);
  vs_size : records R;
  vs_title : name_of <$> head R = Some strVerInfo;
  vs_names : NoDup (name_of <$> R);
  vs_small : zlen (concat R) < 2 ^ 31
}.

Lemma version_path_run w (Q : list Z -> W -> Prop) : tables_ok -> g_akCFG_File <> [] -> Q vpath w -> runs version_path w Q.
Proof. intros [T _ _ _ _] Hne HQ. unfold version_path, vpath in *. rewrite T. by destruct g_akCFG_File. Qed.

Lemma check_version_run R v g L w (Q : bool -> W -> Prop) : tables_ok -> versions R v -> ready v g L w ->
  (forall w', ready v g L w' -> Q true w') -> runs (NVM_CheckVerFile true) w Q.
Proof.
  intros [T _ _ _ _] [Hne HF _ _ _ _] Hw HQ. unfold NVM_CheckVerFile, vpath in *. rewrite T. destruct g_akCFG_File as [|f0 fs]; [done|].
  apply runs_bind, runs_ret. apply runs_bind. eapply run_stat_reg; [exact Hw|exact HF|]. intros e st w1 _ Hm Hw1.
  apply runs_ret. unfold S_ISREG. rewrite Hm. by apply HQ.
Qed.

Lemma ensure_run R v g L w (Q : bool -> W -> Prop) : tables_ok -> versions R v -> ready v g L w ->
  (forall w', ready v g L w' -> Q true w') -> runs ensure_version w Q.
Proof. intros Ht Hv Hw HQ. apply runs_bind. by eapply check_version_run. Qed.

Lemma version_count R v : versions R v -> Z.quot (i32 (zlen (concat R))) VERSION_SIZE = zlen R.
Proof.
  intros Hv. pose proof (vs_small _ _ Hv). pose proof (zlen_records_concat R (vs_size _ _ Hv)) as E. pose proof (zlen_nonneg (concat R)).
  rewrite i32_small by lia. rewrite E. by apply Z.quot_mul.
Qed.

(** ** Reading it *)

Lemma pread_name_run fd p off wr R i r v g L w (Q : list Z -> W -> Prop) : ready (at_off fd p off wr v) g L w ->
  files v !! p = Some (concat R) -> records R -> R !! i = Some r ->
  (forall w', ready (at_off fd p off wr v) g L w' -> Q (name_of r) w') -> runs (pread_name fd (Z.of_nat i * VERSION_SIZE)) w Q.
Proof.
  intros Hw HF HR Hi HQ. apply runs_bind. eapply run_pread; [exact Hw|apply at_off_lookup|exact HF|done|unfold VERSION_SIZE, FILEVERLENGTH, FILENAMELENGTH; lia|].
  intros w' Hw'. apply runs_ret. cbn [rres_data]. rewrite <- (Z.add_0_r (Z.of_nat i * _)), (read_record R i r) by done. by apply HQ.
Qed.

(** The search finds a name that occurs once. *)
Lemma locate_run fd p off wr R k name v g L : files v !! p = Some (concat R) -> records R -> NoDup (name_of <$> R) ->
  name_of <$> R !! k = Some name -> forall n i o w, (i <= k < i + n)%nat -> ready (at_off fd p off wr v) g L w ->
  runs (locate fd name n (Z.of_nat i) o) w (fun r w' => r = (true, Z.of_nat k * VERSION_SIZE) /\ ready (at_off fd p off wr v) g L w').
Proof.
  intros HF HR Hnd Hk. destruct (R !! k) as [rk|] eqn:Ek; [|done]. injection Hk as Hk.
  induction n as [|n IH]; intros i o w Hi Hw; [lia|]. cbn [locate].
  pose proof (lookup_lt_Some _ _ _ Ek). destruct (lookup_lt_is_Some_2 R i ltac:(lia)) as [r Hr].
  apply runs_bind. eapply pread_name_run; [exact Hw|exact HF|done|exact Hr|]. intros w1 Hw1. unfold streq. case_bool_decide as Ed.
  - assert (i = k) as ->; [|by apply runs_ret]. eapply (NoDup_lookup _ _ _ (name_of rk) Hnd); rewrite list_lookup_fmap, ?Hr, ?Ek; simpl; congruence.
  - replace (Z.of_nat i + 1) with (Z.of_nat (S i)) by lia. apply IH; [|done].
    destruct (decide (i = k)) as [->|]; [congruence|lia].
Qed.

Lemma locate_record_run R file_lid f k v g L w : tables_ok -> versions R v -> entry_of file_lid f ->
  name_of <$> R !! k = Some (target_name f) -> ready v g L w ->
  runs (locate_record file_lid) w (fun r w' => r = Some (VerUpdate, Z.of_nat k * VERSION_SIZE) /\ ready v g L w').
Proof.
  intros Ht Hv He Hk Hw. unfold locate_record. apply runs_bind. eapply cfg_entry_run; [done|exact He|].
  apply runs_bind. eapply version_path_run; [done|apply Hv|].
  apply runs_bind. eapply run_open; [exact Hw|apply Hv|by auto|]. intros fd e r wr w1 Hfd Ofd Hr _ Hw1. rewrite Hr in Hw1 by done. cbn [rv].
  destruct (Z.eqb_spec fd (-1)); [lia|].
  apply runs_bind. eapply run_fstat; [exact Hw1|by rewrite fds_put_fd, decide_True|apply Hv|]. intros e2 st w2 Hst Hw2. rewrite Hst, (version_count R v Hv).
  apply runs_bind. eapply runs_mono; [eapply (locate_run fd vpath 0 wr R k _ v g L (vs_file _ _ Hv) (vs_size _ _ Hv) (vs_names _ _ Hv) Hk _ 0%nat 0); [|exact Hw2]|].
  { destruct (R !! k) eqn:Ek; [|done]. apply lookup_lt_Some in Ek. unfold zlen. lia. }
  intros [b o] w3 [[= -> ->] Hw3]. apply runs_bind. eapply run_close; [exact Hw3|apply at_off_lookup|]. intros r4 w4 Hw4.
  unfold at_off in Hw4. rewrite drop_put_fd in Hw4 by done. by apply runs_ret.
Qed.

(** ** Changing it *)

Lemma write_in_middle a x r b o bs : x = a ++ r ++ b -> 0 <= o -> o + zlen bs <= zlen r ->
  write_at x (zlen a + o) bs = a ++ write_at r o bs ++ b.
Proof.
  intros -> Ho Hl. unfold write_at, zlen in *. rewrite Z2Nat.inj_add, Nat2Z.id by lia.
  rewrite take_app_add, <- Nat.add_assoc, drop_app_add, take_app_le, drop_app_le by lia. by rewrite <- !(assoc_L app).
Qed.

(** Name and version over a record. *)
Lemma rewrite_record R i r f : records R -> R !! i = Some r ->
  write_at (write_at (concat R) (Z.of_nat i * VERSION_SIZE) (name_field (default [] (after_last (cFileName f)))))
    (Z.of_nat i * VERSION_SIZE + FILENAMELENGTH) (ver_field (cFileVer f)) = concat (<[i := version_record f]> R).
Proof.
  intros HR Hi. destruct (records_split R i r HR Hi) as (a & b & E & Ha & Hr & -> & _). rewrite <- Ha.
  unfold VERSION_SIZE, FILEVERLENGTH, FILENAMELENGTH in *. rewrite <- (Z.add_0_r (zlen a)).
  set (n := name_field _). assert (zlen n = 70) as Hn by apply zlen_name_field.
  assert (zlen (ver_field (cFileVer f)) = 4) as Hver by apply zlen_ver_field.
  rewrite (write_in_middle a _ r b 0 n E) by lia. rewrite Z.add_0_r.
  erewrite (write_in_middle a _ (write_at r 0 n) b 70); [|done|lia|rewrite zlen_write_at; lia]. f_equal. f_equal.
  unfold version_record. fold n. change 70 with (0 + 70). rewrite <- Hn at 1. rewrite write_at_app by lia.
  unfold write_at. simpl take. rewrite drop_ge; [by rewrite app_nil_r|]. rewrite length_app. unfold zlen in *. simpl. lia.
Qed.

Lemma put_version_run fd p wr R i r file_lid f v g L w : tables_ok -> entry_of file_lid f -> ready (at_off fd p 0 true v) g L w ->
  wr = true -> files v !! p = Some (concat R) -> records R -> R !! i = Some r ->
  runs (put_version fd file_lid true (Z.of_nat i * VERSION_SIZE)) w (fun _ w' =>
    ready (at_off fd p 0 true (put_file p (concat (<[i := version_record f]> R)) v)) g L w').
Proof.
  intros Ht He Hw -> HF HR Hi. unfold put_version. apply runs_bind. eapply table_entry_run; [done|exact He|]. cbn [pwhen].
  pose proof (lookup_lt_Some _ _ _ Hi) as Hl. pose proof (zlen_records_concat R HR) as Hz.
  assert (Z.of_nat i * VERSION_SIZE + VERSION_SIZE <= zlen (concat R)) as Hb by (rewrite Hz; unfold VERSION_SIZE, FILEVERLENGTH, FILENAMELENGTH, zlen; lia).
  unfold VERSION_SIZE, FILEVERLENGTH, FILENAMELENGTH in Hb.
  apply runs_bind, runs_bind. eapply run_pwrite; [exact Hw|apply at_off_lookup|exact HF|unfold VERSION_SIZE, FILEVERLENGTH, FILENAMELENGTH; lia|].
  intros e1 w1 Hw1. apply runs_ret. apply runs_bind.
  eapply run_pwrite; [exact Hw1|apply at_off_lookup|by rewrite files_put_file, decide_True| |].
  { rewrite zlen_write_at; rewrite ?zlen_name_field; unfold VERSION_SIZE, FILEVERLENGTH, FILENAMELENGTH; lia. }
  intros e2 w2 Hw2. apply runs_ret. rewrite (rewrite_record R i r f HR Hi), put_put_file in Hw2. exact Hw2.
Qed.

(** The record with the name gets the name and the version of the entry. *)
Lemma update_run R file_lid f k r v g L w : tables_ok -> versions R v -> entry_of file_lid f ->
  R !! k = Some r -> name_of r = target_name f -> ready v g L w ->
  runs (NVM_UpdateFileVerNo file_lid VerUpdate) w (fun ok w' => ok = true /\
    ready (put_file vpath (concat (<[k := version_record f]> R)) v) g L w').
Proof.
  intros Ht Hv He Hk Hn Hw. unfold NVM_UpdateFileVerNo.
  apply runs_bind. eapply runs_mono; [eapply locate_record_run; [done|exact Hv|exact He|rewrite Hk; cbn; by rewrite Hn|exact Hw]|].
  intros l w1 [-> Hw1]. apply runs_bind. eapply version_path_run; [done|apply Hv|].
  apply runs_bind. eapply run_open; [exact Hw1|apply Hv|by auto|]. intros fd e rd wr w2 Hfd Ofd Hr Hwr Hw2. rewrite Hr, Hwr in Hw2 by done. cbn [rv].
  destruct (Z.eqb_spec fd (-1)); [lia|].
  destruct R as [|r0 R']; [done|]. pose proof (vs_title _ _ Hv) as Htitle. injection Htitle as Htitle.
  apply runs_bind. eapply (pread_name_run fd vpath 0 true (r0 :: R') 0 r0); [exact Hw2|apply Hv|apply Hv|done|].
  intros w3 Hw3. rewrite Htitle. unfold streq. rewrite bool_decide_eq_true_2 by done. cbn iota.
  apply runs_bind. eapply runs_mono; [eapply (put_version_run fd vpath true (r0 :: R') k r); [done|exact He|exact Hw3|done|apply Hv|apply Hv|exact Hk]|].
  intros _u w4 Hw4. unfold quit. cbn [foldr]. apply runs_bind. eapply run_close; [exact Hw4|apply at_off_lookup|]. intros r5 w5 Hw5.
  unfold at_off in Hw5. rewrite drop_put_fd in Hw5 by done. by apply runs_ret.
Qed.

(** A deletion: the record at [file_lid + 1]. *)
Lemma delete_run R file_lid r v g L w : tables_ok -> versions R v -> 0 <= file_lid -> R !! Z.to_nat (file_lid + 1) = Some r -> ready v g L w ->
  runs (NVM_UpdateFileVerNo file_lid VerDel) w (fun ok w' => ok = true /\
    ready (put_file vpath (concat (delete (Z.to_nat (file_lid + 1)) R)) v) g L w').
Proof.
  intros Ht Hv Hl Hk Hw. unfold NVM_UpdateFileVerNo.
  apply runs_bind, runs_ret. apply runs_bind. eapply version_path_run; [done|apply Hv|].
  apply runs_bind. eapply run_open; [exact Hw|apply Hv|by auto|]. intros fd e rd wr w2 Hfd Ofd Hr Hwr Hw2. rewrite Hr, Hwr in Hw2 by done. cbn [rv].
  destruct (Z.eqb_spec fd (-1)); [lia|].
  destruct R as [|r0 R'] eqn:ER; [done|]. rewrite <- ER in *. pose proof (vs_title _ _ Hv) as Htitle. rewrite ER in Htitle. injection Htitle as Htitle.
  apply runs_bind. eapply (pread_name_run fd vpath 0 true R 0 r0); [exact Hw2|apply Hv|apply Hv|by subst|].
  intros w3 Hw3. rewrite Htitle. unfold streq. rewrite bool_decide_eq_true_2 by done. cbn iota.
  apply runs_bind. eapply run_stat; [exact Hw3|apply Hv|]. intros e4 st w4 Hst Hw4. cbn [rv]. change (0 <? 0) with false. cbn iota. rewrite Hst.
  pose proof (vs_small _ _ Hv). pose proof (zlen_nonneg (concat R)). rewrite i32_small by lia.
  unfold rewrite_version. apply runs_bind. eapply run_malloc; [exact Hw4|]. intros b1 w5 Hb1 Hb1L Hw5.
  apply runs_bind. eapply run_malloc; [exact Hw5|]. intros b2 w6 Hb2 Hb12 Hw6.
  destruct (Z.eqb_spec b1 0); [lia|]. destruct (Z.eqb_spec b2 0); [lia|]. cbn [orb]. apply runs_bind, runs_ret.
  destruct (Z.eqb_spec fd (-1)); [lia|].
  apply runs_bind. eapply run_pread; [exact Hw6|apply at_off_lookup|apply Hv|done|done|]. intros w7 Hw7. cbn [rres_rv rres_data].
  rewrite read_whole, Z.eqb_refl. cbn [negb]. apply runs_bind. eapply run_close; [exact Hw7|apply at_off_lookup|]. intros r8 w8 Hw8.
  unfold at_off in Hw8. rewrite drop_put_fd in Hw8 by done.
  destruct (records_split R _ r (vs_size _ _ Hv) Hk) as (a & b & E & Ha & Hrr & _ & Hdel). rewrite Z2Nat.id in Ha by lia.
  assert (zlen (concat R) = zlen a + VERSION_SIZE + zlen b) as Hz by (rewrite E, !zlen_app, Hrr; lia). pose proof (zlen_nonneg b). pose proof (zlen_nonneg a).
  apply runs_bind. unfold cut_record. rewrite <- Ha. assert (0 < VERSION_SIZE) by done.
  rewrite (mread_read _ 0), (mread_read _ (zlen a + _)) by lia. apply runs_bind, runs_ret. apply runs_bind, runs_ret. apply runs_ret.
  assert (read_at (concat R) 0 (zlen a) ++ read_at (concat R) (zlen a + VERSION_SIZE) (zlen (concat R) - (zlen a + VERSION_SIZE)) = concat (delete (Z.to_nat (file_lid + 1)) R)) as ->.
  { rewrite Hdel, Hz. rewrite E, read_at_app_l, read_whole by lia. f_equal. rewrite read_at_app_r, read_at_app_r by lia.
    rewrite Hrr. replace (zlen a + VERSION_SIZE - zlen a - VERSION_SIZE) with 0 by lia.
    replace (zlen a + VERSION_SIZE + zlen b - (zlen a + VERSION_SIZE)) with (zlen b) by lia. apply read_whole. }
  apply runs_bind. eapply run_truncate; [exact Hw8|apply Hv|by auto|]. intros fd2 e9 rd2 w9 Hfd2 Ofd2 Hw9. cbn [rv].
  destruct (Z.eqb_spec fd2 (-1)); [lia|]. apply runs_bind.
  eapply run_pwrite; [exact Hw9|by rewrite fds_put_fd, decide_True|by rewrite files_put_fd, files_put_file, decide_True|done|]. intros e10 w10 Hw10. cbn [rv].
  assert (zlen (concat (delete (Z.to_nat (file_lid + 1)) R)) = zlen (concat R) - VERSION_SIZE) as -> by (rewrite Hdel, Hz, zlen_app; lia).
  rewrite Z.eqb_refl. cbn [negb]. unfold quit. cbn [foldr].
  apply (ready_perm _ _ _ (b1 :: b2 :: L)) in Hw10; [|constructor]. apply not_elem_of_cons in Hb12 as [Hb12 Hb2L].
  apply runs_bind. eapply run_free; [exact Hw10|set_solver|]. intros w11 Hw11. apply runs_bind. eapply run_free; [exact Hw11|done|]. intros w12 Hw12.
  apply runs_bind. eapply run_close; [exact Hw12|by rewrite fds_put_file, fds_put_fd, decide_True|]. intros r13 w13 Hw13. apply runs_ret. split; [done|].
  set (D := concat (delete _ _)) in *. assert (write_at [] 0 D = D) as ED by (unfold write_at; simpl; by rewrite drop_nil, app_nil_r).
  rewrite ED in Hw13. match type of Hw13 with ready ?u _ _ _ => replace u with (put_file vpath D v) in Hw13 by store_eq end. exact Hw13.
Qed.

(** ** Comparing *)

(** A read in a record of the file. *)
Lemma run_read_record fd p off wr R i r o n v g L w (Q : rres -> W -> Prop) :
  ready (at_off fd p off wr v) g L w -> files v !! p = Some (concat R) -> records R -> R !! i = Some r ->
  off = Z.of_nat i * VERSION_SIZE + o -> 0 <= o -> 0 <= n -> o + n <= VERSION_SIZE ->
  (forall w', ready (at_off fd p (off + n) wr v) g L w' -> Q (RData (read_at r o n)) w') -> runs (psys (Sys_read fd n)) w Q.
Proof.
  intros Hw HF HR Hi -> Ho Hn Hl HQ. pose proof (lookup_lt_Some _ _ _ Hi) as Hlt. assert (0 < VERSION_SIZE) by done.
  eapply run_read_range; [exact Hw|exact HF|lia|lia| |].
  - rewrite zlen_records_concat by done. unfold zlen. nia.
  - rewrite (read_record R i r o n) by done. exact HQ.
Qed.

Lemma run_seek_record fd p off off' wr v g L w (Q : ires -> W -> Prop) : ready (at_off fd p off wr v) g L w -> 0 <= off' ->
  (forall e w', ready (at_off fd p off' wr v) g L w' -> Q (IRes off' e) w') -> runs (psys (Sys_lseek fd off' SEEK_SET)) w Q.
Proof.
  intros Hw Ho HQ. eapply run_seek_set; [exact Hw|apply at_off_lookup|done|]. intros e w' Hw'. unfold at_off in Hw'. rewrite put_put_fd in Hw'. by apply HQ.
Qed.

(** The record at its place has the name: its version. *)
Lemma version_of_run fd p wr R file_lid r0 r v g L w : ready (at_off fd p 0 wr v) g L w -> files v !! p = Some (concat R) -> records R ->
  R !! 0%nat = Some r0 -> name_of r0 = strVerInfo -> 0 <= file_lid -> R !! Z.to_nat (file_lid + 1) = Some r ->
  runs (version_of fd file_lid (name_of r)) w (fun b w' => b = Some (ver_of r) /\ exists off, ready (at_off fd p off wr v) g L w').
Proof.
  intros Hw HF HR H0' Ht Hl Hr. unfold version_of, read_name. apply runs_bind, runs_bind.
  eapply (run_read_record fd p 0 wr R 0 r0 0); [exact Hw|done..|]. intros w1 Hw1. apply runs_ret. cbn [rres_data].
  change (cstring (read_at r0 0 _)) with (name_of r0). rewrite Ht. unfold streq at 1. rewrite bool_decide_eq_true_2 by done. cbn iota.
  assert (Z.of_nat (Z.to_nat (file_lid + 1)) = file_lid + 1) as Ei by lia. assert (0 < VERSION_SIZE) by done.
  unfold seek_then at 1. apply runs_bind. eapply run_seek_record; [exact Hw1|nia|]. intros e2 w2 Hw2. cbn [rv].
  destruct (Z.eqb_spec ((file_lid + 1) * VERSION_SIZE) (-1)); [nia|]. apply runs_bind, runs_bind.
  eapply (run_read_record fd p _ wr R _ r 0); [exact Hw2|done..|rewrite Ei; lia|done|done|done|]. intros w3 Hw3. apply runs_ret. cbn [rres_data].
  change (cstring (read_at r 0 _)) with (name_of r). unfold streq. rewrite bool_decide_eq_true_2 by done. cbn iota.
  unfold seek_then. apply runs_bind. assert (0 <= FILENAMELENGTH) by done. eapply run_seek_record; [exact Hw3|nia|]. intros e4 w4 Hw4. cbn [rv].
  destruct (Z.eqb_spec ((file_lid + 1) * VERSION_SIZE + FILENAMELENGTH) (-1)); [nia|]. unfold read_version. apply runs_bind, runs_bind.
  eapply (run_read_record fd p _ wr R _ r FILENAMELENGTH); [exact Hw4|done..|rewrite Ei; lia|done|done|done|]. intros w5 Hw5.
  apply runs_ret, runs_ret. split; [|by eexists]. cbn [rres_data]. unfold overlay. fold (ver_of r).
  assert (zlen (ver_of r) = 4) as Hv by (apply zlen_read_at; [done..|]; eapply Forall_lookup_1 in Hr; [|exact HR]; simpl in Hr; by rewrite Hr).
  rewrite drop_ge by (unfold zlen in Hv; simpl; lia). by rewrite app_nil_r.
Qed.

Lemma compare_run R file_lid f r v g L w : tables_ok -> versions R v -> entry_of file_lid f -> is_Some (after_last (cFileName f)) ->
  R !! Z.to_nat (file_lid + 1) = Some r -> name_of r = target_name f -> ready v g L w ->
  runs (NVM_CmpFileVerNo file_lid) w (fun b w' => b = bool_decide (ver_field (cFileVer f) = ver_of r) /\ ready v g L w').
Proof.
  intros Ht Hv He [base Hb] Hr Hn Hw. unfold NVM_CmpFileVerNo. apply runs_bind. eapply cfg_entry_run; [done|exact He|]. rewrite Hb.
  apply runs_bind. eapply ensure_run; [done|exact Hv|exact Hw|]. intros w1 Hw1. cbn [negb].
  apply runs_bind. eapply version_path_run; [done|apply Hv|].
  apply runs_bind. eapply run_open; [exact Hw1|apply Hv|by auto|]. intros fd e rd wr w2 Hfd Ofd Hrd _ Hw2. rewrite Hrd in Hw2 by done. cbn [rv].
  destruct (Z.eqb_spec fd (-1)); [lia|]. rewrite <- Hn.
  destruct R as [|r0 R'] eqn:ER; [done|]. rewrite <- ER in *. pose proof (vs_title _ _ Hv) as Htitle. rewrite ER in Htitle. injection Htitle as Htitle.
  apply runs_bind. eapply runs_mono; [eapply (version_of_run fd vpath wr R file_lid r0 r v g L); [exact Hw2|apply Hv|apply Hv|by rewrite ER|done|apply He|exact Hr]|].
  intros b w3 [-> [off Hw3]]. apply runs_bind. eapply run_close; [exact Hw3|apply at_off_lookup|]. intros r4 w4 Hw4.
  unfold at_off in Hw4. rewrite drop_put_fd in Hw4 by done. by apply runs_ret.
Qed.

(** ** Too many records *)

Lemma versions_delete R k v : versions R v -> (0 < k)%nat -> versions (delete k R) (put_file vpath (concat (delete k R)) v).
Proof.
  intros [Hp HF HR HT HN HS] Hk. constructor; try done.
  - by rewrite files_put_file, decide_True.
  - by apply Forall_delete.
  - destruct R, k; try done; lia.
  - rewrite list_fmap_delete. eapply sublist_NoDup; [exact HN|apply sublist_delete].
  - eapply Z.le_lt_trans; [|exact HS]. rewrite !zlen_records_concat by (try apply Forall_delete; done).
    assert (zlen (delete k R) <= zlen R) by (unfold zlen; pose proof (sublist_length _ _ (sublist_delete R k)); lia).
    apply Z.mul_le_mono_nonneg_r; [done|lia].
Qed.

(** A version file of a build with two more common records, and as many custom
    ones: the deletion goes by increasing numbers although a deletion moves the records behind
    it, so the second record too many stays, and the first custom record is lost. *)
Theorem surplus_misdeleted `{!NvRecords} title common s0 s1 c0 custom v g L w : tables_ok ->
  versions (title :: common ++ s0 :: s1 :: c0 :: custom) v ->
  zlen common = iCustomBeginLID -> iNvRamFileMaxLID - iCustomBeginLID = zlen (c0 :: custom) -> iNvRamFileMaxLID < 2 ^ 31 -> ready v g L w ->
  exists w', NVM_CheckFileNum (iCustomBeginLID + 2) (zlen (c0 :: custom)) w = (w', Ok true) /\
    ready (put_file vpath (concat (title :: common ++ s1 :: custom)) v) g L w'.
Proof.
  intros Ht Hv Hc Hm Hs Hw. pose proof (zlen_nonneg common). pose proof (zlen_nonneg custom).
  assert (zlen (c0 :: custom) = 1 + zlen custom) as Hz by (unfold zlen; simpl length; lia).
  assert (runs (NVM_CheckFileNum (iCustomBeginLID + 2) (zlen (c0 :: custom))) w
    (fun ok w' => ok = true /\ ready (put_file vpath (concat (title :: common ++ s1 :: custom)) v) g L w')) as Hrun.
  { unfold NVM_CheckFileNum. rewrite Hm, <- Hc, !u32_small by lia.
    destruct (Z.eqb_spec (zlen common + 2) 0); [lia|]. destruct (Z.eqb_spec (zlen (c0 :: custom)) 0); [lia|]. cbn [orb].
    destruct (Z.eqb_spec (zlen common + 2) (zlen common)); [lia|]. cbn [andb].
    destruct (Z.ltb_spec (zlen common + 2) (zlen common)); [lia|]. cbn [andb]. rewrite Z.ltb_irrefl. cbn [andb].
    apply runs_bind, runs_ret. cbn [negb]. apply runs_bind, runs_ret. cbn [negb].
    destruct (Z.ltb_spec (zlen common) (zlen common + 2)); [|lia]. unfold update_range.
    replace (Z.to_nat (zlen common + 2 - zlen common)) with 2%nat by lia. cbn [update_versions].
    set (R := title :: common ++ s0 :: s1 :: c0 :: custom) in *.
    assert (Z.to_nat (zlen common + 1) = S (length common)) as E1 by (unfold zlen; lia).
    assert (Z.to_nat (zlen common + 1 + 1) = S (S (length common))) as E2 by (unfold zlen; lia).
    assert (R !! S (length common) = Some s0) as L1 by (simpl; by apply list_lookup_middle).
    assert (delete (S (length common)) R = title :: common ++ s1 :: c0 :: custom) as D1 by (simpl; f_equal; by rewrite delete_middle).
    apply runs_bind, runs_bind. eapply runs_mono; [eapply delete_run; [done|exact Hv|done|by rewrite E1|exact Hw]|].
    intros ok w1 [-> Hw1]. rewrite E1 in Hw1. pose proof (versions_delete R (S (length common)) v Hv ltac:(lia)) as Hv1. rewrite D1 in *.
    assert (title :: common ++ s1 :: c0 :: custom = title :: (common ++ [s1]) ++ c0 :: custom) as E by by rewrite <- (assoc_L app).
    apply runs_bind. eapply runs_mono; [eapply delete_run; [done|exact Hv1|lia| |exact Hw1]|].
    { rewrite E2, E. simpl. apply list_lookup_middle. rewrite length_app. simpl. lia. }
    intros ok w2 [-> Hw2]. apply runs_ret. cbn [negb]. apply runs_ret. split; [done|].
    rewrite E2, put_put_file in Hw2.
    assert (delete (S (S (length common))) (title :: common ++ s1 :: c0 :: custom) = title :: common ++ s1 :: custom) as D2.
    { rewrite E. replace (S (S (length common))) with (S (length (common ++ [s1]))) by (rewrite length_app; simpl; lia).
      simpl. f_equal. by rewrite delete_middle, <- (assoc_L app). }
    by rewrite D2 in Hw2. }
  destruct (runs_result _ _ _ Hrun) as (w' & ok & E & -> & Hw'). by exists w'.
Qed.
End Versions.

(** ** The default *)

(** What a record without contents is made of. *)
Definition default_of (f : TCFG_FILE) : option (list Z) :=
  match stDefualType f with
  | DEFAULT_ZERO => Some (replicate (Z.to_nat (rec_bytes f)) 0)
  | DEFAULT_FF => Some (replicate (Z.to_nat (rec_bytes f)) 255)
  | SIGNLE_DEFUALT_REC => d ← pDefualtVaule f; mread d 0 (rec_bytes f)
  | MULTIPLE_DEFUALT_REC =>
      d ← pDefualtVaule f; b ← mread d 0 (rec_bytes f);
      if i4RecNum f <? 2 then None else Some (concat (replicate (Z.to_nat (i4RecNum f)) b))
  end.

(** It has the size that [NVM_CheckFileSize] wants. *)
Lemma zlen_default f D : 0 <= i4RecNum f -> 0 <= i4RecSize f -> default_of f = Some D -> zlen D = table_size f.
Proof.
  intros Hn Hs. unfold default_of, table_size, rec_bytes.
  assert (forall d b, mread d 0 (i4RecSize f * i4RecNum f) = Some b -> zlen b = i4RecSize f * i4RecNum f) as Hread.
  { intros d b E. unfold mread in E. destruct (_ && _) eqn:Ec; [|done]. injection E as <-. unfold zlen in *.
    rewrite !andb_true_iff, !Z.leb_le in Ec. rewrite length_take, length_drop. lia. }
  destruct (stDefualType f); simpl.
  - destruct (pDefualtVaule f) as [d|]; [|done]. simpl. destruct (mread d 0 _) as [b|] eqn:Eb; [|done]. simpl.
    destruct (i4RecNum f <? 2); [done|]. intros [= <-]. apply Hread in Eb.
    assert (forall k, zlen (concat (replicate k b)) = Z.of_nat k * zlen b) as ->; [|rewrite Z2Nat.id, Eb by lia; lia].
    induction k as [|k IH]; [done|]. simpl replicate. cbn [concat]. rewrite zlen_app, IH. lia.
  - destruct (pDefualtVaule f) as [d|]; [|done]. simpl. intros E. apply Hread in E. lia.
  - intros [= <-]. unfold zlen. rewrite length_replicate. lia.
  - intros [= <-]. unfold zlen. rewrite length_replicate. lia.
Qed.

Section Default.
Context `{FileStore} `{NvPlatform} `{!NvTables} `{!NvRecords}.
Abbreviation W := (world nvram).
Implicit Types (v : store) (w : W) (f : TCFG_FILE).

(** A file written from its start, with [D] so far. *)
Definition grows (fd : Z) (p : list Z) (r : bool) (D : list Z) v : store := put_fd fd (Fd p (zlen D) r true) (put_file p D v).

Lemma run_grow fd p r D bs v g L w (Q : ires -> W -> Prop) : ready (grows fd p r D v) g L w ->
  (forall e w', ready (grows fd p r (D ++ bs) v) g L w' -> Q (IRes (zlen bs) e) w') -> runs (psys (Sys_write fd bs)) w Q.
Proof.
  intros Hw HQ. pose proof (zlen_nonneg D). eapply run_write; [exact Hw|unfold grows; by rewrite fds_put_fd, decide_True|unfold grows; by rewrite files_put_fd, files_put_file, decide_True|lia|].
  intros e w' Hw'. apply HQ. unfold grows in *. rewrite write_end, <- zlen_app in Hw'.
  match type of Hw' with ready ?u _ _ _ => replace u with (grows fd p r (D ++ bs) v) in Hw' by (unfold grows; store_eq) end. exact Hw'.
Qed.

Lemma run_grown fd p r D v g L w (Q : ires -> W -> Prop) : ready (grows fd p r D v) g L w -> open_fds v !! fd = None ->
  (forall e w', ready (put_file p D v) g L w' -> Q e w') -> runs (psys (Sys_close fd)) w Q.
Proof.
  intros Hw Hfd HQ. eapply run_close; [exact Hw|unfold grows; by rewrite fds_put_fd, decide_True|]. intros e w' Hw'. apply HQ.
  unfold grows in Hw'. by rewrite drop_put_fd in Hw'.
Qed.

Lemma write_default_run fd p r f d b v g L : pDefualtVaule f = Some d -> mread d 0 (rec_bytes f) = Some b -> forall n D w,
  ready (grows fd p r D v) g L w ->
  runs (write_default fd f n) w (fun _ w' => ready (grows fd p r (D ++ concat (replicate n b)) v) g L w').
Proof.
  intros Hd Hb. induction n as [|n IH]; intros D w Hw; [by rewrite app_nil_r|]. cbn [write_default]. rewrite Hd, Hb.
  apply runs_bind, runs_bind, runs_ret. apply runs_bind. eapply run_grow; [exact Hw|]. intros e w1 Hw1. apply runs_ret.
  simpl replicate. cbn [concat]. rewrite (assoc_L app). by apply IH.
Qed.

Lemma fill_default_run fd p r f D v g L w : default_of f = Some D -> ready (grows fd p r [] v) g L w -> open_fds v !! fd = None ->
  runs (fill_default fd f) w (fun ok w' => ok = true /\ ready (put_file p D v) g L w').
Proof.
  intros HD Hw Hfd. unfold fill_default, default_of in *.
  assert (forall c, D = replicate (Z.to_nat (rec_bytes f)) c ->
    runs (databuf ← pmalloc (u32 (rec_bytes f));
      if databuf =? 0 then quit [] [fd] false
      else _ ← psys (Sys_write fd (replicate (Z.to_nat (rec_bytes f)) c)); quit [databuf] [fd] true) w
    (fun ok w' => ok = true /\ ready (put_file p D v) g L w')) as Hfill.
  { intros c ->. apply runs_bind. eapply run_malloc; [exact Hw|]. intros b w1 Hb HbL Hw1. destruct (Z.eqb_spec b 0); [lia|].
    apply runs_bind. eapply run_grow; [exact Hw1|]. intros e w2 Hw2. unfold quit. cbn [foldr].
    apply runs_bind. eapply run_free; [exact Hw2|done|]. intros w3 Hw3. apply runs_bind. eapply run_grown; [exact Hw3|done|].
    intros r4 w4 Hw4. by apply runs_ret. }
  destruct (stDefualType f).
  - destruct (pDefualtVaule f) as [d|] eqn:Ed; [|done]. simpl in HD. destruct (mread d 0 _) as [b|] eqn:Eb; [|done]. simpl in HD.
    destruct (i4RecNum f <? 2); [done|]. injection HD as <-.
    apply runs_bind. eapply runs_mono; [by eapply (write_default_run _ _ _ _ _ _ _ _ _ Ed Eb _ [])|]. intros _u w1 Hw1.
    unfold quit. cbn [foldr]. apply runs_bind. eapply run_grown; [exact Hw1|done|]. intros r2 w2 Hw2. by apply runs_ret.
  - destruct (pDefualtVaule f) as [d|] eqn:Ed; [|done]. simpl in HD.
    apply runs_bind. eapply runs_mono; [by eapply (write_default_run _ _ _ _ _ _ _ _ _ Ed HD 1 [])|]. intros _u w1 Hw1.
    unfold quit. cbn [foldr]. apply runs_bind. eapply run_grown; [exact Hw1|done|]. intros r2 w2 Hw2. apply runs_ret. simpl in Hw2. by rewrite app_nil_r in Hw2.
  - injection HD as <-. by apply Hfill.
  - injection HD as <-. by apply Hfill.
Qed.
End Default.
