(* ===== verification/NvDemo.v ===== *)
(** * libnvram: the theorems at work

    A platform with an EVDO modem and a small NVRAM: two files of the AP and two
    of the modem, backed up and restored on the in-memory file system.  The
    hypotheses of the theorems are evaluated here. *)
From S2P Require Import Prelude Posix MemFs FileStore NvTypes NvFiles NvArchive NvSum NvSpec NvBackup NvPaths NvRestore NvIntegrity NvJournal NvVersion NvLog NvRegion NvCopy NvPrepare NvRoundTrip NvPartition.

#[local] Existing Instance RoomyOS.

#[local] Instance demo_platform : NvPlatform := {|
  nvram_md5_support := false; nvram_evdo_support := true; nvram_ecci_c2k_support := false;
  nvram_platform_header_offset := 0; g_i4CFG_File_Count := 40; g_i4CFG_File_Custom_Count := 12;
  aBackupToBinRegion := [(lit "WIFI", 40)]; aPerformance := [];
  g_NVRAM_BACKUP_DEVICE := lit "/dev/block/nvram";
  AID_SYSTEM := 1000; AID_AUDIO := 1005; AID_BLUETOOTH := 1002
|}.

Definition demo_junk (n : Z) : list Z := replicate (Z.to_nat n) 170.

Lemma demo_unmoved : nvram_platform_header_offset = 0.
Proof. reflexivity. Qed.

Lemma demo_junk_size : zlen (demo_junk MAX_NAMESIZE) = MAX_NAMESIZE.
Proof. by vm_compute. Qed.

(** The directories above the NVRAM, and those of three kinds. *)
Definition demo_dirs : list (list Z * node) :=
  (fun d => (d, NDir)) <$> [[]; lit "/mnt"; lit "/mnt/vendor"; nvdata].

Definition demo_nodes : list (list Z * node) := demo_dirs ++
  [(lit "/mnt/vendor/nvdata/APCFG", NDir); (kind_dir APBOOT, NDir);
   (child (kind_dir APBOOT) (lit "WIFI"), NFile 432 [1; 2; 3; 4; 5]);
   (child (kind_dir APBOOT) (lit "BT_Addr"), NFile 432 [6; 7]);
   (kind_dir MDIMP, NDir); (child (kind_dir MDIMP) (lit "MP0D_000"), NFile 432 (replicate 10 9));
   (kind_dir VIA, NDir); (child (kind_dir VIA) (lit "FILE_VER"), NFile 432 [42])].

Definition demo_fs (ns : list (list Z * node)) : memfs := set_next 101 (set_nodes ns memfs_empty).

Definition demo_world (ns : list (list Z * node)) : world nvram := World (demo_fs ns) [] ∅ 1 static_nvram.

Definition demo_store (ns : list (list Z * node)) : store := mem_view (demo_fs ns).

Lemma demo_ready ns : ready (demo_store ns) static_nvram [] (demo_world ns).
Proof. by constructor. Qed.

(** A decidable hypothesis is evaluated. *)
Ltac decided := apply (bool_decide_unpack _); vm_compute; exact I.

#[local] Instance is_name_dec n : Decision (is_name n).
Proof. unfold is_name. apply _. Defined.

#[local] Instance name_ok_dec v t n : Decision (name_ok v t n).
Proof. unfold name_ok. apply _. Defined.

Lemma demo_all_kinds (P : MetaData -> Prop) `{!forall t, Decision (P t)} :
  bool_decide (Forall P kinds) = true -> forall t, t ∈ kinds -> P t.
Proof. intros HP. apply Forall_forall. by apply bool_decide_eq_true in HP. Qed.

Lemma demo_can : can_backup 10 false default_mask (demo_store demo_nodes).
Proof.
  constructor; [done|..|decided].
  all: refine (@demo_all_kinds _ _ _); by vm_compute.
Qed.

Lemma demo_place : archive_place (demo_store demo_nodes).
Proof. split_and!; [by eexists|done|done]. Qed.

(** ** An archive of one file *)

Definition demo_path : list Z := child (kind_dir APBOOT) (lit "WIFI").

Definition demo_entries (t : MetaData) : list entry :=
  match t with APBOOT => [(demo_path, [1; 2; 3; 4; 5])] | _ => [] end.

Definition demo_header : list Z :=
  set_num header_layout APBOOT 1 (replicate (Z.to_nat (sizeof_header header_layout)) 0).

Definition demo_name : list Z := demo_path ++ replicate (128 - length demo_path) 0.

Definition demo_map : list Z :=
  le32 (Z.lxor (checksum [1; 2; 3; 4; 5]) 5) ++ le32 40 ++ le32 12 ++
  take (Z.to_nat header_written) demo_header ++ title_bytes 0 5 demo_name.

Lemma demo_archive : is_archive demo_entries 40 12 demo_map [1; 2; 3; 4; 5].
Proof.
  constructor; [done|]. exists demo_header, (title_bytes 0 5 demo_name). split_and!; [by vm_compute..| |].
  - refine (@demo_all_kinds _ _ _). by vm_compute.
  - rewrite <- (app_nil_r (title_bytes 0 5 demo_name)).
    apply (titled_cons 0 demo_path [1; 2; 3; 4; 5] [] demo_name []); [by vm_compute..|constructor].
Qed.

(** The NVRAM directory with the map and the contents [data]. *)
Definition demo_archived (data : list Z) : list (list Z * node) :=
  demo_dirs ++ [(g_pcNVM_AllMap, NFile 432 demo_map); (g_pcNVM_AllFile, NFile 432 data); (g_pcNVM_AllFile_Check, NFile 432 data)].

(** The names of a path. *)
Fixpoint names_of (p : list Z) : list (list Z) :=
  match p with
  | [] => []
  | c :: p' =>
      if c =? chr_slash then [] :: names_of p'
      else match names_of p' with n :: ns => (c :: n) :: ns | [] => [[c]] end
  end.

(** What makes a path creatable, decided. *)
Definition creatable_check (v : store) (p : list Z) : bool :=
  bool_decide (Forall is_name (tail (names_of p)) /\ p = steps (tail (names_of p)) /\ tail (names_of p) <> []) &&
  bool_decide (zlen p < PATH_MAX /\ is_Some (dirs v !! []) /\ dirs v !! p = None) &&
  bool_decide (map_Forall (fun q (_ : list Z) => ~ on_way q p) (files v)).

Lemma creatable_checked v p : creatable_check v p = true -> creatable v p.
Proof.
  unfold creatable_check. rewrite !andb_true_iff, !bool_decide_eq_true. intros [[(H1 & H2 & H3) (H4 & H5 & H6)] H7].
  constructor; try done. destruct (exists_last H3) as (cs & c & E). exists cs, c. by rewrite <- E.
Qed.

Lemma restorable_checked v es : forallb (fun e => creatable_check v e.1) es = true ->
  bool_decide (Forall (fun e => find_prefix e.1 0 legacy_nvram_path_prefix = -1) es) = true ->
  bool_decide (Forall (fun e => e.1 <> g_pcNVM_AllFile /\ e.1 <> g_pcNVM_AllMap) es) = true ->
  bool_decide (Forall (fun e => e.2 <> []) es) = true ->
  bool_decide (Forall (fun e => Forall (fun e' => ~ on_way e.1 e'.1) es) es) = true -> restorable v es.
Proof.
  rewrite !bool_decide_eq_true. intros H1 H2 H3 H4 H5. constructor; try done.
  apply Forall_forall. intros e He.
  rewrite forallb_forall in H1. apply creatable_checked, H1. by apply list_elem_of_In.
Qed.

(** ** The witnesses *)

Lemma backup_archives_witness : exists w' ns M,
  FileOp_BackupDataToFiles demo_junk 10 (Some default_mask) false (demo_world demo_nodes) = (w', Ok true) /\
  is_archive (kind_entries false default_mask (demo_store demo_nodes)) 40 12 M
    [1; 2; 3; 4; 5; 6; 7; 9; 9; 9; 9; 9; 9; 9; 9; 9; 9; 42] /\
  ready (arch M [1; 2; 3; 4; 5; 6; 7; 9; 9; 9; 9; 9; 9; 9; 9; 9; 9; 42] (put_dir nvdata ns (demo_store demo_nodes)))
    static_nvram [] w'.
Proof.
  exact (backup_archives demo_junk 10 demo_unmoved demo_junk_size false default_mask (demo_store demo_nodes) demo_can
    static_nvram [] (demo_world demo_nodes) demo_place eq_refl (demo_ready _)).
Defined.

Lemma nvram_roundtrip_witness :
  restorable (demo_store demo_dirs) (backup_entries (demo_store demo_nodes)) /\
  exists w1 v1 b, FileOp_BackupAll_NvRam demo_junk 10 (demo_world demo_nodes) = (w1, Ok b) /\ ready v1 static_nvram [] w1 /\
    forall v2 g2 L2 w2, files v2 !! g_pcNVM_AllMap = files v1 !! g_pcNVM_AllMap ->
      files v2 !! g_pcNVM_AllFile = files v1 !! g_pcNVM_AllFile ->
      restorable v2 (backup_entries (demo_store demo_nodes)) ->
      legacy_path_index g2 = -1 -> ready v2 g2 L2 w2 ->
      exists w3 v3 g3, FileOp_RestoreData_All w2 = (w3, Ok true) /\ ready v3 g3 L2 w3 /\
        forall p, files v3 !! p = if decide (p ∈ (backup_entries (demo_store demo_nodes)).*1)
          then files (demo_store demo_nodes) !! p else files v2 !! p.
Proof.
  split; [apply restorable_checked; by vm_compute|].
  apply (nvram_roundtrip demo_unmoved demo_junk 10 demo_junk_size (demo_store demo_nodes) static_nvram [] (demo_world demo_nodes));
    [exact demo_can|exact demo_place|reflexivity|by vm_compute|apply demo_ready].
Defined.

Lemma restore_archive_witness : exists w' v' g',
  FileOp_RestoreAll_NvRam (fun c1 c2 => mret (c1 =? c2)) (demo_world (demo_archived [1; 2; 3; 4; 5]))
    = (mret (u32 40 =? u32 12) : prog nvram bool) w' /\
  ready v' g' [] w' /\
  grown (on_ways (restored_entries demo_entries))
    (put_files (restored_entries demo_entries) (demo_store (demo_archived [1; 2; 3; 4; 5]))) v'.
Proof.
  apply (restore_archive demo_unmoved (fun c1 c2 => mret (c1 =? c2)) demo_entries 40 12 demo_map [1; 2; 3; 4; 5]
    (demo_store (demo_archived [1; 2; 3; 4; 5])) static_nvram [] (demo_world (demo_archived [1; 2; 3; 4; 5]))); [exact demo_archive| |reflexivity| |reflexivity|apply demo_ready].
  - refine (@demo_all_kinds _ _ _). by vm_compute.
  - constructor; [by vm_compute..|]. apply restorable_checked; by vm_compute.
Defined.

Lemma corrupt_archive_refused_witness : exists w' g',
  FileOp_RestoreData_All (demo_world (demo_archived [1; 2; 3; 7; 5])) = (w', Ok false) /\
  ready (demo_store (demo_archived [1; 2; 3; 7; 5])) g' [] w'.
Proof.
  apply (corrupt_archive_refused demo_entries 40 12 demo_map [1; 2; 3] 4 7 [5]
    (demo_store (demo_archived [1; 2; 3; 7; 5])) static_nvram []);
    [exact demo_archive|done|decided|done|reflexivity|by vm_compute|by vm_compute|apply demo_ready].
Defined.

Lemma checksums_agree_witness : exists w1 w2,
  FileOp_ComputeCheckSum (demo_world (demo_archived [1; 2; 3; 4; 5])) = (w1, Ok (checksum [1; 2; 3; 4; 5])) /\
  ready (demo_store (demo_archived [1; 2; 3; 4; 5])) static_nvram [] w1 /\
  FileOp_ComputeReadBackCheckSum (demo_world (demo_archived [1; 2; 3; 4; 5])) = (w2, Ok (checksum [1; 2; 3; 4; 5])) /\
  ready (demo_store (demo_archived [1; 2; 3; 4; 5])) static_nvram [] w2.
Proof.
  apply (checksums_agree [1; 2; 3; 4; 5] (demo_store (demo_archived [1; 2; 3; 4; 5])) static_nvram []);
    [by vm_compute|by vm_compute|reflexivity|apply demo_ready].
Defined.

(** ** The backup partition

    A device of nine blocks: five for the backup, one for DM, one in reserve, and
    two for the logs. *)

#[local] Instance demo_device : NvDevice := {|
  nvram_gpt_flag := true; nvram_emmc_support := true; nvram_ufs_support := false;
  g_LOG_DEVICE := lit "/dev/block/nvram"; g_MISC_DEVICE := lit "/dev/block/nvram"; nvram_misc_log_block_offset := 2;
  nvram_platform_log_block := 2; nvram_platform_resv_block := 1; nvram_platform_DM_block := 1;
  nvram_platform_layout_version := 0
|}.

Definition demo_version : TCFG_FILE := Cfg (child (kind_dir APCLN) (lit "FILE_VER")) (lit "000") 0 0 DEFAULT_ZERO None 0 None.

#[local] Instance demo_tables : NvTables := {|
  g_akCFG_File := demo_version :: replicate 39 (Cfg (lit "/mnt/vendor/nvdata/APCFG/APRDEB/BT_Addr") (lit "001") 6 1 DEFAULT_FF None 1 None);
  g_akCFG_File_Custom := replicate 12 (Cfg (child (kind_dir APBOOT) (lit "WIFI")) (lit "002") 4 1 SIGNLE_DEFUALT_REC (Some (lit "wifi")) 1 None);
  iCustomBeginLID := 40; iFileVerInfoLID := 0
|}.

#[local] Instance demo_lib : NvLib := {|
  nvram_misc_log_feature := true; nvram_check_exist_feature := false; nvram_read_back_feature := true;
  nvram_check_exist_block_offset := 1; aCheckExistList := []
|}.

Lemma demo_tables_ok : tables_ok.
Proof. by constructor. Qed.

Lemma demo_no_marks : nvram_check_exist_feature = false.
Proof. done. Qed.

Definition demo_info : mtd_info := Mtd (9 * (128 * 1024)) (128 * 1024) 512.

#[local] Instance demo_geometry : Geometry demo_info.
Proof. by apply gpt_geometry. Qed.

Lemma demo_layout : region_layout demo_info.
Proof. constructor; by vm_compute. Qed.

Lemma demo_layout0 : nvram_platform_layout_version = 0.
Proof. done. Qed.

Lemma demo_flash : is_nand = false.
Proof. done. Qed.

Lemma demo_page : sizeof_journal <= writesize demo_info <= erasesize demo_info.
Proof. by vm_compute. Qed.

Lemma demo_two : 2 <= nvram_platform_log_block.
Proof. by vm_compute. Qed.

Lemma demo_log : nvram_platform_log_block * erasesize demo_info <= info_size demo_info.
Proof. by vm_compute. Qed.

Lemma demo_small : info_size demo_info < 2 ^ 31.
Proof. by vm_compute. Qed.

Lemma demo_same_log : g_LOG_DEVICE = g_NVRAM_BACKUP_DEVICE.
Proof. done. Qed.

Lemma demo_same_misc : g_MISC_DEVICE = g_NVRAM_BACKUP_DEVICE.
Proof. done. Qed.

Lemma demo_misc : 2 <= nvram_misc_log_block_offset <= nvram_platform_log_block.
Proof. by vm_compute. Qed.

#[local] Instance demo_logs : SparingLog demo_info.
Proof. by apply (logs_spare demo_info). Qed.

(** A device of that size, and the store with it. *)
Definition demo_disk (c : Z) : list Z := replicate (Z.to_nat (info_size demo_info)) c.

Lemma demo_region_size c : zlen (demo_disk c) = info_size demo_info.
Proof. unfold demo_disk, zlen. rewrite length_replicate. apply Z2Nat.id. by vm_compute. Qed.

Abbreviation demo_dev := (lit "/dev/block/nvram").

Definition demo_part : list (list Z * node) := demo_nodes ++
  [(kind_dir APCLN, NDir); (cFileName demo_version, NFile 436 [1; 2; 3]); (kind_dir MDCOR, NDir);
   (child (kind_dir MDCOR) FILELIST, NFile 432 [7]); (child (kind_dir MDCOR) (lit "CORE"), NFile 432 [8; 9]);
   (demo_dev, NFile 432 [])].

Definition demo_disk_nodes (D : list Z) (ns : list (list Z * node)) : list (list Z * node) :=
  put_node demo_dev (NFile 432 D) ns.

Lemma demo_disk_store D ns : assoc demo_dev ns = Some (NFile 432 []) ->
  demo_store (demo_disk_nodes D ns) = put_file demo_dev D (demo_store ns).
Proof. intros Hn. apply (view_put_node (demo_fs ns) demo_dev 432 432 []). exact Hn. Qed.

Lemma demo_disk_ready D ns : assoc demo_dev ns = Some (NFile 432 []) ->
  ready (put_file demo_dev D (demo_store ns)) static_nvram [] (demo_world (demo_disk_nodes D ns)).
Proof. intros Hn. rewrite <- demo_disk_store by done. apply demo_ready. Qed.

Lemma demo_dev_node : assoc demo_dev demo_part = Some (NFile 432 []).
Proof. by vm_compute. Qed.

(** A path that is in no directory of a kind. *)
Lemma demo_elsewhere : elsewhere demo_dev.
Proof.
  intros t n Ht E. apply (f_equal (take 5)) in E. unfold child in E. rewrite take_app_le in E.
  - by destruct t.
  - pose proof (not_all t Ht). by destruct t; try done; vm_compute; lia.
Qed.

(** Where the archive and the copies for the check are made, decided. *)
Lemma demo_places v : bool_decide (is_Some (dirs v !! nvdata) /\
    Forall (fun p => dirs v !! p = None) [g_pcNVM_AllMap; g_pcNVM_AllFile; g_pcNVM_AllFile_Check; g_pcNVM_AllMap_Check]) = true ->
  archive_place v /\ dirs v !! g_pcNVM_AllFile_Check = None /\ dirs v !! g_pcNVM_AllMap_Check = None.
Proof. rewrite bool_decide_eq_true, !Forall_cons. unfold archive_place. tauto. Qed.

Lemma demo_partition D v : zlen D = info_size demo_info -> partition demo_info (put_file demo_dev D v) D.
Proof.
  intros Hl. constructor; [by rewrite files_put_file, decide_True|exact Hl|exact demo_elsewhere|].
  by apply (bool_decide_unpack _); vm_compute.
Qed.

(** The preparation beside the device. *)
Lemma listed_put p d v : Forall (fun dir => child dir FILELIST <> p) listed_dirs -> listed (put_file p d v) = put_file p d (listed v).
Proof.
  unfold listed. intros Hp. revert v. induction Hp as [|dir ds Hd _ IH]; intros v; [done|]. cbn [foldl]. rewrite <- IH. f_equal.
  unfold listed_dir. rewrite dirs_put_file. destruct (dirs v !! dir); [|done]. store_eq.
Qed.

Lemma generated_put p d v : cFileName demo_version <> p -> generated (put_file p d v) = put_file p d (generated v).
Proof.
  intros Hp. unfold generated. change g_akCFG_File with (demo_version :: tail g_akCFG_File). cbv iota beta.
  rewrite files_put_file, decide_False by done. destruct (files v !! _); [|done]. store_eq.
Qed.

Lemma demo_prepared D v : prepared (put_file demo_dev D v) = put_file demo_dev D (prepared v).
Proof.
  unfold prepared. rewrite listed_put, generated_put; [done|done|]. by apply (bool_decide_unpack _); vm_compute.
Qed.

Abbreviation demo_before := (put_file demo_dev (demo_disk 0) (demo_store demo_part)).
Abbreviation demo_taken := (all_entries (kind_entries true default_mask (prepared demo_before))).

(** A backup of a store and a device beside. *)
Lemma demo_region v D : zlen D = info_size demo_info -> can_backup 10 true default_mask v ->
  archive_place v /\ dirs v !! g_pcNVM_AllFile_Check = None /\ dirs v !! g_pcNVM_AllMap_Check = None ->
  fits demo_info (map_size (all_entries (kind_entries true default_mask v))) (zlen (contents (all_entries (kind_entries true default_mask v)))) ->
  region_backup 10 demo_info (put_file demo_dev D v) D.
Proof.
  intros Hl Hc [Hp Hk] Hf. constructor; [by apply demo_partition|by apply can_backup_file; [exact demo_elsewhere|]|exact Hp|by intros _|].
  rewrite all_entries_file by exact demo_elsewhere. exact Hf.
Qed.

Lemma demo_region_before : region_backup 10 demo_info (prepared demo_before) (demo_disk 0).
Proof.
  rewrite demo_prepared. apply demo_region; [apply demo_region_size| |apply demo_places; by vm_compute|constructor; by vm_compute].
  constructor; [done|..|decided]. all: refine (@demo_all_kinds _ _ _); by vm_compute.
Qed.

Lemma demo_full : forallb (kind_full true default_mask (prepared demo_before)) kinds = true.
Proof. rewrite demo_prepared, all_full_file by exact demo_elsewhere. by vm_compute. Qed.

Lemma demo_has_version : has_version (listed demo_before).
Proof.
  rewrite listed_put by (apply (bool_decide_unpack _); by vm_compute). unfold has_version.
  change g_akCFG_File with (demo_version :: tail g_akCFG_File). cbv iota beta.
  rewrite files_put_file, decide_False by done. decided.
Qed.

(** A directory with a list, decided. *)
Definition listable_check (v : store) (d : list Z) : bool :=
  match dirs v !! d with
  | None => true
  | Some ns => bool_decide (length ns < 10)%nat && match files v !! child d FILELIST with Some _ => true | None => false end
  end.

Lemma listable_checked v p D : Forall (fun dir => child dir FILELIST <> p) listed_dirs -> forallb (listable_check v) listed_dirs = true ->
  Forall (fun d => listable 10 d (put_file p D v)) listed_dirs.
Proof.
  rewrite forallb_forall, !Forall_forall. intros Hp Hc d Hd. specialize (Hp d Hd). apply list_elem_of_In, Hc in Hd. unfold listable_check in Hd.
  unfold listable. rewrite dirs_put_file, files_put_file, decide_False by done. destruct (dirs v !! d) as [ns|]; [right|by left].
  apply andb_true_iff in Hd as [Hn Hf]. apply bool_decide_eq_true in Hn. destruct (files v !! _) as [data|]; [|done]. by exists ns, data.
Qed.

Lemma demo_listable : Forall (fun d => listable 10 d demo_before) listed_dirs.
Proof. apply listable_checked; [apply (bool_decide_unpack _)|]; by vm_compute. Qed.

Lemma region_roundtrip_witness :
  (restorable (put_file demo_dev (demo_disk 0) (demo_store demo_dirs)) demo_taken /\
   partition demo_info (put_file demo_dev (demo_disk 0) (demo_store demo_dirs)) (demo_disk 0)) /\
  exists w1 v1 g1 D1, FileOp_BackupToBinRegion_All demo_junk 10 (demo_world (demo_disk_nodes (demo_disk 0) demo_part)) = (w1, Ok true) /\
    ready v1 g1 [] w1 /\ files v1 !! demo_dev = Some D1 /\
    forall v2 g2 L2 w2 D2, same_region demo_info D1 D2 -> partition demo_info v2 D2 -> archive_place v2 ->
      restorable v2 demo_taken -> legacy_path_index g2 = -1 -> ready v2 g2 L2 w2 ->
      exists w3 v3 g3, FileOp_RestoreFromBinRegion demo_junk true w2 = (w3, Ok true) /\ ready v3 g3 L2 w3 /\
        forall p, p <> g_pcNVM_AllFile -> p <> g_pcNVM_AllMap ->
          files v3 !! p = if decide (p ∈ demo_taken.*1) then files (prepared demo_before) !! p else files v2 !! p.
Proof.
  split.
  - split; [|apply demo_partition, demo_region_size].
    rewrite demo_prepared, all_entries_file by exact demo_elsewhere.
    assert (restorable (demo_store demo_dirs) (all_entries (kind_entries true default_mask (prepared (demo_store demo_part)))))
      as [R1 R2 R3 R4 R5] by (apply restorable_checked; by vm_compute).
    constructor; try done. eapply Forall_impl; [apply Forall_and; split; [exact R1|]|].
    2:{ intros e [[C1 C2 C3 C4 C5] Hn]. constructor; [done..| |done]. by apply map_Forall_insert_2; [exact Hn|]. }
    decided.
  - apply (region_roundtrip demo_junk 10 demo_unmoved demo_junk_size demo_tables_ok demo_no_marks demo_info demo_layout
      demo_before static_nvram [] (demo_world (demo_disk_nodes (demo_disk 0) demo_part)) (demo_disk 0));
      [exact demo_listable|exact demo_has_version|exact demo_region_before|exact demo_full|reflexivity|apply demo_disk_ready, demo_dev_node].
Defined.

Lemma region_confined_witness : let full := forallb (kind_full true default_mask (prepared demo_before)) kinds in
  exists w1 v1 g1 D1, FileOp_BackupToBinRegion_All demo_junk 10 (demo_world (demo_disk_nodes (demo_disk 0) demo_part)) = (w1, Ok full) /\
    ready v1 g1 [] w1 /\ (demo_dev ∉ rewritten -> files demo_before !! demo_dev = Some (demo_disk 0)) /\
    files v1 !! demo_dev = Some D1 /\ zlen D1 = zlen (demo_disk 0) /\
    (full = false -> same_region demo_info (demo_disk 0) D1) /\
    (forall a n, region_size demo_info * erasesize demo_info <= a -> 0 <= n -> a + n <= log_start demo_info ->
      read_at D1 a n = read_at (demo_disk 0) a n) /\
    (forall p, p ∉ outputs -> files v1 !! p = files (prepared demo_before) !! p) /\
    (forall p, p ∉ outputs -> p ∉ rewritten -> files v1 !! p = files demo_before !! p) /\
    open_fds v1 = open_fds demo_before /\ dir_streams v1 = dir_streams demo_before.
Proof.
  apply (region_confined demo_junk 10 demo_unmoved demo_junk_size demo_tables_ok demo_no_marks demo_info demo_layout
    demo_before static_nvram [] (demo_world (demo_disk_nodes (demo_disk 0) demo_part)) (demo_disk 0));
    [exact demo_listable|exact demo_has_version|exact demo_region_before|reflexivity|apply demo_disk_ready, demo_dev_node].
Defined.

Lemma demo_disk_world D : zlen D = info_size demo_info ->
  ready (put_file demo_dev D (demo_store demo_part)) static_nvram [] (demo_world (demo_disk_nodes D demo_part)) /\
  files (put_file demo_dev D (demo_store demo_part)) !! demo_dev = Some D.
Proof. split; [apply demo_disk_ready, demo_dev_node|by rewrite files_put_file, decide_True]. Qed.

Lemma log_confined_witness : exists w' D',
  NVM_HistoryLog 1 (lit "main") 7 (lit "text") (demo_world (demo_disk_nodes (demo_disk 3) demo_part)) = (w', Ok true) /\
  same_before_log demo_info (demo_disk 3) D' /\
  ready (put_file demo_dev D' (put_file demo_dev (demo_disk 3) (demo_store demo_part))) static_nvram [] w'.
Proof.
  destruct (demo_disk_world (demo_disk 3) (demo_region_size 3)) as [Hr Hd].
  apply (log_confined demo_info demo_layout0 demo_flash demo_page demo_two demo_log demo_small demo_same_log 1 (lit "main") 7 (lit "text")
    (put_file demo_dev (demo_disk 3) (demo_store demo_part)) static_nvram [] _ (demo_disk 3)); [exact Hr|exact Hd|apply demo_region_size].
Defined.

(** The misc log has come to the last page of its block. *)
Definition demo_misc_page : list Z :=
  le32 NVRAM_MISC_JOURNAL_MAGIC ++ le32 NVRAM_JOURNAL_SUPER_PAGE ++ le32 255 ++ replicate 500 0.

Definition demo_misc_disk : list Z := write_at (demo_disk 0) (misc_start demo_info) demo_misc_page.

Lemma demo_misc_size : zlen demo_misc_disk = info_size demo_info.
Proof. unfold demo_misc_disk. rewrite zlen_write_at; rewrite ?demo_region_size; by vm_compute. Qed.

Lemma demo_misc_number :
  super_number NVRAM_MISC_JOURNAL_MAGIC (read_at demo_misc_disk (misc_start demo_info) (writesize demo_info)) = 255.
Proof.
  unfold demo_misc_disk. rewrite read_written_start; rewrite ?demo_region_size; by vm_compute.
Qed.

Lemma misc_resets_history_witness : exists w1 w2,
  NVM_MiscLog 1 (lit "main") 7 (lit "text") (demo_world (demo_disk_nodes demo_misc_disk demo_part)) = (w1, Ok true) /\
  NVM_GetSequenceNum w1 = (w2, Ok 0).
Proof.
  destruct (demo_disk_world demo_misc_disk demo_misc_size) as [Hr Hd].
  apply (misc_resets_history demo_info demo_layout0 demo_flash demo_page demo_two demo_log demo_small demo_same_log demo_same_misc demo_misc
    1 (lit "main") 7 (lit "text") (put_file demo_dev demo_misc_disk (demo_store demo_part)) static_nvram [] _ demo_misc_disk);
    [done|done|exact Hr|exact Hd|exact demo_misc_size|]. rewrite demo_misc_number. by vm_compute.
Defined.

Lemma version_file_written_witness : exists w' D',
  NVM_GenerateFileVer true (demo_world demo_part) = (w', Ok true) /\
  ready (put_file (cFileName demo_version) D' (demo_store demo_part)) static_nvram [] w' /\
  D' = version_text demo_version ++ drop (length (version_text demo_version)) [1; 2; 3] /\
  (zlen D' = (FILENAMELENGTH + FILEVERLENGTH) * (g_i4CFG_File_Count + g_i4CFG_File_Custom_Count + 1) <->
   zlen [1; 2; 3] <= (FILENAMELENGTH + FILEVERLENGTH) * (g_i4CFG_File_Count + g_i4CFG_File_Custom_Count + 1)).
Proof.
  apply (version_file_written demo_version (tail g_akCFG_File) [1; 2; 3] (demo_store demo_part) static_nvram []);
    [exact demo_tables_ok|done|by vm_compute|apply demo_ready].
Defined.

Definition demo_fstab (mount : list Z) : option (list Z) :=
  if streq mount NVRAM_MNT_POINT then Some demo_dev
  else if streq mount MISC_MNT_POINT then Some (lit "/dev/block/misc") else None.

Definition demo_no_devices : devices := Devices [] [] [] [] [].

Lemma init_devices_witness : exists s',
  NVM_Init (Some demo_fstab) true false (Platform 2 1 1 0 0) None 40 12 (LibState 0 0 0 (Platform 0 0 0 0 0) demo_no_devices)
    = (s', i32 (40 + 12)) /\
  NVM_Init (Some demo_fstab) true false (Platform 2 1 1 0 0) None 40 12 s'
    = NVM_Init (Some demo_fstab) true false (Platform 2 1 1 0 0) None 40 12 (LibState 0 0 0 (Platform 0 0 0 0 0) demo_no_devices) /\
  d_BACKUP (devices_of s') = device_path demo_dev /\ d_LOG (devices_of s') = device_path demo_dev /\
  d_MISC (devices_of s') = device_path demo_dev /\
  (gpt_flag s' = 1 <-> strstr (device_path demo_dev) (lit "block") = true).
Proof.
  apply (init_devices (Some demo_fstab) true false (Platform 2 1 1 0 0) None 40 12
    (LibState 0 0 0 (Platform 0 0 0 0 0) demo_no_devices) demo_fstab demo_dev); done.
Defined.

(** A device that holds an archive. *)
Definition demo_bitmap_block : list Z :=
  bitmap_head demo_info ++ replicate (Z.to_nat (erasesize demo_info - (3 * region_size demo_info + 4))) 255.

Definition demo_map_pages : list Z :=
  let bytes := map_head demo_map [1; 2; 3; 4; 5] ++ demo_map in
  bytes ++ replicate (Z.to_nat (room demo_info (zlen demo_map) - zlen bytes)) 255.

Definition demo_contents_block : list Z := replicate (Z.to_nat (whole demo_info 5 - 5)) 255.

Definition demo_archive_disk : list Z :=
  write_at (write_at (write_at (demo_disk 0) 0 demo_map_pages)
    ((region_size demo_info - 1 - second_block demo_info (zlen demo_map)) * erasesize demo_info) demo_bitmap_block)
    ((second_block demo_info (zlen demo_map) + 1) * erasesize demo_info) ([1; 2; 3; 4; 5] ++ demo_contents_block).

Lemma demo_fits : fits demo_info (zlen demo_map) (zlen [1; 2; 3; 4; 5]).
Proof. constructor; by vm_compute. Qed.

Lemma zlen_replicate n (c : Z) : 0 <= n -> zlen (replicate (Z.to_nat n) c) = n.
Proof. intros. unfold zlen. rewrite length_replicate. lia. Qed.

Lemma demo_stored : stored demo_info demo_map [1; 2; 3; 4; 5] (demo_disk 0) demo_archive_disk.
Proof.
  apply (stored_writes demo_info demo_layout); [exact demo_fits|apply demo_region_size|by vm_compute|by vm_compute|..].
  - unfold demo_bitmap_block. rewrite zlen_app, zlen_replicate, (zlen_bitmap_head demo_info demo_layout) by by vm_compute. by vm_compute.
  - unfold demo_bitmap_block. rewrite read_at_app_l; [by vm_compute|].
    rewrite (zlen_bitmap_head demo_info demo_layout). by vm_compute.
  - unfold demo_contents_block. rewrite zlen_app, zlen_replicate by by vm_compute. by vm_compute.
Qed.

Abbreviation demo_now := (put_file demo_dev demo_archive_disk (demo_store demo_part)).
Abbreviation demo_now_entries := (kind_entries true default_mask demo_now).

Lemma sync_answers_witness : exists w' v' g',
  FileOp_IsSyncWithBinRegion demo_junk 10 (demo_world (demo_disk_nodes demo_archive_disk demo_part)) =
    (w', Ok (forallb (kind_full true default_mask demo_now) kinds &&
             (archive_sum (contents (all_entries demo_now_entries)) =? archive_sum [1; 2; 3; 4; 5]))) /\
  ready v' g' [] w' /\ forall p, p ∉ outputs -> files v' !! p = files demo_now !! p.
Proof.
  pose proof demo_stored as (Hh & Hs & _). assert (zlen demo_archive_disk = info_size demo_info) as Hl by (rewrite Hs; apply demo_region_size).
  apply (sync_answers demo_junk 10 demo_unmoved demo_junk_size demo_tables_ok demo_info demo_layout demo_now demo_archive_disk
    demo_entries 40 12 demo_map [1; 2; 3; 4; 5] static_nvram []);
    [|exact demo_archive|exact Hh|exact demo_fits|reflexivity|apply demo_disk_ready, demo_dev_node].
  apply demo_region; [exact Hl| |apply demo_places; by vm_compute|constructor; by vm_compute].
  constructor; [done|..|decided]. all: refine (@demo_all_kinds _ _ _); by vm_compute.
Defined.
